(* ===== verification/_CoqProject ===== *)
-Q . S2P
Prelude.v
PyText.v
Sha256.v
Float64.v
Errors.v
PyVal.v
Json.v
JsonFacts.v
JsonIndent.v
Metadata.v
MetadataFacts.v
MetadataStore.v
MetadataStoreFacts.v
Migration.v
MetadataStoreSpec.v
Metrics.v
Runtime.v
MemoryTier.v
MemoryTierFacts.v
MemoryTierSpec.v
CostModel.v
CostModelSpec.v
BlockHash.v
Tokenization.v
Regex.v
Layout.v
Record.v
Url.v
UrlFacts.v
FileSystem.v
FileSystemFacts.v
Clean.v
World.v
WorldFacts.v
NvmeTier.v
NvmeTierFacts.v
NvmeWriteFacts.v
NvmeLoadFacts.v
NvmeStoreFacts.v
NvmeCompaction.v
NvmeTierSpec.v
S3Client.v
PyConv.v
S3Fault.v
S3Tier.v
S3TierFacts.v
S3StoreFacts.v
S3TierSpec.v
Prefetch.v
TierManager.v
TierManagerFacts.v
Confined.v
TierInstances.v
ManagerRuns.v
TierManagerSpec.v
Stack.v
StackSpec.v
Eviction.v
DecisionLog.v
Config.v
ConfigSpec.v
Capacity.v
TierProfileImport.v
TierProfileSpec.v
Scripts.v
PrivacyAudit.v
Factory.v
FactorySpec.v
KvDemo.v
Logging.v
MetricsHttp.v
Csv.v
IoProfile.v
IoProfileSpec.v
RunMatrix.v
RunMatrixSpec.v
ProfileImportSpec.v
RunDemo.v
RunDemoSpec.v
