(* ===== verification/Prelude.v ===== *)
(** * A tiered store for key/value-cache blocks: the development

    The program under [src/kvstore/kvstore] keeps the KV-cache blocks of a
    language model in three tiers: process memory, local NVMe files and an S3
    object store.  Which block is where is recorded by a metadata store (SQLite);
    a manager looks blocks up through the tiers, asks a cost model whether loading
    beats recomputing, promotes and demotes copies, and prefetches in the
    background.  [factory.py] builds all of it from a configuration file.
    [src/shared/python] defines how prompts are cut into tokens and how blocks of
    tokens are named by a hash chain.  [src/io-profile/python] turns measurements
    of the local storage into the tier profiles the cost model imports.  This
    library is an executable model of those parts and the theorems about it.

    ** How the model is written

    - Effects.  [Errors] defines [res] (a value or an exception with its class,
      message, cause and cleanup error) and the state-and-exception monad [M].  An
      operation that raises keeps the state it had reached, as Python does;
      [try_catch], [try_finally] and [transaction] (rollback) are its handlers.
      [Runtime] gathers what a tier shares with its surroundings: the metadata
      store, the metrics registry and the two clocks.  A clock is an arbitrary
      stream of readings; nothing is assumed of it unless a theorem says so.
      [World] adds a device below a tier: the file system, or the object store.
    - Faults.  A call on the file system ([FileSystem]) that opens, writes, renames
      or removes fails when an oracle says so, a write after any prefix of its
      data; queries of names and sizes do not fail, and there are no symbolic
      links.  A call on the object store may fail at any time, with or without
      effect; otherwise it keeps the contract [s3_laws] of [S3Client].
    - Data.  Python values that reach JSON or SQL are [PyVal.pyval]; strings are
      lists of code points ([PyText]); bytes are lists of [Byte.byte];
      [float] is IEEE binary64 on SpecFloat ([Float64]); SQLite integers are
      64-bit and overflow as SQLite's arithmetic does; Python integers are [Z].
      The configuration parser mutates dictionaries that are shared, so it runs on
      a heap ([Config]).
    - SHA-256 is computed, not assumed ([Sha256]; its constants are derived from the
      roots of the first primes and test vectors are checked).  No theorem assumes
      that it has no collisions: where identity rests on a digest, the theorem
      says so or produces the collision.
    - Parameters.  What is neither in the repository nor in the language is an
      argument, mostly a class: the Unicode tables ([Url.UnicodeData],
      [PyConv.PyBuiltins], [Regex.CharTables]), the system, compiler and router of the
      demo ([RunDemo.Outside]), the JSON-schema validator
      ([TierProfileImport.JsonSchema]), boto3 ([Factory.Boto3]), the object-store
      client, the host's names and [df] ([IoProfile.Platform]), the benchmark
      binary ([RunMatrix]), random numbers and the names of temporary files.

    ** Files and what they model

    - [Prelude]: tactics, hint databases, and lemmas on lists, sorting and orders.
    - [PyText], [Sha256], [Float64], [PyVal], [PyConv], [Url], [Csv], [JsonIndent],
      [Regex], with [UrlFacts]: the parts of Python and its standard library the
      program uses ([checksum.py] is in [Sha256]).
    - [Json], [JsonFacts]: [json.dumps] in the formats the program uses and
      [json.loads], with the round trip between them.
    - [Errors]: [errors.py] and the effect monad.
    - [Metadata], [MetadataFacts]: [metadata.py], keys, metadata, locations,
      validation, dictionaries.
    - [MetadataStore], [MetadataStoreFacts], [MetadataStoreSpec]:
      [metadata_store.py].  The table [blocks] is a finite map from (key, tier) to
      rows; every public method is one definition made of its statements and
      transactions; the owner lock and the epoch are part of the machine, so that
      closing, crashing and reopening are steps.  [Migration]: [_init_schema] on a
      file of an earlier version.
    - [Metrics]: [metrics.py], counters, histograms and the exposition text;
      [MetricsHttp]: the handler and the server of [metrics_http.py].
    - [Runtime]: the shared environment, and [interface.py] as the class [Tier];
      [World], [WorldFacts]: what the two persistent tiers share (verifying,
      finishing and refreshing), and the map of payloads both refine.
    - [MemoryTier], [MemoryTierFacts], [MemoryTierSpec]: [memory_tier.py].
    - [FileSystem], [FileSystemFacts]: files, directories, paths.
    - [NvmeTier], [NvmeCompaction], with [NvmeTierFacts],
      [NvmeWriteFacts], [NvmeLoadFacts], [NvmeStoreFacts], [NvmeTierSpec]: [nvme_tier.py] in both layouts.
    - [S3Client], [S3Fault], [S3Tier], with [S3TierFacts],
      [S3StoreFacts], [S3TierSpec]:
      [s3_tier.py] and [s3_fault_injection.py].
    - [Layout], [Record]: [layout.py] and [record.py].
    - [CostModel], [CostModelSpec]: [cost_model.py] and [admission.py].
    - [BlockHash], [Tokenization]: [shared/python/blockhash.py] and
      [tokenization.py].
    - [Prefetch]: [prefetch.py], its critical sections as atomic functions and all
      their interleavings as the relation [pstep].
    - [TierManager], [TierManagerFacts], [TierManagerSpec]: [tier_manager.py]
      over any world with an environment and a pool ([Lab]) and any tiers.  The
      theorems use only the contract [TierLaws] of the tiers.  [Confined] and
      [TierInstances] discharge it for the three tiers, [ManagerRuns] states runs of
      calls, and [Stack], [StackSpec] put the manager on top of the three tiers
      over one memory, one disk and one object store.
    - [Config], [ConfigSpec]: reading a configuration
      ([factory.py]); [Factory], [FactorySpec]: building a store from
      it on the state of the host.
    - [TierProfileImport], [TierProfileSpec]: [tier_profile_import.py].
    - [Logging], [DecisionLog]: [logging.py] and [decision_log.py]; [Eviction],
      [Capacity]: [eviction.py] and [capacity_model.py].
    - [IoProfile], [IoProfileSpec]: [io_path_bench/tier_profile.py]
      and [report.py]; [RunMatrix], [RunMatrixSpec]: [run_matrix.py]; [ProfileImportSpec]: the schema
      [shared/schema/tier_profile.schema.json] and the importer on generated
      profiles.
    - [Scripts]: [scripts/check_links.py], [license_status.py] and
      [validate_tier_profiles.py]; [PrivacyAudit]: [privacy_audit.py], its rules
      matched by the expressions of [Regex]; [Clean]: [clean.py], with [shutil.rmtree].
    - [KvDemo]: [examples/local-demo/kv_demo.py].  [RunDemo], [RunDemoSpec]:
      [run_demo.py] on a state of sockets, server loops, processes and files, every
      call answered by a record of functions.

    ** What is proved

    - End to end ([StackSpec]).  Through every sequence of calls, prefetches,
      promotions, demotions, evictions and device failures the rows stay well
      formed, the tiers stay within their budgets, disk and object store hold the
      record of every visible block, a load returns only bytes that were stored
      under its key, and two tiers never disagree on a block.
    - Metadata store.  Every call refines an abstract machine of keys with pins
      and tombstones; a pinned block survives every call; rows stay well formed in
      every reachable database, restarts included; a tombstone stays through every call
      but [finish_delete]; an open store holds the owner lock, so that there is at most
      one live owner, and a new owner starts without pins; publication is readable, idempotent and refuses conflicting
      payload descriptors; opening a file of an earlier version keeps its rows;
      least-recently-used candidates are exactly the idle
      active rows in order.
    - Memory tier.  Bytes are accounted exactly and stay within the limit through
      every sequence of calls; what a load returns has the recorded digest; a
      stored block loads back; a corrupt block is reported, unpinned and removed;
      making room ends; a failed store adds nothing.
    - NVMe and S3 tiers.  Each refines the map of payloads whichever device calls
      fail; the disk and the objects hold the whole record of every published
      block; what was stored loads, unless the read fails; what loads has the recorded
      length and digest and agrees with the persisted metadata;
      an interrupted eviction is finished by the next one; response bodies are read
      alike in chunks of any sizes; a client with injected faults keeps the
      contract of the object store.
    - Records and layout.  A written record reads back; a torn or extended one is
      rejected; an accepted header agrees with its metadata; distinct keys have
      distinct paths, and paths stay below the root.
    - Manager and prefetch.  A load returns the block and leaves a copy in the
      target; lookups answer with the first tier that has the block; outages become
      the documented error; demotion copies before it evicts; shutting down runs or
      refuses every submitted prefetch; the prefetcher counts every request once
      under all interleavings.
    - Factory.  A configuration in the YAML subset reads back; lines without a colon
      are refused; a store that was built has exactly the tiers its configuration asks
      for, and the invariant of the stack holds through all its calls (on empty
      databases, with directory names that URIs keep); a build that fails releases the
      owner lock; imported profiles are traceable to an entry of a validated document,
      or are the built-in ones and say so.
    - Benchmark.  Merging CSV files keeps every row; every measurement is counted in
      one profile; a generated profile conforms to the schema, and the importer takes
      the percentile and the mean of its default engine's rows, or refuses the file when
      there are none; a run publishes whole files in order, and its profile carries the digest of the published measurements.
    - Cost model.  The decision is the best of the locations' decisions by an
      order stated apart from the sort; a load is decided only when it pays off
      within the budget.
    - The rest: the hash chain commits to the whole prefix; tokens cover the
      prompt; histograms count each observation; log lines read back and hide
      the namespace and, outside tuples, the forbidden fields; responses of the metrics endpoint carry
      the right status and length; the capacity report is exact; the audits of links
      and of the license are exact; the demo passes and removes what it made.
    - Scripts and demos.  Backtracking finds a match exactly when the expression denotes
      one, so the privacy audit is exact; cleaning removes generated files and nothing
      else; the router demo stops everything it started whichever calls fail, as
      long as threads start and killed processes die, and passes only on the answers its
      scenario asks for; the fake workers and the metrics server answer and close as they
      promise.

    ** Bounds

    Loops that are not structural take fuel, and each has a lemma that the fuel
    given is enough.  [MemoryTier.make_room] and the freeing of space in [NvmeTier]
    get one round more than there are rows, since every round but the last removes
    one; [Eviction.evict_rounds] one more than there are rows in the tier; reading a
    body in chunks, the number of bytes to read; the JSON scanner one more than the
    length of the text; the CSV reader one more than the number of lines; the value
    of a parsed configuration, the number of its dictionaries; temporary names are
    tried [TMP_MAX] times, as Python does; all matches of an expression, the length of
    the text; the rounds of the demo's readiness loop are a parameter, and more rounds
    than calls until the deadline make no difference; splitting text and bytes in chunks, their
    length.

    ** What is not modelled

    - Symbolic links; [~] in configured paths; hard crashes in the middle of a call
      (a call that fails keeps what it had written).
    - The threads around the handlers of the two HTTP servers (every request is a call
      of its own), and signals that interrupt Python between two statements; the
      argument parsers of the command lines; the order [sorted] gives to NaN; the chunks in which a CSV file is decoded (an input is decoded
      before its first row is read).
    - The engines in C++ and the router in Go: the demo's router is an arbitrary peer.
      What Unicode says of letters and digits outside ASCII is a parameter of [Regex].
    - Threads inside one call of a tier: the tiers hold a lock for the whole call,
      so a call is one step.  Only the prefetcher releases its lock on the way, and
      its sections are separate steps. *)

From Stdlib Require Export ZArith Lia.
From stdpp Require Export base tactics list gmap strings sorting.

(** ** Notations, in a scope of their own *)

Declare Scope kv_scope.
Delimit Scope kv_scope with kv.

Notation "'zlen' l" := (Z.of_nat (length l)) (at level 10, l at level 9) : kv_scope.

#[global] Open Scope Z_scope.
#[global] Open Scope kv_scope.

(** ** Tactics *)

(** Turns boolean tests of the code into the propositions they decide. *)
Create Rewrite HintDb kvbool.
#[export] Hint Rewrite
  andb_true_iff andb_false_iff orb_true_iff orb_false_iff
  negb_true_iff negb_false_iff
  Z.eqb_eq Z.eqb_neq Z.leb_le Z.leb_gt Z.ltb_lt Z.ltb_ge
  bool_decide_eq_true bool_decide_eq_false : kvbool.

Ltac breflect := repeat (autorewrite with kvbool in *; destruct_and?).

(** Case analysis on the innermost [match] or [if] of the goal or of a
    hypothesis, keeping the equation. *)
Ltac case_inner t :=
  match t with
  | context [match ?x with _ => _ end] => case_inner x
  | context [if ?x then _ else _] => case_inner x
  | _ => let E := fresh "E" in destruct t eqn:E
  end.

Ltac case_goal :=
  match goal with
  | |- context [match ?x with _ => _ end] => case_inner x
  end.

Ltac case_hyp H :=
  match type of H with
  | context [match ?x with _ => _ end] => case_inner x
  end.

(** The hint database of the components' frame and invariant lemmas. *)
Create HintDb kv.

(** ** Stable sorting, as Python's [sorted] and [list.sort] *)

Section PySort.
Context {A : Type} (leb : A -> A -> bool).

Fixpoint sort_insert (x : A) (l : list A) : list A :=
  match l with
  | [] => [x]
  | y :: l' => if leb x y then x :: l else y :: sort_insert x l'
  end.

(** Elements are inserted from the last one to the first, each before the
    elements it does not exceed: equal elements keep their order. *)
Definition py_sort (l : list A) : list A := foldr sort_insert [] l.

Lemma sort_insert_perm x l : sort_insert x l ≡ₚ x :: l.
Proof.
  induction l as [|y l IH]; simpl; [done|].
  destruct (leb x y); [done|]. rewrite IH. apply Permutation_swap.
Qed.

Lemma py_sort_perm l : py_sort l ≡ₚ l.
Proof. induction l as [|x l IH]; simpl; [done|]. by rewrite sort_insert_perm, IH. Qed.

Lemma py_sort_length l : length (py_sort l) = length l.
Proof. by rewrite py_sort_perm. Qed.

Lemma py_sort_elem x l : x ∈ py_sort l <-> x ∈ l.
Proof. by rewrite py_sort_perm. Qed.

Context (leb_total : forall x y, leb x y = true \/ leb y x = true).
Context (leb_trans : forall x y z, leb x y = true -> leb y z = true -> leb x z = true).

Local Abbreviation le := (fun x y => leb x y = true).

Lemma sort_insert_sorted x l :
  StronglySorted le l -> StronglySorted le (sort_insert x l).
Proof using leb_total leb_trans.
  induction 1 as [|y l Hs IH Hall]; simpl; [repeat constructor|].
  destruct (leb x y) eqn:E.
  - constructor; [by constructor|]. constructor; [done|].
    eapply Forall_impl; [exact Hall|]. simpl. eauto.
  - constructor; [done|]. rewrite sort_insert_perm. constructor; [|done].
    destruct (leb_total x y) as [?|?]; [congruence|done].
Qed.

Lemma py_sort_sorted l : StronglySorted le (py_sort l).
Proof using leb_total leb_trans.
  induction l; simpl; [constructor|]. by apply sort_insert_sorted.
Qed.

Lemma py_sort_head_min x l y :
  head (py_sort l) = Some x -> y ∈ l -> leb x y = true.
Proof using leb_total leb_trans.
  intros Hh Hy. apply py_sort_elem in Hy.
  pose proof (py_sort_sorted l) as Hs.
  destruct (py_sort l) as [|z l']; [done|]. injection Hh as ->.
  apply StronglySorted_inv in Hs as [_ Hall].
  apply elem_of_cons in Hy as [->|Hy].
  - destruct (leb_total x x); done.
  - rewrite Forall_forall in Hall. by apply Hall.
Qed.

Lemma sort_insert_id x l :
  Forall (fun y => leb x y = true) l -> sort_insert x l = x :: l.
Proof using Type. destruct 1 as [|y l H _]; simpl; [done|]. by rewrite H. Qed.

(** Sorting a sorted list changes nothing. *)
Lemma py_sort_id l : StronglySorted le l -> py_sort l = l.
Proof using Type.
  induction 1 as [|x l Hs IH Hall]; simpl; [done|].
  rewrite IH. by apply sort_insert_id.
Qed.
End PySort.

(** The same for an order that is total and transitive on the elements at hand
    (floats that are not NaN, for instance). *)
Section PySortOn.
Context {A : Type} (leb : A -> A -> bool) (P : A -> Prop).
Context (leb_total : forall x y, P x -> P y -> leb x y = true \/ leb y x = true).
Context (leb_trans : forall x y z, P x -> P y -> P z -> leb x y = true -> leb y z = true -> leb x z = true).

Local Abbreviation le := (fun x y => leb x y = true).

Lemma sort_insert_sorted_on x l :
  P x -> Forall P l -> StronglySorted le l -> StronglySorted le (sort_insert leb x l).
Proof using leb_total leb_trans.
  intros Hx Hl Hs. induction Hs as [|y l Hs IH Hall]; simpl; [repeat constructor|].
  apply Forall_cons in Hl as [Hy Hl]. destruct (leb x y) eqn:E.
  - constructor; [by constructor|]. constructor; [done|].
    rewrite Forall_forall in *. intros z Hz. apply (leb_trans x y z); auto.
  - constructor; [by apply IH|]. rewrite sort_insert_perm. constructor; [|done].
    destruct (leb_total x y Hx Hy) as [?|?]; [congruence|done].
Qed.

Lemma py_sort_sorted_on l : Forall P l -> StronglySorted le (py_sort leb l).
Proof using leb_total leb_trans.
  induction 1 as [|x l Hx Hl IH]; simpl; [constructor|]. apply sort_insert_sorted_on; [done| |done].
  by rewrite py_sort_perm.
Qed.

Lemma py_sort_head_min_on x l y :
  Forall P l -> head (py_sort leb l) = Some x -> y ∈ l -> leb x y = true.
Proof using leb_total leb_trans.
  intros Hl Hh Hy. pose proof (py_sort_sorted_on l Hl) as Hs.
  assert (y ∈ py_sort leb l) as Hy' by by apply py_sort_elem.
  assert (x ∈ l) as Hx by (apply (py_sort_elem leb); destruct (py_sort leb l); [done|]; injection Hh as ->; by left).
  destruct (py_sort leb l) as [|z l']; [done|]. injection Hh as ->.
  apply StronglySorted_inv in Hs as [_ Hall]. rewrite Forall_forall in *.
  apply elem_of_cons in Hy' as [->|Hy']; [|by apply Hall].
  destruct (leb_total x x); auto.
Qed.
End PySortOn.

(** ** Lists *)

Lemma prefix_app_eq {A} (l1 l2 k1 k2 : list A) :
  length l1 = length l2 -> l1 ++ k1 = l2 ++ k2 -> l1 = l2 /\ k1 = k2.
Proof. intros Hl He. by apply app_inj_1 in He. Qed.

Lemma Forall_forallb {A} (f : A -> bool) l :
  forallb f l = true <-> Forall (fun x => f x = true) l.
Proof.
  rewrite forallb_forall, Forall_forall.
  split; intros H x Hx; apply H; by apply list_elem_of_In.
Qed.

(** Lexicographic comparison of lists, as Python compares strings and lists. *)
Fixpoint lex_cmp {A} (cmp : A -> A -> comparison) (l1 l2 : list A) : comparison :=
  match l1, l2 with
  | [], [] => Eq
  | [], _ :: _ => Lt
  | _ :: _, [] => Gt
  | x :: l1', y :: l2' =>
      match cmp x y with Eq => lex_cmp cmp l1' l2' | c => c end
  end.

Section Lex.
Context {A : Type} (cmp : A -> A -> comparison).
Context (cmp_eq : forall x y, cmp x y = Eq <-> x = y).
Context (cmp_antisym : forall x y, cmp y x = CompOpp (cmp x y)).
Context (cmp_lt_trans : forall x y z, cmp x y = Lt -> cmp y z = Lt -> cmp x z = Lt).

Lemma lex_cmp_eq l1 l2 : lex_cmp cmp l1 l2 = Eq <-> l1 = l2.
Proof using cmp_eq.
  revert l2. induction l1 as [|x l1 IH]; intros [|y l2]; simpl; try done.
  destruct (cmp x y) eqn:E.
  - apply cmp_eq in E as ->. rewrite IH. split; congruence.
  - split; [done|]. intros [= -> ->].
    assert (cmp y y = Eq) by by apply cmp_eq. congruence.
  - split; [done|]. intros [= -> ->].
    assert (cmp y y = Eq) by by apply cmp_eq. congruence.
Qed.

Lemma lex_cmp_antisym l1 l2 : lex_cmp cmp l2 l1 = CompOpp (lex_cmp cmp l1 l2).
Proof using cmp_antisym.
  revert l2. induction l1 as [|x l1 IH]; intros [|y l2]; simpl; try done.
  rewrite (cmp_antisym x y). destruct (cmp x y); simpl; auto.
Qed.

Lemma lex_cmp_lt_trans l1 l2 l3 :
  lex_cmp cmp l1 l2 = Lt -> lex_cmp cmp l2 l3 = Lt -> lex_cmp cmp l1 l3 = Lt.
Proof using cmp_eq cmp_lt_trans.
  revert l2 l3. induction l1 as [|x l1 IH]; intros [|y l2] [|z l3]; simpl; try done.
  destruct (cmp x y) eqn:E1; try done.
  - apply cmp_eq in E1 as ->. destruct (cmp y z) eqn:E2; try done. apply IH.
  - intros _. destruct (cmp y z) eqn:E2; try done; intros _.
    + apply cmp_eq in E2 as <-. by rewrite E1.
    + by rewrite (cmp_lt_trans _ _ _ E1 E2).
Qed.
End Lex.
