(* ===== verification/PyText.v ===== *)
(** * Python's [bytes] and [str]

    Bytes are [Byte.byte]; a Python string is the list of its code points.
    The file defines what the sources use of the two types: UTF-8 encoding
    and strict decoding, lowercase hexadecimal, big-endian integers
    ([struct]), code point order, and string literals. *)

From Stdlib Require Import Strings.Ascii Strings.Byte.
From S2P Require Import Prelude.

Abbreviation pybytes := (list Byte.byte).
Abbreviation pystr := (list Z).

#[global] Instance byte_eq_decision : EqDecision Byte.byte := Byte.byte_eq_dec.

(** ** Bytes as numbers *)

Definition byte_val (b : Byte.byte) : Z := Z.of_N (Byte.to_N b).

Definition mk_byte (z : Z) : Byte.byte := default Byte.x00 (Byte.of_N (Z.to_N z)).

Lemma byte_val_range b : 0 <= byte_val b < 256.
Proof. unfold byte_val. pose proof (Byte.to_N_bounded b). lia. Qed.

Lemma mk_byte_val b : mk_byte (byte_val b) = b.
Proof. unfold mk_byte, byte_val. by rewrite N2Z.id, Byte.of_to_N. Qed.

Lemma byte_val_mk z : 0 <= z < 256 -> byte_val (mk_byte z) = z.
Proof.
  intros Hz. unfold mk_byte, byte_val.
  destruct (Byte.of_N (Z.to_N z)) as [b|] eqn:E; simpl.
  - apply Byte.to_of_N in E. rewrite E. lia.
  - apply Byte.of_N_None_iff in E. lia.
Qed.

Lemma byte_val_inj b1 b2 : byte_val b1 = byte_val b2 -> b1 = b2.
Proof. intros H. by rewrite <- (mk_byte_val b1), <- (mk_byte_val b2), H. Qed.

Lemma mk_byte_inj z1 z2 :
  0 <= z1 < 256 -> 0 <= z2 < 256 -> mk_byte z1 = mk_byte z2 -> z1 = z2.
Proof. intros H1 H2 E. by rewrite <- (byte_val_mk z1), <- (byte_val_mk z2), E. Qed.

(** ** String literals *)

Fixpoint str (s : string) : pystr :=
  match s with
  | EmptyString => []
  | String c s' => Z.of_N (N_of_ascii c) :: str s'
  end.

(** The bytes of an ASCII literal, as in [b"KVBLK001"]. *)
Definition bstr (s : string) : pybytes := map mk_byte (str s).

(** [ord] of the quotation mark, which a literal cannot hold. *)
Definition c_quote : Z := 34.
Definition c_backslash : Z := 92.

(** Code point order: Python's [<] on strings, and SQLite's BINARY collation
    of the UTF-8 text (the two agree because UTF-8 preserves the order). *)
Definition str_cmp (s1 s2 : pystr) : comparison := lex_cmp Z.compare s1 s2.

Definition str_leb (s1 s2 : pystr) : bool :=
  match str_cmp s1 s2 with Gt => false | _ => true end.

Definition str_ltb (s1 s2 : pystr) : bool :=
  match str_cmp s1 s2 with Lt => true | _ => false end.

Lemma str_cmp_eq s1 s2 : str_cmp s1 s2 = Eq <-> s1 = s2.
Proof. apply lex_cmp_eq, Z.compare_eq_iff. Qed.

Lemma str_cmp_antisym s1 s2 : str_cmp s2 s1 = CompOpp (str_cmp s1 s2).
Proof. apply lex_cmp_antisym. intros x y. by rewrite Z.compare_antisym. Qed.

Lemma str_cmp_lt_trans s1 s2 s3 :
  str_cmp s1 s2 = Lt -> str_cmp s2 s3 = Lt -> str_cmp s1 s3 = Lt.
Proof.
  apply lex_cmp_lt_trans; [apply Z.compare_eq_iff|].
  intros x y z. rewrite !Z.compare_lt_iff. lia.
Qed.

Lemma str_leb_total s1 s2 : str_leb s1 s2 = true \/ str_leb s2 s1 = true.
Proof.
  unfold str_leb. rewrite (str_cmp_antisym s1 s2).
  destruct (str_cmp s1 s2); simpl; auto.
Qed.

Lemma str_leb_refl s : str_leb s s = true.
Proof. destruct (str_leb_total s s); done. Qed.

Lemma str_leb_spec s1 s2 :
  str_leb s1 s2 = true <-> s1 = s2 \/ str_cmp s1 s2 = Lt.
Proof.
  unfold str_leb. rewrite <- (str_cmp_eq s1 s2).
  destruct (str_cmp s1 s2); naive_solver.
Qed.

Lemma str_leb_trans s1 s2 s3 :
  str_leb s1 s2 = true -> str_leb s2 s3 = true -> str_leb s1 s3 = true.
Proof.
  rewrite !str_leb_spec. intros [->|H1] [->|H2]; auto.
  right. by eapply str_cmp_lt_trans.
Qed.

Lemma str_leb_antisym s1 s2 : str_leb s1 s2 = true -> str_leb s2 s1 = true -> s1 = s2.
Proof.
  rewrite !str_leb_spec. intros [->|H1] [H2|H2]; auto.
  rewrite str_cmp_antisym, H2 in H1. done.
Qed.

(** ** Text operations *)

(** [s.startswith(p)], returning what follows the prefix. *)
Fixpoint strip_prefix {A} `{EqDecision A} (p s : list A) : option (list A) :=
  match p, s with
  | [], _ => Some s
  | x :: p', y :: s' => if decide (x = y) then strip_prefix p' s' else None
  | _ :: _, [] => None
  end.

Definition starts_with {A} `{EqDecision A} (p s : list A) : bool :=
  match strip_prefix p s with Some _ => true | None => false end.

Lemma strip_prefix_app {A} `{EqDecision A} (p s : list A) :
  strip_prefix p (p ++ s) = Some s.
Proof. induction p as [|x p IH]; simpl; [done|]. by rewrite decide_True. Qed.

Lemma strip_prefix_Some {A} `{EqDecision A} (p s r : list A) :
  strip_prefix p s = Some r -> s = p ++ r.
Proof.
  revert s. induction p as [|x p IH]; intros [|y s]; simpl; try congruence.
  case_decide; [|done]. intros ?%IH. by subst.
Qed.

(** Substring test, Python's [in] on strings. *)
Fixpoint str_contains (needle hay : pystr) : bool :=
  starts_with needle hay ||
  match hay with [] => false | _ :: h => str_contains needle h end.

(** [str.lower] restricted to ASCII letters: the class names and the
    protocol words the sources lowercase are ASCII. *)
Definition lower_char (c : Z) : Z := if (65 <=? c) && (c <=? 90) then c + 32 else c.
Definition str_lower (s : pystr) : pystr := map lower_char s.

(** ** UTF-8 *)

Definition is_surrogate (c : Z) : bool := (0xD800 <=? c) && (c <=? 0xDFFF).

(** A Unicode scalar value: what UTF-8 can encode. *)
Definition is_scalar (c : Z) : bool :=
  (0 <=? c) && (c <? 0x110000) && negb (is_surrogate c).

Definition utf8_char (c : Z) : option pybytes :=
  if negb (is_scalar c) then None
  else if c <? 0x80 then Some [mk_byte c]
  else if c <? 0x800 then
    Some [mk_byte (0xC0 + c / 64); mk_byte (0x80 + c mod 64)]
  else if c <? 0x10000 then
    Some [mk_byte (0xE0 + c / 4096); mk_byte (0x80 + c / 64 mod 64);
          mk_byte (0x80 + c mod 64)]
  else
    Some [mk_byte (0xF0 + c / 262144); mk_byte (0x80 + c / 4096 mod 64);
          mk_byte (0x80 + c / 64 mod 64); mk_byte (0x80 + c mod 64)].

(** [s.encode("utf-8")]; [None] is the [UnicodeEncodeError] of a lone surrogate. *)
Fixpoint utf8_encode (s : pystr) : option pybytes :=
  match s with
  | [] => Some []
  | c :: s' =>
      match utf8_char c, utf8_encode s' with
      | Some b, Some bs => Some (b ++ bs)
      | _, _ => None
      end
  end.

Definition is_cont (b : Byte.byte) : bool :=
  (0x80 <=? byte_val b) && (byte_val b <? 0xC0).

Definition cont_val (b : Byte.byte) : Z := byte_val b - 0x80.

(** [bs.decode("utf-8")], strict: overlong forms, surrogates and values above
    U+10FFFF are errors. *)
Fixpoint utf8_decode (bs : pybytes) : option pystr :=
  match bs with
  | [] => Some []
  | b0 :: r0 =>
      let v := byte_val b0 in
      if v <? 0x80 then cons v <$> utf8_decode r0
      else match r0 with
      | [] => None
      | b1 :: r1 =>
          if negb (is_cont b1) then None
          else if (0xC0 <=? v) && (v <? 0xE0) then
            let c := (v - 0xC0) * 64 + cont_val b1 in
            if c <? 0x80 then None else cons c <$> utf8_decode r1
          else match r1 with
          | [] => None
          | b2 :: r2 =>
              if negb (is_cont b2) then None
              else if (0xE0 <=? v) && (v <? 0xF0) then
                let c := (v - 0xE0) * 4096 + cont_val b1 * 64 + cont_val b2 in
                if (c <? 0x800) || is_surrogate c then None
                else cons c <$> utf8_decode r2
              else match r2 with
              | [] => None
              | b3 :: r3 =>
                  if negb (is_cont b3) then None
                  else if (0xF0 <=? v) && (v <? 0xF8) then
                    let c := (v - 0xF0) * 262144 + cont_val b1 * 4096
                             + cont_val b2 * 64 + cont_val b3 in
                    if (c <? 0x10000) || (0x110000 <=? c) then None
                    else cons c <$> utf8_decode r3
                  else None
              end
          end
      end
  end.

Lemma is_cont_mk z : 0 <= z < 64 -> is_cont (mk_byte (0x80 + z)) = true.
Proof. intros Hz. unfold is_cont. rewrite byte_val_mk by lia. lia. Qed.

Lemma cont_val_mk z : 0 <= z < 64 -> cont_val (mk_byte (0x80 + z)) = z.
Proof. intros Hz. unfold cont_val. rewrite byte_val_mk by lia. lia. Qed.

Ltac zdm := Z.to_euclidean_division_equations; lia.

Lemma mod64_range z : 0 <= z mod 64 < 64.
Proof. apply Z.mod_pos_bound. lia. Qed.

Lemma utf8_decode_char c b bs :
  utf8_char c = Some b -> utf8_decode (b ++ bs) = cons c <$> utf8_decode bs.
Proof.
  unfold utf8_char. destruct (is_scalar c) eqn:Es; simpl; [|done].
  unfold is_scalar, is_surrogate in Es.
  assert (Hc : 0 <= c < 0x110000 /\ ~ (0xD800 <= c <= 0xDFFF)) by lia.
  pose proof (mod64_range c) as M0. pose proof (mod64_range (c / 64)) as M1.
  pose proof (mod64_range (c / 4096)) as M2.
  destruct (c <? 0x80) eqn:E1; [|destruct (c <? 0x800) eqn:E2; [|destruct (c <? 0x10000) eqn:E3]];
    intros [= <-]; breflect; cbn [app utf8_decode].
  - rewrite byte_val_mk by lia. by replace (c <? 128) with true by lia.
  - assert (0 <= c / 64 < 32) by zdm.
    rewrite byte_val_mk, is_cont_mk, cont_val_mk by lia.
    replace (192 + c / 64 <? 128) with false by lia.
    replace ((192 <=? 192 + c / 64) && (192 + c / 64 <? 224)) with true by lia.
    replace ((192 + c / 64 - 192) * 64 + c mod 64) with c by zdm.
    simpl. by replace (c <? 128) with false by lia.
  - assert (0 <= c / 4096 < 16) by zdm.
    rewrite byte_val_mk, !is_cont_mk, !cont_val_mk by lia.
    replace (224 + c / 4096 <? 128) with false by lia.
    replace ((192 <=? 224 + c / 4096) && (224 + c / 4096 <? 224)) with false by lia.
    replace ((224 <=? 224 + c / 4096) && (224 + c / 4096 <? 240)) with true by lia.
    replace ((224 + c / 4096 - 224) * 4096 + c / 64 mod 64 * 64 + c mod 64) with c by zdm.
    simpl. unfold is_surrogate.
    by replace ((c <? 2048) || (55296 <=? c) && (c <=? 57343)) with false by lia.
  - assert (0 <= c / 262144 < 5) by zdm.
    rewrite byte_val_mk, !is_cont_mk, !cont_val_mk by lia.
    replace (240 + c / 262144 <? 128) with false by lia.
    replace ((192 <=? 240 + c / 262144) && (240 + c / 262144 <? 224)) with false by lia.
    replace ((224 <=? 240 + c / 262144) && (240 + c / 262144 <? 240)) with false by lia.
    replace ((240 <=? 240 + c / 262144) && (240 + c / 262144 <? 248)) with true by lia.
    replace ((240 + c / 262144 - 240) * 262144 + c / 4096 mod 64 * 4096
             + c / 64 mod 64 * 64 + c mod 64) with c by zdm.
    simpl. by replace ((c <? 65536) || (1114112 <=? c)) with false by lia.
Qed.

(** Decoding undoes encoding. *)
Lemma utf8_decode_encode s bs : utf8_encode s = Some bs -> utf8_decode bs = Some s.
Proof.
  revert bs. induction s as [|c s IH]; simpl; intros bs; [by intros [= <-]|].
  destruct (utf8_char c) as [b|] eqn:Ec; [|done].
  destruct (utf8_encode s) as [bs'|]; [|done]. intros [= <-].
  by rewrite (utf8_decode_char _ _ _ Ec), (IH bs').
Qed.

Lemma utf8_encode_inj s1 s2 bs :
  utf8_encode s1 = Some bs -> utf8_encode s2 = Some bs -> s1 = s2.
Proof. intros H1%utf8_decode_encode H2%utf8_decode_encode. congruence. Qed.

Lemma utf8_encode_ascii s :
  Forall (fun c => 0 <= c < 128) s -> utf8_encode s = Some (map mk_byte s).
Proof.
  induction 1 as [|c s Hc Hs IH]; simpl; [done|]. rewrite IH.
  unfold utf8_char, is_scalar, is_surrogate.
  replace ((0 <=? c) && (c <? 1114112) && negb ((55296 <=? c) && (c <=? 57343)))
    with true by lia.
  by replace (c <? 128) with true by lia.
Qed.

(** ** Hexadecimal *)

Definition hex_digit (v : Z) : Z := if v <? 10 then 48 + v else 87 + v.

(** [bytes.hex()], lowercase. *)
Definition hex_of_bytes (bs : pybytes) : pystr :=
  flat_map (fun b => [hex_digit (byte_val b / 16); hex_digit (byte_val b mod 16)]) bs.

Definition is_lower_hex (c : Z) : bool :=
  ((48 <=? c) && (c <=? 57)) || ((97 <=? c) && (c <=? 102)).

(** [re.fullmatch("[0-9a-f]{n}", s)]. *)
Definition hex_fullmatch (n : nat) (s : pystr) : bool :=
  (length s =? n)%nat && forallb is_lower_hex s.

Lemma hex_of_bytes_length bs : length (hex_of_bytes bs) = (2 * length bs)%nat.
Proof. induction bs as [|b bs IH]; simpl in *; lia. Qed.

Lemma hex_of_bytes_hex bs : forallb is_lower_hex (hex_of_bytes bs) = true.
Proof.
  induction bs as [|b bs IH]; simpl; [done|].
  pose proof (byte_val_range b). fold (hex_of_bytes bs). rewrite IH.
  assert (0 <= byte_val b / 16 < 16) by zdm. assert (0 <= byte_val b mod 16 < 16) by zdm.
  unfold is_lower_hex, hex_digit. repeat case_match; lia.
Qed.

(** ** Big-endian integers: [struct.pack(">I", n)], [int.from_bytes(_, "big")] *)

Fixpoint be_bytes (n : nat) (z : Z) : pybytes :=
  match n with
  | O => []
  | S n' => be_bytes n' (z / 256) ++ [mk_byte (z mod 256)]
  end.

Definition be_value (bs : pybytes) : Z := foldl (fun a b => a * 256 + byte_val b) 0 bs.

Lemma be_bytes_length n z : length (be_bytes n z) = n.
Proof. revert z. induction n as [|n IH]; intros z; simpl; [done|]. rewrite length_app, IH. simpl. lia. Qed.

Lemma be_value_snoc bs b : be_value (bs ++ [b]) = be_value bs * 256 + byte_val b.
Proof. unfold be_value. by rewrite foldl_app. Qed.

Lemma be_value_bytes n z : 0 <= z < 256 ^ Z.of_nat n -> be_value (be_bytes n z) = z.
Proof.
  revert z. induction n as [|n IH]; intros z Hz; simpl.
  - change (256 ^ Z.of_nat 0) with 1 in Hz. unfold be_value. simpl. lia.
  - rewrite Nat2Z.inj_succ, Z.pow_succ_r in Hz by lia.
    rewrite be_value_snoc, IH, byte_val_mk by zdm. zdm.
Qed.

Lemma be_bytes_inj n z1 z2 :
  0 <= z1 < 256 ^ Z.of_nat n -> 0 <= z2 < 256 ^ Z.of_nat n ->
  be_bytes n z1 = be_bytes n z2 -> z1 = z2.
Proof. intros H1 H2 E. by rewrite <- (be_value_bytes n z1), <- (be_value_bytes n z2), E. Qed.

Lemma be_value_range bs : 0 <= be_value bs < 256 ^ zlen bs.
Proof.
  induction bs as [|b bs IH] using rev_ind; [unfold be_value; simpl; lia|].
  rewrite be_value_snoc, length_app, Nat2Z.inj_add. simpl length.
  rewrite Z.pow_add_r by lia. pose proof (byte_val_range b). nia.
Qed.

Lemma be_bytes_value bs : be_bytes (length bs) (be_value bs) = bs.
Proof.
  induction bs as [|b bs IH] using rev_ind; [done|].
  rewrite length_app, Nat.add_comm, be_value_snoc. cbn [length Nat.add be_bytes].
  pose proof (byte_val_range b). rewrite Z.div_add_l, Z.div_small, Z.add_0_r, IH by lia.
  f_equal. f_equal. rewrite Z.add_comm, Z.mod_add, Z.mod_small by lia. apply mk_byte_val.
Qed.
