(* ===== verification/Sha256.v ===== *)
(** * SHA-256 ([hashlib.sha256]) and [checksum.py]

    The hash the storage protocol and the block identities use, written out
    (FIPS 180-4) over 32-bit words held in [Z], so that every checksum, block
    hash and token id of the development evaluates. *)

From S2P Require Import Prelude PyText.

Definition word32 (z : Z) : Z := Z.land z 0xFFFFFFFF.
Definition add32 (x y : Z) : Z := word32 (x + y).
Definition rotr (x n : Z) : Z :=
  Z.lor (Z.shiftr x n) (word32 (Z.shiftl x (32 - n))).

(** ** The constants *)

(** The largest [r] below [2 ^ bits] with [r ^ k <= n], bit by bit. *)
Fixpoint root_from (k n : Z) (bits : nat) (r : Z) : Z :=
  match bits with
  | O => r
  | S b => let r' := r + 2 ^ Z.of_nat b in root_from k n b (if r' ^ k <=? n then r' else r)
  end.

(** The first 32 bits of the fractional part of the [k]-th root of [p]. *)
Definition root_fraction (k p : Z) : Z := word32 (root_from k (p * 2 ^ (32 * k)) 40 0).

Definition primes : list Z :=
  filter (fun n => forallb (fun d => negb (n mod d =? 0)) (seqZ 2 (n - 2)) = true) (seqZ 2 310).

(** The words of the 64 rounds, from the cube roots of the first 64 primes, and
    the initial state, from the square roots of the first eight. *)
Definition sha_k : list Z := Eval vm_compute in map (root_fraction 3) primes.

Definition sha_h0 : list Z := Eval vm_compute in map (root_fraction 2) (take 8 primes).

Definition big_sigma0 (x : Z) : Z := Z.lxor (Z.lxor (rotr x 2) (rotr x 13)) (rotr x 22).
Definition big_sigma1 (x : Z) : Z := Z.lxor (Z.lxor (rotr x 6) (rotr x 11)) (rotr x 25).
Definition small_sigma0 (x : Z) : Z := Z.lxor (Z.lxor (rotr x 7) (rotr x 18)) (Z.shiftr x 3).
Definition small_sigma1 (x : Z) : Z := Z.lxor (Z.lxor (rotr x 17) (rotr x 19)) (Z.shiftr x 10).
Definition sha_ch (x y z : Z) : Z := Z.lxor (Z.land x y) (Z.land (Z.lxor x 0xFFFFFFFF) z).
Definition sha_maj (x y z : Z) : Z :=
  Z.lxor (Z.lxor (Z.land x y) (Z.land x z)) (Z.land y z).

(** Padding: a one bit, zeros, and the bit length as 64 bits. *)
Definition sha_pad (msg : pybytes) : pybytes :=
  let n := zlen msg in
  msg ++ mk_byte 0x80 :: replicate (Z.to_nat ((55 - n) mod 64)) (mk_byte 0)
  ++ be_bytes 8 (8 * n).

Fixpoint words_of (fuel : nat) (bs : pybytes) : list Z :=
  match fuel with
  | O => []
  | S f => match bs with [] => [] | _ => be_value (take 4 bs) :: words_of f (drop 4 bs) end
  end.

(** The message schedule, newest word first. *)
Fixpoint sha_schedule (n : nat) (w : list Z) : list Z :=
  match n with
  | O => w
  | S n' =>
      let g i := default 0 (w !! i) in
      let x := add32 (add32 (small_sigma1 (g 1%nat)) (g 6%nat))
                     (add32 (small_sigma0 (g 14%nat)) (g 15%nat)) in
      sha_schedule n' (x :: w)
  end.

Definition sha_round (st : list Z) (kw : Z * Z) : list Z :=
  match st with
  | [a; b; c; d; e; f; g; h] =>
      let t1 := add32 (add32 (add32 h (big_sigma1 e)) (sha_ch e f g)) (add32 (fst kw) (snd kw)) in
      let t2 := add32 (big_sigma0 a) (sha_maj a b c) in
      [add32 t1 t2; a; b; c; add32 d t1; e; f; g]
  | _ => st
  end.

Definition sha_block (st : list Z) (block : pybytes) : list Z :=
  let w := rev (sha_schedule 48 (rev (words_of 16 block))) in
  zip_with add32 st (foldl sha_round st (combine sha_k w)).

Fixpoint sha_blocks (fuel : nat) (st : list Z) (bs : pybytes) : list Z :=
  match fuel with
  | O => st
  | S f =>
      match bs with
      | [] => st
      | _ => sha_blocks f (sha_block st (take 64 bs)) (drop 64 bs)
      end
  end.

(** [hashlib.sha256(msg).digest()]. The padded length bounds the number of
    64-byte blocks. *)
Definition sha256 (msg : pybytes) : pybytes :=
  let p := sha_pad msg in
  flat_map (be_bytes 4) (take 8 (sha_blocks (length p) sha_h0 p ++ replicate 8 0)).

(** ** checksum.py *)

Definition sha256_hex (data : pybytes) : pystr := hex_of_bytes (sha256 data).

Definition verify_sha256 (data : pybytes) (expected : pystr) : bool :=
  bool_decide (sha256_hex data = expected).

(** The published test vectors. *)
Example sha256_abc :
  sha256_hex (bstr "abc") =
  str "ba7816bf8f01cfea414140de5dae2223b00361a396177a9cb410ff61f20015ad".
Proof. vm_compute. reflexivity. Qed.

Example sha256_two_blocks :
  sha256_hex (bstr "abcdbcdecdefdefgefghfghighijhijkijkljklmklmnlmnomnopnopq") =
  str "248d6a61d20638b8e5c026930c3e6039a33ce45964ff2167f6ecedd419db06c1".
Proof. vm_compute. reflexivity. Qed.

Lemma sha256_length msg : length (sha256 msg) = 32%nat.
Proof.
  unfold sha256.
  set (l := take 8 _).
  assert (Hl : length l = 8%nat).
  { unfold l. rewrite length_take, length_app, length_replicate. lia. }
  clearbody l. do 8 (destruct l as [|? l]; [done|]). destruct l; [|done].
  cbn [flat_map]. rewrite !length_app, !be_bytes_length. done.
Qed.

(** A digest is 64 lowercase hexadecimal characters. *)
Lemma sha256_hex_fullmatch data : hex_fullmatch 64 (sha256_hex data) = true.
Proof.
  unfold hex_fullmatch, sha256_hex.
  by rewrite hex_of_bytes_length, sha256_length, hex_of_bytes_hex.
Qed.

Lemma sha256_hex_length data : length (sha256_hex data) = 64%nat.
Proof. unfold sha256_hex. by rewrite hex_of_bytes_length, sha256_length. Qed.

Lemma verify_sha256_refl data : verify_sha256 data (sha256_hex data) = true.
Proof. by apply bool_decide_eq_true. Qed.

Lemma verify_sha256_true data c : verify_sha256 data c = true <-> c = sha256_hex data.
Proof. unfold verify_sha256. rewrite bool_decide_eq_true. naive_solver. Qed.

#[global] Opaque sha256.
