(* ===== verification/Float64.v ===== *)
(** * Python numbers: decimal integers and binary64 floats

    A Python [float] is an IEEE-754 binary64 number, here the Standard
    Library's executable [spec_float] at precision 53 and exponent bound 1024.
    The file also holds the decimal text of integers ([int.__repr__]) and of
    floats ([float.__repr__]: the shortest digits that read back as the same
    float), and the correctly rounded conversion from decimal text. *)

From Stdlib Require Import SpecFloat.
From S2P Require Import Prelude PyText.

(** ** Decimal digits *)

Fixpoint dec_digits (fuel : nat) (z : Z) : pystr :=
  match fuel with
  | O => []
  | S f => if z <? 10 then [48 + z] else dec_digits f (z / 10) ++ [48 + z mod 10]
  end.

Definition dec_fuel (z : Z) : nat := S (S (Z.to_nat (Z.log2 z))).

(** The decimal digits of a natural number. *)
Definition dec_nat (z : Z) : pystr := dec_digits (dec_fuel z) z.

Definition is_digit (c : Z) : bool := (48 <=? c) && (c <=? 57).

Definition dec_value (s : pystr) : Z := foldl (fun a c => a * 10 + (c - 48)) 0 s.

(** [int.__repr__] (without the interpreter's limit on the number of digits,
    see [Json.int_text]). *)
Definition int_repr (z : Z) : pystr :=
  if z <? 0 then 45 :: dec_nat (- z) else dec_nat z.

Lemma dec_value_snoc s c : dec_value (s ++ [c]) = dec_value s * 10 + (c - 48).
Proof. unfold dec_value. by rewrite foldl_app. Qed.

Lemma dec_digits_value f z :
  0 <= z < 10 ^ Z.of_nat f -> dec_value (dec_digits f z) = z.
Proof.
  revert z. induction f as [|f IH]; intros z Hz.
  - change (10 ^ Z.of_nat 0) with 1 in Hz. unfold dec_value. simpl. lia.
  - rewrite Nat2Z.inj_succ, Z.pow_succ_r in Hz by lia. cbn [dec_digits].
    destruct (z <? 10) eqn:E; breflect.
    + unfold dec_value. simpl. lia.
    + rewrite dec_value_snoc, IH by zdm. zdm.
Qed.

Lemma dec_fuel_enough z : 0 <= z -> z < 10 ^ Z.of_nat (dec_fuel z).
Proof.
  intros Hz. unfold dec_fuel. pose proof (Z.log2_nonneg z).
  rewrite !Nat2Z.inj_succ, Z2Nat.id by lia.
  assert (z < 2 ^ Z.succ (Z.log2 z)) as Hlt.
  { destruct (decide (z = 0)) as [->|]; [done|]. apply Z.log2_spec. lia. }
  eapply Z.lt_le_trans; [exact Hlt|].
  etransitivity; [apply (Z.pow_le_mono_l 2 10); lia|].
  apply Z.pow_le_mono_r; lia.
Qed.

Lemma dec_nat_value z : 0 <= z -> dec_value (dec_nat z) = z.
Proof. intros Hz. apply dec_digits_value. split; [done|]. by apply dec_fuel_enough. Qed.

Lemma dec_digits_digit f z : 0 <= z -> Forall (fun c => is_digit c = true) (dec_digits f z).
Proof.
  revert z. induction f as [|f IH]; intros z Hz; cbn [dec_digits]; [constructor|].
  destruct (z <? 10) eqn:E; breflect.
  - repeat constructor. unfold is_digit. lia.
  - apply Forall_app. split; [apply IH; zdm|].
    repeat constructor. unfold is_digit. assert (0 <= z mod 10 < 10) by zdm. lia.
Qed.

Lemma dec_nat_digit z : 0 <= z -> Forall (fun c => is_digit c = true) (dec_nat z).
Proof. apply dec_digits_digit. Qed.

Lemma dec_digits_nonempty f z : dec_digits (S f) z <> [].
Proof. cbn [dec_digits]. destruct (z <? 10); [done|]. by destruct (dec_digits f (z / 10)). Qed.

Lemma dec_nat_nonempty z : dec_nat z <> [].
Proof. apply dec_digits_nonempty. Qed.

(** No leading zero, except for zero itself. *)
Lemma dec_digits_head f z c s :
  0 < z < 10 ^ Z.of_nat f -> dec_digits f z = c :: s -> c <> 48.
Proof.
  revert z c s. induction f as [|f IH]; intros z c s Hz; cbn [dec_digits]; [done|].
  rewrite Nat2Z.inj_succ, Z.pow_succ_r in Hz by lia.
  destruct (z <? 10) eqn:E; breflect; [intros [= <- _]; lia|].
  assert (0 < z / 10 < 10 ^ Z.of_nat f) as Hq by zdm.
  destruct (dec_digits f (z / 10)) as [|c' s'] eqn:Ed; simpl.
  - destruct f; [|by destruct (dec_digits_nonempty f (z / 10))].
    change (10 ^ Z.of_nat 0) with 1 in Hq. lia.
  - intros [= <- <-]. by eapply IH.
Qed.

Lemma dec_nat_head z c s : 0 < z -> dec_nat z = c :: s -> c <> 48.
Proof. intros Hz. apply dec_digits_head. split; [done|]. apply dec_fuel_enough. lia. Qed.

(** ** binary64 *)

Abbreviation f64 := spec_float.

Definition prec : Z := 53.
Definition emax : Z := 1024.

Definition f64_add : f64 -> f64 -> f64 := SFadd prec emax.
Definition f64_sub : f64 -> f64 -> f64 := SFsub prec emax.
Definition f64_mul : f64 -> f64 -> f64 := SFmul prec emax.
Definition f64_div : f64 -> f64 -> f64 := SFdiv prec emax.
Definition f64_opp : f64 -> f64 := SFopp.

(** [float(z)] for an integer, correctly rounded (an overflow gives an infinity
    here; Python raises [OverflowError]). *)
Definition f64_of_Z (z : Z) : f64 := binary_normalize prec emax z 0 false.

Definition f64_eqb (x y : f64) : bool := SFeqb x y.
Definition f64_ltb (x y : f64) : bool := SFltb x y.
Definition f64_leb (x y : f64) : bool := SFleb x y.

(** [math.isfinite]. *)
Definition f64_finite (x : f64) : bool :=
  match x with S754_zero _ | S754_finite _ _ _ => true | _ => false end.

Definition f64_nan (x : f64) : bool := match x with S754_nan => true | _ => false end.

#[global] Instance f64_eq_decision : EqDecision f64.
Proof. solve_decision. Defined.

(** *** The order of the floats that are not NaN *)

Definition f64_cmp (x y : f64) : comparison := default Eq (SFcompare x y).

Lemma SFcompare_some x y :
  f64_nan x = false -> f64_nan y = false -> SFcompare x y = Some (f64_cmp x y).
Proof. unfold f64_cmp. by destruct x as [[]|[]| |[]], y as [[]|[]| |[]]. Qed.

Lemma pos_cmp_opp m1 m2 : Pos.compare_cont Eq m2 m1 = CompOpp (Pos.compare_cont Eq m1 m2).
Proof. apply (Pos.compare_antisym m1 m2). Qed.

Lemma f64_cmp_antisym x y : f64_cmp y x = CompOpp (f64_cmp x y).
Proof.
  destruct x as [[]|[]| |[] m1 e1], y as [[]|[]| |[] m2 e2]; try done;
    unfold f64_cmp; simpl; rewrite (Z.compare_antisym e1 e2);
    destruct (e1 ?= e2); simpl; try done; by rewrite (pos_cmp_opp m1 m2).
Qed.

Lemma f64_cmp_refl x : f64_cmp x x = Eq.
Proof. pose proof (f64_cmp_antisym x x). destruct (f64_cmp x x); done. Qed.

Lemma f64_leb_cmp x y :
  f64_nan x = false -> f64_nan y = false ->
  f64_leb x y = match f64_cmp x y with Gt => false | _ => true end.
Proof.
  intros Hx Hy. unfold f64_leb, SFleb. rewrite (SFcompare_some x y) by done.
  by destruct (f64_cmp x y).
Qed.

Lemma f64_leb_total x y :
  f64_nan x = false -> f64_nan y = false -> f64_leb x y = true \/ f64_leb y x = true.
Proof.
  intros Hx Hy. rewrite !f64_leb_cmp, (f64_cmp_antisym x y) by done.
  destruct (f64_cmp x y); auto.
Qed.

(** The rank of a float: sign class, then exponent and mantissa; comparing
    ranks is comparing floats, which makes the order transitive. *)
Definition f64_rank (x : f64) : Z * (Z * Z) :=
  match x with
  | S754_infinity true => (-2, (0, 0))
  | S754_finite true m e => (-1, (- e, - Z.pos m))
  | S754_zero _ | S754_nan => (0, (0, 0))
  | S754_finite false m e => (1, (e, Z.pos m))
  | S754_infinity false => (2, (0, 0))
  end.

Definition rank_le (a b : Z * (Z * Z)) : Prop :=
  a.1 < b.1 \/ (a.1 = b.1 /\ (a.2.1 < b.2.1 \/ (a.2.1 = b.2.1 /\ a.2.2 <= b.2.2))).

Lemma f64_leb_rank x y :
  f64_nan x = false -> f64_nan y = false ->
  f64_leb x y = true <-> rank_le (f64_rank x) (f64_rank y).
Proof.
  intros Hx Hy. rewrite f64_leb_cmp by done. unfold rank_le.
  destruct x as [[]|[]| |[] m1 e1], y as [[]|[]| |[] m2 e2]; try done;
    unfold f64_cmp; simpl; try (split; [lia|done]); try (split; [done|lia]).
  - destruct (Z.compare_spec e1 e2); simpl; [|split; [done|lia]|split; [lia|done]].
    fold (Pos.compare m1 m2). destruct (Pos.compare_spec m1 m2); simpl; split; lia || done.
  - destruct (Z.compare_spec e1 e2); simpl; [|split; [lia|done]|split; [done|lia]].
    fold (Pos.compare m1 m2). destruct (Pos.compare_spec m1 m2); simpl; split; lia || done.
Qed.

Lemma f64_leb_trans x y z :
  f64_nan x = false -> f64_nan y = false -> f64_nan z = false ->
  f64_leb x y = true -> f64_leb y z = true -> f64_leb x z = true.
Proof. intros ???. rewrite !f64_leb_rank by done. unfold rank_le. lia. Qed.

Lemma f64_ltb_leb x y :
  f64_nan x = false -> f64_nan y = false -> f64_ltb x y = negb (f64_leb y x).
Proof.
  intros Hx Hy. rewrite f64_leb_cmp by done. unfold f64_ltb, SFltb.
  rewrite (SFcompare_some x y), (f64_cmp_antisym x y) by done.
  by destruct (f64_cmp x y).
Qed.

(** Python's [min] and [max] of two floats keep the first argument on a tie;
    SQLite's do as well. *)
Definition f64_min (x y : f64) : f64 := if f64_ltb y x then y else x.
Definition f64_max (x y : f64) : f64 := if f64_ltb x y then y else x.

(** ** Decimal text of floats *)

(** [m * 10^e], correctly rounded (to nearest, ties to even). Exponents
    outside the range of binary64 are answered without computing the power. *)
Definition f64_of_decimal (neg : bool) (m e : Z) : f64 :=
  match m with
  | Z.pos p =>
      let d := zlen (dec_nat m) + e in
      if 400 <? d then S754_infinity neg
      else if d <? -400 then S754_zero neg
      else if 0 <=? e then
        binary_round_aux prec emax neg (m * 10 ^ e) 0 loc_Exact
      else
        let '(q, e', l) := SFdiv_core_binary prec emax m 0 (10 ^ (- e)) 0 in
        binary_round_aux prec emax neg q e' l
  | _ => S754_zero neg
  end.

(** A finite positive float as a fraction. *)
Definition frac_of (m : positive) (e : Z) : Z * Z :=
  if 0 <=? e then (Z.pos m * 2 ^ e, 1) else (Z.pos m, 2 ^ (- e)).

(** [k] with [10^(k-1) <= num/den < 10^k], searched around the estimate
    from the binary logarithms. *)
Definition below_pow10 (num den k : Z) : bool :=
  if 0 <=? k then num <? den * 10 ^ k else num * 10 ^ (- k) <? den.

Definition dec_point (num den : Z) : Z :=
  let t := (Z.log2 num - Z.log2 den) * 30103 / 100000 in
  default (t + 3) (head (filter (fun k => below_pow10 num den k = true) [t - 1; t; t + 1; t + 2])).

(** The candidates with [n] digits: the two neighbours of the exact value,
    the nearer first. *)
Definition dec_candidates (num den k : Z) (n : Z) : list Z :=
  let '(a, b) := if 0 <=? n - k then (num * 10 ^ (n - k), den) else (num, den * 10 ^ (k - n)) in
  let q := a / b in
  let r := a mod b in
  if (2 * r <? b) || ((2 * r =? b) && Z.even q) then [q; q + 1] else [q + 1; q].

(** The first candidate, by number of digits, that reads back as the float. *)
Fixpoint search_decimal (fuel : nat) (m : positive) (e num den k n : Z) : Z * Z :=
  match fuel with
  | O => (0, 0)
  | S f =>
      match filter (fun c => f64_of_decimal false c (k - n) = S754_finite false m e)
                   (dec_candidates num den k n) with
      | c :: _ => (c, k - n)
      | [] => search_decimal f m e num den k (n + 1)
      end
  end.

(** Seventeen digits identify any binary64 number. *)
Definition shortest_decimal (m : positive) (e : Z) : Z * Z :=
  let '(num, den) := frac_of m e in
  search_decimal 17 m e num den (dec_point num den) 1.

Fixpoint strip_zeros (rdigits : pystr) : pystr :=
  match rdigits with
  | c :: r => if c =? 48 then strip_zeros r else rdigits
  | [] => []
  end.

Definition exp_text (x : Z) : pystr :=
  let d := dec_nat (Z.abs x) in
  101 :: (if x <? 0 then 45 else 43) :: (if (length d <? 2)%nat then 48 :: d else d).

(** The layout of [float.__repr__]: fixed notation when the decimal point is
    within 16 digits, else scientific with at least two exponent digits. *)
Definition float_text (c x : Z) : pystr :=
  let all := dec_nat c in
  let ds := rev (strip_zeros (rev all)) in
  let n := zlen ds in
  let point := zlen all + x in
  if (point <=? -4) || (16 <? point) then
    match ds with
    | [] => []
    | d :: r => d :: (match r with [] => [] | _ => 46 :: r end) ++ exp_text (point - 1)
    end
  else if point <=? 0 then 48 :: 46 :: replicate (Z.to_nat (- point)) 48 ++ ds
  else if n <=? point then ds ++ replicate (Z.to_nat (point - n)) 48 ++ [46; 48]
  else take (Z.to_nat point) ds ++ 46 :: drop (Z.to_nat point) ds.

(** [float.__repr__] of a finite float. *)
Definition finite_repr (x : f64) : pystr :=
  match x with
  | S754_finite s m e =>
      let '(c, p) := shortest_decimal m e in
      (if s then [45] else []) ++ float_text c p
  | S754_zero s => (if s then [45] else []) ++ str "0.0"
  | _ => []
  end.
