(* ===== verification/Errors.v ===== *)
(** * Exceptions: [errors.py], the classes it extends, and the effect monad

    [exn_class] holds the classes of [errors.py] and [s3_fault_injection.py]
    and the Python classes the sources raise or catch; [parent] is the class
    hierarchy, so that [is_a] is [isinstance]. Stateful code is a function from
    a state to a new state and a result: a Python exception leaves the
    mutations made before it in place. *)

From S2P Require Import Prelude PyText.

(** ** Classes *)

Inductive exn_class :=
  (* errors.py *)
  | KVStoreError | BlockNotFound | CorruptionDetected | ChecksumMismatch
  | RecordFormatError | CorruptionCleanupFailed | MetadataMismatch
  | ImmutableBlockConflict | TierUnavailable | StoreFull | LoadTimeout
  (* s3_fault_injection.py *)
  | S3InjectedError | S3InjectedTimeout
  (* Python *)
  | PyException | ValueError | UnicodeEncodeError | UnicodeDecodeError
  | JSONDecodeError | KeyError | IndexError | TypeError | AttributeError | OverflowError
  | ZeroDivisionError | RuntimeError | NotImplementedError
  | OSError | FileNotFoundError | TimeoutError
  | SqliteError | ProgrammingError | IntegrityError | OperationalError
  (* a class of code outside the repository, by its name; with the error code of
     its attribute [response], a dictionary [{"Error": {"Code": code}}] *)
  | ForeignError (name : pystr)
  | ResponseError (name code : pystr).

#[global] Instance exn_class_eq_decision : EqDecision exn_class.
Proof. solve_decision. Defined.

(** The base class, one level up. *)
Definition parent (c : exn_class) : option exn_class :=
  match c with
  | KVStoreError => Some PyException
  | BlockNotFound | CorruptionDetected | ImmutableBlockConflict
  | TierUnavailable | StoreFull | LoadTimeout => Some KVStoreError
  | ChecksumMismatch | RecordFormatError | CorruptionCleanupFailed
  | MetadataMismatch => Some CorruptionDetected
  | S3InjectedError => Some TierUnavailable
  | S3InjectedTimeout => Some LoadTimeout
  | PyException => None
  | UnicodeEncodeError | UnicodeDecodeError | JSONDecodeError => Some ValueError
  | NotImplementedError => Some RuntimeError
  | FileNotFoundError | TimeoutError => Some OSError
  | ProgrammingError | IntegrityError | OperationalError => Some SqliteError
  | _ => Some PyException
  end.

(** [issubclass]; the hierarchy is at most five levels deep. *)
Fixpoint subclass_fuel (n : nat) (c d : exn_class) : bool :=
  bool_decide (c = d) ||
  match n, parent c with
  | S n', Some p => subclass_fuel n' p d
  | _, _ => false
  end.

Definition subclass (c d : exn_class) : bool := subclass_fuel 5 c d.

(** [exc.__class__.__name__]. *)
Definition class_name (c : exn_class) : pystr :=
  match c with
  | KVStoreError => str "KVStoreError" | BlockNotFound => str "BlockNotFound"
  | CorruptionDetected => str "CorruptionDetected" | ChecksumMismatch => str "ChecksumMismatch"
  | RecordFormatError => str "RecordFormatError" | CorruptionCleanupFailed => str "CorruptionCleanupFailed"
  | MetadataMismatch => str "MetadataMismatch" | ImmutableBlockConflict => str "ImmutableBlockConflict"
  | TierUnavailable => str "TierUnavailable" | StoreFull => str "StoreFull" | LoadTimeout => str "LoadTimeout"
  | S3InjectedError => str "S3InjectedError" | S3InjectedTimeout => str "S3InjectedTimeout"
  | PyException => str "Exception" | ValueError => str "ValueError"
  | UnicodeEncodeError => str "UnicodeEncodeError" | UnicodeDecodeError => str "UnicodeDecodeError"
  | JSONDecodeError => str "JSONDecodeError" | KeyError => str "KeyError" | IndexError => str "IndexError"
  | TypeError => str "TypeError" | AttributeError => str "AttributeError" | OverflowError => str "OverflowError"
  | ZeroDivisionError => str "ZeroDivisionError" | RuntimeError => str "RuntimeError"
  | NotImplementedError => str "NotImplementedError" | OSError => str "OSError"
  | FileNotFoundError => str "FileNotFoundError" | TimeoutError => str "TimeoutError"
  | SqliteError => str "Error" | ProgrammingError => str "ProgrammingError"
  | IntegrityError => str "IntegrityError" | OperationalError => str "OperationalError"
  | ForeignError name | ResponseError name _ => name
  end.

(** ** Exception values *)

#[local] Set Warnings "-register-all".

(** Class, message ([str(e)]), [__cause__] (of [raise .. from ..]) and the error of
    a cleanup: the attribute [cleanup_error] of [CorruptionCleanupFailed], or the
    attribute [close_error] that [s3_tier._read_body] adds. *)
Inductive exn :=
  Exn (cls : exn_class) (msg : pystr) (cause : option exn) (cleanup : option exn).

Definition exn_cls (e : exn) : exn_class := let '(Exn c _ _ _) := e in c.
Definition exn_msg (e : exn) : pystr := let '(Exn _ m _ _) := e in m.
Definition exn_cause (e : exn) : option exn := let '(Exn _ _ c _) := e in c.
Definition exn_cleanup (e : exn) : option exn := let '(Exn _ _ _ c) := e in c.

(** [isinstance(e, c)]. *)
Definition is_a (e : exn) (c : exn_class) : bool := subclass (exn_cls e) c.

Definition err (c : exn_class) (m : pystr) : exn := Exn c m None None.
Definition err_from (c : exn_class) (m : pystr) (e : exn) : exn := Exn c m (Some e) None.

(** [CorruptionCleanupFailed(block_hash, operation, cleanup_error,
    corruption_error)], raised [from corruption_error]. *)
Definition cleanup_failed (block_hash operation : pystr) (cleanup corruption : exn) : exn :=
  Exn CorruptionCleanupFailed
      (block_hash ++ str ": corruption detected; " ++ operation ++ str " cleanup failed")
      (Some corruption) (Some cleanup).

(** ** Results *)

Inductive res (A : Type) := Ok (a : A) | Raise (e : exn).
Arguments Ok {A} a.
Arguments Raise {A} e.

Definition res_bind {A B} (r : res A) (f : A -> res B) : res B :=
  match r with Ok a => f a | Raise e => Raise e end.

(** [try: r except classes: raise f(e)]. *)
Definition res_catch {A} (r : res A) (cs : list exn_class) (f : exn -> res A) : res A :=
  match r with
  | Ok a => Ok a
  | Raise e => if existsb (is_a e) cs then f e else Raise e
  end.

Definition res_map {A B} (f : A -> B) (r : res A) : res B := res_bind r (fun a => Ok (f a)).

Definition is_ok {A} (r : res A) : bool := match r with Ok _ => true | Raise _ => false end.

(** [if not b: raise e]. *)
Definition ensure (b : bool) (e : exn) : res unit := if b then Ok tt else Raise e.

(** The first failure of a loop [for x in l: f x]. *)
Fixpoint res_each {A} (f : A -> res unit) (l : list A) : res unit :=
  match l with
  | [] => Ok tt
  | x :: l' => res_bind (f x) (fun _ => res_each f l')
  end.

(** A list comprehension whose element may raise. *)
Fixpoint res_list {A B} (f : A -> res B) (l : list A) : res (list B) :=
  match l with
  | [] => Ok []
  | x :: l' => res_bind (f x) (fun y => res_map (cons y) (res_list f l'))
  end.

Module ResNotations.
  Declare Scope res_scope.
  Delimit Scope res_scope with res.
  Notation "'let?' x := r 'in' k" := (res_bind r (fun x => k))
    (at level 10, x pattern, r at level 100, k at level 200) : res_scope.
  Notation "r1 ;? r2" := (res_bind r1 (fun _ => r2))
    (at level 100, right associativity) : res_scope.
End ResNotations.

(** ** State and exceptions *)

Definition M (S A : Type) : Type := S -> S * res A.

Definition ret {S A} (a : A) : M S A := fun s => (s, Ok a).
Definition raise {S A} (e : exn) : M S A := fun s => (s, Raise e).
Definition lift {S A} (r : res A) : M S A := fun s => (s, r).
Definition gets {S A} (f : S -> A) : M S A := fun s => (s, Ok (f s)).
Definition modify {S} (f : S -> S) : M S unit := fun s => (f s, Ok tt).

Definition bind {S A B} (m : M S A) (f : A -> M S B) : M S B :=
  fun s => let '(s', r) := m s in
           match r with Ok a => f a s' | Raise e => (s', Raise e) end.

(** [try: m except ...], the handler seeing every exception. *)
Definition try_catch {S A} (m : M S A) (h : exn -> M S A) : M S A :=
  fun s => let '(s', r) := m s in
           match r with Ok a => (s', Ok a) | Raise e => h e s' end.

(** [try: m finally: fin], where [fin] knows how [m] ended; an exception of
    [fin] replaces the outcome of [m]. *)
Definition try_finally {S A} (m : M S A) (fin : res A -> M S unit) : M S A :=
  fun s => let '(s1, r) := m s in
           let '(s2, r2) := fin r s1 in
           match r2 with Ok _ => (s2, r) | Raise e => (s2, Raise e) end.

Definition when {S} (b : bool) (m : M S unit) : M S unit := if b then m else ret tt.

(** A component of the state: a read and a write. *)
Definition zoom {S T A} (get : S -> T) (put : T -> S -> S) (m : M T A) : M S A :=
  fun s => let '(t, r) := m (get s) in (put t s, r).

Module MNotations.
  Declare Scope m_scope.
  Delimit Scope m_scope with m.
  Notation "'let*' x := m 'in' k" := (bind m (fun x => k))
    (at level 10, x pattern, m at level 100, k at level 200) : m_scope.
  Notation "m1 ;; m2" := (bind m1 (fun _ => m2))
    (at level 100, right associativity) : m_scope.
End MNotations.

(** ** Reasoning *)

(** The weakest precondition of a computation: [Q] of its result and final
    state. *)
Definition wp {S A} (m : M S A) (Q : res A -> S -> Prop) (s : S) : Prop :=
  Q (m s).2 (m s).1.

Lemma wp_bind {S A B} (m : M S A) (f : A -> M S B) Q s :
  wp m (fun r s' => match r with Ok a => wp (f a) Q s' | Raise e => Q (Raise e) s' end) s ->
  wp (bind m f) Q s.
Proof. unfold wp, bind. by destruct (m s) as [s' [a|e]]. Qed.

Lemma wp_mono {S A} (m : M S A) (Q Q' : res A -> S -> Prop) s :
  wp m Q s -> (forall r s', Q r s' -> Q' r s') -> wp m Q' s.
Proof. unfold wp. auto. Qed.

(** [I] holds after [m] whenever it held before, however [m] ended. *)
Definition preserves {S A} (I : S -> Prop) (m : M S A) : Prop :=
  forall s, I s -> I (m s).1.

Section Preserves.
Context {S : Type} (I : S -> Prop).

Lemma preserves_ret {A} (a : A) : preserves I (ret a).
Proof. by intros s. Qed.

Lemma preserves_raise {A} e : preserves I (raise (A := A) e).
Proof. by intros s. Qed.

Lemma preserves_lift {A} (r : res A) : preserves I (lift r).
Proof. by intros s. Qed.

Lemma preserves_gets {A} (f : S -> A) : preserves I (gets f).
Proof. by intros s. Qed.

Lemma preserves_modify f : (forall s, I s -> I (f s)) -> preserves I (modify f).
Proof. intros H s. apply H. Qed.

Lemma preserves_bind {A B} (m : M S A) (f : A -> M S B) :
  preserves I m -> (forall a, preserves I (f a)) -> preserves I (bind m f).
Proof.
  intros Hm Hf s Hs. unfold bind. specialize (Hm s Hs).
  destruct (m s) as [s' [a|e]]; simpl in *; [|done]. by apply Hf.
Qed.

Lemma preserves_try_catch {A} (m : M S A) h :
  preserves I m -> (forall e, preserves I (h e)) -> preserves I (try_catch m h).
Proof.
  intros Hm Hh s Hs. unfold try_catch. specialize (Hm s Hs).
  destruct (m s) as [s' [a|e]]; simpl in *; [done|]. by apply Hh.
Qed.

Lemma preserves_try_finally {A} (m : M S A) fin :
  preserves I m -> (forall r, preserves I (fin r)) -> preserves I (try_finally m fin).
Proof.
  intros Hm Hf s Hs. unfold try_finally. specialize (Hm s Hs).
  destruct (m s) as [s' r]. specialize (Hf r s').
  destruct (fin r s') as [s2 [|]]; simpl in *; auto.
Qed.

Lemma preserves_when b (m : M S unit) : preserves I m -> preserves I (when b m).
Proof. intros Hm. destruct b; [done|apply preserves_ret]. Qed.
End Preserves.

(** A step whose result is known. *)
Lemma preserves_lift_bind {S A B} (I : S -> Prop) (r : res A) (f : A -> M S B) :
  (forall a, r = Ok a -> preserves I (f a)) -> preserves I (bind (lift r) f).
Proof. intros H s Hs. unfold bind, lift. destruct r; [by apply H|done]. Qed.

(** One step of a computation under an invariant that holds whenever it raises. *)
Lemma wp_step {S A B} (I : S -> Prop) (m : M S A) (f : A -> M S B) Q s :
  preserves I m -> I s -> (forall e s', I s' -> Q (Raise e) s') ->
  (forall a s', I s' -> m s = (s', Ok a) -> wp (f a) Q s') -> wp (bind m f) Q s.
Proof.
  intros Hm Hs Hq Hf. apply wp_bind. specialize (Hm s Hs). unfold wp. destruct (m s) as [s' [a|e]]; simpl in *.
  - by apply (Hf a s').
  - by apply Hq.
Qed.

#[export] Hint Resolve preserves_ret preserves_raise preserves_lift preserves_gets
  preserves_bind preserves_try_catch preserves_try_finally preserves_when : kv.

(** Runs the definition of a computation one step at a time. *)
Create HintDb msimpl.
Ltac munfold := unfold bind, ret, raise, lift, gets, modify, when, zoom in *.

(** Inversion of results. *)
Lemma res_bind_ok {A B} (r : res A) (f : A -> res B) b :
  res_bind r f = Ok b -> exists a, r = Ok a /\ f a = Ok b.
Proof. destruct r; simpl; [eauto|done]. Qed.

Lemma res_map_ok {A B} (f : A -> B) (r : res A) b :
  res_map f r = Ok b -> exists a, r = Ok a /\ b = f a.
Proof. destruct r; simpl; [|done]. unfold res_map. simpl. intros [= <-]. eauto. Qed.

Lemma ensure_ok b e u : ensure b e = Ok u -> b = true.
Proof. by destruct b. Qed.

Lemma ensure_true b e : b = true -> ensure b e = Ok tt.
Proof. by intros ->. Qed.

Lemma res_catch_ok {A} (r : res A) cs c m a :
  res_catch r cs (fun e => Raise (err_from c m e)) = Ok a -> r = Ok a.
Proof. destruct r as [x|e]; simpl; [done|]. by destruct (existsb _ _). Qed.

Lemma res_each_ok {A} (f : A -> res unit) l u :
  res_each f l = Ok u -> Forall (fun x => f x = Ok tt) l.
Proof.
  revert u. induction l as [|x l IH]; simpl; intros u H; [constructor|].
  apply res_bind_ok in H as ([] & H1 & H2). constructor; eauto.
Qed.

Lemma res_each_all {A} (f : A -> res unit) l :
  Forall (fun x => f x = Ok tt) l -> res_each f l = Ok tt.
Proof. induction 1 as [|x l H _ IH]; simpl; [done|]. by rewrite H. Qed.

(** Inversion of computations. *)
Lemma bind_ok {S A B} (m : M S A) (f : A -> M S B) s s' b :
  bind m f s = (s', Ok b) -> exists a s1, m s = (s1, Ok a) /\ f a s1 = (s', Ok b).
Proof. unfold bind. destruct (m s) as [s1 [a|e]]; [eauto|done]. Qed.

Lemma bind_run {S A B} (m : M S A) (f : A -> M S B) s s1 a :
  m s = (s1, Ok a) -> bind m f s = f a s1.
Proof. unfold bind. by intros ->. Qed.

Lemma bind_raise {S A B} (m : M S A) (f : A -> M S B) s s1 e :
  m s = (s1, Raise e) -> bind m f s = (s1, Raise e).
Proof. unfold bind. by intros ->. Qed.

Lemma when_raise_ok {S} b e (s s' : S) u : when b (raise e) s = (s', Ok u) -> b = false /\ s' = s.
Proof. destruct b; [done|]. by intros [= <- _]. Qed.

Lemma try_catch_raise_ok {S A} (m : M S A) h s s' a :
  (forall e s1, is_ok (h e s1).2 = false) ->
  try_catch m h s = (s', Ok a) -> m s = (s', Ok a).
Proof.
  intros Hh. unfold try_catch. destruct (m s) as [s1 [x|e]]; [done|]. intros H.
  specialize (Hh e s1). rewrite H in Hh. done.
Qed.

Lemma try_finally_ok {S A} (m : M S A) fin s s' a :
  try_finally m fin s = (s', Ok a) -> exists s1, m s = (s1, Ok a) /\ exists u, fin (Ok a) s1 = (s', Ok u).
Proof.
  unfold try_finally. destruct (m s) as [s1 r]. destruct (fin r s1) as [s2 [u|e]] eqn:E; [|done].
  intros [= -> ->]. eauto.
Qed.

(** Hoare triples: [Q] of the result and the final state. *)
Definition hoare {S A} (P : S -> Prop) (m : M S A) (Q : res A -> S -> Prop) : Prop :=
  forall s, P s -> Q (m s).2 (m s).1.

Lemma hoare_bind {S A B} (P : S -> Prop) (m : M S A) (f : A -> M S B) R Q :
  hoare P m R -> (forall a, hoare (R (Ok a)) (f a) Q) -> (forall e s, R (Raise e) s -> Q (Raise e) s) ->
  hoare P (bind m f) Q.
Proof.
  intros Hm Hf He s Hs. specialize (Hm s Hs). unfold bind. destruct (m s) as [s1 [a|e]]; simpl in *.
  - by apply Hf.
  - by apply He.
Qed.

Lemma hoare_conseq {S A} (P P' : S -> Prop) (m : M S A) (Q Q' : res A -> S -> Prop) :
  hoare P' m Q' -> (forall s, P s -> P' s) -> (forall r s, Q' r s -> Q r s) -> hoare P m Q.
Proof. intros H HP HQ s Hs. apply HQ, H, HP, Hs. Qed.

Lemma hoare_preserves {S A} (I : S -> Prop) (m : M S A) :
  preserves I m <-> hoare I m (fun _ => I).
Proof. done. Qed.
