(* ===== verification/PyVal.v ===== *)
(** * Python values: what JSON documents and untyped fields hold

    [KVMetadata.from_dict] fills the fields of a dataclass from a decoded JSON
    document and [validate] checks their types afterwards, so those fields are
    dynamically typed values. A [dict] is the list of its items in insertion
    order, with string keys (all dictionaries of the sources have string keys). *)

From Stdlib Require Import SpecFloat.
From S2P Require Import Prelude PyText Float64 Errors.

#[local] Set Warnings "-register-all".
#[local] Unset Elimination Schemes.

Inductive pyval :=
  | PNone
  | PBool (b : bool)
  | PInt (z : Z)
  | PFloat (f : f64)
  | PStr (s : pystr)
  | PList (l : list pyval)
  | PTuple (l : list pyval)
  | PDict (d : list (pystr * pyval))
  | PObject (id : Z).   (* an object of any other class *)

Section Induction.
Context (P : pyval -> Prop).
Context (Hnone : P PNone) (Hbool : forall b, P (PBool b)) (Hint : forall z, P (PInt z))
        (Hfloat : forall f, P (PFloat f)) (Hstr : forall s, P (PStr s))
        (Hlist : forall l, Forall P l -> P (PList l))
        (Htuple : forall l, Forall P l -> P (PTuple l))
        (Hdict : forall d, Forall (fun kv => P kv.2) d -> P (PDict d))
        (Hobj : forall z, P (PObject z)).

Fixpoint pyval_ind (v : pyval) : P v :=
  match v with
  | PNone => Hnone
  | PBool b => Hbool b
  | PInt z => Hint z
  | PFloat f => Hfloat f
  | PStr s => Hstr s
  | PList l => Hlist l ((fix go (l : list pyval) : Forall P l :=
                           match l with
                           | [] => Forall_nil_2 P
                           | x :: l' => Forall_cons_2 P x l' (pyval_ind x) (go l')
                           end) l)
  | PTuple l => Htuple l ((fix go (l : list pyval) : Forall P l :=
                             match l with
                             | [] => Forall_nil_2 P
                             | x :: l' => Forall_cons_2 P x l' (pyval_ind x) (go l')
                             end) l)
  | PDict d => Hdict d ((fix go (d : list (pystr * pyval)) : Forall (fun kv => P kv.2) d :=
                           match d with
                           | [] => Forall_nil_2 _
                           | (k, x) :: d' => Forall_cons_2 _ (k, x) d' (pyval_ind x) (go d')
                           end) d)
  | PObject z => Hobj z
  end.
End Induction.

Set Elimination Schemes.

(** ** Type tests *)

Definition is_bool (v : pyval) : bool := match v with PBool _ => true | _ => false end.

(** [isinstance(v, int)]: a [bool] is an [int]. *)
Definition is_int (v : pyval) : bool := match v with PInt _ | PBool _ => true | _ => false end.
Definition is_float (v : pyval) : bool := match v with PFloat _ => true | _ => false end.
Definition is_str (v : pyval) : bool := match v with PStr _ => true | _ => false end.
Definition is_tuple (v : pyval) : bool := match v with PTuple _ => true | _ => false end.
Definition is_dict (v : pyval) : bool := match v with PDict _ => true | _ => false end.

(** [bool(v)]. *)
Definition truthy (v : pyval) : bool :=
  match v with
  | PNone => false
  | PBool b => b
  | PInt z => negb (z =? 0)
  | PFloat (S754_zero _) => false
  | PFloat _ => true
  | PStr s => negb (bool_decide (s = []))
  | PList l | PTuple l => match l with [] => false | _ => true end
  | PDict d => match d with [] => false | _ => true end
  | PObject _ => true
  end.

(** A value that has no hash: [v in {..}] raises [TypeError]. *)
Fixpoint hashable (v : pyval) : bool :=
  match v with
  | PList _ | PDict _ => false
  | PTuple l => forallb hashable l
  | _ => true
  end.

(** ** Dictionaries *)

Fixpoint dict_get {V} (k : pystr) (d : list (pystr * V)) : option V :=
  match d with
  | [] => None
  | (k', v) :: d' => if decide (k = k') then Some v else dict_get k d'
  end.

(** [d[k] = v]: an existing key keeps its place. *)
Fixpoint dict_set {V} (k : pystr) (v : V) (d : list (pystr * V)) : list (pystr * V) :=
  match d with
  | [] => [(k, v)]
  | (k', v') :: d' => if decide (k = k') then (k', v) :: d' else (k', v') :: dict_set k v d'
  end.

Definition dict_has {V} (k : pystr) (d : list (pystr * V)) : bool :=
  match dict_get k d with Some _ => true | None => false end.

Definition dict_keys {V} (d : list (pystr * V)) : list pystr := d.*1.

(** [d.get(k)], [None] when absent. *)
Definition get_or_none (k : pystr) (d : list (pystr * pyval)) : pyval :=
  default PNone (dict_get k d).

Lemma dict_get_set_eq {V} k (v : V) d : dict_get k (dict_set k v d) = Some v.
Proof.
  induction d as [|[k' v'] d IH]; simpl; [by rewrite decide_True|].
  case_decide; simpl; [by rewrite decide_True|]. by rewrite decide_False.
Qed.

Lemma dict_get_set_ne {V} k k' (v : V) d : k <> k' -> dict_get k (dict_set k' v d) = dict_get k d.
Proof.
  intros Hne. induction d as [|[k0 v0] d IH]; simpl; [by rewrite decide_False|].
  destruct (decide (k' = k0)) as [->|]; simpl; [by rewrite !decide_False|]. by rewrite IH.
Qed.

Lemma dict_get_elem {V} k (v : V) d : dict_get k d = Some v -> (k, v) ∈ d.
Proof.
  induction d as [|[k' v'] d IH]; simpl; [done|].
  case_decide; [intros [= <-]; subst; left|intros ?%IH; by right].
Qed.

Lemma elem_dict_get {V} k (v : V) d : NoDup d.*1 -> (k, v) ∈ d -> dict_get k d = Some v.
Proof.
  induction d as [|[k' v'] d IH]; simpl; intros Hnd Hin; [by apply not_elem_of_nil in Hin|].
  apply NoDup_cons in Hnd as [Hk Hnd]. apply elem_of_cons in Hin as [[= <- <-]|Hin].
  - by rewrite decide_True.
  - rewrite decide_False; [by apply IH|]. intros <-. apply Hk.
    change k with ((k, v).1). by apply list_elem_of_fmap_2.
Qed.

Lemma dict_get_None {V} k (d : list (pystr * V)) : dict_get k d = None <-> k ∉ d.*1.
Proof.
  induction d as [|[k' v'] d IH]; simpl; [split; [intros _ ?%not_elem_of_nil|]; done|].
  rewrite not_elem_of_cons. case_decide as Hk; [naive_solver|]. rewrite IH. naive_solver.
Qed.

(** ** Equality *)

(** A finite float as an exact number: [z = m * 2^e]. *)
Definition int_float_eq (z : Z) (f : f64) : bool :=
  match f with
  | S754_zero _ => z =? 0
  | S754_finite s m e =>
      let n := cond_Zopp s (Z.pos m) in
      if 0 <=? e then z =? n * 2 ^ e else z * 2 ^ (- e) =? n
  | _ => false
  end.

(** [v == w]. Numbers of different types compare by value; tuples and lists
    are never equal; dictionaries compare without regard to order. *)
Fixpoint py_eq (v w : pyval) {struct v} : bool :=
  let numZ z w := match w with
                  | PInt z' => z =? z'
                  | PBool b => z =? Z.b2z b
                  | PFloat f => int_float_eq z f
                  | _ => false
                  end in
  match v with
  | PNone => match w with PNone => true | _ => false end
  | PBool b => numZ (Z.b2z b) w
  | PInt z => numZ z w
  | PFloat f => match w with
                | PFloat g => f64_eqb f g
                | PInt z => int_float_eq z f
                | PBool b => int_float_eq (Z.b2z b) f
                | _ => false
                end
  | PStr s => match w with PStr s' => bool_decide (s = s') | _ => false end
  | PList l => match w with
               | PList l' =>
                   (fix all2 (l l' : list pyval) {struct l} : bool :=
                      match l, l' with
                      | [], [] => true
                      | x :: l, y :: l' => py_eq x y && all2 l l'
                      | _, _ => false
                      end) l l'
               | _ => false
               end
  | PTuple l => match w with
                | PTuple l' =>
                    (fix all2 (l l' : list pyval) {struct l} : bool :=
                       match l, l' with
                       | [], [] => true
                       | x :: l, y :: l' => py_eq x y && all2 l l'
                       | _, _ => false
                       end) l l'
                | _ => false
                end
  | PDict d => match w with
               | PDict d' =>
                   (length d =? length d')%nat &&
                   (fix sub (d : list (pystr * pyval)) : bool :=
                      match d with
                      | [] => true
                      | (k, x) :: d0 =>
                          match dict_get k d' with
                          | Some y => py_eq x y && sub d0
                          | None => false
                          end
                      end) d
               | _ => false
               end
  | PObject i => match w with PObject j => i =? j | _ => false end
  end.

Fixpoint py_eq_list (l l' : list pyval) : bool :=
  match l, l' with
  | [], [] => true
  | x :: l, y :: l' => py_eq x y && py_eq_list l l'
  | _, _ => false
  end.

Definition py_sub_dict (d d' : list (pystr * pyval)) : bool :=
  forallb (fun kv => match dict_get kv.1 d' with Some y => py_eq kv.2 y | None => false end) d.

Lemma py_eq_PList l l' : py_eq (PList l) (PList l') = py_eq_list l l'.
Proof. simpl. revert l'. induction l as [|x l IH]; intros [|y l']; simpl; auto; by rewrite IH. Qed.

Lemma py_eq_PTuple l l' : py_eq (PTuple l) (PTuple l') = py_eq_list l l'.
Proof. simpl. revert l'. induction l as [|x l IH]; intros [|y l']; simpl; auto; by rewrite IH. Qed.

Lemma py_eq_PDict d d' :
  py_eq (PDict d) (PDict d') = (length d =? length d')%nat && py_sub_dict d d'.
Proof.
  simpl. f_equal. induction d as [|[k x] d IH]; simpl; [done|].
  rewrite IH. by destruct (dict_get k d').
Qed.

(** Values without NaN whose dictionaries have distinct keys: equality is an
    equivalence on them. *)
Fixpoint regular (v : pyval) : bool :=
  match v with
  | PFloat f => negb (f64_nan f)
  | PList l | PTuple l => forallb regular l
  | PDict d => bool_decide (NoDup d.*1) &&
               (fix go d := match d with [] => true | (k, x) :: d' => regular x && go d' end) d
  | _ => true
  end.

Lemma regular_PDict d :
  regular (PDict d) = bool_decide (NoDup d.*1) && forallb (fun kv => regular kv.2) d.
Proof. simpl. f_equal. induction d as [|[k x] d IH]; simpl; [done|]. by rewrite IH. Qed.

Lemma regular_dict_inv d :
  regular (PDict d) = true -> NoDup d.*1 /\ forall k v, (k, v) ∈ d -> regular v = true.
Proof.
  rewrite regular_PDict, andb_true_iff, bool_decide_eq_true, Forall_forallb, Forall_forall.
  intros [H1 H2]. split; [done|]. intros k v Hin. apply (H2 _ Hin).
Qed.

Lemma f64_eqb_refl f : f64_nan f = false -> f64_eqb f f = true.
Proof.
  intros Hf. unfold f64_eqb, SFeqb. by rewrite (SFcompare_some f f), f64_cmp_refl.
Qed.

Lemma f64_eqb_sym f g : f64_eqb f g = f64_eqb g f.
Proof.
  destruct (f64_nan f) eqn:Ef; [by destruct f, g|].
  destruct (f64_nan g) eqn:Eg; [by destruct f, g|].
  unfold f64_eqb, SFeqb. rewrite (SFcompare_some f g), (SFcompare_some g f) by done.
  rewrite (f64_cmp_antisym f g). by destruct (f64_cmp f g).
Qed.

Lemma py_eq_list_refl l : Forall (fun v => regular v = true -> py_eq v v = true) l ->
  forallb regular l = true -> py_eq_list l l = true.
Proof.
  induction 1 as [|x l Hx _ IH]; simpl; [done|]. intros [H1 H2]%andb_true_iff. auto with bool.
Qed.

Lemma py_eq_refl v : regular v = true -> py_eq v v = true.
Proof.
  induction v as [|b|z|f|s|l IH|l IH|d IH|z] using pyval_ind; intros Hr.
  - done.
  - simpl. lia.
  - simpl. lia.
  - simpl in *. apply f64_eqb_refl. by destruct (f64_nan f).
  - simpl. by apply bool_decide_eq_true.
  - rewrite py_eq_PList. by apply py_eq_list_refl.
  - rewrite py_eq_PTuple. by apply py_eq_list_refl.
  - rewrite py_eq_PDict, Nat.eqb_refl. apply regular_dict_inv in Hr as [Hnd Hr]. simpl.
    apply Forall_forallb, Forall_forall. rewrite Forall_forall in IH.
    intros [k x] Hin. simpl. rewrite (elem_dict_get k x) by done. apply (IH _ Hin), (Hr _ _ Hin).
  - simpl. lia.
Qed.

Lemma py_eq_list_sym l : forall l',
  Forall (fun v => forall w, regular v = true -> regular w = true ->
                    py_eq v w = true -> py_eq w v = true) l ->
  forallb regular l = true -> forallb regular l' = true ->
  py_eq_list l l' = true -> py_eq_list l' l = true.
Proof.
  induction l as [|x l IH]; intros [|y l'] HF Hl Hl'; simpl in *; try done.
  apply Forall_cons in HF as [Hx HF]. rewrite !andb_true_iff in *. naive_solver.
Qed.

(** A sub-dictionary of the same size covers the other one. *)
Lemma dict_covered (d d' : list (pystr * pyval)) k :
  NoDup d.*1 -> NoDup d'.*1 -> length d = length d' ->
  (forall k, k ∈ d.*1 -> k ∈ d'.*1) -> k ∈ d'.*1 -> k ∈ d.*1.
Proof.
  intros Hd Hd' Hlen Hsub.
  assert (d.*1 ≡ₚ d'.*1) as Hp; [|by rewrite Hp].
  apply submseteq_length_Permutation.
  - apply NoDup_submseteq; [done|]. intros x. apply Hsub.
  - rewrite !length_fmap. lia.
Qed.

Lemma py_sub_dict_keys d d' k : py_sub_dict d d' = true -> k ∈ d.*1 -> k ∈ d'.*1.
Proof.
  unfold py_sub_dict. rewrite Forall_forallb, Forall_forall. intros H.
  intros ([k' x] & -> & Hin)%list_elem_of_fmap. specialize (H _ Hin). simpl in *.
  destruct (dict_get k' d') as [y|] eqn:E; [|done]. apply dict_get_elem in E.
  change k' with ((k', y).1). by apply list_elem_of_fmap_2.
Qed.

Lemma py_sub_dict_swap d d' :
  Forall (fun kv => forall w, regular kv.2 = true -> regular w = true ->
                      py_eq kv.2 w = true -> py_eq w kv.2 = true) d ->
  regular (PDict d) = true -> regular (PDict d') = true -> length d = length d' ->
  py_sub_dict d d' = true -> py_sub_dict d' d = true.
Proof.
  intros HF [Hd Hr]%regular_dict_inv [Hd' Hr']%regular_dict_inv Hlen Hsub.
  apply Forall_forallb, Forall_forall. intros [k y] Hin. simpl.
  assert (k ∈ d.*1) as Hk.
  { eapply dict_covered; [done..| |].
    - intros k0. by apply py_sub_dict_keys.
    - change k with ((k, y).1). by apply list_elem_of_fmap_2. }
  apply list_elem_of_fmap in Hk as ([k' x] & Ek & Hx). simpl in Ek. subst k'.
  rewrite (elem_dict_get k x) by done.
  unfold py_sub_dict in Hsub. rewrite Forall_forallb, Forall_forall in Hsub.
  specialize (Hsub _ Hx). simpl in Hsub. rewrite (elem_dict_get k y) in Hsub by done.
  rewrite Forall_forall in HF. eapply (HF _ Hx); simpl; eauto.
Qed.

Lemma py_eq_sym v : forall w,
  regular v = true -> regular w = true -> py_eq v w = true -> py_eq w v = true.
Proof.
  induction v as [|b|z|f|s|l IH|l IH|d IH|z] using pyval_ind; intros w Hv Hw;
    destruct w as [|b'|z'|f'|s'|l'|l'|d'|z']; try done; try (simpl; lia).
  - simpl. by rewrite f64_eqb_sym.
  - simpl. rewrite !bool_decide_eq_true. done.
  - rewrite !py_eq_PList. by apply py_eq_list_sym.
  - rewrite !py_eq_PTuple. by apply py_eq_list_sym.
  - rewrite !py_eq_PDict, !andb_true_iff, !Nat.eqb_eq. intros [Hl Hsub].
    split; [done|]. by apply py_sub_dict_swap.
Qed.
