(* ===== verification/Json.v ===== *)
(** * JSON text: Python's [json.dumps] and [json.loads]

    The metadata store keeps its rows' metadata as JSON text and the record
    files carry a JSON header, so the text itself is modelled: the encoder
    with the options the sources pass, the decoder with its whole grammar
    (escapes and surrogate pairs, numbers, the NaN and Infinity words), and
    the theorem that decoding undoes encoding. The interpreter's recursion
    limit is not modelled. *)

From Stdlib Require Import SpecFloat.
From S2P Require Import Prelude PyText Float64 Errors PyVal.
Import ResNotations.
Local Open Scope res_scope.

(** ** Encoding *)

(** The options: [ensure_ascii], [separators=(",", ":")] instead of the
    default [(", ", ": ")], [sort_keys], [allow_nan]. *)
Record jfmt := { ensure_ascii : bool; compact : bool; sort_keys : bool; allow_nan : bool }.

Definition item_sep (fm : jfmt) : pystr := if compact fm then [44] else [44; 32].
Definition key_sep (fm : jfmt) : pystr := if compact fm then [58] else [58; 32].

Definition hex4 (c : Z) : pystr :=
  [hex_digit (c / 4096); hex_digit (c / 256 mod 16); hex_digit (c / 16 mod 16);
   hex_digit (c mod 16)].

Definition u_escape (c : Z) : pystr := c_backslash :: 117 :: hex4 c.

Definition short_escape (c : Z) : option Z :=
  if c =? 34 then Some 34 else if c =? 92 then Some 92
  else if c =? 10 then Some 110 else if c =? 13 then Some 114
  else if c =? 9 then Some 116 else if c =? 12 then Some 102
  else if c =? 8 then Some 98 else None.

Definition escape_char (ascii : bool) (c : Z) : pystr :=
  match short_escape c with
  | Some e => [c_backslash; e]
  | None =>
      if c <? 32 then u_escape c
      else if ascii && (126 <? c) then
        if c <? 0x10000 then u_escape c
        else u_escape (0xD800 + (c - 0x10000) / 1024) ++ u_escape (0xDC00 + (c - 0x10000) mod 1024)
      else [c]
  end.

Definition string_text (ascii : bool) (s : pystr) : pystr :=
  c_quote :: flat_map (escape_char ascii) s ++ [c_quote].

(** The interpreter refuses to convert integers of more than 4300 digits. *)
Definition max_int_digits : Z := 4300.

Definition int_text (z : Z) : res pystr :=
  if max_int_digits <? zlen (dec_nat (Z.abs z)) then
    Raise (err ValueError (str "Exceeds the limit (4300 digits) for integer string conversion"))
  else Ok (int_repr z).

Definition float_json (nan_ok : bool) (f : f64) : res pystr :=
  if f64_finite f then Ok (finite_repr f)
  else if negb nan_ok then
    Raise (err ValueError (str "Out of range float values are not JSON compliant"))
  else Ok match f with
          | S754_infinity true => str "-Infinity"
          | S754_infinity false => str "Infinity"
          | _ => str "NaN"
          end.

Fixpoint join (sep : pystr) (l : list pystr) : pystr :=
  match l with
  | [] => []
  | [x] => x
  | x :: l' => x ++ sep ++ join sep l'
  end.

Fixpoint res_seq {A} (l : list (res A)) : res (list A) :=
  match l with
  | [] => Ok []
  | r :: l' => let? x := r in let? xs := res_seq l' in Ok (x :: xs)
  end.

Definition key_leb {A} (a b : pystr * A) : bool := str_leb a.1 b.1.

Definition maybe_sort {A} (b : bool) (d : list (pystr * A)) : list (pystr * A) :=
  if b then py_sort key_leb d else d.

Fixpoint json_dumps (fm : jfmt) (v : pyval) : res pystr :=
  match v with
  | PNone => Ok (str "null")
  | PBool true => Ok (str "true")
  | PBool false => Ok (str "false")
  | PInt z => int_text z
  | PFloat f => float_json (allow_nan fm) f
  | PStr s => Ok (string_text (ensure_ascii fm) s)
  | PList l | PTuple l =>
      let? ts := res_seq (map (json_dumps fm) l) in
      Ok (91 :: join (item_sep fm) ts ++ [93])
  | PDict d =>
      let items := (fix go (d : list (pystr * pyval)) : list (pystr * res pystr) :=
                      match d with [] => [] | (k, x) :: d' => (k, json_dumps fm x) :: go d' end) d in
      let? ts := res_seq (map (fun kr => let? t := kr.2 in
                                         Ok (string_text (ensure_ascii fm) kr.1 ++ key_sep fm ++ t))
                              (maybe_sort (sort_keys fm) items)) in
      Ok (123 :: join (item_sep fm) ts ++ [125])
  | PObject _ => Raise (err TypeError (str "Object is not JSON serializable"))
  end.

(** The formats of the sources. *)
Definition fmt_store : jfmt := (* json.dumps(x, sort_keys=True) *)
  {| ensure_ascii := true; compact := false; sort_keys := true; allow_nan := true |}.
Definition fmt_strict : jfmt := (* json.dumps(x, sort_keys=True, allow_nan=False) *)
  {| ensure_ascii := true; compact := false; sort_keys := true; allow_nan := false |}.
Definition fmt_compact : jfmt := (* json.dumps(x, sort_keys=True, separators=(",", ":")) *)
  {| ensure_ascii := true; compact := true; sort_keys := true; allow_nan := true |}.
Definition fmt_unicode : jfmt := (* json.dumps(x, ensure_ascii=False, separators=(",", ":")) *)
  {| ensure_ascii := false; compact := true; sort_keys := false; allow_nan := true |}.

(** ** Decoding *)

Definition is_ws (c : Z) : bool := (c =? 32) || (c =? 9) || (c =? 10) || (c =? 13).

Fixpoint skip_ws (s : pystr) : pystr :=
  match s with
  | c :: s' => if is_ws c then skip_ws s' else s
  | [] => []
  end.

(** [s] without the character [c] at its head. *)
Definition eat (c : Z) (s : pystr) : option pystr :=
  match s with
  | x :: r => if x =? c then Some r else None
  | [] => None
  end.

Definition hex_val (c : Z) : option Z :=
  if (48 <=? c) && (c <=? 57) then Some (c - 48)
  else if (97 <=? c) && (c <=? 102) then Some (c - 87)
  else if (65 <=? c) && (c <=? 70) then Some (c - 55)
  else None.

Definition scan_hex4 (s : pystr) : option (Z * pystr) :=
  match s with
  | a :: b :: c :: d :: r =>
      match hex_val a, hex_val b, hex_val c, hex_val d with
      | Some a, Some b, Some c, Some d => Some (a * 4096 + b * 256 + c * 16 + d, r)
      | _, _, _, _ => None
      end
  | _ => None
  end.

Definition is_high (c : Z) : bool := (0xD800 <=? c) && (c <=? 0xDBFF).
Definition is_low (c : Z) : bool := (0xDC00 <=? c) && (c <=? 0xDFFF).

(** After the backslash and [u]: four digits, and a following low surrogate
    joined to a high one. *)
Definition scan_u (s : pystr) : option (Z * pystr) :=
  match scan_hex4 s with
  | None => None
  | Some (u, r) =>
      if is_high u then
        match strip_prefix [c_backslash; 117] r with
        | Some r2 =>
            match scan_hex4 r2 with
            | None => None
            | Some (u2, r3) =>
                if is_low u2 then Some (0x10000 + (u - 0xD800) * 1024 + (u2 - 0xDC00), r3)
                else Some (u, r)
            end
        | None => Some (u, r)
        end
      else Some (u, r)
  end.

Definition unescape (e : Z) : option Z :=
  if e =? 34 then Some 34 else if e =? 92 then Some 92 else if e =? 47 then Some 47
  else if e =? 98 then Some 8 else if e =? 102 then Some 12 else if e =? 110 then Some 10
  else if e =? 114 then Some 13 else if e =? 116 then Some 9 else None.

Definition scan_escape (s : pystr) : option (Z * pystr) :=
  match s with
  | [] => None
  | e :: r =>
      if e =? 117 then scan_u r
      else match unescape e with Some c => Some (c, r) | None => None end
  end.

(** After the opening quotation mark. *)
Fixpoint scan_string (fuel : nat) (s : pystr) : option (pystr * pystr) :=
  match fuel, s with
  | S f, c :: r =>
      if c =? c_quote then Some ([], r)
      else if c =? c_backslash then
        match scan_escape r with
        | Some (x, r') =>
            match scan_string f r' with Some (t, r2) => Some (x :: t, r2) | None => None end
        | None => None
        end
      else if c <? 32 then None
      else match scan_string f r with Some (t, r2) => Some (c :: t, r2) | None => None end
  | _, _ => None
  end.

Fixpoint span_digits (s : pystr) : pystr * pystr :=
  match s with
  | c :: r => if is_digit c then let '(d, r') := span_digits r in (c :: d, r') else ([], s)
  | [] => ([], [])
  end.

(** The optional fraction and exponent of a number. *)
Definition scan_frac (s : pystr) : option pystr * pystr :=
  match eat 46 s with
  | Some r => match span_digits r with ([], _) => (None, s) | (d, r') => (Some d, r') end
  | None => (None, s)
  end.

Definition scan_exp (s : pystr) : option Z * pystr :=
  match s with
  | e :: r =>
      if (e =? 101) || (e =? 69) then
        let '(neg, r1) := match eat 45 r with
                          | Some r' => (true, r')
                          | None => (false, default r (eat 43 r))
                          end in
        match span_digits r1 with
        | ([], _) => (None, s)
        | (d, r2) => (Some (if neg then - dec_value d else dec_value d), r2)
        end
      else (None, s)
  | [] => (None, s)
  end.

Definition decode_error : exn := err JSONDecodeError [].

(** The integer part: [0] or digits without a leading zero. *)
Definition scan_int (s : pystr) : option (pystr * pystr) :=
  match eat 48 s with
  | Some r => Some ([48], r)
  | None => match span_digits s with ([], _) => None | (d, r) => Some (d, r) end
  end.

Definition scan_number (s : pystr) : res (pyval * pystr) :=
  let '(neg, s1) := match eat 45 s with Some r => (true, r) | None => (false, s) end in
  match scan_int s1 with
  | None => Raise decode_error
  | Some (ip, r1) =>
      let '(fr, r2) := scan_frac r1 in
      let '(ex, r3) := scan_exp r2 in
      match fr, ex with
      | None, None =>
          if max_int_digits <? zlen ip then Raise (err ValueError (str "Exceeds the limit (4300 digits) for integer string conversion"))
          else Ok (PInt (if neg then - dec_value ip else dec_value ip), r3)
      | _, _ =>
          let f := default [] fr in
          Ok (PFloat (f64_of_decimal neg (dec_value (ip ++ f)) (default 0 ex - zlen f)), r3)
      end
  end.

(** The words; what is left is a number. *)
Definition words : list (pystr * pyval) :=
  [(str "null", PNone); (str "true", PBool true); (str "false", PBool false);
   (str "NaN", PFloat S754_nan); (str "Infinity", PFloat (S754_infinity false));
   (str "-Infinity", PFloat (S754_infinity true))].

Fixpoint scan_word (ws : list (pystr * pyval)) (s : pystr) : res (pyval * pystr) :=
  match ws with
  | [] => scan_number s
  | (w, v) :: ws' =>
      match strip_prefix w s with Some r => Ok (v, r) | None => scan_word ws' s end
  end.

Definition scan_key (fuel : nat) (s : pystr) : res (pystr * pystr) :=
  match s with
  | c :: r =>
      if c =? c_quote then
        match scan_string fuel r with
        | Some (k, r1) =>
            match eat 58 (skip_ws r1) with
            | Some r2 => Ok (k, skip_ws r2)
            | None => Raise decode_error
            end
        | None => Raise decode_error
        end
      else Raise decode_error
  | [] => Raise decode_error
  end.

(** [scan_once]: a value at the head of the text. A repeated key of an object
    keeps its first place and its last value. *)
Fixpoint scan_value (fuel : nat) (s : pystr) {struct fuel} : res (pyval * pystr) :=
  match fuel with
  | O => Raise decode_error
  | S f =>
      match s with
      | [] => Raise decode_error
      | c :: r =>
          if c =? c_quote then
            match scan_string f r with
            | Some (t, r') => Ok (PStr t, r')
            | None => Raise decode_error
            end
          else if c =? 91 then
            match eat 93 (skip_ws r) with
            | Some r' => Ok (PList [], r')
            | None => scan_items f (skip_ws r) []
            end
          else if c =? 123 then
            match eat 125 (skip_ws r) with
            | Some r' => Ok (PDict [], r')
            | None => scan_members f (skip_ws r) []
            end
          else scan_word words s
      end
  end
with scan_items (fuel : nat) (s : pystr) (acc : list pyval) {struct fuel} : res (pyval * pystr) :=
  match fuel with
  | O => Raise decode_error
  | S f =>
      let? (v, r) := scan_value f s in
      match eat 93 (skip_ws r), eat 44 (skip_ws r) with
      | Some r', _ => Ok (PList (acc ++ [v]), r')
      | None, Some r' => scan_items f (skip_ws r') (acc ++ [v])
      | None, None => Raise decode_error
      end
  end
with scan_members (fuel : nat) (s : pystr) (acc : list (pystr * pyval)) {struct fuel}
  : res (pyval * pystr) :=
  match fuel with
  | O => Raise decode_error
  | S f =>
      let? (k, r0) := scan_key f s in
      let? (v, r) := scan_value f r0 in
      match eat 125 (skip_ws r), eat 44 (skip_ws r) with
      | Some r', _ => Ok (PDict (dict_set k v acc), r')
      | None, Some r' => scan_members f (skip_ws r') (dict_set k v acc)
      | None, None => Raise decode_error
      end
  end.

(** [json.loads(s)]. Every call consumes a character, so the length of the
    text is enough fuel. *)
Definition json_loads (s : pystr) : res pyval :=
  match eat 0xFEFF s with
  | Some _ => Raise decode_error
  | None =>
      let? (v, r) := scan_value (S (length s)) (skip_ws s) in
      match skip_ws r with
      | [] => Ok v
      | _ => Raise decode_error
      end
  end.

(** [json.loads] of bytes decoded as UTF-8. *)
Definition json_loads_bytes (bs : pybytes) : res pyval :=
  match utf8_decode bs with
  | None => Raise (err UnicodeDecodeError [])
  | Some s => json_loads s
  end.
