(* ===== verification/JsonFacts.v ===== *)
(** * Decoding undoes encoding

    The round trip of [json.dumps] and [json.loads] for every document whose
    strings are scalar values and whose floats are printed exactly
    ([json_ok]), up to what JSON forgets: tuples become lists, and sorted
    keys lose their insertion order ([json_norm]). *)

From Stdlib Require Import SpecFloat.
From S2P Require Import Prelude PyText Float64 Errors PyVal Json.
Import ResNotations.

(** ** Strings *)

Lemma hex_val_digit v : 0 <= v < 16 -> hex_val (hex_digit v) = Some v.
Proof.
  intros Hv. unfold hex_val, hex_digit. destruct (v <? 10) eqn:E; breflect.
  - replace ((48 <=? 48 + v) && (48 + v <=? 57)) with true by lia. f_equal. lia.
  - replace ((48 <=? 87 + v) && (87 + v <=? 57)) with false by lia.
    replace ((97 <=? 87 + v) && (87 + v <=? 102)) with true by lia. f_equal. lia.
Qed.

Lemma scan_hex4_hex4 c r : 0 <= c < 65536 -> scan_hex4 (hex4 c ++ r) = Some (c, r).
Proof.
  intros Hc. unfold hex4. cbn [app scan_hex4]. rewrite !hex_val_digit by zdm.
  do 2 f_equal. zdm.
Qed.

Lemma scan_u_bmp c r : 0 <= c < 65536 -> is_surrogate c = false -> scan_u (hex4 c ++ r) = Some (c, r).
Proof.
  intros Hc Hs. unfold scan_u. rewrite scan_hex4_hex4 by done.
  replace (is_high c) with false; [done|]. unfold is_high, is_surrogate in *. lia.
Qed.

Lemma scan_u_pair c r :
  0x10000 <= c < 0x110000 ->
  scan_u (hex4 (0xD800 + (c - 0x10000) / 1024)
          ++ u_escape (0xDC00 + (c - 0x10000) mod 1024) ++ r) = Some (c, r).
Proof.
  intros Hc. assert (0 <= (c - 0x10000) / 1024 < 1024) as H1 by zdm.
  assert (0 <= (c - 0x10000) mod 1024 < 1024) as H2 by zdm.
  unfold scan_u. rewrite scan_hex4_hex4 by lia.
  replace (is_high _) with true by (unfold is_high; lia).
  unfold u_escape. rewrite <- !app_comm_cons.
  change (c_backslash :: 117 :: ?x) with ([c_backslash; 117] ++ x).
  rewrite strip_prefix_app, scan_hex4_hex4 by lia.
  replace (is_low _) with true by (unfold is_low; lia). do 2 f_equal. zdm.
Qed.

Lemma short_escape_spec c e :
  short_escape c = Some e -> e <> 117 /\ unescape e = Some c.
Proof.
  unfold short_escape. repeat case_match; intros [= <-]; breflect; subst; done.
Qed.

Lemma short_escape_none c : short_escape c = None -> c <> 34 /\ c <> 92.
Proof. unfold short_escape. repeat case_match; breflect; try done; lia. Qed.

Lemma scan_string_step f x r :
  scan_string (S f) (c_backslash :: r) =
  match scan_escape r with
  | Some (x, r') =>
      match scan_string f r' with Some (t, r2) => Some (x :: t, r2) | None => None end
  | None => None
  end /\
  (x <> 34 -> x <> 92 -> 32 <= x -> scan_string (S f) (x :: r) =
     match scan_string f r with Some (t, r2) => Some (x :: t, r2) | None => None end).
Proof.
  split; [done|]. intros. cbn [scan_string]. unfold c_quote, c_backslash.
  replace (x =? 34) with false by lia. replace (x =? 92) with false by lia.
  by replace (x <? 32) with false by lia.
Qed.

Lemma scan_escape_char ascii c f r :
  is_scalar c = true ->
  scan_string (S f) (escape_char ascii c ++ r) =
  match scan_string f r with Some (t, r2) => Some (c :: t, r2) | None => None end.
Proof.
  intros Hc. unfold is_scalar in Hc. breflect. unfold escape_char.
  destruct (short_escape c) as [e|] eqn:Ee.
  - apply short_escape_spec in Ee as [He Hu]. cbn [app].
    rewrite (proj1 (scan_string_step f c _)). cbn [scan_escape].
    replace (e =? 117) with false by lia. by rewrite Hu.
  - apply short_escape_none in Ee as [H34 H92].
    destruct (c <? 32) eqn:E32; [|destruct (ascii && (126 <? c)) eqn:Ea;
      [destruct (c <? 0x10000) eqn:Eb|]]; breflect.
    + unfold u_escape. cbn [app]. rewrite (proj1 (scan_string_step f c _)).
      cbn [scan_escape]. change (117 =? 117) with true. cbn match.
      rewrite scan_u_bmp; [done|lia|]. unfold is_surrogate. lia.
    + unfold u_escape. cbn [app]. rewrite (proj1 (scan_string_step f c _)).
      cbn [scan_escape]. change (117 =? 117) with true. cbn match.
      by rewrite scan_u_bmp by (done || lia).
    + rewrite <- app_assoc. unfold u_escape at 1. rewrite <- !app_comm_cons.
      rewrite (proj1 (scan_string_step f c _)).
      cbn [scan_escape]. change (117 =? 117) with true. cbn match.
      by rewrite scan_u_pair by lia.
    + cbn [app]. by rewrite (proj2 (scan_string_step f c r)) by lia.
Qed.

Definition str_ok (s : pystr) : bool := forallb is_scalar s.

Lemma scan_string_text ascii s : forall f r,
  str_ok s = true -> (length s < f)%nat ->
  scan_string f (flat_map (escape_char ascii) s ++ c_quote :: r) = Some (s, r).
Proof.
  induction s as [|c s IH]; intros [|f] r Hs Hf; cbn [length] in Hf; try lia; [done|].
  unfold str_ok in Hs. cbn [forallb] in Hs. breflect. cbn [flat_map].
  rewrite <- app_assoc, scan_escape_char by done. by rewrite IH by (done || lia).
Qed.

Lemma flat_map_escape_length ascii s :
  (length s <= length (flat_map (escape_char ascii) s))%nat.
Proof.
  induction s as [|c s IH]; simpl; [lia|]. rewrite length_app.
  assert (1 <= length (escape_char ascii c))%nat; [|lia].
  unfold escape_char. repeat case_match; simpl; lia.
Qed.

(** ** Numbers *)

(** What may follow a number: not a digit, a point, an exponent mark or a sign. *)
Definition stop (r : pystr) : bool :=
  match r with
  | [] => true
  | c :: _ => negb (is_digit c || (c =? 46) || (c =? 101) || (c =? 69) || (c =? 43) || (c =? 45))
  end.

Lemma span_digits_app s d s' r :
  span_digits s = (d, s') -> (s' = [] -> stop r = true) ->
  span_digits (s ++ r) = (d, s' ++ r).
Proof.
  revert d s'. induction s as [|c s IH]; simpl; intros d s' Hs Hstop.
  - injection Hs as <- <-. specialize (Hstop eq_refl). destruct r as [|c r]; simpl; [done|].
    simpl in Hstop. destruct (is_digit c); [done|]. done.
  - destruct (is_digit c) eqn:Ec.
    + destruct (span_digits s) as [d0 r0] eqn:Es. injection Hs as <- <-.
      by rewrite (IH d0 r0).
    + by injection Hs as <- <-.
Qed.

Lemma span_digits_eq s d s' : span_digits s = (d, s') -> s = d ++ s'.
Proof.
  revert d s'. induction s as [|c s IH]; simpl; intros d s'; [by intros [= <- <-]|].
  destruct (is_digit c); [|by intros [= <- <-]].
  destruct (span_digits s) as [d0 r0]. intros [= <- <-]. simpl. f_equal. by apply IH.
Qed.

Lemma eat_app c s r : s <> [] -> eat c (s ++ r) = (fun x => x ++ r) <$> eat c s.
Proof. destruct s as [|x s]; [done|]. intros _. simpl. by destruct (x =? c). Qed.

Lemma stop_eat c r : stop r = true -> (c = 46 \/ c = 43 \/ c = 45) -> eat c r = None.
Proof.
  destruct r as [|x r]; [done|]. simpl. intros Hs Hc. destruct (x =? c) eqn:E; [|done].
  breflect. subst. destruct Hc as [->|[->| ->]]; done.
Qed.

Lemma stop_exp r : stop r = true -> scan_exp r = (None, r).
Proof.
  destruct r as [|x r]; [done|]. simpl. intros Hs. by replace ((x =? 101) || (x =? 69)) with false by lia.
Qed.

Lemma scan_exp_app s ex r :
  scan_exp s = (ex, []) -> stop r = true -> scan_exp (s ++ r) = (ex, r).
Proof.
  intros Hs Hr. destruct s as [|e s]; [injection Hs as <-; by apply stop_exp|].
  simpl in *. destruct ((e =? 101) || (e =? 69)); [|done].
  assert (s <> []) as Hne by (intros ->; done).
  rewrite !eat_app by done.
  assert (exists neg r1, (match eat 45 s with Some r' => (true, r') | None => (false, default s (eat 43 s)) end)
            = (neg, r1) /\ (match (fun x => x ++ r) <$> eat 45 s with Some r' => (true, r')
                  | None => (false, default (s ++ r) ((fun x => x ++ r) <$> eat 43 s)) end) = (neg, r1 ++ r))
    as (neg & r1 & E1 & E2).
  { destruct (eat 45 s); simpl; [eauto|]. destruct (eat 43 s); simpl; eauto. }
  rewrite E1 in Hs. rewrite E2. destruct (span_digits r1) as [d r2] eqn:Ed.
  destruct d as [|c d]; [done|]. injection Hs as <- ->.
  by rewrite (span_digits_app _ _ _ r Ed).
Qed.

Lemma scan_frac_app s fr r2 ex r :
  scan_frac s = (fr, r2) -> scan_exp r2 = (ex, []) -> stop r = true ->
  scan_frac (s ++ r) = (fr, r2 ++ r).
Proof.
  intros Hs He Hr. unfold scan_frac in *. destruct s as [|x s].
  - injection Hs as <- <-. simpl. by rewrite stop_eat by auto.
  - rewrite eat_app by done. destruct (eat 46 (x :: s)) as [s1|] eqn:Ee; simpl;
      [|by injection Hs as <- <-].
    destruct (span_digits s1) as [d r3] eqn:Ed.
    rewrite (span_digits_app _ _ _ r Ed) by done.
    destruct d as [|c d]; [|by injection Hs as <- <-]. injection Hs as <- <-.
    simpl in Ee. destruct (x =? 46) eqn:Ex; [|done]. breflect. by subst.
Qed.

Lemma scan_int_app s ip r1 r :
  scan_int s = Some (ip, r1) -> stop r = true -> scan_int (s ++ r) = Some (ip, r1 ++ r).
Proof.
  intros Hs Hr. unfold scan_int in *. destruct s as [|x s]; [done|].
  rewrite eat_app by done.
  destruct (eat 48 (x :: s)); cbn [fmap option_fmap option_map]; [by injection Hs as <- <-|].
  destruct (span_digits (x :: s)) as [d r2] eqn:Ed. destruct d as [|c d]; [done|].
  injection Hs as <- <-. pose proof (span_digits_app _ _ _ r Ed (fun _ => Hr)) as Hsp.
  cbn [app] in *. by rewrite Hsp.
Qed.

(** A number is read up to a character that cannot continue it. *)
Lemma scan_number_app s v r :
  scan_number s = Ok (v, []) -> stop r = true -> scan_number (s ++ r) = Ok (v, r).
Proof.
  intros Hs Hr. unfold scan_number in *.
  assert (s <> []) as Hne by (intros ->; done). rewrite eat_app by done.
  assert (exists neg s1, (match eat 45 s with Some r => (true, r) | None => (false, s) end) = (neg, s1)
     /\ (match (fun x => x ++ r) <$> eat 45 s with Some r => (true, r) | None => (false, s ++ r) end)
        = (neg, s1 ++ r)) as (neg & s1 & E1 & E2) by (destruct (eat 45 s); simpl; eauto).
  rewrite E1 in Hs. rewrite E2. clear E1 E2.
  destruct (scan_int s1) as [[ip r1]|] eqn:Ei; [|done].
  rewrite (scan_int_app _ _ _ r Ei) by done.
  destruct (scan_frac r1) as [fr r2] eqn:Ef. destruct (scan_exp r2) as [ex r3] eqn:Ee.
  assert (r3 = []) as ->.
  { destruct fr, ex; try (by injection Hs). by destruct (max_int_digits <? zlen ip); [|injection Hs]. }
  rewrite (scan_frac_app _ _ _ _ r Ef Ee Hr), (scan_exp_app _ _ r Ee Hr).
  destruct fr, ex; try (by injection Hs as <-).
  destruct (max_int_digits <? zlen ip); [done|]. by injection Hs as <-.
Qed.

Lemma span_digits_all d : Forall (fun c => is_digit c = true) d -> span_digits d = (d, []).
Proof. induction 1 as [|c d Hc _ IH]; simpl; [done|]. by rewrite Hc, IH. Qed.

Lemma dec_nat_0 : dec_nat 0 = [48].
Proof. done. Qed.

Lemma scan_int_dec_nat z : 0 <= z -> scan_int (dec_nat z) = Some (dec_nat z, []).
Proof.
  intros Hz. unfold scan_int. destruct (decide (z = 0)) as [->|Hnz]; [done|].
  rewrite span_digits_all by (by apply dec_nat_digit).
  destruct (dec_nat z) as [|c s] eqn:Ed; [by destruct (dec_nat_nonempty z)|].
  simpl. replace (c =? 48) with false; [done|].
  pose proof (dec_nat_head z c s ltac:(lia) Ed). lia.
Qed.

Lemma dec_nat_no_sign z : 0 <= z -> eat 45 (dec_nat z) = None.
Proof.
  intros Hz. pose proof (dec_nat_digit z Hz) as Hd. destruct (dec_nat z) as [|c s]; [done|].
  apply Forall_cons in Hd as [Hc _]. simpl. unfold is_digit in Hc.
  by replace (c =? 45) with false by lia.
Qed.

Lemma scan_number_int z t : int_text z = Ok t -> scan_number t = Ok (PInt z, []).
Proof.
  unfold int_text. destruct (max_int_digits <? _) eqn:E; [done|]. intros [= <-].
  unfold scan_number, int_repr. destruct (z <? 0) eqn:Ez; breflect.
  - replace (Z.abs z) with (- z) in E by lia.
    cbn [eat]. change (45 =? 45) with true. cbn match.
    rewrite scan_int_dec_nat by lia. cbn -[dec_nat Z.ltb max_int_digits Z.of_nat].
    replace (max_int_digits <? zlen (dec_nat (- z))) with false by lia.
    rewrite dec_nat_value by lia. do 3 f_equal. lia.
  - replace (Z.abs z) with z in E by lia.
    rewrite dec_nat_no_sign, scan_int_dec_nat by lia.
    cbn -[dec_nat Z.ltb max_int_digits Z.of_nat].
    replace (max_int_digits <? zlen (dec_nat z)) with false by lia.
    by rewrite dec_nat_value by lia.
Qed.

(** The text of a number starts with a digit or a sign and a digit: none of
    the words does. *)
Lemma scan_number_head s v r :
  scan_number s = Ok (v, r) ->
  exists c s', is_digit c = true /\ (s = c :: s' \/ s = 45 :: c :: s').
Proof.
  unfold scan_number. intros H.
  assert (forall s1 ip r1, scan_int s1 = Some (ip, r1) ->
            exists c s', is_digit c = true /\ s1 = c :: s') as Hint.
  { intros [|c s1] ip r1; [done|]. unfold scan_int. cbn [eat].
    destruct (c =? 48) eqn:E; [apply Z.eqb_eq in E as ->; intros _; by exists 48, s1|].
    cbn [span_digits]. destruct (is_digit c) eqn:Ec; [eauto|done]. }
  destruct s as [|x s]; [done|]. cbn [eat] in H. destruct (x =? 45) eqn:Ex.
  - apply Z.eqb_eq in Ex as ->. destruct (scan_int s) as [[ip r1]|] eqn:Ei; [|done].
    apply Hint in Ei as (c & s' & Hc & ->). eauto.
  - destruct (scan_int (x :: s)) as [[ip r1]|] eqn:Ei; [|done].
    apply Hint in Ei as (c & s' & Hc & Heq). exists c, s'. auto.
Qed.

Lemma scan_word_number s v r :
  scan_number s = Ok (v, r) -> scan_word words s = Ok (v, r).
Proof.
  intros H. apply scan_number_head in H as Hh.
  destruct Hh as (c & s' & Hc & Hs). unfold is_digit in Hc.
  assert (Forall (fun w => strip_prefix w s = None) (words.*1)) as HF.
  { destruct Hs as [-> | ->]; cbn [words fmap list_fmap fst];
      repeat apply Forall_cons_2; try apply Forall_nil_2; cbn;
      repeat case_decide; try done; lia. }
  cbn [words fmap list_fmap fst] in HF. unfold words. cbn [scan_word].
  repeat (apply Forall_cons in HF as [-> HF]). done.
Qed.

(** ** Documents *)

Definition float_ok (f : f64) : bool :=
  f64_finite f &&
  match scan_number (finite_repr f) with
  | Ok (PFloat g, []) => bool_decide (f = g)
  | _ => false
  end.

Fixpoint json_ok (v : pyval) : bool :=
  match v with
  | PFloat f => float_ok f
  | PStr s => str_ok s
  | PList l | PTuple l => forallb json_ok l
  | PDict d => bool_decide (NoDup d.*1) &&
               (fix go d := match d with
                            | [] => true
                            | (k, x) :: d' => str_ok k && json_ok x && go d'
                            end) d
  | PObject _ => false
  | _ => true
  end.

(** What the text keeps of a document. *)
Fixpoint json_norm (fm : jfmt) (v : pyval) : pyval :=
  match v with
  | PList l | PTuple l => PList (map (json_norm fm) l)
  | PDict d =>
      PDict (maybe_sort (sort_keys fm)
               ((fix go d := match d with
                             | [] => []
                             | (k, x) :: d' => (k, json_norm fm x) :: go d'
                             end) d))
  | _ => v
  end.

Definition on_values {A B} (f : A -> B) (d : list (pystr * A)) : list (pystr * B) :=
  map (fun kv => (kv.1, f kv.2)) d.

Lemma json_ok_dict d :
  json_ok (PDict d) = true ->
  NoDup d.*1 /\ Forall (fun kv => str_ok kv.1 = true /\ json_ok kv.2 = true) d.
Proof.
  simpl. rewrite andb_true_iff, bool_decide_eq_true. intros [Hnd H]. split; [done|]. clear Hnd.
  induction d as [|[k x] d IH]; constructor; rewrite !andb_true_iff in H; simpl; naive_solver.
Qed.

Lemma json_norm_dict fm d :
  json_norm fm (PDict d) = PDict (maybe_sort (sort_keys fm) (on_values (json_norm fm) d)).
Proof.
  simpl. do 2 f_equal. induction d as [|[k x] d IH]; simpl; [done|]. by rewrite IH.
Qed.

Lemma sort_insert_map {A B} (f : A -> B) kv d :
  sort_insert key_leb (kv.1, f kv.2) (on_values f d) = on_values f (sort_insert key_leb kv d).
Proof.
  induction d as [|kv' d IH]; simpl; [done|]. unfold key_leb at 1 3. simpl.
  destruct (str_leb kv.1 kv'.1); simpl; [done|]. by rewrite IH.
Qed.

Lemma maybe_sort_map {A B} b (f : A -> B) d :
  maybe_sort b (on_values f d) = on_values f (maybe_sort b d).
Proof.
  destruct b; [|done]. induction d as [|kv d IH]; simpl in *; [done|].
  unfold py_sort in *. simpl. rewrite IH. apply sort_insert_map.
Qed.

Lemma maybe_sort_perm {A} b (d : list (pystr * A)) : maybe_sort b d ≡ₚ d.
Proof. destruct b; [apply py_sort_perm|done]. Qed.

(** The text of a member of an object. *)
Definition member_text (fm : jfmt) (k t : pystr) : pystr :=
  string_text (ensure_ascii fm) k ++ key_sep fm ++ t.

Lemma json_dumps_dict fm d :
  json_dumps fm (PDict d) =
  res_bind (res_seq (map (fun kv => res_map (member_text fm kv.1) (json_dumps fm kv.2))
                         (maybe_sort (sort_keys fm) d)))
           (fun ts => Ok (123 :: join (item_sep fm) ts ++ [125])).
Proof.
  cbn [json_dumps]. f_equal. f_equal.
  set (items := (fix go d := match d with [] => [] | (k, x) :: d' => (k, json_dumps fm x) :: go d' end) d).
  assert (items = on_values (json_dumps fm) d) as ->.
  { unfold items. clear items. induction d as [|[k x] d IH]; simpl; [done|]. by rewrite IH. }
  rewrite maybe_sort_map. unfold on_values. rewrite map_map. done.
Qed.

Lemma res_seq_ok {A} (l : list (res A)) xs :
  res_seq l = Ok xs -> Forall2 (fun r x => r = Ok x) l xs.
Proof.
  revert xs. induction l as [|r l IH]; simpl; intros xs H; [by injection H as <-; constructor|].
  apply res_bind_ok in H as (x & -> & H). apply res_bind_ok in H as (xs' & H' & [= <-]).
  constructor; auto.
Qed.

(** A text starts with neither white space nor a closing bracket. *)
Definition head_ok (t : pystr) : bool :=
  match t with
  | c :: _ => negb (is_ws c || (c =? 93) || (c =? 125) || (c =? 0xFEFF))
  | [] => false
  end.

(** [t] reads back as [w], whatever follows it. *)
Definition reads_as (t : pystr) (w : pyval) : Prop :=
  head_ok t = true /\
  forall f r, stop r = true -> (length t <= f)%nat -> scan_value f (t ++ r) = Ok (w, r).

Lemma head_ok_skip t r : head_ok t = true -> skip_ws (t ++ r) = t ++ r.
Proof.
  destruct t as [|c t]; [done|]. cbn [head_ok]. intros H. cbn [app skip_ws].
  by replace (is_ws c) with false by (destruct (is_ws c); done).
Qed.

Lemma head_ok_eat t r c :
  head_ok t = true -> c = 93 \/ c = 125 \/ c = 0xFEFF -> eat c (t ++ r) = None.
Proof.
  destruct t as [|x t]; [done|]. cbn [head_ok app eat]. intros H Hc.
  by replace (x =? c) with false by lia.
Qed.

Lemma skip_item_sep fm t r :
  head_ok t = true ->
  exists r', eat 44 (skip_ws (item_sep fm ++ t ++ r)) = Some r' /\
             eat 93 (skip_ws (item_sep fm ++ t ++ r)) = None /\
             eat 125 (skip_ws (item_sep fm ++ t ++ r)) = None /\
             skip_ws r' = t ++ r.
Proof.
  intros Ht. unfold item_sep. destruct (compact fm); cbn [app]; eexists; repeat split.
  - by apply head_ok_skip.
  - cbn [skip_ws is_ws]. change (is_ws 32) with true. cbn match. by apply head_ok_skip.
Qed.

Lemma stop_item_sep fm r : stop (item_sep fm ++ r) = true.
Proof. unfold item_sep. by destruct (compact fm). Qed.

Lemma join_cons2 sep x y l : join sep (x :: y :: l) = x ++ sep ++ join sep (y :: l).
Proof. done. Qed.

Lemma join_head sep t ts : head_ok t = true -> head_ok (join sep (t :: ts)) = true.
Proof. destruct ts; [done|]. rewrite join_cons2. by destruct t. Qed.

Lemma scan_items_join fm : forall ts ws acc f r,
  Forall2 reads_as ts ws -> ts <> [] -> (length (join (item_sep fm) ts) < f)%nat ->
  scan_items f (join (item_sep fm) ts ++ 93 :: r) acc = Ok (PList (acc ++ ws), r).
Proof.
  induction ts as [|t ts IH]; intros ws acc [|f] r HF Hne Hf; try lia; [done|].
  inversion HF as [|? w ? ws' [Hh Ht] HF']; subst. cbn [scan_items].
  destruct ts as [|t2 ts].
  - inversion HF'; subst. cbn [join] in *. rewrite Ht by (done || lia). done.
  - rewrite join_cons2 in Hf |- *. rewrite !length_app in Hf. rewrite <- !app_assoc.
    rewrite Ht by (apply stop_item_sep || lia). cbn [res_bind].
    inversion HF' as [|? w2 ? ws2 [Hh2 _] _]; subst.
    set (j := join (item_sep fm) (t2 :: ts)) in *.
    assert (head_ok j = true) as Hj by by apply join_head.
    destruct (skip_item_sep fm j (93 :: r) Hj) as (r' & -> & -> & _ & ->).
    assert (1 <= length (item_sep fm))%nat by (unfold item_sep; destruct (compact fm); simpl; lia).
    rewrite IH with (ws := w2 :: ws2) by (done || lia). by rewrite <- app_assoc.
Qed.

Lemma scan_key_text fm k t r f :
  str_ok k = true -> head_ok t = true -> (length (string_text (ensure_ascii fm) k) <= f)%nat ->
  scan_key f (member_text fm k t ++ r) = Ok (k, t ++ r).
Proof.
  intros Hk Ht Hf. unfold member_text, string_text in *. cbn [app scan_key length] in *.
  change (c_quote =? c_quote) with true. cbn match.
  rewrite length_app in Hf. cbn [length] in Hf.
  pose proof (flat_map_escape_length (ensure_ascii fm) k).
  rewrite <- !app_assoc. cbn [app]. rewrite scan_string_text by (done || lia).
  unfold key_sep. destruct (compact fm); cbn [app skip_ws].
  - change (is_ws 58) with false. cbn match. cbn [eat]. change (58 =? 58) with true. cbn match.
    by rewrite head_ok_skip.
  - change (is_ws 58) with false. cbn match. cbn [eat]. change (58 =? 58) with true. cbn match.
    cbn [skip_ws]. change (is_ws 32) with true. cbn match. by rewrite head_ok_skip.
Qed.

Lemma dict_set_fresh {V} k (v : V) d : k ∉ d.*1 -> dict_set k v d = d ++ [(k, v)].
Proof.
  induction d as [|[k' v'] d IH]; simpl; [done|]. rewrite not_elem_of_cons. intros [H1 H2].
  rewrite decide_False by done. by rewrite IH.
Qed.

Lemma dict_set_Forall {V} (P : pystr * V -> Prop) k v d : P (k, v) -> Forall P d -> Forall P (dict_set k v d).
Proof.
  intros Hkv. induction 1 as [|[k' v'] d Hx Hd IH]; cbn; [by constructor|]. case_decide; subst; by constructor.
Qed.

Lemma dict_set_keys {V} k (v : V) d x : x ∈ (dict_set k v d).*1 <-> x = k \/ x ∈ d.*1.
Proof.
  induction d as [|[k' v'] d IH]; cbn; [set_solver|]. case_decide; cbn; [subst; set_solver|]. set_solver.
Qed.

Lemma dict_set_nodup {V} k (v : V) d : NoDup d.*1 -> NoDup (dict_set k v d).*1.
Proof.
  induction d as [|[k' v'] d IH]; cbn; [intros _; apply NoDup_singleton|]. intros [Hk Hd]%NoDup_cons.
  case_decide; cbn; [by constructor|]. constructor; [|by apply IH]. rewrite dict_set_keys. naive_solver.
Qed.

(** The texts of the members, with what each value reads as. *)
Definition reads_member (fm : jfmt) (m : pystr) (kw : pystr * pyval) : Prop :=
  exists t, m = member_text fm kw.1 t /\ str_ok kw.1 = true /\ reads_as t kw.2.

Lemma member_head fm k t : head_ok (member_text fm k t) = true.
Proof. done. Qed.

Lemma scan_members_join fm : forall ms kws acc f r,
  Forall2 (reads_member fm) ms kws -> ms <> [] -> NoDup (acc.*1 ++ kws.*1) ->
  (length (join (item_sep fm) ms) < f)%nat ->
  scan_members f (join (item_sep fm) ms ++ 125 :: r) acc = Ok (PDict (acc ++ kws), r).
Proof.
  induction ms as [|m ms IH]; intros kws acc [|f] r HF Hne Hnd Hf; try lia; [done|].
  inversion HF as [|? [k w] ? kws' (t & -> & Hk & Hh & Ht) HF']; subst. cbn [scan_members].
  assert (k ∉ acc.*1) as Hfresh.
  { apply NoDup_app in Hnd as (_ & Hd & _). intros Hin. apply (Hd k Hin). left. }
  assert (length (member_text fm k t) <= f)%nat as Hm.
  { destruct ms; [cbn [join] in Hf; lia|]. rewrite join_cons2, length_app in Hf. lia. }
  assert (length t <= length (member_text fm k t))%nat.
  { unfold member_text. rewrite !length_app. lia. }
  assert (length (string_text (ensure_ascii fm) k) <= length (member_text fm k t))%nat.
  { unfold member_text. rewrite !length_app. lia. }
  destruct ms as [|m2 ms].
  - inversion HF'; subst. cbn [join] in *.
    rewrite scan_key_text by (done || lia). cbn [res_bind].
    rewrite Ht by (done || lia). cbn [res_bind]. by rewrite dict_set_fresh.
  - rewrite join_cons2 in Hf |- *. rewrite !length_app in Hf. rewrite <- !app_assoc.
    rewrite scan_key_text by (done || lia). cbn [res_bind].
    rewrite Ht by (apply stop_item_sep || lia). cbn [res_bind].
    inversion HF' as [|? kw2 ? kws2 (t2 & -> & _) _]; subst.
    set (j := join (item_sep fm) (member_text fm kw2.1 t2 :: ms)) in *.
    assert (head_ok j = true) as Hj by by apply join_head.
    destruct (skip_item_sep fm j (125 :: r) Hj) as (r' & -> & _ & -> & ->).
    rewrite dict_set_fresh by done.
    assert (1 <= length (item_sep fm))%nat by (unfold item_sep; destruct (compact fm); simpl; lia).
    rewrite IH with (kws := kw2 :: kws2); [by rewrite <- app_assoc|done|done| |lia].
    rewrite fmap_app, <- app_assoc. exact Hnd.
Qed.

Lemma scan_value_number t v f r :
  scan_number t = Ok (v, []) -> stop r = true -> (1 <= f)%nat ->
  scan_value f (t ++ r) = Ok (v, r) /\ head_ok t = true.
Proof.
  intros Ht Hr Hf. apply scan_number_head in Ht as Hh. destruct Hh as (c & s' & Hc & Hs).
  unfold is_digit in Hc. apply (scan_number_app _ _ r) in Ht; [|done].
  apply scan_word_number in Ht. destruct f as [|f]; [lia|].
  assert (exists x t', t = x :: t' /\ x <> 34 /\ x <> 91 /\ x <> 123 /\ 45 <= x <= 57) as
    (x & t' & -> & H1 & H2 & H3 & H4).
  { destruct Hs as [-> | ->]; eexists _, _; (split; [done|]); lia. }
  cbn [app scan_value head_ok]. unfold c_quote.
  replace (x =? 34) with false by lia. replace (x =? 91) with false by lia.
  replace (x =? 123) with false by lia. split; [exact Ht|]. unfold is_ws. lia.
Qed.

Lemma float_ok_text f : float_ok f = true -> scan_number (finite_repr f) = Ok (PFloat f, []).
Proof.
  unfold float_ok. rewrite andb_true_iff. intros [_ H].
  destruct (scan_number (finite_repr f)) as [[[] [|]]|]; try done.
  apply bool_decide_eq_true in H as ->. done.
Qed.

Lemma Forall2_map_l_impl {A B C} (f : A -> B) (P : B -> C -> Prop) l k :
  Forall2 P (map f l) k -> Forall2 (fun x y => P (f x) y) l k.
Proof.
  revert k. induction l as [|x l IH]; intros k H; inversion H; subst; constructor; auto.
Qed.

(** The induction step of the round trip for the elements of a list. *)
Lemma reads_list fm l ts :
  Forall (fun v => forall t, json_dumps fm v = Ok t -> json_ok v = true -> reads_as t (json_norm fm v)) l ->
  forallb json_ok l = true -> res_seq (map (json_dumps fm) l) = Ok ts ->
  Forall2 reads_as ts (map (json_norm fm) l).
Proof.
  intros HF Hok Hs. apply res_seq_ok, Forall2_map_l_impl in Hs.
  revert ts Hs. induction HF as [|v l Hv _ IH]; intros ts Hs; inversion Hs; subst; simpl; [constructor|].
  simpl in Hok. apply andb_true_iff in Hok as [Hv' Hl]. constructor; auto.
Qed.

Lemma reads_array fm ts ws t :
  Forall2 reads_as ts ws -> t = 91 :: join (item_sep fm) ts ++ [93] -> reads_as t (PList ws).
Proof.
  intros HF ->. split; [done|]. intros f r Hr Hf.
  cbn [length] in Hf. rewrite length_app in Hf. cbn [length] in Hf.
  destruct f as [|f]; [lia|]. cbn [app scan_value].
  change (91 =? c_quote) with false. change (91 =? 91) with true. cbn match.
  rewrite <- app_assoc. cbn [app]. destruct ts as [|t ts].
  - inversion HF; subst. done.
  - inversion HF as [|? w ? ws' [Hh _] _]; subst.
    set (j := join (item_sep fm) (t :: ts)) in *.
    assert (head_ok j = true) as Hj by by apply join_head.
    rewrite head_ok_skip, head_ok_eat by auto.
    by apply (scan_items_join fm (t :: ts) (w :: ws') [] f r); [| |unfold j in Hf; lia].
Qed.

Lemma reads_object fm ms kws t :
  Forall2 (reads_member fm) ms kws -> NoDup kws.*1 ->
  t = 123 :: join (item_sep fm) ms ++ [125] -> reads_as t (PDict kws).
Proof.
  intros HF Hnd ->. split; [done|]. intros f r Hr Hf.
  cbn [length] in Hf. rewrite length_app in Hf. cbn [length] in Hf.
  destruct f as [|f]; [lia|]. cbn [app scan_value].
  change (123 =? c_quote) with false. change (123 =? 91) with false.
  change (123 =? 123) with true. cbn match.
  rewrite <- app_assoc. cbn [app]. destruct ms as [|m ms].
  - inversion HF; subst. done.
  - inversion HF as [|? kw ? kws' (t & -> & _) _]; subst.
    set (j := join (item_sep fm) _) in *.
    assert (head_ok j = true) as Hj by by apply join_head.
    rewrite head_ok_skip, head_ok_eat by auto.
    by apply (scan_members_join fm (member_text fm kw.1 t :: ms) (kw :: kws') [] f r);
      [| | |unfold j in Hf; lia].
Qed.

Lemma reads_dict fm d ms :
  Forall (fun kv => forall t, json_dumps fm kv.2 = Ok t -> json_ok kv.2 = true ->
                      reads_as t (json_norm fm kv.2)) d ->
  Forall (fun kv => str_ok kv.1 = true /\ json_ok kv.2 = true) d ->
  res_seq (map (fun kv => res_map (member_text fm kv.1) (json_dumps fm kv.2)) d) = Ok ms ->
  Forall2 (reads_member fm) ms (on_values (json_norm fm) d).
Proof.
  intros HF Hok Hs. apply res_seq_ok, Forall2_map_l_impl in Hs.
  revert ms Hs. induction HF as [|[k v] d Hv _ IH]; intros ms Hs; inversion Hs as [|? m ? ms' Hm Hs']; subst;
    simpl; [constructor|].
  apply Forall_cons in Hok as [[Hk Hv'] Hok]. constructor; [|by apply IH].
  apply res_map_ok in Hm as (t & Ht & ->). exists t. simpl in *. eauto.
Qed.

(** Every document in the domain reads back, in any context. *)
Lemma reads_dumps fm v : forall t,
  json_dumps fm v = Ok t -> json_ok v = true -> reads_as t (json_norm fm v).
Proof.
  induction v as [|b|z|f|s|l IH|l IH|d IH|z] using pyval_ind; intros t Ht Hok.
  - injection Ht as <-. split; [done|]. intros [|f] r _ Hf; [simpl in Hf; lia|]. done.
  - destruct b; injection Ht as <-; (split; [done|]; intros [|f] r _ Hf; [simpl in Hf; lia|done]).
  - cbn [json_dumps] in Ht. apply scan_number_int in Ht. split.
    + by apply (scan_value_number _ _ 1 [] Ht).
    + intros f r Hr Hf. apply scan_value_number; [done..|].
      apply scan_number_head in Ht as (c & s' & _ & [-> | ->]); simpl in Hf; lia.
  - cbn [json_dumps json_ok] in *. unfold float_json in Ht.
    assert (f64_finite f = true) as Hfin by (unfold float_ok in Hok; by destruct (f64_finite f)).
    rewrite Hfin in Ht. injection Ht as <-. apply float_ok_text in Hok. split.
    + by apply (scan_value_number _ _ 1 [] Hok).
    + intros g r Hr Hf. apply scan_value_number; [done..|].
      apply scan_number_head in Hok as (c & s' & _ & [E|E]); rewrite E in Hf; simpl in Hf; lia.
  - injection Ht as <-. split; [done|]. intros [|f] r _ Hf; [simpl in Hf; lia|].
    unfold string_text in *. cbn [app length scan_value] in *.
    rewrite length_app in Hf. pose proof (flat_map_escape_length (ensure_ascii fm) s).
    change (c_quote =? c_quote) with true. cbn match. rewrite <- app_assoc. cbn [app].
    cbn [length] in Hf. by rewrite scan_string_text by (done || lia).
  - cbn [json_dumps] in Ht. apply res_bind_ok in Ht as (ts & Hts & [= <-]).
    eapply reads_array; [|done]. by apply reads_list.
  - cbn [json_dumps] in Ht. apply res_bind_ok in Ht as (ts & Hts & [= <-]).
    eapply reads_array; [|done]. by apply reads_list.
  - rewrite json_dumps_dict in Ht. apply res_bind_ok in Ht as (ms & Hms & [= <-]).
    apply json_ok_dict in Hok as [Hnd Hok].
    rewrite json_norm_dict, maybe_sort_map. eapply reads_object; [|..|done].
    + apply reads_dict; [..|exact Hms]; by rewrite maybe_sort_perm.
    + unfold on_values. rewrite <- list_fmap_compose.
      change (fst ∘ _) with (@fst pystr pyval). by rewrite maybe_sort_perm.
  - done.
Qed.

Theorem json_loads_dumps fm v t :
  json_dumps fm v = Ok t -> json_ok v = true -> json_loads t = Ok (json_norm fm v).
Proof.
  intros Ht Hok. destruct (reads_dumps fm v t Ht Hok) as [Hh Hr].
  unfold json_loads. specialize (Hr (S (length t)) [] eq_refl ltac:(lia)).
  pose proof (head_ok_skip t [] Hh) as Hs. pose proof (head_ok_eat t [] 0xFEFF Hh) as He.
  rewrite app_nil_r in *. rewrite He by auto. by rewrite Hs, Hr.
Qed.
