(* ===== verification/JsonIndent.v ===== *)
(** * JSON beside [json.dumps] and text: indented documents, and bytes of any encoding

    [json.dumps(v, indent=2)] and that it reads back; [json.loads] of bytes, which finds
    their encoding and decodes them with the error handler [surrogatepass]; and
    [bytes.decode("utf-8", errors="replace")]. *)

From Stdlib Require Import SpecFloat.
From S2P Require Import Prelude PyText Float64 Errors PyVal Json JsonFacts.
Import ResNotations.
Local Open Scope res_scope.

(** A line end and the indentation of the next line. *)
Definition new_line (n : nat) : pystr := 10 :: replicate n 32.

(** The items between two brackets, one per line. *)
Definition bracketed (opening closing : Z) (n : nat) (items : list pystr) : pystr :=
  match items with
  | [] => [opening; closing]
  | _ => opening :: new_line (n + 2) ++ join (44%Z :: new_line (n + 2)) items ++ new_line n ++ [closing]
  end.

Fixpoint json_indent (n : nat) (v : pyval) : res pystr :=
  match v with
  | PList l | PTuple l =>
      let? ts := res_seq (map (json_indent (n + 2)) l) in Ok (bracketed 91 93 n ts)
  | PDict d =>
      let items := (fix go (d : list (pystr * pyval)) : list (pystr * res pystr) :=
                      match d with [] => [] | (k, x) :: d' => (k, json_indent (n + 2) x) :: go d' end) d in
      let? ts := res_seq (map (fun kr => let? t := kr.2 in Ok (string_text true kr.1 ++ key_sep fmt_store ++ t))
                              (maybe_sort true items)) in
      Ok (bracketed 123 125 n ts)
  | _ => json_dumps fmt_store v
  end.

(** ** Facts *)

Lemma skip_replicate n s : skip_ws (replicate n 32 ++ s) = skip_ws s.
Proof. by induction n as [|n IH]. Qed.

Lemma skip_new_line n s : skip_ws (new_line n ++ s) = skip_ws s.
Proof. unfold new_line. cbn [app skip_ws]. change (is_ws 10) with true. cbn match. apply skip_replicate. Qed.

Lemma json_indent_dict n d :
  json_indent n (PDict d) =
  res_bind (res_seq (map (fun kv => res_map (member_text fmt_store kv.1) (json_indent (n + 2) kv.2)) (maybe_sort true d)))
           (fun ts => Ok (bracketed 123 125 n ts)).
Proof.
  cbn [json_indent]. f_equal. f_equal.
  assert ((fix go (d : list (pystr * pyval)) : list (pystr * res pystr) :=
             match d with [] => [] | (k, x) :: d' => (k, json_indent (n + 2) x) :: go d' end) d =
          on_values (json_indent (n + 2)) d) as ->.
  { induction d as [|[k x] d IH]; [done|]. cbn. by rewrite IH. }
  rewrite maybe_sort_map. unfold on_values. rewrite map_map. apply map_ext. intros [k x]. cbn. done.
Qed.

(** Separators of the items: a comma and white space. *)
Lemma scan_items_lines m n : forall ts ws acc f r,
  Forall2 reads_as ts ws -> ts <> [] -> (length (join (44%Z :: new_line m) ts) < f)%nat ->
  scan_items f (join (44%Z :: new_line m) ts ++ new_line n ++ 93 :: r) acc = Ok (PList (acc ++ ws), r).
Proof.
  induction ts as [|t ts IH]; intros ws acc [|f] r HF Hne Hf; try lia; [done|].
  inversion HF as [|? w ? ws' [Hh Ht] HF']; subst. cbn [scan_items]. destruct ts as [|t2 ts].
  - inversion HF'; subst. cbn [join] in *. rewrite Ht by (done || lia). cbn [res_bind]. by rewrite skip_new_line.
  - rewrite join_cons2 in Hf |- *. rewrite !length_app in Hf. cbn [length] in Hf. rewrite <- !app_assoc. rewrite Ht by (done || lia).
    cbn [res_bind]. inversion HF' as [|? w2 ? ws2 [Hh2 _] _]; subst. set (j := join (44%Z :: new_line m) (t2 :: ts)) in *.
    assert (head_ok j = true) as Hj by (by apply join_head).
    cbn [app skip_ws]. change (is_ws 44) with false. cbn match. cbn [eat]. change (44 =? 93) with false. change (44 =? 44) with true.
    cbn match. rewrite skip_new_line, head_ok_skip by done. unfold j. rewrite IH with (ws := w2 :: ws2) by (done || (fold j; lia)).
    by rewrite <- app_assoc.
Qed.

Lemma scan_members_lines m n : forall ms kws acc f r,
  Forall2 (reads_member fmt_store) ms kws -> ms <> [] -> NoDup (acc.*1 ++ kws.*1) -> (length (join (44%Z :: new_line m) ms) < f)%nat ->
  scan_members f (join (44%Z :: new_line m) ms ++ new_line n ++ 125 :: r) acc = Ok (PDict (acc ++ kws), r).
Proof.
  induction ms as [|x ms IH]; intros kws acc [|f] r HF Hne Hnd Hf; try lia; [done|].
  inversion HF as [|? [k w] ? kws' (t & -> & Hk & Hh & Ht) HF']; subst. cbn [scan_members].
  assert (k ∉ acc.*1) as Hfresh. { apply NoDup_app in Hnd as (_ & Hd & _). intros Hin. apply (Hd k Hin). left. }
  assert (length (member_text fmt_store k t) <= f)%nat as Hm.
  { destruct ms; [cbn [join] in Hf; lia|]. rewrite join_cons2, length_app in Hf. lia. }
  assert (length t <= length (member_text fmt_store k t) /\
          length (string_text (ensure_ascii fmt_store) k) <= length (member_text fmt_store k t))%nat as [H1 H2].
  { unfold member_text. rewrite !length_app. lia. }
  destruct ms as [|m2 ms].
  - inversion HF'; subst. cbn [join] in *. rewrite scan_key_text by (done || lia). cbn [res_bind].
    rewrite Ht by (done || lia). cbn [res_bind]. rewrite skip_new_line. cbn [skip_ws]. by rewrite dict_set_fresh.
  - rewrite join_cons2 in Hf |- *. rewrite !length_app in Hf. cbn [length] in Hf. rewrite <- !app_assoc.
    rewrite scan_key_text by (done || lia). cbn [res_bind]. rewrite Ht by (done || lia). cbn [res_bind].
    inversion HF' as [|? kw2 ? kws2 (t2 & -> & _) _]; subst.
    set (j := join (44%Z :: new_line m) (member_text fmt_store kw2.1 t2 :: ms)) in *.
    assert (head_ok j = true) as Hj by (by apply join_head).
    cbn [app skip_ws]. change (is_ws 44) with false. cbn match. cbn [eat]. change (44 =? 125) with false. change (44 =? 44) with true.
    cbn match. rewrite skip_new_line, head_ok_skip, dict_set_fresh by done. unfold j.
    rewrite IH with (kws := kw2 :: kws2); [by rewrite <- app_assoc|done|done| |fold j; lia].
    rewrite fmap_app, <- app_assoc. exact Hnd.
Qed.

Lemma reads_array_lines n ts ws : Forall2 reads_as ts ws -> reads_as (bracketed 91 93 n ts) (PList ws).
Proof.
  intros HF. unfold bracketed. destruct ts as [|t ts].
  { inversion HF; subst. split; [done|]. intros [|f] r _ Hf; [cbn in Hf; lia|done]. }
  split; [done|]. intros f r Hr Hf. cbn [length] in Hf. rewrite !length_app in Hf. cbn [length] in Hf. destruct f as [|f]; [lia|]. cbn [app scan_value].
  change (91 =? c_quote) with false. change (91 =? 91) with true. cbn match. rewrite <- !app_assoc. cbn [app].
  inversion HF as [|? w ? ws' [Hh _] _]; subst. set (j := join (44%Z :: new_line (n + 2)) (t :: ts)) in *.
  assert (head_ok j = true) as Hj by (by apply join_head).
  rewrite skip_new_line, head_ok_skip, head_ok_eat by auto.
  apply (scan_items_lines (n + 2) n (t :: ts) (w :: ws') [] f r); [done|done|]. fold j. lia.
Qed.

Lemma reads_object_lines n ms kws :
  Forall2 (reads_member fmt_store) ms kws -> NoDup kws.*1 -> reads_as (bracketed 123 125 n ms) (PDict kws).
Proof.
  intros HF Hnd. unfold bracketed. destruct ms as [|x ms].
  { inversion HF; subst. split; [done|]. intros [|f] r _ Hf; [cbn in Hf; lia|done]. }
  split; [done|]. intros f r Hr Hf. cbn [length] in Hf. rewrite !length_app in Hf. cbn [length] in Hf. destruct f as [|f]; [lia|]. cbn [app scan_value].
  change (123 =? c_quote) with false. change (123 =? 91) with false. change (123 =? 123) with true. cbn match. rewrite <- !app_assoc. cbn [app].
  inversion HF as [|? kw ? kws' (t & -> & _) _]; subst. set (j := join (44%Z :: new_line (n + 2)) _) in *.
  assert (head_ok j = true) as Hj by (by apply join_head).
  rewrite skip_new_line, head_ok_skip, head_ok_eat by auto.
  apply (scan_members_lines (n + 2) n (member_text fmt_store kw.1 t :: ms) (kw :: kws') [] f r); [done|done|done|]. fold j. lia.
Qed.

Lemma reads_indent : forall v n t, json_indent n v = Ok t -> json_ok v = true -> reads_as t (json_norm fmt_store v).
Proof.
  assert (forall n l ts, Forall (fun v => forall n t, json_indent n v = Ok t -> json_ok v = true -> reads_as t (json_norm fmt_store v)) l ->
    forallb json_ok l = true -> res_seq (map (json_indent n) l) = Ok ts -> Forall2 reads_as ts (map (json_norm fmt_store) l)) as Hlist.
  { intros n l ts HF Hok Hs. apply res_seq_ok, Forall2_map_l_impl in Hs. revert ts Hs.
    induction HF as [|v l Hv _ IH]; intros ts Hs; inversion Hs; subst; simpl; [constructor|].
    simpl in Hok. apply andb_true_iff in Hok as [Hv' Hl]. constructor; eauto. }
  induction v as [|b|z|f|s|l IH|l IH|d IH|z] using pyval_ind; intros n t Ht Hok; try (by apply (reads_dumps fmt_store)).
  - cbn [json_indent] in Ht. apply res_bind_ok in Ht as (ts & Hts & [= <-]). eapply reads_array_lines. by eapply Hlist.
  - cbn [json_indent] in Ht. apply res_bind_ok in Ht as (ts & Hts & [= <-]). eapply reads_array_lines. by eapply Hlist.
  - rewrite json_indent_dict in Ht. apply res_bind_ok in Ht as (ms & Hms & [= <-]). apply json_ok_dict in Hok as [Hnd Hok].
    rewrite json_norm_dict, maybe_sort_map. apply reads_object_lines.
    + apply res_seq_ok, Forall2_map_l_impl in Hms. cbn [sort_keys fmt_store]. rewrite <- (maybe_sort_perm true d) in IH, Hok. revert ms Hms.
      induction IH as [|[k v] d' Hv _ IHd]; intros ms Hs; inversion Hs as [|? m ? ms' Hm Hs']; subst; cbn; [constructor|].
      apply Forall_cons in Hok as [[Hk Hv'] Hok]. constructor; [|by apply IHd].
      apply res_map_ok in Hm as (t & Ht & ->). exists t. cbn in *. eauto.
    + unfold on_values. rewrite <- list_fmap_compose. change (fst ∘ _) with (@fst pystr pyval). by rewrite maybe_sort_perm.
Qed.

(** The file reads back. *)
Lemma json_loads_indent v t :
  json_indent 0 v = Ok t -> json_ok v = true -> json_loads (t ++ [10]) = Ok (json_norm fmt_store v).
Proof.
  intros Ht Hok. destruct (reads_indent v 0 t Ht Hok) as [Hh Hr]. unfold json_loads.
  specialize (Hr (S (length (t ++ [10]))) [10] eq_refl ltac:(rewrite length_app; lia)).
  rewrite head_ok_skip, head_ok_eat by auto. by rewrite Hr.
Qed.

Section Codecs.


(** ** With surrogates *)

Fixpoint utf8_decode_pass (bs : pybytes) : option pystr :=
  match bs with
  | [] => Some []
  | b0 :: r0 =>
      let v := byte_val b0 in
      if v <? 0x80 then cons v <$> utf8_decode_pass r0
      else match r0 with
      | [] => None
      | b1 :: r1 =>
          if negb (is_cont b1) then None
          else if (0xC0 <=? v) && (v <? 0xE0) then
            let c := (v - 0xC0) * 64 + cont_val b1 in
            if c <? 0x80 then None else cons c <$> utf8_decode_pass r1
          else match r1 with
          | [] => None
          | b2 :: r2 =>
              if negb (is_cont b2) then None
              else if (0xE0 <=? v) && (v <? 0xF0) then
                let c := (v - 0xE0) * 4096 + cont_val b1 * 64 + cont_val b2 in
                if c <? 0x800 then None else cons c <$> utf8_decode_pass r2
              else match r2 with
              | [] => None
              | b3 :: r3 =>
                  if negb (is_cont b3) then None
                  else if (0xF0 <=? v) && (v <? 0xF8) then
                    let c := (v - 0xF0) * 262144 + cont_val b1 * 4096 + cont_val b2 * 64 + cont_val b3 in
                    if (c <? 0x10000) || (0x110000 <=? c) then None else cons c <$> utf8_decode_pass r3
                  else None
              end
          end
      end
  end.

(** A unit of two or four bytes. *)
Definition unit_value (big : bool) (bs : pybytes) : Z := be_value (if big then bs else rev bs).

(** The units of a text; [None] when bytes are left over. *)
Fixpoint units16 (big : bool) (bs : pybytes) : option (list Z) :=
  match bs with
  | [] => Some []
  | a :: b :: r => cons (unit_value big [a; b]) <$> units16 big r
  | _ => None
  end.

Fixpoint units32 (big : bool) (bs : pybytes) : option (list Z) :=
  match bs with
  | [] => Some []
  | a :: b :: c :: d :: r => cons (unit_value big [a; b; c; d]) <$> units32 big r
  | _ => None
  end.

(** Pairs of surrogates are characters; the others pass. *)
Fixpoint join_surrogates (us : list Z) : pystr :=
  match us with
  | [] => []
  | u :: r =>
      match r with
      | v :: r' => if is_high u && is_low v then (0x10000 + (u - 0xD800) * 1024 + (v - 0xDC00)) :: join_surrogates r' else u :: join_surrogates r
      | [] => [u]
      end
  end.

Definition utf16_decode (big : bool) (bs : pybytes) : option pystr := join_surrogates <$> units16 big bs.

Definition utf32_decode (big : bool) (bs : pybytes) : option pystr :=
  match units32 big bs with
  | Some us => if forallb (fun u => u <? 0x110000) us then Some us else None
  | None => None
  end.

(** ** [json.loads] of bytes *)

Inductive encoding := Utf8 | Utf8Sig | Utf16 (big : bool) (mark : bool) | Utf32 (big : bool) (mark : bool).

(** [json.detect_encoding]: by the byte order mark, or by where zero bytes are. *)
Definition detect_encoding (bs : pybytes) : encoding :=
  let zero b := byte_val b =? 0 in
  if starts_with [Byte.x00; Byte.x00; Byte.xfe; Byte.xff] bs then Utf32 true true
  else if starts_with [Byte.xff; Byte.xfe; Byte.x00; Byte.x00] bs then Utf32 false true
  else if starts_with [Byte.xfe; Byte.xff] bs then Utf16 true true
  else if starts_with [Byte.xff; Byte.xfe] bs then Utf16 false true
  else if starts_with [Byte.xef; Byte.xbb; Byte.xbf] bs then Utf8Sig
  else match bs with
       | a :: b :: c :: d :: _ =>
           if zero a then (if zero b then Utf32 true false else Utf16 true false)
           else if zero b then (if zero c && zero d then Utf32 false false else Utf16 false false)
           else Utf8
       | [a; b] => if zero a then Utf16 true false else if zero b then Utf16 false false else Utf8
       | _ => Utf8
       end.

Definition decode_as (e : encoding) (bs : pybytes) : option pystr :=
  match e with
  | Utf8 => utf8_decode_pass bs
  | Utf8Sig => utf8_decode_pass (drop 3 bs)
  | Utf16 big mark => utf16_decode big (if mark then drop 2 bs else bs)
  | Utf32 big mark => utf32_decode big (if mark then drop 4 bs else bs)
  end.

Definition json_loads_any (bs : pybytes) : res pyval :=
  match decode_as (detect_encoding bs) bs with
  | None => Raise (err UnicodeDecodeError [])
  | Some s => json_loads s
  end.

(** ** With replacement *)

(** The continuation bytes a lead byte wants: the range of the first, and how many. *)
Definition lead (v : Z) : option (Z * Z * nat) :=
  if v <? 0xC2 then None else if v <? 0xE0 then Some (0x80, 0xBF, 1%nat)
  else if v =? 0xE0 then Some (0xA0, 0xBF, 2%nat) else if v =? 0xED then Some (0x80, 0x9F, 2%nat)
  else if v <? 0xF0 then Some (0x80, 0xBF, 2%nat)
  else if v =? 0xF0 then Some (0x90, 0xBF, 3%nat) else if v <? 0xF4 then Some (0x80, 0xBF, 3%nat)
  else if v =? 0xF4 then Some (0x80, 0x8F, 3%nat) else None.

(** The valid continuation bytes at the start, at most [n]. *)
Fixpoint valid_conts (lo hi : Z) (n : nat) (bs : pybytes) : pybytes :=
  match n, bs with
  | S n, b :: r => if (lo <=? byte_val b) && (byte_val b <=? hi) then b :: valid_conts 0x80 0xBF n r else []
  | _, _ => []
  end.

Fixpoint utf8_replace (fuel : nat) (bs : pybytes) : pystr :=
  match fuel, bs with
  | S fuel, b :: r =>
      let v := byte_val b in
      if v <? 0x80 then v :: utf8_replace fuel r
      else match lead v with
           | None => 0xFFFD :: utf8_replace fuel r
           | Some (lo, hi, n) =>
               let cs := valid_conts lo hi n r in
               (if (length cs =? n)%nat
                then foldl (fun a c => a * 64 + cont_val c) (v mod 2 ^ (6 - Z.of_nat n)) cs else 0xFFFD) ::
               utf8_replace fuel (drop (length cs) r)
           end
  | _, _ => []
  end.

Definition decode_replace (bs : pybytes) : pystr := utf8_replace (length bs) bs.

(** ** Facts *)

Lemma utf8_pass_strict n : forall bs s, (length bs <= n)%nat -> utf8_decode bs = Some s -> utf8_decode_pass bs = Some s.
Proof.
  assert (forall (f g : option pystr) c s, (forall x, f = Some x -> g = Some x) -> cons c <$> f = Some s -> cons c <$> g = Some s) as Hcons.
  { intros f g c s Hfg Hs. destruct f as [x|]; [|done]. by rewrite (Hfg x eq_refl). }
  induction n as [|n IH]; intros bs s Hn Hs; [destruct bs; [done|cbn in Hn; lia]|]. destruct bs as [|b0 r0]; [done|]. cbn in Hn.
  cbn [utf8_decode utf8_decode_pass] in Hs |- *.
  destruct (byte_val b0 <? 0x80); [eapply Hcons; [|exact Hs]; intros x; apply IH; lia|].
  destruct r0 as [|b1 r1]; [done|]. cbn in Hn. destruct (negb (is_cont b1)); [done|].
  destruct ((0xC0 <=? byte_val b0) && (byte_val b0 <? 0xE0)).
  { destruct (_ <? 0x80); [done|]. eapply Hcons; [|exact Hs]. intros x. apply IH. lia. }
  destruct r1 as [|b2 r2]; [done|]. cbn in Hn. destruct (negb (is_cont b2)); [done|].
  destruct ((0xE0 <=? byte_val b0) && (byte_val b0 <? 0xF0)).
  { destruct (_ <? 0x800); [done|]. destruct (is_surrogate _); [done|]. eapply Hcons; [|exact Hs]. intros x. apply IH. lia. }
  destruct r2 as [|b3 r3]; [done|]. cbn in Hn. destruct (negb (is_cont b3)); [done|].
  destruct ((0xF0 <=? byte_val b0) && (byte_val b0 <? 0xF8)); [|done].
  destruct ((_ <? 0x10000) || _); [done|]. eapply Hcons; [|exact Hs]. intros x. apply IH. lia.
Qed.

(** The detector takes bytes that begin with two plain ASCII characters for UTF-8. *)
Definition plain_byte (b : Byte.byte) : bool := (1 <=? byte_val b) && (byte_val b <? 0x80).

Lemma detect_plain a b r : plain_byte a = true -> plain_byte b = true -> detect_encoding (a :: b :: r) = Utf8.
Proof.
  unfold plain_byte. intros Ha Hb. unfold detect_encoding.
  assert (byte_val a =? 0 = false) as Ha0 by lia. assert (byte_val b =? 0 = false) as Hb0 by lia.
  assert (forall x t, 0x80 <= byte_val x \/ byte_val x = 0 -> starts_with (x :: t) (a :: b :: r) = false) as Hmark.
  { intros x t Hx. unfold starts_with. cbn. destruct (decide (x = a)) as [->|]; [lia|done]. }
  rewrite !Hmark by (cbn; lia). rewrite Ha0, Hb0. by destruct r as [|c [|d r]].
Qed.

(** What is written by [json.dumps] as an object or array is read back from its bytes. *)
Lemma json_loads_any_plain a b r s v :
  plain_byte a = true -> plain_byte b = true -> utf8_decode (a :: b :: r) = Some s -> json_loads s = Ok v ->
  json_loads_any (a :: b :: r) = Ok v.
Proof. intros Ha Hb Hs Hv. unfold json_loads_any. rewrite detect_plain by done. cbn [decode_as]. by rewrite (utf8_pass_strict _ _ s (le_n _) Hs). Qed.
End Codecs.

(** The number of bytes is fuel enough for decoding with replacement. *)
Lemma utf8_replace_fuel n : forall bs, (length bs <= n)%nat -> utf8_replace n bs = utf8_replace (length bs) bs.
Proof.
  induction n as [n IH] using lt_wf_ind. intros bs Hn. destruct n as [|n], bs as [|b r]; [done|cbn in Hn; lia|done|]. cbn in Hn.
  assert (forall t, (length t <= length r)%nat -> utf8_replace n t = utf8_replace (length r) t) as Hrec.
  { intros t Ht. rewrite (IH n ltac:(lia) t) by lia. destruct (decide (length r = n)) as [->|Hne]; [by rewrite (IH n ltac:(lia) t) by lia|].
    symmetry. apply IH; lia. }
  cbn [length utf8_replace]. destruct (byte_val b <? 0x80); [by rewrite Hrec by lia|].
  destruct (lead (byte_val b)) as [[[lo hi] k]|]; [|by rewrite Hrec by lia]. rewrite Hrec; [done|]. rewrite length_drop. lia.
Qed.
