(* ===== verification/Metadata.v ===== *)
(** * Block identity and metadata: [kvstore/metadata.py]

    [TierName], [BlockKey] with its validation and its SQLite namespace,
    [KVMetadata] with [validate], [payload_descriptor], [to_dict] and
    [from_dict], and the location and result records. The fields of
    [KVMetadata] are dynamically typed, because [from_dict] fills them from a
    decoded document before [validate] looks at their types. *)

From Stdlib Require Import SpecFloat.
From S2P Require Import Prelude PyText Float64 Errors PyVal Json JsonFacts.
Import ResNotations.
Local Open Scope res_scope.

Definition MAX_IDENTITY_COMPONENT_BYTES : Z := 128.

(** [_BLOCK_HASH_RE.fullmatch]. *)
Definition _BLOCK_HASH_RE (s : pystr) : bool := hex_fullmatch 64 s.

(** ** Tiers *)

Inductive TierName := MEMORY | NVME | S3.

#[global] Instance TierName_eq_decision : EqDecision TierName.
Proof. solve_decision. Defined.

#[global] Instance TierName_countable : Countable TierName.
Proof.
  refine (inj_countable' (fun t => match t with MEMORY => 0 | NVME => 1 | S3 => 2 end)%nat
            (fun n => match n with 0 => MEMORY | 1 => NVME | _ => S3 end)%nat _).
  by intros [].
Defined.

Definition tier_value (t : TierName) : pystr :=
  match t with MEMORY => str "memory" | NVME => str "nvme" | S3 => str "s3" end.

(** [TierName(s)]. *)
Definition tier_of_value (s : pystr) : res TierName :=
  if bool_decide (s = str "memory") then Ok MEMORY
  else if bool_decide (s = str "nvme") then Ok NVME
  else if bool_decide (s = str "s3") then Ok S3
  else Raise (err ValueError (str "is not a valid TierName")).

(** ** BlockKey *)

Record BlockKey := {
  tenant_id : pystr;
  model_id : pystr;
  model_revision : pystr;
  tokenizer_revision : pystr;
  block_hash : pystr;
  lora_id : pystr;
  modality_key : pystr;
}.

#[global] Instance BlockKey_eq_decision : EqDecision BlockKey.
Proof. solve_decision. Defined.

Definition is_control (c : Z) : bool := (c <? 32) || (c =? 127).

(** [_validate_identity_component(name, value, allow_empty)], returning the
    checked string. *)
Definition _validate_identity_component (name : pystr) (value : pyval) (allow_empty : bool)
  : res pystr :=
  match value with
  | PStr s =>
      ensure (allow_empty || negb (bool_decide (s = [])))
             (err ValueError (name ++ str " must not be empty")) ;?
      match utf8_encode s with
      | None => Raise (err UnicodeEncodeError (str "surrogates not allowed"))
      | Some bs =>
          ensure (zlen bs <=? MAX_IDENTITY_COMPONENT_BYTES)
                 (err ValueError (name ++ str " must be at most 128 UTF-8 bytes")) ;?
          ensure (negb (existsb is_control s))
                 (err ValueError (name ++ str " must not contain control characters")) ;?
          Ok s
      end
  | _ => Raise (err ValueError (name ++ str " must be a string"))
  end.

(** [BlockKey(...)] with its [__post_init__]. *)
Definition BlockKey_init (tenant model revision tokenizer hash lora modality : pyval)
  : res BlockKey :=
  let? t := _validate_identity_component (str "tenant_id") tenant false in
  let? m := _validate_identity_component (str "model_id") model false in
  let? r := _validate_identity_component (str "model_revision") revision false in
  let? k := _validate_identity_component (str "tokenizer_revision") tokenizer false in
  let? l := _validate_identity_component (str "lora_id") lora true in
  let? d := _validate_identity_component (str "modality_key") modality true in
  match hash with
  | PStr h =>
      ensure (_BLOCK_HASH_RE h)
             (err ValueError (str "block_hash must be 64 lowercase hexadecimal characters")) ;?
      Ok {| tenant_id := t; model_id := m; model_revision := r; tokenizer_revision := k;
            block_hash := h; lora_id := l; modality_key := d |}
  | _ => Raise (err ValueError (str "block_hash must be 64 lowercase hexadecimal characters"))
  end.

(** The keys a program can hold: those the constructor accepts. *)
Definition key_valid (k : BlockKey) : bool :=
  is_ok (BlockKey_init (PStr (tenant_id k)) (PStr (model_id k)) (PStr (model_revision k))
           (PStr (tokenizer_revision k)) (PStr (block_hash k)) (PStr (lora_id k))
           (PStr (modality_key k))).

(** [BlockKey.namespace()]: a JSON array of strings. *)
Definition namespace_doc (k : BlockKey) : pyval :=
  PList (map PStr [str "kv-block-key-v1"; tenant_id k; model_id k; model_revision k;
                   tokenizer_revision k; lora_id k; modality_key k]).

Definition namespace (k : BlockKey) : pystr :=
  match json_dumps fmt_unicode (namespace_doc k) with Ok t => t | Raise _ => [] end.

(** ** KVMetadata *)

Record KVMetadata := {
  md_key : BlockKey;
  md_dtype : pyval;
  md_num_layers : pyval;
  md_num_kv_heads : pyval;
  md_head_dim : pyval;
  md_tokens : pyval;
  md_bytes : pyval;
  md_shape : pyval;
  md_checksum : pyval;
  md_checksum_algo : pyval;
  md_created_at : pyval;
  md_last_access : pyval;
  md_reuse_count : pyval;
  md_extra : pyval;
}.

(** The assignments to fields of a [KVMetadata] object. *)
Definition set_payload (m : KVMetadata) (checksum : pystr) (n : Z) : KVMetadata :=
  {| md_key := md_key m; md_dtype := md_dtype m; md_num_layers := md_num_layers m;
     md_num_kv_heads := md_num_kv_heads m; md_head_dim := md_head_dim m;
     md_tokens := md_tokens m; md_bytes := PInt n; md_shape := md_shape m;
     md_checksum := PStr checksum; md_checksum_algo := md_checksum_algo m;
     md_created_at := md_created_at m; md_last_access := md_last_access m;
     md_reuse_count := md_reuse_count m; md_extra := md_extra m |}.

Definition set_access (m : KVMetadata) (last_access : f64) : KVMetadata :=
  {| md_key := md_key m; md_dtype := md_dtype m; md_num_layers := md_num_layers m;
     md_num_kv_heads := md_num_kv_heads m; md_head_dim := md_head_dim m;
     md_tokens := md_tokens m; md_bytes := md_bytes m; md_shape := md_shape m;
     md_checksum := md_checksum m; md_checksum_algo := md_checksum_algo m;
     md_created_at := md_created_at m; md_last_access := PFloat last_access;
     md_reuse_count := md_reuse_count m; md_extra := md_extra m |}.

Definition set_reuse (m : KVMetadata) (n : Z) : KVMetadata :=
  {| md_key := md_key m; md_dtype := md_dtype m; md_num_layers := md_num_layers m;
     md_num_kv_heads := md_num_kv_heads m; md_head_dim := md_head_dim m;
     md_tokens := md_tokens m; md_bytes := md_bytes m; md_shape := md_shape m;
     md_checksum := md_checksum m; md_checksum_algo := md_checksum_algo m;
     md_created_at := md_created_at m; md_last_access := md_last_access m;
     md_reuse_count := PInt n; md_extra := md_extra m |}.

(** *** validate *)

(** [isinstance(value, bool) or not isinstance(value, int) or value < low]. *)
Definition bad_int (low : Z) (v : pyval) : bool :=
  match v with PInt z => z <? low | _ => true end.

Definition check_int (name : pystr) (low : Z) (detail : pystr) (v : pyval) : res unit :=
  ensure (negb (bad_int low v)) (err ValueError (str "metadata " ++ name ++ detail)).

Definition check_dtype (v : pyval) : res unit :=
  let e := err ValueError (str "metadata dtype must be a bounded non-empty string") in
  match v with
  | PStr s =>
      ensure (negb (bool_decide (s = []))) e ;?
      match utf8_encode s with
      | None => Raise (err UnicodeEncodeError (str "surrogates not allowed"))
      | Some bs => ensure ((zlen bs <=? 64) && negb (existsb is_control s)) e
      end
  | _ => Raise e
  end.

Definition check_shape (v : pyval) : res unit :=
  ensure (match v with PTuple l => negb (existsb (bad_int 0) l) | _ => false end)
         (err ValueError (str "metadata shape must contain non-negative integers")).

Definition check_checksum (require_checksum : bool) (v : pyval) : res unit :=
  ensure (negb ((require_checksum || truthy v) &&
                match v with PStr s => negb (_BLOCK_HASH_RE s) | _ => true end))
         (err ValueError (str "metadata checksum must be lowercase SHA-256 hex")).

(** [math.isfinite] converts an integer to a float first. *)
Definition check_timestamp (name : pystr) (v : pyval) : res unit :=
  let e := err ValueError (str "metadata " ++ name ++ str " must be a finite timestamp") in
  match v with
  | PInt z =>
      if f64_finite (f64_of_Z z) then ensure (0 <=? z) e
      else Raise (err OverflowError (str "int too large to convert to float"))
  | PFloat f => ensure (f64_finite f && negb (f64_ltb f (S754_zero false))) e
  | _ => Raise e
  end.

Definition check_extra (v : pyval) : res unit :=
  ensure (is_dict v) (err ValueError (str "metadata extra must be an object")) ;?
  res_catch (res_map (fun _ => tt) (json_dumps fmt_strict v)) [TypeError; ValueError]
    (fun e => Raise (err_from ValueError (str "metadata extra must be finite JSON data") e)).

(** [KVMetadata.validate(require_checksum=...)]. *)
Definition validate (require_checksum : bool) (m : KVMetadata) : res unit :=
  check_dtype (md_dtype m) ;?
  check_int (str "num_layers") 1 (str " must be a positive integer") (md_num_layers m) ;?
  check_int (str "num_kv_heads") 1 (str " must be a positive integer") (md_num_kv_heads m) ;?
  check_int (str "head_dim") 1 (str " must be a positive integer") (md_head_dim m) ;?
  check_int (str "tokens") 0 (str " must be a non-negative integer") (md_tokens m) ;?
  check_int (str "bytes") 0 (str " must be a non-negative integer") (md_bytes m) ;?
  check_int (str "reuse_count") 0 (str " must be a non-negative integer") (md_reuse_count m) ;?
  check_shape (md_shape m) ;?
  ensure (py_eq (md_checksum_algo m) (PStr (str "sha256")))
         (err ValueError (str "metadata checksum_algo must be sha256")) ;?
  check_checksum require_checksum (md_checksum m) ;?
  check_timestamp (str "created_at") (md_created_at m) ;?
  check_timestamp (str "last_access") (md_last_access m) ;?
  check_extra (md_extra m).

(** *** payload_descriptor *)

Definition payload_descriptor (m : KVMetadata) : BlockKey * list pyval :=
  (md_key m, [md_dtype m; md_num_layers m; md_num_kv_heads m; md_head_dim m; md_tokens m;
              md_bytes m; md_shape m; md_checksum m; md_checksum_algo m; md_extra m]).

Definition descriptor_eqb (d1 d2 : BlockKey * list pyval) : bool :=
  bool_decide (d1.1 = d2.1) && py_eq_list d1.2 d2.2.

(** *** to_dict and from_dict *)

Definition key_dict (k : BlockKey) : pyval :=
  PDict [(str "tenant_id", PStr (tenant_id k)); (str "model_id", PStr (model_id k));
         (str "model_revision", PStr (model_revision k));
         (str "tokenizer_revision", PStr (tokenizer_revision k));
         (str "block_hash", PStr (block_hash k)); (str "lora_id", PStr (lora_id k));
         (str "modality_key", PStr (modality_key k))].

(** The elements of an iterable, as [list(v)] and [tuple(v)] read them. *)
Definition iterate (v : pyval) : res (list pyval) :=
  match v with
  | PList l | PTuple l => Ok l
  | PStr s => Ok (map (fun c => PStr [c]) s)
  | PDict d => Ok (map (fun kv => PStr kv.1) d)
  | _ => Raise (err TypeError (str "object is not iterable"))
  end.

Definition to_dict (m : KVMetadata) : res pyval :=
  let? shape := iterate (md_shape m) in
  Ok (PDict
    [(str "key", key_dict (md_key m)); (str "dtype", md_dtype m);
     (str "num_layers", md_num_layers m); (str "num_kv_heads", md_num_kv_heads m);
     (str "head_dim", md_head_dim m); (str "tokens", md_tokens m); (str "bytes", md_bytes m);
     (str "shape", PList shape); (str "checksum", md_checksum m);
     (str "checksum_algo", md_checksum_algo m); (str "created_at", md_created_at m);
     (str "last_access", md_last_access m); (str "reuse_count", md_reuse_count m);
     (str "extra", md_extra m)]).

(** A keyword argument of a call [cls( **d )]. *)
Definition required_arg (k : pystr) (d : list (pystr * pyval)) : res pyval :=
  match dict_get k d with
  | Some v => Ok v
  | None => Raise (err TypeError (str "missing required argument"))
  end.

Definition optional_arg (k : pystr) (dflt : pyval) (d : list (pystr * pyval)) : pyval :=
  default dflt (dict_get k d).

Definition only_args (names : list pystr) (d : list (pystr * pyval)) : res unit :=
  ensure (forallb (fun kv => bool_decide (kv.1 ∈ names)) d)
         (err TypeError (str "got an unexpected keyword argument")).

Definition key_fields : list pystr :=
  [str "tenant_id"; str "model_id"; str "model_revision"; str "tokenizer_revision";
   str "block_hash"; str "lora_id"; str "modality_key"].

(** [BlockKey( **key_data )]. *)
Definition key_from_dict (v : pyval) : res BlockKey :=
  match v with
  | PDict d =>
      only_args key_fields d ;?
      let? t := required_arg (str "tenant_id") d in
      let? m := required_arg (str "model_id") d in
      let? r := required_arg (str "model_revision") d in
      let? k := required_arg (str "tokenizer_revision") d in
      let? h := required_arg (str "block_hash") d in
      BlockKey_init t m r k h (optional_arg (str "lora_id") (PStr []) d)
        (optional_arg (str "modality_key") (PStr []) d)
  | _ => Raise (err TypeError (str "argument after ** must be a mapping"))
  end.

Definition metadata_fields : list pystr :=
  [str "key"; str "dtype"; str "num_layers"; str "num_kv_heads"; str "head_dim";
   str "tokens"; str "bytes"; str "shape"; str "checksum"; str "checksum_algo";
   str "created_at"; str "last_access"; str "reuse_count"; str "extra"].

(** [KVMetadata.from_dict(data)]; [now] is [time.time()], the default of the
    two timestamps. *)
Definition from_dict (now : f64) (data : pyval) : res KVMetadata :=
  match data with
  | PDict d =>
      let? key_data := match dict_get (str "key") d with
                       | Some v => Ok v
                       | None => Raise (err KeyError (str "key"))
                       end in
      let? key := key_from_dict key_data in
      let? shape := (let s := get_or_none (str "shape") d in
                     if truthy s then iterate s else Ok []) in
      only_args metadata_fields d ;?
      let? dtype := required_arg (str "dtype") d in
      let? num_layers := required_arg (str "num_layers") d in
      let? num_kv_heads := required_arg (str "num_kv_heads") d in
      let? head_dim := required_arg (str "head_dim") d in
      let? tokens := required_arg (str "tokens") d in
      let? bytes := required_arg (str "bytes") d in
      Ok {| md_key := key; md_dtype := dtype; md_num_layers := num_layers;
            md_num_kv_heads := num_kv_heads; md_head_dim := head_dim; md_tokens := tokens;
            md_bytes := bytes; md_shape := PTuple shape;
            md_checksum := optional_arg (str "checksum") (PStr []) d;
            md_checksum_algo := optional_arg (str "checksum_algo") (PStr (str "sha256")) d;
            md_created_at := optional_arg (str "created_at") (PFloat now) d;
            md_last_access := optional_arg (str "last_access") (PFloat now) d;
            md_reuse_count := optional_arg (str "reuse_count") (PInt 0) d;
            md_extra := optional_arg (str "extra") (PDict []) d |}
  | _ => Raise (err TypeError (str "indices must be integers or not subscriptable"))
  end.

(** ** Locations and results *)

(** The attributes of a location that [location_json] persists, in the order
    of [LOCATION_FIELDS], with the defaults of the dataclass. *)
Definition default_attributes : list (pystr * pyval) :=
  [(str "locality", PStr (str "unknown")); (str "transport", PStr (str "unknown"));
   (str "cloud", PStr (str "local")); (str "region", PStr (str "local"));
   (str "zone", PStr (str "local")); (str "cluster_id", PStr (str "local"));
   (str "node_id", PStr []); (str "estimated_load_p95_ms", PNone);
   (str "estimated_transfer_p95_ms", PNone); (str "egress_cost_class", PStr (str "none"));
   (str "ttl_seconds", PNone); (str "confidence", PFloat (f64_of_Z 1))].

Record BlockLocation := {
  loc_key : BlockKey;
  loc_tier : TierName;
  loc_uri : pystr;
  loc_bytes : Z;
  loc_checksum : pystr;
  loc_created_at : pyval;
  loc_last_access : pyval;
  loc_attributes : list (pystr * pyval);
}.

Record StoreResult := {
  sr_key : BlockKey;
  sr_tier : TierName;
  sr_bytes : Z;
  sr_latency_ms : f64;
  sr_checksum : pystr;
}.

Record LoadResult := {
  lr_key : BlockKey;
  lr_tier : TierName;
  lr_data : pybytes;
  lr_metadata : KVMetadata;
  lr_latency_ms : f64;
  lr_from_prefetch : bool;
}.
