(* ===== verification/MetadataFacts.v ===== *)
(** * Facts about block identity and metadata

    The namespace text identifies the namespace fields (with the block hash,
    the whole key); [validate] types the fields; persisted metadata reads back
    through [to_dict], JSON text and [from_dict]. At the end, the concrete blocks that
    instantiate theorems. *)

From Stdlib Require Import SpecFloat.
From S2P Require Import Prelude PyText Float64 Errors PyVal Json JsonFacts Metadata.
Import ResNotations.

(** ** Keys *)

Lemma utf8_char_scalar c b : utf8_char c = Some b -> is_scalar c = true.
Proof. unfold utf8_char. by destruct (is_scalar c). Qed.

Lemma utf8_encode_str_ok s bs : utf8_encode s = Some bs -> str_ok s = true.
Proof.
  revert bs. induction s as [|c s IH]; simpl; intros bs H; [done|].
  destruct (utf8_char c) eqn:E; [|done]. destruct (utf8_encode s); [|done].
  apply utf8_char_scalar in E. unfold str_ok in *. simpl. rewrite E. simpl. by eapply IH.
Qed.

Lemma identity_component_ok name v e s :
  _validate_identity_component name v e = Ok s ->
  v = PStr s /\ str_ok s = true /\ (exists bs, utf8_encode s = Some bs /\ zlen bs <= 128) /\
  existsb is_control s = false /\ (e = false -> s <> []).
Proof.
  unfold _validate_identity_component. destruct v as [| | | |s'| | | |]; try done. intros H.
  apply res_bind_ok in H as ([] & He%ensure_ok & H).
  destruct (utf8_encode s') as [bs|] eqn:Eb; [|done].
  apply res_bind_ok in H as ([] & Hl%ensure_ok & H).
  apply res_bind_ok in H as ([] & Hc%ensure_ok & H). injection H as <-.
  unfold MAX_IDENTITY_COMPONENT_BYTES in Hl. repeat split.
  - by eapply utf8_encode_str_ok.
  - exists bs. split; [done|]. lia.
  - by apply negb_true_iff in Hc.
  - intros ->. simpl in He. by apply negb_true_iff, bool_decide_eq_false in He.
Qed.

Lemma BlockKey_init_ok t m r k h l d key :
  BlockKey_init t m r k h l d = Ok key ->
  t = PStr (tenant_id key) /\ m = PStr (model_id key) /\ r = PStr (model_revision key) /\
  k = PStr (tokenizer_revision key) /\ h = PStr (block_hash key) /\ l = PStr (lora_id key) /\
  d = PStr (modality_key key) /\
  forallb str_ok [tenant_id key; model_id key; model_revision key; tokenizer_revision key;
                  lora_id key; modality_key key] = true /\
  _BLOCK_HASH_RE (block_hash key) = true.
Proof.
  unfold BlockKey_init. intros H.
  apply res_bind_ok in H as (t' & H1 & H). apply res_bind_ok in H as (m' & H2 & H).
  apply res_bind_ok in H as (r' & H3 & H). apply res_bind_ok in H as (k' & H4 & H).
  apply res_bind_ok in H as (l' & H5 & H). apply res_bind_ok in H as (d' & H6 & H).
  apply identity_component_ok in H1 as (-> & O1 & _), H2 as (-> & O2 & _), H3 as (-> & O3 & _),
    H4 as (-> & O4 & _), H5 as (-> & O5 & _), H6 as (-> & O6 & _).
  destruct h as [| | | |h'| | | |]; try done.
  apply res_bind_ok in H as ([] & Hh%ensure_ok & H). injection H as <-. simpl.
  rewrite O1, O2, O3, O4, O5, O6. done.
Qed.

Lemma key_valid_init key :
  key_valid key = true ->
  BlockKey_init (PStr (tenant_id key)) (PStr (model_id key)) (PStr (model_revision key))
    (PStr (tokenizer_revision key)) (PStr (block_hash key)) (PStr (lora_id key))
    (PStr (modality_key key)) = Ok key.
Proof.
  unfold key_valid. destruct (BlockKey_init _ _ _ _ _ _ _) as [key'|] eqn:E; [|done]. intros _.
  apply BlockKey_init_ok in E as ([= E1] & [= E2] & [= E3] & [= E4] & [= E5] & [= E6] & [= E7] & _).
  f_equal. destruct key, key'; simpl in *; congruence.
Qed.

Lemma key_valid_parts key :
  key_valid key = true ->
  forallb str_ok [tenant_id key; model_id key; model_revision key; tokenizer_revision key;
                  lora_id key; modality_key key] = true /\
  _BLOCK_HASH_RE (block_hash key) = true.
Proof. intros H%key_valid_init%BlockKey_init_ok. naive_solver. Qed.

Lemma key_valid_of_init t m r k h l d key :
  BlockKey_init t m r k h l d = Ok key -> key_valid key = true.
Proof.
  intros H. unfold key_valid.
  apply BlockKey_init_ok in H as Hf. destruct Hf as (-> & -> & -> & -> & -> & -> & -> & _).
  by rewrite H.
Qed.

Lemma namespace_dumps k : json_dumps fmt_unicode (namespace_doc k) = Ok (namespace k).
Proof. reflexivity. Qed.

Lemma namespace_doc_ok k : key_valid k = true -> json_ok (namespace_doc k) = true.
Proof.
  intros [H _]%key_valid_parts. unfold namespace_doc. cbn [map json_ok forallb] in *.
  rewrite H. done.
Qed.

Lemma namespace_loads k :
  key_valid k = true -> json_loads (namespace k) = Ok (namespace_doc k).
Proof.
  intros Hk. change (namespace_doc k) with (json_norm fmt_unicode (namespace_doc k)).
  apply json_loads_dumps; [apply namespace_dumps|by apply namespace_doc_ok].
Qed.

(** The row identity [(block_hash, namespace)] determines the whole key. *)
Lemma key_identity k1 k2 :
  key_valid k1 = true -> key_valid k2 = true ->
  block_hash k1 = block_hash k2 -> namespace k1 = namespace k2 -> k1 = k2.
Proof.
  intros H1 H2 Hh Hn. apply namespace_loads in H1, H2. rewrite Hn, H2 in H1.
  unfold namespace_doc in H1. injection H1 as E1 E2 E3 E4 E5 E6.
  destruct k1, k2; simpl in *; congruence.
Qed.

(** ** Dictionaries up to order *)

Lemma dict_get_perm {V} (d d' : list (pystr * V)) k :
  d ≡ₚ d' -> NoDup d.*1 -> dict_get k d = dict_get k d'.
Proof.
  intros Hp Hnd. destruct (dict_get k d') as [v|] eqn:E.
  - apply dict_get_elem in E. apply elem_dict_get; [done|]. by rewrite Hp.
  - apply dict_get_None. apply dict_get_None in E. by rewrite Hp.
Qed.

Lemma dict_get_on_values {A B} (f : A -> B) d k : dict_get k (on_values f d) = f <$> dict_get k d.
Proof.
  induction d as [|[k' v] d IH]; simpl; [done|]. case_decide; [done|]. apply IH.
Qed.

Lemma on_values_keys {A B} (f : A -> B) d : (on_values f d).*1 = d.*1.
Proof. unfold on_values. induction d as [|[k v] d IH]; simpl; [done|]. f_equal. apply IH. Qed.

(** Reading a key of a normalized dictionary. *)
Lemma norm_dict_get fm b d k :
  NoDup d.*1 -> dict_get k (maybe_sort b (on_values (json_norm fm) d)) = json_norm fm <$> dict_get k d.
Proof.
  intros Hnd. rewrite (dict_get_perm _ (on_values (json_norm fm) d)).
  - apply dict_get_on_values.
  - apply maybe_sort_perm.
  - rewrite maybe_sort_perm, on_values_keys. done.
Qed.

Lemma forallb_perm {A} (f : A -> bool) l l' : l ≡ₚ l' -> forallb f l = forallb f l'.
Proof.
  intros Hp. apply eq_true_iff_eq. rewrite !Forall_forallb. by rewrite Hp.
Qed.

Lemma only_args_norm names fm b d :
  only_args names (maybe_sort b (on_values (json_norm fm) d)) = only_args names d.
Proof.
  unfold only_args. f_equal.
  rewrite (forallb_perm _ _ (on_values (json_norm fm) d) (maybe_sort_perm _ _)).
  induction d as [|[k v] d IH]; simpl; [done|]. by rewrite IH.
Qed.

Lemma required_arg_norm fm b d k :
  NoDup d.*1 ->
  required_arg k (maybe_sort b (on_values (json_norm fm) d)) = res_map (json_norm fm) (required_arg k d).
Proof. intros Hnd. unfold required_arg. rewrite norm_dict_get by done. by destruct (dict_get k d). Qed.

Lemma optional_arg_norm fm b d k v dflt :
  NoDup d.*1 -> dict_get k d = Some v ->
  optional_arg k dflt (maybe_sort b (on_values (json_norm fm) d)) = json_norm fm v.
Proof. intros Hnd Hv. unfold optional_arg. by rewrite norm_dict_get, Hv by done. Qed.

(** ** Typed metadata *)

Definition timestamp (v : pyval) : Prop :=
  (exists z, v = PInt z /\ 0 <= z /\ f64_finite (f64_of_Z z) = true) \/
  (exists f, v = PFloat f /\ f64_finite f = true /\ f64_ltb f (S754_zero false) = false).

(** What [validate] establishes. *)
Record typed (m : KVMetadata) : Prop := {
  ty_dtype : exists s, md_dtype m = PStr s /\ str_ok s = true;
  ty_num_layers : exists z, md_num_layers m = PInt z /\ 1 <= z;
  ty_num_kv_heads : exists z, md_num_kv_heads m = PInt z /\ 1 <= z;
  ty_head_dim : exists z, md_head_dim m = PInt z /\ 1 <= z;
  ty_tokens : exists z, md_tokens m = PInt z /\ 0 <= z;
  ty_bytes : exists z, md_bytes m = PInt z /\ 0 <= z;
  ty_reuse_count : exists z, md_reuse_count m = PInt z /\ 0 <= z;
  ty_shape : exists l, md_shape m = PTuple (map PInt l) /\ Forall (fun z => 0 <= z) l;
  ty_algo : md_checksum_algo m = PStr (str "sha256");
  ty_checksum : exists s, md_checksum m = PStr s /\ _BLOCK_HASH_RE s = true;
  ty_created_at : timestamp (md_created_at m);
  ty_last_access : timestamp (md_last_access m);
  ty_extra : exists d, md_extra m = PDict d /\ is_ok (json_dumps fmt_strict (PDict d)) = true;
}.

Lemma check_int_ok name low detail v u :
  check_int name low detail v = Ok u -> exists z, v = PInt z /\ low <= z.
Proof.
  unfold check_int. intros H%ensure_ok. destruct v; try done. simpl in H.
  eexists. split; [done|]. lia.
Qed.

Lemma check_dtype_ok v u : check_dtype v = Ok u -> exists s, v = PStr s /\ str_ok s = true.
Proof.
  unfold check_dtype. destruct v as [| | | |s| | | |]; try done. intros H.
  apply res_bind_ok in H as (? & _ & H). destruct (utf8_encode s) eqn:E; [|done].
  exists s. split; [done|]. by eapply utf8_encode_str_ok.
Qed.

Lemma check_timestamp_ok name v u : check_timestamp name v = Ok u -> timestamp v.
Proof.
  unfold check_timestamp, timestamp. destruct v as [| |z|f| | | | |]; try done.
  - destruct (f64_finite (f64_of_Z z)) eqn:E; [|done]. intros H%ensure_ok.
    left. exists z. split_and!; [done|lia|done].
  - intros [H1 H2]%ensure_ok%andb_true_iff. right. exists f. by apply negb_true_iff in H2.
Qed.

Lemma check_shape_ok v u :
  check_shape v = Ok u -> exists l, v = PTuple (map PInt l) /\ Forall (fun z => 0 <= z) l.
Proof.
  unfold check_shape. intros H%ensure_ok. destruct v as [| | | | | |l| |]; try done.
  apply negb_true_iff in H. induction l as [|x l IH]; [by exists []|].
  simpl in H. apply orb_false_iff in H as [Hx Hl].
  destruct (IH Hl) as (zs & [= ->] & Hz). destruct x as [| |z| | | | | |]; try done.
  exists (z :: zs). split; [done|]. constructor; [simpl in Hx; lia|done].
Qed.

Lemma check_extra_ok v u :
  check_extra v = Ok u -> exists d, v = PDict d /\ is_ok (json_dumps fmt_strict (PDict d)) = true.
Proof.
  unfold check_extra. intros H. apply res_bind_ok in H as (? & Hd%ensure_ok & H).
  destruct v as [| | | | | | |d|]; try done. exists d. split; [done|].
  apply res_catch_ok, res_map_ok in H as (t & Ht & _). by rewrite Ht.
Qed.

Ltac next_check H x := apply res_bind_ok in H as (? & x & H).

Lemma validate_typed m u : validate true m = Ok u -> typed m.
Proof.
  unfold validate. intros H.
  next_check H H1. next_check H H2. next_check H H3. next_check H H4. next_check H H5.
  next_check H H6. next_check H H7. next_check H H8. next_check H H9. next_check H H10.
  next_check H H11. next_check H H12.
  split; eauto using check_dtype_ok, check_int_ok, check_shape_ok, check_timestamp_ok, check_extra_ok.
  - apply ensure_ok in H9. destruct (md_checksum_algo m); try done. simpl in H9.
    by apply bool_decide_eq_true in H9 as ->.
  - apply ensure_ok, negb_true_iff in H10. simpl in H10.
    destruct (md_checksum m) as [| | | |s| | | |]; try done.
    exists s. split; [done|]. by apply negb_false_iff in H10.
Qed.

(** ** Persisted metadata reads back *)

Lemma key_fields_nodup : NoDup key_fields.
Proof. by apply (bool_decide_unpack _); vm_compute. Qed.

Lemma metadata_fields_nodup : NoDup metadata_fields.
Proof. by apply (bool_decide_unpack _); vm_compute. Qed.

Lemma key_from_dict_norm fm k :
  key_valid k = true -> key_from_dict (json_norm fm (key_dict k)) = Ok k.
Proof.
  intros Hk. unfold key_dict. rewrite json_norm_dict.
  set (d := [_; _; _; _; _; _; _]).
  assert (NoDup d.*1) as Hnd by apply key_fields_nodup.
  unfold key_from_dict. rewrite only_args_norm. change (only_args key_fields d) with (Ok tt).
  cbn [res_bind]. rewrite !required_arg_norm by done.
  change (required_arg (str "tenant_id") d) with (Ok (PStr (tenant_id k))).
  change (required_arg (str "model_id") d) with (Ok (PStr (model_id k))).
  change (required_arg (str "model_revision") d) with (Ok (PStr (model_revision k))).
  change (required_arg (str "tokenizer_revision") d) with (Ok (PStr (tokenizer_revision k))).
  change (required_arg (str "block_hash") d) with (Ok (PStr (block_hash k))).
  rewrite (optional_arg_norm fm _ d (str "lora_id") (PStr (lora_id k))) by done.
  rewrite (optional_arg_norm fm _ d (str "modality_key") (PStr (modality_key k))) by done.
  cbn [res_map res_bind json_norm]. by apply key_valid_init.
Qed.

Definition metadata_items (m : KVMetadata) (shape : list pyval) : list (pystr * pyval) :=
  [(str "key", key_dict (md_key m)); (str "dtype", md_dtype m);
   (str "num_layers", md_num_layers m); (str "num_kv_heads", md_num_kv_heads m);
   (str "head_dim", md_head_dim m); (str "tokens", md_tokens m); (str "bytes", md_bytes m);
   (str "shape", PList shape); (str "checksum", md_checksum m);
   (str "checksum_algo", md_checksum_algo m); (str "created_at", md_created_at m);
   (str "last_access", md_last_access m); (str "reuse_count", md_reuse_count m);
   (str "extra", md_extra m)].

(** Metadata the store can persist and read back: valid, with a key the
    constructor accepts and a JSON document in the domain of the round trip. *)
Definition storable (m : KVMetadata) : bool :=
  is_ok (validate true m) && key_valid (md_key m) && json_ok (md_created_at m)
  && json_ok (md_last_access m) && json_ok (md_extra m).

Lemma storable_inv m :
  storable m = true ->
  typed m /\ key_valid (md_key m) = true /\ json_ok (md_created_at m) = true /\
  json_ok (md_last_access m) = true /\ json_ok (md_extra m) = true.
Proof.
  unfold storable. rewrite !andb_true_iff. intros [[[[H ?] ?] ?] ?]. split_and!; try done.
  destruct (validate true m) eqn:E; [|done]. by eapply validate_typed.
Qed.

(** What the text keeps of metadata: everything but the order of the keys and
    the tuples of [extra]. *)
Definition norm_metadata (fm : jfmt) (m : KVMetadata) : KVMetadata :=
  {| md_key := md_key m; md_dtype := md_dtype m; md_num_layers := md_num_layers m;
     md_num_kv_heads := md_num_kv_heads m; md_head_dim := md_head_dim m;
     md_tokens := md_tokens m; md_bytes := md_bytes m; md_shape := md_shape m;
     md_checksum := md_checksum m; md_checksum_algo := md_checksum_algo m;
     md_created_at := md_created_at m; md_last_access := md_last_access m;
     md_reuse_count := md_reuse_count m; md_extra := json_norm fm (md_extra m) |}.

Lemma timestamp_norm fm v : timestamp v -> json_norm fm v = v.
Proof. by intros [(? & -> & _)|(? & -> & _)]. Qed.

Lemma map_norm_ints fm l : map (json_norm fm) (map PInt l) = map PInt l.
Proof. induction l; simpl; [done|]. by f_equal. Qed.

Lemma json_ok_ints l : forallb json_ok (map PInt l) = true.
Proof. by induction l. Qed.

Lemma truthy_shape l :
  (if truthy (PList l) then iterate (PList l) else Ok []) = Ok l.
Proof. by destruct l. Qed.

Lemma from_dict_items fm now m shape :
  typed m -> key_valid (md_key m) = true -> md_shape m = PTuple (map PInt shape) ->
  from_dict now (json_norm fm (PDict (metadata_items m (map PInt shape)))) =
  Ok (norm_metadata fm m).
Proof.
  intros Ht Hk Hs. rewrite json_norm_dict. set (d := metadata_items m _).
  assert (NoDup d.*1) as Hnd by apply metadata_fields_nodup.
  unfold from_dict. rewrite only_args_norm. change (only_args metadata_fields d) with (Ok tt).
  unfold get_or_none. rewrite !norm_dict_get by done.
  change (dict_get (str "key") d) with (Some (key_dict (md_key m))).
  change (dict_get (str "shape") d) with (Some (PList (map PInt shape))).
  cbn [fmap option_fmap option_map default from_option id res_bind].
  rewrite key_from_dict_norm by done. cbn [res_bind json_norm].
  rewrite map_norm_ints, truthy_shape. cbn [res_bind].
  rewrite !required_arg_norm by done.
  change (required_arg (str "dtype") d) with (Ok (md_dtype m)).
  change (required_arg (str "num_layers") d) with (Ok (md_num_layers m)).
  change (required_arg (str "num_kv_heads") d) with (Ok (md_num_kv_heads m)).
  change (required_arg (str "head_dim") d) with (Ok (md_head_dim m)).
  change (required_arg (str "tokens") d) with (Ok (md_tokens m)).
  change (required_arg (str "bytes") d) with (Ok (md_bytes m)).
  rewrite (optional_arg_norm fm _ d (str "checksum") (md_checksum m)) by done.
  rewrite (optional_arg_norm fm _ d (str "checksum_algo") (md_checksum_algo m)) by done.
  rewrite (optional_arg_norm fm _ d (str "created_at") (md_created_at m)) by done.
  rewrite (optional_arg_norm fm _ d (str "last_access") (md_last_access m)) by done.
  rewrite (optional_arg_norm fm _ d (str "reuse_count") (md_reuse_count m)) by done.
  rewrite (optional_arg_norm fm _ d (str "extra") (md_extra m)) by done.
  cbn [res_map res_bind]. unfold norm_metadata. rewrite Hs.
  destruct (ty_dtype m Ht) as (? & -> & _), (ty_num_layers m Ht) as (? & -> & _),
    (ty_num_kv_heads m Ht) as (? & -> & _), (ty_head_dim m Ht) as (? & -> & _),
    (ty_tokens m Ht) as (? & -> & _), (ty_bytes m Ht) as (? & -> & _),
    (ty_reuse_count m Ht) as (? & -> & _), (ty_checksum m Ht) as (? & -> & _).
  by rewrite (ty_algo m Ht), (timestamp_norm fm _ (ty_created_at m Ht)),
    (timestamp_norm fm _ (ty_last_access m Ht)).
Qed.

Lemma hex_fullmatch_str_ok n s : hex_fullmatch n s = true -> str_ok s = true.
Proof.
  unfold hex_fullmatch, str_ok. rewrite andb_true_iff. intros [_ H].
  rewrite Forall_forallb in *. eapply Forall_impl; [exact H|]. intros c Hc. simpl in *.
  unfold is_lower_hex, is_scalar, is_surrogate in *. lia.
Qed.

Lemma items_json_ok m shape :
  storable m = true -> md_shape m = PTuple (map PInt shape) ->
  json_ok (PDict (metadata_items m (map PInt shape))) = true.
Proof.
  intros (Ht & Hk & Hc & Ha & He)%storable_inv Hs.
  apply key_valid_parts in Hk as [Hk Hh%hex_fullmatch_str_ok].
  destruct (ty_dtype m Ht) as (? & Ed & Hd), (ty_num_layers m Ht) as (? & E1 & _),
    (ty_num_kv_heads m Ht) as (? & E2 & _), (ty_head_dim m Ht) as (? & E3 & _),
    (ty_tokens m Ht) as (? & E4 & _), (ty_bytes m Ht) as (? & E5 & _),
    (ty_reuse_count m Ht) as (? & E6 & _), (ty_checksum m Ht) as (? & E7 & Hck%hex_fullmatch_str_ok).
  pose proof (ty_algo m Ht) as E8.
  unfold metadata_items, key_dict. rewrite Ed, E1, E2, E3, E4, E5, E6, E7, E8.
  cbn [json_ok]. rewrite Hd, Hck, Hc, Ha, He, json_ok_ints, Hh.
  cbn [forallb] in Hk. rewrite !andb_true_iff in Hk. destruct_and!.
  repeat match goal with H : str_ok _ = true |- _ => rewrite H; clear H end.
  vm_compute. reflexivity.
Qed.

Lemma to_dict_items m :
  typed m -> exists shape, md_shape m = PTuple (map PInt shape) /\
    to_dict m = Ok (PDict (metadata_items m (map PInt shape))).
Proof.
  intros Ht. destruct (ty_shape m Ht) as (l & E & _). exists l. split; [done|].
  unfold to_dict. by rewrite E.
Qed.

(** The text of storable metadata reads back as the metadata. *)
Lemma metadata_text_roundtrip fm now m d t :
  storable m = true -> to_dict m = Ok d -> json_dumps fm d = Ok t ->
  res_bind (json_loads t) (from_dict now) = Ok (norm_metadata fm m).
Proof.
  intros Hm Hd Ht. pose proof (storable_inv m Hm) as (Hty & Hk & _).
  destruct (to_dict_items m Hty) as (shape & Hs & Hd'). rewrite Hd in Hd'. injection Hd' as ->.
  rewrite (json_loads_dumps fm _ t Ht); [|by apply items_json_ok].
  by apply from_dict_items.
Qed.

(** ** Descriptors *)

Lemma float_ok_not_nan f : float_ok f = true -> f64_nan f = false.
Proof. unfold float_ok. by destruct f. Qed.

Lemma json_ok_regular v : json_ok v = true -> regular v = true.
Proof.
  induction v as [|b|z|f|s|l IH|l IH|d IH|z] using pyval_ind; intros H; try done.
  - simpl in *. by rewrite float_ok_not_nan.
  - simpl in *. rewrite Forall_forallb, !Forall_forall in *. auto.
  - simpl in *. rewrite Forall_forallb, !Forall_forall in *. auto.
  - apply json_ok_dict in H as [Hnd H]. rewrite regular_PDict, bool_decide_eq_true_2 by done. simpl.
    rewrite Forall_forallb, !Forall_forall in *. intros kv Hkv. apply IH; [done|]. by apply H.
Qed.

(** No tuple inside the value (tuples read back as lists). *)
Fixpoint no_tuple (v : pyval) : bool :=
  match v with
  | PTuple _ => false
  | PList l => forallb no_tuple l
  | PDict d => (fix go d := match d with [] => true | (k, x) :: d' => no_tuple x && go d' end) d
  | _ => true
  end.

Lemma no_tuple_dict d : no_tuple (PDict d) = forallb (fun kv => no_tuple kv.2) d.
Proof. simpl. induction d as [|[k x] d IH]; simpl; [done|]. by rewrite IH. Qed.

Lemma py_eq_norm_list fm l :
  Forall (fun v => json_ok v = true -> no_tuple v = true -> py_eq (json_norm fm v) v = true) l ->
  forallb json_ok l = true -> forallb no_tuple l = true ->
  py_eq_list (map (json_norm fm) l) l = true.
Proof.
  induction 1 as [|v l Hv _ IH]; simpl; [done|]. rewrite !andb_true_iff. naive_solver.
Qed.

(** A persisted value equals the stored one. *)
Lemma py_eq_norm fm v :
  json_ok v = true -> no_tuple v = true -> py_eq (json_norm fm v) v = true.
Proof.
  induction v as [|b|z|f|s|l IH|l IH|d IH|z] using pyval_ind; intros Hok Hnt; try done;
    try (apply py_eq_refl, json_ok_regular; exact Hok).
  - cbn [json_norm]. rewrite py_eq_PList. by apply py_eq_norm_list.
  - apply json_ok_dict in Hok as [Hnd Hok]. rewrite no_tuple_dict in Hnt.
    rewrite json_norm_dict, py_eq_PDict. apply andb_true_iff. split.
    + rewrite maybe_sort_perm. unfold on_values. rewrite length_map. apply Nat.eqb_refl.
    + unfold py_sub_dict. rewrite (forallb_perm _ _ _ (maybe_sort_perm _ _)).
      unfold on_values. rewrite Forall_forallb in *. apply Forall_fmap.
      rewrite !Forall_forall in *. intros [k x] Hin. simpl.
      rewrite (elem_dict_get k x) by done.
      apply (IH _ Hin); [apply (Hok _ Hin)|apply (Hnt _ Hin)].
Qed.

Definition descriptor_regular (m : KVMetadata) : Prop :=
  Forall (fun v => regular v = true) (payload_descriptor m).2.

Lemma typed_descriptor_regular m :
  typed m -> regular (md_extra m) = true -> descriptor_regular m.
Proof.
  intros Ht He. unfold descriptor_regular. simpl.
  destruct (ty_dtype m Ht) as (? & -> & _), (ty_num_layers m Ht) as (? & -> & _),
    (ty_num_kv_heads m Ht) as (? & -> & _), (ty_head_dim m Ht) as (? & -> & _),
    (ty_tokens m Ht) as (? & -> & _), (ty_bytes m Ht) as (? & -> & _),
    (ty_checksum m Ht) as (? & -> & _), (ty_shape m Ht) as (l & -> & _).
  rewrite (ty_algo m Ht). repeat (apply Forall_cons; split; [done|]).
  apply Forall_cons; split; [simpl; by induction l|].
  repeat (apply Forall_cons; split; [done|]). by apply Forall_nil.
Qed.

Lemma py_eq_list_refl' l : Forall (fun v => regular v = true) l -> py_eq_list l l = true.
Proof. induction 1; simpl; [done|]. rewrite py_eq_refl; done. Qed.

Lemma py_eq_list_sym' l l' :
  Forall (fun v => regular v = true) l -> Forall (fun v => regular v = true) l' ->
  py_eq_list l l' = true -> py_eq_list l' l = true.
Proof.
  intros Hl. revert l'. induction Hl as [|x l Hx _ IH]; intros [|y l'] Hl' H; try done.
  apply Forall_cons in Hl' as [Hy Hl']. simpl in *. apply andb_true_iff in H as [H1 H2].
  rewrite (py_eq_sym x y), IH; auto.
Qed.

Lemma descriptor_eqb_refl m : descriptor_regular m ->
  descriptor_eqb (payload_descriptor m) (payload_descriptor m) = true.
Proof.
  intros H. unfold descriptor_eqb. rewrite bool_decide_eq_true_2 by done. by apply py_eq_list_refl'.
Qed.

Lemma descriptor_eqb_sym m1 m2 :
  descriptor_regular m1 -> descriptor_regular m2 ->
  descriptor_eqb (payload_descriptor m1) (payload_descriptor m2) = true ->
  descriptor_eqb (payload_descriptor m2) (payload_descriptor m1) = true.
Proof.
  intros H1 H2. unfold descriptor_eqb. rewrite !andb_true_iff, !bool_decide_eq_true.
  intros [-> H]. split; [done|]. by apply py_eq_list_sym'.
Qed.

(** Metadata read back describes the same payload. *)
Lemma descriptor_norm fm m :
  storable m = true -> no_tuple (md_extra m) = true ->
  descriptor_eqb (payload_descriptor (norm_metadata fm m)) (payload_descriptor m) = true.
Proof.
  intros (Ht & _ & _ & _ & He)%storable_inv Hnt.
  unfold descriptor_eqb. rewrite bool_decide_eq_true_2 by done. cbn [andb payload_descriptor snd].
  pose proof (typed_descriptor_regular m Ht (json_ok_regular _ He)) as Hr.
  unfold descriptor_regular in Hr. cbn [payload_descriptor snd] in Hr.
  cbn [norm_metadata md_dtype md_num_layers md_num_kv_heads md_head_dim md_tokens md_bytes
       md_shape md_checksum md_checksum_algo md_extra py_eq_list].
  repeat (apply Forall_cons in Hr as [?Hx Hr]).
  rewrite !py_eq_refl by done. by rewrite py_eq_norm.
Qed.

(** ** Reading back keeps validity *)

Lemma json_ok_dict_iff d :
  json_ok (PDict d) = true <->
  NoDup d.*1 /\ Forall (fun kv => str_ok kv.1 = true /\ json_ok kv.2 = true) d.
Proof.
  split; [apply json_ok_dict|]. intros [Hnd H]. simpl.
  rewrite bool_decide_eq_true_2 by done. simpl. clear Hnd.
  induction H as [|[k x] d [Hk Hx] _ IH]; [done|]. simpl in *. by rewrite Hk, Hx, IH.
Qed.

Lemma norm_dict_Forall fm b d (P : pystr * pyval -> Prop) :
  Forall (fun kv => P (kv.1, json_norm fm kv.2)) d ->
  Forall P (maybe_sort b (on_values (json_norm fm) d)).
Proof. intros H. rewrite maybe_sort_perm. unfold on_values. by apply Forall_map. Qed.

Lemma json_ok_norm fm v : json_ok v = true -> json_ok (json_norm fm v) = true.
Proof.
  induction v as [|b|z|f|s|l IH|l IH|d IH|z] using pyval_ind; intros H; try done.
  1-2: cbn [json_norm json_ok] in *; rewrite Forall_forallb in *; apply Forall_map;
    rewrite Forall_forall in *; intros x Hx; by apply IH, H.
  rewrite json_norm_dict. apply json_ok_dict in H as [Hnd H]. apply json_ok_dict_iff. split.
  - rewrite maybe_sort_perm, on_values_keys. done.
  - apply norm_dict_Forall. rewrite Forall_forall in *. intros kv Hkv. simpl.
    destruct (H kv Hkv). split; [done|]. by apply IH.
Qed.

Lemma no_tuple_norm fm v : no_tuple (json_norm fm v) = true.
Proof.
  induction v as [|b|z|f|s|l IH|l IH|d IH|z] using pyval_ind; try done.
  1-2: cbn [json_norm no_tuple]; rewrite Forall_forallb; by apply Forall_map.
  rewrite json_norm_dict, no_tuple_dict, Forall_forallb. by apply norm_dict_Forall.
Qed.

Lemma res_seq_is_ok {A} (l : list (res A)) :
  is_ok (res_seq l) = true <-> Forall (fun r => is_ok r = true) l.
Proof.
  induction l as [|[a|e] l IH]; simpl.
  - split; [constructor|done].
  - rewrite Forall_cons, <- IH. destruct (res_seq l); simpl; naive_solver.
  - rewrite Forall_cons. naive_solver.
Qed.

Lemma is_ok_bind_Ok {A B} (r : res A) (f : A -> B) :
  is_ok (res_bind r (fun a => Ok (f a))) = is_ok r.
Proof. by destruct r. Qed.

Lemma is_ok_res_map {A B} (f : A -> B) r : is_ok (res_map f r) = is_ok r.
Proof. by destruct r. Qed.

Lemma dumps_list_ok fm l :
  is_ok (json_dumps fm (PList l)) = true <-> Forall (fun v => is_ok (json_dumps fm v) = true) l.
Proof.
  cbn [json_dumps]. rewrite is_ok_bind_Ok, res_seq_is_ok. by rewrite Forall_map.
Qed.

Lemma dumps_dict_ok fm d :
  is_ok (json_dumps fm (PDict d)) = true <-> Forall (fun kv => is_ok (json_dumps fm kv.2) = true) d.
Proof.
  rewrite json_dumps_dict, is_ok_bind_Ok, res_seq_is_ok, Forall_map.
  setoid_rewrite is_ok_res_map. by rewrite maybe_sort_perm.
Qed.

(** A document that serializes also serializes after a round trip. *)
Lemma dumps_norm_ok fm fm' v :
  is_ok (json_dumps fm v) = true -> is_ok (json_dumps fm (json_norm fm' v)) = true.
Proof.
  induction v as [|b|z|f|s|l IH|l IH|d IH|z] using pyval_ind; intros H; try done.
  1-2: cbn [json_norm]; apply dumps_list_ok; apply Forall_map;
    change (is_ok (json_dumps fm (PList l)) = true) in H; apply dumps_list_ok in H;
    rewrite Forall_forall in *; auto.
  rewrite json_norm_dict. apply dumps_dict_ok. apply dumps_dict_ok in H.
  apply norm_dict_Forall. rewrite Forall_forall in *. simpl. auto.
Qed.

(** The checks [validate] makes, as one conjunction. *)
Definition checks (m : KVMetadata) : Prop :=
  check_dtype (md_dtype m) = Ok tt /\
  check_int (str "num_layers") 1 (str " must be a positive integer") (md_num_layers m) = Ok tt /\
  check_int (str "num_kv_heads") 1 (str " must be a positive integer") (md_num_kv_heads m) = Ok tt /\
  check_int (str "head_dim") 1 (str " must be a positive integer") (md_head_dim m) = Ok tt /\
  check_int (str "tokens") 0 (str " must be a non-negative integer") (md_tokens m) = Ok tt /\
  check_int (str "bytes") 0 (str " must be a non-negative integer") (md_bytes m) = Ok tt /\
  check_int (str "reuse_count") 0 (str " must be a non-negative integer") (md_reuse_count m) = Ok tt /\
  check_shape (md_shape m) = Ok tt /\
  py_eq (md_checksum_algo m) (PStr (str "sha256")) = true /\
  check_checksum true (md_checksum m) = Ok tt /\
  check_timestamp (str "created_at") (md_created_at m) = Ok tt /\
  check_timestamp (str "last_access") (md_last_access m) = Ok tt /\
  check_extra (md_extra m) = Ok tt.

Lemma res_bind_tt (r r' : res unit) :
  res_bind r (fun _ => r') = Ok tt <-> r = Ok tt /\ r' = Ok tt.
Proof. destruct r as [[]|]; simpl; naive_solver. Qed.

Lemma ensure_tt b e : ensure b e = Ok tt <-> b = true.
Proof. by destruct b. Qed.

Lemma validate_checks m : validate true m = Ok tt <-> checks m.
Proof. unfold validate, checks. by rewrite !res_bind_tt, ensure_tt. Qed.

Lemma check_extra_norm fm v : check_extra v = Ok tt -> check_extra (json_norm fm v) = Ok tt.
Proof.
  intros (d & -> & H)%check_extra_ok. apply (dumps_norm_ok fmt_strict fm) in H.
  unfold check_extra. rewrite json_norm_dict in *. simpl is_dict. cbn [ensure res_bind].
  by destruct (json_dumps fmt_strict _).
Qed.

Lemma validate_norm fm m : validate true m = Ok tt -> validate true (norm_metadata fm m) = Ok tt.
Proof.
  rewrite !validate_checks. unfold checks. cbn [norm_metadata md_dtype md_num_layers md_num_kv_heads
    md_head_dim md_tokens md_bytes md_shape md_checksum md_checksum_algo md_created_at
    md_last_access md_reuse_count md_extra].
  intros H. destruct_and!. split_and!; try done. by apply check_extra_norm.
Qed.

Lemma storable_norm fm m : storable m = true -> storable (norm_metadata fm m) = true.
Proof.
  unfold storable. rewrite !andb_true_iff. intros [[[[H ?] ?] ?] ?]. split_and!; try done.
  - destruct (validate true m) as [[]|] eqn:E; [|done]. by rewrite validate_norm.
  - by apply json_ok_norm.
Qed.

Lemma check_timestamp_iff name v : check_timestamp name v = Ok tt <-> timestamp v.
Proof.
  split; [apply check_timestamp_ok|].
  intros [(z & -> & Hz & Hf)|(f & -> & Hf & Hn)]; simpl; rewrite Hf; [|by rewrite Hn].
  by apply ensure_tt, Z.leb_le.
Qed.

(** The two fields a row overrides keep the metadata valid. *)
Lemma validate_touch m f n :
  validate true m = Ok tt -> timestamp (PFloat f) -> 0 <= n ->
  validate true (set_reuse (set_access m f) n) = Ok tt.
Proof.
  rewrite !validate_checks. unfold checks. cbn [set_reuse set_access md_dtype md_num_layers
    md_num_kv_heads md_head_dim md_tokens md_bytes md_shape md_checksum md_checksum_algo
    md_created_at md_last_access md_reuse_count md_extra].
  intros H Hf Hn. destruct_and!. split_and!; try done.
  - unfold check_int. apply ensure_tt. simpl. apply negb_true_iff, Z.ltb_ge. done.
  - by apply check_timestamp_iff.
Qed.

(** A tuple-free value equal to [v] equals [v] read back. *)
Lemma py_eq_norm_r fm v u :
  json_ok v = true -> no_tuple u = true -> py_eq u v = true -> py_eq u (json_norm fm v) = true.
Proof.
  revert u. induction v as [|b|z|f|s|l IH|l IH|d IH|z] using pyval_ind; intros u Hok Hu He;
    try (exact He).
  - destruct u as [| | | | |l'| | |]; try done. cbn [json_norm]. rewrite py_eq_PList in *.
    cbn [json_ok no_tuple] in *. revert l' Hu He.
    induction IH as [|x l Hx _ IHl]; intros [|y l'] Hu He; try done. simpl in *.
    rewrite !andb_true_iff in *. destruct Hok, Hu, He. split; [auto|]. auto.
  - by destruct u.
  - destruct u as [| | | | | | |d'|]; try done.
    apply json_ok_dict in Hok as [Hnd Hok]. rewrite no_tuple_dict in Hu.
    rewrite json_norm_dict, py_eq_PDict in *. rewrite andb_true_iff in He. destruct He as [Hl Hs].
    apply andb_true_iff. split.
    + rewrite maybe_sort_perm. unfold on_values. by rewrite length_map.
    + unfold py_sub_dict in *. rewrite Forall_forallb in *. rewrite Forall_forall in *.
      intros [k x] Hx. specialize (Hs _ Hx). specialize (Hu _ Hx). simpl in *.
      rewrite norm_dict_get by done. destruct (dict_get k d) as [y|] eqn:Ey; [|done]. simpl.
      apply dict_get_elem in Ey. apply (IH _ Ey); [apply (Hok _ Ey)|done|done].
Qed.

Lemma descriptor_eqb_norm_r fm p m :
  storable m = true -> no_tuple (md_extra p) = true ->
  descriptor_eqb (payload_descriptor p) (payload_descriptor m) = true ->
  descriptor_eqb (payload_descriptor p) (payload_descriptor (norm_metadata fm m)) = true.
Proof.
  intros (_ & _ & _ & _ & He)%storable_inv Hp. unfold descriptor_eqb.
  rewrite !andb_true_iff. intros [H1 H2]. split; [done|].
  cbn [payload_descriptor norm_metadata md_dtype md_num_layers md_num_kv_heads md_head_dim md_tokens
       md_bytes md_shape md_checksum md_checksum_algo md_extra py_eq_list snd] in *.
  rewrite !andb_true_iff in *. destruct_and!. split_and!; try done. by apply py_eq_norm_r.
Qed.

Definition sample_hash : pystr :=
  str "00112233445566778899aabbccddeeff00112233445566778899aabbccddeeff".

(** The SHA-256 of [sample_payload]. *)
Definition sample_checksum : pystr :=
  str "ba7816bf8f01cfea414140de5dae2223b00361a396177a9cb410ff61f20015ad".

Definition sample_payload : pybytes := bstr "abc".

Definition sample_key : BlockKey :=
  {| tenant_id := str "tenant-a"; model_id := str "llama"; model_revision := str "r1";
     tokenizer_revision := str "t1"; block_hash := sample_hash; lora_id := [];
     modality_key := [] |}.

Definition sample_metadata_with (extra : pyval) : KVMetadata :=
  {| md_key := sample_key; md_dtype := PStr (str "bf16"); md_num_layers := PInt 2;
     md_num_kv_heads := PInt 1; md_head_dim := PInt 4; md_tokens := PInt 16; md_bytes := PInt 3;
     md_shape := PTuple [PInt 2; PInt 16]; md_checksum := PStr sample_checksum;
     md_checksum_algo := PStr (str "sha256"); md_created_at := PFloat (f64_of_Z 100);
     md_last_access := PFloat (f64_of_Z 100); md_reuse_count := PInt 0; md_extra := extra |}.

Definition sample_metadata : KVMetadata :=
  sample_metadata_with (PDict [(str "source", PStr (str "prefill"))]).

(** The same block with another number of layers. *)
Definition conflicting_metadata : KVMetadata :=
  {| md_key := sample_key; md_dtype := PStr (str "bf16"); md_num_layers := PInt 3;
     md_num_kv_heads := PInt 1; md_head_dim := PInt 4; md_tokens := PInt 16; md_bytes := PInt 3;
     md_shape := PTuple [PInt 2; PInt 16]; md_checksum := PStr sample_checksum;
     md_checksum_algo := PStr (str "sha256"); md_created_at := PFloat (f64_of_Z 100);
     md_last_access := PFloat (f64_of_Z 100); md_reuse_count := PInt 0; md_extra := PDict [] |}.

Definition sample_location (t : TierName) : BlockLocation :=
  {| loc_key := sample_key; loc_tier := t; loc_uri := str "memory://sample"; loc_bytes := 3;
     loc_checksum := sample_checksum; loc_created_at := PFloat (f64_of_Z 100);
     loc_last_access := PFloat (f64_of_Z 100); loc_attributes := default_attributes |}.

Lemma sample_key_valid : key_valid sample_key = true.
Proof. vm_compute. reflexivity. Qed.

Lemma sample_storable : storable sample_metadata = true.
Proof. vm_compute. reflexivity. Qed.

Lemma conflicting_storable : storable conflicting_metadata = true.
Proof. vm_compute. reflexivity. Qed.

Lemma sample_location_attributes t : json_ok (PDict (loc_attributes (sample_location t))) = true.
Proof. vm_compute. reflexivity. Qed.
