(* ===== verification/MetadataStore.v ===== *)
(** * The metadata store: [kvstore/metadata_store.py]

    The SQLite table [blocks] is a finite map from its primary key
    (block_hash, namespace, tier) to rows; the statements of each method are
    written out as changes of that map. The owner lock and the owner epoch,
    [close], and the failure of every statement on a closed connection are part of
    the state. Python and SQLite locks serialize the methods, so a method is
    one step. [now] is the reading of [time.time()] during the call. *)

From Stdlib Require Import SpecFloat.
From S2P Require Import Prelude PyText Float64 Errors PyVal Json JsonFacts Metadata.
Import ResNotations MNotations.
Local Open Scope m_scope.

Definition LOCATION_FIELDS : list pystr := default_attributes.*1.

(** ** State *)

Inductive row_state := active | deleting | unknown_state (text : pystr).

#[global] Instance row_state_eq_decision : EqDecision row_state.
Proof. solve_decision. Defined.

Record Row := mkRow {
  r_uri : pystr;
  r_bytes : Z;
  r_checksum : pystr;
  r_metadata_json : pystr;
  r_location_json : pystr;
  r_created_at : f64;
  r_last_access : f64;
  r_reuse_count : Z;
  r_in_flight : Z;
  r_in_flight_epoch : pystr;
  r_state : row_state;
}.

Abbreviation RowKey := (pystr * pystr * TierName)%type.

(** The file: the tables [blocks] and [metadata_runtime], and the lock file
    beside it (held or free). *)
Record Database := mkDatabase {
  blocks : gmap RowKey Row;
  runtime : option (pystr * Z * f64);
  owner_lock : bool;
}.

(** The object: its connection's database, its epoch and its closed flag. *)
Record MetadataStore := mkMetadataStore {
  ms_db : Database;
  _owner_epoch : pystr;
  _closed : bool;
}.

Abbreviation MS := (M MetadataStore).

Definition row_key (k : BlockKey) (t : TierName) : RowKey := (block_hash k, namespace k, t).

Definition ms_blocks (s : MetadataStore) : gmap RowKey Row := blocks (ms_db s).

Definition set_blocks (b : gmap RowKey Row) (s : MetadataStore) : MetadataStore :=
  {| ms_db := {| blocks := b; runtime := runtime (ms_db s); owner_lock := owner_lock (ms_db s) |};
     _owner_epoch := _owner_epoch s; _closed := _closed s |}.

Definition set_flight (n : Z) (ep : pystr) (r : Row) : Row :=
  mkRow (r_uri r) (r_bytes r) (r_checksum r) (r_metadata_json r) (r_location_json r)
    (r_created_at r) (r_last_access r) (r_reuse_count r) n ep (r_state r).

Definition set_state (st : row_state) (r : Row) : Row :=
  mkRow (r_uri r) (r_bytes r) (r_checksum r) (r_metadata_json r) (r_location_json r)
    (r_created_at r) (r_last_access r) (r_reuse_count r) (r_in_flight r) (r_in_flight_epoch r) st.

Definition set_touch (now : f64) (n : Z) (r : Row) : Row :=
  mkRow (r_uri r) (r_bytes r) (r_checksum r) (r_metadata_json r) (r_location_json r)
    (r_created_at r) now n (r_in_flight r) (r_in_flight_epoch r) (r_state r).

(** ** SQLite values *)

Definition max_int64 : Z := 2 ^ 63 - 1.

(** An integer parameter. *)
Definition sql_int (z : Z) : res Z :=
  if (- 2 ^ 63 <=? z) && (z <=? max_int64) then Ok z
  else Raise (err OverflowError (str "Python int too large to convert to SQLite INTEGER")).

(** A number bound to a REAL NOT NULL column; NaN is stored as NULL. *)
Definition sql_real (v : pyval) : res f64 :=
  match v with
  | PInt z => res_map f64_of_Z (sql_int z)
  | PBool b => Ok (f64_of_Z (Z.b2z b))
  | PFloat f => if f64_nan f then Raise (err IntegrityError (str "NOT NULL constraint failed")) else Ok f
  | _ => Raise (err ProgrammingError (str "Error binding parameter: type is not supported"))
  end.

(** [x + 1] in SQL: past the 64-bit range the sum is the real 2^63, which
    absorbs further increments. *)
Definition sql_incr (z : Z) : Z := if z <? max_int64 then z + 1 else 2 ^ 63.

(** ** Rows as locations *)

(** [except (TypeError, ValueError, json.JSONDecodeError)]. *)
Definition structural (r : res BlockLocation) : res BlockLocation :=
  res_catch r [TypeError; ValueError; JSONDecodeError]
    (fun e => Raise (err_from MetadataMismatch (str "persisted location is structurally invalid") e)).

Definition _location_attributes (l : BlockLocation) : pyval := PDict (loc_attributes l).

(** The attributes of a row: the defaults, overridden by the persisted ones. *)
Definition merge_attributes (d : list (pystr * pyval)) : list (pystr * pyval) :=
  map (fun kv => (kv.1, default kv.2 (dict_get kv.1 d))) default_attributes.

Definition _location_from_row (key : BlockKey) (tier : TierName) (r : Row) : res BlockLocation :=
  res_bind
    (structural
       (res_bind (json_loads (if bool_decide (r_location_json r = []) then str "{}" else r_location_json r))
          (fun attributes =>
             match attributes with
             | PDict d =>
                 Ok {| loc_key := key; loc_tier := tier; loc_uri := r_uri r; loc_bytes := r_bytes r;
                       loc_checksum := r_checksum r; loc_created_at := PFloat (r_created_at r);
                       loc_last_access := PFloat (r_last_access r);
                       loc_attributes := merge_attributes d |}
             | _ => Raise (err ValueError (str "location attributes must be an object"))
             end)))
    (fun l =>
       res_bind (ensure (negb (bool_decide (loc_uri l = []) || (loc_bytes l <? 0)))
                  (err MetadataMismatch (str "persisted location has invalid core fields")))
         (fun _ => Ok l)).

(** [_validate_upsert(location, metadata)]. *)
Definition _validate_upsert (l : BlockLocation) (m : KVMetadata) : res unit :=
  res_bind (res_catch (validate true m) [ValueError]
              (fun e => Raise (err_from MetadataMismatch (str "invalid metadata") e))) (fun _ =>
  res_bind (ensure (bool_decide (loc_key l = md_key m))
              (err MetadataMismatch (str "location key does not match metadata key"))) (fun _ =>
  res_bind (ensure (negb (bool_decide (loc_uri l = [])))
              (err MetadataMismatch (str "location URI must not be empty"))) (fun _ =>
  res_bind (ensure (negb ((loc_bytes l <? 0) ||
                          match md_bytes m with PInt z => z <? 0 | _ => false end ||
                          negb (py_eq (PInt (loc_bytes l)) (md_bytes m))))
              (err MetadataMismatch (str "location bytes do not match metadata bytes"))) (fun _ =>
  ensure (py_eq (PStr (loc_checksum l)) (md_checksum m))
         (err MetadataMismatch (str "location checksum does not match metadata checksum")))))).

(** ** Opening *)

(** The [UPDATE] of [_begin_owner_epoch]. *)
Definition reset_flight (r : Row) : Row :=
  if negb (r_in_flight r =? 0) || negb (bool_decide (r_in_flight_epoch r = []))
  then set_flight 0 [] r else r.

(** [_begin_owner_epoch]: the counters left by a dead owner are reset, and the
    new epoch is published. *)
Definition _begin_owner_epoch (pid : Z) (now : f64) : MS unit :=
  modify (fun s =>
    {| ms_db := {| blocks := reset_flight <$> ms_blocks s;
                   runtime := Some (_owner_epoch s, pid, now);
                   owner_lock := owner_lock (ms_db s) |};
       _owner_epoch := _owner_epoch s; _closed := _closed s |}).

(** [MetadataStore(db_path)]; [epoch] is the fresh [uuid4().hex]. *)
Definition open_store (epoch : pystr) (pid : Z) (now : f64) (db : Database)
  : Database * res MetadataStore :=
  if owner_lock db then
    (db, Raise (err RuntimeError (str "metadata database already has a live owner")))
  else
    let s0 := {| ms_db := {| blocks := blocks db; runtime := runtime db; owner_lock := true |};
                 _owner_epoch := epoch; _closed := false |} in
    let s1 := (_begin_owner_epoch pid now s0).1 in
    (ms_db s1, Ok s1).

(** What the kernel does when the owner's process ends: the lock is released. *)
Definition owner_dies (db : Database) : Database :=
  {| blocks := blocks db; runtime := runtime db; owner_lock := false |}.

(** [close()]. *)
Definition close : MS unit :=
  fun s => if _closed s then (s, Ok tt)
           else ({| ms_db := owner_dies (ms_db s); _owner_epoch := _owner_epoch s;
                    _closed := true |}, Ok tt).

(** ** Statements *)

(** [self._conn.execute] on a closed connection. *)
Definition execute : MS unit :=
  fun s => if _closed s
           then (s, Raise (err ProgrammingError (str "Cannot operate on a closed database.")))
           else (s, Ok tt).

(** [mutation()], the check made on entering. *)
Definition mutation : MS unit :=
  fun s => if _closed s
           then (s, Raise (err RuntimeError (str "metadata store is closed")))
           else (s, Ok tt).

(** [with self._conn]: an exception rolls the table back. The other methods
    raise only before their statement, and need no rollback. *)
Definition transaction {A} (m : MS A) : MS A :=
  fun s => let '(s', r) := m s in
           match r with Ok a => (s', Ok a) | Raise e => (set_blocks (ms_blocks s) s', Raise e) end.

Definition get_row (k : BlockKey) (t : TierName) : MS (option Row) :=
  execute ;; gets (fun s => ms_blocks s !! row_key k t).

(** [UPDATE blocks SET f WHERE key AND p]; returns the row before the update,
    when one matched. *)
Definition update_row (p : Row -> bool) (f : Row -> Row) (k : BlockKey) (t : TierName)
  : MS (option Row) :=
  let* r := get_row k t in
  match r with
  | Some r =>
      if p r then modify (fun s => set_blocks (<[row_key k t := f r]> (ms_blocks s)) s) ;; ret (Some r)
      else ret None
  | None => ret None
  end.

(** [DELETE FROM blocks WHERE key AND p], with [rowcount > 0]. *)
Definition delete_row (p : Row -> bool) (k : BlockKey) (t : TierName) : MS bool :=
  let* r := get_row k t in
  match r with
  | Some r =>
      if p r then modify (fun s => set_blocks (base.delete (row_key k t) (ms_blocks s)) s) ;; ret true
      else ret false
  | None => ret false
  end.

Definition is_active (r : Row) : bool := bool_decide (r_state r = active).

(** [in_flight=0 OR in_flight_epoch<>owner]. *)
Definition idle (epoch : pystr) (r : Row) : bool :=
  (r_in_flight r =? 0) || negb (bool_decide (r_in_flight_epoch r = epoch)).

Definition owner : MS pystr := gets _owner_epoch.

(** ** Publication *)

(** The metadata a row holds: [KVMetadata.from_dict(json.loads(text))]. *)
Definition parse_metadata (now : f64) (text : pystr) : res KVMetadata :=
  res_bind (json_loads text) (from_dict now).

(** The persisted metadata, validated; structural damage is a
    [MetadataMismatch]. *)
Definition persisted_metadata (now : f64) (text : pystr) : res KVMetadata :=
  res_catch
    (res_bind (parse_metadata now text) (fun m => res_map (fun _ => m) (validate true m)))
    [KeyError; TypeError; ValueError; JSONDecodeError]
    (fun e => Raise (err_from MetadataMismatch (str "persisted metadata is structurally invalid") e)).

Definition all_tiers : list TierName := [MEMORY; NVME; S3].

(** The rows of a key, over all tiers and states. *)
Definition key_rows (b : gmap RowKey Row) (k : BlockKey) : list Row :=
  omap (fun t => b !! row_key k t) all_tiers.

Definition same_descriptor (now : f64) (m : KVMetadata) (r : Row) : res unit :=
  res_bind (persisted_metadata now (r_metadata_json r)) (fun p =>
    ensure (descriptor_eqb (payload_descriptor p) (payload_descriptor m))
      (err ImmutableBlockConflict (str "active BlockKey payload descriptor cannot change across tiers"))).

Definition _validate_payload_descriptor_locked (now : f64) (m : KVMetadata) : MS unit :=
  execute ;;
  let* b := gets ms_blocks in
  lift (res_each (same_descriptor now m) (key_rows b (md_key m))).

Definition validate_payload_descriptor (now : f64) (m : KVMetadata) : MS unit :=
  lift (res_catch (validate true m) [ValueError]
          (fun e => Raise (err_from MetadataMismatch (str "invalid metadata") e))) ;;
  _validate_payload_descriptor_locked now m.

(** The parameters of the [INSERT]. *)
Definition new_row (epoch : pystr) (l : BlockLocation) (m : KVMetadata) : res Row :=
  res_bind (to_dict m) (fun d =>
  res_bind (json_dumps fmt_store d) (fun mj =>
  res_bind (json_dumps fmt_store (_location_attributes l)) (fun lj =>
  res_bind (sql_int (loc_bytes l)) (fun n =>
  res_bind (sql_real (loc_created_at l)) (fun c =>
  res_bind (sql_real (loc_last_access l)) (fun a =>
  res_bind (match md_reuse_count m with
            | PInt z => sql_int z
            | _ => Raise (err ProgrammingError (str "Error binding parameter: type is not supported"))
            end) (fun u =>
  Ok (mkRow (loc_uri l) n (loc_checksum l) mj lj c a u 0 epoch active)))))))).

(** [ON CONFLICT DO UPDATE]: the old row [o] with the values of [n]; the
    counter survives only if it belongs to this owner. *)
Definition merge_row (o n : Row) : Row :=
  mkRow (r_uri n) (r_bytes n) (r_checksum n) (r_metadata_json n) (r_location_json n)
    (f64_min (r_created_at o) (r_created_at n)) (f64_max (r_last_access o) (r_last_access n))
    (Z.max (r_reuse_count o) (r_reuse_count n))
    (if bool_decide (r_in_flight_epoch o = r_in_flight_epoch n) then r_in_flight o else 0)
    (r_in_flight_epoch n) active.

Definition upsert (now : f64) (l : BlockLocation) (m : KVMetadata) : MS unit :=
  lift (_validate_upsert l m) ;;
  _validate_payload_descriptor_locked now m ;;
  let* old := get_row (loc_key l) (loc_tier l) in
  match old with
  | Some o =>
      if bool_decide (r_state o = deleting) then
        raise (err RuntimeError (str "cannot upsert a block while its delete tombstone is pending"))
      else
        let* ep := owner in
        let* n := lift (new_row ep l m) in
        modify (fun s => set_blocks (<[row_key (loc_key l) (loc_tier l) := merge_row o n]> (ms_blocks s)) s)
  | None =>
      let* ep := owner in
      let* n := lift (new_row ep l m) in
      modify (fun s => set_blocks (<[row_key (loc_key l) (loc_tier l) := n]> (ms_blocks s)) s)
  end.

(** ** Reading *)

Definition lookup (k : BlockKey) (tier : option TierName) : MS (list BlockLocation) :=
  execute ;;
  let* b := gets ms_blocks in
  let rows := omap (fun t => match b !! row_key k t with
                             | Some r => if is_active r then Some (t, r) else None
                             | None => None
                             end)
                   (match tier with Some t => [t] | None => all_tiers end) in
  lift (res_list (fun tr => _location_from_row k tr.1 tr.2) rows).

Definition get_metadata (now : f64) (k : BlockKey) (t : TierName) : MS (option KVMetadata) :=
  let* r := get_row k t in
  match r with
  | Some r =>
      if is_active r then
        lift (res_map Some
          (res_catch
             (res_bind (parse_metadata now (r_metadata_json r)) (fun m =>
                let m' := set_reuse (set_access m (r_last_access r)) (r_reuse_count r) in
                res_map (fun _ => m') (validate true m')))
             [KeyError; TypeError; ValueError; JSONDecodeError]
             (fun e => Raise (err_from MetadataMismatch
                                (str "persisted metadata is structurally invalid") e))))
      else ret None
  | None => ret None
  end.

Definition is_deleting (k : BlockKey) (t : TierName) : MS bool :=
  let* r := get_row k t in
  ret (match r with Some r => bool_decide (r_state r = deleting) | None => false end).

(** ** Acquire, release, touch *)

Definition acquire_row (epoch : pystr) (r : Row) : Row :=
  set_flight (if bool_decide (r_in_flight_epoch r = epoch) then sql_incr (r_in_flight r) else 1)
             epoch r.

Definition lookup_and_acquire (k : BlockKey) (t : TierName) : MS (option BlockLocation) :=
  mutation ;;
  let* ep := owner in
  let* r := update_row is_active (acquire_row ep) k t in
  match r with
  | None => ret None
  | Some r => lift (res_map Some (_location_from_row k t r))
  end.

Definition acquire (k : BlockKey) (t : TierName) : MS bool :=
  mutation ;;
  let* ep := owner in
  let* r := update_row is_active (acquire_row ep) k t in
  ret (match r with Some _ => true | None => false end).

Definition release (k : BlockKey) (t : TierName) : MS unit :=
  let* ep := owner in
  update_row (fun r => bool_decide (r_in_flight_epoch r = ep))
    (fun r => set_flight (Z.max (r_in_flight r - 1) 0) (r_in_flight_epoch r) r) k t ;;
  ret tt.

Definition touch (now : f64) (k : BlockKey) (t : TierName) : MS unit :=
  update_row is_active (fun r => set_touch now (sql_incr (r_reuse_count r)) r) k t ;; ret tt.

(** ** Deletion *)

Definition delete (k : BlockKey) (t : TierName) : MS bool :=
  let* ep := owner in
  delete_row (fun r => is_active r && idle ep r) k t.

Definition begin_delete (k : BlockKey) (t : TierName) : MS (option BlockLocation) :=
  transaction (
  let* row := get_row k t in
  let* ep := owner in
  match row with
  | None => ret None
  | Some r =>
      match r_state r with
      | active =>
          if bool_decide (r_in_flight_epoch r = ep) && (0 <? r_in_flight r) then ret None
          else
            let* u := update_row is_active (fun r => set_state deleting (set_flight 0 [] r)) k t in
            match u with
            | None => ret None
            | Some _ => lift (res_map Some (_location_from_row k t r))
            end
      | deleting => lift (res_map Some (_location_from_row k t r))
      | unknown_state s => raise (err RuntimeError (str "unknown metadata state: " ++ s))
      end
  end).

Definition finish_delete (k : BlockKey) (t : TierName) : MS bool :=
  delete_row (fun r => bool_decide (r_state r = deleting)) k t.

(** ** Scans *)

(** The active rows of a tier that satisfy [p]. *)
Definition tier_rows (p : Row -> bool) (t : TierName) (b : gmap RowKey Row) : list (RowKey * Row) :=
  filter (fun kr => kr.1.2 = t /\ is_active kr.2 = true /\ p kr.2 = true) (map_to_list b).

(** [ORDER BY last_access ASC LIMIT n]; SQL leaves the order of ties open, and
    a negative limit is no limit. *)
Definition access_leb (a b : RowKey * Row) : bool :=
  f64_leb (r_last_access a.2) (r_last_access b.2).

Definition sql_limit {A} (n : Z) (l : list A) : list A :=
  if n <? 0 then l else take (Z.to_nat n) l.

Definition lru_rows (epoch : pystr) (t : TierName) (n : Z) (b : gmap RowKey Row) : list (RowKey * Row) :=
  sql_limit n (py_sort access_leb (tier_rows (idle epoch) t b)).

(** The location of a scanned row: its key is the one of its metadata. *)
Definition scanned_location (now : f64) (t : TierName) (kr : RowKey * Row) : res BlockLocation :=
  res_bind (parse_metadata now (r_metadata_json kr.2)) (fun m => _location_from_row (md_key m) t kr.2).

Definition lru_candidates (now : f64) (t : TierName) (n : Z) : MS (list BlockLocation) :=
  execute ;;
  let* ep := owner in
  let* b := gets ms_blocks in
  lift (res_list (scanned_location now t) (lru_rows ep t n b)).

(** [ORDER BY namespace, block_hash]. *)
Definition identity_leb (a b : RowKey * Row) : bool :=
  match str_cmp a.1.1.2 b.1.1.2 with
  | Lt => true
  | Eq => str_leb a.1.1.1 b.1.1.1
  | Gt => false
  end.

Definition scanned_entry (now : f64) (t : TierName) (kr : RowKey * Row)
  : res (BlockLocation * KVMetadata * Z) :=
  res_bind (parse_metadata now (r_metadata_json kr.2)) (fun m =>
  res_bind (_location_from_row (md_key m) t kr.2) (fun l =>
  Ok (l, set_reuse (set_access m (r_last_access kr.2)) (r_reuse_count kr.2), r_in_flight kr.2))).

Definition tier_entries (now : f64) (t : TierName) (include_in_flight : bool)
  : MS (list (BlockLocation * KVMetadata * Z)) :=
  execute ;;
  let* ep := owner in
  let* b := gets ms_blocks in
  lift (res_list (scanned_entry now t)
         (py_sort identity_leb (tier_rows (fun r => include_in_flight || idle ep r) t b))).

(** [SELECT COALESCE(SUM(bytes), 0)]: an overflow of the sum is an error. *)
Definition sum_bytes (t : TierName) (b : gmap RowKey Row) : Z :=
  foldr (fun kr a => r_bytes kr.2 + a) 0 (tier_rows (fun _ => true) t b).

Definition bytes_used (t : TierName) : MS Z :=
  execute ;;
  let* b := gets ms_blocks in
  let n := sum_bytes t b in
  if (- 2 ^ 63 <=? n) && (n <=? max_int64) then ret n
  else raise (err OperationalError (str "integer overflow")).
