(* ===== verification/MetadataStoreFacts.v ===== *)
(** * Correctness of the metadata store

    The invariant of the [blocks] table and its preservation by every method;
    the refinement of the table to an abstract map of visible, pinned and
    hidden blocks; publication, deletion and crash recovery. *)

From Stdlib Require Import SpecFloat.
From S2P Require Import Prelude PyText Float64 Errors PyVal Json JsonFacts Metadata MetadataFacts MetadataStore.
Import ResNotations MNotations.

(** ** Time stamps *)

Definition stamp (f : f64) : Prop := timestamp (PFloat f).

Lemma stamp_iff f : stamp f <-> f64_finite f = true /\ f64_ltb f (S754_zero false) = false.
Proof.
  unfold stamp, timestamp. split.
  - intros [(? & ? & _)|(? & [= <-] & ?)]; done.
  - intros ?. right. eauto.
Qed.

Lemma stamp_not_nan f : stamp f -> f64_nan f = false.
Proof. rewrite stamp_iff. intros [H _]. by destruct f. Qed.

Lemma round_sign s m e l f :
  binary_round_aux prec emax s m e l = f -> f64_finite f = true ->
  f = S754_zero s \/ exists m' e', f = S754_finite s m' e'.
Proof.
  unfold binary_round_aux. intros <-. repeat case_goal; simpl; try done; eauto.
Qed.

Lemma stamp_of_Z z : 0 <= z -> f64_finite (f64_of_Z z) = true -> stamp (f64_of_Z z).
Proof.
  intros Hz Hf. apply stamp_iff. split; [done|].
  unfold f64_of_Z, binary_normalize in *. destruct z as [|p|p]; [done| |lia].
  unfold binary_round in *. destruct (shl_align _ _ _) as [m e].
  destruct (round_sign _ _ _ _ _ eq_refl Hf) as [->|(m' & e' & ->)]; done.
Qed.

Lemma sql_int_ok z z' : sql_int z = Ok z' -> z' = z.
Proof. unfold sql_int. case_match; [|done]. by intros [= <-]. Qed.

Lemma sql_real_stamp v f : timestamp v -> sql_real v = Ok f -> stamp f.
Proof.
  intros [(z & -> & Hz & Hf)|(g & -> & Hf)]; simpl.
  - intros (z' & Hi & ->)%res_map_ok. apply sql_int_ok in Hi as ->. by apply stamp_of_Z.
  - case_match; [done|]. intros [= <-]. by apply stamp_iff.
Qed.

Lemma stamp_max x y : stamp x -> stamp y -> stamp (f64_max x y).
Proof. unfold f64_max. by destruct (f64_ltb x y). Qed.

Lemma stamp_min x y : stamp x -> stamp y -> stamp (f64_min x y).
Proof. unfold f64_min. by destruct (f64_ltb y x). Qed.

(** ** The invariant *)

(** The text of a row reads back as [m], whatever the clock shows. *)
Definition row_md (r : Row) (m : KVMetadata) : Prop :=
  (forall now, parse_metadata now (r_metadata_json r) = Ok m) /\
  storable m = true /\ no_tuple (md_extra m) = true.

Record row_ok (epoch : pystr) (rk : RowKey) (r : Row) : Prop := {
  ro_metadata : exists m, row_md r m /\ rk.1 = (block_hash (md_key m), namespace (md_key m)) /\
                  md_bytes m = PInt (r_bytes r) /\ md_checksum m = PStr (r_checksum r);
  ro_location : exists d, json_loads (r_location_json r) = Ok (PDict d) /\ json_ok (PDict d) = true;
  ro_uri : r_uri r <> [];
  ro_bytes : 0 <= r_bytes r;
  ro_created : stamp (r_created_at r);
  ro_access : stamp (r_last_access r);
  ro_reuse : 0 <= r_reuse_count r;
  ro_flight : 0 <= r_in_flight r;
  ro_epoch : r_in_flight_epoch r = [] \/ r_in_flight_epoch r = epoch;
  ro_unowned : r_in_flight_epoch r = [] -> r_in_flight r = 0;
  ro_state : r_state r = active \/ (r_state r = deleting /\ r_in_flight r = 0);
}.

Definition rows_ok (epoch : pystr) (b : gmap RowKey Row) : Prop :=
  forall rk r, b !! rk = Some r -> row_ok epoch rk r.

(** The published tiers of a key describe the same payload. *)
Definition descriptors_agree (b : gmap RowKey Row) : Prop :=
  forall id t1 t2 r1 r2 m1 m2,
    b !! (id, t1) = Some r1 -> b !! (id, t2) = Some r2 -> row_md r1 m1 -> row_md r2 m2 ->
    descriptor_eqb (payload_descriptor m1) (payload_descriptor m2) = true.

Record store_inv (s : MetadataStore) : Prop := {
  inv_epoch : _owner_epoch s <> [];
  inv_rows : rows_ok (_owner_epoch s) (ms_blocks s);
  inv_desc : descriptors_agree (ms_blocks s);
}.

(** What the callers pass: metadata that can be persisted, and a location with
    JSON attributes and valid time stamps. *)
Definition location_ok (l : BlockLocation) : Prop :=
  json_ok (_location_attributes l) = true /\
  timestamp (loc_created_at l) /\ timestamp (loc_last_access l).

(** ** Reading a row *)

Lemma row_md_unique r m m' : row_md r m -> row_md r m' -> m = m'.
Proof. intros [H _] [H' _]. specialize (H (S754_zero false)). rewrite H' in H. congruence. Qed.

Lemma row_md_persisted now r m : row_md r m -> persisted_metadata now (r_metadata_json r) = Ok m.
Proof.
  intros (Hp & Hs & _). unfold persisted_metadata. rewrite Hp. simpl.
  unfold storable in Hs. rewrite !andb_true_iff in Hs. destruct Hs as [[[[Hv ?] ?] ?] ?].
  by destruct (validate true m).
Qed.

Lemma row_md_same m now r m' :
  row_md r m' ->
  same_descriptor now m r =
  ensure (descriptor_eqb (payload_descriptor m') (payload_descriptor m))
    (err ImmutableBlockConflict (str "active BlockKey payload descriptor cannot change across tiers")).
Proof. intros H. unfold same_descriptor. by rewrite (row_md_persisted now r m' H). Qed.

Definition row_location (k : BlockKey) (t : TierName) (r : Row) (d : list (pystr * pyval)) : BlockLocation :=
  {| loc_key := k; loc_tier := t; loc_uri := r_uri r; loc_bytes := r_bytes r;
     loc_checksum := r_checksum r; loc_created_at := PFloat (r_created_at r);
     loc_last_access := PFloat (r_last_access r); loc_attributes := merge_attributes d |}.

Lemma location_from_row_eq k t r d :
  json_loads (r_location_json r) = Ok (PDict d) -> r_uri r <> [] -> 0 <= r_bytes r ->
  _location_from_row k t r = Ok (row_location k t r d).
Proof.
  intros Hd Hu Hb. unfold _location_from_row.
  rewrite (bool_decide_eq_false_2 (r_location_json r = [])) by (intros E; rewrite E in Hd; done).
  rewrite Hd. simpl. rewrite bool_decide_eq_false_2 by done. simpl.
  destruct (Z.ltb_spec (r_bytes r) 0); [lia|done].
Qed.

Lemma row_ok_location ep rk r k t :
  row_ok ep rk r -> exists d, json_ok (PDict d) = true /\
    _location_from_row k t r = Ok (row_location k t r d).
Proof.
  intros H. destruct (ro_location _ _ _ H) as (d & Hd & Hj). exists d. split; [done|].
  apply location_from_row_eq; [done|apply (ro_uri _ _ _ H)|apply (ro_bytes _ _ _ H)].
Qed.

(** With the invariant, the rows a reader holds are exactly those with a
    positive counter. *)
Lemma row_ok_idle ep rk r :
  ep <> [] -> row_ok ep rk r -> idle ep r = (r_in_flight r =? 0).
Proof.
  intros Hep H. unfold idle. destruct (ro_epoch _ _ _ H) as [E|E].
  - rewrite (ro_unowned _ _ _ H E). done.
  - rewrite (bool_decide_eq_true_2 (r_in_flight_epoch r = ep)) by done. by rewrite orb_false_r.
Qed.

(** ** One statement on one row *)

Definition put_row (rk : RowKey) (r : Row) (s : MetadataStore) : MetadataStore :=
  set_blocks (<[rk := r]> (ms_blocks s)) s.

Definition drop_row (rk : RowKey) (s : MetadataStore) : MetadataStore :=
  set_blocks (base.delete rk (ms_blocks s)) s.

Definition closed_error : exn := err ProgrammingError (str "Cannot operate on a closed database.").

Lemma set_blocks_same s : set_blocks (ms_blocks s) s = s.
Proof. by destruct s as [[] ? ?]. Qed.

Lemma execute_eq s : execute s = (s, if _closed s then Raise closed_error else Ok tt).
Proof. unfold execute. by destruct (_closed s). Qed.

Lemma get_row_eq k t s :
  get_row k t s = (s, if _closed s then Raise closed_error else Ok (ms_blocks s !! row_key k t)).
Proof. unfold get_row, bind. rewrite execute_eq. by destruct (_closed s). Qed.

Lemma update_row_eq p f k t s :
  update_row p f k t s =
  if _closed s then (s, Raise closed_error)
  else match ms_blocks s !! row_key k t with
       | Some r => if p r then (put_row (row_key k t) (f r) s, Ok (Some r)) else (s, Ok None)
       | None => (s, Ok None)
       end.
Proof.
  unfold update_row, bind. rewrite get_row_eq. destruct (_closed s); [done|].
  destruct (ms_blocks s !! row_key k t) as [r|]; [|done]. by destruct (p r).
Qed.

Lemma delete_row_eq p k t s :
  delete_row p k t s =
  if _closed s then (s, Raise closed_error)
  else match ms_blocks s !! row_key k t with
       | Some r => if p r then (drop_row (row_key k t) s, Ok true) else (s, Ok false)
       | None => (s, Ok false)
       end.
Proof.
  unfold delete_row, bind. rewrite get_row_eq. destruct (_closed s); [done|].
  destruct (ms_blocks s !! row_key k t) as [r|]; [|done]. by destruct (p r).
Qed.

(** ** Calls *)

Inductive ms_call :=
  | CUpsert (now : f64) (l : BlockLocation) (m : KVMetadata)
  | CValidate (now : f64) (m : KVMetadata)
  | CLookup (k : BlockKey) (t : option TierName)
  | CGetMetadata (now : f64) (k : BlockKey) (t : TierName)
  | CIsDeleting (k : BlockKey) (t : TierName)
  | CLookupAcquire (k : BlockKey) (t : TierName)
  | CAcquire (k : BlockKey) (t : TierName)
  | CRelease (k : BlockKey) (t : TierName)
  | CTouch (now : f64) (k : BlockKey) (t : TierName)
  | CDelete (k : BlockKey) (t : TierName)
  | CBeginDelete (k : BlockKey) (t : TierName)
  | CFinishDelete (k : BlockKey) (t : TierName)
  | CLruCandidates (now : f64) (t : TierName) (n : Z)
  | CTierEntries (now : f64) (t : TierName) (include_in_flight : bool)
  | CBytesUsed (t : TierName)
  | CClose.

Definition discard {A} (m : MS A) : MS unit := fun s => let '(s', r) := m s in (s', res_map (fun _ => tt) r).

Definition run_call (c : ms_call) : MS unit :=
  match c with
  | CUpsert now l m => upsert now l m
  | CValidate now m => validate_payload_descriptor now m
  | CLookup k t => discard (lookup k t)
  | CGetMetadata now k t => discard (get_metadata now k t)
  | CIsDeleting k t => discard (is_deleting k t)
  | CLookupAcquire k t => discard (lookup_and_acquire k t)
  | CAcquire k t => discard (acquire k t)
  | CRelease k t => release k t
  | CTouch now k t => touch now k t
  | CDelete k t => discard (delete k t)
  | CBeginDelete k t => discard (begin_delete k t)
  | CFinishDelete k t => discard (finish_delete k t)
  | CLruCandidates now t n => discard (lru_candidates now t n)
  | CTierEntries now t b => discard (tier_entries now t b)
  | CBytesUsed t => discard (bytes_used t)
  | CClose => close
  end.

Definition call_ok (c : ms_call) : Prop :=
  match c with
  | CUpsert _ l m => storable m = true /\ location_ok l
  | CTouch now _ _ => stamp now
  | _ => True
  end.

Definition after (c : ms_call) (s : MetadataStore) : MetadataStore := (run_call c s).1.

(** The effect of a call on the table, with the guard under which it has it. *)
Inductive effect (s : MetadataStore) : ms_call -> MetadataStore -> Prop :=
  | eff_none c s' : ms_blocks s' = ms_blocks s -> _owner_epoch s' = _owner_epoch s -> effect s c s'
  | eff_publish now l m n old :
      _validate_upsert l m = Ok tt ->
      res_each (same_descriptor now m) (key_rows (ms_blocks s) (md_key m)) = Ok tt ->
      new_row (_owner_epoch s) l m = Ok n ->
      ms_blocks s !! row_key (loc_key l) (loc_tier l) = old ->
      from_option r_state active old <> deleting ->
      effect s (CUpsert now l m)
        (put_row (row_key (loc_key l) (loc_tier l)) (from_option (fun o => merge_row o n) n old) s)
  | eff_acquire c k t r :
      c = CLookupAcquire k t \/ c = CAcquire k t ->
      ms_blocks s !! row_key k t = Some r -> r_state r = active ->
      effect s c (put_row (row_key k t) (acquire_row (_owner_epoch s) r) s)
  | eff_release k t r :
      ms_blocks s !! row_key k t = Some r -> r_in_flight_epoch r = _owner_epoch s ->
      effect s (CRelease k t)
        (put_row (row_key k t) (set_flight (Z.max (r_in_flight r - 1) 0) (r_in_flight_epoch r) r) s)
  | eff_touch now k t r :
      ms_blocks s !! row_key k t = Some r -> r_state r = active ->
      effect s (CTouch now k t) (put_row (row_key k t) (set_touch now (sql_incr (r_reuse_count r)) r) s)
  | eff_delete k t r :
      ms_blocks s !! row_key k t = Some r -> r_state r = active -> idle (_owner_epoch s) r = true ->
      effect s (CDelete k t) (drop_row (row_key k t) s)
  | eff_hide k t r :
      ms_blocks s !! row_key k t = Some r -> r_state r = active ->
      bool_decide (r_in_flight_epoch r = _owner_epoch s) && (0 <? r_in_flight r) = false ->
      effect s (CBeginDelete k t) (put_row (row_key k t) (set_state deleting (set_flight 0 [] r)) s)
  | eff_finish k t r :
      ms_blocks s !! row_key k t = Some r -> r_state r = deleting ->
      effect s (CFinishDelete k t) (drop_row (row_key k t) s).

Lemma eff_same s c : effect s c s.
Proof. by apply eff_none. Qed.
#[local] Hint Resolve eff_same : kv.

Lemma is_active_true r : is_active r = true <-> r_state r = active.
Proof. unfold is_active. apply bool_decide_eq_true. Qed.

Lemma upsert_eq now l m s :
  upsert now l m s =
  match _validate_upsert l m with
  | Raise e => (s, Raise e)
  | Ok _ =>
      if _closed s then (s, Raise closed_error)
      else match res_each (same_descriptor now m) (key_rows (ms_blocks s) (md_key m)) with
           | Raise e => (s, Raise e)
           | Ok _ =>
               let rk := row_key (loc_key l) (loc_tier l) in
               let old := ms_blocks s !! rk in
               if bool_decide (from_option r_state active old = deleting)
               then (s, Raise (err RuntimeError
                       (str "cannot upsert a block while its delete tombstone is pending")))
               else match new_row (_owner_epoch s) l m with
                    | Raise e => (s, Raise e)
                    | Ok n => (put_row rk (from_option (fun o => merge_row o n) n old) s, Ok tt)
                    end
           end
  end.
Proof.
  unfold upsert, _validate_payload_descriptor_locked, bind, lift, owner, gets, raise, modify.
  destruct (_validate_upsert l m) as [[]|]; [|done]. rewrite execute_eq.
  destruct (_closed s) eqn:Ec; [done|].
  destruct (res_each _ _) as [[]|]; [|done]. rewrite get_row_eq, Ec. simpl.
  destruct (ms_blocks s !! _) as [o|]; simpl.
  - case_bool_decide; [done|]. by destruct (new_row _ _ _).
  - by destruct (new_row _ _ _).
Qed.

Lemma begin_delete_eq k t s :
  begin_delete k t s =
  if _closed s then (s, Raise closed_error)
  else match ms_blocks s !! row_key k t with
       | None => (s, Ok None)
       | Some r =>
           match r_state r with
           | active =>
               if bool_decide (r_in_flight_epoch r = _owner_epoch s) && (0 <? r_in_flight r)
               then (s, Ok None)
               else match _location_from_row k t r with
                    | Ok l => (put_row (row_key k t) (set_state deleting (set_flight 0 [] r)) s, Ok (Some l))
                    | Raise e => (s, Raise e)
                    end
           | deleting => (s, res_map Some (_location_from_row k t r))
           | unknown_state x => (s, Raise (err RuntimeError (str "unknown metadata state: " ++ x)))
           end
       end.
Proof.
  unfold begin_delete, transaction, bind, owner, gets. rewrite get_row_eq.
  destruct (_closed s) eqn:Ec; [by rewrite set_blocks_same|].
  destruct (ms_blocks s !! row_key k t) as [r|] eqn:Er; [|done].
  destruct (r_state r) eqn:Es.
  - destruct (_ && _); [done|]. rewrite update_row_eq, Ec, Er.
    assert (is_active r = true) as -> by by apply is_active_true. unfold lift.
    destruct (_location_from_row k t r); simpl; [done|].
    by destruct s as [[] ? ?].
  - unfold lift. destruct (_location_from_row k t r); simpl; by rewrite ?set_blocks_same.
  - unfold raise. by rewrite set_blocks_same.
Qed.

Lemma effect_update p f k t c s :
  (forall r, ms_blocks s !! row_key k t = Some r -> p r = true ->
     effect s c (put_row (row_key k t) (f r) s)) ->
  effect s c (update_row p f k t s).1.
Proof.
  intros H. rewrite update_row_eq. destruct (_closed s); [apply eff_same|].
  destruct (ms_blocks s !! row_key k t) as [r|] eqn:Er; [|apply eff_same].
  destruct (p r) eqn:Ep; [|apply eff_same]. by apply H.
Qed.

Lemma effect_delete p k t c s :
  (forall r, ms_blocks s !! row_key k t = Some r -> p r = true ->
     effect s c (drop_row (row_key k t) s)) ->
  effect s c (delete_row p k t s).1.
Proof.
  intros H. rewrite delete_row_eq. destruct (_closed s); [apply eff_same|].
  destruct (ms_blocks s !! row_key k t) as [r|] eqn:Er; [|apply eff_same].
  destruct (p r) eqn:Ep; [|apply eff_same]. by eapply H.
Qed.

Lemma discard_state {A} (m : MS A) s : (discard m s).1 = (m s).1.
Proof. unfold discard. by destruct (m s). Qed.

(** A continuation that leaves the state alone. *)
Lemma bind_pure_state {A B} (m : MS A) (f : A -> MS B) s :
  (forall a s', (f a s').1 = s') -> (bind m f s).1 = (m s).1.
Proof. intros H. unfold bind. destruct (m s) as [s' [a|e]]; [apply H|done]. Qed.

Lemma acquire_effect c k t s :
  c = CLookupAcquire k t \/ c = CAcquire k t ->
  effect s c (update_row is_active (acquire_row (_owner_epoch s)) k t s).1.
Proof.
  intros Hc. apply effect_update. intros r Hr Ha%is_active_true. by eapply eff_acquire.
Qed.

Ltac read_only :=
  munfold; unfold owner, gets, lift in *; rewrite ?execute_eq, ?get_row_eq;
  repeat case_match; simplify_eq/=; apply eff_same.

(** Every call has one of these effects. *)
Lemma run_effect c s : effect s c (after c s).
Proof.
  unfold after. destruct c; cbn [run_call]; rewrite ?discard_state.
  - rewrite upsert_eq. destruct (_validate_upsert l m) as [[]|] eqn:Ev; [|apply eff_same].
    destruct (_closed s); [apply eff_same|].
    destruct (res_each _ _) as [[]|] eqn:Ed; [|apply eff_same].
    cbn zeta. case_bool_decide as Hst; [apply eff_same|].
    destruct (new_row _ _ _) as [n|] eqn:En; [|apply eff_same]. by eapply eff_publish.
  - unfold validate_payload_descriptor, _validate_payload_descriptor_locked. read_only.
  - unfold lookup. read_only.
  - unfold get_metadata. read_only.
  - unfold is_deleting. read_only.
  - unfold lookup_and_acquire, mutation. unfold bind at 1.
    destruct (_closed s); [apply eff_same|]. unfold bind at 1, owner, gets.
    rewrite bind_pure_state; [apply acquire_effect; auto|]. by intros [r|] s'.
  - unfold acquire, mutation. unfold bind at 1.
    destruct (_closed s); [apply eff_same|]. unfold bind at 1, owner, gets.
    rewrite bind_pure_state; [apply acquire_effect; auto|done].
  - unfold release, owner, gets. unfold bind at 1. rewrite bind_pure_state by done.
    apply effect_update. intros r Hr Hp%bool_decide_eq_true. by apply eff_release.
  - unfold touch. rewrite bind_pure_state by done.
    apply effect_update. intros r Hr Ha%is_active_true. by apply eff_touch.
  - unfold delete, owner, gets. unfold bind at 1.
    apply effect_delete. intros r Hr [Ha%is_active_true Hi]%andb_true_iff. by eapply eff_delete.
  - rewrite begin_delete_eq. destruct (_closed s); [apply eff_same|].
    destruct (ms_blocks s !! row_key k t) as [r|] eqn:Er; [|apply eff_same].
    destruct (r_state r) eqn:Es; try apply eff_same. destruct (_ && _) eqn:Eg; [apply eff_same|].
    destruct (_location_from_row k t r); [|apply eff_same]. by apply eff_hide.
  - unfold finish_delete. apply effect_delete. intros r Hr Hd%bool_decide_eq_true. by eapply eff_finish.
  - unfold lru_candidates. read_only.
  - unfold tier_entries. read_only.
  - unfold bytes_used. read_only.
  - unfold close. case_match; by apply eff_none.
Qed.

(** ** The invariant is preserved *)

Lemma put_row_blocks rk r s : ms_blocks (put_row rk r s) = <[rk := r]> (ms_blocks s).
Proof. done. Qed.

Lemma drop_row_blocks rk s : ms_blocks (drop_row rk s) = base.delete rk (ms_blocks s).
Proof. done. Qed.

Lemma inv_put s rk r r' :
  store_inv s -> ms_blocks s !! rk = Some r -> r_metadata_json r' = r_metadata_json r ->
  row_ok (_owner_epoch s) rk r' -> store_inv (put_row rk r' s).
Proof.
  intros [He Hr Hd] Hrk Hj Hok. split; [done| |]; rewrite put_row_blocks.
  - intros rk1 r1 [[<- <-]|[_ H]]%lookup_insert_Some; [done|by apply Hr].
  - assert (forall rk1 r1, <[rk:=r']> (ms_blocks s) !! rk1 = Some r1 ->
              exists r0, ms_blocks s !! rk1 = Some r0 /\ r_metadata_json r1 = r_metadata_json r0) as Hx.
    { intros rk1 r1 [[<- <-]|[_ H]]%lookup_insert_Some; eauto. }
    intros id t1 t2 r1 r2 m1 m2 (q1 & H1 & E1)%Hx (q2 & H2 & E2)%Hx M1 M2.
    unfold row_md in M1, M2. rewrite E1 in M1. rewrite E2 in M2. by eapply (Hd id t1 t2 q1 q2).
Qed.

Lemma inv_drop s rk : store_inv s -> store_inv (drop_row rk s).
Proof.
  intros [He Hr Hd]. split; [done| |]; rewrite drop_row_blocks.
  - intros rk1 r1 [_ H]%lookup_delete_Some. by apply Hr.
  - intros id t1 t2 r1 r2 m1 m2 [_ H1]%lookup_delete_Some [_ H2]%lookup_delete_Some.
    by apply (Hd id t1 t2).
Qed.

Lemma key_rows_elem b k t r : b !! row_key k t = Some r -> r ∈ key_rows b k.
Proof.
  intros H. unfold key_rows. apply list_elem_of_omap. exists t. split; [|done].
  unfold all_tiers. destruct t; set_solver.
Qed.

Lemma validate_upsert_inv l m :
  _validate_upsert l m = Ok tt -> storable m = true ->
  loc_key l = md_key m /\ loc_uri l <> [] /\ 0 <= loc_bytes l /\
  md_bytes m = PInt (loc_bytes l) /\ md_checksum m = PStr (loc_checksum l).
Proof.
  unfold _validate_upsert. intros H (Ht & _)%storable_inv. rewrite !res_bind_tt, !ensure_tt in H.
  destruct H as (_ & Hk%bool_decide_eq_true & Hu & Hb & Hc).
  destruct (ty_bytes m Ht) as (z & Ez & Hz), (ty_checksum m Ht) as (c & Ec & _).
  rewrite Ez in *. rewrite Ec in *. simpl in Hb, Hc. apply bool_decide_eq_true in Hc as <-.
  breflect. subst. done.
Qed.

(** The row an upsert writes. *)
Lemma new_row_ok s l m n :
  store_inv s -> _validate_upsert l m = Ok tt -> storable m = true -> location_ok l ->
  new_row (_owner_epoch s) l m = Ok n ->
  row_ok (_owner_epoch s) (row_key (loc_key l) (loc_tier l)) n /\
  row_md n (norm_metadata fmt_store m) /\ r_state n = active /\ r_in_flight n = 0 /\
  r_in_flight_epoch n = _owner_epoch s.
Proof.
  intros Hi Hv Hm (Ha & Hc & Hl) H.
  destruct (validate_upsert_inv l m Hv Hm) as (Hk & Hu & Hb & Eb & Ec).
  unfold new_row in H. next_check H H1. next_check H H2. next_check H H3. next_check H H4.
  next_check H H5. next_check H H6. next_check H H7. injection H as <-.
  destruct (ty_reuse_count m (proj1 (storable_inv m Hm))) as (u & Eu & Hu0). rewrite Eu in H7.
  apply sql_int_ok in H4 as ->, H7 as ->.
  assert (row_md (mkRow (loc_uri l) (loc_bytes l) (loc_checksum l) x0 x1 x3 x4 u 0
                    (_owner_epoch s) active) (norm_metadata fmt_store m)) as Hmd.
  { split_and!.
    - intros now. by eapply metadata_text_roundtrip.
    - by apply storable_norm.
    - apply no_tuple_norm. }
  split_and!; try done. split; simpl; eauto using sql_real_stamp; try done.
  - exists (norm_metadata fmt_store m). split_and!; try done. simpl. by rewrite Hk.
  - pose proof (json_ok_norm fmt_store _ Ha) as Hj. pose proof (json_loads_dumps fmt_store _ _ H3 Ha) as Hd.
    unfold _location_attributes in *. rewrite json_norm_dict in *. eauto.
Qed.

Lemma merge_row_ok ep rk o n :
  ep <> [] -> row_ok ep rk o -> row_ok ep rk n -> r_in_flight_epoch n = ep ->
  row_ok ep rk (merge_row o n).
Proof.
  intros Hep [] [] He. split; simpl; try done; auto using stamp_max, stamp_min; try lia.
  - by case_bool_decide.
  - congruence.
Qed.

Lemma row_md_json r r' m : r_metadata_json r' = r_metadata_json r -> row_md r m -> row_md r' m.
Proof. unfold row_md. by intros ->. Qed.

Lemma storable_descriptor_regular m : storable m = true -> descriptor_regular m.
Proof.
  intros (Ht & _ & _ & _ & He)%storable_inv. apply typed_descriptor_regular; [done|].
  by apply json_ok_regular.
Qed.

(** Publication: the new row agrees with the rows of every tier. *)
Lemma inv_publish s k t r m :
  store_inv s -> key_valid k = true -> row_ok (_owner_epoch s) (row_key k t) r -> row_md r m ->
  (forall t' r' m', ms_blocks s !! row_key k t' = Some r' -> row_md r' m' ->
     descriptor_eqb (payload_descriptor m') (payload_descriptor m) = true) ->
  store_inv (put_row (row_key k t) r s).
Proof.
  intros [He Hr Hd] Hk Hok Hm Hag.
  assert (forall t' r' m', ms_blocks s !! row_key k t' = Some r' -> row_md r' m' ->
     descriptor_eqb (payload_descriptor m) (payload_descriptor m') = true) as Hag'.
  { intros t' r' m' H1 H2. pose proof (Hag _ _ _ H1 H2). destruct H2 as (_ & ? & _), Hm as (_ & ? & _).
    apply descriptor_eqb_sym; auto using storable_descriptor_regular. }
  split; [done| |]; rewrite put_row_blocks.
  - intros rk1 r1 [[<- <-]|[_ H]]%lookup_insert_Some; [done|by apply Hr].
  - intros id t1 t2 r1 r2 m1 m2 H1 H2 M1 M2.
    apply lookup_insert_Some in H1 as [[E1 <-]|[_ H1]], H2 as [[E2 <-]|[_ H2]].
    + rewrite (row_md_unique r m1 m M1 Hm), (row_md_unique r m2 m M2 Hm).
      apply descriptor_eqb_refl. destruct Hm as (_ & ? & _). auto using storable_descriptor_regular.
    + rewrite (row_md_unique r m1 m M1 Hm). injection E1 as <- _. by eapply Hag'.
    + rewrite (row_md_unique r m2 m M2 Hm). injection E2 as <- _. by eapply Hag.
    + by eapply (Hd id t1 t2).
Qed.

Lemma same_descriptor_rows s now m t r p :
  res_each (same_descriptor now m) (key_rows (ms_blocks s) (md_key m)) = Ok tt ->
  ms_blocks s !! row_key (md_key m) t = Some r -> row_md r p ->
  descriptor_eqb (payload_descriptor p) (payload_descriptor m) = true.
Proof.
  intros Hall%res_each_ok Hr%key_rows_elem Hp. rewrite Forall_forall in Hall.
  specialize (Hall r Hr). rewrite (row_md_same m now r p Hp) in Hall. by apply ensure_ok in Hall.
Qed.

Lemma flight_row_ok ep rk r n :
  ep <> [] -> row_ok ep rk r -> 0 <= n -> r_state r = active \/ n = 0 ->
  row_ok ep rk (set_flight n ep r).
Proof.
  intros Hep [] Hn Hs. split; simpl; eauto; try done. destruct ro_state0 as [|[Hd _]]; [auto|].
  right. split; [done|]. destruct Hs as [E|E]; [congruence|done].
Qed.

Lemma acquire_row_ok ep rk r :
  ep <> [] -> row_ok ep rk r -> r_state r = active -> row_ok ep rk (acquire_row ep r).
Proof.
  intros Hep H Ha. apply flight_row_ok; auto. pose proof (ro_flight _ _ _ H).
  unfold sql_incr, max_int64. repeat case_match; lia.
Qed.

Lemma touch_row_ok ep rk r now n :
  row_ok ep rk r -> stamp now -> 0 <= n -> row_ok ep rk (set_touch now n r).
Proof. intros [] Hs Hn. by split. Qed.

Lemma hide_row_ok ep rk r :
  row_ok ep rk r -> row_ok ep rk (set_state deleting (set_flight 0 [] r)).
Proof. intros []. split; simpl; auto; lia. Qed.

Lemma publish_inv s now l m n old :
  store_inv s -> storable m = true -> location_ok l ->
  _validate_upsert l m = Ok tt ->
  res_each (same_descriptor now m) (key_rows (ms_blocks s) (md_key m)) = Ok tt ->
  new_row (_owner_epoch s) l m = Ok n ->
  ms_blocks s !! row_key (loc_key l) (loc_tier l) = old ->
  store_inv (put_row (row_key (loc_key l) (loc_tier l)) (from_option (fun o => merge_row o n) n old) s).
Proof.
  intros Hi Hm Hl Hv Hd Hn Hold.
  destruct (new_row_ok s l m n Hi Hv Hm Hl Hn) as (Hok & Hmd & Hst & Hf & He).
  destruct (validate_upsert_inv l m Hv Hm) as (Hk & _).
  apply (inv_publish _ _ _ _ (norm_metadata fmt_store m)); try done.
  - rewrite Hk. by apply storable_inv.
  - destruct old as [o|]; simpl; [|done]. apply merge_row_ok; try done.
    + apply (inv_epoch s Hi).
    + by apply (inv_rows s Hi).
  - eapply row_md_json; [|exact Hmd]. by destruct old.
  - intros t' r' m' Hr' Hmd'. rewrite Hk in Hr'. pose proof Hmd' as (_ & _ & Hnt).
    apply descriptor_eqb_norm_r; [done|done|]. by eapply same_descriptor_rows.
Qed.

Lemma effect_inv s c s' : effect s c s' -> call_ok c -> store_inv s -> store_inv s'.
Proof.
  intros Heff Hc Hi. pose proof Hi as [He Hr Hd].
  destruct Heff as [c s' Eb Ee|now l m n old Hv Hs Hn Hold Hst|c k t r Hcc Hk Ha|k t r Hk Ho
                   |now k t r Hk Ha|k t r Hk Ha Hx|k t r Hk Ha Hx|k t r Hk Ha].
  - split; rewrite ?Eb, ?Ee; done.
  - destruct Hc. by eapply publish_inv.
  - eapply inv_put; [done|done|done|]. apply acquire_row_ok; auto.
  - eapply inv_put; [done|done|done|]. rewrite Ho. apply flight_row_ok; auto; [lia|].
    destruct (ro_state _ _ _ (Hr _ _ Hk)) as [|[_ H0]]; [by left|]. right. rewrite H0. done.
  - eapply inv_put; [done|done|done|]. apply touch_row_ok; auto.
    pose proof (ro_reuse _ _ _ (Hr _ _ Hk)). unfold sql_incr, max_int64. case_match; lia.
  - by apply inv_drop.
  - eapply inv_put; [done|done|done|]. apply hide_row_ok; auto.
  - by apply inv_drop.
Qed.

(** ** Opening *)

(** What a database file holds after its owner is gone: any epoch may have left
    its counters behind. *)
Definition db_ok (db : Database) : Prop :=
  (exists ep, rows_ok ep (blocks db)) /\ descriptors_agree (blocks db).

Lemma reset_flight_ok ep ep' rk r : row_ok ep rk r -> row_ok ep' rk (reset_flight r).
Proof.
  intros []. unfold reset_flight.
  destruct (Z.eqb_spec (r_in_flight r) 0); destruct (bool_decide_reflect (r_in_flight_epoch r = []));
    simpl; split; simpl; auto; try lia; destruct ro_state0 as [|[]]; auto.
Qed.

Lemma reset_flight_json r : r_metadata_json (reset_flight r) = r_metadata_json r.
Proof. unfold reset_flight. by case_match. Qed.

Lemma open_store_inv ep pid now db s :
  db_ok db -> ep <> [] -> (open_store ep pid now db).2 = Ok s -> store_inv s.
Proof.
  intros [[ep0 Hr] Hd] Hep. unfold open_store. destruct (owner_lock db); [done|]. intros [= <-].
  split; [done| |]; unfold ms_blocks; simpl.
  - intros rk r. rewrite lookup_fmap. intros (r0 & H0 & ->)%fmap_Some_1. by eapply reset_flight_ok, Hr.
  - intros id t1 t2 r1 r2 m1 m2. rewrite !lookup_fmap.
    intros (q1 & E1 & ->)%fmap_Some_1 (q2 & E2 & ->)%fmap_Some_1 M1 M2.
    apply (Hd id t1 t2 q1 q2); [done|done| |].
    + eapply row_md_json, M1. by rewrite reset_flight_json.
    + eapply row_md_json, M2. by rewrite reset_flight_json.
Qed.

Lemma store_inv_db s : store_inv s -> db_ok (ms_db s).
Proof. intros [_ Hr Hd]. split; [by eexists|done]. Qed.

(** ** Histories *)

(** A database file and the processes that own it, one after the other: calls,
    a crash or exit of the owner at any point, and the next open. *)
Inductive system := Running (s : MetadataStore) | Stopped (db : Database).

Inductive sys_step : system -> system -> Prop :=
  | step_call c s : call_ok c -> sys_step (Running s) (Running (after c s))
  | step_exit s : sys_step (Running s) (Stopped (owner_dies (ms_db s)))
  | step_open ep pid now db s :
      ep <> [] -> (open_store ep pid now db).2 = Ok s -> sys_step (Stopped db) (Running s).

Definition empty_db : Database := {| blocks := ∅; runtime := None; owner_lock := false |}.

Definition reachable (y : system) : Prop := rtc sys_step (Stopped empty_db) y.

Definition sys_inv (y : system) : Prop :=
  match y with Running s => store_inv s | Stopped db => db_ok db end.

Lemma sys_step_inv x y : sys_step x y -> sys_inv x -> sys_inv y.
Proof.
  intros [c s Hc|s|ep pid now db s Hep Ho] Hx; simpl in *.
  - eapply effect_inv; [apply run_effect|done|done].
  - by apply store_inv_db in Hx.
  - by eapply open_store_inv.
Qed.

Lemma empty_db_ok : db_ok empty_db.
Proof.
  split; [exists []|].
  - intros rk r H. change ((∅ : gmap RowKey Row) !! rk = Some r) in H. by rewrite lookup_empty in H.
  - intros id t1 t2 r1 r2 m1 m2 H. change ((∅ : gmap RowKey Row) !! (id, t1) = Some r1) in H.
    by rewrite lookup_empty in H.
Qed.

Lemma reachable_inv y : reachable y -> sys_inv y.
Proof.
  unfold reachable. intros H. pose proof (empty_db_ok : sys_inv (Stopped empty_db)) as H0.
  revert H0. induction H as [x|x y z H1 _ IH]; [done|]. intros H0. eauto using sys_step_inv.
Qed.

(** ** The abstract store *)

(** A block is visible with a number of pinned readers, or hidden by a delete
    that is still pending. *)
Inductive phase := Visible (pins : Z) | Tombstone.

Definition row_phase (r : Row) : phase :=
  if is_active r then Visible (r_in_flight r) else Tombstone.

Definition abs (s : MetadataStore) : gmap RowKey phase := row_phase <$> ms_blocks s.

(** What one call may do to the abstract store. *)
Inductive spec_step (a : gmap RowKey phase) : ms_call -> gmap RowKey phase -> Prop :=
  | spec_stutter c : spec_step a c a
  | spec_publish now l m :
      a !! row_key (loc_key l) (loc_tier l) = None ->
      spec_step a (CUpsert now l m) (<[row_key (loc_key l) (loc_tier l) := Visible 0]> a)
  | spec_pin c k t n :
      c = CLookupAcquire k t \/ c = CAcquire k t -> a !! row_key k t = Some (Visible n) ->
      spec_step a c (<[row_key k t := Visible (sql_incr n)]> a)
  | spec_unpin k t n :
      a !! row_key k t = Some (Visible n) ->
      spec_step a (CRelease k t) (<[row_key k t := Visible (Z.max (n - 1) 0)]> a)
  | spec_remove k t :
      a !! row_key k t = Some (Visible 0) -> spec_step a (CDelete k t) (base.delete (row_key k t) a)
  | spec_hide k t :
      a !! row_key k t = Some (Visible 0) ->
      spec_step a (CBeginDelete k t) (<[row_key k t := Tombstone]> a)
  | spec_finish k t :
      a !! row_key k t = Some Tombstone -> spec_step a (CFinishDelete k t) (base.delete (row_key k t) a).

Lemma abs_put rk r s : abs (put_row rk r s) = <[rk := row_phase r]> (abs s).
Proof. apply fmap_insert. Qed.

Lemma abs_drop rk s : abs (drop_row rk s) = base.delete rk (abs s).
Proof. apply fmap_delete. Qed.

Lemma abs_lookup s rk r : ms_blocks s !! rk = Some r -> abs s !! rk = Some (row_phase r).
Proof. intros H. unfold abs. by rewrite lookup_fmap, H. Qed.

Lemma row_phase_active r : r_state r = active -> row_phase r = Visible (r_in_flight r).
Proof. intros H. unfold row_phase. by rewrite (proj2 (is_active_true r) H). Qed.

Lemma row_phase_deleting r : r_state r = deleting -> row_phase r = Tombstone.
Proof. unfold row_phase, is_active. by intros ->. Qed.

Lemma abs_put_same s rk r r' :
  ms_blocks s !! rk = Some r -> row_phase r' = row_phase r -> abs (put_row rk r' s) = abs s.
Proof. intros H E. rewrite abs_put, E. apply insert_id. by apply abs_lookup. Qed.

Lemma acquire_phase ep rk r :
  ep <> [] -> row_ok ep rk r -> r_state r = active ->
  row_phase (acquire_row ep r) = Visible (sql_incr (r_in_flight r)).
Proof.
  intros Hep H Ha. rewrite row_phase_active by done. simpl. f_equal. case_bool_decide; [done|].
  destruct (ro_epoch _ _ _ H) as [E|E]; [|done]. by rewrite (ro_unowned _ _ _ H E).
Qed.

Lemma publish_phase s l m n o :
  store_inv s -> _validate_upsert l m = Ok tt -> storable m = true -> location_ok l ->
  new_row (_owner_epoch s) l m = Ok n ->
  ms_blocks s !! row_key (loc_key l) (loc_tier l) = Some o -> r_state o <> deleting ->
  row_phase (merge_row o n) = row_phase o.
Proof.
  intros Hi Hv Hm Hl Hn Ho Hst. pose proof (inv_rows s Hi _ _ Ho) as Hok.
  destruct (new_row_ok s l m n Hi Hv Hm Hl Hn) as (_ & _ & Ha & Hf & He).
  destruct (ro_state _ _ _ Hok) as [Hao|[? _]]; [|done].
  rewrite !row_phase_active by done. simpl. rewrite He. f_equal. case_bool_decide as Ho'; [done|].
  destruct (ro_epoch _ _ _ Hok) as [E|E]; [|done]. by rewrite (ro_unowned _ _ _ Hok E).
Qed.

Lemma effect_refines s c s' :
  effect s c s' -> call_ok c -> store_inv s -> spec_step (abs s) c (abs s').
Proof.
  intros Heff Hc Hi. pose proof Hi as [He Hr Hd].
  destruct Heff as [c s' Eb Ee|now l m n old Hv Hs Hn Hold Hst|c k t r Hcc Hk Ha|k t r Hk Ho
                   |now k t r Hk Ha|k t r Hk Ha Hx|k t r Hk Ha Hx|k t r Hk Ha].
  - unfold abs. rewrite Eb. apply spec_stutter.
  - destruct Hc as [Hm Hl]. destruct old as [o|]; simpl.
    + erewrite abs_put_same; [apply spec_stutter|done|]. by eapply publish_phase.
    + destruct (new_row_ok s l m n Hi Hv Hm Hl Hn) as (_ & _ & Ha & Hf & _).
      rewrite abs_put, row_phase_active, Hf by done. apply spec_publish.
      unfold abs. by rewrite lookup_fmap, Hold.
  - rewrite abs_put, (acquire_phase _ (row_key k t)) by auto. apply spec_pin; [done|].
    by rewrite (abs_lookup _ _ _ Hk), row_phase_active.
  - destruct (ro_state _ _ _ (Hr _ _ Hk)) as [Ha|[Hdel H0]].
    + rewrite abs_put, row_phase_active by done. apply spec_unpin.
      by rewrite (abs_lookup _ _ _ Hk), row_phase_active.
    + erewrite abs_put_same; [apply spec_stutter|done|]. by rewrite !row_phase_deleting.
  - erewrite abs_put_same; [apply spec_stutter|done|]. by rewrite !row_phase_active.
  - rewrite abs_drop. apply spec_remove. rewrite (abs_lookup _ _ _ Hk), row_phase_active by done.
    rewrite (row_ok_idle _ _ _ He (Hr _ _ Hk)) in Hx. do 2 f_equal. lia.
  - rewrite abs_put, row_phase_deleting by done. apply spec_hide.
    rewrite (abs_lookup _ _ _ Hk), row_phase_active by done. do 2 f_equal.
    pose proof (Hr _ _ Hk) as Hok. pose proof (ro_flight _ _ _ Hok).
    destruct (ro_epoch _ _ _ Hok) as [E|E]; [by apply (ro_unowned _ _ _ Hok)|].
    rewrite bool_decide_eq_true_2 in Hx by done. simpl in Hx. lia.
  - rewrite abs_drop. apply spec_finish. by rewrite (abs_lookup _ _ _ Hk), row_phase_deleting.
Qed.

(** ** Results of the readers *)

Lemma get_metadata_row now s k t r m :
  _closed s = false -> ms_blocks s !! row_key k t = Some r -> r_state r = active ->
  row_md r m -> stamp (r_last_access r) -> 0 <= r_reuse_count r ->
  get_metadata now k t s =
  (s, Ok (Some (set_reuse (set_access m (r_last_access r)) (r_reuse_count r)))).
Proof.
  intros Hc Hr Ha (Hp & Hs & _) Hl Hu. unfold get_metadata, bind, lift. rewrite get_row_eq, Hc, Hr.
  rewrite (proj2 (is_active_true r) Ha), Hp. cbn [res_bind].
  assert (validate true m = Ok tt) as Hv.
  { unfold storable in Hs. rewrite !andb_true_iff in Hs. destruct Hs as [[[[Hv _] _] _] _].
    by destruct (validate true m) as [[]|]. }
  by rewrite (validate_touch m _ _ Hv Hl Hu).
Qed.

Lemma lookup_row s k t r :
  _closed s = false -> ms_blocks s !! row_key k t = Some r -> r_state r = active ->
  lookup k (Some t) s = (s, res_map (fun l => [l]) (_location_from_row k t r)).
Proof.
  intros Hc Hr Ha. unfold lookup, bind, lift, gets. rewrite execute_eq, Hc. cbn [omap list_omap].
  rewrite Hr, (proj2 (is_active_true r) Ha). simpl. by destruct (_location_from_row k t r).
Qed.

Lemma lookup_hidden s k t :
  _closed s = false -> from_option r_state deleting (ms_blocks s !! row_key k t) = deleting ->
  lookup k (Some t) s = (s, Ok []) /\ (forall now, get_metadata now k t s = (s, Ok None)) /\
  lookup_and_acquire k t s = (s, Ok None) /\ acquire k t s = (s, Ok false).
Proof.
  intros Hc Hd.
  assert (forall f, update_row is_active f k t s = (s, Ok None)) as Hu.
  { intros f. rewrite update_row_eq, Hc. destruct (ms_blocks s !! row_key k t) as [r|]; [|done].
    simpl in Hd. unfold is_active. by rewrite Hd. }
  split_and!.
  - unfold lookup, bind, lift, gets. rewrite execute_eq, Hc. cbn [omap list_omap].
    destruct (ms_blocks s !! row_key k t) as [r|]; [|done]. simpl in Hd. unfold is_active. by rewrite Hd.
  - intros now. unfold get_metadata, bind, ret. rewrite get_row_eq, Hc.
    destruct (ms_blocks s !! row_key k t) as [r|]; [|done]. simpl in Hd. unfold is_active. by rewrite Hd.
  - unfold lookup_and_acquire, mutation, bind, owner, gets. by rewrite Hc, Hu.
  - unfold acquire, mutation, bind, owner, gets. by rewrite Hc, Hu.
Qed.

(** The attributes of a location, read back from the text of its row. *)
Lemma merge_fields f (d d' : list (pystr * pyval)) (defs : list (pystr * pyval)) :
  d'.*1 = defs.*1 -> Forall (fun kv => dict_get kv.1 d = Some kv.2) d' ->
  map (fun kv => (kv.1, default kv.2 (f <$> dict_get kv.1 d))) defs = on_values f d'.
Proof.
  intros Hk H. revert defs Hk.
  induction H as [|[k v] d' Hkv _ IH]; intros [|[k' w] defs] [=]; simpl in *; [done|].
  subst k'. rewrite Hkv. simpl. f_equal. by apply IH.
Qed.

Lemma merge_attributes_norm d :
  d.*1 = LOCATION_FIELDS -> NoDup d.*1 ->
  merge_attributes (maybe_sort true (on_values (json_norm fmt_store) d)) =
  on_values (json_norm fmt_store) d.
Proof.
  intros Hk Hnd. unfold merge_attributes.
  etransitivity; [|apply (merge_fields _ d d default_attributes Hk)].
  - apply map_ext. intros kv. by rewrite norm_dict_get.
  - rewrite Forall_forall. intros [k v] Hin. by apply elem_dict_get.
Qed.

(** ** Publication *)

Lemma upsert_inv now l m s s' :
  upsert now l m s = (s', Ok tt) ->
  _closed s = false /\ _validate_upsert l m = Ok tt /\
  res_each (same_descriptor now m) (key_rows (ms_blocks s) (md_key m)) = Ok tt /\
  exists n, new_row (_owner_epoch s) l m = Ok n /\
    from_option r_state active (ms_blocks s !! row_key (loc_key l) (loc_tier l)) <> deleting /\
    s' = put_row (row_key (loc_key l) (loc_tier l))
           (from_option (fun o => merge_row o n) n (ms_blocks s !! row_key (loc_key l) (loc_tier l))) s.
Proof.
  rewrite upsert_eq. destruct (_validate_upsert l m) as [[]|]; [|done].
  destruct (_closed s); [done|]. destruct (res_each _ _) as [[]|]; [|done]. cbn zeta.
  case_bool_decide; [done|]. destruct (new_row _ _ _) as [n|]; [|done]. intros [= <-]. eauto 10.
Qed.

Lemma new_row_fields ep l m n :
  new_row ep l m = Ok n ->
  r_uri n = loc_uri l /\ r_bytes n = loc_bytes l /\ r_checksum n = loc_checksum l /\
  json_dumps fmt_store (_location_attributes l) = Ok (r_location_json n).
Proof.
  unfold new_row. intros H. next_check H H1. next_check H H2. next_check H H3. next_check H H4.
  next_check H H5. next_check H H6. next_check H H7. injection H as <-. simpl.
  by apply sql_int_ok in H4 as ->.
Qed.

(** The row after a successful upsert. *)
Lemma upsert_row now l m s s' :
  store_inv s -> storable m = true -> location_ok l -> upsert now l m s = (s', Ok tt) ->
  _closed s' = false /\ store_inv s' /\
  exists r, ms_blocks s' !! row_key (loc_key l) (loc_tier l) = Some r /\ r_state r = active /\
    row_md r (norm_metadata fmt_store m) /\
    r_uri r = loc_uri l /\ r_bytes r = loc_bytes l /\ r_checksum r = loc_checksum l /\
    json_dumps fmt_store (_location_attributes l) = Ok (r_location_json r).
Proof.
  intros Hi Hm Hl H. destruct (upsert_inv _ _ _ _ _ H) as (Hc & Hv & Hd & n & Hn & Hst & Es').
  destruct (new_row_ok s l m n Hi Hv Hm Hl Hn) as (Hok & Hmd & Ha & _).
  destruct (new_row_fields _ _ _ _ Hn) as (E1 & E2 & E3 & E4).
  split_and!.
  - by rewrite Es'.
  - rewrite Es'. by eapply publish_inv.
  - eexists. rewrite Es', put_row_blocks, lookup_insert, decide_True by done. split; [done|].
    destruct (ms_blocks s !! _); simpl; [|done]. split_and!; try done.
Qed.

(** ** Opening again *)

Lemma open_store_row ep pid now db s rk :
  (open_store ep pid now db).2 = Ok s ->
  owner_lock db = false /\ _closed s = false /\ _owner_epoch s = ep /\
  ms_blocks s !! rk = reset_flight <$> blocks db !! rk.
Proof.
  unfold open_store. destruct (owner_lock db); [done|]. intros [= <-]. split_and!; try done.
  apply lookup_fmap.
Qed.

Lemma reset_flight_fields r :
  r_state (reset_flight r) = r_state r /\ r_in_flight (reset_flight r) = 0 /\
  forall k t, _location_from_row k t (reset_flight r) = _location_from_row k t r.
Proof.
  unfold reset_flight. destruct (Z.eqb_spec (r_in_flight r) 0); simpl; [|done].
  destruct (negb _); done.
Qed.

(** ** Acquire, touch and release of a visible row *)

Lemma acquire_run s k t r :
  _closed s = false -> ms_blocks s !! row_key k t = Some r -> r_state r = active ->
  acquire k t s = (put_row (row_key k t) (acquire_row (_owner_epoch s) r) s, Ok true).
Proof.
  intros Hc Hr Ha. unfold acquire, mutation, bind, owner, gets. rewrite Hc, update_row_eq, Hc, Hr.
  by rewrite (proj2 (is_active_true r) Ha).
Qed.

Lemma touch_run now s k t r :
  _closed s = false -> ms_blocks s !! row_key k t = Some r -> r_state r = active ->
  touch now k t s = (put_row (row_key k t) (set_touch now (sql_incr (r_reuse_count r)) r) s, Ok tt).
Proof.
  intros Hc Hr Ha. unfold touch, bind. rewrite update_row_eq, Hc, Hr.
  by rewrite (proj2 (is_active_true r) Ha).
Qed.

Lemma release_run s k t r :
  _closed s = false -> ms_blocks s !! row_key k t = Some r -> r_in_flight_epoch r = _owner_epoch s ->
  release k t s =
  (put_row (row_key k t) (set_flight (Z.max (r_in_flight r - 1) 0) (r_in_flight_epoch r) r) s, Ok tt).
Proof.
  intros Hc Hr He. unfold release, bind, owner, gets. rewrite update_row_eq, Hc, Hr.
  by rewrite bool_decide_eq_true_2.
Qed.

Lemma delete_run s k t r :
  store_inv s -> _closed s = false -> ms_blocks s !! row_key k t = Some r -> r_state r = active ->
  delete k t s = if r_in_flight r =? 0 then (drop_row (row_key k t) s, Ok true) else (s, Ok false).
Proof.
  intros [He Hr0 _] Hc Hr Ha. unfold delete, bind, owner, gets. rewrite delete_row_eq, Hc, Hr.
  rewrite (proj2 (is_active_true r) Ha), (row_ok_idle _ _ _ He (Hr0 _ _ Hr)). simpl. by case_match.
Qed.

Lemma put_row_lookup rk r s : ms_blocks (put_row rk r s) !! rk = Some r.
Proof. rewrite put_row_blocks. by rewrite lookup_insert, decide_True. Qed.
