(* ===== verification/Migration.v ===== *)
(** * Opening databases of earlier versions: [MetadataStore._init_schema]

    The file before it is opened: the table [blocks] may be missing, or lack columns
    that were added later; [_init_schema] creates what is missing, with the defaults
    of the statements. [MetadataStore] works on the result, a [Database]. *)

From Stdlib Require Import SpecFloat.
From S2P Require Import Prelude PyText Float64 Errors PyVal Json Metadata MetadataFacts MetadataStore MetadataStoreFacts.
Import MNotations ResNotations.

(** A row of a table that may lack columns. *)
Record StoredRow := mkStoredRow {
  sr_uri : pystr;
  sr_bytes : Z;
  sr_checksum : pystr;
  sr_metadata_json : pystr;
  sr_location_json : option pystr;
  sr_created_at : f64;
  sr_last_access : f64;
  sr_reuse_count : Z;
  sr_in_flight : Z;
  sr_in_flight_epoch : option pystr;
  sr_state : option row_state;
}.

(** The columns that were added, and the rows. *)
Record BlocksTable := mkBlocksTable {
  has_location_json : bool;
  has_in_flight_epoch : bool;
  has_state : bool;
  stored_rows : gmap RowKey StoredRow;
}.

Record DatabaseFile := mkDatabaseFile {
  f_blocks : option BlocksTable;
  f_runtime : option (option (pystr * Z * f64));
  f_indexes : gset pystr;
  f_owner_lock : bool;
}.

(** [CREATE TABLE IF NOT EXISTS blocks]. *)
Definition create_blocks (t : option BlocksTable) : BlocksTable := default (mkBlocksTable true true true ∅) t.

(** [ALTER TABLE blocks ADD COLUMN ... DEFAULT ...], when the column is missing. *)
Definition add_location_json (t : BlocksTable) : BlocksTable :=
  if has_location_json t then t
  else mkBlocksTable true (has_in_flight_epoch t) (has_state t)
    ((fun r => mkStoredRow (sr_uri r) (sr_bytes r) (sr_checksum r) (sr_metadata_json r) (Some (str "{}")) (sr_created_at r)
                 (sr_last_access r) (sr_reuse_count r) (sr_in_flight r) (sr_in_flight_epoch r) (sr_state r)) <$> stored_rows t).

Definition add_in_flight_epoch (t : BlocksTable) : BlocksTable :=
  if has_in_flight_epoch t then t
  else mkBlocksTable (has_location_json t) true (has_state t)
    ((fun r => mkStoredRow (sr_uri r) (sr_bytes r) (sr_checksum r) (sr_metadata_json r) (sr_location_json r) (sr_created_at r)
                 (sr_last_access r) (sr_reuse_count r) (sr_in_flight r) (Some []) (sr_state r)) <$> stored_rows t).

Definition add_state (t : BlocksTable) : BlocksTable :=
  if has_state t then t
  else mkBlocksTable (has_location_json t) (has_in_flight_epoch t) true
    ((fun r => mkStoredRow (sr_uri r) (sr_bytes r) (sr_checksum r) (sr_metadata_json r) (sr_location_json r) (sr_created_at r)
                 (sr_last_access r) (sr_reuse_count r) (sr_in_flight r) (sr_in_flight_epoch r) (Some active)) <$> stored_rows t).

Definition index_names : list pystr := [str "idx_blocks_last_access"; str "idx_blocks_namespace"].

Definition _init_schema (f : DatabaseFile) : DatabaseFile :=
  mkDatabaseFile (Some (add_state (add_in_flight_epoch (add_location_json (create_blocks (f_blocks f))))))
    (Some (default None (f_runtime f))) (list_to_set index_names ∪ f_indexes f) (f_owner_lock f).

(** The rows of a table with all columns. *)
Definition current_row (r : StoredRow) : Row :=
  mkRow (sr_uri r) (sr_bytes r) (sr_checksum r) (sr_metadata_json r) (default (str "{}") (sr_location_json r)) (sr_created_at r)
    (sr_last_access r) (sr_reuse_count r) (sr_in_flight r) (default [] (sr_in_flight_epoch r)) (default active (sr_state r)).

Definition database_of (f : DatabaseFile) : Database :=
  mkDatabase (current_row <$> default ∅ (stored_rows <$> f_blocks f)) (default None (f_runtime f)) (f_owner_lock f).

(** [MetadataStore(db_path)] on a file of any version. *)
Definition open_file (epoch : pystr) (pid : Z) (now : f64) (f : DatabaseFile) : Database * res MetadataStore :=
  open_store epoch pid now (database_of (if f_owner_lock f then f else _init_schema f)).

(** ** Facts *)

(** The values of a table are those of its columns. *)
Definition well_typed (t : BlocksTable) : Prop :=
  forall k r, stored_rows t !! k = Some r ->
    (has_location_json t = true <-> is_Some (sr_location_json r)) /\
    (has_in_flight_epoch t = true <-> is_Some (sr_in_flight_epoch r)) /\ (has_state t = true <-> is_Some (sr_state r)).

(** The row with every column. *)
Definition complete_row (r : StoredRow) : StoredRow :=
  mkStoredRow (sr_uri r) (sr_bytes r) (sr_checksum r) (sr_metadata_json r) (Some (default (str "{}") (sr_location_json r)))
    (sr_created_at r) (sr_last_access r) (sr_reuse_count r) (sr_in_flight r) (Some (default [] (sr_in_flight_epoch r)))
    (Some (default active (sr_state r))).

Lemma added_columns t :
  well_typed t ->
  add_state (add_in_flight_epoch (add_location_json t)) = mkBlocksTable true true true (complete_row <$> stored_rows t).
Proof.
  intros Ht. destruct t as [l e st rows]. unfold well_typed in Ht. cbn in Ht.
  assert (add_state (add_in_flight_epoch (add_location_json (mkBlocksTable l e st rows))) =
    mkBlocksTable true true true (stored_rows (add_state (add_in_flight_epoch (add_location_json (mkBlocksTable l e st rows)))))) as ->
    by (by destruct l, e, st).
  f_equal. apply map_eq. intros k. rewrite lookup_fmap.
  assert (stored_rows (add_state (add_in_flight_epoch (add_location_json (mkBlocksTable l e st rows)))) !! k =
    (fun r => mkStoredRow (sr_uri r) (sr_bytes r) (sr_checksum r) (sr_metadata_json r)
      (if l then sr_location_json r else Some (str "{}")) (sr_created_at r) (sr_last_access r) (sr_reuse_count r) (sr_in_flight r)
      (if e then sr_in_flight_epoch r else Some []) (if st then sr_state r else Some active)) <$> rows !! k) as ->.
  { destruct l, e, st; unfold add_location_json, add_in_flight_epoch, add_state; simpl; rewrite ?lookup_fmap; by destruct (rows !! k) as [[]|]. }
  change (stored_rows (mkBlocksTable l e st rows)) with rows. destruct (rows !! k) as [r|] eqn:E; [|done]. cbn. f_equal. destruct (Ht k r E) as (Hl & He & Hs). unfold complete_row. f_equal.
  - destruct l; [destruct (proj1 Hl eq_refl) as [v ->]; done|]. destruct (sr_location_json r); [|done].
    discriminate (proj2 Hl ltac:(eauto)).
  - destruct e; [destruct (proj1 He eq_refl) as [v ->]; done|]. destruct (sr_in_flight_epoch r); [|done].
    discriminate (proj2 He ltac:(eauto)).
  - destruct st; [destruct (proj1 Hs eq_refl) as [v ->]; done|]. destruct (sr_state r); [|done].
    discriminate (proj2 Hs ltac:(eauto)).
Qed.

Lemma complete_row_current r : current_row (complete_row r) = current_row r.
Proof. done. Qed.

(** Opening a file of any version keeps its rows: the database afterwards has exactly
    the rows of before, a missing column holding its default (no attributes, no
    reader, visible); every column is there; and doing it again changes nothing. *)
Theorem migration_keeps_rows f t :
  f_blocks f = Some t -> well_typed t ->
  database_of (_init_schema f) = database_of f /\
  f_blocks (_init_schema f) = Some (mkBlocksTable true true true (complete_row <$> stored_rows t)) /\
  _init_schema (_init_schema f) = _init_schema f.
Proof.
  intros Hf Ht. assert (f_blocks (_init_schema f) = Some (mkBlocksTable true true true (complete_row <$> stored_rows t))) as Hb.
  { cbn. rewrite Hf. cbn [create_blocks default from_option id]. by rewrite added_columns. }
  split_and!; [|done|].
  - unfold database_of. rewrite Hb, Hf. cbn. f_equal. rewrite <- map_fmap_compose. by apply map_fmap_ext.
  - unfold _init_schema at 1. rewrite Hb. cbn [create_blocks default from_option id].
    cbn [add_location_json add_in_flight_epoch add_state has_location_json has_in_flight_epoch has_state].
    destruct f as [b r ix l]. unfold _init_schema in Hb |- *. cbn in Hb |- *. rewrite <- Hb. f_equal. set_solver.
Qed.

(** A file of the first version: one row, without the later columns. *)
Definition first_version : DatabaseFile :=
  mkDatabaseFile (Some (mkBlocksTable false false false
    {[ (str "hash", str "ns", NVME) := mkStoredRow (str "file:///data/x") 3 (str "sum") (str "{}") None (f64_of_Z 1) (f64_of_Z 1) 0 2 None None ]}))
    None ∅ false.

Lemma migration_keeps_rows_witness : database_of (_init_schema first_version) = database_of first_version.
Proof.
  apply (migration_keeps_rows first_version _ eq_refl). intros k r Hr. cbn in Hr. apply lookup_singleton_Some in Hr as [_ <-].
  cbn. repeat split; try discriminate; intros [v Hv]; discriminate Hv.
Defined.

(** The readers of the earlier version are forgotten when it is opened. *)
Lemma first_version_opens :
  exists s, (open_file (str "e") 1 (f64_of_Z 2) first_version).2 = Ok s /\
    (r_in_flight <$> ms_blocks s !! (str "hash", str "ns", NVME)) = Some 0 /\ (r_state <$> ms_blocks s !! (str "hash", str "ns", NVME)) = Some active.
Proof. eexists. split; [reflexivity|]. split; vm_compute; reflexivity. Qed.

(** ** [with MetadataStore(...) as store] *)

Definition __exit__ : M MetadataStore unit := MetadataStore.close.

Definition with_store {A} (m : M MetadataStore A) : M MetadataStore A := try_finally m (fun _ => __exit__).

(** When the object is collected. *)
Definition __del__ : M MetadataStore unit := try_catch MetadataStore.close (fun _ => ret tt).

(** However the body ends, its outcome is that of the whole, the store is closed and,
    unless the body had closed it before, its owner lock is free. Closing again, or
    collecting the object, changes nothing. *)
Theorem with_store_releases {A} (m : M MetadataStore A) s s1 s' r r' :
  m s = (s1, r) -> with_store m s = (s', r') ->
  r' = r /\ _closed s' = true /\ (_closed s1 = false -> owner_lock (ms_db s') = false) /\ __exit__ s' = (s', Ok tt) /\ __del__ s' = (s', Ok tt).
Proof.
  intros Hm. unfold with_store, try_finally, __del__, try_catch. rewrite Hm. unfold __exit__, MetadataStore.close.
  destruct (_closed s1) eqn:E; intros [= <- <-]; cbn; rewrite ?E; by split_and!.
Qed.
