(* ===== verification/MetadataStoreSpec.v ===== *)
(** * What the metadata store guarantees

    The properties of [metadata_store.py], each a few applications of the
    lemmas of [MetadataStoreFacts]. *)

From Stdlib Require Import SpecFloat.
From S2P Require Import Prelude PyText Float64 Errors PyVal Json JsonFacts Metadata MetadataFacts MetadataStore MetadataStoreFacts.
Import ResNotations MNotations.

(** ** Concrete stores *)

Definition sample_epoch : pystr := str "e1".

Definition opened (db : Database) (ep : pystr) : MetadataStore :=
  match (open_store ep 1 (f64_of_Z 1) db).2 with
  | Ok s => s
  | Raise _ => {| ms_db := db; _owner_epoch := ep; _closed := true |}
  end.

Definition fresh_store : MetadataStore := opened empty_db sample_epoch.

Definition publish_sample (t : TierName) : ms_call := CUpsert (f64_of_Z 5) (sample_location t) sample_metadata.

Definition published_store : MetadataStore := after (publish_sample MEMORY) fresh_store.

Definition pinned_store : MetadataStore := after (CAcquire sample_key MEMORY) published_store.

Lemma stamp_sample z : f64_finite (f64_of_Z z) = true -> 0 <= z -> stamp (f64_of_Z z).
Proof. intros. by apply stamp_of_Z. Qed.

Lemma sample_location_ok t : location_ok (sample_location t).
Proof.
  split; [apply sample_location_attributes|].
  split; apply (stamp_sample 100); [reflexivity|lia|reflexivity|lia].
Qed.

Lemma publish_sample_ok t : call_ok (publish_sample t).
Proof. split; [apply sample_storable|apply sample_location_ok]. Qed.

Lemma fresh_reachable : reachable (Running fresh_store).
Proof. eapply rtc_l; [|apply rtc_refl]. by apply (step_open sample_epoch 1 (f64_of_Z 1)). Qed.

Lemma after_reachable c s : call_ok c -> reachable (Running s) -> reachable (Running (after c s)).
Proof. intros Hc Hs. eapply rtc_r; [exact Hs|]. by apply step_call. Qed.

Lemma published_reachable : reachable (Running published_store).
Proof. apply after_reachable; [apply publish_sample_ok|apply fresh_reachable]. Qed.

Lemma pinned_reachable : reachable (Running pinned_store).
Proof. apply after_reachable; [done|apply published_reachable]. Qed.

Lemma reachable_store s : reachable (Running s) -> store_inv s.
Proof. apply (reachable_inv (Running s)). Qed.

(** ** Well-formedness over all histories *)

(** C18: Whatever sequence of calls, crashes and reopenings led here, every row
    of the table reads back as valid metadata of exactly the key that addresses
    it, with the row's byte count and checksum; its counter is not negative, a
    tombstone has no reader, and all tiers of a key describe the same payload. *)
Theorem reachable_rows_wellformed (s : MetadataStore) (k : BlockKey) (t1 t2 : TierName) (r1 r2 : Row) now :
  reachable (Running s) -> key_valid k = true ->
  ms_blocks s !! row_key k t1 = Some r1 -> ms_blocks s !! row_key k t2 = Some r2 ->
  exists m1 m2,
    persisted_metadata now (r_metadata_json r1) = Ok m1 /\
    persisted_metadata now (r_metadata_json r2) = Ok m2 /\
    md_key m1 = k /\ md_bytes m1 = PInt (r_bytes r1) /\ md_checksum m1 = PStr (r_checksum r1) /\
    0 <= r_in_flight r1 /\ (r_state r1 = active \/ r_state r1 = deleting /\ r_in_flight r1 = 0) /\
    descriptor_eqb (payload_descriptor m1) (payload_descriptor m2) = true.
Proof.
  intros [_ Hr Hd]%reachable_store Hk H1 H2.
  destruct (ro_metadata _ _ _ (Hr _ _ H1)) as (m1 & M1 & E & Eb & Ec).
  destruct (ro_metadata _ _ _ (Hr _ _ H2)) as (m2 & M2 & _).
  exists m1, m2. split_and!; try done; eauto using row_md_persisted, ro_flight, ro_state.
  apply key_identity; [by apply storable_inv, M1|done| |].
  - exact (eq_sym (f_equal fst E)).
  - exact (eq_sym (f_equal snd E)).
Qed.

Lemma published_eq :
  upsert (f64_of_Z 5) (sample_location MEMORY) sample_metadata fresh_store = (published_store, Ok tt).
Proof. vm_cast_no_check (eq_refl (published_store, @Ok unit tt)). Qed.

Definition published_row : Row :=
  default (mkRow [] 0 [] [] [] (f64_of_Z 0) (f64_of_Z 0) 0 0 [] active)
    (ms_blocks published_store !! row_key sample_key MEMORY).

Lemma published_row_eq : ms_blocks published_store !! row_key sample_key MEMORY = Some published_row.
Proof. vm_compute. reflexivity. Qed.

Lemma reachable_rows_wellformed_witness :
  exists m1 m2,
    persisted_metadata (f64_of_Z 9) (r_metadata_json published_row) = Ok m1 /\
    persisted_metadata (f64_of_Z 9) (r_metadata_json published_row) = Ok m2 /\
    md_key m1 = sample_key /\ md_bytes m1 = PInt (r_bytes published_row) /\
    md_checksum m1 = PStr (r_checksum published_row) /\ 0 <= r_in_flight published_row /\
    (r_state published_row = active \/ r_state published_row = deleting /\ r_in_flight published_row = 0) /\
    descriptor_eqb (payload_descriptor m1) (payload_descriptor m2) = true.
Proof.
  exact (reachable_rows_wellformed published_store sample_key MEMORY MEMORY _ _ (f64_of_Z 9)
           published_reachable sample_key_valid published_row_eq published_row_eq).
Defined.

(** ** Refinement *)

(** C6: Every call refines one step of the abstract store, in which a block is
    visible with a number of pins or hidden by a tombstone: only an unpinned
    block can be removed or hidden, only a tombstone can be finished, and a
    publication neither drops pins nor revives a tombstone. *)
Theorem call_refines_spec (s : MetadataStore) (c : ms_call) :
  reachable (Running s) -> call_ok c -> spec_step (abs s) c (abs (after c s)).
Proof. intros Hs%reachable_store Hc. by apply effect_refines, Hs; [apply run_effect|]. Qed.

Lemma call_refines_spec_witness :
  spec_step (abs pinned_store) (CBeginDelete sample_key MEMORY)
    (abs (after (CBeginDelete sample_key MEMORY) pinned_store)).
Proof. apply (call_refines_spec pinned_store (CBeginDelete sample_key MEMORY)); [apply pinned_reachable|exact I]. Defined.

(** ** Readers are protected *)

Definition releases (rk : RowKey) (c : ms_call) : Prop :=
  match c with CRelease k t => row_key k t = rk | _ => False end.

Lemma sql_incr_pos n : 0 < n -> 0 < sql_incr n.
Proof. unfold sql_incr, max_int64. case_match; lia. Qed.

Lemma spec_step_pinned a c a' rk n :
  spec_step a c a' -> ~ releases rk c -> a !! rk = Some (Visible n) -> 0 < n ->
  exists n', a' !! rk = Some (Visible n') /\ 0 < n'.
Proof.
  intros Hs Hc Hrk Hn.
  destruct Hs as [c|now l m Ha|c k t n0 Hcc Ha|k t n0 Ha|k t Ha|k t Ha|k t Ha]; [eauto| | | | | |];
    match goal with
    | Ha : _ !! ?rk' = _ |- _ => destruct (decide (rk' = rk)) as [E|E]; [rewrite E in Ha|]
    end; try (rewrite ?lookup_insert_ne, ?lookup_delete_ne by done; eauto; fail);
    rewrite Hrk in Ha; try discriminate; injection Ha as ->; try lia.
  rewrite E, lookup_insert, decide_True by done. eauto using sql_incr_pos.
Qed.

Definition run_calls (cs : list ms_call) (s : MetadataStore) : MetadataStore :=
  foldl (fun s c => after c s) s cs.

(** C7: A block pinned by a reader stays visible and pinned through every
    sequence of calls that does not release it: no delete, tombstone or
    republication of any caller can take it away. *)
Theorem pinned_block_survives (cs : list ms_call) (s : MetadataStore) (rk : RowKey) (n : Z) :
  reachable (Running s) -> abs s !! rk = Some (Visible n) -> 0 < n ->
  Forall (fun c => call_ok c /\ ~ releases rk c) cs ->
  exists n', abs (run_calls cs s) !! rk = Some (Visible n') /\ 0 < n'.
Proof.
  intros Hs Hn Hpos Hcs. revert s n Hs Hn Hpos.
  induction Hcs as [|c cs [Hok Hc] _ IH]; intros s n Hs Hn Hpos; [eauto|].
  assert (spec_step (abs s) c (abs (after c s))) as Hst
    by (eapply effect_refines; [apply run_effect|done|by apply reachable_store]).
  destruct (spec_step_pinned _ _ _ _ _ Hst Hc Hn Hpos) as (n' & Hn' & Hpos').
  apply (IH (after c s) n'); [by apply after_reachable|done|done].
Qed.

Lemma pinned_block_survives_witness :
  exists n', abs (run_calls [CDelete sample_key MEMORY; CBeginDelete sample_key MEMORY; publish_sample MEMORY]
                   pinned_store) !! row_key sample_key MEMORY = Some (Visible n') /\ 0 < n'.
Proof.
  apply (pinned_block_survives _ pinned_store (row_key sample_key MEMORY) 1).
  - apply pinned_reachable.
  - vm_compute. reflexivity.
  - lia.
  - apply Forall_cons_2; [split; [exact I|intros []]|].
    apply Forall_cons_2; [split; [exact I|intros []]|].
    apply Forall_cons_2; [split; [apply publish_sample_ok|intros []]|]. apply Forall_nil_2.
Defined.

(** ** Publication and reading back *)

(** What [upsert] publishes is what the readers see: [get_metadata] returns
    the stored metadata (with the row's access time and reuse count), and
    [lookup] one location with the stored URI, size, checksum and attributes. *)
Theorem upsert_then_read now now' l m s s' :
  reachable (Running s) -> storable m = true -> location_ok l ->
  (loc_attributes l).*1 = LOCATION_FIELDS ->
  upsert now l m s = (s', Ok tt) ->
  exists acc reuse created,
    get_metadata now' (loc_key l) (loc_tier l) s' =
      (s', Ok (Some (set_reuse (set_access (norm_metadata fmt_store m) acc) reuse))) /\
    lookup (loc_key l) (Some (loc_tier l)) s' =
      (s', Ok [{| loc_key := loc_key l; loc_tier := loc_tier l; loc_uri := loc_uri l;
                  loc_bytes := loc_bytes l; loc_checksum := loc_checksum l;
                  loc_created_at := PFloat created; loc_last_access := PFloat acc;
                  loc_attributes := on_values (json_norm fmt_store) (loc_attributes l) |}]).
Proof.
  intros Hs%reachable_store Hm Hl Hk H.
  destruct (upsert_row _ _ _ _ _ Hs Hm Hl H) as (Hc & Hi & r & Hr & Ha & Hmd & E1 & E2 & E3 & E4).
  pose proof (inv_rows s' Hi _ _ Hr) as Hok. destruct Hl as (Hj & _).
  exists (r_last_access r), (r_reuse_count r), (r_created_at r). split.
  - apply get_metadata_row; eauto using ro_access, ro_reuse.
  - pose proof (json_loads_dumps _ _ _ E4 Hj) as Hd. unfold _location_attributes in Hd.
    rewrite json_norm_dict in Hd. apply json_ok_dict in Hj as [Hnd _].
    rewrite (lookup_row s' _ _ r) by done.
    erewrite location_from_row_eq; [|done|by eapply ro_uri|by eapply ro_bytes].
    unfold row_location. rewrite E1, E2, E3, merge_attributes_norm by done. done.
Qed.

Lemma upsert_then_read_witness :
  exists acc reuse created,
    get_metadata (f64_of_Z 7) (loc_key (sample_location MEMORY)) (loc_tier (sample_location MEMORY))
      published_store =
      (published_store,
       Ok (Some (set_reuse (set_access (norm_metadata fmt_store sample_metadata) acc) reuse))) /\
    lookup (loc_key (sample_location MEMORY)) (Some (loc_tier (sample_location MEMORY))) published_store =
      (published_store,
       Ok [{| loc_key := loc_key (sample_location MEMORY); loc_tier := loc_tier (sample_location MEMORY);
              loc_uri := loc_uri (sample_location MEMORY); loc_bytes := loc_bytes (sample_location MEMORY);
              loc_checksum := loc_checksum (sample_location MEMORY);
              loc_created_at := PFloat created; loc_last_access := PFloat acc;
              loc_attributes := on_values (json_norm fmt_store) (loc_attributes (sample_location MEMORY)) |}]).
Proof.
  exact (upsert_then_read (f64_of_Z 5) (f64_of_Z 7) (sample_location MEMORY) sample_metadata fresh_store
           published_store fresh_reachable sample_storable (sample_location_ok MEMORY) eq_refl
           published_eq).
Defined.

(** ** Immutability *)

Lemma res_each_raise {A} (f : A -> res unit) (P : exn -> Prop) l :
  (forall x, x ∈ l -> match f x with Ok _ => True | Raise e => P e end) ->
  (exists x, x ∈ l /\ f x <> Ok tt) -> exists e, res_each f l = Raise e /\ P e.
Proof.
  intros Hall [x [Hx Hf]]. induction l as [|y l IH]; [by apply elem_of_nil in Hx|]. simpl.
  pose proof (Hall y (list_elem_of_here _ _)) as Hy. destruct (f y) as [[]|e] eqn:Ey; simpl; [|eauto].
  apply IH; [intros; apply Hall; by apply list_elem_of_further|].
  apply elem_of_cons in Hx as [->|]; [congruence|done].
Qed.

Lemma key_rows_inv b k r : r ∈ key_rows b k -> exists t, b !! row_key k t = Some r.
Proof. unfold key_rows. intros (t & _ & H)%list_elem_of_omap. eauto. Qed.

(** A published payload cannot change: an upsert whose descriptor differs
    from the one of any tier of the key, tombstones included, raises
    [ImmutableBlockConflict] and changes nothing. *)
Theorem conflicting_upsert_rejected now l m s t r p :
  reachable (Running s) -> _closed s = false -> _validate_upsert l m = Ok tt ->
  ms_blocks s !! row_key (md_key m) t = Some r ->
  persisted_metadata now (r_metadata_json r) = Ok p ->
  descriptor_eqb (payload_descriptor p) (payload_descriptor m) = false ->
  exists e, upsert now l m s = (s, Raise e) /\ exn_cls e = ImmutableBlockConflict.
Proof.
  intros [_ Hr _]%reachable_store Hc Hv Hrow Hp Hd.
  assert (exists e, res_each (same_descriptor now m) (key_rows (ms_blocks s) (md_key m)) = Raise e /\
                    exn_cls e = ImmutableBlockConflict) as (e & He & Hcls).
  { apply (res_each_raise _ (fun e => exn_cls e = ImmutableBlockConflict)).
    - intros r' (t' & Ht')%key_rows_inv. destruct (ro_metadata _ _ _ (Hr _ _ Ht')) as (m' & Hm' & _).
      rewrite (row_md_same m now r' m' Hm'). by destruct (descriptor_eqb (payload_descriptor m') (payload_descriptor m)).
    - exists r. split; [by eapply key_rows_elem|]. unfold same_descriptor. rewrite Hp. simpl.
      by rewrite Hd. }
  exists e. rewrite upsert_eq, Hv, Hc, He. done.
Qed.

Lemma conflicting_upsert_rejected_witness :
  exists e, upsert (f64_of_Z 6) (sample_location NVME) conflicting_metadata published_store =
              (published_store, Raise e) /\ exn_cls e = ImmutableBlockConflict.
Proof.
  eapply (conflicting_upsert_rejected (f64_of_Z 6) (sample_location NVME) conflicting_metadata
            published_store MEMORY published_row).
  - apply published_reachable.
  - reflexivity.
  - vm_compute. reflexivity.
  - apply published_row_eq.
  - vm_compute. reflexivity.
  - vm_compute. reflexivity.
Defined.

(** Publishing the same block again succeeds and leaves the abstract store as
    it is, pins included: a replay is idempotent, on any tier that has no
    pending delete, when [extra] holds no tuple. *)
Theorem replay_is_idempotent now now' l m s s' :
  reachable (Running s) -> storable m = true -> location_ok l -> no_tuple (md_extra m) = true ->
  upsert now l m s = (s', Ok tt) ->
  exists s'', upsert now' l m s' = (s'', Ok tt) /\ abs s'' = abs s'.
Proof.
  intros Hs%reachable_store Hm Hl Hnt H.
  destruct (upsert_inv _ _ _ _ _ H) as (_ & Hv & _ & n & Hn & _ & Es').
  destruct (upsert_row _ _ _ _ _ Hs Hm Hl H) as (Hc & Hi & r & Hr & Ha & Hmd & _).
  destruct (validate_upsert_inv l m Hv Hm) as (Hk & _).
  assert (_owner_epoch s' = _owner_epoch s) as Hep by by rewrite Es'.
  assert (res_each (same_descriptor now' m) (key_rows (ms_blocks s') (md_key m)) = Ok tt) as Hd.
  { apply res_each_all. rewrite Forall_forall. intros r' (t' & Ht')%key_rows_inv.
    destruct (ro_metadata _ _ _ (inv_rows s' Hi _ _ Ht')) as (m' & Hm' & _).
    rewrite (row_md_same m now' r' m' Hm'). apply ensure_tt.
    destruct (decide (t' = loc_tier l)) as [->|Hne].
    - rewrite <- Hk in Ht'. rewrite Hr in Ht'. injection Ht' as <-.
      rewrite (row_md_unique _ _ _ Hm' Hmd). by apply descriptor_norm.
    - destruct (upsert_inv _ _ _ _ _ H) as (_ & _ & Hd0 & _).
      rewrite Es', put_row_blocks, lookup_insert_ne in Ht' by (intros E%(f_equal snd); by apply Hne).
      by eapply same_descriptor_rows. }
  eexists. rewrite upsert_eq, Hv, Hc, Hd. cbn zeta. rewrite Hr, Hep, Hn. simpl.
  rewrite Ha, bool_decide_eq_false_2 by done. split; [done|].
  eapply abs_put_same; [done|]. eapply publish_phase; eauto; [by rewrite Hep|congruence].
Qed.

Lemma replay_is_idempotent_witness :
  exists s'', upsert (f64_of_Z 8) (sample_location MEMORY) sample_metadata published_store = (s'', Ok tt) /\
    abs s'' = abs published_store.
Proof.
  exact (replay_is_idempotent (f64_of_Z 5) (f64_of_Z 8) (sample_location MEMORY) sample_metadata
           fresh_store published_store fresh_reachable sample_storable (sample_location_ok MEMORY)
           eq_refl published_eq).
Defined.

(** Metadata whose [extra] holds a tuple. *)
Definition tuple_metadata : KVMetadata :=
  sample_metadata_with (PDict [(str "range", PTuple [PInt 0; PInt 16])]).

(** An [extra] that holds a tuple is persisted as a list, so the identical
    replay of such a block is rejected as a conflict. *)
Theorem tuple_extra_replay_rejected :
  let s1 := after (CUpsert (f64_of_Z 5) (sample_location MEMORY) tuple_metadata) fresh_store in
  is_ok (upsert (f64_of_Z 5) (sample_location MEMORY) tuple_metadata fresh_store).2 = true /\
  match (upsert (f64_of_Z 6) (sample_location MEMORY) tuple_metadata s1).2 with
  | Raise e => exn_cls e = ImmutableBlockConflict
  | Ok _ => False
  end.
Proof. vm_compute. split; reflexivity. Qed.

(** ** Deletion *)

Lemma begin_delete_inv k t s s1 l :
  begin_delete k t s = (s1, Ok (Some l)) ->
  _closed s1 = false /\ _owner_epoch s1 = _owner_epoch s /\
  exists r, ms_blocks s1 !! row_key k t = Some r /\ r_state r = deleting /\
    _location_from_row k t r = Ok l.
Proof.
  rewrite begin_delete_eq. destruct (_closed s) eqn:Ec; [done|].
  destruct (ms_blocks s !! row_key k t) as [r|] eqn:Er; [|done].
  destruct (r_state r) eqn:Es; [|intros [= <- H]|done].
  - destruct (_ && _); [done|]. destruct (_location_from_row k t r) as [l'|] eqn:El; [|done].
    intros [= <- <-]. split_and!; try done. eexists.
    rewrite put_row_blocks, lookup_insert, decide_True by done. split_and!; done.
  - apply res_map_ok in H as (l' & Hl & [= ->]). split_and!; [done|done|]. by exists r.
Qed.

Lemma begin_delete_tombstone k t s r l :
  _closed s = false -> ms_blocks s !! row_key k t = Some r -> r_state r = deleting ->
  _location_from_row k t r = Ok l -> begin_delete k t s = (s, Ok (Some l)).
Proof. intros Hc Hr Hd Hl. rewrite begin_delete_eq, Hc, Hr, Hd, Hl. done. Qed.

(** The row of a block whose deletion was begun: it keeps the location [l] for retries. *)
Definition tombstoned (k : BlockKey) (t : TierName) (l : BlockLocation) (s : MetadataStore) : Prop :=
  exists r, ms_blocks s !! row_key k t = Some r /\ r_state r = deleting /\ _location_from_row k t r = Ok l.

Definition finishes (rk : RowKey) (c : ms_call) : Prop :=
  match c with CFinishDelete k t => row_key k t = rk | _ => False end.

(** No other call touches a tombstone, except to count its readers down. *)
Lemma effect_tombstoned s c s' k t l :
  effect s c s' -> ~ finishes (row_key k t) c -> tombstoned k t l s -> tombstoned k t l s'.
Proof.
  intros Heff Hc (r & Hr & Hd & Hl).
  assert (forall rk r', (rk = row_key k t -> r_state r' = deleting /\ _location_from_row k t r' = Ok l) ->
    tombstoned k t l (put_row rk r' s)) as Hput.
  { intros rk r' H. destruct (decide (rk = row_key k t)) as [->|Hne].
    - exists r'. rewrite put_row_blocks, lookup_insert, decide_True by done. by split_and!; [..|apply H|apply H].
    - exists r. by rewrite put_row_blocks, lookup_insert_ne. }
  assert (forall rk r', ms_blocks s !! rk = Some r' -> r_state r' <> deleting -> rk <> row_key k t) as Hother
    by (intros rk r' H1 H2 ->; rewrite Hr in H1; injection H1 as <-; done).
  destruct Heff as [c s' Eb _|now l0 m n old _ _ _ Ho Hst|c k' t' r' _ Hk Ha|k' t' r' Hk _|now k' t' r' Hk Ha|
                    k' t' r' Hk Ha _|k' t' r' Hk Ha _|k' t' r' Hk Ha].
  - exists r. by rewrite Eb.
  - apply Hput. intros E. rewrite E, Hr in Ho. subst old. done.
  - apply Hput. intros E. exfalso. eapply Hother; [exact Hk|by rewrite Ha|done].
  - apply Hput. intros E. rewrite E, Hr in Hk. injection Hk as <-. done.
  - apply Hput. intros E. exfalso. eapply Hother; [exact Hk|by rewrite Ha|done].
  - exists r. rewrite drop_row_blocks, lookup_delete_ne; [done|]. eapply Hother; [exact Hk|by rewrite Ha].
  - apply Hput. intros E. exfalso. eapply Hother; [exact Hk|by rewrite Ha|done].
  - exists r. by rewrite drop_row_blocks, lookup_delete_ne by (intros E; by apply Hc).
Qed.

Lemma run_tombstoned cs s k t l :
  Forall (fun c => ~ finishes (row_key k t) c) cs -> tombstoned k t l s -> tombstoned k t l (run_calls cs s).
Proof.
  intros Hcs. revert s. induction Hcs as [|c cs Hc _ IH]; intros s Hs; [done|].
  apply IH. eapply effect_tombstoned; [apply run_effect|done|done].
Qed.

(** What a store with a tombstone answers. *)
Record tombstone_answers (k : BlockKey) (t : TierName) (l : BlockLocation) (s : MetadataStore) : Prop := {
  ta_lookup : lookup k (Some t) s = (s, Ok []);
  ta_metadata now : get_metadata now k t s = (s, Ok None);
  ta_acquire : lookup_and_acquire k t s = (s, Ok None) /\ acquire k t s = (s, Ok false);
  ta_upsert now l' m : loc_key l' = k -> loc_tier l' = t -> exists e, upsert now l' m s = (s, Raise e);
  ta_delete : delete k t s = (s, Ok false);
  ta_retry : begin_delete k t s = (s, Ok (Some l));
  ta_finish : exists s3, finish_delete k t s = (s3, Ok true) /\ ms_blocks s3 = base.delete (row_key k t) (ms_blocks s);
}.

Lemma tombstoned_answers k t l s : _closed s = false -> tombstoned k t l s -> tombstone_answers k t l s.
Proof.
  intros Hc (r & Hr & Hd & Hl). destruct (lookup_hidden s k t Hc) as (H1 & H2 & H3 & H4); [by rewrite Hr|]. split; try done.
  - intros now l' m <- <-. rewrite upsert_eq, Hc. cbn zeta. rewrite Hr. simpl. rewrite Hd.
    destruct (_validate_upsert l' m) as [[]|]; [|eauto].
    destruct (res_each _ _) as [[]|]; [|eauto]. rewrite bool_decide_eq_true_2 by done. eauto.
  - unfold delete, bind, owner, gets. rewrite delete_row_eq, Hc, Hr. unfold is_active. by rewrite Hd.
  - by eapply begin_delete_tombstone.
  - exists (drop_row (row_key k t) s). unfold finish_delete. rewrite delete_row_eq, Hc, Hr.
    by rewrite bool_decide_eq_true_2.
Qed.

Lemma reopened_tombstoned ep pid now s s2 k t l :
  (open_store ep pid now (owner_dies (ms_db s))).2 = Ok s2 -> tombstoned k t l s -> _closed s2 = false /\ tombstoned k t l s2.
Proof.
  intros Ho (r & Hr & Hd & Hl). destruct (open_store_row _ _ _ _ _ (row_key k t) Ho) as (_ & Hc2 & _ & Hr2).
  destruct (reset_flight_fields r) as (Es & _ & El). split; [done|]. exists (reset_flight r).
  split_and!; [|by rewrite Es|by rewrite El]. rewrite Hr2. change (blocks (owner_dies (ms_db s))) with (ms_blocks s). by rewrite Hr.
Qed.

(** C20: Once [begin_delete] returned a location, only [finish_delete] removes the
    row: after any sequence of other calls, and in a process that reopens the database
    after any of them, the block is invisible to every reader, cannot be acquired,
    published again or deleted by [delete], a retry returns the same location, and
    [finish_delete] removes this row and nothing else. *)
Theorem tombstone_protocol k t s s1 l cs :
  begin_delete k t s = (s1, Ok (Some l)) -> Forall (fun c => ~ finishes (row_key k t) c) cs ->
  let s2 := run_calls cs s1 in
  tombstoned k t l s2 /\
  (_closed s2 = false -> tombstone_answers k t l s2) /\
  (forall ep pid now s3, (open_store ep pid now (owner_dies (ms_db s2))).2 = Ok s3 -> tombstone_answers k t l s3).
Proof.
  intros (_ & _ & Hr)%begin_delete_inv Hcs s2. assert (tombstoned k t l s2) as Ht by (by apply run_tombstoned).
  split_and!; [done|by intros Hc; apply tombstoned_answers|].
  intros ep pid now s3 Ho. destruct (reopened_tombstoned _ _ _ _ _ _ _ _ Ho Ht) as [Hc H3]. by apply tombstoned_answers.
Qed.

Definition hidden_store : MetadataStore := after (CBeginDelete sample_key MEMORY) published_store.

Definition hidden_location : BlockLocation :=
  match (begin_delete sample_key MEMORY published_store).2 with
  | Ok (Some l) => l
  | _ => sample_location MEMORY
  end.

Lemma hidden_eq :
  begin_delete sample_key MEMORY published_store = (hidden_store, Ok (Some hidden_location)).
Proof. vm_cast_no_check (eq_refl (hidden_store, Ok (Some hidden_location))). Qed.

(** Attempts of every kind to get rid of the tombstone. *)
Definition other_calls : list ms_call :=
  [CDelete sample_key MEMORY; publish_sample MEMORY; CAcquire sample_key MEMORY; CRelease sample_key MEMORY;
   CBeginDelete sample_key MEMORY; CFinishDelete sample_key NVME].

Lemma other_calls_open : _closed (run_calls other_calls hidden_store) = false.
Proof. vm_compute. reflexivity. Qed.

Lemma tombstone_protocol_witness : tombstone_answers sample_key MEMORY hidden_location (run_calls other_calls hidden_store).
Proof.
  refine (proj1 (proj2 (tombstone_protocol sample_key MEMORY published_store hidden_store hidden_location other_calls hidden_eq _))
            other_calls_open).
  repeat constructor; cbn; discriminate || exact (fun H => H).
Defined.

(** In every reachable open store the results of the guarded calls are
    exactly those of the abstract store: [acquire] succeeds on the visible
    blocks, [delete] on the visible blocks without readers, [begin_delete] on
    these and on tombstones, and [finish_delete] on tombstones. *)
Theorem guarded_calls_exact s k t :
  reachable (Running s) -> _closed s = false ->
  (acquire k t s).2 = Ok (match abs s !! row_key k t with Some (Visible _) => true | _ => false end) /\
  (delete k t s).2 =
    Ok (match abs s !! row_key k t with Some (Visible n) => n =? 0 | _ => false end) /\
  (finish_delete k t s).2 =
    Ok (match abs s !! row_key k t with Some Tombstone => true | _ => false end) /\
  match abs s !! row_key k t with
  | None => begin_delete k t s = (s, Ok None)
  | Some (Visible n) => if n =? 0 then exists l, (begin_delete k t s).2 = Ok (Some l)
                        else begin_delete k t s = (s, Ok None)
  | Some Tombstone => exists l, begin_delete k t s = (s, Ok (Some l))
  end.
Proof.
  intros [He Hr _]%reachable_store Hc.
  unfold acquire, mutation, delete, finish_delete, bind, owner, gets, ret.
  rewrite Hc, begin_delete_eq, update_row_eq, !delete_row_eq, Hc. unfold abs. rewrite lookup_fmap.
  destruct (ms_blocks s !! row_key k t) as [r|] eqn:Er; simpl; [|done].
  pose proof (Hr _ _ Er) as Hok. rewrite (row_ok_idle _ _ _ He Hok).
  destruct (row_ok_location _ _ _ k t Hok) as (d & _ & Hl). rewrite Hl. unfold row_phase.
  destruct (ro_state _ _ _ Hok) as [Ha|[Hd H0]].
  - rewrite (proj2 (is_active_true r) Ha), Ha. simpl. pose proof (ro_flight _ _ _ Hok).
    destruct (Z.eqb_spec (r_in_flight r) 0) as [E|E]; simpl; rewrite ?E.
    + rewrite andb_false_r. simpl. eauto.
    + destruct (ro_epoch _ _ _ Hok) as [Ee|Ee]; [by rewrite (ro_unowned _ _ _ Hok Ee) in E|].
      rewrite (bool_decide_eq_true_2 (r_in_flight_epoch r = _owner_epoch s)) by done.
      destruct (Z.ltb_spec 0 (r_in_flight r)); [done|lia].
  - unfold is_active. rewrite Hd. simpl. eauto.
Qed.

Lemma pinned_open : _closed pinned_store = false.
Proof. vm_compute. reflexivity. Qed.

Lemma guarded_calls_exact_witness :
  (delete sample_key MEMORY pinned_store).2 =
    Ok (match abs pinned_store !! row_key sample_key MEMORY with
        | Some (Visible n) => n =? 0 | _ => false end).
Proof.
  exact (proj1 (proj2 (guarded_calls_exact pinned_store sample_key MEMORY pinned_reachable pinned_open))).
Defined.

(** ** Ownership and recovery *)

(** An open store holds the lock of its database. *)
Definition holds_lock (s : MetadataStore) : Prop := _closed s = false -> owner_lock (ms_db s) = true.

(** The calls that keep the lock. *)
Lemma lock_modify f : (forall s, owner_lock (ms_db (f s)) = owner_lock (ms_db s) /\ _closed (f s) = _closed s) -> preserves holds_lock (modify f).
Proof. intros Hf s Hs. unfold holds_lock in *. cbn. by destruct (Hf s) as [-> ->]. Qed.

Lemma lock_execute : preserves holds_lock execute.
Proof. intros s Hs. unfold execute. by destruct (_closed s). Qed.

Lemma lock_mutation : preserves holds_lock mutation.
Proof. intros s Hs. unfold mutation. by destruct (_closed s). Qed.

Lemma lock_transaction {A} (m : MS A) : preserves holds_lock m -> preserves holds_lock (transaction m).
Proof. intros Hm s Hs. specialize (Hm s Hs). unfold transaction. by destruct (m s) as [s' [a|e]]. Qed.

Lemma lock_discard {A} (m : MS A) : preserves holds_lock m -> preserves holds_lock (discard m).
Proof. intros Hm s Hs. specialize (Hm s Hs). unfold discard. by destruct (m s). Qed.

#[local] Hint Resolve lock_execute lock_mutation preserves_ret preserves_raise preserves_lift preserves_gets : lock.

Ltac keep_lock :=
  repeat first
    [ progress auto with lock | apply lock_transaction | apply lock_discard | apply preserves_bind; [|intros ?]
    | apply lock_modify; by intros [] | case_goal ].

Lemma lock_update p f k t : preserves holds_lock (update_row p f k t).
Proof. unfold update_row, get_row. keep_lock. Qed.

Lemma lock_delete_row p k t : preserves holds_lock (delete_row p k t).
Proof. unfold delete_row, get_row. keep_lock. Qed.

#[local] Hint Resolve lock_update lock_delete_row : lock.

Lemma lock_call c : preserves holds_lock (run_call c).
Proof.
  destruct c; cbn [run_call].
  16: { intros s Hs. unfold close. destruct (_closed s); [done|]. by intros ?. }
  all: unfold upsert, validate_payload_descriptor, _validate_payload_descriptor_locked, lookup, get_metadata, is_deleting,
    lookup_and_acquire, acquire, release, touch, delete, begin_delete, finish_delete, lru_candidates, tier_entries, bytes_used,
    get_row, owner; keep_lock.
Qed.

Lemma open_holds_lock ep pid now db s : (open_store ep pid now db).2 = Ok s -> owner_lock (ms_db s) = true.
Proof. unfold open_store. destruct (owner_lock db); [done|]. by intros [= <-]. Qed.

Lemma reachable_holds_lock s : reachable (Running s) -> holds_lock s.
Proof.
  intros Hs. assert (forall y, reachable y -> match y with Running s => holds_lock s | Stopped _ => True end) as Hall; [|by apply (Hall _ Hs)].
  intros y. apply (rtc_ind_r (fun y => match y with Running s => holds_lock s | Stopped _ => True end)); [done|].
  intros y1 y2 _ Hstep IH. destruct Hstep as [c s0 _|s0|ep pid now db s0 _ Ho]; [by apply lock_call|done|].
  intros _. by eapply open_holds_lock.
Qed.

(** C21: A database has one live owner: as long as a store is open, whatever calls
    were made on it, opening its database again fails and changes nothing. [close]
    releases the database, and so does the end of the process; then opening succeeds,
    locks the database again and keeps every row with its state, metadata and
    location; the old owner's readers are forgotten, so that every visible block can
    be deleted again. *)
Theorem owner_exclusion_and_recovery s ep pid now :
  reachable (Running s) -> _closed s = false -> ep <> [] ->
  (exists e, open_store ep pid now (ms_db s) = (ms_db s, Raise e) /\ exn_cls e = RuntimeError) /\
  ms_db (MetadataStore.close s).1 = owner_dies (ms_db s) /\
  exists s2, open_store ep pid now (owner_dies (ms_db s)) = (ms_db s2, Ok s2) /\
    (exists e, open_store ep pid now (ms_db s2) = (ms_db s2, Raise e)) /\
    dom (ms_blocks s2) = dom (ms_blocks s) /\
    forall k t r, ms_blocks s !! row_key k t = Some r ->
      exists r2, ms_blocks s2 !! row_key k t = Some r2 /\ r_state r2 = r_state r /\
    _location_from_row k t r2 = _location_from_row k t r /\
    r_metadata_json r2 = r_metadata_json r /\
    (r_state r = active -> (delete k t s2).2 = Ok true).
Proof.
  intros Hs Hc Hep. pose proof (reachable_holds_lock s Hs Hc) as Hlock. split_and!.
  - unfold open_store. rewrite Hlock. eauto.
  - unfold MetadataStore.close. by rewrite Hc.
  - destruct (open_store ep pid now (owner_dies (ms_db s))) as [db [s2|e]] eqn:Eo; [|done].
    exists s2. assert ((open_store ep pid now (owner_dies (ms_db s))).2 = Ok s2) as Ho by by rewrite Eo.
    split; [by unfold open_store in Eo; simplify_eq/=|]. split.
    { pose proof (open_holds_lock _ _ _ _ _ Ho) as Hl. unfold open_store at 1. rewrite Hl. eauto. }
    split.
    { unfold open_store in Eo. simplify_eq/=. unfold ms_blocks. simpl. apply dom_fmap_L. }
    intros k t r Hr. destruct (open_store_row _ _ _ _ _ (row_key k t) Ho) as (_ & Hc2 & _ & Hr2).
    change (blocks (owner_dies (ms_db s))) with (ms_blocks s) in Hr2. rewrite Hr in Hr2.
    destruct (reset_flight_fields r) as (Es & E0 & El).
    exists (reset_flight r). split_and!; auto using reset_flight_json.
    intros Ha. unfold delete, bind, owner, gets. rewrite delete_row_eq, Hc2, Hr2. simpl.
    unfold is_active, idle. by rewrite Es, Ha, E0.
Qed.

Lemma owner_exclusion_and_recovery_witness :
  (exists e, open_store (str "e2") 2 (f64_of_Z 9) (ms_db pinned_store) = (ms_db pinned_store, Raise e)) /\
  exists s2, open_store (str "e2") 2 (f64_of_Z 9) (owner_dies (ms_db pinned_store)) = (ms_db s2, Ok s2).
Proof.
  destruct (owner_exclusion_and_recovery pinned_store (str "e2") 2 (f64_of_Z 9) pinned_reachable pinned_open)
    as ((e & H1 & _) & _ & s2 & H2 & _); [discriminate|]. exact (conj (ex_intro _ e H1) (ex_intro _ s2 H2)).
Defined.

(** ** Eviction candidates *)

Definition older (a b : RowKey * Row) : Prop := access_leb a b = true.

(** The rows a scan may choose from. *)
Definition eligible (s : MetadataStore) (t : TierName) (kr : RowKey * Row) : Prop :=
  ms_blocks s !! kr.1 = Some kr.2 /\ kr.1.2 = t /\ r_state kr.2 = active /\ r_in_flight kr.2 = 0.

Lemma tier_rows_elem s t kr :
  store_inv s -> kr ∈ tier_rows (idle (_owner_epoch s)) t (ms_blocks s) <-> eligible s t kr.
Proof.
  intros [He Hr _]. unfold tier_rows, eligible. destruct kr as [rk r].
  rewrite list_elem_of_filter, elem_of_map_to_list, is_active_true. simpl.
  split; intros H; destruct_and!; split_and!; try done.
  - pose proof (row_ok_idle _ _ _ He (Hr rk r ltac:(done))) as E. apply Z.eqb_eq. congruence.
  - rewrite (row_ok_idle _ _ _ He (Hr rk r ltac:(done))). by apply Z.eqb_eq.
Qed.

(** The access times of the table are numbers. *)
Lemma py_sort_older l :
  Forall (fun kr : RowKey * Row => f64_nan (r_last_access kr.2) = false) l ->
  StronglySorted older (py_sort access_leb l).
Proof.
  apply (py_sort_sorted_on access_leb); unfold access_leb; intros.
  - by apply f64_leb_total.
  - by eapply (f64_leb_trans (r_last_access x.2) (r_last_access y.2)).
Qed.

Lemma scanned_location_ok now s t kr :
  store_inv s -> ms_blocks s !! kr.1 = Some kr.2 -> kr.1.2 = t ->
  exists l, scanned_location now t kr = Ok l /\ row_key (loc_key l) (loc_tier l) = kr.1 /\
    loc_uri l = r_uri kr.2 /\ loc_bytes l = r_bytes kr.2.
Proof.
  intros [He Hr _] Hrow Ht. pose proof (Hr _ _ Hrow) as Hok.
  destruct (ro_metadata _ _ _ Hok) as (m & (Hp & _) & E & _).
  destruct (row_ok_location _ _ _ (md_key m) t Hok) as (d & _ & Hl).
  exists (row_location (md_key m) t kr.2 d). unfold scanned_location. rewrite Hp. simpl.
  split_and!; try done. destruct kr as [[id t'] r]. simpl in *. subst. done.
Qed.

Lemma sql_limit_app {A} n (l : list A) : exists rest, l = sql_limit n l ++ rest.
Proof.
  unfold sql_limit. case_match; [exists []; by rewrite app_nil_r|].
  exists (drop (Z.to_nat n) l). by rewrite take_drop.
Qed.

Lemma res_list_Forall2 {A B} (f : A -> res B) (P : A -> B -> Prop) l :
  Forall (fun x => exists y, f x = Ok y /\ P x y) l ->
  exists ys, res_list f l = Ok ys /\ Forall2 P l ys.
Proof.
  induction 1 as [|x l (y & Hy & Hp) _ (ys & Hys & Hps)]; simpl; [by exists []|].
  rewrite Hy. simpl. rewrite Hys. exists (y :: ys). split; [done|]. by constructor.
Qed.

(** [lru_candidates] returns locations of visible blocks of the tier that no
    reader holds, least recently used first, as many as the limit allows, and
    never passes over an older eligible block. *)
Theorem lru_candidates_correct now t n s :
  reachable (Running s) -> _closed s = false ->
  exists rows ls,
    lru_candidates now t n s = (s, Ok ls) /\
    Forall2 (fun kr l => row_key (loc_key l) (loc_tier l) = kr.1 /\ loc_uri l = r_uri kr.2 /\
                         loc_bytes l = r_bytes kr.2) rows ls /\
    Forall (eligible s t) rows /\ StronglySorted older rows /\ NoDup rows /\
    (0 <= n -> zlen rows <= n) /\
    (forall kr, eligible s t kr -> kr ∈ rows \/ (zlen rows = n /\ Forall (fun x => older x kr) rows)).
Proof.
  intros Hs%reachable_store Hc. pose proof Hs as [He Hr _].
  set (all := py_sort access_leb (tier_rows (idle (_owner_epoch s)) t (ms_blocks s))).
  destruct (sql_limit_app n all) as [rest Erest]. set (rows := sql_limit n all) in *.
  assert (forall kr, kr ∈ all <-> eligible s t kr) as Hall
    by (intros kr; unfold all; rewrite py_sort_elem; by apply tier_rows_elem).
  assert (Forall (eligible s t) rows) as Hel.
  { rewrite Forall_forall. intros kr Hkr. apply Hall. rewrite Erest. apply elem_of_app. by left. }
  assert (StronglySorted older all) as Hso.
  { apply py_sort_older. rewrite Forall_forall. intros kr (H & _)%tier_rows_elem; [|done].
    by eapply stamp_not_nan, ro_access, Hr. }
  destruct (res_list_Forall2 (scanned_location now t)
    (fun kr l => row_key (loc_key l) (loc_tier l) = kr.1 /\ loc_uri l = r_uri kr.2 /\
                 loc_bytes l = r_bytes kr.2) rows) as (ls & Hls & Hf2).
  { eapply Forall_impl; [exact Hel|]. intros kr (H1 & H2 & _). by eapply scanned_location_ok. }
  exists rows, ls. split_and!; try done.
  - unfold lru_candidates, bind, lift, owner, gets. rewrite execute_eq, Hc. unfold lru_rows.
    fold all rows. by rewrite Hls.
  - rewrite Erest in Hso. by apply StronglySorted_app_1_l in Hso.
  - assert (NoDup all) as Hnd.
    { unfold all. rewrite py_sort_perm. apply NoDup_filter, NoDup_map_to_list. }
    rewrite Erest in Hnd. by apply NoDup_app in Hnd as [? _].
  - intros Hn. unfold rows, sql_limit. destruct (Z.ltb_spec n 0); [lia|]. rewrite length_take. lia.
  - intros kr Hkr%Hall. rewrite Erest in Hkr. apply elem_of_app in Hkr as [Hkr|Hkr]; [by left|right].
    split.
    + assert (rest <> []) as Hne by (intros ->; by apply elem_of_nil in Hkr).
      apply (f_equal length) in Erest. rewrite length_app in Erest.
      unfold rows, sql_limit in *. destruct (Z.ltb_spec n 0); [destruct rest; simpl in *; [done|lia]|].
      rewrite length_take in *. destruct rest; simpl in *; [done|lia].
    + rewrite Erest in Hso. rewrite Forall_forall. intros x Hx. by eapply StronglySorted_app_1_elem_of.
Qed.

Lemma published_open : _closed published_store = false.
Proof. vm_compute. reflexivity. Qed.

Lemma lru_candidates_correct_witness :
  exists ls, lru_candidates (f64_of_Z 9) MEMORY 4 published_store = (published_store, Ok ls).
Proof.
  destruct (lru_candidates_correct (f64_of_Z 9) MEMORY 4 published_store published_reachable published_open)
    as (rows & ls & H & _). exact (ex_intro _ ls H).
Defined.
