(* ===== verification/Metrics.v ===== *)
(** * Metrics: [kvstore/metrics.py]

    Counters and histograms with validated labels, and the Prometheus text. A
    metric's [values] dictionary is an association list from label tuples; the
    metrics of a store are addressed by the attribute names of
    [KVStoreMetrics]. *)

From Stdlib Require Import SpecFloat.
From S2P Require Import Prelude PyText Float64 Errors PyVal Json.
Import ResNotations.
Local Open Scope res_scope.

Definition FORBIDDEN_LABELS : list pystr :=
  [str "request_id"; str "tenant_id"; str "block_hash"; str "prompt"; str "raw_prompt";
   str "file_path"; str "hostname"; str "gpu_uuid"].

Definition ALLOWED_LABELS : list pystr :=
  [str "tier"; str "decision"; str "strategy"; str "outcome"; str "operation"; str "reason_class"].

(** [0.0001, 0.0005, ..., 10.0], as the decimals they are written with. *)
Definition DEFAULT_BUCKETS : list f64 :=
  [f64_of_decimal false 1 (-4); f64_of_decimal false 5 (-4); f64_of_decimal false 1 (-3); f64_of_decimal false 5 (-3);
   f64_of_decimal false 1 (-2); f64_of_decimal false 5 (-2); f64_of_decimal false 1 (-1); f64_of_decimal false 5 (-1);
   f64_of_Z 1; f64_of_Z 5; f64_of_Z 10].

Abbreviation labels := (list (pystr * pystr)).

(** [validate_metric_labels(labels)]; the label names of a call are distinct. *)
Definition validate_metric_labels (ls : labels) : res unit :=
  let bad := py_sort str_leb (filter (fun k => k ∈ FORBIDDEN_LABELS) ls.*1) in
  ensure (bool_decide (bad = []))
    (err ValueError (str "forbidden metric labels: " ++ join (str ", ") bad)) ;?
  let unknown := py_sort str_leb (filter (fun k => k ∉ ALLOWED_LABELS) ls.*1) in
  ensure (bool_decide (unknown = []))
    (err ValueError (str "unknown metric labels: " ++ join (str ", ") unknown)).

(** The order of Python tuples of two strings. *)
Definition pair_leb (a b : pystr * pystr) : bool :=
  match str_cmp a.1 b.1 with Lt => true | Eq => str_leb a.2 b.2 | Gt => false end.

Definition _label_key (ls : labels) : labels := py_sort pair_leb ls.

(** ** Dictionaries keyed by label tuples *)

Fixpoint label_get {V} (k : labels) (d : list (labels * V)) : option V :=
  match d with
  | [] => None
  | (k', v) :: d' => if decide (k = k') then Some v else label_get k d'
  end.

Fixpoint label_set {V} (k : labels) (v : V) (d : list (labels * V)) : list (labels * V) :=
  match d with
  | [] => [(k, v)]
  | (k', v') :: d' => if decide (k = k') then (k', v) :: d' else (k', v') :: label_set k v d'
  end.

(** ** Counter *)

Record Counter := { counter_values : list (labels * f64) }.

(** [inc(amount, **labels)]. *)
Definition inc (c : Counter) (amount : f64) (ls : labels) : res Counter :=
  validate_metric_labels ls ;?
  let k := _label_key ls in
  Ok {| counter_values :=
          label_set k (f64_add (default (S754_zero false) (label_get k (counter_values c))) amount)
            (counter_values c) |}.

(** ** Histogram *)

Record HistogramValue := { hv_count : Z; hv_total : f64; hv_bucket_counts : list Z }.

Record Histogram := { h_buckets : list f64; h_values : list (labels * HistogramValue) }.

Definition bump_buckets (value : f64) (buckets : list f64) (counts : list Z) : list Z :=
  zip_with (fun bound n => if f64_leb value bound then n + 1 else n) buckets counts.

(** [observe(value, **labels)]. *)
Definition observe (h : Histogram) (value : f64) (ls : labels) : res Histogram :=
  validate_metric_labels ls ;?
  ensure (f64_finite value) (err ValueError (str "histogram observation must be finite")) ;?
  let k := _label_key ls in
  let st := default {| hv_count := 0; hv_total := S754_zero false;
                       hv_bucket_counts := repeat 0 (length (h_buckets h)) |}
              (label_get k (h_values h)) in
  Ok {| h_buckets := h_buckets h;
        h_values := label_set k
          {| hv_count := hv_count st + 1; hv_total := f64_add (hv_total st) value;
             hv_bucket_counts := bump_buckets value (h_buckets h) (hv_bucket_counts st) |}
          (h_values h) |}.

(** ** The metrics of a store *)

Inductive counter_name :=
  | kv_lookup_total | kv_bytes_read_total | kv_bytes_written_total | kv_onload_decision_total
  | kv_onload_timeout_total | kv_onload_fallback_total | kv_checksum_mismatch_total
  | kv_prefetch_total.

Inductive histogram_name := kv_load_latency_seconds | kv_store_latency_seconds.

#[global] Instance counter_name_eq : EqDecision counter_name.
Proof. solve_decision. Defined.
#[global] Instance histogram_name_eq : EqDecision histogram_name.
Proof. solve_decision. Defined.

Record KVStoreMetrics := {
  counters : counter_name -> Counter;
  histograms : histogram_name -> Histogram;
}.

(** [KVStoreMetrics()]. *)
Definition KVStoreMetrics_init : KVStoreMetrics :=
  {| counters := fun _ => {| counter_values := [] |};
     histograms := fun _ => {| h_buckets := DEFAULT_BUCKETS; h_values := [] |} |}.

(** A call on one metric. *)
Inductive metric_call :=
  | Inc (c : counter_name) (amount : f64) (ls : labels)
  | Observe (h : histogram_name) (value : f64) (ls : labels).

Definition apply_metric (call : metric_call) (m : KVStoreMetrics) : res KVStoreMetrics :=
  match call with
  | Inc c amount ls =>
      let? c' := inc (counters m c) amount ls in
      Ok {| counters := fun x => if decide (x = c) then c' else counters m x;
            histograms := histograms m |}
  | Observe h value ls =>
      let? h' := observe (histograms m h) value ls in
      Ok {| counters := counters m;
            histograms := fun x => if decide (x = h) then h' else histograms m x |}
  end.

(** ** The Prometheus text *)

(** The order of tuples of pairs. *)
Definition labels_leb (a b : labels) : bool :=
  match lex_cmp (fun x y : pystr * pystr =>
                   match str_cmp x.1 y.1 with Eq => str_cmp x.2 y.2 | c => c end) a b with
  | Gt => false
  | _ => true
  end.

(** [sorted(metric.snapshot().items())]: the keys are distinct, so the values
    are never compared. *)
Definition sorted_items {V} (d : list (labels * V)) : list (labels * V) :=
  py_sort (fun a b => labels_leb a.1 b.1) d.

Definition _format_labels (ls : labels) : pystr :=
  match ls with
  | [] => []
  | _ => str "{" ++ join (str ",") (map (fun kv => kv.1 ++ str "=" ++ [c_quote] ++ kv.2 ++ [c_quote])
                                        (py_sort pair_leb ls)) ++ str "}"
  end.

(** [f"{value}"] of a float. *)
Definition float_str (x : f64) : pystr :=
  match x with
  | S754_infinity s => (if s then [45] else []) ++ str "inf"
  | S754_nan => str "nan"
  | _ => finite_repr x
  end.

(** [f"{value:g}"]: six significant digits, trailing zeros removed. *)
Definition _format_bound (x : f64) : pystr :=
  match x with
  | S754_finite s m e =>
      let '(num, den) := frac_of m e in
      let k0 := dec_point num den in
      let c0 := default 0 (head (dec_candidates num den k0 6)) in
      let '(c, k) := if c0 =? 10 ^ 6 then (10 ^ 5, k0 + 1) else (c0, k0) in
      let ds := rev (strip_zeros (rev (dec_nat c))) in
      let body :=
        if (k <? -3) || (6 <? k) then
          match ds with
          | [] => []
          | d :: r => d :: (match r with [] => [] | _ => 46 :: r end) ++ exp_text (k - 1)
          end
        else if k <=? 0 then 48 :: 46 :: replicate (Z.to_nat (- k)) 48 ++ ds
        else if zlen ds <=? k then ds ++ replicate (Z.to_nat (k - zlen ds)) 48
        else take (Z.to_nat k) ds ++ 46 :: drop (Z.to_nat k) ds in
      (if s then [45] else []) ++ body
  | S754_zero s => (if s then [45] else []) ++ str "0"
  | _ => float_str x
  end.

(** Name and help text. *)
Definition counter_doc (c : counter_name) : pystr * pystr :=
  match c with
  | kv_lookup_total => (str "kv_lookup_total", str "KV lookup count")
  | kv_bytes_read_total => (str "kv_bytes_read_total", str "KV bytes read")
  | kv_bytes_written_total => (str "kv_bytes_written_total", str "KV bytes written")
  | kv_onload_decision_total => (str "kv_onload_decision_total", str "KV onload decisions")
  | kv_onload_timeout_total => (str "kv_onload_timeout_total", str "KV onload timeout count")
  | kv_onload_fallback_total => (str "kv_onload_fallback_total", str "KV onload fallback count")
  | kv_checksum_mismatch_total => (str "kv_checksum_mismatch_total", str "KV checksum mismatches")
  | kv_prefetch_total => (str "kv_prefetch_total", str "KV prefetch count")
  end.

Definition histogram_doc (h : histogram_name) : pystr * pystr :=
  match h with
  | kv_load_latency_seconds => (str "kv_load_latency_seconds", str "KV load latency")
  | kv_store_latency_seconds => (str "kv_store_latency_seconds", str "KV store latency")
  end.

Definition preamble (doc : pystr * pystr) (kind : pystr) : list pystr :=
  [str "# HELP " ++ doc.1 ++ str " " ++ doc.2; str "# TYPE " ++ doc.1 ++ str " " ++ kind].

Definition counter_lines (doc : pystr * pystr) (c : Counter) : list pystr :=
  preamble doc (str "counter") ++
  map (fun lv => doc.1 ++ _format_labels lv.1 ++ str " " ++ float_str lv.2)
      (sorted_items (counter_values c)).

Definition histogram_value_lines (name : pystr) (buckets : list f64) (ls : labels) (st : HistogramValue)
  : list pystr :=
  zip_with (fun bound n => name ++ str "_bucket" ++ _format_labels (ls ++ [(str "le", _format_bound bound)])
                             ++ str " " ++ int_repr n) buckets (hv_bucket_counts st) ++
  [name ++ str "_bucket" ++ _format_labels (ls ++ [(str "le", str "+Inf")]) ++ str " " ++ int_repr (hv_count st);
   name ++ str "_count" ++ _format_labels ls ++ str " " ++ int_repr (hv_count st);
   name ++ str "_sum" ++ _format_labels ls ++ str " " ++ float_str (hv_total st)].

Definition histogram_lines (doc : pystr * pystr) (h : Histogram) : list pystr :=
  preamble doc (str "histogram") ++
  flat_map (fun lv => histogram_value_lines doc.1 (h_buckets h) lv.1 lv.2) (sorted_items (h_values h)).

(** [_all_metrics()], in its order, each with its lines. *)
Definition _all_metrics (m : KVStoreMetrics) : list (list pystr) :=
  let c n := counter_lines (counter_doc n) (counters m n) in
  let h n := histogram_lines (histogram_doc n) (histograms m n) in
  [c kv_lookup_total; h kv_load_latency_seconds; h kv_store_latency_seconds; c kv_bytes_read_total;
   c kv_bytes_written_total; c kv_onload_decision_total; c kv_onload_timeout_total;
   c kv_onload_fallback_total; c kv_checksum_mismatch_total; c kv_prefetch_total].

Definition export_prometheus_text (m : KVStoreMetrics) : pystr :=
  join [10] (concat (_all_metrics m)) ++ [10].

(** ** Examples *)

Example bound_texts :
  map _format_bound DEFAULT_BUCKETS =
  [str "0.0001"; str "0.0005"; str "0.001"; str "0.005"; str "0.01"; str "0.05"; str "0.1";
   str "0.5"; str "1"; str "5"; str "10"].
Proof. vm_compute. reflexivity. Qed.

(** ** Facts *)

Lemma label_get_set {V} k k' v (d : list (labels * V)) :
  label_get k (label_set k' v d) = if decide (k = k') then Some v else label_get k d.
Proof.
  induction d as [|[k0 v0] d IH]; simpl; [by case_decide|].
  destruct (decide (k' = k0)) as [->|Hne]; simpl.
  - by destruct (decide (k = k0)).
  - destruct (decide (k = k0)) as [->|]; [|done]. by rewrite decide_False.
Qed.

(** Only allowed, not forbidden names pass. *)
Lemma validate_labels_ok ls :
  validate_metric_labels ls = Ok tt <->
  Forall (fun kv => kv.1 ∈ ALLOWED_LABELS /\ kv.1 ∉ FORBIDDEN_LABELS) ls.
Proof.
  assert (forall P (HP : forall k : pystr, Decision (P k)) l, py_sort str_leb (filter P l) = [] <->
            Forall (fun k => ~ P k) l) as Hnil.
  { intros P HP l. rewrite Forall_forall. split.
    - intros E k Hk HPk. assert (k ∈ py_sort str_leb (filter P l)) as Hin
        by by apply py_sort_elem, list_elem_of_filter.
      rewrite E in Hin. by apply elem_of_nil in Hin.
    - intros H. apply Permutation_nil. rewrite py_sort_perm.
      destruct (filter P l) as [|k r] eqn:E; [done|].
      assert (k ∈ filter P l) as Hin by (rewrite E; by left).
      apply list_elem_of_filter in Hin as [HPk Hin]. by destruct (H k Hin). }
  unfold validate_metric_labels. cbn zeta. destruct (bool_decide _) eqn:E1; simpl.
  - apply bool_decide_eq_true, Hnil in E1. unfold ensure. case_bool_decide as E2.
    + apply Hnil in E2. rewrite Forall_fmap in E1, E2. split; [intros _|done].
      rewrite Forall_forall in *. intros kv Hkv. split; [|by apply E1].
      destruct (decide (kv.1 ∈ ALLOWED_LABELS)); [done|]. by destruct (E2 kv Hkv).
    + split; [done|]. intros H. destruct E2. apply Hnil. apply Forall_fmap.
      eapply Forall_impl; [exact H|]. simpl. naive_solver.
  - apply bool_decide_eq_false in E1. split; [done|]. intros H. destruct E1. apply Hnil, Forall_fmap.
    eapply Forall_impl; [exact H|]. simpl. naive_solver.
Qed.

(** ** A histogram against its specification *)

(** The observations that pass the checks of [observe]. *)
Definition observed (o : f64 * labels) : bool :=
  f64_finite o.1 && is_ok (validate_metric_labels o.2).

Definition values_at (k : labels) (os : list (f64 * labels)) : list f64 :=
  (filter (fun o => observed o = true /\ _label_key o.2 = k) os).*1.

(** A sequence of calls; a call that raises leaves the histogram as it was. *)
Definition observe_all (os : list (f64 * labels)) (h : Histogram) : Histogram :=
  foldl (fun h o => match observe h o.1 o.2 with Ok h' => h' | Raise _ => h end) h os.

Definition count_leb (b : f64) (vs : list f64) : Z := zlen (filter (fun v => f64_leb v b = true) vs).

(** What the histogram should hold for the values of one label set. *)
Definition hv_spec (buckets : list f64) (vs : list f64) : option HistogramValue :=
  match vs with
  | [] => None
  | _ => Some {| hv_count := zlen vs; hv_total := foldl f64_add (S754_zero false) vs;
                 hv_bucket_counts := map (fun b => count_leb b vs) buckets |}
  end.

Lemma observe_all_snoc os o h :
  observe_all (os ++ [o]) h =
  match observe (observe_all os h) o.1 o.2 with Ok h' => h' | Raise _ => observe_all os h end.
Proof. unfold observe_all. by rewrite foldl_app. Qed.

Lemma observe_eq h v ls :
  observe h v ls = if observed (v, ls) then
    Ok {| h_buckets := h_buckets h;
          h_values := label_set (_label_key ls)
            (let st := default {| hv_count := 0; hv_total := S754_zero false;
                                  hv_bucket_counts := repeat 0 (length (h_buckets h)) |}
                         (label_get (_label_key ls) (h_values h)) in
             {| hv_count := hv_count st + 1; hv_total := f64_add (hv_total st) v;
                hv_bucket_counts := bump_buckets v (h_buckets h) (hv_bucket_counts st) |})
            (h_values h) |}
  else Raise (match validate_metric_labels ls with
              | Raise e => e
              | Ok _ => err ValueError (str "histogram observation must be finite")
              end).
Proof.
  unfold observe, observed. simpl. destruct (validate_metric_labels ls) as [[]|]; simpl.
  - by destruct (f64_finite v).
  - by rewrite andb_false_r.
Qed.

Lemma values_at_snoc k os o :
  values_at k (os ++ [o]) =
  values_at k os ++ (if decide (observed o = true /\ _label_key o.2 = k) then [o.1] else []).
Proof.
  unfold values_at. rewrite filter_app, fmap_app. f_equal. rewrite filter_cons. by case_decide.
Qed.

Lemma bump_spec v bs vs :
  bump_buckets v bs (map (fun b => count_leb b vs) bs) = map (fun b => count_leb b (vs ++ [v])) bs.
Proof.
  induction bs as [|b bs IH]; simpl; [done|]. f_equal; [|exact IH].
  unfold count_leb. rewrite filter_app, length_app, filter_cons.
  destruct (f64_leb v b); [rewrite decide_True by done|rewrite decide_False by done]; simpl; lia.
Qed.

Lemma hv_spec_snoc bs vs v :
  hv_spec bs (vs ++ [v]) =
  let st := default {| hv_count := 0; hv_total := S754_zero false; hv_bucket_counts := repeat 0 (length bs) |}
              (hv_spec bs vs) in
  Some {| hv_count := hv_count st + 1; hv_total := f64_add (hv_total st) v;
          hv_bucket_counts := bump_buckets v bs (hv_bucket_counts st) |}.
Proof.
  assert (map (fun b => count_leb b []) bs = repeat 0 (length bs)) as E0
    by (clear; induction bs; simpl; [done|by f_equal]).
  destruct vs as [|w vs].
  - cbn [hv_spec from_option app hv_count hv_total hv_bucket_counts id]. rewrite <- E0, bump_spec. done.
  - cbn [hv_spec from_option id]. change ((w :: vs) ++ [v]) with (w :: vs ++ [v]). cbn [hv_spec].
    cbn [hv_count hv_total hv_bucket_counts]. rewrite bump_spec. do 2 f_equal.
    + simpl. rewrite length_app. simpl. lia.
    + simpl. by rewrite foldl_app.
Qed.

(** After any sequence of observations, accepted or refused, a histogram
    holds for every label set exactly the number of accepted values, their sum in
    order, and for each bound the number of values not above it. *)
Theorem histogram_counts (buckets : list f64) (os : list (f64 * labels)) (k : labels) :
  let h := observe_all os {| h_buckets := buckets; h_values := [] |} in
  h_buckets h = buckets /\ label_get k (h_values h) = hv_spec buckets (values_at k os).
Proof.
  induction os as [|o os [IHb IH]] using rev_ind; [done|]. cbn zeta in *.
  rewrite observe_all_snoc, observe_eq, values_at_snoc. destruct o as [v ls]. cbn [fst snd].
  destruct (observed (v, ls)) eqn:Eo.
  - cbn [h_buckets h_values]. split; [done|]. rewrite label_get_set, IHb.
    destruct (decide (k = _label_key ls)) as [->|Hne].
    + rewrite decide_True by done. rewrite hv_spec_snoc, IH. done.
    + rewrite decide_False by naive_solver. by rewrite app_nil_r.
  - rewrite decide_False by naive_solver. by rewrite app_nil_r.
Qed.
