(* ===== verification/Runtime.v ===== *)
(** * What the tiers share: clocks, metrics, the metadata store, and their interface

    [Env] is the state every tier object sees: the metadata store it was
    constructed with, the optional metrics, and the two clocks of the process,
    [time.time()] and [time.perf_counter()], read from an oracle that advances
    at every reading. [Tier] is the protocol class of [interface.py]: the
    operations the tier manager and the eviction controller call. *)

From Stdlib Require Import SpecFloat.
From S2P Require Import Prelude PyText Float64 Errors PyVal Json JsonFacts Metadata MetadataFacts MetadataStore MetadataStoreFacts Metrics.
Import MNotations.
Local Open Scope m_scope.

Record Env := mkEnv {
  env_store : MetadataStore;
  env_metrics : option KVStoreMetrics;
  env_time : nat -> f64;
  env_perf : nat -> f64;
  env_tick : nat;
}.

Definition set_store (s : MetadataStore) (e : Env) : Env :=
  mkEnv s (env_metrics e) (env_time e) (env_perf e) (env_tick e).

Definition set_metrics (m : option KVStoreMetrics) (e : Env) : Env :=
  mkEnv (env_store e) m (env_time e) (env_perf e) (env_tick e).

Definition tick (e : Env) : Env :=
  mkEnv (env_store e) (env_metrics e) (env_time e) (env_perf e) (S (env_tick e)).

(** [time.time()] and [time.perf_counter()]. *)
Definition time_time : M Env f64 := fun e => (tick e, Ok (env_time e (env_tick e))).
Definition perf_counter : M Env f64 := fun e => (tick e, Ok (env_perf e (env_tick e))).

(** A method of the metadata store. *)
Definition on_store {A} (m : MS A) : M Env A := zoom env_store set_store m.

(** The same with a reading of the clock. *)
Definition on_store_at {A} (m : f64 -> MS A) : M Env A :=
  let* now := time_time in on_store (m now).

(** [_metric(fn)]: no metrics, no effect; exceptions are swallowed. *)
Definition metric (call : metric_call) : M Env unit :=
  fun e => match env_metrics e with
           | None => (e, Ok tt)
           | Some m => match apply_metric call m with
                       | Ok m' => (set_metrics (Some m') e, Ok tt)
                       | Raise _ => (e, Ok tt)
                       end
           end.

(** ** The interface of a tier *)

(** [interface.Tier], over the state [W] of the program. *)
Record Tier (W : Type) := {
  tier_name : TierName;
  tier_lookup : BlockKey -> M W (option BlockLocation);
  tier_store : BlockKey -> pybytes -> KVMetadata -> M W StoreResult;
  tier_load : BlockKey -> M W LoadResult;
  tier_evict : BlockKey -> M W bool;
  tier_contains : BlockKey -> M W bool;
  tier_stats : M W pyval;
}.
Arguments tier_name {W} t.
Arguments tier_lookup {W} t k.
Arguments tier_store {W} t k data m.
Arguments tier_load {W} t k.
Arguments tier_evict {W} t k.
Arguments tier_contains {W} t k.
Arguments tier_stats {W} t.

(** ** Facts *)

(** The clock shows finite times since the epoch, whose decimal text reads back
    as the same float. *)
Definition clock_ok (e : Env) : Prop := forall n, stamp (env_time e n) /\ float_ok (env_time e n) = true.

Record env_inv (e : Env) : Prop := {
  env_clock : clock_ok e;
  env_store_inv : store_inv (env_store e);
}.

Lemma metric_store call e :
  env_store (metric call e).1 = env_store e /\ env_time (metric call e).1 = env_time e /\
  (metric call e).2 = Ok tt.
Proof.
  unfold metric. destruct (env_metrics e); [|done]. by destruct (apply_metric call k).
Qed.
