(* ===== verification/MemoryTier.v ===== *)
(** * The memory tier: [kvstore/memory_tier.py]

    [_data] is an [OrderedDict]: an association list in insertion order,
    [move_to_end] included. Every method holds the tier's lock, so a method is
    one step; it acts on the shared [Env] and on the tier's own state, and what
    it did before an exception stays done. *)

From Stdlib Require Import SpecFloat.
From S2P Require Import Prelude PyText Sha256 Float64 Errors PyVal Json JsonFacts Metadata MetadataFacts MetadataStore MetadataStoreFacts Metrics Runtime.
Import MNotations.
Local Open Scope m_scope.

(** ** OrderedDict *)

Abbreviation OrderedDict := (list (BlockKey * pybytes)).

Fixpoint od_get (k : BlockKey) (d : OrderedDict) : option pybytes :=
  match d with
  | [] => None
  | (k', v) :: d' => if decide (k = k') then Some v else od_get k d'
  end.

Fixpoint od_del (k : BlockKey) (d : OrderedDict) : OrderedDict :=
  match d with
  | [] => []
  | (k', v) :: d' => if decide (k = k') then d' else (k', v) :: od_del k d'
  end.

(** [d[k] = v]: a present key keeps its place. *)
Fixpoint od_set (k : BlockKey) (v : pybytes) (d : OrderedDict) : OrderedDict :=
  match d with
  | [] => [(k, v)]
  | (k', v') :: d' => if decide (k = k') then (k', v) :: d' else (k', v') :: od_set k v d'
  end.

(** [d.move_to_end(k)], for a present key. *)
Definition od_move_to_end (k : BlockKey) (d : OrderedDict) : OrderedDict :=
  match od_get k d with
  | Some v => od_del k d ++ [(k, v)]
  | None => d
  end.

Definition od_len (k : BlockKey) (d : OrderedDict) : Z := zlen (default [] (od_get k d)).

(** ** State *)

Record MemoryTier := mkMemoryTier {
  max_bytes : Z;
  _data : OrderedDict;
  _used_bytes : Z;
}.

Definition set_data (d : OrderedDict) (used : Z) (t : MemoryTier) : MemoryTier :=
  mkMemoryTier (max_bytes t) d used.

(** [MemoryTier(max_bytes, ...)]. *)
Definition MemoryTier_init (max_bytes : Z) : res MemoryTier :=
  if max_bytes <=? 0 then Raise (err ValueError (str "max_bytes must be positive"))
  else Ok (mkMemoryTier max_bytes [] 0).

Record MemWorld := mkMemWorld { mw_env : Env; mw_tier : MemoryTier }.

Abbreviation MW := (M MemWorld).

Definition env {A} (m : M Env A) : MW A := zoom mw_env (fun e w => mkMemWorld e (mw_tier w)) m.

Definition tier_gets {A} (f : MemoryTier -> A) : MW A := gets (fun w => f (mw_tier w)).

Definition tier_modify (f : MemoryTier -> MemoryTier) : MW unit :=
  modify (fun w => mkMemWorld (mw_env w) (f (mw_tier w))).

(** [self._used_bytes -= len(self._data.pop(key))]. *)
Definition pop_block (k : BlockKey) (t : MemoryTier) : MemoryTier :=
  set_data (od_del k (_data t)) (_used_bytes t - od_len k (_data t)) t.

(** [self._data[key] = data; self._used_bytes += len(data)]. *)
Definition add_block (k : BlockKey) (data : pybytes) (t : MemoryTier) : MemoryTier :=
  set_data (od_set k data (_data t)) (_used_bytes t + zlen data) t.

Definition has_block (k : BlockKey) : MW bool :=
  tier_gets (fun t => match od_get k (_data t) with Some _ => true | None => false end).

(** ** Locations *)

Definition memory_uri (k : BlockKey) : pystr := str "memory://block/" ++ block_hash k.

Definition _location_for (k : BlockKey) (m : KVMetadata) (checksum : pystr) (bytes_ : Z) : BlockLocation :=
  {| loc_key := k; loc_tier := MEMORY; loc_uri := memory_uri k; loc_bytes := bytes_;
     loc_checksum := checksum; loc_created_at := md_created_at m;
     loc_last_access := md_last_access m; loc_attributes := default_attributes |}.

Definition _validate_location (k : BlockKey) (l : BlockLocation) : res unit :=
  ensure (bool_decide (loc_key l = k) && bool_decide (loc_tier l = MEMORY)
          && bool_decide (loc_uri l = memory_uri k))
         (err MetadataMismatch (str "invalid persisted memory location")).

Definition tier_label : pystr * pystr := (str "tier", tier_value MEMORY).
Definition outcome (s : pystr) : pystr * pystr := (str "outcome", s).

(** [latency_ms = (time.perf_counter() - start) * 1000]. *)
Definition latency_since (start : f64) : M Env f64 :=
  let* stop := perf_counter in ret (f64_mul (f64_sub stop start) (f64_of_Z 1000)).

(** ** lookup *)

Definition lookup (k : BlockKey) : MW (option BlockLocation) :=
  let* found := env (on_store (MetadataStore.lookup k (Some MEMORY))) in
  let* present := has_block k in
  let* locations :=
    match found, present with
    | _ :: _, false => env (on_store (MetadataStore.delete k MEMORY)) ;; ret []
    | [], true => tier_modify (pop_block k) ;; ret []
    | _, _ => ret found
    end in
  match locations with
  | l :: _ => lift (_validate_location k l)
  | [] => ret tt
  end ;;
  env (metric (Inc kv_lookup_total (f64_of_Z 1)
                 [tier_label; outcome (match locations with [] => str "miss" | _ => str "hit" end)])) ;;
  ret (head locations).

(** ** evict *)

Definition evict (k : BlockKey) : MW bool :=
  let* present := has_block k in
  if negb present then ret false
  else
    let* removed := env (on_store (MetadataStore.delete k MEMORY)) in
    if negb removed then ret false
    else tier_modify (pop_block k) ;; ret true.

(** ** _ensure_capacity *)

(** [for key in list(self._data.keys())]: the first eviction that succeeds. *)
Fixpoint evict_first (exclude : BlockKey) (ks : list BlockKey) : MW bool :=
  match ks with
  | [] => ret false
  | k :: ks' =>
      if bool_decide (k = exclude) then evict_first exclude ks'
      else
        let* evicted := evict k in
        if evicted then ret true else evict_first exclude ks'
  end.

Definition out_of_fuel : exn := err (ForeignError (str "model")) (str "loop bound").

(** The [while] loop; every round that does not leave it removes a block. *)
Fixpoint make_room (fuel : nat) (incoming : Z) (exclude : BlockKey) : MW unit :=
  let* t := tier_gets id in
  if _used_bytes t + incoming <=? max_bytes t then ret tt
  else match fuel with
       | O => raise out_of_fuel
       | S fuel' =>
           let* evicted := evict_first exclude (_data t).*1 in
           if evicted then make_room fuel' incoming exclude
           else raise (err StoreFull (str "no evictable memory blocks"))
       end.

Definition _ensure_capacity (incoming : Z) (exclude : BlockKey) : MW unit :=
  if incoming <=? 0 then ret tt
  else let* t := tier_gets id in make_room (S (length (_data t))) incoming exclude.

(** ** store *)

(** The end of both branches: the latency, the two metrics and the result. *)
Definition store_result (start : f64) (k : BlockKey) (data : pybytes) (checksum : pystr) : MW StoreResult :=
  let* latency_ms := env (latency_since start) in
  env (metric (Observe kv_store_latency_seconds (f64_div latency_ms (f64_of_Z 1000))
                 [tier_label; outcome (str "ok")])) ;;
  env (metric (Inc kv_bytes_written_total (f64_of_Z (zlen data)) [tier_label; outcome (str "ok")])) ;;
  ret {| sr_key := k; sr_tier := MEMORY; sr_bytes := zlen data; sr_latency_ms := latency_ms;
         sr_checksum := checksum |}.

(** The assignments to the caller's metadata. *)
Definition stamp_metadata (m : KVMetadata) (checksum : pystr) (n : Z) (now : f64) : KVMetadata :=
  set_access (set_payload m checksum n) now.

Definition immutable (k : BlockKey) (what : pystr) : exn :=
  err ImmutableBlockConflict (block_hash k ++ what).

Definition set_loc_access (l : BlockLocation) (v : pyval) : BlockLocation :=
  {| loc_key := loc_key l; loc_tier := loc_tier l; loc_uri := loc_uri l; loc_bytes := loc_bytes l;
     loc_checksum := loc_checksum l; loc_created_at := loc_created_at l; loc_last_access := v;
     loc_attributes := loc_attributes l |}.

(** The block is already published: check that it is the same, and refresh it. *)
Definition restore (start : f64) (k : BlockKey) (data : pybytes) (m : KVMetadata) (checksum : pystr)
    (existing : BlockLocation) : MW StoreResult :=
  let* t := tier_gets id in
  when (negb (bool_decide (od_get k (_data t) = Some data)))
    (raise (immutable k (str ": immutable BlockKey already has different payload"))) ;;
  let* persisted := env (on_store_at (fun now => MetadataStore.get_metadata now k MEMORY)) in
  when (match persisted with
        | None => true
        | Some p => negb (descriptor_eqb (payload_descriptor p) (payload_descriptor m))
        end)
    (raise (immutable k (str ": immutable BlockKey metadata descriptor changed"))) ;;
  env (on_store_at (fun now => MetadataStore.upsert now (set_loc_access existing (md_last_access m)) m)) ;;
  tier_modify (fun t => set_data (od_move_to_end k (_data t)) (_used_bytes t) t) ;;
  store_result start k data checksum.

(** The rollback of a failed publication. *)
Definition rollback (k : BlockKey) (previous : option pybytes) : MW unit :=
  tier_modify (pop_block k) ;;
  match previous with
  | Some p => tier_modify (add_block k p)
  | None => ret tt
  end.

Definition publish (start : f64) (k : BlockKey) (data : pybytes) (m : KVMetadata) (checksum : pystr)
  : MW StoreResult :=
  let* t := tier_gets id in
  _ensure_capacity (zlen data - od_len k (_data t)) k ;;
  let* previous := tier_gets (fun t => od_get k (_data t)) in
  tier_modify (fun t => match od_get k (_data t) with Some _ => pop_block k t | None => t end) ;;
  tier_modify (add_block k data) ;;
  let loc := _location_for k m checksum (zlen data) in
  try_catch (env (on_store_at (fun now => MetadataStore.upsert now loc m)))
    (fun e => rollback k previous ;; raise e) ;;
  store_result start k data checksum.

Definition store (k : BlockKey) (data : pybytes) (m : KVMetadata) : MW StoreResult :=
  let* start := env perf_counter in
  when (negb (bool_decide (md_key m = k)))
    (raise (err MetadataMismatch (str "store key does not match metadata key"))) ;;
  let* limit := tier_gets max_bytes in
  when (limit <? zlen data) (raise (err StoreFull (str "block exceeds memory tier capacity"))) ;;
  let checksum := sha256_hex data in
  let* now := env time_time in
  let m := stamp_metadata m checksum (zlen data) now in
  lift (validate true m) ;;
  env (on_store_at (fun now => MetadataStore.validate_payload_descriptor now m)) ;;
  let* existing := lookup k in
  match existing with
  | Some l => restore start k data m checksum l
  | None => publish start k data m checksum
  end.

(** ** load *)

Definition incr_reuse (v : pyval) : pyval := match v with PInt z => PInt (z + 1) | v => v end.

Definition set_reuse_val (m : KVMetadata) (v : pyval) : KVMetadata :=
  match v with PInt z => set_reuse m z | _ => m end.

(** [verify_sha256(data, metadata.checksum)]. *)
Definition checksum_matches (data : pybytes) (v : pyval) : bool :=
  match v with PStr s => verify_sha256 data s | _ => false end.

Definition mismatch (k : BlockKey) (what : pystr) : exn := err MetadataMismatch (block_hash k ++ what).

Definition checked_load (start : f64) (k : BlockKey) (location : BlockLocation) : MW LoadResult :=
  let* found := tier_gets (fun t => od_get k (_data t)) in
  match found with
  | None => raise (err KeyError [])
  | Some data =>
      let* persisted := env (on_store_at (fun now => MetadataStore.get_metadata now k MEMORY)) in
      match persisted with
      | None => raise (err BlockNotFound (block_hash k))
      | Some m =>
          when (negb (bool_decide (md_key m = k))) (raise (mismatch k [])) ;;
          when (negb (loc_bytes location =? zlen data) || negb (py_eq (md_bytes m) (PInt (zlen data))))
            (raise (mismatch k (str ": memory byte count mismatch"))) ;;
          when (negb (py_eq (PStr (loc_checksum location)) (md_checksum m)))
            (raise (mismatch k (str ": memory checksum mismatch"))) ;;
          when (negb (checksum_matches data (md_checksum m)))
            (env (metric (Inc kv_checksum_mismatch_total (f64_of_Z 1) [tier_label; outcome (str "error")])) ;;
             raise (err ChecksumMismatch (block_hash k))) ;;
          tier_modify (fun t => set_data (od_move_to_end k (_data t)) (_used_bytes t) t) ;;
          env (on_store_at (fun now => MetadataStore.touch now k MEMORY)) ;;
          let* now := env time_time in
          let m := set_reuse_val (set_access m now) (incr_reuse (md_reuse_count m)) in
          let* latency_ms := env (latency_since start) in
          env (metric (Observe kv_load_latency_seconds (f64_div latency_ms (f64_of_Z 1000))
                         [tier_label; outcome (str "ok")])) ;;
          env (metric (Inc kv_bytes_read_total (f64_of_Z (zlen data)) [tier_label; outcome (str "ok")])) ;;
          ret {| lr_key := k; lr_tier := MEMORY; lr_data := data; lr_metadata := m;
                 lr_latency_ms := latency_ms; lr_from_prefetch := false |}
      end
  end.

(** The [finally] clause: release the reader; after corruption, evict. *)
Definition finish_load (k : BlockKey) (outcome : res LoadResult) : MW unit :=
  let corruption := match outcome with
                    | Raise e => if is_a e CorruptionDetected then Some e else None
                    | Ok _ => None
                    end in
  try_catch (env (on_store (MetadataStore.release k MEMORY)))
    (fun cleanup => match corruption with
                    | Some c => raise (cleanup_failed (block_hash k) (str "release") cleanup c)
                    | None => raise cleanup
                    end) ;;
  match corruption with
  | None => ret tt
  | Some c =>
      try_catch
        (let* removed := evict k in
         if removed then ret tt
         else
           let* remaining := env (on_store (MetadataStore.lookup k (Some MEMORY))) in
           match remaining with
           | [] => ret tt
           | _ => raise (err RuntimeError (str "corrupt memory location remains active"))
           end)
        (fun cleanup => raise (cleanup_failed (block_hash k) (str "evict") cleanup c))
  end.

Definition load (k : BlockKey) : MW LoadResult :=
  let* start := env perf_counter in
  let* location := lookup k in
  let* present := has_block k in
  match location with
  | Some l =>
      if negb present then raise (err BlockNotFound (block_hash k))
      else
        let* pinned := env (on_store (MetadataStore.acquire k MEMORY)) in
        if negb pinned then raise (err BlockNotFound (block_hash k))
        else try_finally (checked_load start k l) (finish_load k)
  | None => raise (err BlockNotFound (block_hash k))
  end.

(** ** contains, stats *)

Definition contains (k : BlockKey) : MW bool :=
  let* l := lookup k in ret (match l with Some _ => true | None => false end).

Definition stats : MW pyval :=
  tier_gets (fun t =>
    PDict [(str "tier", PStr (tier_value MEMORY)); (str "used_bytes", PInt (_used_bytes t));
           (str "max_bytes", PInt (max_bytes t)); (str "blocks", PInt (zlen (_data t)))]).

(** [MemoryTier] as a [Tier]. *)
Definition memory_tier : Tier MemWorld :=
  {| tier_name := MEMORY; tier_lookup := lookup; tier_store := store; tier_load := load;
     tier_evict := evict; tier_contains := contains; tier_stats := stats |}.
