(* ===== verification/MemoryTierFacts.v ===== *)
(** * Correctness of the memory tier

    The accounting invariant and its preservation by every method on every
    path; termination of the eviction loop; what a load guarantees; the round
    trip of a store; what happens to a corrupt block. *)

From Stdlib Require Import SpecFloat.
From S2P Require Import Prelude PyText Sha256 Float64 Errors PyVal Json JsonFacts Metadata MetadataFacts MetadataStore MetadataStoreFacts Metrics Runtime MemoryTier.
Import MNotations.

(** ** The ordered dictionary *)

Definition total_bytes (d : OrderedDict) : Z := foldr (fun kv a => zlen kv.2 + a) 0 d.

Lemma od_get_elem k v d : od_get k d = Some v -> (k, v) ∈ d.
Proof.
  induction d as [|[k' v'] d IH]; simpl; [done|]. case_decide as E.
  - intros [= ->]. subst. by left.
  - intros H. right. auto.
Qed.

Lemma od_get_None k d : od_get k d = None <-> k ∉ d.*1.
Proof.
  induction d as [|[k' v'] d IH]; simpl; [split; [intros _ H; by apply elem_of_nil in H|done]|].
  rewrite not_elem_of_cons. case_decide as E; [naive_solver|]. rewrite IH. naive_solver.
Qed.

Lemma od_del_None k d : od_get k d = None -> od_del k d = d.
Proof.
  induction d as [|[k' v'] d IH]; simpl; [done|]. case_decide as E; [done|]. intros H. by rewrite IH.
Qed.

Lemma od_del_perm k v d : od_get k d = Some v -> d ≡ₚ (k, v) :: od_del k d.
Proof.
  induction d as [|[k' v'] d IH]; simpl; [done|]. case_decide as E.
  - intros [= ->]. by subst.
  - intros H. rewrite (IH H) at 1. apply Permutation_swap.
Qed.

Lemma od_set_new k v d : od_get k d = None -> od_set k v d = d ++ [(k, v)].
Proof.
  induction d as [|[k' v'] d IH]; simpl; [done|]. case_decide as E; [done|]. intros H. by rewrite IH.
Qed.

Lemma od_get_del k d : NoDup d.*1 -> od_get k (od_del k d) = None.
Proof.
  induction d as [|[k' v'] d IH]; simpl; [done|]. intros [Hk Hnd]%NoDup_cons. case_decide as E.
  - subst. by apply od_get_None.
  - simpl. rewrite decide_False by done. auto.
Qed.

Lemma od_get_del_ne k k' d : k <> k' -> od_get k (od_del k' d) = od_get k d.
Proof.
  intros Hne. induction d as [|[k0 v0] d IH]; simpl; [done|]. destruct (decide (k' = k0)) as [->|].
  - by rewrite decide_False.
  - simpl. by rewrite IH.
Qed.

Lemma od_get_set k k' v d : od_get k (od_set k' v d) = if decide (k = k') then Some v else od_get k d.
Proof.
  induction d as [|[k0 v0] d IH]; simpl; [done|]. destruct (decide (k' = k0)) as [->|]; simpl.
  - by case_decide.
  - rewrite IH. destruct (decide (k = k0)) as [->|]; [|done]. by rewrite decide_False.
Qed.

Lemma od_get_app k d d' :
  od_get k (d ++ d') = match od_get k d with Some v => Some v | None => od_get k d' end.
Proof. induction d as [|[k0 v0] d IH]; simpl; [done|]. by case_decide. Qed.

Lemma od_get_move k k' d : NoDup d.*1 -> od_get k (od_move_to_end k' d) = od_get k d.
Proof.
  intros Hnd. unfold od_move_to_end. destruct (od_get k' d) as [v|] eqn:E; [|done].
  rewrite od_get_app. simpl. destruct (decide (k = k')) as [->|Hne].
  - by rewrite od_get_del, E.
  - rewrite od_get_del_ne by done. by destruct (od_get k d).
Qed.

Lemma od_move_perm k d : od_move_to_end k d ≡ₚ d.
Proof.
  unfold od_move_to_end. destruct (od_get k d) as [v|] eqn:E; [|done].
  rewrite (od_del_perm k v d E) at 2. by rewrite Permutation_app_comm.
Qed.

Lemma total_bytes_perm d d' : d ≡ₚ d' -> total_bytes d = total_bytes d'.
Proof. unfold total_bytes. induction 1; simpl; lia. Qed.

Lemma total_bytes_app d d' : total_bytes (d ++ d') = total_bytes d + total_bytes d'.
Proof. unfold total_bytes. induction d; simpl; lia. Qed.

Lemma total_bytes_del k d : total_bytes (od_del k d) = total_bytes d - od_len k d.
Proof.
  unfold od_len. destruct (od_get k d) as [v|] eqn:E; simpl.
  - rewrite (total_bytes_perm _ _ (od_del_perm k v d E)). unfold total_bytes. simpl. lia.
  - rewrite od_del_None by done. lia.
Qed.

Lemma od_del_nodup k d : NoDup d.*1 -> NoDup (od_del k d).*1.
Proof.
  intros Hnd. destruct (od_get k d) as [v|] eqn:E; [|by rewrite od_del_None].
  rewrite (od_del_perm k v d E) in Hnd. by apply NoDup_cons in Hnd as [_ ?].
Qed.

Lemma od_del_length k d : od_get k d <> None -> length d = S (length (od_del k d)).
Proof.
  destruct (od_get k d) as [v|] eqn:E; [|done]. intros _.
  by rewrite (od_del_perm k v d E) at 1.
Qed.

(** ** The accounting invariant *)

(** [_used_bytes] is the number of bytes held, and within the limit. *)
Record tier_ok (t : MemoryTier) : Prop := {
  tok_nodup : NoDup (_data t).*1;
  tok_used : _used_bytes t = total_bytes (_data t);
  tok_limit : _used_bytes t <= max_bytes t;
}.

Definition mem_ok (w : MemWorld) : Prop := tier_ok (mw_tier w).

Lemma od_len_nonneg k d : 0 <= od_len k d.
Proof. unfold od_len. lia. Qed.

Lemma pop_block_ok k t : tier_ok t -> tier_ok (pop_block k t).
Proof.
  intros [Hnd Hu Hl]. split; simpl; [by apply od_del_nodup|rewrite total_bytes_del; lia|].
  pose proof (od_len_nonneg k (_data t)). lia.
Qed.

Lemma move_block_ok k t :
  tier_ok t -> tier_ok (set_data (od_move_to_end k (_data t)) (_used_bytes t) t).
Proof.
  intros [Hnd Hu Hl]. split; simpl; [by rewrite od_move_perm| |done].
  by rewrite (total_bytes_perm _ _ (od_move_perm k (_data t))).
Qed.

Lemma add_block_ok k data t :
  tier_ok t -> od_get k (_data t) = None -> _used_bytes t + zlen data <= max_bytes t ->
  tier_ok (add_block k data t).
Proof.
  intros [Hnd Hu Hl] Hk Hfit. split; simpl; rewrite ?od_set_new by done.
  - rewrite fmap_app. simpl. apply NoDup_app. split; [done|]. split; [|apply NoDup_singleton].
    intros x Hx ->%list_elem_of_singleton. by apply od_get_None in Hk.
  - rewrite total_bytes_app. unfold total_bytes at 2. simpl. lia.
  - done.
Qed.

(** Computations on the environment leave the tier alone. *)
Lemma env_tier {A} (m : M Env A) w : mw_tier (env m w).1 = mw_tier w.
Proof. unfold env, zoom. by destruct (m (mw_env w)). Qed.

Lemma env_env {A} (m : M Env A) w : mw_env (env m w).1 = (m (mw_env w)).1.
Proof. unfold env, zoom. by destruct (m (mw_env w)). Qed.

Lemma env_result {A} (m : M Env A) w : (env m w).2 = (m (mw_env w)).2.
Proof. unfold env, zoom. by destruct (m (mw_env w)). Qed.

Lemma preserves_env {A} (m : M Env A) : preserves mem_ok (env m).
Proof. intros w Hw. unfold mem_ok. by rewrite env_tier. Qed.

Lemma preserves_tier_gets {A} (f : MemoryTier -> A) : preserves mem_ok (tier_gets f).
Proof. by intros w. Qed.

Lemma preserves_tier_modify f :
  (forall t, tier_ok t -> tier_ok (f t)) -> preserves mem_ok (tier_modify f).
Proof. intros H w Hw. by apply H. Qed.

#[export] Hint Resolve preserves_env preserves_tier_gets preserves_tier_modify
  pop_block_ok move_block_ok : kv.

(** Decomposes a computation and discharges its steps from the database. *)
Ltac preserve :=
  repeat (intros; first
    [ progress eauto with kv nocore
    | apply preserves_bind | apply preserves_try_catch | apply preserves_try_finally
    | apply preserves_when | apply preserves_tier_modify; auto with kv
    | match goal with |- preserves _ (match ?x with _ => _ end) => destruct x end
    | match goal with |- preserves _ (if ?x then _ else _) => destruct x end ]).

Lemma lookup_ok k : preserves mem_ok (lookup k).
Proof. unfold lookup, has_block. preserve. Qed.

Lemma evict_ok k : preserves mem_ok (evict k).
Proof. unfold evict, has_block. preserve. Qed.
#[export] Hint Resolve lookup_ok evict_ok : kv.

Lemma evict_first_ok x ks : preserves mem_ok (evict_first x ks).
Proof. induction ks as [|k ks IH]; simpl; preserve. Qed.
#[export] Hint Resolve evict_first_ok : kv.

Lemma make_room_ok fuel n x : preserves mem_ok (make_room fuel n x).
Proof. induction fuel as [|fuel IH]; simpl; preserve. Qed.
#[export] Hint Resolve make_room_ok : kv.

Lemma store_result_ok start k data c : preserves mem_ok (store_result start k data c).
Proof. unfold store_result. preserve. Qed.
#[export] Hint Resolve store_result_ok : kv.

Lemma restore_ok start k data m c l : preserves mem_ok (restore start k data m c l).
Proof. unfold restore. preserve. Qed.
#[export] Hint Resolve restore_ok : kv.

Lemma finish_load_ok k r : preserves mem_ok (finish_load k r).
Proof. unfold finish_load. preserve. Qed.

Lemma checked_load_ok start k l : preserves mem_ok (checked_load start k l).
Proof. unfold checked_load. preserve. Qed.
#[export] Hint Resolve finish_load_ok checked_load_ok : kv.

Lemma load_ok k : preserves mem_ok (load k).
Proof. unfold load, has_block. preserve. Qed.

(** ** The eviction loop *)

(** An eviction removes the block, or leaves the tier as it was. *)
Lemma evict_tier k w :
  (mw_tier (evict k w).1 = mw_tier w /\ (evict k w).2 <> Ok true) \/
  (mw_tier (evict k w).1 = pop_block k (mw_tier w) /\ (evict k w).2 = Ok true /\
   od_get k (_data (mw_tier w)) <> None).
Proof.
  unfold evict, has_block, tier_gets, bind, gets.
  destruct (od_get k (_data (mw_tier w))) as [v|] eqn:E; [|by left].
  cbn [negb]. pose proof (env_tier (on_store (MetadataStore.delete k MEMORY)) w) as Ht.
  destruct (env _ w) as [w1 [[|]|e]]; simpl in *; [right|left|left]; rewrite ?Ht; done.
Qed.

Lemma evict_raises k w e : (evict k w).2 = Raise e -> e = closed_error.
Proof.
  unfold evict, has_block, tier_gets, bind, gets.
  destruct (od_get k (_data (mw_tier w))); [|done]. cbn [negb].
  assert (forall s, (MetadataStore.delete k MEMORY s).2 = Raise e -> e = closed_error) as Hd.
  { intros s. unfold MetadataStore.delete, bind, owner, gets. rewrite delete_row_eq.
    repeat case_match; simpl; congruence. }
  pose proof (env_result (on_store (MetadataStore.delete k MEMORY)) w) as Hr.
  destruct (env _ w) as [w1 [[|]|e1]]; simpl in *; try done. intros [= ->].
  unfold on_store, zoom in Hr. specialize (Hd (env_store (mw_env w))).
  destruct (MetadataStore.delete k MEMORY _) as [s' r']. simpl in *. by apply Hd.
Qed.

Lemma evict_first_tier x ks w :
  (mw_tier (evict_first x ks w).1 = mw_tier w /\ (evict_first x ks w).2 <> Ok true /\
   (evict_first x ks w).2 <> Raise out_of_fuel) \/
  (exists k, k <> x /\ mw_tier (evict_first x ks w).1 = pop_block k (mw_tier w) /\
   (evict_first x ks w).2 = Ok true /\ od_get k (_data (mw_tier w)) <> None).
Proof.
  revert w. induction ks as [|k ks IH]; intros w; simpl; [by left|].
  case_bool_decide as Hx; [apply IH|]. unfold bind. pose proof (evict_raises k w) as He.
  destruct (evict_tier k w) as [[Ht Hr]|(Ht & Hr & Hk)];
    destruct (evict k w) as [w1 [[|]|e]]; simpl in *; try done.
  - destruct (IH w1) as [(H1 & H2 & H3)|(k' & H1 & H2 & H3 & H4)]; [left|right].
    + by rewrite H1.
    + exists k'. rewrite H2, Ht in *. done.
  - left. split_and!; [done|done|]. intros [= ->]. by specialize (He _ eq_refl).
  - right. by exists k.
Qed.

(** What making room for a block keeps: the limit, and the block itself. *)
Definition kept (x : BlockKey) (t t' : MemoryTier) : Prop :=
  max_bytes t' = max_bytes t /\ od_get x (_data t') = od_get x (_data t) /\ (tier_ok t -> tier_ok t').

Lemma kept_refl x t : kept x t t.
Proof. by split_and!. Qed.

Lemma kept_pop x k t t' : k <> x -> kept x (pop_block k t) t' -> kept x t t'.
Proof.
  intros Hne (H1 & H2 & H3). simpl in *. rewrite od_get_del_ne in H2 by done.
  split_and!; auto using pop_block_ok.
Qed.

Definition store_full : exn := err StoreFull (str "no evictable memory blocks").

Lemma make_room_S fuel n x w :
  make_room (S fuel) n x w =
  if _used_bytes (mw_tier w) + n <=? max_bytes (mw_tier w) then (w, Ok tt)
  else bind (evict_first x (_data (mw_tier w)).*1)
         (fun evicted => if evicted then make_room fuel n x else raise store_full) w.
Proof.
  cbn [make_room]. unfold bind at 1, tier_gets, gets, id. by destruct (_ <=? _).
Qed.

(** The loop ends within as many rounds as there are blocks, and when it
    returns the incoming block fits. *)
Lemma make_room_spec fuel n x w :
  (length (_data (mw_tier w)) < fuel)%nat ->
  let r := make_room fuel n x w in
  kept x (mw_tier w) (mw_tier r.1) /\ r.2 <> Raise out_of_fuel /\
  (r.2 = Ok tt -> _used_bytes (mw_tier r.1) + n <= max_bytes (mw_tier r.1)).
Proof.
  revert w. induction fuel as [|fuel IH]; intros w Hf; [lia|]. cbn zeta. rewrite make_room_S.
  destruct (Z.leb_spec (_used_bytes (mw_tier w) + n) (max_bytes (mw_tier w))) as [Hle|Hgt].
  { simpl. split_and!; [apply kept_refl|done|done]. }
  unfold bind.
  destruct (evict_first_tier x (_data (mw_tier w)).*1 w) as [(Ht & Hr & Hn)|(k & Hk & Ht & Hr & Hd)];
    destruct (evict_first _ _ w) as [w1 [[|]|e]] eqn:Ee; simpl in *; try done.
  - rewrite Ht. split_and!; [apply kept_refl|done|done].
  - rewrite Ht. split_and!; [apply kept_refl|congruence|done].
  - specialize (IH w1). cbn zeta in IH. destruct IH as (H1 & H2 & H3).
    { rewrite Ht. simpl. apply od_del_length in Hd. lia. }
    split_and!; [|done|done]. rewrite Ht in H1. by eapply kept_pop.
Qed.

Lemma ensure_capacity_spec n x w :
  let r := _ensure_capacity n x w in
  kept x (mw_tier w) (mw_tier r.1) /\ r.2 <> Raise out_of_fuel /\
  (mem_ok w -> r.2 = Ok tt -> _used_bytes (mw_tier r.1) + n <= max_bytes (mw_tier r.1)).
Proof.
  unfold _ensure_capacity. destruct (Z.leb_spec n 0) as [Hn|Hn].
  - simpl. split_and!; [apply kept_refl|done|]. intros [_ _ Hl] _. lia.
  - unfold bind at 1, tier_gets, gets, id.
    destruct (make_room_spec (S (length (_data (mw_tier w)))) n x w) as (H1 & H2 & H3); [lia|].
    split_and!; auto.
Qed.

(** ** Publication and rollback *)

Definition swap_in (k : BlockKey) (data : pybytes) (t : MemoryTier) : MemoryTier :=
  add_block k data (match od_get k (_data t) with Some _ => pop_block k t | None => t end).

Lemma pop_present k t :
  tier_ok t -> tier_ok (match od_get k (_data t) with Some _ => pop_block k t | None => t end) /\
  od_get k (_data (match od_get k (_data t) with Some _ => pop_block k t | None => t end)) = None /\
  _used_bytes (match od_get k (_data t) with Some _ => pop_block k t | None => t end) =
    _used_bytes t - od_len k (_data t) /\
  max_bytes (match od_get k (_data t) with Some _ => pop_block k t | None => t end) = max_bytes t.
Proof.
  intros Hok. destruct (od_get k (_data t)) as [v|] eqn:E.
  - split_and!; auto using pop_block_ok. simpl. apply od_get_del, tok_nodup, Hok.
  - split_and!; auto. unfold od_len. rewrite E. simpl. lia.
Qed.

Lemma swap_in_ok k data t :
  tier_ok t -> _used_bytes t + (zlen data - od_len k (_data t)) <= max_bytes t ->
  tier_ok (swap_in k data t).
Proof.
  intros Hok Hfit. destruct (pop_present k t Hok) as (H1 & H2 & H3 & H4).
  apply add_block_ok; [done|done|]. rewrite H3, H4. lia.
Qed.

(** The rollback puts back what the publication replaced. *)
Definition rolled_back (k : BlockKey) (previous : option pybytes) (t : MemoryTier) : MemoryTier :=
  match previous with
  | Some p => add_block k p (pop_block k t)
  | None => pop_block k t
  end.

Lemma rollback_run k previous w :
  rollback k previous w = (mkMemWorld (mw_env w) (rolled_back k previous (mw_tier w)), Ok tt).
Proof. unfold rollback, rolled_back. by destruct previous. Qed.

Lemma rolled_back_ok k data t :
  tier_ok t -> tier_ok (swap_in k data t) ->
  tier_ok (rolled_back k (od_get k (_data t)) (swap_in k data t)).
Proof.
  intros Hok Hs. pose proof (pop_block_ok k _ Hs) as Hp. unfold rolled_back.
  destruct (od_get k (_data t)) as [p|] eqn:E; [|done]. apply add_block_ok; [done| |].
  - simpl. apply od_get_del, Hs.
  - destruct (pop_present k t Hok) as (_ & _ & H3 & H4). unfold swap_in in *. rewrite E in *.
    pose proof (tok_limit t Hok). unfold od_len in H3. rewrite E in H3. simpl in *.
    unfold od_len. rewrite od_get_set, decide_True, E by done. simpl. lia.
Qed.

Lemma guarded_upsert {A} (m : M Env A) k previous w :
  let r := try_catch (env m) (fun e => bind (rollback k previous) (fun _ => raise e)) w in
  mw_env r.1 = (m (mw_env w)).1 /\ r.2 = (m (mw_env w)).2 /\
  mw_tier r.1 = match r.2 with Ok _ => mw_tier w | Raise _ => rolled_back k previous (mw_tier w) end.
Proof.
  cbn zeta. pose proof (env_tier m w) as Ht. pose proof (env_env m w) as He.
  pose proof (env_result m w) as Hr. unfold try_catch. destruct (env m w) as [w1 [a|e]]; simpl in *.
  - by rewrite <- Hr.
  - rewrite (bind_run _ _ _ _ _ (rollback_run k previous w1)). simpl. by rewrite Ht, <- Hr.
Qed.

(** The state in which a publication calls [upsert], when there is room. *)
Lemma publish_run start k data m c w w1 :
  _ensure_capacity (zlen data - od_len k (_data (mw_tier w))) k w = (w1, Ok tt) ->
  publish start k data m c w =
  bind (try_catch (env (on_store_at (fun now => MetadataStore.upsert now (_location_for k m c (zlen data)) m)))
          (fun e => bind (rollback k (od_get k (_data (mw_tier w1)))) (fun _ => raise e)))
    (fun _ => store_result start k data c)
    (mkMemWorld (mw_env w1) (swap_in k data (mw_tier w1))).
Proof. intros H. unfold publish. unfold bind at 1, tier_gets at 1, gets at 1, id. by rewrite (bind_run _ _ _ _ _ H). Qed.

Lemma publish_ok start k data m c : preserves mem_ok (publish start k data m c).
Proof.
  intros w Hw.
  destruct (ensure_capacity_spec (zlen data - od_len k (_data (mw_tier w))) k w)
    as ((Hmax & Hget & Hok) & _ & Hfit).
  destruct (_ensure_capacity _ k w) as [w1 [[]|e]] eqn:Ec; simpl in *.
  - rewrite (publish_run _ _ _ _ _ _ _ Ec). specialize (Hok Hw). specialize (Hfit Hw eq_refl).
    assert (tier_ok (swap_in k data (mw_tier w1))) as Hs.
    { apply swap_in_ok; [done|]. unfold od_len in *. rewrite Hget. lia. }
    set (w2 := mkMemWorld (mw_env w1) (swap_in k data (mw_tier w1))). unfold bind at 1.
    destruct (guarded_upsert (on_store_at (fun now => MetadataStore.upsert now
      (_location_for k m c (zlen data)) m)) k (od_get k (_data (mw_tier w1))) w2) as (_ & _ & Ht).
    destruct (try_catch _ _ w2) as [w3 [[]|e]]; simpl in *.
    + apply store_result_ok. unfold mem_ok. by rewrite Ht.
    + unfold mem_ok. rewrite Ht. by apply rolled_back_ok.
  - unfold publish. unfold bind at 1, tier_gets at 1, gets at 1, id.
    rewrite (bind_raise _ _ _ _ _ Ec). by apply Hok.
Qed.
#[export] Hint Resolve publish_ok : kv.

Lemma store_ok k data m : preserves mem_ok (store k data m).
Proof. unfold store. preserve. Qed.

(** ** The shared environment *)

(** A method of the store that keeps its invariant. *)
Definition safe_call {A} (m : MS A) : Prop := preserves store_inv m.

Lemma safe_of_call {A} c (m : MS A) : call_ok c -> (forall s, (m s).1 = after c s) -> safe_call m.
Proof. intros Hc Hm s Hs. rewrite Hm. eapply effect_inv; [apply run_effect|done|done]. Qed.

Lemma discard_after {A} (m : MS A) c s : run_call c = discard m -> (m s).1 = after c s.
Proof. unfold after. intros ->. by rewrite discard_state. Qed.

Lemma safe_lookup k t : safe_call (MetadataStore.lookup k t).
Proof. apply (safe_of_call (CLookup k t)); [done|]. intros s. by apply discard_after. Qed.

Lemma safe_delete k t : safe_call (MetadataStore.delete k t).
Proof. apply (safe_of_call (CDelete k t)); [done|]. intros s. by apply discard_after. Qed.

Lemma safe_acquire k t : safe_call (MetadataStore.acquire k t).
Proof. apply (safe_of_call (CAcquire k t)); [done|]. intros s. by apply discard_after. Qed.

Lemma safe_release k t : safe_call (MetadataStore.release k t).
Proof. by apply (safe_of_call (CRelease k t)). Qed.

Lemma safe_get_metadata now k t : safe_call (MetadataStore.get_metadata now k t).
Proof. apply (safe_of_call (CGetMetadata now k t)); [done|]. intros s. by apply discard_after. Qed.

Lemma safe_validate now m : safe_call (MetadataStore.validate_payload_descriptor now m).
Proof. by apply (safe_of_call (CValidate now m)). Qed.

Lemma safe_touch now k t : stamp now -> safe_call (MetadataStore.touch now k t).
Proof. intros H. by apply (safe_of_call (CTouch now k t)). Qed.

Lemma safe_upsert now l m :
  storable m = true -> location_ok l -> safe_call (MetadataStore.upsert now l m).
Proof. intros Hm Hl. by apply (safe_of_call (CUpsert now l m)). Qed.

Lemma env_on_store {A} (m : MS A) : safe_call m -> preserves env_inv (on_store m).
Proof.
  intros Hm e [Hc Hs]. unfold on_store, zoom. specialize (Hm _ Hs).
  destruct (m (env_store e)) as [s' r]. by split.
Qed.

Lemma env_ticked e : env_inv e -> env_inv (tick e).
Proof. intros [Hc Hs]. by split. Qed.

Lemma env_on_store_at {A} (m : f64 -> MS A) :
  (forall now, stamp now -> safe_call (m now)) -> preserves env_inv (on_store_at m).
Proof.
  intros Hm e He. unfold on_store_at, bind, time_time. apply env_on_store; [|by apply env_ticked].
  apply Hm, (env_clock e He).
Qed.

Lemma env_metric call : preserves env_inv (metric call).
Proof.
  intros e [Hc Hs]. destruct (metric_store call e) as (E1 & E2 & _).
  split; [unfold clock_ok; by rewrite E2|by rewrite E1].
Qed.

Lemma env_perf_counter : preserves env_inv perf_counter.
Proof. intros e. apply env_ticked. Qed.

Lemma env_latency start : preserves env_inv (latency_since start).
Proof. unfold latency_since. apply preserves_bind; [apply env_perf_counter|]. intros. by apply preserves_ret. Qed.

(** The invariant of the environment, seen from the tier. *)
Definition world_inv (w : MemWorld) : Prop := env_inv (mw_env w).

Lemma world_env {A} (m : M Env A) : preserves env_inv m -> preserves world_inv (env m).
Proof. intros Hm w Hw. unfold world_inv. rewrite env_env. by apply Hm. Qed.

Lemma world_tier_gets {A} (f : MemoryTier -> A) : preserves world_inv (tier_gets f).
Proof. by intros w. Qed.

Lemma world_tier_modify f : preserves world_inv (tier_modify f).
Proof. by intros w. Qed.

(** A guard that raises. *)
Lemma preserves_when_raise {S B} (I : S -> Prop) b e (f : unit -> M S B) :
  (b = false -> preserves I (f tt)) -> preserves I (bind (when b (raise e)) f).
Proof. intros H s Hs. destruct b; [done|]. by apply H. Qed.

Lemma world_time {B} (f : f64 -> MW B) :
  (forall now, stamp now -> float_ok now = true -> preserves world_inv (f now)) ->
  preserves world_inv (bind (env time_time) f).
Proof.
  intros H w Hw. unfold bind, env, zoom, time_time. simpl.
  destruct (env_clock _ Hw (env_tick (mw_env w))) as [H1 H2]. apply H; auto. by apply env_ticked.
Qed.

#[export] Hint Resolve world_env world_tier_gets world_tier_modify env_on_store env_on_store_at
  env_metric env_perf_counter env_latency safe_lookup safe_delete safe_acquire safe_release
  safe_get_metadata safe_validate safe_touch : kv.

Ltac wpreserve :=
  repeat (intros; first
    [ progress eauto 6 with kv nocore
    | apply world_env
    | apply preserves_bind | apply preserves_try_catch | apply preserves_try_finally
    | apply preserves_when
    | match goal with |- preserves _ (match ?x with _ => _ end) => destruct x end
    | match goal with |- preserves _ (if ?x then _ else _) => destruct x end ]).

Lemma lookup_world k : preserves world_inv (lookup k).
Proof. unfold lookup, has_block. wpreserve. Qed.

Lemma evict_world k : preserves world_inv (evict k).
Proof. unfold evict, has_block. wpreserve. Qed.
#[export] Hint Resolve lookup_world evict_world : kv.

Lemma evict_first_world x ks : preserves world_inv (evict_first x ks).
Proof. induction ks as [|k ks IH]; simpl; wpreserve. Qed.
#[export] Hint Resolve evict_first_world : kv.

Lemma make_room_world fuel n x : preserves world_inv (make_room fuel n x).
Proof. induction fuel as [|fuel IH]; simpl; wpreserve. Qed.
#[export] Hint Resolve make_room_world : kv.

Lemma store_result_world start k data c : preserves world_inv (store_result start k data c).
Proof. unfold store_result. wpreserve. Qed.

Lemma finish_load_world k r : preserves world_inv (finish_load k r).
Proof. unfold finish_load. wpreserve. Qed.

Lemma checked_load_world start k l : preserves world_inv (checked_load start k l).
Proof. unfold checked_load. wpreserve. Qed.
#[export] Hint Resolve store_result_world finish_load_world checked_load_world : kv.

Lemma load_world k : preserves world_inv (load k).
Proof. unfold load, has_block. wpreserve. Qed.

(** ** lookup *)

Abbreviation w_store w := (env_store (mw_env w)).
Abbreviation w_row k w := (ms_blocks (w_store w) !! row_key k MEMORY).
Abbreviation w_data k w := (od_get k (_data (mw_tier w))).

(** What a step that only counts, or reads a clock, leaves alone. *)
Definition same_blocks (w w' : MemWorld) : Prop :=
  w_store w' = w_store w /\ env_time (mw_env w') = env_time (mw_env w) /\ mw_tier w' = mw_tier w.

Lemma same_blocks_refl w : same_blocks w w.
Proof. done. Qed.

Lemma same_blocks_trans w1 w2 w3 : same_blocks w1 w2 -> same_blocks w2 w3 -> same_blocks w1 w3.
Proof. intros (E1 & E2 & E3) (E4 & E5 & E6). split_and!; congruence. Qed.

Lemma metric_run call w : exists w', env (metric call) w = (w', Ok tt) /\ same_blocks w w'.
Proof.
  unfold env, zoom. destruct (metric_store call (mw_env w)) as (E1 & E2 & E3).
  destruct (metric call (mw_env w)) as [e' r]. simpl in *. subst r. eexists. by split.
Qed.

Lemma on_store_run {A} (m : MS A) w s' r :
  m (w_store w) = (s', r) ->
  env (on_store m) w = (mkMemWorld (set_store s' (mw_env w)) (mw_tier w), r).
Proof. unfold env, on_store, zoom. by intros ->. Qed.

Lemma set_store_same w : mkMemWorld (set_store (w_store w) (mw_env w)) (mw_tier w) = w.
Proof. by destruct w as [[] ?]. Qed.

Lemma store_lookup_eq k t s :
  store_inv s -> _closed s = false ->
  exists ls, MetadataStore.lookup k (Some t) s = (s, Ok ls) /\
    match ls with
    | [] => forall r, ms_blocks s !! row_key k t = Some r -> r_state r = deleting
    | [l] => exists r d, ms_blocks s !! row_key k t = Some r /\ r_state r = active /\
               json_ok (PDict d) = true /\ l = row_location k t r d
    | _ => False
    end.
Proof.
  intros Hi Hc. destruct (ms_blocks s !! row_key k t) as [r|] eqn:Er.
  - pose proof (inv_rows s Hi _ _ Er) as Hok. destruct (ro_state _ _ _ Hok) as [Ha|[Hd _]].
    + destruct (row_ok_location _ _ _ k t Hok) as (d & Hj & Hl).
      exists [row_location k t r d]. rewrite (lookup_row s k t r), Hl by done.
      split; [done|]. exists r, d. done.
    + exists []. split; [|by intros ? [= <-]]. apply lookup_hidden; [done|]. by rewrite Er.
  - exists []. split; [|done]. apply lookup_hidden; [done|]. by rewrite Er.
Qed.

(** A published block that the tier holds is found. *)
Lemma lookup_run k w r :
  world_inv w -> _closed (w_store w) = false -> w_row k w = Some r -> r_state r = active ->
  r_uri r = memory_uri k -> w_data k w <> None ->
  exists w' d, lookup k w = (w', Ok (Some (row_location k MEMORY r d))) /\ same_blocks w w'.
Proof.
  intros Hw Hc Hr Ha Hu Hd. unfold lookup.
  destruct (row_ok_location _ _ _ k MEMORY (inv_rows _ (env_store_inv _ Hw) _ _ Hr)) as (d & _ & Hl).
  rewrite (bind_run _ _ _ w [row_location k MEMORY r d]).
  2: { erewrite on_store_run by (by rewrite (lookup_row _ k MEMORY r), Hl). by rewrite set_store_same. }
  unfold has_block, tier_gets, bind at 1, gets. destruct (w_data k w) as [data|]; [|done].
  unfold bind at 1, ret at 1. unfold bind at 1, lift, _validate_location. simpl.
  rewrite Hu, !bool_decide_eq_true_2 by done. simpl.
  destruct (metric_run (Inc kv_lookup_total (f64_of_Z 1) [tier_label; outcome (str "hit")]) w)
    as (w' & Hm & Hsame).
  rewrite (bind_run _ _ _ _ _ Hm). exists w', d. done.
Qed.

(** A block that is found is published, and the tier holds it. *)
Lemma lookup_found k w w' l :
  world_inv w -> lookup k w = (w', Ok (Some l)) ->
  same_blocks w w' /\ _closed (w_store w) = false /\ w_data k w <> None /\
  exists r d, w_row k w = Some r /\ r_state r = active /\ json_ok (PDict d) = true /\
    l = row_location k MEMORY r d /\ r_uri r = memory_uri k.
Proof.
  intros Hw H. unfold lookup in H. apply bind_ok in H as (found & w1 & H1 & H).
  destruct (_closed (w_store w)) eqn:Hc.
  { exfalso. revert H1. unfold env, on_store, zoom, MetadataStore.lookup, bind. by rewrite execute_eq, Hc. }
  destruct (store_lookup_eq k MEMORY _ (env_store_inv _ Hw) Hc) as (ls & Hls & Hcase).
  rewrite (on_store_run _ _ _ _ Hls), set_store_same in H1. injection H1 as <- <-.
  unfold has_block, tier_gets in H. unfold bind at 1, gets in H.
  destruct ls as [|l0 [|]]; [| |done].
  - exfalso. destruct (w_data k w) as [data|];
      apply bind_ok in H as (ls & w2 & H2 & H); apply bind_ok in H as (? & w3 & H3 & H);
      apply bind_ok in H as (? & w4 & H4 & H).
    + apply bind_ok in H2 as (? & ? & _ & [= _ <-]). done.
    + injection H2 as _ <-. done.
  - destruct Hcase as (r & d & Hr & Ha & Hj & ->).
    destruct (w_data k w) as [data|] eqn:Hd.
    + unfold bind at 1, ret at 1 in H. apply bind_ok in H as ([] & w2 & [= <- H2] & H).
      unfold _validate_location in H2. apply ensure_tt in H2.
      destruct (metric_run (Inc kv_lookup_total (f64_of_Z 1) [tier_label; outcome (str "hit")]) w)
        as (w3 & Hm & Hsame).
      rewrite (bind_run _ _ _ _ _ Hm) in H. injection H as <- <-. split_and!; try done.
      exists r, d. breflect. done.
    + exfalso. apply bind_ok in H as (ls & w2 & H2 & H).
      apply bind_ok in H2 as (? & ? & _ & [= _ <-]).
      apply bind_ok in H as (? & w3 & H3 & H). apply bind_ok in H as (? & w4 & H4 & H). done.
Qed.

(** ** store keeps the environment sound *)

(** What the caller passes: a key the constructor accepts, and JSON data. *)
Definition input_ok (m : KVMetadata) : Prop :=
  key_valid (md_key m) = true /\ json_ok (md_created_at m) = true /\ json_ok (md_extra m) = true.

Lemma stamped_storable m c n now :
  input_ok m -> float_ok now = true -> validate true (stamp_metadata m c n now) = Ok tt ->
  storable (stamp_metadata m c n now) = true.
Proof. intros (H1 & H2 & H3) Hf Hv. unfold storable. rewrite Hv. simpl. by rewrite H1, H2, H3, Hf. Qed.

Lemma location_for_ok k m c n : storable m = true -> location_ok (_location_for k m c n).
Proof.
  intros (Ht & _)%storable_inv. split; [vm_compute; reflexivity|].
  split; [apply (ty_created_at m Ht)|apply (ty_last_access m Ht)].
Qed.

Lemma merge_attributes_ok d : json_ok (PDict d) = true -> json_ok (PDict (merge_attributes d)) = true.
Proof.
  intros [_ H]%json_ok_dict. apply json_ok_dict_iff. split.
  - by apply (bool_decide_unpack _); vm_compute.
  - unfold merge_attributes. apply Forall_map. apply Forall_forall. intros [k v] Hin. simpl.
    assert (json_ok (PDict default_attributes) = true) as Hdef by (vm_compute; reflexivity).
    apply json_ok_dict in Hdef as [_ Hdef]. rewrite Forall_forall in Hdef, H.
    destruct (Hdef _ Hin) as [Hk Hv]. split; [done|]. simpl in *.
    destruct (dict_get k d) as [x|] eqn:Ex; [|done]. apply dict_get_elem in Ex. by apply (H _ Ex).
Qed.

Lemma existing_location_ok k r d m ep rk :
  row_ok ep rk r -> json_ok (PDict d) = true -> storable m = true ->
  location_ok (set_loc_access (row_location k MEMORY r d) (md_last_access m)).
Proof.
  intros Hok Hj (Ht & _)%storable_inv. split; [by apply merge_attributes_ok|].
  split; [apply (ro_created _ _ _ Hok)|apply (ty_last_access m Ht)].
Qed.

Lemma restore_world start k data m c l :
  storable m = true -> location_ok (set_loc_access l (md_last_access m)) ->
  preserves world_inv (restore start k data m c l).
Proof. intros Hm Hl. unfold restore. pose proof safe_upsert. wpreserve. Qed.

Lemma publish_world start k data m c :
  storable m = true -> preserves world_inv (publish start k data m c).
Proof.
  intros Hm. pose proof safe_upsert. pose proof (location_for_ok k m c (zlen data) Hm).
  unfold publish, _ensure_capacity, rollback. wpreserve.
Qed.

Lemma store_world k data m : input_ok m -> preserves world_inv (store k data m).
Proof.
  intros Hin. unfold store. apply preserves_bind; [wpreserve|]. intros start.
  apply preserves_when_raise. intros _. apply preserves_bind; [wpreserve|]. intros limit.
  apply preserves_when_raise. intros _. apply world_time. intros now Hst Hf. cbn zeta.
  apply preserves_lift_bind. intros [] Hv. apply (stamped_storable _ _ _ _ Hin Hf) in Hv as Hm.
  apply preserves_bind; [wpreserve|]. intros _ w Hw. unfold bind.
  pose proof (lookup_world k w Hw) as Hw1. destruct (lookup k w) as [w1 [[l|]|e]] eqn:El; simpl in *.
  - destruct (lookup_found _ _ _ _ Hw El) as (_ & _ & _ & r & d & Hr & _ & Hj & -> & _).
    apply restore_world; [done| |done].
    eapply existing_location_ok; [|done|done]. by apply (inv_rows _ (env_store_inv _ Hw)) in Hr.
  - by apply publish_world.
  - done.
Qed.

(** A lookup that finds the block does not change the tier. *)
Lemma lookup_keeps_found k w w' l : lookup k w = (w', Ok (Some l)) -> mw_tier w' = mw_tier w.
Proof.
  intros H. unfold lookup in H. apply bind_ok in H as (found & w1 & H1 & H).
  pose proof (env_tier (on_store (MetadataStore.lookup k (Some MEMORY))) w) as E1. rewrite H1 in E1.
  unfold has_block, tier_gets in H. unfold bind at 1, gets in H.
  apply bind_ok in H as (ls & w2 & H2 & H). apply bind_ok in H as (? & w3 & H3 & H).
  apply bind_ok in H as (? & w4 & H4 & H).
  pose proof (env_tier (metric (Inc kv_lookup_total (f64_of_Z 1)
    [tier_label; outcome (match ls with [] => str "miss" | _ => str "hit" end)])) w3) as E4.
  rewrite H4 in E4. injection H as <- Hl. destruct ls as [|l' ls]; [done|].
  injection H3 as <- _. simpl in *. rewrite E4, <- E1.
  destruct found as [|l0 found]; destruct (w_data k w1);
    try (by injection H2 as <- _); apply bind_ok in H2 as (? & ? & _ & [=]).
Qed.

(** ** Runs of the steps of a load *)

(** The world with another state of the store; the clock may have moved. *)
Definition store_step (w : MemWorld) (s' : MetadataStore) (w' : MemWorld) : Prop :=
  w_store w' = s' /\ env_time (mw_env w') = env_time (mw_env w) /\ mw_tier w' = mw_tier w.

Lemma on_store_at_run {A} (m : f64 -> MS A) w :
  clock_ok (mw_env w) ->
  exists now w', stamp now /\ float_ok now = true /\
    env (on_store_at m) w = (w', (m now (w_store w)).2) /\ store_step w (m now (w_store w)).1 w'.
Proof.
  intros Hc. destruct (Hc (env_tick (mw_env w))) as [H1 H2].
  exists (env_time (mw_env w) (env_tick (mw_env w))).
  unfold env, on_store_at, on_store, zoom, bind, time_time. simpl.
  destruct (m _ (w_store w)) as [s' r]. eexists. split; [done|]. split; [done|].
  split; [reflexivity|]. by split_and!.
Qed.

Lemma on_store_step {A} (m : MS A) w s' r :
  m (w_store w) = (s', r) -> exists w', env (on_store m) w = (w', r) /\ store_step w s' w'.
Proof. intros H. rewrite (on_store_run _ _ _ _ H). by eexists. Qed.

Lemma latency_run start w :
  exists v w', env (latency_since start) w = (w', Ok v) /\ same_blocks w w'.
Proof. do 2 eexists. split; [reflexivity|done]. Qed.

Lemma time_run w :
  clock_ok (mw_env w) ->
  exists now w', stamp now /\ env time_time w = (w', Ok now) /\ same_blocks w w'.
Proof.
  intros Hc. destruct (Hc (env_tick (mw_env w))) as [H1 H2].
  do 2 eexists. split; [exact H1|]. by split.
Qed.

Lemma perf_run w : exists v w', env perf_counter w = (w', Ok v) /\ same_blocks w w'.
Proof. do 2 eexists. split; [reflexivity|done]. Qed.

Lemma store_result_run start k data c w :
  exists v w', store_result start k data c w =
    (w', Ok {| sr_key := k; sr_tier := MEMORY; sr_bytes := zlen data; sr_latency_ms := v;
               sr_checksum := c |}) /\ same_blocks w w'.
Proof.
  unfold store_result. destruct (latency_run start w) as (v & w1 & E1 & S1).
  rewrite (bind_run _ _ _ _ _ E1).
  destruct (metric_run (Observe kv_store_latency_seconds (f64_div v (f64_of_Z 1000))
              [tier_label; outcome (str "ok")]) w1) as (w2 & E2 & S2).
  rewrite (bind_run _ _ _ _ _ E2).
  destruct (metric_run (Inc kv_bytes_written_total (f64_of_Z (zlen data))
              [tier_label; outcome (str "ok")]) w2) as (w3 & E3 & S3).
  rewrite (bind_run _ _ _ _ _ E3). exists v, w3. split; [done|].
  eauto using same_blocks_trans.
Qed.

Lemma same_blocks_world w w' : same_blocks w w' -> world_inv w -> world_inv w'.
Proof. intros (E1 & E2 & _) [Hc Hs]. split; [unfold clock_ok; by rewrite E2|by rewrite E1]. Qed.

(** ** A block ready to be loaded *)

(** The metadata describes the payload. *)
Definition describes (m : KVMetadata) (k : BlockKey) (data : pybytes) : Prop :=
  md_key m = k /\ md_bytes m = PInt (zlen data) /\ md_checksum m = PStr (sha256_hex data).

(** The row of the block: visible, with metadata [m], of the tier's location
    and the given size and checksum. *)
Definition published (w : MemWorld) (k : BlockKey) (m : KVMetadata) (n : Z) (c : pystr) (r : Row) : Prop :=
  w_row k w = Some r /\ r_state r = active /\ row_md r m /\ r_uri r = memory_uri k /\
  r_bytes r = n /\ r_checksum r = c.

Record ready (w : MemWorld) (k : BlockKey) (data : pybytes) (m : KVMetadata) : Prop := {
  rd_world : world_inv w;
  rd_tier : mem_ok w;
  rd_open : _closed (w_store w) = false;
  rd_data : w_data k w = Some data;
  rd_row : exists r, published w k m (zlen data) (sha256_hex data) r;
  rd_describes : describes m k data;
}.

Lemma ready_same w w' k data m : same_blocks w w' -> ready w k data m -> ready w' k data m.
Proof.
  intros Hsame [H1 H2 H3 H4 H5 H6]. pose proof (same_blocks_world _ _ Hsame H1) as Hw.
  destruct Hsame as (E1 & _ & E3). split; try done.
  - unfold mem_ok. by rewrite E3.
  - by rewrite E1.
  - by rewrite E3.
  - destruct H5 as (r & H5). exists r. unfold published in *. by rewrite E1.
Qed.

(** The body of a load on a ready block. *)
Lemma checked_load_run start k data m w r l :
  world_inv w -> _closed (w_store w) = false -> w_data k w = Some data ->
  published w k m (zlen data) (sha256_hex data) r -> describes m k data ->
  loc_bytes l = zlen data -> loc_checksum l = sha256_hex data ->
  exists w' lr now, checked_load start k l w = (w', Ok lr) /\
    lr_key lr = k /\ lr_data lr = data /\ payload_descriptor (lr_metadata lr) = payload_descriptor m /\
    stamp now /\
    w_store w' = put_row (row_key k MEMORY) (set_touch now (sql_incr (r_reuse_count r)) r) (w_store w) /\
    env_time (mw_env w') = env_time (mw_env w) /\
    mw_tier w' = set_data (od_move_to_end k (_data (mw_tier w))) (_used_bytes (mw_tier w)) (mw_tier w).
Proof.
  intros Hw Hc Hd (Hr & Ha & Hmd & _) (Hk & Hb & Hs) Hlb Hlc. unfold checked_load, tier_gets.
  unfold bind at 1, gets. rewrite Hd.
  pose proof (inv_rows _ (env_store_inv _ Hw) _ _ Hr) as Hok.
  destruct (on_store_at_run (fun now => MetadataStore.get_metadata now k MEMORY) w (env_clock _ Hw))
    as (now1 & w1 & _ & _ & E1 & St1 & T1 & M1).
  rewrite (get_metadata_row now1 _ k MEMORY r m Hc Hr Ha Hmd (ro_access _ _ _ Hok) (ro_reuse _ _ _ Hok)) in *.
  rewrite (bind_run _ _ _ _ _ E1). cbn [set_reuse set_access md_key md_bytes md_checksum md_reuse_count].
  rewrite Hk, Hb, Hs, Hlb, Hlc, !bool_decide_eq_true_2, Z.eqb_refl by done. cbn [py_eq].
  rewrite Z.eqb_refl, bool_decide_eq_true_2 by done. cbn [checksum_matches].
  rewrite verify_sha256_refl. cbn [negb orb]. unfold bind at 1 2 3 4, when, ret. unfold bind at 1.
  set (w2 := mkMemWorld (mw_env w1)
    (set_data (od_move_to_end k (_data (mw_tier w1))) (_used_bytes (mw_tier w1)) (mw_tier w1))).
  change (tier_modify _ w1) with (w2, @Ok unit tt).
  assert (clock_ok (mw_env w2)) as Hc2 by (unfold clock_ok; simpl; rewrite T1; apply (env_clock _ Hw)).
  destruct (on_store_at_run (fun now => MetadataStore.touch now k MEMORY) w2 Hc2)
    as (now2 & w3 & Hn2 & _ & E3 & St3 & T3 & M3).
  simpl in St1. cbv beta in E3, St3.
  rewrite (touch_run now2 (w_store w2) k MEMORY r) in E3, St3 by (simpl; by rewrite ?St1).
  rewrite (bind_run _ _ _ _ _ E3).
  assert (clock_ok (mw_env w3)) as Hc3 by (unfold clock_ok; rewrite T3; apply Hc2).
  destruct (time_run w3 Hc3) as (now3 & w4 & _ & E4 & S4). rewrite (bind_run _ _ _ _ _ E4).
  destruct (latency_run start w4) as (v & w5 & E5 & S5). rewrite (bind_run _ _ _ _ _ E5).
  match goal with |- context [bind (env (metric ?c)) _ w5] => destruct (metric_run c w5) as (w6 & E6 & S6) end.
  rewrite (bind_run _ _ _ _ _ E6).
  match goal with |- context [bind (env (metric ?c)) _ w6] => destruct (metric_run c w6) as (w7 & E7 & S7) end.
  rewrite (bind_run _ _ _ _ _ E7).
  assert (same_blocks w3 w7) as (F1 & F2 & F3) by eauto using same_blocks_trans.
  do 2 eexists. exists now2. split; [reflexivity|]. split_and!; try done; simpl in *.
  - by rewrite F1, St3, St1.
  - by rewrite F2, T3, T1.
  - by rewrite F3, M3, M1.
Qed.

Lemma put_row_twice rk r r' s : put_row rk r (put_row rk r' s) = put_row rk r s.
Proof.
  unfold put_row, set_blocks, ms_blocks. simpl. do 2 f_equal. by rewrite insert_insert, decide_True.
Qed.

(** The row after a load: acquired, touched and released. *)
Definition loaded_row (ep : pystr) (now : f64) (r : Row) : Row :=
  set_flight (Z.max (r_in_flight (acquire_row ep r) - 1) 0) ep
    (set_touch now (sql_incr (r_reuse_count r)) (acquire_row ep r)).

Lemma loaded_row_flight ep rk now r :
  row_ok ep rk r -> r_in_flight r < max_int64 -> r_in_flight (loaded_row ep now r) = r_in_flight r.
Proof.
  intros Hok Hlt. pose proof (ro_flight _ _ _ Hok). simpl. unfold sql_incr. case_bool_decide.
  - destruct (Z.ltb_spec (r_in_flight r) max_int64); lia.
  - destruct (ro_epoch _ _ _ Hok) as [E|E]; [|done]. rewrite (ro_unowned _ _ _ Hok E). done.
Qed.

(** The first steps of a load: the block is found and pinned. *)
Lemma load_pinned k w r :
  world_inv w -> _closed (w_store w) = false -> w_row k w = Some r -> r_state r = active ->
  r_uri r = memory_uri k -> w_data k w <> None ->
  exists w1 start d,
    load k w = try_finally (checked_load start k (row_location k MEMORY r d)) (finish_load k) w1 /\
    world_inv w1 /\ mw_tier w1 = mw_tier w /\
    w_store w1 = put_row (row_key k MEMORY) (acquire_row (_owner_epoch (w_store w)) r) (w_store w).
Proof.
  intros Hw Hc Hr Ha Hu Hd. unfold load.
  destruct (perf_run w) as (start & w1 & E1 & S1). rewrite (bind_run _ _ _ _ _ E1).
  pose proof (same_blocks_world _ _ S1 Hw) as Hw1. destruct S1 as (F1 & _ & F3).
  destruct (lookup_run k w1 r) as (w2 & d & E2 & S2); [done|by rewrite F1|by rewrite F1|done|done|by rewrite F3|].
  rewrite (bind_run _ _ _ _ _ E2). pose proof (same_blocks_world _ _ S2 Hw1) as Hw2.
  destruct S2 as (G1 & _ & G3). unfold has_block, tier_gets. unfold bind at 1, gets.
  rewrite G3, F3. destruct (w_data k w); [|done]. cbn [negb].
  destruct (on_store_step (MetadataStore.acquire k MEMORY) w2
    (put_row (row_key k MEMORY) (acquire_row (_owner_epoch (w_store w)) r) (w_store w)) (Ok true))
    as (w3 & E3 & St3 & T3 & M3).
  { rewrite G1, F1. by apply acquire_run. }
  rewrite (bind_run _ _ _ _ _ E3). exists w3, start, d. split_and!; try done.
  - pose proof (world_env _ (env_on_store _ (safe_acquire k MEMORY)) w2) as H. rewrite E3 in H. by apply H.
  - by rewrite M3, G3, F3.
Qed.

(** The [finally] clause releases the pin of a load. *)
Lemma release_pinned k w r ep s :
  _closed s = false -> _owner_epoch s = ep -> r_in_flight_epoch r = ep ->
  w_store w = put_row (row_key k MEMORY) r s ->
  exists w', env (on_store (MetadataStore.release k MEMORY)) w = (w', Ok tt) /\
    store_step w (put_row (row_key k MEMORY) (set_flight (Z.max (r_in_flight r - 1) 0) ep r) s) w'.
Proof.
  intros Hc <- He Hs. apply on_store_step. rewrite Hs.
  rewrite (release_run (put_row (row_key k MEMORY) r s) k MEMORY r Hc (put_row_lookup _ _ _) He).
  by rewrite put_row_twice, He.
Qed.

Lemma load_run k data m w r :
  world_inv w -> _closed (w_store w) = false -> w_data k w = Some data -> NoDup (_data (mw_tier w)).*1 ->
  published w k m (zlen data) (sha256_hex data) r -> describes m k data ->
  exists w' lr now, load k w = (w', Ok lr) /\ lr_key lr = k /\ lr_data lr = data /\
    payload_descriptor (lr_metadata lr) = payload_descriptor m /\ stamp now /\
    w_store w' = put_row (row_key k MEMORY) (loaded_row (_owner_epoch (w_store w)) now r) (w_store w) /\
    w_data k w' = Some data.
Proof.
  intros Hw Hc Hd Hnd Hp Hde. pose proof Hp as (Hr & Ha & Hmd & Hu & Hb & Hck).
  destruct (load_pinned k w r) as (w1 & start & d & -> & Hw1 & M1 & St1); try done; [by rewrite Hd|].
  destruct (checked_load_run start k data m w1 (acquire_row (_owner_epoch (w_store w)) r)
    (row_location k MEMORY r d)) as (w2 & lr & now & E2 & R1 & R2 & R3 & Hn & St2 & _ & M2); try done.
  { by rewrite St1. }
  { by rewrite M1. }
  { unfold published. rewrite St1, put_row_lookup. done. }
  unfold try_finally. rewrite E2. unfold finish_load.
  rewrite St1, put_row_twice in St2.
  edestruct (release_pinned k w2) as (w3 & E3 & St3 & _ & M3); [exact Hc|reflexivity| |exact St2|];
    [reflexivity|].
  unfold bind, try_catch. rewrite E3. exists w3, lr, now. split_and!; try done.
  rewrite M3, M2. simpl. by rewrite od_get_move, M1 by by rewrite M1.
Qed.

(** Loading a ready block: it returns the block, and leaves it ready, with the
    same readers. *)
Lemma load_ready k data m w :
  ready w k data m ->
  exists w' lr, load k w = (w', Ok lr) /\ lr_key lr = k /\ lr_data lr = data /\
    payload_descriptor (lr_metadata lr) = payload_descriptor m /\ ready w' k data m /\
    forall r r', w_row k w = Some r -> w_row k w' = Some r' -> r_in_flight r < max_int64 ->
      r_in_flight r' = r_in_flight r.
Proof.
  intros [Hw Hok Hc Hd (r & Hp) Hde].
  destruct (load_run k data m w r Hw Hc Hd (tok_nodup _ Hok) Hp Hde)
    as (w' & lr & now & Hl & Hk & Hdata & Hdesc & Hn & Hst & Hd').
  destruct Hp as (Hr & Ha & Hmd & Hu & Hb & Hck).
  exists w', lr. split_and!; try done.
  - split; try done.
    + pose proof (load_world k w Hw) as H. by rewrite Hl in H.
    + pose proof (load_ok k w Hok) as H. by rewrite Hl in H.
    + by rewrite Hst.
    + eexists. unfold published. rewrite Hst, put_row_lookup. done.
  - intros r0 r' Hr0 Hr'. rewrite Hr in Hr0. injection Hr0 as <-.
    rewrite Hst, put_row_lookup in Hr'. injection Hr' as <-.
    eapply loaded_row_flight, (inv_rows _ (env_store_inv _ Hw)), Hr.
Qed.

(** ** A stored block is ready *)

Lemma on_store_at_ok {A} (m : f64 -> MS A) w w' a :
  env (on_store_at m) w = (w', Ok a) ->
  exists now, m now (w_store w) = (w_store w', Ok a) /\ mw_tier w' = mw_tier w.
Proof.
  unfold env, on_store_at, on_store, zoom, bind, time_time. simpl.
  destruct (m _ (w_store w)) as [s' r] eqn:E. intros [= <- ->]. eauto.
Qed.

(** The row an upsert of the tier writes. *)
Lemma tier_upsert_published now l k m (data : pybytes) c w s' :
  world_inv w -> storable m = true -> location_ok l -> loc_key l = k -> loc_tier l = MEMORY ->
  loc_uri l = memory_uri k -> md_bytes m = PInt (zlen data) -> md_checksum m = PStr c ->
  MetadataStore.upsert now l m (w_store w) = (s', Ok tt) ->
  _closed s' = false /\ exists r, ms_blocks s' !! row_key k MEMORY = Some r /\ r_state r = active /\
    row_md r (norm_metadata fmt_store m) /\ r_uri r = memory_uri k /\ r_bytes r = zlen data /\ r_checksum r = c.
Proof.
  intros Hw Hm Hl <- Ht Hu Hb Hc H.
  destruct (upsert_inv _ _ _ _ _ H) as (_ & Hv & _).
  destruct (validate_upsert_inv _ _ Hv Hm) as (_ & _ & _ & Eb & Ec).
  rewrite Hb in Eb. rewrite Hc in Ec. injection Eb as Eb. injection Ec as Ec.
  destruct (upsert_row _ _ _ _ _ (env_store_inv _ Hw) Hm Hl H)
    as (Hcl & _ & r & Hr & Ha & Hmd & E1 & E2 & E3 & _).
  rewrite Ht in Hr. split; [done|]. exists r. split_and!; try done; congruence.
Qed.

Lemma restore_published start k data m l c w w' sr :
  world_inv w -> storable m = true -> location_ok (set_loc_access l (md_last_access m)) ->
  loc_key l = k -> loc_tier l = MEMORY -> loc_uri l = memory_uri k ->
  md_bytes m = PInt (zlen data) -> md_checksum m = PStr c -> mem_ok w ->
  restore start k data m c l w = (w', Ok sr) ->
  sr_checksum sr = c /\ sr_bytes sr = zlen data /\ _closed (w_store w') = false /\
  w_data k w' = Some data /\ exists r, published w' k (norm_metadata fmt_store m) (zlen data) c r.
Proof.
  intros Hw Hm Hl Hk Ht Hu Hb Hc Hok H. unfold restore, tier_gets in H. unfold bind at 1, gets, id in H.
  apply bind_ok in H as ([] & w1 & [Hd ->]%when_raise_ok & H). apply negb_false_iff, bool_decide_eq_true in Hd.
  pose proof (world_env _ (env_on_store_at _ (fun now _ => safe_get_metadata now k MEMORY)) w Hw) as Hw2.
  apply bind_ok in H as (p & w2 & Hp & H). rewrite Hp in Hw2. apply on_store_at_ok in Hp as (_ & _ & M2).
  apply bind_ok in H as ([] & w3 & [_ ->]%when_raise_ok & H).
  apply bind_ok in H as ([] & w4 & Hup & H). apply on_store_at_ok in Hup as (now & Hup & M4).
  eapply (tier_upsert_published now _ k m data c w2) in Hup as (Hcl & r & Hr & Hrest); try done.
  apply bind_ok in H as ([] & w5 & [= <-] & H).
  destruct (store_result_run start k data c (mkMemWorld (mw_env w4)
    (set_data (od_move_to_end k (_data (mw_tier w4))) (_used_bytes (mw_tier w4)) (mw_tier w4))))
    as (v & w6 & E6 & F1 & _ & F3).
  rewrite E6 in H. injection H as <- <-. simpl in *. split_and!; try done.
  - by rewrite F1.
  - rewrite F3. simpl. rewrite od_get_move, M4, M2; [done|]. rewrite M4, M2. apply Hok.
  - exists r. unfold published. by rewrite F1.
Qed.

Lemma publish_published start k data m c w w' sr :
  world_inv w -> storable m = true -> md_bytes m = PInt (zlen data) -> md_checksum m = PStr c ->
  publish start k data m c w = (w', Ok sr) ->
  sr_checksum sr = c /\ sr_bytes sr = zlen data /\ _closed (w_store w') = false /\
  w_data k w' = Some data /\ exists r, published w' k (norm_metadata fmt_store m) (zlen data) c r.
Proof.
  intros Hw Hm Hb Hc H.
  destruct (_ensure_capacity (zlen data - od_len k (_data (mw_tier w))) k w) as [w1 [[]|e]] eqn:Ec.
  2: { unfold publish in H. unfold bind at 1, tier_gets at 1, gets at 1, id in H.
       by rewrite (bind_raise _ _ _ _ _ Ec) in H. }
  assert (world_inv w1) as Hw1.
  { assert (preserves world_inv (_ensure_capacity (zlen data - od_len k (_data (mw_tier w))) k)) as Hp
      by (unfold _ensure_capacity; wpreserve). specialize (Hp w Hw). by rewrite Ec in Hp. }
  rewrite (publish_run _ _ _ _ _ _ _ Ec) in H. apply bind_ok in H as ([] & w2 & Hup & H).
  apply try_catch_raise_ok in Hup; [|intros e w0; by rewrite (bind_run _ _ _ _ _ (rollback_run k _ w0))].
  apply on_store_at_ok in Hup as (now & Hup & M2).
  eapply (tier_upsert_published now _ k m data c (mkMemWorld (mw_env w1) (swap_in k data (mw_tier w1))))
    in Hup as (Hcl & r & Hr & Hrest); try done; [|by apply location_for_ok].
  destruct (store_result_run start k data c w2) as (v & w3 & E3 & F1 & _ & F3).
  rewrite E3 in H. injection H as <- <-. simpl in *. split_and!; try done.
  - by rewrite F1.
  - rewrite F3, M2. simpl. by rewrite od_get_set, decide_True.
  - exists r. unfold published. by rewrite F1.
Qed.

(** What the tier knows of a block it stored. *)
Lemma store_ready k data m w w' sr :
  world_inv w -> mem_ok w -> input_ok m -> store k data m w = (w', Ok sr) ->
  md_key m = k /\ sr_checksum sr = sha256_hex data /\ sr_bytes sr = zlen data /\
  exists now, storable (stamp_metadata m (sha256_hex data) (zlen data) now) = true /\
    ready w' k data (norm_metadata fmt_store (stamp_metadata m (sha256_hex data) (zlen data) now)).
Proof.
  intros Hw Hok Hin H. pose proof (store_world k data m Hin w Hw) as Hw'. rewrite H in Hw'.
  pose proof (store_ok k data m w Hok) as Hok'. rewrite H in Hok'.
  unfold store in H. apply bind_ok in H as (start & w1 & H1 & H). injection H1 as <- _.
  apply bind_ok in H as ([] & w2 & [Hk ->]%when_raise_ok & H). apply negb_false_iff, bool_decide_eq_true in Hk.
  unfold tier_gets in H. unfold bind at 1, gets in H.
  apply bind_ok in H as ([] & w3 & [_ ->]%when_raise_ok & H). apply bind_ok in H as (now & w4 & H4 & H).
  assert (float_ok now = true /\ w4 = mkMemWorld (tick (tick (mw_env w))) (mw_tier w)) as [Hf ->].
  { injection H4 as <- <-. split; [apply (env_clock _ Hw)|done]. }
  cbn zeta in H. set (m' := stamp_metadata m (sha256_hex data) (zlen data) now) in *.
  apply bind_ok in H as ([] & w5 & [= <- Hv] & H).
  apply (stamped_storable _ _ _ _ Hin Hf) in Hv as Hm. fold m' in Hm.
  apply bind_ok in H as ([] & w6 & H6 & H).
  assert (world_inv w6) as Hw6.
  { pose proof (world_env _ (env_on_store_at _ (fun now _ => safe_validate now m')) _
      (env_ticked _ (env_ticked _ Hw) : world_inv (mkMemWorld (tick (tick (mw_env w))) (mw_tier w)))) as Hp.
    by rewrite H6 in Hp. }
  apply on_store_at_ok in H6 as (_ & _ & M6). simpl in M6.
  apply bind_ok in H as (found & w7 & H7 & H).
  pose proof (lookup_world k w6 Hw6) as Hw7. rewrite H7 in Hw7. simpl in Hw7.
  assert (mem_ok w7) as Hok7.
  { pose proof (lookup_ok k w6) as Hp. rewrite H7 in Hp. apply Hp. unfold mem_ok. by rewrite M6. }
  assert (describes (norm_metadata fmt_store m') k data) as Hde by done.
  split; [done|]. destruct found as [l|].
  - destruct (lookup_found _ _ _ _ Hw6 H7) as (_ & _ & _ & r & d & Hr & _ & Hj & -> & Hu).
    eapply restore_published in H as (E1 & E2 & E3 & E4 & E5); try done.
    + split_and!; try done. exists now. done.
    + eapply existing_location_ok; [|done|done]. by eapply (inv_rows _ (env_store_inv _ Hw6)).
  - eapply publish_published in H as (E1 & E2 & E3 & E4 & E5); try done.
    split_and!; try done. exists now. done.
Qed.

(** ** A corrupt block *)

(** The metadata and the row state another checksum than that of the bytes. *)
Lemma checked_load_corrupt start k data m c w r l :
  world_inv w -> _closed (w_store w) = false -> w_data k w = Some data ->
  published w k m (zlen data) c r -> md_key m = k -> md_bytes m = PInt (zlen data) ->
  md_checksum m = PStr c -> c <> sha256_hex data ->
  loc_bytes l = zlen data -> loc_checksum l = c ->
  exists w', checked_load start k l w = (w', Raise (err ChecksumMismatch (block_hash k))) /\ same_blocks w w'.
Proof.
  intros Hw Hc Hd (Hr & Ha & Hmd & _) Hk Hb Hs Hne Hlb Hlc. unfold checked_load, tier_gets.
  unfold bind at 1, gets. rewrite Hd.
  pose proof (inv_rows _ (env_store_inv _ Hw) _ _ Hr) as Hok.
  destruct (on_store_at_run (fun now => MetadataStore.get_metadata now k MEMORY) w (env_clock _ Hw))
    as (now1 & w1 & _ & _ & E1 & St1 & T1 & M1). cbv beta in E1, St1.
  rewrite (get_metadata_row now1 _ k MEMORY r m Hc Hr Ha Hmd (ro_access _ _ _ Hok) (ro_reuse _ _ _ Hok)) in E1, St1.
  rewrite (bind_run _ _ _ _ _ E1). cbn [set_reuse set_access md_key md_bytes md_checksum md_reuse_count].
  rewrite Hk, Hb, Hs, Hlb, Hlc, !bool_decide_eq_true_2, Z.eqb_refl by done. cbn [py_eq].
  rewrite Z.eqb_refl, bool_decide_eq_true_2 by done. cbn [checksum_matches].
  destruct (verify_sha256 data c) eqn:Ev; [by apply verify_sha256_true in Ev|].
  cbn [negb orb]. unfold bind at 1 2 3, when, ret. unfold bind at 1.
  match goal with |- context [bind (env (metric ?c)) _ w1] => destruct (metric_run c w1) as (w2 & E2 & S2) end.
  rewrite (bind_run _ _ _ _ _ E2). exists w2. split; [done|].
  eapply same_blocks_trans; [|exact S2]. by split_and!.
Qed.

(** The cleanup after a corrupt load, once the reader is released. *)
Lemma evict_unpinned k w r data :
  world_inv w -> _closed (w_store w) = false -> w_row k w = Some r -> r_state r = active ->
  w_data k w = Some data ->
  exists w', evict k w = (w', Ok (r_in_flight r =? 0)) /\
    w_store w' = (if r_in_flight r =? 0 then drop_row (row_key k MEMORY) (w_store w) else w_store w) /\
    mw_tier w' = (if r_in_flight r =? 0 then pop_block k (mw_tier w) else mw_tier w) /\
    env_time (mw_env w') = env_time (mw_env w).
Proof.
  intros Hw Hc Hr Ha Hd. unfold evict, has_block, tier_gets. unfold bind at 1, gets. rewrite Hd. cbn [negb].
  pose proof (delete_run (w_store w) k MEMORY r (env_store_inv _ Hw) Hc Hr Ha) as Hdel.
  destruct (r_in_flight r =? 0);
    destruct (on_store_step _ w _ _ Hdel) as (w1 & E1 & St1 & T1 & M1); rewrite (bind_run _ _ _ _ _ E1).
  - eexists. split; [reflexivity|]. simpl. by rewrite St1, T1, M1.
  - exists w1. by rewrite St1, T1, M1.
Qed.

Lemma finish_load_corrupt k w r data e :
  world_inv w -> _closed (w_store w) = false -> is_a e CorruptionDetected = true ->
  w_row k w = Some r -> r_state r = active -> r_in_flight_epoch r = _owner_epoch (w_store w) ->
  w_data k w = Some data -> NoDup (_data (mw_tier w)).*1 -> 0 < r_in_flight r ->
  exists w', if r_in_flight r =? 1
    then finish_load k (Raise e) w = (w', Ok tt) /\ w_row k w' = None /\ w_data k w' = None
    else exists e', finish_load k (Raise e) w = (w', Raise (cleanup_failed (block_hash k) (str "evict") e' e)) /\
      w_row k w' = Some (set_flight (r_in_flight r - 1) (r_in_flight_epoch r) r) /\ w_data k w' = Some data.
Proof.
  intros Hw Hc Hcor Hr Ha Hep Hd Hnd Hn. unfold finish_load. rewrite Hcor.
  destruct (on_store_step _ w _ _ (release_run (w_store w) k MEMORY r Hc Hr Hep)) as (w1 & E1 & St1 & T1 & M1).
  assert (world_inv w1) as Hw1.
  { pose proof (world_env _ (env_on_store _ (safe_release k MEMORY)) w Hw) as H. by rewrite E1 in H. }
  rewrite (bind_run _ _ _ w1 tt) by (unfold try_catch; by rewrite E1).
  rewrite Z.max_l in St1 by lia. set (r1 := set_flight (r_in_flight r - 1) (r_in_flight_epoch r) r) in *.
  assert (w_row k w1 = Some r1) as Hr1 by (rewrite St1; apply put_row_lookup).
  destruct (evict_unpinned k w1 r1 data) as (w2 & E2 & St2 & M2 & _); try done; [by rewrite St1|by rewrite M1|].
  replace (r_in_flight r1 =? 0) with (r_in_flight r =? 1) in * by (simpl; lia).
  unfold try_catch. destruct (r_in_flight r =? 1).
  - exists w2. rewrite (bind_run _ _ _ _ _ E2). split; [done|]. split.
    + rewrite St2, drop_row_blocks. apply lookup_delete_eq.
    + rewrite M2. simpl. apply od_get_del. by rewrite M1.
  - rewrite (bind_run _ _ _ _ _ E2).
    destruct (row_ok_location _ _ _ k MEMORY (inv_rows _ (env_store_inv _ Hw1) _ _ Hr1)) as (d & _ & Hl).
    rewrite (bind_run _ _ _ w2 [row_location k MEMORY r1 d]).
    2: { erewrite on_store_run; [by rewrite set_store_same|]. rewrite St2.
         rewrite (lookup_row (w_store w1) k MEMORY r1), Hl; [done|by rewrite St1|done|done]. }
    exists w2. eexists. split; [reflexivity|]. rewrite St2, M2, M1. done.
Qed.

(** ** When no block can be evicted *)

Definition unevictable (w : MemWorld) (k : BlockKey) : Prop :=
  forall r, w_row k w = Some r -> r_state r = active -> r_in_flight r <> 0.

Lemma evict_false k w w' :
  world_inv w -> evict k w = (w', Ok false) -> w_data k w <> None -> w' = w /\ unevictable w k.
Proof.
  intros Hw H Hd. unfold evict, has_block, tier_gets in H. unfold bind at 1, gets in H.
  destruct (w_data k w); [|done]. cbn [negb] in H. apply bind_ok in H as (b & w1 & H1 & H).
  destruct b; [apply bind_ok in H as (? & ? & _ & [=])|]. injection H as <-.
  unfold env, on_store, zoom in H1. unfold MetadataStore.delete, bind, owner, gets in H1.
  rewrite delete_row_eq in H1. destruct (_closed (w_store w)); [done|].
  destruct (w_row k w) as [r|] eqn:Hr.
  - destruct (is_active r && _) eqn:Ep; [done|]. injection H1 as <-. split; [apply set_store_same|].
    intros r' Hr' Ha E. rewrite Hr in Hr'. injection Hr' as <-.
    rewrite (proj2 (is_active_true r) Ha) in Ep. simpl in Ep.
    rewrite (row_ok_idle _ _ _ (inv_epoch _ (env_store_inv _ Hw)) (inv_rows _ (env_store_inv _ Hw) _ _ Hr)) in Ep.
    rewrite E in Ep. done.
  - injection H1 as <-. split; [apply set_store_same|]. intros r' ?. congruence.
Qed.

Lemma evict_first_false x ks w w' :
  world_inv w -> Forall (fun k => w_data k w <> None) ks -> evict_first x ks w = (w', Ok false) ->
  w' = w /\ Forall (fun k => k <> x -> unevictable w k) ks.
Proof.
  intros Hw Hks. revert w'. induction Hks as [|k ks Hk Hks IH]; intros w' H; simpl in H.
  - by injection H as <-.
  - case_bool_decide as Hx; [destruct (IH w' H) as [? ?]; split; [done|by constructor]|].
    apply bind_ok in H as (b & w1 & H1 & H). destruct b; [done|].
    destruct (evict_false k w w1 Hw H1 Hk) as [-> U1]. destruct (IH w' H) as [-> U2].
    split; [done|]. constructor; auto.
Qed.

Lemma evict_first_raises x ks w e : (evict_first x ks w).2 = Raise e -> e = closed_error.
Proof.
  revert w. induction ks as [|k ks IH]; intros w; simpl; [done|].
  case_bool_decide; [apply IH|]. unfold bind. pose proof (evict_raises k w) as He.
  destruct (evict k w) as [w1 [[|]|e']]; simpl in *; [done|apply IH|]. intros [= ->]. auto.
Qed.

Lemma od_keys_present (d : OrderedDict) : Forall (fun k => od_get k d <> None) d.*1.
Proof. rewrite Forall_forall. intros k Hk E. by apply od_get_None in E. Qed.

(** [StoreFull] means that every other block is held by a reader or no longer
    published. *)
Lemma make_room_full fuel n x w w' :
  world_inv w -> make_room fuel n x w = (w', Raise store_full) ->
  Forall (fun k => k <> x -> unevictable w' k) (_data (mw_tier w')).*1 /\
  max_bytes (mw_tier w') < _used_bytes (mw_tier w') + n.
Proof.
  revert w. induction fuel as [|fuel IH]; intros w Hw H.
  - simpl in H. unfold bind at 1, tier_gets, gets, id in H. by destruct (_ <=? _).
  - rewrite make_room_S in H.
    destruct (Z.leb_spec (_used_bytes (mw_tier w) + n) (max_bytes (mw_tier w))); [done|].
    pose proof (evict_first_world x (_data (mw_tier w)).*1 w Hw) as Hw1.
    pose proof (evict_first_raises x (_data (mw_tier w)).*1 w) as He.
    unfold bind in H. destruct (evict_first x (_data (mw_tier w)).*1 w) as [w1 [[|]|e]] eqn:E; simpl in *.
    + by eapply IH.
    + injection H as <-. destruct (evict_first_false _ _ _ _ Hw (od_keys_present _) E) as [-> U].
      split; [done|lia].
    + injection H as -> ->. by specialize (He _ eq_refl).
Qed.

Lemma make_room_raises fuel n x w w' e :
  make_room fuel n x w = (w', Raise e) -> e = out_of_fuel \/ e = store_full \/ e = closed_error.
Proof.
  revert w. induction fuel as [|fuel IH]; intros w H.
  - simpl in H. unfold bind at 1, tier_gets, gets, id in H. destruct (_ <=? _); [done|].
    injection H as _ <-. auto.
  - rewrite make_room_S in H. destruct (_ <=? _); [done|].
    pose proof (evict_first_raises x (_data (mw_tier w)).*1 w) as He. unfold bind in H.
    destruct (evict_first x (_data (mw_tier w)).*1 w) as [w1 [[|]|e']]; simpl in *.
    + by eapply IH.
    + injection H as _ <-. auto.
    + injection H as _ <-. rewrite (He _ eq_refl). auto.
Qed.

(** ** Loads that return *)

(** The checks a load makes before it returns. *)
Lemma checked_load_inv start k l w w' r :
  checked_load start k l w = (w', Ok r) ->
  exists data m now, w_data k w = Some data /\
    (MetadataStore.get_metadata now k MEMORY (w_store w)).2 = Ok (Some m) /\
    md_key m = k /\ loc_bytes l = zlen data /\ py_eq (md_bytes m) (PInt (zlen data)) = true /\
    py_eq (PStr (loc_checksum l)) (md_checksum m) = true /\ checksum_matches data (md_checksum m) = true /\
    lr_key r = k /\ lr_tier r = MEMORY /\ lr_data r = data /\
    md_key (lr_metadata r) = k /\ md_checksum (lr_metadata r) = md_checksum m /\
    md_bytes (lr_metadata r) = md_bytes m /\ md_created_at (lr_metadata r) = md_created_at m /\
    md_extra (lr_metadata r) = md_extra m.
Proof.
  unfold checked_load, tier_gets. unfold bind at 1, gets. intros H.
  destruct (w_data k w) as [data|] eqn:Ed; [|done].
  apply bind_ok in H as (p & w1 & Hp & H). destruct p as [m|]; [|done].
  apply bind_ok in H as ([] & w2 & [Hk ->]%when_raise_ok & H).
  apply bind_ok in H as ([] & w3 & [Hb ->]%when_raise_ok & H).
  apply bind_ok in H as ([] & w4 & [Hc ->]%when_raise_ok & H).
  apply bind_ok in H as ([] & w5 & Hs & H).
  apply bind_ok in H as ([] & w6 & _ & H). apply bind_ok in H as ([] & w7 & _ & H).
  apply bind_ok in H as (now & w8 & _ & H). apply bind_ok in H as (lat & w9 & _ & H).
  apply bind_ok in H as ([] & w10 & _ & H). apply bind_ok in H as ([] & w11 & _ & H).
  injection H as _ <-. exists data, m, (env_time (mw_env w) (env_tick (mw_env w))).
  assert ((MetadataStore.get_metadata (env_time (mw_env w) (env_tick (mw_env w))) k MEMORY (w_store w)).2 =
          Ok (Some m)) as Hget.
  { revert Hp. unfold env, on_store_at, on_store, zoom, bind, time_time. simpl.
    destruct (MetadataStore.get_metadata _ k MEMORY (w_store w)) as [s' r']. simpl. by intros [= _ ->]. }
  assert (checksum_matches data (md_checksum m) = true) as Hm.
  { destruct (checksum_matches data (md_checksum m)); [done|]. simpl in Hs.
    apply bind_ok in Hs as (? & ? & _ & ?). done. }
  apply negb_false_iff, bool_decide_eq_true in Hk. apply orb_false_iff in Hb as [Hb1 Hb2].
  apply negb_false_iff in Hb1, Hb2, Hc. apply Z.eqb_eq in Hb1.
  split_and!; try done; simpl; destruct (incr_reuse (md_reuse_count m)); done.
Qed.

Lemma load_inv k w w' r :
  load k w = (w', Ok r) ->
  lr_key r = k /\ lr_tier r = MEMORY /\ md_key (lr_metadata r) = k /\
  od_get k (_data (mw_tier w)) = Some (lr_data r) /\
  py_eq (md_bytes (lr_metadata r)) (PInt (zlen (lr_data r))) = true /\
  md_checksum (lr_metadata r) = PStr (sha256_hex (lr_data r)).
Proof.
  intros H. unfold load in H. apply bind_ok in H as (start & w1 & H1 & H).
  apply bind_ok in H as (loc & w2 & H2 & H). unfold has_block, tier_gets in H.
  unfold bind at 1, gets in H. destruct loc as [l|]; [|done].
  destruct (w_data k w2) as [d|] eqn:Ed; [|done]. cbn [negb] in H.
  apply bind_ok in H as (pinned & w3 & H3 & H). destruct pinned; [|done]. cbn [negb] in H.
  apply try_finally_ok in H as (w4 & H4 & _).
  destruct (checked_load_inv _ _ _ _ _ _ H4) as (data & m & now & Hd & _ & Hk & Hb & Hb' & Hc & Hs & R).
  destruct R as (R1 & R2 & R3 & R4 & R5 & R6 & _ & _).
  assert (mw_tier w3 = mw_tier w2) as E3
    by (pose proof (env_tier (on_store (MetadataStore.acquire k MEMORY)) w2) as E; by rewrite H3 in E).
  assert (mw_tier w1 = mw_tier w) as E1 by (pose proof (env_tier perf_counter w) as E; by rewrite H1 in E).
  rewrite R3, R5, R6 in *. split_and!; try done.
  - rewrite E3 in Hd. rewrite <- E1.
    pose proof (lookup_keeps_found _ _ _ _ H2) as Ht. by rewrite <- Ht.
  - destruct (md_checksum m); try done. simpl in Hs. by apply verify_sha256_true in Hs as ->.
Qed.

(** The first half of a load that returns: the block is visible and held. *)
Lemma load_found k w w' r :
  world_inv w -> load k w = (w', Ok r) ->
  _closed (w_store w) = false /\ w_data k w <> None /\
  exists row, w_row k w = Some row /\ r_state row = active /\ r_uri row = memory_uri k.
Proof.
  intros Hw H. unfold load in H. destruct (perf_run w) as (start & w1 & E1 & S1).
  rewrite (bind_run _ _ _ _ _ E1) in H. pose proof (same_blocks_world _ _ S1 Hw) as Hw1.
  apply bind_ok in H as (loc & w2 & H2 & H). unfold has_block, tier_gets in H.
  unfold bind at 1, gets in H. destruct loc as [l|]; [|done].
  destruct (lookup_found _ _ _ _ Hw1 H2) as (_ & Hc & Hd & row & d & Hr & Ha & _ & _ & Hu).
  destruct S1 as (F1 & _ & F3). rewrite F1 in *. rewrite F3 in *. eauto 6.
Qed.

(** A block that a load returned was ready, and its metadata can be stored
    again. *)
Lemma load_was_ready k w w' r :
  world_inv w -> mem_ok w -> load k w = (w', Ok r) ->
  exists m, ready w k (lr_data r) m /\ input_ok (lr_metadata r).
Proof.
  intros Hw Hok H. destruct (load_found k w w' r Hw H) as (Hc & Hd & row & Hr & Ha & Hu).
  pose proof (inv_rows _ (env_store_inv _ Hw) _ _ Hr) as Hrok.
  destruct (ro_metadata _ _ _ Hrok) as (m0 & Hmd & _ & Hb0 & Hs0).
  destruct (load_inv _ _ _ _ H) as (_ & _ & Hkey & Hdata & _ & Hsum).
  destruct (load_pinned k w row) as (w1 & start & d & E & Hw1 & M1 & St1); try done.
  rewrite E in H. apply try_finally_ok in H as (w2 & H & _).
  destruct (checked_load_inv _ _ _ _ _ _ H) as (data & m & now & Hd1 & Hget & Hk & Hlb & _ & _ & _ & _ & _ & R3 & R4 & R5 & _ & R7 & R8).
  set (row' := acquire_row (_owner_epoch (w_store w)) row) in *.
  rewrite (get_metadata_row now _ k MEMORY row' m0) in Hget; try done.
  2: { by rewrite St1. } 2: { rewrite St1. apply put_row_lookup. }
  2: { apply (ro_access _ _ _ Hrok). } 2: { apply (ro_reuse _ _ _ Hrok). }
  injection Hget as <-. simpl in Hk, Hlb, R5, R7, R8. rewrite R3 in *. exists m0. split.
  - split; try done.
    + exists row. unfold published. split_and!; try done. rewrite Hsum, Hs0 in R5. by injection R5 as <-.
    + split_and!; try done; [by rewrite Hb0, Hlb|]. by rewrite <- R5, Hsum.
  - destruct Hmd as (_ & Hst & _). apply storable_inv in Hst as (_ & Hkv & Hj1 & _ & Hj2).
    split_and!; [by rewrite R4, <- Hk|by rewrite R7|by rewrite R8].
Qed.

(** The tier says it holds a ready block. *)
Lemma ready_contains w k data m : ready w k data m -> exists w', contains k w = (w', Ok true).
Proof.
  intros [Hw _ Hc Hd (r & Hr & Ha & _ & Hu & _) _].
  destruct (lookup_run k w r) as (w' & d & E & _); try done; [by rewrite Hd|].
  exists w'. unfold contains. by rewrite (bind_run _ _ _ _ _ E).
Qed.

Lemma contains_world k : preserves world_inv (contains k).
Proof. unfold contains. wpreserve. Qed.
