(* ===== verification/MemoryTierSpec.v ===== *)
(** * What the memory tier guarantees

    The properties of [memory_tier.py]. *)

From Stdlib Require Import SpecFloat.
From S2P Require Import Prelude PyText Sha256 Float64 Errors PyVal Json JsonFacts Metadata MetadataFacts MetadataStore MetadataStoreFacts MetadataStoreSpec Metrics Runtime MemoryTier MemoryTierFacts.
Import MNotations.

(** ** A concrete tier *)

Definition sample_env (s : MetadataStore) : Env :=
  mkEnv s (Some KVStoreMetrics_init) (fun n => f64_of_Z 200) (fun n => f64_of_Z (Z.of_nat n)) 0.

Definition sample_tier (limit : Z) : MemoryTier := mkMemoryTier limit [] 0.

Definition empty_world : MemWorld := mkMemWorld (sample_env fresh_store) (sample_tier 8).

Lemma sample_clock s : clock_ok (sample_env s).
Proof.
  intros n. split; [apply (stamp_sample 200); [reflexivity|lia]|]. vm_compute. reflexivity.
Qed.

Lemma empty_world_inv : world_inv empty_world.
Proof. split; [apply sample_clock|]. apply reachable_store, fresh_reachable. Qed.

Lemma empty_world_ok : mem_ok empty_world.
Proof. split; simpl; [constructor|done|lia]. Qed.

Lemma sample_input : input_ok sample_metadata.
Proof. split_and!; vm_compute; reflexivity. Qed.

(** ** Histories *)

Inductive mem_call :=
  | MLookup (k : BlockKey)
  | MStore (k : BlockKey) (data : pybytes) (m : KVMetadata)
  | MLoad (k : BlockKey)
  | MEvict (k : BlockKey)
  | MContains (k : BlockKey)
  | MStats.

Definition forget {A} (m : MW A) : MW unit := fun w => ((m w).1, Ok tt).

Definition run_mem (c : mem_call) : MW unit :=
  match c with
  | MLookup k => forget (lookup k)
  | MStore k data m => forget (store k data m)
  | MLoad k => forget (load k)
  | MEvict k => forget (evict k)
  | MContains k => forget (contains k)
  | MStats => forget stats
  end.

Definition run_mems (cs : list mem_call) (w : MemWorld) : MemWorld :=
  foldl (fun w c => (run_mem c w).1) w cs.

Lemma contains_ok k : preserves mem_ok (contains k).
Proof. unfold contains. preserve. Qed.

Lemma run_mem_ok c : preserves mem_ok (run_mem c).
Proof.
  intros w Hw. destruct c; simpl.
  - by apply lookup_ok. - by apply store_ok. - by apply load_ok. - by apply evict_ok.
  - by apply contains_ok. - done.
Qed.

(** C19: Through every sequence of calls on a new tier, whether they return or
    raise and whatever the metadata store answers, [_used_bytes] is the number of
    bytes held, never more than [max_bytes], and no block is held twice. *)
Theorem memory_accounting (limit : Z) (t : MemoryTier) (e : Env) (cs : list mem_call) :
  MemoryTier_init limit = Ok t ->
  let t' := mw_tier (run_mems cs (mkMemWorld e t)) in
  _used_bytes t' = total_bytes (_data t') /\ _used_bytes t' <= max_bytes t' /\ NoDup (_data t').*1.
Proof.
  intros Hi. assert (mem_ok (mkMemWorld e t)) as Hw.
  { unfold MemoryTier_init in Hi. destruct (Z.leb_spec limit 0); [done|]. injection Hi as <-.
    split; simpl; [constructor|done|lia]. }
  cbn zeta. revert Hw. generalize (mkMemWorld e t) as w.
  induction cs as [|c cs IH]; intros w Hw; simpl; [by destruct Hw|]. apply IH. by apply run_mem_ok.
Qed.

Lemma memory_accounting_witness :
  let t' := mw_tier (run_mems [MStore sample_key sample_payload sample_metadata; MLoad sample_key]
                       (mkMemWorld (sample_env fresh_store) (sample_tier 8))) in
  _used_bytes t' = total_bytes (_data t') /\ _used_bytes t' <= max_bytes t' /\ NoDup (_data t').*1.
Proof.
  exact (memory_accounting 8 (sample_tier 8) (sample_env fresh_store)
           [MStore sample_key sample_payload sample_metadata; MLoad sample_key] eq_refl).
Defined.

(** ** Loading *)

(** C9: A load that returns, whatever the state of tier and store, returns the
    bytes the tier holds for the key, of the length and with the SHA-256 that
    the returned metadata states, and metadata of that very key. *)
Theorem load_integrity (k : BlockKey) (w w' : MemWorld) (r : LoadResult) :
  load k w = (w', Ok r) ->
  lr_key r = k /\ lr_tier r = MEMORY /\ md_key (lr_metadata r) = k /\
  od_get k (_data (mw_tier w)) = Some (lr_data r) /\
  py_eq (md_bytes (lr_metadata r)) (PInt (zlen (lr_data r))) = true /\
  md_checksum (lr_metadata r) = PStr (sha256_hex (lr_data r)).
Proof.
  apply load_inv.
Qed.

Definition stored_world : MemWorld := (store sample_key sample_payload sample_metadata empty_world).1.

Definition loaded_world : MemWorld := (load sample_key stored_world).1.

Definition no_load : LoadResult :=
  {| lr_key := sample_key; lr_tier := S3; lr_data := []; lr_metadata := sample_metadata;
     lr_latency_ms := f64_of_Z 0; lr_from_prefetch := false |}.

Definition sample_load : LoadResult :=
  match (load sample_key stored_world).2 with Ok r => r | Raise _ => no_load end.

Definition sample_store_result : StoreResult :=
  match (store sample_key sample_payload sample_metadata empty_world).2 with
  | Ok r => r
  | Raise _ => {| sr_key := sample_key; sr_tier := S3; sr_bytes := 0; sr_latency_ms := f64_of_Z 0; sr_checksum := [] |}
  end.

Lemma load_is_ok : is_ok (load sample_key stored_world).2 = true.
Proof. vm_compute. reflexivity. Qed.

Lemma store_is_ok : is_ok (store sample_key sample_payload sample_metadata empty_world).2 = true.
Proof. vm_compute. reflexivity. Qed.

Lemma sample_load_eq : load sample_key stored_world = (loaded_world, Ok sample_load).
Proof.
  pose proof load_is_ok as H. unfold loaded_world, sample_load.
  destruct (load sample_key stored_world) as [w [r|e]]; [done|discriminate H].
Qed.

Lemma sample_store_eq :
  store sample_key sample_payload sample_metadata empty_world = (stored_world, Ok sample_store_result).
Proof.
  pose proof store_is_ok as H. unfold stored_world, sample_store_result.
  destruct (store sample_key sample_payload sample_metadata empty_world) as [w [r|e]]; [done|discriminate H].
Qed.

Lemma load_integrity_witness :
  lr_key sample_load = sample_key /\ lr_tier sample_load = MEMORY /\ md_key (lr_metadata sample_load) = sample_key /\
  od_get sample_key (_data (mw_tier stored_world)) = Some (lr_data sample_load) /\
  py_eq (md_bytes (lr_metadata sample_load)) (PInt (zlen (lr_data sample_load))) = true /\
  md_checksum (lr_metadata sample_load) = PStr (sha256_hex (lr_data sample_load)).
Proof. exact (load_integrity sample_key stored_world loaded_world sample_load sample_load_eq). Defined.

(** ** Storing and loading back *)

(** A block that was stored can be loaded: the load returns the stored bytes,
    metadata with the same payload descriptor and their SHA-256, leaves the
    number of readers as it was, and can be repeated. *)
Theorem store_then_load k data m w w1 sr :
  world_inv w -> mem_ok w -> input_ok m -> no_tuple (md_extra m) = true ->
  store k data m w = (w1, Ok sr) ->
  exists w2 r w3 r', load k w1 = (w2, Ok r) /\ load k w2 = (w3, Ok r') /\
    lr_key r = k /\ lr_data r = data /\ lr_data r' = data /\
    sr_checksum sr = sha256_hex data /\ sr_bytes sr = zlen data /\
    descriptor_eqb (payload_descriptor (lr_metadata r))
      (payload_descriptor (set_payload m (sha256_hex data) (zlen data))) = true /\
    (forall r1 r2, ms_blocks (w_store w1) !! row_key k MEMORY = Some r1 ->
       ms_blocks (w_store w2) !! row_key k MEMORY = Some r2 ->
       r_in_flight r1 < max_int64 -> r_in_flight r2 = r_in_flight r1).
Proof.
  intros Hw Hok Hin Hnt H.
  destruct (store_ready k data m w w1 sr Hw Hok Hin H) as (Hk & Hc & Hb & now & Hm & Hrd).
  destruct (load_ready _ _ _ _ Hrd) as (w2 & r & L1 & R1 & R2 & R3 & Hrd2 & Hpins).
  destruct (load_ready _ _ _ _ Hrd2) as (w3 & r' & L2 & _ & R2' & _).
  exists w2, r, w3, r'. split_and!; try done.
  rewrite R3. by apply (descriptor_norm fmt_store (stamp_metadata m (sha256_hex data) (zlen data) now)).
Qed.

Lemma store_then_load_witness :
  exists w2 r, load sample_key stored_world = (w2, Ok r) /\ lr_data r = sample_payload.
Proof.
  destruct (store_then_load sample_key sample_payload sample_metadata empty_world stored_world
    sample_store_result empty_world_inv empty_world_ok sample_input eq_refl sample_store_eq)
    as (w2 & r & w3 & r' & H1 & _ & _ & H2 & _).
  exact (ex_intro _ w2 (ex_intro _ r (conj H1 H2))).
Defined.

(** ** Corruption *)

(** C22: A block whose bytes no longer have the recorded checksum is never
    returned. Without other readers the load raises [ChecksumMismatch] and the
    block is gone, from the tier and from the metadata store; while another
    reader holds it, it stays, and the load raises [CorruptionCleanupFailed] with
    the mismatch as its cause. *)
Theorem corrupt_block_contained k data m c w r :
  world_inv w -> mem_ok w -> _closed (w_store w) = false ->
  od_get k (_data (mw_tier w)) = Some data -> published w k m (zlen data) c r ->
  md_key m = k -> md_bytes m = PInt (zlen data) -> md_checksum m = PStr c ->
  c <> sha256_hex data -> r_in_flight r < max_int64 ->
  exists w' e, load k w = (w', Raise e) /\
    if r_in_flight r =? 0 then
      e = err ChecksumMismatch (block_hash k) /\ od_get k (_data (mw_tier w')) = None /\
      ms_blocks (w_store w') !! row_key k MEMORY = None
    else
      exn_cls e = CorruptionCleanupFailed /\
      exn_cause e = Some (err ChecksumMismatch (block_hash k)) /\
      exists r', ms_blocks (w_store w') !! row_key k MEMORY = Some r' /\ r_in_flight r' = r_in_flight r.
Proof.
  intros Hw Hok Hc Hd Hp Hk Hb Hs Hne Hlt. pose proof Hp as (Hr & Ha & Hmd & Hu & Hrb & Hrc).
  destruct (load_pinned k w r) as (w1 & start & d & -> & Hw1 & M1 & St1); try done; [by rewrite Hd|].
  set (r1 := acquire_row (_owner_epoch (w_store w)) r) in *.
  destruct (checked_load_corrupt start k data m c w1 r1 (row_location k MEMORY r d)) as (w2 & E2 & S2); try done.
  { by rewrite St1. } { by rewrite M1. } { unfold published. rewrite St1, put_row_lookup. done. }
  pose proof (same_blocks_world _ _ S2 Hw1) as Hw2. destruct S2 as (F1 & _ & F3).
  pose proof (inv_rows _ (env_store_inv _ Hw) _ _ Hr) as Hrok. pose proof (ro_flight _ _ _ Hrok).
  assert (r_in_flight r1 = r_in_flight r + 1) as Hr1.
  { pose proof (acquire_phase _ _ _ (inv_epoch _ (env_store_inv _ Hw)) Hrok Ha) as E.
    rewrite row_phase_active in E by done. apply (f_equal (fun p => match p with Visible n => n | Tombstone => 0 end)) in E.
    change (r_in_flight r1 = sql_incr (r_in_flight r)) in E. rewrite E. unfold sql_incr.
    destruct (Z.ltb_spec (r_in_flight r) max_int64); lia. }
  destruct (finish_load_corrupt k w2 r1 data (err ChecksumMismatch (block_hash k))) as (w3 & H3); try done.
  { by rewrite F1, St1. } { rewrite F1, St1. apply put_row_lookup. } { by rewrite F1, St1. }
  { by rewrite F3, M1. } { rewrite F3, M1. apply Hok. } { lia. }
  exists w3. unfold try_finally. rewrite E2.
  replace (r_in_flight r1 =? 1) with (r_in_flight r =? 0) in H3 by lia.
  destruct (r_in_flight r =? 0).
  - destruct H3 as (-> & Hrow & Hdata). eauto.
  - destruct H3 as (e' & -> & Hrow & Hdata). eexists. split; [reflexivity|]. split_and!; try done.
    eexists. split; [exact Hrow|]. simpl in *. lia.
Qed.

(** The stored block with other bytes in its place. *)
Definition corrupt_world : MemWorld :=
  mkMemWorld (mw_env stored_world) (mkMemoryTier 8 [(sample_key, bstr "abd")] 3).

Definition stored_row : Row :=
  default (mkRow [] 0 [] [] [] (f64_of_Z 0) (f64_of_Z 0) 0 0 [] active)
    (ms_blocks (w_store stored_world) !! row_key sample_key MEMORY).

Lemma stored_row_eq : ms_blocks (w_store stored_world) !! row_key sample_key MEMORY = Some stored_row.
Proof. vm_compute. reflexivity. Qed.

Lemma stored_ready :
  exists m, storable m = true /\ md_key m = sample_key /\ md_bytes m = PInt 3 /\
    md_checksum m = PStr sample_checksum /\ published stored_world sample_key m 3 sample_checksum stored_row.
Proof.
  destruct (store_ready _ _ _ _ _ _ empty_world_inv empty_world_ok sample_input sample_store_eq)
    as (_ & _ & _ & now & Hm & Hrd). destruct Hrd as [_ _ _ _ (r & Hp) _].
  assert (sha256_hex sample_payload = sample_checksum) as Ec by (vm_compute; reflexivity).
  rewrite Ec in *. eexists. split; [by apply storable_norm|].
  assert (Some stored_row = Some r) as Er by (transitivity (ms_blocks (w_store stored_world) !! row_key sample_key MEMORY); [exact (eq_sym stored_row_eq)|exact (proj1 Hp)]).
  apply (inj Some) in Er. rewrite <- Er in Hp.
  split_and!; [done|done|done|exact Hp].
Qed.

Lemma stored_world_inv : world_inv stored_world.
Proof.
  pose proof (store_world sample_key sample_payload sample_metadata sample_input empty_world empty_world_inv) as H.
  exact H.
Qed.

Lemma corrupt_block_contained_witness :
  exists w' e, load sample_key corrupt_world = (w', Raise e) /\
    if r_in_flight stored_row =? 0 then
      e = err ChecksumMismatch (block_hash sample_key) /\ od_get sample_key (_data (mw_tier w')) = None /\
      ms_blocks (w_store w') !! row_key sample_key MEMORY = None
    else
      exn_cls e = CorruptionCleanupFailed /\
      exn_cause e = Some (err ChecksumMismatch (block_hash sample_key)) /\
      exists r', ms_blocks (w_store w') !! row_key sample_key MEMORY = Some r' /\
        r_in_flight r' = r_in_flight stored_row.
Proof.
  destruct stored_ready as (m & Hm & H1 & H2 & H3 & H4).
  apply (corrupt_block_contained sample_key (bstr "abd") m sample_checksum corrupt_world stored_row).
  - exact stored_world_inv.
  - split; simpl; [apply NoDup_singleton|reflexivity|lia].
  - vm_compute. reflexivity.
  - reflexivity.
  - exact H4.
  - exact H1.
  - exact H2.
  - exact H3.
  - intros E. vm_compute in E. discriminate E.
  - vm_compute. reflexivity.
Defined.

(** ** Making room *)

(** The eviction loop ends within one round per block: it either makes
    enough room, leaving the block to be stored untouched, or raises [StoreFull],
    and then every other block left in the tier is held by a reader or not
    published; or it stops on a closed metadata store. *)
Theorem ensure_capacity_outcomes n x w :
  world_inv w -> mem_ok w ->
  exists w' r, _ensure_capacity n x w = (w', r) /\ mem_ok w' /\
    od_get x (_data (mw_tier w')) = od_get x (_data (mw_tier w)) /\
    match r with
    | Ok _ => _used_bytes (mw_tier w') + n <= max_bytes (mw_tier w')
    | Raise e =>
        (e = store_full /\ max_bytes (mw_tier w') < _used_bytes (mw_tier w') + n /\
         Forall (fun k => k <> x -> unevictable w' k) (_data (mw_tier w')).*1) \/
        e = closed_error
    end.
Proof.
  intros Hw Hok. destruct (ensure_capacity_spec n x w) as ((_ & Hget & Hok') & Hfuel & Hfit).
  destruct (_ensure_capacity n x w) as [w' r] eqn:E. exists w', r. simpl in *.
  split; [done|]. split; [by apply Hok'|]. split; [done|]. destruct r as [[]|e]; [auto|].
  unfold _ensure_capacity in E. destruct (n <=? 0); [discriminate E|].
  unfold bind at 1, tier_gets, gets, id in E.
  destruct (make_room_raises _ _ _ _ _ _ E) as [-> | [-> | ->]]; [by destruct Hfuel| |by right].
  left. destruct (make_room_full _ _ _ _ _ Hw E). done.
Qed.

(** ** A store that fails *)

(** Nothing was added: the rows and the blocks of [w] are rows and blocks of
    [w0]. *)
Record shrunk (w0 w : MemWorld) : Prop := {
  shr_rows : forall rk r, ms_blocks (w_store w) !! rk = Some r -> ms_blocks (w_store w0) !! rk = Some r;
  shr_data : forall k d, od_get k (_data (mw_tier w)) = Some d -> od_get k (_data (mw_tier w0)) = Some d;
  shr_ok : mem_ok w;
}.

(** A computation on the environment that adds no row. *)
Definition adds_no_row {A} (m : M Env A) : Prop :=
  forall e rk r, ms_blocks (env_store (m e).1) !! rk = Some r -> ms_blocks (env_store e) !! rk = Some r.

Lemma shrunk_env {A} w0 (m : M Env A) : adds_no_row m -> preserves (shrunk w0) (env m).
Proof.
  intros Hm w [H1 H2 H3]. split; rewrite ?env_tier, ?env_env; auto.
  unfold mem_ok. by rewrite env_tier.
Qed.

Lemma shrunk_tier_gets {A} w0 (f : MemoryTier -> A) : preserves (shrunk w0) (tier_gets f).
Proof. by intros w. Qed.

Lemma shrunk_tier w0 f :
  (forall t, tier_ok t -> tier_ok (f t) /\
     forall k d, od_get k (_data (f t)) = Some d -> od_get k (_data t) = Some d) ->
  preserves (shrunk w0) (tier_modify f).
Proof.
  intros Hf w [H1 H2 H3]. destruct (Hf _ H3) as [Hok Hsub]. split; simpl; auto.
Qed.

Lemma shrunk_pop w0 k : preserves (shrunk w0) (tier_modify (pop_block k)).
Proof.
  apply shrunk_tier. intros t Hok. split; [by apply pop_block_ok|]. intros k' d. simpl.
  destruct (decide (k' = k)) as [->|Hne]; [|by rewrite od_get_del_ne].
  rewrite od_get_del; [done|apply Hok].
Qed.

Lemma on_store_no_row {A} (m : MS A) :
  (forall s rk r, ms_blocks (m s).1 !! rk = Some r -> ms_blocks s !! rk = Some r) -> adds_no_row (on_store m).
Proof.
  intros Hm e rk r. unfold on_store, zoom. specialize (Hm (env_store e)).
  destruct (m (env_store e)). simpl in *. auto.
Qed.

Lemma delete_no_row k t : adds_no_row (on_store (MetadataStore.delete k t)).
Proof.
  apply on_store_no_row. intros s rk r. unfold MetadataStore.delete, bind, owner, gets.
  rewrite delete_row_eq. repeat case_match; simpl; try done. rewrite drop_row_blocks.
  by intros [_ ?]%lookup_delete_Some.
Qed.

(** The calls that only read the table. *)
Lemma read_no_row {A} c (m : MS A) :
  (forall s, (m s).1 = after c s) -> (forall s s', effect s c s' -> ms_blocks s' = ms_blocks s) ->
  adds_no_row (on_store m).
Proof.
  intros Hm Hr. apply on_store_no_row. intros s rk r. rewrite Hm.
  by rewrite (Hr s _ (run_effect c s)).
Qed.

Lemma lookup_no_row k t : adds_no_row (on_store (MetadataStore.lookup k t)).
Proof.
  apply (read_no_row (CLookup k t)); [intros s; by apply discard_after|]. intros s s'.
  inversion 1; subst; naive_solver.
Qed.

Lemma on_store_at_no_row {A} (m : f64 -> MS A) :
  (forall now, adds_no_row (on_store (m now))) -> adds_no_row (on_store_at m).
Proof. intros Hm e rk r. unfold on_store_at, bind, time_time. intros H. by apply Hm in H. Qed.

Lemma get_metadata_no_row k : adds_no_row (on_store_at (fun now => MetadataStore.get_metadata now k MEMORY)).
Proof.
  apply on_store_at_no_row. intros now.
  apply (read_no_row (CGetMetadata now k MEMORY)); [intros s; by apply discard_after|].
  intros s s'. inversion 1; subst; naive_solver.
Qed.

Lemma validate_no_row m : adds_no_row (on_store_at (fun now => MetadataStore.validate_payload_descriptor now m)).
Proof.
  apply on_store_at_no_row. intros now. apply (read_no_row (CValidate now m)); [done|].
  intros s s'. inversion 1; subst; naive_solver.
Qed.

Lemma metric_no_row c : adds_no_row (metric c).
Proof. intros e rk r. by destruct (metric_store c e) as (-> & _). Qed.

Lemma clock_no_row : adds_no_row time_time /\ adds_no_row perf_counter.
Proof. split; intros e rk r H; exact H. Qed.

#[local] Hint Resolve shrunk_env shrunk_tier_gets shrunk_pop delete_no_row lookup_no_row
  get_metadata_no_row validate_no_row metric_no_row : kv.
#[local] Hint Extern 1 (adds_no_row _) => exact (proj1 clock_no_row) : kv.
#[local] Hint Extern 1 (adds_no_row _) => exact (proj2 clock_no_row) : kv.

Lemma lookup_shrunk w0 k : preserves (shrunk w0) (lookup k).
Proof. unfold lookup, has_block. preserve. Qed.

Lemma evict_shrunk w0 k : preserves (shrunk w0) (evict k).
Proof. unfold evict, has_block. preserve. Qed.
#[local] Hint Resolve lookup_shrunk evict_shrunk : kv.

Lemma evict_first_shrunk w0 x ks : preserves (shrunk w0) (evict_first x ks).
Proof. induction ks as [|k ks IH]; simpl; preserve. Qed.
#[local] Hint Resolve evict_first_shrunk : kv.

Lemma make_room_shrunk w0 fuel n x : preserves (shrunk w0) (make_room fuel n x).
Proof. induction fuel as [|fuel IH]; simpl; preserve. Qed.
#[local] Hint Resolve make_room_shrunk : kv.

Lemma ensure_capacity_shrunk w0 n x : preserves (shrunk w0) (_ensure_capacity n x).
Proof. unfold _ensure_capacity. preserve. Qed.

Lemma upsert_raise_same now l m s s' e : MetadataStore.upsert now l m s = (s', Raise e) -> s' = s.
Proof.
  rewrite upsert_eq. destruct (_validate_upsert l m) as [[]|]; [|congruence].
  destruct (_closed s); [congruence|]. destruct (res_each _ _) as [[]|]; [|congruence]. cbn zeta.
  case_bool_decide; [congruence|]. destruct (new_row _ _ _); congruence.
Qed.

Lemma store_result_never_raises start k data c w w' e :
  store_result start k data c w <> (w', Raise e).
Proof. destruct (store_result_run start k data c w) as (v & w1 & -> & _). done. Qed.

(** The tier after a rollback answers every query as before the attempt. *)
Lemma rolled_back_get k data t k' :
  tier_ok t -> od_get k' (_data (rolled_back k (od_get k (_data t)) (swap_in k data t))) = od_get k' (_data t).
Proof.
  intros Hok. destruct (pop_present k t Hok) as (H1 & H2 & _ & _). unfold swap_in.
  set (t1 := match od_get k (_data t) with Some _ => pop_block k t | None => t end) in *.
  assert (od_get k' (_data t1) = if decide (k' = k) then None else od_get k' (_data t)) as Ht1.
  { unfold t1 in *. case_decide as E; [subst; done|]. destruct (od_get k (_data t)); simpl; [|done].
    by rewrite od_get_del_ne. }
  assert (NoDup (od_set k data (_data t1)).*1) as Hnd.
  { rewrite od_set_new by done. rewrite fmap_app. apply NoDup_app. split; [apply H1|].
    split; [|apply NoDup_singleton]. intros x Hx ->%list_elem_of_singleton. by apply od_get_None in H2. }
  clearbody t1. unfold rolled_back. destruct (od_get k (_data t)) as [p|] eqn:Ep; simpl.
  - rewrite od_get_set. case_decide as E; [by subst|]. rewrite od_get_del_ne, od_get_set by done.
    rewrite decide_False by done. rewrite Ht1. done.
  - destruct (decide (k' = k)) as [->|E]; [by rewrite od_get_del|].
    rewrite od_get_del_ne, od_get_set, decide_False by done. rewrite Ht1. done.
Qed.

Lemma restore_raise_shrunk w0 start k data m c l w w' e :
  shrunk w0 w -> restore start k data m c l w = (w', Raise e) -> shrunk w0 w'.
Proof.
  intros Hw H. unfold restore, tier_gets in H. unfold bind at 1, gets, id in H.
  destruct (negb _); [by injection H as <- _|]. unfold bind at 1, when, ret in H. unfold bind at 1 in H.
  pose proof (shrunk_env w0 _ (get_metadata_no_row k) w Hw) as Hw1.
  destruct (env (on_store_at (fun now => MetadataStore.get_metadata now k MEMORY)) w) as [w1 [p|e1]];
    simpl in Hw1; [|by injection H as <- _].
  destruct (match p with Some _ => _ | None => _ end); [by injection H as <- _|].
  unfold bind at 1 in H. unfold bind at 1 in H. unfold env, on_store_at, on_store, zoom in H.
  unfold bind at 1, time_time in H.
  match type of H with context [MetadataStore.upsert ?a ?b ?c ?d] =>
    destruct (MetadataStore.upsert a b c d) as [s2 [[]|e2]] eqn:Eu end; simpl in H.
  - unfold bind at 1 in H. by apply store_result_never_raises in H.
  - injection H as <- _. apply upsert_raise_same in Eu as ->. destruct Hw1. by split.
Qed.

Lemma publish_raise_shrunk w0 start k data m c w w' e :
  shrunk w0 w -> publish start k data m c w = (w', Raise e) -> shrunk w0 w'.
Proof.
  intros Hw H.
  pose proof (ensure_capacity_shrunk w0 (zlen data - od_len k (_data (mw_tier w))) k w Hw) as Hw1.
  destruct (_ensure_capacity _ k w) as [w1 [[]|e1]] eqn:Ec; simpl in Hw1.
  2: { unfold publish in H. unfold bind at 1, tier_gets at 1, gets at 1, id in H.
       rewrite (bind_raise _ _ _ _ _ Ec) in H. by injection H as <- _. }
  rewrite (publish_run _ _ _ _ _ _ _ Ec) in H.
  set (w2 := mkMemWorld (mw_env w1) (swap_in k data (mw_tier w1))) in *. unfold bind at 1 in H.
  destruct (guarded_upsert (on_store_at (fun now => MetadataStore.upsert now
      (_location_for k m c (zlen data)) m)) k (od_get k (_data (mw_tier w1))) w2) as (He & Hr & Ht).
  destruct (try_catch _ _ w2) as [w3 [[]|e3]]; simpl in *; [by apply store_result_never_raises in H|].
  injection H as <- _. unfold on_store_at, on_store, zoom, bind, time_time in He, Hr. simpl in He, Hr.
  match type of He with context [MetadataStore.upsert ?a ?b ?c ?d] =>
    destruct (MetadataStore.upsert a b c d) as [s2 r2] eqn:Eu end. simpl in He, Hr. subst r2.
  apply upsert_raise_same in Eu. subst s2. destruct Hw1 as [S1 S2 S3]. split.
  - rewrite He. apply S1.
  - intros k' d. rewrite Ht, rolled_back_get by done. apply S2.
  - unfold mem_ok. rewrite Ht. apply rolled_back_ok; [done|].
    destruct (ensure_capacity_spec (zlen data - od_len k (_data (mw_tier w))) k w) as ((_ & Hget & _) & _ & Hfit).
    rewrite Ec in Hget, Hfit. simpl in *. apply swap_in_ok; [done|]. unfold od_len in *. rewrite Hget.
    apply Hfit; [apply Hw|done].
Qed.

(** A store that raises, at whatever point, publishes nothing: every row of
    the metadata store and every block of the tier afterwards was there before,
    unchanged, and the accounting of the tier is intact. *)
Theorem failed_store_adds_nothing k data m w w' e :
  mem_ok w -> store k data m w = (w', Raise e) ->
  mem_ok w' /\
  (forall rk r, ms_blocks (w_store w') !! rk = Some r -> ms_blocks (w_store w) !! rk = Some r) /\
  (forall k' d, od_get k' (_data (mw_tier w')) = Some d -> od_get k' (_data (mw_tier w)) = Some d).
Proof.
  intros Hok H. assert (shrunk w w) as Hw by done. revert Hw H. generalize w at 1 4 5. intros w0 Hw H.
  cut (shrunk w0 w'); [intros []; auto|]. unfold store in H. unfold bind at 1 in H.
  pose proof (shrunk_env w0 _ (proj2 clock_no_row) w Hw) as Hw1.
  destruct (env perf_counter w) as [w1 [start|e1]]; simpl in Hw1; [|by injection H as <- _].
  destruct (negb _); [by injection H as <- _|]. unfold bind at 1, when at 1, ret at 1 in H.
  unfold tier_gets in H. unfold bind at 1, gets in H.
  destruct (_ <? _); [by injection H as <- _|]. unfold bind at 1, when at 1, ret at 1 in H.
  unfold bind at 1 in H. pose proof (shrunk_env w0 _ (proj1 clock_no_row) w1 Hw1) as Hw2.
  destruct (env time_time w1) as [w2 [now|e2]]; simpl in Hw2; [|by injection H as <- _]. cbn zeta in H.
  unfold bind at 1, lift at 1 in H. destruct (validate true _) as [[]|]; [|by injection H as <- _].
  unfold bind at 1 in H.
  match type of H with context [MetadataStore.validate_payload_descriptor _ ?m'] =>
    pose proof (shrunk_env w0 _ (validate_no_row m') w2 Hw2) as Hw3 end.
  destruct (env _ w2) as [w3 [[]|e3]]; simpl in Hw3; [|by injection H as <- _].
  unfold bind at 1 in H. pose proof (lookup_shrunk w0 k w3 Hw3) as Hw4.
  destruct (lookup k w3) as [w4 [[l|]|e4]]; simpl in Hw4; [| |by injection H as <- _].
  - by eapply restore_raise_shrunk.
  - by eapply publish_raise_shrunk.
Qed.

(** A payload larger than the tier. *)
Definition large_payload : pybytes := bstr "123456789".

Definition too_large : exn := err StoreFull (str "block exceeds memory tier capacity").

Lemma failed_store_adds_nothing_witness :
  mem_ok (store sample_key large_payload sample_metadata empty_world).1 /\
  (forall rk r, ms_blocks (w_store (store sample_key large_payload sample_metadata empty_world).1) !! rk = Some r ->
     ms_blocks (w_store empty_world) !! rk = Some r) /\
  (forall k' d, od_get k' (_data (mw_tier (store sample_key large_payload sample_metadata empty_world).1)) = Some d ->
     od_get k' (_data (mw_tier empty_world)) = Some d).
Proof.
  apply (failed_store_adds_nothing sample_key large_payload sample_metadata empty_world
           (store sample_key large_payload sample_metadata empty_world).1 too_large empty_world_ok).
  vm_compute. reflexivity.
Defined.

Lemma ensure_capacity_outcomes_witness :
  exists w' r, _ensure_capacity 4 sample_key empty_world = (w', r) /\ mem_ok w'.
Proof.
  destruct (ensure_capacity_outcomes 4 sample_key empty_world empty_world_inv empty_world_ok)
    as (w' & r & H1 & H2 & _). exact (ex_intro _ w' (ex_intro _ r (conj H1 H2))).
Defined.
