(* ===== verification/CostModel.v ===== *)
(** * The cost model and the admission policies: [kvstore/cost_model.py],
    [kvstore/admission.py]

    Estimates are binary64 arithmetic, operation by operation; integers are
    converted as Python does, and an integer too large for a float raises
    [OverflowError]. *)

From Stdlib Require Import SpecFloat.
From S2P Require Import Prelude PyText Float64 Errors PyVal Metadata.
Import ResNotations.
Local Open Scope res_scope.

(** ** Numbers *)

(** The conversion of an integer operand of a float operation. *)
Definition int_to_float (z : Z) : res f64 :=
  let f := f64_of_Z z in
  if f64_finite f then Ok f else Raise (err OverflowError (str "int too large to convert to float")).

(** [z / 2**k] for integers: correctly rounded true division, exact scaling by
    a power of two. *)
Definition int_div_pow2 (z : Z) (k : Z) : res f64 :=
  let f := binary_normalize prec emax z (- k) false in
  if f64_finite f then Ok f
  else Raise (err OverflowError (str "integer division result too large for a float")).

(** [max(x, y)] returns the first argument unless the second is greater. *)
Definition py_max (x y : f64) : f64 := if f64_ltb x y then y else x.

(** [x / y]. *)
Definition float_div (x y : f64) : res f64 :=
  match y with
  | S754_zero _ => Raise (err ZeroDivisionError (str "float division by zero"))
  | _ => Ok (f64_div x y)
  end.

(** ** Profiles, requests, decisions *)

Record TierProfile := {
  fixed_latency_ms : f64;
  bandwidth_gbps : f64;
  deserialize_ms_per_mb : f64;
  h2d_bandwidth_gbps : f64;
}.

Definition nano : f64 := f64_of_decimal false 1 (-9).

Definition estimate_load_ms (p : TierProfile) (bytes_ : Z) (queue_wait_ms : f64) : res f64 :=
  let? mb := int_div_pow2 bytes_ 20 in
  let? gb := int_div_pow2 bytes_ 30 in
  let? t := float_div gb (py_max (bandwidth_gbps p) nano) in
  let transfer_ms := f64_mul t (f64_of_Z 1000) in
  let deserialize_ms := f64_mul mb (deserialize_ms_per_mb p) in
  let? h := float_div gb (py_max (h2d_bandwidth_gbps p) nano) in
  let h2d_ms := f64_mul h (f64_of_Z 1000) in
  Ok (f64_add (f64_add (f64_add (f64_add (fixed_latency_ms p) transfer_ms) deserialize_ms) h2d_ms)
        queue_wait_ms).

Record RequestContext := {
  missing_prefill_tokens : Z;
  measured_prefill_ms_per_token : f64;
  worker_queue_wait_ms : f64;
  reuse_probability : f64;
  is_reuse_heavy : bool;
}.

(** [RequestContext(missing_prefill_tokens=n)]. *)
Definition default_context (n : Z) : RequestContext :=
  {| missing_prefill_tokens := n; measured_prefill_ms_per_token := f64_of_decimal false 8 (-2);
     worker_queue_wait_ms := S754_zero false; reuse_probability := f64_of_decimal false 5 (-1);
     is_reuse_heavy := false |}.

Inductive action := a_load | a_prefetch | a_recompute.

#[global] Instance action_eq_decision : EqDecision action.
Proof. solve_decision. Defined.

Definition action_value (a : action) : pystr :=
  match a with a_load => str "load" | a_prefetch => str "prefetch" | a_recompute => str "recompute" end.

Record Decision := {
  d_action : action;
  d_tier : TierName;
  d_estimated_load_ms : f64;
  d_estimated_recompute_ms : f64;
  d_benefit_ms : f64;
  d_reason : pystr;
}.

Record CostModel := {
  profiles : TierName -> option TierProfile;
  load_benefit_threshold_ms : f64;
  s3_load_benefit_threshold_ms : f64;
  slo_budget_guard_ms : f64;
  s3_min_missing_prefill_tokens : Z;
  s3_min_reuse_probability : f64;
}.

Definition estimate_recompute_ms (ctx : RequestContext) : res f64 :=
  let? n := int_to_float (missing_prefill_tokens ctx) in
  Ok (f64_mul n (measured_prefill_ms_per_token ctx)).

(** [load_ms + self.slo_budget_guard_ms > slo_budget_ms]. *)
Definition over_budget (cm : CostModel) (load_ms : f64) (slo_budget_ms : option f64) : bool :=
  match slo_budget_ms with
  | Some b => f64_ltb b (f64_add load_ms (slo_budget_guard_ms cm))
  | None => false
  end.

Definition can_sync_load_from_s3 (cm : CostModel) (ctx : RequestContext) (load_ms : f64)
    (slo_budget_ms : option f64) : bool :=
  if missing_prefill_tokens ctx <? s3_min_missing_prefill_tokens cm then false
  else if f64_ltb (reuse_probability ctx) (s3_min_reuse_probability cm) && negb (is_reuse_heavy ctx) then false
  else if over_budget cm load_ms slo_budget_ms then false
  else true.

(** The body of the loop of [decide]. *)
Definition decide_location (cm : CostModel) (ctx : RequestContext) (slo_budget_ms : option f64)
    (recompute_ms : f64) (l : BlockLocation) : res Decision :=
  let? profile := match profiles cm (loc_tier l) with
                  | Some p => Ok p
                  | None => Raise (err KeyError (tier_value (loc_tier l)))
                  end in
  let? load_ms := estimate_load_ms profile (loc_bytes l) (worker_queue_wait_ms ctx) in
  let benefit := f64_sub recompute_ms load_ms in
  let is_s3 := bool_decide (loc_tier l = S3) in
  let threshold := if is_s3 then s3_load_benefit_threshold_ms cm else load_benefit_threshold_ms cm in
  let '(a, reason) :=
    if f64_leb benefit threshold then (a_recompute, str "recompute_better_than_load")
    else if over_budget cm load_ms slo_budget_ms then
      if is_s3 then (a_prefetch, str "s3_cold_tier_prefetch_only")
      else (a_recompute, str "slo_budget_not_enough")
    else if is_s3 && negb (can_sync_load_from_s3 cm ctx load_ms slo_budget_ms) then
      (a_prefetch, str "s3_cold_tier_prefetch_only")
    else (a_load, str "load_benefit_positive") in
  Ok {| d_action := a; d_tier := loc_tier l; d_estimated_load_ms := load_ms;
        d_estimated_recompute_ms := recompute_ms; d_benefit_ms := benefit; d_reason := reason |}.

Definition priority (a : action) : Z := match a with a_load => 0 | a_prefetch => 1 | a_recompute => 2 end.

(** [(priority[a.action], -a.benefit_ms, a.estimated_load_ms)] compared as
    tuples: the first components that are not equal decide. *)
Definition decision_ltb (a b : Decision) : bool :=
  if negb (priority (d_action a) =? priority (d_action b)) then priority (d_action a) <? priority (d_action b)
  else if negb (f64_eqb (f64_opp (d_benefit_ms a)) (f64_opp (d_benefit_ms b)))
       then f64_ltb (f64_opp (d_benefit_ms a)) (f64_opp (d_benefit_ms b))
  else if negb (f64_eqb (d_estimated_load_ms a) (d_estimated_load_ms b))
       then f64_ltb (d_estimated_load_ms a) (d_estimated_load_ms b)
  else false.

(** [decisions.sort(key=...)]: stable, by [<] on the keys. *)
Definition sort_decisions (ds : list Decision) : list Decision :=
  py_sort (fun a b => negb (decision_ltb b a)) ds.

Definition not_found (recompute_ms : f64) : Decision :=
  {| d_action := a_recompute; d_tier := MEMORY; d_estimated_load_ms := S754_zero false;
     d_estimated_recompute_ms := recompute_ms; d_benefit_ms := S754_zero false;
     d_reason := str "block_not_found" |}.

Definition decide (cm : CostModel) (locations : list BlockLocation) (ctx : RequestContext)
    (slo_budget_ms : option f64) : res Decision :=
  let? recompute_ms := estimate_recompute_ms ctx in
  match locations with
  | [] => Ok (not_found recompute_ms)
  | _ =>
      let? ds := res_list (decide_location cm ctx slo_budget_ms recompute_ms) locations in
      match sort_decisions ds with
      | d :: _ => Ok d
      | [] => Raise (err IndexError (str "list index out of range"))
      end
  end.

(** ** Admission *)

Record AdmissionDecision := { ad_admit : bool; ad_reason : pystr }.

(** [MinReuseAdmission(min_reuse_count)] and its [admit]. *)
Definition MinReuseAdmission_init (min_reuse_count : Z) : res Z :=
  if min_reuse_count <? 0 then Raise (err ValueError (str "min_reuse_count must be non-negative"))
  else Ok min_reuse_count.

Definition min_reuse_admit (min_reuse_count : Z) (reuse_count : Z) : AdmissionDecision :=
  if min_reuse_count <=? reuse_count then {| ad_admit := true; ad_reason := str "reuse_count_threshold_met" |}
  else {| ad_admit := false; ad_reason := str "reuse_count_below_threshold" |}.

(** [CostAwareAdmission.admit]. *)
Definition cost_aware_admit (cm : CostModel) (min_benefit_ms : f64) (locations : list BlockLocation)
    (ctx : RequestContext) (slo_budget_ms : option f64) : res AdmissionDecision :=
  let? d := decide cm locations ctx slo_budget_ms in
  let ok := match d_action d with a_load | a_prefetch => true | a_recompute => false end in
  Ok {| ad_admit := ok && f64_leb min_benefit_ms (d_benefit_ms d);
        ad_reason := str "cost_model_" ++ d_reason d |}.
