(* ===== verification/CostModelSpec.v ===== *)
(** * What the cost model decides

    The decision is the best of the locations' decisions; a load is only chosen
    when it pays off within the budget; the model always answers. *)

From Stdlib Require Import SpecFloat.
From S2P Require Import Prelude PyText Float64 Errors PyVal Metadata MetadataFacts CostModel.

(** ** The order of decisions *)

Definition decision_leb (a b : Decision) : bool := negb (decision_ltb b a).

(** Estimates are numbers. *)
Definition numeric (d : Decision) : Prop :=
  f64_nan (d_benefit_ms d) = false /\ f64_nan (d_estimated_load_ms d) = false.

Lemma f64_opp_nan x : f64_nan (f64_opp x) = f64_nan x.
Proof. by destruct x as [[]|[]| |[]]. Qed.

Lemma f64_eqb_rank x y :
  f64_nan x = false -> f64_nan y = false ->
  f64_eqb x y = true <-> rank_le (f64_rank x) (f64_rank y) /\ rank_le (f64_rank y) (f64_rank x).
Proof.
  intros Hx Hy. rewrite <- !f64_leb_rank, !f64_leb_cmp, (f64_cmp_antisym x y) by done.
  unfold f64_eqb, SFeqb. rewrite (SFcompare_some x y) by done. destruct (f64_cmp x y); naive_solver.
Qed.

Lemma f64_ltb_rank x y :
  f64_nan x = false -> f64_nan y = false -> f64_ltb x y = true <-> ~ rank_le (f64_rank y) (f64_rank x).
Proof.
  intros Hx Hy. rewrite f64_ltb_leb, <- f64_leb_rank, negb_true_iff by done. by rewrite not_true_iff_false.
Qed.

(** A decision as a tuple of ranks. *)
Definition tuple_le (p q : Z) (b c l m : Z * (Z * Z)) : Prop :=
  p < q \/ (p = q /\ (~ rank_le c b \/ (rank_le b c /\ rank_le c b /\ rank_le l m))).

Lemma decision_leb_rank a b :
  numeric a -> numeric b ->
  decision_leb a b = true <->
  tuple_le (priority (d_action a)) (priority (d_action b))
    (f64_rank (f64_opp (d_benefit_ms a))) (f64_rank (f64_opp (d_benefit_ms b)))
    (f64_rank (d_estimated_load_ms a)) (f64_rank (d_estimated_load_ms b)).
Proof.
  intros [A1 A2] [B1 B2]. unfold decision_leb, decision_ltb, tuple_le.
  rewrite <- f64_opp_nan in A1, B1.
  pose proof (f64_eqb_rank _ _ B1 A1) as E1. pose proof (f64_eqb_rank _ _ B2 A2) as E2.
  pose proof (f64_ltb_rank _ _ B1 A1) as L1. pose proof (f64_ltb_rank _ _ B2 A2) as L2.
  destruct (Z.eqb_spec (priority (d_action b)) (priority (d_action a))) as [Ep|Ep]; simpl.
  - destruct (f64_eqb (f64_opp (d_benefit_ms b)) _); simpl.
    + destruct (f64_eqb (d_estimated_load_ms b) _), (f64_ltb (d_estimated_load_ms b) _); simpl;
        unfold rank_le in *; naive_solver lia.
    + destruct (f64_ltb (f64_opp (d_benefit_ms b)) _); simpl; unfold rank_le in *; naive_solver lia.
  - destruct (Z.ltb_spec (priority (d_action b)) (priority (d_action a))); simpl; split; lia || done.
Qed.

Lemma rank_le_total a b : rank_le a b \/ rank_le b a.
Proof. unfold rank_le. lia. Qed.

Lemma rank_le_trans a b c : rank_le a b -> rank_le b c -> rank_le a c.
Proof. unfold rank_le. lia. Qed.

Lemma decision_leb_total a b :
  numeric a -> numeric b -> decision_leb a b = true \/ decision_leb b a = true.
Proof.
  intros Ha Hb. rewrite !decision_leb_rank by done. unfold tuple_le, rank_le. lia.
Qed.

Lemma tuple_le_trans p q r b c d l m n :
  tuple_le p q b c l m -> tuple_le q r c d m n -> tuple_le p r b d l n.
Proof. unfold tuple_le, rank_le. lia. Qed.

Lemma decision_leb_trans a b c :
  numeric a -> numeric b -> numeric c ->
  decision_leb a b = true -> decision_leb b c = true -> decision_leb a c = true.
Proof.
  intros Ha Hb Hc. rewrite !decision_leb_rank by done. apply tuple_le_trans.
Qed.

(** ** The choice *)

Lemma res_list_elem {A B} (f : A -> res B) l ys :
  res_list f l = Ok ys ->
  (forall y, y ∈ ys -> exists x, x ∈ l /\ f x = Ok y) /\ (forall x, x ∈ l -> exists y, y ∈ ys /\ f x = Ok y).
Proof.
  revert ys. induction l as [|x l IH]; simpl; intros ys H.
  - injection H as <-. split; intros ? Hy; by apply elem_of_nil in Hy.
  - apply res_bind_ok in H as (y & Hy & H). apply res_map_ok in H as (ys' & Hys & ->).
    destruct (IH _ Hys) as [H1 H2]. split; intros z [->|Hz]%elem_of_cons.
    + exists x. split; [by left|done].
    + destruct (H1 z Hz) as (x' & ? & ?). exists x'. split; [by right|done].
    + exists y. split; [by left|done].
    + destruct (H2 z Hz) as (y' & ? & ?). exists y'. split; [by right|done].
Qed.

Lemma decide_inv cm ls ctx slo d :
  ls <> [] -> CostModel.decide cm ls ctx slo = Ok d ->
  exists rc ds, estimate_recompute_ms ctx = Ok rc /\
    res_list (decide_location cm ctx slo rc) ls = Ok ds /\ head (sort_decisions ds) = Some d.
Proof.
  intros Hne H. unfold CostModel.decide in H. apply res_bind_ok in H as (rc & Hrc & H).
  destruct ls as [|l ls]; [done|]. apply res_bind_ok in H as (ds & Hds & H).
  exists rc, ds. split_and!; try done. destruct (sort_decisions ds); [done|]. by injection H as ->.
Qed.

(** What the model promises of its choice, without the sort: a load if any
    location allows one, a recomputation only if every location asks for it, and
    among equal actions the greatest benefit, then the shortest load. *)
Definition preferred (d d' : Decision) : Prop :=
  (d_action d' = a_load -> d_action d = a_load) /\
  (d_action d = a_recompute -> d_action d' = a_recompute) /\
  (d_action d = d_action d' ->
     f64_leb (d_benefit_ms d') (d_benefit_ms d) = true /\
     (f64_leb (d_benefit_ms d) (d_benefit_ms d') = true ->
      f64_leb (d_estimated_load_ms d) (d_estimated_load_ms d') = true)).

Lemma f64_leb_opp x y : f64_leb (f64_opp x) (f64_opp y) = f64_leb y x.
Proof.
  destruct x as [[]|[]| |[] mx ex], y as [[]|[]| |[] my ey]; try done;
    unfold f64_leb, SFleb; simpl; fold (Pos.compare mx my) (Pos.compare my mx);
    rewrite (Z.compare_antisym ey ex), (Pos.compare_antisym my mx);
    destruct (ey ?= ex), (my ?= mx)%positive; done.
Qed.

Lemma decision_leb_preferred a b :
  numeric a -> numeric b -> decision_leb a b = true -> preferred a b.
Proof.
  intros Ha Hb H. apply decision_leb_rank in H; [|done..].
  destruct Ha as [A1 A2], Hb as [B1 B2]. unfold preferred. rewrite <- !(f64_leb_opp (d_benefit_ms _)).
  rewrite !f64_leb_rank by (rewrite ?f64_opp_nan; done).
  unfold tuple_le in H.
  destruct (d_action a), (d_action b); simpl in H; unfold rank_le in *; naive_solver lia.
Qed.

(** C23: The decision is the one of a location, and no location has a better one:
    it loads if any location can be loaded from, recomputes only if all say so,
    and among the same action has the greatest benefit and then the shortest load
    (when the estimates are numbers). *)
Theorem decide_is_best (cm : CostModel) ls ctx slo d :
  ls <> [] -> CostModel.decide cm ls ctx slo = Ok d ->
  exists rc, estimate_recompute_ms ctx = Ok rc /\
    (exists l, l ∈ ls /\ decide_location cm ctx slo rc l = Ok d) /\
    forall l', l' ∈ ls -> exists d', decide_location cm ctx slo rc l' = Ok d' /\
      ((forall l'' d'', l'' ∈ ls -> decide_location cm ctx slo rc l'' = Ok d'' -> numeric d'') ->
       preferred d d').
Proof.
  intros Hne H. destruct (decide_inv _ _ _ _ _ Hne H) as (rc & ds & Hrc & Hds & Hh).
  destruct (res_list_elem _ _ _ Hds) as [H1 H2].
  assert (d ∈ ds) as Hd.
  { unfold sort_decisions in Hh. apply (py_sort_elem (fun a b => negb (decision_ltb b a))).
    destruct (py_sort _ ds); [done|]. injection Hh as ->. by left. }
  exists rc. split; [done|]. split; [by apply H1|]. intros l' Hl'. destruct (H2 l' Hl') as (d' & Hd' & E).
  exists d'. split; [done|]. intros Hnum.
  assert (Forall numeric ds) as Hn.
  { rewrite Forall_forall. intros x Hx. destruct (H1 x Hx) as (l & Hl & Ex). by eapply Hnum. }
  pose proof (py_sort_head_min_on _ numeric decision_leb_total decision_leb_trans d ds d' Hn Hh Hd') as Hle.
  rewrite Forall_forall in Hn. apply decision_leb_preferred; auto.
Qed.

(** A load is decided only when it pays off: the benefit exceeds the
    threshold of its tier, the estimate with its guard fits the budget, and for
    S3 the request is large and reuse likely enough. *)
Theorem load_is_justified (cm : CostModel) ls ctx slo d :
  ls <> [] -> CostModel.decide cm ls ctx slo = Ok d -> d_action d = a_load ->
  f64_leb (d_benefit_ms d)
    (if bool_decide (d_tier d = S3) then s3_load_benefit_threshold_ms cm else load_benefit_threshold_ms cm) = false /\
  d_benefit_ms d = f64_sub (d_estimated_recompute_ms d) (d_estimated_load_ms d) /\
  (forall budget, slo = Some budget ->
     f64_ltb budget (f64_add (d_estimated_load_ms d) (slo_budget_guard_ms cm)) = false) /\
  (d_tier d = S3 ->
     s3_min_missing_prefill_tokens cm <= missing_prefill_tokens ctx /\
     (f64_ltb (reuse_probability ctx) (s3_min_reuse_probability cm) = false \/ is_reuse_heavy ctx = true)).
Proof.
  intros Hne H Ha. destruct (decide_inv _ _ _ _ _ Hne H) as (rc & ds & Hrc & Hds & Hh).
  destruct (res_list_elem _ _ _ Hds) as [H1 _].
  destruct (H1 d) as (l & Hl & E).
  { apply (py_sort_elem (fun a b => negb (decision_ltb b a))). unfold sort_decisions in Hh.
    destruct (py_sort _ ds); [done|]. injection Hh as ->. by left. }
  unfold decide_location in E. apply res_bind_ok in E as (p & _ & E).
  apply res_bind_ok in E as (load_ms & _ & E). cbn zeta in E.
  destruct (f64_leb _ _) eqn:Eb; [injection E as <-; done|].
  destruct (over_budget cm load_ms slo) eqn:Eo; [destruct (bool_decide _); injection E as <-; done|].
  destruct (bool_decide (loc_tier l = S3) && _) eqn:Es; injection E as <-; [done|]. simpl in *.
  split_and!; try done.
  - intros budget ->. done.
  - intros Ht. rewrite bool_decide_eq_true_2 in Es by done. simpl in Es. apply negb_false_iff in Es.
    unfold can_sync_load_from_s3 in Es. destruct (Z.ltb_spec (missing_prefill_tokens ctx) (s3_min_missing_prefill_tokens cm)); [done|].
    destruct (f64_ltb _ _) eqn:Er; simpl in Es; [|split; [lia|by left]].
    destruct (is_reuse_heavy ctx); [split; [lia|by right]|done].
Qed.

(** ** The model answers *)

(** The guard of the divisions. *)
Lemma guarded_div x y : exists q, float_div x (py_max y nano) = Ok q.
Proof.
  assert (match nano with S754_finite false _ _ => true | _ => false end = true) as En
    by (vm_compute; reflexivity).
  unfold py_max. destruct nano as [| | |[] m e]; try done. clear En. destruct (f64_ltb y _) eqn:E.
  - exists (f64_div x (S754_finite false m e)). reflexivity.
  - exists (f64_div x y). destruct y as [[]| | |]; [discriminate E|discriminate E|reflexivity..].
Qed.

Lemma estimate_load_total p n w :
  is_ok (int_div_pow2 n 20) = true -> is_ok (int_div_pow2 n 30) = true ->
  exists v, estimate_load_ms p n w = Ok v.
Proof.
  intros H1 H2. unfold estimate_load_ms.
  destruct (int_div_pow2 n 20) as [mb|]; [|done]. destruct (int_div_pow2 n 30) as [gb|]; [|done]. simpl.
  destruct (guarded_div gb (bandwidth_gbps p)) as [t ->]. simpl.
  destruct (guarded_div gb (h2d_bandwidth_gbps p)) as [h ->]. by eexists.
Qed.

Lemma decide_location_total cm ctx slo rc l :
  profiles cm (loc_tier l) <> None ->
  is_ok (int_div_pow2 (loc_bytes l) 20) = true -> is_ok (int_div_pow2 (loc_bytes l) 30) = true ->
  exists d, decide_location cm ctx slo rc l = Ok d.
Proof.
  intros Hp H1 H2. unfold decide_location. destruct (profiles cm (loc_tier l)) as [p|]; [|done]. simpl.
  destruct (estimate_load_total p _ (worker_queue_wait_ms ctx) H1 H2) as [v ->]. simpl.
  destruct (f64_leb _ _); [by eexists|]. destruct (over_budget cm v slo); [case_bool_decide; by eexists|].
  destruct (_ && _); by eexists.
Qed.

(** The cost model always answers: with a profile for every tier it is asked
    about, and numbers that fit a float, [decide] returns a decision; the guarded
    bandwidths are never a zero divisor. *)
Theorem decide_total (cm : CostModel) ls ctx slo :
  is_ok (int_to_float (missing_prefill_tokens ctx)) = true ->
  Forall (fun l => profiles cm (loc_tier l) <> None /\ is_ok (int_div_pow2 (loc_bytes l) 20) = true /\
                   is_ok (int_div_pow2 (loc_bytes l) 30) = true) ls ->
  exists d, CostModel.decide cm ls ctx slo = Ok d.
Proof.
  intros Ht Hls. unfold CostModel.decide, estimate_recompute_ms.
  destruct (int_to_float _) as [n|]; [|done]. cbn [res_bind]. set (rc := f64_mul _ _).
  assert (exists ds, res_list (decide_location cm ctx slo rc) ls = Ok ds /\ length ds = length ls) as (ds & Hds & Hl).
  { induction Hls as [|l ls (Hp & H1 & H2) _ (ds & Hds & IH)]; simpl; [by exists []|].
    destruct (decide_location_total cm ctx slo rc l Hp H1 H2) as [d ->]. simpl. rewrite Hds.
    exists (d :: ds). simpl. by rewrite IH. }
  destruct ls as [|l ls]; [by eexists|]. rewrite Hds. cbn [res_bind].
  pose proof (py_sort_length (fun a b => negb (decision_ltb b a)) ds) as Hsl. unfold sort_decisions.
  destruct (py_sort _ ds); simpl in *; [lia|by eexists].
Qed.

(** ** A concrete model *)

Definition sample_profile (latency : Z) : TierProfile :=
  {| fixed_latency_ms := f64_of_Z latency; bandwidth_gbps := f64_of_Z 10;
     deserialize_ms_per_mb := f64_of_decimal false 2 (-2); h2d_bandwidth_gbps := f64_of_Z 24 |}.

Definition sample_model : CostModel :=
  {| profiles := fun t => Some (sample_profile (match t with MEMORY => 0 | NVME => 1 | S3 => 30 end));
     load_benefit_threshold_ms := f64_of_Z 5; s3_load_benefit_threshold_ms := f64_of_Z 50;
     slo_budget_guard_ms := f64_of_Z 100; s3_min_missing_prefill_tokens := 1024;
     s3_min_reuse_probability := f64_of_decimal false 75 (-2) |}.

Definition sample_decision : Decision :=
  match CostModel.decide sample_model [sample_location S3; sample_location NVME] (default_context 2000) None with
  | Ok d => d
  | Raise _ => not_found (f64_of_Z 0)
  end.

Lemma sample_decision_eq :
  CostModel.decide sample_model [sample_location S3; sample_location NVME] (default_context 2000) None =
  Ok sample_decision.
Proof. vm_compute. reflexivity. Qed.

Lemma sample_decision_load : d_action sample_decision = a_load /\ d_tier sample_decision = NVME.
Proof. vm_compute. split; reflexivity. Qed.

Lemma decide_is_best_witness :
  exists rc, estimate_recompute_ms (default_context 2000) = Ok rc /\
    exists l, l ∈ [sample_location S3; sample_location NVME] /\
      decide_location sample_model (default_context 2000) None rc l = Ok sample_decision.
Proof.
  destruct (decide_is_best sample_model [sample_location S3; sample_location NVME] (default_context 2000) None
    sample_decision ltac:(discriminate) sample_decision_eq) as (rc & H1 & H2 & _).
  exact (ex_intro _ rc (conj H1 H2)).
Defined.

Lemma load_is_justified_witness :
  d_benefit_ms sample_decision =
  f64_sub (d_estimated_recompute_ms sample_decision) (d_estimated_load_ms sample_decision).
Proof.
  exact (proj1 (proj2 (load_is_justified sample_model [sample_location S3; sample_location NVME]
    (default_context 2000) None sample_decision ltac:(discriminate) sample_decision_eq
    (proj1 sample_decision_load)))).
Defined.

Lemma decide_total_witness :
  exists d, CostModel.decide sample_model [sample_location S3; sample_location NVME] (default_context 2000) None = Ok d.
Proof.
  apply decide_total; [vm_compute; reflexivity|].
  apply Forall_cons_2; [split_and!; [discriminate|vm_compute; reflexivity|vm_compute; reflexivity]|].
  apply Forall_cons_2; [split_and!; [discriminate|vm_compute; reflexivity|vm_compute; reflexivity]|].
  apply Forall_nil_2.
Defined.
