(* ===== verification/BlockHash.v ===== *)
(** * Block hashes: [shared/python/blockhash.py]

    A prompt's tokens are cut into blocks; each block is hashed together with
    the hash of its parent and the fields that isolate tenants, models and
    adapters. The bytes fed to SHA-256 are written out, so that the theorems say
    what a hash commits to. *)

From S2P Require Import Prelude PyText Sha256 Errors.
Import ResNotations.
Local Open Scope res_scope.

Definition EMPTY_PARENT : pystr := replicate 64 48.

Record IsolationKey := {
  ik_tenant_id : pystr;
  ik_tenant_salt : pystr;
  ik_model_id : pystr;
  ik_model_revision : pystr;
  ik_tokenizer_revision : pystr;
  ik_lora_id : pystr;
  ik_modality_key : pystr;
  ik_cache_salt : pystr;
}.

(** [getattr(key, field) for field in FIELD_ORDER]. *)
Definition isolation_fields (k : IsolationKey) : list pystr :=
  [ik_tenant_id k; ik_tenant_salt k; ik_model_id k; ik_model_revision k; ik_tokenizer_revision k;
   ik_lora_id k; ik_modality_key k; ik_cache_salt k].

(** [struct.pack(">Q", value)]. *)
Definition pack_uint64 (value : Z) : res pybytes :=
  if (0 <=? value) && (value <? 2 ^ 64) then Ok (be_bytes 8 value)
  else Raise (err (ForeignError (str "struct.error")) (str "argument out of range")).

(** What [_write_string] and [_write_uint64] feed to the hash. *)
Definition _write_string (value : pystr) : res pybytes :=
  match utf8_encode value with
  | None => Raise (err UnicodeEncodeError (str "surrogates not allowed"))
  | Some encoded => res_map (fun n => n ++ encoded) (pack_uint64 (zlen encoded))
  end.

Definition _write_uint64 (value : Z) : res pybytes :=
  if value <? 0 then Raise (err ValueError (str "token ids must be non-negative"))
  else pack_uint64 value.

(** The input of the hash of one block. *)
Definition block_preimage (parent : pystr) (key : IsolationKey) (block : list Z) : res pybytes :=
  let? p := _write_string parent in
  let? fs := res_list _write_string (isolation_fields key) in
  let? n := _write_uint64 (zlen block) in
  let? ts := res_list _write_uint64 block in
  Ok (p ++ concat fs ++ n ++ concat ts).

(** [tokens[start : start + n] for start in range(0, len(tokens), n)], for
    positive [n]. *)
Fixpoint chunks_fuel (fuel : nat) (n : nat) (l : list Z) : list (list Z) :=
  match fuel, l with
  | S fuel', _ :: _ => take n l :: chunks_fuel fuel' n (drop n l)
  | _, _ => []
  end.

Definition chunks (n : nat) (l : list Z) : list (list Z) := chunks_fuel (length l) n l.

Fixpoint hash_chain (key : IsolationKey) (parent : pystr) (blocks : list (list Z)) : res (list pystr) :=
  match blocks with
  | [] => Ok []
  | block :: rest =>
      let? bytes := block_preimage parent key block in
      let h := sha256_hex bytes in
      let? hs := hash_chain key h rest in
      Ok (h :: hs)
  end.

Definition compute_blocks (tokens : list Z) (key : IsolationKey) (block_size_tokens : Z) : res (list pystr) :=
  ensure (negb (block_size_tokens <=? 0)) (err ValueError (str "block_size_tokens must be positive")) ;?
  hash_chain key EMPTY_PARENT (chunks (Z.to_nat block_size_tokens) tokens).

(** ** Vectors of [shared/fixtures/blockhash_vectors.json] *)

Definition vector_key (tenant : pystr) : IsolationKey :=
  {| ik_tenant_id := tenant; ik_tenant_salt := str "salt-a"; ik_model_id := str "qwen2.5-7b";
     ik_model_revision := str "rev-001"; ik_tokenizer_revision := str "tok-001";
     ik_lora_id := str "none"; ik_modality_key := str "text"; ik_cache_salt := str "cache-v1" |}.

Example vector_same_prompt_base :
  compute_blocks [1; 2; 3; 4; 5; 6; 7; 8] (vector_key (str "tenant-a")) 4 =
  Ok [str "27fe4d020eb7e9717f8b255a5509d2af6f50940b39fab9a3cd55647204070c77";
      str "760338ee25cbdb8a224de25a1785208c6f539466f61fed6b33a580d6956dc7c4"].
Proof. vm_compute. reflexivity. Qed.

Example vector_different_tenant :
  compute_blocks [1; 2; 3; 4; 5; 6; 7; 8] (vector_key (str "tenant-b")) 4 =
  Ok [str "331e5e90f877177bb7957525a96fbfa09e0a16842ac110e796f89da92e5cde0b";
      str "41e7ffc5ba3cac651f2bfdfff47585674b2931e89fc3f2c3d41c10d56b1ea612"].
Proof. vm_compute. reflexivity. Qed.

(** ** The encoding is injective *)

Lemma pack_uint64_ok z bs : pack_uint64 z = Ok bs -> bs = be_bytes 8 z /\ 0 <= z < 256 ^ Z.of_nat 8.
Proof.
  unfold pack_uint64. destruct (_ && _) eqn:E; [|done]. intros [= <-]. breflect.
  split; [done|]. change (256 ^ Z.of_nat 8) with (2 ^ 64). lia.
Qed.

Lemma pack_uint64_length z bs : pack_uint64 z = Ok bs -> length bs = 8%nat.
Proof. intros [-> _]%pack_uint64_ok. apply be_bytes_length. Qed.

Lemma pack_uint64_inj z z' bs : pack_uint64 z = Ok bs -> pack_uint64 z' = Ok bs -> z = z'.
Proof. intros [-> H]%pack_uint64_ok [E H']%pack_uint64_ok. by eapply be_bytes_inj. Qed.

Lemma write_uint64_ok z bs : _write_uint64 z = Ok bs -> pack_uint64 z = Ok bs.
Proof. unfold _write_uint64. by destruct (z <? 0). Qed.

(** A written string can be told apart from what follows it. *)
Lemma write_string_delimits s s' b b' r r' :
  _write_string s = Ok b -> _write_string s' = Ok b' -> b ++ r = b' ++ r' -> s = s' /\ r = r'.
Proof.
  unfold _write_string. destruct (utf8_encode s) as [e|] eqn:Es; [|done].
  destruct (utf8_encode s') as [e'|] eqn:Es'; [|done].
  intros (n & Hn & ->)%res_map_ok (n' & Hn' & ->)%res_map_ok E. rewrite <- !app_assoc in E.
  apply prefix_app_eq in E as [<- E]; [|by rewrite (pack_uint64_length _ _ Hn), (pack_uint64_length _ _ Hn')].
  pose proof (pack_uint64_inj _ _ _ Hn Hn') as Hl.
  apply prefix_app_eq in E as [<- E]; [|lia]. split; [|done]. by eapply utf8_encode_inj.
Qed.

Lemma write_uint64_delimits z z' b b' r r' :
  _write_uint64 z = Ok b -> _write_uint64 z' = Ok b' -> b ++ r = b' ++ r' -> z = z' /\ r = r'.
Proof.
  intros H%write_uint64_ok H'%write_uint64_ok E.
  apply prefix_app_eq in E as [<- E]; [|by rewrite (pack_uint64_length _ _ H), (pack_uint64_length _ _ H')].
  split; [|done]. by eapply pack_uint64_inj.
Qed.

(** Sequences of self-delimiting parts of the same number. *)
Lemma list_delimits {A} (f : A -> res pybytes) :
  (forall x x' b b' r r', f x = Ok b -> f x' = Ok b' -> b ++ r = b' ++ r' -> x = x' /\ r = r') ->
  forall l l' bs bs' r r', length l = length l' -> res_list f l = Ok bs -> res_list f l' = Ok bs' ->
    concat bs ++ r = concat bs' ++ r' -> l = l' /\ r = r'.
Proof.
  intros Hf. induction l as [|x l IH]; intros [|x' l'] bs bs' r r' Hl; try done; simpl.
  - by intros [= <-] [= <-].
  - intros H H' E. apply res_bind_ok in H as (b & Hb & H), H' as (b' & Hb' & H').
    apply res_map_ok in H as (t & Ht & ->), H' as (t' & Ht' & ->). simpl in E. rewrite <- !app_assoc in E.
    destruct (Hf _ _ _ _ _ _ Hb Hb' E) as [-> E']. injection Hl as Hl.
    by destruct (IH l' t t' r r' Hl Ht Ht' E') as [-> ->].
Qed.

Lemma isolation_fields_inj k k' : isolation_fields k = isolation_fields k' -> k = k'.
Proof. destruct k, k'. unfold isolation_fields. simpl. by intros [=]; subst. Qed.

(** The bytes hashed for a block determine its parent, its isolation key and its
    tokens. *)
Lemma block_preimage_inj p p' k k' b b' bs :
  block_preimage p k b = Ok bs -> block_preimage p' k' b' = Ok bs -> p = p' /\ k = k' /\ b = b'.
Proof.
  unfold block_preimage. intros H H'.
  apply res_bind_ok in H as (x1 & P & H), H' as (x1' & P' & H').
  apply res_bind_ok in H as (fs & F & H), H' as (fs' & F' & H').
  apply res_bind_ok in H as (n & N & H), H' as (n' & N' & H').
  apply res_bind_ok in H as (ts & T & H), H' as (ts' & T' & H').
  injection H as <-. injection H' as E.
  destruct (write_string_delimits _ _ _ _ _ _ P' P E) as [-> E1].
  destruct (list_delimits _ write_string_delimits (isolation_fields k') (isolation_fields k) _ _ _ _ eq_refl F' F E1) as [Ek E2].
  destruct (write_uint64_delimits _ _ _ _ _ _ N' N E2) as [El E3].
  rewrite <- (app_nil_r (concat ts)), <- (app_nil_r (concat ts')) in E3.
  assert (length b' = length b) as Hl by lia.
  destruct (list_delimits _ write_uint64_delimits _ _ _ _ _ _ Hl T' T E3) as [-> _].
  split_and!; [done|by symmetry; apply isolation_fields_inj|done].
Qed.

(** ** What a hash commits to *)

Lemma hex_digit_inj x y : 0 <= x < 16 -> 0 <= y < 16 -> hex_digit x = hex_digit y -> x = y.
Proof. unfold hex_digit. repeat case_match; lia. Qed.

Lemma hex_of_bytes_inj bs bs' : hex_of_bytes bs = hex_of_bytes bs' -> bs = bs'.
Proof.
  revert bs'. induction bs as [|b bs IH]; intros [|b' bs'] H; try done.
  unfold hex_of_bytes in *. simpl in H. injection H as E1 E2 E3.
  pose proof (byte_val_range b). pose proof (byte_val_range b').
  apply hex_digit_inj in E1; [|zdm..]. apply hex_digit_inj in E2; [|zdm..].
  f_equal; [|by apply IH]. apply byte_val_inj. zdm.
Qed.

(** The byte strings a chain hashes, one per block. *)
Fixpoint hashed_inputs (key : IsolationKey) (parent : pystr) (blocks : list (list Z)) : list pybytes :=
  match blocks with
  | [] => []
  | block :: rest =>
      match block_preimage parent key block with
      | Ok bytes => bytes :: hashed_inputs key (sha256_hex bytes) rest
      | Raise _ => []
      end
  end.

(** Two different byte strings, hashed at the same place of the two chains up to
    place [i], with the same SHA-256. *)
Definition collide_upto (i : nat) (xs ys : list pybytes) : Prop :=
  exists j x y, (j <= i)%nat /\ xs !! j = Some x /\ ys !! j = Some y /\ x <> y /\ sha256 x = sha256 y.

Lemma collide_upto_cons i x y xs ys :
  collide_upto i xs ys -> collide_upto (S i) (x :: xs) (y :: ys).
Proof. intros (j & a & b & Hj & H). exists (S j), a, b. split; [lia|done]. Qed.

Lemma collide_upto_head i x y xs ys :
  sha256_hex x = sha256_hex y -> x = y \/ collide_upto i (x :: xs) (y :: ys).
Proof.
  intros H%hex_of_bytes_inj. destruct (decide (x = y)) as [->|Hne]; [by left|].
  right. exists 0%nat, x, y. split_and!; [lia|done..].
Qed.

Lemma hash_chain_binds k k' p p' bs bs' hs hs' i h :
  hash_chain k p bs = Ok hs -> hash_chain k' p' bs' = Ok hs' -> hs !! i = Some h -> hs' !! i = Some h ->
  (p = p' /\ k = k' /\ take (S i) bs = take (S i) bs') \/
  collide_upto i (hashed_inputs k p bs) (hashed_inputs k' p' bs').
Proof.
  revert p p' bs bs' hs hs'. induction i as [|i IH]; intros p p' [|b bs] [|b' bs'] hs hs' H H'; simpl in *;
    try (injection H as <-; done); try (injection H' as <-; done);
    apply res_bind_ok in H as (x & Hx & H), H' as (x' & Hx' & H');
    apply res_bind_ok in H as (t & Ht & [= <-]), H' as (t' & Ht' & [= <-]); simpl; intros E E';
    rewrite Hx, Hx'.
  - injection E as <-. injection E' as E'. symmetry in E'.
    destruct (collide_upto_head 0 _ _ (hashed_inputs k (sha256_hex x) bs)
      (hashed_inputs k' (sha256_hex x') bs') E') as [->|]; [left|by right].
    by destruct (block_preimage_inj _ _ _ _ _ _ _ Hx Hx') as (-> & -> & ->).
  - destruct (IH _ _ _ _ _ _ Ht Ht' E E') as [(Ep & -> & Eb)|Hc]; [|right; by apply collide_upto_cons].
    destruct (collide_upto_head (S i) _ _ (hashed_inputs k' (sha256_hex x) bs)
      (hashed_inputs k' (sha256_hex x') bs') Ep) as [->|]; [left|by right].
    destruct (block_preimage_inj _ _ _ _ _ _ _ Hx Hx') as (-> & _ & ->). by rewrite Eb.
Qed.

(** ** Chunks *)

Lemma chunks_fuel_concat fuel n l : (0 < n)%nat -> (length l <= fuel)%nat -> concat (chunks_fuel fuel n l) = l.
Proof.
  intros Hn. revert l. induction fuel as [|fuel IH]; intros [|x l] Hl; simpl in *; try done; [lia|].
  destruct n as [|n]; [lia|]. simpl. rewrite IH; [|rewrite length_drop; lia]. by rewrite take_drop.
Qed.

Lemma chunks_concat n l : (0 < n)%nat -> concat (chunks n l) = l.
Proof. intros Hn. by apply chunks_fuel_concat. Qed.

Lemma chunks_fuel_more f f' n l :
  (0 < n)%nat -> (length l <= f)%nat -> (length l <= f')%nat -> chunks_fuel f n l = chunks_fuel f' n l.
Proof.
  intros Hn. revert f' l. induction f as [|f IH]; intros [|f'] [|x l] H H'; simpl in *; try done; try lia.
  f_equal. apply IH; rewrite length_drop; simpl; lia.
Qed.

Lemma chunks_app n l l' c :
  (0 < n)%nat -> length l = (c * n)%nat -> chunks n (l ++ l') = chunks n l ++ chunks n l'.
Proof.
  intros Hn. revert l. induction c as [|c IH]; intros l Hl.
  - destruct l; [done|]. simpl in Hl. lia.
  - unfold chunks at 1 2. destruct l as [|x l]; [simpl in Hl; lia|]. simpl length. simpl chunks_fuel.
    destruct n as [|n]; [lia|]. simpl.
    assert (n <= length l)%nat as Hln by (simpl in Hl; lia).
    rewrite take_app_le, drop_app_le by done. f_equal.
    rewrite (chunks_fuel_more _ (length (drop n l ++ l'))), (chunks_fuel_more (length l) (length (drop n l)));
      rewrite ?length_app, ?length_drop; try lia.
    rewrite <- length_drop, <- length_app. apply IH. rewrite length_drop. simpl in Hl. lia.
Qed.

Lemma chunks_full n l c : (0 < n)%nat -> length l = (c * n)%nat -> length (chunks n l) = c.
Proof.
  intros Hn. revert l. induction c as [|c IH]; intros l Hl.
  - by destruct l.
  - rewrite <- (take_drop n l), (chunks_app n (take n l) _ 1) by (rewrite ?length_take; lia).
    rewrite length_app, (IH (drop n l)) by (rewrite length_drop; lia).
    assert (length (take n l) = n) as Ht by (rewrite length_take; lia).
    destruct (take n l) as [|x t] eqn:E; simpl in Ht; [lia|]. unfold chunks. simpl length. simpl chunks_fuel.
    rewrite drop_ge by (simpl; lia). destruct (length t); done.
Qed.

Lemma take_chunks n i l : (0 < n)%nat -> concat (take i (chunks n l)) = take (i * n) l.
Proof.
  intros Hn. unfold chunks. assert (length l <= length l)%nat as Hl by lia. revert Hl.
  generalize (length l) at 2 3. intros f. revert f l.
  induction i as [|i IH]; intros f l Hl; [done|]. destruct f as [|f], l as [|x l]; simpl in Hl; try lia.
  1-2: by rewrite take_nil.
  cbn [chunks_fuel take concat]. rewrite IH by (rewrite length_drop; simpl; lia).
  apply take_take_drop.
Qed.

Lemma hash_chain_length k p bs hs : hash_chain k p bs = Ok hs -> length hs = length bs.
Proof.
  revert p hs. induction bs as [|b bs IH]; intros p hs H; simpl in *; [by injection H as <-|].
  apply res_bind_ok in H as (x & _ & H). apply res_bind_ok in H as (t & Ht & [= <-]). simpl.
  by rewrite (IH _ _ Ht).
Qed.

Lemma hash_chain_app k p bs bs' hs :
  hash_chain k p (bs ++ bs') = Ok hs -> hash_chain k p bs = Ok (take (length bs) hs).
Proof.
  revert p hs. induction bs as [|b bs IH]; intros p hs H; simpl in *; [done|].
  apply res_bind_ok in H as (x & -> & H). apply res_bind_ok in H as (t & Ht & [= <-]). simpl.
  by rewrite (IH _ _ Ht).
Qed.

(** C39: The i-th block hash commits to the isolation key (tenant, salts, model,
    revisions, adapter, modality) and to every token up to the end of its block:
    if two prompts agree on it, they agree on all of these, or two different
    strings hashed at the same place of the two chains have the same SHA-256. *)
Theorem block_hash_commits (tokens tokens' : list Z) (k k' : IsolationKey) n hs hs' i h :
  compute_blocks tokens k n = Ok hs -> compute_blocks tokens' k' n = Ok hs' ->
  hs !! i = Some h -> hs' !! i = Some h ->
  (k = k' /\ take ((S i) * Z.to_nat n) tokens = take ((S i) * Z.to_nat n) tokens') \/
  collide_upto i (hashed_inputs k EMPTY_PARENT (chunks (Z.to_nat n) tokens))
    (hashed_inputs k' EMPTY_PARENT (chunks (Z.to_nat n) tokens')).
Proof.
  unfold compute_blocks. intros H H' E E'.
  apply res_bind_ok in H as ([] & Hn%ensure_ok & H), H' as ([] & _ & H').
  assert (0 < Z.to_nat n)%nat as Hpos by (breflect; lia).
  destruct (hash_chain_binds _ _ _ _ _ _ _ _ _ _ H H' E E') as [(_ & -> & Eb)|]; [left|by right].
  split; [done|]. apply (f_equal (@concat Z)) in Eb.
  by rewrite !take_chunks in Eb by done.
Qed.

Definition vector_hashes : list pystr :=
  [str "27fe4d020eb7e9717f8b255a5509d2af6f50940b39fab9a3cd55647204070c77";
   str "760338ee25cbdb8a224de25a1785208c6f539466f61fed6b33a580d6956dc7c4"].

Lemma block_hash_commits_witness :
  let ts := [1; 2; 3; 4; 5; 6; 7; 8] in let k := vector_key (str "tenant-a") in
  let inputs := hashed_inputs k EMPTY_PARENT (chunks (Z.to_nat 4) ts) in
  (k = k /\ take (2 * Z.to_nat 4) ts = take (2 * Z.to_nat 4) ts) \/ collide_upto 1 inputs inputs.
Proof.
  exact (block_hash_commits [1; 2; 3; 4; 5; 6; 7; 8] [1; 2; 3; 4; 5; 6; 7; 8] (vector_key (str "tenant-a"))
    (vector_key (str "tenant-a")) 4 vector_hashes vector_hashes 1
    (str "760338ee25cbdb8a224de25a1785208c6f539466f61fed6b33a580d6956dc7c4")
    vector_same_prompt_base vector_same_prompt_base eq_refl eq_refl).
Defined.

(** Prompts share the hashes of their common whole blocks: the hashes of a
    prompt that ends at a block boundary are the first hashes of every extension
    of it, one per block. *)
Theorem shared_prefix_shares_hashes (tokens more : list Z) (k : IsolationKey) n hs c :
  length tokens = (c * Z.to_nat n)%nat -> compute_blocks (tokens ++ more) k n = Ok hs ->
  compute_blocks tokens k n = Ok (take c hs) /\ (c <= length hs)%nat.
Proof.
  unfold compute_blocks. intros Hl H. apply res_bind_ok in H as ([] & Hn & H). rewrite Hn. cbn [res_bind].
  apply ensure_ok in Hn. assert (0 < Z.to_nat n)%nat as Hpos by (breflect; lia).
  rewrite (chunks_app _ _ _ _ Hpos Hl) in H. pose proof (hash_chain_length _ _ _ _ H) as Hlen.
  apply hash_chain_app in H. rewrite (chunks_full _ _ _ Hpos Hl) in H. split; [done|].
  rewrite Hlen, length_app, (chunks_full _ _ _ Hpos Hl). lia.
Qed.

Lemma shared_prefix_shares_hashes_witness :
  compute_blocks [1; 2; 3; 4] (vector_key (str "tenant-a")) 4 = Ok (take 1 vector_hashes) /\
  (1 <= length vector_hashes)%nat.
Proof.
  exact (shared_prefix_shares_hashes [1; 2; 3; 4] [5; 6; 7; 8] (vector_key (str "tenant-a")) 4 vector_hashes 1
    eq_refl vector_same_prompt_base).
Defined.
