(* ===== verification/Tokenization.v ===== *)
(** * The approximate tokenizer: [shared/python/tokenization.py]

    A prompt is split into units (maximal ASCII words, or single other
    characters, white space skipped); the identifier of a unit is derived from
    the SHA-256 of the tokenizer revision and the unit. *)

From S2P Require Import Prelude PyText Sha256 Errors PyVal Json.
Import ResNotations.
Local Open Scope res_scope.

Definition ALGORITHM : pystr := str "approx-tokenizer-sha256-units-v1".
Definition VOCAB_MODULUS : Z := 1000000.
Definition TOKEN_ID_OFFSET : Z := 1.

Definition CONFIG : pyval :=
  PDict [(str "algorithm", PStr ALGORITHM); (str "normalization", PStr (str "none"));
         (str "unitization", PStr (str "ascii_word_or_single_nonspace_rune"));
         (str "token_hash", PStr (str "sha256(revision + NUL + unit)"));
         (str "vocab_modulus", PInt VOCAB_MODULUS); (str "token_id_offset", PInt TOKEN_ID_OFFSET);
         (str "scope", PStr (str "router_runtime_approximation"))].

Definition CONFIG_HASH : pystr :=
  match json_dumps fmt_compact CONFIG with
  | Ok t => take 16 (sha256_hex (default [] (utf8_encode t)))
  | Raise _ => []
  end.

Definition TOKENIZER_REVISION : pystr := str "approx-tokenizer-v1:config-sha256=" ++ CONFIG_HASH.

Record TokenizationResult := { tr_revision : pystr; tr_units : list pystr; tr_tokens : list Z }.

(** [ch.isspace()]. *)
Definition is_space (c : Z) : bool :=
  ((9 <=? c) && (c <=? 13)) || ((28 <=? c) && (c <=? 32)) || (c =? 133) || (c =? 160) || (c =? 5760)
  || ((8192 <=? c) && (c <=? 8202)) || (c =? 8232) || (c =? 8233) || (c =? 8239) || (c =? 8287) || (c =? 12288).

Definition is_ascii_word_char (c : Z) : bool :=
  (c =? 95) || ((48 <=? c) && (c <=? 57)) || ((65 <=? c) && (c <=? 90)) || ((97 <=? c) && (c <=? 122)).

(** [ch.isascii() and is_ascii_word_char(ch)]. *)
Definition is_word (c : Z) : bool := (c <? 128) && is_ascii_word_char c.

(** The inner loop: the longest run of word characters, and what follows. *)
Fixpoint span_word (s : pystr) : pystr * pystr :=
  match s with
  | c :: s' => if is_word c then let '(w, r) := span_word s' in (c :: w, r) else ([], s)
  | [] => ([], [])
  end.

(** The outer loop; every round consumes a character. *)
Fixpoint units_fuel (fuel : nat) (s : pystr) : list pystr :=
  match fuel, s with
  | S fuel', c :: s' =>
      if is_space c then units_fuel fuel' s'
      else if is_word c then let '(w, r) := span_word s' in (c :: w) :: units_fuel fuel' r
      else [c] :: units_fuel fuel' s'
  | _, _ => []
  end.

Definition iter_units (prompt : pystr) : list pystr := units_fuel (length prompt) prompt.

Definition encode (s : pystr) : res pybytes :=
  match utf8_encode s with
  | Some b => Ok b
  | None => Raise (err UnicodeEncodeError (str "surrogates not allowed"))
  end.

Definition token_id (unit : pystr) (tokenizer_revision : pystr) : res Z :=
  let? r := encode tokenizer_revision in
  let? u := encode unit in
  let digest := sha256 (r ++ [mk_byte 0] ++ u) in
  Ok (be_value (take 8 digest) mod VOCAB_MODULUS + TOKEN_ID_OFFSET).

Definition approximate_tokenize (prompt : pystr) (tokenizer_revision : pystr) : res TokenizationResult :=
  let units := iter_units prompt in
  let? tokens := res_list (fun u => token_id u tokenizer_revision) units in
  Ok {| tr_revision := tokenizer_revision; tr_units := units; tr_tokens := tokens |}.

(** ** Vectors of [shared/fixtures/tokenization_vectors.json] *)

Example revision_vector :
  TOKENIZER_REVISION = str "approx-tokenizer-v1:config-sha256=bae1e25ad3aa298a".
Proof. vm_compute. reflexivity. Qed.

Example vector_basic_ascii :
  approximate_tokenize (str "Hello, KV cache!") TOKENIZER_REVISION =
  Ok {| tr_revision := str "approx-tokenizer-v1:config-sha256=bae1e25ad3aa298a";
        tr_units := [str "Hello"; str ","; str "KV"; str "cache"; str "!"];
        tr_tokens := [42256; 649260; 452846; 696352; 893061] |}.
Proof. vm_compute. reflexivity. Qed.

(** ** Facts *)

Lemma span_word_app s : (span_word s).1 ++ (span_word s).2 = s.
Proof.
  induction s as [|c s IH]; simpl; [done|]. destruct (is_word c); [|done].
  destruct (span_word s). simpl in *. by rewrite IH.
Qed.

Lemma span_word_all s : Forall (fun c => is_word c = true) (span_word s).1.
Proof.
  induction s as [|c s IH]; simpl; [constructor|]. destruct (is_word c) eqn:E; [|constructor].
  destruct (span_word s). by constructor.
Qed.

Lemma span_word_stop s c r : (span_word s).2 = c :: r -> is_word c = false.
Proof.
  induction s as [|x s IH]; simpl; [done|]. destruct (is_word x) eqn:E.
  - destruct (span_word s). apply IH.
  - simpl. by intros [= <- _].
Qed.

Lemma word_not_space c : is_word c = true -> is_space c = false.
Proof. unfold is_word, is_ascii_word_char, is_space. lia. Qed.

Definition not_space (c : Z) : bool := negb (is_space c).

Lemma filter_words w : Forall (fun c => is_word c = true) w -> List.filter not_space w = w.
Proof.
  induction 1 as [|c w Hc _ IH]; simpl; [done|]. unfold not_space at 1. by rewrite word_not_space, IH.
Qed.

(** A unit is a word or a single character that is neither. *)
Definition unit_ok (u : pystr) : Prop :=
  (u <> [] /\ Forall (fun c => is_word c = true) u) \/
  (exists c, u = [c] /\ is_space c = false /\ is_word c = false).

Lemma units_fuel_spec fuel s :
  (length s <= fuel)%nat ->
  concat (units_fuel fuel s) = List.filter not_space s /\ Forall unit_ok (units_fuel fuel s).
Proof.
  revert s. induction fuel as [|fuel IH]; intros [|c s] Hl; simpl in *; try done; [lia|].
  unfold not_space at 1. destruct (is_space c) eqn:Es; simpl; [apply IH; lia|].
  destruct (is_word c) eqn:Ew.
  - pose proof (span_word_app s) as Ha. pose proof (span_word_all s) as Hw.
    destruct (span_word s) as [w r] eqn:E. simpl in *.
    destruct (IH r) as [H1 H2]; [apply (f_equal length) in Ha; rewrite length_app in Ha; lia|].
    rewrite H1, <- Ha, List.filter_app, (filter_words w) by done. split; [done|].
    constructor; [left; split; [done|by constructor]|done].
  - destruct (IH s) as [H1 H2]; [lia|]. simpl. rewrite H1. split; [done|]. constructor; [|done].
    right. by exists c.
Qed.

Lemma units_fuel_more f f' s :
  (length s <= f)%nat -> (length s <= f')%nat -> units_fuel f s = units_fuel f' s.
Proof.
  revert f' s. induction f as [|f IH]; intros [|f'] [|c s] H H'; simpl in *; try done; try lia.
  pose proof (span_word_app s) as Ha. destruct (is_space c); [apply IH; lia|].
  destruct (is_word c); [|f_equal; apply IH; lia]. destruct (span_word s) as [w r]. simpl in Ha.
  apply (f_equal length) in Ha. rewrite length_app in Ha. f_equal. apply IH; lia.
Qed.

(** Splitting loses and invents nothing: the units, put together, are the
    prompt without its white space, and each is a non-empty ASCII word or a single
    other character; so the loop reaches the end of every prompt. *)
Theorem units_cover_prompt (prompt : pystr) :
  concat (iter_units prompt) = List.filter not_space prompt /\ Forall unit_ok (iter_units prompt).
Proof. by apply units_fuel_spec. Qed.

(** Words are maximal: a unit that is a word is never followed directly, in
    the prompt, by a word character; removing one unit from the front of a prompt
    that starts with it leaves the units of the rest. *)
Theorem words_are_maximal (c : Z) (s : pystr) :
  is_word c = true ->
  exists w rest, s = w ++ rest /\ iter_units (c :: s) = (c :: w) :: iter_units rest /\
    Forall (fun x => is_word x = true) w /\ (forall x r, rest = x :: r -> is_word x = false).
Proof.
  intros Hc. exists (span_word s).1, (span_word s).2.
  pose proof (span_word_app s) as Ha. split_and!; [done| |apply span_word_all|].
  - unfold iter_units. simpl. rewrite word_not_space, Hc by done.
    destruct (span_word s) as [w r] eqn:E. simpl in *. f_equal. apply units_fuel_more;
      apply (f_equal length) in Ha; rewrite length_app in Ha; lia.
  - intros x r Hx. by eapply span_word_stop.
Qed.

(** Token identifiers are in 1 .. 1000000, and a prompt has as many tokens as
    units. *)
Theorem tokens_in_range (prompt revision : pystr) (r : TokenizationResult) :
  approximate_tokenize prompt revision = Ok r ->
  length (tr_tokens r) = length (tr_units r) /\ tr_units r = iter_units prompt /\
  Forall (fun t => 1 <= t <= 1000000) (tr_tokens r).
Proof.
  unfold approximate_tokenize. intros H. apply res_bind_ok in H as (ts & Hts & [= <-]). simpl.
  revert ts Hts. generalize (iter_units prompt) as us.
  induction us as [|u us IH]; intros ts Hts; simpl in *; [injection Hts as <-; by repeat constructor|].
  apply res_bind_ok in Hts as (t & Ht & Hts). apply res_map_ok in Hts as (ts' & Hts' & ->).
  destruct (IH _ Hts') as (H1 & _ & H2). split_and!; [by simpl; rewrite H1|done|].
  constructor; [|done]. unfold token_id in Ht. apply res_bind_ok in Ht as (? & _ & Ht).
  apply res_bind_ok in Ht as (? & _ & [= <-]). unfold VOCAB_MODULUS, TOKEN_ID_OFFSET.
  match goal with |- context [?a mod ?b] => pose proof (Z.mod_pos_bound a b ltac:(lia)) end. lia.
Qed.

Lemma words_are_maximal_witness :
  exists w rest, str "i there" = w ++ rest /\ iter_units (104 :: str "i there") = (104 :: w) :: iter_units rest /\
    Forall (fun x => is_word x = true) w /\ (forall x r, rest = x :: r -> is_word x = false).
Proof. exact (words_are_maximal 104 (str "i there") eq_refl). Defined.

Lemma tokens_in_range_witness :
  Forall (fun t => 1 <= t <= 1000000) [42256; 649260; 452846; 696352; 893061].
Proof.
  exact (proj2 (proj2 (tokens_in_range (str "Hello, KV cache!") TOKENIZER_REVISION _ vector_basic_ascii))).
Defined.
