(* ===== verification/Regex.v ===== *)
(** * Regular expressions, as Python's module [re] matches them

    The constructs the audit scripts use: sets of characters, sequences, alternatives,
    greedy repetitions, word boundaries and negative lookahead. A match is found by
    backtracking: [run] lists the ends of the matches that start at a position, in the
    order in which the engine tries them. [denotes] states the same without an order,
    and the two agree. *)

From S2P Require Import Prelude PyText Tokenization.

(** What [str.isdecimal] and [str.isalnum] say of characters outside ASCII. *)
Class CharTables := {
  uni_decimal : Z -> bool;
  uni_alnum : Z -> bool;
}.

(** A position in a text: the character before it, and what follows. *)
Definition pos : Type := option Z * pystr.

Inductive regex :=
| Eps
| Chars (p : Z -> bool)
| Cat (r1 r2 : regex)
| Alt (r1 r2 : regex)
| Repeat (least : nat) (most : option nat) (r : regex)
| Boundary
| NotAhead (r : regex).

Section Matching.
Context `{CharTables}.

(** [\d], [\s] and the characters of [\w]. *)
Definition digit (c : Z) : bool := if c <? 128 then (48 <=? c) && (c <=? 57) else uni_decimal c.
Definition word (c : Z) : bool := if c <? 128 then is_ascii_word_char c else uni_alnum c.

(** [\b]. *)
Definition at_boundary (p : pos) : bool :=
  xorb (match p.1 with Some c => word c | None => false end) (match p.2 with c :: _ => word c | [] => false end).

(** More of [r], greedily, at most [n] times; an empty match does not repeat. *)
Fixpoint more (f : pos -> list pos) (n : nat) (p : pos) : list pos :=
  match n with
  | O => [p]
  | S n => flat_map (more f n) (List.filter (fun q => (length q.2 <? length p.2)%nat) (f p)) ++ [p]
  end.

(** [r] exactly [n] times, then [k]. *)
Fixpoint times (f k : pos -> list pos) (n : nat) (p : pos) : list pos :=
  match n with
  | O => k p
  | S n => flat_map (times f k n) (f p)
  end.

Fixpoint run (r : regex) (p : pos) : list pos :=
  match r with
  | Eps => [p]
  | Chars f => match p.2 with c :: s => if f c then [(Some c, s)] else [] | [] => [] end
  | Cat r1 r2 => flat_map (run r2) (run r1 p)
  | Alt r1 r2 => run r1 p ++ run r2 p
  | Repeat least most r =>
      times (run r) (fun q => more (run r) (match most with Some m => m - least | None => length q.2 end) q) least p
  | Boundary => if at_boundary p then [p] else []
  | NotAhead r => match run r p with [] => [p] | _ => [] end
  end.

(** ** Searching *)

(** [pattern.search(text)], as a condition: the positions are tried from the left. *)
Fixpoint search_from (r : regex) (before : option Z) (s : pystr) : bool :=
  match run r (before, s) with
  | _ :: _ => true
  | [] => match s with [] => false | c :: s' => search_from r (Some c) s' end
  end.

Definition search (r : regex) (s : pystr) : bool := search_from r None s.

(** [pattern.findall(text)] for an expression without groups that matches no empty
    text: at each position the match the engine finds first. *)
Fixpoint findall_from (fuel : nat) (r : regex) (p : pos) : list pystr :=
  match fuel with
  | O => []
  | S fuel =>
      match run r p with
      | q :: _ =>
          if (length q.2 <? length p.2)%nat then take (length p.2 - length q.2) p.2 :: findall_from fuel r q
          else match p.2 with c :: s => findall_from fuel r (Some c, s) | [] => [] end
      | [] => match p.2 with c :: s => findall_from fuel r (Some c, s) | [] => [] end
      end
  end.

Definition findall (r : regex) (s : pystr) : list pystr := findall_from (length s) r (None, s).

(** ** What an expression means *)

(** [n] steps of a relation. *)
Fixpoint steps (R : pos -> pos -> Prop) (n : nat) (p q : pos) : Prop :=
  match n with
  | O => p = q
  | S n => exists m, R p m /\ steps R n m q
  end.

Fixpoint denotes (r : regex) (p q : pos) : Prop :=
  match r with
  | Eps => p = q
  | Chars f => exists c, p.2 = c :: q.2 /\ f c = true /\ q.1 = Some c
  | Cat r1 r2 => exists m, denotes r1 p m /\ denotes r2 m q
  | Alt r1 r2 => denotes r1 p q \/ denotes r2 p q
  | Repeat least most r =>
      exists n, (least <= n)%nat /\ (match most with Some m => n <= Nat.max least m | None => True end)%nat /\ steps (denotes r) n p q
  | Boundary => p = q /\ at_boundary p = true
  | NotAhead r => p = q /\ ~ exists m, denotes r p m
  end.

(** The positions of a text. *)
Fixpoint at_offset (before : option Z) (s : pystr) (i : nat) : pos :=
  match i, s with
  | O, _ | _, [] => (before, s)
  | S i, c :: s' => at_offset (Some c) s' i
  end.

(** Some part of the text matches. *)
Definition occurs (r : regex) (s : pystr) : Prop :=
  exists i q, (i <= length s)%nat /\ denotes r (at_offset None s i) q.

(** ** Facts *)

(** A match moves forward, and an empty one does not move. *)
Definition forward (p q : pos) : Prop := p = q \/ (length q.2 < length p.2)%nat.

Lemma forward_trans p q m : forward p q -> forward q m -> forward p m.
Proof. unfold forward. intros [->|Hpq] [->|Hqm]; auto. right. lia. Qed.

Lemma steps_forward (R : pos -> pos -> Prop) n : (forall p q, R p q -> forward p q) -> forall p q, steps R n p q -> forward p q.
Proof.
  intros HR. induction n as [|n IH]; intros p q; cbn; [by left|]. intros (m & Hm & Hs).
  eapply forward_trans; [by apply HR|by apply IH].
Qed.

Lemma denotes_forward r : forall p q, denotes r p q -> forward p q.
Proof.
  induction r as [|f|r1 IH1 r2 IH2|r1 IH1 r2 IH2|least most r IH| |r IH]; intros p q; cbn.
  - by left.
  - intros (c & Hc & _). right. rewrite Hc. cbn. lia.
  - intros (m & H1 & H2). eapply forward_trans; eauto.
  - intros [Hd|Hd]; auto.
  - intros (n & _ & _ & Hs). by eapply steps_forward.
  - intros [-> _]. by left.
  - intros [-> _]. by left.
Qed.

(** At most [n] steps, of which none is empty. *)
Lemma more_spec (f : pos -> list pos) (R : pos -> pos -> Prop) :
  (forall p q, q ∈ f p <-> R p q) -> (forall p q, R p q -> forward p q) ->
  forall n p q, q ∈ more f n p <-> exists k, (k <= n)%nat /\ steps R k p q.
Proof.
  intros Hf HR. induction n as [|n IH]; intros p q; cbn [more].
  { rewrite list_elem_of_singleton. split; [intros ->; by exists O|]. intros (k & Hk & Hs). assert (k = O) as -> by lia. done. }
  rewrite elem_of_app, list_elem_of_singleton, list_elem_of_In, in_flat_map. split.
  - intros [(m & Hm & Hq)| ->]; [|exists O; split; [lia|done]]. rewrite filter_In in Hm. destruct Hm as [Hm _].
    apply list_elem_of_In, Hf in Hm. apply list_elem_of_In, IH in Hq as (k & Hk & Hs). exists (S k). split; [lia|]. by exists m.
  - intros (k & Hk & Hs). revert p Hs. induction k as [|k IHk]; intros p Hs; [right; symmetry; exact Hs|]. destruct Hs as (m & Hm & Hs).
    destruct (HR _ _ Hm) as [<-|Hlt]; [apply IHk; [lia|exact Hs]|]. left. exists m. rewrite filter_In. split_and!.
    + by apply list_elem_of_In, Hf.
    + by apply Nat.ltb_lt.
    + apply list_elem_of_In, IH. exists k. split; [lia|done].
Qed.

Lemma times_spec (f k : pos -> list pos) (R K : pos -> pos -> Prop) :
  (forall p q, q ∈ f p <-> R p q) -> (forall p q, q ∈ k p <-> K p q) ->
  forall n p q, q ∈ times f k n p <-> exists m, steps R n p m /\ K m q.
Proof.
  intros Hf Hk. induction n as [|n IH]; intros p q; cbn [times steps].
  { rewrite Hk. split; [intros Hq; by exists p|]. by intros (m & -> & Hq). }
  rewrite list_elem_of_In, in_flat_map. split.
  - intros (m & Hm & Hq). apply list_elem_of_In, Hf in Hm. apply list_elem_of_In, IH in Hq as (m' & Hs & HK). eauto 6.
  - intros (m' & (m & Hm & Hs) & HK). exists m. split; [by apply list_elem_of_In, Hf|]. apply list_elem_of_In, IH. eauto.
Qed.

Lemma steps_app R a b p q : steps R (a + b) p q <-> exists m, steps R a p m /\ steps R b m q.
Proof.
  revert p. induction a as [|a IH]; intros p; cbn [steps Nat.add].
  { split; [intros Hq; by exists p|]. by intros (m & -> & Hq). }
  split.
  - intros (m & Hm & Hs). apply IH in Hs as (m' & H1 & H2). exists m'. split; [by exists m|done].
  - intros (m' & (m & Hm & H1) & H2). exists m. split; [done|]. apply IH. by exists m'.
Qed.

(** Empty steps can be left out, so there are at most as many as characters. *)
Lemma steps_shorten (R : pos -> pos -> Prop) n :
  (forall p q, R p q -> forward p q) -> forall p q, steps R n p q -> exists k, (k <= length p.2)%nat /\ (k <= n)%nat /\ steps R k p q.
Proof.
  intros HR. induction n as [|n IH]; intros p q Hs; [exists O; split_and!; [lia|lia|done]|]. destruct Hs as (m & Hm & Hs).
  apply IH in Hs as (k & Hk & Hn & Hs). destruct (HR _ _ Hm) as [<-|Hlt]; [exists k; split_and!; [lia|lia|done]|].
  exists (S k). split_and!; [lia|lia|by exists m].
Qed.

Lemma run_denotes r : forall p q, q ∈ run r p <-> denotes r p q.
Proof.
  induction r as [|f|r1 IH1 r2 IH2|r1 IH1 r2 IH2|least most r IH| |r IH]; intros p q; cbn [run denotes].
  - rewrite list_elem_of_singleton. done.
  - destruct p as [b [|c s]]; cbn; [split; [by intros ?%elem_of_nil|by intros (c & ? & _)]|]. destruct (f c) eqn:E.
    + rewrite list_elem_of_singleton. split; [intros ->; by exists c|]. destruct q as [bq sq]. cbn. by intros (c' & [= <- <-] & _ & ->).
    + split; [by intros ?%elem_of_nil|]. intros (c' & [= <- _] & Hf & _). congruence.
  - rewrite list_elem_of_In, in_flat_map. split.
    + intros (m & Hm & Hq). exists m. by rewrite <- IH1, <- IH2, !list_elem_of_In.
    + intros (m & Hm & Hq). exists m. by rewrite <- !list_elem_of_In, IH1, IH2.
  - rewrite elem_of_app. by rewrite IH1, IH2.
  - rewrite (times_spec _ _ (denotes r) (fun m q => exists k, (k <= match most with Some x => x - least | None => length m.2 end)%nat /\ steps (denotes r) k m q));
      [|exact IH|intros m x; apply more_spec; [exact IH|apply denotes_forward]].
    split.
    + intros (m & Hs & k & Hk & Hm). exists (least + k)%nat. split_and!; [lia|destruct most; [lia|done]|]. apply steps_app. by exists m.
    + intros (n & Hl & Hn & Hs). replace n with (least + (n - least))%nat in Hs by lia. apply steps_app in Hs as (m & H1 & H2).
      exists m. split; [done|]. destruct most as [x|]; [exists (n - least)%nat; split; [lia|done]|].
      apply steps_shorten in H2 as (k & Hk & _ & H2); [|apply denotes_forward]. by exists k.
  - destruct (at_boundary p); [rewrite list_elem_of_singleton|]; [naive_solver|]. split; [by intros ?%elem_of_nil|by intros [_ ?]].
  - destruct (run r p) as [|m l] eqn:E.
    + rewrite list_elem_of_singleton. split; [|by intros [-> _]]. intros ->. split; [done|]. intros (m & Hm%IH). rewrite E in Hm.
      by apply elem_of_nil in Hm.
    + split; [by intros ?%elem_of_nil|]. intros [_ Hn]. exfalso. apply Hn. exists m. apply IH. rewrite E. left.
Qed.

(** A match starts here when the list is not empty. *)
Lemma run_nil r p : run r p = [] <-> ~ exists q, denotes r p q.
Proof.
  destruct (run r p) as [|q l] eqn:E; split; try done.
  - intros _ (q & Hq%run_denotes). rewrite E in Hq. by apply elem_of_nil in Hq.
  - intros Hn. exfalso. apply Hn. exists q. apply run_denotes. rewrite E. left.
Qed.

Lemma search_from_spec r s : forall b,
  search_from r b s = true <-> exists i q, (i <= length s)%nat /\ denotes r (at_offset b s i) q.
Proof.
  induction s as [|c s IH]; intros b; cbn [search_from]; destruct (run r _) as [|q l] eqn:E.
  - split; [done|]. intros (i & q & _ & Hq). apply run_nil in E. exfalso. apply E. exists q. by destruct i.
  - split; [|done]. intros _. exists O, q. split; [lia|]. cbn. apply run_denotes. rewrite E. left.
  - rewrite IH. split.
    + intros (i & q & Hi & Hq). exists (S i), q. split; [cbn; lia|done].
    + intros ([|i] & q & Hi & Hq); [apply run_nil in E; exfalso; apply E; by exists q|]. exists i, q. split; [cbn in Hi; lia|done].
  - split; [|done]. intros _. exists O, q. split; [lia|]. cbn. apply run_denotes. rewrite E. left.
Qed.

(** Searching by backtracking finds a match exactly when one exists. *)
Lemma search_occurs r s : search r s = true <-> occurs r s.
Proof. apply search_from_spec. Qed.

(** A match of such an expression covers a character. *)
Fixpoint nonempty (r : regex) : bool :=
  match r with
  | Chars _ => true
  | Cat r1 r2 => nonempty r1 || nonempty r2
  | Alt r1 r2 => nonempty r1 && nonempty r2
  | Repeat (S _) _ r => nonempty r
  | _ => false
  end.

Lemma nonempty_shorter r : forall p q, nonempty r = true -> denotes r p q -> (length q.2 < length p.2)%nat.
Proof.
  assert (forall r p q, denotes r p q -> (length q.2 <= length p.2)%nat) as Hle.
  { intros r' p q Hd. destruct (denotes_forward _ _ _ Hd) as [->|Hlt]; lia. }
  induction r as [|f|r1 IH1 r2 IH2|r1 IH1 r2 IH2|[|least] most r IH| |r IH]; intros p q; cbn [nonempty denotes]; try done.
  - intros _ (c & -> & _). cbn. lia.
  - intros Hn (m & H1 & H2). pose proof (Hle _ _ _ H1). pose proof (Hle _ _ _ H2). apply orb_true_iff in Hn as [Hn|Hn].
    + specialize (IH1 p m Hn H1). lia.
    + specialize (IH2 m q Hn H2). lia.
  - intros [H1 H2]%andb_true_iff [Hd|Hd]; auto.
  - intros Hn (n & Hl & _ & Hs). destruct n as [|n]; [lia|]. destruct Hs as (m & Hm & Hs). specialize (IH p m Hn Hm).
    destruct (steps_forward _ n (denotes_forward r) m q Hs) as [->|Hlt]; lia.
Qed.

(** ** All matches *)

(** An expression that matches no empty text. *)
Definition consuming (r : regex) : Prop := forall p, ~ denotes r p p.

Lemma run_shorter r p q : consuming r -> q ∈ run r p -> (length q.2 < length p.2)%nat.
Proof. intros Hr Hq%run_denotes. destruct (denotes_forward _ _ _ Hq) as [<-|Hlt]; [|done]. by destruct (Hr p). Qed.

(** The number of characters left is fuel enough. *)
Lemma findall_fuel r n : forall p, (length p.2 <= n)%nat -> findall_from n r p = findall_from (length p.2) r p.
Proof.
  induction n as [n IH] using lt_wf_ind. intros [b s] Hn. cbn in Hn |- *. destruct n as [|n]; [by destruct s; [|cbn in Hn; lia]|].
  destruct s as [|c s]; cbn [length findall_from snd].
  { destruct (run r (b, [])) as [|q l]; [done|]. cbn. by destruct (length q.2 <? 0)%nat eqn:E; [apply Nat.ltb_lt in E; lia|]. }
  cbn in Hn.
  assert (findall_from n r (Some c, s) = findall_from (length s) r (Some c, s)) as Hskip by (by apply (IH n ltac:(lia) (Some c, s)); cbn; lia).
  destruct (run r (b, c :: s)) as [|q l]; [exact Hskip|]. destruct (length q.2 <? S (length s))%nat eqn:E; [|exact Hskip].
  apply Nat.ltb_lt in E. f_equal. rewrite (IH n ltac:(lia) q) by lia. symmetry. apply (IH (length s)); lia.
Qed.

(** Every text found is what a match covers. *)
Lemma findall_sound r s t : t ∈ findall r s -> exists p q, denotes r p q /\ t = take (length p.2 - length q.2) p.2 /\ p.2 `suffix_of` s.
Proof.
  unfold findall. generalize (length s) as n. assert (forall n p, p.2 `suffix_of` s -> t ∈ findall_from n r p ->
    exists p q, denotes r p q /\ t = take (length p.2 - length q.2) p.2 /\ p.2 `suffix_of` s) as Hmain; [|intros n; by apply Hmain].
  assert (forall r p q, denotes r p q -> q.2 `suffix_of` p.2) as Hsuf.
  { clear. induction r as [|f|r1 IH1 r2 IH2|r1 IH1 r2 IH2|least most r IH| |r IH]; intros p q; cbn.
    - by intros ->.
    - intros (c & -> & _). by apply suffix_cons_r.
    - intros (m & H1%IH1 & H2%IH2). by etrans.
    - intros [Hd|Hd]; auto.
    - intros (n & _ & _ & Hs). revert p Hs. induction n as [|n IHn]; intros p; cbn; [by intros ->|]. intros (m & Hm%IH & Hs%IHn). by etrans.
    - by intros [-> _].
    - by intros [-> _]. }
  induction n as [|n IH]; intros p Hp; cbn [findall_from]; [by intros ?%elem_of_nil|].
  assert (t ∈ match p.2 with [] => [] | c :: s0 => findall_from n r (Some c, s0) end ->
    exists p q, denotes r p q /\ t = take (length p.2 - length q.2) p.2 /\ p.2 `suffix_of` s) as Hskip.
  { destruct p.2 as [|c s']; [by intros ?%elem_of_nil|]. apply IH. cbn. eapply suffix_cons_l. exact Hp. }
  destruct (run r p) as [|q l] eqn:E; [exact Hskip|]. destruct (length q.2 <? length p.2)%nat; [|exact Hskip].
  assert (denotes r p q) as Hq by (apply run_denotes; rewrite E; left).
  rewrite elem_of_cons. intros [->|Ht]; [by exists p, q|]. apply (IH q); [|done]. etrans; [by eapply Hsuf|done].
Qed.

(** Nothing is found only when nothing matches. *)
Lemma findall_nil r s : consuming r -> findall r s = [] -> ~ occurs r s.
Proof.
  intros Hr. unfold findall, occurs. generalize (@None Z) as b. induction s as [|c s IH]; intros b; cbn [length findall_from snd].
  - intros _ (i & q & Hi & Hq). apply run_denotes, run_shorter in Hq; [|done]. cbn in Hi. assert (i = O) as -> by lia. cbn in Hq. lia.
  - destruct (run r (b, c :: s)) as [|q l] eqn:E.
    + intros Hn%IH ([|i] & q & Hi & Hq); [apply run_nil in E; apply E; by exists q|]. apply Hn. exists i, q. split; [cbn in Hi; lia|done].
    + assert (length q.2 < length (c :: s))%nat as Hlt by (apply (run_shorter r (b, c :: s)); [done|rewrite E; left]).
      apply Nat.ltb_lt in Hlt. cbn [length] in Hlt. by rewrite Hlt.
Qed.
End Matching.

(** ** Notation for patterns *)

Definition never : regex := NotAhead Eps.
Fixpoint cats (rs : list regex) : regex := match rs with [] => Eps | [r] => r | r :: rs => Cat r (cats rs) end.
Fixpoint alts (rs : list regex) : regex := match rs with [] => never | [r] => r | r :: rs => Alt r (alts rs) end.
Definition lit (s : pystr) : regex := cats (map (fun c => Chars (Z.eqb c)) s).
Definition opt (r : regex) : regex := Repeat 0 (Some 1%nat) r.
Definition star (r : regex) : regex := Repeat 0 None r.
Definition plus (r : regex) : regex := Repeat 1 None r.
Definition at_least (n : nat) (r : regex) : regex := Repeat n None r.
Definition exactly (n : nat) (r : regex) : regex := Repeat n (Some n) r.
Definition between (a b : nat) (r : regex) : regex := Repeat a (Some b) r.

(** Sets of characters: [one_of] the listed ones, those from [a] to [b], unions. *)
Definition one_of (s : pystr) (c : Z) : bool := existsb (Z.eqb c) s.
Definition from_to (a b : Z) (c : Z) : bool := (a <=? c) && (c <=? b).
Definition either (fs : list (Z -> bool)) (c : Z) : bool := existsb (fun f => f c) fs.

(** ** Ignoring case

    The characters that the flag identifies with [c], as far as they are ASCII: the
    letter in the other case, and for the four letters outside ASCII that have ASCII
    variants (dotted I, dotless i, long s and the sign for kelvin) these. *)
Definition variants (c : Z) : list Z :=
  c ::
  (if from_to 65 90 c then [c + 32] else []) ++ (if from_to 97 122 c then [c - 32] else []) ++
  (if (c =? 0x130) || (c =? 0x131) then [73; 105] else []) ++ (if c =? 0x17F then [83; 115] else []) ++
  (if c =? 0x212A then [75; 107] else []).

(** A pattern whose characters are ASCII, with the flag [IGNORECASE]. *)
Fixpoint ignore_case (r : regex) : regex :=
  match r with
  | Eps => Eps
  | Chars f => Chars (fun c => existsb f (variants c))
  | Cat r1 r2 => Cat (ignore_case r1) (ignore_case r2)
  | Alt r1 r2 => Alt (ignore_case r1) (ignore_case r2)
  | Repeat a b r => Repeat a b (ignore_case r)
  | Boundary => Boundary
  | NotAhead r => NotAhead (ignore_case r)
  end.
