(* ===== verification/Layout.v ===== *)
(** * Storage layout: [kvstore/layout.py]

    Every field of a block key becomes one path component, base64url-encoded
    behind a label. [resolve] is [Path.resolve], which follows the symbolic links
    of the file system and is a parameter; the theorems about the lexical path do
    not depend on it. *)

From S2P Require Import Prelude PyText Errors PyVal Json JsonFacts Metadata MetadataFacts.
Import ResNotations.
Local Open Scope res_scope.

(** ** base64.urlsafe_b64encode *)

Definition b64_char (v : Z) : Z :=
  if v <? 26 then 65 + v else if v <? 52 then 71 + v else if v <? 62 then v - 4
  else if v =? 62 then 45 else 95.

(** The characters of a group of one to three bytes, without padding. *)
Definition b64_group (a b c : Z) : list Z :=
  [b64_char (a / 4); b64_char (a mod 4 * 16 + b / 16); b64_char (b mod 16 * 4 + c / 64); b64_char (c mod 64)].

Fixpoint urlsafe_b64encode (bs : pybytes) : pystr :=
  match bs with
  | a :: b :: c :: r => b64_group (byte_val a) (byte_val b) (byte_val c) ++ urlsafe_b64encode r
  | [a; b] => take 3 (b64_group (byte_val a) (byte_val b) 0) ++ [61]
  | [a] => take 2 (b64_group (byte_val a) 0 0) ++ [61; 61]
  | [] => []
  end.

(** [s.rstrip('=')]. *)
Definition rstrip_eq (s : pystr) : pystr :=
  rev ((fix go l := match l with c :: l' => if c =? 61 then go l' else l | [] => [] end) (rev s)).

(** ** Components *)

Definition _component (label value : pystr) : res pystr :=
  match utf8_encode value with
  | None => Raise (err UnicodeEncodeError (str "surrogates not allowed"))
  | Some b => Ok (label ++ str "-v1-" ++ rstrip_eq (urlsafe_b64encode b))
  end.

Definition namespace_parts (k : BlockKey) : res (list pystr) :=
  let? tenant := _component (str "tenant") (tenant_id k) in
  let? model := _component (str "model") (model_id k) in
  let? revision := _component (str "revision") (model_revision k) in
  let? tokenizer := _component (str "tokenizer") (tokenizer_revision k) in
  let? lora := _component (str "lora") (lora_id k) in
  let? modality := _component (str "modality") (modality_key k) in
  Ok [tenant; model; revision; tokenizer; lora; modality; str "hash-v1-" ++ take 2 (block_hash k)].

Definition storage_key_parts (k : BlockKey) : res (list pystr) :=
  let? ns := namespace_parts k in
  Ok (ns ++ [str "hash-v1-" ++ block_hash k ++ str ".kv"]).

(** ** Paths *)

(** A path is the list of its components; an absolute one is below ["/"]. *)
Abbreviation path := (list pystr).

Fixpoint split_slash (s : pystr) : list pystr :=
  match s with
  | [] => [[]]
  | c :: s' =>
      match split_slash s' with
      | w :: ws => if c =? 47 then [] :: w :: ws else (c :: w) :: ws
      | [] => [[c]]
      end
  end.

(** The components pathlib keeps of a text: not the empty ones and not ["."]. *)
Definition parse_part (s : pystr) : path :=
  filter (fun c => c <> [] /\ c <> str ".") (split_slash s).

(** [p / part]: an absolute part replaces the path. *)
Definition join_part (p : path) (part : pystr) : path :=
  match part with
  | c :: _ => if c =? 47 then parse_part part else p ++ parse_part part
  | [] => p
  end.

Definition joinpath (p : path) (parts : list pystr) : path := foldl join_part p parts.

Section Resolve.
Variable resolve : path -> path.

(** [_require_descendant(root, candidate)]. *)
Definition _require_descendant (root candidate : path) : res path :=
  let resolved_root := resolve root in
  let resolved_candidate := resolve candidate in
  ensure (bool_decide (resolved_root `prefix_of` resolved_candidate))
    (err ValueError (str "generated block path escapes the configured root")) ;?
  Ok resolved_candidate.

(** [ContentAddressedLayout.block_path] and [SegmentedLayout.namespace_dir]. *)
Definition block_path (root_dir : path) (k : BlockKey) : res path :=
  let? parts := storage_key_parts k in
  _require_descendant root_dir (joinpath root_dir parts).

Definition namespace_dir (root_dir : path) (k : BlockKey) : res path :=
  let? parts := namespace_parts k in
  _require_descendant root_dir (joinpath root_dir parts).
End Resolve.

(** ** base64 facts *)

Definition b64_alphabet (c : Z) : bool :=
  ((65 <=? c) && (c <=? 90)) || ((97 <=? c) && (c <=? 122)) || ((48 <=? c) && (c <=? 57)) || (c =? 45) || (c =? 95).

Lemma b64_char_inj x y : 0 <= x < 64 -> 0 <= y < 64 -> b64_char x = b64_char y -> x = y.
Proof. unfold b64_char. repeat case_match; lia. Qed.

Lemma b64_char_alphabet x : 0 <= x < 64 -> b64_alphabet (b64_char x) = true.
Proof. unfold b64_char, b64_alphabet. repeat case_match; lia. Qed.

(** The encoding without padding. *)
Fixpoint b64_body (bs : pybytes) : pystr :=
  match bs with
  | a :: b :: c :: r => b64_group (byte_val a) (byte_val b) (byte_val c) ++ b64_body r
  | [a; b] => take 3 (b64_group (byte_val a) (byte_val b) 0)
  | [a] => take 2 (b64_group (byte_val a) 0 0)
  | [] => []
  end.

(** Induction by groups of three. *)
Lemma group_ind (P : pybytes -> Prop) :
  P [] -> (forall a, P [a]) -> (forall a b, P [a; b]) -> (forall a b c r, P r -> P (a :: b :: c :: r)) ->
  forall bs, P bs.
Proof.
  intros H0 H1 H2 H3. fix IH 1. intros [|a [|b [|c r]]]; [exact H0|apply H1|apply H2|apply H3, IH].
Qed.

Lemma group_alphabet a b c :
  0 <= a < 256 -> 0 <= b < 256 -> 0 <= c < 256 -> Forall (fun x => b64_alphabet x = true) (b64_group a b c).
Proof.
  intros Ha Hb Hc. unfold b64_group.
  repeat (apply Forall_cons_2; [apply b64_char_alphabet; zdm|]). apply Forall_nil_2.
Qed.

Lemma b64_body_alphabet bs : Forall (fun x => b64_alphabet x = true) (b64_body bs).
Proof.
  induction bs as [|a|a b|a b c r IH] using group_ind; simpl; [constructor|..];
    pose proof (byte_val_range a); try pose proof (byte_val_range b); try pose proof (byte_val_range c).
  - apply (Forall_take _ 2%nat (b64_group (byte_val a) 0 0)). apply group_alphabet; lia.
  - apply (Forall_take _ 3%nat (b64_group (byte_val a) (byte_val b) 0)). apply group_alphabet; lia.
  - apply (Forall_app_2 _ (b64_group (byte_val a) (byte_val b) (byte_val c))); [|done].
    apply group_alphabet; lia.
Qed.

Lemma rstrip_pad s n :
  Forall (fun x => b64_alphabet x = true) s -> rstrip_eq (s ++ replicate n 61) = s.
Proof.
  intros Hs. unfold rstrip_eq. rewrite rev_app_distr.
  assert (rev (replicate n 61) = replicate n 61) as ->.
  { induction n as [|n IH]; simpl; [done|]. rewrite IH. symmetry.
    change (61 :: replicate n 61) with (replicate (S n) 61). by rewrite replicate_S_end. }
  induction n as [|n IH]; simpl; [|done].
  rewrite <- (rev_involutive s) at 2. f_equal. destruct (rev s) as [|c l] eqn:E; [done|].
  assert (c ∈ s) as Hin by (apply list_elem_of_In, in_rev; rewrite E; by left).
  rewrite Forall_forall in Hs. specialize (Hs c Hin). unfold b64_alphabet in Hs.
  destruct (Z.eqb_spec c 61); [subst; done|done].
Qed.

Lemma b64_padding bs : exists n, urlsafe_b64encode bs = b64_body bs ++ replicate n 61.
Proof.
  induction bs as [|a|a b|a b c r [n IH]] using group_ind.
  - by exists 0%nat. - by exists 2%nat. - by exists 1%nat.
  - exists n. cbn [urlsafe_b64encode b64_body]. by rewrite IH, app_assoc.
Qed.

Lemma rstrip_b64 bs : rstrip_eq (urlsafe_b64encode bs) = b64_body bs.
Proof. destruct (b64_padding bs) as [n ->]. apply rstrip_pad, b64_body_alphabet. Qed.

(** Equal sextets come from equal bytes. *)
Ltac sextets :=
  repeat match goal with
         | H : b64_char _ = b64_char _ |- _ => apply b64_char_inj in H; [|zdm|zdm]
         end.

Lemma b64_body_inj bs bs' : b64_body bs = b64_body bs' -> bs = bs'.
Proof.
  revert bs'. induction bs as [|a|a b|a b c r IH] using group_ind; intros [|a' [|b' [|c' r']]] H; try done;
    cbn [b64_body b64_group app take] in H; try discriminate;
    pose proof (byte_val_range a); pose proof (byte_val_range a');
    try pose proof (byte_val_range b); try pose proof (byte_val_range b');
    try pose proof (byte_val_range c); try pose proof (byte_val_range c').
  - injection H as E1 E2. sextets. f_equal. apply byte_val_inj. zdm.
  - injection H as E1 E2 E3. sextets. f_equal; [apply byte_val_inj; zdm|f_equal; apply byte_val_inj; zdm].
  - injection H as E1 E2 E3 E4 E5. sextets. rewrite (IH r' E5).
    rewrite (byte_val_inj a a'), (byte_val_inj b b'), (byte_val_inj c c'); [done|zdm..].
Qed.

(** ** Components are safe and injective *)

Definition safe_char (c : Z) : bool := b64_alphabet c || (c =? 46).

(** A text that is one component of a path, and not a dot directory. *)
Definition safe_part (s : pystr) : Prop :=
  Forall (fun c => safe_char c = true) s /\ exists c, head s = Some c /\ c <> 46.

Lemma split_slash_safe s : Forall (fun c => safe_char c = true) s -> split_slash s = [s].
Proof.
  induction 1 as [|c s Hc _ IH]; simpl; [done|]. rewrite IH.
  destruct (Z.eqb_spec c 47); [subst; done|done].
Qed.

Lemma join_safe p s : safe_part s -> join_part p s = p ++ [s].
Proof.
  intros (Hs & c & Hh & Hc). destruct s as [|c' s]; [done|]. injection Hh as ->.
  unfold join_part, parse_part. rewrite split_slash_safe by done.
  rewrite filter_cons, decide_True.
  - destruct (Z.eqb_spec c 47) as [->|Hne]; [by apply Forall_cons in Hs as [? _]|done].
  - split; [done|]. intros [= -> _]. done.
Qed.

Lemma joinpath_safe p parts : Forall safe_part parts -> joinpath p parts = p ++ parts.
Proof.
  intros H. revert p. induction H as [|s parts Hs _ IH]; intros p; simpl; [by rewrite app_nil_r|].
  rewrite IH, join_safe by done. by rewrite <- app_assoc.
Qed.

Lemma component_inv label value s :
  _component label value = Ok s ->
  exists b, utf8_encode value = Some b /\ s = label ++ str "-v1-" ++ b64_body b.
Proof.
  unfold _component. destruct (utf8_encode value) as [b|]; [|done]. intros [= <-].
  rewrite rstrip_b64. eauto.
Qed.

Lemma component_inj label v v' s : _component label v = Ok s -> _component label v' = Ok s -> v = v'.
Proof.
  intros (b & Hb & ->)%component_inv (b' & Hb' & E)%component_inv.
  do 2 apply app_inv_head in E. apply b64_body_inj in E as ->. by eapply utf8_encode_inj.
Qed.

Lemma component_safe label v s :
  safe_part label -> _component label v = Ok s -> safe_part s.
Proof.
  intros (Hl & c & Hh & Hc) (b & _ & ->)%component_inv. split.
  - apply Forall_app_2; [done|]. apply Forall_app_2; [by repeat (apply Forall_cons_2; [reflexivity|]); apply Forall_nil_2|].
    eapply Forall_impl; [apply b64_body_alphabet|]. intros x Hx. unfold safe_char. simpl. by rewrite Hx.
  - exists c. split; [|done]. by destruct label.
Qed.

Lemma label_safe s : forallb safe_char s = true -> (exists c, head s = Some c /\ c <> 46) -> safe_part s.
Proof. intros H1 H2. split; [by apply Forall_forallb|done]. Qed.

Lemma hash_safe n h : hex_fullmatch n h = true -> Forall (fun c => safe_char c = true) h.
Proof.
  unfold hex_fullmatch. rewrite andb_true_iff, Forall_forallb. intros [_ H].
  eapply Forall_impl; [exact H|]. intros c. simpl. unfold is_lower_hex, safe_char, b64_alphabet. lia.
Qed.

Lemma namespace_parts_inv k ps :
  namespace_parts k = Ok ps ->
  exists a b c d e f, ps = [a; b; c; d; e; f; str "hash-v1-" ++ take 2 (block_hash k)] /\
    _component (str "tenant") (tenant_id k) = Ok a /\ _component (str "model") (model_id k) = Ok b /\
    _component (str "revision") (model_revision k) = Ok c /\
    _component (str "tokenizer") (tokenizer_revision k) = Ok d /\
    _component (str "lora") (lora_id k) = Ok e /\ _component (str "modality") (modality_key k) = Ok f.
Proof.
  unfold namespace_parts. intros H. next_check H H1. next_check H H2. next_check H H3. next_check H H4.
  next_check H H5. next_check H H6. injection H as <-. eauto 20.
Qed.

Lemma hash_part_safe h n suffix :
  hex_fullmatch n h = true -> Forall (fun c => safe_char c = true) suffix ->
  safe_part (str "hash-v1-" ++ h ++ suffix).
Proof.
  intros Hh Hs. split; [|by eexists].
  apply Forall_app_2; [by apply Forall_forallb; vm_compute|]. apply Forall_app_2; [by eapply hash_safe|done].
Qed.

Lemma storage_parts_safe k ps :
  key_valid k = true -> storage_key_parts k = Ok ps -> Forall safe_part ps.
Proof.
  intros [_ Hh]%key_valid_parts H. unfold storage_key_parts in H. apply res_bind_ok in H as (ns & Hns & [= <-]).
  apply namespace_parts_inv in Hns as (a & b & c & d & e & f & -> & H1 & H2 & H3 & H4 & H5 & H6).
  assert (forall l, forallb safe_char l = true -> (exists c, head l = Some c /\ c <> 46) ->
            forall v s, _component l v = Ok s -> safe_part s) as Hc
    by (intros; eapply component_safe; [by apply label_safe|done]).
  simpl. repeat (apply Forall_cons_2;
    [first [eapply Hc; [| |eassumption]; [vm_compute; reflexivity|eexists; split; [reflexivity|done]]|idtac]|]).
  - split; [|by eexists]. apply (Forall_app_2 _ (str "hash-v1-")); [by apply Forall_forallb; vm_compute|].
    apply Forall_take. by eapply hash_safe.
  - eapply (hash_part_safe _ 64); [exact Hh|]. by apply Forall_forallb; vm_compute.
  - apply Forall_nil_2.
Qed.

Lemma str_ok_encodes s : str_ok s = true -> exists b, utf8_encode s = Some b.
Proof.
  unfold str_ok. induction s as [|c s IH]; simpl; [eauto|]. rewrite andb_true_iff. intros [Hc Hs].
  destruct (IH Hs) as [b ->]. unfold utf8_char. rewrite Hc. cbn [negb]. repeat case_match; simplify_eq; eauto.
Qed.

Lemma component_total label v : str_ok v = true -> exists s, _component label v = Ok s.
Proof.
  intros Hv. unfold _component. destruct (str_ok_encodes v Hv) as [b ->]. by eexists.
Qed.

Lemma storage_parts_total k : key_valid k = true -> exists ps, storage_key_parts k = Ok ps /\ length ps = 8%nat.
Proof.
  intros [Hk _]%key_valid_parts. cbn [forallb] in Hk. rewrite !andb_true_iff in Hk. destruct_and!.
  unfold storage_key_parts, namespace_parts.
  destruct (component_total (str "tenant") (tenant_id k)) as [? ->]; [done|].
  destruct (component_total (str "model") (model_id k)) as [? ->]; [done|].
  destruct (component_total (str "revision") (model_revision k)) as [? ->]; [done|].
  destruct (component_total (str "tokenizer") (tokenizer_revision k)) as [? ->]; [done|].
  destruct (component_total (str "lora") (lora_id k)) as [? ->]; [done|].
  destruct (component_total (str "modality") (modality_key k)) as [? ->]; [done|].
  eexists. split; [reflexivity|]. reflexivity.
Qed.

Lemma storage_parts_inj k k' ps :
  storage_key_parts k = Ok ps -> storage_key_parts k' = Ok ps -> k = k'.
Proof.
  unfold storage_key_parts. intros H H'. apply res_bind_ok in H as (ns & Hns & E), H' as (ns' & Hns' & E').
  apply namespace_parts_inv in Hns as (a & b & c & d & e & f & -> & H1 & H2 & H3 & H4 & H5 & H6).
  apply namespace_parts_inv in Hns' as (a' & b' & c' & d' & e' & f' & -> & H1' & H2' & H3' & H4' & H5' & H6').
  assert (forall (x y : list pystr), Ok x = Ok y -> x = y) as Hinj by (by intros ?? [=]).
  apply Hinj in E, E'. subst ps. cbn [app] in E'. pose proof (f_equal last E') as Eh. cbn [last] in Eh.
  apply (inj Some), app_inv_head, app_inv_tail in Eh.
  assert (a' = a /\ b' = b /\ c' = c /\ d' = d /\ e' = e /\ f' = f) as (-> & -> & -> & -> & -> & ->)
    by (split_and!; congruence).
  apply (component_inj _ _ _ _ H1) in H1'. apply (component_inj _ _ _ _ H2) in H2'.
  apply (component_inj _ _ _ _ H3) in H3'. apply (component_inj _ _ _ _ H4) in H4'.
  apply (component_inj _ _ _ _ H5) in H5'. apply (component_inj _ _ _ _ H6) in H6'.
  destruct k, k'. simpl in *. congruence.
Qed.

(** ** Components of resolved paths *)

(** One component of a resolved path. *)
Definition component_ok (c : pystr) : Prop :=
  c <> [] /\ c <> str "." /\ c <> str ".." /\ 47 ∉ c /\ 0 ∉ c /\ str_ok c = true.

Lemma safe_component s : safe_part s -> component_ok s.
Proof.
  intros (Hs & c & Hh & Hc). rewrite Forall_forall in Hs.
  assert (forall x, x ∈ s -> safe_char x = true) as Hin by auto. split_and!.
  - by intros ->.
  - intros ->. by injection Hh as <-.
  - intros ->. by injection Hh as <-.
  - intros H%Hin. done.
  - intros H%Hin. done.
  - unfold str_ok. rewrite Forall_forallb, Forall_forall. intros x Hx%Hin.
    unfold safe_char, b64_alphabet in Hx. unfold is_scalar, is_surrogate. lia.
Qed.

Lemma split_slash_app a b : 47 ∉ a -> split_slash (a ++ 47 :: b) = a :: split_slash b.
Proof.
  assert (forall s, split_slash s <> []) as Hne.
  { intros s. destruct s as [|x s]; simpl; [done|]. destruct (split_slash s); [done|]. by destruct (x =? 47). }
  induction a as [|x a IH]; simpl; intros Hc.
  - destruct (split_slash b) eqn:E; [by destruct (Hne b)|done].
  - apply not_elem_of_cons in Hc as [Hx Ha]. rewrite (IH Ha). by destruct (Z.eqb_spec x 47).
Qed.

Lemma split_slash_none a : 47 ∉ a -> split_slash a = [a].
Proof.
  induction a as [|x a IH]; simpl; [done|]. intros [Hx Ha]%not_elem_of_cons. rewrite (IH Ha).
  by destruct (Z.eqb_spec x 47).
Qed.

Lemma split_join p : Forall component_ok p -> p <> [] -> split_slash (join [47] p) = p.
Proof.
  induction 1 as [|c p Hc Hp IH]; [done|]. intros _. destruct p as [|c' p].
  - apply split_slash_none, Hc.
  - change (join [47] (c :: c' :: p)) with (c ++ 47 :: join [47] (c' :: p)).
    rewrite split_slash_app by apply Hc. by rewrite IH.
Qed.

Lemma storage_components k ps : key_valid k = true -> storage_key_parts k = Ok ps -> Forall component_ok ps.
Proof.
  intros Hk Hps. pose proof (storage_parts_safe k ps Hk Hps) as Hs.
  eapply Forall_impl; [exact Hs|apply safe_component].
Qed.

(** Whatever text a valid key holds (slashes, dots, NULs, any Unicode), its
    path is the root followed by exactly eight components of safe characters:
    none holds a separator, none is a dot directory, so the joined path cannot
    leave the root. *)
Theorem block_path_components (root : path) (k : BlockKey) :
  key_valid k = true ->
  exists ps, storage_key_parts k = Ok ps /\ length ps = 8%nat /\ joinpath root ps = root ++ ps /\
    Forall (fun s => 47 ∉ s /\ 0 ∉ s /\ s <> [] /\ s <> str "." /\ s <> str "..") ps.
Proof.
  intros Hk. destruct (storage_parts_total k Hk) as (ps & Hps & Hl). exists ps.
  pose proof (storage_parts_safe k ps Hk Hps) as Hsafe. split_and!; [done|done|by apply joinpath_safe|].
  eapply Forall_impl; [exact Hsafe|]. intros s (Hs & c & Hh & Hc). rewrite Forall_forall in Hs.
  split_and!; intros H; [apply Hs in H; done|apply Hs in H; done|subst; done| |]; subst s;
    injection Hh as <-; done.
Qed.

Lemma block_path_components_witness :
  exists ps, storage_key_parts sample_key = Ok ps /\ length ps = 8%nat /\
    joinpath [str "srv"; str "kv"] ps = [str "srv"; str "kv"] ++ ps /\
    Forall (fun s => 47 ∉ s /\ 0 ∉ s /\ s <> [] /\ s <> str "." /\ s <> str "..") ps.
Proof. exact (block_path_components [str "srv"; str "kv"] sample_key sample_key_valid). Defined.

(** With no symbolic link below the root, every valid key has a block path,
    below the resolved root, and different keys (different in any field) have
    different paths. *)
Theorem block_paths_distinct (resolve : path -> path) (root : path) (k k' : BlockKey) :
  (forall q, resolve (root ++ q) = resolve root ++ q) -> key_valid k = true -> key_valid k' = true ->
  exists p p', block_path resolve root k = Ok p /\ block_path resolve root k' = Ok p' /\
    resolve root `prefix_of` p /\ (p = p' -> k = k').
Proof.
  intros Hlink Hk Hk'.
  assert (forall k0 ps, key_valid k0 = true -> storage_key_parts k0 = Ok ps ->
            block_path resolve root k0 = Ok (resolve root ++ ps)) as Hbp.
  { intros k0 ps H0 Hps. unfold block_path. rewrite Hps. cbn [res_bind].
    rewrite (joinpath_safe root ps (storage_parts_safe k0 ps H0 Hps)). unfold _require_descendant.
    rewrite Hlink, bool_decide_eq_true_2 by (by exists ps). done. }
  destruct (storage_parts_total k Hk) as (ps & Hps & _), (storage_parts_total k' Hk') as (ps' & Hps' & _).
  exists (resolve root ++ ps), (resolve root ++ ps'). split_and!; [auto|auto|by exists ps|].
  intros ->%app_inv_head. by eapply storage_parts_inj.
Qed.

Lemma block_paths_distinct_witness :
  exists p p', block_path id [str "srv"] sample_key = Ok p /\ block_path id [str "srv"] sample_key = Ok p' /\
    id [str "srv"] `prefix_of` p /\ (p = p' -> sample_key = sample_key).
Proof.
  exact (block_paths_distinct id [str "srv"] sample_key sample_key (fun q => eq_refl) sample_key_valid sample_key_valid).
Defined.
