(* ===== verification/Record.v ===== *)
(** * Payload records: [kvstore/record.py] and the framing of [kvstore/nvme_tier.py]

    A record is the magic bytes, the length of a JSON header, the header and the
    payload. A file is the list of its bytes; [f.read(n)] takes from the front. *)

From S2P Require Import Prelude PyText Sha256 Float64 Errors PyVal Json JsonFacts Metadata MetadataFacts.
Import ResNotations.
Local Open Scope res_scope.

Definition MAGIC : pybytes := bstr "KVBLK001".
Definition RECORD_VERSION : Z := 1.
Definition MAX_HEADER_BYTES : Z := 64 * 1024.

(** [HEADER_LEN_STRUCT.pack] and [unpack]: a big-endian 32-bit integer. *)
Definition HEADER_LEN_SIZE : nat := 4.
Definition header_len_pack (n : Z) : pybytes := be_bytes HEADER_LEN_SIZE n.
Definition header_len_unpack (b : pybytes) : Z := be_value b.

(** ** Headers *)

Definition encode_record_header (header : pyval) : res pybytes :=
  let? t := json_dumps fmt_compact header in
  match utf8_encode t with
  | None => Raise (err UnicodeEncodeError (str "surrogates not allowed"))
  | Some encoded =>
      ensure (negb (bool_decide (encoded = []) || (MAX_HEADER_BYTES <? zlen encoded)))
        (err ValueError (str "record header exceeds the 65536-byte protocol limit")) ;?
      Ok encoded
  end.

Definition format_error (source what : pystr) : exn := err RecordFormatError (source ++ what).

Definition check_header_layout (source : pystr) (d : list (pystr * pyval)) : res unit :=
  let v := get_or_none (str "layout_mode") d in
  if negb (hashable v) then Raise (err TypeError (str "unhashable type"))
  else ensure (py_eq v (PStr (str "content_addressed")) || py_eq v (PStr (str "segment")))
         (format_error source (str ": invalid layout_mode")).

Definition decode_record_header (now : f64) (raw_header : pybytes) (source : pystr)
    (max_payload_bytes : Z) (require_layout_mode : bool) : res (list (pystr * pyval)) :=
  ensure (negb (bool_decide (raw_header = []) || (MAX_HEADER_BYTES <? zlen raw_header)))
    (format_error source (str ": invalid record header length")) ;?
  let? header := res_catch (json_loads_bytes raw_header) [UnicodeDecodeError; JSONDecodeError]
    (fun e => Raise (err_from RecordFormatError (source ++ str ": invalid record header JSON") e)) in
  match header with
  | PDict d =>
      let version := get_or_none (str "version") d in
      ensure (negb (is_bool version || negb (py_eq version (PInt RECORD_VERSION))))
        (format_error source (str ": unsupported record version")) ;?
      let payload_bytes := get_or_none (str "payload_bytes") d in
      ensure (match payload_bytes with PInt z => negb ((z <? 0) || (max_payload_bytes <? z)) | _ => false end)
        (format_error source (str ": invalid payload_bytes")) ;?
      let checksum := get_or_none (str "checksum") d in
      ensure (match checksum with PStr s => hex_fullmatch 64 s | _ => false end)
        (format_error source (str ": invalid checksum")) ;?
      (if require_layout_mode then check_header_layout source d else Ok tt) ;?
      ensure (is_dict (get_or_none (str "metadata") d))
        (format_error source (str ": metadata must be an object")) ;?
      let? m := res_catch
        (let? m := from_dict now (get_or_none (str "metadata") d) in res_map (fun _ => m) (validate true m))
        [KeyError; TypeError; ValueError]
        (fun e => Raise (err_from RecordFormatError (source ++ str ": invalid metadata") e)) in
      ensure (py_eq (md_bytes m) payload_bytes && py_eq (md_checksum m) checksum)
        (format_error source (str ": metadata bytes/checksum do not match record header")) ;?
      Ok d
  | _ => Raise (format_error source (str ": record header must be an object"))
  end.

(** ** Records *)

(** The header of a stored block ([NVMeTier.store]). *)
Definition record_header (layout_mode checksum : pystr) (n : Z) (metadata : pyval) : pyval :=
  PDict [(str "version", PInt RECORD_VERSION); (str "layout_mode", PStr layout_mode);
         (str "checksum", PStr checksum); (str "payload_bytes", PInt n); (str "metadata", metadata)].

(** What [_write_tmp] and [_append_segment_record] write. *)
Definition record_bytes (encoded_header data : pybytes) : pybytes :=
  MAGIC ++ header_len_pack (zlen encoded_header) ++ encoded_header ++ data.

Definition payload_size (d : list (pystr * pyval)) : Z :=
  match get_or_none (str "payload_bytes") d with PInt z => z | _ => 0 end.

(** [_read_record(f, source, read_payload)]: the header, the payload and the
    rest of the file. *)
Definition _read_record (now : f64) (max_bytes : Z) (f : pybytes) (source : pystr) (read_payload : bool)
  : res (list (pystr * pyval) * pybytes * pybytes) :=
  ensure (bool_decide (take 8 f = MAGIC)) (err ChecksumMismatch source) ;?
  let f := drop 8 f in
  let raw_len := take HEADER_LEN_SIZE f in
  ensure (bool_decide (length raw_len = HEADER_LEN_SIZE)) (format_error source (str ": truncated header length")) ;?
  let f := drop HEADER_LEN_SIZE f in
  let header_len := header_len_unpack raw_len in
  ensure (negb ((header_len <=? 0) || (MAX_HEADER_BYTES <? header_len)))
    (format_error source (str ": invalid record header length")) ;?
  let raw_header := take (Z.to_nat header_len) f in
  ensure (zlen raw_header =? header_len) (format_error source (str ": truncated record header")) ;?
  let f := drop (Z.to_nat header_len) f in
  let? header := decode_record_header now raw_header source max_bytes true in
  if negb read_payload then Ok (header, [], f) else
  let payload := take (Z.to_nat (payload_size header)) f in
  ensure (zlen payload =? payload_size header) (err ChecksumMismatch (source ++ str ": truncated payload")) ;?
  Ok (header, payload, drop (Z.to_nat (payload_size header)) f).

(** [_read_file(path)]: one record and nothing after it. *)
Definition _read_file (now : f64) (max_bytes : Z) (f : pybytes) (source : pystr)
  : res (list (pystr * pyval) * pybytes) :=
  let? (hp, rest) := _read_record now max_bytes f source true in
  ensure (bool_decide (rest = [])) (format_error source (str ": trailing bytes after payload")) ;?
  Ok hp.

(** [_read_segment_record(ref)] on the contents of the segment file. *)
Definition _read_segment_record (now : f64) (max_bytes : Z) (f : pybytes) (source : pystr)
    (offset record_size : Z) : res (list (pystr * pyval) * pybytes) :=
  let tail := drop (Z.to_nat offset) f in
  let? (hp, rest) := _read_record now max_bytes tail source true in
  ensure (negb ((0 <? record_size) && negb (zlen tail - zlen rest =? record_size)))
    (err ChecksumMismatch source) ;?
  Ok hp.

(** ** Facts *)

(** The keys of a header. *)
Definition header_items (layout_mode checksum : pystr) (n : Z) (metadata : pyval) : list (pystr * pyval) :=
  [(str "version", PInt RECORD_VERSION); (str "layout_mode", PStr layout_mode);
   (str "checksum", PStr checksum); (str "payload_bytes", PInt n); (str "metadata", metadata)].

Lemma header_nodup mode c n md : NoDup (header_items mode c n md).*1.
Proof. by apply (bool_decide_unpack _); vm_compute. Qed.

Definition norm_header (mode c : pystr) (n : Z) (md : pyval) : list (pystr * pyval) :=
  maybe_sort true (on_values (json_norm fmt_compact) (header_items mode c n md)).

Lemma norm_header_get mode c n md k :
  get_or_none k (norm_header mode c n md) =
  default PNone (json_norm fmt_compact <$> dict_get k (header_items mode c n md)).
Proof. unfold get_or_none, norm_header. by rewrite norm_dict_get by apply header_nodup. Qed.

Definition layout_ok (mode : pystr) : Prop := mode = str "content_addressed" \/ mode = str "segment".

Lemma encode_header_inv header b :
  encode_record_header header = Ok b ->
  exists t, json_dumps fmt_compact header = Ok t /\ utf8_encode t = Some b /\ b <> [] /\ zlen b <= MAX_HEADER_BYTES.
Proof.
  unfold encode_record_header. intros H. apply res_bind_ok in H as (t & Ht & H).
  destruct (utf8_encode t) as [e|] eqn:E; [|done]. apply res_bind_ok in H as ([] & Hl%ensure_ok & [= ->]).
  exists t. breflect. split_and!; done.
Qed.

(** The items of a header that describes a block: the four fields every reader
    checks, and the layout where it is required. *)
Record describes (rl : bool) (its : list (pystr * pyval)) (c : pystr) (n : Z) (d : pyval) : Prop := {
  de_nodup : NoDup its.*1;
  de_version : dict_get (str "version") its = Some (PInt RECORD_VERSION);
  de_size : dict_get (str "payload_bytes") its = Some (PInt n);
  de_sum : dict_get (str "checksum") its = Some (PStr c);
  de_metadata : dict_get (str "metadata") its = Some d;
  de_layout : rl = true -> exists mode, dict_get (str "layout_mode") its = Some (PStr mode) /\ layout_ok mode;
}.

Definition norm_items (its : list (pystr * pyval)) : list (pystr * pyval) :=
  maybe_sort true (on_values (json_norm fmt_compact) its).

Lemma norm_items_get its k :
  NoDup its.*1 -> get_or_none k (norm_items its) = default PNone (json_norm fmt_compact <$> dict_get k its).
Proof. intros H. unfold get_or_none, norm_items. by rewrite norm_dict_get. Qed.

(** What the decoder checks of the header of a storable block. *)
Lemma decode_items now source rl its m d n c maxb b :
  storable m = true -> to_dict m = Ok d -> md_bytes m = PInt n -> md_checksum m = PStr c ->
  describes rl its c n d -> json_ok (PDict its) = true -> 0 <= n <= maxb ->
  encode_record_header (PDict its) = Ok b ->
  decode_record_header now b source maxb rl = Ok (norm_items its).
Proof.
  intros Hm Hd Hn Hc [Hnd E1 E2 E3 E4 E5] Hj Hmax Hb. pose proof (storable_inv m Hm) as (Hty & Hk & _).
  destruct (to_dict_items m Hty) as (shape & Hs & Hd'). rewrite Hd in Hd'. injection Hd' as ->.
  set (d := PDict (metadata_items m (map PInt shape))) in *.
  destruct (ty_checksum m Hty) as (c' & Ec & Hc'). rewrite Hc in Ec. injection Ec as <-.
  apply encode_header_inv in Hb as (t & Ht & Hu & Hne & Hl).
  unfold decode_record_header. rewrite (bool_decide_eq_false_2 (b = [])) by done. cbn [orb].
  destruct (Z.ltb_spec MAX_HEADER_BYTES (zlen b)); [lia|]. cbn [negb ensure res_bind].
  unfold json_loads_bytes. rewrite (utf8_decode_encode t b Hu), (json_loads_dumps _ _ _ Ht Hj).
  cbn [res_catch res_bind]. rewrite json_norm_dict.
  change (maybe_sort (sort_keys fmt_compact) _) with (norm_items its).
  rewrite !norm_items_get, E1, E2, E3, E4 by done.
  cbn [option_fmap option_map fmap from_option json_norm id default]. cbn [is_bool orb negb py_eq].
  change (RECORD_VERSION =? RECORD_VERSION) with true. cbn [negb ensure res_bind].
  destruct (Z.ltb_spec n 0); [lia|]. destruct (Z.ltb_spec maxb n); [lia|]. cbn [orb negb ensure res_bind].
  unfold _BLOCK_HASH_RE in Hc'. rewrite Hc'. cbn [ensure res_bind].
  assert ((if rl then check_header_layout source (norm_items its) else Ok tt) = Ok tt) as ->.
  { destruct rl; [|done]. destruct (E5 eq_refl) as (mode & Em & Hmode). unfold check_header_layout.
    rewrite norm_items_get, Em by done. cbn [option_fmap option_map fmap from_option json_norm id default hashable negb py_eq].
    by destruct Hmode as [-> | ->]. }
  cbn [res_bind]. unfold d. rewrite json_norm_dict. cbn [is_dict ensure res_bind].
  rewrite <- json_norm_dict, (from_dict_items fmt_compact now m shape Hty Hk Hs). cbn [res_bind].
  assert (validate true m = Ok tt) as Hv.
  { unfold storable in Hm. rewrite !andb_true_iff in Hm. destruct Hm as [[[[Hv _] _] _] _].
    by destruct (validate true m) as [[]|]. }
  rewrite (validate_norm fmt_compact m Hv). cbn [res_map res_bind res_catch norm_metadata md_bytes md_checksum].
  rewrite Hn, Hc. cbn [py_eq]. rewrite Z.eqb_refl, bool_decide_eq_true_2 by done. done.
Qed.

Lemma header_describes mode c n d : layout_ok mode -> describes true (header_items mode c n d) c n d.
Proof. intros Hm. split; [apply header_nodup|done..|]. intros _. by exists mode. Qed.

Lemma decode_encoded now source mode m d n c maxb b :
  storable m = true -> to_dict m = Ok d -> md_bytes m = PInt n -> md_checksum m = PStr c ->
  layout_ok mode -> 0 <= n <= maxb ->
  encode_record_header (record_header mode c n d) = Ok b ->
  decode_record_header now b source maxb true = Ok (norm_header mode c n d).
Proof.
  intros Hm Hd Hn Hc Hmode Hmax Hb. eapply (decode_items now source true (header_items mode c n d)); try done.
  - by apply header_describes.
  - pose proof (storable_inv m Hm) as (Hty & Hk & _). destruct (to_dict_items m Hty) as (shape & Hs & Hd').
    rewrite Hd in Hd'. injection Hd' as ->. pose proof (items_json_ok m shape Hm Hs) as Hjm.
    destruct (ty_checksum m Hty) as (c' & Ec & Hc'). rewrite Hc in Ec. injection Ec as <-.
    apply json_ok_dict_iff. split; [apply header_nodup|].
    repeat (apply Forall_cons_2; [split; [vm_compute; reflexivity|]|]); try apply Forall_nil_2; try done.
    + destruct Hmode as [-> | ->]; vm_compute; reflexivity.
    + by apply (hex_fullmatch_str_ok 64).
Qed.

(** ** Reading records *)

(** Every way [_read_record] can return. *)
Lemma read_record_inv now maxb f source rp h p rest :
  _read_record now maxb f source rp = Ok (h, p, rest) ->
  exists raw, f = MAGIC ++ header_len_pack (zlen raw) ++ raw ++ p ++ rest /\
    0 < zlen raw <= MAX_HEADER_BYTES /\ decode_record_header now raw source maxb true = Ok h /\
    (if rp then zlen p = payload_size h else p = []).
Proof.
  unfold _read_record. intros H.
  apply res_bind_ok in H as ([] & Hm%ensure_ok & H). apply res_bind_ok in H as ([] & Hl%ensure_ok & H).
  apply res_bind_ok in H as ([] & Hr%ensure_ok & H). apply res_bind_ok in H as ([] & Hz%ensure_ok & H).
  apply res_bind_ok in H as (h' & Hd & H). apply bool_decide_eq_true in Hm. apply bool_decide_eq_true in Hl.
  set (f1 := drop 8 f) in *. set (f2 := drop HEADER_LEN_SIZE f1) in *.
  set (n := header_len_unpack (take HEADER_LEN_SIZE f1)) in *. breflect.
  exists (take (Z.to_nat n) f2). rewrite Hz.
  assert (header_len_pack n = take HEADER_LEN_SIZE f1) as ->.
  { unfold header_len_pack, n, header_len_unpack. rewrite <- Hl at 1. apply be_bytes_value. }
  rewrite <- Hm. destruct rp; simpl negb in H; cbv iota in H.
  - apply res_bind_ok in H as ([] & Hp%ensure_ok & [= <- <- <-]). breflect.
    split_and!; try lia; try done.
    by rewrite !take_drop; unfold f2; rewrite take_drop; unfold f1; rewrite take_drop.
  - injection H as <- <- <-. split_and!; try lia; try done.
    by rewrite app_nil_l, take_drop; unfold f2; rewrite take_drop; unfold f1; rewrite take_drop.
Qed.

(** The converse: a framed header that decodes is read back with its payload. *)
Lemma read_record_framed now maxb source raw h p rest :
  0 < zlen raw <= MAX_HEADER_BYTES -> decode_record_header now raw source maxb true = Ok h ->
  zlen p = payload_size h ->
  _read_record now maxb (record_bytes raw p ++ rest) source true = Ok (h, p, rest).
Proof.
  intros Hl Hd Hp. unfold _read_record, record_bytes. rewrite <- !app_assoc.
  rewrite (take_app_length' MAGIC), (drop_app_length' MAGIC) by done.
  rewrite bool_decide_eq_true_2 by done. cbn [ensure res_bind].
  rewrite take_app_length', drop_app_length' by (symmetry; apply be_bytes_length).
  rewrite bool_decide_eq_true_2 by apply be_bytes_length. cbn [ensure res_bind].
  assert (header_len_unpack (header_len_pack (zlen raw)) = zlen raw) as ->.
  { apply be_value_bytes. unfold MAX_HEADER_BYTES in Hl.
    change (256 ^ Z.of_nat HEADER_LEN_SIZE) with 4294967296. lia. }
  destruct (Z.leb_spec (zlen raw) 0); [lia|]. destruct (Z.ltb_spec MAX_HEADER_BYTES (zlen raw)); [lia|].
  cbn [orb negb ensure res_bind]. rewrite take_app_length', drop_app_length' by lia.
  rewrite Z.eqb_refl. cbn [ensure res_bind]. rewrite Hd. cbn [res_bind negb].
  rewrite <- Hp, take_app_length', drop_app_length' by lia. by rewrite Z.eqb_refl.
Qed.

(** Every way [_read_record] can raise: its own format checks, or the header. *)
Lemma read_record_raise now maxb f source e :
  _read_record now maxb f source true = Raise e ->
  (is_a e RecordFormatError = true \/ is_a e ChecksumMismatch = true) \/
  exists raw tail, f = MAGIC ++ header_len_pack (zlen raw) ++ raw ++ tail /\
    0 < zlen raw <= MAX_HEADER_BYTES /\ decode_record_header now raw source maxb true = Raise e.
Proof.
  unfold _read_record. intros H.
  destruct (bool_decide (take 8 f = MAGIC)) eqn:E1; [|injection H as <-; left; by right].
  cbn [ensure res_bind] in H.
  destruct (bool_decide (length _ = _)) eqn:E2 in H; [|injection H as <-; left; by left].
  cbn [ensure res_bind] in H. destruct (negb _) eqn:E3 in H; [|injection H as <-; left; by left].
  cbn [ensure res_bind] in H. destruct (zlen _ =? _) eqn:E4 in H; [|injection H as <-; left; by left].
  cbn [ensure res_bind] in H. destruct (decode_record_header _ _ _ _ _) as [h|e'] eqn:E5.
  - cbn [res_bind negb] in H. destruct (zlen _ =? _) in H; [done|]. injection H as <-. left. by right.
  - injection H as ->. right. apply bool_decide_eq_true in E1. apply bool_decide_eq_true in E2.
    eexists _, _. split; [|split; [|exact E5]].
    + apply Z.eqb_eq in E4. rewrite E4. unfold header_len_pack, header_len_unpack.
      rewrite <- E2 at 1. by rewrite be_bytes_value, <- E1, !take_drop.
    + breflect. lia.
Qed.

(** A framed header in front of a record is that record's header. *)
Lemma framed_prefix raw tail x b data :
  0 < zlen raw <= MAX_HEADER_BYTES -> 0 < zlen b <= MAX_HEADER_BYTES ->
  (MAGIC ++ header_len_pack (zlen raw) ++ raw ++ tail) ++ x = record_bytes b data ->
  raw = b /\ tail ++ x = data.
Proof.
  unfold record_bytes, MAX_HEADER_BYTES. intros Hr Hb E. rewrite <- !app_assoc in E.
  apply (app_inv_head MAGIC) in E. apply app_inj_1 in E as [El E].
  2: { unfold header_len_pack. by rewrite !be_bytes_length. }
  apply be_bytes_inj in El; [|change (256 ^ Z.of_nat HEADER_LEN_SIZE) with 4294967296; lia..].
  apply app_inj_1 in E; [done|lia].
Qed.

(** Every way [decode_record_header] can return. *)
Lemma decode_inv now raw source maxb rl h :
  decode_record_header now raw source maxb rl = Ok h ->
  exists m c z, get_or_none (str "payload_bytes") h = PInt z /\ 0 <= z <= maxb /\
    get_or_none (str "checksum") h = PStr c /\ hex_fullmatch 64 c = true /\
    from_dict now (get_or_none (str "metadata") h) = Ok m /\ validate true m = Ok tt /\
    py_eq (md_bytes m) (PInt z) = true /\ md_checksum m = PStr c.
Proof.
  unfold decode_record_header. intros H. apply res_bind_ok in H as ([] & _ & H).
  apply res_bind_ok in H as (header & _ & H). destruct header as [| | | | | | | |d]; try done.
  apply res_bind_ok in H as ([] & _ & H). apply res_bind_ok in H as ([] & Hz%ensure_ok & H).
  apply res_bind_ok in H as ([] & Hc%ensure_ok & H). apply res_bind_ok in H as ([] & _ & H).
  apply res_bind_ok in H as ([] & _ & H). apply res_bind_ok in H as (m & Hm & H).
  apply res_bind_ok in H as ([] & He%ensure_ok & [= <-]).
  destruct (get_or_none (str "payload_bytes") d) as [| |z| | | | | |]; try done.
  destruct (get_or_none (str "checksum") d) as [| | | |c| | | |]; try done.
  exists m, c, z. apply andb_true_iff in He as [E1 E2].
  assert (from_dict now (get_or_none (str "metadata") d) = Ok m /\ validate true m = Ok tt) as [Hf Hv].
  { destruct (from_dict _ _) as [m'|e] eqn:Ef; [|by destruct (_ : exn) in Hm; cbn in Hm; case_match].
    cbn [res_bind] in Hm. destruct (validate true m') as [[]|e] eqn:Ev; cbn in Hm; [|by case_match].
    injection Hm as <-. done. }
  breflect. split_and!; try done; try lia.
  by destruct (md_checksum m) as [| | | |c'| | | |]; cbn in E2; try done; apply bool_decide_eq_true in E2 as ->.
Qed.

(** What the store writes for a block of [m]: [encode_record_header] accepts the
    header and the payload is as long as [m] says. *)
Record written (mode : pystr) (m : KVMetadata) (maxb : Z) (b data : pybytes) : Prop := {
  wr_md : storable m = true;
  wr_mode : layout_ok mode;
  wr_size : md_bytes m = PInt (zlen data) /\ zlen data <= maxb;
  wr_header : exists d c, to_dict m = Ok d /\ md_checksum m = PStr c /\
    encode_record_header (record_header mode c (zlen data) d) = Ok b }.

(** The header a reader gets of such a record. *)
Record header_of (mode : pystr) (m : KVMetadata) (n : Z) (h : list (pystr * pyval)) : Prop := {
  ho_items : exists d c, to_dict m = Ok d /\ md_checksum m = PStr c /\ h = norm_header mode c n d;
  ho_mode : get_or_none (str "layout_mode") h = PStr mode;
  ho_sum : get_or_none (str "checksum") h = md_checksum m;
  ho_size : payload_size h = n;
  ho_metadata now : from_dict now (get_or_none (str "metadata") h) = Ok (norm_metadata fmt_compact m);
}.

Lemma written_header mode m maxb b data :
  written mode m maxb b data ->
  0 < zlen b <= MAX_HEADER_BYTES /\
  exists h, header_of mode m (zlen data) h /\ forall now source, decode_record_header now b source maxb true = Ok h.
Proof.
  intros [Hm Hmode [Hn Hmax] (d & c & Hd & Hc & Hb)]. pose proof (encode_header_inv _ _ Hb) as (t & Ht & Hu & Hne & Hl).
  split; [destruct b; [done|]; simpl in *; lia|]. exists (norm_header mode c (zlen data) d). split; cycle 1.
  - intros now source. by eapply decode_encoded; eauto with lia.
  - pose proof (storable_inv m Hm) as (Hty & Hk & _). destruct (to_dict_items m Hty) as (shape & Hs & Hd').
    split; [by exists d, c|by rewrite norm_header_get|by rewrite norm_header_get, Hc| |].
    + unfold payload_size. by rewrite norm_header_get.
    + intros now. rewrite norm_header_get. rewrite Hd in Hd'. injection Hd' as ->.
      change (dict_get (str "metadata") _) with (Some (PDict (metadata_items m (map PInt shape)))).
      cbn [fmap option_fmap option_map default]. by apply from_dict_items.
Qed.

(** The record reads back, alone in its file or between other bytes. *)
Lemma written_record_reads mode m maxb b data :
  written mode m maxb b data ->
  exists h, header_of mode m (zlen data) h /\
    (forall now source, _read_file now maxb (record_bytes b data) source = Ok (h, data)) /\
    (forall now source pre post, _read_segment_record now maxb (pre ++ record_bytes b data ++ post) source
       (zlen pre) (zlen (record_bytes b data)) = Ok (h, data)).
Proof.
  intros (Hl & h & Hh & Hd)%written_header. exists h. pose proof (ho_size _ _ _ _ Hh) as Hp. split_and!; [done| |].
  - intros now source. unfold _read_file. rewrite <- (app_nil_r (record_bytes b data)).
    by rewrite (read_record_framed now maxb source b h data []).
  - intros now source pre post. unfold _read_segment_record. rewrite drop_app_length' by lia.
    rewrite (read_record_framed now maxb source b h data post) by done. cbn [res_bind].
    by rewrite length_app, Nat2Z.inj_add, Z.add_simpl_r, Z.eqb_refl, andb_false_r.
Qed.

(** ** Properties *)

(** Records round trip. The bytes the tier writes for a block, a temporary file
    of its own or a record appended to a segment between other bytes, read back as
    the same payload and a header whose metadata is the stored metadata (as JSON
    represents it). *)
Theorem stored_record_reads_back now mode m maxb b data pre post source :
  written mode m maxb b data ->
  exists h, _read_file now maxb (record_bytes b data) source = Ok (h, data) /\
    _read_segment_record now maxb (pre ++ record_bytes b data ++ post) source
      (zlen pre) (zlen (record_bytes b data)) = Ok (h, data) /\
    payload_size h = zlen data /\
    from_dict now (get_or_none (str "metadata") h) = Ok (norm_metadata fmt_compact m).
Proof.
  intros (h & Hh & H1 & H2)%written_record_reads. exists h. split_and!; [apply H1|apply H2|apply Hh|apply Hh].
Qed.

(** The sample block as a record. *)
Definition sample_record_header : pybytes :=
  match encode_record_header (record_header (str "segment") sample_checksum 3
          (match to_dict sample_metadata with Ok d => d | Raise _ => PNone end)) with
  | Ok b => b | Raise _ => [] end.

Lemma sample_written : written (str "segment") sample_metadata 1024 sample_record_header sample_payload.
Proof.
  split.
  - exact sample_storable.
  - by right.
  - split; [reflexivity|]. vm_compute. discriminate.
  - exists (match to_dict sample_metadata with Ok d => d | Raise _ => PNone end), sample_checksum.
    split_and!; vm_compute; reflexivity.
Qed.

Lemma stored_record_reads_back_witness :
  exists h, _read_file (f64_of_Z 100) 1024 (record_bytes sample_record_header sample_payload) (str "p") =
              Ok (h, sample_payload).
Proof.
  destruct (stored_record_reads_back (f64_of_Z 100) (str "segment") sample_metadata 1024
              sample_record_header sample_payload [] [] (str "p") sample_written) as (h & H & _).
  by exists h.
Defined.

(** Torn writes are detected. Whatever prefix of a record a crash leaves in its
    file, and whatever is appended to it, [_read_file] refuses the file with one of
    the two corruption errors instead of returning a short or padded payload. *)
Theorem torn_record_rejected now mode m maxb b data k junk source :
  written mode m maxb b data ->
  (k < length (record_bytes b data))%nat -> junk <> [] ->
  (exists e, _read_file now maxb (take k (record_bytes b data)) source = Raise e /\
     (is_a e RecordFormatError = true \/ is_a e ChecksumMismatch = true)) /\
  (exists e, _read_file now maxb (record_bytes b data ++ junk) source = Raise e /\
     is_a e RecordFormatError = true).
Proof.
  intros (Hl & h & Hh & Hd')%written_header Hk Hj. pose proof (ho_size _ _ _ _ Hh) as Hp. pose proof (Hd' now source) as Hd.
  clear Hd'. split.
  - set (f := take k _). assert (f ++ drop k (record_bytes b data) = record_bytes b data) as Hf by apply take_drop.
    unfold _read_file. destruct (_read_record now maxb f source true) as [[[h' p'] rest]|e] eqn:E.
    + exfalso. apply read_record_inv in E as (raw & Ef & Hr & Hd' & Hp'). rewrite Ef in Hf.
      apply framed_prefix in Hf as [-> Ht]; [|lia..]. rewrite Hd in Hd'. injection Hd' as <-.
      assert (length f = length (record_bytes b data)) as Hlen.
      { apply (f_equal length) in Ht. rewrite Ef. unfold record_bytes. rewrite !length_app in *. lia. }
      unfold f in Hlen. rewrite length_take in Hlen. lia.
    + exists e. split; [done|]. apply read_record_raise in E as [?|(raw & tail & Ef & Hr & Hd')]; [done|].
      rewrite Ef in Hf. apply framed_prefix in Hf as [-> _]; [|lia..]. by rewrite Hd in Hd'.
  - unfold _read_file. rewrite (read_record_framed now maxb source b h data junk) by done. cbn [res_bind].
    rewrite bool_decide_eq_false_2 by done. eexists. split; reflexivity.
Qed.

Lemma torn_record_rejected_witness :
  exists e, _read_file (f64_of_Z 100) 1024 (take 20 (record_bytes sample_record_header sample_payload)) (str "p") = Raise e.
Proof.
  destruct (torn_record_rejected (f64_of_Z 100) (str "segment") sample_metadata 1024
              sample_record_header sample_payload 20 [Byte.x00] (str "p") sample_written) as [(e & H & _) _].
  - apply Nat.ltb_lt. vm_compute. reflexivity.
  - discriminate.
  - by exists e.
Defined.

(** Whatever bytes a record file holds, a read that returns has checked them:
    the file is the magic, the length, a header and exactly the payload; the
    header's metadata object is valid metadata for a block of that size and of the
    header's checksum; and the payload is within the tier's budget. *)
Theorem accepted_record_consistent now maxb f source h p :
  _read_file now maxb f source = Ok (h, p) ->
  exists raw m c, f = record_bytes raw p /\ zlen raw <= MAX_HEADER_BYTES /\ zlen p <= maxb /\
    get_or_none (str "checksum") h = PStr c /\ hex_fullmatch 64 c = true /\
    from_dict now (get_or_none (str "metadata") h) = Ok m /\ validate true m = Ok tt /\
    py_eq (md_bytes m) (PInt (zlen p)) = true /\ md_checksum m = PStr c.
Proof.
  unfold _read_file. intros H. apply res_bind_ok in H as ([[h' p'] rest] & Hr & H).
  apply res_bind_ok in H as ([] & He%ensure_ok & [= -> ->]). apply bool_decide_eq_true in He as ->.
  apply read_record_inv in Hr as (raw & -> & Hl & Hd & Hp).
  apply decode_inv in Hd as (m & c & z & Hz & Hb & Hc & Hx & Hf & Hv & E1 & E2).
  unfold payload_size in Hp. rewrite Hz in Hp. subst z. exists raw, m, c. rewrite app_nil_r.
  split_and!; try done; lia.
Qed.

Lemma accepted_record_consistent_witness :
  exists raw c, record_bytes sample_record_header sample_payload = record_bytes raw sample_payload /\
    hex_fullmatch 64 c = true.
Proof.
  destruct (written_record_reads _ _ _ _ _ sample_written) as (h & _ & H & _).
  destruct (accepted_record_consistent (f64_of_Z 100) 1024 _ (str "p") h sample_payload (H _ _))
    as (raw & m & c & E & _ & _ & _ & Hc & _). exists raw, c. split; [exact E|exact Hc].
Defined.

(** A well-formed header except for its [layout_mode]. *)
Definition unhashable_mode_header : pybytes :=
  match to_dict sample_metadata with
  | Ok d =>
      match encode_record_header (PDict [(str "version", PInt 1); (str "layout_mode", PList []);
              (str "checksum", PStr sample_checksum); (str "payload_bytes", PInt 3); (str "metadata", d)]) with
      | Ok b => b | Raise _ => [] end
  | Raise _ => [] end.

(** A header whose [layout_mode] is a JSON array escapes the format check: the
    set membership test raises [TypeError], which is not one of the corruption
    errors, while the same header with a string in its place is reported as a
    [RecordFormatError]. *)
Theorem unhashable_layout_mode_escapes :
  match _read_record (f64_of_Z 100) 1024 (record_bytes unhashable_mode_header sample_payload) (str "p") true with
  | Ok _ => False
  | Raise e => is_a e TypeError = true /\ is_a e RecordFormatError = false /\ is_a e ChecksumMismatch = false
  end.
Proof. vm_compute. split_and!; reflexivity. Qed.
