(* ===== verification/Url.v ===== *)
(** * URLs: the parts of [urllib.parse] the persistent tiers use

    [quote], [unquote], [urlparse] and [parse_qs], with [int()] on text. Where
    Python consults Unicode tables (digits outside ASCII, and the checks of
    internationalized or bracketed hosts), the tables are the class
    [UnicodeData]. *)

From S2P Require Import Prelude PyText Float64 Errors Json.
Import ResNotations.
Local Open Scope res_scope.

Class UnicodeData := {
  (** the checks [urlsplit] makes of a host with brackets or outside ASCII *)
  netloc_ok : pystr -> bool;
  (** [int()] of a text that is not ASCII *)
  int_of_unicode : pystr -> option Z;
}.

(** ** Splitting *)

(** [s.partition(c)] when [c] occurs. *)
Fixpoint split_first (c : Z) (s : pystr) : option (pystr * pystr) :=
  match s with
  | [] => None
  | x :: s' => if x =? c then Some ([], s')
               else match split_first c s' with Some (a, b) => Some (x :: a, b) | None => None end
  end.

(** [s.split(c)]. *)
Fixpoint split_char (c : Z) (s : pystr) : list pystr :=
  match s with
  | [] => [[]]
  | x :: s' =>
      match split_char c s' with
      | w :: ws => if x =? c then [] :: w :: ws else (x :: w) :: ws
      | [] => [[x]]
      end
  end.

(** The longest prefix whose characters satisfy [p], and the rest. *)
Fixpoint span (p : Z -> bool) (s : pystr) : pystr * pystr :=
  match s with
  | [] => ([], [])
  | x :: s' => if p x then let '(a, b) := span p s' in (x :: a, b) else ([], s)
  end.

(** ** Percent encoding *)

Definition is_ascii (c : Z) : bool := (0 <=? c) && (c <? 128).

(** The characters [quote(s, safe="/")] leaves alone. *)
Definition url_safe (c : Z) : bool :=
  ((65 <=? c) && (c <=? 90)) || ((97 <=? c) && (c <=? 122)) || is_digit c ||
  (c =? 95) || (c =? 46) || (c =? 45) || (c =? 126) || (c =? 47).

Definition upper_hex (v : Z) : Z := if v <? 10 then 48 + v else 55 + v.

Definition quote_byte (b : Byte.byte) : pystr :=
  let v := byte_val b in
  if url_safe v then [v] else [37; upper_hex (v / 16); upper_hex (v mod 16)].

(** [quote(s, safe="/")]. *)
Definition quote (s : pystr) : res pystr :=
  match utf8_encode s with
  | None => Raise (err UnicodeEncodeError (str "surrogates not allowed"))
  | Some bs => Ok (concat (map quote_byte bs))
  end.

Fixpoint unquote_to_bytes (s : pystr) : pybytes :=
  match s with
  | [] => []
  | c :: s' =>
      match s' with
      | h1 :: h2 :: s'' =>
          match (if c =? 37 then hex_val h1 else None), hex_val h2 with
          | Some a, Some b => mk_byte (a * 16 + b) :: unquote_to_bytes s''
          | _, _ => mk_byte c :: unquote_to_bytes s'
          end
      | _ => mk_byte c :: unquote_to_bytes s'
      end
  end.

Definition replacement : Z := 0xFFFD.

(** The second byte of a sequence of three or four, after the first byte [v]. *)
Definition second_ok (v : Z) (b : Byte.byte) : bool :=
  let x := byte_val b in
  is_cont b && negb ((v =? 0xE0) && (x <? 0xA0)) && negb ((v =? 0xED) && (0xA0 <=? x)) &&
  negb ((v =? 0xF0) && (x <? 0x90)) && negb ((v =? 0xF4) && (0x90 <=? x)).

(** [bs.decode("utf-8", "replace")]: every maximal invalid part becomes U+FFFD. *)
Fixpoint utf8_replace (bs : pybytes) : pystr :=
  match bs with
  | [] => []
  | b0 :: r0 =>
      let v := byte_val b0 in
      if v <? 0x80 then v :: utf8_replace r0
      else if (0xC2 <=? v) && (v <? 0xE0) then
        match r0 with
        | b1 :: r1 =>
            if is_cont b1 then ((v - 0xC0) * 64 + cont_val b1) :: utf8_replace r1
            else replacement :: utf8_replace r0
        | [] => [replacement]
        end
      else if (0xE0 <=? v) && (v <? 0xF0) then
        match r0 with
        | b1 :: r1 =>
            if second_ok v b1 then
              match r1 with
              | b2 :: r2 =>
                  if is_cont b2
                  then ((v - 0xE0) * 4096 + cont_val b1 * 64 + cont_val b2) :: utf8_replace r2
                  else replacement :: utf8_replace r1
              | [] => [replacement]
              end
            else replacement :: utf8_replace r0
        | [] => [replacement]
        end
      else if (0xF0 <=? v) && (v <? 0xF5) then
        match r0 with
        | b1 :: r1 =>
            if second_ok v b1 then
              match r1 with
              | b2 :: r2 =>
                  if is_cont b2 then
                    match r2 with
                    | b3 :: r3 =>
                        if is_cont b3
                        then ((v - 0xF0) * 262144 + cont_val b1 * 4096 + cont_val b2 * 64 + cont_val b3)
                               :: utf8_replace r3
                        else replacement :: utf8_replace r2
                    | [] => [replacement]
                    end
                  else replacement :: utf8_replace r1
              | [] => [replacement]
              end
            else replacement :: utf8_replace r0
        | [] => [replacement]
        end
      else replacement :: utf8_replace r0
  end.

(** The maximal runs of ASCII and of other characters. *)
Fixpoint ascii_runs (s : pystr) : list (bool * pystr) :=
  match s with
  | [] => []
  | c :: s' =>
      match ascii_runs s' with
      | (b, run) :: rest =>
          if Bool.eqb b (is_ascii c) then (b, c :: run) :: rest else (is_ascii c, [c]) :: (b, run) :: rest
      | [] => [(is_ascii c, [c])]
      end
  end.

(** [unquote(s)], where undecodable bytes are replaced. *)
Definition unquote (s : pystr) : pystr :=
  if bool_decide (37 ∈ s)
  then concat (map (fun br : bool * pystr => if br.1 then utf8_replace (unquote_to_bytes br.2) else br.2) (ascii_runs s))
  else s.

(** [unquote(s, errors="strict")]. *)
Definition unquote_strict (s : pystr) : res pystr :=
  if bool_decide (37 ∈ s)
  then res_map (@concat Z)
         (res_list (fun br : bool * pystr =>
            if br.1 then
              match utf8_decode (unquote_to_bytes br.2) with
              | Some t => Ok t
              | None => Raise (err UnicodeDecodeError (str "invalid utf-8"))
              end
            else Ok br.2) (ascii_runs s))
  else Ok s.

(** ** urlparse *)

Record ParseResult := mkParseResult {
  u_scheme : pystr; u_netloc : pystr; u_path : pystr; u_params : pystr; u_query : pystr; u_fragment : pystr;
}.

Definition is_alpha (c : Z) : bool := ((65 <=? c) && (c <=? 90)) || ((97 <=? c) && (c <=? 122)).

Definition scheme_char (c : Z) : bool :=
  is_alpha c || is_digit c || (c =? 43) || (c =? 45) || (c =? 46).

(** Leading control characters and spaces are stripped; tabs and line ends are
    removed. *)
Definition url_clean (s : pystr) : pystr :=
  List.filter (fun c => negb ((c =? 9) || (c =? 13) || (c =? 10))) (span (fun c => (0 <=? c) && (c <=? 32)) s).2.

Definition split_scheme (s : pystr) : pystr * pystr :=
  match split_first 58 s with
  | Some (c :: a, b) => if is_alpha c && forallb scheme_char (c :: a) then (str_lower (c :: a), b) else ([], s)
  | _ => ([], s)
  end.

Section Parse.
Context `{UnicodeData}.

Definition check_netloc (netloc : pystr) : res unit :=
  let opened := bool_decide (91 ∈ netloc) in
  let closed := bool_decide (93 ∈ netloc) in
  ensure (Bool.eqb opened closed) (err ValueError (str "Invalid IPv6 URL")) ;?
  ensure (negb (opened || negb (forallb is_ascii netloc)) || netloc_ok netloc)
    (err ValueError (str "netloc contains invalid characters")).

(** The schemes whose last path component has parameters. *)
Definition uses_params : list pystr :=
  [[]; str "ftp"; str "hdl"; str "prospero"; str "http"; str "https"; str "shttp"; str "rtsp"; str "rtsps";
   str "sip"; str "sips"; str "mms"; str "sftp"; str "tel"].

(** [_splitparams]: at the first [;] of the last component. *)
Definition split_params (url : pystr) : pystr * pystr :=
  let ws := split_char 47 url in
  let front := removelast ws in
  match split_first 59 (List.last ws []) with
  | Some (a, b) => (join [47] (front ++ [a]), b)
  | None => (url, [])
  end.

Definition urlparse (url : pystr) : res ParseResult :=
  let '(scheme, rest) := split_scheme (url_clean url) in
  let '(netloc, rest) :=
    match strip_prefix (str "//") rest with
    | Some r => span (fun c => negb ((c =? 47) || (c =? 63) || (c =? 35))) r
    | None => ([], rest)
    end in
  check_netloc netloc ;?
  let '(rest, fragment) := default (rest, []) (split_first 35 rest) in
  let '(rest, query) := default (rest, []) (split_first 63 rest) in
  let '(path, params) :=
    if bool_decide (scheme ∈ uses_params) then split_params rest else (rest, []) in
  Ok (mkParseResult scheme netloc path params query fragment).

(** ** parse_qs *)

Definition plus_to_space (s : pystr) : pystr := map (fun c => if c =? 43 then 32 else c) s.

(** One field; fields without [=] or without a value are dropped. *)
Definition query_field (s : pystr) : option (pystr * pystr) :=
  match split_first 61 s with
  | Some (name, value) =>
      if bool_decide (value = []) then None
      else Some (unquote (plus_to_space name), unquote (plus_to_space value))
  | None => None
  end.

Definition parse_qs (query : pystr) : list (pystr * pystr) := omap query_field (split_char 38 query).

(** [query[name][0]]. *)
Fixpoint query_first (name : pystr) (fields : list (pystr * pystr)) : option pystr :=
  match fields with
  | [] => None
  | (n, v) :: r => if decide (n = name) then Some v else query_first name r
  end.

(** ** int() *)

(** The white space [int()] and [float()] skip in a text that is ASCII. *)
Definition is_space (c : Z) : bool := ((9 <=? c) && (c <=? 13)) || (c =? 32).

Definition strip_spaces (s : pystr) : pystr :=
  rev (span is_space (rev (span is_space s).2)).2.

(** Digits, with single underscores between them. *)
Fixpoint underscored_digits (after_digit : bool) (s : pystr) : option pystr :=
  match s with
  | [] => if after_digit then Some [] else None
  | c :: s' =>
      if is_digit c then cons c <$> underscored_digits true s'
      else if (c =? 95) && after_digit then underscored_digits false s'
      else None
  end.

Definition int_of_ascii (s : pystr) : option Z :=
  let t := strip_spaces s in
  let '(neg, body) := match eat 45 t with
                      | Some r => (true, r)
                      | None => (false, default t (eat 43 t))
                      end in
  match underscored_digits false body with
  | Some d => if max_int_digits <? zlen d then None else Some (if (neg : bool) then - dec_value d else dec_value d)
  | None => None
  end.

(** [int(text)]. *)
Definition int_of_text (s : pystr) : res Z :=
  match (if forallb is_ascii s then int_of_ascii s else int_of_unicode s) with
  | Some z => Ok z
  | None => Raise (err ValueError (str "invalid literal for int() with base 10"))
  end.
End Parse.
