(* ===== verification/UrlFacts.v ===== *)
(** * Facts about URLs

    [unquote] undoes [quote], and a URL put together from a scheme, a host, a
    path and a query is parsed into these parts. *)

From S2P Require Import Prelude PyText Float64 Errors PyVal Json JsonFacts Url.
Import ResNotations.
Local Open Scope res_scope.

(** ** Decoding with replacement *)

Lemma utf8_replace_char c b bs : utf8_char c = Some b -> utf8_replace (b ++ bs) = c :: utf8_replace bs.
Proof.
  unfold utf8_char. destruct (is_scalar c) eqn:Es; simpl; [|done].
  unfold is_scalar, is_surrogate in Es.
  assert (Hc : 0 <= c < 0x110000 /\ ~ (0xD800 <= c <= 0xDFFF)) by lia.
  pose proof (mod64_range c) as M0. pose proof (mod64_range (c / 64)) as M1.
  pose proof (mod64_range (c / 4096)) as M2.
  destruct (c <? 0x80) eqn:E1; [|destruct (c <? 0x800) eqn:E2; [|destruct (c <? 0x10000) eqn:E3]];
    intros [= <-]; breflect; cbn [app utf8_replace].
  - rewrite byte_val_mk by lia. by replace (c <? 128) with true by lia.
  - assert (2 <= c / 64 < 32) by zdm.
    rewrite byte_val_mk, is_cont_mk, cont_val_mk by lia.
    replace (192 + c / 64 <? 128) with false by lia.
    replace ((194 <=? 192 + c / 64) && (192 + c / 64 <? 224)) with true by lia.
    f_equal. zdm.
  - assert (0 <= c / 4096 < 16) by zdm.
    rewrite byte_val_mk by lia.
    assert (second_ok (224 + c / 4096) (mk_byte (128 + c / 64 mod 64)) = true) as ->.
    { unfold second_ok. rewrite is_cont_mk, byte_val_mk by lia. zdm. }
    rewrite is_cont_mk, !cont_val_mk by lia.
    replace (224 + c / 4096 <? 128) with false by lia.
    replace ((194 <=? 224 + c / 4096) && (224 + c / 4096 <? 224)) with false by lia.
    replace ((224 <=? 224 + c / 4096) && (224 + c / 4096 <? 240)) with true by lia.
    f_equal. zdm.
  - assert (0 <= c / 262144 < 5) by zdm.
    rewrite byte_val_mk by lia.
    assert (second_ok (240 + c / 262144) (mk_byte (128 + c / 4096 mod 64)) = true) as ->.
    { unfold second_ok. rewrite is_cont_mk, byte_val_mk by lia. zdm. }
    rewrite !is_cont_mk, !cont_val_mk by lia.
    replace (240 + c / 262144 <? 128) with false by lia.
    replace ((194 <=? 240 + c / 262144) && (240 + c / 262144 <? 224)) with false by lia.
    replace ((224 <=? 240 + c / 262144) && (240 + c / 262144 <? 240)) with false by lia.
    replace ((240 <=? 240 + c / 262144) && (240 + c / 262144 <? 245)) with true by lia.
    f_equal. zdm.
Qed.

Lemma utf8_replace_encode s bs : utf8_encode s = Some bs -> utf8_replace bs = s.
Proof.
  revert bs. induction s as [|c s IH]; simpl; intros bs; [by intros [= <-]|].
  destruct (utf8_char c) as [b|] eqn:Ec; [|done].
  destruct (utf8_encode s) as [bs'|]; [|done]. intros [= <-].
  by rewrite (utf8_replace_char _ _ _ Ec), (IH bs').
Qed.

(** ** Percent encoding *)

(** The characters of a quoted text. *)
Definition quoted_char (c : Z) : bool := url_safe c || (c =? 37).

Lemma upper_hex_val v : 0 <= v < 16 -> hex_val (upper_hex v) = Some v.
Proof. intros Hv. unfold upper_hex, hex_val. repeat case_match; simplify_eq; breflect; f_equal; lia. Qed.

Lemma upper_hex_quoted v : 0 <= v < 16 -> quoted_char (upper_hex v) = true.
Proof. unfold quoted_char, url_safe, is_digit, upper_hex. case_match; lia. Qed.

Lemma quote_byte_chars b : Forall (fun c => quoted_char c = true) (quote_byte b).
Proof.
  unfold quote_byte. pose proof (byte_val_range b). destruct (url_safe (byte_val b)) eqn:E.
  - constructor; [|constructor]. unfold quoted_char. by rewrite E.
  - repeat (apply Forall_cons_2; [first [reflexivity|apply upper_hex_quoted; zdm]|]). constructor.
Qed.

Lemma quote_chars s q : quote s = Ok q -> Forall (fun c => quoted_char c = true) q.
Proof.
  unfold quote. destruct (utf8_encode s) as [bs|]; [|done]. intros [= <-].
  induction bs as [|b bs IH]; simpl; [constructor|]. apply Forall_app_2; [apply quote_byte_chars|done].
Qed.

Lemma unquote_bytes_plain c s : c <> 37 -> unquote_to_bytes (c :: s) = mk_byte c :: unquote_to_bytes s.
Proof.
  intros Hc. simpl. destruct (Z.eqb_spec c 37); [done|]. by destruct s as [|h1 [|h2 s]].
Qed.

Lemma unquote_quote_byte b s : unquote_to_bytes (quote_byte b ++ s) = b :: unquote_to_bytes s.
Proof.
  unfold quote_byte. pose proof (byte_val_range b). destruct (url_safe (byte_val b)) eqn:E; cbn [app].
  - rewrite unquote_bytes_plain by (intros Ec; rewrite Ec in E; done). by rewrite mk_byte_val.
  - cbn -[upper_hex]. rewrite !upper_hex_val by zdm. f_equal.
    rewrite <- (mk_byte_val b) at 3. f_equal. zdm.
Qed.

Lemma unquote_quote_bytes bs : unquote_to_bytes (concat (map quote_byte bs)) = bs.
Proof. induction bs as [|b bs IH]; simpl; [done|]. by rewrite unquote_quote_byte, IH. Qed.

Lemma quoted_ascii c : quoted_char c = true -> is_ascii c = true.
Proof. unfold quoted_char, url_safe, is_digit, is_ascii. lia. Qed.

Lemma ascii_runs_ascii s :
  Forall (fun c => is_ascii c = true) s -> ascii_runs s = match s with [] => [] | _ => [(true, s)] end.
Proof.
  induction 1 as [|c s Hc _ IH]; simpl; [done|]. rewrite IH, Hc. by destruct s.
Qed.

Lemma unquote_ascii s :
  Forall (fun c => is_ascii c = true) s -> 37 ∈ s -> unquote s = utf8_replace (unquote_to_bytes s).
Proof.
  intros Hs Hin. unfold unquote. rewrite bool_decide_eq_true_2, ascii_runs_ascii by done.
  destruct s; [by apply elem_of_nil in Hin|]. simpl. by rewrite app_nil_r.
Qed.

(** Texts that need no quoting read back as they are. *)
Lemma unquote_plain s : 37 ∉ s -> unquote s = s.
Proof. intros Hs. unfold unquote. by rewrite bool_decide_eq_false_2. Qed.

Lemma unquote_plain_bytes s : 37 ∉ s -> unquote_to_bytes s = map mk_byte s.
Proof.
  induction s as [|c s IH]; [done|]. intros [Hc Hs]%not_elem_of_cons.
  rewrite unquote_bytes_plain by done. simpl. by rewrite IH.
Qed.

Lemma quoted_bytes s q bs :
  quote s = Ok q -> utf8_encode s = Some bs -> unquote_to_bytes q = bs /\ (37 ∉ q -> q = s).
Proof.
  unfold quote. intros Hq Hb. rewrite Hb in Hq. injection Hq as <-. split; [apply unquote_quote_bytes|].
  intros Hn. pose proof (unquote_quote_bytes bs) as E. rewrite unquote_plain_bytes in E by done.
  assert (Forall (fun c => 0 <= c < 128) (concat (map quote_byte bs))) as Ha.
  { eapply Forall_impl; [apply (quote_chars s)|].
    - unfold quote. by rewrite Hb.
    - intros c Hc%quoted_ascii. unfold is_ascii in Hc. lia. }
  apply utf8_encode_ascii in Ha. rewrite E in Ha. by eapply utf8_encode_inj.
Qed.

(** [unquote] undoes [quote]. *)
Lemma unquote_quote s q : quote s = Ok q -> unquote q = s.
Proof.
  intros Hq. pose proof (quote_chars s q Hq) as Hc.
  destruct (utf8_encode s) as [bs|] eqn:Eb; [|by unfold quote in Hq; rewrite Eb in Hq].
  destruct (quoted_bytes _ _ _ Hq Eb) as [Hb Hp].
  destruct (decide (37 ∈ q)) as [Hin|Hn]; [|rewrite unquote_plain by done; by apply Hp].
  rewrite unquote_ascii; [|eapply Forall_impl; [exact Hc|apply quoted_ascii]|done].
  rewrite Hb. by apply utf8_replace_encode.
Qed.

Lemma unquote_strict_quote s q : quote s = Ok q -> unquote_strict q = Ok s.
Proof.
  intros Hq. pose proof (quote_chars s q Hq) as Hc.
  destruct (utf8_encode s) as [bs|] eqn:Eb; [|by unfold quote in Hq; rewrite Eb in Hq].
  destruct (quoted_bytes _ _ _ Hq Eb) as [Hb Hp]. unfold unquote_strict.
  destruct (decide (37 ∈ q)) as [Hin|Hn]; [|rewrite bool_decide_eq_false_2 by done; by rewrite Hp].
  rewrite bool_decide_eq_true_2, ascii_runs_ascii; [|eapply Forall_impl; [exact Hc|apply quoted_ascii]|done].
  destruct q as [|c q]; [by apply elem_of_nil in Hin|]. cbn [res_list fst snd].
  rewrite Hb, (utf8_decode_encode _ _ Eb). cbn. by rewrite app_nil_r.
Qed.

(** ** Splitting *)

Lemma split_first_app c a b : c ∉ a -> split_first c (a ++ c :: b) = Some (a, b).
Proof.
  induction a as [|x a IH]; simpl; intros Hc; [by rewrite Z.eqb_refl|].
  apply not_elem_of_cons in Hc as [Hx Ha]. destruct (Z.eqb_spec x c); [done|]. by rewrite IH.
Qed.

Lemma split_first_none c s : c ∉ s -> split_first c s = None.
Proof.
  induction s as [|x s IH]; simpl; [done|]. intros [Hx Hs]%not_elem_of_cons.
  destruct (Z.eqb_spec x c); [done|]. by rewrite IH.
Qed.

Lemma split_char_none c s : c ∉ s -> split_char c s = [s].
Proof.
  induction s as [|x s IH]; simpl; [done|]. intros [Hx Hs]%not_elem_of_cons.
  rewrite IH by done. destruct (Z.eqb_spec x c); [done|done].
Qed.

Lemma split_char_app c a b : c ∉ a -> split_char c (a ++ c :: b) = a :: split_char c b.
Proof.
  assert (forall s, split_char c s <> []) as Hne.
  { intros s. destruct s as [|x s]; simpl; [done|]. destruct (split_char c s); [done|]. by destruct (x =? c). }
  induction a as [|x a IH]; simpl; intros Hc.
  - rewrite Z.eqb_refl. destruct (split_char c b) eqn:E; [by destruct (Hne b)|done].
  - apply not_elem_of_cons in Hc as [Hx Ha]. rewrite (IH Ha). by destruct (Z.eqb_spec x c).
Qed.

Lemma span_app p a c b :
  Forall (fun x => p x = true) a -> p c = false -> span p (a ++ c :: b) = (a, c :: b).
Proof. intros Ha Hc. induction Ha as [|x a Hx _ IH]; simpl; [by rewrite Hc|]. by rewrite Hx, IH. Qed.

Lemma span_all p a : Forall (fun x => p x = true) a -> span p a = (a, []).
Proof. induction 1 as [|x a Hx _ IH]; simpl; [done|]. by rewrite Hx, IH. Qed.

Lemma filter_id {A} (f : A -> bool) l : Forall (fun x => f x = true) l -> List.filter f l = l.
Proof. induction 1 as [|x l Hx _ IH]; simpl; [done|]. by rewrite Hx, IH. Qed.

(** ** urlparse *)

(** A character that no step of [urlparse] touches inside a path or a query. *)
Definition url_plain (c : Z) : Prop := c <> 9 /\ c <> 10 /\ c <> 13 /\ c <> 35 /\ c <> 63.

Lemma quoted_url_plain c : quoted_char c = true -> url_plain c.
Proof. unfold quoted_char, url_safe, is_digit, url_plain. lia. Qed.

Lemma quoted_all_plain q : Forall (fun c => quoted_char c = true) q -> Forall url_plain q.
Proof. intros H. eapply Forall_impl; [exact H|apply quoted_url_plain]. Qed.

Lemma plain_no c q : Forall url_plain q -> c = 35 \/ c = 63 -> c ∉ q.
Proof.
  intros Hq Hc Hin. rewrite Forall_forall in Hq. specialize (Hq c Hin). unfold url_plain in Hq. lia.
Qed.

(** A scheme in lower case. *)
Definition scheme_ok (s : pystr) : bool :=
  match s with
  | c :: _ => is_alpha c && forallb (fun c => scheme_char c && (lower_char c =? c)) s &&
              negb (bool_decide (s ∈ uses_params))
  | [] => false
  end.

Lemma scheme_ok_inv s :
  scheme_ok s = true ->
  exists c s', s = c :: s' /\ is_alpha c = true /\ forallb scheme_char s = true /\ str_lower s = s /\
    s ∉ uses_params /\ 58 ∉ s /\ Forall (fun c => 32 < c) s.
Proof.
  unfold scheme_ok. destruct s as [|c s']; [done|]. rewrite !andb_true_iff, Forall_forallb, negb_true_iff.
  intros [[Ha Hs] Hu%bool_decide_eq_false]. exists c, s'. split_and!; try done.
  - rewrite Forall_forallb. eapply Forall_impl; [exact Hs|]. simpl. intros x. by rewrite andb_true_iff; intros [].
  - unfold str_lower. rewrite <- (map_id (c :: s')) at 2. clear -Hs.
    induction Hs as [|x l Hx _ IH]; simpl in *; [done|]. f_equal; [lia|done].
  - intros Hin. rewrite Forall_forall in Hs. specialize (Hs _ Hin). done.
  - eapply Forall_impl; [exact Hs|]. simpl. intros x Hx. unfold scheme_char, is_alpha, is_digit in Hx. lia.
Qed.

Definition query_part (query : option pystr) : pystr :=
  match query with Some q => 63 :: q | None => [] end.

Section Parse.
Context `{UnicodeData}.

Lemma check_netloc_ok n : Forall (fun c => is_ascii c = true /\ c <> 91 /\ c <> 93) n -> check_netloc n = Ok tt.
Proof.
  intros Hn. unfold check_netloc. rewrite Forall_forall in Hn.
  rewrite !bool_decide_eq_false_2 by (intros Hin; destruct (Hn _ Hin); lia). simpl.
  replace (forallb is_ascii n) with true; [done|]. symmetry. rewrite Forall_forallb, Forall_forall. naive_solver.
Qed.

(** [scheme://netloc/path?query]. *)
Lemma urlparse_url scheme netloc path query :
  scheme_ok scheme = true ->
  Forall (fun c => url_plain c /\ is_ascii c = true /\ c <> 91 /\ c <> 93 /\ c <> 47) netloc ->
  Forall url_plain path -> head path = Some 47 -> Forall url_plain (default [] query) ->
  urlparse (scheme ++ str "://" ++ netloc ++ path ++ query_part query) =
  Ok (mkParseResult scheme netloc path [] (default [] query) []).
Proof.
  intros Hs Hn Hp Hh Hq. apply scheme_ok_inv in Hs as (c & s' & -> & Ha & Hsc & Hl & Hu & Hcol & H32).
  destruct path as [|c0 path']; [done|]. injection Hh as ->.
  unfold urlparse.
  assert (url_clean ((c :: s') ++ str "://" ++ netloc ++ (47 :: path') ++ query_part query) =
          (c :: s') ++ str "://" ++ netloc ++ (47 :: path') ++ query_part query) as ->.
  { unfold url_clean. apply Forall_cons in H32 as [Hc H32]. cbn [app span].
    replace ((0 <=? c) && (c <=? 32)) with false by lia. cbn [snd]. apply filter_id.
    apply Forall_cons_2; [lia|]. apply Forall_app_2; [eapply Forall_impl; [exact H32|]; simpl; lia|].
    repeat (apply Forall_cons_2; [reflexivity|]). apply Forall_app_2.
    { eapply Forall_impl; [exact Hn|]. unfold url_plain. simpl. lia. }
    apply (Forall_app_2 _ (47 :: path')); [eapply Forall_impl; [exact Hp|]; unfold url_plain; simpl; lia|].
    destruct query as [q|]; simpl; [|constructor]. constructor; [done|].
    eapply Forall_impl; [exact Hq|]. unfold url_plain. simpl. lia. }
  unfold split_scheme.
  change (str "://" ++ netloc ++ (47 :: path') ++ query_part query)
    with (58 :: str "//" ++ netloc ++ 47 :: path' ++ query_part query).
  rewrite split_first_app, Ha, Hsc, Hl by done. cbn [andb]. rewrite strip_prefix_app.
  rewrite span_app; [|eapply Forall_impl; [exact Hn|]; unfold url_plain; simpl; lia|done].
  rewrite check_netloc_ok by (eapply Forall_impl; [exact Hn|]; naive_solver). cbn [res_bind].
  assert (35 ∉ 47 :: path' ++ query_part query) as H35.
  { change (35 ∉ (47 :: path') ++ query_part query). intros [Hin|Hin]%elem_of_app.
    - eapply plain_no in Hin; [done|done|by left].
    - destruct query as [q|]; simpl in *; [|by apply elem_of_nil in Hin].
      apply elem_of_cons in Hin as [?|Hin]; [done|]. eapply plain_no in Hin; [done|done|by left]. }
  rewrite (split_first_none 35) by done. cbn [default from_option id].
  destruct query as [q|]; cbn [query_part default from_option id] in *.
  - change (47 :: path' ++ 63 :: q) with ((47 :: path') ++ 63 :: q).
    rewrite split_first_app by (apply plain_no; [done|by right]). cbn [default from_option id].
    by rewrite bool_decide_eq_false_2.
  - rewrite app_nil_r. rewrite (split_first_none 63) by (apply plain_no; [done|by right]).
    cbn [default from_option id]. by rewrite bool_decide_eq_false_2.
Qed.

(** ** Numbers in a query *)

Lemma digit_not c z : is_digit c = true -> z < 48 \/ 57 < z -> c <> z.
Proof. unfold is_digit. lia. Qed.

Lemma digits_no c d : Forall (fun x => is_digit x = true) d -> c < 48 \/ 57 < c -> c ∉ d.
Proof. intros Hd Hc Hin. rewrite Forall_forall in Hd. specialize (Hd c Hin). by apply (digit_not c c) in Hd. Qed.

Lemma underscored_all d : Forall (fun x => is_digit x = true) d -> d <> [] -> underscored_digits false d = Some d.
Proof.
  intros Hd Hne. assert (underscored_digits true d = Some d) as Ht.
  { clear Hne. induction Hd as [|x d Hx _ IH]; [done|]. cbn [underscored_digits]. by rewrite Hx, IH. }
  destruct Hd as [|x d Hx Hd]; [done|]. cbn [underscored_digits] in *. by rewrite Hx in *.
Qed.

Lemma strip_spaces_digits d : Forall (fun x => is_digit x = true) d -> strip_spaces d = d.
Proof.
  intros Hd. assert (forall l, Forall (fun x => is_digit x = true) l -> (span is_space l).2 = l) as Hs.
  { intros l Hl. destruct Hl as [|x l Hx _]; [done|]. cbn [span].
    replace (is_space x) with false; [done|]. unfold is_digit, is_space in *. lia. }
  unfold strip_spaces. rewrite (Hs d Hd), (Hs (rev d)); [apply rev_involutive|].
  rewrite Forall_forall in *. intros x Hx. apply Hd. by rewrite list_elem_of_In, in_rev, <- list_elem_of_In.
Qed.

(** [int(str(n))]. *)
Lemma int_of_int_text z t : 0 <= z -> int_text z = Ok t -> int_of_text t = Ok z.
Proof.
  intros Hz. unfold int_text. destruct (max_int_digits <? _) eqn:E; [done|]. intros [= <-].
  unfold int_repr. replace (z <? 0) with false by lia. rewrite Z.abs_eq in E by done.
  pose proof (dec_nat_digit z Hz) as Hd. pose proof (dec_nat_nonempty z) as Hne.
  unfold int_of_text. assert (forallb is_ascii (dec_nat z) = true) as ->.
  { rewrite Forall_forallb. eapply Forall_impl; [exact Hd|]. intros c. simpl. unfold is_digit, is_ascii. lia. }
  unfold int_of_ascii. rewrite strip_spaces_digits by done.
  assert (eat 45 (dec_nat z) = None /\ eat 43 (dec_nat z) = None) as [-> ->].
  { destruct Hd as [|c d Hc _]; [done|]. simpl. unfold is_digit in Hc.
    destruct (Z.eqb_spec c 45), (Z.eqb_spec c 43); lia || done. }
  cbn [default from_option id]. rewrite underscored_all by done. rewrite E. by rewrite dec_nat_value.
Qed.

Lemma int_text_digits z t : 0 <= z -> int_text z = Ok t -> Forall (fun x => is_digit x = true) t /\ t <> [].
Proof.
  intros Hz. unfold int_text. case_match; [done|]. intros [= <-]. unfold int_repr.
  replace (z <? 0) with false by lia. split; [by apply dec_nat_digit|apply dec_nat_nonempty].
Qed.

Lemma query_field_plain name value :
  61 ∉ name -> 37 ∉ name -> 43 ∉ name -> value <> [] -> 37 ∉ value -> 43 ∉ value ->
  query_field (name ++ 61 :: value) = Some (name, value).
Proof.
  intros H1 H2 H3 H4 H5 H6. unfold query_field. rewrite split_first_app, bool_decide_eq_false_2 by done.
  assert (forall s, 43 ∉ s -> plus_to_space s = s) as Hp.
  { clear. induction s as [|c s IH]; simpl; [done|]. intros [Hc Hs]%not_elem_of_cons. rewrite (IH Hs).
    by destruct (Z.eqb_spec c 43). }
  by rewrite !Hp, !unquote_plain by done.
Qed.

(** [parse_qs] of [a=n&b=m]. *)
Lemma parse_qs_two a b n m tn tm :
  forallb is_alpha a = true -> forallb (fun c => is_alpha c || (c =? 95)) b = true ->
  Forall (fun x => is_digit x = true) tn -> tn <> [] -> Forall (fun x => is_digit x = true) tm -> tm <> [] ->
  n = tn -> m = tm ->
  parse_qs (a ++ 61 :: n ++ 38 :: b ++ 61 :: m) = [(a, n); (b, m)].
Proof.
  rewrite !Forall_forallb. intros Ha Hb Hn Hn0 Hm Hm0 -> ->.
  assert (forall c, c = 61 \/ c = 37 \/ c = 43 \/ c = 38 -> c ∉ a /\ c ∉ b) as Hab.
  { intros c Hc. rewrite Forall_forall in Ha, Hb. split; intros Hin; [specialize (Ha c Hin)|specialize (Hb c Hin)];
      unfold is_alpha in *; lia. }
  assert (forall c x d, c ∉ x -> c <> 61 -> c ∉ d -> c ∉ x ++ 61 :: d) as not_field.
  { intros c x d Hx Hc Hd. rewrite not_elem_of_app, not_elem_of_cons. done. }
  unfold parse_qs. replace (a ++ 61 :: tn ++ 38 :: b ++ 61 :: tm) with ((a ++ 61 :: tn) ++ 38 :: b ++ 61 :: tm)
    by (by rewrite <- app_assoc).
  rewrite split_char_app, split_char_none.
  - cbn [omap list_omap].
    rewrite !query_field_plain; try done; try (apply Hab; lia); try (apply digits_no; [done|lia]).
  - apply not_field; [apply Hab; lia|done|apply digits_no; [done|lia]].
  - apply not_field; [apply Hab; lia|done|apply digits_no; [done|lia]].
Qed.
End Parse.

(** ** Examples *)

(** Python's tables, on ASCII. *)
Definition ascii_data : UnicodeData := {| netloc_ok _ := true; int_of_unicode _ := None |}.
