(* ===== verification/FileSystem.v ===== *)
(** * The file system below the persistent tiers

    What [pathlib], [os] and [tempfile] do for [nvme_tier.py], on a file system
    without symbolic links: regular files with their bytes, and directories. The
    system calls that open, write, rename or remove may fail at any time: an
    oracle says which calls fail, with which [OSError], and how much of a write
    reached the file before. Queries of names and sizes do not fail. *)

From S2P Require Import Prelude PyText Float64 Errors Json Layout Url.
Import MNotations ResNotations.
Local Open Scope m_scope.

(** ** Paths *)

(** [str(path)] of an absolute path. *)
Definition path_text (p : path) : pystr := 47 :: join [47] p.

(** The components of a text; exactly two leading slashes are a root of their
    own, written as an empty first component. *)
Definition text_parts (s : pystr) : path :=
  match s with
  | 47 :: 47 :: c :: _ => if c =? 47 then parse_part s else [] :: parse_part s
  | 47 :: 47 :: [] => [[]]
  | _ => parse_part s
  end.

(** [..] goes up one component, and stays at the root. *)
Fixpoint normalize (acc : path) (p : path) : path :=
  match p with
  | [] => rev acc
  | c :: r => if decide (c = str "..") then normalize (tail acc) r else normalize (c :: acc) r
  end.

(** [path.resolve(strict=False)] without symbolic links. *)
Definition resolve (p : path) : path :=
  match p with
  | [] :: r => [] :: normalize [] r
  | _ => normalize [] p
  end.

(** [Path(text).resolve(strict=False)] in the working directory [cwd]. *)
Definition resolve_text (cwd : path) (s : pystr) : res path :=
  if bool_decide (0 ∈ s) then Raise (err ValueError (str "embedded null byte"))
  else Ok (resolve (match s with 47 :: _ => text_parts s | _ => cwd ++ parse_part s end)).

(** [path.resolve(strict=False)] of an absolute path. *)
Definition resolve_path (p : path) : res path :=
  if existsb (fun c => bool_decide (0 ∈ c)) p then Raise (err ValueError (str "embedded null byte"))
  else Ok (resolve p).

Definition path_parent (p : path) : path := removelast p.
Definition path_name (p : path) : pystr := List.last p [].

(** The text after the last occurrence of [c], and the text before it. *)
Fixpoint rsplit (c : Z) (s : pystr) : option (pystr * pystr) :=
  match s with
  | [] => None
  | x :: s' =>
      match rsplit c s' with
      | Some (a, b) => Some (x :: a, b)
      | None => if x =? c then Some ([], s') else None
      end
  end.

(** [path.suffix]: from the last dot, unless it begins or ends the name. *)
Definition name_suffix (name : pystr) : pystr :=
  match rsplit 46 name with
  | Some (_ :: _, (_ :: _) as ext) => 46 :: ext
  | _ => []
  end.

Definition name_stem (name : pystr) : pystr :=
  match rsplit 46 name with
  | Some ((_ :: _) as stem, _ :: _) => stem
  | _ => name
  end.

(** The order of paths: by their components. *)
Definition path_leb (p q : path) : bool := match lex_cmp str_cmp p q with Gt => false | _ => true end.

(** ** State *)

Record fault := mkFault { fault_exn : exn; fault_written : nat }.

Record Fs := mkFs {
  fs_files : gmap path pybytes;
  fs_dirs : gset path;
  fs_faults : nat -> option fault;   (* what happens to the n-th call *)
  fs_names : nat -> nat -> pystr;    (* the random names tried by the n-th call *)
  fs_calls : nat;
  fs_dir_size : Z;                   (* [st_size] of a directory *)
}.

Definition set_files (f : gmap path pybytes) (s : Fs) : Fs :=
  mkFs f (fs_dirs s) (fs_faults s) (fs_names s) (fs_calls s) (fs_dir_size s).

Definition set_dirs (d : gset path) (s : Fs) : Fs :=
  mkFs (fs_files s) d (fs_faults s) (fs_names s) (fs_calls s) (fs_dir_size s).

Definition next_call (s : Fs) : Fs :=
  mkFs (fs_files s) (fs_dirs s) (fs_faults s) (fs_names s) (S (fs_calls s)) (fs_dir_size s).

(** The fate of one system call. *)
Definition syscall : M Fs (option fault) := fun s => (next_call s, Ok (fs_faults s (fs_calls s))).

(** A call that, when it fails, has no effect. *)
Definition guarded {A} (m : M Fs A) : M Fs A :=
  let* f := syscall in
  match f with
  | Some f => raise (fault_exn f)
  | None => m
  end.

Definition os_error (what : pystr) : exn := err OSError what.
Definition no_such_file : exn := err FileNotFoundError (str "No such file or directory").

(** ** Queries *)

Definition is_dir (s : Fs) (p : path) : bool := bool_decide (p = []) || bool_decide (p ∈ fs_dirs s).
Definition is_file (s : Fs) (p : path) : bool := bool_decide (is_Some (fs_files s !! p)).
Definition exists_path (s : Fs) (p : path) : bool := is_file s p || is_dir s p.

(** [path.stat().st_size] of an existing path. *)
Definition st_size (s : Fs) (p : path) : Z :=
  match fs_files s !! p with Some f => zlen f | None => fs_dir_size s end.

(** Every name of the file system. *)
Definition entries (s : Fs) : list path := elements (dom (fs_files s)) ++ elements (fs_dirs s).

(** [sorted(dir.glob(pattern))] for a pattern on the last component. *)
Definition glob (s : Fs) (dir : path) (p : pystr -> bool) : list path :=
  py_sort path_leb (List.filter (fun q => bool_decide (q <> []) && bool_decide (path_parent q = dir) && p (path_name q))
                      (entries s)).

(** [sorted(dir.rglob(pattern))]. *)
Definition rglob (s : Fs) (dir : path) (p : pystr -> bool) : list path :=
  py_sort path_leb (List.filter (fun q => bool_decide (dir `prefix_of` q) && bool_decide (q <> dir) && p (path_name q))
                      (entries s)).

(** ** Directories *)

(** The non-empty prefixes of a path, shortest first. *)
Fixpoint ancestors (acc : path) (p : path) : list path :=
  match p with
  | [] => []
  | c :: r => (acc ++ [c]) :: ancestors (acc ++ [c]) r
  end.

(** [path.mkdir(parents=True, exist_ok=True)]; a failing call may have created
    some of the parents. *)
Definition mkdir (p : path) : M Fs unit :=
  let* f := syscall in
  match f with
  | Some f => modify (fun s => set_dirs (list_to_set (take (fault_written f) (ancestors [] p)) ∪ fs_dirs s) s) ;;
              raise (fault_exn f)
  | None =>
      let* blocked := gets (fun s => existsb (is_file s) (ancestors [] p)) in
      if (blocked : bool) then raise (os_error (str "File exists"))
      else modify (fun s => set_dirs (list_to_set (ancestors [] p) ∪ fs_dirs s) s)
  end.

(** ** Files *)

(** [path.open("rb")] and reading the file. *)
Definition read_file (p : path) : M Fs pybytes :=
  guarded (let* s := gets id in
           match fs_files s !! p with
           | Some f => ret f
           | None => if is_dir s p then raise (os_error (str "Is a directory")) else raise no_such_file
           end).

(** The file the kernel finds along an absolute path: every component before
    another one is a directory. *)
Fixpoint walk (s : Fs) (acc p : path) : option path :=
  match p with
  | [] => Some acc
  | c :: r =>
      if negb (is_dir s acc) then None
      else if decide (c = str "..") then walk s (path_parent acc) r else walk s (acc ++ [c]) r
  end.

(** [Path(text).read_bytes()] in the working directory [cwd]. *)
Definition read_bytes (cwd : path) (text : pystr) : M Fs pybytes :=
  if bool_decide (0 ∈ text) then raise (err ValueError (str "embedded null byte"))
  else
    let p := match text with 47 :: _ => parse_part text | _ => cwd ++ parse_part text end in
    let* found := gets (fun s => walk s [] p) in
    match found with
    | Some q => read_file q
    | None => guarded (raise no_such_file)
    end.

(** Opening for appending, writing and closing; a failure may leave a prefix of
    the data in the file. *)
Definition append_file (p : path) (data : pybytes) : M Fs unit :=
  let* f := syscall in
  let* s := gets id in
  if is_dir s p then raise (os_error (str "Is a directory"))
  else if negb (is_dir s (path_parent p)) then raise no_such_file
  else
    let old := default [] (fs_files s !! p) in
    match f with
    | Some f => modify (set_files (<[p := old ++ take (fault_written f) data]> (fs_files s))) ;; raise (fault_exn f)
    | None => modify (set_files (<[p := old ++ data]> (fs_files s)))
    end.

(** [path.write_text(text, encoding="utf-8")]: the file is emptied, then written. *)
Definition write_file (p : path) (data : pybytes) : M Fs unit :=
  guarded (let* s := gets id in
           if is_dir s p then raise (os_error (str "Is a directory"))
           else if negb (is_dir s (path_parent p)) then raise no_such_file
           else modify (set_files (<[p := []]> (fs_files s)))) ;;
  append_file p data.

Definition write_text (p : path) (text : pystr) : M Fs unit :=
  match utf8_encode text with
  | Some data => write_file p data
  | None => write_file p [] ;; raise (err UnicodeEncodeError (str "surrogates not allowed"))
  end.

(** [f.flush(); os.fsync(f.fileno())]. *)
Definition fsync : M Fs unit := guarded (ret tt).

(** [tempfile.mkstemp]: the first of its random names that is free. *)
Definition TMP_MAX : nat := 10000.

Fixpoint fresh_name (fuel : nat) (i : nat) (name : nat -> path) (s : Fs) : option path :=
  match fuel with
  | O => None
  | S n => if exists_path s (name i) then fresh_name n (S i) name s else Some (name i)
  end.

Definition mkstemp (prefix suffix : pystr) (dir : path) : M Fs path :=
  let* call := gets fs_calls in
  guarded (
    let* s := gets id in
    if negb (is_dir s dir) then raise no_such_file
    else match fresh_name TMP_MAX 0 (fun i => dir ++ [prefix ++ fs_names s call i ++ suffix]) s with
         | None => raise (os_error (str "No usable temporary file name found"))
         | Some p => modify (set_files (<[p := []]> (fs_files s))) ;; ret p
         end).

(** [os.replace(src, dst)], atomic. *)
Definition replace (src dst : path) : M Fs unit :=
  guarded (
    let* s := gets id in
    match fs_files s !! src with
    | None => raise no_such_file
    | Some f =>
        if is_dir s dst then raise (os_error (str "Is a directory"))
        else if negb (is_dir s (path_parent dst)) then raise no_such_file
        else modify (set_files (<[dst := f]> (base.delete src (fs_files s))))
    end).

(** [path.unlink()]. *)
Definition unlink (p : path) : M Fs unit :=
  guarded (
    let* s := gets id in
    match fs_files s !! p with
    | Some _ => modify (set_files (base.delete p (fs_files s)))
    | None => if is_dir s p then raise (os_error (str "Is a directory")) else raise no_such_file
    end).

(** [try: m except FileNotFoundError: h]. *)
Definition on_missing {S A} (m : M S A) (h : M S A) : M S A :=
  try_catch m (fun e => if is_a e FileNotFoundError then h else raise e).
