(* ===== verification/FileSystemFacts.v ===== *)
(** * Facts about the file system

    [keeps]: what a sequence of calls leaves of the files that were there, outside
    the paths it may overwrite; whatever fails. [fs_wf]: the names of the file
    system are names. *)

From S2P Require Import Prelude PyText Float64 Errors Json Layout Url FileSystem.
Import MNotations.
Local Open Scope m_scope.

(** ** Files that survive *)

(** Every file of [d0] outside [hole] still begins with its old bytes in [d], and
    has no others unless files may grow. *)
Definition keeps (grow : bool) (hole : path -> Prop) (d0 d : Fs) : Prop :=
  forall p f, ~ hole p -> fs_files d0 !! p = Some f ->
  exists x, fs_files d !! p = Some (f ++ x) /\ (grow = false -> x = []).

(** A path whose file [keeps] says nothing about. *)
Definition free (hole : path -> Prop) (d0 : Fs) (p : path) : Prop :=
  ~ hole p -> fs_files d0 !! p = None.

Section Keeps.
Context (grow : bool) (hole : path -> Prop) (d0 : Fs).
Local Abbreviation K := (keeps grow hole d0).

Lemma keeps_refl : K d0.
Proof. intros p f _ Hf. exists []. by rewrite app_nil_r. Qed.

Lemma keeps_trans d d' : K d -> keeps grow hole d d' -> K d'.
Proof.
  intros H1 H2 p f Hp Hf. destruct (H1 p f Hp Hf) as (x & Hx & Ex). destruct (H2 p _ Hp Hx) as (y & Hy & Ey).
  exists (x ++ y). rewrite app_assoc. split; [done|]. intros Hg. by rewrite Ex, Ey.
Qed.

Lemma keeps_same d d' : fs_files d' = fs_files d -> K d -> K d'.
Proof. intros E H p f. rewrite E. apply H. Qed.

Lemma keeps_insert d p f : free hole d0 p -> K d -> K (set_files (<[p := f]> (fs_files d)) d).
Proof.
  intros Hp H q g Hq Hg. destruct (decide (p = q)) as [->|Hne].
  - rewrite (Hp Hq) in Hg. done.
  - destruct (H q g Hq Hg) as (x & Hx & Ex). exists x. cbn. by rewrite lookup_insert_ne.
Qed.

Lemma keeps_delete d p : free hole d0 p -> K d -> K (set_files (base.delete p (fs_files d)) d).
Proof.
  intros Hp H q g Hq Hg. destruct (decide (p = q)) as [->|Hne].
  - rewrite (Hp Hq) in Hg. done.
  - destruct (H q g Hq Hg) as (x & Hx & Ex). exists x. cbn. by rewrite lookup_delete_ne.
Qed.

Lemma keeps_grow d p data :
  grow = true -> K d -> K (set_files (<[p := default [] (fs_files d !! p) ++ data]> (fs_files d)) d).
Proof.
  intros Hg H q g Hq Hf. destruct (H q g Hq Hf) as (x & Hx & Ex). destruct (decide (p = q)) as [->|Hne].
  - exists (x ++ data). cbn. rewrite lookup_insert_eq, Hx. cbn. rewrite app_assoc. split; [done|]. by rewrite Hg.
  - exists x. cbn. by rewrite lookup_insert_ne.
Qed.

Lemma keeps_free d p : K d -> fs_files d !! p = None -> free hole d0 p.
Proof.
  intros H Hp Hh. destruct (fs_files d0 !! p) as [f|] eqn:E; [|done].
  destruct (H p f Hh E) as (x & Hx & _). congruence.
Qed.

(** ** The calls *)

Lemma keeps_syscall {B} (f : option fault -> M Fs B) : (forall o, preserves K (f o)) -> preserves K (bind syscall f).
Proof. intros Hf d Hd. by apply Hf. Qed.

Lemma keeps_guarded {B} (m : M Fs B) : preserves K m -> preserves K (guarded m).
Proof. intros Hm. apply keeps_syscall. intros [f|]; [apply preserves_raise|done]. Qed.

Lemma keeps_modify f : (forall d, K d -> K (f d)) -> preserves K (modify f).
Proof. intros Hf d Hd. by apply Hf. Qed.

Lemma keeps_mkdir p : preserves K (mkdir p).
Proof.
  apply keeps_syscall. intros [f|].
  - apply preserves_bind; [|intros; apply preserves_raise]. apply keeps_modify. intros d. by apply keeps_same.
  - apply preserves_bind; [apply preserves_gets|]. intros [|]; [apply preserves_raise|].
    apply keeps_modify. intros d. by apply keeps_same.
Qed.

Lemma keeps_read p : preserves K (read_file p).
Proof. apply keeps_guarded. intros d Hd. cbn. by repeat case_match. Qed.

Lemma keeps_fsync : preserves K fsync.
Proof. apply keeps_guarded, preserves_ret. Qed.

Lemma keeps_append p data : grow = true \/ free hole d0 p -> preserves K (append_file p data).
Proof.
  intros Hp. apply keeps_syscall. intros o d Hd. unfold bind, gets, id.
  destruct (is_dir d p); [done|]. destruct (negb _); [done|].
  assert (forall x, K (set_files (<[p := default [] (fs_files d !! p) ++ x]> (fs_files d)) d)) as Hx.
  { intros x. destruct Hp as [Hg|Hp]; [by apply keeps_grow|by apply keeps_insert]. }
  destruct o as [f|]; apply Hx.
Qed.

Lemma keeps_unlink p : free hole d0 p -> preserves K (unlink p).
Proof.
  intros Hp. apply keeps_guarded. intros d Hd. unfold bind, gets, id.
  destruct (fs_files d !! p) eqn:E; [by apply keeps_delete|]. by destruct (is_dir d p).
Qed.

Lemma keeps_replace src dst : free hole d0 src -> free hole d0 dst -> preserves K (replace src dst).
Proof.
  intros Hs Ht. apply keeps_guarded. intros d Hd. unfold bind, gets, id.
  destruct (fs_files d !! src) eqn:E; [|done]. destruct (is_dir d dst); [done|]. destruct (negb _); [done|].
  eapply keeps_same; [|by apply (keeps_insert (set_files (base.delete src (fs_files d)) d) dst l Ht), keeps_delete]. done.
Qed.

Lemma on_missing_preserves {A} (I : Fs -> Prop) (m h : M Fs A) : preserves I m -> preserves I h -> preserves I (on_missing m h).
Proof. intros Hm Hh. apply preserves_try_catch; [done|]. intros e. destruct (is_a e _); [done|apply preserves_raise]. Qed.
End Keeps.

Lemma fresh_name_new fuel i name s p : fresh_name fuel i name s = Some p -> exists_path s p = false /\ exists j, p = name j.
Proof.
  revert i. induction fuel as [|n IH]; intros i; simpl; [done|]. destruct (exists_path s (name i)) eqn:E; [apply IH|].
  intros [= <-]. eauto.
Qed.

Lemma exists_path_file s p f : fs_files s !! p = Some f -> exists_path s p = true.
Proof. intros Hf. unfold exists_path, is_file. by rewrite Hf, bool_decide_eq_true_2. Qed.

(** A temporary file is new and empty. *)
Lemma mkstemp_ok prefix suffix dir d d' p :
  mkstemp prefix suffix dir d = (d', Ok p) ->
  fs_files d !! p = None /\ fs_files d' = <[p := []]> (fs_files d) /\
  exists j, p = dir ++ [prefix ++ fs_names d (fs_calls d) j ++ suffix].
Proof.
  unfold mkstemp. intros H. apply bind_ok in H as (c & d1 & [= <- <-] & H).
  unfold guarded, bind at 1, syscall in H. destruct (fs_faults d (fs_calls d)); [done|].
  unfold bind at 1, gets, id in H. destruct (negb _) in H; [done|].
  destruct (fresh_name _ _ _ _) as [q|] eqn:E; [|done]. injection H as <- <-.
  apply fresh_name_new in E as [E (j & Hj)].
  split; [|split; [done|by exists j]]. destruct (fs_files d !! q) eqn:Ef; [|done].
  by rewrite (exists_path_file (next_call d) q _ Ef) in E.
Qed.

Lemma keeps_mkstemp grow hole d0 {B} prefix suffix dir (f : path -> M Fs B) :
  (forall p, free hole d0 p -> preserves (keeps grow hole d0) (f p)) ->
  preserves (keeps grow hole d0) (bind (mkstemp prefix suffix dir) f).
Proof.
  intros Hf d Hd. unfold bind. destruct (mkstemp prefix suffix dir d) as [d1 [p|e]] eqn:E; cbn.
  - destruct (mkstemp_ok _ _ _ _ _ _ E) as (Hp & Ef & _).
    assert (free hole d0 p) as Hfree by (by eapply keeps_free). apply Hf; [done|].
    eapply keeps_same; [|by apply (keeps_insert grow hole d0 d p [])]. done.
  - revert E. unfold mkstemp, guarded, syscall, bind, gets, id. destruct (fs_faults d (fs_calls d)).
    { by intros [= <- _]. }
    destruct (negb _). { by intros [= <- _]. } destruct (fresh_name _ _ _ _); [done|]. by intros [= <- _].
Qed.

(** ** Results *)

Lemma guarded_ok {A} (m : M Fs A) d d' a : guarded m d = (d', Ok a) -> m (next_call d) = (d', Ok a).
Proof. unfold guarded, bind, syscall. by destruct (fs_faults d (fs_calls d)). Qed.

Lemma mkdir_ok p d d' u : mkdir p d = (d', Ok u) -> fs_files d' = fs_files d.
Proof.
  unfold mkdir, bind, syscall. destruct (fs_faults d (fs_calls d)) as [f|]; [done|].
  unfold gets. destruct (existsb _ _); [done|]. by intros [= <- _].
Qed.

Lemma read_ok p d d' f : read_file p d = (d', Ok f) -> fs_files d !! p = Some f /\ d' = next_call d.
Proof.
  intros H%guarded_ok. unfold bind, gets, id in H. change (fs_files (next_call d)) with (fs_files d) in H.
  destruct (fs_files d !! p) as [g|]; [by injection H as <- <-|]. by destruct (is_dir _ p).
Qed.

(** A file that is there is read, unless the call fails. *)
Lemma read_run p d f : fs_faults d (fs_calls d) = None -> fs_files d !! p = Some f -> read_file p d = (next_call d, Ok f).
Proof.
  intros Hn Hf. unfold read_file, guarded, bind, syscall. rewrite Hn. unfold gets, id.
  change (fs_files (next_call d)) with (fs_files d). by rewrite Hf.
Qed.

Lemma read_state p d : (read_file p d).1 = next_call d.
Proof. unfold read_file, guarded, bind, syscall, gets, id. destruct (fs_faults d (fs_calls d)); [done|]. by repeat case_match. Qed.

Lemma fsync_ok d d' u : fsync d = (d', Ok u) -> d' = next_call d.
Proof. intros H%guarded_ok. by injection H as <-. Qed.

Lemma append_ok p data d d' u :
  append_file p data d = (d', Ok u) ->
  fs_files d' = <[p := default [] (fs_files d !! p) ++ data]> (fs_files d) /\ is_dir d p = false.
Proof.
  unfold append_file, bind at 1, syscall, bind at 1, gets, id. change (is_dir (next_call d) p) with (is_dir d p).
  destruct (is_dir d p); [done|]. destruct (negb _); [done|]. destruct (fs_faults d (fs_calls d)); [done|].
  by intros [= <- _].
Qed.

Lemma replace_ok src dst d d' u :
  replace src dst d = (d', Ok u) ->
  exists f, fs_files d !! src = Some f /\ fs_files d' = <[dst := f]> (base.delete src (fs_files d)).
Proof.
  intros H%guarded_ok. unfold bind, gets, id in H. change (fs_files (next_call d)) with (fs_files d) in H.
  destruct (fs_files d !! src) as [f|]; [|done]. destruct (is_dir _ dst); [done|]. destruct (negb _); [done|].
  injection H as <- _. eauto.
Qed.


(** ** Names *)

Definition plain_name (c : pystr) : Prop := 47 ∉ c /\ 0 ∉ c.
Definition plain_path (p : path) : Prop := Forall plain_name p.

Lemma plain_name_app a b : plain_name a -> plain_name b -> plain_name (a ++ b).
Proof. unfold plain_name. rewrite !not_elem_of_app. naive_solver. Qed.

Record fs_wf (d : Fs) : Prop := {
  wf_files p f : fs_files d !! p = Some f -> plain_path p;
  wf_dirs p : p ∈ fs_dirs d -> plain_path p;
  wf_names n i : plain_name (fs_names d n i);
}.

Lemma wf_entry d p : fs_wf d -> p ∈ entries d -> plain_path p.
Proof.
  intros Hd. unfold entries. rewrite elem_of_app, !elem_of_elements, elem_of_dom. intros [[f Hf]|Hp].
  - by eapply wf_files.
  - by eapply wf_dirs.
Qed.

Lemma ancestors_plain acc p a : plain_path (acc ++ p) -> a ∈ ancestors acc p -> plain_path a.
Proof.
  revert acc. induction p as [|c p IH]; intros acc Hp; simpl; [by intros ?%elem_of_nil|].
  rewrite elem_of_cons. change (c :: p) with ([c] ++ p) in Hp. rewrite app_assoc in Hp. intros [->|Ha].
  - by apply Forall_app in Hp as [Hp _].
  - by eapply IH.
Qed.

Lemma wf_calls d d' :
  fs_wf d -> fs_files d' = fs_files d -> fs_dirs d' = fs_dirs d -> fs_names d' = fs_names d -> fs_wf d'.
Proof. intros [H1 H2 H3] E1 E2 E3. split; rewrite ?E1, ?E2, ?E3; auto. Qed.

Lemma wf_insert d p f : plain_path p -> fs_wf d -> fs_wf (set_files (<[p := f]> (fs_files d)) d).
Proof.
  intros Hp [H1 H2 H3]. split; cbn; [|done..]. intros q g.
  rewrite lookup_insert_Some. intros [[<- _]|[_ Hq]]; [done|]. by eapply H1.
Qed.

Lemma wf_delete d p : fs_wf d -> fs_wf (set_files (base.delete p (fs_files d)) d).
Proof. intros [H1 H2 H3]. split; cbn; [|done..]. intros q g [_ Hq]%lookup_delete_Some. by eapply H1. Qed.

Lemma wf_syscall {B} (f : option fault -> M Fs B) : (forall o, preserves fs_wf (f o)) -> preserves fs_wf (bind syscall f).
Proof. intros Hf d Hd. apply Hf. by apply (wf_calls d). Qed.

Lemma wf_guarded {B} (m : M Fs B) : preserves fs_wf m -> preserves fs_wf (guarded m).
Proof. intros Hm. apply wf_syscall. intros [f|]; [apply preserves_raise|done]. Qed.

Lemma wf_mkdir p : plain_path p -> preserves fs_wf (mkdir p).
Proof.
  intros Hp. assert (forall n d, fs_wf d -> fs_wf (set_dirs (list_to_set (take n (ancestors [] p)) ∪ fs_dirs d) d)) as Hd.
  { intros n d [H1 H2 H3]. split; cbn; [done| |done]. intros q. rewrite elem_of_union, elem_of_list_to_set.
    intros [Hq|Hq]; [|by apply H2]. eapply (ancestors_plain []); [done|]. by apply (subseteq_take n). }
  apply wf_syscall. intros [f|] d Hw; unfold bind; [apply Hd, Hw|]. unfold gets. destruct (existsb _ _); [done|].
  pose proof (Hd (length (ancestors [] p)) d Hw) as Hx. rewrite take_ge in Hx by done. apply Hx.
Qed.

Lemma wf_read p : preserves fs_wf (read_file p).
Proof. apply wf_guarded. intros d Hd. cbn. by repeat case_match. Qed.

Lemma wf_fsync : preserves fs_wf fsync.
Proof. apply wf_guarded, preserves_ret. Qed.

Lemma wf_append p data : plain_path p -> preserves fs_wf (append_file p data).
Proof.
  intros Hp. apply wf_syscall. intros o d Hd. unfold bind, gets, id. destruct (is_dir d p); [done|].
  destruct (negb _); [done|]. destruct o as [f|]; by apply wf_insert.
Qed.

Lemma wf_unlink p : preserves fs_wf (unlink p).
Proof.
  apply wf_guarded. intros d Hd. unfold bind, gets, id. destruct (fs_files d !! p); [by apply wf_delete|].
  by destruct (is_dir d p).
Qed.

Lemma wf_replace src dst : plain_path dst -> preserves fs_wf (replace src dst).
Proof.
  intros Hp. apply wf_guarded. intros d Hd. unfold bind, gets, id.
  destruct (fs_files d !! src) eqn:E; [|done]. destruct (is_dir d dst); [done|]. destruct (negb _); [done|].
  eapply wf_calls; [by apply (wf_insert (set_files (base.delete src (fs_files d)) d) dst l Hp), wf_delete|done..].
Qed.

Lemma wf_mkstemp prefix suffix dir :
  plain_name prefix -> plain_name suffix -> plain_path dir -> preserves fs_wf (mkstemp prefix suffix dir).
Proof.
  intros H1 H2 H3 d Hd. destruct (mkstemp prefix suffix dir d) as [d1 [p|e]] eqn:E; cbn.
  - revert E. unfold mkstemp, guarded, syscall, bind, gets, id. destruct (fs_faults d (fs_calls d)); [done|].
    destruct (negb _); [done|]. destruct (fresh_name _ _ _ _) as [q|] eqn:Ef; [|done]. intros [= <- <-].
    apply fresh_name_new in Ef as [_ (j & ->)]. apply (wf_insert (next_call d)); [|by apply (wf_calls d)].
    apply Forall_app_2; [done|]. repeat constructor.
    + apply plain_name_app; [done|]. apply plain_name_app; [apply Hd|done].
    + apply plain_name_app; [done|]. apply plain_name_app; [apply Hd|done].
  - revert E. unfold mkstemp, guarded, syscall, bind, gets, id. destruct (fs_faults d (fs_calls d)).
    { intros [= <- _]. by apply (wf_calls d). }
    destruct (negb _). { intros [= <- _]. by apply (wf_calls d). }
    destruct (fresh_name _ _ _ _); [done|]. intros [= <- _]. by apply (wf_calls d).
Qed.

(** ** Scans *)

Lemma glob_elem s dir p q : q ∈ glob s dir p -> q ∈ entries s /\ path_parent q = dir /\ p (path_name q) = true /\ q <> [].
Proof.
  unfold glob. rewrite py_sort_perm. rewrite list_elem_of_In. rewrite filter_In, <- list_elem_of_In.
  rewrite !andb_true_iff, !bool_decide_eq_true. naive_solver.
Qed.

Lemma path_split q : q <> [] -> q = path_parent q ++ [path_name q].
Proof. intros Hq. by apply app_removelast_last. Qed.

Lemma path_parent_snoc dir n : path_parent (dir ++ [n]) = dir.
Proof. unfold path_parent. apply removelast_last. Qed.

Lemma path_name_snoc dir n : path_name (dir ++ [n]) = n.
Proof. unfold path_name. apply last_last. Qed.

Lemma rsplit_none c s : c ∉ s -> rsplit c s = None.
Proof.
  induction s as [|x s IH]; simpl; [done|]. intros [Hx Hs]%not_elem_of_cons. rewrite (IH Hs).
  by destruct (Z.eqb_spec x c); [subst|].
Qed.

Lemma rsplit_last c a b : c ∉ b -> rsplit c (a ++ c :: b) = Some (a, b).
Proof.
  intros Hb. induction a as [|x a IH]; simpl.
  - rewrite (rsplit_none c b Hb). by rewrite Z.eqb_refl.
  - by rewrite IH.
Qed.

Lemma name_suffix_ext a ext : a <> [] -> ext <> [] -> 46 ∉ ext -> name_suffix (a ++ 46 :: ext) = 46 :: ext.
Proof. intros Ha He Hd. unfold name_suffix. rewrite rsplit_last by done. destruct a, ext; done. Qed.
