(* ===== verification/Clean.v ===== *)
(** * Removing build output: [scripts/clean.py]

    Three passes over the file system, of which every call can fail: three known
    directories, the cache directories below the repository, and compiled Python files.
    What is removed is generated, and a run that returns leaves nothing generated. *)

From S2P Require Import Prelude PyText Float64 Errors Json Layout FileSystem FileSystemFacts.
Import MNotations ResNotations.
Local Open Scope m_scope.

(** ** The operations *)

(** [os.rmdir(path)]. *)
Definition rmdir (p : path) : M Fs unit :=
  guarded (
    let* s := gets id in
    if negb (is_dir s p) then raise (if is_file s p then os_error (str "Not a directory") else no_such_file)
    else if existsb (fun q => bool_decide (p `prefix_of` q) && negb (bool_decide (q = p))) (entries s) then
      raise (os_error (str "Directory not empty"))
    else modify (fun s => set_dirs (fs_dirs s ∖ {[ p ]}) s)).

Fixpoint remove_all (ps : list path) : M Fs unit :=
  match ps with
  | [] => ret tt
  | p :: rest =>
      let* file := gets (fun s => is_file s p) in
      (if (file : bool) then unlink p else rmdir p) ;;
      remove_all rest
  end.

(** Everything at or below [p], contents before their directory. *)
Definition tree (s : Fs) (p : path) : list path :=
  rev (py_sort path_leb (List.filter (fun q => bool_decide (p `prefix_of` q)) (entries s))).

(** [shutil.rmtree(path)]. *)
Definition rmtree (p : path) : M Fs unit :=
  let* dir := gets (fun s => is_dir s p) in
  if (dir : bool) then let* ps := gets (fun s => tree s p) in remove_all ps
  else let* file := gets (fun s => is_file s p) in
       raise (if (file : bool) then os_error (str "Not a directory") else no_such_file).

Definition EXPLICIT_DIRS (root : path) : list path :=
  [root ++ [str "io-profile"; str "build"]; root ++ [str ".pytest_cache"]; [str "tmp"; str "ai-inference-showcase-gocache"]].

Definition cache_names : list pystr := [str "__pycache__"; str ".pytest_cache"].

(** [*.py[co]]. *)
Definition is_compiled (name : pystr) : bool :=
  starts_with (rev (str ".pyc")) (rev name) || starts_with (rev (str ".pyo")) (rev name).

(** Removing those of the paths that satisfy a condition at their turn. *)
Fixpoint remove_dirs (test : Fs -> path -> bool) (ps : list path) (removed : Z) : M Fs Z :=
  match ps with
  | [] => ret removed
  | p :: rest =>
      let* present := gets (fun s => test s p) in
      if (present : bool) then rmtree p ;; remove_dirs test rest (removed + 1) else remove_dirs test rest removed
  end.

Fixpoint remove_caches (root : path) (names : list pystr) (removed : Z) : M Fs Z :=
  match names with
  | [] => ret removed
  | name :: rest =>
      let* ps := gets (fun s => rev (rglob s root (fun n => bool_decide (n = name)))) in
      let* removed := remove_dirs is_dir ps removed in
      remove_caches root rest removed
  end.

Fixpoint unlink_all (ps : list path) (removed : Z) : M Fs Z :=
  match ps with
  | [] => ret removed
  | p :: rest => unlink p ;; unlink_all rest (removed + 1)
  end.

Definition clean (root : path) : M Fs (list pystr) :=
  let* removed := remove_dirs exists_path (EXPLICIT_DIRS root) 0 in
  let* removed := remove_caches root cache_names removed in
  let* ps := gets (fun s => rglob s root is_compiled) in
  let* removed := unlink_all ps removed in
  ret [str "clean: removed " ++ int_repr removed ++ str " generated path(s)"].

(** ** Facts *)

(** A tree: no file is a directory, and what is below a directory is in it. *)
Definition closed (s : Fs) : Prop :=
  (forall p, p ∈ fs_dirs s -> fs_files s !! p = None) /\
  (forall q a, q ∈ entries s -> a `prefix_of` q -> a <> q -> a <> [] -> a ∈ fs_dirs s).

Lemma entries_elem s q : q ∈ entries s <-> is_Some (fs_files s !! q) \/ q ∈ fs_dirs s.
Proof. unfold entries. by rewrite elem_of_app, !elem_of_elements, elem_of_dom. Qed.

(** Only files of [may] are gone since [s0], and nothing is new. *)
Record since (may : path -> Prop) (s0 s : Fs) : Prop := {
  since_files : fs_files s ⊆ fs_files s0;
  since_dirs : fs_dirs s ⊆ fs_dirs s0;
  since_kept : forall p f, fs_files s0 !! p = Some f -> ~ may p -> fs_files s !! p = Some f;
  since_closed : closed s;
}.

Lemma since_refl may s : closed s -> since may s s.
Proof. by split. Qed.

Lemma tree_elem s p q : q ∈ tree s p <-> p `prefix_of` q /\ q ∈ entries s.
Proof.
  unfold tree. rewrite list_elem_of_In, <- in_rev, <- list_elem_of_In.
  rewrite (py_sort_perm path_leb), list_elem_of_In, filter_In, <- list_elem_of_In, bool_decide_eq_true. naive_solver.
Qed.

Section Since.
Context (may : path -> Prop) (s0 : Fs).

Lemma since_calls s s' : fs_files s' = fs_files s -> fs_dirs s' = fs_dirs s -> since may s0 s -> since may s0 s'.
Proof.
  intros Hf Hd [Hfiles Hdirs Hkept Hc]. split; unfold closed, entries in *; rewrite ?Hf, ?Hd; done.
Qed.

Lemma since_guarded {A} (m : M Fs A) : preserves (since may s0) m -> preserves (since may s0) (guarded m).
Proof.
  intros Hm s Hs. unfold guarded, syscall, bind. destruct (fs_faults s (fs_calls s)); cbn; [|apply Hm]; by apply (since_calls s (next_call s)).
Qed.

Lemma since_unlink p : (is_Some (fs_files s0 !! p) -> may p) -> preserves (since may s0) (unlink p).
Proof.
  intros Hp. apply since_guarded. intros s Hs. unfold bind, gets, id. destruct (fs_files s !! p) as [f|] eqn:E; [|destruct (is_dir s p); exact Hs].
  cbn. destruct Hs as [Hfiles Hdirs Hkept [Hc1 Hc2]]. split; cbn.
  - etrans; [apply delete_subseteq|done].
  - done.
  - intros q g Hq Hn. rewrite lookup_delete_ne; [by apply Hkept|]. intros ->. apply Hn, Hp. by exists g.
  - split; cbn.
    + intros q Hq. apply Hc1 in Hq. by rewrite lookup_delete_None; right.
    + intros q a Hq. apply Hc2. rewrite entries_elem in Hq |- *. cbn in Hq. destruct Hq as [[g Hg]|Hq]; [|by right].
      apply lookup_delete_Some in Hg as [_ Hg]. left. by exists g.
Qed.

Lemma since_rmdir p : preserves (since may s0) (rmdir p).
Proof.
  apply since_guarded. intros s Hs. unfold bind, gets, id. destruct (is_dir s p); cbn [negb]; [|exact Hs].
  destruct (existsb _ _) eqn:E; [exact Hs|]. cbn. destruct Hs as [Hfiles Hdirs Hkept [Hc1 Hc2]]. split; cbn; try done; [set_solver|].
  split; cbn; [intros q Hq; apply Hc1; set_solver|]. intros q a Hq Ha Hne H0.
  assert (q ∈ entries s) as Hqs by (rewrite entries_elem in Hq |- *; cbn in Hq; set_solver).
  specialize (Hc2 q a Hqs Ha Hne H0). apply elem_of_difference. split; [done|]. rewrite elem_of_singleton. intros ->.
  assert (existsb (fun q => bool_decide (p `prefix_of` q) && negb (bool_decide (q = p))) (entries s) = true); [|congruence].
  apply existsb_exists. exists q. rewrite <- list_elem_of_In. split; [done|]. by rewrite !bool_decide_eq_true_2, bool_decide_eq_false_2 by done.
Qed.

Lemma since_remove_all ps : (forall q, q ∈ ps -> is_Some (fs_files s0 !! q) -> may q) -> preserves (since may s0) (remove_all ps).
Proof.
  induction ps as [|p ps IH]; intros Hps; cbn [remove_all]; [apply preserves_ret|]. apply preserves_bind; [apply preserves_gets|]. intros file.
  apply preserves_bind; [destruct file; [apply since_unlink, Hps; left|apply since_rmdir]|]. intros _. apply IH. intros q Hq. apply Hps. by right.
Qed.

Lemma since_rmtree p :
  p <> [] -> (forall q, p `prefix_of` q -> q <> p -> may q) -> closed s0 -> preserves (since may s0) (rmtree p).
Proof.
  intros Hne Hmay [Hc _] s Hs. unfold rmtree. unfold bind at 1, gets at 1. destruct (is_dir s p) eqn:Ed; [|by destruct (is_file s p)].
  unfold bind at 1, gets at 1. apply since_remove_all; [|done]. intros q [Hq _]%tree_elem Hf. apply Hmay; [done|]. intros ->.
  unfold is_dir in Ed. rewrite bool_decide_eq_false_2 in Ed by done. apply bool_decide_eq_true in Ed.
  apply (since_dirs _ _ _ Hs) in Ed. apply Hc in Ed. rewrite Ed in Hf. by destruct Hf.
Qed.

Lemma since_remove_dirs test ps : closed s0 -> forall n,
  (forall p q, p ∈ ps -> p <> [] /\ (p `prefix_of` q -> q <> p -> may q)) -> preserves (since may s0) (remove_dirs test ps n).
Proof.
  intros Hc. induction ps as [|p ps IH]; intros n Hps; cbn [remove_dirs]; [apply preserves_ret|].
  apply preserves_bind; [apply preserves_gets|]. intros present.
  assert (forall n, preserves (since may s0) (remove_dirs test ps n)) as Hrest.
  { intros k. apply IH. intros p' q Hp. apply Hps. by right. }
  destruct present; [|apply Hrest]. apply preserves_bind; [|intros _; apply Hrest].
  apply since_rmtree; [by apply (Hps p []); left|intros q; by apply (Hps p q); left|done].
Qed.

Lemma since_unlink_all ps : forall n, (forall p, p ∈ ps -> may p) -> preserves (since may s0) (unlink_all ps n).
Proof.
  induction ps as [|p ps IH]; intros n Hps; cbn [unlink_all]; [apply preserves_ret|].
  apply preserves_bind; [apply since_unlink; intros _; apply Hps; left|]. intros _. apply IH. intros q Hq. apply Hps. by right.
Qed.
End Since.

(** *** Runs that return *)

Abbreviation shrunk := (since (fun _ => True)).

Lemma gone_later may s s' q : since may s s' -> q ∉ entries s -> q ∉ entries s'.
Proof.
  intros Hs Hq. rewrite entries_elem in Hq |- *. intros [[f Hf]|Hd]; apply Hq.
  - left. exists f. exact (lookup_weaken _ _ _ _ Hf (since_files _ _ _ Hs)).
  - right. exact (since_dirs _ _ _ Hs _ Hd).
Qed.

Lemma shrunk_run {A} (m : M Fs A) s s' r : closed s -> preserves (shrunk s) m -> m s = (s', r) -> shrunk s s'.
Proof. intros Hc Hm E. specialize (Hm s (since_refl _ s Hc)). by rewrite E in Hm. Qed.

Lemma shrunk_trans s s1 s2 : shrunk s s1 -> shrunk s1 s2 -> shrunk s s2.
Proof.
  intros H1 H2. split; [exact (transitivity (since_files _ _ _ H2) (since_files _ _ _ H1))|exact (transitivity (since_dirs _ _ _ H2) (since_dirs _ _ _ H1))
    |by intros p f _ []|exact (since_closed _ _ _ H2)].
Qed.

Lemma unlink_gone p s s' u : unlink p s = (s', Ok u) -> fs_files s' !! p = None /\ fs_dirs s' = fs_dirs s.
Proof.
  intros (x & s1 & Hx & Hm)%guarded_ok%bind_ok. injection Hx as <- <-. unfold id in Hm. cbn in Hm.
  destruct (fs_files s !! p); [|by destruct (is_dir _ p)]. injection Hm as <- _. cbn. by rewrite lookup_delete_eq.
Qed.

Lemma rmdir_gone p s s' u : rmdir p s = (s', Ok u) -> fs_files s' = fs_files s /\ p ∉ fs_dirs s'.
Proof.
  intros (x & s1 & Hx & Hm)%guarded_ok%bind_ok. injection Hx as <- <-. unfold id in Hm.
  destruct (is_dir (next_call s) p); cbn [negb] in Hm; [|done]. destruct (existsb _ _); [done|]. injection Hm as <- _. cbn. set_solver.
Qed.

Lemma remove_all_gone ps : forall s s' u, closed s -> remove_all ps s = (s', Ok u) -> forall q, q ∈ ps -> q ∉ entries s'.
Proof.
  induction ps as [|p ps IH]; intros s s' u Hc Hm q Hq; [by apply elem_of_nil in Hq|]. cbn [remove_all] in Hm.
  apply bind_ok in Hm as (file & s1 & Hf & Hm). injection Hf as <- Hf. apply bind_ok in Hm as (v & s2 & Hr & Hm).
  assert (shrunk s s2) as Hs2.
  { eapply (shrunk_run _ s s2); [done| |exact Hr]. destruct file; [by apply since_unlink|apply since_rmdir]. }
  assert (p ∉ entries s2) as Hp.
  { rewrite entries_elem. destruct file; unfold is_file in Hf.
    - apply unlink_gone in Hr as [Hp Hd]. rewrite Hp, Hd. apply bool_decide_eq_true in Hf as [f Hf].
      intros [[? [=]]|Hd']. apply Hc in Hd'. congruence.
    - apply rmdir_gone in Hr as [Hr Hd]. rewrite Hr. apply bool_decide_eq_false in Hf. by intros [?|?]. }
  apply elem_of_cons in Hq as [->|Hq]; [|by eapply IH; [apply (since_closed _ _ _ Hs2)|..]].
  eapply gone_later; [|exact Hp]. eapply (shrunk_run (remove_all ps)); [apply (since_closed _ _ _ Hs2)|by apply since_remove_all|exact Hm].
Qed.

Lemma rmtree_gone p s s' u : closed s -> rmtree p s = (s', Ok u) -> forall q, p `prefix_of` q -> q ∉ entries s'.
Proof.
  intros Hc Hm q Hp. unfold rmtree in Hm. apply bind_ok in Hm as (dir & s1 & Hd & Hm). injection Hd as <- Hd. destruct dir.
  - apply bind_ok in Hm as (ps & s1 & Ht & Hm). injection Ht as <- <-. destruct (decide (q ∈ entries s)) as [Hq|Hq].
    + eapply remove_all_gone; [done|exact Hm|]. apply tree_elem. by split.
    + eapply gone_later; [|exact Hq]. by eapply shrunk_run; [|apply since_remove_all|exact Hm].
  - apply bind_ok in Hm as (file & s1 & _ & Hm). done.
Qed.

(** A path that was not removed failed the test at its turn. *)
Lemma remove_dirs_gone test ps : forall s s' n m, closed s -> Forall (fun p => p <> []) ps -> remove_dirs test ps n s = (s', Ok m) ->
  shrunk s s' /\ forall p, p ∈ ps -> (forall q, p `prefix_of` q -> q ∉ entries s') \/ exists t, test t p = false /\ shrunk t s' /\ closed t.
Proof.
  induction ps as [|p ps IH]; intros s s' n m Hc Hne Hm; cbn [remove_dirs] in Hm.
  { injection Hm as <- _. split; [by apply since_refl|]. by intros p ?%elem_of_nil. }
  inversion_clear Hne as [|? ? Hp Hps]. apply bind_ok in Hm as (present & s1 & Ht & Hm). injection Ht as <- Ht. destruct present.
  - apply bind_ok in Hm as (u & s1 & Hr & Hm). pose proof (shrunk_run _ _ _ _ Hc (since_rmtree (fun _ => True) s p Hp (fun _ _ _ => I) Hc) Hr) as Hs1.
    destruct (IH s1 s' _ _ (since_closed _ _ _ Hs1) Hps Hm) as [Hs' Hrest]. split; [by eapply shrunk_trans|].
    intros q [->|Hq]%elem_of_cons; [|by apply Hrest]. left. intros x Hx. eapply gone_later; [exact Hs'|]. by eapply rmtree_gone.
  - destruct (IH s s' _ _ Hc Hps Hm) as [Hs' Hrest]. split; [done|]. intros q [->|Hq]%elem_of_cons; [|by apply Hrest]. right. by exists s.
Qed.

Lemma rglob_elem s dir f q : q ∈ rglob s dir f <-> dir `prefix_of` q /\ q <> dir /\ f (path_name q) = true /\ q ∈ entries s.
Proof.
  unfold rglob. rewrite (py_sort_perm path_leb), list_elem_of_In, filter_In, <- list_elem_of_In, !andb_true_iff, !bool_decide_eq_true. naive_solver.
Qed.

Lemma rglob_rev_elem s dir f q : q ∈ rev (rglob s dir f) <-> q ∈ rglob s dir f.
Proof. by rewrite !list_elem_of_In, <- in_rev. Qed.

Lemma below_nonempty (dir q : path) : dir `prefix_of` q -> q <> dir -> q <> [].
Proof. intros Hp Hn ->. by apply prefix_nil_inv in Hp. Qed.

Lemma remove_caches_gone root names : forall s s' n m, closed s -> remove_caches root names n s = (s', Ok m) ->
  shrunk s s' /\ forall name q, name ∈ names -> root `prefix_of` q -> q <> root -> path_name q = name -> q ∉ fs_dirs s'.
Proof.
  induction names as [|name names IH]; intros s s' n m Hc Hm; cbn [remove_caches] in Hm.
  { injection Hm as <- _. split; [by apply since_refl|]. by intros ? ? ?%elem_of_nil. }
  apply bind_ok in Hm as (ps & s1 & Hps & Hm). injection Hps as <- <-. apply bind_ok in Hm as (k & s1 & Hr & Hm).
  apply remove_dirs_gone in Hr as [Hs1 Hr]; [|done|].
  2: { apply Forall_forall. intros q (Hp & Hn & _)%rglob_rev_elem%rglob_elem. by eapply below_nonempty. }
  destruct (IH _ _ _ _ (since_closed _ _ _ Hs1) Hm) as [Hs' Hrest]. split; [by eapply shrunk_trans|].
  intros x q [->|Hx]%elem_of_cons Hp Hn Hname; [|by eapply Hrest]. intros Hd. pose proof (since_dirs _ _ _ Hs' _ Hd) as Hd1.
  assert (q ∈ rev (rglob s root (fun n => bool_decide (n = name)))) as Hin.
  { apply rglob_rev_elem, rglob_elem. split_and!; [done..|by apply bool_decide_eq_true|]. apply entries_elem. right. by apply (since_dirs _ _ _ Hs1). }
  destruct (Hr q Hin) as [Hgone|(t & Ht & Hts & _)].
  - apply (Hgone q); [done|]. apply entries_elem. by right.
  - unfold is_dir in Ht. apply orb_false_iff in Ht as [_ Ht]. apply bool_decide_eq_false in Ht. apply Ht. by apply (since_dirs _ _ _ Hts).
Qed.

Lemma unlink_all_gone ps : forall s s' n m, closed s -> unlink_all ps n s = (s', Ok m) -> forall p, p ∈ ps -> fs_files s' !! p = None.
Proof.
  induction ps as [|p ps IH]; intros s s' n m Hc Hm q Hq; [by apply elem_of_nil in Hq|]. cbn [unlink_all] in Hm.
  apply bind_ok in Hm as (u & s1 & Hu & Hm).
  pose proof (shrunk_run _ _ _ _ Hc (since_unlink (fun _ => True) s p (fun _ => I)) Hu) as Hs1.
  apply elem_of_cons in Hq as [->|Hq]; [|by eapply IH; [apply (since_closed _ _ _ Hs1)|..]]. apply unlink_gone in Hu as [Hp _].
  destruct (fs_files s' !! p) as [f|] eqn:E; [|done]. assert (shrunk s1 s') as Hs'.
  { eapply (shrunk_run (unlink_all ps _)); [apply (since_closed _ _ _ Hs1)|by apply since_unlink_all|exact Hm]. }
  pose proof (lookup_weaken _ _ _ _ E (since_files _ _ _ Hs')). congruence.
Qed.

(** ** Property *)

(** A file below one of the known directories, below a cache directory of the
    repository, or a compiled file of it. *)
Definition generated (root p : path) : Prop :=
  (exists d, d ∈ EXPLICIT_DIRS root /\ d `prefix_of` p) \/
  (exists a, root `prefix_of` a /\ a <> root /\ path_name a ∈ cache_names /\ a `prefix_of` p /\ a <> p) \/
  (root `prefix_of` p /\ p <> root /\ is_compiled (path_name p) = true).

Lemma explicit_nonempty root d : d ∈ EXPLICIT_DIRS root -> d <> [].
Proof. unfold EXPLICIT_DIRS. rewrite !elem_of_cons, elem_of_nil. intros [->|[->|[->|[]]]]; by destruct root. Qed.

Lemma preserves_gets_bind {S A B} (I : S -> Prop) (f : S -> A) (k : A -> M S B) :
  (forall t, preserves I (k (f t))) -> preserves I (bind (gets f) k).
Proof. intros Hk s Hs. by apply (Hk s). Qed.

Lemma since_remove_caches root s names : closed s -> (forall name, name ∈ names -> name ∈ cache_names) -> forall n,
  preserves (since (generated root) s) (remove_caches root names n).
Proof.
  intros Hc. induction names as [|name names IH]; intros Hall n; cbn [remove_caches]; [apply preserves_ret|].
  apply preserves_gets_bind. intros t. apply preserves_bind; [|intros k; apply IH; intros x Hx; apply Hall; by right].
  apply since_remove_dirs; [done|]. intros p q (Hp & Hn & Hname & _)%rglob_rev_elem%rglob_elem. split; [by eapply below_nonempty|].
  intros Hq Hne. right. left. exists p. apply bool_decide_eq_true in Hname.
  split_and!; [done|done|rewrite Hname; apply Hall; left|done|by apply not_eq_sym].
Qed.

Lemma since_clean root s : closed s -> preserves (since (generated root) s) (clean root).
Proof.
  intros Hc. unfold clean. apply preserves_bind; [|intros n; apply preserves_bind; [|intros m; apply preserves_gets_bind; intros t; apply preserves_bind]].
  - apply since_remove_dirs; [done|]. intros p q Hp. split; [by eapply explicit_nonempty|]. intros Hq _. left. by exists p.
  - by apply since_remove_caches.
  - apply since_unlink_all. intros p (Hp & Hn & Hcomp & _)%rglob_elem. right. by right.
  - intros k. apply preserves_ret.
Qed.

(** C32: Cleaning removes generated files and nothing else, whichever of its calls fail; when
    it returns, no generated file is left. *)
Theorem clean_exact root s s' r :
  closed s -> clean root s = (s', r) ->
  (forall p f, fs_files s' !! p = Some f -> fs_files s !! p = Some f) /\
  (forall p f, fs_files s !! p = Some f -> ~ generated root p -> fs_files s' !! p = Some f) /\
  (is_ok r = true -> forall p, is_Some (fs_files s' !! p) -> ~ generated root p).
Proof.
  intros Hc Hr. pose proof (since_clean root s Hc s (since_refl _ s Hc)) as Hs. rewrite Hr in Hs. cbn in Hs. split_and!.
  - intros p f Hp. exact (lookup_weaken _ _ _ _ Hp (since_files _ _ _ Hs)).
  - apply (since_kept _ _ _ Hs).
  - destruct r as [out|e]; [|done]. intros _ p Hp Hgen. unfold clean in Hr.
    apply bind_ok in Hr as (n1 & s1 & H1 & Hr). apply remove_dirs_gone in H1 as [Hs1 H1]; [|done|by apply Forall_forall; intros d; apply explicit_nonempty].
    apply bind_ok in Hr as (n2 & s2 & H2 & Hr). apply remove_caches_gone in H2 as [Hs2 H2]; [|by apply (since_closed _ _ _ Hs1)].
    apply bind_ok in Hr as (ps & s3 & Hps & Hr). injection Hps as <- <-. apply bind_ok in Hr as (n3 & s3 & H3 & Hr). injection Hr as <- _.
    assert (shrunk s2 s3) as Hs3 by (eapply (shrunk_run (unlink_all _ _)); [apply (since_closed _ _ _ Hs2)|by apply since_unlink_all|exact H3]).
    assert (p ∈ entries s3) as Hp3 by (apply entries_elem; by left).
    destruct Hgen as [(d & Hd & Hpre)|[(a & Ha & Hne & Hname & Hpre & Hap)|(Hpre & Hne & Hcomp)]].
    + pose proof (shrunk_trans _ _ _ Hs2 Hs3) as Hs13. destruct (H1 d Hd) as [Hgone|(t & Ht & Hts & Htc)].
      * by apply (gone_later _ _ _ p Hs13 (Hgone p Hpre)).
      * apply (gone_later _ _ _ p (shrunk_trans _ _ _ Hts Hs13)); [|done]. intros Hpt. apply orb_false_iff in Ht as [Hf Hd'].
        apply bool_decide_eq_false in Hf. apply orb_false_iff in Hd' as [_ Hd']. apply bool_decide_eq_false in Hd'.
        apply entries_elem in Hpt as Hpt'. destruct (decide (d = p)) as [->|Hdp]; [by destruct Hpt'|]. apply Hd'.
        by apply (proj2 Htc p d Hpt Hpre Hdp), (explicit_nonempty root).
    + assert (a ∈ fs_dirs s3) as Had by (apply (proj2 (since_closed _ _ _ Hs3) p a Hp3 Hpre Hap); by eapply below_nonempty).
      apply (H2 (path_name a) a Hname Ha Hne eq_refl). by apply (since_dirs _ _ _ Hs3).
    + pose proof (unlink_all_gone _ _ _ _ _ (since_closed _ _ _ Hs2) H3 p) as Hgone. rewrite Hgone in Hp; [by destruct Hp|].
      apply rglob_elem. split_and!; [done..|]. destruct (decide (p ∈ entries s2)) as [?|Hn]; [done|]. by destruct (gone_later _ _ _ _ Hs3 Hn).
Qed.

(** A tree with generated files of each kind. *)
Definition dirty_tree : Fs :=
  mkFs {[ [str "r"; str "a.py"] := []; [str "r"; str "a.pyc"] := []; [str "r"; str "__pycache__"; str "a.cpython.pyc"] := [];
          [str "r"; str "io-profile"; str "build"; str "bench"] := []; [str "r"; str "t"; str ".pytest_cache"; str "v"] := [] ]}
    {[ [str "r"]; [str "r"; str "__pycache__"]; [str "r"; str "io-profile"]; [str "r"; str "io-profile"; str "build"]; [str "r"; str "t"];
       [str "r"; str "t"; str ".pytest_cache"] ]} (fun _ => None) (fun _ _ => []) 0 4096.

Definition closed_check (s : Fs) : bool :=
  forallb (fun p => negb (is_file s p)) (elements (fs_dirs s)) &&
  forallb (fun q => forallb (fun a => bool_decide (a = q) || bool_decide (a ∈ fs_dirs s)) (ancestors [] q)) (entries s).

Lemma ancestors_prefix acc q a : a `prefix_of` q -> a <> [] -> acc ++ a ∈ ancestors acc q.
Proof.
  revert acc a. induction q as [|c q IH]; intros acc a Ha Hne; [by apply prefix_nil_inv in Ha|]. destruct a as [|x a]; [done|].
  apply prefix_cons_inv_1 in Ha as Hx. apply prefix_cons_inv_2 in Ha. subst x. cbn [ancestors]. apply elem_of_cons.
  destruct a as [|y a]; [by left|]. right. change (acc ++ c :: y :: a) with (acc ++ [c] ++ y :: a). rewrite app_assoc. by apply IH.
Qed.

Lemma closed_check_sound s : closed_check s = true -> closed s.
Proof.
  unfold closed_check. rewrite andb_true_iff, !forallb_forall. intros [H1 H2]. split.
  - intros p Hp. specialize (H1 p). rewrite <- list_elem_of_In, elem_of_elements in H1. specialize (H1 Hp). unfold is_file in H1.
    apply negb_true_iff, bool_decide_eq_false in H1. by apply eq_None_not_Some.
  - intros q a Hq Ha Hne H0. specialize (H2 q). rewrite <- list_elem_of_In, forallb_forall in H2. specialize (H2 Hq a).
    rewrite <- list_elem_of_In in H2. specialize (H2 (ancestors_prefix [] q a Ha H0)). rewrite bool_decide_eq_false_2 in H2 by done.
    by apply bool_decide_eq_true in H2.
Qed.

Lemma clean_exact_witness :
  closed dirty_tree /\ exists s', clean [str "r"] dirty_tree = (s', Ok [str "clean: removed 4 generated path(s)"]) /\
    bool_decide (dom (fs_files s') = {[ [str "r"; str "a.py"] ]}) = true /\ ~ generated [str "r"] [str "r"; str "a.py"].
Proof.
  assert (closed dirty_tree) as Hc by (apply closed_check_sound; vm_compute; reflexivity). split; [exact Hc|].
  destruct (clean [str "r"] dirty_tree) as [s' r] eqn:E.
  assert ((clean [str "r"] dirty_tree).2 = Ok [str "clean: removed 4 generated path(s)"]) as Hr by (vm_compute; reflexivity).
  assert (bool_decide (dom (fs_files (clean [str "r"] dirty_tree).1) = {[ [str "r"; str "a.py"] ]}) = true) as Hd by (vm_compute; reflexivity).
  rewrite E in Hr, Hd. cbn in Hr, Hd. subst r. exists s'. split; [reflexivity|]. split; [exact Hd|].
  apply (proj2 (proj2 (clean_exact [str "r"] dirty_tree s' _ Hc E)) eq_refl). apply bool_decide_eq_true in Hd.
  apply elem_of_dom. rewrite Hd. by apply elem_of_singleton.
Defined.
