(* ===== verification/World.v ===== *)
(** * A persistent tier and its surroundings

    The state of a tier that keeps its payloads on a device: the shared
    environment ([Runtime.Env]) and the device. The parts of [nvme_tier.py] and
    [s3_tier.py] that are the same text are defined here once, for any device. *)

From Stdlib Require Import SpecFloat.
From S2P Require Import Prelude PyText Sha256 Float64 Errors PyVal Json JsonFacts Metadata MetadataFacts MetadataStore MetadataStoreFacts Metrics Runtime Record.
Import MNotations.
Local Open Scope m_scope.

Record World (D : Type) := mkWorld { w_env : Env; w_dev : D }.
Arguments mkWorld {D} _ _.
Arguments w_env {D} _.
Arguments w_dev {D} _.

Section World.
Context {D : Type}.

Definition on_env {A} (m : M Env A) : M (World D) A :=
  zoom w_env (fun e w => mkWorld e (w_dev w)) m.

Definition on_dev {A} (m : M D A) : M (World D) A :=
  zoom w_dev (fun d w => mkWorld (w_env w) d) m.

Definition dev_gets {A} (f : D -> A) : M (World D) A := gets (fun w => f (w_dev w)).

Definition db {A} (m : MS A) : M (World D) A := on_env (on_store m).
Definition db_at {A} (m : f64 -> MS A) : M (World D) A := on_env (on_store_at m).

(** Labels of the metrics. *)
Definition labels_of (t : TierName) (outcome : pystr) : list (pystr * pystr) :=
  [(str "tier", tier_value t); (str "outcome", outcome)].

Definition ms_since (start : f64) : M (World D) f64 :=
  let* stop := on_env perf_counter in ret (f64_mul (f64_sub stop start) (f64_of_Z 1000)).

(** The end of [store]. *)
Definition stored (t : TierName) (start : f64) (k : BlockKey) (data : pybytes) (checksum : pystr)
  : M (World D) StoreResult :=
  let* latency_ms := ms_since start in
  on_env (metric (Observe kv_store_latency_seconds (f64_div latency_ms (f64_of_Z 1000)) (labels_of t (str "ok")))) ;;
  on_env (metric (Inc kv_bytes_written_total (f64_of_Z (zlen data)) (labels_of t (str "ok")))) ;;
  ret {| sr_key := k; sr_tier := t; sr_bytes := zlen data; sr_latency_ms := latency_ms; sr_checksum := checksum |}.

(** [str(header["checksum"])] and [int(header["payload_bytes"])] of a decoded
    header. *)
Definition header_checksum (h : list (pystr * pyval)) : pystr :=
  match get_or_none (str "checksum") h with PStr s => s | _ => [] end.

Definition block_mismatch (k : BlockKey) (what : pystr) : exn := err MetadataMismatch (block_hash k ++ what).

(** [metadata.last_access = persisted.last_access], and the reuse count. *)
Definition copy_access (m p : KVMetadata) : KVMetadata :=
  {| md_key := md_key m; md_dtype := md_dtype m; md_num_layers := md_num_layers m;
     md_num_kv_heads := md_num_kv_heads m; md_head_dim := md_head_dim m; md_tokens := md_tokens m;
     md_bytes := md_bytes m; md_shape := md_shape m; md_checksum := md_checksum m;
     md_checksum_algo := md_checksum_algo m; md_created_at := md_created_at m;
     md_last_access := md_last_access p; md_reuse_count := md_reuse_count p; md_extra := md_extra m |}.

(** The second half of [load]: the payload is verified, the access recorded and
    the header compared with the persisted metadata. *)
Definition verify_and_touch (t : TierName) (start : f64) (k : BlockKey) (h : list (pystr * pyval))
    (payload : pybytes) (m : KVMetadata) : M (World D) LoadResult :=
  when (negb (verify_sha256 payload (header_checksum h)))
    (on_env (metric (Inc kv_checksum_mismatch_total (f64_of_Z 1) (labels_of t (str "error")))) ;;
     raise (err ChecksumMismatch (block_hash k))) ;;
  let m := set_payload m (header_checksum h) (zlen payload) in
  db_at (fun now => MetadataStore.touch now k t) ;;
  let* persisted := db_at (fun now => MetadataStore.get_metadata now k t) in
  match persisted with
  | None => raise (block_mismatch k [])
  | Some p =>
      when (negb (bool_decide (md_key p = k))) (raise (block_mismatch k [])) ;;
      when (negb (descriptor_eqb (payload_descriptor p) (payload_descriptor m)))
        (raise (block_mismatch k (str ": persisted metadata does not match payload header"))) ;;
      let m := copy_access m p in
      let* latency_ms := ms_since start in
      on_env (metric (Observe kv_load_latency_seconds (f64_div latency_ms (f64_of_Z 1000)) (labels_of t (str "ok")))) ;;
      on_env (metric (Inc kv_bytes_read_total (f64_of_Z (zlen payload)) (labels_of t (str "ok")))) ;;
      ret {| lr_key := k; lr_tier := t; lr_data := payload; lr_metadata := m;
             lr_latency_ms := latency_ms; lr_from_prefetch := false |}
  end.

(** The [except CorruptionDetected] and [finally] clauses of [load]: release the
    reader; after corruption, evict. *)
Definition finish_load (t : TierName) (evict : BlockKey -> M (World D) bool) (remains : pystr)
    (k : BlockKey) (outcome : res LoadResult) : M (World D) unit :=
  let corruption := match outcome with
                    | Raise e => if is_a e CorruptionDetected then Some e else None
                    | Ok _ => None
                    end in
  try_catch (db (MetadataStore.release k t))
    (fun cleanup => match corruption with
                    | Some c => raise (cleanup_failed (block_hash k) (str "release") cleanup c)
                    | None => raise cleanup
                    end) ;;
  match corruption with
  | None => ret tt
  | Some c =>
      try_catch
        (let* removed := evict k in
         if removed then ret tt
         else
           let* remaining := db (MetadataStore.lookup k (Some t)) in
           match remaining with
           | [] => ret tt
           | _ => raise (err RuntimeError remains)
           end)
        (fun cleanup => raise (cleanup_failed (block_hash k) (str "evict") cleanup c))
  end.

(** The checks of [store] before it looks at the device, with the assignments to
    the caller's metadata. *)
Definition stamp_block (m : KVMetadata) (checksum : pystr) (n : Z) (now : f64) : KVMetadata :=
  set_access (set_payload m checksum n) now.

Definition pending_delete : exn :=
  err RuntimeError (str "cannot store a block while its delete tombstone is pending").

Definition conflict (k : BlockKey) (what : pystr) : exn := err ImmutableBlockConflict (block_hash k ++ what).

(** The branch of [store] for a block that is already published: it must be the
    same, and its access time is refreshed. *)
Definition refresh_location (l : BlockLocation) (n : Z) (checksum : pystr) (access : pyval) : BlockLocation :=
  {| loc_key := loc_key l; loc_tier := loc_tier l; loc_uri := loc_uri l; loc_bytes := n;
     loc_checksum := checksum; loc_created_at := loc_created_at l; loc_last_access := access;
     loc_attributes := loc_attributes l |}.

Definition refresh (load : BlockKey -> M (World D) LoadResult) (k : BlockKey) (data : pybytes) (m : KVMetadata)
    (checksum : pystr) (existing : BlockLocation) : M (World D) unit :=
  let* loaded := load k in
  when (negb (bool_decide (lr_data loaded = data)))
    (raise (conflict k (str ": immutable BlockKey already has different payload"))) ;;
  when (negb (descriptor_eqb (payload_descriptor (lr_metadata loaded)) (payload_descriptor m)))
    (raise (conflict k (str ": immutable BlockKey metadata descriptor changed"))) ;;
  db_at (fun now => MetadataStore.upsert now (refresh_location existing (zlen data) checksum (md_last_access m)) m).
End World.

(** The attributes of a location: the defaults, with its locality and transport. *)
Definition device_attributes (locality transport : pystr) : list (pystr * pyval) :=
  dict_set (str "locality") (PStr locality) (dict_set (str "transport") (PStr transport) default_attributes).
