(* ===== verification/WorldFacts.v ===== *)
(** * Facts about persistent tiers

    What the methods of the metadata store may do to the rows of a tier, seen
    from its device: only a publication adds a row or changes what a visible row
    says of its payload ([shrinks]). An invariant between rows and device that
    survives shrinking survives every other call. Then what a tier promises: it is a map
    from keys to payloads; [map_step] says what each operation may do to the map and what
    it answers, and the persistent tiers refine it. *)

From Stdlib Require Import SpecFloat.
From S2P Require Import Prelude PyText Sha256 Float64 Errors PyVal Json JsonFacts Metadata MetadataFacts MetadataStore MetadataStoreFacts Metrics Runtime MemoryTier MemoryTierFacts Record World.
Import MNotations ResNotations.
Local Open Scope m_scope.

(** ** Rows of a tier *)

(** What a row says of its payload. *)
Definition row_core (r : Row) : pystr * Z * pystr * pystr :=
  (r_uri r, r_bytes r, r_checksum r, r_metadata_json r).

(** Every row of the tier was there before with the same payload, and was visible
    if it is visible now; its access time is still one that JSON keeps. *)
Definition shrinks (t : TierName) (b b' : gmap RowKey Row) : Prop :=
  forall id r', b' !! (id, t) = Some r' ->
  exists r, b !! (id, t) = Some r /\ (r_state r' = active -> r_state r = active) /\ row_core r' = row_core r /\
    (float_ok (r_last_access r) = true -> float_ok (r_last_access r') = true).

Lemma shrinks_refl t b : shrinks t b b.
Proof. intros id r Hr. eauto. Qed.

Lemma shrinks_trans t b1 b2 b3 : shrinks t b1 b2 -> shrinks t b2 b3 -> shrinks t b1 b3.
Proof.
  intros H1 H2 id r3 H3. destruct (H2 id r3 H3) as (r2 & L2 & A2 & E2 & F2).
  destruct (H1 id r2 L2) as (r1 & L1 & A1 & E1 & F1). exists r1. split_and!; [done|auto|congruence|auto].
Qed.

Lemma shrinks_put t s rk r r' :
  ms_blocks s !! rk = Some r -> (r_state r' = active -> r_state r = active) -> row_core r' = row_core r ->
  (float_ok (r_last_access r) = true -> float_ok (r_last_access r') = true) ->
  shrinks t (ms_blocks s) (ms_blocks (put_row rk r' s)).
Proof.
  intros Hr Hs Hc Hf id r0 H0. rewrite put_row_blocks in H0.
  destruct (decide (rk = (id, t))) as [->|Hne].
  - rewrite lookup_insert_eq in H0. injection H0 as <-. eauto.
  - rewrite lookup_insert_ne in H0 by done. eauto.
Qed.

Lemma shrinks_put_other t s id t' r' : t' <> t -> shrinks t (ms_blocks s) (ms_blocks (put_row (id, t') r' s)).
Proof.
  intros Hne id0 r0 H0. rewrite put_row_blocks, lookup_insert_ne in H0 by congruence. eauto.
Qed.

Lemma shrinks_drop t s rk : shrinks t (ms_blocks s) (ms_blocks (drop_row rk s)).
Proof. intros id r0 H0. rewrite drop_row_blocks in H0. apply lookup_delete_Some in H0 as [_ H0]. eauto. Qed.

(** A call that publishes nothing in the tier. *)
Definition publishes (t : TierName) (c : ms_call) : bool :=
  match c with CUpsert _ l _ => bool_decide (loc_tier l = t) | _ => false end.

Definition touches_at (c : ms_call) : bool := match c with CTouch now _ _ => float_ok now | _ => true end.

Lemma effect_shrinks t s c s' :
  effect s c s' -> publishes t c = false -> touches_at c = true -> shrinks t (ms_blocks s) (ms_blocks s').
Proof.
  intros [c' s1 Eb _|now l m n old _ _ _ _ _|c' k t' r _ Hr Ha|k t' r Hr _|now k t' r Hr Ha
         |k t' r Hr Ha _|k t' r Hr Ha _|k t' r Hr _] Hp Hf.
  - rewrite Eb. apply shrinks_refl.
  - apply shrinks_put_other. by apply bool_decide_eq_false in Hp.
  - by eapply shrinks_put.
  - by eapply shrinks_put.
  - by eapply shrinks_put.
  - apply shrinks_drop.
  - by eapply shrinks_put.
  - apply shrinks_drop.
Qed.

(** A method of the store that keeps its invariant and publishes nothing in [t]. *)
Record quiet {A} (t : TierName) (m : MS A) : Prop := {
  quiet_safe : safe_call m;
  quiet_shrinks s : shrinks t (ms_blocks s) (ms_blocks (m s).1);
}.

Lemma quiet_call {A} t c (m : MS A) :
  call_ok c -> publishes t c = false -> touches_at c = true -> (forall s, (m s).1 = after c s) -> quiet t m.
Proof.
  intros Hc Hp Hf Hm. split; [by eapply safe_of_call|].
  intros s. rewrite Hm. eapply effect_shrinks; [apply run_effect|done|done].
Qed.

Ltac quiet c := apply (quiet_call _ c); [done|done|done|intros; first [reflexivity|by apply discard_after]].

Section Quiet.
Context (t : TierName).

Lemma quiet_lookup k t' : quiet t (MetadataStore.lookup k t'). Proof. quiet (CLookup k t'). Qed.
Lemma quiet_get_metadata now k t' : quiet t (get_metadata now k t'). Proof. quiet (CGetMetadata now k t'). Qed.
Lemma quiet_is_deleting k t' : quiet t (is_deleting k t'). Proof. quiet (CIsDeleting k t'). Qed.
Lemma quiet_lookup_acquire k t' : quiet t (lookup_and_acquire k t'). Proof. quiet (CLookupAcquire k t'). Qed.
Lemma quiet_acquire k t' : quiet t (acquire k t'). Proof. quiet (CAcquire k t'). Qed.
Lemma quiet_release k t' : quiet t (release k t'). Proof. quiet (CRelease k t'). Qed.
Lemma quiet_touch now k t' : stamp now -> float_ok now = true -> quiet t (touch now k t').
Proof. intros Hn Hf. quiet (CTouch now k t'). Qed.
Lemma quiet_delete k t' : quiet t (MetadataStore.delete k t'). Proof. quiet (CDelete k t'). Qed.
Lemma quiet_begin_delete k t' : quiet t (begin_delete k t'). Proof. quiet (CBeginDelete k t'). Qed.
Lemma quiet_finish_delete k t' : quiet t (finish_delete k t'). Proof. quiet (CFinishDelete k t'). Qed.
Lemma quiet_lru now t' n : quiet t (lru_candidates now t' n). Proof. quiet (CLruCandidates now t' n). Qed.
Lemma quiet_entries now t' b : quiet t (tier_entries now t' b). Proof. quiet (CTierEntries now t' b). Qed.
Lemma quiet_bytes_used t' : quiet t (bytes_used t'). Proof. quiet (CBytesUsed t'). Qed.
Lemma quiet_validate now m : quiet t (validate_payload_descriptor now m). Proof. quiet (CValidate now m). Qed.

Lemma quiet_upsert_other now l m :
  loc_tier l <> t -> storable m = true -> location_ok l -> quiet t (upsert now l m).
Proof.
  intros Hl Hm Ho. apply (quiet_call _ (CUpsert now l m)); [done| |done|done]. simpl. by apply bool_decide_eq_false.
Qed.

Lemma quiet_mutation : quiet t mutation.
Proof.
  split.
  - intros s. unfold mutation. by destruct (_closed s).
  - intros s. unfold mutation. destruct (_closed s); apply shrinks_refl.
Qed.
End Quiet.

#[export] Hint Resolve quiet_lookup quiet_get_metadata quiet_is_deleting quiet_lookup_acquire quiet_acquire
  quiet_release quiet_touch quiet_delete quiet_begin_delete quiet_finish_delete quiet_lru quiet_entries
  quiet_bytes_used quiet_validate quiet_mutation : kv.

(** ** Rows that are not visible *)

(** The block is not published in the tier. *)
Definition hidden (k : BlockKey) (t : TierName) (s : MetadataStore) : Prop :=
  forall r, ms_blocks s !! row_key k t = Some r -> r_state r <> active.

Lemma hidden_shrinks k t s s' : shrinks t (ms_blocks s) (ms_blocks s') -> hidden k t s -> hidden k t s'.
Proof. intros Hs Hh r' Hr' Ha. destruct (Hs _ _ Hr') as (r & Hr & Ha' & _). by apply (Hh r Hr), Ha'. Qed.

Lemma begin_delete_ok k t s s' l :
  store_inv s -> begin_delete k t s = (s', Ok (Some l)) ->
  exists r r', ms_blocks s !! row_key k t = Some r /\ ms_blocks s' !! row_key k t = Some r' /\
    r_state r' = deleting /\ row_core r' = row_core r /\ r_in_flight r' = 0 /\
    s' = put_row (row_key k t) r' s /\
    loc_key l = k /\ loc_tier l = t /\ loc_uri l = r_uri r /\ loc_bytes l = r_bytes r /\
    (forall r0, ms_blocks s !! row_key k t = Some r0 -> r_state r0 = active -> r_in_flight r0 = 0).
Proof.
  intros Hi. rewrite begin_delete_eq. destruct (_closed s); [done|].
  destruct (ms_blocks s !! row_key k t) as [r|] eqn:Hr; [|done].
  pose proof (inv_rows s Hi _ _ Hr) as Hrow. destruct (row_ok_location _ _ _ k t Hrow) as (dd & _ & El).
  destruct (r_state r) eqn:Es.
  - destruct (_ && _) eqn:Eb; [done|]. rewrite El. intros [= <- <-].
    exists r, (set_state deleting (set_flight 0 [] r)). rewrite put_row_lookup. split_and!; try done.
    intros r0 [= <-] _. pose proof (ro_flight _ _ _ Hrow). pose proof (ro_unowned _ _ _ Hrow) as Hu.
    destruct (ro_epoch _ _ _ Hrow) as [E|E]; [auto|]. rewrite bool_decide_eq_true_2 in Eb by done. simpl in Eb. lia.
  - rewrite El. intros [= <- <-]. exists r, r. destruct (ro_state _ _ _ Hrow) as [?|[_ Hf]]; [congruence|].
    split_and!; try done.
    + unfold put_row. rewrite insert_id by done. symmetry. apply set_blocks_same.
    + intros r0 [= <-]. congruence.
  - done.
Qed.

(** ** Invariants between the rows and the device *)

Section Invariant.
Context {D : Type} (t : TierName) (P : MetadataStore -> D -> Prop).

Definition linked (w : World D) : Prop := env_inv (w_env w) /\ P (env_store (w_env w)) (w_dev w).

Context (P_shrinks : forall s s' d, shrinks t (ms_blocks s) (ms_blocks s') -> P s d -> P s' d).

Lemma linked_env {A} (m : M Env A) :
  preserves env_inv m -> (forall e, env_store (m e).1 = env_store e) -> preserves linked (on_env m).
Proof.
  intros Hm He w [Hw Hp]. unfold on_env, zoom. specialize (Hm _ Hw). specialize (He (w_env w)).
  destruct (m (w_env w)) as [e r]. simpl in *. split; [done|]. simpl. by rewrite He.
Qed.

Lemma linked_metric c : preserves linked (on_env (metric c)).
Proof. apply linked_env; [apply env_metric|]. intros e. apply metric_store. Qed.

Lemma linked_perf : preserves linked (on_env perf_counter).
Proof. by apply linked_env; [apply env_perf_counter|]. Qed.

Lemma linked_time : preserves linked (on_env time_time).
Proof. apply linked_env; [intros e; apply env_ticked|done]. Qed.

Lemma linked_since start : preserves linked (ms_since start).
Proof. apply preserves_bind; [apply linked_perf|]. intros. by apply preserves_ret. Qed.

Lemma linked_db {A} (m : MS A) : quiet t m -> preserves linked (db m).
Proof using P_shrinks.
  intros [Hs Hq] w [[Hc Hi] Hp]. unfold db, on_env, on_store, zoom. specialize (Hs _ Hi).
  specialize (Hq (env_store (w_env w))). destruct (m (env_store (w_env w))) as [s r]. simpl in *.
  split; [by split|]. by eapply P_shrinks.
Qed.

Lemma linked_db_at {A} (m : f64 -> MS A) :
  (forall now, stamp now -> float_ok now = true -> quiet t (m now)) -> preserves linked (db_at m).
Proof using P_shrinks.
  intros Hm w Hw. destruct (env_clock _ (proj1 Hw) (env_tick (w_env w))) as [Hst Hfl].
  pose proof (linked_time w Hw) as Ht. exact (linked_db _ (Hm _ Hst Hfl) _ Ht).
Qed.

Lemma linked_dev {A} (m : M D A) :
  (forall s d, store_inv s -> P s d -> P s (m d).1) -> preserves linked (on_dev m).
Proof.
  intros Hm w [Hw Hp]. unfold on_dev, zoom. specialize (Hm _ _ (env_store_inv _ Hw) Hp).
  destruct (m (w_dev w)) as [d r]. by split.
Qed.

Lemma linked_dev_gets {A} (f : D -> A) : preserves linked (dev_gets f).
Proof. by intros w. Qed.

Lemma linked_stamped {B} (f : f64 -> M (World D) B) :
  (forall now, stamp now -> float_ok now = true -> preserves linked (f now)) ->
  preserves linked (bind (on_env time_time) f).
Proof.
  intros Hf w Hw. destruct (env_clock _ (proj1 Hw) (env_tick (w_env w))) as [H1 H2].
  pose proof (linked_time w Hw) as Ht. exact (Hf _ H1 H2 _ Ht).
Qed.
End Invariant.

#[export] Hint Resolve linked_metric linked_perf linked_time linked_since linked_db linked_db_at
  linked_dev_gets : kv.

(** Proves [preserves (linked P) m] from the structure of [m]. *)
Ltac linked :=
  repeat (intros; first
    [ progress eauto 5 with kv nocore
    | apply preserves_bind | apply preserves_try_catch | apply preserves_try_finally
    | apply preserves_when
    | match goal with |- preserves _ (match ?x with _ => _ end) => destruct x end
    | match goal with |- preserves _ (let _ := ?x in _) => cbv zeta end ]).

Section Shared.
Context {D : Type} (t : TierName) (P : MetadataStore -> D -> Prop).
Context (P_shrinks : forall s s' d, shrinks t (ms_blocks s) (ms_blocks s') -> P s d -> P s' d).

Lemma linked_stored t' start k data c : preserves (linked P) (stored t' start k data c).
Proof. unfold stored. linked. Qed.

Lemma linked_verify t' start k h payload m : preserves (linked P) (verify_and_touch t' start k h payload m).
Proof using P_shrinks. unfold verify_and_touch. linked. Qed.

Lemma linked_finish t' evict msg k r :
  (forall k, preserves (linked P) (evict k)) -> preserves (linked P) (finish_load t' evict msg k r).
Proof using P_shrinks. intros He. unfold finish_load. linked. Qed.
End Shared.

(** ** Runs *)

(** What a row shows: its payload and its state. *)
Definition row_view (r : Row) : pystr * Z * pystr * pystr * row_state := (row_core r, r_state r).

(** The rows of the tier show the same. *)
Definition steady (t : TierName) (s s' : MetadataStore) : Prop :=
  _closed s' = _closed s /\
  forall id, row_view <$> ms_blocks s' !! (id, t) = row_view <$> ms_blocks s !! (id, t).

Lemma steady_refl t s : steady t s s.
Proof. done. Qed.

Lemma steady_trans t s1 s2 s3 : steady t s1 s2 -> steady t s2 s3 -> steady t s1 s3.
Proof. intros [C1 H1] [C2 H2]. split; [congruence|]. intros id. by rewrite H2, H1. Qed.

Lemma steady_put t rk r r' s :
  ms_blocks s !! rk = Some r -> row_view r' = row_view r -> steady t s (put_row rk r' s).
Proof.
  intros Hr Hv. split; [done|]. intros id. rewrite put_row_blocks.
  destruct (decide (rk = (id, t))) as [->|Hne]; [|by rewrite lookup_insert_ne].
  rewrite lookup_insert_eq, Hr. simpl. by rewrite Hv.
Qed.

Lemma steady_row t s s' k r :
  steady t s s' -> ms_blocks s !! row_key k t = Some r ->
  exists r', ms_blocks s' !! row_key k t = Some r' /\ row_core r' = row_core r /\ r_state r' = r_state r.
Proof.
  intros [_ H] Hr. specialize (H (block_hash k, namespace k)). unfold row_key in *. rewrite Hr in H. cbn in H.
  apply fmap_Some in H as (r' & Hr' & [= E1 E2 E3 E4 E5]). exists r'. unfold row_core. split_and!; [done|congruence|done].
Qed.

Lemma steady_sym t s s' : steady t s s' -> steady t s' s.
Proof. intros [C H]. split; [done|]. intros id. by rewrite H. Qed.

Lemma steady_hidden t s s' k : steady t s s' -> hidden k t s -> hidden k t s'.
Proof.
  intros H Hh r' Hr' Ha. destruct (steady_row t s' s k r' (steady_sym _ _ _ H) Hr') as (r & Hr & _ & E).
  apply (Hh r Hr). congruence.
Qed.

(** Methods that show the same rows afterwards. *)
Lemma steady_update t p f k t' s :
  (forall r, row_view (f r) = row_view r) -> steady t s (update_row p f k t' s).1.
Proof.
  intros Hf. rewrite update_row_eq. destruct (_closed s); [apply steady_refl|].
  destruct (ms_blocks s !! row_key k t') as [r|] eqn:Er; [|apply steady_refl].
  destruct (p r); [by eapply steady_put|apply steady_refl].
Qed.

Lemma steady_touch t now k t' s : steady t s (touch now k t' s).1.
Proof. unfold touch. rewrite bind_pure_state by done. by apply steady_update. Qed.

Lemma steady_release t k t' s : steady t s (release k t' s).1.
Proof. unfold release, bind at 1, owner, gets. rewrite bind_pure_state by done. by apply steady_update. Qed.

Lemma steady_acquiring {B} t k t' (f : option Row -> MS B) s :
  (forall a s', (f a s').1 = s') ->
  steady t s (bind mutation (fun _ => bind owner (fun ep => bind (update_row is_active (acquire_row ep) k t') f)) s).1.
Proof.
  intros Hf. unfold bind at 1, mutation. destruct (_closed s); [apply steady_refl|]. unfold bind at 1, owner, gets.
  rewrite bind_pure_state by done. by apply steady_update.
Qed.

Lemma steady_acquire t k t' s : steady t s (acquire k t' s).1.
Proof. by apply steady_acquiring. Qed.

Lemma steady_lookup_acquire t k t' s : steady t s (lookup_and_acquire k t' s).1.
Proof. apply steady_acquiring. intros [r|] s'; done. Qed.

Lemma read_only_get_metadata now k t s : (get_metadata now k t s).1 = s.
Proof.
  unfold get_metadata, bind. rewrite get_row_eq. destruct (_closed s); [done|].
  destruct (ms_blocks s !! row_key k t) as [r|]; [|done]. by destruct (is_active r).
Qed.

Lemma mutation_ok s s' u : mutation s = (s', Ok u) -> s' = s /\ _closed s = false.
Proof. unfold mutation. destruct (_closed s) eqn:E; [done|]. by intros [= <- _]. Qed.

Section Runs.
Context {D : Type} (t : TierName).

(** Only the clock, the metrics and what rows do not show has changed. *)
Definition calm (w w' : World D) : Prop :=
  w_dev w' = w_dev w /\ env_time (w_env w') = env_time (w_env w) /\ steady t (env_store (w_env w)) (env_store (w_env w')).

Lemma calm_refl w : calm w w.
Proof. by split_and!. Qed.

Lemma calm_trans w1 w2 w3 : calm w1 w2 -> calm w2 w3 -> calm w1 w3.
Proof. intros (D1 & T1 & S1) (D2 & T2 & S2). split_and!; [congruence|congruence|by eapply steady_trans]. Qed.

(** Clocks and metrics. *)
Definition idle_step (w w' : World D) : Prop :=
  w_dev w' = w_dev w /\ env_time (w_env w') = env_time (w_env w) /\ env_store (w_env w') = env_store (w_env w).

Lemma idle_refl w : idle_step w w.
Proof. by split_and!. Qed.

Lemma idle_trans w1 w2 w3 : idle_step w1 w2 -> idle_step w2 w3 -> idle_step w1 w3.
Proof. intros (D1 & T1 & S1) (D2 & T2 & S2). split_and!; congruence. Qed.

Lemma idle_calm w w' : idle_step w w' -> calm w w'.
Proof. intros (D1 & T1 & S1). split_and!; try done. by rewrite S1. Qed.

Lemma metric_idle c (w : World D) : exists w', on_env (metric c) w = (w', Ok tt) /\ idle_step w w'.
Proof.
  unfold on_env, zoom. destruct (metric_store c (w_env w)) as (E1 & E2 & E3).
  destruct (metric c (w_env w)) as [e r]. cbn in *. subst r. eexists. by split.
Qed.

Lemma perf_idle (w : World D) : exists v w', on_env perf_counter w = (w', Ok v) /\ idle_step w w'.
Proof. by do 2 eexists. Qed.

Lemma since_idle start (w : World D) : exists v w', ms_since start w = (w', Ok v) /\ idle_step w w'.
Proof. by do 2 eexists. Qed.

Lemma time_idle (w : World D) :
  clock_ok (w_env w) -> exists now w', on_env time_time w = (w', Ok now) /\ idle_step w w' /\ stamp now /\ float_ok now = true.
Proof. intros Hc. destruct (Hc (env_tick (w_env w))) as [H1 H2]. do 2 eexists. split_and!; [reflexivity|done..]. Qed.

(** A method of the store. *)
Lemma db_run {A} (m : MS A) (w : World D) s' r :
  m (env_store (w_env w)) = (s', r) -> exists w', db m w = (w', r) /\ env_store (w_env w') = s' /\
    w_dev w' = w_dev w /\ env_time (w_env w') = env_time (w_env w).
Proof. intros H. unfold db, on_env, on_store, zoom. rewrite H. by eexists. Qed.

Lemma db_ok {A} (m : MS A) (w w' : World D) r :
  db m w = (w', r) -> m (env_store (w_env w)) = (env_store (w_env w'), r) /\
    w_dev w' = w_dev w /\ env_time (w_env w') = env_time (w_env w).
Proof. unfold db, on_env, on_store, zoom. destruct (m _) as [s1 r1]. by intros [= <- <-]. Qed.

Lemma db_at_ok {A} (m : f64 -> MS A) (w w' : World D) r :
  db_at m w = (w', r) -> exists now, now = env_time (w_env w) (env_tick (w_env w)) /\
    m now (env_store (w_env w)) = (env_store (w_env w'), r) /\
    w_dev w' = w_dev w /\ env_time (w_env w') = env_time (w_env w).
Proof.
  unfold db_at, on_env, on_store_at, on_store, zoom, bind, time_time. cbn.
  destruct (m _ _) as [s1 r1] eqn:E. intros [= <- <-]. eauto.
Qed.

Lemma db_at_run {A} (m : f64 -> MS A) (w : World D) :
  clock_ok (w_env w) -> exists now w', stamp now /\ float_ok now = true /\
    db_at m w = (w', (m now (env_store (w_env w))).2) /\ env_store (w_env w') = (m now (env_store (w_env w))).1 /\
    w_dev w' = w_dev w /\ env_time (w_env w') = env_time (w_env w).
Proof.
  intros Hc. destruct (Hc (env_tick (w_env w))) as [H1 H2]. exists (env_time (w_env w) (env_tick (w_env w))).
  unfold db_at, on_env, on_store_at, on_store, zoom, bind, time_time. cbn.
  destruct (m _ _) as [s1 r1] eqn:E. eexists. by split_and!.
Qed.

Lemma calm_inv w w' : calm w w' -> env_inv (w_env w) -> store_inv (env_store (w_env w')) -> env_inv (w_env w').
Proof. intros (_ & E & _) [Hc _] Hs. split; [|done]. unfold clock_ok. by rewrite E. Qed.
End Runs.

Section Loads.
Context {D : Type} (t : TierName).

(** [p] is the metadata a row records, but for the access time and the reuse count. *)
Definition recorded (p : KVMetadata) (json : pystr) : Prop :=
  exists now q, parse_metadata now json = Ok q /\ payload_descriptor p = payload_descriptor q.

Lemma get_metadata_recorded now k s s' p :
  get_metadata now k t s = (s', Ok (Some p)) -> exists r, ms_blocks s !! row_key k t = Some r /\ recorded p (r_metadata_json r).
Proof.
  unfold get_metadata, bind. rewrite get_row_eq. destruct (_closed s); [done|].
  destruct (ms_blocks s !! row_key k t) as [r|]; [|done]. destruct (is_active r); [|done]. unfold lift. intros [= _ Hm].
  apply res_map_ok in Hm as (p' & Hm & [= <-]). exists r. split; [done|]. unfold res_catch in Hm.
  destruct (res_bind _ _) as [p1|e] eqn:E; [|by destruct (existsb _ _)]. injection Hm as <-.
  apply res_bind_ok in E as (q & Hq & Hv). cbv zeta in Hv. apply res_map_ok in Hv as (u & _ & ->). by exists now, q.
Qed.

(** What a verified load has checked, and what it returns. *)
Lemma verify_ok start k h payload m (w w' : World D) r :
  verify_and_touch t start k h payload m w = (w', Ok r) ->
  calm t w w' /\ header_checksum h = sha256_hex payload /\
  lr_key r = k /\ lr_tier r = t /\ lr_data r = payload /\
  exists p, lr_metadata r = copy_access (set_payload m (header_checksum h) (zlen payload)) p /\ md_key p = k /\
    descriptor_eqb (payload_descriptor p) (payload_descriptor (set_payload m (header_checksum h) (zlen payload))) = true /\
    forall row, ms_blocks (env_store (w_env w)) !! row_key k t = Some row -> recorded p (r_metadata_json row).
Proof.
  unfold verify_and_touch. destruct (verify_sha256 payload (header_checksum h)) eqn:Ev; cycle 1.
  { intros H. apply bind_ok in H as (? & ? & H & _). cbn [negb when] in H. by apply bind_ok in H as (? & ? & _ & [=]). }
  cbn [negb when]. intros H. apply bind_ok in H as ([] & w0 & [= <-] & H). cbv zeta in H.
  apply bind_ok in H as ([] & w1 & (now & _ & H1 & D1 & T1)%db_at_ok & H).
  apply bind_ok in H as (p & w2 & (now2 & _ & H2 & D2 & T2)%db_at_ok & H). destruct p as [p|]; [|done].
  apply bind_ok in H as ([] & w3 & [Ek ->]%when_raise_ok & H).
  apply bind_ok in H as ([] & w4 & [Ed ->]%when_raise_ok & H). cbv zeta in H.
  apply bind_ok in H as (v & w5 & H5 & H). destruct (since_idle start w2) as (v' & w5' & E5 & S5). rewrite E5 in H5. injection H5 as <- <-.
  apply bind_ok in H as ([] & w6 & H6 & H). destruct (metric_idle (Observe kv_load_latency_seconds (f64_div v' (f64_of_Z 1000)) (labels_of t (str "ok"))) w5') as (w6' & E6 & S6).
  rewrite E6 in H6. injection H6 as <-. apply bind_ok in H as ([] & w7 & H7 & [= <- <-]).
  destruct (metric_idle (Inc kv_bytes_read_total (f64_of_Z (zlen payload)) (labels_of t (str "ok"))) w6') as (w7' & E7 & S7).
  rewrite E7 in H7. injection H7 as <-. apply negb_false_iff in Ek, Ed. apply bool_decide_eq_true in Ek.
  split_and!; try done.
  - eapply calm_trans; [|apply idle_calm, (idle_trans _ _ _ S5), (idle_trans _ _ _ S6), S7].
    assert (env_store (w_env w2) = env_store (w_env w1)) as E2.
    { pose proof (read_only_get_metadata now2 k t (env_store (w_env w1))) as E. rewrite H2 in E. done. }
    split_and!; [congruence|congruence|]. rewrite E2. pose proof (steady_touch t now k t (env_store (w_env w))) as Hs.
    by rewrite H1 in Hs.
  - by apply verify_sha256_true.
  - exists p. split_and!; try done. intros row Hrow. apply get_metadata_recorded in H2 as (r1 & Hr1 & Hrec).
    pose proof (steady_touch t now k t (env_store (w_env w))) as [_ Hs]. rewrite H1 in Hs. specialize (Hs (block_hash k, namespace k)).
    change (_, _, t) with (row_key k t) in Hs. cbn [fst] in Hs. rewrite Hr1, Hrow in Hs. injection Hs as _ _ _ Hs _. by rewrite <- Hs.
Qed.

(** A block whose row and header agree is delivered. *)
Lemma verify_run start k h payload m (w : World D) r p :
  env_inv (w_env w) -> _closed (env_store (w_env w)) = false ->
  ms_blocks (env_store (w_env w)) !! row_key k t = Some r -> r_state r = active -> row_md r p -> md_key p = k ->
  header_checksum h = sha256_hex payload ->
  descriptor_eqb (payload_descriptor p) (payload_descriptor (set_payload m (header_checksum h) (zlen payload))) = true ->
  exists w' lr, verify_and_touch t start k h payload m w = (w', Ok lr) /\ calm t w w' /\ lr_data lr = payload.
Proof.
  intros [Hc Hi] Ho Hr Ha Hp Hk Hsum Hd. unfold verify_and_touch.
  rewrite Hsum, verify_sha256_refl in *. cbn [negb when]. unfold bind at 1, ret at 1. cbv zeta.
  destruct (db_at_run (fun now => touch now k t) w Hc) as (now & w1 & Hst & _ & E1 & S1 & D1 & T1).
  rewrite (touch_run now _ k t r) in E1, S1 by done. cbn [fst snd] in E1, S1. rewrite (bind_run _ _ _ _ _ E1).
  set (r1 := set_touch now (sql_incr (r_reuse_count r)) r) in *.
  assert (clock_ok (w_env w1)) as Hc1 by (unfold clock_ok; by rewrite T1).
  destruct (db_at_run (fun now => get_metadata now k t) w1 Hc1) as (now2 & w2 & _ & _ & E2 & S2 & D2 & T2).
  pose proof (inv_rows _ Hi _ _ Hr) as Hrow.
  assert (0 <= sql_incr (r_reuse_count r)) as Hinc by (pose proof (ro_reuse _ _ _ Hrow); unfold sql_incr, max_int64; case_match; lia).
  assert (row_md r1 p) as Hp1 by (by eapply row_md_json).
  pose proof (get_metadata_row now2 (env_store (w_env w1)) k t r1 p) as Hg. rewrite S1 in Hg.
  specialize (Hg Ho (put_row_lookup _ _ _) Ha Hp1 Hst Hinc). rewrite S1, Hg in E2, S2.
  cbn [fst snd] in E2, S2. rewrite (bind_run _ _ _ _ _ E2).
  rewrite bool_decide_eq_true_2 by done. cbn [negb when]. unfold bind at 1, ret at 1.
  match goal with |- context [descriptor_eqb ?a ?b] => change a with (payload_descriptor p) end. rewrite Hd. cbn [negb when].
  unfold bind at 1, ret at 1. cbv zeta.
  destruct (since_idle start w2) as (v & w5 & E5 & S5). rewrite (bind_run _ _ _ _ _ E5).
  match goal with |- context [on_env (metric (Observe ?a ?b ?c))] => destruct (metric_idle (Observe a b c) w5) as (w6 & E6 & S6) end.
  rewrite (bind_run _ _ _ _ _ E6).
  match goal with |- context [on_env (metric (Inc ?a ?b ?c))] => destruct (metric_idle (Inc a b c) w6) as (w7 & E7 & S7) end.
  rewrite (bind_run _ _ _ _ _ E7). do 2 eexists. split; [reflexivity|]. split; [|done].
  eapply calm_trans; [|apply idle_calm, (idle_trans _ _ _ S5), (idle_trans _ _ _ S6), S7].
  split_and!; [congruence|congruence|]. rewrite S2. by eapply steady_put.
Qed.

(** The end of a load that delivers. *)
Lemma finish_ok evict msg k x (w w' : World D) u :
  finish_load t evict msg k (Ok x) w = (w', Ok u) -> calm t w w'.
Proof.
  unfold finish_load. cbv zeta. intros H. apply bind_ok in H as ([] & w1 & H1 & [= <-]).
  apply try_catch_raise_ok in H1; [|done]. apply db_ok in H1 as (H1 & D1 & T1). split_and!; try done.
  pose proof (steady_release t k t (env_store (w_env w))) as Hs. by rewrite H1 in Hs.
Qed.

Lemma finish_calm evict msg k o (w : World D) :
  _closed (env_store (w_env w)) = false ->
  match o with Raise e => is_a e CorruptionDetected = false | Ok _ => True end ->
  exists w', finish_load t evict msg k o w = (w', Ok tt) /\ calm t w w'.
Proof.
  intros Ho Hno. unfold finish_load. cbv zeta.
  assert (match o with Raise e => if is_a e CorruptionDetected then Some e else None | Ok _ => None end = None) as ->
    by (destruct o as [a|e]; [done|by rewrite Hno]).
  destruct (release k t (env_store (w_env w))) as [s r] eqn:Er.
  assert (r = Ok tt) as ->.
  { revert Er. unfold release, bind at 1, owner, gets, bind. rewrite update_row_eq, Ho.
    destruct (ms_blocks _ !! _) as [r0|]; [destruct (bool_decide _)|]; by intros [= _ <-]. }
  destruct (db_run (D := D) _ _ _ _ Er) as (w1 & E1 & S1 & D1 & T1). exists w1. unfold bind, try_catch. rewrite E1.
  split; [done|]. split_and!; [done|done|]. pose proof (steady_release t k t (env_store (w_env w))) as Hs. rewrite Er in Hs.
  cbn in Hs. by rewrite S1.
Qed.

Lemma finish_run evict msg k x (w : World D) :
  _closed (env_store (w_env w)) = false -> exists w', finish_load t evict msg k (Ok x) w = (w', Ok tt) /\ calm t w w'.
Proof. intros Ho. by apply finish_calm. Qed.
End Loads.

(** ** Calls that only read, pin or unpin *)

Record gentle {A} (t : TierName) (m : MS A) : Prop := {
  gentle_quiet : quiet t m;
  gentle_steady s : steady t s (m s).1;
}.

Lemma gentle_reads {A} t (m : MS A) : quiet t m -> (forall s, (m s).1 = s) -> gentle t m.
Proof. intros Hq Hs. split; [done|]. intros s. by rewrite Hs. Qed.

Section Gentle.
Context (t : TierName).

Lemma gentle_mutation : gentle t mutation.
Proof. apply gentle_reads; [apply quiet_mutation|]. intros s. unfold mutation. by destruct (_closed s). Qed.

Lemma gentle_lookup k t' : gentle t (MetadataStore.lookup k t').
Proof.
  apply gentle_reads; [apply quiet_lookup|]. intros s. unfold MetadataStore.lookup, bind. rewrite execute_eq.
  by destruct (_closed s).
Qed.

Lemma gentle_entries now t' b : gentle t (tier_entries now t' b).
Proof.
  apply gentle_reads; [apply quiet_entries|]. intros s. unfold tier_entries, bind. rewrite execute_eq.
  by destruct (_closed s).
Qed.

Lemma gentle_bytes_used t' : gentle t (bytes_used t').
Proof.
  apply gentle_reads; [apply quiet_bytes_used|]. intros s. unfold bytes_used, bind. rewrite execute_eq.
  destruct (_closed s); [done|]. unfold gets. by destruct (_ && _).
Qed.

Lemma gentle_acquire k t' : gentle t (acquire k t').
Proof. split; [apply quiet_acquire|apply steady_acquire]. Qed.

Lemma gentle_release k t' : gentle t (release k t').
Proof. split; [apply quiet_release|apply steady_release]. Qed.
End Gentle.

Section GentleInvariant.
Context {D : Type} (t : TierName) (P : MetadataStore -> D -> Prop).
Context (P_gentle : forall s s' d, shrinks t (ms_blocks s) (ms_blocks s') -> steady t s s' -> P s d -> P s' d).

Lemma linked_gentle {A} (m : MS A) : gentle t m -> preserves (linked P) (db m).
Proof using P_gentle.
  intros [[Hs Hq] Hst] w [[Hc Hi] Hp]. unfold db, on_env, on_store, zoom. specialize (Hs _ Hi).
  specialize (Hq (env_store (w_env w))). specialize (Hst (env_store (w_env w))).
  destruct (m (env_store (w_env w))) as [s r]. simpl in *. split; [by split|]. by eapply P_gentle.
Qed.

Lemma linked_gentle_at {A} (m : f64 -> MS A) : (forall now, gentle t (m now)) -> preserves (linked P) (db_at m).
Proof using P_gentle.
  intros Hm w Hw. pose proof (linked_time P w Hw) as Ht. exact (linked_gentle _ (Hm _) _ Ht).
Qed.
End GentleInvariant.

(** A pure step. *)
Lemma wp_lift {S A B} (r : res A) (f : A -> M S B) Q s :
  match r with Ok a => wp (f a) Q s | Raise e => Q (Raise e) s end -> wp (bind (lift r) f) Q s.
Proof. unfold wp, bind, lift. by destruct r. Qed.

Section Persist.
Context {t : TierName}.

(** ** Keys of rows *)

Lemma key_of_row s k r :
  store_inv s -> ms_blocks s !! row_key k t = Some r -> exists k0, key_valid k0 = true /\ row_key k0 t = row_key k t.
Proof.
  intros Hs Hr. destruct (ro_metadata _ _ _ (inv_rows s Hs _ _ Hr)) as (m & (_ & Hm & _) & Hk & _).
  exists (md_key m). apply storable_inv in Hm as (_ & Hm & _). split; [done|].
  unfold row_key in *. simpl in Hk. congruence.
Qed.

Lemma row_key_inj k k' : key_valid k = true -> key_valid k' = true -> row_key k t = row_key k' t -> k = k'.
Proof. unfold row_key. intros H1 H2 E. apply key_identity; congruence. Qed.

Lemma row_key_of_metadata k s r p :
  store_inv s -> key_valid k = true -> ms_blocks s !! row_key k t = Some r -> row_md r p -> md_key p = k.
Proof.
  intros Hi Hk Hr Hmd. destruct (ro_metadata _ _ _ (inv_rows _ Hi _ _ Hr)) as (p' & Hmd' & Hid & _).
  rewrite (row_md_unique _ _ _ Hmd Hmd'). destruct Hmd' as (_ & (_ & Hv & _)%storable_inv & _).
  apply (row_key_inj _ _ Hv Hk). unfold row_key in *. simpl in Hid. congruence.
Qed.

(** The row of a hidden block is found by any key with the same identity. *)
Lemma hidden_same k k' s : row_key k t = row_key k' t -> hidden k t s -> hidden k' t s.
Proof. unfold hidden. by intros ->. Qed.

(** ** Calls of the store *)

Lemma store_lookup_open k t' s s' r : MetadataStore.lookup k t' s = (s', Ok r) -> _closed s = false.
Proof. unfold MetadataStore.lookup, bind at 1. rewrite execute_eq. by destruct (_closed s). Qed.


Lemma acquire_ok k s s' l :
  store_inv s -> lookup_and_acquire k t s = (s', Ok (Some l)) ->
  _closed s = false /\ exists r d, ms_blocks s !! row_key k t = Some r /\ r_state r = active /\ json_ok (PDict d) = true /\
    l = row_location k t r d.
Proof.
  intros Hi H. unfold lookup_and_acquire in H. apply bind_ok in H as ([] & s1 & [-> Ho]%mutation_ok & H).
  apply bind_ok in H as (ep & s1 & [= <- <-] & H). apply bind_ok in H as (o & s1 & Hu & H). split; [done|].
  rewrite update_row_eq, Ho in Hu. destruct (ms_blocks s !! row_key k t) as [r|] eqn:Hr; [|by injection Hu as <- <-].
  destruct (is_active r) eqn:Ha; [|by injection Hu as <- <-]. injection Hu as <- <-.
  destruct (row_ok_location _ _ _ k t (inv_rows s Hi _ _ Hr)) as (d & Hj & Hl). injection H as <- H.
  rewrite Hl in H. injection H as <-. exists r, d. split_and!; try done. by apply is_active_true.
Qed.

Lemma acquire_open_run k s r :
  store_inv s -> _closed s = false -> ms_blocks s !! row_key k t = Some r -> r_state r = active ->
  exists d, json_ok (PDict d) = true /\
    lookup_and_acquire k t s = (put_row (row_key k t) (acquire_row (_owner_epoch s) r) s, Ok (Some (row_location k t r d))).
Proof.
  intros Hi Ho Hr Ha. destruct (row_ok_location _ _ _ k t (inv_rows s Hi _ _ Hr)) as (d & Hj & Hl). exists d. split; [done|].
  unfold lookup_and_acquire, bind at 1, mutation. rewrite Ho. unfold bind at 1, owner, gets. unfold bind.
  rewrite update_row_eq, Ho, Hr. assert (is_active r = true) as -> by by apply is_active_true. unfold lift. by rewrite Hl.
Qed.

(** After the tombstone is set the block is hidden. *)
Lemma begin_delete_hides {D} k w w1 l :
  env_inv (w_env w) -> db (D := D) (begin_delete k t) w = (w1, Ok (Some l)) ->
  hidden k t (env_store (w_env w1)) /\ exists r, ms_blocks (env_store (w_env w1)) !! row_key k t = Some r /\ loc_uri l = r_uri r.
Proof.
  intros Hw E. unfold db, on_env, on_store, zoom in E.
  destruct (begin_delete k t (env_store (w_env w))) as [s1 r1] eqn:Eb. injection E as <- ->. cbn.
  apply begin_delete_ok in Eb as (r & r' & Hr & Hr' & Hs & Hc & _ & _ & _ & _ & Hu & _ & _); [|apply Hw].
  split.
  - intros r2 H2. rewrite H2 in Hr'. injection Hr' as ->. congruence.
  - exists r'. split; [done|]. by injection Hc as ->.
Qed.

Lemma upsert_raises now l m s : is_ok (upsert now l m s).2 = false -> (upsert now l m s).1 = s.
Proof.
  rewrite upsert_eq. destruct (_validate_upsert l m); [|done]. destruct (_closed s); [done|].
  destruct (res_each _ _); [|done]. cbv zeta. case_bool_decide; [done|]. by destruct (new_row _ _ _).
Qed.

(** The access time of the row a publication leaves. *)
Lemma upsert_text now l m s s' f r :
  upsert now l m s = (s', Ok tt) -> loc_last_access l = PFloat f -> float_ok f = true ->
  (forall o, ms_blocks s !! row_key (loc_key l) (loc_tier l) = Some o -> float_ok (r_last_access o) = true) ->
  ms_blocks s' !! row_key (loc_key l) (loc_tier l) = Some r -> float_ok (r_last_access r) = true.
Proof.
  intros H Hf Ht Hold Hr. destruct (upsert_inv _ _ _ _ _ H) as (_ & _ & _ & n & Hn & _ & ->).
  assert (r_last_access n = f) as En.
  { unfold new_row in Hn. rewrite Hf in Hn. do 5 (apply res_bind_ok in Hn as (? & _ & Hn)).
    apply res_bind_ok in Hn as (a & Ha & Hn). apply res_bind_ok in Hn as (u & _ & [= <-]). cbn in Ha |- *.
    destruct (f64_nan f); [done|]. by injection Ha as <-. }
  rewrite put_row_lookup in Hr. injection Hr as <-. destruct (ms_blocks s !! _) as [o|]; cbn; [|by rewrite En].
  unfold f64_max. rewrite En. destruct (f64_ltb _ _); [done|by apply Hold].
Qed.

Lemma finish_delete_ok k s s' b :
  finish_delete k t s = (s', Ok b) ->
  (b = true /\ ms_blocks s' = base.delete (row_key k t) (ms_blocks s)) \/ (b = false /\ s' = s).
Proof.
  unfold finish_delete. rewrite delete_row_eq. destruct (_closed s); [done|].
  destruct (ms_blocks s !! _) as [r|]; [|intros [= <- <-]; by right].
  destruct (bool_decide _); intros [= <- <-]; [left|by right]. by rewrite drop_row_blocks.
Qed.

(** ** Eviction in two phases *)

Section TwoPhase.
Context {D : Type} (lost : exn) (remove : BlockLocation -> M (World D) unit).

(** The tombstone, the removal of the payload, and the end of the row. *)
Definition two_phase (k : BlockKey) : M (World D) bool :=
  db mutation ;;
  let* location := db (MetadataStore.begin_delete k t) in
  match location with
  | None => ret false
  | Some l =>
      remove l ;;
      let* finished := db (MetadataStore.finish_delete k t) in
      if negb finished then raise lost else ret true
  end.

Lemma two_phase_ok k w w' b :
  (forall l w w' u, remove l w = (w', Ok u) -> env_store (w_env w') = env_store (w_env w)) ->
  env_inv (w_env w) -> two_phase k w = (w', Ok b) ->
  let rows w := ms_blocks (env_store (w_env w)) in
  (b = true /\ rows w' = base.delete (row_key k t) (rows w) /\ is_Some (rows w !! row_key k t)) \/
  (b = false /\ rows w' = rows w).
Proof.
  intros Hrem Hi H. cbv zeta. unfold two_phase in H. apply bind_ok in H as ([] & w1 & (H1 & D1 & T1)%db_ok & H).
  apply mutation_ok in H1 as [E1 Ho]. apply bind_ok in H as (loc & w2 & (H2 & D2 & T2)%db_ok & H). rewrite E1 in H2.
  destruct loc as [l|].
  - apply begin_delete_ok in H2 as (r & r' & Hr & _ & _ & _ & _ & Es & _); [|apply Hi].
    apply bind_ok in H as ([] & w4 & E4%Hrem & H).
    apply bind_ok in H as (fin & w5 & (H5 & _ & _)%db_ok & H). rewrite E4, Es in H5. left.
    destruct fin; [|done]. injection H as <- <-. apply finish_delete_ok in H5 as [[_ E5]|[? _]]; [|done].
    rewrite E5, put_row_blocks, delete_insert_eq. split_and!; eauto.
  - injection H as <- <-. right. split; [done|]. rewrite begin_delete_eq, Ho in H2.
    destruct (ms_blocks (env_store (w_env w)) !! row_key k t) as [r|]; [|by injection H2 as <-].
    destruct (r_state r); [destruct (_ && _); [by injection H2 as <-|destruct (_location_from_row _ _ _); done]|destruct (_location_from_row _ _ _); done|done].
Qed.
End TwoPhase.

(** ** Metadata *)

(** The two formats of the sources both sort the keys. *)
Lemma json_norm_formats v : json_norm fmt_compact v = json_norm fmt_store v.
Proof.
  assert (forall l, Forall (fun v => json_norm fmt_compact v = json_norm fmt_store v) l ->
    map (json_norm fmt_compact) l = map (json_norm fmt_store) l) as Hm.
  { intros l. induction 1 as [|x l Hx _ IH]; simpl; congruence. }
  induction v as [|b|z|f|s|l IH|l IH|d IH|z] using pyval_ind; try done; [simpl; by rewrite Hm..|].
  rewrite !json_norm_dict. do 2 f_equal. induction IH as [|[k x] d Hx _ IHd]; simpl in *; [done|]. by rewrite Hx, IHd.
Qed.

Lemma norm_formats m : norm_metadata fmt_compact m = norm_metadata fmt_store m.
Proof. unfold norm_metadata. by rewrite json_norm_formats. Qed.

Lemma set_payload_id m c n : md_checksum m = PStr c -> md_bytes m = PInt n -> set_payload m c n = m.
Proof. destruct m. simpl. by intros -> ->. Qed.

Lemma stamp_block_storable m c n now :
  input_ok m -> float_ok now = true -> validate true (stamp_block m c n now) = Ok tt -> storable (stamp_block m c n now) = true.
Proof. intros (H1 & H2 & H3) Hf Hv. unfold storable. rewrite Hv. simpl. by rewrite H1, H2, H3, Hf. Qed.

(** What the checks of [store] establish about the metadata. *)
Record stamped (maxb : Z) (k : BlockKey) (data : pybytes) (m : KVMetadata) : Prop := {
  st_storable : storable m = true;
  st_key : md_key m = k;
  st_bytes : md_bytes m = PInt (zlen data);
  st_sum : md_checksum m = PStr (sha256_hex data);
  st_fits : zlen data <= maxb;
  st_text : exists f, md_last_access m = PFloat f /\ float_ok f = true;
}.

Lemma stamped_key maxb k data m : stamped maxb k data m -> key_valid k = true.
Proof. intros [(_ & H & _)%storable_inv Hk _ _ _ _]. by subst k. Qed.

Lemma refreshed_location_ok s k r d m n c :
  store_inv s -> ms_blocks s !! row_key k t = Some r -> json_ok (PDict d) = true -> storable m = true ->
  location_ok (refresh_location (row_location k t r d) n c (md_last_access m)).
Proof.
  intros Hi Hr Hj (Ht & _)%storable_inv. pose proof (inv_rows _ Hi _ _ Hr) as Hrow.
  split; [by apply merge_attributes_ok|]. split; [apply (ro_created _ _ _ Hrow)|apply (ty_last_access m Ht)].
Qed.

Lemma stored_run {D} start k data c (w : World D) : exists w' sr, stored t start k data c w = (w', Ok sr) /\ idle_step w w'.
Proof.
  unfold stored. destruct (since_idle start w) as (v & w1 & E1 & S1). rewrite (bind_run _ _ _ _ _ E1).
  match goal with |- context [on_env (metric (Observe ?a ?b ?c))] => destruct (metric_idle (Observe a b c) w1) as (w2 & E2 & S2) end.
  rewrite (bind_run _ _ _ _ _ E2).
  match goal with |- context [on_env (metric (Inc ?a ?b ?c))] => destruct (metric_idle (Inc a b c) w2) as (w3 & E3 & S3) end.
  rewrite (bind_run _ _ _ _ _ E3). do 2 eexists. split; [reflexivity|]. eapply idle_trans; [exact S1|]. by eapply idle_trans.
Qed.

End Persist.

(** ** Calls *)

(** The operations of a tier; maintenance is a call that is not about one block. *)
Inductive block_call :=
  | BLookup (k : BlockKey)
  | BContains (k : BlockKey)
  | BLoad (k : BlockKey)
  | BStore (k : BlockKey) (data : pybytes) (m : KVMetadata)
  | BEvict (k : BlockKey)
  | BMaintain.

(** The keys are [BlockKey] objects and the metadata holds JSON values. *)
Definition block_call_ok (c : block_call) : Prop :=
  match c with
  | BLookup k | BContains k | BLoad k | BEvict k => key_valid k = true
  | BStore k data m => input_ok m
  | BMaintain => True
  end.

(** What the caller sees of a result. *)
Inductive block_out :=
  | OFound (found : bool)
  | OLoaded (data : pybytes)
  | OStored
  | OEvicted (removed : bool)
  | OReport
  | ORaised.

Definition seen (r : res block_out) : block_out := match r with Ok o => o | Raise _ => ORaised end.

(** A call of the interface; the maintenance is [stats()]. *)
Definition run_tier {W} (x : Tier W) (c : block_call) : M W block_out :=
  match c with
  | BLookup k => let* l := tier_lookup x k in ret (OFound (match l with Some _ => true | None => false end))
  | BContains k => let* b := tier_contains x k in ret (OFound b)
  | BLoad k => let* r := tier_load x k in ret (OLoaded (lr_data r))
  | BStore k data m => let* _ := tier_store x k data m in ret OStored
  | BEvict k => let* b := tier_evict x k in ret (OEvicted b)
  | BMaintain => let* _ := tier_stats x in ret OReport
  end.

(** ** The map *)

Definition blocks_map : Type := BlockKey -> pybytes -> Prop.

Definition same_map (A A' : blocks_map) : Prop := forall k data, A' k data <-> A k data.
Definition sub_map (A A' : blocks_map) : Prop := forall k data, A' k data -> A k data.

(** The effect of a call on the map: a store adds its block and may evict others;
    an eviction removes its block and no other; reads and maintenance change
    nothing; a call that raises adds nothing. *)
Inductive map_step (A A' : blocks_map) : block_call -> block_out -> Prop :=
  | ms_found c k found :
      c = BLookup k \/ c = BContains k -> (found = true <-> exists data, A k data) -> same_map A A' ->
      map_step A A' c (OFound found)
  | ms_load k data : A k data -> same_map A A' -> map_step A A' (BLoad k) (OLoaded data)
  | ms_store k data m :
      A' k data -> (forall k' data', A' k' data' -> (k' = k /\ data' = data) \/ A k' data') ->
      map_step A A' (BStore k data m) OStored
  | ms_evict k :
      (forall data, ~ A' k data) -> (forall k' data, k' <> k -> A' k' data <-> A k' data) ->
      map_step A A' (BEvict k) (OEvicted true)
  | ms_pinned k : same_map A A' -> map_step A A' (BEvict k) (OEvicted false)
  | ms_maintain o : same_map A A' -> o = OReport \/ o = ORaised -> map_step A A' BMaintain o
  | ms_raised c : sub_map A A' -> map_step A A' c ORaised.
