(* ===== verification/NvmeTier.v ===== *)
(** * The NVMe tier: [kvstore/nvme_tier.py]

    [NVMeTier] over the file system of [FileSystem] and the shared environment:
    one file per block, or records appended to segment files. The object's
    constants are the record [NVMeTier]; its state is the metadata store and the
    file system. The tier's locks make a call one step; [time_ns] is the reading
    of [time.time_ns()] in [compact_segments]. *)

From Stdlib Require Import SpecFloat.
From S2P Require Import Prelude PyText Sha256 Float64 Errors PyVal Json JsonFacts Metadata MetadataFacts MetadataStore Metrics Runtime Record Layout Url FileSystem World.
Import MNotations ResNotations.
Local Open Scope m_scope.

Definition DEFAULT_SEGMENT_BYTES : Z := 64 * 1024 * 1024.

Record SegmentRef := mkSegmentRef { ref_path : path; ref_offset : Z; ref_record_bytes : Z }.

(** The attributes set by [__init__]; [nv_cwd] is the working directory of the
    process. *)
Record NVMeTier := mkNVMeTier {
  root_dir : path;
  nv_cwd : path;
  nv_max_bytes : Z;
  fsync_on_store : bool;
  layout_mode : pystr;
  segment_bytes : Z;
}.

Definition content_addressed : pystr := str "content_addressed".
Definition segment : pystr := str "segment".

Abbreviation NW := (M (World Fs)).

(** [NVMeTier(root_dir, ...)], for an absolute path. *)
Definition NVMeTier_init (root cwd : path) (max_bytes : Z) (fsync use_direct_io : bool) (mode : pystr)
    (seg_bytes : Z) : M Fs NVMeTier :=
  lift (ensure (negb (max_bytes <=? 0)) (err ValueError (str "max_bytes must be positive")) ;?
        ensure (bool_decide (mode = content_addressed) || bool_decide (mode = segment))
          (err ValueError (str "layout_mode must be content_addressed or segment")) ;?
        ensure (negb (seg_bytes <=? 0)) (err ValueError (str "segment_bytes must be positive")) ;?
        ensure (negb use_direct_io)
          (err NotImplementedError (str "FileBackedTier does not implement O_DIRECT; use io-profile for O_DIRECT measurement")))%res ;;
  let* root := lift (resolve_path root) in
  mkdir root ;;
  ret (mkNVMeTier root cwd max_bytes fsync mode seg_bytes).

Section NVMe.
Context `{UnicodeData} (self : NVMeTier).

Definition segment_root : path := resolve (root_dir self ++ [str "segments"]).

Definition is_segment : bool := bool_decide (layout_mode self = segment).

(** ** Locations *)

Definition file_uri (p : path) : pystr := str "file://" ++ path_text p.

Definition nvme_location (k : BlockKey) (uri : pystr) (n : Z) (checksum : pystr) (created_at last_access : pyval)
  : BlockLocation :=
  {| loc_key := k; loc_tier := NVME; loc_uri := uri; loc_bytes := n; loc_checksum := checksum;
     loc_created_at := created_at; loc_last_access := last_access;
     loc_attributes := device_attributes (str "same_node") (str "file_posix_default") |}.

Definition _location_for (k : BlockKey) (p : path) (n : Z) (checksum : pystr) (created_at last_access : pyval)
  : BlockLocation := nvme_location k (file_uri p) n checksum created_at last_access.

Local Open Scope res_scope.

Definition _segment_uri (ref : SegmentRef) : res pystr :=
  let? p := quote (path_text (ref_path ref)) in
  let? o := int_text (ref_offset ref) in
  let? n := int_text (ref_record_bytes ref) in
  Ok (str "segment://" ++ p ++ str "?offset=" ++ o ++ str "&record_bytes=" ++ n).

Definition _segment_location_for (k : BlockKey) (ref : SegmentRef) (n : Z) (checksum : pystr)
    (created_at last_access : pyval) : res BlockLocation :=
  let? uri := _segment_uri ref in
  Ok (nvme_location k uri n checksum created_at last_access).

(** A field of the query as a number. *)
Definition query_int (name : pystr) (fields : list (pystr * pystr)) : res Z :=
  match query_first name fields with
  | Some t => int_of_text t
  | None => Raise (err KeyError name)
  end.

Definition max_record_bytes : Z := 8 + Z.of_nat HEADER_LEN_SIZE + MAX_HEADER_BYTES + nv_max_bytes self.

(** [_segment_ref_from_uri(uri, key)]. *)
Definition _segment_ref_from_uri (uri : pystr) (key : option BlockKey) : res SegmentRef :=
  let? parsed := urlparse uri in
  ensure (bool_decide (u_scheme parsed = segment) && bool_decide (u_netloc parsed = []) &&
          bool_decide (u_fragment parsed = [])) (err ValueError (str "not a segment uri")) ;?
  let query := parse_qs (u_query parsed) in
  let? (offset, size) := res_catch
    (let? offset := query_int (str "offset") query in
     let? size := query_int (str "record_bytes") query in
     Ok (offset, size))
    [KeyError; IndexError; ValueError]
    (fun e => Raise (err_from ValueError (str "invalid segment uri") e)) in
  ensure (negb ((offset <? 0) || (size <=? 0))) (err ValueError (str "invalid segment bounds")) ;?
  ensure (size <=? max_record_bytes) (err ValueError (str "segment record exceeds configured bounds")) ;?
  let? p := resolve_text (nv_cwd self) (unquote (u_path parsed)) in
  ensure (bool_decide (segment_root `prefix_of` p)) (err ValueError (str "segment path escapes configured root")) ;?
  match key with
  | None => Ok tt
  | Some k =>
      let? dir := namespace_dir resolve segment_root k in
      ensure (bool_decide (path_parent p = dir) && bool_decide (name_suffix (path_name p) = str ".kvseg"))
        (err ValueError (str "segment path is not canonical for BlockKey"))
  end ;?
  Ok (mkSegmentRef p offset size).

Definition _path_from_location (l : BlockLocation) : res path :=
  let? parsed := urlparse (loc_uri l) in
  ensure (bool_decide (u_scheme parsed = str "file") &&
          (bool_decide (u_netloc parsed = []) || bool_decide (u_netloc parsed = str "localhost")) &&
          bool_decide (u_query parsed = []) && bool_decide (u_fragment parsed = []))
    (err MetadataMismatch (str "invalid persisted file location")) ;?
  let? p := resolve_text (nv_cwd self) (unquote (u_path parsed)) in
  let? expected := res_catch (block_path resolve (root_dir self) (loc_key l)) [ValueError]
    (fun e => Raise (err_from MetadataMismatch (str "canonical file location escapes the configured root") e)) in
  ensure (bool_decide (p = expected)) (err MetadataMismatch (str "persisted file location is not canonical")) ;?
  Ok p.

(** [_validated_location_target(location)]: a file or a place in a segment. *)
Definition _validated_location_target (l : BlockLocation) : res (path + SegmentRef) :=
  ensure (bool_decide (loc_tier l = NVME)) (err MetadataMismatch (str "persisted location key/tier mismatch")) ;?
  if is_segment then
    res_map inr (res_catch (_segment_ref_from_uri (loc_uri l) (Some (loc_key l))) [ValueError]
      (fun e => Raise (err_from MetadataMismatch (str "invalid persisted segment location") e)))
  else
    let? parsed := urlparse (loc_uri l) in
    ensure (bool_decide (u_scheme parsed = str "file"))
      (err MetadataMismatch (str "content-addressed tier requires a file URI")) ;?
    res_map inl (_path_from_location l).

Local Close Scope res_scope.

(** Whether the file system holds the target. *)
Definition target_present (s : Fs) (target : path + SegmentRef) : bool :=
  match target with
  | inr ref => exists_path s (ref_path ref) && (ref_offset ref + ref_record_bytes ref <=? st_size s (ref_path ref))
  | inl p => exists_path s p
  end.

Definition _location_exists (l : BlockLocation) : NW bool :=
  let* target := lift (_validated_location_target l) in
  dev_gets (fun s => target_present s target).

Definition _read_location (l : BlockLocation) : NW (list (pystr * pyval) * pybytes) :=
  let* target := lift (_validated_location_target l) in
  let* now := on_env time_time in
  match target with
  | inr ref =>
      let* f := on_dev (read_file (ref_path ref)) in
      lift (_read_segment_record now (nv_max_bytes self) f (path_text (ref_path ref))
              (ref_offset ref) (ref_record_bytes ref))
  | inl p =>
      let* f := on_dev (read_file p) in
      lift (_read_file now (nv_max_bytes self) f (path_text p))
  end.

(** ** lookup *)

Definition nv_metric (call : metric_call) : NW unit := on_env (metric call).

Definition lookup (k : BlockKey) : NW (option BlockLocation) :=
  let* locations := db (MetadataStore.lookup k (Some NVME)) in
  match locations with
  | location :: _ =>
      let* exists_ := _location_exists location in
      nv_metric (Inc kv_lookup_total (f64_of_Z 1)
                   (labels_of NVME (if (exists_ : bool) then str "hit" else str "stale"))) ;;
      if exists_ then ret (Some location)
      else
        db mutation ;;
        let* again := db (MetadataStore.lookup k (Some NVME)) in
        let* still := match again with
                      | l :: _ => _location_exists l
                      | [] => ret false
                      end in
        if (still : bool) then ret (head again)
        else db (MetadataStore.delete k NVME) ;; ret None
  | [] =>
      let* _ := db (MetadataStore.is_deleting k NVME) in
      nv_metric (Inc kv_lookup_total (f64_of_Z 1) (labels_of NVME (str "miss"))) ;;
      ret None
  end.

Definition contains (k : BlockKey) : NW bool :=
  let* l := lookup k in ret (match l with Some _ => true | None => false end).

(** ** evict *)

Definition tombstone_lost : exn := err RuntimeError (str "delete tombstone disappeared before metadata commit").

Definition evict (k : BlockKey) : NW bool :=
  db mutation ;;
  let* location := db (MetadataStore.begin_delete k NVME) in
  match location with
  | None => ret false
  | Some l =>
      let* target := lift (_validated_location_target l) in
      match target with
      | inr _ => ret tt
      | inl p => on_dev (on_missing (unlink p) (ret tt))
      end ;;
      let* finished := db (MetadataStore.finish_delete k NVME) in
      if negb finished then raise tombstone_lost else ret true
  end.

(** ** load *)

Definition _validate_loaded_record (k : BlockKey) (l : BlockLocation) (h : list (pystr * pyval))
    (payload : pybytes) (m : KVMetadata) : res unit :=
  (let? target := _validated_location_target l in
   let expected_layout := match target with inr _ => segment | inl _ => content_addressed end in
   ensure (py_eq (get_or_none (str "layout_mode") h) (PStr expected_layout))
     (err RecordFormatError (block_hash k ++ str ": record layout mismatch")) ;?
   ensure (bool_decide (md_key m = k)) (block_mismatch k []) ;?
   ensure ((loc_bytes l =? zlen payload) && (loc_bytes l =? payload_size h))
     (block_mismatch k (str ": location byte count mismatch")) ;?
   ensure (bool_decide (loc_checksum l = header_checksum h))
     (block_mismatch k (str ": location checksum mismatch")))%res.

Definition checked_load (start : f64) (k : BlockKey) (l : BlockLocation) : NW LoadResult :=
  let* (h, payload) := _read_location l in
  let* now := on_env time_time in
  let* m := lift (from_dict now (get_or_none (str "metadata") h)) in
  lift (_validate_loaded_record k l h payload m) ;;
  verify_and_touch NVME start k h payload m.

Definition load (k : BlockKey) : NW LoadResult :=
  let* start := on_env perf_counter in
  let* found := lookup k in
  match found with
  | None => raise (err BlockNotFound (block_hash k))
  | Some _ =>
      let* loc := db (MetadataStore.lookup_and_acquire k NVME) in
      match loc with
      | None => raise (err BlockNotFound (block_hash k))
      | Some l => try_finally (checked_load start k l)
                    (finish_load NVME evict (str "corrupt file location remains active") k)
      end
  end.

(** ** _ensure_capacity *)

(** The [for] loop over the candidates: the first eviction that succeeds, with
    the bytes it frees. *)
Fixpoint evict_candidate (exclude : BlockKey) (ls : list BlockLocation) : NW (option Z) :=
  match ls with
  | [] => ret None
  | l :: ls' =>
      if bool_decide (loc_key l = exclude) then evict_candidate exclude ls'
      else
        let* evicted := evict (loc_key l) in
        if (evicted : bool) then ret (Some (loc_bytes l)) else evict_candidate exclude ls'
  end.

Definition no_candidates : exn := err StoreFull (str "no evictable nvme blocks").

(** The [while] loop; every round that does not leave it removes a row. *)
Fixpoint free_space (fuel : nat) (incoming : Z) (exclude : BlockKey) (current : Z) : NW unit :=
  if current + incoming <=? nv_max_bytes self then ret tt
  else match fuel with
       | O => raise (err (ForeignError (str "model")) (str "loop bound"))
       | S fuel' =>
           let* candidates := db_at (fun now => MetadataStore.lru_candidates now NVME 16) in
           let* evicted := evict_candidate exclude candidates in
           match evicted with
           | Some n => free_space fuel' incoming exclude (current - n)
           | None => raise no_candidates
           end
       end.

Definition row_count : NW nat := gets (fun w => size (ms_blocks (env_store (w_env w)))).

Definition _ensure_capacity (incoming : Z) (exclude : BlockKey) : NW unit :=
  let* current := db (MetadataStore.bytes_used NVME) in
  let* existing := lookup exclude in
  let current := match existing with Some l => current - loc_bytes l | None => current end in
  let* rows := row_count in
  free_space (S rows) incoming exclude current.

(** ** Writing *)

Definition record_of (encoded_header data : pybytes) : pybytes := record_bytes encoded_header data.

Definition _write_tmp (p : path) (encoded_header data : pybytes) : NW path :=
  let* tmp := on_dev (mkstemp ([46] ++ name_stem (path_name p) ++ [46]) (str ".tmp") (path_parent p)) in
  try_catch
    (on_dev (append_file tmp (record_of encoded_header data)) ;;
     when (fsync_on_store self) (on_dev fsync) ;;
     ret tmp)
    (fun e => on_dev (on_missing (unlink tmp) (ret tt)) ;; raise e).

(** [fnmatch] of [prefix*suffix]. *)
Definition name_matches (prefix suffix name : pystr) : bool :=
  match strip_prefix prefix name with
  | Some rest => starts_with (rev suffix) (rev rest)
  | None => false
  end.

Definition _segment_id (p : path) : Z :=
  match int_of_text (List.last (split_char 45 (name_stem (path_name p))) []) with
  | Ok z => z
  | Raise _ => 0
  end.

(** [f"{n:06d}"]. *)
Definition six_digits (n : Z) : res pystr :=
  let pad t := replicate (6 - length t) 48 ++ t in
  if n <? 0 then res_map (fun t => 45 :: replicate (5 - length t) 48 ++ t) (int_text (- n))
  else res_map pad (int_text n).

(** The last segment of the namespace that has room, or the next one. *)
Definition append_path (s : Fs) (dir : path) (prefix : pystr) (n : Z) : res path :=
  let existing := if exists_path s dir then glob s dir (name_matches prefix (str ".kvseg")) else [] in
  match last existing with
  | Some p =>
      let size := st_size s p in
      if (size =? 0) || (size + n <=? segment_bytes self) then Ok p
      else res_map (fun id => dir ++ [prefix ++ id ++ str ".kvseg"]) (six_digits (_segment_id p + 1))
  | None => Ok (dir ++ [prefix ++ str "000000.kvseg"])
  end.

Definition _segment_path_for_append (k : BlockKey) (n : Z) : NW path :=
  let* dir := lift (namespace_dir resolve segment_root k) in
  let* s := dev_gets id in
  lift (append_path s dir (str "segment-") n).

Definition _compact_segment_path_for_append (k : BlockKey) (n : Z) (compaction_id : pystr) : NW path :=
  let* dir := lift (namespace_dir resolve segment_root k) in
  let* s := dev_gets id in
  lift (append_path s dir (str "compact-" ++ compaction_id ++ str "-") n).

Definition append_record (p : path) (record : pybytes) : NW SegmentRef :=
  on_dev (mkdir (path_parent p)) ;;
  let* offset := dev_gets (fun s => if exists_path s p then st_size s p else 0) in
  on_dev (append_file p record) ;;
  when (fsync_on_store self) (on_dev fsync) ;;
  ret (mkSegmentRef p offset (zlen record)).

Definition _append_segment_record (k : BlockKey) (encoded_header data : pybytes) : NW SegmentRef :=
  let record := record_of encoded_header data in
  let* p := _segment_path_for_append k (zlen record) in
  append_record p record.

Definition _append_compacted_segment_record (k : BlockKey) (encoded_header data : pybytes) (compaction_id : pystr)
  : NW SegmentRef :=
  let record := record_of encoded_header data in
  let* p := _compact_segment_path_for_append k (zlen record) compaction_id in
  append_record p record.

(** ** store *)

(** The payload is written and its location returned. *)
Definition write_block (k : BlockKey) (encoded_header data : pybytes) (m : KVMetadata) (checksum : pystr)
  : NW BlockLocation :=
  if is_segment then
    let* ref := _append_segment_record k encoded_header data in
    lift (_segment_location_for k ref (zlen data) checksum (md_created_at m) (md_last_access m))
  else
    let* p := lift (block_path resolve (root_dir self) k) in
    on_dev (mkdir (path_parent p)) ;;
    let* tmp := _write_tmp p encoded_header data in
    on_dev (replace tmp p) ;;
    ret (_location_for k p (zlen data) checksum (md_created_at m) (md_last_access m)).

(** The branch of [store] for a new block. *)
Definition publish (k : BlockKey) (data : pybytes) (m : KVMetadata) (checksum : pystr) : NW unit :=
  _ensure_capacity (zlen data) k ;;
  let* d := lift (to_dict m) in
  let* encoded_header := lift (encode_record_header (record_header (layout_mode self) checksum (zlen data) d)) in
  let* loc := write_block k encoded_header data m checksum in
  db_at (fun now => MetadataStore.upsert now loc m).

Definition store (k : BlockKey) (data : pybytes) (m : KVMetadata) : NW StoreResult :=
  let* start := on_env perf_counter in
  when (negb (bool_decide (md_key m = k)))
    (raise (err MetadataMismatch (str "store key does not match metadata key"))) ;;
  let checksum := sha256_hex data in
  db mutation ;;
  let* pending := db (MetadataStore.is_deleting k NVME) in
  when pending (raise pending_delete) ;;
  when (nv_max_bytes self <? zlen data) (raise (err StoreFull (str "block exceeds nvme tier capacity"))) ;;
  let* now := on_env time_time in
  let m := stamp_block m checksum (zlen data) now in
  lift (validate true m) ;;
  db_at (fun now => MetadataStore.validate_payload_descriptor now m) ;;
  let* existing := lookup k in
  match existing with
  | Some l => refresh load k data m checksum l
  | None => publish k data m checksum
  end ;;
  stored NVME start k data checksum.
End NVMe.
