(* ===== verification/NvmeTierFacts.v ===== *)
(** * The disk invariant of the NVMe tier

    [disk_inv]: every row of the tier has the canonical location of its key, and
    the file system holds the complete record of every visible row, with the
    payload whose length and SHA-256 the row states (and the access times of the
    rows are floats that JSON text keeps). It is kept by every method
    of [nvme_tier.py], whichever file-system calls fail. *)

From Stdlib Require Import SpecFloat.
From S2P Require Import Prelude PyText Sha256 Float64 Errors PyVal Json JsonFacts Metadata MetadataFacts MetadataStore MetadataStoreFacts Metrics Runtime MemoryTier MemoryTierFacts Layout Record Url UrlFacts FileSystem FileSystemFacts World WorldFacts NvmeTier.
Import MNotations ResNotations.

Section NvmePaths.
Local Open Scope res_scope.

(** ** Paths *)

Lemma normalize_id acc p : Forall component_ok p -> normalize acc p = rev acc ++ p.
Proof.
  intros Hp. revert acc. induction Hp as [|c p Hc _ IH]; intros acc; simpl; [by rewrite app_nil_r|].
  rewrite decide_False by apply Hc. rewrite IH. simpl. by rewrite <- app_assoc.
Qed.

Lemma resolve_id p : Forall component_ok p -> resolve p = p.
Proof.
  intros Hp. unfold resolve. destruct Hp as [|c p Hc Hp]; [done|].
  destruct c as [|x c]; [by destruct Hc|]. by rewrite normalize_id by (by constructor).
Qed.

Lemma parse_path_text p : Forall component_ok p -> text_parts (path_text p) = p.
Proof.
  intros Hp. destruct (decide (p = [])) as [->|Hne]; [done|].
  assert (parse_part (path_text p) = p) as Hparse.
  { unfold parse_part, path_text. change (47 :: join [47] p) with ([] ++ 47 :: join [47] p).
    rewrite split_slash_app, split_join by (done || apply not_elem_of_nil).
    rewrite filter_cons_False by naive_solver. clear Hne.
    induction Hp as [|c p Hc _ IH]; [done|]. destruct Hc as (? & ? & _). rewrite filter_cons_True by done. by rewrite IH. }
  assert (exists x s, join [47] p = x :: s /\ x <> 47) as (x & s & Hj & Hx).
  { destruct Hp as [|c p Hc Hp]; [done|]. destruct c as [|x c]; [by destruct Hc|]. exists x.
    assert (x <> 47) as Hx by (destruct Hc as (_ & _ & _ & H47 & _); intros ->; apply H47; by left).
    destruct p as [|y p]; [by exists c|]. change (join [47] ((x :: c) :: y :: p)) with (x :: c ++ 47 :: join [47] (y :: p)).
    eauto. }
  unfold text_parts, path_text in *. rewrite Hj in *. destruct s as [|y s].
  - destruct x as [|x|x]; try done. repeat (destruct x as [x|x|]; try done).
  - destruct x as [|x|x]; try done. repeat (destruct x as [x|x|]; try done).
Qed.

Lemma path_text_chars p c : Forall component_ok p -> c ∈ path_text p -> c = 47 \/ exists x, x ∈ p /\ c ∈ x.
Proof.
  intros Hp. unfold path_text. rewrite elem_of_cons. intros [->|Hc]; [by left|]. clear Hp.
  induction p as [|x p IH]; [by apply elem_of_nil in Hc|]. destruct p as [|y p].
  - right. exists x. split; [by left|done].
  - change (join [47] (x :: y :: p)) with (x ++ [47] ++ join [47] (y :: p)) in Hc.
    rewrite !elem_of_app, list_elem_of_singleton in Hc. destruct Hc as [Hc|[->|Hc]].
    + right. exists x. split; [by left|done].
    + by left.
    + destruct (IH Hc) as [->|(z & Hz & Hcz)]; [by left|]. right. exists z. split; [by right|done].
Qed.

Lemma resolve_path_text cwd p : Forall component_ok p -> resolve_text cwd (path_text p) = Ok p.
Proof.
  intros Hp. unfold resolve_text. rewrite bool_decide_eq_false_2.
  - cbn [path_text]. change (47 :: join [47] p) with (path_text p). by rewrite parse_path_text, resolve_id.
  - intros [?|(x & Hx & H0)]%path_text_chars; [done| |done]. rewrite Forall_forall in Hp. by apply (Hp x Hx).
Qed.

Lemma path_text_ok p : Forall component_ok p -> str_ok (path_text p) = true.
Proof.
  intros Hp. unfold str_ok. rewrite Forall_forallb, Forall_forall. intros c [->|(x & Hx & Hc)]%path_text_chars; [done| |done].
  rewrite Forall_forall in Hp. destruct (Hp x Hx) as (_ & _ & _ & _ & _ & Ho).
  unfold str_ok in Ho. rewrite Forall_forallb, Forall_forall in Ho. by apply Ho.
Qed.

(** ** The configuration *)

(** A character of the root that [file://] URIs pass through unchanged. *)
Definition uri_plain (c : Z) : Prop := c <> 37 /\ url_plain c.

Record nvme_ok (self : NVMeTier) : Prop := {
  no_root : Forall component_ok (root_dir self);
  no_mode : layout_ok (layout_mode self);
  no_bytes : 0 < nv_max_bytes self;
  no_plain : layout_mode self = content_addressed -> Forall (Forall uri_plain) (root_dir self);
}.

Section Paths.
Context `{UnicodeData} (self : NVMeTier) (Hok : nvme_ok self).

Lemma segments_ok : component_ok (str "segments").
Proof using. split_and!; try done; by apply (bool_decide_unpack _); vm_compute. Qed.

Lemma segment_root_eq : segment_root self = root_dir self ++ [str "segments"].
Proof using Hok.
  apply resolve_id, Forall_app_2; [apply (no_root self Hok)|]. constructor; [apply segments_ok|constructor].
Qed.

Lemma segment_root_ok : Forall component_ok (segment_root self).
Proof using Hok.
  rewrite segment_root_eq. apply Forall_app_2; [apply (no_root self Hok)|]. constructor; [apply segments_ok|constructor].
Qed.

Lemma descendant root parts :
  Forall component_ok root -> Forall component_ok parts ->
  _require_descendant resolve root (root ++ parts) = Ok (root ++ parts).
Proof using.
  intros Hr Hp. unfold _require_descendant.
  rewrite (resolve_id root Hr), resolve_id by (by apply Forall_app_2).
  by rewrite bool_decide_eq_true_2 by (by exists parts).
Qed.

Lemma block_path_eq k :
  key_valid k = true ->
  exists ps, storage_key_parts k = Ok ps /\ block_path resolve (root_dir self) k = Ok (root_dir self ++ ps) /\
    Forall component_ok ps /\ Forall safe_part ps /\ length ps = 8%nat.
Proof using Hok.
  intros Hk. destruct (storage_parts_total k Hk) as (ps & Hps & Hl). exists ps.
  pose proof (storage_parts_safe k ps Hk Hps) as Hs. pose proof (storage_components k ps Hk Hps) as Hc.
  split_and!; try done. unfold block_path. rewrite Hps. cbn [res_bind].
  rewrite (joinpath_safe _ ps Hs). apply descendant; [apply (no_root self Hok)|done].
Qed.

Lemma block_path_inj k k' p :
  key_valid k = true -> key_valid k' = true ->
  block_path resolve (root_dir self) k = Ok p -> block_path resolve (root_dir self) k' = Ok p -> k = k'.
Proof using Hok.
  intros Hk Hk' H1 H2. destruct (block_path_eq k Hk) as (ps & Hps & E1 & _).
  destruct (block_path_eq k' Hk') as (ps' & Hps' & E2 & _). rewrite E1 in H1. rewrite E2 in H2.
  injection H1 as <-. injection H2 as E%app_inv_head. subst ps'. by eapply storage_parts_inj.
Qed.

(** The directory of a key's segments. *)
Lemma namespace_dir_eq k :
  key_valid k = true ->
  exists ns, namespace_dir resolve (segment_root self) k = Ok (segment_root self ++ ns) /\ Forall component_ok ns.
Proof using Hok.
  intros Hk. destruct (storage_parts_total k Hk) as (ps & Hps & _). pose proof Hps as Hps'.
  unfold storage_key_parts in Hps. apply res_bind_ok in Hps as (ns & Hns & [= <-]). exists ns.
  pose proof (storage_parts_safe k _ Hk Hps') as Hs. apply Forall_app in Hs as [Hs _].
  assert (Forall component_ok ns) as Hc by (eapply Forall_impl; [exact Hs|apply safe_component]).
  split; [|done]. unfold namespace_dir. rewrite Hns. cbn [res_bind].
  rewrite (joinpath_safe _ ns Hs). apply descendant; [apply segment_root_ok|done].
Qed.

(** ** File locations *)

Lemma safe_uri_plain s : safe_part s -> Forall uri_plain s.
Proof using.
  intros [Hs _]. eapply Forall_impl; [exact Hs|]. intros c Hc. unfold safe_char, b64_alphabet in Hc.
  unfold uri_plain, url_plain. lia.
Qed.

Lemma file_uri_parse p :
  Forall component_ok p -> Forall (Forall uri_plain) p ->
  urlparse (file_uri p) = Ok (mkParseResult (str "file") [] (path_text p) [] [] []).
Proof using.
  intros Hp Hu. unfold file_uri.
  assert (Forall uri_plain (path_text p)) as Ht.
  { rewrite Forall_forall. intros c [->|(x & Hx & Hc)]%path_text_chars; [by unfold uri_plain, url_plain| |done].
    rewrite Forall_forall in Hu. specialize (Hu x Hx). rewrite Forall_forall in Hu. by apply Hu. }
  pose proof (urlparse_url (str "file") [] (path_text p) None) as Hp'. cbn [query_part default] in Hp'.
  rewrite app_nil_r in Hp'. apply Hp'; [done|constructor| |done|constructor].
  eapply Forall_impl; [exact Ht|]. by intros c [].
Qed.

Lemma block_path_plain k p :
  key_valid k = true -> layout_mode self = content_addressed ->
  block_path resolve (root_dir self) k = Ok p -> Forall component_ok p /\ Forall (Forall uri_plain) p.
Proof using Hok.
  intros Hk Hm Hp. destruct (block_path_eq k Hk) as (ps & Hps & E & Hc & Hs & _). rewrite E in Hp. injection Hp as <-.
  split; apply Forall_app_2; try done; [apply (no_root self Hok)|by apply (no_plain self Hok)|].
  eapply Forall_impl; [exact Hs|apply safe_uri_plain].
Qed.

Lemma target_of_file l p :
  key_valid (loc_key l) = true -> layout_mode self = content_addressed -> loc_tier l = NVME ->
  block_path resolve (root_dir self) (loc_key l) = Ok p -> loc_uri l = file_uri p ->
  _validated_location_target self l = Ok (inl p).
Proof using Hok.
  intros Hk Hm Ht Hp Hu. destruct (block_path_plain _ _ Hk Hm Hp) as [Hc Hpl].
  unfold _validated_location_target. rewrite bool_decide_eq_true_2 by done. cbn [ensure res_bind].
  unfold is_segment. rewrite Hm, bool_decide_eq_false_2 by done. rewrite Hu, file_uri_parse by done.
  cbn [res_bind u_scheme]. rewrite bool_decide_eq_true_2 by done. cbn [ensure res_bind].
  unfold _path_from_location. rewrite Hu, file_uri_parse by done. cbn [res_bind u_scheme u_netloc u_query u_fragment u_path].
  rewrite !bool_decide_eq_true_2 by done. cbn [andb orb ensure res_bind].
  rewrite unquote_plain.
  - rewrite resolve_path_text by done. cbn [res_bind]. rewrite Hp. cbn [res_catch res_bind].
    by rewrite bool_decide_eq_true_2.
  - intros [?|(x & Hx & H37)]%path_text_chars; [done| |done]. rewrite Forall_forall in Hpl.
    specialize (Hpl x Hx). rewrite Forall_forall in Hpl. by apply Hpl in H37 as [].
Qed.

(** ** Segment locations *)

(** A place in a segment file of the key's namespace, within the limits. *)
Record ref_ok (k : BlockKey) (ref : SegmentRef) : Prop := {
  rf_path : Forall component_ok (ref_path ref);
  rf_dir : namespace_dir resolve (segment_root self) k = Ok (path_parent (ref_path ref));
  rf_suffix : name_suffix (path_name (ref_path ref)) = str ".kvseg";
  rf_nonempty : ref_path ref <> [];
  rf_bounds : 0 <= ref_offset ref /\ 0 < ref_record_bytes ref <= max_record_bytes self;
}.

Lemma path_quotes p : Forall component_ok p -> exists q, quote (path_text p) = Ok q /\ head q = Some 47.
Proof using.
  intros Hp%path_text_ok. destruct (str_ok_encodes _ Hp) as [b Hb]. unfold quote. rewrite Hb. eexists. split; [done|].
  unfold path_text in Hb. cbn [utf8_encode] in Hb. change (utf8_char 47) with (Some [mk_byte 47]) in Hb.
  destruct (utf8_encode (join [47] p)) as [bs|]; [|done]. by injection Hb as <-.
Qed.

(** Parsing a URI returns the place it was made from. *)
Lemma segment_uri_parse k ref uri :
  key_valid k = true -> ref_ok k ref -> _segment_uri ref = Ok uri ->
  _segment_ref_from_uri self uri (Some k) = Ok ref.
Proof using Hok.
  intros Hk Hr. unfold _segment_uri. destruct (path_quotes _ (rf_path _ _ Hr)) as (q & Hq & Hh).
  destruct (rf_bounds _ _ Hr) as [Ho [Hn Hmax]]. rewrite Hq. cbn [res_bind]. intros Hu.
  apply res_bind_ok in Hu as (to & Hto & Hu). apply res_bind_ok in Hu as (tn & Htn & Hu).
  assert (uri = str "segment://" ++ q ++ str "?offset=" ++ to ++ str "&record_bytes=" ++ tn) as -> by congruence. clear Hu.
  destruct (int_text_digits _ _ Ho Hto) as [Do No]. assert (0 <= ref_record_bytes ref) as Hn0 by lia. destruct (int_text_digits _ _ Hn0 Htn) as [Dn Nn].
  pose proof (urlparse_url segment [] q (Some (str "offset=" ++ to ++ str "&record_bytes=" ++ tn))) as Hp.
  cbn [query_part default from_option id] in Hp.
  change (segment ++ str "://" ++ [] ++ q ++ 63 :: str "offset=" ++ to ++ str "&record_bytes=" ++ tn)
    with (str "segment://" ++ q ++ str "?offset=" ++ to ++ str "&record_bytes=" ++ tn) in Hp.
  assert (forall d, Forall (fun x => is_digit x = true) d -> Forall url_plain d) as Hd.
  { intros d Hd. eapply Forall_impl; [exact Hd|]. intros c. simpl. unfold is_digit, url_plain. lia. }
  unfold _segment_ref_from_uri. rewrite Hp; clear Hp; [|done|constructor| |done|].
  2: by eapply quoted_all_plain, quote_chars.
  2: { apply Forall_app_2; [by apply (bool_decide_unpack _); vm_compute|]. apply Forall_app_2; [auto|].
       apply Forall_app_2; [by apply (bool_decide_unpack _); vm_compute|auto]. }
  cbn [res_bind u_scheme u_netloc u_fragment u_query u_path]. rewrite !bool_decide_eq_true_2 by done.
  cbn [andb ensure res_bind].
  change (str "offset=" ++ to ++ str "&record_bytes=" ++ tn)
    with (str "offset" ++ 61 :: to ++ 38 :: str "record_bytes" ++ 61 :: tn).
  rewrite (parse_qs_two (str "offset") (str "record_bytes") to tn to tn) by done.
  unfold query_int. cbn [query_first]. rewrite decide_True by done. rewrite decide_False by done.
  rewrite decide_True by done. rewrite (int_of_int_text _ _ Ho Hto). cbn [res_bind].
  rewrite (int_of_int_text _ _ Hn0 Htn). cbn [res_bind res_catch].
  replace ((ref_offset ref <? 0) || (ref_record_bytes ref <=? 0)) with false by lia. cbn [negb ensure res_bind].
  replace (ref_record_bytes ref <=? max_record_bytes self) with true by lia. cbn [ensure res_bind].
  rewrite (unquote_quote _ _ Hq), resolve_path_text by apply Hr. cbn [res_bind].
  pose proof (rf_dir _ _ Hr) as Hdir. destruct (namespace_dir_eq k Hk) as (ns & Hns & _).
  rewrite Hns in Hdir. injection Hdir as Edir.
  rewrite bool_decide_eq_true_2; cbn [ensure res_bind].
  - rewrite Hns. cbn [res_bind]. rewrite Edir, (rf_suffix _ _ Hr), !bool_decide_eq_true_2 by done. cbn.
    by destruct ref.
  - exists (ns ++ [path_name (ref_path ref)]). rewrite app_assoc, Edir. unfold path_parent, path_name.
    apply app_removelast_last, Hr.
Qed.

Lemma target_of_segment l ref :
  key_valid (loc_key l) = true -> layout_mode self = segment -> loc_tier l = NVME ->
  ref_ok (loc_key l) ref -> _segment_uri ref = Ok (loc_uri l) ->
  _validated_location_target self l = Ok (inr ref).
Proof using Hok.
  intros Hk Hm Ht Hr Hu. unfold _validated_location_target. rewrite bool_decide_eq_true_2 by done. cbn [ensure res_bind].
  unfold is_segment. rewrite Hm, bool_decide_eq_true_2 by done.
  by rewrite (segment_uri_parse _ _ _ Hk Hr Hu).
Qed.

Lemma segment_uri_scheme ref uri : _segment_uri ref = Ok uri -> exists r, uri = str "segment://" ++ r.
Proof using.
  unfold _segment_uri. intros Hu. apply res_bind_ok in Hu as (? & _ & Hu). apply res_bind_ok in Hu as (? & _ & Hu).
  apply res_bind_ok in Hu as (? & _ & Hu). eexists. by injection Hu as <-.
Qed.
End Paths.
End NvmePaths.

Local Open Scope m_scope.

Section Disk.
Context `{U : UnicodeData} (self : NVMeTier) (Hok : nvme_ok self).

(** ** Placement *)

(** The target a location of the key has, in the layout of the tier. *)
Definition target_for (k : BlockKey) (uri : pystr) (t : path + SegmentRef) : Prop :=
  match t with
  | inl p => layout_mode self = content_addressed /\ block_path resolve (root_dir self) k = Ok p /\ uri = file_uri p
  | inr ref => layout_mode self = segment /\ ref_ok self k ref /\ _segment_uri ref = Ok uri
  end.

Definition target_path (t : path + SegmentRef) : path :=
  match t with inl p => p | inr ref => ref_path ref end.

(** The target holds the record. *)
Definition holds (d : Fs) (t : path + SegmentRef) (rec : pybytes) : Prop :=
  match t with
  | inl p => fs_files d !! p = Some rec
  | inr ref => exists pre post, fs_files d !! ref_path ref = Some (pre ++ rec ++ post) /\
                 zlen pre = ref_offset ref /\ zlen rec = ref_record_bytes ref
  end.

(** The record of a row, with header [b] for the metadata [m] and payload [data]. *)
Record placed_as (d : Fs) (k : BlockKey) (r : Row) (t : path + SegmentRef) (m : KVMetadata) (b data : pybytes) : Prop := {
  pl_target : target_for k (r_uri r) t;
  pl_holds : holds d t (record_bytes b data);
  pl_written : written (layout_mode self) m (nv_max_bytes self) b data;
  pl_key : md_key m = k;
  pl_sum : md_checksum m = PStr (sha256_hex data);
  pl_row : r_bytes r = zlen data /\ r_checksum r = sha256_hex data;
  pl_desc : exists p, row_md r p /\
    descriptor_eqb (payload_descriptor p) (payload_descriptor (norm_metadata fmt_compact m)) = true;
}.

Definition placed (d : Fs) (k : BlockKey) (r : Row) (data : pybytes) : Prop := exists t m b, placed_as d k r t m b data.

Abbreviation nv_row k s := (ms_blocks s !! row_key k NVME).

Record disk_inv (s : MetadataStore) (d : Fs) : Prop := {
  di_wf : fs_wf d;
  di_uri k r : key_valid k = true -> nv_row k s = Some r -> exists t, target_for k (r_uri r) t;
  di_data k r : key_valid k = true -> nv_row k s = Some r -> r_state r = active -> exists data, placed d k r data;
  di_text k r : nv_row k s = Some r -> float_ok (r_last_access r) = true;
}.

Lemma placed_core d k r r' data : row_core r' = row_core r -> placed d k r data -> placed d k r' data.
Proof using.
  intros [= E1 E2 E3 E4] (t & m & b & [H1 H2 H3 H4 H5 [H6 H7] (p & Hp & Hd)]). exists t, m, b.
  split; rewrite ?E1, ?E2, ?E3; try done. exists p. split; [by eapply row_md_json|done].
Qed.

Lemma disk_shrinks s s' d : shrinks NVME (ms_blocks s) (ms_blocks s') -> disk_inv s d -> disk_inv s' d.
Proof using.
  intros Hs [Hw Hu Hp Ht]. split; [done| | |].
  - intros k r' Hk Hr'. destruct (Hs _ _ Hr') as (r & Hr & _ & Hc & _). injection Hc as E _. rewrite E. by apply Hu.
  - intros k r' Hk Hr' Ha. destruct (Hs _ _ Hr') as (r & Hr & Ha' & Hc & _).
    destruct (Hp k r Hk Hr (Ha' Ha)) as (data & Hd). exists data. by eapply placed_core.
  - intros k r' Hr'. destruct (Hs _ _ Hr') as (r & Hr & _ & _ & Hf). by apply Hf, (Ht k).
Qed.

(** ** Targets *)

Lemma segment_ref_any uri key ref : _segment_ref_from_uri self uri key = Ok ref -> _segment_ref_from_uri self uri None = Ok ref.
Proof using.
  unfold _segment_ref_from_uri. intros H. apply res_bind_ok in H as (u & Hu & H). rewrite Hu. cbn [res_bind].
  apply res_bind_ok in H as ([] & E & H). rewrite E. cbn [res_bind]. cbv zeta in *.
  apply res_bind_ok in H as ([o n] & E2 & H). rewrite E2. cbn [res_bind].
  apply res_bind_ok in H as ([] & E3 & H). rewrite E3. cbn [res_bind].
  apply res_bind_ok in H as ([] & E4 & H). rewrite E4. cbn [res_bind].
  apply res_bind_ok in H as (p & E5 & H). rewrite E5. cbn [res_bind].
  apply res_bind_ok in H as ([] & E6 & H). rewrite E6. cbn [res_bind].
  by apply res_bind_ok in H as ([] & _ & H).
Qed.

(** The URI alone determines the target. *)
Lemma target_unique l l' t t' :
  loc_uri l = loc_uri l' -> _validated_location_target self l = Ok t -> _validated_location_target self l' = Ok t' -> t = t'.
Proof using.
  unfold _validated_location_target. intros E H1 H2. apply res_bind_ok in H1 as ([] & _ & H1).
  apply res_bind_ok in H2 as ([] & _ & H2). destruct (is_segment self).
  - apply res_map_ok in H1 as (r1 & H1%res_catch_ok%segment_ref_any & ->).
    apply res_map_ok in H2 as (r2 & H2%res_catch_ok%segment_ref_any & ->). rewrite E in H1. congruence.
  - apply res_bind_ok in H1 as (u & _ & H1). apply res_bind_ok in H2 as (u' & _ & H2).
    apply res_bind_ok in H1 as ([] & _ & H1). apply res_bind_ok in H2 as ([] & _ & H2).
    apply res_map_ok in H1 as (p1 & H1 & ->). apply res_map_ok in H2 as (p2 & H2 & ->).
    unfold _path_from_location in *. rewrite E in H1.
    apply res_bind_ok in H1 as (v & Hv & H1). apply res_bind_ok in H2 as (v' & Hv' & H2).
    assert (v' = v) as -> by congruence.
    apply res_bind_ok in H1 as ([] & _ & H1). apply res_bind_ok in H2 as ([] & _ & H2).
    apply res_bind_ok in H1 as (q & Hq & H1). apply res_bind_ok in H2 as (q' & Hq' & H2).
    assert (q' = q) as -> by congruence.
    apply res_bind_ok in H1 as (x & _ & H1). apply res_bind_ok in H2 as (x' & _ & H2).
    apply res_bind_ok in H1 as ([] & _ & H1). apply res_bind_ok in H2 as ([] & _ & H2). congruence.
Qed.

Lemma target_valid l t :
  key_valid (loc_key l) = true -> loc_tier l = NVME -> target_for (loc_key l) (loc_uri l) t ->
  _validated_location_target self l = Ok t.
Proof using Hok.
  intros Hk Ht Hl. destruct t as [p|ref].
  - destruct Hl as (Hm & Hp & Hu). by apply target_of_file.
  - destruct Hl as (Hm & Hr & Hu). by apply target_of_segment.
Qed.

Lemma target_of_uri k uri t l t' :
  key_valid k = true -> target_for k uri t -> loc_uri l = uri -> _validated_location_target self l = Ok t' -> t' = t.
Proof using Hok.
  intros Hk Ht Hu Hl. symmetry. eapply (target_unique (nvme_location k uri 0 [] PNone PNone)); [done| |done].
  by apply target_valid.
Qed.

Lemma target_paths_distinct k k' uri uri' p p' :
  key_valid k = true -> key_valid k' = true -> target_for k uri (inl p) -> target_for k' uri' (inl p') ->
  p = p' -> k = k'.
Proof using Hok. intros Hk Hk' (_ & H1 & _) (_ & H2 & _) ->. by eapply block_path_inj. Qed.

(** ** Changes of the disk *)

Lemma holds_keeps hole d d' t k uri rec :
  target_for k uri t -> keeps (is_segment self) hole d d' -> ~ hole (target_path t) -> holds d t rec -> holds d' t rec.
Proof using.
  intros Ht Hk Hh. destruct t as [p|ref]; cbn in *.
  - intros Hf. destruct (Hk _ _ Hh Hf) as (x & Hx & E). rewrite E, app_nil_r in Hx; [done|].
    destruct Ht as (Hm & _). unfold is_segment. rewrite Hm. by apply bool_decide_eq_false_2.
  - intros (pre & post & Hf & H1 & H2). destruct (Hk _ _ Hh Hf) as (x & Hx & _). exists pre, (post ++ x).
    by rewrite Hx, <- !app_assoc.
Qed.

(** What a change of the disk may touch: no path of a visible row. *)
Definition spares (hole : path -> Prop) (s : MetadataStore) : Prop :=
  forall k r t, key_valid k = true -> nv_row k s = Some r -> r_state r = active -> target_for k (r_uri r) t ->
  ~ hole (target_path t).

Lemma placed_keeps hole d d' k r data :
  keeps (is_segment self) hole d d' -> (forall t, target_for k (r_uri r) t -> ~ hole (target_path t)) ->
  placed d k r data -> placed d' k r data.
Proof using.
  intros Hk Hh (t & m & b & [H1 H2 H3 H4 H5 H6 H7]). exists t, m, b. split; try done.
  eapply holds_keeps; eauto.
Qed.

Lemma disk_keeps hole s d d' :
  fs_wf d' -> keeps (is_segment self) hole d d' -> spares hole s -> disk_inv s d -> disk_inv s d'.
Proof using.
  intros Hw Hk Hh [_ Hu Hp Ht]. split; [done|done| |done]. intros k r Hv Hr Ha.
  destruct (Hp k r Hv Hr Ha) as (data & Hd). exists data. eapply placed_keeps; [done| |done]. eauto.
Qed.

Lemma keeps_files hole d d' : fs_files d' = fs_files d -> keeps (is_segment self) hole d d'.
Proof using. intros E. eapply keeps_same; [done|apply keeps_refl]. Qed.

(** ** Stable conditions *)

(** A payload is determined by its place. *)
Lemma placed_unique d k r data data' : key_valid k = true -> placed d k r data -> placed d k r data' -> data = data'.
Proof using Hok U.
  intros Hk (t & m & b & Hp) (t' & m' & b' & Hp').
  assert (t' = t) as ->.
  { eapply (target_of_uri k (r_uri r) t (nvme_location k (r_uri r) 0 [] PNone PNone)); [done|apply Hp|done|].
    apply target_valid; [done|done|apply Hp']. }
  destruct (written_record_reads _ _ _ _ _ (pl_written _ _ _ _ _ _ _ Hp)) as (h & _ & R1 & R2).
  destruct (written_record_reads _ _ _ _ _ (pl_written _ _ _ _ _ _ _ Hp')) as (h' & _ & R1' & R2').
  pose proof (pl_holds _ _ _ _ _ _ _ Hp) as Hh. pose proof (pl_holds _ _ _ _ _ _ _ Hp') as Hh'.
  destruct t as [p|ref]; unfold holds in *.
  - assert (record_bytes b data = record_bytes b' data') as E by congruence. specialize (R1 S754_nan []). specialize (R1' S754_nan []). rewrite <- E, R1 in R1'.
    by injection R1'.
  - destruct Hh as (pre & post & Hf & E1 & E2), Hh' as (pre' & post' & Hf' & E1' & E2'). 
    assert (pre ++ record_bytes b data ++ post = pre' ++ record_bytes b' data' ++ post') as E by congruence.
    specialize (R2 S754_nan [] pre post). specialize (R2' S754_nan [] pre' post').
    rewrite <- E, E1', E2', <- E1, <- E2, R2 in R2'. by injection R2'.
Qed.

(** Conditions on rows and disk that survive what publishes nothing and what
    spares the records of the visible rows. *)
Record stable (R : MetadataStore -> Fs -> Prop) : Prop := {
  stable_shrinks s s' d : shrinks NVME (ms_blocks s) (ms_blocks s') -> R s d -> R s' d;
  stable_keeps hole s d d' :
    fs_wf d' -> keeps (is_segment self) hole d d' -> spares hole s -> disk_inv s d -> R s d -> R s d';
}.

Lemma stable_rows (R : MetadataStore -> Prop) :
  (forall s s', shrinks NVME (ms_blocks s) (ms_blocks s') -> R s -> R s') -> stable (fun s _ => R s).
Proof using. intros H. split; eauto. Qed.

Lemma stable_and R R' : stable R -> stable R' -> stable (fun s d => R s d /\ R' s d).
Proof using. intros [H1 H2] [H3 H4]. split; naive_solver. Qed.

Lemma stable_hidden k : stable (fun s _ => hidden k NVME s).
Proof using. apply stable_rows. intros s s'. apply hidden_shrinks. Qed.

(** The payloads of the visible rows are among [A]. *)
Definition within (A : BlockKey -> pybytes -> Prop) (s : MetadataStore) (d : Fs) : Prop :=
  forall k r data, key_valid k = true -> nv_row k s = Some r -> r_state r = active -> placed d k r data -> A k data.

Lemma stable_within A : stable (within A).
Proof using Hok U.
  split.
  - intros s s' d Hs HA k r' data Hk Hr' Ha Hp. destruct (Hs _ _ Hr') as (r & Hr & Ha' & Hc & _).
    eapply (HA k r); [done|done|auto|]. by eapply placed_core.
  - intros hole s d d' _ Hkeep Hsp Hd HA k r data' Hk Hr Ha Hp'.
    destruct (di_data _ _ Hd k r Hk Hr Ha) as (data & Hp).
    assert (placed d' k r data) as Hp2 by (eapply placed_keeps; [done| |done]; eauto).
    rewrite (placed_unique _ _ _ _ _ Hk Hp' Hp2). by eapply HA.
Qed.

(** ** lookup, evict and load *)

Section Kept.
Context (R : MetadataStore -> Fs -> Prop) (HR : stable R).

(** The disk invariant with such a condition. *)
Definition disk_with (s : MetadataStore) (d : Fs) : Prop := disk_inv s d /\ R s d.
Local Abbreviation I := (linked disk_with).

Lemma disk_with_shrinks s s' d : shrinks NVME (ms_blocks s) (ms_blocks s') -> disk_with s d -> disk_with s' d.
Proof using HR. intros Hs [H1 H2]. split; [by eapply disk_shrinks|by eapply stable_shrinks]. Qed.
Local Hint Resolve disk_with_shrinks : kv.

Lemma disk_with_keeps hole s d d' :
  fs_wf d' -> keeps (is_segment self) hole d d' -> spares hole s -> disk_with s d -> disk_with s d'.
Proof using HR. intros Hw Hk Hh [H1 H2]. split; [by eapply disk_keeps|by eapply stable_keeps]. Qed.

Lemma spares_none s : spares (fun _ => False) s.
Proof using. intros k r t _ _ _ _ []. Qed.

(** A call that leaves the files alone. *)
Lemma disk_read p : preserves I (on_dev (read_file p)).
Proof using HR.
  apply linked_dev. intros s d Hs Hd. eapply disk_with_keeps; [apply wf_read, Hd| |apply spares_none|done].
  apply keeps_files. by rewrite read_state.
Qed.
Local Hint Resolve disk_read : kv.

Lemma disk_lookup k : preserves I (lookup self k).
Proof using HR. unfold lookup, _location_exists, nv_metric. linked. Qed.
Local Hint Resolve disk_lookup : kv.

Lemma disk_contains k : preserves I (contains self k).
Proof using HR. unfold contains. linked. Qed.
End Kept.

(** Removing the file of a block that is not visible. *)
Lemma spares_hidden k p s :
  key_valid k = true -> layout_mode self = content_addressed -> block_path resolve (root_dir self) k = Ok p ->
  hidden k NVME s -> spares (eq p) s.
Proof using Hok.
  intros Hk Hm Hp Hh k' r t Hk' Hr Ha Ht E. destruct t as [p'|ref]; cbn in E.
  - destruct Ht as (_ & Hp' & _). subst p'. assert (k = k') as -> by (by eapply block_path_inj).
    by apply (Hh r Hr).
  - destruct Ht as (Hm' & _). rewrite Hm in Hm'. done.
Qed.

Lemma wf_on_missing_unlink p : preserves fs_wf (on_missing (unlink p) (ret tt)).
Proof using. apply on_missing_preserves; [apply wf_unlink|apply preserves_ret]. Qed.

Lemma keeps_on_missing_unlink g hole d0 p : free hole d0 p -> preserves (keeps g hole d0) (on_missing (unlink p) (ret tt)).
Proof using. intros Hp. apply on_missing_preserves; [by apply keeps_unlink|apply preserves_ret]. Qed.

Lemma disk_unlink R k p :
  stable R -> key_valid k = true -> layout_mode self = content_addressed -> block_path resolve (root_dir self) k = Ok p ->
  (forall s d, R s d -> hidden k NVME s) -> preserves (linked (disk_with R)) (on_dev (on_missing (unlink p) (ret tt))).
Proof using Hok.
  intros Hst Hk Hm Hp HR. apply linked_dev. intros s d Hs Hd.
  eapply (disk_with_keeps R Hst (eq p)); [apply wf_on_missing_unlink, Hd| | |done].
  - apply keeps_on_missing_unlink; [by intros []|apply keeps_refl].
  - eapply spares_hidden; try done. eapply HR, Hd.
Qed.

Section Evict.
Context (R : MetadataStore -> Fs -> Prop) (HR : stable R).

(** The steps after the tombstone is in place. *)
Definition remove_payload (k : BlockKey) (l : BlockLocation) : NW bool :=
  let* target := lift (_validated_location_target self l) in
  match target with
  | inr _ => ret tt
  | inl p => on_dev (on_missing (unlink p) (ret tt))
  end ;;
  let* finished := db (MetadataStore.finish_delete k NVME) in
  if negb finished then raise tombstone_lost else ret true.

Lemma disk_remove k k0 l t :
  key_valid k0 = true -> target_for k0 (loc_uri l) t -> (forall s d, R s d -> hidden k0 NVME s) ->
  preserves (linked (disk_with R)) (remove_payload k l).
Proof using Hok HR.
  intros Hk Ht Hh. apply preserves_lift_bind. intros t' El.
  pose proof (target_of_uri _ _ _ _ _ Hk Ht eq_refl El) as ->. apply preserves_bind.
  - destruct t as [p|ref]; [|apply preserves_ret]. destruct Ht as (Hm & Hp & _). by eapply disk_unlink.
  - intros _. apply preserves_bind; [|intros [|]; [apply preserves_ret|apply preserves_raise]].
    apply (linked_db NVME); [by apply disk_with_shrinks|apply quiet_finish_delete].
Qed.
End Evict.

Section Calls.
Context (R : MetadataStore -> Fs -> Prop) (HR : stable R).

Lemma disk_evict k : preserves (linked (disk_with R)) (evict self k).
Proof using Hok HR.
  unfold evict. apply preserves_bind; [apply (linked_db NVME); [by apply disk_with_shrinks|apply quiet_mutation]|].
  intros _ w Hw. unfold bind at 1.
  pose proof (linked_db NVME _ (disk_with_shrinks R HR) _ (quiet_begin_delete NVME k NVME) w Hw) as Hw1.
  destruct (db (begin_delete k NVME) w) as [w1 [[l|]|e]] eqn:E; [|done|done]. cbn in Hw1 |- *.
  destruct (begin_delete_hides k w w1 l (proj1 Hw) E) as [Hh (r & Hr & Hu)].
  destruct (key_of_row _ _ _ (env_store_inv _ (proj1 Hw1)) Hr) as (k0 & Hk0 & Ek).
  rewrite <- Ek in Hr. destruct (di_uri _ _ (proj1 (proj2 Hw1)) k0 r Hk0 Hr) as (t & Ht). rewrite <- Hu in Ht.
  set (R' := fun s d => R s d /\ hidden k0 NVME s).
  assert (preserves (linked (disk_with R')) (remove_payload k l)) as Hp.
  { eapply disk_remove; [|done|done|by intros s d [_ H2]]. apply stable_and; [done|apply stable_hidden]. }
  destruct Hw1 as [Hi [Hd HRw]].
  destruct (Hp w1) as (Hi' & Hd' & HR' & _); [|by split].
  split; [done|]. split; [done|]. split; [done|]. by eapply hidden_same.
Qed.

Lemma disk_load k : preserves (linked (disk_with R)) (load self k).
Proof using Hok HR.
  pose proof (disk_with_shrinks R HR) as Hs. pose proof disk_evict. pose proof (disk_lookup R HR).
  pose proof (disk_read R HR). pose proof (linked_verify NVME (disk_with R) Hs).
  pose proof (linked_finish NVME (disk_with R) Hs). unfold load, checked_load, _read_location. linked.
Qed.
End Calls.
End Disk.
