(* ===== verification/NvmeWriteFacts.v ===== *)
(** * What the NVMe tier writes

    A write that returns has put the whole record at the target of the location
    it returns; a write that fails at any of its system calls leaves the records
    of the other blocks as they were. *)

From Stdlib Require Import SpecFloat.
From S2P Require Import Prelude PyText Sha256 Float64 Errors PyVal Json JsonFacts Metadata MetadataFacts MetadataStore MetadataStoreFacts Metrics Runtime MemoryTier MemoryTierFacts Record Layout Url UrlFacts FileSystem FileSystemFacts World WorldFacts NvmeTier NvmeTierFacts.
Import MNotations ResNotations.
Local Open Scope m_scope.

(** ** Names *)

Lemma component_plain c : component_ok c -> plain_name c.
Proof. by intros (_ & _ & _ & H1 & H2 & _). Qed.

Lemma components_plain p : Forall component_ok p -> plain_path p.
Proof. intros H. eapply Forall_impl; [exact H|apply component_plain]. Qed.

Lemma plain_all (P : Z -> Prop) s : Forall P s -> ~ P 47 -> ~ P 0 -> plain_name s.
Proof. rewrite Forall_forall. intros H H1 H2. split; intros Hc; naive_solver. Qed.

Lemma plain_str s : forallb (fun c => negb (c =? 47) && negb (c =? 0)) s = true -> plain_name s.
Proof.
  intros H. apply (plain_all (fun c => c <> 47 /\ c <> 0)); [|lia..]. rewrite Forall_forallb in H.
  eapply Forall_impl; [exact H|]. intros c. simpl. lia.
Qed.

Lemma digits_plain t : Forall (fun x => is_digit x = true) t -> plain_name t.
Proof. intros H. by apply (plain_all _ _ H). Qed.

Lemma int_text_plain z t : int_text z = Ok t -> plain_name t.
Proof.
  unfold int_text. case_match; [done|]. intros [= <-]. unfold int_repr. case_match.
  - apply (plain_name_app [45]); [by apply plain_str|]. apply digits_plain, dec_nat_digit; lia.
  - apply digits_plain, dec_nat_digit; lia.
Qed.

Lemma zeros_plain n : plain_name (replicate n 48).
Proof. apply (plain_all (eq 48)); [|done..]. by apply Forall_replicate. Qed.

Lemma six_digits_plain n t : six_digits n = Ok t -> plain_name t.
Proof.
  unfold six_digits. case_match; intros (x & Hx%int_text_plain & ->)%res_map_ok.
  - apply (plain_name_app [45]); [by apply plain_str|]. apply plain_name_app; [apply zeros_plain|done].
  - apply plain_name_app; [apply zeros_plain|done].
Qed.

Definition kvseg : pystr := str ".kvseg".

(** A name of the form [prefix*.kvseg]. *)
Lemma name_matches_inv prefix suffix name :
  name_matches prefix suffix name = true -> exists mid, name = prefix ++ mid ++ suffix.
Proof.
  unfold name_matches. destruct (strip_prefix prefix name) as [rest|] eqn:E; [|done].
  apply strip_prefix_Some in E as ->. unfold starts_with.
  destruct (strip_prefix (rev suffix) (rev rest)) as [r|] eqn:E; [|done]. intros _.
  apply strip_prefix_Some in E. apply (f_equal (@rev Z)) in E. rewrite rev_involutive, rev_app_distr, rev_involutive in E.
  exists (rev r). by rewrite E.
Qed.

Lemma segment_suffix prefix mid : prefix <> [] -> name_suffix (prefix ++ mid ++ kvseg) = kvseg.
Proof.
  intros Hp. rewrite app_assoc. change kvseg with (46 :: str "kvseg"). apply name_suffix_ext; [|done|].
  - by destruct prefix.
  - by apply (bool_decide_unpack _); vm_compute.
Qed.

(** A segment file of a directory. *)
Record segment_path (dir : path) (p : path) : Prop := {
  sp_parent : path_parent p = dir;
  sp_nonempty : p <> [];
  sp_plain : plain_name (path_name p);
  sp_name : exists prefix mid, prefix <> [] /\ path_name p = prefix ++ mid ++ kvseg;
}.

Lemma segment_path_new dir prefix mid :
  prefix <> [] -> plain_name prefix -> plain_name mid ->
  segment_path dir (dir ++ [prefix ++ mid ++ kvseg]).
Proof.
  intros Hp H1 H2. split.
  - apply path_parent_snoc.
  - by destruct dir.
  - rewrite path_name_snoc. apply plain_name_app; [done|]. apply plain_name_app; [done|]. by apply plain_str.
  - rewrite path_name_snoc. eauto.
Qed.

Section Write.
Context `{U : UnicodeData} (self : NVMeTier) (Hok : nvme_ok self).
Abbreviation nv_row k s := (ms_blocks s !! row_key k NVME).

Lemma append_path_ok s dir prefix n p :
  fs_wf s -> prefix <> [] -> plain_name prefix ->
  append_path self s dir prefix n = Ok p -> segment_path dir p.
Proof using.
  intros Hw Hp Hpl. unfold append_path.
  set (ex := if exists_path s dir then _ else _). destruct (last ex) as [q|] eqn:El.
  - assert (q ∈ ex) as Hq by (by apply last_Some_elem_of).
    assert (q ∈ entries s /\ path_parent q = dir /\ name_matches prefix kvseg (path_name q) = true /\ q <> []) as (He & Hq1 & Hq2 & Hq3).
    { unfold ex in Hq. destruct (exists_path s dir); [by apply glob_elem|by apply elem_of_nil in Hq]. }
    case_match.
    + intros [= <-]. apply name_matches_inv in Hq2 as [mid Hm]. split; [done|done| |by exists prefix, mid].
      pose proof (wf_entry s q Hw He) as Hx. rewrite (path_split q Hq3) in Hx. apply Forall_app in Hx as [_ Hx].
      by apply Forall_inv in Hx.
    + intros (id & Hid%six_digits_plain & ->)%res_map_ok. by apply segment_path_new.
  - intros [= <-]. apply (segment_path_new dir prefix (str "000000")); try done. by apply plain_str.
Qed.

Lemma segment_path_plain dir p : plain_path dir -> segment_path dir p -> plain_path p.
Proof using.
  intros Hd [H1 H2 H3 _]. rewrite (path_split p H2), H1. apply Forall_app_2; [done|]. by constructor.
Qed.

Lemma quote_ok s q : quote s = Ok q -> str_ok s = true.
Proof using. unfold quote. destruct (utf8_encode s) as [b|] eqn:E; [|done]. intros _. by eapply utf8_encode_str_ok. Qed.

Lemma path_text_last dir c : str_ok (path_text (dir ++ [c])) = true -> str_ok c = true.
Proof using.
  unfold path_text, str_ok. cbn [forallb]. intros [_ H]%andb_true_iff. revert H.
  induction dir as [|x dir IH]; [done|].
  assert (exists y r, dir ++ [c] = y :: r) as (y & r & E) by (destruct dir; eauto).
  change ((x :: dir) ++ [c]) with (x :: (dir ++ [c])). rewrite E in *.
  change (join [47] (x :: y :: r)) with (x ++ [47] ++ join [47] (y :: r)). rewrite !forallb_app, !andb_true_iff. tauto.
Qed.

(** The place of a record in a segment file of the key's directory. *)
Lemma segment_ref_ok k dir p offset n uri :
  namespace_dir resolve (segment_root self) k = Ok dir -> key_valid k = true -> segment_path dir p ->
  0 <= offset -> 0 < n <= max_record_bytes self -> _segment_uri (mkSegmentRef p offset n) = Ok uri ->
  ref_ok self k (mkSegmentRef p offset n).
Proof using Hok.
  intros Hdir Hk [H1 H2 [H3 H3'] (prefix & mid & Hp & Hn)] Ho Hb Hu. split; cbn [ref_path ref_offset ref_record_bytes]; try done.
  - rewrite (path_split p H2), H1. destruct (namespace_dir_eq self Hok k Hk) as (ns & Hns & Hc).
    rewrite Hns in Hdir. injection Hdir as <-.
    apply Forall_app_2; [apply Forall_app_2; [by apply segment_root_ok|done]|]. constructor; [|done].
    unfold _segment_uri in Hu. cbn in Hu. apply res_bind_ok in Hu as (q & Hq%quote_ok & _).
    rewrite (path_split p H2) in Hq. apply path_text_last in Hq.
    destruct prefix as [|x prefix]; [done|]. split_and!; try done; rewrite Hn; try done.
    + intros E. apply (f_equal length) in E. rewrite !length_app in E. simpl in E. lia.
    + intros E. apply (f_equal length) in E. rewrite !length_app in E. simpl in E. lia.
  - by rewrite H1.
  - rewrite Hn. by apply segment_suffix.
Qed.

(** ** Frames *)

(** The paths a write of the block may overwrite. *)
Definition write_hole (k : BlockKey) (p : path) : Prop :=
  layout_mode self = content_addressed /\ block_path resolve (root_dir self) k = Ok p.

(** Only the disk has changed, and the files outside the hole are kept. *)
Definition writing (e : Env) (hole : path -> Prop) (d0 : Fs) (w : World Fs) : Prop :=
  w_env w = e /\ fs_wf (w_dev w) /\ keeps (is_segment self) hole d0 (w_dev w).

Lemma writing_dev e hole d0 {A} (m : M Fs A) :
  preserves fs_wf m -> preserves (keeps (is_segment self) hole d0) m -> preserves (writing e hole d0) (on_dev m).
Proof using.
  intros H1 H2 w (He & Hw & Hk). unfold on_dev, zoom. specialize (H1 _ Hw). specialize (H2 _ Hk).
  destruct (m (w_dev w)) as [d r]. by split_and!.
Qed.

Lemma writing_bind_mkstemp e hole d0 {B} prefix suffix dir (f : path -> NW B) :
  plain_name prefix -> plain_name suffix -> plain_path dir ->
  (forall p, free hole d0 p -> plain_path p -> preserves (writing e hole d0) (f p)) ->
  preserves (writing e hole d0) (bind (on_dev (mkstemp prefix suffix dir)) f).
Proof using.
  intros H1 H2 H3 Hf w (He & Hw & Hk). unfold bind, on_dev, zoom.
  pose proof (wf_mkstemp _ _ _ H1 H2 H3 _ Hw) as Hw'.
  pose proof (keeps_mkstemp (is_segment self) hole d0 prefix suffix dir ret) as Hk'.
  specialize (Hk' (fun p _ => preserves_ret _ p) _ Hk). unfold bind in Hk'.
  destruct (mkstemp prefix suffix dir (w_dev w)) as [d [p|x]] eqn:E; cbn [fst snd] in Hw', Hk' |- *; [|by split].
  destruct (mkstemp_ok _ _ _ _ _ _ E) as (Hn & Ef & _). apply Hf; [exact (keeps_free _ _ _ _ _ Hk Hn)| |by split].
  eapply wf_files; [exact Hw'|]. rewrite Ef. apply lookup_insert_eq.
Qed.

Lemma rsplit_some c s a b : rsplit c s = Some (a, b) -> s = a ++ c :: b.
Proof using.
  revert a. induction s as [|x s IH]; intros a; simpl; [done|]. destruct (rsplit c s) as [[a' b']|] eqn:E.
  - intros [= <- ->]. by rewrite (IH a').
  - destruct (Z.eqb_spec x c) as [->|]; [|done]. by intros [= <- ->].
Qed.

Lemma name_stem_plain s : plain_name s -> plain_name (name_stem s).
Proof using.
  unfold name_stem. intros Hs. destruct (rsplit 46 s) as [[[|x a] [|y b]]|] eqn:E; try done.
  apply rsplit_some in E. subst s. unfold plain_name in *. rewrite !not_elem_of_app in Hs. tauto.
Qed.

Lemma parent_plain p : plain_path p -> plain_path (path_parent p).
Proof using.
  intros Hp. destruct (decide (p = [])) as [->|Hne]; [done|]. rewrite (path_split p Hne) in Hp.
  by apply Forall_app in Hp as [Hp _].
Qed.

Lemma name_plain p : plain_path p -> plain_name (path_name p).
Proof using.
  intros Hp. destruct (decide (p = [])) as [->|Hne]; [by apply plain_str|]. rewrite (path_split p Hne) in Hp.
  apply Forall_app in Hp as [_ Hp]. by apply Forall_inv in Hp.
Qed.

(** ** Temporary files *)

Lemma write_tmp_frame e hole d0 tmp b data :
  free hole d0 tmp -> plain_path tmp ->
  preserves (writing e hole d0) (try_catch
    (on_dev (append_file tmp (record_of b data)) ;;
     when (fsync_on_store self) (on_dev fsync) ;; ret tmp)
    (fun x => on_dev (on_missing (unlink tmp) (ret tt)) ;; raise x)).
Proof using.
  intros Hfree Hpl. apply preserves_try_catch.
  - apply preserves_bind; [apply writing_dev; [by apply wf_append|apply keeps_append; by right]|]. intros _.
    apply preserves_bind; [|intros; apply preserves_ret]. apply preserves_when.
    apply writing_dev; [apply wf_fsync|apply keeps_fsync].
  - intros x. apply preserves_bind; [|intros; apply preserves_raise].
    apply writing_dev; [apply wf_on_missing_unlink|by apply keeps_on_missing_unlink].
Qed.

(** A computation on the device that returned. *)
Lemma on_dev_ok {A} (m : M Fs A) w w' a :
  on_dev m w = (w', Ok a) -> m (w_dev w) = (w_dev w', Ok a) /\ w_env w' = w_env w.
Proof using. unfold on_dev, zoom. destruct (m (w_dev w)) as [d r]. by intros [= <- <-]. Qed.

(** What [fsync] leaves: everything. *)
Lemma fsync_when_ok w w' u :
  when (fsync_on_store self) (on_dev fsync) w = (w', Ok u) -> fs_files (w_dev w') = fs_files (w_dev w).
Proof using.
  destruct (fsync_on_store self); [|by intros [= <-]]. intros [H _]%on_dev_ok. by apply fsync_ok in H as ->.
Qed.

Lemma write_tmp_ok p b data w w' tmp :
  _write_tmp self p b data w = (w', Ok tmp) ->
  fs_files (w_dev w) !! tmp = None /\ fs_files (w_dev w') !! tmp = Some (record_bytes b data).
Proof using.
  unfold _write_tmp. intros H. apply bind_ok in H as (q & w1 & H1 & H).
  apply on_dev_ok in H1 as [(Hn & Hf & _)%mkstemp_ok _].
  apply try_catch_raise_ok in H; [|intros x s; unfold bind; by destruct (on_dev _ s) as [? [|]]].
  apply bind_ok in H as ([] & w2 & [(Ha & _)%append_ok _]%on_dev_ok & H).
  apply bind_ok in H as ([] & w3 & H3%fsync_when_ok & [= <- <-]). split; [done|].
  rewrite H3, Ha, Hf. by rewrite !lookup_insert_eq.
Qed.

Lemma write_tmp_spec e hole d0 p b data w :
  plain_path p -> writing e hole d0 w ->
  writing e hole d0 (_write_tmp self p b data w).1 /\
  forall tmp, (_write_tmp self p b data w).2 = Ok tmp -> free hole d0 tmp.
Proof using.
  intros Hp Hw. split.
  - unfold _write_tmp. apply writing_bind_mkstemp; [| | | |done].
    + apply (plain_name_app [46]); [by apply plain_str|]. apply plain_name_app; [|by apply plain_str].
      by apply name_stem_plain, name_plain.
    + by apply plain_str.
    + by apply parent_plain.
    + intros tmp. apply write_tmp_frame.
  - intros tmp E. destruct (_write_tmp self p b data w) as [w' r] eqn:Ew. cbn in E. subst r.
    apply write_tmp_ok in Ew as [Hn _]. eapply keeps_free; [apply Hw|done].
Qed.

(** ** Segments *)

Lemma writing_append e hole d0 dir p rec :
  is_segment self = true -> plain_path dir -> segment_path dir p -> preserves (writing e hole d0) (append_record self p rec).
Proof using.
  intros Hs Hd Hp. pose proof (segment_path_plain dir p Hd Hp) as Hpl. unfold append_record.
  apply preserves_bind; [apply writing_dev; [by apply wf_mkdir, parent_plain|apply keeps_mkdir]|]. intros _.
  apply preserves_bind; [apply preserves_gets|]. intros o.
  apply preserves_bind; [apply writing_dev; [by apply wf_append|apply keeps_append; by left]|]. intros _.
  apply preserves_bind; [|intros; apply preserves_ret]. apply preserves_when.
  apply writing_dev; [apply wf_fsync|apply keeps_fsync].
Qed.

(** The record is at the offset the reference states. *)
Lemma append_record_ok p rec w w' ref :
  append_record self p rec w = (w', Ok ref) ->
  w_env w' = w_env w /\ ref_path ref = p /\ ref_record_bytes ref = zlen rec /\ 0 <= ref_offset ref /\
  holds (w_dev w') (inr ref) rec.
Proof using.
  unfold append_record. intros H. apply bind_ok in H as ([] & w1 & [H1%mkdir_ok E1]%on_dev_ok & H).
  apply bind_ok in H as (o & w2 & [= <- Ho] & H).
  apply bind_ok in H as ([] & w3 & [[Ha Hd]%append_ok E3]%on_dev_ok & H).
  apply bind_ok in H as ([] & w4 & H4 & [= <- <-]). pose proof (fsync_when_ok _ _ _ H4) as H4'.
  assert (w_env w4 = w_env w3) as E4.
  { destruct (fsync_on_store self); [by apply on_dev_ok in H4 as [_ ?]|by injection H4 as <-]. }
  assert (o = zlen (default [] (fs_files (w_dev w1) !! p))) as Eo.
  { rewrite <- Ho. unfold exists_path, is_file, st_size. rewrite Hd. destruct (fs_files (w_dev w1) !! p) as [f|].
    - by rewrite bool_decide_eq_true_2.
    - by rewrite bool_decide_eq_false_2 by (by intros []). }
  split_and!; cbn [ref_path ref_offset ref_record_bytes]; [congruence|done|done|lia|].
  exists (default [] (fs_files (w_dev w1) !! p)), []. cbn [ref_path ref_offset ref_record_bytes].
  rewrite H4', Ha, lookup_insert_eq, app_nil_r. done.
Qed.

(** The two ways a record gets into a segment: a store and a compaction. *)
Definition append_to (k : BlockKey) (prefix : pystr) (rec : pybytes) : NW SegmentRef :=
  let* dir := lift (namespace_dir resolve (segment_root self) k) in
  let* s := dev_gets id in
  let* p := lift (append_path self s dir prefix (zlen rec)) in
  append_record self p rec.

Lemma append_segment_eq k b data w :
  _append_segment_record self k b data w = append_to k (str "segment-") (record_bytes b data) w.
Proof using.
  unfold _append_segment_record, _segment_path_for_append, append_to, bind, lift, dev_gets, gets.
  destruct (namespace_dir _ _ _); [|done]. by destruct (append_path _ _ _ _ _).
Qed.

Lemma append_compacted_eq k b data id w :
  _append_compacted_segment_record self k b data id w =
  append_to k (str "compact-" ++ id ++ str "-") (record_bytes b data) w.
Proof using.
  unfold _append_compacted_segment_record, _compact_segment_path_for_append, append_to, bind, lift, dev_gets, gets.
  destruct (namespace_dir _ _ _); [|done]. by destruct (append_path _ _ _ _ _).
Qed.

Lemma namespace_plain k dir :
  key_valid k = true -> namespace_dir resolve (segment_root self) k = Ok dir -> plain_path dir.
Proof using Hok.
  intros Hk Hd. destruct (namespace_dir_eq self Hok k Hk) as (ns & Hns & Hc). rewrite Hns in Hd. injection Hd as <-.
  apply components_plain, Forall_app_2; [by apply segment_root_ok|done].
Qed.

Lemma writing_append_to e hole d0 k prefix rec :
  is_segment self = true -> key_valid k = true -> prefix <> [] -> plain_name prefix ->
  preserves (writing e hole d0) (append_to k prefix rec).
Proof using Hok.
  intros Hs Hk H1 H2. apply preserves_lift_bind. intros dir Hd w Hw. unfold bind at 1, dev_gets, gets.
  unfold bind, lift. destruct (append_path self _ dir prefix _) as [p|x] eqn:Ep; [|done].
  eapply writing_append; [done|by eapply namespace_plain| |done]. eapply append_path_ok; [apply Hw|done|done|exact Ep].
Qed.

Lemma append_to_ok k prefix rec w w' ref uri :
  key_valid k = true -> prefix <> [] -> plain_name prefix -> layout_mode self = segment -> fs_wf (w_dev w) ->
  0 < zlen rec <= max_record_bytes self ->
  append_to k prefix rec w = (w', Ok ref) -> _segment_uri ref = Ok uri ->
  target_for self k uri (inr ref) /\ holds (w_dev w') (inr ref) rec.
Proof using Hok.
  intros Hk H1 H2 Hm Hw Hn H Hu. unfold append_to in H. apply bind_ok in H as (dir & w1 & [= <- Hd] & H).
  apply bind_ok in H as (s & w2 & [= <- <-] & H). apply bind_ok in H as (p & w3 & [= <- Hp] & H).
  apply append_path_ok in Hp; [|done..]. apply append_record_ok in H as (_ & Ep & En & Ho & Hh).
  split; [|done]. split_and!; [done| |done]. destruct ref as [q o n]. cbn in Ep, En, Ho. subst q n.
  by eapply segment_ref_ok.
Qed.

(** ** Blocks *)

Lemma layout_cases :
  (layout_mode self = segment /\ is_segment self = true) \/ (layout_mode self = content_addressed /\ is_segment self = false).
Proof using Hok.
  unfold is_segment. destruct (no_mode self Hok) as [E|E]; rewrite E; [right|left]; (split; [done|]).
  - by apply bool_decide_eq_false_2.
  - by apply bool_decide_eq_true_2.
Qed.

Lemma block_path_plain_path k p : key_valid k = true -> block_path resolve (root_dir self) k = Ok p -> plain_path p.
Proof using Hok.
  intros Hk Hp. destruct (block_path_eq self Hok k Hk) as (ps & _ & E & Hc & _). rewrite E in Hp. injection Hp as <-.
  apply components_plain, Forall_app_2; [apply (no_root self Hok)|done].
Qed.

Lemma segment_prefix_plain : plain_name (str "segment-").
Proof using. by apply plain_str. Qed.

(** A write changes nothing but the files of its block. *)
Lemma write_block_frame e d0 k b data m c :
  key_valid k = true -> preserves (writing e (write_hole k) d0) (write_block self k b data m c).
Proof using Hok.
  intros Hk. unfold write_block. destruct layout_cases as [[Hm Hs]|[Hm Hs]]; rewrite Hs.
  - apply preserves_bind; [|intros; apply preserves_lift]. intros w Hw. rewrite append_segment_eq.
    apply writing_append_to; try done. apply segment_prefix_plain.
  - apply preserves_lift_bind. intros p Hp. pose proof (block_path_plain_path k p Hk Hp) as Hpl.
    apply preserves_bind; [apply writing_dev; [by apply wf_mkdir, parent_plain|apply keeps_mkdir]|]. intros _ w Hw.
    destruct (write_tmp_spec e (write_hole k) d0 p b data w Hpl Hw) as [Hw1 Htmp]. unfold bind at 1.
    destruct (_write_tmp self p b data w) as [w1 [tmp|x]]; [|done].
    refine (preserves_bind _ _ _ _ _ w1 Hw1); [|intros; apply preserves_ret].
    apply writing_dev; [by apply wf_replace|apply keeps_replace; [by apply Htmp|]]. intros Hx. destruct Hx. by split.
Qed.

Lemma record_length b data : zlen (record_bytes b data) = 12 + zlen b + zlen data.
Proof using. unfold record_bytes, header_len_pack. rewrite !length_app, be_bytes_length. simpl. lia. Qed.

Lemma written_length mode m maxb b data : written mode m maxb b data -> 0 < zlen b <= MAX_HEADER_BYTES /\ zlen data <= maxb.
Proof using.
  intros Hw. destruct (written_header mode m maxb b data Hw) as (Hl & _). split; [done|apply Hw].
Qed.

Lemma written_record_bounds m b data :
  written (layout_mode self) m (nv_max_bytes self) b data -> 0 < zlen (record_bytes b data) <= max_record_bytes self.
Proof using.
  intros [Hl Hd]%written_length. rewrite record_length. unfold max_record_bytes. change (Z.of_nat HEADER_LEN_SIZE) with 4. lia.
Qed.

(** A write that returns has put the record where its location points. *)
Lemma write_block_ok k b data m m0 c w w' loc :
  key_valid k = true -> fs_wf (w_dev w) -> written (layout_mode self) m0 (nv_max_bytes self) b data ->
  write_block self k b data m c w = (w', Ok loc) ->
  exists t uri, loc = nvme_location k uri (zlen data) c (md_created_at m) (md_last_access m) /\
    target_for self k uri t /\ holds (w_dev w') t (record_bytes b data).
Proof using Hok.
  intros Hk Hw Hb H. unfold write_block in H. destruct layout_cases as [[Hm Hs]|[Hm Hs]]; rewrite Hs in H.
  - apply bind_ok in H as (ref & w1 & H1 & [= <- H]). rewrite append_segment_eq in H1.
    unfold _segment_location_for in H. apply res_bind_ok in H as (uri & Hu & [= <-]). exists (inr ref), uri.
    destruct (append_to_ok k (str "segment-") (record_bytes b data) w w1 ref uri) as [Ht Hh]; try done.
    + apply segment_prefix_plain.
    + by eapply written_record_bounds.
  - apply bind_ok in H as (p & w1 & [= <- Hp] & H). apply bind_ok in H as ([] & w2 & _ & H).
    apply bind_ok in H as (tmp & w3 & [_ H3]%write_tmp_ok & H).
    apply bind_ok in H as ([] & w4 & [(f & Hf & H4)%replace_ok _]%on_dev_ok & [= <- <-]).
    exists (inl p), (file_uri p). split_and!; [done|done|]. unfold holds. rewrite H4, lookup_insert_eq. congruence.
Qed.

(** ** Publication *)

(** The location points to a record of the payload, and the metadata describes it. *)
Record publishable (d : Fs) (l : BlockLocation) (m : KVMetadata) (data : pybytes) : Prop := {
  pb_tier : loc_tier l = NVME;
  pb_storable : storable m = true;
  pb_location : location_ok l;
  pb_text : exists f, loc_last_access l = PFloat f /\ float_ok f = true;
  pb_size : loc_bytes l = zlen data /\ loc_checksum l = sha256_hex data;
  pb_record : exists t m0 b, target_for self (loc_key l) (loc_uri l) t /\ holds d t (record_bytes b data) /\
    written (layout_mode self) m0 (nv_max_bytes self) b data /\ md_key m0 = loc_key l /\
    md_checksum m0 = PStr (sha256_hex data) /\
    descriptor_eqb (payload_descriptor (norm_metadata fmt_store m)) (payload_descriptor (norm_metadata fmt_compact m0)) = true;
}.

Lemma publishable_row now l m s s' d data :
  store_inv s -> publishable d l m data -> upsert now l m s = (s', Ok tt) ->
  store_inv s' /\ _closed s' = false /\
  exists r, nv_row (loc_key l) s' = Some r /\ r_state r = active /\ placed self d (loc_key l) r data /\
    s' = put_row (row_key (loc_key l) NVME) r s.
Proof using.
  intros Hi [Ht Hm Hl _ [Hn Hc] (t & m0 & b & Htg & Hh & Hw & Hk & Hs & Hd)] H.
  destruct (upsert_row _ _ _ _ _ Hi Hm Hl H) as (Hcl & Hi' & r & Hr & Ha & Hmd & Hu & Hb & Hsum & _).
  rewrite Ht in Hr. split_and!; [done|done|]. exists r. split_and!; [done|done| |].
  - exists t, m0, b. split; try done; [by rewrite Hu|by rewrite Hb, Hsum|]. eauto.
  - destruct (upsert_inv _ _ _ _ _ H) as (_ & _ & _ & n & _ & _ & E). rewrite Ht in E. rewrite E in Hr |- *.
    rewrite put_row_lookup in Hr. by injection Hr as <-.
Qed.

Lemma disk_upsert now l m s d data :
  key_valid (loc_key l) = true -> store_inv s -> publishable d l m data -> disk_inv self s d ->
  disk_inv self (upsert now l m s).1 d.
Proof using.
  intros Hk Hi Hp Hd. destruct (upsert now l m s) as [s' [[]|e]] eqn:E.
  - destruct (publishable_row _ _ _ _ _ _ _ Hi Hp E) as (_ & _ & r & Hr & Ha & Hpl & Es). cbn.
    destruct Hd as [Hw Hu Hdata Htext]. assert (float_ok (r_last_access r) = true) as Hrt.
    { destruct (pb_text _ _ _ _ Hp) as (f & Hf & Hft). rewrite <- (pb_tier _ _ _ _ Hp) in Hr.
      eapply (upsert_text _ _ _ _ _ f r E Hf Hft); [|exact Hr]. intros o. rewrite (pb_tier _ _ _ _ Hp). apply Htext. }
    subst s'. split; [done| | |]; intros k0 r0; [intros Hk0|intros Hk0|]; rewrite put_row_blocks, lookup_insert_Some.
    + intros [[Ek <-]|[_ Hr0]]; [|by apply Hu]. apply row_key_inj in Ek as <-; [|done..].
      destruct Hpl as (t & m0 & b & Hpl). exists t. apply Hpl.
    + intros [[Ek <-]|[_ Hr0]] Ha0; [|by apply Hdata]. apply row_key_inj in Ek as <-; [|done..]. by exists data.
    + intros [[_ <-]|[_ Hr0]]; [done|by apply (Htext k0)].
  - pose proof (upsert_raises now l m s) as Hr. rewrite E in Hr. cbn in Hr |- *. by rewrite Hr.
Qed.

(** ** Making room *)

Section Room.
Context (R : MetadataStore -> Fs -> Prop) (HR : stable self R).
Local Abbreviation I := (linked (disk_with self R)).

Lemma disk_candidate x ls : preserves I (evict_candidate self x ls).
Proof using Hok HR.
  pose proof (disk_evict self Hok R HR) as He.
  induction ls as [|l ls IH]; simpl; [apply preserves_ret|]. case_bool_decide; [done|].
  apply preserves_bind; [apply He|]. intros [|]; [apply preserves_ret|done].
Qed.

Lemma disk_free fuel n x current : preserves I (free_space self fuel n x current).
Proof using Hok HR.
  pose proof disk_candidate as Hc. pose proof (disk_with_shrinks self R HR) as Hs.
  revert current. induction fuel as [|fuel IH]; intros current; simpl.
  - destruct (_ <=? _); [apply preserves_ret|apply preserves_raise].
  - destruct (_ <=? _); [apply preserves_ret|].
    apply preserves_bind; [apply (linked_db_at NVME); [done|]; intros; apply quiet_lru|]. intros cs.
    apply preserves_bind; [apply Hc|]. intros [z|]; [apply IH|apply preserves_raise].
Qed.

Lemma disk_capacity n x : preserves I (_ensure_capacity self n x).
Proof using Hok HR.
  pose proof (disk_with_shrinks self R HR) as Hs. pose proof (disk_lookup self R HR) as Hl.
  pose proof disk_free. unfold _ensure_capacity, row_count.
  apply preserves_bind; [apply (linked_db NVME); [done|apply quiet_bytes_used]|]. intros current.
  apply preserves_bind; [apply Hl|]. intros ex. apply preserves_bind; [apply preserves_gets|]. auto.
Qed.
End Room.

(** ** publish *)

Lemma device_location_ok k uri n c m :
  storable m = true -> location_ok (nvme_location k uri n c (md_created_at m) (md_last_access m)).
Proof using.
  intros (Ht & _)%storable_inv. split; [vm_compute; reflexivity|].
  split; [apply (ty_created_at m Ht)|apply (ty_last_access m Ht)].
Qed.

Lemma written_self m d b data :
  storable m = true -> md_bytes m = PInt (zlen data) -> zlen data <= nv_max_bytes self ->
  md_checksum m = PStr (sha256_hex data) -> to_dict m = Ok d ->
  encode_record_header (record_header (layout_mode self) (sha256_hex data) (zlen data) d) = Ok b ->
  written (layout_mode self) m (nv_max_bytes self) b data.
Proof using Hok. intros Hm Hb Hl Hc Hd He. split; [done|apply (no_mode self Hok)|done|eauto]. Qed.

Lemma spares_write_hole k s : key_valid k = true -> hidden k NVME s -> spares self (write_hole k) s.
Proof using Hok.
  intros Hk Hh k' r t Hk' Hr Ha Ht [Hm Hp]. by apply (spares_hidden self Hok k (target_path t) s Hk Hm Hp Hh k' r t).
Qed.

(** The disk after a write, however it ended. *)
Lemma disk_write R k b data m c w :
  stable self R -> key_valid k = true -> (forall s d, R s d -> hidden k NVME s) -> linked (disk_with self R) w ->
  let r := write_block self k b data m c w in w_env r.1 = w_env w /\ linked (disk_with self R) r.1.
Proof using Hok.
  intros Hst Hk HR (Hi & Hd & Hh). cbv zeta.
  destruct (write_block_frame (w_env w) (w_dev w) k b data m c Hk w) as (E & Hw & Hkeep).
  { split_and!; [done|apply Hd|apply keeps_refl]. }
  split; [done|]. unfold linked. rewrite E. split; [done|].
  eapply disk_with_keeps; [done|done|done| |by split]. apply spares_write_hole; [done|by eapply HR].
Qed.
End Write.
