(* ===== verification/NvmeLoadFacts.v ===== *)
(** * What lookups and loads of the NVMe tier return

    On any disk, a load that returns has checked the payload it returns. On a
    disk that satisfies [disk_inv], a visible block is found, a block that is not
    found is not visible, and a visible block loads unless a system call fails. *)

From Stdlib Require Import SpecFloat.
From S2P Require Import Prelude PyText Sha256 Float64 Errors PyVal Json JsonFacts Metadata MetadataFacts MetadataStore MetadataStoreFacts Metrics Runtime MemoryTier MemoryTierFacts Record Layout Url UrlFacts FileSystem FileSystemFacts World WorldFacts NvmeTier NvmeTierFacts.
Import MNotations ResNotations.
Local Open Scope m_scope.

Section Load.
Context `{U : UnicodeData} (self : NVMeTier) (Hok : nvme_ok self).
Abbreviation w_store w := (env_store (w_env w)).
Abbreviation nv_row k w := (ms_blocks (w_store w) !! row_key k NVME).

(** ** lookup *)

Lemma exists_ok l (w w' : World Fs) b :
  _location_exists self l w = (w', Ok b) ->
  w' = w /\ exists t, _validated_location_target self l = Ok t /\ target_present (w_dev w) t = b.
Proof using.
  unfold _location_exists. intros H. apply bind_ok in H as (t & w1 & [= <- Ht] & [= <- <-]). eauto.
Qed.

(** A location that is returned is that of a visible row, and its target exists. *)
Lemma nvme_lookup_ok k w w' l :
  env_inv (w_env w) -> lookup self k w = (w', Ok (Some l)) ->
  idle_step w w' /\ _closed (w_store w) = false /\
  exists r d, nv_row k w = Some r /\ r_state r = active /\ json_ok (PDict d) = true /\ l = row_location k NVME r d /\
    exists t, _validated_location_target self l = Ok t /\ target_present (w_dev w) t = true.
Proof using.
  intros Hi H. unfold lookup in H. apply bind_ok in H as (ls & w1 & (H1 & D1 & T1)%db_ok & H).
  pose proof (store_lookup_open _ _ _ _ _ H1) as Ho.
  destruct (store_lookup_eq k NVME _ (env_store_inv _ Hi) Ho) as (ls' & Hls & Hcase). rewrite Hls in H1.
  injection H1 as E1 <-. assert (idle_step w w1) as S1 by by split_and!.
  destruct ls' as [|l0 [|]]; [|destruct Hcase as (r & d & Hr & Ha & Hj & ->)|done].
  { apply bind_ok in H as (? & ? & _ & H). by apply bind_ok in H as (? & ? & _ & [=]). }
  apply bind_ok in H as (b & w2 & (-> & t & Ht & Hp)%exists_ok & H). rewrite D1 in Hp.
  apply bind_ok in H as ([] & w3 & H3 & H). destruct (metric_idle (Inc kv_lookup_total (f64_of_Z 1)
    (labels_of NVME (if b then str "hit" else str "stale"))) w1) as (w3' & E3 & S3). unfold nv_metric in H3. rewrite E3 in H3. injection H3 as <-.
  pose proof (idle_trans _ _ _ S1 S3) as S. destruct b.
  - injection H as <- <-. split_and!; [done..|]. exists r, d. eauto 10.
  - apply bind_ok in H as ([] & w4 & (H4 & D4 & T4)%db_ok & H). apply mutation_ok in H4 as [E4 _].
    apply bind_ok in H as (again & w5 & (H5 & D5 & T5)%db_ok & H).
    rewrite E4 in H5. destruct S as (DS & TS & SS). rewrite SS, Hls in H5. injection H5 as E5 <-.
    apply bind_ok in H as (still & w6 & (-> & t' & Ht' & Hp')%exists_ok & H). destruct still.
    + injection H as <- <-. split_and!; [split_and!; congruence|done|]. exists r, d. split_and!; try done.
      exists t'. split; [done|]. congruence.
    + by apply bind_ok in H as (? & ? & _ & [=]).
Qed.

(** ** The place of a record *)

Lemma holds_present d t rec : holds d t rec -> target_present d t = true.
Proof using.
  destruct t as [p|ref]; cbn.
  - apply exists_path_file.
  - intros (pre & post & Hf & H1 & H2). rewrite (exists_path_file d _ _ Hf). unfold st_size. rewrite Hf, !length_app. apply Z.leb_le. lia.
Qed.

(** The target of any location with the row's URI holds the row's record. *)
Lemma visible_target k r l t w :
  linked (disk_inv self) w -> nv_row k w = Some r -> r_state r = active -> loc_uri l = r_uri r ->
  _validated_location_target self l = Ok t ->
  exists k0 m b data, key_valid k0 = true /\ row_key k0 NVME = row_key k NVME /\ placed_as self (w_dev w) k0 r t m b data.
Proof using Hok.
  intros [Hi Hd] Hr Ha Hu Ht. destruct (key_of_row _ _ _ (env_store_inv _ Hi) Hr) as (k0 & Hk0 & Ek).
  rewrite <- Ek in Hr. destruct (di_data _ _ _ Hd k0 r Hk0 Hr Ha) as (data & t' & m & b & Hp).
  pose proof (target_of_uri self Hok _ _ _ _ _ Hk0 (pl_target _ _ _ _ _ _ _ _ Hp) Hu Ht) as ->.
  exists k0, m, b, data. done.
Qed.

Lemma row_location_target k r d w t m b data :
  key_valid k = true -> placed_as self (w_dev w) k r t m b data ->
  _validated_location_target self (row_location k NVME r d) = Ok t.
Proof using Hok. intros Hk Hp. apply target_valid; [done|done|done|]. apply (pl_target _ _ _ _ _ _ _ _ Hp). Qed.

(** A visible block is found. *)
Lemma lookup_visible k w r :
  linked (disk_inv self) w -> key_valid k = true -> _closed (w_store w) = false -> nv_row k w = Some r -> r_state r = active ->
  exists w' d, lookup self k w = (w', Ok (Some (row_location k NVME r d))) /\ json_ok (PDict d) = true /\ idle_step w w'.
Proof using Hok.
  intros [Hi Hd] Hk Ho Hr Ha. destruct (store_lookup_eq k NVME _ (env_store_inv _ Hi) Ho) as (ls & Hls & Hcase).
  destruct ls as [|l0 [|]]; [by apply Hcase in Hr; congruence| |done].
  destruct Hcase as (r' & d & Hr' & _ & Hj & ->). rewrite Hr in Hr'. injection Hr' as <-.
  destruct (di_data _ _ _ Hd k r Hk Hr Ha) as (data & t & m & b & Hp).
  destruct (db_run (D := Fs) _ _ _ _ Hls) as (w1 & E1 & S1 & D1 & T1). unfold lookup. rewrite (bind_run _ _ _ _ _ E1).
  unfold _location_exists at 1. unfold bind at 2, lift. rewrite (row_location_target k r d w t m b data Hk Hp).
  unfold bind at 1, dev_gets, gets. rewrite D1, (holds_present _ _ _ (pl_holds _ _ _ _ _ _ _ _ Hp)).
  destruct (metric_idle (Inc kv_lookup_total (f64_of_Z 1) (labels_of NVME (str "hit"))) w1) as (w2 & E2 & S2).
  unfold nv_metric. rewrite (bind_run _ _ _ _ _ E2). exists w2, d. split_and!; [done|done|].
  eapply idle_trans; [|exact S2]. by split_and!.
Qed.

(** A block that is not found is not visible. *)
Lemma lookup_missing k w w' :
  linked (disk_inv self) w -> lookup self k w = (w', Ok None) -> hidden k NVME (w_store w) /\ idle_step w w'.
Proof using Hok.
  intros Hw H. pose proof Hw as [Hi Hd]. unfold lookup in H. apply bind_ok in H as (ls & w1 & (H1 & D1 & T1)%db_ok & H).
  pose proof (store_lookup_open _ _ _ _ _ H1) as Ho.
  destruct (store_lookup_eq k NVME _ (env_store_inv _ Hi) Ho) as (ls' & Hls & Hcase). rewrite Hls in H1.
  injection H1 as E1 <-. assert (idle_step w w1) as S1 by by split_and!.
  destruct ls' as [|l0 [|]]; [|exfalso; destruct Hcase as (r & d & Hr & Ha & Hj & ->)|done].
  - split; [intros r Hr; rewrite (Hcase r Hr); done|]. apply bind_ok in H as (b & w2 & (H2 & D2 & T2)%db_ok & H).
    apply bind_ok in H as ([] & w3 & H3 & [= <-]).
    destruct (metric_idle (Inc kv_lookup_total (f64_of_Z 1) (labels_of NVME (str "miss"))) w2) as (w3' & E3 & S3).
    unfold nv_metric in H3. rewrite E3 in H3. injection H3 as <-. eapply idle_trans; [|exact S3].
    destruct S1 as (? & ? & E). split_and!; [congruence|congruence|]. unfold is_deleting, bind in H2. rewrite get_row_eq in H2.
    destruct (_closed _); [done|]. by injection H2 as <- _.
  - apply bind_ok in H as (b & w2 & (-> & t & Ht & Hp)%exists_ok & H). rewrite D1 in Hp.
    destruct (visible_target k r (row_location k NVME r d) t w Hw Hr Ha eq_refl Ht) as (k0 & m & bb & data & _ & _ & Hpl).
    rewrite (holds_present _ _ _ (pl_holds _ _ _ _ _ _ _ _ Hpl)) in Hp. subst b.
    apply bind_ok in H as (? & ? & _ & [=]).
Qed.

(** ** Reading *)

(** The file system's call counter is all a read changes. *)
Definition read_step (w w' : World Fs) : Prop :=
  fs_files (w_dev w') = fs_files (w_dev w) /\ fs_faults (w_dev w') = fs_faults (w_dev w) /\
  env_time (w_env w') = env_time (w_env w) /\ w_store w' = w_store w.

Lemma read_location_ok l w w' h payload :
  _read_location self l w = (w', Ok (h, payload)) ->
  read_step w w' /\ exists t f now, _validated_location_target self l = Ok t /\
    fs_files (w_dev w) !! target_path t = Some f /\
    match t with
    | inl p => _read_file now (nv_max_bytes self) f (path_text p) = Ok (h, payload)
    | inr ref => _read_segment_record now (nv_max_bytes self) f (path_text (ref_path ref)) (ref_offset ref) (ref_record_bytes ref) = Ok (h, payload)
    end.
Proof using.
  unfold _read_location. intros H. apply bind_ok in H as (t & w1 & [= <- Ht] & H).
  apply bind_ok in H as (now & w2 & H2 & H). injection H2 as <- <-.
  destruct t as [p|ref]; apply bind_ok in H as (f & w3 & H3 & [= <- H]);
    unfold on_dev, zoom in H3; destruct (read_file _ _) as [d r] eqn:Er; injection H3 as <- ->;
    apply read_ok in Er as [Hf ->]; (split; [by split_and!|]); do 3 eexists; (split; [exact Ht|]); (split; [exact Hf|exact H]).
Qed.

(** What the reader gets from the place of a record. *)
Lemma read_held k uri d t m b data now f h payload :
  target_for self k uri t -> holds d t (record_bytes b data) -> written (layout_mode self) m (nv_max_bytes self) b data ->
  fs_files d !! target_path t = Some f ->
  match t with
  | inl p => _read_file now (nv_max_bytes self) f (path_text p) = Ok (h, payload)
  | inr ref => _read_segment_record now (nv_max_bytes self) f (path_text (ref_path ref)) (ref_offset ref) (ref_record_bytes ref) = Ok (h, payload)
  end -> payload = data /\ header_of (layout_mode self) m (zlen data) h.
Proof using.
  intros Ht Hh Hw Hf H. destruct (written_record_reads _ _ _ _ _ Hw) as (h0 & Hh0 & R1 & R2). destruct t as [p|ref]; cbn in *.
  - rewrite Hf in Hh. injection Hh as ->. rewrite R1 in H. by injection H as -> ->.
  - destruct Hh as (pre & post & Hf' & E1 & E2). rewrite Hf in Hf'. injection Hf' as ->.
    rewrite <- E1, <- E2, R2 in H. by injection H as -> ->.
Qed.

(** A record in its place is read, unless the call fails. *)
Lemma read_location_run l w k t m b data :
  clock_ok (w_env w) -> target_for self k (loc_uri l) t -> _validated_location_target self l = Ok t ->
  holds (w_dev w) t (record_bytes b data) -> written (layout_mode self) m (nv_max_bytes self) b data ->
  fs_faults (w_dev w) (fs_calls (w_dev w)) = None ->
  exists w' h, _read_location self l w = (w', Ok (h, data)) /\ header_of (layout_mode self) m (zlen data) h /\ read_step w w'.
Proof using.
  intros Hc Hfor Ht Hh Hw Hn. destruct (written_record_reads _ _ _ _ _ Hw) as (h & Hh0 & R1 & R2).
  destruct (time_idle w Hc) as (now & w1 & E1 & (D1 & T1 & S1) & _).
  assert (forall p f, fs_files (w_dev w) !! p = Some f ->
    exists w2, on_dev (read_file p) w1 = (w2, Ok f) /\ read_step w w2) as Hread.
  { intros p f Hf. unfold on_dev, zoom. rewrite D1, (read_run _ _ _ Hn Hf). by eexists. }
  unfold _read_location. unfold bind at 1, lift. rewrite Ht. rewrite (bind_run _ _ _ _ _ E1). destruct t as [p|ref]; unfold holds in Hh.
  - destruct (Hread p _ Hh) as (w2 & E2 & S2). exists w2, h. rewrite (bind_run _ _ _ _ _ E2). unfold lift. by rewrite R1.
  - destruct Hh as (pre & post & Hf & Eo & En). destruct (Hread _ _ Hf) as (w2 & E2 & S2). exists w2, h.
    rewrite (bind_run _ _ _ _ _ E2). unfold lift. by rewrite <- Eo, <- En, R2.
Qed.

(** A call that fails. *)
Lemma read_location_fails l w t f :
  clock_ok (w_env w) -> _validated_location_target self l = Ok t -> fs_faults (w_dev w) (fs_calls (w_dev w)) = Some f ->
  exists w', _read_location self l w = (w', Raise (fault_exn f)) /\ read_step w w'.
Proof using.
  intros Hc Ht Hf. destruct (time_idle w Hc) as (now & w1 & E1 & (D1 & T1 & S1) & _).
  assert (forall p, exists w2, on_dev (read_file p) w1 = (w2, Raise (fault_exn f)) /\ read_step w w2) as Hread.
  { intros p. unfold on_dev, zoom, read_file, guarded, bind, syscall. rewrite D1, Hf. by eexists. }
  unfold _read_location. unfold bind at 1, lift. rewrite Ht. rewrite (bind_run _ _ _ _ _ E1).
  destruct t as [p|ref]; [destruct (Hread p) as (w2 & E2 & S2)|destruct (Hread (ref_path ref)) as (w2 & E2 & S2)];
    exists w2; by rewrite (bind_raise _ _ _ _ _ E2).
Qed.

(** ** load *)

(** Everything a load has checked when it returns: the header [h] of the record in the
    target [t], its metadata [m], the metadata [json] of the row. *)
Record checked (k : BlockKey) (l : BlockLocation) (r : LoadResult) (t : path + SegmentRef) (h : list (pystr * pyval))
    (m : KVMetadata) (json : pystr) : Prop := {
  ck_key : lr_key r = k /\ lr_tier r = NVME /\ md_key m = k;
  ck_size : loc_bytes l = zlen (lr_data r) /\ loc_bytes l = payload_size h;
  ck_sum : loc_checksum l = sha256_hex (lr_data r) /\ header_checksum h = sha256_hex (lr_data r);
  ck_metadata : exists p, lr_metadata r = copy_access (set_payload m (sha256_hex (lr_data r)) (zlen (lr_data r))) p /\
    descriptor_eqb (payload_descriptor p) (payload_descriptor (set_payload m (sha256_hex (lr_data r)) (zlen (lr_data r)))) = true /\
    recorded p json;
  ck_layout : get_or_none (str "layout_mode") h = PStr (match t with inr _ => segment | inl _ => content_addressed end);
}.

(** Reads and the clock may have moved; the rows of the tier show the same. *)
Definition load_step (w w' : World Fs) : Prop :=
  fs_files (w_dev w') = fs_files (w_dev w) /\ fs_faults (w_dev w') = fs_faults (w_dev w) /\
  env_time (w_env w') = env_time (w_env w) /\ steady NVME (w_store w) (w_store w').

Lemma read_load w w' : read_step w w' -> load_step w w'.
Proof using. intros (H1 & H2 & H3 & H4). split_and!; try done. by rewrite H4. Qed.

Lemma calm_load w w' : calm NVME w w' -> load_step w w'.
Proof using. intros (H1 & H2 & H3). split_and!; try done; by rewrite H1. Qed.

Lemma load_trans w1 w2 w3 : load_step w1 w2 -> load_step w2 w3 -> load_step w1 w3.
Proof using.
  intros (A1 & A2 & A3 & A4) (B1 & B2 & B3 & B4). split_and!; [congruence..|by eapply steady_trans].
Qed.

Lemma nvme_checked_load_ok start k l w w' r row :
  checked_load self start k l w = (w', Ok r) -> nv_row k w = Some row ->
  load_step w w' /\ exists h m t f now now', checked k l r t h m (r_metadata_json row) /\ from_dict now (get_or_none (str "metadata") h) = Ok m /\
    _validated_location_target self l = Ok t /\ fs_files (w_dev w) !! target_path t = Some f /\
    match t with
    | inl p => _read_file now' (nv_max_bytes self) f (path_text p) = Ok (h, lr_data r)
    | inr ref => _read_segment_record now' (nv_max_bytes self) f (path_text (ref_path ref)) (ref_offset ref) (ref_record_bytes ref) = Ok (h, lr_data r)
    end.
Proof using.
  unfold checked_load. intros H Hrow. apply bind_ok in H as ([h payload] & w1 & H1 & H).
  apply read_location_ok in H1 as (S1 & t & f & now' & Ht & Hf & Hrd).
  apply bind_ok in H as (now & w2 & H2 & H). assert (idle_step w1 w2) as S2 by (by injection H2 as <- _).
  apply bind_ok in H as (m & w3 & [= <- Hm] & H). apply bind_ok in H as ([] & w4 & [= <- Hv] & H).
  apply verify_ok in H as (S5 & Hsum & Hk & Htr & Hd & p & Hmd & Hpk & Hdesc & Hrec). subst payload. rewrite Hsum in *.
  unfold _validate_loaded_record in Hv. apply res_bind_ok in Hv as (t' & Ht' & Hv). cbv zeta in Hv.
  apply res_bind_ok in Hv as ([] & El%ensure_ok & Hv). apply res_bind_ok in Hv as ([] & Ek%ensure_ok & Hv).
  apply res_bind_ok in Hv as ([] & Es%ensure_ok & Hv). apply ensure_ok in Hv. rewrite Ht in Ht'. injection Ht' as <-.
  assert (recorded p (r_metadata_json row)) as Hrow'.
  { apply Hrec. destruct S2 as (_ & _ & ->), S1 as (_ & _ & _ & ->). exact Hrow. }
  apply bool_decide_eq_true in Ek, Hv. apply andb_true_iff in Es as [E1%Z.eqb_eq E2%Z.eqb_eq]. rewrite Hsum in Hv.
  split.
  - eapply load_trans; [by apply read_load|]. apply calm_load. by apply (calm_trans _ _ _ _ (idle_calm _ _ _ S2)).
  - exists h, m, t, f, now, now'. split_and!; try done. split; [done|done|done|by exists p|].
    destruct t, (get_or_none (str "layout_mode") h); try done; cbn in El; apply bool_decide_eq_true in El; by rewrite El.
Qed.

(** A load that returns. *)
Lemma nvme_load_ok k w w' r :
  env_inv (w_env w) -> load self k w = (w', Ok r) ->
  load_step w w' /\ _closed (w_store w) = false /\
  exists row d h m t f now now', nv_row k w = Some row /\ r_state row = active /\
    checked k (row_location k NVME row d) r t h m (r_metadata_json row) /\ from_dict now (get_or_none (str "metadata") h) = Ok m /\
    _validated_location_target self (row_location k NVME row d) = Ok t /\ fs_files (w_dev w) !! target_path t = Some f /\
    match t with
    | inl p => _read_file now' (nv_max_bytes self) f (path_text p) = Ok (h, lr_data r)
    | inr ref => _read_segment_record now' (nv_max_bytes self) f (path_text (ref_path ref)) (ref_offset ref) (ref_record_bytes ref) = Ok (h, lr_data r)
    end.
Proof using.
  intros Hi H. unfold load in H. apply bind_ok in H as (start & w1 & H1 & H).
  assert (idle_step w w1) as S1 by (by injection H1 as <- _).
  assert (env_inv (w_env w1)) as Hi1 by (injection H1 as <- _; by apply env_ticked).
  apply bind_ok in H as (found & w2 & H2 & H). destruct found as [l0|]; [|done].
  apply nvme_lookup_ok in H2 as (S2 & Ho & _); [|done]. apply bind_ok in H as (loc & w3 & (H3 & D3 & T3)%db_ok & H).
  destruct loc as [l|]; [|done]. pose proof (idle_trans _ _ _ S1 S2) as (D & T & S).
  pose proof (steady_lookup_acquire NVME k NVME (w_store w2)) as Hs. rewrite H3 in Hs. cbn in Hs.
  rewrite S in H3, Hs. destruct (acquire_ok k _ _ l (env_store_inv _ Hi) H3) as (Ho' & row & d & Hr & Ha & Hj & ->).
  assert (exists row3, nv_row k w3 = Some row3 /\ r_metadata_json row3 = r_metadata_json row) as (row3 & Hr3 & Hj3).
  { destruct Hs as [_ Hs]. specialize (Hs (block_hash k, namespace k)). change (_, _, NVME) with (row_key k NVME) in Hs. cbn [fst] in Hs.
    rewrite Hr in Hs. destruct (nv_row k w3) as [row3|]; [|done]. injection Hs as _ _ _ Hj3 _. by exists row3. }
  apply try_finally_ok in H as (w4 & H4 & u & S5%finish_ok).
  destruct (nvme_checked_load_ok _ _ _ _ _ _ row3 H4 Hr3) as (S4 & h & m & t & f & now & now' & Hck & Hm & Ht & Hf & Hrd). rewrite Hj3 in Hck.
  split_and!; [|done|].
  - eapply load_trans; [|eapply load_trans; [exact S4|by apply calm_load]]. split_and!; [congruence..|done].
  - exists row, d, h, m, t, f, now, now'. split_and!; try done. by rewrite <- D, <- D3.
Qed.

(** ** Loads on a sound disk *)

Lemma header_checksum_of mode m n h c : header_of mode m n h -> md_checksum m = PStr c -> header_checksum h = c.
Proof using. intros Hh Hc. unfold header_checksum. by rewrite (ho_sum _ _ _ _ Hh), Hc. Qed.

(** The metadata in the header is what was stored. *)
Lemma placed_payload d k r t m b data :
  placed_as self d k r t m b data ->
  set_payload (norm_metadata fmt_compact m) (sha256_hex data) (zlen data) = norm_metadata fmt_compact m.
Proof using. intros Hp. apply set_payload_id; [apply (pl_sum _ _ _ _ _ _ _ _ Hp)|apply (pl_written _ _ _ _ _ _ _ _ Hp)]. Qed.

(** What a load returns is the record of the row. *)
Lemma load_disk k w w' r :
  linked (disk_inv self) w -> load self k w = (w', Ok r) ->
  load_step w w' /\ _closed (w_store w) = false /\ key_valid k = true /\ lr_key r = k /\ lr_tier r = NVME /\
  exists row t m b p, nv_row k w = Some row /\ r_state row = active /\ placed_as self (w_dev w) k row t m b (lr_data r) /\
    lr_metadata r = copy_access (norm_metadata fmt_compact m) p.
Proof using Hok.
  intros Hw H. pose proof Hw as [Hi Hd].
  destruct (nvme_load_ok k w w' r Hi H) as (S & Ho & row & d & h & m & t & f & now & now' & Hr & Ha & [(Hk & Ht' & Hmk) Hsz Hsm (p & Hmd & _) _] & Hm & Ht & Hf & Hrd).
  destruct (visible_target k row (row_location k NVME row d) t w Hw Hr Ha eq_refl Ht) as (k0 & m0 & b & data & Hk0 & Ek & Hp).
  destruct (read_held _ _ _ _ _ _ _ _ _ _ _ (pl_target _ _ _ _ _ _ _ _ Hp) (pl_holds _ _ _ _ _ _ _ _ Hp) (pl_written _ _ _ _ _ _ _ _ Hp) Hf Hrd) as [Edata Hh]; subst data.
  rewrite (ho_metadata _ _ _ _ Hh) in Hm. injection Hm as <-. rewrite (placed_payload _ _ _ _ _ _ _ Hp) in Hmd.
  assert (k0 = k) as -> by (rewrite <- Hmk; symmetry; apply (pl_key _ _ _ _ _ _ _ _ Hp)).
  split_and!; try done. exists row, t, m0, b, p. done.
Qed.

(** The record of a visible row passes every check. *)
Lemma validate_placed k r d h t m b data w :
  key_valid k = true -> placed_as self (w_dev w) k r t m b data -> header_of (layout_mode self) m (zlen data) h ->
  _validate_loaded_record self k (row_location k NVME r d) h data (norm_metadata fmt_compact m) = Ok tt.
Proof using Hok.
  intros Hk Hp Hh. unfold _validate_loaded_record. rewrite (row_location_target k r d w t m b data Hk Hp). cbn [res_bind]. cbv zeta.
  rewrite (ho_mode _ _ _ _ Hh).
  assert (layout_mode self = match t with inr _ => segment | inl _ => content_addressed end) as Hm.
  { pose proof (pl_target _ _ _ _ _ _ _ _ Hp) as Ht. destruct t; apply Ht. }
  cbn [py_eq]. rewrite (bool_decide_eq_true_2 (layout_mode self = _)) by done. cbn [ensure res_bind].
  rewrite (bool_decide_eq_true_2 (md_key _ = k)) by apply (pl_key _ _ _ _ _ _ _ _ Hp). cbn [ensure res_bind row_location loc_bytes loc_checksum].
  destruct (pl_row _ _ _ _ _ _ _ _ Hp) as [E1 E2]. rewrite E1, E2, (ho_size _ _ _ _ Hh), Z.eqb_refl. cbn [andb ensure res_bind].
  rewrite (header_checksum_of _ _ _ _ _ Hh (pl_sum _ _ _ _ _ _ _ _ Hp)). by rewrite bool_decide_eq_true_2.
Qed.

(** The locked part of a load, for the location [r0] had when it was acquired. *)
Lemma checked_load_visible start k d w r r0 t m b data :
  env_inv (w_env w) -> key_valid k = true -> _closed (w_store w) = false ->
  nv_row k w = Some r -> r_state r = active -> row_core r = row_core r0 ->
  placed_as self (w_dev w) k r0 t m b data -> fs_faults (w_dev w) (fs_calls (w_dev w)) = None ->
  exists w' lr, checked_load self start k (row_location k NVME r0 d) w = (w', Ok lr) /\ lr_data lr = data /\
    load_step w w'.
Proof using Hok.
  intros Hi Hk Ho Hr Ha Hc Hp Hn. destruct (pl_desc _ _ _ _ _ _ _ _ Hp) as (p & Hmd & Hdesc).
  assert (row_md r p) as Hmd' by (eapply row_md_json; [|exact Hmd]; by injection Hc).
  pose proof (row_key_of_metadata k _ r p (env_store_inv _ Hi) Hk Hr Hmd') as Hpk.
  destruct (read_location_run (row_location k NVME r0 d) w k t m b data) as (w4 & h & E4 & Hh & S4); try done;
    [apply Hi|apply (pl_target _ _ _ _ _ _ _ _ Hp)|by eapply row_location_target|apply (pl_holds _ _ _ _ _ _ _ _ Hp)|apply (pl_written _ _ _ _ _ _ _ _ Hp)|].
  pose proof (header_checksum_of _ _ _ _ _ Hh (pl_sum _ _ _ _ _ _ _ _ Hp)) as Hsum.
  assert (clock_ok (w_env w4)) as Hc4 by (destruct S4 as (_ & _ & T4 & _); unfold clock_ok; rewrite T4; apply Hi).
  destruct (time_idle w4 Hc4) as (now & w5 & E5 & S5 & _).
  pose proof S4 as (_ & _ & T4 & Q4). pose proof S5 as (_ & T5 & Q5). rewrite Q4 in Q5. rewrite T4 in T5.
  destruct (verify_run NVME start k h data (norm_metadata fmt_compact m) w5 r p) as (w6 & lr & E6 & S6 & Hlr); rewrite ?Q5; try done.
  { split; [unfold clock_ok; rewrite T5; apply Hi|rewrite Q5; apply Hi]. }
  { by rewrite Hsum, (placed_payload _ _ _ _ _ _ _ Hp). }
  exists w6, lr. split_and!; [|done|].
  - unfold checked_load. rewrite (bind_run _ _ _ _ _ E4), (bind_run _ _ _ _ _ E5).
    unfold bind at 1, lift at 1. rewrite (ho_metadata _ _ _ _ Hh). unfold bind at 1, lift at 1.
    by rewrite (validate_placed k r0 d h t m b data w Hk Hp Hh), E6.
  - eapply load_trans; [by apply read_load|]. eapply load_trans; apply calm_load; [by apply idle_calm|exact S6].
Qed.

(** The load of a visible block reaches its locked part. *)
Lemma load_opens k w r data :
  linked (disk_inv self) w -> key_valid k = true -> _closed (w_store w) = false ->
  nv_row k w = Some r -> r_state r = active -> placed self (w_dev w) k r data ->
  exists start w3 d, load self k w =
    try_finally (checked_load self start k (row_location k NVME r d)) (finish_load NVME (evict self) (str "corrupt file location remains active") k) w3 /\
    env_inv (w_env w3) /\ _closed (w_store w3) = false /\ nv_row k w3 = Some (acquire_row (_owner_epoch (w_store w)) r) /\
    w_dev w3 = w_dev w /\ load_step w w3.
Proof using Hok.
  intros Hw Hk Ho Hr Ha Hp. unfold load.
  destruct (perf_idle w) as (start & w1 & E1 & S1). rewrite (bind_run _ _ _ _ _ E1).
  assert (linked (disk_inv self) w1) as Hw1.
  { pose proof (linked_perf (disk_inv self) w Hw) as H1. by rewrite E1 in H1. }
  destruct S1 as (D1 & T1 & S1). pose proof Hr as Hr1. pose proof Ho as Ho1. rewrite <- S1 in Hr1, Ho1.
  destruct (lookup_visible k w1 r Hw1 Hk Ho1 Hr1 Ha) as (w2 & d & E2 & _ & D2 & T2 & S2). rewrite (bind_run _ _ _ _ _ E2).
  pose proof Hw1 as [Hi1 _]. assert (store_inv (w_store w2)) as Hi2 by (rewrite S2; apply Hi1). rewrite <- S2 in Hr1, Ho1.
  destruct (acquire_open_run k _ r Hi2 Ho1 Hr1 Ha) as (d' & _ & Hacq).
  destruct (db_run (D := Fs) _ _ _ _ Hacq) as (w3 & E3 & S3 & D3 & T3). rewrite (bind_run _ _ _ _ _ E3).
  exists start, w3, d'. split; [done|]. assert (w_store w2 = w_store w) as Sw by congruence. rewrite <- Sw. split_and!.
  - split; [unfold clock_ok; rewrite T3, T2; apply Hi1|]. rewrite S3.
    pose proof (quiet_safe NVME _ (quiet_lookup_acquire NVME k NVME) _ Hi2) as H3. by rewrite Hacq in H3.
  - by rewrite S3.
  - rewrite S3. apply put_row_lookup.
  - congruence.
  - split_and!; [congruence..|]. rewrite S3, <- S1, <- S2. by eapply steady_put.
Qed.

(** A visible block loads, unless its read fails. *)
Lemma load_visible k w r data :
  linked (disk_inv self) w -> key_valid k = true -> _closed (w_store w) = false ->
  nv_row k w = Some r -> r_state r = active -> placed self (w_dev w) k r data ->
  fs_faults (w_dev w) (fs_calls (w_dev w)) = None ->
  exists w' lr, load self k w = (w', Ok lr) /\ lr_data lr = data /\ load_step w w'.
Proof using Hok.
  intros Hw Hk Ho Hr Ha Hp Hn. destruct (load_opens k w r data Hw Hk Ho Hr Ha Hp) as (start & w3 & d & E & Hi3 & Ho3 & Hr3 & D3 & S3).
  destruct Hp as (t & m & b & Hp). rewrite <- D3 in Hp, Hn.
  destruct (checked_load_visible start k d w3 (acquire_row (_owner_epoch (w_store w)) r) r t m b data)
    as (w6 & lr & E6 & Hlr & S6); try done.
  destruct (finish_run NVME (evict self) (str "corrupt file location remains active") k lr w6) as (w7 & E7 & S7).
  { destruct S6 as (_ & _ & _ & [C6 _]). by rewrite C6. }
  exists w7, lr. split_and!; [|done|].
  - rewrite E. unfold try_finally. by rewrite E6, E7.
  - eapply load_trans; [exact S3|]. eapply load_trans; [exact S6|]. by apply calm_load.
Qed.

(** A read that fails: the load raises its error and the block stays. *)
Lemma load_read_fails k w r data f :
  linked (disk_inv self) w -> key_valid k = true -> _closed (w_store w) = false ->
  nv_row k w = Some r -> r_state r = active -> placed self (w_dev w) k r data ->
  fs_faults (w_dev w) (fs_calls (w_dev w)) = Some f -> is_a (fault_exn f) CorruptionDetected = false ->
  exists w', load self k w = (w', Raise (fault_exn f)) /\ load_step w w'.
Proof using Hok.
  intros Hw Hk Ho Hr Ha Hp Hf Hno. destruct (load_opens k w r data Hw Hk Ho Hr Ha Hp) as (start & w3 & d & E & Hi3 & Ho3 & Hr3 & D3 & S3).
  destruct Hp as (t & m & b & Hp). rewrite <- D3 in Hp, Hf.
  destruct (read_location_fails (row_location k NVME r d) w3 t f) as (w4 & E4 & S4); [apply Hi3|by eapply row_location_target|done|].
  assert (checked_load self start k (row_location k NVME r d) w3 = (w4, Raise (fault_exn f))) as E6
    by (unfold checked_load; by rewrite (bind_raise _ _ _ _ _ E4)).
  destruct (finish_calm NVME (evict self) (str "corrupt file location remains active") k (Raise (fault_exn f)) w4) as (w7 & E7 & S7);
    [destruct S4 as (_ & _ & _ & ->); done|done|].
  exists w7. split.
  - rewrite E. unfold try_finally. by rewrite E6, E7.
  - eapply load_trans; [exact S3|]. eapply load_trans; [by apply read_load|]. by apply calm_load.
Qed.
End Load.
