(* ===== verification/NvmeStoreFacts.v ===== *)
(** * The budget of the NVMe tier, and what its stores leave behind

    Every round of [_ensure_capacity] that does not leave the loop removes a row, so the
    bound on its rounds is never reached; when it returns, the incoming block fits beside
    the visible ones. A store that returns has published the block with its payload on
    the disk; a store that raises, at whichever step, has published nothing. Both keep
    the disk invariant. *)

From Stdlib Require Import SpecFloat.
From S2P Require Import Prelude PyText Sha256 Float64 Errors PyVal Json JsonFacts Metadata MetadataFacts MetadataStore MetadataStoreFacts MetadataStoreSpec Metrics Runtime MemoryTier MemoryTierFacts Layout Record Url UrlFacts FileSystem FileSystemFacts World WorldFacts NvmeTier NvmeTierFacts NvmeWriteFacts NvmeLoadFacts.
Import MNotations ResNotations.
Local Open Scope m_scope.

(** ** The bytes of a tier *)

Section Sum.
Context (t : TierName).

Definition counted (rk : RowKey) (r : Row) : Z :=
  if bool_decide (rk.2 = t) && is_active r then r_bytes r else 0.

Definition list_bytes (l : list (RowKey * Row)) : Z := foldr (fun kr a => counted kr.1 kr.2 + a) 0 l.

Lemma sum_bytes_list b : sum_bytes t b = list_bytes (map_to_list b).
Proof.
  unfold sum_bytes, list_bytes, tier_rows, counted. induction (map_to_list b) as [|[rk r] l IH]; [done|]. cbn [foldr fst snd].
  destruct (bool_decide_reflect (rk.2 = t)) as [Ht|Ht]; [destruct (is_active r) eqn:Ha|].
  - rewrite filter_cons_True by done. cbn. lia.
  - rewrite filter_cons_False by (cbn; rewrite Ha; naive_solver). cbn. lia.
  - rewrite filter_cons_False by naive_solver. cbn. lia.
Qed.

Lemma list_bytes_perm l l' : l ≡ₚ l' -> list_bytes l = list_bytes l'.
Proof. unfold list_bytes. induction 1; simpl; lia. Qed.

Lemma sum_bytes_delete b rk r : b !! rk = Some r -> sum_bytes t b = counted rk r + sum_bytes t (base.delete rk b).
Proof. intros Hr. rewrite !sum_bytes_list, <- (list_bytes_perm _ _ (map_to_list_delete b rk r Hr)). done. Qed.

Lemma sum_bytes_insert b rk r : b !! rk = None -> sum_bytes t (<[rk := r]> b) = counted rk r + sum_bytes t b.
Proof. intros Hr. rewrite !sum_bytes_list, (list_bytes_perm _ _ (map_to_list_insert b rk r Hr)). done. Qed.

(** Publishing nothing frees or keeps bytes. *)
Lemma sum_bytes_shrinks b b' :
  (forall id r, b !! (id, t) = Some r -> 0 <= r_bytes r) -> shrinks t b b' -> sum_bytes t b' <= sum_bytes t b.
Proof.
  revert b. induction b' as [|rk r' b' Hrk IH] using map_ind; intros b Hb Hs.
  - clear Hs. rewrite sum_bytes_list, (sum_bytes_list b), map_to_list_empty. unfold list_bytes at 1. cbn.
    assert (forall kr, kr ∈ map_to_list b -> 0 <= counted kr.1 kr.2) as Hc.
    { intros [[id t'] r] Hin%elem_of_map_to_list. unfold counted. simpl. destruct (bool_decide_reflect (t' = t)) as [->|]; simpl; [|lia].
      destruct (is_active r); [by eapply Hb|lia]. }
    induction (map_to_list b) as [|kr l IH]; simpl; [lia|]. assert (0 <= counted kr.1 kr.2) by (apply Hc; by left).
    assert (0 <= list_bytes l) by (apply IH; intros ? ?; apply Hc; by right). unfold list_bytes in *. lia.
  - rewrite sum_bytes_insert by done. destruct rk as [id t']. destruct (decide (t' = t)) as [->|Hne].
    + destruct (Hs id r' (lookup_insert_eq _ _ _)) as (r & Hr & Ha & Hc & _). rewrite (sum_bytes_delete b _ r Hr).
      assert (counted (id, t) r' <= counted (id, t) r) as Hle.
      { unfold counted. simpl. rewrite bool_decide_eq_true_2 by done. simpl. injection Hc as _ Ec _ _.
        destruct (is_active r') eqn:E1, (is_active r) eqn:E2; try (rewrite ?Ec; specialize (Hb _ _ Hr); lia).
        apply is_active_true, Ha, is_active_true in E1. congruence. }
      assert (sum_bytes t b' <= sum_bytes t (base.delete (id, t) b)) as Hle2; [|lia]. apply IH.
      * intros id0 r0 [_ H0]%lookup_delete_Some. by eapply Hb.
      * intros id0 r0 H0. assert ((id0, t) <> (id, t)) as Hn by (intros [= ->]; congruence).
        destruct (Hs id0 r0) as (r1 & H1 & H2); [by rewrite lookup_insert_ne|]. exists r1.
        by rewrite lookup_delete_ne.
    + assert (counted (id, t') r' = 0) as ->.
      { unfold counted. simpl. by rewrite bool_decide_eq_false_2. }
      assert (sum_bytes t b' <= sum_bytes t b); [|lia]. apply IH; [done|].
      intros id0 r0 H0. apply Hs. rewrite lookup_insert_ne by congruence. done.
Qed.
End Sum.

Section Capacity.
Context `{U : UnicodeData} (self : NVMeTier).
Abbreviation w_store w := (env_store (w_env w)).
Abbreviation w_rows w := (ms_blocks (w_store w)).

(** ** One eviction *)

Lemma evict_two_phase k w :
  evict self k w = two_phase (t := NVME) tombstone_lost (fun l =>
    let* target := lift (_validated_location_target self l) in
    match target with inr _ => ret tt | inl p => on_dev (on_missing (unlink p) (ret tt)) end) k w.
Proof using.
  unfold evict, two_phase, bind. destruct (db mutation w) as [w1 [[]|e]]; [|done].
  destruct (db (begin_delete k NVME) w1) as [w2 [[l|]|e]]; [|done|done]. unfold lift.
  destruct (_validated_location_target self l) as [[p|ref]|e]; [|done|done].
  by destruct (on_dev (on_missing (unlink p) (ret tt)) w2) as [w3 [[]|e]].
Qed.

(** An eviction that succeeds removes the row; one that is refused changes no row. *)
Lemma nvme_evict_ok k w w' b :
  env_inv (w_env w) -> evict self k w = (w', Ok b) ->
  (b = true /\ w_rows w' = base.delete (row_key k NVME) (w_rows w) /\ is_Some (w_rows w !! row_key k NVME)) \/
  (b = false /\ w_rows w' = w_rows w).
Proof using.
  intros Hi. rewrite evict_two_phase. apply two_phase_ok; [|done]. intros l w0 w1 u H.
  apply bind_ok in H as (target & w3 & [= <- Ht] & H4). destruct target as [p|ref]; [|by injection H4 as <-].
  unfold on_dev, zoom in H4. destruct (on_missing _ _ _). by injection H4 as <- _.
Qed.

Lemma evict_inv k w : env_inv (w_env w) -> env_inv (w_env (evict self k w).1).
Proof using.
  intros Hi. assert (preserves (linked (fun _ _ => True)) (evict self k)) as Hp.
  { assert (forall p, preserves (linked (fun (_ : MetadataStore) (_ : Fs) => True)) (on_dev (on_missing (unlink p) (ret tt)))) as Hd
      by (intros p; by apply linked_dev).
    assert (forall (s s' : MetadataStore) (d : Fs), shrinks NVME (ms_blocks s) (ms_blocks s') -> True -> True) as Hs by done.
    unfold evict. linked. }
  by apply (Hp w).
Qed.

(** ** One round *)

Definition listed (w : World Fs) (ls : list BlockLocation) : Prop :=
  Forall (fun l => exists r, w_rows w !! row_key (loc_key l) NVME = Some r /\ r_state r = active /\ r_bytes r = loc_bytes l) ls.

(** A round that evicts a candidate removes its row and returns its bytes. *)
Lemma evict_candidate_ok x ls w w' o :
  env_inv (w_env w) -> listed w ls -> evict_candidate self x ls w = (w', Ok o) ->
  env_inv (w_env w') /\
  match o with
  | Some n => exists k r, w_rows w !! row_key k NVME = Some r /\ r_state r = active /\ r_bytes r = n /\
      w_rows w' = base.delete (row_key k NVME) (w_rows w)
  | None => w_rows w' = w_rows w
  end.
Proof using.
  revert w. induction ls as [|l ls IH]; intros w Hi Hl H; simpl in H; [by injection H as <- <-|].
  apply Forall_cons in Hl as [(r & Hr & Ha & Hb) Hl]. case_bool_decide; [by apply IH|].
  apply bind_ok in H as (b & w1 & H1 & H). pose proof (evict_inv (loc_key l) w Hi) as Hi1. rewrite H1 in Hi1. cbn in Hi1.
  apply nvme_evict_ok in H1 as [(-> & E & _)|(-> & E)]; [| |done].
  - injection H as <- <-. split; [done|]. exists (loc_key l), r. done.
  - assert (listed w1 ls) as Hl1 by (unfold listed; by rewrite E).
    destruct (IH w1 Hi1 Hl1 H) as [Hi' Ho]. split; [done|]. rewrite E in Ho. done.
Qed.

Lemma candidates_listed w w' ls :
  env_inv (w_env w) -> db_at (fun now => lru_candidates now NVME 16) w = (w', Ok ls) ->
  env_inv (w_env w') /\ w_rows w' = w_rows w /\ listed w' ls.
Proof using.
  intros Hi (now & _ & H & D & T)%db_at_ok. pose proof (env_store_inv _ Hi) as Hs.
  unfold lru_candidates in H. apply bind_ok in H as ([] & s1 & H1 & H). rewrite execute_eq in H1.
  destruct (_closed (w_store w)) eqn:Ho; [done|]. injection H1 as <-.
  apply bind_ok in H as (ep & s2 & [= <- <-] & H). apply bind_ok in H as (b & s3 & [= <- <-] & [= E H]).
  split_and!; [split; [unfold clock_ok; rewrite T; apply Hi|by rewrite <- E]|by rewrite <- E|].
  unfold listed. rewrite <- E. clear E D T w'. revert ls H.
  assert (forall kr, kr ∈ lru_rows (_owner_epoch (w_store w)) NVME 16 (w_rows w) -> eligible (w_store w) NVME kr) as Hel.
  { intros kr Hkr. apply tier_rows_elem; [done|]. unfold lru_rows in Hkr.
    destruct (sql_limit_app 16 (py_sort access_leb (tier_rows (idle (_owner_epoch (w_store w))) NVME (w_rows w)))) as [rest E].
    apply (py_sort_elem access_leb). rewrite E. apply elem_of_app. by left. }
  induction (lru_rows _ _ _ _) as [|kr krs IH]; intros ls H; simpl in H; [injection H as <-; constructor|].
  apply res_bind_ok in H as (l & Hl & (ls' & Hls & ->)%res_map_ok). constructor; [|apply IH; [|done]; intros; apply Hel; by right].
  destruct (Hel kr) as (E1 & E2 & E3 & _); [by left|].
  destruct (scanned_location_ok now (w_store w) NVME kr Hs E1 E2) as (l' & Hl' & E4 & _ & E5). rewrite Hl in Hl'. injection Hl' as <-.
  exists kr.2. assert (loc_tier l = NVME) as Et by (rewrite <- E2, <- E4; done). rewrite Et in E4. rewrite E4. done.
Qed.

(** ** The loop *)

Lemma free_space_S fuel n x current :
  free_space self (S fuel) n x current =
  if current + n <=? nv_max_bytes self then ret tt
  else let* candidates := db_at (fun now => lru_candidates now NVME 16) in
       let* evicted := evict_candidate self x candidates in
       match evicted with
       | Some m => free_space self fuel n x (current - m)
       | None => raise no_candidates
       end.
Proof using. done. Qed.

(** The bound on the number of rounds is never reached. *)
Lemma free_space_bound fuel extra n x current w :
  env_inv (w_env w) -> (size (w_rows w) < fuel)%nat ->
  free_space self (fuel + extra) n x current w = free_space self fuel n x current w.
Proof using.
  revert current w. induction fuel as [|fuel IH]; intros current w Hi Hf; [lia|]. cbn [Nat.add]. rewrite !free_space_S.
  destruct (_ <=? _); [done|]. unfold bind at 1 3.
  destruct (db_at (fun now => lru_candidates now NVME 16) w) as [w1 [ls|e]] eqn:E1; [|done].
  destruct (candidates_listed w w1 ls Hi E1) as (Hi1 & Er & Hl). unfold bind.
  destruct (evict_candidate self x ls w1) as [w2 [[m|]|e]] eqn:E2; [|done|done].
  destruct (evict_candidate_ok x ls w1 w2 (Some m) Hi1 Hl E2) as (Hi2 & k & r & Hr & _ & _ & Ed).
  apply IH; [done|]. rewrite Ed, map_size_delete, Hr, Er. rewrite Er in Hr.
  assert (size (w_rows w) <> 0%nat); [|lia]. rewrite map_size_ne_0_lookup. eauto.
Qed.

(** When the loop returns, the incoming bytes fit. *)
Lemma free_space_fits fuel n x current w w' u :
  env_inv (w_env w) -> sum_bytes NVME (w_rows w) <= current ->
  free_space self fuel n x current w = (w', Ok u) -> sum_bytes NVME (w_rows w') + n <= nv_max_bytes self.
Proof using.
  revert current w. induction fuel as [|fuel IH]; intros current w Hi Hs H.
  - simpl in H. destruct (Z.leb_spec (current + n) (nv_max_bytes self)); [|done]. injection H as <- _. lia.
  - rewrite free_space_S in H. destruct (Z.leb_spec (current + n) (nv_max_bytes self)); [injection H as <- _; lia|].
    apply bind_ok in H as (ls & w1 & H1 & H). destruct (candidates_listed w w1 ls Hi H1) as (Hi1 & Er & Hl).
    apply bind_ok in H as (o & w2 & H2 & H). destruct (evict_candidate_ok x ls w1 w2 o Hi1 Hl H2) as (Hi2 & Ho).
    destruct o as [m|]; [|done]. destruct Ho as (k & r & Hr & Ha & Hb & Ed). eapply IH; [done| |exact H].
    rewrite Ed. rewrite Er in Hr |- *. rewrite (sum_bytes_delete NVME _ _ _ Hr) in Hs.
    unfold counted in Hs. rewrite bool_decide_eq_true_2 in Hs by done.
    assert (is_active r = true) as E by by apply is_active_true. rewrite E in Hs. simpl in Hs. lia.
Qed.

Lemma sum_bytes_put b k r n :
  r_bytes r = n -> 0 <= n -> sum_bytes NVME (<[row_key k NVME := r]> b) <= n + sum_bytes NVME (base.delete (row_key k NVME) b).
Proof using.
  intros Hr Hn. rewrite <- insert_delete_eq, sum_bytes_insert by apply lookup_delete_eq.
  unfold counted. destruct (_ && _); lia.
Qed.

Lemma sum_bytes_delete_le b k : (forall id r, b !! (id, NVME) = Some r -> 0 <= r_bytes r) ->
  sum_bytes NVME (base.delete (row_key k NVME) b) <= sum_bytes NVME b.
Proof using.
  intros Hb. apply sum_bytes_shrinks; [done|]. intros id r [_ Hr]%lookup_delete_Some. eauto.
Qed.

Lemma rows_nonneg s id r : store_inv s -> ms_blocks s !! (id, NVME) = Some r -> 0 <= r_bytes r.
Proof using. intros Hs Hr. apply (ro_bytes _ _ _ (inv_rows s Hs _ _ Hr)). Qed.

(** ** _ensure_capacity *)

Lemma bytes_used_ok s s' n : bytes_used NVME s = (s', Ok n) -> s' = s /\ n = sum_bytes NVME (ms_blocks s).
Proof using.
  unfold bytes_used, bind at 1. rewrite execute_eq. destruct (_closed s); [done|]. unfold bind, gets.
  destruct (_ && _); [|done]. by intros [= <- <-].
Qed.

(** After room was made for a block that is not visible, it fits. *)
Lemma ensure_capacity_fits n k w w' u :
  nvme_ok self -> linked (disk_inv self) w -> hidden k NVME (w_store w) ->
  _ensure_capacity self n k w = (w', Ok u) -> sum_bytes NVME (w_rows w') + n <= nv_max_bytes self.
Proof using.
  intros Hok Hw Hh H. unfold _ensure_capacity in H.
  apply bind_ok in H as (current & w1 & H1 & H). 
  pose proof (linked_db NVME (disk_inv self) (fun s s' d => disk_shrinks self s s' d) _ (quiet_bytes_used NVME NVME) w Hw) as Hw1.
  rewrite H1 in Hw1. cbn in Hw1. apply db_ok in H1 as ([E1 ->]%bytes_used_ok & D1 & T1).
  apply bind_ok in H as (existing & w2 & H2 & H). destruct existing as [l|].
  - exfalso. apply nvme_lookup_ok in H2 as (_ & _ & r & d & Hr & Ha & _); [|apply Hw1]. rewrite E1 in Hr. by apply (Hh r Hr).
  - apply lookup_missing in H2 as [_ (D2 & T2 & S2)]; [|done|done]. apply bind_ok in H as (rows & w3 & [= <- <-] & H).
    eapply free_space_fits; [|rewrite S2, E1; reflexivity|exact H].
    split; [unfold clock_ok; rewrite T2; apply Hw1|rewrite S2; apply Hw1].
Qed.
End Capacity.

Section Store.
Context `{U : UnicodeData} (self : NVMeTier) (Hok : nvme_ok self).
Abbreviation w_store w := (env_store (w_env w)).
Abbreviation nv_row k w := (ms_blocks (w_store w) !! row_key k NVME).
Context (b0 : gmap RowKey Row) (b0_nonneg : forall id r, b0 !! (id, NVME) = Some r -> 0 <= r_bytes r).

Context (A0 : BlockKey -> pybytes -> Prop).

(** Nothing was published since the rows were [b0], with the payloads [A0]. *)
Definition unpublished (s : MetadataStore) (d : Fs) : Prop := shrinks NVME b0 (ms_blocks s) /\ within self A0 s d.

Lemma unpublished_stable : stable self unpublished.
Proof using Hok U.
  apply stable_and; [|by apply stable_within]. apply (stable_rows self (fun s => shrinks NVME b0 (ms_blocks s))).
  intros s s' H1 H2. by eapply shrinks_trans.
Qed.

(** The visible blocks are within the budget. *)
Definition fits (b : gmap RowKey Row) : Prop := sum_bytes NVME b <= nv_max_bytes self.

(** The state after a store of [data] under [k]. *)
Definition store_post (k : BlockKey) (data : pybytes) (w : World Fs) (ok : bool) : Prop :=
  if ok then linked (disk_inv self) w /\ _closed (w_store w) = false /\
             (exists r, nv_row k w = Some r /\ r_state r = active /\ placed self (w_dev w) k r data) /\
             (fits b0 -> fits (ms_blocks (w_store w))) /\
             within self (fun k' data' => (k' = k /\ data' = data) \/ A0 k' data') (w_store w) (w_dev w)
  else linked (disk_with self unpublished) w.

(** The commit of a location whose record is on the disk. *)
Lemma commit_post k data m l w :
  linked (disk_with self unpublished) w -> key_valid k = true -> loc_key l = k -> publishable self (w_dev w) l m data ->
  (forall r, r_bytes r = zlen data -> fits b0 -> fits (<[row_key k NVME := r]> (ms_blocks (w_store w)))) ->
  wp (db_at (fun now => upsert now l m)) (fun r w' => store_post k data w' (is_ok r)) w.
Proof using Hok U.
  intros (Hi & Hd & Hu) Hk Hlk Hp Hfit. unfold wp. destruct (db_at (fun now => upsert now l m) w) as [w' r] eqn:E.
  apply db_at_ok in E as (now & _ & E & D & T).
  assert (env_inv (w_env w')) as Hi'.
  { split; [unfold clock_ok; rewrite T; apply Hi|].
    pose proof (safe_upsert now l m (pb_storable _ _ _ _ _ Hp) (pb_location _ _ _ _ _ Hp) _ (env_store_inv _ Hi)) as H.
    by rewrite E in H. }
  assert (linked (disk_inv self) w') as Hw'.
  { split; [done|]. rewrite D. rewrite <- Hlk in Hk.
    pose proof (disk_upsert self now l m _ _ data Hk (env_store_inv _ Hi) Hp Hd) as H. by rewrite E in H. }
  destruct r as [[]|e]; cbn.
  - destruct (publishable_row self _ _ _ _ _ _ _ (env_store_inv _ Hi) Hp E) as (_ & Ho & row & Hr & Ha & Hpl & Es).
    rewrite Hlk in Hr, Hpl, Es. split_and!; [done|done|exists row; by rewrite D| |].
    + rewrite Es, put_row_blocks. apply Hfit. destruct Hpl as (t & m0 & b & Hpl). apply (pl_row _ _ _ _ _ _ _ _ Hpl).
    + rewrite D. intros k' r' data' Hk' Hr' Ha' Hp'. destruct (decide (k' = k)) as [->|Hne].
      * left. split; [done|]. rewrite Hr in Hr'. injection Hr' as <-. by eapply placed_unique.
      * right. destruct Hu as [_ Hu]. eapply (Hu k' r'); try done. rewrite Es, put_row_blocks, lookup_insert_ne in Hr'; [done|].
        intros Ek. by apply row_key_inj in Ek.
  - destruct Hw' as [_ Hd']. split; [done|]. split; [done|].
    pose proof (upsert_raises now l m (w_store w)) as Hr. rewrite E in Hr. cbn in Hr. by rewrite Hr, D.
Qed.

Lemma with_inv R w : linked (disk_with self R) w -> linked (disk_inv self) w.
Proof using. intros (Hi & Hd & _). by split. Qed.

(** ** A new block *)

Definition unpublished_hidden (k : BlockKey) (s : MetadataStore) (d : Fs) : Prop := unpublished s d /\ hidden k NVME s.

Lemma unpublished_hidden_stable k : stable self (unpublished_hidden k).
Proof using Hok U. apply stable_and; [apply unpublished_stable|apply stable_hidden]. Qed.

Lemma with_weaken (R R' : MetadataStore -> Fs -> Prop) w :
  (forall s d, R s d -> R' s d) -> linked (disk_with self R) w -> linked (disk_with self R') w.
Proof using. intros H (Hi & Hd & HR). split; [done|]. split; [done|auto]. Qed.

Lemma publish_post k data m w :
  stamped (nv_max_bytes self) k data m -> linked (disk_with self (unpublished_hidden k)) w ->
  wp (publish self k data m (sha256_hex data)) (fun r w' => store_post k data w' (is_ok r)) w.
Proof using Hok.
  intros Hm Hw. pose proof (stamped_key _ _ _ _ Hm) as Hk.
  assert (forall w, linked (disk_with self (unpublished_hidden k)) w -> linked (disk_with self unpublished) w) as Hweak.
  { intros w0. apply with_weaken. by intros s d []. }
  unfold publish. apply wp_bind.
  pose proof (disk_capacity self Hok _ (unpublished_hidden_stable k) (zlen data) k w Hw) as Hw1.
  pose proof (fun w' => ensure_capacity_fits self (zlen data) k w w' tt Hok (with_inv _ _ Hw) (proj2 (proj2 (proj2 Hw)))) as Hroom.
  unfold wp. destruct (_ensure_capacity self (zlen data) k w) as [w1 [[]|e]]; cbn [fst snd] in *; [|by apply Hweak].
  specialize (Hroom w1 eq_refl).
  apply wp_bind. unfold wp, lift. destruct (to_dict m) as [d|e] eqn:Ed; cbn [fst snd]; [|by apply Hweak].
  apply wp_bind. unfold wp. destruct (encode_record_header _) as [b|e] eqn:Eb; cbn [fst snd]; [|by apply Hweak].
  destruct Hm as [Hs Hmk Hb Hc Hf Htx]. pose proof (written_self self Hok m d b data Hs Hb Hf Hc Ed Eb) as Hwr.
  destruct (disk_write self Hok _ k b data m (sha256_hex data) w1 (unpublished_hidden_stable k) Hk (fun s d H => proj2 H) Hw1) as [E2 Hw2].
  pose proof (write_block_ok self Hok k b data m m (sha256_hex data) w1) as Hloc. apply wp_bind. unfold wp.
  destruct (write_block self k b data m (sha256_hex data) w1) as [w2 [loc|e]]; cbn [fst snd] in *; [|by apply Hweak].
  destruct (Hloc w2 loc Hk (di_wf _ _ _ (proj1 (proj2 Hw1))) Hwr eq_refl) as (t & uri & -> & Ht & Hh).
  apply (commit_post k data m _ w2); [by apply Hweak|done|done| |].
  2: { intros r Hr _. rewrite E2. unfold fits. pose proof (sum_bytes_put (ms_blocks (w_store w1)) k r (zlen data) Hr ltac:(lia)).
    pose proof (sum_bytes_delete_le (ms_blocks (w_store w1)) k (fun id r => rows_nonneg _ id r (env_store_inv _ (proj1 Hw1)))). lia. }
  split; cbn [nvme_location loc_tier loc_bytes loc_checksum loc_key loc_uri]; [done|done|by apply device_location_ok|done|done|].
  exists t, m, b. split_and!; try done. rewrite norm_formats. apply descriptor_eqb_refl.
  by apply storable_descriptor_regular, storable_norm.
Qed.

(** ** A block that is already published *)

Lemma holds_files d d' t rec : fs_files d' = fs_files d -> holds d t rec -> holds d' t rec.
Proof using. intros E. unfold holds. by rewrite E. Qed.

Lemma refresh_post k data m r d w :
  stamped (nv_max_bytes self) k data m -> linked (disk_with self unpublished) w -> nv_row k w = Some r -> json_ok (PDict d) = true ->
  wp (refresh (load self) k data m (sha256_hex data) (row_location k NVME r d)) (fun r w' => store_post k data w' (is_ok r)) w.
Proof using Hok b0_nonneg.
  intros Hm Hw Hr Hj. pose proof (stamped_key _ _ _ _ Hm) as Hk. unfold refresh.
  eapply wp_step; [apply (disk_load self Hok _ unpublished_stable)|exact Hw|done|]. intros loaded w1 Hw1 E1.
  destruct (load_disk self Hok k w w1 loaded) as (S1 & Ho & _ & _ & _ & row & t & m0 & b & p & Hr' & Ha & Hp & Hmd).
  { destruct Hw as (Hi & Hd & _). by split. } { done. }
  rewrite Hr in Hr'. injection Hr' as <-. pose proof S1 as (F1 & _).
  eapply (wp_step (linked (disk_with self unpublished))); [apply preserves_when, preserves_raise|done|done|].
  intros [] w2 Hw2 [E2 ->]%when_raise_ok. apply negb_false_iff, bool_decide_eq_true in E2. subst data.
  eapply (wp_step (linked (disk_with self unpublished))); [apply preserves_when, preserves_raise|done|done|].
  intros [] w3 Hw3 [E3 ->]%when_raise_ok. apply negb_false_iff in E3. rewrite Hmd in E3.
  pose proof S1 as (_ & _ & _ & S3). destruct (steady_row NVME _ _ k r S3 Hr) as (r3 & Hr3 & Hc3 & Ha3).
  apply commit_post; [done|done|done| |].
  2: { intros r' Hr' Hfit. unfold fits in *. pose proof (sum_bytes_put (ms_blocks (w_store w1)) k r' _ Hr' ltac:(lia)) as H1.
    pose proof (sum_bytes_delete NVME _ _ _ Hr3) as H2. unfold counted in H2. rewrite bool_decide_eq_true_2 in H2 by done.
    assert (is_active r3 = true) as Ea by (apply is_active_true; congruence). rewrite Ea in H2. cbn [andb] in H2.
    injection Hc3 as _ Eb3 _ _. rewrite Eb3, (proj1 (pl_row _ _ _ _ _ _ _ _ Hp)) in H2.
    assert (sum_bytes NVME (ms_blocks (w_store w1)) <= sum_bytes NVME b0); [|lia].
    apply sum_bytes_shrinks; [exact b0_nonneg|]. apply Hw1. }
  destruct (pl_row _ _ _ _ _ _ _ _ Hp) as [Eb Ec]. destruct Hm as [Hs Hmk Hb Hc Hf Htx].
  split; [done|done|eapply refreshed_location_ok; try done; apply Hw|done|done|]. exists t, m0, b. split_and!.
  - apply (pl_target _ _ _ _ _ _ _ _ Hp).
  - eapply holds_files; [exact F1|]. apply (pl_holds _ _ _ _ _ _ _ _ Hp).
  - apply (pl_written _ _ _ _ _ _ _ _ Hp).
  - apply (pl_key _ _ _ _ _ _ _ _ Hp).
  - apply (pl_sum _ _ _ _ _ _ _ _ Hp).
  - pose proof (wr_md _ _ _ _ _ (pl_written _ _ _ _ _ _ _ _ Hp)) as Hs0.
    apply descriptor_eqb_sym; [by apply storable_descriptor_regular, storable_norm..|].
    apply descriptor_eqb_norm_r; [done|apply no_tuple_norm|done].
Qed.

(** ** store *)

Lemma store_post_idle k data w w' : idle_step w w' -> store_post k data w true -> store_post k data w' true.
Proof using.
  intros (D & T & S) ([Hi Hd] & Ho & Hr & Hf & Hin). unfold store_post, linked. rewrite D, S. split; [|by split_and!].
  split; [|done]. split; [unfold clock_ok; rewrite T; apply Hi|rewrite S; apply Hi].
Qed.

Lemma store_spec k data m w :
  input_ok m -> linked (disk_with self unpublished) w ->
  wp (store self k data m) (fun r w' => store_post k data w' (is_ok r) /\ (is_ok r = true -> md_key m = k)) w.
Proof using Hok b0_nonneg.
  intros Hin Hw. pose proof (disk_with_shrinks self _ unpublished_stable) as Hsh.
  set (I := linked (disk_with self unpublished)) in *.
  assert (forall e w', I w' -> store_post k data w' (is_ok (A := StoreResult) (Raise e)) /\ (is_ok (A := StoreResult) (Raise e) = true -> md_key m = k)) as Hraise by done.
  unfold store. eapply (wp_step I); [apply linked_perf|done|done|]. intros start w1 H1 _.
  eapply (wp_step I); [apply preserves_when, preserves_raise|done|done|]. intros [] w2 H2 [Ek _]%when_raise_ok. clear w1 H1.
  apply negb_false_iff, bool_decide_eq_true in Ek. cbv zeta.
  eapply (wp_step I); [by apply (linked_db NVME), quiet_mutation|done|done|]. intros _ w3 H3 _. clear w2 H2.
  eapply (wp_step I); [by apply (linked_db NVME), quiet_is_deleting|done|done|]. intros pending w4 H4 _. clear w3 H3.
  eapply (wp_step I); [apply preserves_when, preserves_raise|done|done|]. intros [] w5 H5 _. clear w4 H4.
  eapply (wp_step I); [apply preserves_when, preserves_raise|done|done|]. intros [] w6 H6 [Hfit _]%when_raise_ok. clear w5 H5.
  apply Z.ltb_ge in Hfit. apply wp_bind. destruct (time_idle w6 (env_clock _ (proj1 H6))) as (now & w7 & E7 & S7 & Hst & Hfl).
  pose proof (linked_time (disk_with self unpublished) w6 H6) as H7. unfold wp at 1. rewrite E7 in H7 |- *. cbn [fst snd] in *.
  eapply (wp_step I); [apply preserves_lift|done|done|]. intros [] w8 H8 [= _ Hv].
  pose proof (stamp_block_storable m _ _ now Hin Hfl Hv) as Hsm. set (m' := stamp_block m (sha256_hex data) (zlen data) now) in *.
  assert (stamped (nv_max_bytes self) k data m') as Hm' by (split; [done..|by exists now]). clear w7 E7 S7 H7.
  eapply (wp_step I); [apply (linked_db_at NVME); [done|]; intros; apply quiet_validate|done|done|]. intros [] w9 H9 _. clear w8 H8.
  eapply (wp_step I); [apply (disk_lookup self _ unpublished_stable)|done|done|]. intros existing w10 H10 E10.
  apply wp_bind. assert (wp (match existing with
    | Some l => refresh (load self) k data m' (sha256_hex data) l
    | None => publish self k data m' (sha256_hex data) end) (fun r w' => store_post k data w' (is_ok r)) w10) as Hbranch.
  { destruct existing as [l|].
    - destruct (nvme_lookup_ok self k w9 w10 l (proj1 H9) E10) as ((D & T & S) & _ & r & d & Hr & _ & Hj & -> & _).
      rewrite <- S in Hr. by apply refresh_post.
    - assert (linked (disk_inv self) w9) as H9' by (destruct H9 as (Hi & Hd & _); by split).
      destruct (lookup_missing self Hok k w9 w10 H9' E10) as [Hh (D & T & S)].
      apply publish_post; [done|]. destruct H10 as (Hi & Hd & Hu). split; [done|]. split; [done|]. split; [done|]. by rewrite S. }
  eapply wp_mono; [exact Hbranch|]. intros [[]|e] w11 Hpost; [|done].
  destruct (stored_run (t := NVME) start k data (sha256_hex data) w11) as (w12 & sr & E12 & S12). unfold wp. rewrite E12. cbn.
  split; [|done]. by eapply store_post_idle.
Qed.
End Store.
