(* ===== verification/NvmeCompaction.v ===== *)
(** * Statistics and segment compaction of the NVMe tier: [kvstore/nvme_tier.py]

    [compact_segments] copies the records of idle blocks to new segment files,
    commits their new locations one by one, and removes the files no published
    block refers to. Whichever system calls fail and wherever it stops, it keeps the disk
    invariant, the budget and every visible block with its checksum and size. *)

From Stdlib Require Import SpecFloat.
From S2P Require Import Prelude PyText Sha256 Float64 Errors PyVal Json JsonFacts Metadata MetadataFacts MetadataStore MetadataStoreFacts MetadataStoreSpec Metrics Runtime MemoryTier MemoryTierFacts Layout Record Url UrlFacts FileSystem FileSystemFacts World WorldFacts NvmeTier NvmeTierFacts NvmeWriteFacts NvmeLoadFacts NvmeStoreFacts.
Import MNotations ResNotations.
Local Open Scope m_scope.

Section Compaction.
Context `{UnicodeData} (self : NVMeTier).

(** ** Sizes *)

Definition payload_suffixes : list pystr := [str ".kv"; str ".kvseg"].

Definition physical_bytes (s : Fs) : Z :=
  if exists_path s (root_dir self) then
    foldr (fun p a => st_size s p + a) 0
      (List.filter (fun p => is_file s p && bool_decide (name_suffix (path_name p) ∈ payload_suffixes))
         (rglob s (root_dir self) (fun _ => true)))
  else 0.

Definition _physical_bytes : NW Z := dev_gets physical_bytes.

Definition stats : NW pyval :=
  let* used := db (MetadataStore.bytes_used NVME) in
  let* physical := _physical_bytes in
  ret (PDict [(str "tier", PStr (tier_value NVME)); (str "used_bytes", PInt used);
              (str "max_bytes", PInt (nv_max_bytes self)); (str "root_dir", PStr (path_text (root_dir self)));
              (str "fsync_on_store", PBool (fsync_on_store self)); (str "use_direct_io", PBool false);
              (str "layout_mode", PStr (layout_mode self));
              (str "segment_bytes", PInt (if is_segment self then segment_bytes self else 0));
              (str "physical_bytes", PInt physical)]).

(** ** Removing files *)

Definition segment_scheme (uri : pystr) : bool := starts_with (str "segment://") uri.

(** The segment files published blocks refer to; a location that cannot be
    validated stops the removal. *)
Definition referenced_paths (es : list (BlockLocation * KVMetadata * Z)) : res (list path) :=
  res_list (fun e : BlockLocation * KVMetadata * Z =>
      res_map ref_path
        (res_catch (_segment_ref_from_uri self (loc_uri e.1.1) (Some (loc_key e.1.1))) [ValueError]
           (fun x => Raise (err_from MetadataMismatch (str "invalid persisted segment location during compaction") x))))
    (List.filter (fun e : BlockLocation * KVMetadata * Z => segment_scheme (loc_uri e.1.1)) es).

Fixpoint remove_files (referenced : list path) (ps : list path) (removed removed_bytes : Z) : NW (Z * Z) :=
  match ps with
  | [] => ret (removed, removed_bytes)
  | p :: ps' =>
      if bool_decide (p ∈ referenced) then remove_files referenced ps' removed removed_bytes
      else
        let* gone := on_dev (on_missing
          (let* s := gets id in
           if exists_path s p then unlink p ;; ret (Some (st_size s p)) else raise no_such_file)
          (ret None)) in
        match gone with
        | Some n => remove_files referenced ps' (removed + 1) (removed_bytes + n)
        | None => remove_files referenced ps' removed removed_bytes
        end
  end.

Definition _remove_unreferenced_segment_files : NW (Z * Z) :=
  let* es := db_at (fun now => MetadataStore.tier_entries now NVME true) in
  let* referenced := lift (referenced_paths es) in
  let* s := dev_gets id in
  if negb (exists_path s (segment_root self)) then ret (0, 0)
  else remove_files referenced (rglob s (segment_root self) (name_matches [] (str ".kvseg"))) 0 0.

(** ** Moving records *)

(** [metadata.checksum = ...; metadata.bytes = ...; metadata.last_access = loc.last_access]. *)
Definition moved_metadata (m : KVMetadata) (checksum : pystr) (n : Z) (access : pyval) : KVMetadata :=
  let m := set_payload m checksum n in
  {| md_key := md_key m; md_dtype := md_dtype m; md_num_layers := md_num_layers m;
     md_num_kv_heads := md_num_kv_heads m; md_head_dim := md_head_dim m; md_tokens := md_tokens m;
     md_bytes := md_bytes m; md_shape := md_shape m; md_checksum := md_checksum m;
     md_checksum_algo := md_checksum_algo m; md_created_at := md_created_at m;
     md_last_access := access; md_reuse_count := md_reuse_count m; md_extra := md_extra m |}.

(** The record is appended to a new segment and its new place committed. *)
Definition rewrite_record (compaction_id : pystr) (l : BlockLocation) (h : list (pystr * pyval)) (payload : pybytes)
    (m : KVMetadata) : NW unit :=
  let* d := lift (to_dict m) in
  let* encoded_header := lift (encode_record_header (PDict (dict_set (str "metadata") d h))) in
  let* ref := _append_compacted_segment_record self (loc_key l) encoded_header payload compaction_id in
  let* new_loc := lift (_segment_location_for (loc_key l) ref (zlen payload) (header_checksum h)
                          (loc_created_at l) (loc_last_access l)) in
  db_at (fun now => MetadataStore.upsert now new_loc m).

(** The body of the loop, after [acquire]: [true] when the record was moved,
    [false] when the block was replaced meanwhile. *)
Definition move_record (compaction_id : pystr) (l : BlockLocation) (snapshot : KVMetadata) : NW bool :=
  let* current := db (MetadataStore.lookup (loc_key l) (Some NVME)) in
  if negb (match current with c :: _ => bool_decide (loc_uri c = loc_uri l) | [] => false end) then ret false
  else
    let* (h, payload) := _read_location self l in
    let* now := on_env time_time in
    let* header_metadata := lift (from_dict now (get_or_none (str "metadata") h)) in
    lift (res_catch (validate true snapshot) [ValueError]
            (fun e => Raise (err_from MetadataMismatch (block_hash (loc_key l)) e))) ;;
    when (negb (bool_decide (md_key header_metadata = loc_key l)) ||
          negb (descriptor_eqb (payload_descriptor header_metadata) (payload_descriptor snapshot)))
      (raise (err MetadataMismatch (block_hash (loc_key l)))) ;;
    when (negb (zlen payload =? payload_size h) || negb (verify_sha256 payload (header_checksum h)))
      (raise (err ChecksumMismatch (block_hash (loc_key l)))) ;;
    rewrite_record compaction_id l h payload
      (moved_metadata snapshot (header_checksum h) (zlen payload) (loc_last_access l)) ;;
    ret true.

Fixpoint move_records (compaction_id : pystr) (es : list (BlockLocation * KVMetadata)) (moved skipped : Z)
  : NW (Z * Z) :=
  match es with
  | [] => ret (moved, skipped)
  | (l, m) :: es' =>
      db (MetadataStore.acquire (loc_key l) NVME) ;;
      let* done_ := try_finally (move_record compaction_id l m) (fun _ => db (MetadataStore.release (loc_key l) NVME)) in
      if (done_ : bool) then move_records compaction_id es' (moved + 1) skipped
      else move_records compaction_id es' moved (skipped + 1)
  end.

(** The entries whose record is in a segment file. *)
Fixpoint existing_entries (es : list (BlockLocation * KVMetadata * Z)) : NW (list (BlockLocation * KVMetadata)) :=
  match es with
  | [] => ret []
  | (l, m, _) :: es' =>
      let* keep := if segment_scheme (loc_uri l) then _location_exists self l else ret false in
      let* rest := existing_entries es' in
      ret (if (keep : bool) then (l, m) :: rest else rest)
  end.

(** ** compact_segments *)

Definition skipped_report (dry_run : bool) : NW pyval :=
  let* logical := db (MetadataStore.bytes_used NVME) in
  let* physical := _physical_bytes in
  ret (PDict [(str "layout_mode", PStr (layout_mode self)); (str "dry_run", PBool dry_run);
              (str "status", PStr (str "skipped")); (str "reason", PStr (str "layout_mode_not_segment"));
              (str "logical_bytes", PInt logical); (str "physical_bytes_before", PInt physical);
              (str "physical_bytes_after", PInt physical); (str "moved_records", PInt 0);
              (str "skipped_records", PInt 0); (str "removed_segment_files", PInt 0);
              (str "bytes_reclaimed", PInt 0)]).

Definition compact_report (dry_run : bool) (logical before after active_ inflight moved skipped removed : Z)
    (extra : list (pystr * pyval)) (reclaimed : Z) : pyval :=
  PDict ([(str "layout_mode", PStr (layout_mode self)); (str "dry_run", PBool dry_run);
          (str "status", PStr (str "ok")); (str "logical_bytes", PInt logical);
          (str "physical_bytes_before", PInt before); (str "physical_bytes_after", PInt after);
          (str "active_segment_records", PInt active_); (str "inflight_segment_records", PInt inflight);
          (str "moved_records", PInt moved); (str "skipped_records", PInt skipped);
          (str "removed_segment_files", PInt removed)] ++ extra ++
         [(str "bytes_reclaimed", PInt reclaimed)]).

Definition inflight_count (es : list (BlockLocation * KVMetadata * Z)) : Z :=
  zlen (List.filter (fun e : BlockLocation * KVMetadata * Z => (0 <? e.2) && segment_scheme (loc_uri e.1.1)) es).

Definition compact_segments (time_ns : Z) (dry_run : bool) : NW pyval :=
  if negb (is_segment self) then skipped_report dry_run
  else
    db mutation ;;
    let* before := _physical_bytes in
    let* idle_entries := db_at (fun now => MetadataStore.tier_entries now NVME false) in
    let* entries_ := existing_entries idle_entries in
    let* all_entries := db_at (fun now => MetadataStore.tier_entries now NVME true) in
    let inflight := inflight_count all_entries in
    if dry_run then
      let* logical := db (MetadataStore.bytes_used NVME) in
      ret (compact_report true logical before before (zlen entries_) inflight 0 0 0 [] 0)
    else
      let* compaction_id := lift (int_text time_ns) in
      let* (moved, skipped) := move_records compaction_id entries_ 0 0 in
      let* (removed, removed_bytes) := _remove_unreferenced_segment_files in
      let* after := _physical_bytes in
      let* logical := db (MetadataStore.bytes_used NVME) in
      ret (compact_report false logical before after (zlen entries_) inflight moved skipped removed
             [(str "removed_segment_bytes", PInt removed_bytes)] (Z.max (before - after) 0)).

(** [NVMeTier] as a [Tier]. *)
Definition nvme_tier : Tier (World Fs) :=
  {| tier_name := NVME; tier_lookup := lookup self; tier_store := store self; tier_load := load self;
     tier_evict := evict self; tier_contains := contains self; tier_stats := stats |}.
End Compaction.

(** ** Headers of moved records *)

Lemma norm_header_eq mode c n d :
  norm_header mode c n d =
  [(str "checksum", PStr c); (str "layout_mode", PStr mode); (str "metadata", json_norm fmt_compact d);
   (str "payload_bytes", PInt n); (str "version", PInt RECORD_VERSION)].
Proof. reflexivity. Qed.

(** Replacing the metadata of a decoded header and encoding it gives the header of
    a new record. *)
Lemma moved_header_encodes mode c n d d' :
  encode_record_header (PDict (dict_set (str "metadata") d' (norm_header mode c n d))) =
  encode_record_header (record_header mode c n d').
Proof. rewrite norm_header_eq. reflexivity. Qed.

Section Compact.
Context `{U : UnicodeData} (self : NVMeTier) (Hok : nvme_ok self).
Abbreviation w_store w := (env_store (w_env w)).
Abbreviation nv_row k s := (ms_blocks s !! row_key k NVME).
Context (A0 : BlockKey -> pybytes -> Prop).

(** ** What is kept *)

(** A visible block and its payload. *)
Definition published (s : MetadataStore) (d : Fs) (k : BlockKey) (data : pybytes) : Prop :=
  key_valid k = true /\ exists r, nv_row k s = Some r /\ r_state r = active /\ placed self d k r data.

(** Every block of [A0] is visible, with its payload. *)
Definition retains (s : MetadataStore) (d : Fs) : Prop := forall k data, A0 k data -> published s d k data.

Definition budget (s : MetadataStore) : Prop :=
  (forall id r, ms_blocks s !! (id, NVME) = Some r -> 0 <= r_bytes r) /\ fits self (ms_blocks s).

Definition compacting (s : MetadataStore) (d : Fs) : Prop :=
  disk_inv self s d /\ retains s d /\ within self A0 s d /\ budget s.
Local Abbreviation I := (linked compacting).

Lemma compacting_gentle s s' d :
  shrinks NVME (ms_blocks s) (ms_blocks s') -> steady NVME s s' -> compacting s d -> compacting s' d.
Proof using Hok U.
  intros Hsh Hst (Hd & Hr & Hin & Hn & Hf). split; [by eapply disk_shrinks|]. split; [|split].
  - intros k data H0. destruct (Hr k data H0) as (Hk & r1 & H1 & A1 & Hp).
    destruct (steady_row _ _ _ _ _ Hst H1) as (r2 & H2 & Hc & E5). split; [done|]. exists r2.
    split_and!; [done|congruence|by eapply placed_core].
  - by eapply (stable_shrinks self _ (stable_within self Hok A0)).
  - split.
    + intros id r Hr'. destruct (Hsh _ _ Hr') as (r1 & H1 & _ & [= _ E _ _] & _). rewrite E. by eapply Hn.
    + unfold fits in *. pose proof (sum_bytes_shrinks NVME _ _ Hn Hsh). lia.
Qed.

Lemma compacting_dev hole s d d' :
  fs_wf d' -> keeps (is_segment self) hole d d' -> spares self hole s -> compacting s d -> compacting s d'.
Proof using Hok U.
  intros Hw Hk Hh (Hd & Hr & Hin & Hb). split; [by eapply disk_keeps|]. split; [|split; [|done]].
  - intros k data H0. destruct (Hr k data H0) as (Hkv & r & H1 & Ha & Hp). split; [done|]. exists r. split_and!; [done|done|].
    eapply placed_keeps; [done| |done]. eauto.
  - by eapply (stable_keeps self _ (stable_within self Hok A0)).
Qed.

Lemma compacting_read p : preserves I (on_dev (read_file p)).
Proof using Hok U.
  apply linked_dev. intros s d Hs Hd. eapply compacting_dev; [apply wf_read, Hd| |apply spares_none|done].
  apply keeps_files. by rewrite read_state.
Qed.

Lemma compacting_read_location l : preserves I (_read_location self l).
Proof using Hok.
  pose proof compacting_read. pose proof (linked_time compacting). unfold _read_location.
  apply preserves_bind; [apply preserves_lift|]. intros t. apply preserves_bind; [done|]. intros now.
  destruct t; (apply preserves_bind; [done|intros; apply preserves_lift]).
Qed.

(** An append changes no row, and no byte that was there. *)
Lemma append_frame k id b data w :
  is_segment self = true -> key_valid k = true -> plain_name id -> fs_wf (w_dev w) ->
  writing self (w_env w) (fun _ => False) (w_dev w) (_append_compacted_segment_record self k b data id w).1.
Proof using Hok.
  intros Hs Hk Hid Hw. rewrite append_compacted_eq. apply writing_append_to; [done|done|done|done| |].
  - apply plain_name_app; [by apply plain_str|]. apply plain_name_app; [done|by apply plain_str].
  - split_and!; [done|done|apply keeps_refl].
Qed.

Lemma compacting_append k id b data :
  is_segment self = true -> key_valid k = true -> plain_name id ->
  preserves I (_append_compacted_segment_record self k b data id).
Proof using Hok.
  intros Hs Hk Hid w Hw.
  destruct (append_frame k id b data w Hs Hk Hid (di_wf _ _ _ (proj1 (proj2 Hw)))) as (E & Hwf & Hkeep).
  unfold linked. rewrite E. split; [apply Hw|]. eapply compacting_dev; [done|done|apply spares_none|apply Hw].
Qed.

(** ** Entries *)

(** What a scan reports of a row. *)
Record entry_ok (l : BlockLocation) (m : KVMetadata) : Prop := {
  en_key : key_valid (loc_key l) = true;
  en_tier : loc_tier l = NVME;
  en_storable : storable m = true;
  en_same : md_key m = loc_key l;
  en_created : timestamp (loc_created_at l);
  en_access : exists f, md_last_access m = PFloat f /\ loc_last_access l = PFloat f /\ float_ok f = true;
}.

Lemma storable_touch m f n :
  storable m = true -> stamp f -> float_ok f = true -> 0 <= n -> storable (set_reuse (set_access m f) n) = true.
Proof using.
  unfold storable. rewrite !andb_true_iff. intros [[[[Hv Hk] Hc] Ha] He] Hs Hf Hn.
  destruct (validate true m) as [[]|] eqn:E; [|done]. rewrite (validate_touch m f n E Hs Hn). by split_and!.
Qed.

Lemma scanned_entry_ok now s d kr e :
  store_inv s -> disk_inv self s d -> ms_blocks s !! kr.1 = Some kr.2 -> kr.1.2 = NVME ->
  scanned_entry now NVME kr = Ok e ->
  entry_ok e.1.1 e.1.2 /\ row_key (loc_key e.1.1) NVME = kr.1 /\ loc_uri e.1.1 = r_uri kr.2.
Proof using.
  intros Hs Hd Hr Ht H. pose proof (inv_rows s Hs _ _ Hr) as Hrow.
  destruct (ro_metadata _ _ _ Hrow) as (m & Hmd & Ek & _). destruct (row_ok_location _ _ _ (md_key m) NVME Hrow) as (dd & _ & Hl).
  unfold scanned_entry in H. rewrite (proj1 Hmd) in H. cbn [res_bind] in H. rewrite Hl in H. cbn [res_bind] in H. injection H as <-.
  cbn [fst snd row_location loc_key loc_uri]. destruct Hmd as (_ & Hm & _).
  assert (row_key (md_key m) NVME = kr.1) as Erk by (destruct kr as [[id t'] r]; simpl in *; unfold row_key; congruence).
  split; [|done]. split; cbn [row_location loc_key loc_tier loc_created_at loc_last_access]; try done.
  - by apply storable_inv in Hm as (_ & Hk & _).
  - apply storable_touch; [done|apply (ro_access _ _ _ Hrow)| |apply (ro_reuse _ _ _ Hrow)].
    rewrite <- Erk in Hr. by apply (di_text _ _ _ Hd (md_key m)).
  - apply (ro_created _ _ _ Hrow).
  - exists (r_last_access kr.2). split_and!; try done. rewrite <- Erk in Hr. by apply (di_text _ _ _ Hd (md_key m)).
Qed.

(** A scan with every row lists every visible row. *)
Lemma entries_ok now b s s' es d :
  store_inv s -> disk_inv self s d -> tier_entries now NVME b s = (s', Ok es) ->
  s' = s /\ Forall (fun e : BlockLocation * KVMetadata * Z => entry_ok e.1.1 e.1.2) es /\
  (b = true -> forall k r, nv_row k s = Some r -> r_state r = active ->
     exists e, e ∈ es /\ loc_uri e.1.1 = r_uri r /\ row_key (loc_key e.1.1) NVME = row_key k NVME).
Proof using.
  intros Hs Hd H. unfold tier_entries in H. apply bind_ok in H as ([] & s1 & H1 & H). rewrite execute_eq in H1.
  destruct (_closed s); [done|]. injection H1 as <-. apply bind_ok in H as (ep & s2 & [= <- <-] & H).
  apply bind_ok in H as (bb & s3 & [= <- <-] & [= <- H]). split; [done|].
  set (rows := py_sort identity_leb _) in H.
  assert (forall kr, kr ∈ rows -> ms_blocks s !! kr.1 = Some kr.2 /\ kr.1.2 = NVME) as Hin.
  { intros [rk r] Hkr%py_sort_elem. unfold tier_rows in Hkr. apply list_elem_of_filter in Hkr as [(E1 & _) E2].
    by apply elem_of_map_to_list in E2. }
  assert (forall rs es, res_list (scanned_entry now NVME) rs = Ok es -> (forall kr, kr ∈ rs -> ms_blocks s !! kr.1 = Some kr.2 /\ kr.1.2 = NVME) ->
    Forall (fun e : BlockLocation * KVMetadata * Z => entry_ok e.1.1 e.1.2) es /\
    forall kr, kr ∈ rs -> exists e, e ∈ es /\ loc_uri e.1.1 = r_uri kr.2 /\ row_key (loc_key e.1.1) NVME = kr.1) as Hgo.
  { clear es H rows Hin. induction rs as [|kr rs IH]; intros es H Hin; simpl in H; [injection H as <-; split; [constructor|by intros ? ?%elem_of_nil]|].
    apply res_bind_ok in H as (e & He & (es' & Hes & ->)%res_map_ok). destruct (Hin kr) as [E1 E2]; [by left|].
    destruct (scanned_entry_ok now s d kr e Hs Hd E1 E2 He) as (Hen & Hk & Hu).
    destruct (IH es' Hes) as [Hf Hx]; [intros; apply Hin; by right|]. split; [by constructor|].
    intros kr' [->|Hkr']%elem_of_cons; [exists e; split; [by left|done]|].
    destruct (Hx kr' Hkr') as (e' & He' & ?). exists e'. split; [by right|done]. }
  destruct (Hgo rows es H Hin) as [Hf Hx]. split; [done|]. intros -> k r Hr Ha.
  destruct (Hx (row_key k NVME, r)) as (e & He & Hu & Hk); [|by exists e]. apply py_sort_elem. unfold tier_rows.
  apply list_elem_of_filter. split; [split_and!; [done|by apply is_active_true|done]|]. by apply elem_of_map_to_list.
Qed.

(** ** Moving a record *)

Lemma descriptor_sizes m m' n c :
  storable m' = true -> md_bytes m = PInt n -> md_checksum m = PStr c ->
  descriptor_eqb (payload_descriptor m) (payload_descriptor m') = true -> md_bytes m' = PInt n /\ md_checksum m' = PStr c.
Proof using.
  intros (Ht & _)%storable_inv Hn Hc. destruct (ty_bytes m' Ht) as (z & Hz & _). destruct (ty_checksum m' Ht) as (s & Hs & _).
  unfold descriptor_eqb, payload_descriptor. rewrite Hn, Hc, Hz, Hs. cbn [fst snd py_eq_list py_eq].
  rewrite !andb_true_iff. intros H. destruct_and!. breflect. split; congruence.
Qed.

Lemma moved_same m c n f :
  md_bytes m = PInt n -> md_checksum m = PStr c -> md_last_access m = PFloat f -> moved_metadata m c n (PFloat f) = m.
Proof using. destruct m. cbn. by intros -> -> ->. Qed.

(** The commit of a record's new place. *)
Lemma moved_commit l m data w :
  I w -> key_valid (loc_key l) = true -> publishable self (w_dev w) l m data ->
  published (w_store w) (w_dev w) (loc_key l) data -> I (db_at (fun now => upsert now l m) w).1.
Proof using Hok U.
  intros (Hi & Hd & Hret & Hin & Hn & Hf) Hk Hp (_ & r & Hr & Ha & Hpr). pose proof (env_store_inv _ Hi) as Hs.
  destruct (db_at (fun now => upsert now l m) w) as [w' x] eqn:E. cbn. apply db_at_ok in E as (now & _ & E & D & T).
  pose proof (safe_upsert now l m (pb_storable _ _ _ _ _ Hp) (pb_location _ _ _ _ _ Hp) _ Hs) as Hs'.
  pose proof (disk_upsert self now l m _ _ data Hk Hs Hp Hd) as Hd'. rewrite E in Hs', Hd'. cbn in Hs', Hd'.
  split; [split; [unfold clock_ok; rewrite T; apply Hi|done]|]. rewrite D. split; [done|]. destruct x as [[]|e].
  - destruct (publishable_row self _ _ _ _ _ _ _ Hs Hp E) as (_ & _ & r' & _ & Ha' & (t & m0 & b & Hpl) & Es).
    destruct (pl_row _ _ _ _ _ _ _ _ Hpl) as [Eb Ec]. assert (placed self (w_dev w) (loc_key l) r' data) as Hpl' by (by exists t, m0, b).
    clear Hpl. rewrite Es. split; [|split; [|split]].
    + intros k data1 H1. destruct (Hret k data1 H1) as (Hk1 & r1 & Hr1 & A1 & Hp1). split; [done|]. rewrite put_row_blocks.
      destruct (decide (loc_key l = k)) as [<-|Hne].
      * rewrite lookup_insert_eq. exists r'. split_and!; [done|done|]. rewrite Hr in Hr1. injection Hr1 as <-.
        by rewrite (placed_unique self Hok _ _ _ _ _ Hk Hp1 Hpr).
      * rewrite lookup_insert_ne by (intros Ek; by apply row_key_inj in Ek). eauto.
    + intros k r1 data1 Hk1. rewrite put_row_blocks, lookup_insert_Some. intros [[Ek <-]|[_ H1]] A1 Hp1; [|by eapply Hin].
      apply row_key_inj in Ek as <-; [|done..]. rewrite (placed_unique self Hok _ _ _ _ _ Hk1 Hp1 Hpl'). by eapply Hin.
    + intros id r1. rewrite put_row_blocks, lookup_insert_Some. intros [[_ <-]|[_ H1]]; [lia|by eapply Hn].
    + rewrite put_row_blocks. unfold fits in *. destruct Hpr as (t1 & m1 & b1 & Hpr). destruct (pl_row _ _ _ _ _ _ _ _ Hpr) as [Hb _].
      pose proof (sum_bytes_put (ms_blocks (w_store w)) (loc_key l) r' _ Eb ltac:(lia)) as H1.
      pose proof (sum_bytes_delete NVME _ _ _ Hr) as H2. unfold counted in H2. rewrite bool_decide_eq_true_2 in H2 by done.
      assert (is_active r = true) as Ea by (by apply is_active_true). rewrite Ea in H2. cbn [andb] in H2. lia.
  - pose proof (upsert_raises now l m (w_store w)) as Hr'. rewrite E in Hr'. cbn in Hr'. by rewrite Hr'.
Qed.

(** What [_read_location] returns for a visible row. *)
Lemma read_visible l w w' h payload r :
  linked (disk_inv self) w -> key_valid (loc_key l) = true -> nv_row (loc_key l) (w_store w) = Some r -> r_state r = active ->
  loc_uri l = r_uri r -> _read_location self l w = (w', Ok (h, payload)) ->
  exists t m b, placed_as self (w_dev w) (loc_key l) r t m b payload /\ header_of (layout_mode self) m (zlen payload) h.
Proof using Hok.
  intros Hw Hk Hr Ha Hu H. apply read_location_ok in H as (_ & t & f & now & Ht & Hf & Hrd).
  destruct (visible_target self Hok _ _ _ _ _ Hw Hr Ha Hu Ht) as (k0 & m & b & data & Hk0 & Ek & Hp).
  apply row_key_inj in Ek as ->; [|done..].
  destruct (read_held _ _ _ _ _ _ _ _ _ _ _ _ (pl_target _ _ _ _ _ _ _ _ Hp) (pl_holds _ _ _ _ _ _ _ _ Hp) (pl_written _ _ _ _ _ _ _ _ Hp) Hf Hrd) as [-> Hh].
  exists t, m, b. done.
Qed.

Lemma rewrite_record_keeps id l m h d0 payload r w :
  is_segment self = true -> plain_name id -> entry_ok l m -> I w ->
  nv_row (loc_key l) (w_store w) = Some r -> r_state r = active -> placed self (w_dev w) (loc_key l) r payload ->
  h = norm_header (layout_mode self) (sha256_hex payload) (zlen payload) d0 -> header_checksum h = sha256_hex payload ->
  md_bytes m = PInt (zlen payload) -> md_checksum m = PStr (sha256_hex payload) -> zlen payload <= nv_max_bytes self ->
  I (rewrite_record self id l h payload m w).1.
Proof using Hok.
  intros Hseg Hid [Hk Ht Hm Hmk Hcr (f & Hmf & Hlf & Hff)] Hw Hr Ha Hpr Eh Hsum Hmb Hmc Hmax.
  change (wp (rewrite_record self id l h payload m) (fun _ w' => I w') w). unfold rewrite_record.
  eapply (wp_step I); [apply preserves_lift|done|done|]. intros d w8 H8 [= <- Ed].
  eapply (wp_step I); [apply preserves_lift|done|done|]. intros eh w9 H9 [= <- Eeh]. rewrite Eh, moved_header_encodes in Eeh.
  pose proof (written_self self Hok m d eh payload Hm Hmb Hmax Hmc Ed Eeh) as Hwr.
  eapply (wp_step I); [by apply compacting_append|done|done|]. intros ref w10 H10 E10.
  destruct (append_frame (loc_key l) id eh payload w Hseg Hk Hid (di_wf _ _ _ (proj1 (proj2 Hw)))) as (Ee & _ & Hkeep).
  rewrite E10 in Ee, Hkeep. cbn in Ee, Hkeep. rewrite append_compacted_eq in E10.
  eapply (wp_step I); [apply preserves_lift|done|done|]. intros nl w11 H11 [= <- Enl].
  unfold _segment_location_for in Enl. apply res_bind_ok in Enl as (uri & Euri & Enl). rewrite Hsum in Enl.
  assert (plain_name (str "compact-" ++ id ++ str "-")) as Hpre.
  { apply plain_name_app; [by apply plain_str|]. apply plain_name_app; [done|by apply plain_str]. }
  assert (str "compact-" ++ id ++ str "-" <> []) as Hne by done.
  destruct (append_to_ok self Hok (loc_key l) _ _ w w10 ref uri Hk Hne Hpre (proj1 (bool_decide_eq_true _) Hseg)
    (di_wf _ _ _ (proj1 (proj2 Hw))) (written_record_bounds self m eh payload Hwr) E10 Euri) as [Htf Hhd].
  injection Enl as <-. unfold wp. rewrite Hlf. apply (moved_commit _ m payload w10 H10); [done| |].
  - split; cbn [nvme_location loc_tier loc_bytes loc_checksum loc_key loc_uri]; [done|done| |by exists f|done|].
    + split; [vm_compute; reflexivity|]. split; [done|]. cbn. rewrite <- Hmf. apply storable_inv in Hm as (Hty & _).
      apply (ty_last_access m Hty).
    + exists (inr ref), m, eh. split_and!; try done. rewrite norm_formats. apply descriptor_eqb_refl.
      by apply storable_descriptor_regular, storable_norm.
  - cbn. rewrite Ee. split; [done|]. exists r. split_and!; [done|done|]. eapply placed_keeps; [exact Hkeep| |exact Hpr]. by intros ? ? [].
Qed.

Lemma move_record_keeps id l m :
  is_segment self = true -> plain_name id -> entry_ok l m -> preserves I (move_record self id l m).
Proof using Hok.
  intros Hseg Hid He w Hw. pose proof He as [Hk _ Hm _ _ (f & Hmf & Hlf & _)].
  change (wp (move_record self id l m) (fun _ w' => I w') w). unfold move_record.
  eapply (wp_step I); [apply (linked_gentle NVME _ compacting_gentle), gentle_lookup|done|done|]. intros current w1 H1 E1.
  destruct (negb _) eqn:En; [done|]. apply negb_false_iff in En. apply db_ok in E1 as (E1 & D1 & T1).
  pose proof (store_lookup_open _ _ _ _ _ E1) as Ho.
  destruct (store_lookup_eq (loc_key l) NVME _ (env_store_inv _ (proj1 Hw)) Ho) as (ls & Hls & Hcase). rewrite Hls in E1.
  injection E1 as E1 <-. destruct ls as [|c [|]]; [done| |done]. destruct Hcase as (r & dd & Hr & Ha & _ & ->).
  apply bool_decide_eq_true in En. cbn [row_location loc_uri] in En. rewrite E1 in Hr.
  assert (linked (disk_inv self) w1) as Hd1 by (destruct H1 as (Hi & Hd & _); by split).
  eapply (wp_step I); [apply compacting_read_location|done|done|]. intros [h payload] w2 H2 E2.
  destruct (read_visible l w1 w2 h payload r Hd1 Hk Hr Ha (eq_sym En) E2) as (t & m0 & b0' & Hp & Hh).
  pose proof (read_location_ok self l w1 w2 h payload E2) as [(F2 & _ & _ & S2) _]. rewrite <- S2 in Hr.
  apply wp_bind. destruct (time_idle w2 (env_clock _ (proj1 H2))) as (now & w3 & E3 & (D3 & T3 & S3) & _).
  pose proof (linked_time compacting w2 H2) as H3. unfold wp at 1. rewrite E3 in H3 |- *. cbn [fst snd] in *. rewrite <- S3 in Hr.
  eapply (wp_step I); [apply preserves_lift|done|done|]. intros hm w4 H4 [= <- Ehm]. rewrite (ho_metadata _ _ _ _ Hh) in Ehm. injection Ehm as <-.
  eapply (wp_step I); [apply preserves_lift|done|done|]. intros [] w5 H5 [= <- _].
  eapply (wp_step I); [apply preserves_when, preserves_raise|done|done|]. intros [] w6 H6 [E6 ->]%when_raise_ok.
  apply orb_false_iff in E6 as [_ E6%negb_false_iff].
  destruct (descriptor_sizes (norm_metadata fmt_compact m0) m (zlen payload) (sha256_hex payload) Hm) as [Hmb Hmc];
    [apply (pl_written _ _ _ _ _ _ _ _ Hp)|apply (pl_sum _ _ _ _ _ _ _ _ Hp)|done|].
  eapply (wp_step I); [apply preserves_when, preserves_raise|done|done|]. intros [] w7 H7 [_ ->]%when_raise_ok.
  pose proof (header_checksum_of _ _ _ _ _ Hh (pl_sum _ _ _ _ _ _ _ _ Hp)) as Hsum.
  rewrite Hsum, Hlf, (moved_same m _ _ f Hmb Hmc Hmf).
  destruct (ho_items _ _ _ _ Hh) as (d0 & c0 & _ & Hc0 & Eh). rewrite (pl_sum _ _ _ _ _ _ _ _ Hp) in Hc0. injection Hc0 as <-.
  assert (placed self (w_dev w3) (loc_key l) r payload) as Hpr.
  { rewrite D3. eapply (placed_keeps self (fun _ => False)); [by apply keeps_files|by intros ? ? []|by exists t, m0, b0']. }
  pose proof (rewrite_record_keeps id l m h d0 payload r w3 Hseg Hid He H3 Hr Ha Hpr Eh Hsum Hmb Hmc
    (proj2 (wr_size _ _ _ _ _ (pl_written _ _ _ _ _ _ _ _ Hp)))) as H8.
  unfold wp, bind. by destruct (rewrite_record self id l h payload m w3) as [w8 [[]|e]].
Qed.

Lemma move_records_keeps id es moved skipped :
  is_segment self = true -> plain_name id -> Forall (fun e : BlockLocation * KVMetadata => entry_ok e.1 e.2) es ->
  preserves I (move_records self id es moved skipped).
Proof using Hok.
  intros Hseg Hid Hes. revert moved skipped. induction Hes as [|[l m] es He _ IH]; intros moved skipped; simpl; [apply preserves_ret|].
  apply preserves_bind; [apply (linked_gentle NVME _ compacting_gentle), gentle_acquire|]. intros _.
  apply preserves_bind; [|intros [|]; apply IH]. apply preserves_try_finally; [by apply move_record_keeps|].
  intros _. apply (linked_gentle NVME _ compacting_gentle), gentle_release.
Qed.

Lemma existing_entries_ok es w :
  I w -> Forall (fun e : BlockLocation * KVMetadata * Z => entry_ok e.1.1 e.1.2) es ->
  wp (existing_entries self es) (fun r w' => I w' /\ match r with
     | Ok es' => Forall (fun e : BlockLocation * KVMetadata => entry_ok e.1 e.2) es' | Raise _ => True end) w.
Proof using Hok U.
  intros Hw Hes. revert w Hw. induction Hes as [|[[l m] n] es He _ IH]; intros w Hw; simpl; [split; [done|constructor]|].
  eapply (wp_step I); [|exact Hw|done|].
  { unfold _location_exists. destruct (segment_scheme _); [|apply preserves_ret].
    apply preserves_bind; [apply preserves_lift|intros; apply linked_dev_gets]. }
  intros keep w1 H1 _. apply wp_bind. eapply wp_mono; [by apply IH|]. intros [rest|e] w2 [H2 Hf]; [|done].
  split; [done|]. destruct keep; [by constructor|done].
Qed.

(** ** Removing files *)

(** A file that no visible row refers to may go. *)
Lemma compacting_remove p R :
  is_segment self = true -> (forall s, R s -> forall k r t, key_valid k = true -> nv_row k s = Some r -> r_state r = active ->
    target_for self k (r_uri r) t -> target_path t <> p) ->
  preserves (linked (fun s d => compacting s d /\ R s)) (on_dev (on_missing
    (let* s := gets id in if exists_path s p then unlink p ;; ret (Some (st_size s p)) else raise no_such_file) (ret None))).
Proof using Hok U.
  intros Hs HR. apply linked_dev. intros s d Hst [Hd Hr]. split; [|done].
  set (m := on_missing _ _).
  assert (forall K : Fs -> Prop, preserves K (unlink p) -> preserves K m) as Hm.
  { intros K Hu. apply on_missing_preserves; [|apply preserves_ret]. apply preserves_bind; [apply preserves_gets|].
    intros x. destruct (exists_path x p); [|apply preserves_raise]. apply preserves_bind; [done|intros; apply preserves_ret]. }
  eapply (compacting_dev (eq p)); [apply Hm; [apply wf_unlink|apply Hd]| | |done].
  - apply (Hm (keeps (is_segment self) (eq p) d)); [apply keeps_unlink; by intros []|apply keeps_refl].
  - intros k r t Hk Hrow Ha Ht E. by eapply (HR s Hr k r t).
Qed.

Definition referred (ps : list path) (s : MetadataStore) : Prop :=
  forall k r t, key_valid k = true -> nv_row k s = Some r -> r_state r = active -> target_for self k (r_uri r) t ->
  target_path t ∈ ps.

Lemma remove_files_keeps referenced ps n m :
  is_segment self = true ->
  preserves (linked (fun s d => compacting s d /\ referred referenced s)) (remove_files referenced ps n m).
Proof using Hok U.
  intros Hs. revert n m. induction ps as [|p ps IH]; intros n m; simpl; [apply preserves_ret|].
  case_bool_decide as Hp; [apply IH|]. apply preserves_bind; [|intros [z|]; apply IH].
  apply compacting_remove; [done|]. intros s Hr k r t Hk Hrow Ha Ht <-. apply Hp. by eapply Hr.
Qed.

(** The published segments are all in the list. *)
Lemma referenced_complete es ps s :
  is_segment self = true -> referenced_paths self es = Ok ps ->
  (forall k r, nv_row k s = Some r -> r_state r = active ->
     exists e, e ∈ es /\ loc_uri e.1.1 = r_uri r /\ row_key (loc_key e.1.1) NVME = row_key k NVME) ->
  referred ps s.
Proof using Hok.
  intros Hs Hps Hall k r t Hk Hr Ha Ht. destruct (Hall k r Hr Ha) as (e & He & Hu & _).
  destruct t as [p|ref]; [destruct Ht as (Hm & _); unfold is_segment in Hs; rewrite Hm in Hs; by apply bool_decide_eq_true in Hs|].
  destruct Ht as (_ & Hrf & Huri). destruct (segment_uri_scheme ref _ Huri) as (rest & Esch).
  assert (e ∈ List.filter (fun e : BlockLocation * KVMetadata * Z => segment_scheme (loc_uri e.1.1)) es) as Hin.
  { apply list_elem_of_In, filter_In. split; [by apply list_elem_of_In|]. rewrite Hu, Esch. unfold segment_scheme, starts_with.
    by rewrite strip_prefix_app. }
  unfold referenced_paths in Hps. revert ps Hps. induction (List.filter _ es) as [|x l IH]; [by apply elem_of_nil in Hin|].
  intros ps Hps. cbn [res_list] in Hps. apply res_bind_ok in Hps as (q & Hq & (qs & Hqs & ->)%res_map_ok).
  apply elem_of_cons in Hin as [->|Hin]; apply elem_of_cons; [left|right; by apply IH].
  apply res_map_ok in Hq as (ref' & Href%res_catch_ok%segment_ref_any & ->). rewrite Hu in Href.
  pose proof (segment_ref_any self _ _ _ (segment_uri_parse self Hok k ref _ Hk Hrf Huri)) as E. cbn. congruence.
Qed.

Lemma remove_unreferenced_keeps : is_segment self = true -> preserves I (_remove_unreferenced_segment_files self).
Proof using Hok.
  intros Hs w Hw. change (wp (_remove_unreferenced_segment_files self) (fun _ w' => I w') w). unfold _remove_unreferenced_segment_files.
  eapply (wp_step I); [apply (linked_gentle_at NVME _ compacting_gentle); intros; apply gentle_entries|done|done|].
  intros es w1 H1 (now & _ & E1 & D1 & T1)%db_at_ok.
  destruct (entries_ok now true _ _ es _ (env_store_inv _ (proj1 Hw)) (proj1 (proj2 Hw)) E1) as (E & _ & Hall).
  eapply (wp_step I); [apply preserves_lift|done|done|]. intros ps w2 H2 [= <- Hps].
  eapply (wp_step I); [apply linked_dev_gets|done|done|]. intros s w3 H3 [= <- <-].
  destruct (negb _); [done|]. assert (linked (fun s d => compacting s d /\ referred ps s) w1) as Hr.
  { destruct H1 as [Hi Hd]. split; [done|]. split; [done|]. rewrite E. by eapply referenced_complete; [| |apply Hall]. }
  pose proof (remove_files_keeps ps (rglob (w_dev w1) (segment_root self) (name_matches [] (str ".kvseg"))) 0 0 Hs w1 Hr) as (Hi & Hd & _).
  by split.
Qed.

(** ** compact_segments *)

Lemma compact_keeps time_ns dry_run : preserves I (compact_segments self time_ns dry_run).
Proof using Hok.
  assert (forall A (m : MS A), gentle NVME m -> preserves I (db m)) as Hdb by (intros A m; apply (linked_gentle NVME _ compacting_gentle)).
  intros w Hw. change (wp (compact_segments self time_ns dry_run) (fun _ w' => I w') w). unfold compact_segments.
  destruct (is_segment self) eqn:Hs; cbn [negb].
  - eapply (wp_step I); [apply Hdb, gentle_mutation|done|done|]. intros _ w1 H1 _.
    eapply (wp_step I); [apply linked_dev_gets|done|done|]. intros before w2 H2 _.
    eapply (wp_step I); [apply (linked_gentle_at NVME _ compacting_gentle); intros; apply gentle_entries|done|done|].
    intros idle_es w3 H3 (now & _ & E3 & D3 & T3)%db_at_ok.
    destruct (entries_ok now false _ _ idle_es _ (env_store_inv _ (proj1 H2)) (proj1 (proj2 H2)) E3) as (_ & Hen & _).
    apply wp_bind. eapply wp_mono; [by apply existing_entries_ok|]. intros [es|e] w4 [H4 Hes]; [|done].
    eapply (wp_step I); [apply (linked_gentle_at NVME _ compacting_gentle); intros; apply gentle_entries|done|done|]. intros all w5 H5 _.
    cbv zeta. destruct dry_run.
    + eapply (wp_step I); [apply Hdb, gentle_bytes_used|done|done|]. intros; done.
    + eapply (wp_step I); [apply preserves_lift|done|done|]. intros id w6 H6 [= <- Hid%int_text_plain].
      eapply (wp_step I); [by apply move_records_keeps|done|done|]. intros [moved skipped] w7 H7 _.
      eapply (wp_step I); [by apply remove_unreferenced_keeps|done|done|]. intros [removed rb] w8 H8 _.
      eapply (wp_step I); [apply linked_dev_gets|done|done|]. intros after_ w9 H9 _.
      eapply (wp_step I); [apply Hdb, gentle_bytes_used|done|done|]. intros; done.
  - unfold skipped_report. eapply (wp_step I); [apply Hdb, gentle_bytes_used|done|done|]. intros logical w1 H1 _.
    eapply (wp_step I); [apply linked_dev_gets|done|done|]. intros; done.
Qed.
End Compact.
