(* ===== verification/NvmeTierSpec.v ===== *)
(** * Correctness of the NVMe tier

    The tier as a map from keys to payloads: what each method does to the map of
    the visible blocks, on every path and whichever file-system calls fail; the
    invariant of every sequence of calls; that a stored block loads; what a load
    has checked on any disk; and that an interrupted eviction can be finished. *)

From Stdlib Require Import SpecFloat.
From S2P Require Import Prelude PyText Sha256 Float64 Errors PyVal Json JsonFacts Metadata MetadataFacts MetadataStore MetadataStoreFacts MetadataStoreSpec Metrics Runtime MemoryTier MemoryTierFacts MemoryTierSpec Record Layout Url UrlFacts FileSystem FileSystemFacts World WorldFacts NvmeTier NvmeTierFacts NvmeWriteFacts NvmeLoadFacts NvmeStoreFacts NvmeCompaction.
Import MNotations ResNotations.
Local Open Scope m_scope.

(** ** Calls *)

(** The interface, and the compaction of segments. *)
Inductive nv_call :=
  | NTier (c : block_call)
  | NCompact (time_ns : Z) (dry_run : bool).

Definition nv_call_ok (c : nv_call) : Prop := match c with NTier c => block_call_ok c | NCompact _ _ => True end.

(** A compaction is maintenance. *)
Definition abstract_call (c : nv_call) : block_call := match c with NTier c => c | NCompact _ _ => BMaintain end.

Section Spec.
Context `{U : UnicodeData} (self : NVMeTier).
Abbreviation w_store w := (env_store (w_env w)).
Abbreviation nv_row k w := (ms_blocks (w_store w) !! row_key k NVME).

Definition run_nv (c : nv_call) : NW block_out :=
  match c with
  | NTier c => run_tier (nvme_tier self) c
  | NCompact time_ns dry_run => let* _ := compact_segments self time_ns dry_run in ret OReport
  end.

(** The visible blocks. *)
Definition contents (w : World Fs) : blocks_map := published self (w_store w) (w_dev w).

(** The invariant: the disk holds the visible blocks, and they fit the budget. *)
Definition sound (w : World Fs) : Prop := linked (disk_inv self) w /\ fits self (ms_blocks (w_store w)).

Context (Hok : nvme_ok self).

(** ** Steps that publish nothing *)

Abbreviation since w := (unpublished self (ms_blocks (w_store w)) (contents w)).

Lemma within_contents w : within self (contents w) (w_store w) (w_dev w).
Proof using. intros k r data Hk Hr Ha Hp. split; [done|]. eauto. Qed.

Lemma since_start w : sound w -> linked (disk_with self (since w)) w.
Proof using. intros [[Hi Hd] _]. split; [done|]. split; [done|]. split; [apply shrinks_refl|apply within_contents]. Qed.

Lemma bytes_nonneg w : sound w -> forall id r, ms_blocks (w_store w) !! (id, NVME) = Some r -> 0 <= r_bytes r.
Proof using. intros [[Hi _] _] id r. apply rows_nonneg, Hi. Qed.

Lemma since_sound w w' : sound w -> linked (disk_with self (since w)) w' -> sound w'.
Proof using.
  intros Hw (Hi & Hd & Hs & _). split; [by split|]. unfold fits. destruct Hw as [Hl Hf].
  pose proof (sum_bytes_shrinks NVME _ _ (bytes_nonneg w (conj Hl Hf)) Hs). unfold fits in Hf. lia.
Qed.

Lemma since_sub w w' : linked (disk_with self (since w)) w' -> sub_map (contents w) (contents w').
Proof using. intros (_ & _ & _ & Hin) k data (Hk & r & Hr & Ha & Hp). by eapply Hin. Qed.

Lemma contents_unique w k data data' : contents w k data -> contents w k data' -> data = data'.
Proof using Hok U.
  intros (Hk & r & Hr & _ & Hp) (_ & r' & Hr' & _ & Hp'). rewrite Hr in Hr'. injection Hr' as <-. by eapply placed_unique.
Qed.

(** A row that is still visible has the same payload. *)
Lemma since_kept w w' k r data :
  linked (disk_with self (since w)) w' -> contents w k data -> nv_row k w' = Some r -> r_state r = active -> contents w' k data.
Proof using Hok U.
  intros (Hi & Hd & Hs & Hin) Hc Hr Ha. pose proof Hc as [Hk _]. destruct (di_data _ _ _ Hd k r Hk Hr Ha) as (data' & Hp).
  assert (contents w k data') as Hc' by (by eapply Hin). rewrite (contents_unique w k data data' Hc Hc'). split; [done|]. eauto.
Qed.

(** Rows that show the same and files that are the same. *)
Lemma same_contents w w' :
  fs_files (w_dev w') = fs_files (w_dev w) -> steady NVME (w_store w) (w_store w') -> same_map (contents w) (contents w').
Proof using.
  intros Hf Hs.
  assert (forall w w', fs_files (w_dev w') = fs_files (w_dev w) -> steady NVME (w_store w) (w_store w') -> forall k data, contents w k data -> contents w' k data) as Hgo.
  { clear. intros w w' Hf Hs k data (Hk & r & Hr & Ha & Hp). destruct (steady_row _ _ _ _ _ Hs Hr) as (r' & Hr' & Hc & Es).
    split; [done|]. exists r'. split_and!; [done|congruence|]. eapply placed_core; [done|].
    eapply (placed_keeps self (fun _ => False)); [by apply keeps_files|by intros ? ? []|done]. }
  intros k data. split; apply Hgo; try done. by apply steady_sym.
Qed.

Lemma idle_contents w w' : idle_step w w' -> same_map (contents w) (contents w').
Proof using. intros (D & T & S). apply same_contents; [by rewrite D|by rewrite S]. Qed.

(** ** The steps *)

Lemma lookup_step k w :
  sound w -> key_valid k = true ->
  match lookup self k w with
  | (w', Ok o) => same_map (contents w) (contents w') /\ (is_Some o <-> exists data, contents w k data)
  | _ => True
  end.
Proof using Hok.
  intros [Hl Hf] Hk. destruct (lookup self k w) as [w' [[l|]|e]] eqn:E; [| |done].
  - destruct (nvme_lookup_ok self k w w' l (proj1 Hl) E) as (S & _ & r & d & Hr & Ha & _). split; [by apply idle_contents|].
    destruct (di_data _ _ _ (proj2 Hl) k r Hk Hr Ha) as (data & Hp). split; [|by eexists]. intros _. exists data. split; [done|]. eauto.
  - destruct (lookup_missing self Hok k w w' Hl E) as [Hh S]. split; [by apply idle_contents|].
    split; [by intros []|]. intros (data & _ & r & Hr & Ha & _). by destruct (Hh r Hr).
Qed.

Lemma evict_step k w w' b :
  sound w -> key_valid k = true -> evict self k w = (w', Ok b) -> map_step (contents w) (contents w') (BEvict k) (OEvicted b).
Proof using Hok.
  intros Hw Hk E. pose proof (disk_evict self Hok _ (unpublished_stable self Hok _ _) k w (since_start w Hw)) as Hs.
  rewrite E in Hs. cbn in Hs. pose proof (since_sub w w' Hs) as Hsub.
  destruct (nvme_evict_ok self k w w' b (proj1 (proj1 Hw)) E) as [(-> & Er & _)|(-> & Er)].
  - apply ms_evict.
    + intros data (_ & r & Hr & _). by rewrite Er, lookup_delete_eq in Hr.
    + intros k' data Hne. split; [apply Hsub|]. intros Hc. pose proof Hc as (Hk' & r & Hr & Ha & _).
      eapply since_kept; [done|done| |done]. rewrite Er, lookup_delete_ne; [done|]. intros Ek. by apply row_key_inj in Ek.
  - apply ms_pinned. intros k' data. split; [apply Hsub|]. intros Hc. pose proof Hc as (Hk' & r & Hr & Ha & _).
    eapply since_kept; [done|done|by rewrite Er|done].
Qed.

Lemma store_step k data m w :
  sound w -> input_ok m ->
  let r := store self k data m w in sound r.1 /\
  (if is_ok r.2 then contents r.1 k data /\ _closed (w_store r.1) = false /\
     forall k' data', contents r.1 k' data' -> (k' = k /\ data' = data) \/ contents w k' data'
   else linked (disk_with self (since w)) r.1).
Proof using Hok.
  intros Hw Hin. cbv zeta.
  destruct (store_spec self Hok _ (bytes_nonneg w Hw) (contents w) k data m w Hin (since_start w Hw)) as [Hp Hmk]. unfold store_post in Hp.
  destruct (store self k data m w) as [w' [sr|e]]; cbn [fst snd is_ok] in *.
  - destruct Hp as (Hl & Ho & (r & Hr & Ha & Hpl) & Hf & Hwi). destruct Hin as [Hk _]. rewrite (Hmk eq_refl) in Hk.
    split; [split; [done|apply Hf, Hw]|]. split; [split; [done|]; eauto|]. split; [done|].
    intros k' data' (Hk' & r' & Hr' & Ha' & Hp'). by eapply Hwi.
  - split; [by eapply since_sound|done].
Qed.

Lemma compact_step t b w :
  sound w -> sound (compact_segments self t b w).1 /\ same_map (contents w) (contents (compact_segments self t b w).1).
Proof using Hok.
  intros Hw. destruct (compact_keeps self Hok (contents w) t b w) as (Hi & Hd & Hret & Hwi & Hn & Hf).
  { pose proof Hw as [[Hi Hd] Hf]. split; [done|]. split_and!; [done|by intros k data|apply within_contents|]. split; [by apply bytes_nonneg|done]. }
  split; [split; [by split|done]|]. intros k data. split; [|apply Hret]. intros (Hk & r & Hr & Ha & Hp). by eapply Hwi.
Qed.

Lemma stats_step w :
  sound w -> sound (stats self w).1 /\ same_map (contents w) (contents (stats self w).1).
Proof using.
  intros Hw. assert ((stats self w).1 = (db (bytes_used NVME) w).1) as ->.
  { unfold stats, bind. by destruct (db (bytes_used NVME) w) as [w1 [n|e]]. }
  destruct (db (bytes_used NVME) w) as [w1 x] eqn:E. cbn [fst].
  apply db_ok in E as (E & D & T).
  assert (w_store w1 = w_store w) as S.
  { unfold bytes_used, bind in E. rewrite execute_eq in E.
    destruct (_closed (w_store w)); [by injection E as <-|]. unfold gets in E. destruct (_ && _); by injection E as <-. }
  assert (idle_step w w1) as Hs by by split_and!.
  assert (sound w1) as H1.
  { destruct Hw as [[Hi Hd] Hf]. unfold sound, linked. rewrite D, S. split_and!; try done.
    split; [unfold clock_ok; rewrite T; apply Hi|rewrite S; apply Hi]. }
  split; [exact H1|by apply idle_contents].
Qed.

Lemma nv_step c w :
  sound w -> nv_call_ok c ->
  sound (run_nv c w).1 /\ map_step (contents w) (contents (run_nv c w).1) (abstract_call c) (seen (run_nv c w).2).
Proof using Hok.
  intros Hw Hc. pose proof (since_start w Hw) as Hs. pose proof (unpublished_stable self Hok (ms_blocks (w_store w)) (contents w)) as Hst.
  destruct c as [[k|k|k|k data m|k|]|t b]; cbn [run_nv run_tier nv_call_ok block_call_ok abstract_call nvme_tier tier_lookup tier_contains tier_load tier_store tier_evict tier_stats] in *.
  - pose proof (disk_lookup self _ Hst k w Hs) as H1. pose proof (lookup_step k w Hw Hc) as H2. unfold bind.
    destruct (lookup self k w) as [w' [o|e]]; cbn [fst snd seen] in *; (split; [by eapply since_sound|]).
    + destruct H2 as [Hm Hf]. apply (ms_found _ _ _ k); [by left| |done]. rewrite <- Hf. destruct o; naive_solver.
    + apply ms_raised. by apply since_sub.
  - pose proof (disk_lookup self _ Hst k w Hs) as H1. pose proof (lookup_step k w Hw Hc) as H2. unfold contains, bind.
    destruct (lookup self k w) as [w' [o|e]]; cbn [fst snd seen] in *; (split; [by eapply since_sound|]).
    + destruct H2 as [Hm Hf]. apply (ms_found _ _ _ k); [by right| |done]. rewrite <- Hf. destruct o; naive_solver.
    + apply ms_raised. by apply since_sub.
  - pose proof (disk_load self Hok _ Hst k w Hs) as H1. unfold bind.
    destruct (load self k w) as [w' [r|e]] eqn:E; cbn [fst snd seen] in *; (split; [by eapply since_sound|]).
    + destruct (load_disk self Hok k w w' r (proj1 Hw) E) as ((F & _ & _ & S) & _ & _ & _ & _ & row & t & m & b & p & Hr & Ha & Hp & _).
      apply ms_load; [|by apply same_contents]. split; [done|]. exists row. split_and!; [done|done|by exists t, m, b].
    + apply ms_raised. by apply since_sub.
  - destruct (store_step k data m w Hw Hc) as [H1 H2]. unfold bind.
    destruct (store self k data m w) as [w' [sr|e]]; cbn [fst snd seen is_ok] in *; (split; [done|]).
    + destruct H2 as (Hk & _ & Hall). by apply ms_store.
    + apply ms_raised. by apply since_sub.
  - pose proof (disk_evict self Hok _ Hst k w Hs) as H1. unfold bind.
    destruct (evict self k w) as [w' [b|e]] eqn:E; cbn [fst snd seen] in *; (split; [by eapply since_sound|]).
    + by apply evict_step.
    + apply ms_raised. by apply since_sub.
  - destruct (stats_step w Hw) as [H1 H2]. unfold bind.
    destruct (stats self w) as [w' [v|e]]; cbn [fst snd seen] in *; (split; [done|]); apply ms_maintain; auto.
  - destruct (compact_step t b w Hw) as [H1 H2]. unfold bind.
    destruct (compact_segments self t b w) as [w' [v|e]]; cbn [fst snd seen] in *; (split; [done|]); apply ms_maintain; auto.
Qed.

(** ** Runs *)

Definition run_calls (cs : list nv_call) (w : World Fs) : World Fs := foldl (fun w c => (run_nv c w).1) w cs.

(** A tier that was just constructed: no block of it is in the table. *)
Definition nv_start (w : World Fs) : Prop :=
  env_inv (w_env w) /\ fs_wf (w_dev w) /\ forall id, ms_blocks (w_store w) !! (id, NVME) = None.

Lemma start_sound w : nv_start w -> sound w.
Proof using Hok.
  intros (Hi & Hw & Hn). split.
  - split; [done|]. split; [done| | |]; intros k r; unfold row_key; by rewrite Hn.
  - unfold fits. pose proof (no_bytes self Hok).
    assert (sum_bytes NVME (ms_blocks (w_store w)) <= sum_bytes NVME ∅) as Hle; [|change (sum_bytes NVME ∅) with 0 in Hle; lia].
    apply sum_bytes_shrinks; [by intros ? ? ?%lookup_empty_Some|]. intros id r. by rewrite Hn.
Qed.

Lemma run_sound cs w : sound w -> Forall nv_call_ok cs -> sound (run_calls cs w).
Proof using Hok.
  intros Hw Hcs. revert w Hw. induction Hcs as [|c cs Hc _ IH]; intros w Hw; [done|]. apply IH. by apply nv_step.
Qed.

(** ** Evictions *)

(** An eviction of a block nobody reads starts by hiding it. *)
Lemma evict_begins k w r :
  sound w -> _closed (w_store w) = false -> nv_row k w = Some r ->
  r_state r = deleting \/ (r_state r = active /\ r_in_flight r = 0) ->
  exists w1 d r', evict self k w = remove_payload self k (row_location k NVME r d) w1 /\ w_dev w1 = w_dev w /\
    env_time (w_env w1) = env_time (w_env w) /\ w_store w1 = put_row (row_key k NVME) r' (w_store w) /\
    r_state r' = deleting /\ row_core r' = row_core r.
Proof using.
  intros [[Hi Hd] _] Ho Hr Hst. pose proof (inv_rows _ (env_store_inv _ Hi) _ _ Hr) as Hrow.
  destruct (row_ok_location _ _ _ k NVME Hrow) as (dd & _ & Hl).
  assert (mutation (w_store w) = (w_store w, Ok tt)) as Hm by (unfold mutation; by rewrite Ho).
  destruct (db_run (D := Fs) _ _ _ _ Hm) as (w0 & E0 & S0 & D0 & T0).
  set (r' := match r_state r with active => set_state deleting (set_flight 0 [] r) | _ => r end).
  assert (begin_delete k NVME (w_store w0) = (put_row (row_key k NVME) r' (w_store w), Ok (Some (row_location k NVME r dd)))) as Hb.
  { rewrite S0, begin_delete_eq, Ho, Hr. unfold r'. destruct Hst as [E|[E Hf]]; rewrite E.
    - rewrite Hl. cbn. f_equal. unfold put_row. rewrite insert_id by done. symmetry. apply set_blocks_same.
    - rewrite Hf. rewrite andb_false_r. by rewrite Hl. }
  destruct (db_run (D := Fs) _ _ _ _ Hb) as (w1 & E1 & S1 & D1 & T1). exists w1, dd, r'.
  split_and!; [|congruence|congruence|done| |].
  - unfold evict. rewrite (bind_run _ _ _ _ _ E0), (bind_run _ _ _ _ _ E1). done.
  - unfold r'. by destruct Hst as [E|[E _]]; rewrite E.
  - unfold r'. by destruct Hst as [E|[E _]]; rewrite E.
Qed.

(** The file of a block goes, and then its tombstone. *)
Lemma remove_runs k l p r' f w1 :
  _validated_location_target self l = Ok (inl p) -> fs_faults (w_dev w1) (fs_calls (w_dev w1)) = None ->
  fs_files (w_dev w1) !! p = Some f -> _closed (w_store w1) = false -> nv_row k w1 = Some r' -> r_state r' = deleting ->
  exists w2, remove_payload self k l w1 = (w2, Ok true) /\ nv_row k w2 = None /\ fs_files (w_dev w2) !! p = None.
Proof using.
  intros Ht Hn Hf Ho Hr Hd. unfold remove_payload, bind at 1, lift. rewrite Ht.
  set (d2 := set_files (base.delete p (fs_files (w_dev w1))) (next_call (w_dev w1))).
  assert (on_dev (on_missing (unlink p) (ret tt)) w1 = (mkWorld (w_env w1) d2, Ok tt)) as E1.
  { unfold on_dev, zoom, on_missing, try_catch, unlink, guarded, bind, syscall. rewrite Hn. unfold gets, id.
    change (fs_files (next_call (w_dev w1))) with (fs_files (w_dev w1)). by rewrite Hf. }
  rewrite (bind_run _ _ _ _ _ E1).
  assert (finish_delete k NVME (w_store (mkWorld (w_env w1) d2)) = (drop_row (row_key k NVME) (w_store w1), Ok true)) as Hfin.
  { unfold finish_delete. cbn. rewrite delete_row_eq, Ho, Hr, bool_decide_eq_true_2 by done. done. }
  destruct (db_run (D := Fs) _ _ _ _ Hfin) as (w2 & E2 & S2 & D2 & T2). exists w2. rewrite (bind_run _ _ _ _ _ E2).
  split_and!; [done| |].
  - rewrite S2, drop_row_blocks. apply lookup_delete_eq.
  - rewrite D2. unfold d2. cbn. apply lookup_delete_eq.
Qed.

(** A hidden block is not found. *)
Lemma lookup_tombstone k w r :
  _closed (w_store w) = false -> nv_row k w = Some r -> r_state r = deleting -> exists w', lookup self k w = (w', Ok None).
Proof using.
  intros Ho Hr Hd. destruct (lookup_hidden (w_store w) k NVME Ho) as (Hl & _); [by rewrite Hr|].
  destruct (db_run (D := Fs) _ _ _ _ Hl) as (w1 & E1 & S1 & D1 & T1). unfold lookup. rewrite (bind_run _ _ _ _ _ E1).
  assert (is_deleting k NVME (w_store w1) = (w_store w1, Ok true)) as Hid.
  { unfold is_deleting, bind. rewrite get_row_eq, S1, Ho, Hr. unfold ret. by rewrite bool_decide_eq_true_2. }
  destruct (db_run (D := Fs) _ _ _ _ Hid) as (w2 & E2 & _). rewrite (bind_run _ _ _ _ _ E2).
  destruct (metric_idle (Inc kv_lookup_total (f64_of_Z 1) (labels_of NVME (str "miss"))) w2) as (w3 & E3 & _).
  exists w3. unfold nv_metric. by rewrite (bind_run _ _ _ _ _ E3).
Qed.

(** A block whose delete is pending is not stored. *)
Lemma store_tombstone k data m w r :
  md_key m = k -> _closed (w_store w) = false -> nv_row k w = Some r -> r_state r = deleting ->
  exists w', store self k data m w = (w', Raise pending_delete).
Proof using.
  intros Hk Ho Hr Hd. unfold store. destruct (perf_idle w) as (start & w1 & E1 & D1 & T1 & S1). rewrite (bind_run _ _ _ _ _ E1).
  rewrite bool_decide_eq_true_2 by done. cbn [negb when]. unfold bind at 1, ret at 1. cbv zeta.
  assert (mutation (w_store w1) = (w_store w1, Ok tt)) as Hm by (unfold mutation; by rewrite S1, Ho).
  destruct (db_run (D := Fs) _ _ _ _ Hm) as (w2 & E2 & S2 & D2 & T2). rewrite (bind_run _ _ _ _ _ E2).
  assert (is_deleting k NVME (w_store w2) = (w_store w2, Ok true)) as Hid.
  { unfold is_deleting, bind. rewrite get_row_eq, S2, S1, Ho, Hr. unfold ret. by rewrite bool_decide_eq_true_2. }
  destruct (db_run (D := Fs) _ _ _ _ Hid) as (w3 & E3 & _). rewrite (bind_run _ _ _ _ _ E3). exists w3. done.
Qed.

Lemma remove_fails k l p f w1 :
  _validated_location_target self l = Ok (inl p) -> fs_faults (w_dev w1) (fs_calls (w_dev w1)) = Some f ->
  is_a (fault_exn f) FileNotFoundError = false ->
  remove_payload self k l w1 = (mkWorld (w_env w1) (next_call (w_dev w1)), Raise (fault_exn f)).
Proof using.
  intros Ht Hf Hn. unfold remove_payload, bind at 1, lift. rewrite Ht. unfold bind, on_dev, zoom, on_missing, try_catch.
  unfold unlink, guarded, bind, syscall. rewrite Hf. unfold raise. by rewrite Hn.
Qed.
End Spec.

(** ** A concrete tier *)

Definition sample_nvme (mode : pystr) : NVMeTier := mkNVMeTier [str "srv"; str "kv"] [str "home"] 4096 true mode 4096.

Definition sample_disk (faults : nat -> option fault) : Fs :=
  mkFs ∅ {[ [str "srv"]; [str "srv"; str "kv"] ]} faults (fun _ _ => str "x1y2z3w4") 0 4096.

Definition nvme_world (faults : nat -> option fault) : World Fs :=
  mkWorld (sample_env fresh_store) (sample_disk faults).

Lemma sample_nvme_ok mode : layout_ok mode -> nvme_ok (sample_nvme mode).
Proof.
  intros Hm. split; [|done|done|].
  - repeat constructor; try (by apply (bool_decide_unpack _); vm_compute); try done.
  - intros _. cbn. repeat (constructor; try (unfold uri_plain, url_plain; lia)).
Qed.

Lemma nvme_world_start faults : nv_start (nvme_world faults).
Proof.
  split_and!.
  - split; [apply sample_clock|]. apply reachable_store, fresh_reachable.
  - split.
    + intros p f. cbn. by rewrite lookup_empty.
    + intros p. cbn. rewrite elem_of_union, !elem_of_singleton. intros [-> | ->]; repeat constructor; by apply plain_str.
    + intros n i. by apply plain_str.
  - intros id. vm_compute. by destruct id.
Qed.

Definition sample_store_call : nv_call := NTier (BStore sample_key sample_payload sample_metadata).

(** The world after the sample block was stored. *)
Definition nvme_stored (mode : pystr) (faults : nat -> option fault) : World Fs :=
  (store (H := ascii_data) (sample_nvme mode) sample_key sample_payload sample_metadata (nvme_world faults)).1.

Lemma nvme_stored_sound mode faults : layout_ok mode -> sound (sample_nvme mode) (nvme_stored mode faults).
Proof.
  intros Hm. unfold nvme_stored. apply store_step; [by apply sample_nvme_ok| |apply sample_input].
  apply start_sound; [by apply sample_nvme_ok|apply nvme_world_start].
Qed.

(** ** Properties *)

(** C10: the tier refines a map from keys to payloads. From a sound state, every
    method leaves a sound state and changes the map of the visible blocks as the
    abstract step allows, whichever file-system calls fail: what a load returns is
    the payload in the map, a lookup finds exactly the blocks of the map, a store
    that returns has added its block and nothing else, an eviction removes its own
    block only, a compaction changes nothing however it ends, and a call that
    raises adds nothing and changes no payload. *)
Theorem nvme_refines_map `{U : UnicodeData} self c w :
  nvme_ok self -> sound self w -> nv_call_ok c ->
  sound self (run_nv self c w).1 /\
  map_step (contents self w) (contents self (run_nv self c w).1) (abstract_call c) (seen (run_nv self c w).2).
Proof. intros Hok. by apply nv_step. Qed.

Lemma nvme_refines_map_witness :
  sound (sample_nvme content_addressed)
    (run_nv (U := ascii_data) (sample_nvme content_addressed) sample_store_call (nvme_world (fun _ => None))).1.
Proof.
  exact (proj1 (nvme_refines_map (U := ascii_data) (sample_nvme content_addressed) sample_store_call (nvme_world (fun _ => None))
    (sample_nvme_ok _ (or_introl eq_refl))
    (start_sound _ (sample_nvme_ok _ (or_introl eq_refl)) _ (nvme_world_start _)) sample_input)).
Defined.

(** C11: the disk invariant. After any sequence of calls on a tier that started
    without blocks, with any failures of the file system (torn writes included),
    the complete record of every visible block is on the disk, with the payload
    whose length and SHA-256 its row states, and the visible blocks are within
    [max_bytes]. *)
Theorem nvme_disk_invariant `{U : UnicodeData} self cs w :
  nvme_ok self -> nv_start w -> Forall nv_call_ok cs ->
  let w' := run_calls self cs w in
  (forall k r, key_valid k = true -> ms_blocks (env_store (w_env w')) !! row_key k NVME = Some r -> r_state r = active ->
     exists data, placed self (w_dev w') k r data /\ r_bytes r = zlen data /\ r_checksum r = sha256_hex data) /\
  sum_bytes NVME (ms_blocks (env_store (w_env w'))) <= nv_max_bytes self.
Proof.
  intros Hok Hw Hcs. destruct (run_sound self Hok cs w (start_sound self Hok w Hw) Hcs) as [[_ Hd] Hf]. split; [|exact Hf].
  intros k r Hk Hr Ha. destruct (di_data _ _ _ Hd k r Hk Hr Ha) as (data & Hp). exists data. split; [done|].
  destruct Hp as (t & m & b & Hp). apply (pl_row _ _ _ _ _ _ _ _ Hp).
Qed.

(** The write is torn after four bytes; the next one succeeds. *)
Definition torn_write (n : nat) : option fault :=
  if Nat.eqb n 1 then Some (mkFault (err OSError (str "No space left on device")) 4) else None.

Lemma nvme_disk_invariant_witness :
  sum_bytes NVME (ms_blocks (env_store (w_env (run_calls (U := ascii_data) (sample_nvme segment)
    [sample_store_call; sample_store_call; NCompact 7 false; NTier (BLoad sample_key)] (nvme_world torn_write))))) <= 4096.
Proof.
  exact (proj2 (nvme_disk_invariant (U := ascii_data) (sample_nvme segment)
    [sample_store_call; sample_store_call; NCompact 7 false; NTier (BLoad sample_key)] (nvme_world torn_write)
    (sample_nvme_ok _ (or_intror eq_refl)) (nvme_world_start _)
    ltac:(repeat constructor; apply sample_input))).
Defined.

(** C12: a stored block loads. In a tier whose root keeps its URIs (segment layout, or
    names without characters that URIs decode) and a sound state, when a store has
    returned, a load of its key returns the same bytes; if the read of the record
    fails, the load raises that error and the block stays visible in a sound state, so
    that it can be loaded again. *)
Theorem nvme_stored_block_loads `{U : UnicodeData} self w k data m w' sr :
  nvme_ok self -> sound self w -> input_ok m -> store self k data m w = (w', Ok sr) ->
  match fs_faults (w_dev w') (fs_calls (w_dev w')) with
  | None => exists w2 lr, load self k w' = (w2, Ok lr) /\ lr_data lr = data
  | Some f => is_a (fault_exn f) CorruptionDetected = false ->
      exists w2, load self k w' = (w2, Raise (fault_exn f)) /\ sound self w2 /\ contents self w2 k data
  end.
Proof.
  intros Hok Hw Hin E. destruct (store_step self Hok k data m w Hw Hin) as [H1 H2]. rewrite E in H1, H2. cbn in H1, H2.
  destruct H2 as (Hc & Ho & _). pose proof Hc as (Hk & r & Hr & Ha & Hp).
  destruct (fs_faults (w_dev w') (fs_calls (w_dev w'))) as [f|] eqn:Hf; [intros Hno|].
  - destruct (load_read_fails self Hok k w' r data f (proj1 H1) Hk Ho Hr Ha Hp Hf Hno) as (w2 & El & (F & _ & _ & S)).
    exists w2. split; [done|]. pose proof (nv_step self Hok (NTier (BLoad k)) w' H1 Hk) as [Hs _]. cbn [run_nv run_tier nvme_tier tier_load] in Hs.
    unfold bind in Hs. rewrite El in Hs. split; [exact Hs|]. by apply (same_contents self w' w2).
  - destruct (load_visible self Hok k w' r data (proj1 H1) Hk Ho Hr Ha Hp Hf) as (w2 & lr & El & Ed & _). eauto.
Qed.

Lemma nvme_stored_result :
  let r := store (H := ascii_data) (sample_nvme segment) sample_key sample_payload sample_metadata (nvme_world (fun _ => None)) in
  (is_ok r.2, fs_faults (w_dev r.1) (fs_calls (w_dev r.1))) = (true, None).
Proof. vm_compute. reflexivity. Qed.

Lemma nvme_stored_block_loads_witness :
  exists w2 lr, load (H := ascii_data) (sample_nvme segment) sample_key (nvme_stored segment (fun _ => None)) = (w2, Ok lr) /\
    lr_data lr = sample_payload.
Proof.
  pose proof nvme_stored_result as Hr. cbv zeta in Hr. unfold nvme_stored.
  destruct (store _ _ _ _ _) as [w' [sr|e]] eqn:E; [|discriminate].
  pose proof (nvme_stored_block_loads (U := ascii_data) (sample_nvme segment) (nvme_world (fun _ => None)) sample_key sample_payload
    sample_metadata w' sr (sample_nvme_ok _ (or_intror eq_refl))
    (start_sound _ (sample_nvme_ok _ (or_intror eq_refl)) _ (nvme_world_start _)) sample_input E) as Hl.
  rewrite (f_equal snd Hr : fs_faults (w_dev w') (fs_calls (w_dev w')) = None) in Hl. exact Hl.
Defined.

(** C13: what a load has checked, whatever bytes the disk holds. The file of the row's
    location holds a record of the tier's layout whose header states the length and
    the SHA-256 of the returned bytes; these are also those of the row. The block is
    the one asked for, and the returned metadata describes the payload (key, type,
    shape, tokens, sizes, digest, extra) as the header does, and as the metadata
    persisted in the row does. *)
Theorem nvme_load_integrity `{U : UnicodeData} self k w w' r :
  env_inv (w_env w) -> load self k w = (w', Ok r) ->
  lr_key r = k /\ lr_tier r = NVME /\ md_key (lr_metadata r) = k /\
  md_bytes (lr_metadata r) = PInt (zlen (lr_data r)) /\ md_checksum (lr_metadata r) = PStr (sha256_hex (lr_data r)) /\
  exists row q, ms_blocks (env_store (w_env w)) !! row_key k NVME = Some row /\ r_state row = active /\
    r_bytes row = zlen (lr_data r) /\ r_checksum row = sha256_hex (lr_data r) /\
    (forall now, persisted_metadata now (r_metadata_json row) = Ok q) /\
    descriptor_eqb (payload_descriptor q) (payload_descriptor (lr_metadata r)) = true /\
    exists d t f h m now, _validated_location_target self (row_location k NVME row d) = Ok t /\
      fs_files (w_dev w) !! target_path t = Some f /\
      match t with
      | inl p => _read_file now (nv_max_bytes self) f (path_text p) = Ok (h, lr_data r)
      | inr ref => _read_segment_record now (nv_max_bytes self) f (path_text (ref_path ref)) (ref_offset ref) (ref_record_bytes ref) = Ok (h, lr_data r)
      end /\
      get_or_none (str "layout_mode") h = PStr (match t with inr _ => segment | inl _ => content_addressed end) /\
      payload_size h = zlen (lr_data r) /\ header_checksum h = sha256_hex (lr_data r) /\
      (exists now', from_dict now' (get_or_none (str "metadata") h) = Ok m) /\
      payload_descriptor (lr_metadata r) = payload_descriptor (set_payload m (sha256_hex (lr_data r)) (zlen (lr_data r))).
Proof.
  intros Hi H. destruct (nvme_load_ok self k w w' r Hi H)
    as (_ & _ & row & d & h & m & t & f & now & now' & Hr & Ha & [(Hk & Ht & Hmk) [Hs Hs'] [Hc Hc'] (p & Hmd & Hdesc & nowq & q & Hq & Hpq) Hlay] & Hm & Htg & Hf & Hrd).
  cbn [row_location loc_bytes loc_checksum] in Hs, Hs', Hc.
  destruct (ro_metadata _ _ _ (inv_rows _ (env_store_inv _ Hi) _ _ Hr)) as (q' & Hq' & _).
  assert (q' = q) as -> by (destruct Hq' as [Hp' _]; rewrite Hp' in Hq; by injection Hq).
  rewrite Hmd. split_and!; try done. exists row, q. rewrite <- Hpq. split_and!; try done.
  - intros now0. by eapply row_md_persisted.
  - exists d, t, f, h, m, now'. split_and!; try done; [congruence|by exists now].
Qed.

(** The load of the stored sample. *)
Lemma nvme_sample_loads :
  exists w' r, load (H := ascii_data) (sample_nvme segment) sample_key (nvme_stored segment (fun _ => None)) = (w', Ok r).
Proof.
  pose proof nvme_stored_result as Hr. cbv zeta in Hr. unfold nvme_stored.
  destruct (store_step (U := ascii_data) _ (sample_nvme_ok segment (or_intror eq_refl)) sample_key sample_payload sample_metadata
    (nvme_world (fun _ => None)) (start_sound _ (sample_nvme_ok _ (or_intror eq_refl)) _ (nvme_world_start _)) sample_input) as [Hs Hp].
  destruct (store _ _ _ _ _) as [w' [sr|e]]; [|discriminate]. destruct Hp as ((Hk & r & Hrow & Ha & Hp) & Ho & _).
  destruct (load_visible (U := ascii_data) _ (sample_nvme_ok segment (or_intror eq_refl)) sample_key w' r sample_payload (proj1 Hs) Hk Ho Hrow Ha Hp
    (f_equal snd Hr)) as (w2 & lr & El & _). eauto.
Qed.

Lemma nvme_load_integrity_witness :
  exists w' r, load (H := ascii_data) (sample_nvme segment) sample_key (nvme_stored segment (fun _ => None)) = (w', Ok r) /\
    md_checksum (lr_metadata r) = PStr (sha256_hex (lr_data r)).
Proof.
  destruct nvme_sample_loads as (w' & r & E). exists w', r. split; [exact E|].
  exact (proj1 (proj2 (proj2 (proj2 (proj2 (nvme_load_integrity (U := ascii_data) (sample_nvme segment) sample_key
    (nvme_stored segment (fun _ => None)) w' r (proj1 (proj1 (nvme_stored_sound segment (fun _ => None) (or_intror eq_refl)))) E)))))).
Defined.

(** C36: an interrupted eviction. When the removal of the file fails, the block is
    hidden: it is not found, and it cannot be stored while its tombstone is
    pending. Calling [evict] again, once the file system works, removes the file
    and the tombstone. *)
Theorem nvme_interrupted_eviction_completes `{U : UnicodeData} self w k p r f :
  nvme_ok self -> sound self w -> key_valid k = true -> layout_mode self = content_addressed ->
  block_path resolve (root_dir self) k = Ok p -> _closed (env_store (w_env w)) = false ->
  ms_blocks (env_store (w_env w)) !! row_key k NVME = Some r -> r_state r = active -> r_in_flight r = 0 ->
  fs_faults (w_dev w) (fs_calls (w_dev w)) = Some f -> is_a (fault_exn f) FileNotFoundError = false ->
  exists w1, evict self k w = (w1, Raise (fault_exn f)) /\
    (exists w2, lookup self k w1 = (w2, Ok None)) /\
    (forall data m, md_key m = k -> exists w2, store self k data m w1 = (w2, Raise pending_delete)) /\
    (fs_faults (w_dev w) (S (fs_calls (w_dev w))) = None ->
     exists w2, evict self k w1 = (w2, Ok true) /\ ms_blocks (env_store (w_env w2)) !! row_key k NVME = None /\
       fs_files (w_dev w2) !! p = None).
Proof.
  intros Hok Hw Hk Hm Hp Ho Hr Ha Hfl Hf Hn. destruct (di_data _ _ _ (proj2 (proj1 Hw)) k r Hk Hr Ha) as (data & t & m & b & Hpl).
  pose proof (pl_target _ _ _ _ _ _ _ _ Hpl) as Ht. destruct t as [p'|ref]; [|destruct Ht as (Hm' & _); rewrite Hm in Hm'; done].
  destruct Ht as (_ & Hp' & Hu). rewrite Hp in Hp'. injection Hp' as <-. pose proof (pl_holds _ _ _ _ _ _ _ _ Hpl) as Hfile. cbn [holds] in Hfile.
  destruct (evict_begins self k w r Hw Ho Hr (or_intror (conj Ha Hfl))) as (w1 & d & r1 & E1 & D1 & T1 & S1 & Hd1 & Hc1).
  assert (forall r d, r_uri r = file_uri p -> _validated_location_target self (row_location k NVME r d) = Ok (inl p)) as Htg.
  { intros r0 d0 H0. by apply target_of_file. }
  rewrite <- D1 in Hf. rewrite (remove_fails self k _ p f w1 (Htg r d Hu) Hf Hn) in E1.
  eexists. split; [exact E1|]. set (w1' := mkWorld (w_env w1) (next_call (w_dev w1))).
  assert (_closed (env_store (w_env w1')) = false) as Ho1 by (cbn; by rewrite S1).
  assert (ms_blocks (env_store (w_env w1')) !! row_key k NVME = Some r1) as Hr1 by (cbn; by rewrite S1, put_row_lookup).
  assert (sound self w1') as Hw1.
  { pose proof (disk_evict self Hok _ (unpublished_stable self Hok _ _) k w (since_start self w Hw)) as H1. rewrite E1 in H1.
    by eapply since_sound. }
  split_and!.
  - by eapply lookup_tombstone.
  - intros data' m' Hm'. by eapply store_tombstone.
  - intros Hnext. destruct (evict_begins self k w1' r1 Hw1 Ho1 Hr1 (or_introl Hd1)) as (w3 & d3 & r3 & E3 & D3 & T3 & S3 & Hd3 & Hc3).
    rewrite E3. eapply (remove_runs self k _ p r3); [by apply Htg; injection Hc1 as ->|by rewrite D3; cbn; rewrite D1|by rewrite D3; cbn; rewrite D1|by rewrite S3|by rewrite S3, put_row_lookup|done].
Qed.

(** The call after a store is the removal, and it fails. *)
Definition failing_unlink (n : nat) : option fault :=
  if Nat.eqb n 5 then Some (mkFault (err OSError (str "Input/output error")) 0) else None.

Definition sample_block_path : path :=
  match block_path resolve (root_dir (sample_nvme content_addressed)) sample_key with Ok p => p | Raise _ => [] end.

Lemma nvme_stored_view :
  let w := nvme_stored content_addressed failing_unlink in
  (_closed (env_store (w_env w)),
   (fun r => (r_state r, r_in_flight r)) <$> ms_blocks (env_store (w_env w)) !! row_key sample_key NVME,
   fs_calls (w_dev w), fs_faults (w_dev w) 5, fs_faults (w_dev w) 6) =
  (false, Some (active, 0), 5%nat, Some (mkFault (err OSError (str "Input/output error")) 0), None).
Proof. vm_compute. reflexivity. Qed.

Lemma nvme_interrupted_eviction_completes_witness :
  exists w1 e, evict (H := ascii_data) (sample_nvme content_addressed) sample_key (nvme_stored content_addressed failing_unlink) = (w1, Raise e) /\
    exists w2, evict (H := ascii_data) (sample_nvme content_addressed) sample_key w1 = (w2, Ok true) /\ fs_files (w_dev w2) !! sample_block_path = None.
Proof.
  pose proof nvme_stored_view as Hv. pose proof (nvme_stored_sound content_addressed failing_unlink (or_introl eq_refl)) as Hs.
  cbv zeta in Hv. revert Hv Hs. generalize (nvme_stored content_addressed failing_unlink). intros w Hv Hs.
  injection Hv as Hc Hr Hn Hf1 Hf2. apply fmap_Some in Hr as (r & Hr & Er). injection Er as Ha Hfl.
  destruct (nvme_interrupted_eviction_completes (U := ascii_data) (sample_nvme content_addressed) w
    sample_key sample_block_path r (mkFault (err OSError (str "Input/output error")) 0)
    (sample_nvme_ok _ (or_introl eq_refl)) Hs sample_key_valid eq_refl eq_refl Hc Hr (eq_sym Ha) (eq_sym Hfl)) as (w1 & E1 & _ & _ & H2).
  - rewrite Hn. exact Hf1.
  - reflexivity.
  - exists w1, (err OSError (str "Input/output error")). split; [exact E1|].
    destruct H2 as (w2 & E2 & _ & Hf); [by rewrite Hn|]. exists w2. split; [exact E2|exact Hf].
Defined.

(** [_ensure_capacity] terminates. Its [while] loop leaves after at most as many
    evictions as there are rows: more rounds than that never change the outcome. *)
Theorem nvme_capacity_loop_bounded `{U : UnicodeData} self extra n x current w :
  env_inv (w_env w) ->
  let rows := size (ms_blocks (env_store (w_env w))) in
  free_space self (S rows + extra) n x current w = free_space self (S rows) n x current w.
Proof. intros Hi. cbv zeta. apply free_space_bound; [done|lia]. Qed.

Lemma nvme_capacity_loop_bounded_witness :
  free_space (H := ascii_data) (sample_nvme segment) 8 4096 sample_key 100 (nvme_world (fun _ => None)) =
  free_space (H := ascii_data) (sample_nvme segment) 1 4096 sample_key 100 (nvme_world (fun _ => None)).
Proof.
  exact (nvme_capacity_loop_bounded (U := ascii_data) (sample_nvme segment) 7 4096 sample_key 100 (nvme_world (fun _ => None))
    (proj1 (nvme_world_start (fun _ => None)))).
Defined.

(** A segment location round trips. The URI written for a place in a segment
    file of the key's directory is accepted by the validation and gives back the
    path, the offset and the length, whatever characters the path has. *)
Theorem nvme_segment_uri_round_trip `{U : UnicodeData} self k ref uri :
  nvme_ok self -> key_valid k = true -> ref_ok self k ref -> _segment_uri ref = Ok uri ->
  _segment_ref_from_uri self uri (Some k) = Ok ref.
Proof. intros Hok. by apply segment_uri_parse. Qed.

(** A place in a segment of a tier whose root has a blank and a percent sign. *)
Definition odd_nvme : NVMeTier := mkNVMeTier [str "srv"; str "kv 50%"] [str "home"] 4096 true segment 4096.

Definition odd_ref : SegmentRef :=
  mkSegmentRef (match namespace_dir resolve (segment_root odd_nvme) sample_key with Ok d => d | Raise _ => [] end
                ++ [str "segment-000003.kvseg"]) 17 120.

Lemma odd_nvme_ok : nvme_ok odd_nvme.
Proof. split; [|by right|done|done]. repeat constructor; try (by apply (bool_decide_unpack _); vm_compute); try done. Qed.

Lemma nvme_segment_uri_round_trip_witness :
  _segment_ref_from_uri (H := ascii_data) odd_nvme
    (match _segment_uri odd_ref with Ok u => u | Raise _ => [] end) (Some sample_key) = Ok odd_ref.
Proof.
  refine (nvme_segment_uri_round_trip (U := ascii_data) odd_nvme sample_key odd_ref _ odd_nvme_ok sample_key_valid _ _).
  - destruct (namespace_dir_eq odd_nvme odd_nvme_ok sample_key sample_key_valid) as (ns & Hns & Hc). split.
    + unfold odd_ref. cbn [ref_path]. rewrite Hns. apply Forall_app_2; [apply Forall_app_2; [apply segment_root_ok, odd_nvme_ok|exact Hc]|].
      repeat constructor; try (by apply (bool_decide_unpack _); vm_compute); done.
    + unfold odd_ref. cbn [ref_path]. rewrite Hns, path_parent_snoc. reflexivity.
    + unfold odd_ref. cbn [ref_path]. rewrite path_name_snoc. vm_compute. reflexivity.
    + unfold odd_ref. cbn [ref_path]. by destruct (match _ with Ok d => d | Raise _ => [] end).
    + unfold odd_ref. cbn. vm_compute. repeat split; discriminate || reflexivity.
  - vm_compute. reflexivity.
Defined.

(** ** A root directory with a percent sign

    File locations are written without percent-encoding and read with decoding:
    below such a root a block is stored and cannot be looked up. *)

Definition percent_nvme : NVMeTier :=
  mkNVMeTier [str "srv"; str "50%25"] [str "home"] 4096 true content_addressed 4096.

Theorem percent_in_root_hides_blocks :
  let stored := store (H := ascii_data) percent_nvme sample_key sample_payload sample_metadata
                  (nvme_world (fun _ => None)) in
  is_ok stored.2 = true /\
  (lookup (H := ascii_data) percent_nvme sample_key stored.1).2 =
    Raise (err MetadataMismatch (str "persisted file location is not canonical")).
Proof. vm_compute. split; reflexivity. Qed.
