(* ===== verification/S3Client.v ===== *)
(** * The object-store client and the reading of a response: [kvstore/s3_tier.py]

    [S3Client] is what [S3Tier] calls of its client, an object of code outside the
    repository: four operations over a state [D], which may raise anything. A
    response body is the bytes themselves or an object with [read] and [close].
    [_read_body] reads one record from a body in pieces of any size. *)

From S2P Require Import Prelude PyText Sha256 Float64 Errors PyVal Json JsonFacts Metadata MetadataFacts Record.
Import MNotations ResNotations.
Local Open Scope m_scope.

(** What [body.read(n)] returns: bytes, or another object with its [len()], if it
    has one. *)
Inductive chunk := Chunk (data : pybytes) | NotBytes (len : option Z).

(** A body over the state [D]: [getattr(body, "read", None)] and
    [getattr(body, "close", None)] of an object. *)
Inductive Body (D : Type) :=
  | BodyBytes (data : pybytes)
  | BodyObject (read : option (Z -> M D chunk)) (close : option (M D unit)).
Arguments BodyBytes {D} data.
Arguments BodyObject {D} read close.

(** The client. [get_object] returns what [response["Body"]] evaluates to;
    [injection_stats] is [stats()] when the client is a [FaultInjectingS3Client]. *)
Record S3Client (D : Type) := {
  put_object : pystr -> pystr -> pybytes -> list (pystr * pystr) -> M D unit;
  get_object : pystr -> pystr -> M D (res (Body D));
  head_object : pystr -> pystr -> M D unit;
  delete_object : pystr -> pystr -> M D unit;
  injection_stats : option (M D pyval);
}.
Arguments put_object {D} _ bucket key body metadata.
Arguments get_object {D} _ bucket key.
Arguments head_object {D} _ bucket key.
Arguments delete_object {D} _ bucket key.
Arguments injection_stats {D} _.

(** [_is_not_found(exc, allow_ambiguous_404)]. *)
Definition _is_not_found (allow_ambiguous_404 : bool) (e : exn) : bool :=
  match exn_cls e with
  | ResponseError _ code =>
      bool_decide (code = str "NoSuchKey") ||
      (allow_ambiguous_404 && (bool_decide (code = str "404") || bool_decide (code = str "NotFound")))
  | _ => false
  end ||
  (let name := str_lower (class_name (exn_cls e)) in
   bool_decide (name = str "nosuchkey") || bool_decide (name = str "nosuchkeyerror")).

(** ** [_BytesBody] *)

Record BytesBody := mkBytesBody { _data : pybytes; _offset : Z }.

Definition bytes_read (size : Z) : M BytesBody chunk := fun b =>
  let size := if size <? 0 then zlen (_data b) - _offset b else size in
  let stop := Z.min (_offset b + size) (zlen (_data b)) in
  (mkBytesBody (_data b) stop,
   Ok (Chunk (drop (Z.to_nat (_offset b)) (take (Z.to_nat stop) (_data b))))).

Definition bytes_close : M BytesBody unit := ret tt.

(** ** Reading *)

(** [try: m except Exception as exc: ...], the outcome kept as a value. *)
Definition attempt {X A} (m : M X A) : M X (res A) := fun x => let '(x', r) := m x in (x', Ok r).

Definition unavailable (what : pystr) : exn := err TierUnavailable what.

(** [read_error.close_error = close_error]. *)
Definition with_close_error (e : exn) (close_error : option exn) : exn :=
  match close_error with
  | Some c => let '(Exn cls m cause _) := e in Exn cls m cause (Some c)
  | None => e
  end.

Section Reading.
Context {X : Type}.

Definition _read_chunk (read : Z -> M X chunk) (size : Z) : M X pybytes :=
  let* data := try_catch (read size)
    (fun e => raise (err_from TierUnavailable (str "s3 response body read failed") e)) in
  match data with
  | NotBytes _ => raise (unavailable (str "s3 response body read returned non-bytes data"))
  | Chunk c =>
      when (size <? zlen c) (raise (unavailable (str "s3 response body ignored bounded read size"))) ;;
      ret c
  end.

(** The [while] loop of [_read_exact]: every round but the last takes at least one
    byte, so [remaining] rounds are enough. *)
Fixpoint read_loop (read : Z -> M X chunk) (short : exn) (fuel : nat) (remaining : Z) : M X pybytes :=
  if remaining <=? 0 then ret []
  else match fuel with
       | O => raise (err (ForeignError (str "model")) (str "loop bound"))
       | S fuel' =>
           let* c := _read_chunk read remaining in
           match c with
           | [] => raise short
           | _ => let* rest := read_loop read short fuel' (remaining - zlen c) in ret (c ++ rest)
           end
       end.

Definition _read_exact (read : Z -> M X chunk) (size : Z) (source : pystr) (error_type : exn_class) (detail : pystr)
  : M X pybytes :=
  read_loop read (err error_type (source ++ str ": " ++ detail)) (Z.to_nat size) size.

(** The record: prefix, header, payload and the end of the body. *)
Definition read_parts (now : f64) (read : Z -> M X chunk) (source : pystr) (max_payload_bytes : Z)
  : M X (list (pystr * pyval) * pybytes) :=
  let* prefix := _read_exact read (8 + Z.of_nat HEADER_LEN_SIZE) source ChecksumMismatch (str "truncated record prefix") in
  when (negb (bool_decide (take 8 prefix = MAGIC))) (raise (err ChecksumMismatch source)) ;;
  let header_len := header_len_unpack (drop 8 prefix) in
  when ((header_len <=? 0) || (MAX_HEADER_BYTES <? header_len))
    (raise (format_error source (str ": invalid record header length"))) ;;
  let* encoded_header := _read_exact read header_len source RecordFormatError (str "truncated record header") in
  let* header := lift (decode_record_header now encoded_header source max_payload_bytes false) in
  let* payload := _read_exact read (payload_size header) source ChecksumMismatch (str "payload length mismatch") in
  let* extra := _read_chunk read 1 in
  when (negb (bool_decide (extra = []))) (raise (err ChecksumMismatch (source ++ str ": trailing record data"))) ;;
  ret (header, payload).

(** [_read_body] once [read] and [close] are known. *)
Definition read_object_body (now : f64) (read : option (Z -> M X chunk)) (close : option (M X unit))
    (source : pystr) (max_payload_bytes : Z) : M X (list (pystr * pyval) * pybytes) :=
  match read with
  | None =>
      match close with
      | Some c => try_catch c (fun e => raise (err_from TierUnavailable (str "s3 body is unreadable and close failed") e))
      | None => ret tt
      end ;;
      raise (unavailable (str "s3 body does not support read"))
  | Some read =>
      let* result := attempt (read_parts now read source max_payload_bytes) in
      let* closed := match close with Some c => attempt c | None => ret (Ok tt) end in
      let close_error := match closed with Raise e => Some e | Ok _ => None end in
      match result, close_error with
      | Raise read_error, _ => raise (with_close_error read_error close_error)
      | Ok _, Some e => raise (err_from TierUnavailable (str "s3 response body close failed") e)
      | Ok r, None => ret r
      end
  end.
End Reading.

(** [_read_body(body, source, max_payload_bytes)]; plain bytes are wrapped in a
    [_BytesBody] of the call. *)
Definition _read_body {D} (now : f64) (body : Body D) (source : pystr) (max_payload_bytes : Z)
  : M D (list (pystr * pyval) * pybytes) :=
  match body with
  | BodyBytes data => fun d =>
      (d, (read_object_body now (Some bytes_read) (Some bytes_close) source max_payload_bytes (mkBytesBody data 0)).2)
  | BodyObject read close => read_object_body now read close source max_payload_bytes
  end.

(** ** The record as a whole *)

(** What [_read_body] means: the record in a given sequence of bytes. *)
Definition whole_record (now : f64) (f : pybytes) (source : pystr) (max_payload_bytes : Z)
  : res (list (pystr * pyval) * pybytes) :=
  (ensure (12 <=? zlen f) (err ChecksumMismatch (source ++ str ": truncated record prefix")) ;?
   ensure (bool_decide (take 8 f = MAGIC)) (err ChecksumMismatch source) ;?
   let header_len := header_len_unpack (take 4 (drop 8 f)) in
   ensure (negb ((header_len <=? 0) || (MAX_HEADER_BYTES <? header_len)))
     (format_error source (str ": invalid record header length")) ;?
   let f := drop 12 f in
   ensure (header_len <=? zlen f) (err RecordFormatError (source ++ str ": truncated record header")) ;?
   let? header := decode_record_header now (take (Z.to_nat header_len) f) source max_payload_bytes false in
   let f := drop (Z.to_nat header_len) f in
   ensure (payload_size header <=? zlen f) (err ChecksumMismatch (source ++ str ": payload length mismatch")) ;?
   ensure (zlen f <=? payload_size header) (err ChecksumMismatch (source ++ str ": trailing record data")) ;?
   Ok (header, take (Z.to_nat (payload_size header)) f))%res.

(** [read] delivers the bytes left in the state: [rest x bs] says that [bs] are
    left in [x]. A read may fail, or break its contract, only if [F]; it keeps
    [I]. *)
Record stream {X} (F : Prop) (I : X -> Prop) (read : Z -> M X chunk) (rest : X -> pybytes -> Prop) : Prop := {
  st_inv x bs : rest x bs -> I x;
  st_read n x bs : rest x bs -> 0 < n ->
    match read n x with
    | (x', Ok (Chunk c)) => exists bs', bs = c ++ bs' /\ (c = [] -> bs = []) /\ rest x' bs' /\ (n < zlen c -> F)
    | (x', _) => F /\ I x'
    end;
}.

Section Stream.
Context {X : Type} (F : Prop) (I : X -> Prop) (read : Z -> M X chunk) (rest : X -> pybytes -> Prop).
Context (Hs : stream F I read rest).

Definition broken (e : exn) : Prop := F /\ is_a e TierUnavailable = true.

Lemma read_chunk_stream n x bs :
  rest x bs -> 0 < n ->
  match _read_chunk read n x with
  | (x', Ok c) => exists bs', bs = c ++ bs' /\ (c = [] -> bs = []) /\ rest x' bs' /\ zlen c <= n
  | (x', Raise e) => I x' /\ broken e
  end.
Proof using Hs.
  intros Hr Hn. pose proof (st_read _ _ _ _ Hs n x bs Hr Hn) as H. unfold _read_chunk, bind, try_catch.
  destruct (read n x) as [x' [[c|l]|e]].
  - destruct H as (bs' & E & Hc & Hr' & HF). destruct (Z.ltb_spec n (zlen c)); cbn [when].
    + split; [by eapply st_inv|]. by split; [apply HF|].
    + exists bs'. split_and!; [done..|lia].
  - by destruct H.
  - by destruct H.
Qed.

Lemma read_loop_stream short fuel n x bs :
  rest x bs -> (Z.to_nat n <= fuel)%nat ->
  match read_loop read short fuel n x with
  | (x', Ok c) => (n <= zlen bs)%Z /\ c = take (Z.to_nat n) bs /\ rest x' (drop (Z.to_nat n) bs)
  | (x', Raise e) => I x' /\ (broken e \/ (zlen bs < n /\ e = short))
  end.
Proof using Hs.
  revert n x bs. induction fuel as [|fuel IH]; intros n x bs Hr Hf; cbn [read_loop];
    destruct (Z.leb_spec n 0) as [Hn|Hn]; [|lia| |].
  1,2: assert (Z.to_nat n = 0)%nat as -> by lia; rewrite take_0, drop_0; split_and!; [lia|done|done].
  pose proof (read_chunk_stream n x bs Hr ltac:(lia)) as H. unfold bind at 1.
  destruct (_read_chunk read n x) as [x' [c|e]]; [|naive_solver].
  destruct H as (bs' & -> & Hc & Hr' & Hl). destruct c as [|b c].
  - cbn in Hc. split; [by eapply st_inv|]. right. rewrite (Hc eq_refl). split; [simpl; lia|done].
  - set (c' := b :: c) in *. assert (0 < zlen c') as Hp by (unfold c'; simpl; lia).
    specialize (IH (n - zlen c') x' bs' Hr' ltac:(lia)). unfold bind.
    destruct (read_loop read short fuel (n - zlen c') x') as [x2 [c2|e]].
    + destruct IH as (Hl2 & -> & Hr2). rewrite length_app, Nat2Z.inj_add.
      rewrite take_app_ge, drop_app_ge by lia.
      replace (Z.to_nat n - length c')%nat with (Z.to_nat (n - zlen c')) by lia. split_and!; [lia|done|done].
    + destruct IH as [Hi [Hb|[Hl2 ->]]]; (split; [done|]); [by left|]. right. rewrite length_app, Nat2Z.inj_add. split; [lia|done].
Qed.

Lemma read_exact_stream n x bs source c detail :
  rest x bs ->
  match _read_exact read n source c detail x with
  | (x', Ok b) => n <= zlen bs /\ b = take (Z.to_nat n) bs /\ rest x' (drop (Z.to_nat n) bs)
  | (x', Raise e) => I x' /\ (broken e \/ (zlen bs < n /\ e = err c (source ++ str ": " ++ detail)))
  end.
Proof using Hs. intros Hr. by apply read_loop_stream. Qed.

(** What a read of the record amounts to. *)
Definition reads_as {A} (whole : res A) (r : res A) : Prop := r = whole \/ exists e, r = Raise e /\ broken e.

(** A read that fails, or that comes up short where [whole_record] says so too. *)
Lemma short_read {A} x e short n (bs : pybytes) (whole : res A) :
  I x /\ (broken e \/ (zlen bs < n /\ e = short)) -> (zlen bs < n -> whole = Raise short) ->
  I x /\ reads_as whole (Raise e).
Proof using.
  intros [Hi [Hb|[Hl ->]]] Hw; (split; [done|]); [right; by exists e|left; by rewrite Hw].
Qed.

Lemma read_parts_stream now source maxb x bs :
  rest x bs -> match read_parts now read source maxb x with (x', r) => I x' /\ reads_as (whole_record now bs source maxb) r end.
Proof using Hs.
  intros Hr. unfold read_parts, whole_record. change (8 + Z.of_nat HEADER_LEN_SIZE) with 12.
  pose proof (read_exact_stream 12 x bs source ChecksumMismatch (str "truncated record prefix") Hr) as H1. unfold bind at 1.
  destruct (_read_exact read 12 source ChecksumMismatch (str "truncated record prefix") x) as [x1 [pre|e]]; cbn [fst snd].
  2: { eapply short_read; [exact H1|]. intros Hx. by destruct (Z.leb_spec 12 (zlen bs)); [lia|]. }
  destruct H1 as (Hl & -> & Hr1). change (Z.to_nat 12) with 12%nat in *.
  destruct (Z.leb_spec 12 (zlen bs)); [|lia]. cbn [ensure res_bind].
  rewrite take_take. change (8 `min` 12)%nat with 8%nat. unfold bind at 1.
  destruct (bool_decide (take 8 bs = MAGIC)); cbn [negb when ensure res_bind raise ret]; cycle 1.
  { split; [by eapply st_inv|by left]. }
  replace (drop 8 (take 12 bs)) with (take 4 (drop 8 bs)) by (rewrite skipn_firstn_comm; done).
  set (n := header_len_unpack (take 4 (drop 8 bs))). unfold bind at 1.
  destruct ((n <=? 0) || (MAX_HEADER_BYTES <? n)) eqn:En; cbn [negb when ensure res_bind raise ret].
  { split; [by eapply st_inv|by left]. }
  pose proof (read_exact_stream n x1 (drop 12 bs) source RecordFormatError (str "truncated record header") Hr1) as H2. unfold bind at 1.
  destruct (_read_exact read n source RecordFormatError (str "truncated record header") x1) as [x2 [hd|e]]; cbn [fst snd].
  2: { eapply short_read; [exact H2|]. intros Hx. by destruct (Z.leb_spec n (zlen (drop 12 bs))); [lia|]. }
  destruct H2 as (Hl2 & -> & Hr2). destruct (Z.leb_spec n (zlen (drop 12 bs))); [|lia]. cbn [ensure res_bind].
  unfold bind at 1, lift.
  destruct (decode_record_header now (take (Z.to_nat n) (drop 12 bs)) source maxb false) as [h|e] eqn:Ed; cbn [res_bind fst snd]; cycle 1.
  { split; [by eapply st_inv|by left]. }
  set (f := drop (Z.to_nat n) (drop 12 bs)) in *.
  pose proof (read_exact_stream (payload_size h) x2 f source ChecksumMismatch (str "payload length mismatch") Hr2) as H3. unfold bind at 1.
  destruct (_read_exact read (payload_size h) source ChecksumMismatch (str "payload length mismatch") x2) as [x3 [p|e]]; cbn [fst snd].
  2: { eapply short_read; [exact H3|]. intros Hx. by destruct (Z.leb_spec (payload_size h) (zlen f)); [lia|]. }
  destruct H3 as (Hl3 & -> & Hr3). destruct (Z.leb_spec (payload_size h) (zlen f)); [|lia]. cbn [ensure res_bind].
  pose proof (read_chunk_stream 1 x3 _ Hr3 ltac:(lia)) as H4. unfold bind at 1.
  destruct (_read_chunk read 1 x3) as [x4 [c|e]]; cbn [fst snd]; [|split; [apply H4|right; exists e; split; [done|apply H4]]].
  destruct H4 as (bs' & E & Hc & Hr4 & _). unfold bind.
  apply decode_inv in Ed as (m & c0 & z & Ez & Hz & _). unfold payload_size in *. rewrite Ez in *.
  pose proof (f_equal length E) as El. rewrite length_drop, length_app in El.
  case_bool_decide as Hx; cbn [negb when raise ret]; (split; [by eapply st_inv|left]).
  - subst c. pose proof (f_equal length (Hc eq_refl)) as Hq. rewrite length_drop in Hq. simpl in Hq.
    destruct (Z.leb_spec (zlen f) z); [done|lia].
  - destruct (Z.leb_spec (zlen f) z); [|done]. destruct c; [done|]. simpl in El. lia.
Qed.
End Stream.

(** ** Bodies *)

(** The body delivers the bytes [bs] from the state [d] on, keeping [I]; it may
    fail only if [F]. *)
Definition delivers {D} (F : Prop) (I : D -> Prop) (b : Body D) (d : D) (bs : pybytes) : Prop :=
  match b with
  | BodyBytes data => I d /\ bs = data
  | BodyObject read close =>
      (exists r rest, read = Some r /\ stream F I r rest /\ rest d bs) /\
      match close with
      | Some c => forall d, I d -> I (c d).1 /\ (is_ok (c d).2 = false -> F)
      | None => True
      end
  end.

(** What reading a body amounts to: the record in its bytes; or, if it can fail,
    an outage, or the error of the record with the error of closing attached. *)
Definition body_reads {A} (F : Prop) (whole r : res A) : Prop :=
  r = whole \/
  F /\ ((exists e, r = Raise e /\ is_a e TierUnavailable = true) \/
        (exists e c, whole = Raise e /\ r = Raise (with_close_error e (Some c)))).

Lemma with_close_is_a e c cls : is_a (with_close_error e c) cls = is_a e cls.
Proof. by destruct c, e. Qed.

Lemma read_object_delivers {X} F I read close (rest : X -> pybytes -> Prop) now source maxb x bs :
  stream F I read rest -> rest x bs ->
  match close with Some c => forall d, I d -> I (c d).1 /\ (is_ok (c d).2 = false -> F) | None => True end ->
  match read_object_body now (Some read) close source maxb x with
  | (x', r) => I x' /\ body_reads F (whole_record now bs source maxb) r
  end.
Proof.
  intros Hs Hr Hc. pose proof (read_parts_stream F I read rest Hs now source maxb x bs Hr) as H.
  unfold read_object_body, attempt, bind. destruct (read_parts now read source maxb x) as [x1 r1]. destruct H as [Hi Hw].
  destruct close as [c|].
  - destruct (Hc x1 Hi) as [Hi2 Hf]. destruct (c x1) as [x2 [[]|ce]]; cbn [fst snd is_ok] in *.
    + destruct Hw as [-> |(e & -> & Hb & Ha)]; [by destruct (whole_record _ _ _ _); (split; [done|left])|].
      split; [done|]. right. split; [done|]. left. by exists e.
    + destruct r1 as [v|e]; (split; [done|]); right; (split; [by apply Hf|]).
      * left. eexists. split; [reflexivity|done].
      * destruct Hw as [Hw|(e' & [= <-] & Hb & Ha)]; [right; eauto|left]. eexists. split; [reflexivity|].
        by rewrite with_close_is_a.
  - destruct Hw as [-> |(e & -> & Hb & Ha)]; [by destruct (whole_record _ _ _ _); (split; [done|left])|].
    split; [done|]. right. split; [done|]. left. by exists e.
Qed.

(** Bytes in memory are a stream that never fails. *)
Definition bytes_left (b : BytesBody) (bs : pybytes) : Prop :=
  0 <= _offset b <= zlen (_data b) /\ bs = drop (Z.to_nat (_offset b)) (_data b).

Lemma bytes_stream : stream False (fun _ => True) bytes_read bytes_left.
Proof.
  split; [done|]. intros n [data o] bs [Ho ->] Hn. cbn in Ho |- *. destruct (Z.ltb_spec n 0); [lia|].
  set (stop := Z.min (o + n) (zlen data)). exists (drop (Z.to_nat stop) data).
  rewrite skipn_firstn_comm. split; [|split; [|split]].
  - rewrite <- (take_drop (Z.to_nat stop - Z.to_nat o) (drop (Z.to_nat o) data)) at 1.
    f_equal. rewrite drop_drop. f_equal. lia.
  - intros E. apply (f_equal length) in E. rewrite length_take, length_drop in E. simpl in E.
    apply nil_length_inv. rewrite length_drop. lia.
  - split; [cbn; lia|done].
  - rewrite length_take, length_drop. lia.
Qed.

Lemma read_body_delivers {D} F I now (b : Body D) source maxb d bs :
  delivers F I b d bs ->
  match _read_body now b source maxb d with (d', r) => I d' /\ body_reads F (whole_record now bs source maxb) r end.
Proof.
  destruct b as [data|read close]; cbn [delivers _read_body].
  - intros [Hi ->]. split; [done|].
    pose proof (read_object_delivers False (fun _ => True) bytes_read (Some bytes_close) bytes_left now source maxb
      (mkBytesBody data 0) data bytes_stream) as H.
    destruct (read_object_body _ _ _ _ _ _) as [x r]. destruct H as [_ [-> |[[] _]]]; [split; [cbn; lia|done]|done|by left].
  - intros [(r & rest & -> & Hs & Hr) Hc]. by apply (read_object_delivers F I r close rest).
Qed.

(** ** The contract of an object store *)

(** [objects d] are the objects of the store; [good] is an invariant of the
    client. The store is consistent: what is put is read until it is deleted, and
    an answer that an object is missing is true. A call may fail at any time; then
    a change has been made or not. Bodies may fail while they are read. *)
Record s3_laws {D} (client : S3Client D) (good : D -> Prop) (objects : D -> gmap (pystr * pystr) pybytes) : Prop := {
  law_put b k body md d : good d ->
    let r := put_object client b k body md d in
    good r.1 /\ (objects r.1 = <[(b, k) := body]> (objects d) \/ (is_ok r.2 = false /\ objects r.1 = objects d));
  law_head b k d : good d ->
    let r := head_object client b k d in
    good r.1 /\ objects r.1 = objects d /\
    match r.2 with
    | Ok _ => is_Some (objects d !! (b, k))
    | Raise e => _is_not_found true e = true -> objects d !! (b, k) = None
    end;
  law_get b k d : good d ->
    let r := get_object client b k d in
    good r.1 /\ objects r.1 = objects d /\
    match r.2 with
    | Ok (Ok body) => exists bs, objects d !! (b, k) = Some bs /\
        delivers True (fun d' => good d' /\ objects d' = objects d) body r.1 bs
    | Ok (Raise e) => is_a e KeyError = true \/ is_a e TypeError = true
    | Raise e => _is_not_found false e = true -> objects d !! (b, k) = None
    end;
  law_delete b k d : good d ->
    let r := delete_object client b k d in
    good r.1 /\ (objects r.1 = delete (b, k) (objects d) \/ (is_ok r.2 = false /\ objects r.1 = objects d));
  law_stats s d : injection_stats client = Some s -> good d -> good (s d).1 /\ objects (s d).1 = objects d;
}.

Lemma not_found_weaken e : _is_not_found false e = true -> _is_not_found true e = true.
Proof.
  unfold _is_not_found. rewrite !orb_true_iff. intros [H|H]; [left|by right].
  destruct (exn_cls e); try done. cbn in *. rewrite orb_false_r in H. by rewrite H.
Qed.
