(* ===== verification/PyConv.v ===== *)
(** * Conversions of Python values: [int()], [float()], [str()], [str.strip()]

    What the configuration code does to the values of a decoded document. A text
    that is not ASCII is converted through Unicode tables, and the [repr] of a
    container or an object is its own protocol: those are the class
    [PyBuiltins]. *)

From Stdlib Require Import SpecFloat.
From S2P Require Import Prelude PyText Float64 Errors PyVal Json JsonFacts Metrics Tokenization Url UrlFacts.
Import ResNotations.
Local Open Scope res_scope.

Class PyBuiltins := {
  (** [float()] of a text that is not ASCII *)
  float_of_unicode : pystr -> option f64;
  (** [str()] of a list, a tuple, a dictionary or another object *)
  repr_of_object : pyval -> pystr;
}.

(** ** [float()] of a text *)

(** Underscores are dropped; each must stand between two digits. *)
Fixpoint drop_underscores (prev : Z) (s : pystr) : option pystr :=
  match s with
  | [] => if prev =? 95 then None else Some []
  | c :: r =>
      if c =? 95 then if is_digit prev then drop_underscores c r else None
      else if (prev =? 95) && negb (is_digit c) then None
      else cons c <$> drop_underscores c r
  end.

Definition scan_sign (s : pystr) : bool * pystr :=
  match eat 45 s with
  | Some r => (true, r)
  | None => (false, default s (eat 43 s))
  end.

(** Digits with an optional point, and an optional exponent. *)
Definition scan_decimal (neg : bool) (s : pystr) : option f64 :=
  let '(ip, r1) := span_digits s in
  let '(fr, r2) := match eat 46 r1 with Some r => span_digits r | None => ([], r1) end in
  let '(ex, r3) := scan_exp r2 in
  if bool_decide (ip ++ fr = []) || negb (bool_decide (r3 = [])) then None
  else Some (f64_of_decimal neg (dec_value (ip ++ fr)) (default 0 ex - zlen fr)).

Definition float_of_ascii (s : pystr) : option f64 :=
  match drop_underscores 0 (strip_spaces s) with
  | None => None
  | Some t =>
      let '(neg, body) := scan_sign t in
      let word := str_lower body in
      if bool_decide (word = str "inf") || bool_decide (word = str "infinity") then Some (S754_infinity neg)
      else if bool_decide (word = str "nan") then Some S754_nan
      else scan_decimal neg body
  end.

Section Conversions.
Context `{UnicodeData} `{PyBuiltins}.

Definition float_of_text (s : pystr) : option f64 :=
  if forallb is_ascii s then float_of_ascii s else float_of_unicode s.

(** [float(v)]. *)
Definition py_float (v : pyval) : res f64 :=
  match v with
  | PFloat f => Ok f
  | PInt z => let f := f64_of_Z z in
              ensure (f64_finite f) (err OverflowError (str "int too large to convert to float")) ;? Ok f
  | PBool b => Ok (f64_of_Z (if b then 1 else 0))
  | PStr s => match float_of_text s with
              | Some f => Ok f
              | None => Raise (err ValueError (str "could not convert string to float"))
              end
  | _ => Raise (err TypeError (str "float() argument must be a string or a real number"))
  end.

(** [int(v)]; floats are truncated. *)
Definition py_int (v : pyval) : res Z :=
  match v with
  | PInt z => Ok z
  | PBool b => Ok (if b then 1 else 0)
  | PFloat (S754_finite s m e) =>
      let a := if 0 <=? e then Z.pos m * 2 ^ e else Z.pos m / 2 ^ (- e) in Ok (if s then - a else a)
  | PFloat (S754_zero _) => Ok 0
  | PFloat (S754_infinity _) => Raise (err OverflowError (str "cannot convert float infinity to integer"))
  | PFloat S754_nan => Raise (err ValueError (str "cannot convert float NaN to integer"))
  | PStr s => int_of_text s
  | _ => Raise (err TypeError (str "int() argument must be a string, a bytes-like object or a real number"))
  end.

(** [str(v)]. *)
Definition py_str (v : pyval) : res pystr :=
  match v with
  | PStr s => Ok s
  | PNone => Ok (str "None")
  | PBool b => Ok (if b then str "True" else str "False")
  | PInt z => int_text z
  | PFloat f => Ok (Metrics.float_str f)
  | _ => Ok (repr_of_object v)
  end.
End Conversions.

(** ** [str.strip()] and its halves *)

Definition str_lstrip (s : pystr) : pystr := (span Tokenization.is_space s).2.
Definition str_rstrip (s : pystr) : pystr := rev (str_lstrip (rev s)).
Definition str_strip (s : pystr) : pystr := str_rstrip (str_lstrip s).

(** ** Untyped dictionaries *)

(** [v.get(k, d)]: an object that is no dictionary has no such method. *)
Definition dict_of (v : pyval) : res (list (pystr * pyval)) :=
  match v with
  | PDict d => Ok d
  | _ => Raise (err AttributeError (str "object has no attribute 'get'"))
  end.

Definition py_get (v : pyval) (k : pystr) (d : pyval) : res pyval :=
  let? items := dict_of v in Ok (default d (dict_get k items)).

(** [v[k]]. *)
Definition py_item (v : pyval) (k : pystr) : res pyval :=
  match v with
  | PDict d => match dict_get k d with Some x => Ok x | None => Raise (err KeyError k) end
  | _ => Raise (err TypeError (str "indices must be integers"))
  end.

(** [for x in v]. *)
Definition py_iter (v : pyval) : res (list pyval) :=
  match v with
  | PList l | PTuple l => Ok l
  | PDict d => Ok (map PStr d.*1)
  | PStr s => Ok (map (fun c => PStr [c]) s)
  | _ => Raise (err TypeError (str "object is not iterable"))
  end.

(** ** The characters of a number *)

Definition number_char (c : Z) : bool :=
  is_digit c || (c =? 45) || (c =? 43) || (c =? 46) || (c =? 101) || (c =? 69).

Lemma span_digits_forall s d r : span_digits s = (d, r) -> Forall (fun c => is_digit c = true) d.
Proof.
  revert d r. induction s as [|c s IH]; simpl; intros d r; [by intros [= <- <-]|].
  destruct (is_digit c) eqn:E; [|by intros [= <- <-]]. destruct (span_digits s) as [d0 r0]. intros [= <- <-].
  constructor; [done|by eapply IH].
Qed.

Lemma span_digits_rest s d r : span_digits s = (d, r) -> match r with [] => True | c :: _ => is_digit c = false end.
Proof.
  revert d r. induction s as [|c s IH]; simpl; intros d r; [by intros [= <- <-]|].
  destruct (is_digit c) eqn:E; [|by intros [= <- <-]]. destruct (span_digits s) as [d0 r0]. intros [= <- <-]. by eapply IH.
Qed.

Lemma digits_number d : Forall (fun c => is_digit c = true) d -> Forall (fun c => number_char c = true) d.
Proof. intros H. eapply Forall_impl; [exact H|]. unfold number_char. intros c ->. done. Qed.

Lemma eat_inv c s r : eat c s = Some r -> s = c :: r.
Proof. destruct s as [|x s]; [done|]. simpl. destruct (Z.eqb_spec x c); [|done]. by intros [= ->]; subst. Qed.

Lemma scan_sign_eq s neg r :
  scan_sign s = (neg, r) -> exists p, s = p ++ r /\ Forall (fun c => number_char c = true) p.
Proof.
  unfold scan_sign. destruct (eat 45 s) as [x|] eqn:E; [apply eat_inv in E; intros [= <- <-]; by exists [45]; split; [|repeat constructor]|].
  destruct (eat 43 s) as [x|] eqn:E2; [apply eat_inv in E2|]; intros [= <- <-].
  - by exists [43]; split; [|repeat constructor].
  - by exists [].
Qed.

Lemma scan_exp_chars s ex r :
  scan_exp s = (ex, r) -> exists p, s = p ++ r /\ Forall (fun c => number_char c = true) p.
Proof.
  destruct s as [|e s]; [intros [= <- <-]; by exists []|]. cbn [scan_exp]. fold (scan_sign s).
  destruct ((e =? 101) || (e =? 69)) eqn:Ee; [|intros [= <- <-]; by exists []].
  destruct (scan_sign s) as [neg r1] eqn:Es. destruct (scan_sign_eq _ _ _ Es) as (p & -> & Hp).
  destruct (span_digits r1) as [d r2] eqn:Ed. pose proof (span_digits_eq _ _ _ Ed) as ->.
  pose proof (digits_number _ (span_digits_forall _ _ _ Ed)) as Hd.
  destruct d as [|c d]; intros [= <- <-]; [by exists []|].
  exists (e :: p ++ c :: d). split; [cbn; by rewrite <- app_assoc|].
  constructor; [unfold number_char; lia|]. by apply Forall_app.
Qed.

Lemma scan_frac_chars s fr r :
  scan_frac s = (fr, r) -> exists p, s = p ++ r /\ Forall (fun c => number_char c = true) p /\
    match fr with Some d => p = 46 :: d | None => p = [] end.
Proof.
  unfold scan_frac. destruct (eat 46 s) as [x|] eqn:E; [apply eat_inv in E as ->|intros [= <- <-]; by exists []].
  destruct (span_digits x) as [d r1] eqn:Ed. pose proof (span_digits_eq _ _ _ Ed) as ->.
  pose proof (digits_number _ (span_digits_forall _ _ _ Ed)) as Hd.
  destruct d as [|c d]; intros [= <- <-]; [by exists []|]. exists (46 :: c :: d). split_and!; [done| |done]. by constructor.
Qed.

(** The integer part is the maximal run of digits, unless it is a zero that
    digits follow. *)
Lemma scan_int_digits s ip r :
  scan_int s = Some (ip, r) -> s = ip ++ r /\ ip <> [] /\ Forall (fun c => is_digit c = true) ip /\
    (match r with [] => True | c :: _ => is_digit c = false end -> span_digits s = (ip, r)).
Proof.
  unfold scan_int. destruct (eat 48 s) as [x|] eqn:E.
  - apply eat_inv in E as ->. intros [= <- <-]. split_and!; [done|done|by repeat constructor|].
    intros Hr. cbn. destruct x as [|c x]; cbn; [done|]. by rewrite Hr.
  - destruct (span_digits s) as [d r1] eqn:Ed. destruct d as [|c d]; [done|]. intros [= <- <-].
    pose proof (span_digits_eq _ _ _ Ed) as ->. split_and!; try done. by eapply span_digits_forall.
Qed.

(** What follows the integer part of a complete number. *)
Lemma frac_exp_no_digit r1 fr r2 ex :
  scan_frac r1 = (fr, r2) -> scan_exp r2 = (ex, []) -> match r1 with [] => True | c :: _ => is_digit c = false end.
Proof.
  intros Hf He. destruct r1 as [|c r1]; [done|]. unfold scan_frac in Hf. cbn in Hf. destruct (Z.eqb_spec c 46) as [->|Hne]; [done|].
  injection Hf as <- <-. cbn in He. destruct ((c =? 101) || (c =? 69)) eqn:Ee; [|by injection He].
  unfold is_digit. lia.
Qed.

(** ** Numbers *)

(** The parts of a complete number. *)
Definition number_parts (t : pystr) (neg : bool) (ip r1 : pystr) (fr : option pystr) (r2 : pystr) (ex : option Z) : Prop :=
  t = (if neg then [45] else []) ++ ip ++ r1 /\ ip <> [] /\ Forall (fun c => is_digit c = true) ip /\
  span_digits (ip ++ r1) = (ip, r1) /\ scan_frac r1 = (fr, r2) /\ scan_exp r2 = (ex, []).

Lemma scan_number_parts t v :
  scan_number t = Ok (v, []) -> exists neg ip r1 fr r2 ex, number_parts t neg ip r1 fr r2 ex /\
    v = match fr, ex with
        | None, None => PInt (if neg then - dec_value ip else dec_value ip)
        | _, _ => PFloat (f64_of_decimal neg (dec_value (ip ++ default [] fr)) (default 0 ex - zlen (default [] fr)))
        end /\ (fr = None -> ex = None -> zlen ip <= max_int_digits).
Proof.
  unfold scan_number.
  assert (exists neg s1, (match eat 45 t with Some r => (true, r) | None => (false, t) end) = (neg, s1) /\
    t = (if neg : bool then [45] else []) ++ s1) as (neg & s1 & -> & ->).
  { destruct (eat 45 t) as [r|] eqn:E; [apply eat_inv in E|]; eauto. }
  destruct (scan_int s1) as [[ip r1]|] eqn:Ei; [|done]. destruct (scan_int_digits _ _ _ Ei) as (-> & Hne & Hd & Hs).
  destruct (scan_frac r1) as [fr r2] eqn:Ef. destruct (scan_exp r2) as [ex r3] eqn:Ee. intros H.
  assert (r3 = []) as ->. { destruct fr, ex; try (by injection H). by destruct (max_int_digits <? zlen ip); [|injection H]. }
  exists neg, ip, r1, fr, r2, ex. split; [|split].
  - split_and!; try done. apply Hs. by eapply frac_exp_no_digit.
  - destruct fr, ex; try (by injection H as <-). destruct (max_int_digits <? zlen ip); [done|]. by injection H as <-.
  - intros -> ->. destruct (max_int_digits <? zlen ip) eqn:E; [done|]. lia.
Qed.

Lemma number_parts_chars t neg ip r1 fr r2 ex :
  number_parts t neg ip r1 fr r2 ex -> Forall (fun c => number_char c = true) t.
Proof.
  intros (-> & _ & Hd & _ & Hf & He). destruct (scan_frac_chars _ _ _ Hf) as (p & -> & Hp & _).
  destruct (scan_exp_chars _ _ _ He) as (q & -> & Hq). rewrite app_nil_r. rewrite !Forall_app. split_and!; try done.
  - by destruct neg; repeat constructor.
  - by apply digits_number.
Qed.

Lemma number_chars t v : scan_number t = Ok (v, []) -> Forall (fun c => number_char c = true) t.
Proof. intros (?&?&?&?&?&?&H&_)%scan_number_parts. by eapply number_parts_chars. Qed.

Lemma number_nonempty t v : scan_number t = Ok (v, []) -> t <> [].
Proof. by intros H ->. Qed.

Lemma number_ascii t : Forall (fun c => number_char c = true) t -> forallb is_ascii t = true.
Proof.
  intros H. rewrite Forall_forallb. eapply Forall_impl; [exact H|]. unfold number_char, is_digit, is_ascii. simpl. lia.
Qed.

(** ** Stripping *)

Lemma span_none p (s : pystr) : match s with [] => True | c :: _ => p c = false end -> (span p s).2 = s.
Proof. destruct s as [|c s]; [done|]. simpl. by intros ->. Qed.

Lemma span_all_then p (a b : pystr) :
  Forall (fun c => p c = true) a -> match b with [] => True | c :: _ => p c = false end -> span p (a ++ b) = (a, b).
Proof.
  intros Ha Hb. induction Ha as [|c a Hc _ IH]; simpl.
  - destruct b as [|c b]; [done|]. simpl. by rewrite Hb.
  - by rewrite Hc, IH.
Qed.

Lemma rev_head_last (s : pystr) d : match rev s with [] => d | c :: _ => c end = List.last s d.
Proof.
  induction s as [|x s IH] using rev_ind; [done|]. rewrite rev_app_distr. simpl. by rewrite last_last.
Qed.

Lemma strip_by_id p (s : pystr) :
  Forall (fun c => p c = false) s -> rev (span p (rev (span p s).2)).2 = s.
Proof.
  intros H. assert (forall l, Forall (fun c => p c = false) l -> (span p l).2 = l) as Hs.
  { intros l Hl. apply span_none. by destruct Hl. }
  rewrite (Hs s H), (Hs (rev s)); [apply rev_involutive|]. by apply Forall_rev.
Qed.

Lemma number_strip t : Forall (fun c => number_char c = true) t -> strip_spaces t = t.
Proof.
  intros H. apply strip_by_id. eapply Forall_impl; [exact H|]. unfold number_char, is_digit, is_space. simpl. lia.
Qed.

Lemma rstrip_id s : Tokenization.is_space (List.last s 0) = false -> str_rstrip s = s.
Proof.
  intros H. unfold str_rstrip, str_lstrip. rewrite span_none; [apply rev_involutive|].
  rewrite <- (rev_head_last s 0) in H. by destruct (rev s).
Qed.

Lemma lstrip_id s : match s with [] => True | c :: _ => Tokenization.is_space c = false end -> str_lstrip s = s.
Proof. apply span_none. Qed.

(** ** Conversions of a number *)

Lemma underscored_app b d r :
  Forall (fun c => is_digit c = true) d -> (exists c, c ∈ r /\ is_digit c = false /\ c <> 95) ->
  underscored_digits b (d ++ r) = None.
Proof.
  intros Hd (c & Hc & H1 & H2). assert (c ∈ d ++ r) as Hin by (apply elem_of_app; by right). revert b.
  induction (d ++ r) as [|x l IH]; intros b; [by apply not_elem_of_nil in Hin|]. simpl.
  apply elem_of_cons in Hin as [<-|Hin].
  - rewrite H1. by replace (c =? 95) with false by lia.
  - rewrite !IH by done. by destruct (is_digit x), ((x =? 95) && b).
Qed.

Section Conversions.
Context `{UnicodeData} `{PyBuiltins}.

Lemma sign_split neg ip r1 :
  Forall (fun c => is_digit c = true) ip -> ip <> [] ->
  scan_sign ((if neg : bool then [45] else []) ++ ip ++ r1) = (neg, ip ++ r1).
Proof.
  intros Hd Hne. destruct neg; [done|]. destruct Hd as [|c ip Hc _]; [done|]. unfold scan_sign. cbn.
  unfold is_digit in Hc. by replace (c =? 45) with false by lia; replace (c =? 43) with false by lia.
Qed.

Lemma no_fraction r1 : scan_frac r1 = (None, r1) -> scan_exp r1 = (None, []) -> r1 = [].
Proof. intros _. destruct r1 as [|c r]; [done|]. cbn. case_match; [|by intros [=]]. repeat case_match; by intros [=]. Qed.

Lemma int_of_number t z : scan_number t = Ok (PInt z, []) -> int_of_text t = Ok z.
Proof.
  intros Hs. pose proof (number_chars _ _ Hs) as Hc. apply scan_number_parts in Hs as (neg & ip & r1 & fr & r2 & ex & Hp & Hv & Hm).
  destruct Hp as (-> & Hne & Hd & Hspan & Hf & He). destruct fr, ex; try done.
  pose proof (scan_frac_chars _ _ _ Hf) as (p & -> & _ & ->). cbn [app] in *. apply no_fraction in He as ->; [|done].
  unfold int_of_text. rewrite (number_ascii _ Hc). unfold int_of_ascii. rewrite (number_strip _ Hc).
  pose proof (sign_split neg ip [] Hd Hne) as Hsg. unfold scan_sign in Hsg. rewrite Hsg, app_nil_r in *.
  rewrite underscored_all by done. specialize (Hm eq_refl eq_refl). replace (max_int_digits <? zlen ip) with false by lia.
  by injection Hv as ->.
Qed.

(** A fraction or an exponent is not in the grammar of [int()]. *)
Lemma int_of_fraction t f : scan_number t = Ok (PFloat f, []) -> is_ok (int_of_text t) = false.
Proof.
  intros Hs. pose proof (number_chars _ _ Hs) as Hc. apply scan_number_parts in Hs as (neg & ip & r1 & fr & r2 & ex & Hp & Hv & Hm).
  destruct Hp as (-> & Hne & Hd & Hspan & Hf & He).
  unfold int_of_text. rewrite (number_ascii _ Hc). unfold int_of_ascii. rewrite (number_strip _ Hc).
  pose proof (sign_split neg ip r1 Hd Hne) as Hsg. unfold scan_sign in Hsg. rewrite Hsg.
  rewrite underscored_app; [done..|]. destruct (scan_frac_chars _ _ _ Hf) as (p & -> & _ & Hfr). destruct fr as [d|].
  - exists 46. split; [|done]. subst p. left.
  - destruct ex as [e|]; [|done]. subst p. cbn. destruct r2 as [|c r2]; [done|]. cbn in He.
    destruct ((c =? 101) || (c =? 69)) eqn:Ec; [|done]. exists c. split; [left|]. unfold is_digit. lia.
Qed.

Lemma drop_underscores_none prev s :
  prev <> 95 -> Forall (fun c => number_char c = true) s -> drop_underscores prev s = Some s.
Proof.
  intros Hp Hs. revert prev Hp. induction Hs as [|c s Hc _ IH]; intros prev Hp; simpl.
  - by replace (prev =? 95) with false by lia.
  - assert (c <> 95) by (unfold number_char, is_digit in Hc; lia).
    replace (c =? 95) with false by lia. replace (prev =? 95) with false by lia. cbn. by rewrite IH.
Qed.

Lemma float_of_number t f : scan_number t = Ok (PFloat f, []) -> float_of_text t = Some f.
Proof.
  intros Hs. pose proof (number_chars _ _ Hs) as Hc. apply scan_number_parts in Hs as (neg & ip & r1 & fr & r2 & ex & Hp & Hv & Hm).
  destruct Hp as (-> & Hne & Hd & Hspan & Hf & He). unfold float_of_text. rewrite (number_ascii _ Hc).
  unfold float_of_ascii. rewrite (number_strip _ Hc), drop_underscores_none, sign_split by done.
  assert (exists c r, str_lower (ip ++ r1) = c :: r /\ c <> 105 /\ c <> 110) as (c & r & El & Hi & Hn).
  { destruct Hd as [|c ip Hx _]; [done|]. cbn. do 2 eexists. split; [done|]. unfold is_digit in Hx. unfold lower_char. replace ((65 <=? c) && (c <=? 90)) with false by lia. lia. }
  rewrite El, !bool_decide_eq_false_2 by (intros [= -> _]; lia). cbn [orb].
  unfold scan_decimal. rewrite Hspan. assert (match eat 46 r1 with Some r => span_digits r | None => ([], r1) end = (default [] fr, r2)) as ->.
  { unfold scan_frac in Hf. destruct (eat 46 r1) as [x|] eqn:E; [|by injection Hf as <- <-].
    destruct (span_digits x) as [d y] eqn:Ed. destruct d as [|c' d]; injection Hf as <- <-; [|done].
    apply eat_inv in E as ->. cbn in He. done. }
  rewrite He, bool_decide_eq_false_2 by (intros [-> _]%app_eq_nil; done). rewrite bool_decide_eq_true_2 by done. cbn [negb orb].
  by destruct fr, ex; try done; injection Hv as ->.
Qed.
End Conversions.
