(* ===== verification/S3Fault.v ===== *)
(** * Fault injection for the S3 client: [kvstore/s3_fault_injection.py]

    [FaultInjectingS3Client] as a function from clients to clients: its state adds
    the counters, the number of draws from [random.Random(seed)] and the offsets of
    the throttled bodies it has handed out. The sequence of random numbers of a seed
    is an argument; [time.sleep] only waits. *)

From Stdlib Require Import SpecFloat.
From S2P Require Import Prelude PyText Float64 Errors PyVal Json Tokenization Record Url S3Client PyConv.
Import MNotations ResNotations.
Local Open Scope m_scope.

Definition DEFAULT_OPERATIONS : list pystr :=
  [str "get_object"; str "put_object"; str "head_object"; str "delete_object"].

Record S3FaultInjectionConfig := mkConfig {
  latency_ms : f64; error_rate : f64; timeout_rate : f64; throttle_mbps : f64;
  seed : Z; operations : list pystr; enabled : bool;
}.

(** ** Configuration *)

Section Config.
Context `{UnicodeData} `{PyBuiltins}.
Local Open Scope res_scope.

Definition non_empty (s : pystr) : bool := negb (bool_decide (s = [])).

Definition _parse_operations (raw : pyval) : res (list pystr) :=
  match raw with
  | PNone => Ok DEFAULT_OPERATIONS
  | PStr s => Ok (List.filter non_empty (map str_strip (split_char 44 s)))
  | PList l | PTuple l => res_map (List.filter non_empty) (res_list (fun v => res_map str_strip (py_str v)) l)
  | PDict d => Ok (List.filter non_empty (map str_strip d.*1))
  | _ => Raise (err TypeError (str "object is not iterable"))
  end.

Definition zero : f64 := f64_of_Z 0.
Definition one : f64 := f64_of_Z 1.

(** [0.0 <= x <= 1.0]. *)
Definition is_rate (x : f64) : bool := f64_leb zero x && f64_leb x one.

Definition validated (c : S3FaultInjectionConfig) : res S3FaultInjectionConfig :=
  ensure (negb (f64_ltb (latency_ms c) zero)) (err ValueError (str "latency_ms must be >= 0")) ;?
  ensure (is_rate (error_rate c)) (err ValueError (str "error_rate must be between 0 and 1")) ;?
  ensure (is_rate (timeout_rate c)) (err ValueError (str "timeout_rate must be between 0 and 1")) ;?
  ensure (negb (f64_ltb (throttle_mbps c) zero)) (err ValueError (str "throttle_mbps must be >= 0")) ;?
  let unknown := py_sort str_leb (elements (list_to_set (C := gset pystr) (operations c) ∖ list_to_set DEFAULT_OPERATIONS)) in
  ensure (bool_decide (unknown = []))
    (err ValueError (str "unknown S3 fault injection operations: " ++ join (str ", ") unknown)) ;?
  Ok c.

(** [raw.get(name, default) or other]. *)
Definition get_or (name : pystr) (d : list (pystr * pyval)) (missing other : pyval) : pyval :=
  let v := default missing (dict_get name d) in if truthy v then v else other.

Definition from_mapping (raw : pyval) : res S3FaultInjectionConfig :=
  let? d := dict_of (if truthy raw then raw else PDict []) in
  let z := PFloat zero in
  let? operations := _parse_operations (default (PTuple (map PStr DEFAULT_OPERATIONS)) (dict_get (str "operations") d)) in
  let? latency := py_float (get_or (str "latency_ms") d z z) in
  let? error := py_float (get_or (str "error_rate") d z z) in
  let? timeout := py_float (get_or (str "timeout_rate") d z z) in
  let? throttle := py_float (get_or (str "throttle_mbps") d (default z (dict_get (str "throttle_MBps") d)) z) in
  let? seed := py_int (get_or (str "seed") d (PInt 0) (PInt 0)) in
  validated (mkConfig latency error timeout throttle seed operations
               (truthy (default (PBool true) (dict_get (str "enabled") d)))).

(** [_maybe_fault_inject(client, config)]: the configuration the client is wrapped
    with, or [None] when it is used as it is. *)
Definition _maybe_fault_inject (config : pyval + S3FaultInjectionConfig) : res (option S3FaultInjectionConfig) :=
  match config with
  | inl PNone => Ok None
  | _ =>
      let? parsed := match config with inl raw => from_mapping raw | inr parsed => Ok parsed end in
      Ok (if enabled parsed then Some parsed else None)
  end.
End Config.

(** ** State *)

Record InjectStats := mkStats {
  operation_total : f64; latency_injected_total_ms : f64; error_total : f64; timeout_total : f64;
  throttled_bytes_total : f64; throttle_sleep_total_ms : f64;
}.

Definition no_stats : InjectStats := mkStats zero zero zero zero zero zero.

Definition add_operation (s : InjectStats) : InjectStats :=
  mkStats (f64_add (operation_total s) one) (latency_injected_total_ms s) (error_total s) (timeout_total s)
    (throttled_bytes_total s) (throttle_sleep_total_ms s).
Definition add_latency (ms : f64) (s : InjectStats) : InjectStats :=
  mkStats (operation_total s) (f64_add (latency_injected_total_ms s) ms) (error_total s) (timeout_total s)
    (throttled_bytes_total s) (throttle_sleep_total_ms s).
Definition add_error (s : InjectStats) : InjectStats :=
  mkStats (operation_total s) (latency_injected_total_ms s) (f64_add (error_total s) one) (timeout_total s)
    (throttled_bytes_total s) (throttle_sleep_total_ms s).
Definition add_timeout (s : InjectStats) : InjectStats :=
  mkStats (operation_total s) (latency_injected_total_ms s) (error_total s) (f64_add (timeout_total s) one)
    (throttled_bytes_total s) (throttle_sleep_total_ms s).
Definition add_bytes (n : f64) (s : InjectStats) : InjectStats :=
  mkStats (operation_total s) (latency_injected_total_ms s) (error_total s) (timeout_total s)
    (f64_add (throttled_bytes_total s) n) (throttle_sleep_total_ms s).
Definition add_sleep (ms : f64) (s : InjectStats) : InjectStats :=
  mkStats (operation_total s) (latency_injected_total_ms s) (error_total s) (timeout_total s)
    (throttled_bytes_total s) (f64_add (throttle_sleep_total_ms s) ms).

(** [stats()]. *)
Definition stats_dict (s : InjectStats) : pyval :=
  PDict [(str "operation_total", PFloat (operation_total s));
         (str "latency_injected_total_ms", PFloat (latency_injected_total_ms s));
         (str "error_total", PFloat (error_total s)); (str "timeout_total", PFloat (timeout_total s));
         (str "throttled_bytes_total", PFloat (throttled_bytes_total s));
         (str "throttle_sleep_total_ms", PFloat (throttle_sleep_total_ms s))].

Record Injected (D : Type) := mkInjected {
  in_dev : D;
  in_stats : InjectStats;
  in_draws : nat;
  in_offsets : list Z;
}.
Arguments mkInjected {D} _ _ _ _.
Arguments in_dev {D} _.
Arguments in_stats {D} _.
Arguments in_draws {D} _.
Arguments in_offsets {D} _.

Section Client.
Context {D : Type} (random : Z -> nat -> f64) (client : S3Client D) (config : S3FaultInjectionConfig).
Abbreviation IM := (M (Injected D)).

Definition on_inner {A} (m : M D A) : IM A :=
  zoom in_dev (fun d i => mkInjected d (in_stats i) (in_draws i) (in_offsets i)) m.

Definition count (f : InjectStats -> InjectStats) : IM unit :=
  modify (fun i => mkInjected (in_dev i) (f (in_stats i)) (in_draws i) (in_offsets i)).

(** [self._rng.random()]. *)
Definition draw : IM f64 := fun i =>
  (mkInjected (in_dev i) (in_stats i) (S (in_draws i)) (in_offsets i), Ok (random (seed config) (in_draws i))).

(** [time.sleep(s)]: what it refuses. *)
Definition sleep (s : f64) : IM unit :=
  lift (ensure (negb (f64_nan s)) (err ValueError (str "Invalid value NaN (not a number)")) ;?
        ensure (f64_ltb (f64_mul s (f64_of_Z 1000000000)) (f64_of_Z (2 ^ 63)))
          (err OverflowError (str "timestamp too large to convert to C PyTime_t")) ;?
        ensure (negb (f64_ltb s zero)) (err ValueError (str "sleep length must be non-negative")))%res.

(** ** Throttling *)

Definition _throttle_len (num_bytes : Z) (throttle : f64) : IM unit :=
  if (num_bytes <=? 0) || f64_leb throttle zero then ret tt
  else
    count (add_bytes (f64_of_Z num_bytes)) ;;
    let sleep_s := f64_div (f64_div (f64_of_Z num_bytes) (f64_of_Z (1024 * 1024))) throttle in
    when (f64_ltb zero sleep_s)
      (sleep sleep_s ;; count (add_sleep (f64_mul sleep_s (f64_of_Z 1000)))).

(** The argument [Body] of a call, as [_len_hint] sees it: absent, bytes, an object
    with [getbuffer] (whose length may raise), or another object. *)
Inductive hint_body := NoBody | BytesLike (data : pybytes) | WithBuffer (len : res Z) | OtherBody.

Definition _len_hint (body : hint_body) : Z :=
  match body with
  | BytesLike data => zlen data
  | WithBuffer (Ok n) => n
  | NoBody | WithBuffer (Raise _) | OtherBody => 0
  end.

(** ** Calls *)

Definition _enabled_for (operation : pystr) : bool :=
  enabled config && bool_decide (operation ∈ operations config).

Definition hit (rate : f64) : IM bool :=
  if f64_ltb zero rate then let* x := draw in ret (f64_ltb x rate) else ret false.

Definition _call {A} (operation : pystr) (body : hint_body) (fn : M D A) : IM A :=
  if negb (_enabled_for operation) then on_inner fn
  else
    count add_operation ;;
    when (f64_ltb zero (latency_ms config))
      (sleep (f64_div (latency_ms config) (f64_of_Z 1000)) ;; count (add_latency (latency_ms config))) ;;
    let* timeout := hit (timeout_rate config) in
    when timeout
      (count add_timeout ;; raise (err S3InjectedTimeout (str "injected S3 timeout during " ++ operation))) ;;
    let* error := hit (error_rate config) in
    when error
      (count add_error ;; raise (err S3InjectedError (str "injected S3 error during " ++ operation))) ;;
    when (bool_decide (operation = str "put_object") && f64_ltb zero (throttle_mbps config))
      (_throttle_len (_len_hint body) (throttle_mbps config)) ;;
    on_inner fn.

(** ** [_ThrottledBody] *)

(** [len(data)]. *)
Definition chunk_len (c : chunk) : res Z :=
  match c with
  | Chunk data => Ok (zlen data)
  | NotBytes (Some n) => Ok n
  | NotBytes None => Raise (err TypeError (str "object has no len()"))
  end.

(** The next bytes of a body that is bytes; [h] is the place of its offset. *)
Definition read_raw (raw : pybytes) (h : nat) (amt : Z) : IM chunk := fun i =>
  let offset := default 0 (in_offsets i !! h) in
  let stop := if amt <? 0 then zlen raw else Z.min (offset + amt) (zlen raw) in
  (mkInjected (in_dev i) (in_stats i) (in_draws i) (<[h := stop]> (in_offsets i)),
   Ok (Chunk (drop (Z.to_nat offset) (take (Z.to_nat stop) raw)))).

Definition throttled_read (body : Body D) (h : nat) (amt : Z) : IM chunk :=
  let* data :=
    match body with
    | BodyBytes raw => read_raw raw h amt
    | BodyObject (Some read) _ => on_inner (read amt)
    | BodyObject None _ => raise (err AttributeError (str "object has no attribute 'read'"))
    end in
  let* n := lift (chunk_len data) in
  _throttle_len n (throttle_mbps config) ;;
  ret data.

(** [__getattr__] finds the [close] of the body, if it has one. *)
Definition throttled_close (body : Body D) : option (IM unit) :=
  match body with
  | BodyBytes _ => None
  | BodyObject _ close => on_inner <$> close
  end.

Definition ThrottledBody (body : Body D) : IM (Body (Injected D)) := fun i =>
  let h := length (in_offsets i) in
  (mkInjected (in_dev i) (in_stats i) (in_draws i) (in_offsets i ++ [0]),
   Ok (BodyObject (Some (throttled_read body h)) (throttled_close body))).

(** A body that is handed on as it is. *)
Definition inner_body (body : Body D) : Body (Injected D) :=
  match body with
  | BodyBytes data => BodyBytes data
  | BodyObject read close => BodyObject ((fun r n => on_inner (r n)) <$> read) (on_inner <$> close)
  end.

Definition inject_get (b k : pystr) : IM (res (Body (Injected D))) :=
  let* response := _call (str "get_object") NoBody (get_object client b k) in
  match response with
  | Raise e => ret (Raise e)
  | Ok body =>
      if _enabled_for (str "get_object") && f64_ltb zero (throttle_mbps config)
      then let* t := ThrottledBody body in ret (Ok t)
      else ret (Ok (inner_body body))
  end.

Definition FaultInjectingS3Client : S3Client (Injected D) :=
  {| put_object b k body md := _call (str "put_object") (BytesLike body) (put_object client b k body md);
     get_object := inject_get;
     head_object b k := _call (str "head_object") NoBody (head_object client b k);
     delete_object b k := _call (str "delete_object") NoBody (delete_object client b k);
     injection_stats := Some (gets (fun i => stats_dict (in_stats i))) |}.
End Client.

Section Injection.
Context {D : Type} (random : Z -> nat -> f64) (client : S3Client D) (config : S3FaultInjectionConfig).
Abbreviation wrapped := (FaultInjectingS3Client random client config).

(** Only the counters and the random numbers have moved. *)
Definition same_dev (i i' : Injected D) : Prop := in_dev i' = in_dev i /\ in_offsets i' = in_offsets i.

(** What the wrapper itself raises is not an answer of the store. *)
Definition injected (e : exn) : Prop := _is_not_found true e = false.

Lemma same_dev_trans i1 i2 i3 : same_dev i1 i2 -> same_dev i2 i3 -> same_dev i1 i3.
Proof using. intros [A1 A2] [B1 B2]. split; congruence. Qed.

(** A step of the wrapper: no call of the client. *)
Definition local {A} (m : M (Injected D) A) : Prop :=
  forall i, same_dev i (m i).1 /\ match (m i).2 with Ok _ => True | Raise e => injected e end.

Lemma local_ret {A} (a : A) : local (ret a).
Proof using. by intros i. Qed.

Lemma local_raise {A} e : injected e -> local (raise (A := A) e).
Proof using. by intros He i. Qed.

Lemma local_count f : local (count (D := D) f).
Proof using. by intros i. Qed.

Lemma local_bind {A B} (m : M (Injected D) A) (f : A -> M (Injected D) B) :
  local m -> (forall a, local (f a)) -> local (bind m f).
Proof using.
  intros Hm Hf i. unfold bind. destruct (Hm i) as [H1 H2]. destruct (m i) as [i1 [a|e]]; cbn in *; [|done].
  destruct (Hf a i1) as [H3 H4]. split; [by eapply same_dev_trans|done].
Qed.

Lemma local_when b m : local m -> local (when b m).
Proof using. intros Hm. destruct b; [done|apply local_ret]. Qed.

Lemma local_sleep s : local (sleep (D := D) s).
Proof using.
  intros i. split; [done|]. unfold sleep, lift. cbn [snd]. destruct (f64_nan s); cbn [negb ensure res_bind]; [done|].
  destruct (f64_ltb (f64_mul s _) _); cbn [ensure res_bind]; [|done]. by destruct (f64_ltb s zero).
Qed.

Lemma local_hit rate : local (hit random config rate).
Proof using. unfold hit. destruct (f64_ltb zero rate); [|apply local_ret]. by intros i. Qed.

Lemma local_throttle n t : local (_throttle_len (D := D) n t).
Proof using.
  unfold _throttle_len. destruct (_ || _); [apply local_ret|]. apply local_bind; [apply local_count|]. intros _. cbv zeta.
  apply local_when. apply local_bind; [apply local_sleep|]. intros _. apply local_count.
Qed.

(** ** Calls *)

(** A call reaches the client, or fails before. *)
Definition reaches {A} (fn : M D A) (m : M (Injected D) A) : Prop :=
  forall i, let r := m i in
  in_offsets r.1 = in_offsets i /\
  (fn (in_dev i) = (in_dev r.1, r.2) \/ (in_dev r.1 = in_dev i /\ exists e, r.2 = Raise e /\ injected e)).

Lemma reaches_bind {A B} (fn : M D B) (m : M (Injected D) A) (f : A -> M (Injected D) B) :
  local m -> (forall a, reaches fn (f a)) -> reaches fn (bind m f).
Proof using.
  intros Hm Hf i. unfold bind. cbv zeta. destruct (Hm i) as [[H1 H2] H3]. destruct (m i) as [i1 [a|e]]; cbn in *.
  - destruct (Hf a i1) as [E H]. cbv zeta in E, H. split; [congruence|]. by rewrite H1 in H.
  - split; [done|]. right. split; [done|]. by exists e.
Qed.

Lemma reaches_inner {A} (fn : M D A) : reaches fn (on_inner fn).
Proof using.
  intros i. unfold on_inner, zoom. destruct (fn (in_dev i)) as [d r]. cbn. split; [done|by left].
Qed.

Lemma reaches_call {A} op body (fn : M D A) : reaches fn (_call random config op body fn).
Proof using.
  unfold _call. destruct (negb _); [apply reaches_inner|]. apply reaches_bind; [apply local_count|]. intros _.
  apply reaches_bind. { apply local_when, local_bind; [apply local_sleep|]. intros _. apply local_count. } intros _.
  apply reaches_bind; [apply local_hit|]. intros t.
  apply reaches_bind. { apply local_when, local_bind; [apply local_count|]. intros _. by apply local_raise. } intros _.
  apply reaches_bind; [apply local_hit|]. intros e.
  apply reaches_bind. { apply local_when, local_bind; [apply local_count|]. intros _. by apply local_raise. } intros _.
  apply reaches_bind; [apply local_when, local_throttle|]. intros _. apply reaches_inner.
Qed.

(** ** Bodies *)

Section Bodies.
Context (I : D -> Prop).
Abbreviation I' := (fun i : Injected D => I (in_dev i)).

Lemma stream_inner read rest :
  stream True I read rest -> stream True I' (fun n => on_inner (read n)) (fun i bs => rest (in_dev i) bs).
Proof using.
  intros [Hi Hr]. split; [intros i bs; apply Hi|]. intros n i bs Hb Hn. specialize (Hr n (in_dev i) bs Hb Hn).
  unfold on_inner, zoom. by destruct (read n (in_dev i)) as [d [[c|l]|e]].
Qed.

Lemma close_inner (close : option (M D unit)) :
  match close with Some c => forall d, I d -> I (c d).1 /\ (is_ok (c d).2 = false -> True) | None => True end ->
  match (on_inner <$> close : option (M (Injected D) unit)) with
  | Some c => forall i, I' i -> I' (c i).1 /\ (is_ok (c i).2 = false -> True)
  | None => True
  end.
Proof using.
  destruct close as [c|]; cbn; [|done]. intros Hc i Hi. destruct (Hc _ Hi) as [H1 _]. unfold on_inner, zoom.
  by destruct (c (in_dev i)).
Qed.

Lemma inner_delivers body i bs : delivers True I body (in_dev i) bs -> delivers True I' (inner_body body) i bs.
Proof using.
  destruct body as [data|read close]; cbn [delivers inner_body]; [done|].
  intros [(r & rest & -> & Hs & Hr) Hc]. split; [|by apply close_inner].
  exists (fun n => on_inner (r n)), (fun i bs => rest (in_dev i) bs). split_and!; [done|by apply stream_inner|done].
Qed.

(** After the data is read, throttling may fail but takes nothing away. *)
Lemma throttled_stream (m : Z -> M (Injected D) chunk) body h rest :
  (forall n i, throttled_read config body h n i =
     bind (m n) (fun data => bind (lift (chunk_len data)) (fun k => bind (_throttle_len k (throttle_mbps config)) (fun _ => ret data))) i) ->
  (forall i i' bs, same_dev i i' -> rest i bs -> rest i' bs) ->
  (forall i i', same_dev i i' -> I' i -> I' i') ->
  stream True I' m rest -> stream True I' (throttled_read config body h) rest.
Proof using.
  intros Hm Hrest HI [Hi Hr]. split; [done|]. intros n i bs Hb Hn. specialize (Hr n i bs Hb Hn). rewrite Hm. unfold bind at 1.
  destruct (m n i) as [i1 [c|e]]; [|done]. unfold bind, lift.
  assert (I' i1) as Hi1 by (destruct c; [destruct Hr as (bs' & _ & _ & Hb' & _); by eapply Hi|apply Hr]).
  destruct (chunk_len c) as [k|e]; [|done].
  destruct (local_throttle k (throttle_mbps config) i1) as [H1 _].
  destruct (_throttle_len k (throttle_mbps config) i1) as [i2 [[]|e]]; cbn [fst] in H1; [|split; [done|by eapply HI]].
  destruct c as [c|l]; [|split; [done|by eapply HI]].
  destruct Hr as (bs' & E & Hc & Hb' & Hf). exists bs'. split_and!; [done|done|by eapply Hrest|done].
Qed.

(** What is left of throttled bytes. *)
Definition raw_left (raw : pybytes) (h : nat) (i : Injected D) (bs : pybytes) : Prop :=
  I (in_dev i) /\ exists o, in_offsets i !! h = Some o /\ 0 <= o <= zlen raw /\ bs = drop (Z.to_nat o) raw.

Lemma raw_stream raw h : stream True I' (read_raw raw h) (raw_left raw h).
Proof using.
  split; [by intros i bs []|]. intros n i bs (Hi & o & Ho & Hb & ->) Hn. unfold read_raw. rewrite Ho. cbn [default].
  destruct (Z.ltb_spec n 0); [lia|]. set (stop := Z.min (o + n) (zlen raw)). exists (drop (Z.to_nat stop) raw).
  rewrite skipn_firstn_comm. split; [|split; [|split; [|done]]].
  - rewrite <- (take_drop (Z.to_nat stop - Z.to_nat o) (drop (Z.to_nat o) raw)) at 1.
    f_equal. rewrite drop_drop. f_equal. lia.
  - intros E. apply (f_equal length) in E. rewrite length_take, length_drop in E. simpl in E.
    apply nil_length_inv. rewrite length_drop. lia.
  - split; [done|]. exists stop. cbn. rewrite list_lookup_insert_eq by (by eapply lookup_lt_Some).
    split_and!; [done|lia|lia|done].
Qed.

Lemma throttled_delivers body i bs :
  delivers True I body (in_dev i) bs ->
  match ThrottledBody config body i with
  | (i', r) => in_dev i' = in_dev i /\ exists tb, r = Ok tb /\ delivers True I' tb i' bs
  end.
Proof using.
  intros Hd. unfold ThrottledBody. split; [done|]. eexists. split; [reflexivity|]. cbn [delivers].
  assert (forall i i', same_dev i i' -> I' i -> I' i') as HI by (intros i1 i2 [E _]; by rewrite E).
  destruct body as [raw|read close]; cbn [delivers throttled_close] in *.
  - destruct Hd as [Hi ->]. split; [|done]. exists (throttled_read config (BodyBytes raw) (length (in_offsets i))), (raw_left raw (length (in_offsets i))).
    split_and!; [done| |].
    + eapply (throttled_stream (read_raw raw (length (in_offsets i)))); [done| |done|apply raw_stream].
      intros i1 i2 bs [E1 E2] (H1 & o & H2). split; [by rewrite E1|]. exists o. by rewrite E2.
    + split; [done|]. exists 0. cbn. rewrite lookup_app_r, Nat.sub_diag by lia. split_and!; [done|lia|lia|done].
  - destruct Hd as [(r & rest & -> & Hs & Hr) Hc]. split; [|by apply close_inner].
    exists (throttled_read config (BodyObject (Some r) close) (length (in_offsets i))), (fun i bs => rest (in_dev i) bs).
    split_and!; [done| |done]. eapply (throttled_stream (fun n => on_inner (r n))); [done| |done|by apply stream_inner].
    intros i1 i2 bs0 [E1 _]. by rewrite E1.
Qed.
End Bodies.

(** ** The contract *)

Context (good : D -> Prop) (objects : D -> gmap (pystr * pystr) pybytes).

Lemma injected_laws :
  s3_laws client good objects -> s3_laws wrapped (fun i => good (in_dev i)) (fun i => objects (in_dev i)).
Proof using.
  intros [Hput Hhead Hget Hdel Hst]. split.
  - intros b k body md i Hg. cbv zeta. cbn [put_object FaultInjectingS3Client].
    destruct (reaches_call (str "put_object") (BytesLike body) (put_object client b k body md) i) as [_ H].
    destruct (_call random config _ _ _ i) as [i' r]. cbn [fst snd] in *.
    destruct H as [H|(E & e & -> & _)]; [|rewrite E; eauto]. specialize (Hput b k body md (in_dev i) Hg). by rewrite H in Hput.
  - intros b k i Hg. cbv zeta. cbn [head_object FaultInjectingS3Client].
    destruct (reaches_call (str "head_object") NoBody (head_object client b k) i) as [_ H].
    destruct (_call random config _ _ _ i) as [i' r]. cbn [fst snd] in *.
    destruct H as [H|(E & e & -> & He)]; [specialize (Hhead b k (in_dev i) Hg); by rewrite H in Hhead|].
    rewrite E. split_and!; [done|done|]. unfold injected in He. congruence.
  - intros b k i Hg. cbv zeta. cbn [get_object FaultInjectingS3Client]. unfold inject_get, bind.
    destruct (reaches_call (str "get_object") NoBody (get_object client b k) i) as [_ H].
    destruct (_call random config _ _ _ i) as [i' r]. cbn [fst snd] in *.
    destruct H as [H|(E & e & -> & He)]; cycle 1.
    { cbn. rewrite E. split_and!; [done|done|]. intros Hn. apply not_found_weaken in Hn. unfold injected in He. congruence. }
    specialize (Hget b k (in_dev i) Hg). rewrite H in Hget. cbn [fst snd] in Hget. destruct Hget as (Hg' & E & Hb).
    destruct r as [[body|e]|e]; cbn [ret fst snd]; [|by rewrite E..]. destruct Hb as (bs & Hbs & Hd).
    set (I := fun d' => good d' /\ objects d' = objects (in_dev i)) in Hd.
    destruct (_ && _).
    + pose proof (throttled_delivers I body i' bs Hd) as Ht.
      destruct (ThrottledBody config body i') as [i2 r2]. destruct Ht as (E2 & tb & -> & Ht). cbn. rewrite E2.
      split_and!; [done|done|]. by exists bs.
    + split_and!; [done|done|]. exists bs. split; [done|]. by apply (inner_delivers I).
  - intros b k i Hg. cbv zeta. cbn [delete_object FaultInjectingS3Client].
    destruct (reaches_call (str "delete_object") NoBody (delete_object client b k) i) as [_ H].
    destruct (_call random config _ _ _ i) as [i' r]. cbn [fst snd] in *.
    destruct H as [H|(E & e & -> & _)]; [|rewrite E; eauto]. specialize (Hdel b k (in_dev i) Hg). by rewrite H in Hdel.
  - intros s i [= <-] Hg. done.
Qed.
End Injection.
