(* ===== verification/S3Tier.v ===== *)
(** * The S3 tier: [kvstore/s3_tier.py]

    [S3Tier] over any client ([S3Client]) and the shared environment. The object's
    constants are the record [S3Tier]; its state is the metadata store and the
    state of the client. [_build_client] (boto3) and the wrapping of the client are
    not part of it: the client is an argument. *)

From Stdlib Require Import SpecFloat.
From S2P Require Import Prelude PyText Sha256 Float64 Errors PyVal Json JsonFacts Metadata MetadataFacts MetadataStore Metrics Runtime Record Layout Url World S3Client.
Import MNotations ResNotations.
Local Open Scope m_scope.

Definition MAX_S3_PAYLOAD_BYTES : Z := 16 * 1024 * 1024 * 1024.
Definition DEFAULT_S3_MAX_PAYLOAD_BYTES : Z := 256 * 1024 * 1024.
Definition MAX_S3_PREFIX_BYTES : Z := 1024.

Record S3Tier := mkS3Tier {
  bucket : pystr;
  prefix : pystr;
  endpoint_url : pyval;
  connect_timeout_ms : pyval;
  read_timeout_ms : pyval;
  max_retries : pyval;
  max_payload_bytes : Z;
}.

(** ** Construction *)

Definition is_alnum (c : Z) : bool := is_alpha c || is_digit c.
Definition bucket_char (c : Z) : bool := is_alnum c || (c =? 46) || (c =? 95) || (c =? 45).

(** [_BUCKET_RE.fullmatch]: at most 255 characters, the first and the last of them
    letters or digits. *)
Definition _BUCKET_RE (s : pystr) : bool :=
  match s with
  | [] => false
  | c :: r =>
      is_alnum c &&
      (bool_decide (r = []) ||
       (is_alnum (List.last r 0) && forallb bucket_char (removelast r) && (length (removelast r) <=? 253)%nat))
  end.

(** [len(s.encode("utf-8"))]. *)
Definition utf8_len (s : pystr) : res Z :=
  match utf8_encode s with
  | Some b => Ok (zlen b)
  | None => Raise (err UnicodeEncodeError (str "surrogates not allowed"))
  end.

(** [s.strip("/")]. *)
Definition strip_slashes (s : pystr) : pystr :=
  let lstrip := fun s => (span (fun c => c =? 47) s).2 in rev (lstrip (rev (lstrip s))).

Local Open Scope res_scope.

Definition check_bucket (v : pyval) : res pystr :=
  let bad := err ValueError (str "bucket must be a bounded URI-authority-safe name") in
  match v with
  | PStr s =>
      ensure (_BUCKET_RE s) bad ;?
      let? n := utf8_len s in
      ensure (negb (255 <? n)) bad ;? Ok s
  | _ => Raise bad
  end.

Definition check_prefix (v : pyval) : res pystr :=
  let bad := err ValueError (str "prefix must be a bounded string without control characters") in
  match v with
  | PStr s =>
      let? n := utf8_len s in
      ensure (negb (MAX_S3_PREFIX_BYTES <? n)) bad ;?
      ensure (forallb (fun c => negb ((c <? 32) || (c =? 127))) s) bad ;?
      Ok s
  | _ => Raise bad
  end.

Definition check_max_payload (v : pyval) : res Z :=
  match v with
  | PInt z => ensure (negb ((z <=? 0) || (MAX_S3_PAYLOAD_BYTES <? z)))
                (err ValueError (str "max_payload_bytes must be between 1 byte and the S3 protocol limit")) ;? Ok z
  | _ => Raise (err ValueError (str "max_payload_bytes must be between 1 byte and the S3 protocol limit"))
  end.

Definition S3Tier_init (bucket prefix endpoint connect_ms read_ms retries max_payload : pyval) : res S3Tier :=
  let? b := check_bucket bucket in
  let? p := check_prefix prefix in
  let? n := check_max_payload max_payload in
  Ok (mkS3Tier b (strip_slashes p) endpoint connect_ms read_ms retries n).

Section Tier.
Context `{UnicodeData} {D : Type} (self : S3Tier) (client : S3Client D).
Abbreviation SW := (M (World D)).

(** ** Names of objects *)

(** [str(PurePosixPath(...))] of relative parts. *)
Definition posix_text (parts : list pystr) : pystr :=
  match joinpath [] parts with [] => str "." | p => join [47] p end.

Definition object_key (k : BlockKey) : res pystr :=
  let? parts := storage_key_parts k in
  let path := posix_text parts in
  Ok (if bool_decide (prefix self = []) then path else prefix self ++ [47] ++ path).

Definition s3_uri (object : pystr) : res pystr :=
  let? q := quote object in
  Ok (str "s3://" ++ bucket self ++ [47] ++ q).

Definition _location_for (k : BlockKey) (object : pystr) (n : Z) (checksum : pystr) (created_at last_access : pyval)
  : res BlockLocation :=
  let? uri := s3_uri object in
  Ok {| loc_key := k; loc_tier := S3; loc_uri := uri; loc_bytes := n; loc_checksum := checksum;
        loc_created_at := created_at; loc_last_access := last_access;
        loc_attributes := device_attributes (str "cross_zone") (str "s3_http_default") |}.

(** [_location_target(location)]: the bucket and the key of the object. *)
Definition _location_target (l : BlockLocation) : res (pystr * pystr) :=
  ensure (bool_decide (loc_tier l = S3)) (err MetadataMismatch (str "persisted S3 location key/tier mismatch")) ;?
  let? parsed := urlparse (loc_uri l) in
  let encoded_key := match u_path parsed with c :: r => if c =? 47 then r else [] | [] => [] end in
  let? object := res_catch (unquote_strict encoded_key) [UnicodeDecodeError]
    (fun e => Raise (err_from MetadataMismatch (str "persisted S3 location has invalid encoding") e)) in
  let bad := err MetadataMismatch (str "persisted S3 location is outside configured bucket/prefix") in
  ensure (bool_decide (u_scheme parsed = str "s3") && bool_decide (u_netloc parsed = bucket self) &&
          bool_decide (u_params parsed = []) && bool_decide (u_query parsed = []) &&
          bool_decide (u_fragment parsed = [])) bad ;?
  let? again := quote object in
  ensure (bool_decide (again = encoded_key)) bad ;?
  let? expected := object_key (loc_key l) in
  ensure (bool_decide (object = expected)) bad ;?
  Ok (bucket self, object).

Local Close Scope res_scope.

(** ** Calls of the client *)

(** [raise TierUnavailable(f"s3 {operation} failed: {exc}") from exc]. *)
Definition call_failed (operation : pystr) (e : exn) : exn :=
  err_from TierUnavailable (str "s3 " ++ operation ++ str " failed: " ++ exn_msg e) e.

Definition _head_exists (object bucket : pystr) (allow_ambiguous_not_found : bool) : SW bool :=
  try_catch (on_dev (head_object client bucket object) ;; ret true)
    (fun e => if _is_not_found allow_ambiguous_not_found e then ret false
              else raise (call_failed (str "head_object") e)).

Definition _read_object (object bucket : pystr) : SW (list (pystr * pyval) * pybytes) :=
  let* response := try_catch (on_dev (get_object client bucket object))
    (fun e => if _is_not_found false e then raise (err_from BlockNotFound object e)
              else raise (call_failed (str "get_object") e)) in
  let* body := lift (res_catch response [KeyError; TypeError]
    (fun e => Raise (err_from TierUnavailable (str "s3 get_object response has no readable body") e))) in
  let* now := on_env time_time in
  on_dev (_read_body now body object (max_payload_bytes self)).

(** ** lookup *)

Definition s3_metric (call : metric_call) : SW unit := on_env (metric call).

Definition location_exists (l : BlockLocation) : SW bool :=
  let* (b, object) := lift (_location_target l) in
  _head_exists object b false.

Definition lookup (k : BlockKey) : SW (option BlockLocation) :=
  let* locations := db (MetadataStore.lookup k (Some S3)) in
  match locations with
  | location :: _ =>
      let* exists_ := location_exists location in
      if (exists_ : bool) then
        s3_metric (Inc kv_lookup_total (f64_of_Z 1) (labels_of S3 (str "hit"))) ;;
        ret (Some location)
      else
        db mutation ;;
        let* again := db (MetadataStore.lookup k (Some S3)) in
        let* still := match again with l :: _ => location_exists l | [] => ret false end in
        if (still : bool) then ret (head again)
        else
          db (MetadataStore.delete k S3) ;;
          s3_metric (Inc kv_lookup_total (f64_of_Z 1) (labels_of S3 (str "stale"))) ;;
          ret None
  | [] =>
      s3_metric (Inc kv_lookup_total (f64_of_Z 1) (labels_of S3 (str "miss"))) ;;
      ret None
  end.

Definition contains (k : BlockKey) : SW bool :=
  let* l := lookup k in ret (match l with Some _ => true | None => false end).

(** ** evict *)

Definition tombstone_lost : exn := err RuntimeError (str "delete tombstone disappeared before metadata commit").

(** The object is deleted, and seen to be gone. *)
Definition remove_object (b object : pystr) : SW unit :=
  try_catch (on_dev (delete_object client b object))
    (fun e => if _is_not_found false e then ret tt else raise (call_failed (str "delete_object") e)) ;;
  let* visible := _head_exists object b true in
  when visible (raise (unavailable (str "s3 delete_object returned successfully but the object remains visible"))).

Definition evict (k : BlockKey) : SW bool :=
  db mutation ;;
  let* location := db (MetadataStore.begin_delete k S3) in
  match location with
  | None => ret false
  | Some l =>
      let* (b, object) := lift (_location_target l) in
      remove_object b object ;;
      let* finished := db (MetadataStore.finish_delete k S3) in
      if negb finished then raise tombstone_lost else ret true
  end.

(** ** load *)

Definition check_loaded (k : BlockKey) (l : BlockLocation) (h : list (pystr * pyval)) (payload : pybytes)
    (m : KVMetadata) : res unit :=
  (ensure (bool_decide (md_key m = k)) (block_mismatch k []) ;?
   ensure ((loc_bytes l =? zlen payload) && (loc_bytes l =? payload_size h))
     (block_mismatch k (str ": location byte count mismatch")) ;?
   ensure (bool_decide (loc_checksum l = header_checksum h))
     (block_mismatch k (str ": location checksum mismatch")))%res.

Definition checked_load (start : f64) (k : BlockKey) (l : BlockLocation) : SW LoadResult :=
  let* (b, object) := lift (_location_target l) in
  let* (h, payload) := _read_object object b in
  let* now := on_env time_time in
  let* m := lift (from_dict now (get_or_none (str "metadata") h)) in
  lift (check_loaded k l h payload m) ;;
  verify_and_touch S3 start k h payload m.

Definition load (k : BlockKey) : SW LoadResult :=
  let* start := on_env perf_counter in
  let* found := lookup k in
  match found with
  | None => raise (err BlockNotFound (block_hash k))
  | Some _ =>
      let* loc := db (MetadataStore.lookup_and_acquire k S3) in
      match loc with
      | None => raise (err BlockNotFound (block_hash k))
      | Some l => try_finally (checked_load start k l)
                    (finish_load S3 evict (str "corrupt S3 location remains active") k)
      end
  end.

(** ** store *)

(** The header of an S3 record has no [layout_mode]. *)
Definition s3_header (checksum : pystr) (n : Z) (metadata : pyval) : pyval :=
  PDict [(str "version", PInt 1); (str "checksum", PStr checksum); (str "payload_bytes", PInt n);
         (str "metadata", metadata)].

(** The branch of [store] for a new block: the object is written before its
    location is committed. *)
Definition publish (k : BlockKey) (data : pybytes) (m : KVMetadata) (checksum : pystr) : SW unit :=
  let* d := lift (to_dict m) in
  let* encoded_header := lift (encode_record_header (s3_header checksum (zlen data) d)) in
  let body := record_bytes encoded_header data in
  let* object := lift (object_key k) in
  try_catch (on_dev (put_object client (bucket self) object body [(str "kv-sha256", checksum)]))
    (fun e => raise (call_failed (str "put_object") e)) ;;
  let* loc := lift (_location_for k object (zlen data) checksum (md_created_at m) (md_last_access m)) in
  db_at (fun now => MetadataStore.upsert now loc m).

Definition store (k : BlockKey) (data : pybytes) (m : KVMetadata) : SW StoreResult :=
  let* start := on_env perf_counter in
  when (negb (bool_decide (md_key m = k)))
    (raise (err MetadataMismatch (str "store key does not match metadata key"))) ;;
  when (max_payload_bytes self <? zlen data) (raise (err StoreFull (str "block exceeds S3 record protocol limit"))) ;;
  let checksum := sha256_hex data in
  db mutation ;;
  let* pending := db (MetadataStore.is_deleting k S3) in
  when pending (raise pending_delete) ;;
  let* now := on_env time_time in
  let m := stamp_block m checksum (zlen data) now in
  lift (validate true m) ;;
  db_at (fun now => MetadataStore.validate_payload_descriptor now m) ;;
  let* existing := lookup k in
  match existing with
  | Some l => refresh load k data m checksum l
  | None => publish k data m checksum
  end ;;
  stored S3 start k data checksum.

(** ** stats *)

Definition stats : SW pyval :=
  let* used := db (MetadataStore.bytes_used S3) in
  let data := [(str "tier", PStr (tier_value S3)); (str "bucket", PStr (bucket self));
               (str "prefix", PStr (prefix self));
               (str "endpoint_url", if truthy (endpoint_url self) then endpoint_url self else PStr (str "aws-default"));
               (str "used_bytes", PInt used); (str "connect_timeout_ms", connect_timeout_ms self);
               (str "read_timeout_ms", read_timeout_ms self); (str "max_retries", max_retries self);
               (str "max_payload_bytes", PInt (max_payload_bytes self))] in
  match injection_stats client with
  | Some s => let* v := on_dev s in ret (PDict (data ++ [(str "fault_injection", v)]))
  | None => ret (PDict data)
  end.

Definition s3_tier : Tier (World D) :=
  {| tier_name := S3; tier_lookup := lookup; tier_store := store; tier_load := load;
     tier_evict := evict; tier_contains := contains; tier_stats := stats |}.
End Tier.
