(* ===== verification/S3TierFacts.v ===== *)
(** * The invariant of the S3 tier

    [s3_inv]: every row of the tier has the canonical location of its key, and the
    object store holds the complete record of every visible row, with the payload
    whose length and SHA-256 the row states. Every method of [s3_tier.py] keeps it
    over any client that satisfies [s3_laws], whichever calls fail. *)

From Stdlib Require Import SpecFloat.
From S2P Require Import Prelude PyText Sha256 Float64 Errors PyVal Json JsonFacts Metadata MetadataFacts MetadataStore MetadataStoreFacts Metrics Runtime MemoryTier MemoryTierFacts Layout Record Url UrlFacts World WorldFacts S3Client S3Tier.
Import MNotations ResNotations.

Section S3Names.
Local Open Scope res_scope.

Record s3_ok (self : S3Tier) : Prop := {
  so_bucket : _BUCKET_RE (bucket self) = true;
  so_prefix : str_ok (prefix self) = true;
  so_bytes : 0 < max_payload_bytes self <= MAX_S3_PAYLOAD_BYTES;
}.

(** ** Construction *)

Lemma str_ok_sub (s s' : pystr) : (forall c, c ∈ s' -> c ∈ s) -> str_ok s = true -> str_ok s' = true.
Proof. unfold str_ok. rewrite !Forall_forallb, !Forall_forall. auto. Qed.

Lemma span_sub p (s : pystr) c : c ∈ (span p s).2 -> c ∈ s.
Proof.
  induction s as [|x s IH]; simpl; [done|]. destruct (p x); [|done]. destruct (span p s) as [a b]. simpl in *.
  intros H. right. by apply IH.
Qed.

Lemma rev_sub (s : pystr) c : c ∈ rev s -> c ∈ s.
Proof. rewrite !list_elem_of_In. apply in_rev. Qed.

Lemma strip_slashes_sub s c : c ∈ strip_slashes s -> c ∈ s.
Proof. unfold strip_slashes. by intros H%rev_sub%span_sub%rev_sub%span_sub. Qed.

(** A tier that was constructed is well configured. *)
Lemma init_ok b p e c r n m self : S3Tier_init b p e c r n m = Ok self -> s3_ok self.
Proof.
  unfold S3Tier_init. intros H. apply res_bind_ok in H as (bucket & Hb & H). apply res_bind_ok in H as (pre & Hp & H).
  apply res_bind_ok in H as (z & Hz & [= <-]). split; cbn.
  - unfold check_bucket in Hb. destruct b; try done. apply res_bind_ok in Hb as ([] & Hb%ensure_ok & H).
    apply res_bind_ok in H as (? & _ & H). by apply res_bind_ok in H as ([] & _ & [= <-]).
  - unfold check_prefix in Hp. destruct p; try done. apply res_bind_ok in Hp as (? & Hu & H).
    apply res_bind_ok in H as ([] & _ & H). apply res_bind_ok in H as ([] & _ & [= <-]).
    eapply str_ok_sub; [apply strip_slashes_sub|]. unfold utf8_len in Hu. destruct (utf8_encode s) eqn:E; [|done].
    by eapply utf8_encode_str_ok.
  - unfold check_max_payload in Hz. destruct m; try done. apply res_bind_ok in Hz as ([] & Hz%ensure_ok & [= <-]).
    breflect. lia.
Qed.

(** ** The bucket *)

Lemma bucket_chars s : _BUCKET_RE s = true -> Forall (fun c => bucket_char c = true) s.
Proof.
  destruct s as [|c r]; [done|]. cbn [_BUCKET_RE]. rewrite andb_true_iff, orb_true_iff, !andb_true_iff.
  assert (forall c, is_alnum c = true -> bucket_char c = true) as Ha by (intros x Hx; unfold bucket_char; by rewrite Hx).
  intros [Hc [Hr%bool_decide_eq_true|[[Hl Hm] _]]]; constructor; auto; [by rewrite Hr|].
  destruct r as [|x r]; [done|]. rewrite (app_removelast_last (l := x :: r) 0) by done.
  apply Forall_app_2; [by rewrite <- Forall_forallb|]. constructor; [auto|constructor].
Qed.

Section Names.
Context `{UnicodeData} (self : S3Tier) (Hok : s3_ok self).

(** ** Objects *)

Definition with_prefix (path : pystr) : pystr :=
  if bool_decide (prefix self = []) then path else prefix self ++ [47] ++ path.

Lemma object_key_eq k :
  key_valid k = true ->
  exists ps, storage_key_parts k = Ok ps /\ object_key self k = Ok (with_prefix (join [47] ps)) /\
    Forall component_ok ps /\ ps <> [].
Proof using.
  intros Hk. destruct (storage_parts_total k Hk) as (ps & Hps & Hl). exists ps.
  pose proof (storage_parts_safe k ps Hk Hps) as Hs. assert (ps <> []) as Hne by (by intros ->).
  split_and!; [done| |by eapply storage_components|done]. unfold object_key, posix_text. rewrite Hps. cbn [res_bind].
  rewrite joinpath_safe by done. by destruct ps.
Qed.

(** Different blocks have different objects. *)
Lemma object_key_inj k k' o :
  key_valid k = true -> key_valid k' = true -> object_key self k = Ok o -> object_key self k' = Ok o -> k = k'.
Proof using.
  intros Hk Hk' H1 H2. destruct (object_key_eq k Hk) as (ps & Hps & E & Hc & Hne).
  destruct (object_key_eq k' Hk') as (ps' & Hps' & E' & Hc' & Hne'). rewrite E in H1. rewrite E' in H2.
  assert (with_prefix (join [47] ps) = with_prefix (join [47] ps')) as Ew by congruence.
  assert (join [47] ps = join [47] ps') as Ej.
  { unfold with_prefix in Ew. destruct (bool_decide _); [done|]. by do 2 apply app_inv_head in Ew. }
  eapply storage_parts_inj; [exact Hps|]. rewrite Hps'. f_equal.
  by rewrite <- (split_join ps Hc Hne), <- (split_join ps' Hc' Hne'), Ej.
Qed.

Lemma join_str_ok ps : Forall component_ok ps -> str_ok (join [47] ps) = true.
Proof using.
  assert (forall a b, str_ok (a ++ b) = str_ok a && str_ok b) as Happ by (intros; apply forallb_app).
  induction 1 as [|c ps (_ & _ & _ & _ & _ & Hc) _ IH]; [done|]. destruct ps as [|c' ps]; [done|].
  change (join [47] (c :: c' :: ps)) with (c ++ [47] ++ join [47] (c' :: ps)). by rewrite !Happ, Hc, IH.
Qed.

Lemma object_str_ok k o : key_valid k = true -> object_key self k = Ok o -> str_ok o = true.
Proof using Hok.
  intros Hk H1. destruct (object_key_eq k Hk) as (ps & _ & E & Hc & _). rewrite E in H1. injection H1 as <-.
  unfold with_prefix. destruct (bool_decide _); [by apply join_str_ok|].
  unfold str_ok. rewrite !forallb_app. fold (str_ok (prefix self)). rewrite (so_prefix _ Hok). cbn. by apply join_str_ok.
Qed.

Lemma s3_uri_total k o : key_valid k = true -> object_key self k = Ok o -> exists uri, s3_uri self o = Ok uri.
Proof using Hok.
  intros Hk Ho. unfold s3_uri, quote. destruct (str_ok_encodes o (object_str_ok k o Hk Ho)) as [b ->]. by eexists.
Qed.

(** ** Locations *)

Lemma s3_uri_parse o uri :
  s3_uri self o = Ok uri -> exists q, quote o = Ok q /\
    urlparse uri = Ok (mkParseResult (str "s3") (bucket self) (47 :: q) [] [] []).
Proof using Hok.
  unfold s3_uri. intros Hu. apply res_bind_ok in Hu as (q & Hq & [= <-]). exists q. split; [done|].
  pose proof (urlparse_url (str "s3") (bucket self) (47 :: q) None) as Hp. cbn [query_part default] in Hp.
  rewrite app_nil_r in Hp. apply Hp; [done| | |done|constructor].
  - eapply Forall_impl; [apply bucket_chars, (so_bucket _ Hok)|]. intros c. cbn.
    unfold bucket_char, is_alnum, is_alpha, is_digit, url_plain, is_ascii. lia.
  - constructor; [by unfold url_plain|]. by apply quoted_all_plain, (quote_chars o).
Qed.

(** The location of a block's object is accepted as it was written. *)
Lemma target_of_object l o :
  key_valid (loc_key l) = true -> loc_tier l = S3 -> object_key self (loc_key l) = Ok o -> s3_uri self o = Ok (loc_uri l) ->
  _location_target self l = Ok (bucket self, o).
Proof using Hok.
  intros Hk Ht Ho Hu. destruct (s3_uri_parse _ _ Hu) as (q & Hq & Hp). unfold _location_target.
  rewrite bool_decide_eq_true_2 by done. cbn [ensure res_bind]. rewrite Hp. cbn [res_bind u_path u_scheme u_netloc u_params u_query u_fragment].
  change (47 =? 47) with true. cbv iota. rewrite (unquote_strict_quote o q Hq). cbn [res_catch res_bind].
  rewrite !bool_decide_eq_true_2 by done. cbn [andb ensure res_bind]. rewrite Hq. cbn [res_bind].
  rewrite bool_decide_eq_true_2 by done. cbn [ensure res_bind]. rewrite Ho. cbn [res_bind]. by rewrite bool_decide_eq_true_2.
Qed.

(** The URI alone determines the object. *)
Lemma object_of_uri l o b o' :
  s3_uri self o = Ok (loc_uri l) -> _location_target self l = Ok (b, o') -> b = bucket self /\ o' = o.
Proof using Hok.
  intros Hu Hl. destruct (s3_uri_parse _ _ Hu) as (q & Hq & Hp). unfold _location_target in Hl.
  apply res_bind_ok in Hl as ([] & _ & Hl). rewrite Hp in Hl. cbn [res_bind u_path] in Hl. change (47 =? 47) with true in Hl.
  cbv iota zeta in Hl. rewrite (unquote_strict_quote o q Hq) in Hl. cbn [res_catch res_bind] in Hl.
  apply res_bind_ok in Hl as ([] & _ & Hl). apply res_bind_ok in Hl as (? & _ & Hl). apply res_bind_ok in Hl as ([] & _ & Hl).
  apply res_bind_ok in Hl as (? & _ & Hl). apply res_bind_ok in Hl as ([] & _ & [= <- <-]). done.
Qed.
End Names.
End S3Names.

Local Open Scope m_scope.

(** ** Records *)

(** What the tier writes for a block of [m]. *)
Record s3_written (m : KVMetadata) (maxb : Z) (b data : pybytes) : Prop := {
  sw_md : storable m = true;
  sw_size : md_bytes m = PInt (zlen data) /\ zlen data <= maxb;
  sw_sum : md_checksum m = PStr (sha256_hex data);
  sw_header : exists d, to_dict m = Ok d /\ encode_record_header (s3_header (sha256_hex data) (zlen data) d) = Ok b;
}.

(** The header a reader gets of it. *)
Record s3_header_of (m : KVMetadata) (data : pybytes) (h : list (pystr * pyval)) : Prop := {
  sh_sum : header_checksum h = sha256_hex data;
  sh_size : payload_size h = zlen data;
  sh_metadata now : from_dict now (get_or_none (str "metadata") h) = Ok (norm_metadata fmt_compact m);
}.

Definition s3_items (c : pystr) (n : Z) (d : pyval) : list (pystr * pyval) :=
  [(str "version", PInt 1); (str "checksum", PStr c); (str "payload_bytes", PInt n); (str "metadata", d)].

Lemma s3_describes c n d : describes false (s3_items c n d) c n d.
Proof. split; [by apply (bool_decide_unpack _); vm_compute|done..]. Qed.

Lemma s3_written_header m maxb b data :
  s3_written m maxb b data ->
  0 < zlen b <= MAX_HEADER_BYTES /\
  exists h, s3_header_of m data h /\ forall now source, decode_record_header now b source maxb false = Ok h.
Proof.
  intros [Hm [Hn Hmax] Hc (d & Hd & Hb)]. pose proof (encode_header_inv _ _ Hb) as (t & _ & _ & Hne & Hl).
  split; [destruct b; [done|]; simpl in *; lia|]. pose proof (s3_describes (sha256_hex data) (zlen data) d) as Hde.
  pose proof (storable_inv m Hm) as (Hty & Hk & _). destruct (to_dict_items m Hty) as (shape & Hs & Hd').
  rewrite Hd in Hd'. injection Hd' as ->. set (d := PDict (metadata_items m (map PInt shape))) in *.
  exists (norm_items (s3_items (sha256_hex data) (zlen data) d)). split.
  - split; [unfold header_checksum|unfold payload_size|intros now]; rewrite norm_items_get by apply Hde; try done.
    change (dict_get (str "metadata") _) with (Some d). cbn [fmap option_fmap option_map default].
    by apply from_dict_items.
  - intros now source. eapply decode_items; try done; [|lia].
    destruct (ty_checksum m Hty) as (c' & Ec & Hc'). rewrite Hc in Ec. injection Ec as <-.
    apply json_ok_dict_iff. split; [apply Hde|].
    repeat (apply Forall_cons_2; [split; [vm_compute; reflexivity|]|]); try apply Forall_nil_2; try done.
    + by apply (hex_fullmatch_str_ok 64).
    + apply (items_json_ok m shape Hm Hs).
Qed.

(** The record reads back. *)
Lemma s3_written_reads m maxb b data :
  s3_written m maxb b data ->
  exists h, s3_header_of m data h /\ forall now source, whole_record now (record_bytes b data) source maxb = Ok (h, data).
Proof.
  intros Hw. destruct (s3_written_header m maxb b data Hw) as (Hl & h & Hh & Hd). exists h. split; [done|].
  intros now source. unfold whole_record, record_bytes, MAX_HEADER_BYTES in *.
  destruct (Z.leb_spec 12 (zlen (MAGIC ++ header_len_pack (zlen b) ++ b ++ data))) as [_|Hx].
  2: { unfold header_len_pack in Hx. rewrite !length_app, be_bytes_length in Hx. simpl in Hx. lia. }
  cbn [ensure res_bind]. rewrite (take_app_length' MAGIC), (drop_app_length' MAGIC) by done.
  rewrite bool_decide_eq_true_2 by done. cbn [ensure res_bind]. cbv zeta.
  rewrite (take_app_length' (header_len_pack _)) by (symmetry; apply be_bytes_length).
  assert (header_len_unpack (header_len_pack (zlen b)) = zlen b) as ->.
  { apply be_value_bytes. change (256 ^ Z.of_nat HEADER_LEN_SIZE) with 4294967296. lia. }
  replace (drop 12 (MAGIC ++ header_len_pack (zlen b) ++ b ++ data)) with (b ++ data).
  2: { rewrite app_assoc, drop_app_length'; [done|]. unfold header_len_pack. by rewrite length_app, be_bytes_length. }
  destruct (Z.leb_spec (zlen b) 0); [lia|]. unfold MAX_HEADER_BYTES. destruct (Z.ltb_spec (64 * 1024) (zlen b)); [lia|].
  cbn [orb negb ensure res_bind]. rewrite length_app, Nat2Z.inj_add. destruct (Z.leb_spec (zlen b) (zlen b + zlen data)); [|lia].
  cbn [ensure res_bind]. rewrite take_app_length', drop_app_length' by lia. rewrite Hd. cbn [res_bind].
  rewrite (sh_size _ _ _ Hh), Z.leb_refl. cbn [ensure res_bind]. by rewrite Nat2Z.id, firstn_all.
Qed.

Section Objects.
Context `{U : UnicodeData} {D : Type} (self : S3Tier) (client : S3Client D).
Context (good : D -> Prop) (objects : D -> gmap (pystr * pystr) pybytes).
Context (Hlaws : s3_laws client good objects) (Hok : s3_ok self).
Abbreviation s3_row k s := (ms_blocks s !! row_key k S3).

(** ** Placement *)

(** The object of a key and its location. *)
Definition object_at (k : BlockKey) (uri o : pystr) : Prop := object_key self k = Ok o /\ s3_uri self o = Ok uri.

(** The record of a row, with header [b] for the metadata [m] and payload [data]. *)
Record s3_placed_as (d : D) (k : BlockKey) (r : Row) (o : pystr) (m : KVMetadata) (b data : pybytes) : Prop := {
  sp_object : object_at k (r_uri r) o;
  sp_holds : objects d !! (bucket self, o) = Some (record_bytes b data);
  sp_written : s3_written m (max_payload_bytes self) b data;
  sp_key : md_key m = k;
  sp_row : r_bytes r = zlen data /\ r_checksum r = sha256_hex data;
  sp_desc : exists p, row_md r p /\
    descriptor_eqb (payload_descriptor p) (payload_descriptor (norm_metadata fmt_compact m)) = true;
}.

Definition s3_placed (d : D) (k : BlockKey) (r : Row) (data : pybytes) : Prop :=
  exists o m b, s3_placed_as d k r o m b data.

Record s3_inv (s : MetadataStore) (d : D) : Prop := {
  si_good : good d;
  si_uri k r : key_valid k = true -> s3_row k s = Some r -> exists o, object_at k (r_uri r) o;
  si_data k r : key_valid k = true -> s3_row k s = Some r -> r_state r = active -> exists data, s3_placed d k r data;
  si_text k r : s3_row k s = Some r -> float_ok (r_last_access r) = true;
}.

Lemma s3_placed_core d k r r' data : row_core r' = row_core r -> s3_placed d k r data -> s3_placed d k r' data.
Proof using.
  intros [= E1 E2 E3 E4] (o & m & b & [H1 H2 H3 H4 [H5 H6] (p & Hp & Hd)]). exists o, m, b.
  split; rewrite ?E1, ?E2, ?E3; try done. exists p. split; [by eapply row_md_json|done].
Qed.

Lemma s3_shrinks s s' d : shrinks S3 (ms_blocks s) (ms_blocks s') -> s3_inv s d -> s3_inv s' d.
Proof using.
  intros Hs [Hg Hu Hp Ht]. split; [done| | |].
  - intros k r' Hk Hr'. destruct (Hs _ _ Hr') as (r & Hr & _ & Hc & _). injection Hc as E _. rewrite E. by apply Hu.
  - intros k r' Hk Hr' Ha. destruct (Hs _ _ Hr') as (r & Hr & Ha' & Hc & _).
    destruct (Hp k r Hk Hr (Ha' Ha)) as (data & Hd). exists data. by eapply s3_placed_core.
  - intros k r' Hr'. destruct (Hs _ _ Hr') as (r & Hr & _ & _ & Hf). by apply Hf, (Ht k).
Qed.

(** A payload is determined by its place. *)
Lemma s3_placed_unique d k r data data' : s3_placed d k r data -> s3_placed d k r data' -> data = data'.
Proof using.
  intros (o & m & b & Hp) (o' & m' & b' & Hp').
  assert (o' = o) as -> by (destruct (sp_object _ _ _ _ _ _ _ Hp), (sp_object _ _ _ _ _ _ _ Hp'); congruence).
  destruct (s3_written_reads _ _ _ _ (sp_written _ _ _ _ _ _ _ Hp)) as (h & _ & R).
  destruct (s3_written_reads _ _ _ _ (sp_written _ _ _ _ _ _ _ Hp')) as (h' & _ & R').
  pose proof (sp_holds _ _ _ _ _ _ _ Hp) as E. rewrite (sp_holds _ _ _ _ _ _ _ Hp') in E.
  assert (record_bytes b' data' = record_bytes b data) as E' by congruence.
  specialize (R S754_nan []). specialize (R' S754_nan []). rewrite E', R in R'. by injection R'.
Qed.

(** ** Changes of the objects *)

(** Only the object [o] of the bucket may differ. *)
Definition outside (o : pystr) (d d' : D) : Prop :=
  forall o', o' <> o -> objects d' !! (bucket self, o') = objects d !! (bucket self, o').

Lemma s3_placed_outside o d d' k r data :
  outside o d d' -> (forall o', object_at k (r_uri r) o' -> o' <> o) -> s3_placed d k r data -> s3_placed d' k r data.
Proof using.
  intros Ho Hne (o' & m & b & Hp). exists o', m, b. pose proof Hp as [H1 H2 H3 H4 H5 H6]. split; try done.
  rewrite Ho; [done|by apply Hne].
Qed.

Lemma s3_placed_same d d' k r data : objects d' = objects d -> s3_placed d k r data -> s3_placed d' k r data.
Proof using. intros E (o' & m & b & [H1 H2 H3 H4 H5 H6]). exists o', m, b. split; try done. by rewrite E. Qed.

(** Conditions on rows and objects that survive what publishes nothing and what
    changes the object of a hidden block only. *)
Record s3_stable (R : MetadataStore -> D -> Prop) : Prop := {
  ss_shrinks s s' d : shrinks S3 (ms_blocks s) (ms_blocks s') -> R s d -> R s' d;
  ss_same s d d' : objects d' = objects d -> R s d -> R s d';
  ss_outside k o s d d' :
    key_valid k = true -> object_key self k = Ok o -> hidden k S3 s -> outside o d d' -> s3_inv s d -> R s d -> R s d';
}.

Lemma s3_stable_rows (R : MetadataStore -> Prop) :
  (forall s s', shrinks S3 (ms_blocks s) (ms_blocks s') -> R s -> R s') -> s3_stable (fun s _ => R s).
Proof using. intros H. split; eauto. Qed.

Lemma s3_stable_and R R' : s3_stable R -> s3_stable R' -> s3_stable (fun s d => R s d /\ R' s d).
Proof using. intros [H1 H2 H3] [H4 H5 H6]. split; naive_solver. Qed.

Lemma s3_stable_hidden k : s3_stable (fun s _ => hidden k S3 s).
Proof using. apply s3_stable_rows. intros s s'. apply hidden_shrinks. Qed.

(** A visible block has another object than a hidden one. *)
Lemma visible_object k o s k' r o' :
  key_valid k = true -> object_key self k = Ok o -> hidden k S3 s ->
  key_valid k' = true -> s3_row k' s = Some r -> r_state r = active -> object_at k' (r_uri r) o' -> o' <> o.
Proof using.
  intros Hk Ho Hh Hk' Hr Ha [Ho' _] ->. assert (k' = k) as -> by (by eapply object_key_inj). by apply (Hh r Hr).
Qed.

(** The payloads of the visible rows are among [A]. *)
Definition s3_within (A : BlockKey -> pybytes -> Prop) (s : MetadataStore) (d : D) : Prop :=
  forall k r data, key_valid k = true -> s3_row k s = Some r -> r_state r = active -> s3_placed d k r data -> A k data.

Lemma s3_stable_within A : s3_stable (s3_within A).
Proof using.
  split.
  - intros s s' d Hs HA k r' data Hk Hr' Ha Hp. destruct (Hs _ _ Hr') as (r & Hr & Ha' & Hc & _).
    eapply (HA k r); [done|done|auto|]. by eapply s3_placed_core.
  - intros s d d' E HA k r data Hk Hr Ha Hp. eapply (HA k r); try done. by eapply s3_placed_same.
  - intros k o s d d' Hk Ho Hh Hout Hd HA k' r data' Hk' Hr Ha Hp'.
    destruct (si_data _ _ Hd k' r Hk' Hr Ha) as (data & Hp).
    assert (s3_placed d' k' r data) as Hp2.
    { eapply (s3_placed_outside o d); [done| |done]. intros o' Ho'. by eapply (visible_object k o s k' r). }
    rewrite (s3_placed_unique _ _ _ _ _ Hp' Hp2). by eapply HA.
Qed.

(** ** Calls *)

Section Kept.
Context (R : MetadataStore -> D -> Prop) (HR : s3_stable R).

Definition s3_with (s : MetadataStore) (d : D) : Prop := s3_inv s d /\ R s d.
Local Abbreviation I := (linked s3_with).

Lemma s3_with_shrinks s s' d : shrinks S3 (ms_blocks s) (ms_blocks s') -> s3_with s d -> s3_with s' d.
Proof using HR. intros Hs [H1 H2]. split; [by eapply s3_shrinks|by eapply ss_shrinks]. Qed.
Local Hint Resolve s3_with_shrinks : kv.

Lemma s3_with_same s d d' : good d' -> objects d' = objects d -> s3_with s d -> s3_with s d'.
Proof using HR.
  intros Hg E [[_ Hu Hp Ht] H2]. split; [|by eapply ss_same]. split; try done. intros k r Hk Hr Ha.
  destruct (Hp k r Hk Hr Ha) as (data & Hd). exists data. by eapply s3_placed_same.
Qed.

Lemma s3_with_outside k o s d d' :
  key_valid k = true -> object_key self k = Ok o -> hidden k S3 s -> good d' -> outside o d d' -> s3_with s d -> s3_with s d'.
Proof using HR.
  intros Hk Ho Hh Hg Hout [H1 H2]. split; [|by eapply ss_outside]. destruct H1 as [_ Hu Hp Ht]. split; try done.
  intros k' r Hk' Hr Ha. destruct (Hp k' r Hk' Hr Ha) as (data & Hd). exists data.
  eapply (s3_placed_outside o d); [done| |done]. intros o' Ho'. by eapply (visible_object k o s k' r).
Qed.

(** A call of the client that leaves the objects alone. *)
Lemma s3_reads {A} (m : M D A) :
  (forall d, good d -> good (m d).1 /\ objects (m d).1 = objects d) -> preserves I (on_dev m).
Proof using HR.
  intros Hm. apply linked_dev. intros s d _ Hd. destruct (Hm d (si_good _ _ (proj1 Hd))) as [Hg E].
  by eapply s3_with_same.
Qed.

Lemma s3_head b o : preserves I (on_dev (head_object client b o)).
Proof using HR Hlaws. apply s3_reads. intros d Hg. destruct (law_head _ _ _ Hlaws b o d Hg) as (H1 & H2 & _). done. Qed.
Local Hint Resolve s3_head : kv.

Lemma s3_head_exists o b amb : preserves I (_head_exists client o b amb).
Proof using HR Hlaws. unfold _head_exists. linked. Qed.
Local Hint Resolve s3_head_exists : kv.

Lemma s3_location_exists l : preserves I (location_exists self client l).
Proof using HR Hlaws. unfold location_exists. linked. Qed.
Local Hint Resolve s3_location_exists : kv.

Lemma s3_lookup k : preserves I (lookup self client k).
Proof using HR Hlaws. unfold lookup, s3_metric. linked. Qed.
Local Hint Resolve s3_lookup : kv.

Lemma s3_contains k : preserves I (contains self client k).
Proof using HR Hlaws. unfold contains. linked. Qed.

(** The body is read in the state the response leaves. *)
Lemma s3_read_object o b : preserves I (_read_object self client o b).
Proof using HR Hlaws.
  intros w Hw. unfold _read_object, bind at 1, try_catch, on_dev at 1, zoom.
  pose proof (law_get _ _ _ Hlaws b o (w_dev w) (si_good _ _ (proj1 (proj2 Hw)))) as (Hg & E & Hb).
  destruct (get_object client b o (w_dev w)) as [d r]. cbn [fst snd] in Hg, E, Hb.
  assert (I (mkWorld (w_env w) d)) as Hw1 by (split; [apply Hw|]; apply (s3_with_same _ (w_dev w)); [done|done|apply Hw]).
  destruct r as [[body|e]|e]; cbn [res_catch].
  - destruct Hb as (bs & _ & Hdel). unfold bind at 1, lift. cbn [fst snd]. unfold bind.
    pose proof (linked_time s3_with _ Hw1) as Hw2.
    destruct (on_env time_time (mkWorld (w_env w) d)) as [w2 [now|e]] eqn:E2; [|done]. cbn [fst] in Hw2.
    assert (w_dev w2 = d) as D2 by (by injection E2 as <- _). unfold on_dev, zoom. rewrite D2.
    pose proof (read_body_delivers _ _ now body o (max_payload_bytes self) d bs Hdel) as Hr.
    destruct (_read_body now body o (max_payload_bytes self) d) as [d' r]. destruct Hr as [[Hg' E'] _]. cbn [fst].
    split; [apply Hw2|]. cbn. apply (s3_with_same _ (w_dev w2)); [done|congruence|apply Hw2].
  - cbn [existsb]. unfold bind, lift. destruct (_ || _); exact Hw1.
  - destruct (_is_not_found false e); exact Hw1.
Qed.
End Kept.

(** ** evict and load *)

Section Remove.
Context (R : MetadataStore -> D -> Prop) (HR : s3_stable R).

(** A call that changes one object of a hidden block. *)
Lemma s3_changes {A} k o (m : M D A) :
  key_valid k = true -> object_key self k = Ok o -> (forall s d, R s d -> hidden k S3 s) ->
  (forall d, good d -> good (m d).1 /\ outside o d (m d).1) -> preserves (linked (s3_with R)) (on_dev m).
Proof using HR.
  intros Hk Ho Hh Hm. apply linked_dev. intros s d _ Hd. destruct (Hm d (si_good _ _ (proj1 Hd))) as [Hg Hout].
  eapply s3_with_outside; try done. eapply Hh, Hd.
Qed.

Lemma s3_delete k o :
  key_valid k = true -> object_key self k = Ok o -> (forall s d, R s d -> hidden k S3 s) ->
  preserves (linked (s3_with R)) (on_dev (delete_object client (bucket self) o)).
Proof using HR Hlaws.
  intros Hk Ho Hh. eapply s3_changes; try done. intros d Hg.
  destruct (law_delete _ _ _ Hlaws (bucket self) o d Hg) as (H1 & [E|[_ E]]); (split; [done|]); intros o' Hne; rewrite E; [|done].
  by rewrite lookup_delete_ne by congruence.
Qed.

Lemma s3_put k o body md :
  key_valid k = true -> object_key self k = Ok o -> (forall s d, R s d -> hidden k S3 s) ->
  preserves (linked (s3_with R)) (on_dev (put_object client (bucket self) o body md)).
Proof using HR Hlaws.
  intros Hk Ho Hh. eapply s3_changes; try done. intros d Hg.
  destruct (law_put _ _ _ Hlaws (bucket self) o body md d Hg) as (H1 & [E|[_ E]]); (split; [done|]); intros o' Hne; rewrite E; [|done].
  by rewrite lookup_insert_ne by congruence.
Qed.

(** The steps after the tombstone is in place. *)
Definition remove_payload (k : BlockKey) (l : BlockLocation) : M (World D) bool :=
  let* (b, object) := lift (_location_target self l) in
  remove_object client b object ;;
  let* finished := db (MetadataStore.finish_delete k S3) in
  if negb finished then raise tombstone_lost else ret true.

Lemma s3_remove k k0 l o :
  key_valid k0 = true -> object_at k0 (loc_uri l) o -> (forall s d, R s d -> hidden k0 S3 s) ->
  preserves (linked (s3_with R)) (remove_payload k l).
Proof using Hok HR Hlaws.
  intros Hk [Ho Hu] Hh. apply preserves_lift_bind. intros [b o'] El.
  pose proof (object_of_uri self Hok _ _ _ _ Hu El) as [-> ->]. cbv iota beta.
  pose proof (s3_delete k0 o Hk Ho Hh) as Hd. pose proof (s3_head_exists R HR) as He.
  pose proof (s3_with_shrinks R HR) as Hs. unfold remove_object.
  apply preserves_bind.
  - apply preserves_bind; [apply preserves_try_catch; [done|]; intros e; destruct (_is_not_found _ _); linked|].
    intros _. apply preserves_bind; [apply He|]. intros b. apply preserves_when, preserves_raise.
  - intros _. apply preserves_bind; [|intros [|]; [apply preserves_ret|apply preserves_raise]].
    apply (linked_db S3); [done|apply quiet_finish_delete].
Qed.
End Remove.

Section Calls.
Context (R : MetadataStore -> D -> Prop) (HR : s3_stable R).

Lemma s3_evict k : preserves (linked (s3_with R)) (evict self client k).
Proof using Hok HR Hlaws.
  unfold evict. apply preserves_bind; [apply (linked_db S3); [by apply s3_with_shrinks|apply quiet_mutation]|].
  intros _ w Hw. unfold bind at 1.
  pose proof (linked_db S3 _ (s3_with_shrinks R HR) _ (quiet_begin_delete S3 k S3) w Hw) as Hw1.
  destruct (db (begin_delete k S3) w) as [w1 [[l|]|e]] eqn:E; [|done|done]. cbn in Hw1 |- *.
  destruct (begin_delete_hides k w w1 l (proj1 Hw) E) as [Hh (r & Hr & Hu)].
  destruct (key_of_row _ _ _ (env_store_inv _ (proj1 Hw1)) Hr) as (k0 & Hk0 & Ek).
  rewrite <- Ek in Hr. destruct (si_uri _ _ (proj1 (proj2 Hw1)) k0 r Hk0 Hr) as (o & Ho). rewrite <- Hu in Ho.
  set (R' := fun s d => R s d /\ hidden k0 S3 s).
  assert (preserves (linked (s3_with R')) (remove_payload k l)) as Hp.
  { eapply s3_remove; [|done|done|by intros s d [_ H2]]. apply s3_stable_and; [done|apply s3_stable_hidden]. }
  destruct Hw1 as [Hi [Hd HRw]].
  destruct (Hp w1) as (Hi' & Hd' & HR' & _); [|by split].
  split; [done|]. split; [done|]. split; [done|]. by eapply hidden_same.
Qed.

Lemma s3_load k : preserves (linked (s3_with R)) (load self client k).
Proof using Hok HR Hlaws.
  pose proof (s3_with_shrinks R HR) as Hs. pose proof s3_evict. pose proof (s3_lookup R HR).
  pose proof (s3_read_object R HR). pose proof (linked_verify S3 (s3_with R) Hs).
  pose proof (linked_finish S3 (s3_with R) Hs). unfold load, checked_load. linked.
Qed.

Lemma s3_stats : preserves (linked (s3_with R)) (stats self client).
Proof using HR Hlaws.
  pose proof (s3_with_shrinks R HR) as Hs. unfold stats.
  apply preserves_bind; [apply (linked_db S3); [done|apply quiet_bytes_used]|]. intros used. cbv zeta.
  destruct (injection_stats client) as [s|] eqn:E; [|apply preserves_ret].
  apply preserves_bind; [|intros; apply preserves_ret]. apply s3_reads; [done|]. intros d Hg. by apply (law_stats _ _ _ Hlaws s d E).
Qed.
End Calls.
End Objects.
