(* ===== verification/S3StoreFacts.v ===== *)
(** * What lookups, loads, stores and evictions of the S3 tier return and leave behind

    Over a consistent object store ([s3_laws]) a visible block is found and loads with
    its payload, or the call reports an outage; a block that is not found is not
    visible. A store that returns has published the block with its record in the object
    store; a store that raises, at whichever step, has published nothing. *)

From Stdlib Require Import SpecFloat.
From S2P Require Import Prelude PyText Sha256 Float64 Errors PyVal Json JsonFacts Metadata MetadataFacts MetadataStore MetadataStoreFacts Metrics Runtime MemoryTier MemoryTierFacts Layout Record Url UrlFacts World WorldFacts S3Client S3Tier S3TierFacts.
Import MNotations ResNotations.
Local Open Scope m_scope.

Section Load.
Context `{U : UnicodeData} {D : Type} (self : S3Tier) (client : S3Client D).
Context (good : D -> Prop) (objects : D -> gmap (pystr * pystr) pybytes).
Context (Hlaws : s3_laws client good objects) (Hok : s3_ok self).
Abbreviation w_store w := (env_store (w_env w)).
Abbreviation s3_row k w := (ms_blocks (w_store w) !! row_key k S3).
Abbreviation inv := (linked (s3_inv self good objects)).

(** Only the clock, the metrics and the client's own state have moved; with
    [s3_step], also what rows do not show. *)
Definition s3_idle (w w' : World D) : Prop :=
  good (w_dev w') /\ objects (w_dev w') = objects (w_dev w) /\ env_time (w_env w') = env_time (w_env w) /\ w_store w' = w_store w.

Definition s3_step (w w' : World D) : Prop :=
  good (w_dev w') /\ objects (w_dev w') = objects (w_dev w) /\ env_time (w_env w') = env_time (w_env w) /\
  steady S3 (w_store w) (w_store w').

Lemma s3_idle_refl w : good (w_dev w) -> s3_idle w w.
Proof using. by intros Hg. Qed.

Lemma s3_idle_trans w1 w2 w3 : s3_idle w1 w2 -> s3_idle w2 w3 -> s3_idle w1 w3.
Proof using. intros (A1 & A2 & A3 & A4) (B1 & B2 & B3 & B4). split_and!; congruence. Qed.

Lemma idle_s3_idle w w' : good (w_dev w) -> idle_step w w' -> s3_idle w w'.
Proof using. intros Hg (E1 & E2 & E3). unfold s3_idle. by rewrite E1. Qed.

Lemma s3_idle_step w w' : s3_idle w w' -> s3_step w w'.
Proof using. intros (A1 & A2 & A3 & A4). split_and!; try done. by rewrite A4. Qed.

Lemma calm_s3_step w w' : good (w_dev w) -> calm S3 w w' -> s3_step w w'.
Proof using. intros Hg (E1 & E2 & E3). unfold s3_step. by rewrite E1. Qed.

Lemma s3_step_trans w1 w2 w3 : s3_step w1 w2 -> s3_step w2 w3 -> s3_step w1 w3.
Proof using. intros (A1 & A2 & A3 & A4) (B1 & B2 & B3 & B4). split_and!; [done|congruence..|by eapply steady_trans]. Qed.

(** The clock and the store of an idle world. *)
Lemma s3_idle_inv w w' : s3_idle w w' -> env_inv (w_env w) -> env_inv (w_env w').
Proof using. intros (_ & _ & T & S) [Hc Hi]. split; [unfold clock_ok; by rewrite T|by rewrite S]. Qed.

(** ** lookup *)

Lemma head_spec o amb w :
  good (w_dev w) ->
  match _head_exists client o (bucket self) amb w with
  | (w', r) => s3_idle w w' /\
      match r with
      | Ok true => is_Some (objects (w_dev w) !! (bucket self, o))
      | Ok false => objects (w_dev w) !! (bucket self, o) = None
      | Raise e => is_a e TierUnavailable = true
      end
  end.
Proof using Hlaws.
  intros Hg. destruct (law_head _ _ _ Hlaws (bucket self) o (w_dev w) Hg) as (H1 & H2 & H3).
  unfold _head_exists, try_catch, bind, on_dev, zoom. destruct (head_object client (bucket self) o (w_dev w)) as [d [[]|e]]; cbn in *.
  - by split_and!.
  - destruct (_is_not_found amb e) eqn:E; (split; [by split_and!|]); [|done].
    apply H3. destruct amb; [done|by apply not_found_weaken].
Qed.

Lemma exists_spec l o w :
  good (w_dev w) -> _location_target self l = Ok (bucket self, o) ->
  match location_exists self client l w with
  | (w', r) => s3_idle w w' /\
      match r with
      | Ok true => is_Some (objects (w_dev w) !! (bucket self, o))
      | Ok false => objects (w_dev w) !! (bucket self, o) = None
      | Raise e => is_a e TierUnavailable = true
      end
  end.
Proof using Hlaws. intros Hg Hl. unfold location_exists, bind at 1, lift. rewrite Hl. by apply head_spec. Qed.

(** The location of a row of the tier is accepted. *)
Lemma row_target k r d o :
  key_valid k = true -> object_at self k (r_uri r) o ->
  _location_target self (row_location k S3 r d) = Ok (bucket self, o).
Proof using Hok. intros Hk [Ho Hu]. by apply target_of_object. Qed.

(** A visible row has its object. *)
Lemma visible_exists k r d w :
  inv w -> key_valid k = true -> s3_row k w = Some r -> r_state r = active ->
  exists o, _location_target self (row_location k S3 r d) = Ok (bucket self, o) /\
    is_Some (objects (w_dev w) !! (bucket self, o)).
Proof using Hok.
  intros [_ Hd] Hk Hr Ha. destruct (si_data _ _ _ _ _ Hd k r Hk Hr Ha) as (data & o & m & b & Hp). exists o. split.
  - apply row_target; [done|apply Hp].
  - by rewrite (sp_holds _ _ _ _ _ _ _ _ _ Hp).
Qed.

Lemma lookup_spec k w :
  inv w -> key_valid k = true ->
  match lookup self client k w with
  | (w', r) => s3_idle w w' /\
      match r with
      | Ok (Some l) => _closed (w_store w) = false /\
          exists row d, s3_row k w = Some row /\ r_state row = active /\ json_ok (PDict d) = true /\ l = row_location k S3 row d
      | Ok None => hidden k S3 (w_store w)
      | Raise e => _closed (w_store w) = true \/ is_a e TierUnavailable = true
      end
  end.
Proof using Hlaws Hok.
  intros Hw Hk. pose proof Hw as [Hi Hd]. pose proof (si_good _ _ _ _ _ Hd) as Hg. unfold lookup, bind at 1.
  destruct (db (MetadataStore.lookup k (Some S3)) w) as [w1 r1] eqn:E1. apply db_ok in E1 as (E1 & D1 & T1).
  destruct (_closed (w_store w)) eqn:Ho.
  { unfold MetadataStore.lookup, bind in E1. rewrite execute_eq, Ho in E1. injection E1 as E1 <-. split; [|by left].
    split_and!; [by rewrite D1|by rewrite D1|done|done]. }
  destruct (store_lookup_eq k S3 _ (env_store_inv _ Hi) Ho) as (ls & Hls & Hcase). rewrite Hls in E1. injection E1 as E1 <-.
  assert (s3_idle w w1) as S1 by (apply idle_s3_idle; [done|by split_and!]). assert (good (w_dev w1)) as Hg1 by apply S1.
  destruct ls as [|l0 [|]]; [|destruct Hcase as (r & d & Hr & Ha & Hj & ->)|done].
  - destruct (metric_idle (Inc kv_lookup_total (f64_of_Z 1) (labels_of S3 (str "miss"))) w1) as (w2 & E2 & S2).
    unfold s3_metric. rewrite (bind_run _ _ _ _ _ E2). split; [eapply s3_idle_trans; [exact S1|by apply idle_s3_idle]|].
    intros r Hr. by rewrite (Hcase r Hr).
  - destruct (visible_exists k r d w Hw Hk Hr Ha) as (o & Ht & Hx).
    pose proof (exists_spec _ o w1 Hg1 Ht) as H2. unfold bind at 1.
    destruct (location_exists self client (row_location k S3 r d) w1) as [w2 [b|e]]; destruct H2 as [S2 H2]; cycle 1.
    { split; [by eapply s3_idle_trans|by right]. }
    rewrite D1 in H2. destruct b; [|rewrite H2 in Hx; by destruct Hx].
    destruct (metric_idle (Inc kv_lookup_total (f64_of_Z 1) (labels_of S3 (str "hit"))) w2) as (w3 & E3 & S3).
    unfold s3_metric. rewrite (bind_run _ _ _ _ _ E3). split.
    + eapply s3_idle_trans; [exact S1|]. eapply s3_idle_trans; [exact S2|]. apply idle_s3_idle; [apply S2|done].
    + split; [done|]. exists r, d. by split_and!.
Qed.

(** ** load *)

(** The object of a visible row is read as its record, or there is an outage. *)
Lemma read_object_spec k r o m b data w :
  s3_placed_as self objects (w_dev w) k r o m b data -> good (w_dev w) ->
  match _read_object self client o (bucket self) w with
  | (w', res) => s3_idle w w' /\
      match res with
      | Ok (h, payload) => payload = data /\ s3_header_of m data h
      | Raise e => is_a e TierUnavailable = true
      end
  end.
Proof using Hlaws.
  intros Hp Hg. destruct (s3_written_reads _ _ _ _ (sp_written _ _ _ _ _ _ _ _ _ Hp)) as (h & Hh & Hwhole).
  unfold _read_object, bind at 1, try_catch, on_dev at 1, zoom.
  destruct (law_get _ _ _ Hlaws (bucket self) o (w_dev w) Hg) as (Hg1 & E1 & Hb).
  destruct (get_object client (bucket self) o (w_dev w)) as [d r0]. cbn [fst snd] in Hg1, E1, Hb.
  assert (s3_idle w (mkWorld (w_env w) d)) as S1 by by split_and!.
  destruct r0 as [[body|e]|e]; cbn [res_catch].
  - destruct Hb as (bs & Hbs & Hdel). rewrite (sp_holds _ _ _ _ _ _ _ _ _ Hp) in Hbs.
    assert (record_bytes b data = bs) as <- by congruence.
    unfold bind at 1, lift. cbn [fst snd]. unfold bind, on_env at 1, zoom, time_time. cbn [w_env w_dev].
    unfold on_dev, zoom. cbn [w_env w_dev].
    match goal with |- context [_read_body ?now body _ _ _] => pose proof (read_body_delivers _ _ now body o (max_payload_bytes self) d _ Hdel) as Hr; destruct (_read_body now body o (max_payload_bytes self) d) as [d' res] end.
    destruct Hr as [[Hg2 E2] Hr]. split; [split_and!; [done|cbn; congruence|done|done]|].
    rewrite Hwhole in Hr. destruct Hr as [-> |[_ [(e & -> & He)|(e & c & He & _)]]]; [done|done|discriminate].
  - cbn [existsb]. unfold bind, lift. destruct Hb as [Hb|Hb]; rewrite Hb, ?orb_true_r; by split.
  - destruct (_is_not_found false e) eqn:E; [|by split]. rewrite (sp_holds _ _ _ _ _ _ _ _ _ Hp) in Hb. specialize (Hb eq_refl). discriminate.
Qed.

(** The record of a visible row passes every check. *)
Lemma check_placed k r d h o m b data w :
  s3_placed_as self objects (w_dev w) k r o m b data -> s3_header_of m data h ->
  check_loaded k (row_location k S3 r d) h data (norm_metadata fmt_compact m) = Ok tt.
Proof using.
  intros Hp Hh. unfold check_loaded. rewrite bool_decide_eq_true_2 by apply (sp_key _ _ _ _ _ _ _ _ _ Hp).
  cbn [ensure res_bind row_location loc_bytes loc_checksum]. destruct (sp_row _ _ _ _ _ _ _ _ _ Hp) as [E1 E2].
  rewrite E1, E2, (sh_size _ _ _ Hh), (sh_sum _ _ _ Hh), Z.eqb_refl. cbn [andb ensure res_bind]. by rewrite bool_decide_eq_true_2.
Qed.

(** The locked part of a load, for the location [r0] had when it was acquired. *)
Lemma checked_load_spec start k d w r r0 o m b data :
  env_inv (w_env w) -> good (w_dev w) -> key_valid k = true -> _closed (w_store w) = false ->
  s3_row k w = Some r -> r_state r = active -> row_core r = row_core r0 ->
  s3_placed_as self objects (w_dev w) k r0 o m b data ->
  match checked_load self client start k (row_location k S3 r0 d) w with
  | (w', res) => s3_step w w' /\
      match res with
      | Ok lr => lr_data lr = data /\ lr_key lr = k /\
          exists p, lr_metadata lr = copy_access (norm_metadata fmt_compact m) p
      | Raise e => is_a e TierUnavailable = true
      end
  end.
Proof using Hlaws Hok.
  intros Hi Hg Hk Ho Hr Ha Hc Hp. unfold checked_load, bind at 1, lift at 1.
  rewrite (row_target k r0 d o Hk (sp_object _ _ _ _ _ _ _ _ _ Hp)). cbv beta iota.
  pose proof (read_object_spec k r0 o m b data w Hp Hg) as H1. unfold bind at 1.
  destruct (_read_object self client o (bucket self) w) as [w1 [[h payload]|e]]; destruct H1 as [S1 H1]; cycle 1.
  { split; [by apply s3_idle_step|done]. }
  destruct H1 as [-> Hh]. pose proof (s3_idle_inv _ _ S1 Hi) as Hi1.
  destruct (time_idle w1 (env_clock _ Hi1)) as (now & w2 & E2 & S2 & _). rewrite (bind_run _ _ _ _ _ E2).
  assert (s3_idle w w2) as S12 by (eapply s3_idle_trans; [exact S1|apply idle_s3_idle; [apply S1|done]]).
  unfold bind at 1, lift at 1. rewrite (sh_metadata _ _ _ Hh). unfold bind at 1, lift at 1.
  rewrite (check_placed k r0 d h o m b data w Hp Hh).
  destruct (sp_desc _ _ _ _ _ _ _ _ _ Hp) as (p & Hmd & Hdesc).
  assert (row_md r p) as Hmd' by (eapply row_md_json; [|exact Hmd]; by injection Hc).
  pose proof (row_key_of_metadata k _ r p (env_store_inv _ Hi) Hk Hr Hmd') as Hpk.
  assert (set_payload (norm_metadata fmt_compact m) (sha256_hex data) (zlen data) = norm_metadata fmt_compact m) as Hset
    by (apply set_payload_id; apply (sp_written _ _ _ _ _ _ _ _ _ Hp)).
  pose proof S12 as (Hg2 & _ & T2 & Q2).
  destruct (verify_run S3 start k h data (norm_metadata fmt_compact m) w2 r p) as (w6 & lr & E6 & S6 & Hlr); rewrite ?Q2; try done.
  { by eapply s3_idle_inv. }
  { apply (sh_sum _ _ _ Hh). }
  { by rewrite (sh_sum _ _ _ Hh), Hset. }
  rewrite E6. split.
  - eapply s3_step_trans; [by apply s3_idle_step|]. by apply calm_s3_step.
  - apply verify_ok in E6 as (_ & _ & E7 & _ & _ & p' & E8 & _). rewrite (sh_sum _ _ _ Hh), Hset in E8.
    split_and!; [done|done|by exists p'].
Qed.

(** A visible block loads, or there is an outage. *)
Lemma load_spec k w r data :
  inv w -> key_valid k = true -> _closed (w_store w) = false -> s3_row k w = Some r -> r_state r = active ->
  s3_placed self objects (w_dev w) k r data ->
  match load self client k w with
  | (w', res) => s3_step w w' /\
      match res with
      | Ok lr => lr_data lr = data /\ lr_key lr = k /\ exists o m b p, s3_placed_as self objects (w_dev w) k r o m b data /\
          lr_metadata lr = copy_access (norm_metadata fmt_compact m) p
      | Raise e => is_a e TierUnavailable = true
      end
  end.
Proof using Hlaws Hok.
  intros Hw Hk Ho Hr Ha (o & m & b & Hp). unfold load.
  destruct (perf_idle w) as (start & w1 & E1 & S1). rewrite (bind_run _ _ _ _ _ E1).
  assert (inv w1) as Hw1 by (pose proof (linked_perf (s3_inv self good objects) w Hw) as H1; by rewrite E1 in H1).
  assert (good (w_dev w)) as Hg by apply Hw. pose proof (idle_s3_idle _ _ Hg S1) as Q1. destruct S1 as (D1 & T1 & S1).
  pose proof (lookup_spec k w1 Hw1 Hk) as H2. unfold bind at 1.
  destruct (lookup self client k w1) as [w2 [[l|]|e]]; destruct H2 as [Q2 H2]; rewrite S1 in H2; pose proof (s3_idle_trans _ _ _ Q1 Q2) as Q12.
  2: { by apply (H2 r) in Hr. }
  2: { split; [by apply s3_idle_step|]. destruct H2; [congruence|done]. }
  clear l H2. pose proof Q12 as (Hg2 & O2 & T2 & S2). pose proof (s3_idle_inv _ _ Q12 (proj1 Hw)) as Hi2. rewrite <- S2 in Hr, Ho.
  destruct (acquire_open_run k _ r (env_store_inv _ Hi2) Ho Hr Ha) as (d' & _ & Hacq).
  destruct (db_run (D := D) _ _ _ _ Hacq) as (w3 & E3 & S3 & D3 & T3). rewrite (bind_run _ _ _ _ _ E3).
  assert (env_inv (w_env w3)) as Hi3.
  { split; [unfold clock_ok; rewrite T3; apply Hi2|]. rewrite S3.
    pose proof (quiet_safe Metadata.S3 _ (quiet_lookup_acquire Metadata.S3 k Metadata.S3) _ (env_store_inv _ Hi2)) as H3. by rewrite Hacq in H3. }
  assert (s3_placed_as self objects (w_dev w3) k r o m b data) as Hp3.
  { destruct Hp as [P1 P2 P3 P4 P5 P6]. split; try done. by rewrite D3, O2. }
  assert (s3_step w w3) as Q3.
  { split_and!; [by rewrite D3|congruence|congruence|]. rewrite S3, <- S2. by eapply steady_put. }
  pose proof (checked_load_spec start k d' w3 (acquire_row (_owner_epoch (w_store w2)) r) r o m b data) as H6.
  rewrite S3 in H6. specialize (H6 Hi3 ltac:(by rewrite D3) Hk Ho (put_row_lookup _ _ _) Ha eq_refl Hp3).
  unfold try_finally. destruct (checked_load self client start k (row_location k Metadata.S3 r d') w3) as [w6 res]. destruct H6 as [Q6 H6].
  pose proof (s3_step_trans _ _ _ Q3 Q6) as Q36. assert (_closed (w_store w6) = false) as Ho6.
  { destruct Q36 as (_ & _ & _ & [C _]). rewrite C. by rewrite <- S2. }
  destruct res as [lr|e].
  - destruct (finish_run Metadata.S3 (evict self client) (str "corrupt S3 location remains active") k lr w6 Ho6) as (w7 & E7 & S7).
    rewrite E7. split; [eapply s3_step_trans; [exact Q36|apply calm_s3_step; [apply Q36|done]]|].
    destruct H6 as (-> & -> & p & ->). split_and!; [done|done|by exists o, m, b, p].
  - assert (is_a e CorruptionDetected = false) as Hne.
    { destruct e as [c ms ca cl]. unfold is_a in *. cbn in *. by destruct c. }
    destruct (finish_run (D := D) Metadata.S3 (evict self client) (str "corrupt S3 location remains active") k
      {| lr_key := k; lr_tier := Metadata.S3; lr_data := []; lr_metadata := m; lr_latency_ms := start; lr_from_prefetch := false |} w6 Ho6) as (w7 & E7 & S7).
    assert (finish_load Metadata.S3 (evict self client) (str "corrupt S3 location remains active") k (Raise e) w6 = (w7, Ok tt)) as E7'.
    { unfold finish_load in *. by rewrite Hne. }
    rewrite E7'. split; [eapply s3_step_trans; [exact Q36|apply calm_s3_step; [apply Q36|done]]|done].
Qed.
End Load.

Section Store.
Context `{U : UnicodeData} {D : Type} (self : S3Tier) (client : S3Client D).
Context (good : D -> Prop) (objects : D -> gmap (pystr * pystr) pybytes).
Context (Hlaws : s3_laws client good objects) (Hok : s3_ok self).
Abbreviation w_store w := (env_store (w_env w)).
Abbreviation s3_row k w := (ms_blocks (w_store w) !! row_key k S3).
Abbreviation inv := (s3_inv self good objects).
Abbreviation with_ R := (linked (s3_with self good objects R)).

(** ** evict *)

Lemma s3_evict_two_phase k w :
  evict self client k w = two_phase (t := S3) tombstone_lost (fun l =>
    let* (b, object) := lift (_location_target self l) in remove_object client b object) k w.
Proof using.
  unfold evict, two_phase, bind. destruct (db mutation w) as [w1 [[]|e]]; [|done].
  destruct (db (begin_delete k S3) w1) as [w2 [[l|]|e]]; [|done|done]. unfold lift.
  destruct (_location_target self l) as [[b o]|e]; [|done]. by destruct (remove_object client b o w2) as [w3 [[]|e]].
Qed.

(** The client does not touch the metadata store. *)
Lemma remove_object_store b o w w' u : remove_object client b o w = (w', u) -> w_store w' = w_store w.
Proof using.
  assert (forall A (m : M D A) (w : World D), w_store (on_dev m w).1 = w_store w) as Hd.
  { intros A m w0. unfold on_dev, zoom. by destruct (m (w_dev w0)). }
  assert (preserves (fun w0 : World D => w_store w0 = w_store w) (remove_object client b o)) as Hp.
  { unfold remove_object, _head_exists.
    repeat (intros; first [apply preserves_bind | apply preserves_try_catch | apply preserves_when | apply preserves_ret
      | apply preserves_raise | match goal with |- preserves _ (if ?c then _ else _) => destruct c end
      | intros w0 Hw0; by rewrite Hd ]). }
  intros E. specialize (Hp w eq_refl). by rewrite E in Hp.
Qed.

(** An eviction that succeeds removes the row; one that is refused changes no row. *)
Lemma s3_evict_ok k w w' b :
  env_inv (w_env w) -> evict self client k w = (w', Ok b) ->
  let rows w := ms_blocks (w_store w) in
  (b = true /\ rows w' = base.delete (row_key k S3) (rows w) /\ is_Some (rows w !! row_key k S3)) \/
  (b = false /\ rows w' = rows w).
Proof using.
  intros Hi. rewrite s3_evict_two_phase. apply two_phase_ok; [|done]. intros l w0 w1 u H.
  apply bind_ok in H as ([b0 o] & w3 & [= <- Ht] & H4). by eapply remove_object_store.
Qed.

(** ** Publication *)

(** The location points to the record of the payload, and the metadata describes it. *)
Record s3_publishable (d : D) (l : BlockLocation) (m : KVMetadata) (data : pybytes) : Prop := {
  spb_tier : loc_tier l = S3;
  spb_storable : storable m = true;
  spb_location : location_ok l;
  spb_text : exists f, loc_last_access l = PFloat f /\ float_ok f = true;
  spb_size : loc_bytes l = zlen data /\ loc_checksum l = sha256_hex data;
  spb_record : exists o m0 b, object_at self (loc_key l) (loc_uri l) o /\
    objects d !! (bucket self, o) = Some (record_bytes b data) /\
    s3_written m0 (max_payload_bytes self) b data /\ md_key m0 = loc_key l /\
    descriptor_eqb (payload_descriptor (norm_metadata fmt_store m)) (payload_descriptor (norm_metadata fmt_compact m0)) = true;
}.

Lemma s3_publishable_row now l m s s' d data :
  store_inv s -> s3_publishable d l m data -> upsert now l m s = (s', Ok tt) ->
  store_inv s' /\ _closed s' = false /\
  exists r, ms_blocks s' !! row_key (loc_key l) S3 = Some r /\ r_state r = active /\
    s3_placed self objects d (loc_key l) r data /\ s' = put_row (row_key (loc_key l) S3) r s.
Proof using.
  intros Hi [Ht Hm Hl _ [Hn Hc] (o & m0 & b & Htg & Hh & Hw & Hk & Hd)] H.
  destruct (upsert_row _ _ _ _ _ Hi Hm Hl H) as (Hcl & Hi' & r & Hr & Ha & Hmd & Hu & Hb & Hsum & _).
  rewrite Ht in Hr. split_and!; [done|done|]. exists r. split_and!; [done|done| |].
  - exists o, m0, b. split; try done; [by rewrite Hu|by rewrite Hb, Hsum|]. eauto.
  - destruct (upsert_inv _ _ _ _ _ H) as (_ & _ & _ & n & _ & _ & E). rewrite Ht in E. rewrite E in Hr |- *.
    rewrite put_row_lookup in Hr. by injection Hr as <-.
Qed.

Lemma s3_upsert now l m s d data :
  key_valid (loc_key l) = true -> store_inv s -> s3_publishable d l m data -> inv s d -> inv (upsert now l m s).1 d.
Proof using.
  intros Hk Hi Hp Hd. destruct (upsert now l m s) as [s' [[]|e]] eqn:E.
  - destruct (s3_publishable_row _ _ _ _ _ _ _ Hi Hp E) as (_ & _ & r & Hr & Ha & Hpl & Es). cbn.
    destruct Hd as [Hw Hu Hdata Htext]. assert (float_ok (r_last_access r) = true) as Hrt.
    { destruct (spb_text _ _ _ _ Hp) as (f & Hf & Hft). rewrite <- (spb_tier _ _ _ _ Hp) in Hr.
      eapply (upsert_text _ _ _ _ _ f r E Hf Hft); [|exact Hr]. intros o. rewrite (spb_tier _ _ _ _ Hp). apply Htext. }
    subst s'. split; [done| | |]; intros k0 r0; [intros Hk0|intros Hk0|]; rewrite put_row_blocks, lookup_insert_Some.
    + intros [[Ek <-]|[_ Hr0]]; [|by apply Hu]. apply row_key_inj in Ek as <-; [|done..].
      destruct Hpl as (o & m0 & b & Hpl). exists o. apply Hpl.
    + intros [[Ek <-]|[_ Hr0]] Ha0; [|by apply Hdata]. apply row_key_inj in Ek as <-; [|done..]. by exists data.
    + intros [[_ <-]|[_ Hr0]]; [done|by apply (Htext k0)].
  - pose proof (upsert_raises now l m s) as Hr. rewrite E in Hr. cbn in Hr |- *. by rewrite Hr.
Qed.

(** ** The state after a store *)

Context (A0 : BlockKey -> pybytes -> Prop).
Abbreviation since := (s3_within self objects A0).

Definition s3_post (k : BlockKey) (data : pybytes) (w : World D) (ok : bool) : Prop :=
  if ok then linked inv w /\ _closed (w_store w) = false /\
             (exists r, s3_row k w = Some r /\ r_state r = active /\ s3_placed self objects (w_dev w) k r data) /\
             s3_within self objects (fun k' data' => (k' = k /\ data' = data) \/ A0 k' data') (w_store w) (w_dev w)
  else with_ since w.

Lemma s3_with_inv R w : with_ R w -> linked inv w.
Proof using. intros (Hi & Hd & _). by split. Qed.

Lemma s3_with_weaken (R R' : MetadataStore -> D -> Prop) w : (forall s d, R s d -> R' s d) -> with_ R w -> with_ R' w.
Proof using. intros H (Hi & Hd & HR). split; [done|]. split; [done|auto]. Qed.

(** The commit of a location whose record is in the object store. *)
Lemma s3_commit k data m l w :
  with_ since w -> key_valid k = true -> loc_key l = k -> s3_publishable (w_dev w) l m data ->
  wp (db_at (fun now => upsert now l m)) (fun r w' => s3_post k data w' (is_ok r)) w.
Proof using.
  intros (Hi & Hd & Hu) Hk Hlk Hp. unfold wp. destruct (db_at (fun now => upsert now l m) w) as [w' r] eqn:E.
  apply db_at_ok in E as (now & _ & E & De & T).
  assert (env_inv (w_env w')) as Hi'.
  { split; [unfold clock_ok; rewrite T; apply Hi|].
    pose proof (safe_upsert now l m (spb_storable _ _ _ _ Hp) (spb_location _ _ _ _ Hp) _ (env_store_inv _ Hi)) as H.
    by rewrite E in H. }
  assert (linked inv w') as Hw'.
  { split; [done|]. rewrite De. rewrite <- Hlk in Hk.
    pose proof (s3_upsert now l m _ _ data Hk (env_store_inv _ Hi) Hp Hd) as H. by rewrite E in H. }
  destruct r as [[]|e]; cbn.
  - destruct (s3_publishable_row _ _ _ _ _ _ _ (env_store_inv _ Hi) Hp E) as (_ & Ho & row & Hr & Ha & Hpl & Es).
    rewrite Hlk in Hr, Hpl, Es. split_and!; [done|done|exists row; by rewrite De|].
    rewrite De. intros k' r' data' Hk' Hr' Ha' Hp'. destruct (decide (k' = k)) as [->|Hne].
    + left. split; [done|]. rewrite Hr in Hr'. injection Hr' as <-. by eapply s3_placed_unique.
    + right. eapply (Hu k' r'); try done. rewrite Es, put_row_blocks, lookup_insert_ne in Hr'; [done|].
      intros Ek. by apply row_key_inj in Ek.
  - destruct Hw' as [_ Hd']. split; [done|]. split; [done|].
    pose proof (upsert_raises now l m (w_store w)) as Hr. rewrite E in Hr. cbn in Hr. by rewrite Hr, De.
Qed.

(** ** A new block *)

Definition hidden_since (k : BlockKey) (s : MetadataStore) (d : D) : Prop := since s d /\ hidden k S3 s.

Lemma hidden_since_stable k : s3_stable self good objects (hidden_since k).
Proof using. apply s3_stable_and; [apply s3_stable_within|apply s3_stable_hidden]. Qed.

Lemma s3_location_ok k o n c m l :
  storable m = true -> _location_for self k o n c (md_created_at m) (md_last_access m) = Ok l -> location_ok l.
Proof using.
  intros (Ht & _)%storable_inv H. apply res_bind_ok in H as (uri & _ & [= <-]). split; [vm_compute; reflexivity|].
  split; [apply (ty_created_at m Ht)|apply (ty_last_access m Ht)].
Qed.

Lemma s3_publish_post k data m w :
  stamped (max_payload_bytes self) k data m -> with_ (hidden_since k) w ->
  wp (publish self client k data m (sha256_hex data)) (fun r w' => s3_post k data w' (is_ok r)) w.
Proof using Hlaws.
  intros Hm Hw. pose proof (stamped_key _ _ _ _ Hm) as Hk.
  assert (forall w, with_ (hidden_since k) w -> with_ since w) as Hweak.
  { intros w0. apply s3_with_weaken. by intros s d []. }
  unfold publish. apply wp_lift. destruct (to_dict m) as [d|e] eqn:Ed; [|by apply Hweak].
  apply wp_lift. destruct (encode_record_header _) as [b|e] eqn:Eb; [|by apply Hweak].
  cbv zeta. apply wp_lift. destruct (object_key self k) as [o|e] eqn:Eo; [|by apply Hweak].
  pose proof (s3_put self client good objects Hlaws _ (hidden_since_stable k) k o (record_bytes b data)
    [(str "kv-sha256", sha256_hex data)] Hk Eo (fun s d H => proj2 H) w Hw) as Hw1.
  pose proof (law_put _ _ _ Hlaws (bucket self) o (record_bytes b data) [(str "kv-sha256", sha256_hex data)] (w_dev w)
    (si_good _ _ _ _ _ (proj1 (proj2 Hw)))) as [_ Hobj].
  apply wp_bind. unfold wp at 1, try_catch. unfold on_dev, zoom in *.
  destruct (put_object client (bucket self) o (record_bytes b data) [(str "kv-sha256", sha256_hex data)] (w_dev w)) as [d1 [[]|e]];
    cbn [fst snd is_ok] in *; [|by apply Hweak].
  destruct Hobj as [Hobj|[? _]]; [|done]. set (w1 := mkWorld (w_env w) d1) in *.
  apply wp_lift. destruct (_location_for self k o (zlen data) (sha256_hex data) (md_created_at m) (md_last_access m)) as [l|e] eqn:El; [|by apply Hweak].
  destruct Hm as [Hs Hmk Hb Hc Hf Htx]. pose proof (s3_location_ok _ _ _ _ _ _ Hs El) as Hlo.
  unfold _location_for in El. apply res_bind_ok in El as (uri & Hu & [= <-]).
  apply (s3_commit k data m _ w1); [by apply Hweak|done|done|].
  split; cbn [loc_tier loc_bytes loc_checksum loc_key loc_uri loc_last_access]; try done.
  exists o, m, b. split_and!; try done.
  - unfold w1. cbn [w_dev]. by rewrite Hobj, lookup_insert_eq.
  - split; [done|done|done|by exists d].
  - rewrite norm_formats. apply descriptor_eqb_refl. by apply storable_descriptor_regular, storable_norm.
Qed.

(** ** A block that is already published *)

Lemma s3_refresh_post k data m r d w :
  stamped (max_payload_bytes self) k data m -> with_ since w -> _closed (w_store w) = false ->
  s3_row k w = Some r -> r_state r = active -> json_ok (PDict d) = true ->
  wp (refresh (load self client) k data m (sha256_hex data) (row_location k S3 r d)) (fun r w' => s3_post k data w' (is_ok r)) w.
Proof using Hlaws Hok.
  intros Hm Hw Ho Hr Ha Hj. pose proof (stamped_key _ _ _ _ Hm) as Hk. unfold refresh.
  pose proof (s3_with_inv _ _ Hw) as Hinv. destruct (si_data _ _ _ _ _ (proj2 Hinv) k r Hk Hr Ha) as (data0 & Hpl).
  pose proof (load_spec self client good objects Hlaws Hok k w r data0 Hinv Hk Ho Hr Ha Hpl) as Hspec.
  eapply wp_step; [apply (s3_load self client good objects Hlaws Hok since), s3_stable_within|exact Hw|done|].
  intros loaded w1 Hw1 E1. rewrite E1 in Hspec. destruct Hspec as (S1 & Hdata & _ & o & m0 & b & p & Hp & Hmd).
  eapply (wp_step (with_ since)); [apply preserves_when, preserves_raise|done|done|].
  intros [] w2 Hw2 [E2 ->]%when_raise_ok. apply negb_false_iff, bool_decide_eq_true in E2. assert (data0 = data) as -> by congruence.
  eapply (wp_step (with_ since)); [apply preserves_when, preserves_raise|done|done|].
  intros [] w3 Hw3 [E3 ->]%when_raise_ok. apply negb_false_iff in E3. rewrite Hmd in E3.
  apply s3_commit; [done|done|done|].
  destruct (sp_row _ _ _ _ _ _ _ _ _ Hp) as [Eb Ec]. destruct Hm as [Hs Hmk Hb Hc Hf Htx].
  split; [done|done|eapply refreshed_location_ok; try done; apply Hw|done|done|]. exists o, m0, b. split_and!.
  - apply (sp_object _ _ _ _ _ _ _ _ _ Hp).
  - destruct S1 as (_ & -> & _). apply (sp_holds _ _ _ _ _ _ _ _ _ Hp).
  - apply (sp_written _ _ _ _ _ _ _ _ _ Hp).
  - apply (sp_key _ _ _ _ _ _ _ _ _ Hp).
  - pose proof (sw_md _ _ _ _ (sp_written _ _ _ _ _ _ _ _ _ Hp)) as Hs0.
    apply descriptor_eqb_sym; [by apply storable_descriptor_regular, storable_norm..|].
    apply descriptor_eqb_norm_r; [done|apply no_tuple_norm|done].
Qed.

(** ** store *)

Lemma s3_post_idle k data w w' : idle_step w w' -> s3_post k data w true -> s3_post k data w' true.
Proof using.
  intros (De & T & S) ([Hi Hd] & Ho & Hr & Hin). unfold s3_post, linked. rewrite De, S. split; [|by split_and!].
  split; [|done]. split; [unfold clock_ok; rewrite T; apply Hi|rewrite S; apply Hi].
Qed.

Lemma s3_store_spec k data m w :
  input_ok m -> with_ since w ->
  wp (store self client k data m) (fun r w' => s3_post k data w' (is_ok r) /\ (is_ok r = true -> md_key m = k)) w.
Proof using Hlaws Hok.
  intros Hin Hw. pose proof (s3_stable_within self good objects A0) as Hst. pose proof (s3_with_shrinks self good objects _ Hst) as Hsh.
  set (I := with_ since) in *.
  assert (forall e w', I w' -> s3_post k data w' (is_ok (A := StoreResult) (Raise e)) /\ (is_ok (A := StoreResult) (Raise e) = true -> md_key m = k)) as Hraise by done.
  unfold store. eapply (wp_step I); [apply linked_perf|done|done|]. intros start w1 H1 _.
  eapply (wp_step I); [apply preserves_when, preserves_raise|done|done|]. intros [] w2 H2 [Ek _]%when_raise_ok. clear w1 H1.
  apply negb_false_iff, bool_decide_eq_true in Ek.
  eapply (wp_step I); [apply preserves_when, preserves_raise|done|done|]. intros [] w6 H6 [Hfit _]%when_raise_ok. clear w2 H2.
  apply Z.ltb_ge in Hfit. cbv zeta.
  eapply (wp_step I); [by apply (linked_db S3), quiet_mutation|done|done|]. intros _ w3 H3 _. clear w6 H6.
  eapply (wp_step I); [by apply (linked_db S3), quiet_is_deleting|done|done|]. intros pending w4 H4 _. clear w3 H3.
  eapply (wp_step I); [apply preserves_when, preserves_raise|done|done|]. intros [] w5 H5 _. clear w4 H4.
  apply wp_bind. destruct (time_idle w5 (env_clock _ (proj1 H5))) as (now & w7 & E7 & S7 & Hstamp & Hfl).
  pose proof (linked_time (s3_with self good objects since) w5 H5) as H7. unfold wp at 1. rewrite E7 in H7 |- *. cbn [fst snd] in *.
  eapply (wp_step I); [apply preserves_lift|done|done|]. intros [] w8 H8 [= _ Hv].
  pose proof (stamp_block_storable m _ _ now Hin Hfl Hv) as Hsm. set (m' := stamp_block m (sha256_hex data) (zlen data) now) in *.
  assert (stamped (max_payload_bytes self) k data m') as Hm' by (split; [done..|by exists now]). clear w7 E7 S7 H7.
  eapply (wp_step I); [apply (linked_db_at S3); [done|]; intros; apply quiet_validate|done|done|]. intros [] w9 H9 _. clear w8 H8.
  pose proof (lookup_spec self client good objects Hlaws Hok k w9 (s3_with_inv _ _ H9) (stamped_key _ _ _ _ Hm')) as Hl.
  eapply (wp_step I); [by apply (s3_lookup self client good objects Hlaws since)|done|done|]. intros existing w10 H10 E10. rewrite E10 in Hl.
  destruct Hl as [(_ & _ & _ & S10) Hl].
  apply wp_bind. assert (wp (match existing with
    | Some l => refresh (load self client) k data m' (sha256_hex data) l
    | None => publish self client k data m' (sha256_hex data) end) (fun r w' => s3_post k data w' (is_ok r)) w10) as Hbranch.
  { destruct existing as [l|].
    - destruct Hl as (Ho & r & d & Hr & Ha & Hj & ->). rewrite <- S10 in Hr, Ho. by apply s3_refresh_post.
    - apply s3_publish_post; [done|]. destruct H10 as (Hi & Hd & Hu). split; [done|]. split; [done|]. split; [done|]. by rewrite S10. }
  eapply wp_mono; [exact Hbranch|]. intros [[]|e] w11 Hpost; [|done].
  destruct (stored_run (t := S3) start k data (sha256_hex data) w11) as (w12 & sr & E12 & S12). unfold wp. rewrite E12. cbn.
  split; [|done]. by eapply s3_post_idle.
Qed.
End Store.
