(* ===== verification/S3TierSpec.v ===== *)
(** * Correctness of the S3 tier

    Over any object store that keeps its contract ([s3_laws]), however its calls
    fail: the tier is a map from keys to payloads, the record of every visible
    block is in the store, and a stored block loads or there is an outage. Reading a
    response piece by piece is reading the whole record. Injected faults keep the
    contract, so all of it holds for a client wrapped in
    [FaultInjectingS3Client]. *)

From Stdlib Require Import SpecFloat.
From S2P Require Import Prelude PyText Sha256 Float64 Errors PyVal Json JsonFacts Metadata MetadataFacts MetadataStore MetadataStoreFacts MetadataStoreSpec Metrics Runtime MemoryTier MemoryTierFacts MemoryTierSpec Record Layout Url UrlFacts World WorldFacts S3Client S3Fault S3Tier S3TierFacts S3StoreFacts.
Import MNotations ResNotations.
Local Open Scope m_scope.

Section Spec.
Context `{U : UnicodeData} {D : Type} (self : S3Tier) (client : S3Client D).
Context (good : D -> Prop) (objects : D -> gmap (pystr * pystr) pybytes).
Abbreviation w_store w := (env_store (w_env w)).
Abbreviation s3_row k w := (ms_blocks (w_store w) !! row_key k S3).
Abbreviation inv := (s3_inv self good objects).
Abbreviation with_ R := (linked (s3_with self good objects R)).

(** The visible blocks. *)
Definition s3_contents (w : World D) : blocks_map := fun k data =>
  key_valid k = true /\ exists r, s3_row k w = Some r /\ r_state r = active /\ s3_placed self objects (w_dev w) k r data.

Context (Hlaws : s3_laws client good objects) (Hok : s3_ok self).

(** ** Steps that publish nothing *)

Abbreviation since w := (s3_within self objects (s3_contents w)).

Lemma s3_since_start w : linked inv w -> with_ (since w) w.
Proof using. intros [Hi Hd]. split; [done|]. split; [done|]. intros k r data Hk Hr Ha Hp. split; [done|]. eauto. Qed.

Lemma s3_since_sub w w' : with_ (since w) w' -> sub_map (s3_contents w) (s3_contents w').
Proof using. intros (_ & _ & Hin) k data (Hk & r & Hr & Ha & Hp). by eapply Hin. Qed.

Lemma s3_since_kept w w' k r data :
  with_ (since w) w' -> s3_contents w k data -> s3_row k w' = Some r -> r_state r = active -> s3_contents w' k data.
Proof using.
  intros (Hi & Hd & Hin) Hc Hr Ha. pose proof Hc as [Hk (r0 & Hr0 & _ & Hp0)]. destruct (si_data _ _ _ _ _ Hd k r Hk Hr Ha) as (data' & Hp).
  destruct (Hin k r data' Hk Hr Ha Hp) as (_ & r1 & Hr1 & _ & Hp1). rewrite Hr0 in Hr1. injection Hr1 as <-.
  rewrite (s3_placed_unique _ _ _ _ _ _ _ Hp0 Hp1). split; [done|]. eauto.
Qed.

Lemma s3_same_contents w w' : s3_step good objects w w' -> same_map (s3_contents w) (s3_contents w').
Proof using.
  intros (_ & E & _ & S).
  assert (forall w w', objects (w_dev w') = objects (w_dev w) -> steady Metadata.S3 (w_store w) (w_store w') -> forall k data, s3_contents w k data -> s3_contents w' k data) as Hgo.
  { clear. intros w w' Hf Hs k data (Hk & r & Hr & Ha & Hp). destruct (steady_row _ _ _ _ _ Hs Hr) as (r' & Hr' & Hc & Es).
    split; [done|]. exists r'. split_and!; [done|congruence|]. eapply s3_placed_core; [done|]. by eapply s3_placed_same. }
  intros k data. split; apply Hgo; try done. by apply steady_sym.
Qed.

(** ** The steps *)

Lemma s3_lookup_step k w :
  linked inv w -> key_valid k = true ->
  match lookup self client k w with
  | (w', Ok o) => same_map (s3_contents w) (s3_contents w') /\ (is_Some o <-> exists data, s3_contents w k data)
  | (w', Raise _) => same_map (s3_contents w) (s3_contents w')
  end.
Proof using Hlaws Hok.
  intros Hw Hk. pose proof (lookup_spec self client good objects Hlaws Hok k w Hw Hk) as H.
  destruct (lookup self client k w) as [w' [[l|]|e]]; destruct H as [S H];
    pose proof (s3_same_contents w w' (s3_idle_step _ _ _ _ S)) as Hsame; [split; [done|]|split; [done|]|done].
  - destruct H as (_ & r & d & Hr & Ha & _). destruct (si_data _ _ _ _ _ (proj2 Hw) k r Hk Hr Ha) as (data & Hp).
    split; [|by eexists]. intros _. exists data. split; [done|]. eauto.
  - split; [by intros []|]. intros (data & _ & r & Hr & Ha & _). by destruct (H r Hr).
Qed.

Lemma s3_load_step k w :
  linked inv w -> key_valid k = true ->
  match load self client k w with
  | (w', Ok r) => same_map (s3_contents w) (s3_contents w') /\ s3_contents w k (lr_data r)
  | (w', Raise e) => same_map (s3_contents w) (s3_contents w') /\
      (_closed (w_store w) = true \/ is_a e TierUnavailable = true \/ forall data, ~ s3_contents w k data)
  end.
Proof using Hlaws Hok.
  intros Hw Hk. destruct (perf_idle w) as (start & w1 & E1 & I1).
  assert (linked inv w1) as Hw1 by (pose proof (linked_perf inv w Hw) as H1; by rewrite E1 in H1).
  pose proof (idle_s3_idle good objects w w1 (si_good _ _ _ _ _ (proj2 Hw)) I1) as Q1. destruct I1 as (_ & _ & S1).
  pose proof (lookup_spec self client good objects Hlaws Hok k w1 Hw1 Hk) as H. rewrite S1 in H.
  destruct (lookup self client k w1) as [w2 r] eqn:E2. destruct H as [Q2 H].
  pose proof (s3_same_contents w w2 (s3_idle_step _ _ _ _ (s3_idle_trans _ _ _ _ _ Q1 Q2))) as Hsame.
  destruct r as [[l|]|e].
  - destruct H as (Ho & row & d & Hr & Ha & _). destruct (si_data _ _ _ _ _ (proj2 Hw) k row Hk Hr Ha) as (data & Hp).
    pose proof (load_spec self client good objects Hlaws Hok k w row data Hw Hk Ho Hr Ha Hp) as Hl.
    destruct (load self client k w) as [w' [lr|e]]; destruct Hl as [Q Hl]; (split; [by apply s3_same_contents|]); [|by auto].
    destruct Hl as (-> & _). split; [done|]. eauto.
  - assert (load self client k w = (w2, Raise (err BlockNotFound (block_hash k)))) as ->.
    { unfold load. by rewrite (bind_run _ _ _ _ _ E1), (bind_run _ _ _ _ _ E2). }
    split; [done|]. right. right. intros data (_ & r & Hr & Ha & _). by apply (H r).
  - assert (load self client k w = (w2, Raise e)) as ->.
    { unfold load. by rewrite (bind_run _ _ _ _ _ E1), (bind_raise _ _ _ _ _ E2). }
    split; [done|]. destruct H; auto.
Qed.

Lemma s3_evict_step k w w' b :
  linked inv w -> key_valid k = true -> evict self client k w = (w', Ok b) ->
  map_step (s3_contents w) (s3_contents w') (BEvict k) (OEvicted b).
Proof using Hlaws Hok.
  intros Hw Hk E. pose proof (s3_evict self client good objects Hlaws Hok _ (s3_stable_within self good objects _) k w (s3_since_start w Hw)) as Hs.
  rewrite E in Hs. cbn in Hs. pose proof (s3_since_sub w w' Hs) as Hsub.
  destruct (s3_evict_ok self client k w w' b (proj1 Hw) E) as [(-> & Er & _)|(-> & Er)].
  - apply ms_evict.
    + intros data (_ & r & Hr & _). by rewrite Er, lookup_delete_eq in Hr.
    + intros k' data Hne. split; [apply Hsub|]. intros Hc. pose proof Hc as (Hk' & r & Hr & Ha & _).
      eapply s3_since_kept; [done|done| |done]. rewrite Er, lookup_delete_ne; [done|]. intros Ek. by apply row_key_inj in Ek.
  - apply ms_pinned. intros k' data. split; [apply Hsub|]. intros Hc. pose proof Hc as (Hk' & r & Hr & Ha & _).
    eapply s3_since_kept; [done|done|by rewrite Er|done].
Qed.

Lemma s3_store_step k data m w :
  linked inv w -> input_ok m ->
  let r := store self client k data m w in linked inv r.1 /\
  (if is_ok r.2 then s3_contents r.1 k data /\ _closed (w_store r.1) = false /\
     forall k' data', s3_contents r.1 k' data' -> (k' = k /\ data' = data) \/ s3_contents w k' data'
   else with_ (since w) r.1).
Proof using Hlaws Hok.
  intros Hw Hin. cbv zeta.
  destruct (s3_store_spec self client good objects Hlaws Hok (s3_contents w) k data m w Hin (s3_since_start w Hw)) as [Hp Hmk].
  unfold s3_post in Hp. destruct (store self client k data m w) as [w' [sr|e]]; cbn [fst snd is_ok] in *.
  - destruct Hp as (Hl & Ho & (r & Hr & Ha & Hpl) & Hwi). destruct Hin as [Hk _]. rewrite (Hmk eq_refl) in Hk.
    split; [done|]. split; [split; [done|]; eauto|]. split; [done|].
    intros k' data' (Hk' & r' & Hr' & Ha' & Hp'). by eapply Hwi.
  - split; [by eapply s3_with_inv|done].
Qed.

(** [stats] calls the client and reads the store. *)
Lemma s3_stats_step w : linked inv w -> same_map (s3_contents w) (s3_contents (stats self client w).1).
Proof using Hlaws.
  intros Hw. apply s3_same_contents. pose proof (si_good _ _ _ _ _ (proj2 Hw)) as Hg. unfold stats, bind at 1.
  pose proof (gentle_steady Metadata.S3 _ (gentle_bytes_used Metadata.S3 Metadata.S3) (w_store w)) as Hst.
  destruct (db (bytes_used Metadata.S3) w) as [w1 r] eqn:E. apply db_ok in E as (E & De & T). rewrite E in Hst. cbn [fst] in Hst.
  assert (s3_step good objects w w1) as Q1 by (split_and!; [by rewrite De|by rewrite De|done|done]).
  destruct r as [used|e]; [|done]. cbv zeta. destruct (injection_stats client) as [s|] eqn:Es; [|done].
  destruct (law_stats _ _ _ Hlaws s (w_dev w1) Es) as [H1 H2]; [apply Q1|]. unfold bind, on_dev, zoom.
  destruct (s (w_dev w1)) as [d [v|e]]; cbn [fst] in *; (eapply s3_step_trans; [exact Q1|by split_and!]).
Qed.

Lemma s3_call_step c w :
  linked inv w -> block_call_ok c ->
  let r := run_tier (s3_tier self client) c w in
  linked inv r.1 /\ map_step (s3_contents w) (s3_contents r.1) c (seen r.2).
Proof using Hlaws Hok.
  intros Hw Hc. cbv zeta. pose proof (s3_since_start w Hw) as Hs. pose proof (s3_stable_within self good objects (s3_contents w)) as Hst.
  assert (forall w', with_ (since w) w' -> linked inv w') as Hinv by (intros w'; by apply s3_with_inv).
  destruct c as [k|k|k|k data m|k|];
    cbn [run_tier block_call_ok s3_tier tier_lookup tier_contains tier_load tier_store tier_evict tier_stats] in *.
  - pose proof (s3_lookup self client good objects Hlaws _ Hst k w Hs) as H1. pose proof (s3_lookup_step k w Hw Hc) as H2. unfold bind.
    destruct (lookup self client k w) as [w' [o|e]]; cbn [fst snd seen] in *; (split; [by apply Hinv|]).
    + destruct H2 as [Hm Hf]. apply (ms_found _ _ _ k); [by left| |done]. rewrite <- Hf. destruct o; naive_solver.
    + apply ms_raised. by apply s3_since_sub.
  - pose proof (s3_lookup self client good objects Hlaws _ Hst k w Hs) as H1. pose proof (s3_lookup_step k w Hw Hc) as H2. unfold contains, bind.
    destruct (lookup self client k w) as [w' [o|e]]; cbn [fst snd seen] in *; (split; [by apply Hinv|]).
    + destruct H2 as [Hm Hf]. apply (ms_found _ _ _ k); [by right| |done]. rewrite <- Hf. destruct o; naive_solver.
    + apply ms_raised. by apply s3_since_sub.
  - pose proof (s3_load self client good objects Hlaws Hok _ Hst k w Hs) as H1. pose proof (s3_load_step k w Hw Hc) as H2. unfold bind.
    destruct (load self client k w) as [w' [r|e]]; cbn [fst snd seen] in *; (split; [by apply Hinv|]).
    + destruct H2 as [H2 H3]. by apply ms_load.
    + apply ms_raised. by apply s3_since_sub.
  - destruct (s3_store_step k data m w Hw Hc) as [H1 H2]. unfold bind.
    destruct (store self client k data m w) as [w' [sr|e]]; cbn [fst snd seen is_ok] in *; (split; [done|]).
    + destruct H2 as (Hk & _ & Hall). by apply ms_store.
    + apply ms_raised. by apply s3_since_sub.
  - pose proof (s3_evict self client good objects Hlaws Hok _ Hst k w Hs) as H1. unfold bind.
    destruct (evict self client k w) as [w' [b|e]] eqn:E; cbn [fst snd seen] in *; (split; [by apply Hinv|]).
    + by apply s3_evict_step.
    + apply ms_raised. by apply s3_since_sub.
  - pose proof (s3_stats self client good objects Hlaws _ Hst w Hs) as H1. pose proof (s3_stats_step w Hw) as H2. unfold bind.
    destruct (stats self client w) as [w' [v|e]]; cbn [fst snd seen] in *; (split; [by apply Hinv|]); apply ms_maintain; auto.
Qed.

(** ** Runs *)

Definition s3_run (cs : list block_call) (w : World D) : World D :=
  foldl (fun w c => (run_tier (s3_tier self client) c w).1) w cs.

(** No block of the tier is in the table yet; the bucket may hold anything. *)
Definition s3_start (w : World D) : Prop :=
  env_inv (w_env w) /\ good (w_dev w) /\ forall id, ms_blocks (w_store w) !! (id, S3) = None.

Lemma s3_start_inv w : s3_start w -> linked inv w.
Proof using. intros (Hi & Hg & Hn). split; [done|]. split; [done| | |]; intros k r; unfold row_key; by rewrite Hn. Qed.

Lemma s3_run_inv cs w : linked inv w -> Forall block_call_ok cs -> linked inv (s3_run cs w).
Proof using Hlaws Hok.
  intros Hw Hcs. revert w Hw. induction Hcs as [|c cs Hc _ IH]; intros w Hw; [done|]. cbn. apply IH.
  by apply s3_call_step.
Qed.
End Spec.

(** ** A store in memory *)

Abbreviation Buckets := (gmap (pystr * pystr) pybytes).

Definition missing (code : pystr) : exn := err (ResponseError (str "ClientError") code) (str "not found").

Definition memory_client : S3Client Buckets :=
  {| put_object b k body _ := modify (<[(b, k) := body]>);
     get_object b k := fun s => (s, match s !! (b, k) with Some f => Ok (Ok (BodyBytes f)) | None => Raise (missing (str "NoSuchKey")) end);
     head_object b k := fun s => (s, match s !! (b, k) with Some _ => Ok tt | None => Raise (missing (str "404")) end);
     delete_object b k := modify (base.delete (b, k));
     injection_stats := None |}.

Lemma memory_client_laws : s3_laws memory_client (fun _ => True) id.
Proof.
  split.
  - intros b k body md d _. split; [done|by left].
  - intros b k d _. cbv zeta. cbn [head_object memory_client fst snd]. unfold id.
    destruct (d !! (b, k)) as [f|] eqn:E; by split_and!.
  - intros b k d _. cbv zeta. cbn [get_object memory_client fst snd]. unfold id.
    destruct (d !! (b, k)) as [f|] eqn:E; split_and!; try done. exists f. by split_and!.
  - intros b k d _. split; [done|by left].
  - done.
Qed.

(** A client that fails every fourth call and throttles its bodies. *)
Definition flaky_config : S3FaultInjectionConfig :=
  mkConfig zero (f64_div one (f64_of_Z 2)) zero one 7 DEFAULT_OPERATIONS true.

Definition sample_draws (seed : Z) (n : nat) : f64 := if Nat.eqb (Nat.modulo n 4) 3 then zero else one.

Definition flaky_client : S3Client (Injected Buckets) := FaultInjectingS3Client sample_draws memory_client flaky_config.

Definition sample_s3 : S3Tier :=
  mkS3Tier (str "kv-bucket") (str "cache/v1") PNone (PInt 500) (PInt 2000) (PInt 2) 1024.

Definition s3_world : World (Injected Buckets) :=
  mkWorld (sample_env fresh_store) (mkInjected ∅ no_stats 0 []).

Lemma flaky_laws : s3_laws flaky_client (fun _ => True) (fun i => in_dev i).
Proof. exact (injected_laws sample_draws memory_client flaky_config (fun _ => True) id memory_client_laws). Qed.

Lemma sample_s3_ok : s3_ok sample_s3.
Proof.
  apply (init_ok (PStr (str "kv-bucket")) (PStr (str "/cache/v1/")) PNone (PInt 500) (PInt 2000) (PInt 2) (PInt 1024)).
  vm_compute. reflexivity.
Qed.

Lemma s3_world_start : s3_start (fun _ => True) s3_world.
Proof.
  split_and!; [|done|].
  - split; [apply sample_clock|]. apply reachable_store, fresh_reachable.
  - intros id. vm_compute. by destruct id.
Qed.

Lemma s3_world_inv : linked (s3_inv sample_s3 (fun _ => True) (fun i : Injected Buckets => in_dev i)) s3_world.
Proof. apply s3_start_inv, s3_world_start. Qed.

(** ** Properties *)

(** C14: the S3 tier refines a map from keys to payloads. Over any object store that
    keeps its contract, and whichever of its calls fail (a failed [put_object] or
    [delete_object] may have taken effect), every method leaves a sound state and
    changes the map of the visible blocks as the abstract step allows: a lookup that
    answers finds exactly the blocks of the map, a load returns the payload in the
    map, a store that returns has added its block and nothing else, an eviction
    removes its own block only, and a call that raises adds nothing. *)
Theorem s3_refines_map `{U : UnicodeData} {D} self (client : S3Client D) good objects c w :
  s3_ok self -> s3_laws client good objects -> linked (s3_inv self good objects) w -> block_call_ok c ->
  let r := run_tier (s3_tier self client) c w in
  linked (s3_inv self good objects) r.1 /\
  map_step (s3_contents self objects w) (s3_contents self objects r.1) c (seen r.2).
Proof. intros Hok Hlaws. by apply s3_call_step. Qed.

Lemma s3_refines_map_witness :
  let r := run_tier (s3_tier (H := ascii_data) sample_s3 flaky_client) (BStore sample_key sample_payload sample_metadata) s3_world in
  map_step (s3_contents sample_s3 (fun i => in_dev i) s3_world) (s3_contents sample_s3 (fun i => in_dev i) r.1)
    (BStore sample_key sample_payload sample_metadata) (seen r.2).
Proof.
  exact (proj2 (s3_refines_map (U := ascii_data) sample_s3 flaky_client (fun _ => True) (fun i => in_dev i)
    (BStore sample_key sample_payload sample_metadata) s3_world sample_s3_ok flaky_laws s3_world_inv sample_input)).
Defined.

(** The objects of the visible blocks. After any sequence of calls on a tier that
    started without blocks, with any failures of the object store, the store holds
    for every visible block the complete record with the payload whose length and
    SHA-256 its row states, under an object key that no other block has. *)
Theorem s3_objects_hold_blocks `{U : UnicodeData} {D} self (client : S3Client D) good objects cs w :
  s3_ok self -> s3_laws client good objects -> s3_start good w -> Forall block_call_ok cs ->
  let w' := s3_run self client cs w in
  forall k r, key_valid k = true -> ms_blocks (env_store (w_env w')) !! row_key k S3 = Some r -> r_state r = active ->
  exists o b data, object_key self k = Ok o /\ objects (w_dev w') !! (bucket self, o) = Some (record_bytes b data) /\
    r_bytes r = zlen data /\ r_checksum r = sha256_hex data /\
    forall k', key_valid k' = true -> object_key self k' = Ok o -> k' = k.
Proof.
  intros Hok Hlaws Hw Hcs w' k r Hk Hr Ha.
  destruct (s3_run_inv self client good objects Hlaws Hok cs w (s3_start_inv self good objects w Hw) Hcs) as [_ Hd].
  destruct (si_data _ _ _ _ _ Hd k r Hk Hr Ha) as (data & o & m & b & Hp). exists o, b, data.
  destruct (sp_object _ _ _ _ _ _ _ _ _ Hp) as [Ho _]. destruct (sp_row _ _ _ _ _ _ _ _ _ Hp) as [E1 E2].
  split_and!; try done; [apply (sp_holds _ _ _ _ _ _ _ _ _ Hp)|]. intros k' Hk' Ho'. by eapply object_key_inj.
Qed.

(** The calls of the example: the lookup runs into an injected error. *)
Definition sample_calls : list block_call :=
  [BStore sample_key sample_payload sample_metadata; BLoad sample_key; BLookup sample_key; BMaintain].

Lemma sample_calls_row :
  match ms_blocks (env_store (w_env (s3_run (U := ascii_data) sample_s3 flaky_client sample_calls s3_world))) !! row_key sample_key S3 with
  | Some r => r_state r = active
  | None => False
  end.
Proof. vm_compute. reflexivity. Qed.

Lemma s3_objects_hold_blocks_witness :
  exists o f, object_key sample_s3 sample_key = Ok o /\
    in_dev (w_dev (s3_run (U := ascii_data) sample_s3 flaky_client sample_calls s3_world)) !! (bucket sample_s3, o) = Some f.
Proof.
  pose proof sample_calls_row as Hrow. destruct (ms_blocks _ !! row_key sample_key S3) as [r|] eqn:Hr; [|destruct Hrow].
  destruct (s3_objects_hold_blocks (U := ascii_data) sample_s3 flaky_client (fun _ => True) (fun i => in_dev i)
    sample_calls s3_world sample_s3_ok flaky_laws s3_world_start
    ltac:(repeat constructor; apply sample_input) sample_key r sample_key_valid Hr Hrow) as (o & b & data & Ho & H & _).
  exists o, (record_bytes b data). split; [exact Ho|exact H].
Defined.

(** C15: a stored block loads. When a store has returned, a load of its key returns
    the same bytes or reports an outage, whatever the client does in between; in
    both cases the block stays published. *)
Theorem s3_stored_block_loads `{U : UnicodeData} {D} self (client : S3Client D) good objects w k data m w' sr :
  s3_ok self -> s3_laws client good objects -> linked (s3_inv self good objects) w -> input_ok m ->
  store self client k data m w = (w', Ok sr) ->
  match load self client k w' with
  | (w2, Ok lr) => lr_data lr = data /\ s3_contents self objects w2 k data
  | (w2, Raise e) => is_a e TierUnavailable = true /\ s3_contents self objects w2 k data
  end.
Proof.
  intros Hok Hlaws Hw Hin E. destruct (s3_store_step self client good objects Hlaws Hok k data m w Hw Hin) as [H1 H2].
  rewrite E in H1, H2. cbn in H1, H2. destruct H2 as (Hc & Ho & _). pose proof Hc as (Hk & r & Hr & Ha & Hp).
  pose proof (load_spec self client good objects Hlaws Hok k w' r data H1 Hk Ho Hr Ha Hp) as Hl.
  destruct (load self client k w') as [w2 [lr|e]]; destruct Hl as [Q Hl]; pose proof (s3_same_contents self good objects w' w2 Q) as Hs;
    (split; [apply Hl|by apply Hs]).
Qed.

(** The calls of the first store succeed. *)
Lemma s3_sample_stored :
  is_ok (store (H := ascii_data) sample_s3 flaky_client sample_key sample_payload sample_metadata s3_world).2 = true.
Proof. vm_compute. reflexivity. Qed.

Lemma s3_stored_block_loads_witness :
  let w' := (store (H := ascii_data) sample_s3 flaky_client sample_key sample_payload sample_metadata s3_world).1 in
  match load (H := ascii_data) sample_s3 flaky_client sample_key w' with
  | (_, Ok lr) => lr_data lr = sample_payload
  | (_, Raise e) => is_a e TierUnavailable = true
  end.
Proof.
  pose proof s3_sample_stored as Hr. cbv zeta.
  destruct (store (H := ascii_data) sample_s3 flaky_client sample_key sample_payload sample_metadata s3_world) as [w' [sr|e]] eqn:E; [|discriminate].
  pose proof (s3_stored_block_loads (U := ascii_data) sample_s3 flaky_client (fun _ => True) (fun i => in_dev i) s3_world sample_key
    sample_payload sample_metadata w' sr sample_s3_ok flaky_laws s3_world_inv sample_input E) as H.
  cbn [fst]. destruct (load _ _ _ w') as [w2 [lr|e]]; apply H.
Defined.

(** What a load has checked. *)
Lemma s3_integrity `{U : UnicodeData} {D} self (client : S3Client D) k w w' r :
  load self client k w = (w', Ok r) ->
  lr_key r = k /\ lr_tier r = S3 /\ md_key (lr_metadata r) = k /\
  md_bytes (lr_metadata r) = PInt (zlen (lr_data r)) /\ md_checksum (lr_metadata r) = PStr (sha256_hex (lr_data r)) /\
  exists p, md_key p = k /\ descriptor_eqb (payload_descriptor p) (payload_descriptor (lr_metadata r)) = true.
Proof.
  unfold load. intros H. apply bind_ok in H as (start & w1 & _ & H). apply bind_ok in H as (found & w2 & _ & H).
  destruct found as [l0|]; [|done]. apply bind_ok in H as (loc & w3 & _ & H). destruct loc as [l|]; [|done].
  apply try_finally_ok in H as (w4 & H & _). unfold checked_load in H.
  apply bind_ok in H as ([b o] & w5 & _ & H). apply bind_ok in H as ([h payload] & w6 & _ & H).
  apply bind_ok in H as (now & w7 & _ & H). apply bind_ok in H as (m & w8 & _ & H).
  apply bind_ok in H as ([] & w9 & [= _ Hc] & H). apply res_bind_ok in Hc as ([] & Ek%ensure_ok & _).
  apply bool_decide_eq_true in Ek. apply verify_ok in H as (_ & Hsum & Hk & Ht & Hd & p & Hmd & Hpk & Hdesc & _).
  rewrite Hmd, Hd, <- Hsum. split_and!; try done. by exists p.
Qed.

(** What a load has checked, whatever the client returns, with no assumption on
    it: the block is the one asked for, its payload has the length and the SHA-256
    that the returned metadata states, and it agrees with the persisted
    descriptor of the block. *)
Theorem s3_load_integrity `{U : UnicodeData} {D} self (client : S3Client D) k w w' r :
  load self client k w = (w', Ok r) ->
  lr_key r = k /\ lr_tier r = S3 /\ md_key (lr_metadata r) = k /\
  md_bytes (lr_metadata r) = PInt (zlen (lr_data r)) /\ md_checksum (lr_metadata r) = PStr (sha256_hex (lr_data r)) /\
  exists p, md_key p = k /\ descriptor_eqb (payload_descriptor p) (payload_descriptor (lr_metadata r)) = true.
Proof. apply s3_integrity. Qed.

Lemma s3_load_integrity_witness :
  let w := (store (H := ascii_data) sample_s3 memory_client sample_key sample_payload sample_metadata
              (mkWorld (sample_env fresh_store) ∅)).1 in
  exists r, (load (H := ascii_data) sample_s3 memory_client sample_key w).2 = Ok r /\ lr_key r = sample_key.
Proof.
  cbv zeta. set (w := (store _ _ _ _ _ _).1).
  assert (is_ok (load (H := ascii_data) sample_s3 memory_client sample_key w).2 = true) as Hok by (vm_compute; reflexivity).
  destruct (load (H := ascii_data) sample_s3 memory_client sample_key w) as [w' [r|e]] eqn:E; [|discriminate].
  exists r. split; [reflexivity|]. exact (proj1 (s3_load_integrity (U := ascii_data) sample_s3 memory_client sample_key w w' r E)).
Defined.

(** C16: reading a response in pieces is reading the whole record. A body that
    delivers the bytes [bs], in chunks of whatever sizes it likes, is read by
    [_read_body] exactly as [whole_record] reads the byte string [bs]: the same
    header and payload, or the same error. In particular the loop of [_read_exact]
    ends. *)
Theorem s3_body_read_equivalent {D} (I : D -> Prop) now (b : Body D) source maxb d bs :
  delivers False I b d bs -> (_read_body now b source maxb d).2 = whole_record now bs source maxb.
Proof.
  intros Hd. pose proof (read_body_delivers False I now b source maxb d bs Hd) as H.
  destruct (_read_body now b source maxb d) as [d' r]. by destruct H as [_ [H|[[] _]]].
Qed.

(** A body that delivers one byte at a time. *)
Definition trickle : Body pybytes :=
  BodyObject (Some (fun n s => (drop 1 s, Ok (Chunk (take 1 s))))) (Some (ret tt)).

Lemma trickle_delivers bs : delivers False (fun _ => True) trickle bs bs.
Proof.
  split; [|by intros d]. eexists _, (fun s bs => s = bs). split; [reflexivity|]. split; [|done]. split; [done|].
  intros n x ? -> Hn. cbn. exists (drop 1 bs0). split; [by rewrite take_drop|]. split; [by destruct bs0|]. split; [done|].
  rewrite length_take. lia.
Qed.

Lemma s3_body_read_equivalent_witness :
  (_read_body (f64_of_Z 100) trickle (str "o") 1024 (record_bytes sample_record_header sample_payload)).2 =
  whole_record (f64_of_Z 100) (record_bytes sample_record_header sample_payload) (str "o") 1024.
Proof.
  exact (s3_body_read_equivalent (fun _ => True) (f64_of_Z 100) trickle (str "o") 1024 _ _ (trickle_delivers _)).
Defined.

(** C17: fault injection keeps the contract. Whatever the configuration and the random
    numbers, wrapping a client in [FaultInjectingS3Client] keeps the contract of
    the object store: an injected error or timeout comes before the call and
    changes nothing, and a throttled body delivers the same bytes. *)
Theorem injected_client_keeps_contract {D} random (client : S3Client D) config good objects :
  s3_laws client good objects ->
  s3_laws (FaultInjectingS3Client random client config) (fun i => good (in_dev i)) (fun i => objects (in_dev i)).
Proof. apply injected_laws. Qed.

Lemma injected_client_keeps_contract_witness :
  s3_laws (FaultInjectingS3Client sample_draws memory_client flaky_config) (fun _ => True) (fun i => in_dev i).
Proof.
  exact (injected_client_keeps_contract sample_draws memory_client flaky_config (fun _ => True) id memory_client_laws).
Defined.
