(* ===== verification/Prefetch.v ===== *)
(** * Background prefetching: [kvstore/prefetch.py]

    [_seen] holds the work that is reserved or running. [submit] is not atomic:
    it reserves under the lock, hands the work to the executor outside it and
    rolls the reservation back when the executor refuses. [submit] below is one
    thread's run; [pstep] interleaves any number of threads and workers, one
    locked section at a time. *)

From stdpp Require Import gmap.
From S2P Require Import Prelude PyText Errors PyVal Metadata.
Import MNotations.
Local Open Scope m_scope.

Definition key_tuple (k : BlockKey) :=
  (tenant_id k, model_id k, model_revision k, tokenizer_revision k, block_hash k, lora_id k, modality_key k).

#[global] Instance BlockKey_countable : Countable BlockKey.
Proof.
  refine (inj_countable' key_tuple
            (fun '(t, m, r, tk, h, l, md) => {| tenant_id := t; model_id := m; model_revision := r;
               tokenizer_revision := tk; block_hash := h; lora_id := l; modality_key := md |}) _).
  by intros [].
Defined.

Abbreviation work := (BlockKey * TierName)%type.

Record PrefetchSubmitResult := { submitted : bool; ps_reason : pystr }.

Record Prefetcher := mkPrefetcher {
  max_queue : Z;
  _seen : gset work;
  _submitted : Z;
  _dropped : Z;
  _failed : Z;
}.

(** [Prefetcher(store, max_workers, max_queue)]. *)
Definition Prefetcher_init (max_workers max_queue : Z) : res Prefetcher :=
  if max_workers <=? 0 then Raise (err ValueError (str "max_workers must be positive"))
  else if max_queue <=? 0 then Raise (err ValueError (str "max_queue must be positive"))
  else Ok (mkPrefetcher max_queue ∅ 0 0 0).

(** ** The locked sections *)

Definition drop_one (p : Prefetcher) : Prefetcher :=
  mkPrefetcher (max_queue p) (_seen p) (_submitted p) (_dropped p + 1) (_failed p).

(** The first section of [submit]: a result to return at once, or a
    reservation. *)
Definition reserve (w : work) (p : Prefetcher) : Prefetcher * option PrefetchSubmitResult :=
  if bool_decide (w ∈ _seen p) then
    (drop_one p, Some {| submitted := false; ps_reason := str "duplicate" |})
  else if max_queue p <=? Z.of_nat (size (_seen p)) then
    (drop_one p, Some {| submitted := false; ps_reason := str "queue_full" |})
  else
    (mkPrefetcher (max_queue p) ({[w]} ∪ _seen p) (_submitted p + 1) (_dropped p) (_failed p), None).

(** The [except BaseException] section. *)
Definition unreserve (w : work) (p : Prefetcher) : Prefetcher :=
  mkPrefetcher (max_queue p) (_seen p ∖ {[w]}) (_submitted p - 1) (_dropped p) (_failed p).

(** [_done(work, future)]. *)
Definition _done (w : work) (failed : bool) (p : Prefetcher) : Prefetcher :=
  mkPrefetcher (max_queue p) (_seen p ∖ {[w]}) (_submitted p) (_dropped p)
    (if failed then _failed p + 1 else _failed p).

Definition prefetch_stats (p : Prefetcher) : pyval :=
  PDict [(str "pending", PInt (Z.of_nat (size (_seen p)))); (str "submitted", PInt (_submitted p));
         (str "dropped", PInt (_dropped p)); (str "failed", PInt (_failed p))].

(** ** The executor *)

(** [ThreadPoolExecutor]: it accepts work until [shutdown]; [futures] is the work
    it has accepted and not finished. *)
Record Executor := mkExecutor { accepting : bool; futures : list work }.

Record Pool := mkPool { prefetcher : Prefetcher; executor : Executor }.

Definition on_prefetcher {A} (f : Prefetcher -> Prefetcher * A) : M Pool A :=
  fun s => let '(p, a) := f (prefetcher s) in (mkPool p (executor s), Ok a).

Definition executor_submit (w : work) : M Pool unit :=
  fun s => if accepting (executor s)
           then (mkPool (prefetcher s) (mkExecutor true (futures (executor s) ++ [w])), Ok tt)
           else (s, Raise (err RuntimeError (str "cannot schedule new futures after shutdown"))).

Definition executor_shutdown : M Pool unit :=
  modify (fun s => mkPool (prefetcher s) (mkExecutor false (futures (executor s)))).

(** [submit(key, target_tier)]. *)
Definition submit (w : work) : M Pool PrefetchSubmitResult :=
  let* early := on_prefetcher (reserve w) in
  match early with
  | Some r => ret r
  | None =>
      try_catch (executor_submit w)
        (fun e => on_prefetcher (fun p => (unreserve w p, tt)) ;; raise e) ;;
      ret {| submitted := true; ps_reason := str "submitted" |}
  end.

(** ** Interleavings *)

(** The pool, the threads between their reservation and the executor, and the
    number of finished prefetches. *)
Record PState := mkPState { ps_pool : Pool; ps_reserved : list work; ps_completed : Z }.

Definition on_pool (f : Prefetcher -> Prefetcher) (e : Executor) (s : PState) : Pool :=
  mkPool (f (prefetcher (ps_pool s))) e.

Inductive pstep : PState -> PState -> Prop :=
  (* a thread enters [submit] *)
  | p_return w p r s :
      reserve w (prefetcher (ps_pool s)) = (p, Some r) ->
      pstep s (mkPState (mkPool p (executor (ps_pool s))) (ps_reserved s) (ps_completed s))
  | p_reserve w p s :
      reserve w (prefetcher (ps_pool s)) = (p, None) ->
      pstep s (mkPState (mkPool p (executor (ps_pool s))) (w :: ps_reserved s) (ps_completed s))
  (* it reaches the executor *)
  | p_accept w rs1 rs2 fs s :
      ps_reserved s = rs1 ++ w :: rs2 -> executor (ps_pool s) = mkExecutor true fs ->
      pstep s (mkPState (mkPool (prefetcher (ps_pool s)) (mkExecutor true (fs ++ [w])))
                 (rs1 ++ rs2) (ps_completed s))
  | p_refuse w rs1 rs2 s :
      ps_reserved s = rs1 ++ w :: rs2 ->
      pstep s (mkPState (on_pool (unreserve w) (executor (ps_pool s)) s) (rs1 ++ rs2) (ps_completed s))
  (* a worker finishes *)
  | p_done w fs1 fs2 a failed s :
      executor (ps_pool s) = mkExecutor a (fs1 ++ w :: fs2) ->
      pstep s (mkPState (on_pool (_done w failed) (mkExecutor a (fs1 ++ fs2)) s)
                 (ps_reserved s) (ps_completed s + 1))
  | p_shutdown s :
      pstep s (mkPState (mkPool (prefetcher (ps_pool s)) (mkExecutor false (futures (executor (ps_pool s)))))
                 (ps_reserved s) (ps_completed s)).

Definition pinit (p : Prefetcher) : PState := mkPState (mkPool p (mkExecutor true [])) [] 0.

Definition preachable (p : Prefetcher) : PState -> Prop := rtc pstep (pinit p).

(** The work a state holds. *)
Definition outstanding (s : PState) : list work := ps_reserved s ++ futures (executor (ps_pool s)).

Record pool_inv (s : PState) : Prop := {
  pi_nodup : NoDup (outstanding s);
  pi_seen : _seen (prefetcher (ps_pool s)) = list_to_set (outstanding s);
  pi_queue : Z.of_nat (length (outstanding s)) <= max_queue (prefetcher (ps_pool s));
  pi_submitted : _submitted (prefetcher (ps_pool s)) = Z.of_nat (length (outstanding s)) + ps_completed s;
  pi_failed : 0 <= _failed (prefetcher (ps_pool s)) <= ps_completed s;
}.

(** ** Facts *)

Lemma outstanding_seen s : pool_inv s -> Z.of_nat (size (_seen (prefetcher (ps_pool s)))) = zlen (outstanding s).
Proof. intros H. rewrite (pi_seen s H), size_list_to_set by apply (pi_nodup s H). done. Qed.

(** The two ways the outstanding work shrinks by one. *)
Lemma inv_remove (w : work) (ws ws' : list work) (seen : gset work) :
  ws ≡ₚ w :: ws' -> NoDup ws -> seen = list_to_set ws ->
  NoDup ws' /\ seen ∖ {[w]} = list_to_set ws' /\ length ws = S (length ws').
Proof.
  intros Hp Hn ->. assert (NoDup (w :: ws')) as [Hw Hn']%NoDup_cons by by rewrite <- Hp.
  split_and!; [done| |by rewrite Hp].
  assert ((list_to_set ws : gset work) = {[w]} ∪ list_to_set ws') as -> by (rewrite Hp; apply list_to_set_cons).
  assert (w ∉ (list_to_set ws' : gset work)) by by rewrite elem_of_list_to_set. set_solver.
Qed.

Lemma pstep_inv s s' : pstep s s' -> pool_inv s -> pool_inv s'.
Proof.
  intros Hs HI. pose proof (outstanding_seen s HI) as Hsize. destruct HI as [Hn Hse Hq Hsub Hf].
  destruct Hs as [w p r s Hr|w p s Hr|w rs1 rs2 fs s Er Ee|w rs1 rs2 s Er|w fs1 fs2 a failed s Ee|s].
  - unfold reserve in Hr. repeat case_match; simplify_eq; by split.
  - unfold reserve in Hr. destruct (bool_decide_reflect (w ∈ _seen (prefetcher (ps_pool s)))) as [|Hw]; [done|].
    destruct (Z.leb_spec (max_queue (prefetcher (ps_pool s))) (Z.of_nat (size (_seen (prefetcher (ps_pool s)))))); [done|].
    injection Hr as <-. unfold outstanding in *. split; simpl in *.
    + apply NoDup_cons. split; [|done]. by rewrite Hse, elem_of_list_to_set in Hw.
    + by rewrite Hse.
    + lia.
    + lia.
    + done.
  - unfold outstanding in *. rewrite Er, Ee in *. simpl in *.
    assert ((rs1 ++ w :: rs2) ++ fs ≡ₚ (rs1 ++ rs2) ++ fs ++ [w]) as Hp by solve_Permutation.
    split; simpl; unfold outstanding; simpl.
    + by rewrite <- Hp.
    + rewrite Hse. by apply list_to_set_perm_L.
    + by rewrite <- Hp.
    + by rewrite <- Hp.
    + done.
  - unfold outstanding in *. rewrite Er in *. set (fs := futures _) in *.
    assert ((rs1 ++ w :: rs2) ++ fs ≡ₚ w :: (rs1 ++ rs2) ++ fs) as Hp by solve_Permutation.
    destruct (inv_remove w _ _ _ Hp Hn Hse) as (Hn' & Hs' & Hl).
    split; simpl; unfold outstanding; simpl; fold fs; try done; lia.
  - unfold outstanding in *. rewrite Ee in *. simpl in *.
    assert (ps_reserved s ++ fs1 ++ w :: fs2 ≡ₚ w :: ps_reserved s ++ fs1 ++ fs2) as Hp by solve_Permutation.
    destruct (inv_remove w _ _ _ Hp Hn Hse) as (Hn' & Hs' & Hl).
    split; simpl; unfold outstanding; simpl; try done; try lia. destruct failed; lia.
  - by split.
Qed.

Lemma reserve_queue w p : max_queue (reserve w p).1 = max_queue p.
Proof. unfold reserve. by repeat case_match. Qed.

Lemma pstep_queue s s' : pstep s s' -> max_queue (prefetcher (ps_pool s')) = max_queue (prefetcher (ps_pool s)).
Proof.
  destruct 1 as [w p r s H|w p s H| | | |]; simpl; try done;
    pose proof (reserve_queue w (prefetcher (ps_pool s))) as E; by rewrite H in E.
Qed.

Lemma preachable_inv mw q p s :
  Prefetcher_init mw q = Ok p -> preachable p s -> pool_inv s /\ max_queue (prefetcher (ps_pool s)) = q.
Proof.
  intros Hi H. assert (pool_inv (pinit p) /\ max_queue (prefetcher (ps_pool (pinit p))) = q) as H0.
  { unfold Prefetcher_init in Hi. destruct (mw <=? 0); [done|]. destruct (Z.leb_spec q 0); [done|].
    injection Hi as <-. split; [|done]. split; simpl; try done; try lia. constructor. }
  revert H0. unfold preachable in H. induction H as [x|x y z Hxy _ IH]; [done|]. intros [Hx Eq]. apply IH.
  split; [by eapply pstep_inv|]. by rewrite (pstep_queue x y Hxy).
Qed.

(** ** Properties *)

(** C33: in every interleaving of [submit] calls, executor acceptances and refusals,
    worker completions and shutdown, the pending set is exactly the work that is
    reserved or running, each item once, never more than [max_queue] items; the
    counter [submitted] is pending plus completed work, and [failed] never exceeds
    the completed work. *)
Theorem prefetch_bookkeeping mw q p s :
  Prefetcher_init mw q = Ok p -> preachable p s ->
  let pf := prefetcher (ps_pool s) in
  NoDup (outstanding s) /\ _seen pf = list_to_set (outstanding s) /\
  Z.of_nat (size (_seen pf)) <= q /\
  _submitted pf = Z.of_nat (size (_seen pf)) + ps_completed s /\ _failed pf <= ps_completed s.
Proof.
  intros Hi Hs. destruct (preachable_inv mw q p s Hi Hs) as [HI <-]. cbn zeta.
  rewrite (outstanding_seen s HI). destruct HI as [Hn Hse Hq Hsub Hf]. split_and!; try done; lia.
Qed.

(** A submission is refused exactly when the same work is pending or the queue
    is full, and then changes nothing but [dropped]; otherwise the work is handed
    over to the executor once, or, when the executor is shut down, the reservation
    is undone and the error reaches the caller. *)
Theorem submit_outcomes w s :
  let p := prefetcher s in
  match submit w s with
  | (s', Ok r) =>
      if submitted r
      then w ∉ _seen p /\ Z.of_nat (size (_seen p)) < max_queue p /\
           _seen (prefetcher s') = {[w]} ∪ _seen p /\ _submitted (prefetcher s') = _submitted p + 1 /\
           _dropped (prefetcher s') = _dropped p /\ futures (executor s') = futures (executor s) ++ [w]
      else (w ∈ _seen p \/ max_queue p <= Z.of_nat (size (_seen p))) /\
           s' = mkPool (drop_one p) (executor s)
  | (s', Raise e) => accepting (executor s) = false /\ is_a e RuntimeError = true /\ s' = s
  end.
Proof.
  destruct s as [p [acc fs]]. cbn zeta. unfold submit, bind, on_prefetcher, reserve, try_catch, executor_submit. simpl.
  destruct (bool_decide_reflect (w ∈ _seen p)) as [Hw|Hw]; simpl; [by auto|].
  destruct (Z.leb_spec (max_queue p) (Z.of_nat (size (_seen p)))) as [Hq|Hq]; simpl; [by auto|].
  destruct acc; simpl; [by auto|]. split_and!; try done. unfold unreserve. simpl.
  replace (({[w]} ∪ _seen p) ∖ {[w]}) with (_seen p) by set_solver.
  rewrite Z.add_simpl_r. by destruct p.
Qed.

(** A shut-down prefetcher drains: from every reachable state a finite run of
    the workers and of the threads inside [submit], with no new submission, leads to a
    state with nothing pending, in which every prefetch counted as submitted has
    completed. *)
Theorem prefetch_drains mw q p s :
  Prefetcher_init mw q = Ok p -> preachable p s ->
  exists s', nsteps pstep (length (outstanding s)) s s' /\ _seen (prefetcher (ps_pool s')) = ∅ /\
    _submitted (prefetcher (ps_pool s')) = ps_completed s'.
Proof.
  intros Hi Hs. destruct (preachable_inv mw q p s Hi Hs) as [HI _]. clear Hs Hi.
  remember (length (outstanding s)) as n eqn:En. revert s En HI.
  induction n as [|n IH]; intros s En HI.
  - exists s. split; [constructor|]. assert (outstanding s = []) as E by by destruct (outstanding s).
    destruct HI as [_ Hse _ Hsub _]. rewrite Hse, Hsub, E. done.
  - assert (exists s1, pstep s s1 /\ length (outstanding s1) = n) as (s1 & H1 & E1).
    { unfold outstanding in *. destruct (ps_reserved s) as [|w rs] eqn:Er.
      - destruct (executor (ps_pool s)) as [a [|w fs]] eqn:Ee; [done|]. eexists. split.
        + apply (p_done w [] fs a false). exact Ee.
        + simpl. rewrite Er. simpl in *. lia.
      - eexists. split.
        + apply (p_refuse w [] rs). exact Er.
        + simpl in *. lia. }
    destruct (IH s1) as (s' & Hn & R1 & R2); [done|by eapply pstep_inv|].
    exists s'. split_and!; try done. by econstructor.
Qed.

(** ** Witnesses *)

Definition sample_work : work :=
  ({| tenant_id := str "t"; model_id := str "m"; model_revision := str "r"; tokenizer_revision := str "k";
      block_hash := str "h"; lora_id := []; modality_key := [] |}, MEMORY).

Definition sample_prefetcher : Prefetcher := mkPrefetcher 64 ∅ 0 0 0.

Lemma sample_prefetch_run :
  exists s, preachable sample_prefetcher s /\ outstanding s = [sample_work].
Proof.
  eexists. split; [|shelve]. eapply rtc_once. eapply (p_reserve sample_work). reflexivity.
  Unshelve. all: reflexivity.
Qed.

Lemma prefetch_bookkeeping_witness :
  exists s, outstanding s = [sample_work] /\ NoDup (outstanding s) /\
    Z.of_nat (size (_seen (prefetcher (ps_pool s)))) <= 64.
Proof.
  destruct sample_prefetch_run as (s & Hs & E). exists s.
  destruct (prefetch_bookkeeping 2 64 sample_prefetcher s eq_refl Hs) as (H1 & _ & H2 & _). done.
Defined.

Lemma prefetch_drains_witness :
  exists s s', outstanding s = [sample_work] /\ nsteps pstep 1 s s' /\ _seen (prefetcher (ps_pool s')) = ∅.
Proof.
  destruct sample_prefetch_run as (s & Hs & E). exists s.
  destruct (prefetch_drains 2 64 sample_prefetcher s eq_refl Hs) as (s' & H1 & H2 & _).
  rewrite E in H1. by exists s'.
Defined.
