(* ===== verification/TierManager.v ===== *)
(** * The tier manager: [kvstore/tier_manager.py]

    [MultiTierKVBlockStore] over the [Tier] interface: any state [W] that holds
    the shared environment, the prefetch pool and the manager's closed flag
    ([Lab]), and any tiers over it. [is_timeout_exception] is that of
    [s3_fault_injection.py]. A background worker runs one queued prefetch as one
    step ([run_future]). *)

From Stdlib Require Import SpecFloat.
From S2P Require Import CostModel.
From S2P Require Import Prelude PyText Float64 Errors PyVal Metadata MetadataStore Metrics Runtime Prefetch.
Import MNotations.
Local Open Scope m_scope.

(** ** Timeouts *)

(** [needle in text]. *)
Fixpoint str_in (needle text : pystr) : bool :=
  bool_decide (needle `prefix_of` text) ||
  match text with [] => false | _ :: text' => str_in needle text' end.

(** One exception of the [__cause__] chain. Lowercasing the ASCII letters is
    enough: no other character lowercases to a substring of the two words. *)
Definition says_timeout (c : exn_class) (msg : pystr) : bool :=
  subclass c TimeoutError || subclass c LoadTimeout ||
  str_in (str "timeout") (str_lower (class_name c)) ||
  str_in (str "timed out") (str_lower msg) || str_in (str "timeout") (str_lower msg).

Fixpoint is_timeout_exception (e : exn) : bool :=
  let '(Exn c msg cause _) := e in
  says_timeout c msg || match cause with Some e' => is_timeout_exception e' | None => false end.

(** ** The program around the manager *)

Class Lab (W : Type) := {
  get_env : W -> Env;
  put_env : Env -> W -> W;
  get_pool : W -> Pool;
  put_pool : Pool -> W -> W;
  get_closed : W -> bool;
  put_closed : bool -> W -> W;
}.

Section Manager.
Context {W : Type} `{Lab W}.

Definition env_op {A} (m : M Env A) : M W A := zoom get_env put_env m.
Definition pool_op {A} (m : M Pool A) : M W A := zoom get_pool put_pool m.

Record MultiTierKVBlockStore := {
  tiers : list (TierName * Tier W);
  cost_model : CostModel;
}.

Fixpoint tier_get (t : TierName) (d : list (TierName * Tier W)) : option (Tier W) :=
  match d with
  | [] => None
  | (t', x) :: d' => if decide (t = t') then Some x else tier_get t d'
  end.

Fixpoint tier_set (t : TierName) (x : Tier W) (d : list (TierName * Tier W)) : list (TierName * Tier W) :=
  match d with
  | [] => [(t, x)]
  | (t', x') :: d' => if decide (t = t') then (t', x) :: d' else (t', x') :: tier_set t x d'
  end.

(** [MultiTierKVBlockStore(tiers, ...)]. *)
Definition MultiTierKVBlockStore_init (ts : list (Tier W)) (cm : CostModel) : res MultiTierKVBlockStore :=
  match ts with
  | [] => Raise (err ValueError (str "at least one tier is required"))
  | _ =>
      let d := foldl (fun d x => tier_set (tier_name x) x d) [] ts in
      if (length d =? length ts)%nat then Ok {| tiers := d; cost_model := cm |}
      else Raise (err ValueError (str "tier names must be unique"))
  end.

Context (self : MultiTierKVBlockStore).

Definition has_tier (t : TierName) : bool :=
  match tier_get t (tiers self) with Some _ => true | None => false end.

Definition lookup_order : list TierName := filter (fun t => has_tier t = true) [MEMORY; NVME; S3].

(** [self.tiers[t]]. *)
Definition get_tier (t : TierName) : M W (Tier W) :=
  lift (match tier_get t (tiers self) with Some x => Ok x | None => Raise (err KeyError (tier_value t)) end).

Definition manager_metric (call : metric_call) : M W unit := env_op (metric call).

Definition lbl (name value : pystr) : pystr * pystr := (name, value).

(** [except TierUnavailable as exc]. *)
Definition on_unavailable {A} (m : M W A) (h : exn -> M W A) : M W A :=
  try_catch m (fun e => if is_a e TierUnavailable then h e else raise e).

(** ** Locations *)

Definition timeout_metric (t : TierName) (operation : pystr) (e : exn) : M W unit :=
  when (is_timeout_exception e)
    (manager_metric (Inc kv_onload_timeout_total (f64_of_Z 1)
       [lbl (str "tier") (tier_value t); lbl (str "operation") operation;
        lbl (str "outcome") (str "timeout")])).

(** One round of the loop: a location, nothing, or the exception that made the
    tier unavailable. *)
Definition probe (k : BlockKey) (t : TierName) : M W (option BlockLocation + exn) :=
  let* x := get_tier t in
  on_unavailable (let* l := tier_lookup x k in ret (inl l))
    (fun e => timeout_metric t (str "lookup") e ;; ret (inr e)).

Fixpoint scan (k : BlockKey) (stop_after_first : bool) (order : list TierName)
  : M W (list BlockLocation * list (TierName * exn)) :=
  match order with
  | [] => ret ([], [])
  | t :: order' =>
      let* p := probe k t in
      match p with
      | inr e => let* r := scan k stop_after_first order' in ret (r.1, (t, e) :: r.2)
      | inl (Some l) =>
          if stop_after_first then ret ([l], [])
          else let* r := scan k stop_after_first order' in ret (l :: r.1, r.2)
      | inl None => scan k stop_after_first order'
      end
  end.

Definition _scan_locations (k : BlockKey) (stop_after_first : bool)
  : M W (list BlockLocation * list (TierName * exn)) := scan k stop_after_first lookup_order.

Definition lookup (k : BlockKey) : M W (option BlockLocation) :=
  let* r := _scan_locations k true in
  match r with
  | (l :: _, _) => ret (Some l)
  | ([], (_, e) :: _) => raise e
  | ([], []) => ret None
  end.

Definition locations (k : BlockKey) : M W (list BlockLocation) :=
  let* r := _scan_locations k false in
  match r with
  | ([], (_, e) :: _) => raise e
  | (ls, _) => ret ls
  end.

(** ** store *)

Definition store (k : BlockKey) (data : pybytes) (m : KVMetadata) (preferred : option TierName) : M W StoreResult :=
  let* t := match preferred with
            | Some t => ret t
            | None => lift (match lookup_order with
                            | t :: _ => Ok t
                            | [] => Raise (err IndexError (str "list index out of range"))
                            end)
            end in
  match tier_get t (tiers self) with
  | None => raise (err BlockNotFound (str "tier_unavailable:" ++ tier_value t))
  | Some x => tier_store x k data m
  end.

(** ** load *)

Definition _require_target_tier (t : TierName) : M W unit :=
  when (negb (has_tier t)) (raise (err TierUnavailable (str "target tier is not configured: " ++ tier_value t))).

(** [tokens = max(tokens, metadata.tokens)]; the tokens of validated metadata are
    an integer. *)
Definition max_tokens (tokens : Z) (v : pyval) : Z :=
  match v with PInt z => Z.max tokens z | _ => tokens end.

Fixpoint context_tokens (k : BlockKey) (ls : list BlockLocation) (tokens : Z) : M W Z :=
  match ls with
  | [] => ret tokens
  | l :: ls' =>
      let* m := env_op (on_store_at (fun now => MetadataStore.get_metadata now k (loc_tier l))) in
      context_tokens k ls' (match m with Some m => max_tokens tokens (md_tokens m) | None => tokens end)
  end.

Definition _request_context (k : BlockKey) (ls : list BlockLocation) : M W RequestContext :=
  let* n := context_tokens k ls 0 in ret (default_context n).

Definition _store_promotion (target : TierName) (r : LoadResult) : M W unit :=
  let* x := get_tier target in
  tier_store x (lr_key r) (lr_data r) (lr_metadata r) ;; ret tt.

(** The hit in the target tier: the loaded block, nothing, or the exception that
    made the tier unavailable. *)
Definition load_target (k : BlockKey) (target : TierName) : M W (option LoadResult + exn) :=
  match tier_get target (tiers self) with
  | None => ret (inl None)
  | Some x =>
      on_unavailable
        (let* c := tier_contains x k in
         if c then let* r := tier_load x k in ret (inl (Some r)) else ret (inl None))
        (fun e => ret (inr e))
  end.

(** The end of [load], for a decision to load. *)
Definition load_from (k : BlockKey) (target source : TierName) : M W LoadResult :=
  let* x := get_tier source in
  let* r := on_unavailable (tier_load x k)
    (fun e =>
       if decide (source = S3) then
         timeout_metric source (str "load") e ;;
         manager_metric (Inc kv_onload_fallback_total (f64_of_Z 1)
           [lbl (str "tier") (tier_value source); lbl (str "decision") (str "recompute");
            lbl (str "reason_class") (str "tier_unavailable")]) ;;
         raise (err_from BlockNotFound (str "s3_load_unavailable_recompute") e)
       else raise e) in
  when (has_tier target && negb (bool_decide (target = lr_tier r))) (_store_promotion target r) ;;
  ret r.

(** What follows a decision of the cost model. *)
Definition act (k : BlockKey) (target : TierName) (d : CostModel.Decision) : M W LoadResult :=
  match d_action d with
  | a_prefetch =>
      let* s := pool_op (submit (k, target)) in
      manager_metric (Inc kv_prefetch_total (f64_of_Z 1)
        [lbl (str "tier") (tier_value target); lbl (str "outcome") (ps_reason s)]) ;;
      raise (err BlockNotFound (str "cost_model_selected_prefetch:" ++ ps_reason s))
  | a_recompute => raise (err BlockNotFound (str "cost_model_selected_recompute"))
  | a_load => load_from k target (d_tier d)
  end.

(** No location: the block has to be recomputed. *)
Definition not_located (k : BlockKey) (unavailable : list (TierName * exn)) : M W LoadResult :=
  match unavailable with
  | (t, e) :: _ =>
      manager_metric (Inc kv_onload_fallback_total (f64_of_Z 1)
        [lbl (str "tier") (tier_value t); lbl (str "decision") (str "recompute");
         lbl (str "reason_class") (str "lookup_unavailable")]) ;;
      raise (err_from BlockNotFound (str "tier_lookup_unavailable_recompute") e)
  | [] => raise (err BlockNotFound (block_hash k))
  end.

(** The target tier does not have the block. *)
Definition load_elsewhere (k : BlockKey) (target : TierName) (slo_budget_ms : option f64)
    (target_unavailable : list (TierName * exn)) : M W LoadResult :=
  let* scanned := _scan_locations k false in
  match scanned.1 with
  | [] => not_located k (target_unavailable ++ scanned.2)
  | ls =>
      let* ctx := _request_context k ls in
      let* d := lift (CostModel.decide (cost_model self) ls ctx slo_budget_ms) in
      manager_metric (Inc kv_onload_decision_total (f64_of_Z 1)
        [lbl (str "tier") (tier_value (d_tier d)); lbl (str "decision") (action_value (d_action d));
         lbl (str "strategy") (str "cost_based")]) ;;
      act k target d
  end.

Definition load (k : BlockKey) (target : TierName) (slo_budget_ms : option f64) : M W LoadResult :=
  _require_target_tier target ;;
  let* hit := load_target k target in
  match hit with
  | inl (Some r) => ret r
  | inl None => load_elsewhere k target slo_budget_ms []
  | inr e => load_elsewhere k target slo_budget_ms [(target, e)]
  end.

(** ** prefetch *)

Definition _promote_from_tier (k : BlockKey) (source target : TierName) (suppress_errors : bool) : M W bool :=
  if negb (has_tier source) || negb (has_tier target) || bool_decide (source = target) then ret false
  else
    try_catch
      (let* x := get_tier source in
       let* r := tier_load x k in
       _store_promotion target r ;; ret true)
      (fun e => if (is_a e KVStoreError || is_a e OSError) && suppress_errors then ret false else raise e).

(** [for loc in self.locations(key)]: up to the first promotion. *)
Fixpoint promote_first (k : BlockKey) (target : TierName) (ls : list BlockLocation) : M W unit :=
  match ls with
  | [] => ret tt
  | l :: ls' =>
      if bool_decide (loc_tier l = target) then promote_first k target ls'
      else
        let* done := _promote_from_tier k (loc_tier l) target true in
        if done then ret tt else promote_first k target ls'
  end.

Definition prefetch_key (target : TierName) (k : BlockKey) : M W unit :=
  manager_metric (Inc kv_prefetch_total (f64_of_Z 1)
    [lbl (str "tier") (tier_value target); lbl (str "outcome") (str "requested")]) ;;
  let* present := match tier_get target (tiers self) with
                  | Some x => tier_contains x k
                  | None => ret false
                  end in
  if present then ret tt
  else let* ls := locations k in promote_first k target ls.

Fixpoint prefetch_keys (target : TierName) (ks : list BlockKey) : M W unit :=
  match ks with
  | [] => ret tt
  | k :: ks' => prefetch_key target k ;; prefetch_keys target ks'
  end.

Definition prefetch (ks : list BlockKey) (target : TierName) : M W unit :=
  _require_target_tier target ;; prefetch_keys target ks.

(** [Prefetcher._run_one(work)]. *)
Definition _run_one (w : work) : M W unit := prefetch [w.1] w.2.

(** A worker takes the oldest queued prefetch, runs it, and the done callback
    records how it ended. *)
Definition run_future : M W unit :=
  fun w =>
    match futures (executor (get_pool w)) with
    | [] => (w, Ok tt)
    | item :: _ =>
        let '(w1, r) := _run_one item w in
        let p := get_pool w1 in
        (put_pool (mkPool (_done item (negb (is_ok r)) (prefetcher p))
                     (mkExecutor (accepting (executor p)) (tl (futures (executor p))))) w1, Ok tt)
    end.

Fixpoint run_futures (n : nat) : M W unit :=
  match n with O => ret tt | S n' => run_future ;; run_futures n' end.

(** [Prefetcher.shutdown(wait=True)]: no new work, then the queued work. *)
Definition shutdown : M W unit :=
  pool_op executor_shutdown ;;
  let* n := gets (fun w => length (futures (executor (get_pool w)))) in
  run_futures n.

(** ** evict, promote, demote, release *)

Fixpoint evict_all (k : BlockKey) (ts : list (TierName * Tier W)) (removed : bool) : M W bool :=
  match ts with
  | [] => ret removed
  | (_, x) :: ts' => let* r := tier_evict x k in evict_all k ts' (r || removed)
  end.

Definition evict (k : BlockKey) (t : option TierName) : M W bool :=
  match t with
  | Some t => match tier_get t (tiers self) with Some x => tier_evict x k | None => ret false end
  | None => evict_all k (tiers self) false
  end.

Definition promote (k : BlockKey) (target : TierName) : M W bool :=
  _require_target_tier target ;;
  try_catch
    (load k target None ;;
     match tier_get target (tiers self) with Some x => tier_contains x k | None => ret false end)
    (fun e => if is_a e BlockNotFound then ret false else raise e).

Definition demote (k : BlockKey) (source target : TierName) : M W bool :=
  if negb (has_tier source) || negb (has_tier target) then ret false
  else
    let* x := get_tier source in
    let* r := tier_load x k in
    _store_promotion target r ;;
    tier_evict x k.

Fixpoint release_tiers (k : BlockKey) (ts : list TierName) : M W unit :=
  match ts with
  | [] => ret tt
  | t :: ts' => env_op (on_store (MetadataStore.release k t)) ;; release_tiers k ts'
  end.

Definition release (k : BlockKey) : M W unit := release_tiers k lookup_order.

(** ** stats, close *)

Fixpoint tier_stats_of (ts : list TierName) : M W (list (pystr * pyval)) :=
  match ts with
  | [] => ret []
  | t :: ts' =>
      let* x := get_tier t in
      let* v := tier_stats x in
      let* r := tier_stats_of ts' in
      ret ((tier_value t, v) :: r)
  end.

Definition stats : M W pyval :=
  let* ts := tier_stats_of lookup_order in
  let* p := gets (fun w => prefetch_stats (prefetcher (get_pool w))) in
  ret (PDict [(str "tiers", PDict ts); (str "prefetch", p)]).

Definition close : M W unit :=
  let* closed := gets get_closed in
  if closed then ret tt
  else
    shutdown ;;
    env_op (on_store MetadataStore.close) ;;
    modify (put_closed true).

End Manager.
Arguments MultiTierKVBlockStore W : clear implicits.
