(* ===== verification/TierManagerFacts.v ===== *)
(** * Facts about the tier manager

    [TierLaws A I x] is what the manager relies on: the operations of the tier [x]
    preserve the invariant [I], a location and a loaded block are those of the
    key, a loaded block is verified and can be stored again, and a block that was
    stored or loaded is present. [A] is any relation of keys and payloads: as long
    as only payloads in [A] are stored, only payloads in [A] are loaded. The
    manager's lemmas are proved from it. *)

From Stdlib Require Import SpecFloat.
From S2P Require Import CostModel.
From S2P Require Import Prelude PyText Sha256 Float64 Errors PyVal Json JsonFacts Metadata MetadataFacts MetadataStore MetadataStoreFacts Metrics Runtime MemoryTier MemoryTierFacts World WorldFacts Prefetch TierManager.
Import MNotations.
Local Open Scope m_scope.

(** The block is the one asked for, its bytes have the length and the SHA-256 its
    metadata states, and the metadata can be stored. *)
Definition verified (k : BlockKey) (r : LoadResult) : Prop :=
  lr_key r = k /\ md_key (lr_metadata r) = k /\
  py_eq (md_bytes (lr_metadata r)) (PInt (zlen (lr_data r))) = true /\
  md_checksum (lr_metadata r) = PStr (sha256_hex (lr_data r)) /\ input_ok (lr_metadata r).

(** Asked for the block, the tier answers that it has it, or that it cannot be
    reached. *)
Definition present {W} (x : Tier W) (k : BlockKey) (w : W) : Prop :=
  match (tier_contains x k w).2 with Ok found => found = true | Raise e => is_a e TierUnavailable = true end.

Class TierLaws {W} (A : blocks_map) (I : W -> Prop) (x : Tier W) : Prop := {
  law_lookup k : preserves I (tier_lookup x k);
  law_store k data m : input_ok m -> A k data -> preserves I (tier_store x k data m);
  law_load k : preserves I (tier_load x k);
  law_evict k : preserves I (tier_evict x k);
  law_contains k : preserves I (tier_contains x k);
  law_stats : preserves I (tier_stats x);
  law_found k w w' l : I w -> tier_lookup x k w = (w', Ok (Some l)) -> loc_key l = k /\ loc_tier l = tier_name x;
  law_loaded k w w' r : I w -> tier_load x k w = (w', Ok r) ->
    lr_tier r = tier_name x /\ verified k r /\ A k (lr_data r);
  law_stored k data m w w' sr :
    I w -> input_ok m -> A k data -> tier_store x k data m w = (w', Ok sr) -> present x k w';
  law_kept k w w' r : I w -> tier_load x k w = (w', Ok r) -> present x k w';
}.

(** What the manager does to the environment: it publishes nothing. *)
Definition quiet_env {A} (m : M Env A) : Prop :=
  preserves env_inv m /\
  forall t e, env_inv e -> shrinks t (ms_blocks (env_store e)) (ms_blocks (env_store (m e).1)).

(** The invariant tolerates it. *)
Class EnvLaws {W} `{Lab W} (I : W -> Prop) : Prop :=
  env_law A (m : M Env A) : quiet_env m -> preserves I (env_op m).

Lemma quiet_env_metric c : quiet_env (metric c).
Proof.
  split; [apply env_metric|]. intros t e _. rewrite (proj1 (metric_store c e)). apply shrinks_refl.
Qed.

Lemma quiet_env_store {A} (m : MS A) : (forall t, quiet t m) -> quiet_env (on_store m).
Proof.
  intros Hm. split; [apply env_on_store, (Hm MEMORY)|]. intros t e _. unfold on_store, zoom.
  pose proof (quiet_shrinks t m (Hm t) (env_store e)) as Hs. by destruct (m (env_store e)).
Qed.

Lemma quiet_env_store_at {A} (m : f64 -> MS A) : (forall now t, quiet t (m now)) -> quiet_env (on_store_at m).
Proof.
  intros Hm. split; [apply env_on_store_at; intros now _; apply (Hm now MEMORY)|]. intros t e He.
  exact (proj2 (quiet_env_store (m (env_time e (env_tick e))) (fun t => Hm _ t)) t (tick e) (env_ticked e He)).
Qed.

(** ** Control flow *)

Lemma try_catch_ok {S A} (m : M S A) h s s' a :
  try_catch m h s = (s', Ok a) ->
  m s = (s', Ok a) \/ exists e s1, m s = (s1, Raise e) /\ h e s1 = (s', Ok a).
Proof. unfold try_catch. destruct (m s) as [s1 [x|e]]; eauto. Qed.

(** A computation that ends in an exception whatever comes before. *)
Lemma bind_never_ok {S A B} (m : M S A) (f : A -> M S B) s :
  (forall a s, is_ok (f a s).2 = false) -> is_ok (bind m f s).2 = false.
Proof. intros Hf. unfold bind. destruct (m s) as [s1 [a|e]]; [apply Hf|done]. Qed.

Section Facts.
Context {W : Type} `{Lab W} (self : MultiTierKVBlockStore W).

Lemma on_unavailable_ok {A} (m : M W A) h w w' a :
  on_unavailable m h w = (w', Ok a) ->
  m w = (w', Ok a) \/
  exists e w1, m w = (w1, Raise e) /\ is_a e TierUnavailable = true /\ h e w1 = (w', Ok a).
Proof.
  intros [Hm|(e & w1 & Hm & Hh)]%try_catch_ok; [by left|].
  destruct (is_a e TierUnavailable) eqn:E; [|done]. right. eauto.
Qed.

Lemma get_tier_ok t x w w' :
  get_tier self t w = (w', Ok x) -> tier_get t (tiers self) = Some x /\ w' = w.
Proof. unfold get_tier, lift. destruct (tier_get t (tiers self)); [|done]. by intros [= <- <-]. Qed.

Lemma get_tier_bind {A} t x (f : Tier W -> M W A) w :
  tier_get t (tiers self) = Some x -> bind (get_tier self t) f w = f x w.
Proof. unfold bind, get_tier, lift. by intros ->. Qed.

Lemma has_tier_get t : has_tier self t = true -> exists x, tier_get t (tiers self) = Some x.
Proof. unfold has_tier. destruct (tier_get t (tiers self)); eauto. done. Qed.

Lemma require_ok t w w' u : _require_target_tier self t w = (w', Ok u) -> has_tier self t = true /\ w' = w.
Proof. intros [E ->]%when_raise_ok. by apply negb_false_iff in E. Qed.

Lemma manager_metric_ok c w : exists w', manager_metric c w = (w', Ok tt).
Proof.
  unfold manager_metric, env_op, zoom. pose proof (metric_store c (get_env w)) as (_ & _ & E).
  destruct (metric c (get_env w)) as [e r]. simpl in E. subst r. eauto.
Qed.

(** ** The dictionary of tiers *)

Lemma tier_get_elem t x (d : list (TierName * Tier W)) : tier_get t d = Some x -> (t, x) ∈ d.
Proof.
  induction d as [|[t' x'] d IH]; simpl; [done|]. destruct (decide (t = t')) as [->|].
  - intros [= ->]. by left.
  - intros Hx. right. by apply IH.
Qed.

Lemma tier_set_keys t x (d : list (TierName * Tier W)) :
  (tier_set t x d).*1 = d.*1 \/ (tier_set t x d = d ++ [(t, x)] /\ t ∉ d.*1).
Proof.
  induction d as [|[t' x'] d IH]; simpl; [right; split; [done|apply not_elem_of_nil]|].
  destruct (decide (t = t')) as [->|Hne]; [by left|].
  destruct IH as [IH|[IH Hn]]; [left; cbn; by f_equal|right].
  rewrite IH. split; [done|]. by apply not_elem_of_cons.
Qed.

Definition named (d : list (TierName * Tier W)) : Prop := forall t x, (t, x) ∈ d -> tier_name x = t.

Lemma tier_set_named t x d : named d -> tier_name x = t -> named (tier_set t x d).
Proof.
  intros Hd Hx. induction d as [|[t' x'] d IH]; simpl.
  - intros t0 x0 [= -> ->]%list_elem_of_singleton. done.
  - assert (named d) as Hd' by (intros ? ? ?; apply Hd; by right).
    destruct (decide (t = t')) as [<-|]; intros t0 x0 [[= -> ->]|Hin]%elem_of_cons; try done.
    + by apply Hd'.
    + apply Hd. by left.
    + by apply IH.
Qed.

(** The constructor registers every tier under its own name, once. *)
Lemma init_tiers ts cm mg :
  MultiTierKVBlockStore_init ts cm = Ok mg ->
  named (tiers mg) /\ NoDup (tiers mg).*1 /\ ts <> [] /\ length (tiers mg) = length ts.
Proof.
  unfold MultiTierKVBlockStore_init. destruct ts as [|x0 ts0]; [done|]. set (ts := x0 :: ts0).
  set (d := foldl _ [] ts). destruct (Nat.eqb_spec (length d) (length ts)) as [El|]; [|done]. intros [= <-]. simpl.
  assert (forall ts d0, named d0 -> NoDup d0.*1 ->
    let d := foldl (fun d x => tier_set (tier_name x) x d) d0 ts in named d /\ NoDup d.*1) as Hf.
  { clear. induction ts as [|x ts IH]; intros d0 Hn Hd; simpl; [done|]. apply IH; [by apply tier_set_named|].
    destruct (tier_set_keys (tier_name x) x d0) as [->|[-> Hx]]; [done|]. rewrite fmap_app. simpl.
    apply NoDup_app. split_and!; [done| |apply NoDup_singleton]. intros t Ht ->%list_elem_of_singleton. done. }
  destruct (Hf ts [] ltac:(by intros ? ? ?%elem_of_nil) (NoDup_nil_2)). done.
Qed.

(** The registered tiers are among those it was given. *)
Lemma tier_set_elem t x t' x' (d : list (TierName * Tier W)) : (t', x') ∈ tier_set t x d -> x' = x \/ (t', x') ∈ d.
Proof.
  induction d as [|[t0 x0] d IH]; simpl.
  - intros [= _ ->]%list_elem_of_singleton. by left.
  - destruct (decide (t = t0)) as [->|]; rewrite !elem_of_cons; intros [E|Hin]; [left; congruence|auto|auto|].
    destruct (IH Hin); auto.
Qed.

Lemma init_elem ts cm (mg : MultiTierKVBlockStore W) t x : MultiTierKVBlockStore_init ts cm = Ok mg -> (t, x) ∈ tiers mg -> x ∈ ts.
Proof.
  unfold MultiTierKVBlockStore_init. destruct ts as [|x0 ts0]; [done|]. set (ts := x0 :: ts0).
  destruct (_ =? _)%nat; [|done]. intros [= <-]. cbn [tiers].
  assert (forall ts d0, (t, x) ∈ foldl (fun d x => tier_set (tier_name x) x d) d0 ts -> x ∈ ts \/ (t, x) ∈ d0) as Hf.
  { clear. induction ts as [|y ts IH]; intros d0; simpl; [by right|]. intros [Hx|Hx]%IH; [by left; right|].
    apply tier_set_elem in Hx as [->|Hx]; [left; by left|by right]. }
  intros Hx. apply (Hf ts []) in Hx as [Hx|Hx]; [done|]. by apply elem_of_nil in Hx.
Qed.

(** ** Scanning the tiers *)

(** The tiers [ts], in order, answered that they miss the block or are
    unavailable (with the exceptions [es]). *)
Inductive skipped (k : BlockKey) : list TierName -> W -> W -> list (TierName * exn) -> Prop :=
  | skip_nil w : skipped k [] w w []
  | skip_miss t ts w w1 w2 es :
      probe self k t w = (w1, Ok (inl None)) -> skipped k ts w1 w2 es -> skipped k (t :: ts) w w2 es
  | skip_down t ts w w1 w2 e es :
      probe self k t w = (w1, Ok (inr e)) -> skipped k ts w1 w2 es -> skipped k (t :: ts) w w2 ((t, e) :: es).

(** A scan that stops at the first location. *)
Lemma scan_first k ts w :
  match scan self k true ts w with
  | (w', Ok (l :: ls, es)) =>
      ls = [] /\ exists pre t post w1, ts = pre ++ t :: post /\ skipped k pre w w1 es /\
        probe self k t w1 = (w', Ok (inl (Some l)))
  | (w', Ok ([], es)) => skipped k ts w w' es
  | (w', Raise e) => exists pre t post w1 es, ts = pre ++ t :: post /\ skipped k pre w w1 es /\
        probe self k t w1 = (w', Raise e)
  end.
Proof.
  revert w. induction ts as [|t ts IH]; intros w; simpl; [constructor|].
  unfold bind at 1. destruct (probe self k t w) as [w1 [[[l|]|e]|e]] eqn:E.
  - simpl. split; [done|]. exists [], t, ts, w. split_and!; [done|constructor|done].
  - specialize (IH w1). destruct (scan self k true ts w1) as [w2 [[[|l ls] es]|e]].
    + by econstructor.
    + destruct IH as (-> & pre & t' & post & w3 & -> & Hs & Hp). split; [done|].
      exists (t :: pre), t', post, w3. split_and!; [done|by econstructor|done].
    + destruct IH as (pre & t' & post & w3 & es & -> & Hs & Hp).
      exists (t :: pre), t', post, w3, es. split_and!; [done|by econstructor|done].
  - unfold bind. specialize (IH w1). destruct (scan self k true ts w1) as [w2 [[[|l ls] es]|e']]; simpl.
    + by eapply skip_down.
    + destruct IH as (-> & pre & t' & post & w3 & -> & Hs & Hp). split; [done|].
      exists (t :: pre), t', post, w3. split_and!; [done|by eapply skip_down|done].
    + destruct IH as (pre & t' & post & w3 & es & -> & Hs & Hp).
      exists (t :: pre), t', post, w3, ((t, e) :: es). split_and!; [done|by eapply skip_down|done].
  - exists [], t, ts, w, []. split_and!; [done|constructor|done].
Qed.

(** A full scan that finds nothing. *)
Lemma scan_none k stop ts w w' es : skipped k ts w w' es -> scan self k stop ts w = (w', Ok ([], es)).
Proof.
  induction 1 as [w|t ts w w1 w2 es Hp _ IH|t ts w w1 w2 e es Hp _ IH]; simpl; [done|..];
    rewrite (bind_run _ _ _ _ _ Hp); [done|]. by rewrite (bind_run _ _ _ _ _ IH).
Qed.

(** What a probe tells of the tier. *)
Lemma probe_found k t w w' l :
  probe self k t w = (w', Ok (inl (Some l))) ->
  exists x, tier_get t (tiers self) = Some x /\ tier_lookup x k w = (w', Ok (Some l)).
Proof.
  unfold probe. intros (x & w1 & [Hx ->]%get_tier_ok & Hp)%bind_ok. exists x. split; [done|].
  apply on_unavailable_ok in Hp as [Hp|(e & w1 & _ & _ & Hh)].
  - apply bind_ok in Hp as (o & w1 & Ho & [= -> ->]). done.
  - apply bind_ok in Hh as (? & ? & _ & [=]).
Qed.
End Facts.

(** ** The invariant *)

Section Invariant.
Context {W : Type} `{Lab W} (self : MultiTierKVBlockStore W) (A0 : blocks_map) (I : W -> Prop) `{!EnvLaws I}.
Context (laws : forall t x, (t, x) ∈ tiers self -> TierLaws A0 I x).

Lemma laws_get t x : tier_get t (tiers self) = Some x -> TierLaws A0 I x.
Proof. intros Hx. by eapply laws, tier_get_elem. Qed.

Lemma inv_metric c : preserves I (manager_metric c).
Proof. apply env_law, quiet_env_metric. Qed.

Lemma inv_get_tier {A} t (f : Tier W -> M W A) :
  (forall x, TierLaws A0 I x -> preserves I (f x)) -> preserves I (bind (get_tier self t) f).
Proof.
  intros Hf w Hw. unfold bind, get_tier, lift. destruct (tier_get t (tiers self)) eqn:E; [|done].
  eapply Hf; [by eapply laws_get|done].
Qed.

Lemma inv_on_unavailable {A} (m : M W A) h :
  preserves I m -> (forall e, preserves I (h e)) -> preserves I (on_unavailable m h).
Proof. intros Hm Hh. apply preserves_try_catch; [done|]. intros e. destruct (is_a e TierUnavailable); [done|by apply preserves_raise]. Qed.

Lemma inv_timeout t op e : preserves I (timeout_metric t op e).
Proof. apply preserves_when, inv_metric. Qed.

Hint Resolve inv_metric inv_get_tier inv_on_unavailable inv_timeout law_lookup law_load law_evict
  law_contains law_stats : kv.

Ltac mpreserve :=
  repeat (intros; first
    [ progress eauto 6 with kv nocore
    | apply inv_get_tier | apply inv_on_unavailable
    | apply preserves_bind | apply preserves_try_catch | apply preserves_when
    | match goal with |- preserves _ (match ?x with _ => _ end) => destruct x eqn:? end
    | match goal with |- preserves _ (if ?x then _ else _) => destruct x end ]).

Lemma inv_probe k t : preserves I (probe self k t).
Proof. unfold probe. mpreserve. Qed.
Hint Resolve inv_probe : kv.

Lemma inv_scan k stop ts : preserves I (scan self k stop ts).
Proof. induction ts as [|t ts IH]; simpl; mpreserve. Qed.

Lemma inv_locations k : preserves I (locations self k).
Proof. pose proof inv_scan. unfold locations, _scan_locations. mpreserve. Qed.

Lemma inv_lookup k : preserves I (lookup self k).
Proof. pose proof inv_scan. unfold lookup, _scan_locations. mpreserve. Qed.

Lemma inv_context k ls n : preserves I (context_tokens k ls n).
Proof.
  revert n. induction ls as [|l ls IH]; intros n; simpl; [by apply preserves_ret|].
  apply preserves_bind; [|done]. apply env_law, quiet_env_store_at. intros now t. apply quiet_get_metadata.
Qed.

(** [m] preserves the invariant and returns only verified blocks of [k], with a
    payload [k] may have. *)
Definition loads (k : BlockKey) (m : M W LoadResult) : Prop :=
  hoare I m (fun r w => I w /\ forall lr, r = Ok lr -> verified k lr /\ A0 k (lr_data lr)).

Lemma loads_tier x k : TierLaws A0 I x -> loads k (tier_load x k).
Proof.
  intros Hx w Hw. pose proof (law_load k w Hw) as Hw1.
  destruct (tier_load x k w) as [w1 r] eqn:E. simpl in *. split; [done|]. intros lr ->.
  by apply (law_loaded k w w1 lr Hw E).
Qed.

Lemma loads_unavailable k m h :
  loads k m -> (forall e, preserves I (h e)) -> (forall e w, is_ok (h e w).2 = false) ->
  loads k (on_unavailable m h).
Proof.
  intros Hm Hh Hr w Hw. specialize (Hm w Hw). unfold on_unavailable, try_catch.
  destruct (m w) as [w1 [lr|e]]; simpl in *; [done|]. destruct Hm as [Hw1 _].
  destruct (is_a e TierUnavailable); [|done]. split; [by apply Hh|]. intros lr E.
  specialize (Hr e w1). by rewrite E in Hr.
Qed.

Lemma loads_bind {B} k (m : M W LoadResult) (f : LoadResult -> M W B) :
  loads k m -> (forall r, verified k r -> A0 k (lr_data r) -> preserves I (f r)) -> preserves I (bind m f).
Proof.
  intros Hm Hf w Hw. specialize (Hm w Hw). unfold bind. destruct (m w) as [w1 [r|e]]; simpl in *.
  - destruct Hm as [Hw1 Hv]. destruct (Hv r eq_refl). by apply Hf.
  - by destruct Hm.
Qed.

(** A verified block can be handed to another tier. *)
Lemma inv_store_promotion t k r : verified k r -> A0 k (lr_data r) -> preserves I (_store_promotion self t r).
Proof.
  intros (Ek & _ & _ & _ & Hin) Ha. unfold _store_promotion. apply inv_get_tier. intros y Hy.
  apply preserves_bind; [apply law_store; by rewrite ?Ek|mpreserve].
Qed.
Hint Resolve inv_store_promotion : kv.

Lemma inv_promote_from k s t b : preserves I (_promote_from_tier self k s t b).
Proof.
  unfold _promote_from_tier. destruct (_ || _); [mpreserve|].
  apply preserves_try_catch; [|mpreserve]. apply inv_get_tier. intros x Hx.
  eapply loads_bind; [by apply loads_tier|]. mpreserve.
Qed.
Hint Resolve inv_promote_from : kv.

Lemma inv_promote_first k t ls : preserves I (promote_first self k t ls).
Proof. induction ls as [|l ls IH]; simpl; mpreserve. Qed.

Lemma inv_tier_get {A} t (f : Tier W -> M W A) (m : M W A) :
  (forall x, TierLaws A0 I x -> preserves I (f x)) -> preserves I m ->
  preserves I (match tier_get t (tiers self) with Some x => f x | None => m end).
Proof. intros Hf Hm. destruct (tier_get t (tiers self)) eqn:E; [by eapply Hf, laws_get|done]. Qed.

Lemma inv_prefetch ks t : preserves I (prefetch self ks t).
Proof.
  unfold prefetch, _require_target_tier. apply preserves_bind; [mpreserve|]. intros _.
  induction ks as [|k ks IH]; simpl; [mpreserve|]. apply preserves_bind; [|done].
  unfold prefetch_key. pose proof inv_locations. pose proof inv_promote_first.
  apply preserves_bind; [mpreserve|]. intros _. apply preserves_bind.
  - apply inv_tier_get; mpreserve.
  - mpreserve.
Qed.

Lemma inv_evict k t : preserves I (evict self k t).
Proof.
  destruct t as [t|]; simpl; [apply inv_tier_get; mpreserve|].
  assert (forall d b, (forall t x, (t, x) ∈ d -> TierLaws A0 I x) -> preserves I (evict_all k d b)) as Hd; [|by apply Hd].
  induction d as [|[t x] d IH]; intros b Hl; simpl; [mpreserve|].
  assert (TierLaws A0 I x) by (eapply Hl; by left). apply preserves_bind; [by apply law_evict|].
  intros r. apply IH. intros t' x' ?. eapply Hl. by right.
Qed.

Lemma inv_store k data m t : input_ok m -> A0 k data -> preserves I (store self k data m t).
Proof.
  intros Hin Ha. unfold store. apply preserves_bind; [mpreserve|]. intros t'.
  apply inv_tier_get; [|mpreserve]. intros. by apply law_store.
Qed.

Lemma inv_demote k s t : preserves I (demote self k s t).
Proof.
  unfold demote. destruct (_ || _); [mpreserve|]. apply inv_get_tier. intros x Hx.
  eapply loads_bind; [by apply loads_tier|]. mpreserve.
Qed.

Lemma inv_release k : preserves I (release self k).
Proof.
  unfold release. induction (lookup_order self) as [|t ts IH]; simpl; [mpreserve|].
  apply preserves_bind; [|done]. apply env_law, quiet_env_store. intros t'. apply quiet_release.
Qed.

Lemma inv_stats : preserves I (stats self).
Proof.
  unfold stats. apply preserves_bind; [|mpreserve].
  induction (lookup_order self) as [|t ts IH]; simpl; mpreserve.
Qed.

Lemma inv_load_from k target source : preserves I (load_from self k target source).
Proof.
  unfold load_from. apply inv_get_tier. intros x Hx. eapply loads_bind.
  - apply loads_unavailable; [by apply loads_tier| |].
    + intros e. destruct (decide (source = S3)); mpreserve.
    + intros e w. destruct (decide (source = S3)); [|done].
      apply bind_never_ok. intros _ w1. by apply bind_never_ok.
  - intros r Hr Ha. apply preserves_bind; [|mpreserve]. apply preserves_when. by eapply inv_store_promotion.
Qed.

(** ** Loads that return *)

Lemma inv_step {A} (m : M W A) w w' r : preserves I m -> I w -> m w = (w', r) -> I w'.
Proof. intros Hm Hw E. specialize (Hm w Hw). by rewrite E in Hm. Qed.

(** Where a loaded block came from: a tier, from a sound state, with the
    promotion that followed when it is not the target. *)
Inductive delivered (k : BlockKey) (target : TierName) (r : LoadResult) (w' : W) : Prop :=
  | from_tier source x w1 :
      tier_get source (tiers self) = Some x -> I w1 -> tier_load x k w1 = (w', Ok r) ->
      source = target \/ lr_tier r = target -> delivered k target r w'
  | promoted source x y w1 w2 sr :
      tier_get source (tiers self) = Some x -> I w1 -> tier_load x k w1 = (w2, Ok r) ->
      tier_get target (tiers self) = Some y ->
      tier_store y (lr_key r) (lr_data r) (lr_metadata r) w2 = (w', Ok sr) -> delivered k target r w'.

Lemma store_promotion_ok t r w w' u :
  _store_promotion self t r w = (w', Ok u) ->
  exists y sr, tier_get t (tiers self) = Some y /\
    tier_store y (lr_key r) (lr_data r) (lr_metadata r) w = (w', Ok sr).
Proof.
  unfold _store_promotion. intros (y & w1 & [Hy ->]%get_tier_ok & Hs)%bind_ok.
  apply bind_ok in Hs as (sr & w2 & Hs & [= <-]). eauto.
Qed.

Lemma load_from_ok k target source w w' r :
  I w -> has_tier self target = true -> load_from self k target source w = (w', Ok r) -> delivered k target r w'.
Proof.
  intros Hw Ht (x & w1 & [Hx ->]%get_tier_ok & Hl)%bind_ok.
  apply bind_ok in Hl as (r' & w2 & Hr & Hl). apply on_unavailable_ok in Hr as [Hr|(e & w3 & _ & _ & Hh)].
  2: { destruct (decide (source = S3)); [|done]. apply bind_ok in Hh as (? & ? & _ & Hh).
       by apply bind_ok in Hh as (? & ? & _ & Hh). }
  apply bind_ok in Hl as ([] & w3 & Hp & [= <- <-]). rewrite Ht in Hp. cbn [andb] in Hp.
  destruct (bool_decide_reflect (target = lr_tier r')) as [E|E]; cbn [negb when] in Hp.
  - injection Hp as <-. eapply from_tier; eauto.
  - apply store_promotion_ok in Hp as (y & sr & Hy & Hs).
    eapply promoted; [exact Hx|exact Hw|exact Hr|exact Hy|exact Hs].
Qed.

Lemma not_located_raises k es w w' r : not_located k es w <> (w', Ok r).
Proof.
  intros E. assert (is_ok (not_located k es w).2 = false) as Hn; [|by rewrite E in Hn].
  destruct es as [|[t e] es]; [done|]. by apply bind_never_ok.
Qed.

Lemma act_ok k target d w w' r :
  I w -> has_tier self target = true -> act self k target d w = (w', Ok r) -> delivered k target r w'.
Proof.
  unfold act. intros Hw Ht Ha. destruct (d_action d); [by eapply load_from_ok| |done].
  apply bind_ok in Ha as (s & w1 & _ & Ha). by apply bind_ok in Ha as (? & ? & _ & Ha).
Qed.

Lemma load_elsewhere_ok k target slo es w w' r :
  I w -> has_tier self target = true -> load_elsewhere self k target slo es w = (w', Ok r) ->
  delivered k target r w'.
Proof.
  intros Hw Ht ([ls es'] & w1 & Hs & Hl)%bind_ok. apply (inv_step _ _ _ _ (inv_scan _ _ _) Hw) in Hs as Hw1.
  destruct ls as [|l ls]; simpl in Hl; [by apply not_located_raises in Hl|].
  apply bind_ok in Hl as (ctx & w2 & Hc & Hl). apply bind_ok in Hc as (n & w2' & Hc & [= <- _]).
  apply (inv_step _ _ _ _ (inv_context _ _ _) Hw1) in Hc as Hw2.
  apply bind_ok in Hl as (d & w3 & [= <- _] & Hl). apply bind_ok in Hl as (u & w4 & Hm & Hl).
  apply (inv_step _ _ _ _ (inv_metric _) Hw2) in Hm as Hw4. by eapply act_ok.
Qed.

Lemma load_delivered k target slo w w' r : I w -> load self k target slo w = (w', Ok r) -> delivered k target r w'.
Proof.
  unfold load. intros Hw (u & w1 & [Ht ->]%require_ok & Hl)%bind_ok.
  apply bind_ok in Hl as (hit & w1 & Hh & Hl). unfold load_target in Hh.
  destruct (tier_get target (tiers self)) as [x|] eqn:Ex.
  2: { injection Hh as <- <-. by eapply load_elsewhere_ok. }
  pose proof (laws_get _ _ Ex) as Hx. apply on_unavailable_ok in Hh as [Hh|(e & w2 & Hh & _ & [= <- <-])].
  - apply bind_ok in Hh as (c & w2 & Hc & Hh). apply (inv_step _ _ _ _ (law_contains k) Hw) in Hc as Hw2.
    destruct c.
    + apply bind_ok in Hh as (r1 & w3 & Hr & [= <- <-]). injection Hl as <- <-. eapply from_tier; eauto.
    + injection Hh as <- <-. by eapply load_elsewhere_ok.
  - assert (I w2) by (eapply inv_step; [|exact Hw|exact Hh]; mpreserve). by eapply load_elsewhere_ok.
Qed.

(** A delivered block is verified, and the target tier holds it. *)
Lemma delivered_kept k target r w' :
  named (tiers self) -> delivered k target r w' ->
  verified k r /\ A0 k (lr_data r) /\ exists y, tier_get target (tiers self) = Some y /\ present y k w'.
Proof.
  intros Hn [s x w1 Hx Hw1 Hl Ht|s x y w1 w2 sr Hx Hw1 Hl Hy Hs].
  - pose proof (laws_get _ _ Hx) as Hlx. destruct (law_loaded _ _ _ _ Hw1 Hl) as (En & Hv & Ha). split; [done|]. split; [done|].
    exists x. split; [|by eapply law_kept].
    pose proof (Hn _ _ (tier_get_elem _ _ _ Hx)). destruct Ht as [->|Ht]; [done|].
    assert (s = target) as -> by congruence. done.
  - pose proof (laws_get _ _ Hx) as Hlx. pose proof (laws_get _ _ Hy) as Hly.
    destruct (law_loaded _ _ _ _ Hw1 Hl) as (_ & Hv & Ha). split; [done|]. split; [done|].
    pose proof (inv_step _ _ _ _ (law_load k) Hw1 Hl) as Hw2. destruct Hv as (E & _ & _ & _ & Hin).
    exists y. split; [done|]. rewrite <- E. eapply law_stored; [done|done|by rewrite E|done].
Qed.

(** What a load does to the pool. *)
Context (pool_law : forall w0, preserves I (pool_op (submit w0))).

Lemma inv_load k target slo : preserves I (load self k target slo).
Proof.
  assert (forall es, preserves I (load_elsewhere self k target slo es)) as He.
  { intros es. pose proof inv_scan. pose proof inv_context. pose proof inv_load_from. pose proof pool_law.
    unfold load_elsewhere, _scan_locations, not_located, _request_context, act. mpreserve. }
  unfold load, _require_target_tier. apply preserves_bind; [mpreserve|]. intros _.
  apply preserves_bind; [|mpreserve]. unfold load_target. apply inv_tier_get; mpreserve.
Qed.

Lemma inv_promote k target : preserves I (promote self k target).
Proof.
  pose proof inv_load. unfold promote, _require_target_tier. apply preserves_bind; [mpreserve|]. intros _.
  apply preserves_try_catch; [|mpreserve]. apply preserves_bind; [done|]. intros _. apply inv_tier_get; mpreserve.
Qed.
End Invariant.
