(* ===== verification/Confined.v ===== *)
(** * Tiers do not touch each other's rows

    The tiers share one metadata store. [confined t m]: the call [m] of the store
    changes no row of another tier than [t]. Every operation of the memory tier,
    the NVMe tier and the S3 tier is confined to its own rows, whatever its device
    does, so that the invariants of the other tiers survive it. *)

From Stdlib Require Import SpecFloat.
From S2P Require Import Prelude PyText Sha256 Float64 Errors PyVal Json JsonFacts Metadata MetadataFacts MetadataStore MetadataStoreFacts Metrics Runtime MemoryTier MemoryTierFacts Record World WorldFacts Url FileSystem NvmeTier NvmeCompaction S3Client S3Tier.
Import MNotations ResNotations.
Local Open Scope m_scope.

(** ** Rows of the other tiers *)

Definition elsewhere (t : TierName) (b b' : gmap RowKey Row) : Prop :=
  forall id t', t' <> t -> b' !! (id, t') = b !! (id, t').

Lemma elsewhere_refl t b : elsewhere t b b.
Proof. done. Qed.

Lemma elsewhere_trans t b1 b2 b3 : elsewhere t b1 b2 -> elsewhere t b2 b3 -> elsewhere t b1 b3.
Proof. intros H1 H2 id t' Hne. by rewrite H2, H1. Qed.

Lemma elsewhere_put t s k r : elsewhere t (ms_blocks s) (ms_blocks (put_row (row_key k t) r s)).
Proof. intros id t' Hne. rewrite put_row_blocks, lookup_insert_ne; [done|]. unfold row_key. congruence. Qed.

Lemma elsewhere_drop t s k : elsewhere t (ms_blocks s) (ms_blocks (drop_row (row_key k t) s)).
Proof. intros id t' Hne. rewrite drop_row_blocks, lookup_delete_ne; [done|]. unfold row_key. congruence. Qed.

(** The tier whose row a call writes. *)
Definition writes_in (t : TierName) (c : ms_call) : bool :=
  match c with
  | CUpsert _ l _ => bool_decide (loc_tier l = t)
  | CLookupAcquire _ t' | CAcquire _ t' | CRelease _ t' | CTouch _ _ t' | CDelete _ t' | CBeginDelete _ t'
  | CFinishDelete _ t' => bool_decide (t' = t)
  | _ => true
  end.

Lemma effect_elsewhere t s c s' : effect s c s' -> writes_in t c = true -> elsewhere t (ms_blocks s) (ms_blocks s').
Proof.
  intros [c' s1 Eb _|now l m n old _ _ _ _ _|c' k t' r [-> | ->] Hr Ha|k t' r Hr _|now k t' r Hr Ha
         |k t' r Hr Ha _|k t' r Hr Ha _|k t' r Hr _] Hw;
    [by rewrite Eb|apply bool_decide_eq_true in Hw as <-..]; first [apply elsewhere_put | apply elsewhere_drop].
Qed.

Definition confined {A} (t : TierName) (m : MS A) : Prop := forall s, elsewhere t (ms_blocks s) (ms_blocks (m s).1).

Lemma confined_call {A} t c (m : MS A) : writes_in t c = true -> (forall s, (m s).1 = after c s) -> confined t m.
Proof. intros Hw Hm s. rewrite Hm. eapply effect_elsewhere; [apply run_effect|done]. Qed.

Ltac confined c := apply (confined_call _ c); [by apply bool_decide_eq_true_2 || done|intros; first [reflexivity|by apply discard_after]].

Section Calls.
Context (t : TierName).

Lemma confined_lookup k t' : confined t (MetadataStore.lookup k t'). Proof. confined (CLookup k t'). Qed.
Lemma confined_get_metadata now k t' : confined t (get_metadata now k t'). Proof. confined (CGetMetadata now k t'). Qed.
Lemma confined_is_deleting k t' : confined t (is_deleting k t'). Proof. confined (CIsDeleting k t'). Qed.
Lemma confined_lookup_acquire k : confined t (lookup_and_acquire k t). Proof. confined (CLookupAcquire k t). Qed.
Lemma confined_acquire k : confined t (acquire k t). Proof. confined (CAcquire k t). Qed.
Lemma confined_release k : confined t (release k t). Proof. confined (CRelease k t). Qed.
Lemma confined_touch now k : confined t (touch now k t). Proof. confined (CTouch now k t). Qed.
Lemma confined_delete k : confined t (MetadataStore.delete k t). Proof. confined (CDelete k t). Qed.
Lemma confined_begin_delete k : confined t (begin_delete k t). Proof. confined (CBeginDelete k t). Qed.
Lemma confined_finish_delete k : confined t (finish_delete k t). Proof. confined (CFinishDelete k t). Qed.
Lemma confined_lru now t' n : confined t (lru_candidates now t' n). Proof. confined (CLruCandidates now t' n). Qed.
Lemma confined_bytes_used t' : confined t (bytes_used t'). Proof. confined (CBytesUsed t'). Qed.
Lemma confined_validate now m : confined t (validate_payload_descriptor now m). Proof. confined (CValidate now m). Qed.
Lemma confined_upsert now l m : loc_tier l = t -> confined t (upsert now l m).
Proof. intros Hl. apply (confined_call _ (CUpsert now l m)); [by apply bool_decide_eq_true_2|done]. Qed.
Lemma confined_mutation : confined t mutation.
Proof. intros s. unfold mutation. by destruct (_closed s). Qed.
End Calls.

#[export] Hint Resolve confined_lookup confined_get_metadata confined_is_deleting confined_lookup_acquire
  confined_acquire confined_release confined_touch confined_delete confined_begin_delete confined_finish_delete confined_lru
  confined_bytes_used confined_validate confined_upsert confined_mutation : kv.
#[export] Hint Extern 1 (loc_tier _ = _) => first [assumption | reflexivity] : kv.

(** What a computation returns, when it returns. *)
Definition returns {S A} (m : M S A) (Q : A -> Prop) : Prop := forall s s' a, m s = (s', Ok a) -> Q a.

Lemma returns_bind {S A B} (m : M S A) (f : A -> M S B) Q : (forall a, returns (f a) Q) -> returns (bind m f) Q.
Proof. intros Hf s s' b H. apply bind_ok in H as (a & s1 & _ & H). by eapply Hf. Qed.

Lemma preserves_returns {S A B} (I : S -> Prop) (m : M S A) (f : A -> M S B) Q :
  preserves I m -> returns m Q -> (forall a, Q a -> preserves I (f a)) -> preserves I (bind m f).
Proof.
  intros Hm Hq Hf s Hs. specialize (Hm s Hs). unfold bind. destruct (m s) as [s1 [a|e]] eqn:E; [|done].
  by apply Hf; [eapply Hq|].
Qed.

(** A lookup in one tier returns locations of the key in that tier. *)
Definition located (k : BlockKey) (t : TierName) (l : BlockLocation) : Prop := loc_key l = k /\ loc_tier l = t.

Lemma location_located k t r l : _location_from_row k t r = Ok l -> located k t l.
Proof.
  unfold _location_from_row. intros (l0 & Hl & H)%res_bind_ok. apply res_bind_ok in H as ([] & _ & [= <-]).
  unfold structural, res_catch in Hl. destruct (res_bind _ _) as [a|e] eqn:E; [injection Hl as <-|by destruct (existsb _ _)].
  apply res_bind_ok in E as (v & _ & E). destruct v; try done. by injection E as <-.
Qed.

Lemma lookup_located k t : returns (MetadataStore.lookup k (Some t)) (Forall (located k t)).
Proof.
  intros s s' ls H. unfold MetadataStore.lookup in H. apply bind_ok in H as ([] & s1 & _ & H).
  apply bind_ok in H as (b & s2 & _ & [= _ H]). revert H. cbn [omap list_omap].
  destruct (b !! row_key k t) as [r|]; [destruct (is_active r)|]; cbn [res_list]; [|by intros [= <-]..].
  intros (l & Hl%location_located & [= <-])%res_bind_ok. by constructor.
Qed.

Definition found_at (k : BlockKey) (t : TierName) (o : option BlockLocation) : Prop := from_option (located k t) True o.

Lemma head_located k t ls : Forall (located k t) ls -> found_at k t (head ls).
Proof. by intros [|l ls' Hl _]. Qed.

(** ** The environment *)

(** The rows of the other tiers are still those of [b]. *)
Definition apart (t : TierName) (b : gmap RowKey Row) (e : Env) : Prop := elsewhere t b (ms_blocks (env_store e)).

Section Apart.
Context (t : TierName) (b : gmap RowKey Row).
Abbreviation apart := (apart t b).

Lemma apart_metric c : preserves apart (metric c).
Proof. intros e He. unfold Confined.apart. by rewrite (proj1 (metric_store c e)). Qed.

Lemma apart_perf : preserves apart perf_counter.
Proof. by intros e. Qed.

Lemma apart_time : preserves apart time_time.
Proof. by intros e. Qed.

Lemma apart_latency start : preserves apart (latency_since start).
Proof. apply preserves_bind; [apply apart_perf|]. intros. by apply preserves_ret. Qed.

Lemma apart_store {A} (m : MS A) : confined t m -> preserves apart (on_store m).
Proof.
  intros Hm e He. unfold on_store, zoom. specialize (Hm (env_store e)). destruct (m (env_store e)) as [s r].
  by eapply elsewhere_trans.
Qed.

Lemma apart_store_at {A} (m : f64 -> MS A) : (forall now, confined t (m now)) -> preserves apart (on_store_at m).
Proof. intros Hm. apply preserves_bind; [apply apart_time|]. intros now. by apply apart_store. Qed.
End Apart.

#[export] Hint Resolve apart_metric apart_perf apart_time apart_latency apart_store apart_store_at : kv.

(** ** The memory tier *)

Section Memory.
Context (b : gmap RowKey Row).
Abbreviation I := (fun w : MemWorld => apart MEMORY b (mw_env w)).

Lemma apart_env {A} (m : M Env A) : preserves (apart MEMORY b) m -> preserves I (env m).
Proof. intros Hm w Hw. rewrite env_env. by apply Hm. Qed.

Lemma apart_tier_gets {A} (f : MemoryTier -> A) : preserves I (tier_gets f).
Proof. by intros w. Qed.

Lemma apart_tier_modify f : preserves I (tier_modify f).
Proof. by intros w. Qed.

Hint Resolve apart_tier_gets apart_tier_modify : kv.

Ltac aside :=
  repeat (intros; first
    [ progress eauto 6 with kv nocore
    | apply apart_env
    | apply preserves_bind | apply preserves_try_catch | apply preserves_try_finally | apply preserves_when
    | match goal with |- preserves _ (match ?x with _ => _ end) => destruct x end
    | match goal with |- preserves _ (let _ := ?x in _) => cbv zeta end ]).

Lemma apart_memory_lookup k : preserves I (MemoryTier.lookup k).
Proof. unfold MemoryTier.lookup, has_block. aside. Qed.

Lemma apart_memory_evict k : preserves I (MemoryTier.evict k).
Proof. unfold MemoryTier.evict, has_block. aside. Qed.
Hint Resolve apart_memory_lookup apart_memory_evict : kv.

Lemma apart_memory_contains k : preserves I (MemoryTier.contains k).
Proof. unfold MemoryTier.contains. aside. Qed.

Lemma apart_memory_load k : preserves I (MemoryTier.load k).
Proof. unfold MemoryTier.load, MemoryTier.checked_load, MemoryTier.finish_load. aside. Qed.

Lemma apart_evict_first x ks : preserves I (evict_first x ks).
Proof. induction ks as [|k ks IH]; simpl; aside. Qed.

Lemma apart_make_room fuel n x : preserves I (make_room fuel n x).
Proof. pose proof apart_evict_first. revert n. induction fuel as [|fuel IH]; intros n; simpl; aside. Qed.

Lemma apart_memory_capacity n x : preserves I (MemoryTier._ensure_capacity n x).
Proof. pose proof apart_make_room. unfold MemoryTier._ensure_capacity. aside. Qed.

Lemma memory_lookup_located k : returns (MemoryTier.lookup k) (found_at k MEMORY).
Proof.
  intros w w' o H. unfold MemoryTier.lookup in H. apply bind_ok in H as (found & w1 & _ & H).
  apply bind_ok in H as (present & w2 & _ & H). apply bind_ok in H as (ls & w3 & _ & H).
  apply bind_ok in H as ([] & w4 & Hv & H). apply bind_ok in H as ([] & w5 & _ & [= _ <-]).
  destruct ls as [|l ls]; [done|]. injection Hv as _ Hv. apply ensure_ok in Hv. cbn. breflect. done.
Qed.

Lemma apart_memory_store k data m : preserves I (MemoryTier.store k data m).
Proof.
  pose proof apart_memory_capacity. unfold MemoryTier.store.
  apply preserves_bind; [by aside|intros start]. apply preserves_bind; [by aside|intros _].
  apply preserves_bind; [by aside|intros limit]. apply preserves_bind; [by aside|intros _].
  apply preserves_bind; [by aside|intros now]. cbv zeta. apply preserves_bind; [by aside|intros _].
  apply preserves_bind; [by aside|intros _]. eapply preserves_returns; [by aside|apply memory_lookup_located|].
  intros [l|] Hl; [destruct Hl as [_ Hl]|]; unfold MemoryTier.restore, MemoryTier.publish, rollback, store_result; aside.
Qed.
End Memory.

(** ** The persistent tiers *)

Section Persistent.
Context {D : Type} (t : TierName) (b : gmap RowKey Row).
Abbreviation I := (fun w : World D => apart t b (w_env w)).

Lemma apart_on_env {A} (m : M Env A) : preserves (apart t b) m -> preserves I (on_env m).
Proof. intros Hm w Hw. unfold on_env, zoom. specialize (Hm _ Hw). by destruct (m (w_env w)). Qed.

Lemma apart_dev {A} (m : M D A) : preserves I (on_dev m).
Proof. intros w Hw. unfold on_dev, zoom. by destruct (m (w_dev w)). Qed.

Lemma apart_dev_gets {A} (f : D -> A) : preserves I (dev_gets f).
Proof. by intros w. Qed.

Lemma apart_db {A} (m : MS A) : confined t m -> preserves I (db m).
Proof. intros. by apply apart_on_env, apart_store. Qed.

Lemma apart_db_at {A} (m : f64 -> MS A) : (forall now, confined t (m now)) -> preserves I (db_at m).
Proof. intros. by apply apart_on_env, apart_store_at. Qed.

Lemma apart_since start : preserves I (ms_since start).
Proof. apply preserves_bind; [apply apart_on_env, apart_perf|]. intros. by apply preserves_ret. Qed.
End Persistent.

#[export] Hint Resolve apart_dev apart_dev_gets apart_db apart_db_at apart_since : kv.

Ltac aside :=
  repeat (intros; first
    [ progress eauto 6 with kv nocore
    | apply apart_on_env
    | apply preserves_bind | apply preserves_try_catch | apply preserves_try_finally | apply preserves_when
    | match goal with |- preserves _ (match ?x with _ => _ end) => destruct x end
    | match goal with |- preserves _ (let _ := ?x in _) => cbv zeta end ]).

Section Shared.
Context {D : Type} (t : TierName) (b : gmap RowKey Row).
Abbreviation I := (fun w : World D => apart t b (w_env w)).

Lemma apart_stored start k data c : preserves I (stored t start k data c).
Proof. unfold stored. aside. Qed.

Lemma apart_verify start k h payload m : preserves I (verify_and_touch t start k h payload m).
Proof. unfold verify_and_touch. aside. Qed.

Lemma apart_finish evict msg k r : (forall k, preserves I (evict k)) -> preserves I (finish_load t evict msg k r).
Proof. intros He. unfold finish_load. aside. Qed.

Lemma apart_refresh load k data m c l :
  (forall k, preserves I (load k)) -> loc_tier l = t -> preserves I (refresh load k data m c l).
Proof. intros Hl Ht. unfold refresh. aside. Qed.
End Shared.

#[export] Hint Resolve apart_stored apart_verify apart_finish apart_refresh : kv.

Lemma on_dev_returns {D A} (m : M D A) Q : returns m Q -> returns (on_dev m) Q.
Proof. intros Hm w w' a. unfold on_dev, zoom. destruct (m (w_dev w)) as [d r] eqn:E. intros [= _ ->]. by eapply Hm. Qed.

Lemma db_returns {D A} (m : MS A) Q : returns m Q -> returns (db (D := D) m) Q.
Proof.
  intros Hm w w' a. unfold db, on_env, on_store, zoom. destruct (m (env_store (w_env w))) as [s r] eqn:E.
  intros [= _ ->]. by eapply Hm.
Qed.

Section Nvme.
Context `{U : UnicodeData} (self : NVMeTier) (b : gmap RowKey Row).
Abbreviation I := (fun w : World Fs => apart NVME b (w_env w)).

Lemma apart_nvme_lookup k : preserves I (NvmeTier.lookup self k).
Proof. unfold NvmeTier.lookup, _location_exists, nv_metric. aside. Qed.

Lemma apart_nvme_evict k : preserves I (NvmeTier.evict self k).
Proof. unfold NvmeTier.evict. aside. Qed.
Hint Resolve apart_nvme_lookup apart_nvme_evict : kv.

Lemma apart_nvme_contains k : preserves I (NvmeTier.contains self k).
Proof. unfold NvmeTier.contains. aside. Qed.

Lemma apart_nvme_load k : preserves I (NvmeTier.load self k).
Proof. unfold NvmeTier.load, NvmeTier.checked_load, _read_location. aside. Qed.
Hint Resolve apart_nvme_load : kv.

Lemma apart_nvme_stats : preserves I (NvmeCompaction.stats self).
Proof. unfold NvmeCompaction.stats, _physical_bytes. aside. Qed.

Lemma apart_evict_candidate x ls : preserves I (evict_candidate self x ls).
Proof. induction ls as [|l ls IH]; simpl; aside. Qed.

Lemma apart_free_space fuel n x current : preserves I (free_space self fuel n x current).
Proof.
  pose proof apart_evict_candidate. revert current. induction fuel as [|fuel IH]; intros current; simpl; aside.
Qed.

Lemma nvme_lookup_located k : returns (NvmeTier.lookup self k) (found_at k NVME).
Proof.
  intros w w' o H. unfold NvmeTier.lookup in H. apply bind_ok in H as (ls & w1 & Hls & H).
  apply (db_returns _ _ (lookup_located k NVME)) in Hls. destruct ls as [|l ls].
  - apply bind_ok in H as (? & w2 & _ & H). apply bind_ok in H as (? & w3 & _ & [= _ <-]). done.
  - apply bind_ok in H as (e & w2 & _ & H). apply bind_ok in H as ([] & w3 & _ & H). destruct e.
    { injection H as _ <-. by apply (head_located _ _ _ Hls). }
    apply bind_ok in H as ([] & w4 & _ & H). apply bind_ok in H as (again & w5 & Ha & H).
    apply (db_returns _ _ (lookup_located k NVME)) in Ha. apply bind_ok in H as (still & w6 & _ & H).
    destruct still; [injection H as _ <-; by apply head_located|].
    apply bind_ok in H as (? & w7 & _ & [= _ <-]). done.
Qed.

Lemma write_block_tier k h data m c : returns (write_block self k h data m c) (fun l => loc_tier l = NVME).
Proof.
  unfold write_block. destruct (is_segment self).
  - apply returns_bind. intros ref w w' l [= _ H]. by apply res_bind_ok in H as (uri & _ & [= <-]).
  - do 4 (apply returns_bind; intros ?). by intros w w' l [= _ <-].
Qed.

Lemma apart_write_block k h data m c : preserves I (write_block self k h data m c).
Proof. unfold write_block, _append_segment_record, _segment_path_for_append, append_record, _write_tmp. aside. Qed.

Lemma apart_nvme_publish k data m c : preserves I (NvmeTier.publish self k data m c).
Proof.
  pose proof apart_free_space. unfold NvmeTier.publish, NvmeTier._ensure_capacity, row_count.
  apply preserves_bind; [by aside|intros _]. apply preserves_bind; [by aside|intros d].
  apply preserves_bind; [by aside|intros h].
  eapply preserves_returns; [apply apart_write_block|apply write_block_tier|]. aside.
Qed.

Lemma apart_nvme_store k data m : preserves I (NvmeTier.store self k data m).
Proof.
  pose proof apart_nvme_publish. unfold NvmeTier.store.
  apply preserves_bind; [by aside|intros start]. apply preserves_bind; [by aside|intros _]. cbv zeta.
  apply preserves_bind; [by aside|intros _]. apply preserves_bind; [by aside|intros pending].
  apply preserves_bind; [by aside|intros _]. apply preserves_bind; [by aside|intros _].
  apply preserves_bind; [by aside|intros now]. apply preserves_bind; [by aside|intros _].
  apply preserves_bind; [by aside|intros _]. eapply preserves_returns; [by aside|apply nvme_lookup_located|].
  intros [l|] Hl; [destruct Hl as [_ Hl]|]; aside.
Qed.
End Nvme.

Section S3.
Context `{U : UnicodeData} {D : Type} (self : S3Tier) (client : S3Client D) (b : gmap RowKey Row).
Abbreviation I := (fun w : World D => apart S3 b (w_env w)).

Lemma apart_s3_lookup k : preserves I (S3Tier.lookup self client k).
Proof. unfold S3Tier.lookup, location_exists, _head_exists, s3_metric. aside. Qed.

Lemma apart_s3_evict k : preserves I (S3Tier.evict self client k).
Proof. unfold S3Tier.evict, remove_object, _head_exists. aside. Qed.
Hint Resolve apart_s3_lookup apart_s3_evict : kv.

Lemma apart_s3_contains k : preserves I (S3Tier.contains self client k).
Proof. unfold S3Tier.contains. aside. Qed.

Lemma apart_s3_load k : preserves I (S3Tier.load self client k).
Proof. unfold S3Tier.load, S3Tier.checked_load, _read_object. aside. Qed.
Hint Resolve apart_s3_load : kv.

Lemma apart_s3_stats : preserves I (S3Tier.stats self client).
Proof. unfold S3Tier.stats. aside. Qed.

Lemma s3_lookup_located k : returns (S3Tier.lookup self client k) (found_at k S3).
Proof.
  intros w w' o H. unfold S3Tier.lookup in H. apply bind_ok in H as (ls & w1 & Hls & H).
  apply (db_returns _ _ (lookup_located k S3)) in Hls. destruct ls as [|l ls].
  - by apply bind_ok in H as (? & w2 & _ & [= _ <-]).
  - apply bind_ok in H as (e & w2 & _ & H). destruct e.
    { apply bind_ok in H as (? & w3 & _ & [= _ <-]). by apply (head_located _ _ _ Hls). }
    apply bind_ok in H as ([] & w4 & _ & H). apply bind_ok in H as (again & w5 & Ha & H).
    apply (db_returns _ _ (lookup_located k S3)) in Ha. apply bind_ok in H as (still & w6 & _ & H).
    destruct still; [injection H as _ <-; by apply head_located|].
    apply bind_ok in H as (? & w7 & _ & H). by apply bind_ok in H as (? & w8 & _ & [= _ <-]).
Qed.

Lemma s3_location_tier k o n c ca la : returns (lift (S := World D) (S3Tier._location_for self k o n c ca la)) (fun l => loc_tier l = S3).
Proof. intros w w' l [= _ H]. by apply res_bind_ok in H as (uri & _ & [= <-]). Qed.

Lemma apart_s3_publish k data m c : preserves I (S3Tier.publish self client k data m c).
Proof.
  unfold S3Tier.publish. apply preserves_bind; [by aside|intros d]. apply preserves_bind; [by aside|intros h]. cbv zeta.
  apply preserves_bind; [by aside|intros o]. apply preserves_bind; [by aside|intros _].
  eapply preserves_returns; [by aside|apply s3_location_tier|]. aside.
Qed.

Lemma apart_s3_store k data m : preserves I (S3Tier.store self client k data m).
Proof.
  pose proof apart_s3_publish. unfold S3Tier.store.
  apply preserves_bind; [by aside|intros start]. apply preserves_bind; [by aside|intros _].
  apply preserves_bind; [by aside|intros _]. cbv zeta. apply preserves_bind; [by aside|intros _].
  apply preserves_bind; [by aside|intros pending]. apply preserves_bind; [by aside|intros _].
  apply preserves_bind; [by aside|intros now]. apply preserves_bind; [by aside|intros _].
  apply preserves_bind; [by aside|intros _]. eapply preserves_returns; [by aside|apply s3_lookup_located|].
  intros [l|] Hl; [destruct Hl as [_ Hl]|]; aside.
Qed.
End S3.

(** ** The interface *)

(** Every operation of a tier is confined to the rows of the tier. *)
Record tier_confined {W} (env_of : W -> Env) (x : Tier W) : Prop := {
  tc_lookup b k : preserves (fun w => apart (tier_name x) b (env_of w)) (tier_lookup x k);
  tc_store b k data m : preserves (fun w => apart (tier_name x) b (env_of w)) (tier_store x k data m);
  tc_load b k : preserves (fun w => apart (tier_name x) b (env_of w)) (tier_load x k);
  tc_evict b k : preserves (fun w => apart (tier_name x) b (env_of w)) (tier_evict x k);
  tc_contains b k : preserves (fun w => apart (tier_name x) b (env_of w)) (tier_contains x k);
  tc_stats b : preserves (fun w => apart (tier_name x) b (env_of w)) (tier_stats x);
}.

Lemma memory_confined : tier_confined mw_env memory_tier.
Proof.
  split; intros; cbn [tier_name memory_tier tier_lookup tier_store tier_load tier_evict tier_contains tier_stats];
    [apply apart_memory_lookup|apply apart_memory_store|apply apart_memory_load|apply apart_memory_evict
    |apply apart_memory_contains|by intros w].
Qed.

Lemma nvme_confined `{U : UnicodeData} self : tier_confined w_env (nvme_tier self).
Proof.
  split; intros; cbn [tier_name nvme_tier tier_lookup tier_store tier_load tier_evict tier_contains tier_stats];
    [apply apart_nvme_lookup|apply apart_nvme_store|apply apart_nvme_load|apply apart_nvme_evict
    |apply apart_nvme_contains|apply apart_nvme_stats].
Qed.

Lemma s3_confined `{U : UnicodeData} {D} self (client : S3Client D) : tier_confined w_env (s3_tier self client).
Proof.
  split; intros; cbn [tier_name s3_tier tier_lookup tier_store tier_load tier_evict tier_contains tier_stats];
    [apply apart_s3_lookup|apply apart_s3_store|apply apart_s3_load|apply apart_s3_evict
    |apply apart_s3_contains|apply apart_s3_stats].
Qed.
