(* ===== verification/TierInstances.v ===== *)
(** * The tiers keep the contract of the manager

    [TierLaws] for the memory tier, the NVMe tier and the S3 tier, each over its own
    state: with these the manager's theorems, which use the contract only, are
    theorems about the real tiers. *)

From Stdlib Require Import SpecFloat.
From S2P Require Import Prelude PyText Sha256 Float64 Errors PyVal Json JsonFacts Metadata MetadataFacts MetadataStore MetadataStoreFacts Metrics Runtime MemoryTier MemoryTierFacts MemoryTierSpec Record Layout Url UrlFacts FileSystem FileSystemFacts World WorldFacts NvmeTier NvmeTierFacts NvmeLoadFacts NvmeStoreFacts NvmeCompaction NvmeTierSpec S3Client S3Tier S3TierFacts S3StoreFacts S3TierSpec Confined Prefetch TierManager TierManagerFacts.
Import MNotations ResNotations.
Local Open Scope m_scope.

Lemma present_run {W} (x : Tier W) k w w' : tier_contains x k w = (w', Ok true) -> present x k w.
Proof. unfold present. by intros ->. Qed.

(** ** The memory tier *)

(** The payloads in the dictionary are in [A]. *)
Definition mem_within (A : blocks_map) (w : MemWorld) : Prop := Forall (fun kv => A kv.1 kv.2) (MemoryTier._data (mw_tier w)).

Section MemoryPayloads.
Context (A : blocks_map).
Abbreviation I := (mem_within A).
Abbreviation all d := (Forall (fun kv => A kv.1 kv.2) d).

Lemma all_del k d : all d -> all (od_del k d).
Proof. induction 1 as [|[k' v] d Hv Hd IH]; simpl; [done|]. destruct (decide _); [done|]. by constructor. Qed.

Lemma all_set k v d : A k v -> all d -> all (od_set k v d).
Proof. intros Hv. induction 1 as [|[k' v'] d Hv' Hd IH]; simpl; [by constructor|]. destruct (decide _) as [->|]; by constructor. Qed.

Lemma all_move k d : all d -> all (od_move_to_end k d).
Proof. intros Hd. by rewrite od_move_perm. Qed.

Lemma all_get k v d : all d -> od_get k d = Some v -> A k v.
Proof. intros Hd Hg%od_get_elem. rewrite Forall_forall in Hd. by apply (Hd (k, v)). Qed.

Lemma within_env {B} (m : M Env B) : preserves I (env m).
Proof. intros w Hw. unfold mem_within. by rewrite env_tier. Qed.

Lemma within_gets {B} (f : MemoryTier -> B) : preserves I (tier_gets f).
Proof. by intros w. Qed.

Lemma within_modify f : (forall t, all (MemoryTier._data t) -> all (MemoryTier._data (f t))) -> preserves I (tier_modify f).
Proof. intros Hf w Hw. by apply Hf. Qed.

Lemma within_pop k : preserves I (tier_modify (pop_block k)).
Proof. apply within_modify. intros t. apply all_del. Qed.

Lemma within_add k data : A k data -> preserves I (tier_modify (add_block k data)).
Proof. intros Ha. apply within_modify. intros t. by apply all_set. Qed.

Lemma within_move k : preserves I (tier_modify (fun t => set_data (od_move_to_end k (MemoryTier._data t)) (_used_bytes t) t)).
Proof. apply within_modify. intros t. apply all_move. Qed.

Lemma within_take k :
  preserves I (tier_modify (fun t => match od_get k (MemoryTier._data t) with Some _ => pop_block k t | None => t end)).
Proof. apply within_modify. intros t Ht. destruct (od_get k (MemoryTier._data t)); [by apply all_del|done]. Qed.
Hint Resolve within_env within_gets within_pop within_move within_take : kv.

Ltac within :=
  repeat (intros; first
    [ progress eauto with kv nocore
    | apply preserves_bind | apply preserves_try_catch | apply preserves_try_finally | apply preserves_when
    | match goal with |- preserves _ (match ?x with _ => _ end) => destruct x end
    | match goal with |- preserves _ (let _ := ?x in _) => cbv zeta end ]).

Lemma within_lookup k : preserves I (MemoryTier.lookup k).
Proof. unfold MemoryTier.lookup, has_block. within. Qed.

Lemma within_evict k : preserves I (MemoryTier.evict k).
Proof. unfold MemoryTier.evict, has_block. within. Qed.
Hint Resolve within_lookup within_evict : kv.

Lemma within_load k : preserves I (MemoryTier.load k).
Proof. unfold MemoryTier.load, MemoryTier.checked_load, MemoryTier.finish_load, has_block. within. Qed.

Lemma within_contains k : preserves I (MemoryTier.contains k).
Proof. unfold MemoryTier.contains. within. Qed.

Lemma within_evict_first x ks : preserves I (evict_first x ks).
Proof. induction ks as [|k ks IH]; simpl; within. Qed.

Lemma within_capacity n x : preserves I (MemoryTier._ensure_capacity n x).
Proof.
  pose proof within_evict_first. unfold MemoryTier._ensure_capacity.
  assert (forall fuel n, preserves I (make_room fuel n x)) by (induction fuel as [|fuel IH]; intros n'; simpl; within). within.
Qed.

(** A rollback puts back what was there. *)
Lemma within_publish start k data m c : A k data -> preserves I (MemoryTier.publish start k data m c).
Proof.
  intros Ha. pose proof within_capacity. pose proof (within_add k data Ha). unfold MemoryTier.publish.
  apply preserves_bind; [within|intros t]. apply preserves_bind; [within|intros _].
  intros w Hw. unfold bind at 1, tier_gets at 1, gets at 1.
  assert (forall v, od_get k (MemoryTier._data (mw_tier w)) = Some v -> A k v) as Hp by (intros v; by apply all_get).
  assert (forall previous, (forall v, previous = Some v -> A k v) -> preserves I (rollback k previous)) as Hr.
  { intros [v|] Hv; unfold rollback; [pose proof (within_add k v (Hv v eq_refl))|]; within. }
  specialize (Hr _ Hp). revert w Hw Hp Hr. intros w Hw _ Hr.
  match goal with |- I (?m w).1 => enough (preserves I m) as Hm by by apply Hm end.
  unfold store_result. within.
Qed.

Lemma within_store k data m : A k data -> preserves I (MemoryTier.store k data m).
Proof.
  intros Ha. pose proof (fun start m c => within_publish start k data m c Ha).
  unfold MemoryTier.store, MemoryTier.restore, store_result. within.
Qed.
End MemoryPayloads.

Definition memory_sound (A : blocks_map) (w : MemWorld) : Prop := (world_inv w /\ mem_ok w) /\ mem_within A w.

Lemma memory_tier_laws A : TierLaws A (memory_sound A) memory_tier.
Proof.
  split; simpl.
  - intros k w [[Hw Hm] Ha]. split; [|by apply within_lookup]. split; [by apply lookup_world|by apply lookup_ok].
  - intros k data m Hin Hk w [[Hw Hm] Ha]. split; [|by apply within_store]. split; [by apply store_world|by apply store_ok].
  - intros k w [[Hw Hm] Ha]. split; [|by apply within_load]. split; [by apply load_world|by apply load_ok].
  - intros k w [[Hw Hm] Ha]. split; [|by apply within_evict]. split; [by apply evict_world|by apply evict_ok].
  - intros k w [[Hw Hm] Ha]. split; [|by apply within_contains]. split; [by apply contains_world|by apply contains_ok].
  - by intros w Hw.
  - intros k w w' l [[Hw Hm] _] Hl. by destruct (lookup_found _ _ _ _ Hw Hl) as (_ & _ & _ & r & d & _ & _ & _ & -> & _).
  - intros k w w' r [[Hw Hm] Ha] Hl. destruct (load_inv _ _ _ _ Hl) as (H1 & H2 & H3 & Hd & H4 & H5).
    destruct (load_was_ready _ _ _ _ Hw Hm Hl) as (m & _ & Hin). split; [done|]. split; [by split_and!|]. by eapply all_get.
  - intros k data m w w' sr [[Hw Hm] _] Hin _ Hs.
    destruct (store_ready _ _ _ _ _ _ Hw Hm Hin Hs) as (_ & _ & _ & now & _ & Hr).
    destruct (ready_contains _ _ _ _ Hr) as (w2 & Hc). by eapply present_run.
  - intros k w w' r [[Hw Hm] _] Hl. destruct (load_was_ready _ _ _ _ Hw Hm Hl) as (m & Hr & _).
    destruct (load_ready _ _ _ _ Hr) as (w2 & lr & Hl' & _ & _ & _ & Hr' & _).
    rewrite Hl in Hl'. injection Hl' as <- _. destruct (ready_contains _ _ _ _ Hr') as (w3 & Hc). by eapply present_run.
Qed.

(** ** Metadata read back from a record *)

Lemma from_dict_key now v m : from_dict now v = Ok m -> key_valid (md_key m) = true.
Proof.
  unfold from_dict. destruct v; try done. intros (kd & _ & H)%res_bind_ok. apply res_bind_ok in H as (k & Hk & H).
  assert (key_valid k = true) as Hv.
  { unfold key_from_dict in Hk. destruct kd; try done. do 6 (apply res_bind_ok in Hk as (? & _ & Hk)).
    by eapply key_valid_of_init. }
  repeat (apply res_bind_ok in H as (? & _ & H)). by injection H as <-.
Qed.

(** The metadata of a loaded block can be stored. *)
Lemma loaded_input m p : storable m = true -> input_ok (copy_access (norm_metadata fmt_compact m) p).
Proof.
  intros H%(storable_norm fmt_compact). apply storable_inv in H as (_ & Hk & Hc & _ & He). by split_and!.
Qed.

(** ** The NVMe tier *)

Section Nvme.
Context `{U : UnicodeData} (self : NVMeTier) (Hok : nvme_ok self) (A : blocks_map).

Definition nvme_sound (w : World Fs) : Prop := sound self w /\ sub_map A (contents self w).

(** What publishes nothing keeps the invariant. *)
Lemma nvme_preserves {B} (m : NW B) :
  (forall b A0, preserves (linked (disk_with self (unpublished self b A0))) m) -> preserves nvme_sound m.
Proof using.
  intros Hm w [Hw Ha]. specialize (Hm _ _ w (since_start self w Hw)). split; [by eapply since_sound|].
  intros k data Hc. by apply Ha, (since_sub self w _ Hm).
Qed.

Lemma nvme_present k data w :
  sound self w -> _closed (env_store (w_env w)) = false -> contents self w k data -> present (nvme_tier self) k w.
Proof using Hok.
  intros [Hl _] Ho (Hk & r & Hr & Ha & _).
  destruct (lookup_visible self Hok k w r Hl Hk Ho Hr Ha) as (w' & d & E & _). apply (present_run _ _ _ w').
  cbn. unfold NvmeTier.contains. by rewrite (bind_run _ _ _ _ _ E).
Qed.

Lemma nvme_tier_laws : TierLaws A nvme_sound (nvme_tier self).
Proof using Hok.
  pose proof (unpublished_stable self Hok) as Hst.
  split; cbn [tier_name nvme_tier tier_lookup tier_store tier_load tier_evict tier_contains tier_stats].
  - intros k. apply nvme_preserves. intros b A0. by apply disk_lookup.
  - intros k data m Hin Hk w [Hw Ha]. destruct (store_step self Hok k data m w Hw Hin) as [H1 H2]. split; [done|].
    destruct (NvmeTier.store self k data m w) as [w' [sr|e]]; cbn [fst snd is_ok] in *; intros k' data' Hc.
    + destruct H2 as (_ & _ & Hall). destruct (Hall _ _ Hc) as [[-> ->]|]; auto.
    + by apply Ha, (since_sub self w _ H2).
  - intros k. apply nvme_preserves. intros b A0. by apply disk_load.
  - intros k. apply nvme_preserves. intros b A0. by apply disk_evict.
  - intros k. apply nvme_preserves. intros b A0. by apply disk_contains.
  - intros w [Hw Ha]. destruct (stats_step self w Hw) as [H1 H2]. split; [done|]. intros k data Hc. by apply Ha, H2.
  - intros k w w' l _ H. by apply nvme_lookup_located in H.
  - intros k w w' r [Hw Hin] H. destruct (load_disk self Hok k w w' r (proj1 Hw) H) as (_ & _ & Hkv & Hk & Ht & row & t & m & b & p & Hr & Ha & Hp & Hmd).
    split; [done|]. destruct (nvme_load_ok self k w w' r (proj1 (proj1 Hw)) H) as (_ & _ & row' & d' & h & m' & t' & f & now & now' & _ & _ & [(_ & _ & Hmk) _ _ (p' & Hmd' & _) _] & _).
    split; [|apply Hin; split; [done|]; exists row; split_and!; [done|done|by exists t, m, b]].
    split_and!; [done|by rewrite Hmd'|rewrite Hmd'; cbn; by apply Z.eqb_refl|by rewrite Hmd'|].
    rewrite Hmd. apply loaded_input, (wr_md _ _ _ _ _ (pl_written _ _ _ _ _ _ _ _ Hp)).
  - intros k data m w w' sr [Hw _] Hin _ H. destruct (store_step self Hok k data m w Hw Hin) as [H1 H2].
    rewrite H in H1, H2. destruct H2 as (Hc & Ho & _). by eapply nvme_present.
  - intros k w w' r Hs H. pose proof (nvme_preserves _ (fun b A0 => disk_load self Hok _ (Hst b A0) k) w Hs) as [Hw' _]. rewrite H in Hw'. destruct Hs as [Hw _].
    destruct (load_disk self Hok k w w' r (proj1 Hw) H) as ((F & _ & _ & S) & Ho & Hkv & _ & _ & row & t & m & b & p & Hr & Ha & Hp & _).
    eapply nvme_present; [exact Hw'|by rewrite (proj1 S)|].
    apply (same_contents self w w' F S). split; [done|]. exists row. split_and!; [done|done|by exists t, m, b].
Qed.
End Nvme.

(** ** The S3 tier *)

Section S3.
Context `{U : UnicodeData} {D : Type} (self : S3Tier) (client : S3Client D).
Context (good : D -> Prop) (objects : D -> gmap (pystr * pystr) pybytes).
Context (Hlaws : s3_laws client good objects) (Hok : s3_ok self) (A : blocks_map).
Abbreviation inv := (s3_inv self good objects).

Definition s3_sound (w : World D) : Prop := linked inv w /\ sub_map A (s3_contents self objects w).

Lemma s3_preserves {B} (m : M (World D) B) :
  (forall A0, preserves (linked (s3_with self good objects (s3_within self objects A0))) m) -> preserves s3_sound m.
Proof using.
  intros Hm w [Hw Ha]. specialize (Hm _ w (s3_since_start self good objects w Hw)). split; [by eapply s3_with_inv|].
  intros k data Hc. by apply Ha, (s3_since_sub self good objects w _ Hm).
Qed.

(** A load that returns was asked for a key the constructor accepts. *)
Lemma s3_load_key k w w' r : S3Tier.load self client k w = (w', Ok r) -> key_valid k = true.
Proof using.
  unfold S3Tier.load. intros H. apply bind_ok in H as (start & w1 & _ & H). apply bind_ok in H as (found & w2 & _ & H).
  destruct found as [l0|]; [|done]. apply bind_ok in H as (loc & w3 & _ & H). destruct loc as [l|]; [|done].
  apply try_finally_ok in H as (w4 & H & _). unfold S3Tier.checked_load in H.
  apply bind_ok in H as ([b o] & w5 & _ & H). apply bind_ok in H as ([h payload] & w6 & _ & H).
  apply bind_ok in H as (now & w7 & _ & H). apply bind_ok in H as (m & w8 & [= _ Hm] & H).
  apply bind_ok in H as ([] & w9 & [= _ Hc] & _). apply res_bind_ok in Hc as ([] & Ek%ensure_ok & _).
  apply bool_decide_eq_true in Ek as <-. by eapply from_dict_key.
Qed.

(** ... and the block was visible. *)
Lemma s3_load_visible k w w' r :
  linked inv w -> S3Tier.load self client k w = (w', Ok r) ->
  _closed (env_store (w_env w)) = false /\ s3_contents self objects w k (lr_data r) /\
  exists row, ms_blocks (env_store (w_env w)) !! row_key k S3 = Some row /\ r_state row = active.
Proof using Hlaws Hok.
  intros Hw H. pose proof (s3_load_key k w w' r H) as Hk.
  pose proof (s3_load_step self client good objects Hlaws Hok k w Hw Hk) as Hs. rewrite H in Hs. destruct Hs as [_ Hc].
  split; [|split; [done|]]; [|destruct Hc as (_ & row & Hr & Ha & _); eauto].
  destruct (_closed (env_store (w_env w))) eqn:Ho; [|done]. exfalso. revert H. unfold S3Tier.load.
  destruct (perf_idle w) as (start & w1 & E1 & _ & _ & S1). rewrite (bind_run _ _ _ _ _ E1).
  unfold S3Tier.lookup, bind, db, on_env, on_store, zoom, MetadataStore.lookup, bind. by rewrite execute_eq, S1, Ho.
Qed.

Lemma s3_present k data w :
  linked inv w -> _closed (env_store (w_env w)) = false -> s3_contents self objects w k data ->
  present (s3_tier self client) k w.
Proof using Hlaws Hok.
  intros Hw Ho (Hk & r & Hr & Ha & _). pose proof (lookup_spec self client good objects Hlaws Hok k w Hw Hk) as H.
  unfold present. cbn. unfold S3Tier.contains, bind. destruct (S3Tier.lookup self client k w) as [w' [[l|]|e]]; destruct H as [_ H]; cbn.
  - done.
  - by destruct (H r Hr).
  - destruct H; [congruence|done].
Qed.

Lemma s3_tier_laws : TierLaws A s3_sound (s3_tier self client).
Proof using Hlaws Hok.
  pose proof (s3_stable_within self good objects) as Hst.
  split; cbn [tier_name s3_tier tier_lookup tier_store tier_load tier_evict tier_contains tier_stats].
  - intros k. apply s3_preserves. intros A0. by apply s3_lookup.
  - intros k data m Hin Hk w [Hw Ha]. destruct (s3_store_step self client good objects Hlaws Hok k data m w Hw Hin) as [H1 H2].
    split; [done|]. destruct (S3Tier.store self client k data m w) as [w' [sr|e]]; cbn [fst snd is_ok] in *; intros k' data' Hc.
    + destruct H2 as (_ & _ & Hall). destruct (Hall _ _ Hc) as [[-> ->]|]; auto.
    + by apply Ha, (s3_since_sub self good objects w _ H2).
  - intros k. apply s3_preserves. intros A0. by apply s3_load.
  - intros k. apply s3_preserves. intros A0. by apply s3_evict.
  - intros k. apply s3_preserves. intros A0. by apply s3_contains.
  - apply s3_preserves. intros A0. by apply s3_stats.
  - intros k w w' l _ H. by apply s3_lookup_located in H.
  - intros k w w' r [Hw Hin] H. pose proof (s3_load_key _ _ _ _ H) as Hk.
    destruct (s3_load_visible k w w' r Hw H) as (Ho & Hct & _). pose proof Hct as (_ & row & Hr & Ha & Hp).
    pose proof (load_spec self client good objects Hlaws Hok k w row _ Hw Hk Ho Hr Ha Hp) as Hs. rewrite H in Hs.
    destruct Hs as (_ & _ & Hlk & o & m & b & p & Hpl & Hmd).
    destruct (s3_integrity self client k w w' r H) as (_ & Ht & Hmk & Hb & Hc & _).
    split; [done|]. split; [|by apply Hin]. split_and!; [done|done|rewrite Hb; by apply Z.eqb_refl|done|].
    rewrite Hmd. apply loaded_input. apply (sp_written _ _ _ _ _ _ _ _ _ Hpl).
  - intros k data m w w' sr [Hw _] Hin _ H. destruct (s3_store_step self client good objects Hlaws Hok k data m w Hw Hin) as [H1 H2].
    rewrite H in H1, H2. destruct H2 as (Hc & Ho & _). by eapply s3_present.
  - intros k w w' r Hs0 H. pose proof (s3_load_key _ _ _ _ H) as Hk.
    pose proof (s3_preserves _ (fun A0 => s3_load self client good objects Hlaws Hok _ (Hst A0) k) w Hs0) as [Hw' _]. rewrite H in Hw'. destruct Hs0 as [Hw _].
    destruct (s3_load_visible k w w' r Hw H) as (Ho & Hc & row & Hr & Ha). destruct Hc as (_ & row' & Hr' & Ha' & Hp).
    pose proof (load_spec self client good objects Hlaws Hok k w row' _ Hw Hk Ho Hr' Ha' Hp) as Hs. rewrite H in Hs. destruct Hs as [Q _].
    eapply s3_present; [exact Hw'|destruct Q as (_ & _ & _ & C & _); by rewrite C|].
    apply (s3_same_contents self good objects w w' Q). split; [done|]. eauto.
Qed.
End S3.

(** ** Tiers inside a larger state *)

Section Zoom.
Context {W T : Type} (get : W -> T) (put : T -> W -> W) (x : Tier T).

Definition tier_zoom : Tier W :=
  {| tier_name := tier_name x;
     tier_lookup k := zoom get put (tier_lookup x k);
     tier_store k data m := zoom get put (tier_store x k data m);
     tier_load k := zoom get put (tier_load x k);
     tier_evict k := zoom get put (tier_evict x k);
     tier_contains k := zoom get put (tier_contains x k);
     tier_stats := zoom get put (tier_stats x) |}.

Context (get_put : forall t w, get (put t w) = t).

Lemma zoom_inv {A} (m : M T A) w w' a :
  zoom get put m w = (w', a) -> m (get w) = (get w', a).
Proof using get_put.
  unfold zoom. destruct (m (get w)) as [t r]. intros [= <- <-]. by rewrite get_put.
Qed.

Lemma present_zoom k w : present x k (get w) -> present tier_zoom k w.
Proof using. unfold present. cbn. unfold zoom. by destruct (tier_contains x k (get w)) as [t r]. Qed.

(** [I] is the invariant of the tier, [K] that of the whole state: what the tier
    leaves behind is sound for the whole, because it changes its own rows only. *)
Context (env_of : T -> Env) (A : blocks_map) (I : T -> Prop) (K : W -> Prop).
Context (K_get : forall w, K w -> I (get w)).
Context (K_put : forall t w, K w -> I t -> apart (tier_name x) (ms_blocks (env_store (env_of (get w)))) (env_of t) -> K (put t w)).

Lemma zoom_preserves {B} (m : M T B) :
  preserves I m -> (forall b, preserves (fun t => apart (tier_name x) b (env_of t)) m) -> preserves K (zoom get put m).
Proof using K_get K_put.
  intros Hm Hc w Hw. specialize (Hm _ (K_get w Hw)). specialize (Hc _ (get w) (elsewhere_refl _ _)).
  unfold zoom. destruct (m (get w)) as [t r]. by apply K_put.
Qed.

Lemma tier_zoom_laws : TierLaws A I x -> tier_confined env_of x -> TierLaws A K tier_zoom.
Proof using get_put K_get K_put.
  intros Hx Hc. split; simpl; try (intros; apply zoom_preserves; [by apply Hx|intros; by apply Hc]).
  - intros k w w' l Hw Hl%zoom_inv. by apply (law_found k (get w) (get w') l (K_get w Hw)).
  - intros k w w' r Hw Hl%zoom_inv. by apply (law_loaded k (get w) (get w') r (K_get w Hw)).
  - intros k data m w w' sr Hw Hin Ha Hs%zoom_inv. apply present_zoom. by eapply law_stored; [apply K_get|..].
  - intros k w w' r Hw Hl%zoom_inv. apply present_zoom. by eapply law_kept; [apply K_get|].
Qed.
End Zoom.
