(* ===== verification/ManagerRuns.v ===== *)
(** * Sequences of calls on the tier manager

    A program around the manager is a sequence of calls, with background workers
    running queued prefetches in between. An invariant that the tiers and the
    environment keep is kept by every sequence ([manager_runs]), and [close] drains
    the pool ([close_run]). *)

From S2P Require Import CostModel.
From S2P Require Import Prelude PyText Float64 Errors PyVal Metadata MetadataStore MetadataStoreFacts Metrics Runtime MemoryTier MemoryTierFacts World WorldFacts Prefetch TierManager TierManagerFacts.
Import MNotations.

(** ** The parts of the state *)

(** The parts of the state are independent, and the invariant is not about the pool
    and the closed flag. *)
Class LabLaws {W} `{Lab W} (I : W -> Prop) : Prop := {
  lab_env_env e w : get_env (put_env e w) = e;
  lab_env_closed c w : get_env (put_closed c w) = get_env w;
  lab_pool_env e w : get_pool (put_env e w) = get_pool w;
  lab_pool_pool p w : get_pool (put_pool p w) = p;
  lab_pool_closed c w : get_pool (put_closed c w) = get_pool w;
  lab_closed_closed c w : get_closed (put_closed c w) = c;
  lab_inv_pool p w : I w -> I (put_pool p w);
  lab_inv_closed c w : I w -> I (put_closed c w);
}.

(** The invariant, with the pool [p]. *)
Definition framed {W} `{Lab W} (I : W -> Prop) (p : Pool) (w : W) : Prop := I w /\ get_pool w = p.

Section Frame.
Context {W : Type} `{Lab W} (I : W -> Prop).

(** A property that holds of every pool. *)
Lemma frame_all {B} (m : M W B) : (forall p, preserves (framed I p) m) -> preserves I m.
Proof. intros Hm w Hw. by apply (Hm (get_pool w) w). Qed.

Lemma laws_any_pool A x : (forall p, TierLaws A (framed I p) x) -> TierLaws A I x.
Proof.
  intros Hx. assert (forall w, I w -> framed I (get_pool w) w) as Hf by done. split.
  - intros k. apply frame_all. intros p. apply Hx.
  - intros k data m Hin Ha. apply frame_all. intros p. by apply Hx.
  - intros k. apply frame_all. intros p. apply Hx.
  - intros k. apply frame_all. intros p. apply Hx.
  - intros k. apply frame_all. intros p. apply Hx.
  - apply frame_all. intros p. apply Hx.
  - intros k w w' l Hw. by apply (Hx (get_pool w)), Hf.
  - intros k w w' r Hw. by apply (Hx (get_pool w)), Hf.
  - intros k data m w w' sr Hw. by apply (Hx (get_pool w)), Hf.
  - intros k w w' r Hw. by apply (Hx (get_pool w)), Hf.
Qed.

Context `{!EnvLaws I, !LabLaws I}.

#[global] Instance framed_env p : EnvLaws (framed I p).
Proof.
  intros A m Hm w [Hw Hp]. split; [by apply (env_law A m Hm)|]. unfold env_op, zoom.
  destruct (m (get_env w)) as [e r]. simpl. by rewrite lab_pool_env.
Qed.

Lemma inv_submit item : preserves I (pool_op (submit item)).
Proof. intros w Hw. unfold pool_op, zoom. destruct (submit item (get_pool w)) as [p r]. by apply lab_inv_pool. Qed.
End Frame.

(** ** Calls *)

Inductive mg_call :=
  | MgLookup (k : BlockKey)
  | MgLocations (k : BlockKey)
  | MgStore (k : BlockKey) (data : pybytes) (m : KVMetadata) (t : option TierName)
  | MgLoad (k : BlockKey) (t : TierName) (slo : option f64)
  | MgPrefetch (ks : list BlockKey) (t : TierName)
  | MgEvict (k : BlockKey) (t : option TierName)
  | MgPromote (k : BlockKey) (t : TierName)
  | MgDemote (k : BlockKey) (s t : TierName)
  | MgRelease (k : BlockKey)
  | MgStats
  | MgWorker
  | MgClose.

Definition after_call {W A} (m : M W A) (w : W) : W := (m w).1.

(** The state after a call, returned or raised; [MgWorker] is a background worker. *)
Definition run_mg {W} `{Lab W} (mg : MultiTierKVBlockStore W) (c : mg_call) : W -> W :=
  match c with
  | MgLookup k => after_call (lookup mg k)
  | MgLocations k => after_call (locations mg k)
  | MgStore k data m t => after_call (store mg k data m t)
  | MgLoad k t slo => after_call (load mg k t slo)
  | MgPrefetch ks t => after_call (prefetch mg ks t)
  | MgEvict k t => after_call (evict mg k t)
  | MgPromote k t => after_call (promote mg k t)
  | MgDemote k s t => after_call (demote mg k s t)
  | MgRelease k => after_call (release mg k)
  | MgStats => after_call (stats mg)
  | MgWorker => after_call (run_future mg)
  | MgClose => after_call (close mg)
  end.

Definition run_mgs {W} `{Lab W} (mg : MultiTierKVBlockStore W) (cs : list mg_call) (w : W) : W :=
  foldl (fun w c => run_mg mg c w) w cs.

(** The metadata holds JSON values, and the payload is one the key may have. *)
Definition mg_call_ok (A : blocks_map) (c : mg_call) : Prop :=
  match c with MgStore k data m _ => input_ok m /\ A k data | _ => True end.

Lemma quiet_close t : quiet t MetadataStore.close.
Proof. quiet CClose. Qed.

Section Runs.
Context {W : Type} `{Lab W} (A : blocks_map) (I : W -> Prop) `{!EnvLaws I, !LabLaws I} (mg : MultiTierKVBlockStore W).
Context (laws : forall p t x, (t, x) ∈ tiers mg -> TierLaws A (framed I p) x).

Lemma run_laws t x : (t, x) ∈ tiers mg -> TierLaws A I x.
Proof using laws. intros Hin. apply laws_any_pool. intros p. by eapply laws. Qed.

(** A worker takes one item off the queue, whatever the prefetch did. *)
Lemma run_future_pool w item fs :
  I w -> futures (executor (get_pool w)) = item :: fs ->
  exists w' b, run_future mg w = (w', Ok tt) /\ I w' /\
    get_pool w' = mkPool (_done item b (prefetcher (get_pool w)))
                    (mkExecutor (accepting (executor (get_pool w))) fs).
Proof using All.
  intros Hw Ef. unfold run_future. rewrite Ef.
  pose proof (inv_prefetch mg A (framed I (get_pool w)) (laws _) [item.1] item.2 w (conj Hw eq_refl)) as [Hw1 Hp1].
  change (prefetch mg [item.1] item.2) with (_run_one mg item) in *.
  destruct (_run_one mg item w) as [w1 r]. cbn [fst] in *. cbv zeta. eexists _, (negb (is_ok r)).
  split_and!; [reflexivity|by apply lab_inv_pool|]. by rewrite lab_pool_pool, Hp1, Ef.
Qed.

Lemma run_futures_pool n w :
  I w -> length (futures (executor (get_pool w))) = n ->
  exists w', run_futures mg n w = (w', Ok tt) /\ I w' /\
    executor (get_pool w') = mkExecutor (accepting (executor (get_pool w))) [] /\
    _seen (prefetcher (get_pool w')) =
      _seen (prefetcher (get_pool w)) ∖ list_to_set (futures (executor (get_pool w))).
Proof using All.
  revert w. induction n as [|n IH]; intros w Hw El; simpl.
  - exists w. destruct (executor (get_pool w)) as [a [|]]; [|done]. simpl. split_and!; try done. set_solver.
  - destruct (futures (executor (get_pool w))) as [|item fs] eqn:Ef; [done|].
    destruct (run_future_pool w item fs Hw Ef) as (w1 & b & E1 & Hw1 & Hp).
    rewrite (bind_run _ _ _ _ _ E1). destruct (IH w1 Hw1) as (w2 & E2 & Hw2 & X & S1).
    { rewrite Hp. simpl in *. lia. }
    exists w2. split_and!; [done|done| |].
    + by rewrite X, Hp.
    + rewrite S1, Hp. simpl. set_solver.
Qed.

Lemma shutdown_pool w :
  I w ->
  exists w', shutdown mg w = (w', Ok tt) /\ I w' /\ executor (get_pool w') = mkExecutor false [] /\
    _seen (prefetcher (get_pool w')) =
      _seen (prefetcher (get_pool w)) ∖ list_to_set (futures (executor (get_pool w))).
Proof using All.
  intros Hw. unfold shutdown. set (w1 := put_pool (mkPool (prefetcher (get_pool w)) (mkExecutor false (futures (executor (get_pool w))))) w).
  rewrite (bind_run _ _ w w1 tt) by done. unfold bind at 1, gets.
  destruct (run_futures_pool (length (futures (executor (get_pool w1)))) w1) as (w2 & E & Hw2 & X & S1); [by apply lab_inv_pool|done|].
  exists w2. unfold w1 in X, S1. rewrite lab_pool_pool in X, S1. done.
Qed.

Lemma close_run w :
  I w -> get_closed w = false ->
  exists w', close mg w = (w', Ok tt) /\ I w' /\ get_closed w' = true /\
    _closed (env_store (get_env w')) = true /\ executor (get_pool w') = mkExecutor false [] /\
    _seen (prefetcher (get_pool w')) =
      _seen (prefetcher (get_pool w)) ∖ list_to_set (futures (executor (get_pool w))).
Proof using All.
  intros Hw Hc. unfold close. rewrite (bind_run _ _ w w false) by (unfold gets; simpl; by rewrite Hc).
  destruct (shutdown_pool w Hw) as (w1 & E1 & Hw1 & X & S1). rewrite (bind_run _ _ _ _ _ E1).
  assert (exists w2, env_op (on_store MetadataStore.close) w1 = (w2, Ok tt) /\ _closed (env_store (get_env w2)) = true /\
    get_pool w2 = get_pool w1) as (w2 & E2 & C2 & P2).
  { unfold env_op, on_store, zoom, MetadataStore.close.
    destruct (_closed (env_store (get_env w1))) eqn:E; eexists; split_and!; try reflexivity;
      rewrite ?lab_env_env, ?lab_pool_env; done. }
  assert (I w2) as Hw2.
  { pose proof (env_law _ _ (quiet_env_store _ quiet_close) w1 Hw1) as H2. by rewrite E2 in H2. }
  rewrite (bind_run _ _ _ _ _ E2). eexists. split; [reflexivity|].
  rewrite lab_env_closed, lab_pool_closed, lab_closed_closed, P2. split_and!; try done. by apply lab_inv_closed.
Qed.

Lemma run_mg_inv c w : mg_call_ok A c -> I w -> I (run_mg mg c w).
Proof using All.
  intros Hc Hw. pose proof run_laws as Hl. pose proof (inv_submit I) as Hs.
  destruct c; unfold run_mg, after_call; simpl in Hc.
  - by eapply inv_lookup.
  - by eapply inv_locations.
  - destruct Hc. by eapply inv_store.
  - by eapply inv_load.
  - by eapply inv_prefetch.
  - by eapply inv_evict.
  - by eapply inv_promote.
  - by eapply inv_demote.
  - by apply inv_release.
  - by eapply inv_stats.
  - destruct (futures (executor (get_pool w))) as [|item fs] eqn:Ef.
    + unfold run_future. simpl. by rewrite Ef.
    + destruct (run_future_pool w item fs Hw Ef) as (w' & b & -> & Hw' & _). done.
  - destruct (get_closed w) eqn:Ec.
    + unfold close. by rewrite (bind_run _ _ w w true) by (unfold gets; simpl; by rewrite Ec).
    + destruct (close_run w Hw Ec) as (w' & -> & Hw' & _). done.
Qed.

(** Every sequence of calls keeps the invariant, calls that raise included. *)
Lemma manager_runs cs w : Forall (mg_call_ok A) cs -> I w -> I (run_mgs mg cs w).
Proof using All.
  intros Hcs. revert w. induction Hcs as [|c cs Hc _ IH]; intros w Hw; simpl; [done|]. by apply IH, run_mg_inv.
Qed.
End Runs.
