(* ===== verification/TierManagerSpec.v ===== *)
(** * What the tier manager guarantees

    The properties of [tier_manager.py], proved for any tiers that satisfy
    [TierLaws]; the memory tier does, and so does the read-only archive used in
    the examples. *)

From Stdlib Require Import SpecFloat.
From S2P Require Import CostModel.
From S2P Require Import Prelude PyText Sha256 Float64 Errors PyVal Json JsonFacts Metadata MetadataFacts MetadataStore MetadataStoreFacts MetadataStoreSpec Metrics Runtime MemoryTier MemoryTierFacts MemoryTierSpec World WorldFacts Prefetch TierManager TierManagerFacts Confined TierInstances ManagerRuns.
Import MNotations.

(** ** The state of a store *)

Record LabWorld := mkLabWorld {
  lw_env : Env;
  lw_mem : MemoryTier;
  lw_pool : Pool;
  lw_closed : bool;
}.

#[global] Instance lab_world : Lab LabWorld := {
  get_env := lw_env;
  put_env e w := mkLabWorld e (lw_mem w) (lw_pool w) (lw_closed w);
  get_pool := lw_pool;
  put_pool p w := mkLabWorld (lw_env w) (lw_mem w) p (lw_closed w);
  get_closed := lw_closed;
  put_closed c w := mkLabWorld (lw_env w) (lw_mem w) (lw_pool w) c;
}.

Definition lw_get (w : LabWorld) : MemWorld := mkMemWorld (lw_env w) (lw_mem w).
Definition lw_put (m : MemWorld) (w : LabWorld) : LabWorld :=
  mkLabWorld (mw_env m) (mw_tier m) (lw_pool w) (lw_closed w).

Definition lab_memory : Tier LabWorld := tier_zoom lw_get lw_put memory_tier.

(** The metadata store and the memory tier are sound; with [lab_frame p], the
    pool is [p]. *)
Definition lab_inv (w : LabWorld) : Prop := world_inv (lw_get w) /\ mem_ok (lw_get w).
Abbreviation lab_frame p := (framed lab_inv p).

Lemma lw_get_put t w : lw_get (lw_put t w) = t.
Proof. by destruct t. Qed.

(** Any payload for any key. *)
Definition any_payload : blocks_map := fun _ _ => True.

Lemma any_within w : mem_within any_payload w.
Proof. by apply Forall_true. Qed.

Lemma lab_memory_frame p : TierLaws any_payload (lab_frame p) lab_memory.
Proof.
  apply (tier_zoom_laws lw_get lw_put memory_tier lw_get_put mw_env any_payload (memory_sound any_payload)).
  - intros w [Hw _]. split; [done|apply any_within].
  - intros t w [_ Hp] [Ht _] _. split; [by destruct t|done].
  - apply memory_tier_laws.
  - apply memory_confined.
Qed.

Lemma lab_memory_laws : TierLaws any_payload lab_inv lab_memory.
Proof. apply laws_any_pool, lab_memory_frame. Qed.

#[global] Instance lab_inv_env : EnvLaws lab_inv.
Proof.
  intros A m [Hm _] w [Hw Hok]. specialize (Hm _ Hw). unfold env_op, zoom. simpl in *.
  by destruct (m (lw_env w)) as [e r].
Qed.

#[global] Instance lab_laws : LabLaws lab_inv.
Proof. by split. Qed.

(** ** A store with a memory tier and an archive *)

(** A read-only tier that holds one verified block. *)
Definition archive_load : LoadResult :=
  {| lr_key := sample_key; lr_tier := NVME; lr_data := sample_payload; lr_metadata := sample_metadata;
     lr_latency_ms := f64_of_Z 1; lr_from_prefetch := false |}.

Definition archive : Tier LabWorld :=
  {| tier_name := NVME;
     tier_lookup k := ret (if decide (k = sample_key) then Some (sample_location NVME) else None);
     tier_store k data m := raise (err StoreFull (str "read-only"));
     tier_load k := if decide (k = sample_key) then ret archive_load else raise (err BlockNotFound (block_hash k));
     tier_evict k := ret false;
     tier_contains k := ret (bool_decide (k = sample_key));
     tier_stats := ret (PDict []) |}.

Lemma archive_verified : verified sample_key archive_load.
Proof.
  split_and!; try (vm_compute; reflexivity).
  apply sample_input.
Qed.

Lemma archive_laws (I : LabWorld -> Prop) : TierLaws any_payload I archive.
Proof.
  split; simpl; try (intros; by apply preserves_ret).
  - intros. by apply preserves_raise.
  - intros k. destruct (decide (k = sample_key)); [by apply preserves_ret|by apply preserves_raise].
  - intros k w w' l _ [= _ Hl]. by destruct (decide (k = sample_key)) as [->|]; simplify_eq.
  - intros k w w' r _ Hl. destruct (decide (k = sample_key)) as [->|]; [|done]. injection Hl as _ <-.
    split; [done|]. split; [apply archive_verified|done].
  - done.
  - intros k w w' r _ Hl. destruct (decide (k = sample_key)) as [->|]; [|done]. by apply (present_run _ _ _ w').
Qed.

(** An S3 tier that never answers. *)
Definition dead_s3 : Tier LabWorld :=
  let down {A} : M LabWorld A := raise (err TierUnavailable (str "connection timed out")) in
  {| tier_name := S3; tier_lookup k := down; tier_store k data m := down; tier_load k := down;
     tier_evict k := down; tier_contains k := down; tier_stats := down |}.

(** A cost model that always loads. *)
Definition eager_model : CostModel :=
  {| profiles := fun _ => Some {| fixed_latency_ms := f64_of_Z 1; bandwidth_gbps := f64_of_Z 10;
                                  deserialize_ms_per_mb := f64_of_Z 0; h2d_bandwidth_gbps := f64_of_Z 10 |};
     load_benefit_threshold_ms := f64_opp (f64_of_Z 1000);
     s3_load_benefit_threshold_ms := f64_opp (f64_of_Z 1000);
     slo_budget_guard_ms := f64_of_Z 0; s3_min_missing_prefill_tokens := 0;
     s3_min_reuse_probability := f64_of_Z 0 |}.

Definition lab_manager (ts : list (Tier LabWorld)) : MultiTierKVBlockStore LabWorld :=
  {| tiers := map (fun x => (tier_name x, x)) ts; cost_model := eager_model |}.

Definition archived_store : MultiTierKVBlockStore LabWorld := lab_manager [lab_memory; archive].

Definition lab_start : LabWorld :=
  mkLabWorld (sample_env fresh_store) (sample_tier 8) (mkPool sample_prefetcher (mkExecutor true [])) false.

Lemma lab_start_inv : lab_inv lab_start.
Proof. split; [apply empty_world_inv|apply empty_world_ok]. Qed.

Lemma archived_laws I t x : TierLaws any_payload I lab_memory -> (t, x) ∈ tiers archived_store -> TierLaws any_payload I x.
Proof.
  intros Hm Hin. apply elem_of_cons in Hin as [[= _ ->]|Hin]; [done|].
  apply list_elem_of_singleton in Hin as [= _ ->]. apply archive_laws.
Qed.

Lemma archived_named : named (tiers archived_store).
Proof.
  intros t x Hin. apply elem_of_cons in Hin as [[= -> ->]|Hin]; [done|].
  by apply list_elem_of_singleton in Hin as [= -> ->].
Qed.

Definition promoted_world : LabWorld := (load archived_store sample_key MEMORY None lab_start).1.

Definition promoted_load : LoadResult :=
  match (load archived_store sample_key MEMORY None lab_start).2 with Ok r => r | Raise _ => no_load end.

Lemma archived_load_returns :
  is_ok (load archived_store sample_key MEMORY None lab_start).2 = true /\ lr_tier promoted_load = NVME.
Proof. split; vm_compute; reflexivity. Qed.

Lemma archived_load_eq :
  load archived_store sample_key MEMORY None lab_start = (promoted_world, Ok promoted_load).
Proof.
  pose proof (proj1 archived_load_returns) as E. unfold promoted_world, promoted_load.
  destruct (load archived_store sample_key MEMORY None lab_start) as [w [r|e]]; [done|discriminate E].
Qed.

(** ** Properties *)

(** [lookup] returns the location of the first tier, in the order memory, NVMe,
    S3, that has the block; tiers that miss it or are unavailable are skipped. It
    returns [None] only when every configured tier answered that it misses the
    block; when some were unavailable and none had it, it raises the first of their
    [TierUnavailable] exceptions; any other exception is one a tier's lookup
    raised. *)
Theorem lookup_first_tier {W} `{Lab W} (mg : MultiTierKVBlockStore W) k w :
  match lookup mg k w with
  | (w', Ok (Some l)) =>
      exists pre t post w1 es x, lookup_order mg = pre ++ t :: post /\ skipped mg k pre w w1 es /\
        tier_get t (tiers mg) = Some x /\ tier_lookup x k w1 = (w', Ok (Some l))
  | (w', Ok None) => skipped mg k (lookup_order mg) w w' []
  | (w', Raise e) =>
      (exists t es, skipped mg k (lookup_order mg) w w' ((t, e) :: es)) \/
      (exists pre t post w1 es, lookup_order mg = pre ++ t :: post /\ skipped mg k pre w w1 es /\
         probe mg k t w1 = (w', Raise e))
  end.
Proof.
  unfold lookup, _scan_locations, bind. pose proof (scan_first mg k (lookup_order mg) w) as Hs.
  destruct (scan mg k true (lookup_order mg) w) as [w' [[[|l ls] es]|e]]; simpl.
  - destruct es as [|[t e] es]; simpl; eauto.
  - destruct Hs as (-> & pre & t & post & w1 & E & Hs & Hp). apply probe_found in Hp as (x & Hx & Hl).
    exists pre, t, post, w1, es, x. done.
  - eauto.
Qed.

(** C8: a load that returns, whichever way it took (a hit in the target tier, or
    the cost model's choice among the other tiers with the promotion that follows),
    returns the block asked for, with the length and the SHA-256 its metadata
    states, and a payload that the key may have when only such payloads are stored
    ([A]), and leaves it in the target tier: asked at once, the target answers
    that it has the block (or, being remote, that it cannot be reached). *)
Theorem load_delivers {W} `{Lab W} (A : blocks_map) (I : W -> Prop) `{!EnvLaws I} ts cm mg k target slo w w' r :
  MultiTierKVBlockStore_init ts cm = Ok mg ->
  (forall t x, (t, x) ∈ tiers mg -> TierLaws A I x) ->
  I w -> load mg k target slo w = (w', Ok r) ->
  verified k r /\ A k (lr_data r) /\ exists y, tier_get target (tiers mg) = Some y /\ present y k w'.
Proof.
  intros (Hn & _)%init_tiers Hl Hw E. eapply delivered_kept; [exact Hl|exact Hn|]. by eapply load_delivered.
Qed.

Lemma load_delivers_witness :
  verified sample_key promoted_load /\ lr_tier promoted_load = NVME /\
  exists y, tier_get MEMORY (tiers archived_store) = Some y /\ present y sample_key promoted_world.
Proof.
  destruct (load_delivers any_payload lab_inv [lab_memory; archive] eager_model archived_store sample_key MEMORY None
    lab_start promoted_world promoted_load eq_refl
    (fun t x => archived_laws lab_inv t x lab_memory_laws) lab_start_inv archived_load_eq)
    as (Hv & _ & Hc).
  split; [exact Hv|]. split; [exact (proj2 archived_load_returns)|exact Hc].
Defined.

(** [promote] tells the truth: when a load into the target tier returns, it returns
    [True] (or the target cannot be reached); it returns [False] exactly when the
    load raises [BlockNotFound], and lets every other exception through. *)
Theorem promote_reports {W} `{Lab W} (A : blocks_map) (I : W -> Prop) `{!EnvLaws I} ts cm mg k target w :
  MultiTierKVBlockStore_init ts cm = Ok mg ->
  (forall t x, (t, x) ∈ tiers mg -> TierLaws A I x) ->
  I w ->
  match (load mg k target None w).2 with
  | Ok _ => match (promote mg k target w).2 with Ok b => b = true | Raise e => is_a e TierUnavailable = true end
  | Raise e => (promote mg k target w).2 = if is_a e BlockNotFound then Ok false else Raise e
  end.
Proof.
  intros (Hn & _)%init_tiers Hl Hw. unfold promote.
  destruct (has_tier mg target) eqn:Ht.
  2: { unfold load, _require_target_tier. rewrite Ht. reflexivity. }
  assert (_require_target_tier mg target w = (w, Ok tt)) as Hr by (unfold _require_target_tier; by rewrite Ht).
  rewrite (bind_run _ _ _ _ _ Hr). unfold try_catch, bind. destruct (load mg k target None w) as [w1 [r|e]] eqn:E; simpl.
  - pose proof E as Hd. apply (load_delivered mg A I Hl) in Hd; [|done]. rewrite ?E.
    apply (delivered_kept mg A I Hl _ _ _ _ Hn) in Hd as (_ & _ & y & Hy & Hc).
    rewrite Hy. cbv iota. unfold present in Hc. destruct (tier_contains y k w1) as [w2 [b|e]]; [done|].
    destruct (is_a e BlockNotFound) eqn:Eb; [|done]. exfalso. simpl in Hc.
    destruct e as [c ? ? ?]. unfold is_a in *. cbn in *. by destruct c.
  - rewrite ?E. by destruct (is_a e BlockNotFound).
Qed.

(** C37: an outage is a miss, not an error. When the target tier does not have the
    block or is unavailable, and every tier asked for a location misses it or is
    unavailable, [load] raises [BlockNotFound], so that the caller recomputes; its
    cause is the first unavailability, if there was one. *)
Theorem outage_means_recompute {W} `{Lab W} (mg : MultiTierKVBlockStore W) k target slo w w1 w2 hit es :
  has_tier mg target = true -> load_target mg k target w = (w1, Ok hit) ->
  (forall r, hit <> inl (Some r)) -> skipped mg k (lookup_order mg) w1 w2 es ->
  exists w' e, load mg k target slo w = (w', Raise e) /\ is_a e BlockNotFound = true /\
    exn_cause e = match hit with inr e' => Some e' | inl _ => snd <$> head es end.
Proof.
  intros Ht Hh Hn Hs. apply (scan_none mg k false) in Hs. unfold load, _require_target_tier.
  rewrite Ht. unfold bind at 1. cbn [negb when ret]. rewrite (bind_run _ _ _ _ _ Hh).
  assert (forall es', exists w' e, load_elsewhere mg k target slo es' w1 = (w', Raise e) /\
    is_a e BlockNotFound = true /\ exn_cause e = snd <$> head (es' ++ es)) as He.
  { intros es'. unfold load_elsewhere, _scan_locations. rewrite (bind_run _ _ _ _ _ Hs). simpl.
    destruct (es' ++ es) as [|[t e] es0]; simpl; [by do 2 eexists|].
    match goal with |- context [bind (manager_metric ?c) _ _] =>
      destruct (manager_metric_ok (W := W) c w2) as (w3 & Hm) end.
    rewrite (bind_run _ _ _ _ _ Hm). by do 2 eexists. }
  destruct hit as [[r|]|e]; [by destruct (Hn r)|apply He|apply (He [(target, e)])].
Qed.

(** A memory tier beside an S3 that is down. *)
Definition cut_off_store : MultiTierKVBlockStore LabWorld := lab_manager [lab_memory; dead_s3].

Definition s3_down : exn := err TierUnavailable (str "connection timed out").

Lemma run_of_result {S A} (m : M S A) s r : (m s).2 = r -> m s = ((m s).1, r).
Proof. destruct (m s). by intros <-. Qed.

Lemma cut_off_target :
  (load_target cut_off_store sample_key MEMORY lab_start).2 = Ok (inl None).
Proof. vm_compute. reflexivity. Qed.

Definition cut_off1 : LabWorld := (load_target cut_off_store sample_key MEMORY lab_start).1.
Definition cut_off2 : LabWorld := (probe cut_off_store sample_key MEMORY cut_off1).1.
Definition cut_off3 : LabWorld := (probe cut_off_store sample_key S3 cut_off2).1.

Lemma cut_off_skips :
  skipped cut_off_store sample_key (lookup_order cut_off_store) cut_off1 cut_off3 [(S3, s3_down)].
Proof.
  apply (skip_miss cut_off_store _ MEMORY [S3] _ cut_off2).
  - apply run_of_result. vm_compute. reflexivity.
  - apply (skip_down cut_off_store _ S3 [] _ cut_off3); [|apply skip_nil].
    apply run_of_result. vm_compute. reflexivity.
Qed.

Lemma outage_means_recompute_witness :
  exists w' e, load cut_off_store sample_key MEMORY None lab_start = (w', Raise e) /\
    is_a e BlockNotFound = true /\ exn_cause e = Some s3_down.
Proof.
  apply (outage_means_recompute cut_off_store sample_key MEMORY None lab_start cut_off1 cut_off3 (inl None)
    [(S3, s3_down)]).
  - vm_compute. reflexivity.
  - apply run_of_result, cut_off_target.
  - discriminate.
  - exact cut_off_skips.
Defined.

(** One state follows from the other by counting a metric. *)
Definition counted {W} `{Lab W} (w w' : W) : Prop := exists c, manager_metric c w = (w', Ok tt).

Lemma manager_metric_run {W} `{Lab W} c (w : W) : exists w', manager_metric c w = (w', Ok tt) /\ rtc counted w w'.
Proof. destruct (manager_metric_ok c w) as (w' & E). exists w'. split; [done|]. apply rtc_once. by exists c. Qed.

Lemma timeout_metric_run {W} `{Lab W} t op e (w : W) :
  exists w', timeout_metric t op e w = (w', Ok tt) /\ rtc counted w w'.
Proof.
  unfold timeout_metric. destruct (is_timeout_exception e); [apply manager_metric_run|]. by exists w.
Qed.

(** A source that fails during the load. When the cost model chose to load
    from a tier that then turns out unavailable, an S3 outage becomes
    [BlockNotFound] caused by it, and nothing is promoted; for the other tiers the
    exception itself reaches the caller. *)
Theorem source_outage {W} `{Lab W} (mg : MultiTierKVBlockStore W) k target source x w w1 e :
  tier_get source (tiers mg) = Some x -> tier_load x k w = (w1, Raise e) ->
  is_a e TierUnavailable = true ->
  if decide (source = S3) then
    exists w' e', load_from mg k target source w = (w', Raise e') /\
      is_a e' BlockNotFound = true /\ exn_cause e' = Some e /\ rtc counted w1 w'
  else load_from mg k target source w = (w1, Raise e).
Proof.
  intros Hx Hl He. unfold load_from. rewrite (get_tier_bind mg _ _ _ _ Hx).
  destruct (decide (source = S3)) as [->|Hne]; unfold bind at 1, on_unavailable, try_catch; rewrite Hl, He.
  - destruct (timeout_metric_run S3 (str "load") e w1) as (w2 & E2 & C2). rewrite (bind_run _ _ _ _ _ E2).
    match goal with |- context [bind (manager_metric ?c) _ _] => destruct (manager_metric_run c w2) as (w3 & E3 & C3) end.
    rewrite (bind_run _ _ _ _ _ E3). do 2 eexists. split_and!; [reflexivity|done|done|by etrans].
  - done.
Qed.

Lemma source_outage_witness :
  exists w' e', load_from cut_off_store sample_key MEMORY S3 lab_start = (w', Raise e') /\
    is_a e' BlockNotFound = true /\ exn_cause e' = Some s3_down /\
    rtc counted lab_start w'.
Proof.
  exact (source_outage cut_off_store sample_key MEMORY S3 dead_s3 lab_start lab_start
    s3_down eq_refl eq_refl eq_refl).
Defined.

Lemma demote_run {W} `{Lab W} (mg : MultiTierKVBlockStore W) k s t x y w :
  tier_get s (tiers mg) = Some x -> tier_get t (tiers mg) = Some y ->
  demote mg k s t w =
  match tier_load x k w with
  | (w1, Ok r) =>
      match tier_store y (lr_key r) (lr_data r) (lr_metadata r) w1 with
      | (w2, Ok _) => tier_evict x k w2
      | (w2, Raise e) => (w2, Raise e)
      end
  | (w1, Raise e) => (w1, Raise e)
  end.
Proof.
  intros Hx Hy. unfold demote, has_tier. rewrite Hx, Hy. cbn [negb orb].
  rewrite (get_tier_bind mg _ _ _ _ Hx). unfold bind at 1. destruct (tier_load x k w) as [w1 [r|e]]; [|done].
  unfold _store_promotion, bind, get_tier, lift. rewrite Hy.
  by destruct (tier_store y (lr_key r) (lr_data r) (lr_metadata r) w1) as [w2 [sr|e]].
Qed.

(** C35: a demotion copies before it removes. When it returns after moving anything,
    the target tier held the block at the moment the source was asked to evict it;
    when the source cannot be read or the target refuses the block, the eviction is
    not attempted and the state is the one the failed call left. *)
Theorem demote_copies_first {W} `{Lab W} (A : blocks_map) (I : W -> Prop) `{!EnvLaws I} mg k s t x y w :
  (forall t x, (t, x) ∈ tiers mg -> TierLaws A I x) -> I w ->
  tier_get s (tiers mg) = Some x -> tier_get t (tiers mg) = Some y ->
  (exists e w1, tier_load x k w = (w1, Raise e) /\ demote mg k s t w = (w1, Raise e)) \/
  (exists r w1, tier_load x k w = (w1, Ok r) /\ verified k r /\
     ((exists e w2, tier_store y k (lr_data r) (lr_metadata r) w1 = (w2, Raise e) /\
         demote mg k s t w = (w2, Raise e)) \/
      (exists w2, present y k w2 /\ demote mg k s t w = tier_evict x k w2))).
Proof.
  intros Hl Hw Hx Hy. rewrite (demote_run mg k s t x y w Hx Hy).
  pose proof (laws_get mg A I Hl _ _ Hx) as Hlx. pose proof (laws_get mg A I Hl _ _ Hy) as Hly.
  destruct (tier_load x k w) as [w1 [r|e]] eqn:El; [right|left; eauto].
  destruct (law_loaded _ _ _ _ Hw El) as (_ & Hv & Hpay). exists r, w1. split_and!; [done..|].
  pose proof Hv as (Hk & _ & _ & _ & Hin). pose proof (inv_step I _ _ _ _ (law_load k) Hw El) as Hw1.
  rewrite Hk. destruct (tier_store y k (lr_data r) (lr_metadata r) w1) as [w2 [sr|e]] eqn:Es; [right|left; eauto].
  exists w2. split; [by eapply law_stored|done].
Qed.

Lemma demote_copies_first_witness :
  exists r w2, verified sample_key r /\ present lab_memory sample_key w2 /\
    demote archived_store sample_key NVME MEMORY lab_start = (w2, Ok false).
Proof.
  destruct (demote_copies_first any_payload lab_inv archived_store sample_key NVME MEMORY archive lab_memory lab_start
    (fun t x => archived_laws lab_inv t x lab_memory_laws) lab_start_inv eq_refl eq_refl)
    as [(e & w1 & Hl & _)|(r & w1 & Hl & Hv & [(e & w2 & _ & Hd)|(w2 & Hc & Hd)])].
  - discriminate Hl.
  - exfalso. assert (is_ok (demote archived_store sample_key NVME MEMORY lab_start).2 = true) as Hk
      by (vm_compute; reflexivity).
    rewrite Hd in Hk. discriminate Hk.
  - exists r, w2. split; [exact Hv|]. split; [exact Hc|exact Hd].
Defined.

(** C34: [close] quiesces. It always returns; afterwards every queued prefetch has
    run and left the pending set, the executor takes no new work, the metadata
    store is closed, and closing again changes nothing. *)
Theorem close_quiesces {W} `{Lab W} (A : blocks_map) (I : W -> Prop) `{!EnvLaws I, !LabLaws I} mg w :
  (forall p t x, (t, x) ∈ tiers mg -> TierLaws A (framed I p) x) -> I w -> get_closed w = false ->
  exists w', close mg w = (w', Ok tt) /\ close mg w' = (w', Ok tt) /\
    executor (get_pool w') = mkExecutor false [] /\
    (forall item, item ∈ futures (executor (get_pool w)) -> item ∉ _seen (prefetcher (get_pool w'))) /\
    _closed (env_store (get_env w')) = true.
Proof.
  intros Hl Hw Hc. destruct (close_run A I mg Hl w Hw Hc) as (w' & E & _ & C & S & X & Hs). exists w'.
  split_and!; try done.
  - unfold close. by rewrite (bind_run _ _ w' w' true) by (unfold gets; simpl; by rewrite C).
  - intros item Hi. rewrite Hs. set_solver.
Qed.

(** A store with a queued prefetch. *)
Definition queued_world : LabWorld := (pool_op (submit (sample_key, MEMORY)) lab_start).1.

Lemma close_quiesces_witness :
  exists w', close archived_store queued_world = (w', Ok tt) /\ futures (executor (lw_pool w')) = [] /\
    (sample_key, MEMORY) ∉ _seen (prefetcher (lw_pool w')).
Proof.
  destruct (close_quiesces any_payload lab_inv archived_store queued_world
    (fun p t x => archived_laws (lab_frame p) t x (lab_memory_frame p))
    (inv_submit lab_inv (sample_key, MEMORY) lab_start lab_start_inv) eq_refl)
    as (w' & H1 & _ & H2 & H3 & _).
  exists w'. split; [exact H1|]. split; [apply (f_equal futures H2)|]. apply H3. vm_compute. left.
Defined.
