(* ===== verification/Stack.v ===== *)
(** * The whole store: the manager over the three tiers

    The state of a process that runs [MultiTierKVBlockStore] over the memory tier,
    the NVMe tier and the S3 tier: one metadata store, metrics and clocks for all,
    the dictionary in memory, the file system, the object store, the prefetch pool.
    [stack_inv A]: the invariants of the three tiers hold together, and every
    payload in a tier is in [A]. It is kept by every sequence of calls
    ([stack_runs]), because each tier writes only its own rows of the metadata
    store. *)

From S2P Require Import CostModel.
From S2P Require Import Prelude PyText Sha256 Float64 Errors PyVal Json JsonFacts Metadata MetadataFacts MetadataStore MetadataStoreFacts Metrics Runtime MemoryTier MemoryTierFacts Record Layout Url UrlFacts FileSystem FileSystemFacts World WorldFacts NvmeTier NvmeTierFacts NvmeStoreFacts NvmeCompaction NvmeTierSpec S3Client S3Tier S3TierFacts S3TierSpec Confined Prefetch TierManager TierManagerFacts TierInstances ManagerRuns.
Import MNotations.

(** ** The state *)

Record Stack (D : Type) := mkStack {
  sk_env : Env;
  sk_mem : MemoryTier;
  sk_disk : Fs;
  sk_objects : D;
  sk_pool : Pool;
  sk_closed : bool;
}.
Arguments mkStack {D} _ _ _ _ _ _.
Arguments sk_env {D} _.
Arguments sk_mem {D} _.
Arguments sk_disk {D} _.
Arguments sk_objects {D} _.
Arguments sk_pool {D} _.
Arguments sk_closed {D} _.

#[global] Instance stack_lab D : Lab (Stack D) := {
  get_env := sk_env;
  put_env e w := mkStack e (sk_mem w) (sk_disk w) (sk_objects w) (sk_pool w) (sk_closed w);
  get_pool := sk_pool;
  put_pool p w := mkStack (sk_env w) (sk_mem w) (sk_disk w) (sk_objects w) p (sk_closed w);
  get_closed := sk_closed;
  put_closed c w := mkStack (sk_env w) (sk_mem w) (sk_disk w) (sk_objects w) (sk_pool w) c;
}.

Section Parts.
Context {D : Type}.

(** What each tier sees. *)
Definition mem_part (w : Stack D) : MemWorld := mkMemWorld (sk_env w) (sk_mem w).
Definition disk_part (w : Stack D) : World Fs := mkWorld (sk_env w) (sk_disk w).
Definition s3_part (w : Stack D) : World D := mkWorld (sk_env w) (sk_objects w).

Definition set_mem (m : MemWorld) (w : Stack D) : Stack D :=
  mkStack (mw_env m) (mw_tier m) (sk_disk w) (sk_objects w) (sk_pool w) (sk_closed w).
Definition set_disk (d : World Fs) (w : Stack D) : Stack D :=
  mkStack (w_env d) (sk_mem w) (w_dev d) (sk_objects w) (sk_pool w) (sk_closed w).
Definition set_s3 (d : World D) (w : Stack D) : Stack D :=
  mkStack (w_env d) (sk_mem w) (sk_disk w) (w_dev d) (sk_pool w) (sk_closed w).

Definition stack_memory : Tier (Stack D) := tier_zoom mem_part set_mem memory_tier.
Definition stack_nvme `{U : UnicodeData} (nv : NVMeTier) : Tier (Stack D) := tier_zoom disk_part set_disk (nvme_tier nv).
Definition stack_s3 `{U : UnicodeData} (s3 : S3Tier) (client : S3Client D) : Tier (Stack D) :=
  tier_zoom s3_part set_s3 (s3_tier s3 client).
End Parts.

Abbreviation rows_of w := (ms_blocks (env_store (sk_env w))).

Section Stack.
Context `{U : UnicodeData} {D : Type} (nv : NVMeTier) (s3 : S3Tier) (client : S3Client D).
Context (good : D -> Prop) (objects : D -> gmap (pystr * pystr) pybytes) (A : blocks_map).

Record stack_inv (w : Stack D) : Prop := {
  sk_memory : memory_sound A (mem_part w);
  sk_nvme : nvme_sound nv A (disk_part w);
  sk_s3 : s3_sound s3 good objects A (s3_part w);
}.

(** ** Rows that another tier leaves alone *)

Lemma elsewhere_shrinks t t' b b' : t' <> t -> elsewhere t b b' -> shrinks t' b b'.
Proof. intros Hne He id r Hr. rewrite (He id t' Hne) in Hr. eauto. Qed.

Lemma nvme_sound_rows w e :
  nvme_ok nv -> env_inv e -> shrinks NVME (ms_blocks (env_store (w_env w))) (ms_blocks (env_store e)) ->
  nvme_sound nv A w -> nvme_sound nv A (mkWorld e (w_dev w)).
Proof.
  intros Hok He Hs [Hw Ha]. pose proof Hw as [[Hi Hd] Hf]. split.
  - split; [split; [done|by eapply disk_shrinks]|]. unfold fits in *. cbn.
    pose proof (sum_bytes_shrinks NVME _ _ (bytes_nonneg nv w Hw) Hs). lia.
  - intros k data (Hk & r & Hr & Hact & Hp).
    eapply (stable_shrinks _ _ (stable_within nv Hok A) _ _ _ Hs); [|done..].
    intros k' r' data' Hk' Hr' Ha' Hp'. apply Ha. split; [done|]. eauto.
Qed.

Lemma s3_sound_rows w e :
  env_inv e -> shrinks S3 (ms_blocks (env_store (w_env w))) (ms_blocks (env_store e)) ->
  s3_sound s3 good objects A w -> s3_sound s3 good objects A (mkWorld e (w_dev w)).
Proof.
  intros He Hs [[Hi Hd] Ha]. split.
  - split; [done|by eapply s3_shrinks].
  - intros k data (Hk & r & Hr & Hact & Hp).
    eapply (ss_shrinks _ _ _ _ (s3_stable_within s3 good objects A) _ _ _ Hs); [|done..].
    intros k' r' data' Hk' Hr' Ha' Hp'. apply Ha. split; [done|]. eauto.
Qed.

Lemma memory_sound_env w e : env_inv e -> memory_sound A w -> memory_sound A (mkMemWorld e (mw_tier w)).
Proof. intros He [[_ Hm] Ha]. by split. Qed.

Context (Hlaws : s3_laws client good objects) (Hnv : nvme_ok nv) (Hs3 : s3_ok s3).

(** ** The tiers *)

Lemma stack_memory_laws p : TierLaws A (framed stack_inv p) stack_memory.
Proof.
  apply (tier_zoom_laws mem_part set_mem memory_tier ltac:(by intros []) mw_env A (memory_sound A)).
  - by intros w [[] _].
  - intros t w [[H1 H2 H3] Hp] Ht He. pose proof (proj1 (proj1 Ht)) as Hi. split; [|done]. split.
    + by destruct t.
    + apply (nvme_sound_rows (disk_part w) (mw_env t)); [done|done|by eapply elsewhere_shrinks; [|exact He]|done].
    + apply (s3_sound_rows (s3_part w) (mw_env t)); [done|by eapply elsewhere_shrinks; [|exact He]|done].
  - apply memory_tier_laws.
  - apply memory_confined.
Qed.

Lemma stack_nvme_laws p : TierLaws A (framed stack_inv p) (stack_nvme nv).
Proof.
  apply (tier_zoom_laws disk_part set_disk (nvme_tier nv) ltac:(by intros []) w_env A (nvme_sound nv A)).
  - by intros w [[] _].
  - intros t w [[H1 H2 H3] Hp] Ht He. pose proof (proj1 (proj1 (proj1 Ht))) as Hi. split; [|done]. split.
    + by apply (memory_sound_env (mem_part w)).
    + by destruct t.
    + apply (s3_sound_rows (s3_part w) (w_env t)); [done|by eapply elsewhere_shrinks; [|exact He]|done].
  - by apply nvme_tier_laws.
  - apply nvme_confined.
Qed.

Lemma stack_s3_laws p : TierLaws A (framed stack_inv p) (stack_s3 s3 client).
Proof.
  apply (tier_zoom_laws s3_part set_s3 (s3_tier s3 client) ltac:(by intros []) w_env A (s3_sound s3 good objects A)).
  - by intros w [[] _].
  - intros t w [[H1 H2 H3] Hp] Ht He. pose proof (proj1 (proj1 Ht)) as Hi. split; [|done]. split.
    + by apply (memory_sound_env (mem_part w)).
    + apply (nvme_sound_rows (disk_part w) (w_env t)); [done|done|by eapply elsewhere_shrinks; [|exact He]|done].
    + by destruct t.
  - by apply s3_tier_laws.
  - apply s3_confined.
Qed.

#[global] Instance stack_env : EnvLaws stack_inv.
Proof.
  intros B m [Hm Hq] w [H1 H2 H3]. assert (env_inv (sk_env w)) as Hi by apply H1. specialize (Hm _ Hi).
  pose proof (fun t => Hq t _ Hi) as Hs. unfold env_op, zoom. cbn [get_env put_env stack_lab].
  destruct (m (sk_env w)) as [e r]. cbn [fst] in *. split.
  - by apply (memory_sound_env (mem_part w)).
  - by apply (nvme_sound_rows (disk_part w)).
  - by apply (s3_sound_rows (s3_part w)).
Qed.

#[global] Instance stack_laws : LabLaws stack_inv.
Proof. split; try done; by intros ? w []. Qed.

(** ** The manager *)

(** The tiers a configuration can enable. *)
Definition stack_tiers : list (Tier (Stack D)) := [stack_memory; stack_nvme nv; stack_s3 s3 client].

Definition configured (mg : MultiTierKVBlockStore (Stack D)) : Prop :=
  exists ts cm, MultiTierKVBlockStore_init ts cm = Ok mg /\ Forall (fun x => x ∈ stack_tiers) ts.

Lemma configured_laws mg p t x : configured mg -> (t, x) ∈ tiers mg -> TierLaws A (framed stack_inv p) x.
Proof.
  intros (ts & cm & Hi & Hts) Hx%(init_elem _ _ _ _ _ Hi). rewrite Forall_forall in Hts. specialize (Hts x Hx).
  unfold stack_tiers in Hts. rewrite !elem_of_cons, elem_of_nil in Hts. destruct Hts as [->|[->|[->|[]]]].
  - apply stack_memory_laws.
  - apply stack_nvme_laws.
  - apply stack_s3_laws.
Qed.

Lemma stack_runs mg cs w : configured mg -> Forall (mg_call_ok A) cs -> stack_inv w -> stack_inv (run_mgs mg cs w).
Proof. intros Hc. apply manager_runs; [apply _..|]. intros p t x. by apply configured_laws. Qed.
End Stack.
