(* ===== verification/StackSpec.v ===== *)
(** * What the whole store guarantees

    The manager over the memory tier, the NVMe tier and the S3 tier, any of them
    configured, with failing file-system calls and failing object-store calls:
    the invariants of all tiers hold together after every sequence of calls, a
    load returns only what was stored, and two tiers never serve different
    payloads for a key. *)

From S2P Require Import CostModel.
From S2P Require Import Prelude PyText Sha256 Float64 Errors PyVal Json JsonFacts Metadata MetadataFacts MetadataStore MetadataStoreFacts MetadataStoreSpec Metrics Runtime MemoryTier MemoryTierFacts MemoryTierSpec Record Layout Url UrlFacts FileSystem FileSystemFacts World WorldFacts NvmeTier NvmeTierFacts NvmeLoadFacts NvmeStoreFacts NvmeCompaction NvmeTierSpec S3Client S3Fault S3Tier S3TierFacts S3StoreFacts S3TierSpec Confined Prefetch TierManager TierManagerFacts TierInstances ManagerRuns TierManagerSpec Stack.
Import MNotations.

(** A process that just started: no block is published, the dictionary is empty;
    the file system and the bucket may hold anything. *)
Record stack_start {D} (good : D -> Prop) (w : Stack D) : Prop := {
  start_env : env_inv (sk_env w);
  start_rows rk : rows_of w !! rk = None;
  start_mem : tier_ok (sk_mem w) /\ MemoryTier._data (sk_mem w) = [];
  start_disk : fs_wf (sk_disk w);
  start_objects : good (sk_objects w);
}.

Section Spec.
Context `{U : UnicodeData} {D : Type} (nv : NVMeTier) (s3 : S3Tier) (client : S3Client D).
Context (good : D -> Prop) (objects : D -> gmap (pystr * pystr) pybytes).
Context (Hlaws : s3_laws client good objects) (Hnv : nvme_ok nv) (Hs3 : s3_ok s3).

Lemma stack_start_inv A w : stack_start good w -> stack_inv nv s3 good objects A w.
Proof.
  intros [He Hr [Hm Hd] Hw Hg]. split.
  - split; [done|]. unfold mem_within. cbn. by rewrite Hd.
  - split; [apply start_sound; [done|by split_and!; [..|intros id; apply Hr]]|].
    intros k data (_ & r & E & _). cbn in E. by rewrite Hr in E.
  - split; [apply s3_start_inv; by split_and!; [..|intros id; apply Hr]|].
    intros k data (_ & r & E & _). cbn in E. by rewrite Hr in E.
Qed.

(** The row a loaded block has in its tier. *)
Definition loaded_row_of (w : Stack D) (t : TierName) (k : BlockKey) (data : pybytes) : Prop :=
  exists row, rows_of w !! row_key k t = Some row /\ r_state row = active /\
    r_bytes row = zlen data /\ r_checksum row = sha256_hex data.

Lemma load_has_row A w x k w' r :
  stack_inv nv s3 good objects A w -> x ∈ stack_tiers nv s3 client -> tier_load x k w = (w', Ok r) ->
  loaded_row_of w (tier_name x) k (lr_data r).
Proof.
  intros [[[Hm Hmok] _] [Hn _] [Hs _]]. unfold stack_tiers. rewrite !elem_of_cons, elem_of_nil.
  intros [->|[->|[->|[]]]]; cbn [tier_load tier_name tier_zoom stack_memory stack_nvme stack_s3].
  - intros H%(zoom_inv mem_part set_mem ltac:(by intros [])).
    destruct (load_was_ready _ _ _ _ Hm Hmok H) as (m & [_ _ _ _ (row & E1 & E2 & _ & _ & E3 & E4) _] & _). by exists row.
  - intros H%(zoom_inv disk_part set_disk ltac:(by intros [])).
    destruct (load_disk nv Hnv k _ _ r (proj1 Hn) H) as (_ & _ & _ & _ & _ & row & t & m & b & p & E1 & E2 & Hp & _).
    exists row. split_and!; try done; apply (pl_row _ _ _ _ _ _ _ _ Hp).
  - intros H%(zoom_inv s3_part set_s3 ltac:(by intros [])).
    destruct (s3_load_visible s3 client good objects Hlaws Hs3 k _ _ r Hs H) as (_ & (_ & row & E1 & E2 & (o & m & b & Hp)) & _).
    exists row. split_and!; try done; apply (sp_row _ _ _ _ _ _ _ _ _ Hp).
Qed.

(** Two rows of a key state the same size and digest. *)
Lemma rows_agree s k t t' r r' :
  store_inv s -> ms_blocks s !! row_key k t = Some r -> ms_blocks s !! row_key k t' = Some r' ->
  r_bytes r' = r_bytes r /\ r_checksum r' = r_checksum r.
Proof.
  intros Hs Hr Hr'. destruct (ro_metadata _ _ _ (inv_rows s Hs _ _ Hr)) as (m & Hm & _ & Hb & Hc).
  destruct (ro_metadata _ _ _ (inv_rows s Hs _ _ Hr')) as (m' & Hm' & _ & Hb' & Hc').
  pose proof (inv_desc s Hs _ _ _ _ _ _ _ Hr Hr' Hm Hm') as Hd.
  destruct (descriptor_sizes m m' _ _ (proj1 (proj2 Hm')) Hb Hc Hd) as [E1 E2]. split; congruence.
Qed.
End Spec.

(** ** A concrete store *)

Definition sample_stack : Stack (Injected Buckets) :=
  mkStack (sample_env fresh_store) (sample_tier 8) (sample_disk (fun _ => None)) (mkInjected ∅ no_stats 0 [])
    (mkPool sample_prefetcher (mkExecutor true [])) false.

Definition sample_manager : MultiTierKVBlockStore (Stack (Injected Buckets)) :=
  {| tiers := map (fun x => (tier_name x, x)) (stack_tiers (U := ascii_data) (sample_nvme segment) sample_s3 flaky_client);
     cost_model := eager_model |}.

Lemma sample_configured : configured (U := ascii_data) (sample_nvme segment) sample_s3 flaky_client sample_manager.
Proof.
  exists (stack_tiers (U := ascii_data) (sample_nvme segment) sample_s3 flaky_client), eager_model.
  split; [reflexivity|]. by apply Forall_forall.
Qed.

Lemma sample_stack_start : stack_start (fun _ => True) sample_stack.
Proof.
  destruct (nvme_world_start (fun _ => None)) as (H1 & H2 & _). split; [exact H1| |split; [apply empty_world_ok|done]|exact H2|done].
  intros rk. vm_compute. by destruct rk as [[] []].
Qed.

(** The block is stored on the disk and in the bucket, and the disk copy is
    promoted to memory. *)
Definition sample_run : list mg_call :=
  [MgStore sample_key sample_payload sample_metadata (Some NVME); MgPrefetch [sample_key] S3;
   MgLookup sample_key; MgWorker].

Lemma sample_run_loads :
  is_ok (load sample_manager sample_key MEMORY None (run_mgs sample_manager sample_run sample_stack)).2 = true.
Proof. vm_compute. reflexivity. Qed.

(** ** Properties *)

(** C2: soundness of the whole store. After every sequence of calls on a manager over
    any of the three tiers, calls that raise, background prefetches, [close] and any
    failures of the file system and of the object store included: the rows of the
    metadata store are well formed and agree about each key; the memory tier counts
    its bytes exactly and stays within its limit; the NVMe tier stays within its
    budget and the disk holds the record of each of its visible blocks; the object
    store holds the record of each visible block of the S3 tier. *)
Theorem stack_sound `{U : UnicodeData} {D} nv s3 (client : S3Client D) good objects mg cs w0 :
  s3_laws client good objects -> nvme_ok nv -> s3_ok s3 -> configured nv s3 client mg -> stack_start good w0 ->
  Forall (mg_call_ok any_payload) cs ->
  let w := run_mgs mg cs w0 in
  store_inv (env_store (sk_env w)) /\
  (_used_bytes (sk_mem w) = total_bytes (MemoryTier._data (sk_mem w)) /\ _used_bytes (sk_mem w) <= max_bytes (sk_mem w)) /\
  sum_bytes NVME (rows_of w) <= nv_max_bytes nv /\
  (forall k r, key_valid k = true -> rows_of w !! row_key k NVME = Some r -> r_state r = active ->
    exists data, placed nv (sk_disk w) k r data /\ r_bytes r = zlen data /\ r_checksum r = sha256_hex data) /\
  (forall k r, key_valid k = true -> rows_of w !! row_key k S3 = Some r -> r_state r = active ->
    exists data, s3_placed s3 objects (sk_objects w) k r data /\ r_bytes r = zlen data /\ r_checksum r = sha256_hex data).
Proof.
  intros Hlaws Hnv Hs3 Hc Hw Hcs w.
  destruct (stack_runs nv s3 client good objects any_payload Hlaws Hnv Hs3 mg cs w0 Hc Hcs
    (stack_start_inv nv s3 good objects Hnv any_payload w0 Hw)) as [[[Hm Hmok] _] [[Hn Hf] _] [Hs _]].
  fold w in Hm, Hmok, Hn, Hf, Hs. destruct Hmok as [M1 M2 M3]. split_and!; [apply Hm|done|done|done| |].
  - intros k r Hk Hr Ha. destruct (di_data _ _ _ (proj2 Hn) k r Hk Hr Ha) as (data & Hp). exists data. split; [done|].
    destruct Hp as (t & m & b & Hp). apply (pl_row _ _ _ _ _ _ _ _ Hp).
  - intros k r Hk Hr Ha. destruct (si_data _ _ _ _ _ (proj2 Hs) k r Hk Hr Ha) as (data & Hp). exists data. split; [done|].
    destruct Hp as (o & m & b & Hp). apply (sp_row _ _ _ _ _ _ _ _ _ Hp).
Qed.

Lemma stack_sound_witness :
  let w := run_mgs sample_manager sample_run sample_stack in
  store_inv (env_store (sk_env w)) /\ sum_bytes NVME (rows_of w) <= 4096.
Proof.
  destruct (stack_sound (U := ascii_data) (sample_nvme segment) sample_s3 flaky_client (fun _ => True) (fun i => in_dev i)
    sample_manager sample_run sample_stack flaky_laws (sample_nvme_ok segment (or_intror eq_refl)) sample_s3_ok
    sample_configured sample_stack_start ltac:(repeat constructor; apply sample_input)) as (H1 & _ & H2 & _).
  split; [exact H1|exact H2].
Defined.

(** The stores of a sequence of calls. *)
Definition stored_by (cs : list mg_call) : blocks_map := fun k data => exists m t, MgStore k data m t ∈ cs.

Lemma load_was_stored `{U : UnicodeData} {D} nv s3 (client : S3Client D) good objects mg cs w0 k target slo w' r :
  s3_laws client good objects -> nvme_ok nv -> s3_ok s3 -> configured nv s3 client mg -> stack_start good w0 ->
  Forall (mg_call_ok any_payload) cs -> load mg k target slo (run_mgs mg cs w0) = (w', Ok r) ->
  exists m t, MgStore k (lr_data r) m t ∈ cs.
Proof.
  intros Hlaws Hnv Hs3 Hc Hw Hcs Hl. change (stored_by cs k (lr_data r)).
  assert (Forall (mg_call_ok (stored_by cs)) cs) as Hcs'.
  { rewrite Forall_forall in Hcs |- *. intros c Hin. specialize (Hcs c Hin). destruct c; try done.
    destruct Hcs as [Hi _]. split; [done|]. by do 2 eexists. }
  pose proof (configured_laws nv s3 client good objects (stored_by cs) Hlaws Hnv Hs3 mg) as Hlaw.
  pose proof (stack_runs nv s3 client good objects (stored_by cs) Hlaws Hnv Hs3 mg cs w0 Hc Hcs'
    (stack_start_inv nv s3 good objects Hnv (stored_by cs) w0 Hw)) as Hinv.
  pose proof Hc as (ts & cm & Hi & _). apply init_tiers in Hi as [Hn _].
  pose proof (stack_env nv s3 good objects (stored_by cs) Hnv) as Henv.
  assert (forall t x, (t, x) ∈ tiers mg -> TierLaws (stored_by cs) (stack_inv nv s3 good objects (stored_by cs)) x) as Hl0.
  { intros t x Hx. apply laws_any_pool. intros p. by eapply Hlaw. }
  by destruct (delivered_kept mg _ _ Hl0 k target r w' Hn (load_delivered mg _ _ Hl0 _ _ _ _ _ _ Hinv Hl)) as (_ & Ha & _).
Qed.

(** C1: the store returns what was put in, nothing else. When a load returns, after
    any sequence of calls on a store that started empty, with prefetches, promotions
    and demotions between the tiers, evictions, and any failures of the file system
    and of the object store on the way, then some call of the sequence stored exactly
    the returned bytes under that key. *)
Theorem loads_return_stored `{U : UnicodeData} {D} nv s3 (client : S3Client D) good objects mg cs w0 k target slo w' r :
  s3_laws client good objects -> nvme_ok nv -> s3_ok s3 -> configured nv s3 client mg -> stack_start good w0 ->
  Forall (mg_call_ok any_payload) cs -> load mg k target slo (run_mgs mg cs w0) = (w', Ok r) ->
  exists m t, MgStore k (lr_data r) m t ∈ cs.
Proof. apply load_was_stored. Qed.

Lemma loads_return_stored_witness :
  exists w' r m t, load sample_manager sample_key MEMORY None (run_mgs sample_manager sample_run sample_stack) = (w', Ok r) /\
    MgStore sample_key (lr_data r) m t ∈ sample_run.
Proof.
  pose proof sample_run_loads as Hok.
  destruct (load sample_manager sample_key MEMORY None (run_mgs sample_manager sample_run sample_stack)) as [w' [r|e]] eqn:E; [|discriminate Hok].
  destruct (loads_return_stored (U := ascii_data) (sample_nvme segment) sample_s3 flaky_client (fun _ => True) (fun i => in_dev i)
    sample_manager sample_run sample_stack sample_key MEMORY None w' r flaky_laws (sample_nvme_ok segment (or_intror eq_refl)) sample_s3_ok
    sample_configured sample_stack_start ltac:(repeat constructor; apply sample_input) E) as (m & t & Hin).
  exists w', r, m, t. split; [reflexivity|exact Hin].
Defined.

(** C3: the tiers agree. In every state that a sequence of calls leaves, two tiers
    that both return a block return payloads of the same length and SHA-256: the
    same bytes, or a collision of SHA-256 between the two. *)
Theorem tiers_agree `{U : UnicodeData} {D} nv s3 (client : S3Client D) good objects mg cs w0 x y k w1 w2 r1 r2 :
  s3_laws client good objects -> nvme_ok nv -> s3_ok s3 -> configured nv s3 client mg -> stack_start good w0 ->
  Forall (mg_call_ok any_payload) cs -> x ∈ stack_tiers nv s3 client -> y ∈ stack_tiers nv s3 client ->
  let w := run_mgs mg cs w0 in
  tier_load x k w = (w1, Ok r1) -> tier_load y k w = (w2, Ok r2) ->
  zlen (lr_data r1) = zlen (lr_data r2) /\ sha256_hex (lr_data r1) = sha256_hex (lr_data r2).
Proof.
  intros Hlaws Hnv Hs3 Hc Hw Hcs Hx Hy w H1 H2.
  pose proof (stack_runs nv s3 client good objects any_payload Hlaws Hnv Hs3 mg cs w0 Hc Hcs
    (stack_start_inv nv s3 good objects Hnv any_payload w0 Hw)) as Hinv. fold w in Hinv.
  destruct (load_has_row nv s3 client good objects Hlaws Hnv Hs3 _ w x k w1 r1 Hinv Hx H1) as (row & E1 & _ & Hb & Hs).
  destruct (load_has_row nv s3 client good objects Hlaws Hnv Hs3 _ w y k w2 r2 Hinv Hy H2) as (row' & E2 & _ & Hb' & Hs').
  destruct (rows_agree _ k _ _ row row' (env_store_inv _ (proj1 (proj1 (sk_memory _ _ _ _ _ _ Hinv)))) E1 E2) as [Eb Es].
  split; congruence.
Qed.

(** Both copies of the sample load. *)
Definition disk_copy : Tier (Stack (Injected Buckets)) := stack_nvme (U := ascii_data) (sample_nvme segment).
Definition bucket_copy : Tier (Stack (Injected Buckets)) := stack_s3 (U := ascii_data) sample_s3 flaky_client.

Lemma sample_copies :
  let w := run_mgs sample_manager sample_run sample_stack in
  is_ok (tier_load disk_copy sample_key w).2 && is_ok (tier_load bucket_copy sample_key w).2 = true.
Proof. vm_compute. reflexivity. Qed.

Lemma tiers_agree_witness :
  let w := run_mgs sample_manager sample_run sample_stack in
  exists w1 r1 w2 r2, tier_load disk_copy sample_key w = (w1, Ok r1) /\ tier_load bucket_copy sample_key w = (w2, Ok r2) /\
    sha256_hex (lr_data r1) = sha256_hex (lr_data r2).
Proof.
  pose proof sample_copies as Hok. cbv zeta in *.
  destruct (tier_load disk_copy sample_key (run_mgs sample_manager sample_run sample_stack)) as [w1 [r1|e]] eqn:E1; [|discriminate Hok].
  destruct (tier_load bucket_copy sample_key (run_mgs sample_manager sample_run sample_stack)) as [w2 [r2|e]] eqn:E2; [|discriminate Hok].
  exists w1, r1, w2, r2. split; [reflexivity|]. split; [reflexivity|].
  exact (proj2 (tiers_agree (U := ascii_data) (sample_nvme segment) sample_s3 flaky_client (fun _ => True) (fun i => in_dev i)
    sample_manager sample_run sample_stack disk_copy bucket_copy sample_key w1 w2 r1 r2 flaky_laws
    (sample_nvme_ok segment (or_intror eq_refl)) sample_s3_ok sample_configured sample_stack_start
    ltac:(repeat constructor; apply sample_input) ltac:(right; left) ltac:(right; right; left) E1 E2)).
Defined.
