(* ===== verification/Eviction.v ===== *)
(** * The eviction controller: [kvstore/eviction.py]

    [LRUEvictionController.evict_bytes] over the [Tier] interface. The [while]
    loop has fuel; every round that continues evicts a block, so the number of
    rows of the metadata store bounds the rounds. *)

From Stdlib Require Import SpecFloat.
From S2P Require Import Prelude PyText Sha256 Float64 Errors PyVal Json JsonFacts Metadata MetadataFacts MetadataStore MetadataStoreFacts MetadataStoreSpec Metrics Runtime MemoryTier MemoryTierFacts MemoryTierSpec Prefetch TierManager TierManagerFacts TierInstances ManagerRuns TierManagerSpec.
Import MNotations.
Local Open Scope m_scope.

Record EvictionResult := {
  er_tier : TierName;
  requested_bytes : Z;
  evicted_blocks : Z;
  evicted_bytes : Z;
  still_over_bytes : Z;
}.

Section Controller.
Context {W : Type} `{Lab W} (tiers : list (TierName * Tier W)).

(** [for loc in candidates]: the counters and whether a block was evicted. *)
Fixpoint evict_batch (x : Tier W) (bytes_to_free : Z) (ls : list BlockLocation)
    (blocks bytes : Z) (progressed : bool) : M W (Z * Z * bool) :=
  match ls with
  | [] => ret (blocks, bytes, progressed)
  | l :: ls' =>
      let* evicted := tier_evict x (loc_key l) in
      if evicted then
        let bytes' := bytes + loc_bytes l in
        if bytes_to_free <=? bytes' then ret (blocks + 1, bytes', true)
        else evict_batch x bytes_to_free ls' (blocks + 1) bytes' true
      else evict_batch x bytes_to_free ls' blocks bytes progressed
  end.

Fixpoint evict_rounds (fuel : nat) (x : Tier W) (t : TierName) (bytes_to_free batch_size blocks bytes : Z)
  : M W (Z * Z) :=
  if bytes_to_free <=? bytes then ret (blocks, bytes)
  else match fuel with
       | O => raise out_of_fuel
       | S fuel' =>
           let* candidates := env_op (on_store_at (fun now => MetadataStore.lru_candidates now t batch_size)) in
           match candidates with
           | [] => ret (blocks, bytes)
           | _ =>
               let* r := evict_batch x bytes_to_free candidates blocks bytes false in
               let '(blocks', bytes', progressed) := r in
               if progressed then evict_rounds fuel' x t bytes_to_free batch_size blocks' bytes'
               else ret (blocks', bytes')
           end
       end.

(** The rows of the metadata store. *)
Definition rows (w : W) : nat := size (ms_blocks (env_store (get_env w))).

Definition evict_bytes (t : TierName) (bytes_to_free batch_size : Z) : M W EvictionResult :=
  if bytes_to_free <=? 0 then
    ret {| er_tier := t; requested_bytes := bytes_to_free; evicted_blocks := 0; evicted_bytes := 0;
           still_over_bytes := 0 |}
  else match tier_get t tiers with
       | None =>
           ret {| er_tier := t; requested_bytes := bytes_to_free; evicted_blocks := 0; evicted_bytes := 0;
                  still_over_bytes := bytes_to_free |}
       | Some x =>
           let* n := gets rows in
           let* r := evict_rounds (S n) x t bytes_to_free batch_size 0 0 in
           ret {| er_tier := t; requested_bytes := bytes_to_free; evicted_blocks := r.1; evicted_bytes := r.2;
                  still_over_bytes := Z.max (bytes_to_free - r.2) 0 |}
       end.

End Controller.

(** ** The controller on the memory tier *)

Abbreviation lab_rows w := (ms_blocks (env_store (lw_env w))).
Abbreviation lab_open w := (_closed (env_store (lw_env w)) = false).

(** The bytes the metadata store records. *)
Definition row_bytes (b : gmap RowKey Row) : Z := map_fold (fun _ r a => r_bytes r + a) 0 b.

Lemma row_bytes_delete rk r b : b !! rk = Some r -> row_bytes (base.delete rk b) = row_bytes b - r_bytes r.
Proof.
  intros Hr. unfold row_bytes. rewrite (map_fold_delete_L _ 0 rk r b); [|intros; lia|done]. lia.
Qed.

Lemma store_delete_outcome k s :
  _closed s = false ->
  exists s' b, MetadataStore.delete k MEMORY s = (s', Ok b) /\ _closed s' = false /\
    if b : bool then is_Some (ms_blocks s !! row_key k MEMORY) /\
                     ms_blocks s' = base.delete (row_key k MEMORY) (ms_blocks s)
    else s' = s.
Proof.
  intros Hc. unfold MetadataStore.delete, bind, owner, gets. rewrite delete_row_eq, Hc.
  destruct (ms_blocks s !! row_key k MEMORY) as [r|]; [|by eauto 6]. destruct (_ && _); [|by eauto 6].
  eexists _, true. split; [reflexivity|]. split; [done|]. split; [done|]. apply drop_row_blocks.
Qed.

(** One eviction: a row goes, or nothing. *)
Lemma lab_evict k w :
  lab_inv w -> lab_open w ->
  exists w' b, tier_evict lab_memory k w = (w', Ok b) /\ lab_inv w' /\ lab_open w' /\
    if b : bool then is_Some (lab_rows w !! row_key k MEMORY) /\
                     lab_rows w' = base.delete (row_key k MEMORY) (lab_rows w)
    else lab_rows w' = lab_rows w.
Proof.
  intros Hw Hc. pose proof (law_evict (TierLaws := lab_memory_laws) k w Hw) as Hw'.
  destruct (tier_evict lab_memory k w) as [w' r] eqn:E. simpl in Hw'. exists w'.
  simpl in E. unfold zoom, MemoryTier.evict, has_block, tier_gets in E. unfold bind at 1, gets in E. simpl in E.
  destruct (od_get k (_data (lw_mem w))) as [data|]; simpl in E.
  2: { injection E as <- <-. exists false. by destruct w. }
  destruct (store_delete_outcome k (env_store (lw_env w)) Hc) as (s' & b & Hd & Hc' & Hb).
  unfold bind, env, on_store, zoom in E. simpl in E. rewrite Hd in E.
  destruct b; simpl in E; injection E as <- <-; eexists; (split; [reflexivity|]); simpl in *.
  - done.
  - by subst s'.
Qed.

(** The candidates of a batch that are still there are as they were listed. *)
Definition listed (w : LabWorld) (ls : list BlockLocation) : Prop :=
  Forall (fun l => forall r, lab_rows w !! row_key (loc_key l) MEMORY = Some r -> r_bytes r = loc_bytes l) ls.

(** The state after [blocks] evictions of [bytes] in all. *)
Definition freed (w w' : LabWorld) (blocks bytes : Z) : Prop :=
  Z.of_nat (size (lab_rows w')) = Z.of_nat (size (lab_rows w)) - blocks /\
  row_bytes (lab_rows w') = row_bytes (lab_rows w) - bytes.

Lemma evict_batch_run target ls w0 w blocks bytes progressed :
  lab_inv w -> lab_open w -> listed w ls -> freed w0 w blocks bytes ->
  exists w' blocks' bytes' progressed',
    evict_batch lab_memory target ls blocks bytes progressed w = (w', Ok (blocks', bytes', progressed')) /\
    lab_inv w' /\ lab_open w' /\ freed w0 w' blocks' bytes' /\
    (progressed' = progressed \/ progressed' = true /\ (size (lab_rows w') < size (lab_rows w))%nat) /\
    (size (lab_rows w') <= size (lab_rows w))%nat.
Proof.
  revert w blocks bytes progressed. induction ls as [|l ls IH]; intros w blocks bytes progressed Hw Hc Hl Hf; simpl.
  - exists w, blocks, bytes, progressed. split_and!; try done; auto.
  - apply Forall_cons in Hl as [Hl Hls]. destruct (lab_evict (loc_key l) w Hw Hc) as (w1 & b & E & Hw1 & Hc1 & Hb).
    change (zoom lw_get lw_put (MemoryTier.evict (loc_key l))) with (tier_evict lab_memory (loc_key l)).
    rewrite (bind_run _ _ _ _ _ E). destruct b.
    + destruct Hb as [[r Hr] Hb]. specialize (Hl r Hr).
      assert (Z.of_nat (size (lab_rows w1)) = Z.of_nat (size (lab_rows w)) - 1) as Hsz.
      { rewrite Hb, map_size_delete_Some by by exists r.
        assert (size (lab_rows w) <> 0%nat) by (intros E0%map_size_empty_inv; by rewrite E0 in Hr).
        lia. }
      assert (freed w0 w1 (blocks + 1) (bytes + loc_bytes l)) as Hf1.
      { destruct Hf as [F1 F2]. split; [lia|]. rewrite Hb, (row_bytes_delete _ r) by done. lia. }
      assert (listed w1 ls) as Hl1.
      { eapply Forall_impl; [exact Hls|]. intros l' Hl' r' Hr'. apply Hl'. rewrite Hb in Hr'.
        by apply lookup_delete_Some in Hr' as [_ Hr']. }
      destruct (target <=? bytes + loc_bytes l).
      * exists w1, (blocks + 1), (bytes + loc_bytes l), true. split_and!; try done; [right; split; [done|lia]|lia].
      * destruct (IH w1 (blocks + 1) (bytes + loc_bytes l) true Hw1 Hc1 Hl1 Hf1)
          as (w2 & b2 & y2 & p2 & E2 & Hw2 & Hc2 & Hf2 & Hp & Hle).
        exists w2, b2, y2, p2. split_and!; try done; [|lia]. right. destruct Hp as [->|[-> ?]]; split; try done; lia.
    + destruct (IH w1 blocks bytes progressed Hw1 Hc1) as (w2 & b2 & y2 & p2 & E2 & Hw2 & Hc2 & Hf2 & Hp & Hle).
      { unfold listed. by rewrite Hb. } { unfold freed. by rewrite Hb. }
      rewrite Hb in *. exists w2, b2, y2, p2. done.
Qed.

Lemma lru_listed now n w :
  lab_inv w -> lab_open w ->
  exists ls, MetadataStore.lru_candidates now MEMORY n (env_store (lw_env w)) = (env_store (lw_env w), Ok ls) /\
    listed w ls.
Proof.
  intros [[_ Hs] _] Hc. set (s := env_store (lw_env w)) in *.
  set (cand := lru_rows (_owner_epoch s) MEMORY n (ms_blocks s)).
  assert (Forall (fun kr => exists l, scanned_location now MEMORY kr = Ok l /\
    (row_key (loc_key l) MEMORY = kr.1 /\ loc_bytes l = r_bytes kr.2 /\ ms_blocks s !! kr.1 = Some kr.2)) cand) as Hf.
  { rewrite Forall_forall. intros kr Hkr.
    destruct (sql_limit_app n (py_sort access_leb (tier_rows (idle (_owner_epoch s)) MEMORY (ms_blocks s)))) as [rest E].
    assert (kr ∈ tier_rows (idle (_owner_epoch s)) MEMORY (ms_blocks s)) as Hel.
    { apply (py_sort_elem access_leb). rewrite E. apply elem_of_app. by left. }
    apply tier_rows_elem in Hel as (H1 & H2 & _); [|done].
    destruct (scanned_location_ok now s MEMORY kr Hs H1 H2) as (l & Hl & E1 & _ & E2).
    exists l. split; [done|]. split_and!; try done. destruct kr as [[id t] r]. simpl in *. subst t.
    unfold row_key in *. by simplify_eq. }
  apply res_list_Forall2 in Hf as (ls & Hls & Hf2). exists ls. split.
  - unfold MetadataStore.lru_candidates, bind, lift, owner, gets. rewrite execute_eq, Hc. fold cand. by rewrite Hls.
  - unfold listed. clear Hls. fold s. induction Hf2 as [|kr l krs ls (E1 & E2 & E3) _ IH]; constructor; [|done].
    intros r. rewrite E1, E3. by intros [= <-].
Qed.

Lemma evict_rounds_run fuel t target batch w0 w blocks bytes :
  t = MEMORY -> lab_inv w -> lab_open w -> freed w0 w blocks bytes -> (size (lab_rows w) < fuel)%nat ->
  exists w' blocks' bytes', evict_rounds fuel lab_memory t target batch blocks bytes w = (w', Ok (blocks', bytes')) /\
    lab_inv w' /\ lab_open w' /\ freed w0 w' blocks' bytes'.
Proof.
  intros ->. revert w blocks bytes. induction fuel as [|fuel IH]; intros w blocks bytes Hw Hc Hf Hfuel; [lia|].
  simpl. destruct (target <=? bytes); [by eauto 8|].
  set (now := env_time (lw_env w) (env_tick (lw_env w))).
  set (w1 := mkLabWorld (tick (lw_env w)) (lw_mem w) (lw_pool w) (lw_closed w)).
  assert (lab_inv w1) as Hw1 by (destruct Hw as [[? ?] ?]; by split).
  destruct (lru_listed now batch w1 Hw1 Hc) as (ls & Hls & Hli).
  assert (env_op (on_store_at (fun now => MetadataStore.lru_candidates now MEMORY batch)) w = (w1, Ok ls)) as E.
  { unfold env_op, on_store_at, on_store, zoom, bind, time_time. simpl. fold now.
    change (env_store (lw_env w1)) with (env_store (lw_env w)) in Hls. rewrite Hls. done. }
  rewrite (bind_run _ _ _ _ _ E). destruct ls as [|l ls]; [by exists w1, blocks, bytes|].
  destruct (evict_batch_run target (l :: ls) w0 w1 blocks bytes false Hw1 Hc Hli Hf)
    as (w2 & b2 & y2 & p2 & E2 & Hw2 & Hc2 & Hf2 & Hp & Hle).
  rewrite (bind_run _ _ _ _ _ E2). destruct p2; [|by exists w2, b2, y2].
  destruct Hp as [|[_ Hlt]]; [done|]. apply IH; try done.
  change (lab_rows w1) with (lab_rows w) in Hlt. lia.
Qed.

(** C38: freeing memory by bytes. On the memory tier of an open store [evict_bytes]
    always returns (its loop ends within as many rounds as there are rows), and its
    counters are what happened: exactly [evicted_blocks] rows with [evicted_bytes]
    recorded bytes are gone, and [still_over_bytes] is what is missing to the
    request. *)
Theorem evict_bytes_accounts n batch w :
  lab_inv w -> lab_open w ->
  exists w' r, evict_bytes [(MEMORY, lab_memory)] MEMORY n batch w = (w', Ok r) /\ lab_inv w' /\
    requested_bytes r = n /\
    Z.of_nat (size (lab_rows w')) = Z.of_nat (size (lab_rows w)) - evicted_blocks r /\
    row_bytes (lab_rows w') = row_bytes (lab_rows w) - evicted_bytes r /\
    still_over_bytes r = (if n <=? 0 then 0 else Z.max (n - evicted_bytes r) 0).
Proof.
  intros Hw Hc. unfold evict_bytes. destruct (n <=? 0).
  - eexists w, _. split; [reflexivity|]. split_and!; try done; simpl; lia.
  - cbn [tier_get]. destruct (decide (MEMORY = MEMORY)); [|done].
    rewrite (bind_run _ _ w w (size (lab_rows w))) by done.
    destruct (evict_rounds_run (S (size (lab_rows w))) MEMORY n batch w w 0 0) as (w' & b & y & E & Hw' & _ & F1 & F2);
      try done; [split; lia|lia|].
    rewrite (bind_run _ _ _ _ _ E). eexists w', _. split; [reflexivity|]. done.
Qed.

(** A store holding the sample block. *)
Definition loaded_lab : LabWorld := mkLabWorld (mw_env stored_world) (mw_tier stored_world) (lw_pool lab_start) false.

Lemma loaded_lab_inv : lab_inv loaded_lab.
Proof.
  split; [exact stored_world_inv|].
  exact (store_ok sample_key sample_payload sample_metadata empty_world empty_world_ok).
Qed.

Lemma evict_bytes_accounts_witness :
  exists w' r, evict_bytes [(MEMORY, lab_memory)] MEMORY 2 64 loaded_lab = (w', Ok r) /\
    row_bytes (lab_rows w') = row_bytes (lab_rows loaded_lab) - evicted_bytes r.
Proof.
  destruct (evict_bytes_accounts 2 64 loaded_lab loaded_lab_inv) as (w' & r & H1 & _ & _ & _ & H2 & _).
  - vm_compute. reflexivity.
  - exists w', r. split; [exact H1|exact H2].
Defined.

(** The block is evicted, and three bytes with it. *)
Example evict_sample :
  match (evict_bytes [(MEMORY, lab_memory)] MEMORY 2 64 loaded_lab).2 with
  | Ok r => (evicted_blocks r, evicted_bytes r, still_over_bytes r) = (1, 3, 0)
  | Raise _ => False
  end.
Proof. vm_compute. reflexivity. Qed.
