(* ===== verification/DecisionLog.v ===== *)
(** * The decision log: [kvstore/decision_log.py]

    A record of an onload decision, its JSON line, and the log file as the text
    written so far. *)

From Stdlib Require Import SpecFloat.
From S2P Require Import CostModel.
From S2P Require Import Prelude PyText Sha256 Float64 Errors PyVal Json JsonFacts Metadata MetadataFacts.
Import MNotations ResNotations.
Local Open Scope res_scope.

Record OnloadDecisionRecord := {
  run_id : pystr;
  timestamp_ms : Z;
  request_id_hash : pystr;
  block_hash_prefix : pystr;
  strategy : pystr;
  rec_tier : pystr;
  selected_tier : pystr;
  selected_transport : pystr;
  rec_decision : pystr;
  estimated_load_ms : f64;
  actual_load_ms : option f64;
  rec_estimated_recompute_ms : f64;
  actual_recompute_ms : option f64;
  decision_error_ms : option f64;
  rec_slo_budget_ms : option f64;
  rec_reason : pystr;
  preferred_transport : option pystr;
  transport_available : option bool;
  optional_transport_available : option bool;
  decision_type : pystr;
}.

(** [asdict(record)]. *)
Definition opt_val {A} (f : A -> pyval) (o : option A) : pyval := match o with Some x => f x | None => PNone end.

Definition record_items (r : OnloadDecisionRecord) : list (pystr * pyval) :=
  [(str "run_id", PStr (run_id r)); (str "timestamp_ms", PInt (timestamp_ms r));
   (str "request_id_hash", PStr (request_id_hash r)); (str "block_hash_prefix", PStr (block_hash_prefix r));
   (str "strategy", PStr (strategy r)); (str "tier", PStr (rec_tier r));
   (str "selected_tier", PStr (selected_tier r)); (str "selected_transport", PStr (selected_transport r));
   (str "decision", PStr (rec_decision r)); (str "estimated_load_ms", PFloat (estimated_load_ms r));
   (str "actual_load_ms", opt_val PFloat (actual_load_ms r));
   (str "estimated_recompute_ms", PFloat (rec_estimated_recompute_ms r));
   (str "actual_recompute_ms", opt_val PFloat (actual_recompute_ms r));
   (str "decision_error_ms", opt_val PFloat (decision_error_ms r));
   (str "slo_budget_ms", opt_val PFloat (rec_slo_budget_ms r)); (str "reason", PStr (rec_reason r));
   (str "preferred_transport", opt_val PStr (preferred_transport r));
   (str "transport_available", opt_val PBool (transport_available r));
   (str "optional_transport_available", opt_val PBool (optional_transport_available r));
   (str "decision_type", PStr (decision_type r))].

Definition _hash_prefix (value : pystr) (length : nat) : res pystr :=
  match utf8_encode value with
  | Some bs => Ok (take length (sha256_hex bs))
  | None => Raise (err UnicodeEncodeError (str "surrogates not allowed"))
  end.

(** [int(x)] of a float: truncation towards zero. *)
Definition int_of_float (x : f64) : res Z :=
  match x with
  | S754_zero _ => Ok 0
  | S754_finite s m e =>
      let n := if e <? 0 then Z.pos m / 2 ^ (- e) else Z.pos m * 2 ^ e in Ok (if s then - n else n)
  | S754_infinity _ => Raise (err OverflowError (str "cannot convert float infinity to integer"))
  | S754_nan => Raise (err ValueError (str "cannot convert float NaN to integer"))
  end.

(** What the caller passes besides the request, the key and the decision. *)
Record LogArgs := {
  la_run_id : pystr;
  la_transport : pystr;
  la_actual_load_ms : option f64;
  la_actual_recompute_ms : option f64;
  la_slo_budget_ms : option f64;
  la_strategy : pystr;
  la_preferred_transport : option pystr;
  la_transport_available : option bool;
  la_optional_transport_available : option bool;
}.

Definition make_onload_decision_record (now : f64) (a : LogArgs) (request_id : pystr) (key : BlockKey)
    (d : CostModel.Decision) (timestamp : option Z) : res OnloadDecisionRecord :=
  let is_load := bool_decide (d_action d = a_load) in
  let chosen_actual := if is_load then la_actual_load_ms a else la_actual_recompute_ms a in
  let estimated_chosen := if is_load then d_estimated_load_ms d else d_estimated_recompute_ms d in
  let decision_error := (fun x => f64_sub x estimated_chosen) <$> chosen_actual in
  let? ts := match timestamp with Some t => Ok t | None => int_of_float (f64_mul now (f64_of_Z 1000)) end in
  let? hash := _hash_prefix request_id 16 in
  Ok {| run_id := la_run_id a; timestamp_ms := ts; request_id_hash := hash;
        block_hash_prefix := take 16 (block_hash key); strategy := la_strategy a;
        rec_tier := tier_value (d_tier d); selected_tier := tier_value (d_tier d);
        selected_transport := la_transport a; rec_decision := action_value (d_action d);
        estimated_load_ms := d_estimated_load_ms d; actual_load_ms := la_actual_load_ms a;
        rec_estimated_recompute_ms := d_estimated_recompute_ms d;
        actual_recompute_ms := la_actual_recompute_ms a; decision_error_ms := decision_error;
        rec_slo_budget_ms := la_slo_budget_ms a; rec_reason := d_reason d;
        preferred_transport := la_preferred_transport a;
        transport_available := la_transport_available a;
        optional_transport_available := la_optional_transport_available a;
        decision_type := str "kv_onload" |}.

(** [append(record)] on the text of the log file. *)
Definition append (r : OnloadDecisionRecord) : M pystr unit :=
  fun file => match json_dumps fmt_compact (PDict (record_items r)) with
              | Ok t => (file ++ t ++ [10], Ok tt)
              | Raise e => (file, Raise e)
              end.

(** [log(...)]. *)
Definition log (now : f64) (a : LogArgs) (request_id : pystr) (key : BlockKey) (d : CostModel.Decision)
  : M pystr unit :=
  bind (lift (make_onload_decision_record now a request_id key d None)) append.

Definition sanitize_decision_for_top_candidates (d : CostModel.Decision) : pyval :=
  PDict [(str "tier", PStr (tier_value (d_tier d))); (str "action", PStr (action_value (d_action d)));
         (str "estimated_load_ms", PFloat (d_estimated_load_ms d));
         (str "estimated_recompute_ms", PFloat (d_estimated_recompute_ms d));
         (str "benefit_ms", PFloat (d_benefit_ms d)); (str "reason", PStr (d_reason d))].

(** ** JSON texts are single lines *)

Definition one_line (t : pystr) : Prop := Forall (fun c => c <> 10) t.

Lemma eat_one_line c s r : eat c s = Some r -> c <> 10 -> one_line r -> one_line s.
Proof.
  destruct s as [|x s]; simpl; [done|]. destruct (Z.eqb_spec x c) as [->|]; [|done].
  intros [= ->] ? ?. by constructor.
Qed.

Lemma digits_one_line s d r : span_digits s = (d, r) -> one_line r -> one_line s.
Proof.
  revert d r. induction s as [|c s IH]; intros d r Hs Hr; [constructor|]. simpl in Hs.
  destruct (is_digit c) eqn:Ec; [|by injection Hs as _ <-].
  destruct (span_digits s) as [d' r'] eqn:E. injection Hs as _ <-. constructor; [|by eapply IH].
  unfold is_digit in Ec. lia.
Qed.

Lemma int_one_line s ip r : scan_int s = Some (ip, r) -> one_line r -> one_line s.
Proof.
  unfold scan_int. intros Hs Hr. destruct (eat 48 s) as [s'|] eqn:E.
  - injection Hs as _ ->. by eapply eat_one_line.
  - destruct (span_digits s) as [[|x d] r'] eqn:E'; [done|]. injection Hs as _ ->. by eapply digits_one_line.
Qed.

Lemma frac_one_line s fr r : scan_frac s = (fr, r) -> one_line r -> one_line s.
Proof.
  unfold scan_frac. intros Hs Hr. destruct (eat 46 s) as [s'|] eqn:E; [|by injection Hs as _ <-].
  destruct (span_digits s') as [[|x d] r'] eqn:E'; injection Hs as _ <-; [done|].
  eapply eat_one_line; [exact E|done|]. by eapply digits_one_line.
Qed.

Lemma exp_one_line s ex r : scan_exp s = (ex, r) -> one_line r -> one_line s.
Proof.
  unfold scan_exp. intros Hs Hr. destruct s as [|c s]; [constructor|].
  destruct ((c =? 101) || (c =? 69)) eqn:Ec; [|by injection Hs as _ <-].
  assert (forall neg s1, (one_line s1 -> one_line s) ->
    match span_digits s1 with
    | ([], _) => (None, c :: s)
    | (d, r2) => (Some (if neg : bool then - dec_value d else dec_value d), r2)
    end = (ex, r) -> one_line (c :: s)) as Hgo.
  { intros neg s1 Hs1. destruct (span_digits s1) as [[|x d] r'] eqn:E; intros [= _ <-]; [done|].
    constructor; [lia|]. apply Hs1. by eapply digits_one_line. }
  destruct (eat 45 s) as [s'|] eqn:E; [apply (Hgo true s'); [|done]; intros; by eapply eat_one_line|].
  apply (Hgo false (default s (eat 43 s))); [|done]. destruct (eat 43 s) as [s'|] eqn:E'; [|done].
  intros. by eapply eat_one_line.
Qed.

Lemma number_one_line s v : scan_number s = Ok (v, []) -> one_line s.
Proof.
  unfold scan_number. intros Hs.
  assert (forall neg s1, match scan_int s1 with
    | None => Raise decode_error
    | Some (ip, r1) =>
        let '(fr, r2) := scan_frac r1 in
        let '(ex, r3) := scan_exp r2 in
        match fr, ex with
        | None, None =>
            if max_int_digits <? zlen ip then Raise (err ValueError (str "Exceeds the limit (4300 digits) for integer string conversion"))
            else Ok (PInt (if neg : bool then - dec_value ip else dec_value ip), r3)
        | _, _ =>
            let f := default [] fr in
            Ok (PFloat (f64_of_decimal neg (dec_value (ip ++ f)) (default 0 ex - zlen f)), r3)
        end
    end = Ok (v, []) -> one_line s1) as Hgo.
  { intros neg s1 H1. destruct (scan_int s1) as [[ip r1]|] eqn:Ei; [|done].
    destruct (scan_frac r1) as [fr r2] eqn:Ef. destruct (scan_exp r2) as [ex r3] eqn:Ee.
    assert (r3 = []) as ->.
    { destruct fr, ex; try (destruct (max_int_digits <? zlen ip); [done|]); by injection H1. }
    eapply int_one_line; [exact Ei|]. eapply frac_one_line; [exact Ef|]. eapply exp_one_line; [exact Ee|constructor]. }
  destruct (eat 45 s) as [s'|] eqn:E; [|by apply (Hgo false)]. eapply eat_one_line; [exact E|done|]. by apply (Hgo true).
Qed.

Lemma hex_digit_not_newline v : 0 <= v -> hex_digit v <> 10.
Proof. unfold hex_digit. case_match; lia. Qed.

Lemma u_escape_one_line c : 0 <= c -> one_line (u_escape c).
Proof.
  intros Hc. unfold u_escape, hex4. repeat (apply Forall_cons_2; [try done|]); try apply Forall_nil_2;
    apply hex_digit_not_newline; zdm.
Qed.

Lemma string_one_line s : str_ok s = true -> one_line (string_text true s).
Proof.
  intros Hs. unfold string_text. apply Forall_cons_2; [done|]. apply Forall_app. split; [|by apply Forall_singleton].
  induction s as [|c s IH]; simpl; [constructor|]. simpl in Hs. apply andb_true_iff in Hs as [Hc Hs].
  apply Forall_app. split; [|by apply IH]. assert (0 <= c) as Hc0 by (unfold is_scalar in Hc; lia).
  unfold escape_char. destruct (short_escape c) as [e|] eqn:Ee.
  - unfold short_escape in Ee. repeat (apply Forall_cons_2; [|]); [done| |apply Forall_nil_2].
    repeat case_match; simplify_eq; lia.
  - destruct (Z.ltb_spec c 32); [by apply u_escape_one_line|]. destruct (true && (126 <? c)).
    + destruct (c <? 65536) eqn:E; [by apply u_escape_one_line|]. apply Forall_app.
      split; apply u_escape_one_line; zdm.
    + apply Forall_singleton. lia.
Qed.

Lemma join_one_line sep ts : one_line sep -> Forall one_line ts -> one_line (join sep ts).
Proof.
  intros Hsep. induction 1 as [|t ts Ht Hts IH]; simpl; [constructor|]. destruct ts as [|t' ts]; [done|].
  by repeat (apply Forall_app; split).
Qed.

Lemma array_one_line l ts :
  Forall (fun v => forall t, json_dumps fmt_compact v = Ok t -> json_ok v = true -> one_line t) l ->
  forallb json_ok l = true -> res_seq (map (json_dumps fmt_compact) l) = Ok ts ->
  one_line (91 :: join (item_sep fmt_compact) ts ++ [93]).
Proof.
  intros IH Hok Hts. apply Forall_cons_2; [done|]. apply Forall_app. split; [|by apply Forall_singleton].
  apply join_one_line; [by apply Forall_singleton|]. apply res_seq_ok, Forall2_map_l_impl in Hts.
  revert Hok. induction Hts as [|v t l ts Ht _ IHt]; simpl; intros Hok; [constructor|].
  apply andb_true_iff in Hok as [Hv Hl]. apply Forall_cons in IH as [Hx IH]. constructor; [by apply Hx|by apply IHt].
Qed.

(** The compact text of every document of the domain is one line. *)
Lemma dumps_one_line v : forall t, json_dumps fmt_compact v = Ok t -> json_ok v = true -> one_line t.
Proof.
  induction v as [|b|z|f|s|l IH|l IH|d IH|z] using pyval_ind; intros t Ht Hok.
  - injection Ht as <-. by apply (bool_decide_unpack _).
  - destruct b; injection Ht as <-; by apply (bool_decide_unpack _).
  - by eapply number_one_line, scan_number_int.
  - cbn [json_dumps json_ok] in *. unfold float_json in Ht.
    assert (f64_finite f = true) as Hf by (unfold float_ok in Hok; by destruct (f64_finite f)).
    rewrite Hf in Ht. injection Ht as <-. by eapply number_one_line, float_ok_text.
  - injection Ht as <-. by apply string_one_line.
  - cbn [json_dumps] in Ht. apply res_bind_ok in Ht as (ts & Hts & [= <-]). by eapply array_one_line.
  - cbn [json_dumps] in Ht. apply res_bind_ok in Ht as (ts & Hts & [= <-]). by eapply array_one_line.
  - rewrite json_dumps_dict in Ht. apply res_bind_ok in Ht as (ms & Hms & [= <-]).
    apply json_ok_dict in Hok as [_ Hok]. apply Forall_cons_2; [done|]. apply Forall_app.
    split; [|by apply Forall_singleton]. apply join_one_line; [by apply Forall_singleton|].
    apply res_seq_ok, Forall2_map_l_impl in Hms.
    assert (Forall (fun kv => (forall t, json_dumps fmt_compact kv.2 = Ok t -> json_ok kv.2 = true -> one_line t) /\
              str_ok kv.1 = true /\ json_ok kv.2 = true) (maybe_sort (sort_keys fmt_compact) d)) as Hall.
    { rewrite maybe_sort_perm. rewrite Forall_forall in *. intros kv Hkv. split; [by apply IH|].
      specialize (Hok kv Hkv). destruct kv. done. }
    clear IH Hok. induction Hms as [|kv m kvs ms Hm _ IHm]; [constructor|].
    apply Forall_cons in Hall as [(Hv & Hk & Hj) Hall]. constructor; [|by apply IHm].
    apply res_map_ok in Hm as (t & Ht & ->). unfold member_text.
    apply Forall_app. split; [by apply string_one_line|]. apply Forall_app. split; [by apply Forall_singleton|].
    by apply Hv.
  - done.
Qed.

(** ** Properties *)

(** [text.split("\n")] of the lines of a file, less the empty last one. *)
Fixpoint lines_from (acc : pystr) (s : pystr) : list pystr :=
  match s with
  | [] => []
  | c :: s' => if c =? 10 then rev acc :: lines_from [] s' else lines_from (c :: acc) s'
  end.

Definition lines (s : pystr) : list pystr := lines_from [] s.

Lemma lines_from_app acc t s : one_line t -> lines_from acc (t ++ [10] ++ s) = rev (rev t ++ acc) :: lines s.
Proof.
  intros Ht. revert acc. induction Ht as [|c t Hc _ IH]; intros acc; simpl; [done|].
  destruct (Z.eqb_spec c 10); [done|]. simpl in IH. rewrite IH. simpl. by rewrite <- app_assoc.
Qed.

(** A record whose values JSON can represent. *)
Definition loggable (r : OnloadDecisionRecord) : Prop :=
  json_ok (PDict (record_items r)) = true /\ is_ok (json_dumps fmt_compact (PDict (record_items r))) = true.

Fixpoint append_all (rs : list OnloadDecisionRecord) : M pystr unit :=
  match rs with [] => ret tt | r :: rs' => bind (append r) (fun _ => append_all rs') end.

(** The log is one JSON object per line, whatever characters the logged texts
    contain: after any number of appends to an empty file, its lines, in order, read
    back as the records. *)
Theorem log_reads_back rs :
  Forall loggable rs ->
  exists file, append_all rs [] = (file, Ok tt) /\
    Forall2 (fun r line => json_loads line = Ok (json_norm fmt_compact (PDict (record_items r)))) rs (lines file).
Proof.
  intros Hrs.
  assert (forall file0, exists tail, append_all rs file0 = (file0 ++ tail, Ok tt) /\
    Forall2 (fun r line => json_loads line = Ok (json_norm fmt_compact (PDict (record_items r)))) rs (lines tail)) as Hgo.
  { induction Hrs as [|r rs [Hj Hd] _ IH]; intros file0; cbn [append_all].
    - exists []. rewrite app_nil_r. split; [done|constructor].
    - destruct (json_dumps fmt_compact (PDict (record_items r))) as [t|] eqn:Et; [|done].
      destruct (IH (file0 ++ t ++ [10])) as (tail & E & Hf). exists (t ++ [10] ++ tail).
      unfold bind at 1, append at 1. rewrite Et, E. split; [by rewrite <- !app_assoc|].
      unfold lines. rewrite lines_from_app by (by eapply dumps_one_line). rewrite app_nil_r, rev_involutive.
      constructor; [|done]. by apply json_loads_dumps. }
  destruct (Hgo []) as (tail & E & Hf). by exists tail.
Qed.

Definition sample_args (run : pystr) : LogArgs :=
  {| la_run_id := run; la_transport := str "posix"; la_actual_load_ms := Some (f64_of_Z 4);
     la_actual_recompute_ms := None; la_slo_budget_ms := None; la_strategy := str "cost_based";
     la_preferred_transport := None; la_transport_available := None; la_optional_transport_available := None |}.

Definition logged_decision : CostModel.Decision :=
  {| d_action := a_load; d_tier := NVME; d_estimated_load_ms := f64_of_Z 3; d_estimated_recompute_ms := f64_of_Z 100;
     d_benefit_ms := f64_of_Z 97; d_reason := str "load_benefit_positive" |}.

(** A record whose run id contains a newline. *)
Definition sample_log_record : OnloadDecisionRecord :=
  match make_onload_decision_record (f64_of_Z 7) (sample_args (str "run" ++ [10])) (str "request") sample_key
          logged_decision None with
  | Ok r => r
  | Raise _ => {| run_id := []; timestamp_ms := 0; request_id_hash := []; block_hash_prefix := []; strategy := [];
                  rec_tier := []; selected_tier := []; selected_transport := []; rec_decision := [];
                  estimated_load_ms := f64_of_Z 0; actual_load_ms := None; rec_estimated_recompute_ms := f64_of_Z 0;
                  actual_recompute_ms := None; decision_error_ms := None; rec_slo_budget_ms := None; rec_reason := [];
                  preferred_transport := None; transport_available := None; optional_transport_available := None;
                  decision_type := [] |}
  end.

Lemma sample_loggable : loggable sample_log_record.
Proof. split; vm_compute; reflexivity. Qed.

Lemma log_reads_back_witness :
  exists file, append_all [sample_log_record; sample_log_record] [] = (file, Ok tt) /\ length (lines file) = 2%nat.
Proof.
  destruct (log_reads_back [sample_log_record; sample_log_record]) as (file & E & Hf).
  - apply Forall_cons_2; [exact sample_loggable|]. apply Forall_cons_2; [exact sample_loggable|apply Forall_nil_2].
  - exists file. split; [exact E|]. symmetry. exact (Forall2_length _ _ _ Hf).
Defined.

(** The log discloses of the block's identity only the first 16 characters of
    its hash, and of the request only 16 characters of the SHA-256 of its id: two
    calls that agree on those append the same text (tenant, model, adapter and the
    request id itself never reach the file). *)
Theorem log_hides_identity now a req req' key key' d file :
  take 16 (block_hash key) = take 16 (block_hash key') -> _hash_prefix req 16 = _hash_prefix req' 16 ->
  log now a req key d file = log now a req' key' d file.
Proof. intros Hk Hr. unfold log, make_onload_decision_record. by rewrite Hk, Hr. Qed.

Lemma log_hides_identity_witness :
  log (f64_of_Z 7) (sample_args (str "run")) (str "request") sample_key logged_decision [] =
  log (f64_of_Z 7) (sample_args (str "run")) (str "request")
    {| tenant_id := str "another tenant"; model_id := str "m"; model_revision := str "r"; tokenizer_revision := str "t";
       block_hash := block_hash sample_key; lora_id := str "adapter"; modality_key := [] |} logged_decision [].
Proof. apply log_hides_identity; reflexivity. Defined.
