(* ===== verification/Config.v ===== *)
(** * Reading a configuration: [kvstore/factory.py]

    [_load_config] reads JSON or a small subset of YAML: indented sections and
    scalars. The parser mutates dictionaries that are reachable both from its
    stack and from the result, so it runs on a heap of dictionaries. *)

From Stdlib Require Import SpecFloat.
From S2P Require Import Prelude PyText Float64 Errors PyVal Json Tokenization Url PyConv Layout FileSystem.
Import MNotations ResNotations.

(** ** Lines *)

(** The characters [str.splitlines] breaks at; a carriage return and a line feed
    are one break. *)
Definition is_linebreak (c : Z) : bool :=
  ((10 <=? c) && (c <=? 13)) || ((28 <=? c) && (c <=? 30)) || (c =? 133) || (c =? 8232) || (c =? 8233).

Fixpoint lines_from (cur : pystr) (s : pystr) : list pystr :=
  match s with
  | [] => match cur with [] => [] | _ => [rev cur] end
  | c :: r =>
      if is_linebreak c then
        rev cur :: (if c =? 13 then match r with
                                    | 10 :: r' => lines_from [] r'
                                    | _ => lines_from [] r
                                    end
                    else lines_from [] r)
      else lines_from (c :: cur) r
  end.

Definition splitlines (s : pystr) : list pystr := lines_from [] s.

(** Universal newlines, of a file opened as text. *)
Fixpoint universal_newlines (s : pystr) : pystr :=
  match s with
  | [] => []
  | c :: r =>
      if c =? 13 then 10 :: match r with
                            | 10 :: r' => universal_newlines r'
                            | _ => universal_newlines r
                            end
      else c :: universal_newlines r
  end.

Local Open Scope res_scope.

(** [path.read_text(encoding="utf-8")] of the bytes of the file. *)
Definition decode_text (b : pybytes) : res pystr :=
  match utf8_decode b with
  | Some s => Ok (universal_newlines s)
  | None => Raise (err UnicodeDecodeError (str "invalid utf-8"))
  end.

(** ** Dictionaries and lines *)

(** A dictionary of the heap: scalars and references to other dictionaries. *)
Inductive slot := Scalar (v : pyval) | Ref (id : nat).
Abbreviation cell := (list (pystr * slot)).
Abbreviation Heap := (list cell).

(** [d[key] = v] and [{}]. *)
Definition set_item (id : nat) (key : pystr) (v : slot) (h : Heap) : Heap := alter (dict_set key v) id h.
Definition new_dict (h : Heap) : Heap * nat := (h ++ [[]], length h).

(** The stack, its top first. *)
Abbreviation Sections := (list (Z * nat)).

(** [while stack and indent <= stack[-1][0]: stack.pop()]. *)
Fixpoint pop_sections (indent : Z) (stack : Sections) : Sections :=
  match stack with
  | (i, d) :: rest => if indent <=? i then pop_sections indent rest else stack
  | [] => []
  end.

(** What is left of a line without its comment and trailing white space. *)
Definition code_of (line : pystr) : pystr :=
  str_rstrip (match split_first 35 line with Some (a, _) => a | None => line end).

Definition is_blank (line : pystr) : bool := bool_decide (str_strip line = []).

Definition indent_of (line : pystr) : Z := zlen line - zlen (span (fun c => c =? 32) line).2.

(** The value of the dictionary [id]: a reference leads to a dictionary created
    later, so the number of dictionaries bounds the depth. *)
Fixpoint read_dict (fuel : nat) (h : Heap) (id : nat) : pyval :=
  PDict (map (fun kv => (kv.1, match kv.2 with
                               | Scalar v => v
                               | Ref child => match fuel with
                                              | O => PNone
                                              | S f => read_dict f h child
                                              end
                               end)) (default [] (h !! id))).

(** ** Scalars *)

(** [value[1:-1]] of a value that starts and ends with [q] (a single [q] too). *)
Definition unquoted (q : Z) (value : pystr) : option pystr :=
  match value with
  | c :: r => if (c =? q) && (List.last value 0 =? q) then Some (removelast r) else None
  | [] => None
  end.

Section Parse.
Context `{UnicodeData} `{PyBuiltins}.

(** No character outside ASCII is lowered to a letter of the four words. *)
Definition _parse_scalar (value : pystr) : pyval :=
  match unquoted c_quote value, unquoted 39 value with
  | Some s, _ => PStr s
  | None, Some s => PStr s
  | None, None =>
      let lowered := str_lower value in
      if bool_decide (lowered = str "true") || bool_decide (lowered = str "false")
      then PBool (bool_decide (lowered = str "true"))
      else if bool_decide (lowered = str "null") || bool_decide (lowered = str "none") then PNone
      else match int_of_text value with
           | Ok z => PInt z
           | Raise _ => match float_of_text value with
                        | Some f => PFloat f
                        | None => PStr value
                        end
           end
  end.

(** ** Sections *)

Definition yaml_line (st : Heap * Sections) (raw : pystr) : res (Heap * Sections) :=
  let line := code_of raw in
  if is_blank line then Ok st
  else
    let indent := indent_of line in
    match split_first 58 (str_strip line) with
    | None => Raise (err ValueError (str "invalid config line: " ++ line))
    | Some (key, value) =>
        let '(h, stack) := st in
        match pop_sections indent stack with
        | [] => Raise (err IndexError (str "list index out of range"))
        | (i, current) :: rest =>
            if is_blank value then
              let '(h, child) := new_dict h in
              Ok (set_item current key (Ref child) h, (indent, child) :: (i, current) :: rest)
            else Ok (set_item current key (Scalar (_parse_scalar (str_strip value))) h, (i, current) :: rest)
        end
    end.

Fixpoint yaml_lines (st : Heap * Sections) (lines : list pystr) : res (Heap * Sections) :=
  match lines with
  | [] => Ok st
  | l :: r => let? st := yaml_line st l in yaml_lines st r
  end.

Definition yaml_start : Heap * Sections := ([[]], [(-1, 0%nat)]).

Definition _parse_simple_yaml (raw : pystr) : res pyval :=
  let? (h, _) := yaml_lines yaml_start (splitlines raw) in
  Ok (read_dict (length h) h 0).

(** [_load_config], after the file was read. *)
Definition parse_config (raw : pystr) : res pyval :=
  match str_lstrip raw with
  | 123 :: _ => json_loads raw
  | _ => _parse_simple_yaml raw
  end.

Definition _load_config (cwd : path) (config : pystr) : M Fs pyval :=
  (let* b := read_bytes cwd config in
   lift (let? raw := decode_text b in parse_config raw)%res)%m.

(** ** Paths *)

(** [Path(value)] of a configured value. *)
Definition path_value (v : pyval) : res pystr :=
  match v with
  | PStr s => Ok s
  | _ => Raise (err TypeError (str "expected str, bytes or os.PathLike object"))
  end.

Definition _resolve_path (base_dir : path) (v : pyval) : res path :=
  let? s := path_value v in
  match s with
  | 47 :: _ => Ok (text_parts s)
  | _ => resolve_path (base_dir ++ parse_part s)
  end.

Definition _config_base_dir (cwd : path) (config : pystr) : res path :=
  let? p := resolve_text cwd config in
  let parent := path_parent p in
  Ok (if decide (path_name parent = str "configs") then path_parent parent else parent).
End Parse.
