(* ===== verification/ConfigSpec.v ===== *)
(** * What the configuration parser guarantees *)

From Stdlib Require Import SpecFloat.
From S2P Require Import Prelude PyText Float64 Errors PyVal Json JsonFacts Tokenization Layout Url UrlFacts FileSystem PyConv Config.
Import ResNotations.
Local Open Scope res_scope.

(** ** Writing *)

Definition scalar_text (v : pyval) : pystr :=
  match v with
  | PBool b => if b then str "true" else str "false"
  | PInt z => int_repr z
  | PFloat f => finite_repr f
  | PStr s => c_quote :: s ++ [c_quote]
  | _ => str "null"
  end.

Definition spaces (n : nat) : pystr := replicate n 32.

Fixpoint yaml_entry (n : nat) (k : pystr) (v : pyval) : list pystr :=
  match v with
  | PDict d =>
      (spaces n ++ k ++ [58]) ::
      (fix go (d : list (pystr * pyval)) : list pystr :=
         match d with [] => [] | (k', x) :: d' => yaml_entry (n + 2) k' x ++ go d' end) d
  | _ => [spaces n ++ k ++ 58 :: 32 :: scalar_text v]
  end.

Definition yaml_entries (n : nat) (d : list (pystr * pyval)) : list pystr :=
  flat_map (fun kv => yaml_entry n kv.1 kv.2) d.

Lemma yaml_entry_dict n k d : yaml_entry n k (PDict d) = (spaces n ++ k ++ [58]) :: yaml_entries (n + 2) d.
Proof. simpl. f_equal. induction d as [|[k' x] d IH]; simpl; [done|]. by rewrite IH. Qed.

(** The text of a document, every line ended by a line feed. *)
Definition yaml_text (d : list (pystr * pyval)) : pystr := flat_map (fun l => l ++ [10]) (yaml_entries 0 d).

(** Texts that survive: no comment sign and no line break. *)
Definition plain_char (c : Z) : bool := negb (c =? 35) && negb (is_linebreak c).

Definition key_ok (k : pystr) : bool :=
  forallb plain_char k && negb (bool_decide (58 ∈ k)) &&
  match k with [] => true | c :: _ => negb (Tokenization.is_space c) end.

Fixpoint yaml_ok (v : pyval) : bool :=
  match v with
  | PNone | PBool _ => true
  | PInt z => zlen (dec_nat (Z.abs z)) <=? max_int_digits
  | PFloat f => float_ok f
  | PStr s => forallb plain_char s
  | PDict d => bool_decide (NoDup d.*1) &&
               (fix go d := match d with [] => true | (k, x) :: d' => key_ok k && yaml_ok x && go d' end) d
  | _ => false
  end.

Lemma yaml_ok_dict d :
  yaml_ok (PDict d) = true -> NoDup d.*1 /\ Forall (fun kv => key_ok kv.1 = true /\ yaml_ok kv.2 = true) d.
Proof.
  simpl. rewrite andb_true_iff, bool_decide_eq_true. intros [H1 H2]. split; [done|]. clear H1.
  induction d as [|[k x] d IH]; [constructor|]. rewrite !andb_true_iff in H2. destruct H2 as [[H1 H2] H3].
  constructor; [done|]. by apply IH.
Qed.

(** ** One line *)

Lemma plain_not (s : pystr) : forallb plain_char s = true -> 35 ∉ s.
Proof.
  intros H Hin. rewrite Forall_forallb, Forall_forall in H. specialize (H _ Hin). done.
Qed.

Lemma last_app_ne (a b : pystr) d : b <> [] -> List.last (a ++ b) d = List.last b d.
Proof.
  intros Hb. induction a as [|x a IH]; [done|]. cbn [app]. rewrite <- IH. destruct (a ++ b) eqn:E; [|done].
  by apply app_eq_nil in E as [_ ->].
Qed.

Section Line.
Context (n : nat) (k rest : pystr).
Context (Hk : key_ok k = true) (Hr : forallb plain_char rest = true).
Context (Hlast : Tokenization.is_space (List.last (58 :: rest) 0) = false).

Let L := spaces n ++ k ++ 58 :: rest.

Lemma body_head : match k ++ 58 :: rest with [] => True | c :: _ => Tokenization.is_space c = false end.
Proof.
  unfold key_ok in Hk. destruct k as [|c k']; [done|]. rewrite !andb_true_iff in Hk. destruct Hk as [_ Hc]. simpl.
  by destruct (Tokenization.is_space c).
Qed.

Lemma line_lstrip : str_lstrip L = k ++ 58 :: rest.
Proof.
  unfold str_lstrip, L. rewrite span_all_then; [done| |apply body_head]. unfold spaces. by apply Forall_replicate.
Qed.

Lemma line_last : List.last (k ++ 58 :: rest) 0 = List.last (58 :: rest) 0.
Proof. by apply last_app_ne. Qed.

Lemma line_strip : str_strip L = k ++ 58 :: rest.
Proof. unfold str_strip. rewrite line_lstrip. apply rstrip_id. by rewrite line_last. Qed.

Lemma line_code : code_of L = L.
Proof.
  unfold code_of. rewrite split_first_none.
  - apply rstrip_id. unfold L. rewrite last_app_ne by (by destruct k). by rewrite line_last.
  - unfold L, spaces. rewrite !not_elem_of_app, not_elem_of_cons. unfold key_ok in Hk. rewrite !andb_true_iff in Hk.
    destruct Hk as [[Hp _] _]. split_and!; [|by apply plain_not|done|by apply plain_not].
    by intros [? _]%elem_of_replicate.
Qed.

Lemma line_not_blank : is_blank L = false.
Proof. unfold is_blank. rewrite line_strip. apply bool_decide_eq_false_2. by destruct k. Qed.

Lemma line_indent : indent_of L = Z.of_nat n.
Proof.
  unfold indent_of, L. rewrite span_all_then.
  - simpl. rewrite length_app. unfold spaces. rewrite length_replicate. lia.
  - by apply Forall_replicate.
  - pose proof body_head as Hb. destruct (k ++ 58 :: rest) as [|c r]; [done|]. apply Z.eqb_neq. intros ->. done.
Qed.

Lemma line_key : split_first 58 (str_strip L) = Some (k, rest).
Proof.
  rewrite line_strip. apply split_first_app. unfold key_ok in Hk. rewrite !andb_true_iff in Hk. destruct Hk as [[_ H] _].
  intros Hin. by rewrite bool_decide_eq_true_2 in H.
Qed.

End Line.

(** ** Scalars *)

(** A text that is read as the value [v], on a line of its own. *)
Record scalar_reads `{UnicodeData} `{PyBuiltins} (t : pystr) (v : pyval) : Prop := {
  sr_plain : forallb plain_char t = true;
  sr_head : match t with [] => False | c :: _ => Tokenization.is_space c = false end;
  sr_last : Tokenization.is_space (List.last t 0) = false;
  sr_value : _parse_scalar t = v;
}.

Section Scalars.
Context `{UnicodeData} `{PyBuiltins}.

Lemma number_plain c : number_char c = true -> plain_char c = true /\ Tokenization.is_space c = false.
Proof. unfold number_char, plain_char, is_linebreak, Tokenization.is_space, is_digit. lia. Qed.

Lemma last_elem (t : pystr) d : t <> [] -> List.last t d ∈ t.
Proof.
  induction t as [|x t IH]; [done|]. intros _. destruct t as [|y t]; [left|]. right. by apply IH.
Qed.

Lemma number_reads t v :
  scan_number t = Ok (v, []) -> match v with PInt _ | PFloat _ => True | _ => False end -> scalar_reads t v.
Proof.
  intros Hs Hv. pose proof (number_chars _ _ Hs) as Hc. pose proof (number_nonempty _ _ Hs) as Hne. split.
  - rewrite Forall_forallb. eapply Forall_impl; [exact Hc|]. intros c Hx. by apply number_plain.
  - destruct Hc as [|c t Hx _]; [done|]. by apply number_plain.
  - rewrite Forall_forall in Hc. by apply number_plain, Hc, last_elem.
  - unfold _parse_scalar. destruct t as [|c t]; [done|]. apply Forall_cons in Hc as [Hx _]. cbn [unquoted].
    assert ((c =? c_quote) = false /\ (c =? 39) = false) as [-> ->] by (unfold number_char, is_digit, c_quote in *; lia). cbn [andb].
    assert (forall w, w ∈ [116; 102; 110] -> lower_char c <> w) as Hw.
    { intros w. rewrite !elem_of_cons, elem_of_nil. unfold lower_char, number_char, is_digit in *. destruct ((65 <=? c) && (c <=? 90)) eqn:E; intros [->|[->|[->|[]]]]; lia. }
    unfold str_lower. cbn [map]. rewrite !bool_decide_eq_false_2; cbn [orb];
      try (intros E%(f_equal (hd 0)); revert E; first [apply (Hw 116)|apply (Hw 102)|apply (Hw 110)]; set_solver).
    destruct v; try done.
    + by rewrite (int_of_number _ _ Hs).
    + pose proof (int_of_fraction _ _ Hs). destruct (int_of_text _); [done|]. by rewrite (float_of_number _ _ Hs).
Qed.

Lemma quoted_reads s : forallb plain_char s = true -> scalar_reads (c_quote :: s ++ [c_quote]) (PStr s).
Proof.
  intros Hs. split.
  - cbn. rewrite forallb_app, Hs. done.
  - done.
  - change (c_quote :: s ++ [c_quote]) with ((c_quote :: s) ++ [c_quote]). by rewrite last_last.
  - unfold _parse_scalar, unquoted. rewrite Z.eqb_refl. change (c_quote :: s ++ [c_quote]) with ((c_quote :: s) ++ [c_quote]).
    rewrite last_last, Z.eqb_refl. cbn [andb]. by rewrite removelast_last.
Qed.

Lemma scalar_text_reads v : yaml_ok v = true -> is_dict v = false -> scalar_reads (scalar_text v) v.
Proof.
  destruct v as [|b|z|f|s|l|l|d|z]; try done; simpl; intros Hok _.
  - destruct b; split; vm_compute; done.
  - apply number_reads; [|done]. apply scan_number_int. unfold int_text. by replace (max_int_digits <? _) with false by lia.
  - apply number_reads; [|done]. by apply float_ok_text.
  - by apply quoted_reads.
Qed.
End Scalars.

(** ** The heap *)

Definition slot_value (fuel : nat) (h : Heap) (s : slot) : pyval :=
  match s with
  | Scalar v => v
  | Ref child => match fuel with O => PNone | S f => read_dict f h child end
  end.

Lemma read_dict_eq fuel h id :
  read_dict fuel h id = PDict (map (fun kv => (kv.1, slot_value fuel h kv.2)) (default [] (h !! id))).
Proof. by destruct fuel. Qed.

(** The slot holds [v], whatever happens outside the dictionaries [lo .. hi). *)
Definition denotes (h : Heap) (lo hi : nat) (s : slot) (v : pyval) : Prop :=
  forall h2 fuel, (forall j, (lo <= j < hi)%nat -> h2 !! j = h !! j) -> (hi - lo <= fuel)%nat -> slot_value fuel h2 s = v.

Definition holds_items (h : Heap) (lo hi : nat) (c : cell) (d : list (pystr * pyval)) : Prop :=
  Forall2 (fun ks kv => ks.1 = kv.1 /\ denotes h lo hi ks.2 kv.2) c d.

(** Only the dictionary [id] has changed, and new ones were created. *)
Definition grows (id : nat) (h h' : Heap) : Prop :=
  (length h <= length h')%nat /\ forall j, (j < length h)%nat -> j <> id -> h' !! j = h !! j.

Lemma grows_trans id h1 h2 h3 : grows id h1 h2 -> grows id h2 h3 -> grows id h1 h3.
Proof. intros [L1 H1] [L2 H2]. split; [lia|]. intros j Hj Hne. rewrite H2, H1 by (done || lia). done. Qed.

Lemma denotes_weaken h h' lo lo' hi hi' s v :
  (lo' <= lo)%nat -> (hi <= hi')%nat -> (forall j, (lo <= j < hi)%nat -> h' !! j = h !! j) ->
  denotes h lo hi s v -> denotes h' lo' hi' s v.
Proof. intros Hl Hh Hj Hd h2 fuel Ha Hf. apply Hd; [|lia]. intros j Hr. rewrite Ha by lia. by apply Hj. Qed.

Lemma holds_items_weaken h h' lo lo' hi hi' c d :
  (lo' <= lo)%nat -> (hi <= hi')%nat -> (forall j, (lo <= j < hi)%nat -> h' !! j = h !! j) ->
  holds_items h lo hi c d -> holds_items h' lo' hi' c d.
Proof.
  intros Hl Hh Hj Hd. eapply Forall2_impl; [exact Hd|]. intros ks kv [? ?]. split; [done|]. by eapply denotes_weaken.
Qed.

Lemma holds_items_read h h2 lo hi fuel c d :
  holds_items h lo hi c d -> (forall j, (lo <= j < hi)%nat -> h2 !! j = h !! j) -> (hi - lo <= fuel)%nat ->
  map (fun kv => (kv.1, slot_value fuel h2 kv.2)) c = d.
Proof.
  intros Hd Ha Hf. induction Hd as [|[k s] [k' v] c' d' [Hk Hd] _ IH]; [done|]. cbn in *. subst k'. f_equal; [|done].
  f_equal. by apply Hd.
Qed.

(** A reference to a dictionary whose items are known. *)
Lemma denotes_ref h lo hi c d :
  (lo < hi)%nat -> h !! lo = Some c -> holds_items h (S lo) hi c d -> denotes h lo hi (Ref lo) (PDict d).
Proof.
  intros Hlt Hc Hd h2 fuel Ha Hf. destruct fuel as [|fuel]; [lia|]. cbn [slot_value]. rewrite read_dict_eq.
  rewrite (Ha lo) by lia. rewrite Hc. cbn. f_equal.
  eapply holds_items_read; [exact Hd| |lia]. intros j Hj. apply Ha. lia.
Qed.

(** ** Sections *)

(** Stacks that are the same for lines indented by at most [n]. *)
Definition same_stack (n : nat) (st st' : Sections) : Prop :=
  forall m, m <= Z.of_nat n -> pop_sections m st = pop_sections m st'.

Lemma same_stack_pop n st i id rest :
  same_stack n st ((i, id) :: rest) -> i < Z.of_nat n -> pop_sections (Z.of_nat n) st = (i, id) :: rest.
Proof. intros Hs Hi. rewrite Hs by lia. cbn. by replace (Z.of_nat n <=? i) with false by lia. Qed.

Lemma same_stack_below n st id rest :
  same_stack (n + 2) st ((Z.of_nat n, id) :: rest) -> same_stack n st rest.
Proof. intros Hs m Hm. rewrite Hs by lia. cbn. by replace (m <=? Z.of_nat n) with true by lia. Qed.

Section Runs.
Context `{UnicodeData} `{PyBuiltins}.

Lemma yaml_lines_app st a b :
  yaml_lines st (a ++ b) = (let? st := yaml_lines st a in yaml_lines st b).
Proof. revert st. induction a as [|l a IH]; intros st; [done|]. simpl. destruct (yaml_line st l); simpl; [apply IH|done]. Qed.

(** The line that opens a section. *)
Lemma section_line n k h st i id rest :
  key_ok k = true -> pop_sections (Z.of_nat n) st = (i, id) :: rest ->
  yaml_line (h, st) (spaces n ++ k ++ [58]) =
    Ok (set_item id k (Ref (length h)) (h ++ [[]]), (Z.of_nat n, length h) :: (i, id) :: rest).
Proof.
  intros Hk Hp. unfold yaml_line. rewrite line_code, line_not_blank, line_key, line_indent by done. by rewrite Hp.
Qed.

Lemma scalar_line n k t v h st i id rest :
  key_ok k = true -> scalar_reads t v -> pop_sections (Z.of_nat n) st = (i, id) :: rest ->
  yaml_line (h, st) (spaces n ++ k ++ 58 :: 32 :: t) = Ok (set_item id k (Scalar v) h, (i, id) :: rest).
Proof.
  intros Hk [Hp Hh Hl <-] Hs. destruct t as [|c t]; [done|]. unfold yaml_line.
  rewrite line_code, line_not_blank, line_key, line_indent by done. rewrite Hs.
  assert (str_strip (32 :: c :: t) = c :: t) as E.
  { unfold str_strip. assert (str_lstrip (32 :: c :: t) = c :: t) as ->.
    { unfold str_lstrip. cbn [span]. cbn in Hh. by rewrite Hh. }
    by apply rstrip_id. }
  unfold is_blank. rewrite E, bool_decide_eq_false_2 by done. done.
Qed.

Lemma set_item_fresh id k s h c : h !! id = Some c -> k ∉ c.*1 -> set_item id k s h !! id = Some (c ++ [(k, s)]).
Proof. intros Hc Hk. unfold set_item. rewrite list_lookup_alter_eq, Hc. cbn. by rewrite dict_set_fresh. Qed.

Lemma set_item_grows id k s h : grows id h (set_item id k s h).
Proof. unfold set_item. split; [by rewrite length_alter|]. intros j _ Hne. by rewrite list_lookup_alter_ne. Qed.

Definition entry_runs (v : pyval) : Prop := forall n k h st i id rest c,
  yaml_ok v = true -> key_ok k = true -> same_stack n st ((i, id) :: rest) -> i < Z.of_nat n ->
  h !! id = Some c -> k ∉ c.*1 ->
  exists h' st' s, yaml_lines (h, st) (yaml_entry n k v) = Ok (h', st') /\ same_stack n st' ((i, id) :: rest) /\
    grows id h h' /\ h' !! id = Some (c ++ [(k, s)]) /\ denotes h' (length h) (length h') s v.

Lemma entries_run d : Forall (fun kv => entry_runs kv.2) d -> forall n h st i id rest c,
  Forall (fun kv => key_ok kv.1 = true /\ yaml_ok kv.2 = true) d -> NoDup (c.*1 ++ d.*1) ->
  same_stack n st ((i, id) :: rest) -> i < Z.of_nat n -> h !! id = Some c ->
  exists h' st' c', yaml_lines (h, st) (yaml_entries n d) = Ok (h', st') /\ same_stack n st' ((i, id) :: rest) /\
    grows id h h' /\ h' !! id = Some (c ++ c') /\ holds_items h' (length h) (length h') c' d.
Proof.
  induction 1 as [|[k v] d Hv _ IH]; intros n h st i id rest c Hok Hnd Hst Hi Hc.
  { exists h, st, []. rewrite app_nil_r. split_and!; try done. constructor. }
  apply Forall_cons in Hok as [[Hk Hvok] Hok]. cbn [yaml_entries flat_map fst snd fmap list_fmap] in *.
  assert (k ∉ c.*1) as Hkc. { apply NoDup_app in Hnd as (_ & Hd & _). intros Hin. apply (Hd k Hin). left. }
  destruct (Hv n k h st i id rest c Hvok Hk Hst Hi Hc Hkc) as (h1 & st1 & s & E1 & Hst1 & Hg1 & Hc1 & Hd1).
  destruct (IH n h1 st1 i id rest (c ++ [(k, s)])) as (h2 & st2 & c' & E2 & Hst2 & Hg2 & Hc2 & Hd2); try done.
  { rewrite fmap_app, <- app_assoc. done. }
  assert (id < length h)%nat by (by eapply lookup_lt_Some).
  pose proof Hg1 as [L1 G1]. pose proof Hg2 as [L2 G2].
  exists h2, st2, ((k, s) :: c'). rewrite yaml_lines_app, E1. split_and!; [done|done|by eapply grows_trans| |].
  - by rewrite Hc2, <- app_assoc.
  - constructor; [split; [done|]|].
    + eapply denotes_weaken; [..|exact Hd1]; [lia..|]. intros j Hj. apply G2; lia.
    + eapply holds_items_weaken; [..|exact Hd2]; [lia..|done].
Qed.

Lemma all_entries_run v : entry_runs v.
Proof.
  induction v as [|b|z|f|s|l IH|l IH|d IH|z] using pyval_ind; intros n k h st i id rest c Hv Hk Hst Hi Hc Hkc; try done.
  6: { (* a section *)
    apply yaml_ok_dict in Hv as [Hnd Hd]. rewrite yaml_entry_dict. cbn [yaml_lines].
    rewrite (section_line n k h st i id rest Hk (same_stack_pop _ _ _ _ _ Hst Hi)). cbn [res_bind].
    assert (id < length h)%nat as Hid by (by eapply lookup_lt_Some).
    set (h1 := set_item id k (Ref (length h)) (h ++ [[]])).
    assert (length h1 = S (length h)) as L1 by (unfold h1, set_item; rewrite length_alter, length_app; cbn; lia).
    assert (h1 !! length h = Some []) as Hn.
    { unfold h1, set_item. rewrite list_lookup_alter_ne by lia. by rewrite lookup_app_r, Nat.sub_diag by lia. }
    assert (h1 !! id = Some (c ++ [(k, Ref (length h))])) as Hc1.
    { unfold h1. apply set_item_fresh; [|done]. by rewrite lookup_app_l. }
    destruct (entries_run d IH (n + 2) h1 ((Z.of_nat n, length h) :: (i, id) :: rest) (Z.of_nat n) (length h) ((i, id) :: rest) [])
      as (h2 & st2 & c' & E & Hst2 & [L2 G2] & Hc2 & Hd2); try done; try lia.
    exists h2, st2, (Ref (length h)). split_and!; [done| | | |].
    - by eapply same_stack_below.
    - split; [lia|]. intros j Hj Hne. rewrite G2 by lia. unfold h1, set_item. rewrite list_lookup_alter_ne by done. by rewrite lookup_app_l.
    - by rewrite G2 by lia.
    - eapply denotes_ref; [lia|exact Hc2|]. by rewrite L1 in Hd2. }
  all: cbn [yaml_entry yaml_lines]; erewrite scalar_line; [|done|by apply scalar_text_reads|by eapply same_stack_pop]; cbn [res_bind];
    eexists _, _, (Scalar _); split; [reflexivity|]; split; [done|]; split; [apply set_item_grows|]; split; [by apply set_item_fresh|];
    by intros h2 fuel _ _.
Qed.
End Runs.

(** ** Texts *)

(** The lines that matter, without comments and trailing white space. *)
Definition significant (raw : pystr) : list pystr :=
  List.filter (fun l => negb (is_blank l)) (map code_of (splitlines raw)).

Lemma code_of_no_comment l : 35 ∉ code_of l.
Proof.
  unfold code_of, str_rstrip, str_lstrip. intros Hin. apply list_elem_of_In in Hin. apply in_rev in Hin. apply list_elem_of_In in Hin.
  assert (forall p (s : pystr) c, c ∈ (span p s).2 -> c ∈ s) as Hsp.
  { clear. induction s as [|x s IH]; intros c; simpl; [done|]. destruct (p x); [|done]. destruct (span p s) as [a b]. simpl in *.
    intros Hc. right. by apply IH. }
  apply Hsp in Hin. apply list_elem_of_In in Hin. apply in_rev in Hin. apply list_elem_of_In in Hin. revert Hin.
  destruct (split_first 35 l) as [[a b]|] eqn:E.
  - revert a b E. induction l as [|x l IH]; intros a b; simpl; [done|]. destruct (Z.eqb_spec x 35) as [->|Hne].
    + intros [= <- <-]. by intros ?%not_elem_of_nil.
    + destruct (split_first 35 l) as [[a' b']|]; [|done]. intros [= <- <-] [?|Hin]%elem_of_cons; [done|]. by eapply IH.
  - induction l as [|x l IH]; simpl in *; [by intros ?%not_elem_of_nil|]. destruct (Z.eqb_spec x 35) as [->|Hne]; [done|].
    destruct (split_first 35 l) as [[? ?]|]; [done|]. intros [?|Hin]%elem_of_cons; [done|]. by apply IH.
Qed.

Lemma span_head_false p (s : pystr) : match (span p s).2 with [] => True | c :: _ => p c = false end.
Proof.
  induction s as [|x s IH]; simpl; [done|]. destruct (p x) eqn:E; [|done]. by destruct (span p s).
Qed.

Lemma str_rstrip_idem s : str_rstrip (str_rstrip s) = str_rstrip s.
Proof.
  unfold str_rstrip, str_lstrip. rewrite rev_involutive. f_equal. apply span_none. apply span_head_false.
Qed.

Lemma code_of_idem l : code_of (code_of l) = code_of l.
Proof.
  unfold code_of at 1. rewrite split_first_none by apply code_of_no_comment. unfold code_of. apply str_rstrip_idem.
Qed.

Section Texts.
Context `{UnicodeData} `{PyBuiltins}.

Lemma yaml_line_code st l : yaml_line st (code_of l) = yaml_line st l.
Proof. unfold yaml_line. by rewrite code_of_idem. Qed.

Lemma yaml_lines_significant st ls :
  yaml_lines st ls = yaml_lines st (List.filter (fun l => negb (is_blank l)) (map code_of ls)).
Proof.
  revert st. induction ls as [|l ls IH]; intros st; [done|]. cbn [map List.filter].
  destruct (is_blank (code_of l)) eqn:E; cbn [negb yaml_lines].
  - unfold yaml_line. rewrite E. apply IH.
  - rewrite yaml_line_code. destruct (yaml_line st l); cbn; [apply IH|done].
Qed.

Lemma entries_parse raw d :
  yaml_ok (PDict d) = true -> significant raw = yaml_entries 0 d -> _parse_simple_yaml raw = Ok (PDict d).
Proof.
  intros Hok Hs. unfold _parse_simple_yaml. rewrite yaml_lines_significant. fold (significant raw). rewrite Hs.
  apply yaml_ok_dict in Hok as [Hnd Hd].
  destruct (entries_run d (proj2 (Forall_forall _ _) (fun kv _ => all_entries_run kv.2)) 0 [[]] [(-1, 0%nat)] (-1) 0 [] [])
    as (h' & st' & c' & E & _ & [L _] & Hc & Hi); try done.
  unfold yaml_start. rewrite E. cbn [res_bind]. f_equal. rewrite read_dict_eq, Hc. cbn in *. f_equal.
  eapply holds_items_read; [exact Hi|done|lia].
Qed.

(** Every line that is written ends where it should. *)
Lemma splitlines_lines ls :
  Forall (fun l => forallb (fun c => negb (is_linebreak c)) l = true) ls ->
  splitlines (flat_map (fun l => l ++ [10]) ls) = ls.
Proof.
  unfold splitlines. induction 1 as [|l ls Hl _ IH]; [done|]. cbn [flat_map]. rewrite <- app_assoc.
  assert (forall cur, lines_from cur (l ++ [10] ++ flat_map (fun l => l ++ [10]) ls) = (rev cur ++ l) :: ls) as Hg; [|by apply (Hg [])].
  induction l as [|c l IHl]; intros cur; cbn [app lines_from].
  - change (is_linebreak 10) with true. cbn. by rewrite app_nil_r, IH.
  - cbn in Hl. apply andb_true_iff in Hl as [Hc Hl]. destruct (is_linebreak c); [done|]. rewrite IHl by done. cbn.
    by rewrite <- app_assoc.
Qed.

Definition written_line (l : pystr) : Prop :=
  forallb (fun c => negb (is_linebreak c)) l = true /\ code_of l = l /\ is_blank l = false.

Lemma plain_breaks s : forallb plain_char s = true -> forallb (fun c => negb (is_linebreak c)) s = true.
Proof. rewrite !Forall_forallb. intros Hs. eapply Forall_impl; [exact Hs|]. unfold plain_char. by intros c [_ Hc]%andb_true_iff. Qed.

Lemma line_written n k rest :
  key_ok k = true -> forallb plain_char rest = true -> Tokenization.is_space (List.last (58 :: rest) 0) = false ->
  written_line (spaces n ++ k ++ 58 :: rest).
Proof.
  intros Hk Hr Hl. split_and!; [|by apply line_code|by apply line_not_blank].
  unfold key_ok in Hk. rewrite !andb_true_iff in Hk. destruct Hk as [[Hk _] _].
  rewrite !forallb_app, (plain_breaks k Hk). cbn [forallb]. rewrite (plain_breaks rest Hr).
  assert (forallb (fun c => negb (is_linebreak c)) (spaces n) = true) as ->; [|done].
  rewrite Forall_forallb. by apply Forall_replicate.
Qed.

Lemma scalar_written n k t v : key_ok k = true -> scalar_reads t v -> written_line (spaces n ++ k ++ 58 :: 32 :: t).
Proof. intros Hk [Hp Hh Hl _]. apply line_written; [done|by cbn; rewrite Hp|]. by destruct t. Qed.

Lemma entry_written v : forall n k, key_ok k = true -> yaml_ok v = true -> Forall written_line (yaml_entry n k v).
Proof.
  induction v as [|b|z|f|s|l IH|l IH|d IH|z] using pyval_ind; intros n k Hk Hv; try done.
  6: { rewrite yaml_entry_dict. apply yaml_ok_dict in Hv as [_ Hd]. constructor; [by apply line_written|].
       unfold yaml_entries. induction IH as [|[k' v] d Hv _ IHd]; cbn; [constructor|]. apply Forall_cons in Hd as [[? ?] Hd].
       apply Forall_app. split; [by apply Hv|by apply IHd]. }
  all: cbn [yaml_entry]; apply Forall_singleton; by eapply scalar_written, scalar_text_reads.
Qed.

Lemma entries_written n d : yaml_ok (PDict d) = true -> Forall written_line (yaml_entries n d).
Proof.
  intros Hd. pose proof (entry_written (PDict d) n [] eq_refl Hd) as Hw. pose proof (yaml_ok_dict d Hd) as [_ H1].
  unfold yaml_entries. clear Hw Hd. induction H1 as [|[k v] d [Hk Hv] _ IH]; cbn; [constructor|].
  apply Forall_app. split; [by apply entry_written|done].
Qed.

Lemma significant_text d : yaml_ok (PDict d) = true -> significant (yaml_text d) = yaml_entries 0 d.
Proof.
  intros Hd. pose proof (entries_written 0 d Hd) as Hw. unfold significant, yaml_text. rewrite splitlines_lines.
  - induction Hw as [|l ls (_ & Hc & Hb) _ IH]; [done|]. cbn. by rewrite Hc, Hb, IH.
  - eapply Forall_impl; [exact Hw|]. by intros l [? _].
Qed.
(** ** Rejected texts *)

Lemma span_keeps p (s : pystr) c : p c = false -> c ∈ s -> c ∈ (span p s).2.
Proof.
  intros Hc. induction s as [|x s IH]; [done|]. simpl. destruct (p x) eqn:E; [|done]. destruct (span p s) as [a b].
  intros [->|Hin]%elem_of_cons; [congruence|]. by apply IH.
Qed.

Lemma strip_keeps (s : pystr) c : Tokenization.is_space c = false -> c ∈ s -> c ∈ str_strip s.
Proof.
  intros Hc Hin. unfold str_strip, str_rstrip, str_lstrip. apply list_elem_of_In. rewrite <- in_rev. apply list_elem_of_In.
  apply span_keeps; [done|]. apply list_elem_of_In. rewrite <- in_rev. apply list_elem_of_In. by apply span_keeps.
Qed.

Lemma split_first_some c s : c ∈ s -> is_Some (split_first c s).
Proof.
  induction s as [|x s IH]; [by intros ?%not_elem_of_nil|]. simpl. intros [->|Hin]%elem_of_cons.
  - rewrite Z.eqb_refl. by eexists.
  - destruct (x =? c); [by eexists|]. destruct (IH Hin) as [[a b] ->]. by eexists.
Qed.

Lemma strip_sub (s : pystr) c : c ∈ str_strip s -> c ∈ s.
Proof.
  assert (forall p (s : pystr), c ∈ (span p s).2 -> c ∈ s) as Hsp.
  { clear. intros p. induction s as [|x s IH]; simpl; [done|]. destruct (p x); [|done]. destruct (span p s) as [a b]. simpl in *.
    intros Hc. right. by apply IH. }
  unfold str_strip, str_rstrip, str_lstrip. intros Hin. apply (Hsp Tokenization.is_space).
  apply list_elem_of_In in Hin. apply in_rev, list_elem_of_In in Hin. apply Hsp in Hin.
  apply list_elem_of_In in Hin. by apply in_rev, list_elem_of_In in Hin.
Qed.

(** The root section is never popped. *)
Definition rooted (st : Sections) : Prop := exists top, st = top ++ [(-1, 0%nat)].

Lemma pop_rooted n st : 0 <= n -> rooted st -> exists i id rest, pop_sections n st = (i, id) :: rest /\ rooted ((i, id) :: rest).
Proof.
  intros Hn [top ->]. induction top as [|[i id] top IH]; simpl.
  - replace (n <=? -1) with false by lia. do 3 eexists. split; [done|]. by exists [].
  - destruct (n <=? i); [done|]. do 3 eexists. split; [done|]. by exists ((i, id) :: top).
Qed.

Lemma indent_nonneg l : 0 <= indent_of l.
Proof.
  unfold indent_of. enough (length (span (fun c => (c =? 32)%Z) l).2 <= length l)%nat by lia.
  induction l as [|x l IH]; simpl; [done|]. destruct (x =? 32); [|done]. destruct (span _ l). simpl in *. lia.
Qed.

Lemma yaml_line_total h st l :
  rooted st -> is_blank (code_of l) = false ->
  if bool_decide (58 ∈ code_of l) then exists h' st', yaml_line (h, st) l = Ok (h', st') /\ rooted st'
  else yaml_line (h, st) l = Raise (err ValueError (str "invalid config line: " ++ code_of l)).
Proof.
  intros Hr Hb. unfold yaml_line. rewrite Hb. case_bool_decide as Hc.
  - destruct (split_first_some 58 (str_strip (code_of l))) as [[key value] ->]; [by apply strip_keeps|].
    destruct (pop_rooted _ st (indent_nonneg (code_of l)) Hr) as (i & id & rest & -> & [top Ht]).
    destruct (is_blank value); do 2 eexists; (split; [reflexivity|]); [|by exists top].
    exists ((indent_of (code_of l), length h) :: top). by rewrite Ht.
  - rewrite split_first_none; [done|]. by intros ?%strip_sub.
Qed.

Lemma yaml_lines_total ls : forall h st, rooted st -> Forall (fun l => is_blank l = false /\ code_of l = l) ls ->
  match List.find (fun l => negb (bool_decide (58 ∈ l))) ls with
  | None => exists h' st', yaml_lines (h, st) ls = Ok (h', st')
  | Some l => yaml_lines (h, st) ls = Raise (err ValueError (str "invalid config line: " ++ l))
  end.
Proof.
  induction ls as [|l ls IH]; intros h st Hr Hl; [by do 2 eexists|]. apply Forall_cons in Hl as [[Hb Hc] Hl].
  pose proof (yaml_line_total h st l Hr ltac:(by rewrite Hc)) as Hy. rewrite Hc in Hy. cbn [List.find yaml_lines].
  destruct (bool_decide (58 ∈ l)); cbn [negb].
  - destruct Hy as (h' & st' & -> & Hr'). cbn [res_bind]. by apply IH.
  - by rewrite Hy.
Qed.

Lemma significant_lines raw : Forall (fun l => is_blank l = false /\ code_of l = l) (significant raw).
Proof.
  unfold significant. apply Forall_forall. intros l Hl. apply list_elem_of_In, filter_In in Hl as [Hin Hb].
  apply in_map_iff in Hin as (x & <- & _). split; [by destruct (is_blank _)|apply code_of_idem].
Qed.

Lemma parse_total raw :
  match List.find (fun l => negb (bool_decide (58 ∈ l))) (significant raw) with
  | None => exists d, _parse_simple_yaml raw = Ok (PDict d)
  | Some l => _parse_simple_yaml raw = Raise (err ValueError (str "invalid config line: " ++ l))
  end.
Proof.
  pose proof (yaml_lines_total (significant raw) [[]] [(-1, 0%nat)] (ex_intro _ [] eq_refl) (significant_lines raw)) as Ht.
  unfold _parse_simple_yaml, yaml_start. rewrite yaml_lines_significant. fold (significant raw). case_match.
  - by rewrite Ht.
  - destruct Ht as (h' & st' & ->). cbn. rewrite read_dict_eq. by eexists.
Qed.
End Texts.

(** Tables for ASCII texts only. *)
Definition ascii_tables : UnicodeData := {| netloc_ok _ := false; int_of_unicode _ := None |}.
Definition plain_builtins : PyBuiltins := {| float_of_unicode _ := None; repr_of_object _ := [] |}.

(** A quotation mark for every tilde: literals cannot hold it. *)
Definition quoted (s : string) : pystr := map (fun c => if c =? 126 then c_quote else c) (str s).

(** [configs/local.yaml], with comments and blank lines added. *)
Definition local_yaml : pystr := quoted "kvstore:   # where the rows live
  metadata_db: ~/tmp/ai-inference-storage-showcase-kv/metadata.sqlite3~

tiers:
  memory:
    enabled: true
    max_bytes: 16777216
  nvme:
    enabled: true
    root_dir: ~/tmp/ai-inference-storage-showcase-kv/files~
    max_bytes: 67108864
    fsync_on_store: false
    use_direct_io: false
    layout_mode: ~segment~
    segment_bytes: 8388608
  s3:
    enabled: false

# the cost model
cost_model:
  tier_profile_path: ~~
  tier_profile_mode: ~p95~
  load_benefit_threshold_ms: 5.0
  s3_load_benefit_threshold_ms: 50.0
  slo_budget_guard_ms: 100.0
".

Definition local_config : list (pystr * pyval) :=
  [(str "kvstore", PDict [(str "metadata_db", PStr (str "/tmp/ai-inference-storage-showcase-kv/metadata.sqlite3"))]);
   (str "tiers", PDict [
      (str "memory", PDict [(str "enabled", PBool true); (str "max_bytes", PInt 16777216)]);
      (str "nvme", PDict [(str "enabled", PBool true);
         (str "root_dir", PStr (str "/tmp/ai-inference-storage-showcase-kv/files")); (str "max_bytes", PInt 67108864);
         (str "fsync_on_store", PBool false); (str "use_direct_io", PBool false);
         (str "layout_mode", PStr (str "segment")); (str "segment_bytes", PInt 8388608)]);
      (str "s3", PDict [(str "enabled", PBool false)])]);
   (str "cost_model", PDict [(str "tier_profile_path", PStr []); (str "tier_profile_mode", PStr (str "p95"));
      (str "load_benefit_threshold_ms", PFloat (f64_of_Z 5)); (str "s3_load_benefit_threshold_ms", PFloat (f64_of_Z 50));
      (str "slo_budget_guard_ms", PFloat (f64_of_Z 100))])].

(** C24: configuration round trip. A document of nested sections, strings, numbers,
    booleans and nulls (distinct keys per section, no comment sign or line break in
    keys and strings) that is written with two spaces for each level is read back
    exactly: no section is attached to the wrong parent, lost or shared. The same
    document is read from every text with those lines, whatever comments, blank lines,
    trailing white space and line ends it has. *)
Theorem config_roundtrip `{UnicodeData} `{PyBuiltins} d :
  yaml_ok (PDict d) = true ->
  _parse_simple_yaml (yaml_text d) = Ok (PDict d) /\
  forall raw, significant raw = yaml_entries 0 d -> _parse_simple_yaml raw = Ok (PDict d).
Proof.
  intros Hd. split; [apply entries_parse; [done|by apply significant_text]|]. intros raw. by apply entries_parse.
Qed.

Lemma config_roundtrip_witness :
  @_parse_simple_yaml ascii_tables plain_builtins local_yaml = Ok (PDict local_config).
Proof.
  apply (proj2 (@config_roundtrip ascii_tables plain_builtins local_config ltac:(vm_compute; reflexivity))).
  vm_compute. reflexivity.
Defined.

(** The parser accepts exactly the texts whose significant lines all have a
    colon, whatever their indentation, and otherwise raises a [ValueError] that
    quotes the first line without one; the section it would have to add an entry to
    always exists. *)
Theorem config_rejected_lines `{UnicodeData} `{PyBuiltins} raw :
  match List.find (fun l => negb (bool_decide (58 ∈ l))) (significant raw) with
  | None => exists d, _parse_simple_yaml raw = Ok (PDict d)
  | Some l => _parse_simple_yaml raw = Raise (err ValueError (str "invalid config line: " ++ l))
  end.
Proof. apply parse_total. Qed.
