(* ===== verification/Capacity.v ===== *)
(** * Capacity planning: [kvstore/capacity_model.py]

    Integer arithmetic on the model configuration; the report is a list of rows
    sorted by tier name, and its Markdown text. *)

From Stdlib Require Import SpecFloat.
From S2P Require Import Prelude PyText Float64 Errors PyVal Json Tokenization Url PyConv Layout FileSystem Config.
Import MNotations ResNotations.
Local Open Scope res_scope.

Record ModelCapacityConfig := {
  name : pystr;
  num_layers : Z;
  num_kv_heads : Z;
  head_dim : Z;
  dtype_bytes : Z;
  context_length : Z;
}.

Record TierCapacity := {
  tc_name : pystr;
  capacity_bytes : Z;
  capacity_tokens : Z;
  estimated_full_context_concurrency : Z;
}.

Record CapacityReport := {
  cr_model : ModelCapacityConfig;
  cr_bytes_per_token : Z;
  per_request_kv_bytes : Z;
  cr_tiers : list TierCapacity;
}.

Section Config.
Context `{UnicodeData} `{PyBuiltins}.

(** [int(data[k])]. *)
Definition int_item (data : pyval) (k : pystr) : res Z := let? v := py_item data k in py_int v.

(** [ModelCapacityConfig.from_dict]. *)
Definition from_dict (data : pyval) : res ModelCapacityConfig :=
  let? d := dict_of data in
  let? name := py_str (default (PStr (str "model")) (dict_get (str "name") d)) in
  let? layers := int_item data (str "num_layers") in
  let? heads := int_item data (str "num_kv_heads") in
  let? dim := int_item data (str "head_dim") in
  let? dtype := int_item data (str "dtype_bytes") in
  let? context := int_item data (str "context_length") in
  Ok {| name := name; num_layers := layers; num_kv_heads := heads; head_dim := dim; dtype_bytes := dtype; context_length := context |}.

(** The sizes of the tiers, by name. *)
Fixpoint tier_sizes (items : list (pystr * pyval)) : res (list (pystr * Z)) :=
  match items with
  | [] => Ok []
  | (k, item) :: rest =>
      let? n := int_item item (str "capacity_bytes") in
      let? sizes := tier_sizes rest in
      Ok ((k, n) :: sizes)
  end.

Definition capacity_config (obj : pyval) : res (ModelCapacityConfig * list (pystr * Z)) :=
  let? model := py_item obj (str "model") in
  let? model := from_dict model in
  let? tiers := py_item obj (str "tiers") in
  let? items := dict_of tiers in
  let? sizes := tier_sizes items in
  Ok (model, sizes).

Definition load_capacity_config (cwd : path) (file : pystr) : M Fs (ModelCapacityConfig * list (pystr * Z)) :=
  (let* b := read_bytes cwd file in
   lift (let? text := decode_text b in let? obj := json_loads text in capacity_config obj)%res)%m.
End Config.

Definition kv_bytes_per_token (cfg : ModelCapacityConfig) : Z :=
  num_layers cfg * 2 * num_kv_heads cfg * head_dim cfg * dtype_bytes cfg.

(** [a // b]. *)
Definition floordiv (a b : Z) : res Z :=
  if b =? 0 then Raise (err ZeroDivisionError (str "integer division or modulo by zero")) else Ok (a / b).

(** One row; the arguments are evaluated in the order of the source. *)
Definition tier_row (bpt per_request : Z) (item : pystr * Z) : res TierCapacity :=
  let? tokens := floordiv item.2 bpt in
  let? concurrency := if per_request =? 0 then Ok 0 else floordiv item.2 per_request in
  Ok {| tc_name := item.1; capacity_bytes := item.2; capacity_tokens := tokens;
        estimated_full_context_concurrency := concurrency |}.

(** [sorted(tiers.items())]: the names of a dict are distinct. *)
Definition estimate_capacity (cfg : ModelCapacityConfig) (tiers : list (pystr * Z)) : res CapacityReport :=
  let bpt := kv_bytes_per_token cfg in
  let per_request := bpt * context_length cfg in
  let? rows := res_list (tier_row bpt per_request) (py_sort (fun a b => str_leb a.1 b.1) tiers) in
  Ok {| cr_model := cfg; cr_bytes_per_token := bpt; per_request_kv_bytes := per_request; cr_tiers := rows |}.

(** ** The report *)

Definition code (s : pystr) : pystr := 96 :: s ++ [96].

Definition report_row (t : TierCapacity) : res pystr :=
  let? bytes_ := int_text (capacity_bytes t) in
  let? tokens := int_text (capacity_tokens t) in
  let? concurrency := int_text (estimated_full_context_concurrency t) in
  Ok (str "| " ++ tc_name t ++ str " | " ++ bytes_ ++ str " | " ++ tokens ++ str " | " ++ concurrency ++ str " |").

Definition report_lines (r : CapacityReport) : res (list pystr) :=
  let? bpt := int_text (cr_bytes_per_token r) in
  let? context := int_text (context_length (cr_model r)) in
  let? per_request := int_text (per_request_kv_bytes r) in
  let? rows := res_list report_row (cr_tiers r) in
  Ok ([str "# KV Capacity Model"; [];
       str "Model: " ++ code (name (cr_model r)); [];
       str "KV bytes per token: " ++ code bpt;
       str "Per-request KV bytes at context length " ++ context ++ str ": " ++ code per_request; [];
       str "| tier | capacity_bytes | capacity_tokens | full_context_concurrency |";
       str "|---|---:|---:|---:|"] ++
      rows ++
      [[]; str "Interpretation:"; [];
       str "- KV bytes/token includes both K and V tensors across all layers.";
       str "- Full-context concurrency is a capacity estimate, not an SLO guarantee.";
       str "- Multi-tier KV increases reusable context capacity but adds load latency, so it must be paired with the CostModel."]).

(** The text [write_capacity_report] writes. *)
Definition capacity_report_text (r : CapacityReport) : res pystr :=
  let? ls := report_lines r in Ok (join [10] ls ++ [10]).

Definition write_capacity_report (r : CapacityReport) (out : path) : M Fs unit :=
  (let* text := lift (capacity_report_text r) in
   mkdir (path_parent out) ;;
   write_text out text)%m.

(** ** Properties *)

Lemma res_list_row f (l : list (pystr * Z)) rows :
  res_list f l = Ok rows -> Forall2 (fun (x : pystr * Z) (y : TierCapacity) => f x = Ok y) l rows.
Proof.
  revert rows. induction l as [|x l IH]; simpl; intros rows Hr; [injection Hr as <-; constructor|].
  apply res_bind_ok in Hr as (y & Hy & Hr). apply res_map_ok in Hr as (ys & Hys & ->). constructor; auto.
Qed.

Lemma tier_row_inv bpt per x t :
  tier_row bpt per x = Ok t ->
  tc_name t = x.1 /\ capacity_bytes t = x.2 /\ capacity_tokens t = x.2 / bpt /\
  (per <> 0 -> estimated_full_context_concurrency t = x.2 / per).
Proof.
  unfold tier_row, floordiv. intros (n & Hn & Hr)%res_bind_ok. destruct (bpt =? 0); [done|]. injection Hn as <-.
  apply res_bind_ok in Hr as (c & Hc & [= <-]). split_and!; try done. intros Hp.
  destruct (Z.eqb_spec per 0); [done|]. by injection Hc as <-.
Qed.

(** The floor of a quotient, as bounds. *)
Lemma floor_bounds a b : 0 < b -> a / b * b <= a < (a / b + 1) * b.
Proof. intros Hb. pose proof (Z.div_mod a b). pose proof (Z.mod_pos_bound a b). nia. Qed.

(** The capacity estimates are the exact floors. Of a report for a model with
    positive dimensions, every row is one of the tiers passed in, the rows are sorted
    by name, [capacity_tokens] is the largest number of tokens whose KV data fit, and
    the full-context concurrency is the largest number of full contexts, which is
    also the token capacity divided by the context length. *)
Theorem capacity_report_exact cfg tiers r :
  0 < kv_bytes_per_token cfg -> 0 < context_length cfg -> estimate_capacity cfg tiers = Ok r ->
  map (fun t => (tc_name t, capacity_bytes t)) (cr_tiers r) ≡ₚ tiers /\
  StronglySorted (fun a b => str_leb (tc_name a) (tc_name b) = true) (cr_tiers r) /\
  Forall (fun t =>
    capacity_tokens t * cr_bytes_per_token r <= capacity_bytes t <
      (capacity_tokens t + 1) * cr_bytes_per_token r /\
    estimated_full_context_concurrency t * per_request_kv_bytes r <= capacity_bytes t <
      (estimated_full_context_concurrency t + 1) * per_request_kv_bytes r /\
    estimated_full_context_concurrency t = capacity_tokens t / context_length cfg) (cr_tiers r).
Proof.
  intros Hb Hc Hr. unfold estimate_capacity in Hr. apply res_bind_ok in Hr as (rows & Hrows & [= <-]). simpl.
  set (bpt := kv_bytes_per_token cfg) in *. apply res_list_row in Hrows.
  assert (map (fun t => (tc_name t, capacity_bytes t)) rows = py_sort (fun a b => str_leb a.1 b.1) tiers) as Em.
  { clear -Hrows. induction Hrows as [|x y l rows Hy _ IH]; simpl; [done|].
    apply tier_row_inv in Hy as (-> & -> & _). rewrite IH. by destruct x. }
  split_and!.
  - rewrite Em. apply py_sort_perm.
  - assert (StronglySorted (fun a b : pystr * Z => str_leb a.1 b.1 = true) (py_sort (fun a b => str_leb a.1 b.1) tiers)) as Hs.
    { apply (py_sort_sorted (fun a b : pystr * Z => str_leb a.1 b.1)); intros; [apply str_leb_total|by eapply str_leb_trans]. }
    rewrite <- Em in Hs. clear -Hs. induction rows as [|t rows IH]; [constructor|].
    apply StronglySorted_inv in Hs as [Hs Hf]. constructor; [by apply IH|].
    apply Forall_map in Hf. exact Hf.
  - apply Forall_forall. intros t Ht. apply list_elem_of_lookup in Ht as (n & Hn).
    apply (Forall2_lookup_r _ _ _ _ _ Hrows) in Hn as (x & _ & Hx).
    apply tier_row_inv in Hx as (_ & -> & Ht & Hq). rewrite Ht, Hq by nia.
    split; [by apply floor_bounds|]. split; [apply floor_bounds; nia|symmetry; apply Z.div_div; lia].
Qed.

Definition unit_model : ModelCapacityConfig :=
  {| name := str "unit"; num_layers := 2; num_kv_heads := 4; head_dim := 8; dtype_bytes := 2; context_length := 16 |}.

Definition unit_report : CapacityReport :=
  {| cr_model := unit_model; cr_bytes_per_token := 256; per_request_kv_bytes := 4096;
     cr_tiers := [{| tc_name := str "gpu"; capacity_bytes := 4100; capacity_tokens := 16;
                     estimated_full_context_concurrency := 1 |}] |}.

Lemma capacity_report_exact_witness :
  estimate_capacity unit_model [(str "gpu", 4100)] = Ok unit_report /\
  Forall (fun t => estimated_full_context_concurrency t = capacity_tokens t / 16) (cr_tiers unit_report).
Proof.
  split; [reflexivity|].
  destruct (capacity_report_exact unit_model [(str "gpu", 4100)] unit_report) as (_ & _ & Hf).
  - reflexivity.
  - reflexivity.
  - reflexivity.
  - eapply Forall_impl; [exact Hf|]. intros t (_ & _ & E). exact E.
Defined.

(** The token capacity has no guard: a configuration with a zero dimension raises,
    although the concurrency next to it is guarded. *)
Theorem zero_dimension_raises cfg t ts :
  kv_bytes_per_token cfg = 0 ->
  exists e, estimate_capacity cfg (t :: ts) = Raise e /\ is_a e ZeroDivisionError = true.
Proof.
  intros Hz. unfold estimate_capacity. rewrite Hz.
  destruct (py_sort _ (t :: ts)) as [|x l] eqn:E.
  - apply (f_equal length) in E. rewrite py_sort_length in E. done.
  - simpl. eexists. split; reflexivity.
Qed.
