(* ===== verification/TierProfileImport.v ===== *)
(** * Importing measured tier profiles: [kvstore/tier_profile_import.py]

    The cost model's profiles are taken from a file of measurements. The file is
    validated against a JSON Schema by the package [jsonschema], the class
    [JsonSchema] here. [Path(__file__).resolve().parents[2]], the root of the
    repository, is the argument [repo]. *)

From Stdlib Require Import SpecFloat.
From S2P Require Import CostModel.
From S2P Require Import Prelude PyText Sha256 Float64 Errors PyVal Json Metadata Tokenization Url PyConv Layout FileSystem Config.
Import MNotations ResNotations.
Local Open Scope res_scope.

(** A step of the path of a validation error: a key or an index. *)
Inductive path_step := StepKey (k : pystr) | StepIndex (i : Z).

Class JsonSchema := {
  (** [Draft202012Validator.check_schema(schema)] *)
  check_schema : pyval -> res unit;
  (** [Draft202012Validator(schema).iter_errors(obj)]: paths and messages *)
  iter_errors : pyval -> pyval -> list (list path_step * pystr);
}.

(** ** Profiles *)

Abbreviation Profiles := (TierName -> option TierProfile).

(** [d[t] = p]. *)
Definition set_tier {A} (t : TierName) (p : A) (d : TierName -> A) : TierName -> A :=
  fun t' => if base.decide (t' = t) then p else d t'.

Definition profile (latency bandwidth deserialize h2d : f64) : TierProfile :=
  {| fixed_latency_ms := latency; bandwidth_gbps := bandwidth; deserialize_ms_per_mb := deserialize;
     h2d_bandwidth_gbps := h2d |}.

Definition _default_profiles : Profiles := fun t => Some
  match t with
  | MEMORY => profile (f64_of_decimal false 2 (-2)) (f64_of_Z 80) (f64_of_decimal false 5 (-3)) (f64_of_Z 24)
  | NVME => profile (f64_of_decimal false 35 (-2)) (f64_of_Z 5) (f64_of_decimal false 2 (-2)) (f64_of_Z 24)
  | Metadata.S3 => profile (f64_of_Z 25) (f64_of_Z 1) (f64_of_decimal false 3 (-2)) (f64_of_Z 24)
  end.

Record TierProfileImport := {
  imp_profiles : Profiles;
  imp_sources : TierName -> pystr;
  imp_provenance : list (pystr * pyval);
}.

(** ** Selection *)

(** [v is not False]. *)
Definition is_not_false (v : pyval) : bool := match v with PBool false => false | _ => true end.

Fixpoint _select_first_available_profile (profiles : list (pystr * pyval)) (names : list pystr) : res (option pystr) :=
  match names with
  | [] => Ok None
  | name :: rest =>
      match get_or_none name profiles with
      | PNone => _select_first_available_profile profiles rest
      | entry =>
          let? available := py_get entry (str "available") PNone in
          if is_not_false available then Ok (Some name) else _select_first_available_profile profiles rest
      end
  end.

Fixpoint _select_first_present_profile (profiles : list (pystr * pyval)) (names : list pystr) : option pystr :=
  match names with
  | [] => None
  | name :: rest => if dict_has name profiles then Some name else _select_first_present_profile profiles rest
  end.

Section Importing.
Context `{UnicodeData} `{PyBuiltins} `{JsonSchema}.

Definition zero_float : f64 := S754_zero false.
Definition kilo : f64 := f64_of_Z 1024.

Definition _profile_from_entry (entry : pyval) (profile_mode : pystr) : res TierProfile :=
  let? d := dict_of entry in
  ensure (is_not_false (get_or_none (str "available") d)) (err ValueError (str "selected tier profile is unavailable")) ;?
  let latency_key := profile_mode ++ str "_ms" in
  ensure (dict_has latency_key d) (err ValueError (str "missing " ++ latency_key)) ;?
  let? mbps := py_float (default (PFloat zero_float) (dict_get (str "bandwidth_MBps") d)) in
  let? mbps := (if f64_leb mbps zero_float
                then let? gbps := py_float (default (PFloat zero_float) (dict_get (str "bandwidth_GBps") d)) in
                     Ok (f64_mul gbps kilo)
                else Ok mbps) in
  ensure (negb (f64_leb mbps zero_float)) (err ValueError (str "tier profile must include positive bandwidth")) ;?
  let? latency := py_float (get_or_none latency_key d) in
  Ok (profile latency (f64_div mbps kilo) (f64_of_decimal false 2 (-2)) (f64_of_Z 24)).

(** ** Validation *)

(** The order of the paths: lists of keys and indices. Two paths that agree up to a
    step lead to the same container there, so the steps are of one kind. *)
Definition step_cmp (a b : path_step) : comparison :=
  match a, b with
  | StepKey k, StepKey k' => str_cmp k k'
  | StepIndex i, StepIndex j => Z.compare i j
  | StepIndex _, StepKey _ => Lt
  | StepKey _, StepIndex _ => Gt
  end.

Definition error_leb (a b : list path_step * pystr) : bool :=
  match lex_cmp step_cmp a.1 b.1 with Gt => false | _ => true end.

Definition step_text (s : path_step) : pystr := match s with StepKey k => k | StepIndex i => int_repr i end.

Definition schema_error (e : list path_step * pystr) : exn :=
  let path := join [46] (map step_text e.1) in
  err ValueError (str "tier_profile schema error at " ++
                  (if bool_decide (path = []) then str "<root>" else path) ++ str ": " ++ e.2).

Definition check_against (schema obj : pyval) : res unit :=
  check_schema schema ;?
  match py_sort error_leb (iter_errors schema obj) with
  | first :: _ => Raise (schema_error first)
  | [] => Ok tt
  end.

Definition schema_missing : exn :=
  err ValueError (str "tier profile schema not found; pass schema_path when using the kvstore package outside this repository").

Context (repo cwd : path).

(** The schema that is read: the argument, or the file of the repository. *)
Definition schema_file (schema_path : option pystr) : pystr :=
  match schema_path with
  | Some p => p
  | None => path_text (repo ++ [str "shared"; str "schema"; str "tier_profile.schema.json"])
  end.

(** [Path(text).is_file()]. *)
Definition text_is_file (text : pystr) : M Fs bool :=
  gets (fun s => negb (bool_decide (0 ∈ text)) &&
    match walk s [] (match text with 47 :: _ => parse_part text | _ => cwd ++ parse_part text end) with
    | Some p => is_file s p
    | None => false
    end).

Definition _validate_schema (obj : pyval) (schema_path : option pystr) : M Fs unit :=
  (let* found := text_is_file (schema_file schema_path) in
   when (negb found) (raise schema_missing) ;;
   let* b := read_bytes cwd (schema_file schema_path) in
   lift (let? text := decode_text b in let? schema := json_loads text in check_against schema obj)%res)%m.

(** ** Import *)

(** [str(Path(text))]. *)
Definition path_str (text : pystr) : pystr :=
  match text with
  | 47 :: _ => path_text (text_parts text)
  | _ => match parse_part text with [] => str "." | p => join [47] p end
  end.

(** [v or w]. *)
Definition or_else (v w : pyval) : pyval := if truthy v then v else w.

Definition synthetic : pystr := str "synthetic_default_explicit_fallback".

(** The profile of the S3 tier and where it comes from. *)
Definition import_s3 (profiles : list (pystr * pyval)) (profile_mode : pystr) : res (option TierProfile * pystr) :=
  match _select_first_present_profile profiles [str "object_s3"; str "s3_http_default"] with
  | None => Ok (None, str "explicit_fallback:missing_s3_profile")
  | Some name =>
      let? entry := dict_of (get_or_none name profiles) in
      if is_not_false (get_or_none (str "available") entry) then
        let? p := _profile_from_entry (PDict entry) profile_mode in
        Ok (Some p, str "tier_profile:" ++ name ++ str ":" ++ profile_mode)
      else
        let? reason := py_str (or_else (get_or_none (str "unavailable_reason") entry)
                                 (or_else (get_or_none (str "reason") entry) (PStr (str "unavailable")))) in
        Ok (None, str "explicit_fallback:" ++ name ++ str ":unavailable:" ++ reason)
  end.

(** [str(obj.get(k) or "")]. *)
Definition text_field (k : pystr) (obj : list (pystr * pyval)) : res pyval :=
  res_map PStr (py_str (or_else (get_or_none k obj) (PStr []))).

Definition import_provenance (obj : list (pystr * pyval)) (path : pystr) (artifact : pybytes) (profile_mode nvme_name : pystr)
  : res (list (pystr * pyval)) :=
  let? version := match dict_get (str "contract_version") obj with
                  | Some v => py_int v
                  | None => Raise (err KeyError (str "'contract_version'"))
                  end in
  let? generated := text_field (str "generated_at") obj in
  let? env_id := text_field (str "env_id") obj in
  let? source := text_field (str "source_csv") obj in
  Ok [(str "artifact_path", PStr (path_str path)); (str "artifact_sha256", PStr (sha256_hex artifact));
      (str "contract_version", PInt version); (str "generated_at", generated); (str "env_id", env_id);
      (str "source_csv", source); (str "profile_mode", PStr profile_mode); (str "local_file_profile", PStr nvme_name);
      (str "embedded", match get_or_none (str "provenance") obj with PDict d => PDict d | _ => PDict [] end)].

(** The part after the validation. *)
Definition import_document (obj : pyval) (path : pystr) (artifact : pybytes) (profile_mode local_file_profile : pystr)
  : res TierProfileImport :=
  let? top := dict_of obj in
  let? profiles := dict_of (default (PDict []) (dict_get (str "profiles") top)) in
  let? nvme_name := _select_first_available_profile profiles [local_file_profile; str "file_posix_default"] in
  match nvme_name with
  | None => Raise (err ValueError (str "missing profile " ++ local_file_profile ++ str " or file_posix_default"))
  | Some nvme_name =>
      let? nvme := _profile_from_entry (get_or_none nvme_name profiles) profile_mode in
      let? (s3, s3_source) := import_s3 profiles profile_mode in
      let? provenance := import_provenance top path artifact profile_mode nvme_name in
      let out := set_tier NVME (Some nvme) _default_profiles in
      Ok {| imp_profiles := match s3 with Some p => set_tier Metadata.S3 (Some p) out | None => out end;
            imp_sources := set_tier Metadata.S3 s3_source
                             (set_tier NVME (str "tier_profile:" ++ nvme_name ++ str ":" ++ profile_mode) (fun _ => synthetic));
            imp_provenance := provenance |}
  end.

Definition is_mode (s : pystr) : bool :=
  bool_decide (s = str "p50") || bool_decide (s = str "p95") || bool_decide (s = str "p99").

Definition import_profiles_from_tier_profile (path profile_mode local_file_profile : pystr) (schema_path : option pystr)
  : M Fs TierProfileImport :=
  (when (negb (is_mode profile_mode)) (raise (err ValueError (str "profile_mode must be one of p50, p95, p99"))) ;;
   let* artifact := read_bytes cwd path in
   let* obj := lift (json_loads_bytes artifact) in
   _validate_schema obj schema_path ;;
   lift (import_document obj path artifact profile_mode local_file_profile))%m.

Definition profiles_from_tier_profile (path profile_mode local_file_profile : pystr) (schema_path : option pystr)
  : M Fs Profiles :=
  (let* r := import_profiles_from_tier_profile path profile_mode local_file_profile schema_path in
   ret (imp_profiles r))%m.
End Importing.
