(* ===== verification/TierProfileSpec.v ===== *)
(** * What an import of tier profiles guarantees *)

From Stdlib Require Import SpecFloat.
From S2P Require Import CostModel.
From S2P Require Import Prelude PyText Sha256 Float64 Errors PyVal Json Metadata Tokenization Url PyConv Layout FileSystem FileSystemFacts Config ConfigSpec TierProfileImport.
Import MNotations ResNotations.
Local Open Scope res_scope.

(** An entry of the document that is not marked unavailable. *)
Definition usable (profiles : list (pystr * pyval)) (name : pystr) (d : list (pystr * pyval)) : Prop :=
  dict_get name profiles = Some (PDict d) /\ dict_get (str "available") d <> Some (PBool false).

(** The profiles of a store without measurements: latency in milliseconds, bandwidth,
    milliseconds per megabyte of decoding, bandwidth to the accelerator. *)
Definition built_in (t : TierName) : TierProfile :=
  match t with
  | MEMORY => profile (f64_of_decimal false 20 (-3)) (f64_of_Z 80) (f64_of_decimal false 5 (-3)) (f64_of_Z 24)
  | NVME => profile (f64_of_decimal false 350 (-3)) (f64_of_Z 5) (f64_of_decimal false 20 (-3)) (f64_of_Z 24)
  | Metadata.S3 => profile (f64_of_Z 25) (f64_of_Z 1) (f64_of_decimal false 30 (-3)) (f64_of_Z 24)
  end.

Lemma default_built_in t : _default_profiles t = Some (built_in t).
Proof. destruct t; vm_compute; reflexivity. Qed.

Section Facts.
Context `{UnicodeData} `{PyBuiltins} `{JsonSchema}.

(** [x] is the number of a field, zero without one. *)
Definition number_of (k : pystr) (d : list (pystr * pyval)) (x : f64) : Prop :=
  match dict_get k d with Some v => py_float v = Ok x | None => x = f64_of_Z 0 end.

(** The bandwidth of an entry in megabytes: the field in megabytes when it is positive,
    otherwise the field in gigabytes; what is used is positive, or NaN. *)
Definition bandwidth_of (d : list (pystr * pyval)) (mbps : f64) : Prop :=
  f64_leb mbps (f64_of_Z 0) = false /\
  exists m, number_of (str "bandwidth_MBps") d m /\
    if f64_leb m (f64_of_Z 0) then exists gbps, number_of (str "bandwidth_GBps") d gbps /\ mbps = f64_mul gbps (f64_of_Z 1024)
    else mbps = m.

(** The profile [p] of the entry [d]: its latency for the mode and its bandwidth; the
    cost of decoding and the bandwidth to the accelerator are not measured. *)
Definition measured (d : list (pystr * pyval)) (mode : pystr) (p : TierProfile) : Prop :=
  (exists v, dict_get (mode ++ str "_ms") d = Some v /\ py_float v = Ok (fixed_latency_ms p)) /\
  (exists mbps, bandwidth_of d mbps /\ bandwidth_gbps p = f64_div mbps (f64_of_Z 1024)) /\
  deserialize_ms_per_mb p = f64_of_decimal false 20 (-3) /\ h2d_bandwidth_gbps p = f64_of_Z 24.

Lemma is_not_false_get k d : is_not_false (get_or_none k d) = true <-> dict_get k d <> Some (PBool false).
Proof.
  unfold get_or_none. destruct (dict_get k d) as [[|[]| | | | | | |]|]; cbn; split; try done; by intros Hf; destruct Hf.
Qed.

Lemma number_of_float k d x : py_float (default (PFloat zero_float) (dict_get k d)) = Ok x -> number_of k d x.
Proof. unfold number_of. destruct (dict_get k d); [done|]. by intros [= <-]. Qed.

Lemma profile_measured d mode p :
  _profile_from_entry (PDict d) mode = Ok p ->
  dict_get (str "available") d <> Some (PBool false) /\ measured d mode p.
Proof.
  unfold _profile_from_entry. cbn [dict_of res_bind]. intros Hp.
  apply res_bind_ok in Hp as ([] & Hav%ensure_ok & Hp). apply res_bind_ok in Hp as ([] & Hkey%ensure_ok & Hp).
  apply res_bind_ok in Hp as (m0 & Hm0 & Hp). apply res_bind_ok in Hp as (mbps & Hm & Hp).
  apply res_bind_ok in Hp as ([] & Hpos%ensure_ok & Hp). apply res_bind_ok in Hp as (lat & Hl & [= <-]).
  apply negb_true_iff in Hpos. split; [by apply is_not_false_get|]. split.
  - unfold dict_has, get_or_none in Hkey, Hl. destruct (dict_get (mode ++ str "_ms") d) as [v|]; [|done]. by exists v.
  - split; [|by split; vm_compute]. change (f64_of_Z 1024) with kilo. exists mbps. split; [|done]. split; [done|].
    exists m0. apply number_of_float in Hm0. split; [done|]. change (f64_of_Z 0) with zero_float.
    destruct (f64_leb m0 zero_float); [|by injection Hm]. apply res_bind_ok in Hm as (g & Hg & [= <-]).
    apply number_of_float in Hg. by exists g.
Qed.

Lemma select_available profiles names name :
  _select_first_available_profile profiles names = Ok (Some name) ->
  exists before d after, names = before ++ name :: after /\ usable profiles name d /\
    Forall (fun n => forall d', ~ usable profiles n d') before.
Proof.
  induction names as [|n names IH]; [done|]. cbn [_select_first_available_profile]. intros Hs.
  assert ((_select_first_available_profile profiles names = Ok (Some name) /\ forall d', ~ usable profiles n d') \/
          (n = name /\ exists d, usable profiles name d)) as [[Hr Hn]|[-> [d Hd]]].
  { unfold usable. destruct (get_or_none n profiles) eqn:E; try done; [left|]; unfold get_or_none in E.
    - split; [done|]. intros d' [Hd _]. by rewrite Hd in E.
    - destruct (dict_get n profiles) as [v|] eqn:E0; [|done]. cbn in E. subst v. cbn [py_get dict_of res_bind] in Hs.
      change (default PNone (dict_get (str "available") d)) with (get_or_none (str "available") d) in Hs.
      destruct (is_not_false (get_or_none (str "available") d)) eqn:Ea.
      + right. injection Hs as ->. split; [done|]. exists d. split; [done|]. by apply is_not_false_get.
      + left. split; [done|]. intros d' [[= <-] Hav]. apply is_not_false_get in Hav. congruence. }
  - destruct (IH Hr) as (before & d & after & -> & Hd & Hb). exists (n :: before), d, after. by split_and!; [..|constructor].
  - exists [], d, names. by split_and!.
Qed.

Lemma select_present profiles names :
  match _select_first_present_profile profiles names with
  | None => Forall (fun n => dict_get n profiles = None) names
  | Some name => exists before after v, names = before ++ name :: after /\ dict_get name profiles = Some v /\
      Forall (fun n => dict_get n profiles = None) before
  end.
Proof.
  induction names as [|n names IH]; cbn; [constructor|]. unfold dict_has. destruct (dict_get n profiles) as [v|] eqn:E.
  - by exists [], names, v.
  - destruct (_select_first_present_profile profiles names).
    + destruct IH as (before & after & v & -> & Hv & Hb). exists (n :: before), after, v. by split_and!; [..|constructor].
    + by constructor.
Qed.

Definition s3_names : list pystr := [str "object_s3"; str "s3_http_default"].

(** The first of the names that the document has. *)
Definition first_present (profiles : list (pystr * pyval)) (names : list pystr) (name : pystr) : Prop :=
  exists before after, names = before ++ name :: after /\ dict_has name profiles = true /\
    Forall (fun n => dict_get n profiles = None) before.

(** Why an entry is unavailable, as it says. *)
Definition reason_of (d : list (pystr * pyval)) : res pystr :=
  py_str (or_else (get_or_none (str "unavailable_reason") d) (or_else (get_or_none (str "reason") d) (PStr (str "unavailable")))).

(** Where the profile of the S3 tier comes from. *)
Inductive s3_origin (profiles : list (pystr * pyval)) (mode : pystr) : option TierProfile -> pystr -> Prop :=
  | s3_missing : Forall (fun n => dict_get n profiles = None) s3_names ->
      s3_origin profiles mode (Some (built_in Metadata.S3)) (str "explicit_fallback:missing_s3_profile")
  | s3_unavailable name d reason : first_present profiles s3_names name -> dict_get name profiles = Some (PDict d) ->
      dict_get (str "available") d = Some (PBool false) -> reason_of d = Ok reason ->
      s3_origin profiles mode (Some (built_in Metadata.S3)) (str "explicit_fallback:" ++ name ++ str ":unavailable:" ++ reason)
  | s3_measured name d p : first_present profiles s3_names name -> usable profiles name d -> measured d mode p ->
      s3_origin profiles mode (Some p) (str "tier_profile:" ++ name ++ str ":" ++ mode).

Lemma import_s3_origin profiles mode p source :
  import_s3 profiles mode = Ok (p, source) ->
  s3_origin profiles mode (match p with Some p => Some p | None => _default_profiles Metadata.S3 end) source.
Proof.
  rewrite default_built_in. unfold import_s3. pose proof (select_present profiles s3_names) as Hsel. fold s3_names.
  destruct (_select_first_present_profile profiles s3_names) as [name|]; [|intros [= <- <-]; by constructor].
  destruct Hsel as (before & after & v & En & Hv & Hb).
  assert (first_present profiles s3_names name) as Hin by (exists before, after; unfold dict_has; by rewrite Hv).
  unfold get_or_none at 1. rewrite Hv. cbn [default from_option id]. intros Hi. apply res_bind_ok in Hi as (d & Hd & Hi).
  destruct v; try done. injection Hd as ->. destruct (is_not_false (get_or_none (str "available") d)) eqn:Ea.
  - apply res_bind_ok in Hi as (q & Hq & [= <- <-]). apply profile_measured in Hq as [Hav Hm]. by eapply s3_measured.
  - apply res_bind_ok in Hi as (reason & Hr & [= <- <-]). eapply s3_unavailable; [done|done| |done].
    unfold get_or_none in Ea. by destruct (dict_get (str "available") d) as [[|[]| | | | | | |]|].
Qed.

(** Reading leaves the files as they are. *)
Lemma read_bytes_files cwd text s : fs_files (read_bytes cwd text s).1 = fs_files s.
Proof.
  unfold read_bytes. case_bool_decide; [done|]. unfold bind, gets. destruct (walk _ _ _);
    unfold read_file, guarded, bind, syscall, raise, gets, ret; repeat case_match; simplify_eq/=; done.
Qed.

Context (repo cwd : path).

(** The document passed the schema found in the files. *)
Definition validated_against (s : Fs) (schema_path : option pystr) (obj : pyval) : Prop :=
  exists s1 b text schema, fs_files s1 = fs_files s /\ (read_bytes cwd (schema_file repo schema_path) s1).2 = Ok b /\
    decode_text b = Ok text /\ json_loads text = Ok schema /\ check_schema schema = Ok tt /\ iter_errors schema obj = [].

(** What the provenance [prov] records: the file with its digest, the fields of the
    document, the choices made. *)
Record provenance_of (obj : list (pystr * pyval)) (path : pystr) (artifact : pybytes) (mode name : pystr)
    (prov : list (pystr * pyval)) : Prop := {
  pr_file : dict_get (str "artifact_path") prov = Some (PStr (path_str path)) /\
            dict_get (str "artifact_sha256") prov = Some (PStr (sha256_hex artifact));
  pr_version : exists v n, dict_get (str "contract_version") obj = Some v /\ py_int v = Ok n /\
                 dict_get (str "contract_version") prov = Some (PInt n);
  pr_text k : k ∈ [str "generated_at"; str "env_id"; str "source_csv"] ->
                exists t, py_str (or_else (get_or_none k obj) (PStr [])) = Ok t /\ dict_get k prov = Some (PStr t);
  pr_choice : dict_get (str "profile_mode") prov = Some (PStr mode) /\ dict_get (str "local_file_profile") prov = Some (PStr name);
  pr_embedded : dict_get (str "embedded") prov =
                  Some (match get_or_none (str "provenance") obj with PDict d => PDict d | _ => PDict [] end);
}.

(** A successful import, traced to the document. *)
Record traced (s : Fs) (path mode local : pystr) (schema_path : option pystr) (r : TierProfileImport) : Prop := {
  tr_mode : is_mode mode = true;
  tr_document : exists artifact obj profiles name d p,
    (read_bytes cwd path s).2 = Ok artifact /\ json_loads_bytes artifact = Ok (PDict obj) /\
    validated_against s schema_path (PDict obj) /\
    dict_get (str "profiles") obj = Some (PDict profiles) /\
    (name = local \/ name = str "file_posix_default" /\ forall d', ~ usable profiles local d') /\
    usable profiles name d /\ measured d mode p /\ imp_profiles r NVME = Some p /\
    imp_sources r NVME = str "tier_profile:" ++ name ++ str ":" ++ mode /\
    s3_origin profiles mode (imp_profiles r Metadata.S3) (imp_sources r Metadata.S3) /\
    provenance_of obj path artifact mode name (imp_provenance r);
  tr_memory : imp_profiles r MEMORY = Some (built_in MEMORY) /\ imp_sources r MEMORY = str "synthetic_default_explicit_fallback";
}.

Lemma validate_ok obj schema_path s s' u :
  _validate_schema repo cwd obj schema_path s = (s', Ok u) -> validated_against s schema_path obj.
Proof.
  unfold _validate_schema. intros (found & s1 & Hf & Hv)%bind_ok. injection Hf as <- _.
  apply bind_ok in Hv as ([] & s2 & Hw & Hv). apply when_raise_ok in Hw as [_ ->].
  apply bind_ok in Hv as (b & s3 & Hr & Hv). unfold lift in Hv. injection Hv as _ Hv.
  apply res_bind_ok in Hv as (text & Ht & Hv). apply res_bind_ok in Hv as (schema & Hj & Hv).
  unfold check_against in Hv. apply res_bind_ok in Hv as ([] & Hc & Hv).
  exists s, b, text, schema. rewrite Hr. split_and!; try done.
  destruct (iter_errors schema obj) as [|e es] eqn:E; [done|].
  pose proof (py_sort_perm error_leb (e :: es)) as Hp. destruct (py_sort error_leb (e :: es)); [|done].
  by apply Permutation_nil_l in Hp.
Qed.

Lemma two_names (a b name : pystr) before after :
  [a; b] = before ++ name :: after -> before = [] /\ name = a \/ before = [a] /\ name = b.
Proof.
  destruct before as [|n1 before]; [intros [= -> _]; by left|]. intros [= -> E].
  destruct before as [|n2 before]; [injection E as -> _; by right|]. by destruct before.
Qed.

Lemma text_field_ok k obj v : text_field k obj = Ok v -> exists t, py_str (or_else (get_or_none k obj) (PStr [])) = Ok t /\ v = PStr t.
Proof. unfold text_field. intros (t & Ht & ->)%res_map_ok. by exists t. Qed.

Lemma import_provenance_ok obj path artifact mode name prov :
  import_provenance obj path artifact mode name = Ok prov -> provenance_of obj path artifact mode name prov.
Proof.
  unfold import_provenance. intros Hp. apply res_bind_ok in Hp as (n & Hn & Hp).
  apply res_bind_ok in Hp as (g & (tg & Hg & ->)%text_field_ok & Hp). apply res_bind_ok in Hp as (e & (te & He & ->)%text_field_ok & Hp).
  apply res_bind_ok in Hp as (c & (tc & Hc & ->)%text_field_ok & [= <-]). split; try done.
  - destruct (dict_get (str "contract_version") obj) as [v|]; [|done]. by exists v, n.
  - intros k. rewrite !elem_of_cons, elem_of_nil. intros [->|[->|[->|[]]]]; eauto.
Qed.

Lemma import_document_traced obj path artifact mode local r :
  import_document obj path artifact mode local = Ok r ->
  exists top profiles name d p, obj = PDict top /\
    dict_get (str "profiles") top = Some (PDict profiles) /\
    (name = local \/ name = str "file_posix_default" /\ forall d', ~ usable profiles local d') /\
    usable profiles name d /\ measured d mode p /\ imp_profiles r NVME = Some p /\
    imp_sources r NVME = str "tier_profile:" ++ name ++ str ":" ++ mode /\
    s3_origin profiles mode (imp_profiles r Metadata.S3) (imp_sources r Metadata.S3) /\
    provenance_of top path artifact mode name (imp_provenance r) /\
    imp_profiles r MEMORY = Some (built_in MEMORY) /\ imp_sources r MEMORY = str "synthetic_default_explicit_fallback".
Proof.
  unfold import_document. intros Hi. apply res_bind_ok in Hi as (top & Ht & Hi). destruct obj; try done. injection Ht as ->.
  apply res_bind_ok in Hi as (profiles & Hp & Hi). apply res_bind_ok in Hi as ([name|] & Hs & Hi); [|done].
  apply res_bind_ok in Hi as (p & Hm & Hi). apply res_bind_ok in Hi as ([s3 source] & H3 & Hi).
  apply res_bind_ok in Hi as (prov & Hprov & [= <-]). apply select_available in Hs as (before & d & after & En & Hu & Hb).
  assert (dict_get (str "profiles") top = Some (PDict profiles)) as Hps.
  { destruct (dict_get (str "profiles") top) as [v|]; cbn in Hp.
    - by destruct v; try done; injection Hp as ->.
    - injection Hp as <-. by destruct Hu. }
  pose proof Hu as [Hd _]. unfold get_or_none in Hm. rewrite Hd in Hm. apply profile_measured in Hm as [_ Hm].
  apply import_s3_origin in H3. apply import_provenance_ok in Hprov.
  exists top, profiles, name, d, p. split_and!; try done; cbn [imp_profiles imp_sources imp_provenance].
  - apply two_names in En as [[_ ->]|[-> ->]]; [by left|]. right. split; [done|]. by apply Forall_inv in Hb.
  - by destruct s3.
  - by destruct s3.
  - destruct s3; apply default_built_in.
Qed.
End Facts.

(** ** A sample document *)

Definition sample_profile_text : pystr := quoted "{~contract_version~: 1, ~generated_at~: ~2024-01-01~, ~env_id~: ~lab~,
 ~profiles~: {~local_file_pread~: {~available~: false}, ~file_posix_default~: {~p95_ms~: 0.5, ~bandwidth_MBps~: 2048},
 ~object_s3~: {~available~: false, ~reason~: ~offline~}}}".

(** The repository on the disk: the document and the schema. *)
Definition profile_disk : Fs :=
  mkFs (<[[str "lab"; str "profile.json"] := default [] (utf8_encode sample_profile_text)]>
        {[ [str "lab"; str "shared"; str "schema"; str "tier_profile.schema.json"] := bstr "{}" ]})
       {[ [str "lab"]; [str "lab"; str "shared"]; [str "lab"; str "shared"; str "schema"] ]}
       (fun _ => None) (fun _ _ => []) 0 4096.

(** A validator that only asks for an object. *)
Definition object_validator : JsonSchema :=
  {| check_schema _ := Ok tt; iter_errors _ obj := if is_dict obj then [] else [([], str "is not of type 'object'")] |}.

Definition sample_import : Fs * res TierProfileImport :=
  @import_profiles_from_tier_profile ascii_tables plain_builtins object_validator [str "lab"] [str "lab"]
    (str "profile.json") (str "p95") (str "local_file_pread") None profile_disk.

Lemma sample_import_ok : is_ok sample_import.2 = true.
Proof. vm_compute. reflexivity. Qed.

(** C25: an import is traceable. When it returns, the mode is one of the three and the
    document passed the schema. The profile of the NVMe tier has the latency of that
    mode and the bandwidth (in megabytes if that is positive, else in gigabytes) of an
    entry that is not marked unavailable, the requested one, or the default when the
    requested one cannot be used; its other two numbers are constants. The profile of
    the S3 tier comes in the same way from the first S3 entry of the document, or is
    the built-in one when there is none or it is marked unavailable, and its source
    says so with the reason. The profile of the memory tier is the built-in one. The
    provenance records the path and the SHA-256 of the file, the document's own fields
    and the choices made. *)
Theorem import_traceable `{UnicodeData} `{PyBuiltins} `{JsonSchema} repo cwd path mode local schema_path s s' r :
  import_profiles_from_tier_profile repo cwd path mode local schema_path s = (s', Ok r) ->
  traced repo cwd s path mode local schema_path r.
Proof.
  unfold import_profiles_from_tier_profile. intros ([] & s0 & Hw & Hi)%bind_ok. apply when_raise_ok in Hw as [Hmode ->].
  apply bind_ok in Hi as (artifact & s1 & Hr & Hi). apply bind_ok in Hi as (obj & s2 & Hj & Hi). injection Hj as <- Hj.
  apply bind_ok in Hi as ([] & s3 & Hv & Hi). injection Hi as _ Hi.
  apply import_document_traced in Hi as (top & profiles & name & d & p & -> & ? & ? & ? & ? & ? & ? & ? & ? & ?).
  split; [by destruct (is_mode mode)| |done]. exists artifact, top, profiles, name, d, p. rewrite Hr. split_and!; try done.
  apply validate_ok in Hv as (sv & b & text & schema & Hf & Hrest). exists sv, b, text, schema. split; [|done].
  rewrite Hf. pose proof (read_bytes_files cwd path s) as Hb. by rewrite Hr in Hb.
Qed.

Lemma import_traceable_witness :
  exists s' r, sample_import = (s', Ok r) /\ imp_sources r NVME = str "tier_profile:file_posix_default:p95" /\
    @traced ascii_tables plain_builtins object_validator [str "lab"] [str "lab"] profile_disk (str "profile.json") (str "p95")
      (str "local_file_pread") None r.
Proof.
  pose proof sample_import_ok as Hok. destruct sample_import as [s' [r|e]] eqn:E; [|discriminate Hok].
  exists s', r. split; [reflexivity|]. split.
  - assert (res_map (fun r => imp_sources r NVME) sample_import.2 = Ok (str "tier_profile:file_posix_default:p95")) as Hs
      by (vm_compute; reflexivity). rewrite E in Hs. by injection Hs.
  - exact (@import_traceable ascii_tables plain_builtins object_validator [str "lab"] [str "lab"] (str "profile.json") (str "p95")
      (str "local_file_pread") None profile_disk s' r E).
Defined.
