(* ===== verification/Scripts.v ===== *)
(** * The repository's audits: [scripts/check_links.py], [license_status.py] and
      [validate_tier_profiles.py]

    Each reads files below the root of the repository and prints its verdict; a run
    gives the exit status and the printed lines. [SystemExit] with a text prints the
    text and gives the status 1. The order in which [glob] lists a directory is the
    sorted one. *)

From Stdlib Require Import SpecFloat.
From S2P Require Import CostModel.
From S2P Require Import Prelude PyText Sha256 Float64 Errors PyVal Json Tokenization Layout Url FileSystem FileSystemFacts PyConv Config TierProfileImport.
Import MNotations ResNotations.

Abbreviation Verdict := (Z * list pystr)%type.

(** [str(path.relative_to(root))], of a path below the root. *)
Definition relative_path (root p : path) : path := drop (length root) p.
Definition relative_text (p : path) : pystr := match p with [] => str "." | _ => join [47] p end.

(** ** Links *)

(** [(?:\[[^\]]*\])\(([^)]+)\)] at the start of the text: the group and what follows. *)
Definition match_brackets (s : pystr) : option (pystr * pystr) :=
  match eat 91 s with
  | None => None
  | Some r =>
      match split_first 93 r with
      | None => None
      | Some (_, r) =>
          match eat 40 r with
          | None => None
          | Some r =>
              match split_first 41 r with
              | Some ((_ :: _) as target, rest) => Some (target, rest)
              | _ => None
              end
          end
      end
  end.

(** [LINK_RE] there: with or without an exclamation mark. *)
Definition match_link (s : pystr) : option (pystr * pystr) :=
  match s with
  | c :: r => if c =? 33 then match match_brackets r with Some m => Some m | None => match_brackets s end else match_brackets s
  | [] => None
  end.

(** [LINK_RE.finditer(text)]; each step consumes a character. *)
Fixpoint find_links (fuel : nat) (s : pystr) : list pystr :=
  match fuel with
  | O => []
  | S f =>
      match s with
      | [] => []
      | _ :: r =>
          match match_link s with
          | Some (target, rest) => target :: find_links f rest
          | None => find_links f r
          end
      end
  end.

Definition links_of (text : pystr) : list pystr := find_links (length text) text.

(** [text.split(sep, 1)[0]] for a separator of two characters. *)
Fixpoint before_pair (a b : Z) (s : pystr) : pystr :=
  match s with
  | c :: r => match r with
              | d :: _ => if (c =? a) && (d =? b) then [] else c :: before_pair a b r
              | [] => s
              end
  | [] => []
  end.

Definition clean_target (raw : pystr) : pystr :=
  let target := str_strip raw in
  match target with
  | c :: r =>
      if c =? 60 then
        match split_first 62 r with
        | Some (inner, _) => inner
        | None => before_pair 32 39 (before_pair 32 c_quote target)
        end
      else before_pair 32 39 (before_pair 32 c_quote target)
  | [] => []
  end.

Definition EXCLUDED_DIRS : list pystr := [str ".git"; str ".venv"; str "build"; str "__pycache__"].

(** [sorted(root.rglob("*.md"))] outside the excluded directories. *)
Definition markdown_files (s : Fs) (root : path) : list path :=
  List.filter (fun p => negb (existsb (fun part => bool_decide (part ∈ EXCLUDED_DIRS)) (relative_path root p)))
    (rglob s root (fun name => starts_with (rev (str ".md")) (rev name))).

(** The path a target names; [None] for a link that is not local. *)
Definition local_part (target : pystr) : option pystr :=
  if bool_decide (target = []) || existsb (fun p => starts_with p target) [str "#"; str "https://"; str "http://"; str "mailto:"]
  then None
  else match unquote (match split_first 35 target with Some (a, _) => a | None => target end) with
       | [] => None
       | part => Some part
       end.

(** The verdict on one link of a file: nothing, or the failure it adds. *)
Definition check_link (s : Fs) (root source : path) (target : pystr) (part : pystr) : res (option pystr) :=
  let name := relative_text (relative_path root source) in
  (let? candidate := resolve_path (join_part (path_parent source) part) in
   Ok (if negb (bool_decide (root `prefix_of` candidate)) then Some (name ++ str ": link escapes repository: " ++ target)
       else if exists_path s candidate then None
       else Some (name ++ str ": missing link target: " ++ target)))%res.

(** The failures of the links of a file, and the number of links checked. *)
Fixpoint check_file (s : Fs) (root source : path) (raws : list pystr) : res (list pystr * Z) :=
  (match raws with
   | [] => Ok ([], 0)
   | raw :: rest =>
       let target := clean_target raw in
       match local_part target with
       | None => check_file s root source rest
       | Some part =>
           let? failure := check_link s root source target part in
           let? (failures, n) := check_file s root source rest in
           Ok (match failure with Some f => f :: failures | None => failures end, n + 1)
       end
   end)%res.

Section Links.
Local Open Scope m_scope.

Fixpoint check_sources (root : path) (sources : list path) : M Fs (list pystr * Z) :=
  match sources with
  | [] => ret ([], 0)
  | source :: rest =>
      let* b := read_file source in
      let* text := lift (decode_text b) in
      let* s := gets id in
      let* (failures, n) := lift (check_file s root source (links_of text)) in
      let* (more, m) := check_sources root rest in
      ret (failures ++ more, n + m)
  end.

Definition check_links (root : path) : M Fs Verdict :=
  let* sources := gets (fun s => markdown_files s root) in
  let* (failures, checked) := check_sources root sources in
  match failures with
  | [] => ret (0, [str "Markdown link audit: PASS (" ++ int_repr (zlen sources) ++ str " files, " ++ int_repr checked ++ str " local links)"])
  | _ => ret (1, str "Markdown link audit: FAIL" :: map (fun f => str "  " ++ f) failures)
  end.

(** ** The license *)

Definition EXPECTED_NAME : pystr := str "LICENSE".
Definition EXPECTED_SHA256 : pystr := str "590d139966805b1fcadf4c930d1f3d5d09af5266dcf1134ccd9cf25122c378f3".

Definition license_status (root : path) : M Fs Verdict :=
  let* licenses := gets (fun s => List.filter (is_file s) (glob s root (starts_with EXPECTED_NAME))) in
  if negb (bool_decide (licenses = [root ++ [EXPECTED_NAME]])) then
    let found := match licenses with [] => str "none" | _ => join (str ", ") (map path_name licenses) end in
    ret (1, [str "License status: FAIL (expected only LICENSE; found " ++ found ++ str ")"])
  else
    let* b := read_file (root ++ [EXPECTED_NAME]) in
    if negb (bool_decide (sha256_hex b = EXPECTED_SHA256)) then
      ret (1, [str "License status: FAIL (LICENSE differs from the reviewed MIT text)"])
    else ret (0, [str "License status: PASS (MIT; Copyright (c) 2026 Haluka1)"]).
End Links.

(** ** The fixtures of tier profiles *)

Section Profiles.
Context `{JsonSchema}.
Local Open Scope m_scope.

Definition read_json (p : path) : M Fs pyval :=
  let* b := read_file p in
  lift (let? text := decode_text b in json_loads text)%res.

Fixpoint validate_fixtures (schema : pyval) (fixtures : list path) : M Fs (option pystr) :=
  match fixtures with
  | [] => ret None
  | fixture :: rest =>
      let* value := read_json fixture in
      match py_sort error_leb (iter_errors schema value) with
      | first :: _ =>
          let location := match join [46] (map step_text first.1) with [] => str "<root>" | l => l end in
          ret (Some (str "Tier-profile contract audit: FAIL (" ++ path_name fixture ++ str ":" ++ location ++ str ": " ++ first.2 ++ str ")"))
      | [] => validate_fixtures schema rest
      end
  end.

Definition validate_tier_profiles (root : path) : M Fs Verdict :=
  let* schema := read_json (root ++ [str "shared"; str "schema"; str "tier_profile.schema.json"]) in
  lift (check_schema schema) ;;
  let* fixtures := gets (fun s => glob s (root ++ [str "shared"; str "fixtures"])
                                    (fun name => starts_with (rev (str ".tier-profile.json")) (rev name))) in
  match fixtures with
  | [] => ret (1, [str "Tier-profile contract audit: FAIL (no fixture)"])
  | _ =>
      let* failure := validate_fixtures schema fixtures in
      match failure with
      | Some text => ret (1, [text])
      | None => ret (0, [str "Tier-profile contract audit: PASS (" ++ int_repr (zlen fixtures) ++ str " fixture)"])
      end
  end.
End Profiles.

(** ** What the audit of links finds *)

Lemma eat_shorter c s r : eat c s = Some r -> (length r < length s)%nat.
Proof. destruct s as [|x s]; cbn; [done|]. destruct (x =? c); [|done]. intros [= ->]. lia. Qed.

Lemma split_first_shorter c s a b : split_first c s = Some (a, b) -> (length b < length s)%nat.
Proof.
  revert a. induction s as [|x s IH]; intros a; cbn; [done|]. destruct (x =? c); [intros [= _ ->]; lia|].
  destruct (split_first c s) as [[a' b']|] eqn:E; [|done]. intros [= _ ->]. specialize (IH a' eq_refl). lia.
Qed.

Lemma match_brackets_shorter s t r : match_brackets s = Some (t, r) -> (length r < length s)%nat.
Proof.
  unfold match_brackets. destruct (eat 91 s) as [r1|] eqn:E1; [|done]. destruct (split_first 93 r1) as [[a r2]|] eqn:E2; [|done].
  destruct (eat 40 r2) as [r3|] eqn:E3; [|done]. destruct (split_first 41 r3) as [[[|x b] r4]|] eqn:E4; try done. intros [= _ <-].
  apply eat_shorter in E1, E3. apply split_first_shorter in E2, E4. lia.
Qed.

Lemma match_link_shorter s t r : match_link s = Some (t, r) -> (length r < length s)%nat.
Proof.
  unfold match_link. destruct s as [|c s]; [done|]. destruct (c =? 33); [|by apply match_brackets_shorter].
  destruct (match_brackets s) as [[t' r']|] eqn:E; [|by apply match_brackets_shorter]. intros [= -> ->].
  apply match_brackets_shorter in E. cbn. lia.
Qed.

(** The length of the text is fuel enough. *)
Lemma find_links_fuel n : forall f s, (length s <= n)%nat -> (length s <= f)%nat -> find_links f s = find_links (length s) s.
Proof.
  induction n as [|n IH]; intros f s Hn Hf; [destruct s; [by destruct f|cbn in Hn; lia]|]. destruct s as [|c s]; [by destruct f|].
  destruct f as [|f]; [cbn in Hf; lia|]. cbn [length find_links] in *.
  destruct (match_link (c :: s)) as [[t r]|] eqn:E; [|apply IH; lia].
  apply match_link_shorter in E. cbn in E. f_equal. rewrite (IH f r), (IH (length s) r) by lia. done.
Qed.

(** A link that is not local, or leads to something inside the repository. *)
Definition link_ok (s : Fs) (root source : path) (raw : pystr) : Prop :=
  forall part, local_part (clean_target raw) = Some part ->
    exists candidate, resolve_path (join_part (path_parent source) part) = Ok candidate /\
      root `prefix_of` candidate /\ exists_path s candidate = true.

Lemma check_file_ok s root source raws : forall failures n,
  check_file s root source raws = Ok (failures, n) -> (failures = [] <-> Forall (link_ok s root source) raws).
Proof.
  induction raws as [|raw raws IH]; intros failures n; cbn [check_file].
  { intros [= <- <-]. split; [constructor|done]. }
  destruct (local_part (clean_target raw)) as [part|] eqn:Ep.
  2: { intros Hc%IH. rewrite Hc, Forall_cons. split; [|by intros [_ ?]]. intros Ha. split; [|done]. intros p Hp. congruence. }
  intros (failure & Hl & Hc)%res_bind_ok. apply res_bind_ok in Hc as ([fs m] & Hr & [= <- _]). apply IH in Hr.
  unfold check_link in Hl. apply res_bind_ok in Hl as (candidate & Hcand & [= <-]). rewrite Forall_cons.
  assert (link_ok s root source raw <-> root `prefix_of` candidate /\ exists_path s candidate = true) as Hlink.
  { unfold link_ok. rewrite Ep. split.
    - intros Hx. destruct (Hx part eq_refl) as (c & Hc & Hrest). rewrite Hcand in Hc. by injection Hc as <-.
    - intros Hx p [= <-]. by exists candidate. }
  rewrite Hlink, <- Hr. destruct (bool_decide (root `prefix_of` candidate)) eqn:E1; cbn [negb].
  - apply bool_decide_eq_true in E1. destruct (exists_path s candidate); naive_solver.
  - apply bool_decide_eq_false in E1. naive_solver.
Qed.

(** The text of a source, and its links. *)
Definition source_ok (s : Fs) (root source : path) : Prop :=
  exists b text, fs_files s !! source = Some b /\ decode_text b = Ok text /\ Forall (link_ok s root source) (links_of text).

Lemma check_sources_ok root sources : forall s s' failures n,
  check_sources root sources s = (s', Ok (failures, n)) -> fs_files s' = fs_files s /\ (failures = [] <-> Forall (source_ok s root) sources).
Proof.
  induction sources as [|source rest IH]; intros s s' failures n; cbn [check_sources].
  { intros [= <- <- <-]. split; [done|]. split; [constructor|done]. }
  intros (b & s1 & Hb & Hc)%bind_ok. apply read_ok in Hb as [Hb ->]. apply bind_ok in Hc as (text & s2 & Ht & Hc). injection Ht as <- Ht.
  apply bind_ok in Hc as (sx & s2 & Hs & Hc). injection Hs as <- <-. apply bind_ok in Hc as ([fs m] & s2 & Hf & Hc). injection Hf as <- Hf.
  apply bind_ok in Hc as ([more k] & s3 & Hm & Hc). injection Hc as <- <- <-. apply IH in Hm as [Hfiles Hm]. split; [exact Hfiles|].
  apply check_file_ok in Hf. rewrite Forall_cons.
  assert (source_ok s root source <-> Forall (link_ok (next_call s) root source) (links_of text)) as Hsource.
  { split; [intros (b' & t' & Hb' & Ht' & Hall)|intros Hall; by exists b, text]. rewrite Hb in Hb'. injection Hb' as <-.
    rewrite Ht in Ht'. by injection Ht' as <-. }
  rewrite Hsource, <- Hf. change (Forall (source_ok (next_call s) root) rest) with (Forall (source_ok s root) rest) in Hm. rewrite <- Hm.
  destruct fs; naive_solver.
Qed.

(** The audit of links is exact: when it reports, its status is zero if and only if
    every local link of every Markdown file outside the excluded directories leads to
    a file or directory inside the repository, and one otherwise. *)
Theorem link_audit_exact root s s' status out :
  check_links root s = (s', Ok (status, out)) ->
  (status = 0 \/ status = 1) /\ (status = 0 <-> Forall (source_ok s root) (markdown_files s root)) /\ fs_files s' = fs_files s.
Proof.
  unfold check_links. intros (sources & s1 & Hs & Hc)%bind_ok. injection Hs as <- <-.
  apply bind_ok in Hc as ([failures n] & s2 & Hf & Hc). apply check_sources_ok in Hf as [Hfiles <-].
  destruct failures; injection Hc as <- <- _; (split; [auto|]); by split.
Qed.

(** A repository with a good link, a missing one and an external one. *)
Definition sample_repo : Fs :=
  mkFs {[ [str "r"; str "README.md"] := map mk_byte (str "See [a](docs/a.md#top), ![b](<docs>) and [c](https://example.org).");
          [str "r"; str "docs"; str "a.md"] := map mk_byte (str "[up](../README.md 'home') [out](../../etc/passwd) [gone](b%2Emd)") ]}
    {[ [str "r"]; [str "r"; str "docs"] ]} (fun _ => None) (fun _ _ => []) 0 4096.

Lemma link_audit_exact_witness :
  (check_links [str "r"] sample_repo).2 = Ok (1,
    [str "Markdown link audit: FAIL"; str "  docs/a.md: link escapes repository: ../../etc/passwd";
     str "  docs/a.md: missing link target: b%2Emd"]) /\
  ~ Forall (source_ok sample_repo [str "r"]) (markdown_files sample_repo [str "r"]).
Proof.
  assert ((check_links [str "r"] sample_repo).2 = Ok (1,
    [str "Markdown link audit: FAIL"; str "  docs/a.md: link escapes repository: ../../etc/passwd";
     str "  docs/a.md: missing link target: b%2Emd"])) as Hr by (vm_compute; reflexivity).
  split; [exact Hr|]. intros Hall. destruct (check_links [str "r"] sample_repo) as [s' r] eqn:E. cbn in Hr. subst r.
  apply link_audit_exact in E as (_ & [_ Hz] & _). specialize (Hz Hall). discriminate Hz.
Defined.

(** The license audit passes exactly when the only license file is the reviewed one. *)
Theorem license_audit_exact root s s' status out :
  license_status root s = (s', Ok (status, out)) ->
  status = 0 <-> List.filter (is_file s) (glob s root (starts_with EXPECTED_NAME)) = [root ++ [EXPECTED_NAME]] /\
    exists b, fs_files s !! (root ++ [EXPECTED_NAME]) = Some b /\ sha256_hex b = EXPECTED_SHA256.
Proof.
  unfold license_status. intros (l & s1 & Hl & Hr)%bind_ok. injection Hl as <- <-. case_bool_decide as Hd; cbn [negb] in Hr.
  - apply bind_ok in Hr as (b & s2 & Hb & Hr). apply read_ok in Hb as [Hb ->]. case_bool_decide; cbn [negb] in Hr; injection Hr as _ <- _;
      split; try done; [intros _; split; [done|by exists b]|]. intros (_ & b' & Hb' & Hs). congruence.
  - injection Hr as _ <- _. split; [done|]. by intros [? _].
Qed.

(** The audit of fixtures passes only when every fixture is valid. *)
Lemma validate_fixtures_ok `{JsonSchema} schema fixtures : forall s s',
  validate_fixtures schema fixtures s = (s', Ok None) ->
  Forall (fun p => exists b text v, fs_files s !! p = Some b /\ decode_text b = Ok text /\ json_loads text = Ok v /\ iter_errors schema v = []) fixtures.
Proof.
  induction fixtures as [|p rest IH]; intros s s'; cbn [validate_fixtures]; [constructor|].
  unfold read_json. intros (v & s1 & Hv & Hr)%bind_ok. apply bind_ok in Hv as (b & s2 & Hb & Hv). apply read_ok in Hb as [Hb ->].
  injection Hv as <- Hv. apply res_bind_ok in Hv as (text & Ht & Hj).
  pose proof (py_sort_perm error_leb (iter_errors schema v)) as Hp. destruct (py_sort error_leb (iter_errors schema v)); [|done].
  apply Permutation_nil_l in Hp. constructor; [by exists b, text, v|]. by apply (IH (next_call s) s').
Qed.
