(* ===== verification/PrivacyAudit.v ===== *)
(** * The privacy audit: [scripts/privacy_audit.py]

    The rules are regular expressions; the audit looks for them in the path and in every
    line of every file below the root, and for addresses outside the example domains. *)

From S2P Require Import Prelude PyText Sha256 Float64 Errors Json Tokenization Layout FileSystem FileSystemFacts Config Regex Scripts.
Import MNotations ResNotations.

Definition EXCLUDED_DIRS : list pystr := [str ".git"; str ".venv"; str "build"; str "__pycache__"; str ".pytest_cache"].
Definition EXCLUDED_FILES : list path := [[str "scripts"; str "privacy_audit.py"]].
Definition FORBIDDEN_EXTENSIONS : list pystr := [str ".pdf"; str ".doc"; str ".docx"; str ".zip"; str ".7z"; str ".rar"].

Section Audit.
Context `{CharTables}.

(** ** The rules *)

Definition space : regex := Chars is_space.
Definition letter : Z -> bool := either [from_to 65 90; from_to 97 122].
Definition alnum : Z -> bool := either [letter; from_to 48 57].
Definition quotes : Z -> bool := one_of [c_quote; 39].
Definition dotted_byte : regex := cats [lit (str "."); between 1 3 (Chars digit)].
Definition whole_word (s : pystr) : regex := cats [Boundary; lit s; Boundary].

Definition private_material : regex :=
  alts [ignore_case (alts [whole_word (str "interview"); lit (str "DeepSeek"); lit (str "Kimi"); lit (str "MiniMax")]);
        whole_word (str "Seed"); lit [0x5F85; 0x586B; 0x5199]; lit [0x62DB; 0x8058]; lit [0x7B80; 0x5386]; lit [0x9762; 0x8BD5];
        whole_word (str "Ownership")].

Definition execution_record : regex :=
  ignore_case
    (alts [cats [lit (str "Codex"); plus space; lit (str "prompt")];
           cats [lit (str "raw"); plus space; lit (str "prompt")];
           cats [lit (str "prompt"); plus space; lit (str "pack")];
           cats [lit (str "AI"); plus space; lit (str "execution"); plus space; alts [lit (str "log"); lit (str "transcript")]];
           cats [lit (str "AI"); star space; lit [0x6267; 0x884C; 0x8FC7; 0x7A0B]]]).

Definition workstation_path : regex :=
  alts [cats [lit (str "/"); alts [lit (str "root"); lit (str "home")]; lit (str "/")];
        cats [Chars letter; lit (str ":"); Chars (one_of [c_backslash; 47]); lit (str "Users"); Chars (one_of [c_backslash; 47])];
        cats [lit (str "/mnt/"); Chars (from_to 97 122); lit (str "/Users/")]].

Definition kubeconfig : regex := ignore_case (lit (str "kubeconfig")).

Definition identity_assignment : regex :=
  ignore_case
    (cats [Boundary; alts [lit (str "author"); lit (str "maintainer"); cats [lit (str "user"); opt (lit (str "name"))]];
           star space; Chars (one_of (str ":=")); star space; opt (Chars quotes);
           NotAhead (alts [cats [lit (str "example"); Boundary]; cats [lit (str "placeholder"); Boundary];
                           cats [lit (str "redacted"); Boundary]]);
           Chars alnum; at_least 2 (Chars (either [alnum; one_of (str "_.-")]))]).

Definition private_ipv4 : regex :=
  cats [Boundary;
        alts [cats [lit (str "10"); exactly 3 dotted_byte];
              cats [lit (str "192.168"); exactly 2 dotted_byte];
              cats [lit (str "172.");
                    alts [cats [lit (str "1"); Chars (from_to 54 57)]; cats [lit (str "2"); Chars digit];
                          cats [lit (str "3"); Chars (one_of (str "01"))]];
                    exactly 2 dotted_byte]];
        Boundary].

Definition cloud_resource : regex :=
  alts [cats [Boundary; alts [lit (str "i"); lit (str "vol"); lit (str "d"); lit (str "lb")]; lit (str "-");
              at_least 8 (Chars (either [from_to 48 57; from_to 97 102])); Boundary];
        cats [plus (Chars (either [from_to 97 122; from_to 48 57; one_of (str ".-")])); lit (str ".");
              alts [lit (str "aliyuncs"); lit (str "amazonaws")]; lit (str ".com")]].

Definition private_key : regex :=
  cats [lit (str "-----BEGIN "); opt (alts [lit (str "RSA "); lit (str "EC "); lit (str "OPENSSH ")]); lit (str "PRIVATE KEY-----")].

Definition signed_url : regex :=
  ignore_case
    (cats [lit (str "http"); opt (lit (str "s")); lit (str "://"); plus (Chars (fun c => negb (is_space c))); Chars (one_of (str "?&"));
           alts [lit (str "X-Amz-Signature"); lit (str "Signature"); lit (str "sig"); lit (str "token")]; lit (str "=")]).

Definition inline_credential : regex :=
  let sep := opt (Chars (one_of (str "_ -"))) in
  ignore_case
    (cats [alts [cats [lit (str "access"); sep; lit (str "key")]; cats [lit (str "secret"); sep; lit (str "key")];
                 cats [lit (str "api"); sep; lit (str "token")]; lit (str "password")];
           star space; Chars (one_of (str ":=")); star space; Chars quotes;
           NotAhead (alts [lit (str "example"); lit (str "placeholder"); lit (str "redacted"); lit (str "changeme");
                           lit (str "S3_ACCESS_KEY"); lit (str "S3_SECRET_KEY")]);
           at_least 8 (Chars (fun c => negb (quotes c))); Chars quotes]).

Definition TEXT_RULES : list (pystr * regex) :=
  [(str "private-material keyword", private_material);
   (str "private AI execution record", execution_record);
   (str "private workstation path", workstation_path);
   (str "kubeconfig reference", kubeconfig);
   (str "private identity assignment", identity_assignment);
   (str "private IPv4 address", private_ipv4);
   (str "cloud resource identifier", cloud_resource);
   (str "private key material", private_key);
   (str "signed URL", signed_url);
   (str "inline credential value", inline_credential)].

Definition EMAIL_RE : regex :=
  ignore_case
    (cats [Boundary; plus (Chars (either [from_to 65 90; from_to 48 57; one_of (str "._%+-")])); lit (str "@");
           plus (Chars (either [from_to 65 90; from_to 48 57; one_of (str ".-")])); lit (str ".");
           at_least 2 (Chars (from_to 65 90)); Boundary]).

(** ** The audit *)

(** [text.lower()], up to characters that stay outside ASCII. *)
Definition lower_text (s : pystr) : pystr :=
  flat_map (fun c => if c =? 0x130 then [105; 0x307] else if c =? 0x212A then [107] else [lower_char c]) s.

Definition candidates (s : Fs) (root : path) : list path :=
  List.filter (fun p => is_file s p &&
                        negb (existsb (fun part => bool_decide (part ∈ EXCLUDED_DIRS)) (relative_path root p)) &&
                        negb (bool_decide (relative_path root p ∈ EXCLUDED_FILES)))
    (rglob s root (fun _ => true)).

Definition rule_hits (text : pystr) : list pystr :=
  flat_map (fun rule => if search rule.2 text then [rule.1] else []) TEXT_RULES.

Definition example_domains : list pystr := [str "example.com"; str "example.org"; str "example.invalid"].

(** [email.rsplit("@", 1)[1].lower()] is an example domain. *)
Definition example_email (email : pystr) : bool :=
  bool_decide (lower_text (match rsplit 64 email with Some (_, domain) => domain | None => [] end) ∈ example_domains).

(** The findings of a line. *)
Definition audit_line (name : pystr) (number : Z) (line : pystr) : list pystr :=
  let at_line := name ++ str ":" ++ int_repr number ++ str ": " in
  map (fun label => at_line ++ label) (rule_hits line) ++
  flat_map (fun email => if example_email email then [] else [at_line ++ str "non-example email address"]) (findall EMAIL_RE line).

Fixpoint audit_lines (name : pystr) (number : Z) (lines : list pystr) : list pystr :=
  match lines with
  | [] => []
  | line :: rest => audit_line name number line ++ audit_lines name (number + 1) rest
  end.

(** What a content adds, and whether it was scanned. *)
Definition audit_content (name : pystr) (raw : pybytes) : list pystr * Z :=
  if bool_decide (Byte.x00 ∈ raw) then ([name ++ str ": unknown binary content requires manual review"], 0)
  else match utf8_decode raw with
       | None => ([name ++ str ": non-UTF-8 content requires manual review"], 0)
       | Some text => (audit_lines name 1 (splitlines text), 1)
       end.

Definition forbidden_extension (p : path) : bool := bool_decide (lower_text (name_suffix (path_name p)) ∈ FORBIDDEN_EXTENSIONS).

Local Open Scope m_scope.

Definition audit_file (root p : path) : M Fs (list pystr * Z) :=
  let name := relative_text (relative_path root p) in
  let in_path := map (fun label => name ++ str ": " ++ label ++ str " in file path") (rule_hits name) in
  if forbidden_extension p then ret (in_path ++ [name ++ str ": forbidden private/binary artifact extension"], 0)
  else
    let* raw := read_file p in
    let '(found, scanned) := audit_content name raw in
    ret (in_path ++ found, scanned).

Fixpoint audit_files (root : path) (files : list path) : M Fs (list pystr * Z) :=
  match files with
  | [] => ret ([], 0)
  | p :: rest =>
      let* (found, n) := audit_file root p in
      let* (more, m) := audit_files root rest in
      ret (found ++ more, n + m)
  end.

Definition privacy_audit (root : path) : M Fs Verdict :=
  let* files := gets (fun s => candidates s root) in
  let* (findings, scanned) := audit_files root files in
  match findings with
  | [] => ret (0, [str "Privacy/secret audit: PASS (" ++ int_repr scanned ++ str " UTF-8 files)"])
  | _ => ret (1, str "Privacy/secret audit: FAIL" :: map (fun f => str "  " ++ f) findings)
  end.
End Audit.

(** ** What the audit finds *)

Definition ascii_chars : CharTables := {| uni_decimal := fun _ => false; uni_alnum := fun _ => false |}.

Section Facts.
Context `{CharTables}.

(** No rule matches any part of the text. *)
Definition clean_text (text : pystr) : Prop := Forall (fun rule => ~ occurs rule.2 text) TEXT_RULES.

Definition clean_line (line : pystr) : Prop :=
  clean_text line /\ Forall (fun email => example_email email = true) (findall EMAIL_RE line).

Definition clean_content (raw : pybytes) : Prop :=
  Byte.x00 ∉ raw /\ exists text, utf8_decode raw = Some text /\ Forall clean_line (splitlines text).

Definition clean_file (s : Fs) (root p : path) : Prop :=
  clean_text (relative_text (relative_path root p)) /\ forbidden_extension p = false /\
  exists raw, fs_files s !! p = Some raw /\ clean_content raw.

Lemma rule_hits_nil text : rule_hits text = [] <-> clean_text text.
Proof.
  unfold rule_hits, clean_text. induction TEXT_RULES as [|[label r] rules IH]; cbn [flat_map]; [split; [constructor|done]|].
  rewrite Forall_cons, <- IH, <- search_occurs. cbn. destruct (search r text); cbn; naive_solver.
Qed.

Lemma flat_map_none {A} (p : A -> bool) (x : pystr) (l : list A) :
  flat_map (fun a => if p a then [] else [x]) l = [] <-> Forall (fun a => p a = true) l.
Proof.
  induction l as [|a l IH]; cbn; [split; [constructor|done]|]. rewrite Forall_cons, <- IH. destruct (p a); cbn; naive_solver.
Qed.

Lemma map_nil {A B} (f : A -> B) l : map f l = [] <-> l = [].
Proof. by destruct l. Qed.

Lemma audit_line_nil name n line : audit_line name n line = [] <-> clean_line line.
Proof.
  unfold audit_line, clean_line. rewrite <- rule_hits_nil, <- (flat_map_none example_email (name ++ str ":" ++ int_repr n ++ str ": " ++ str "non-example email address")).
  rewrite <- !app_assoc. destruct (rule_hits line); cbn [map]; [naive_solver|]. split; [done|]. by intros [? _].
Qed.

Lemma audit_lines_nil name lines : forall n, audit_lines name n lines = [] <-> Forall clean_line lines.
Proof.
  induction lines as [|line lines IH]; intros n; cbn [audit_lines]; [split; [constructor|done]|].
  rewrite Forall_cons, <- (IH (n + 1)), <- (audit_line_nil name n). destruct (audit_line name n line); naive_solver.
Qed.

Lemma audit_content_nil name raw : (audit_content name raw).1 = [] <-> clean_content raw.
Proof.
  unfold audit_content, clean_content. case_bool_decide as Hz; [split; [done|by intros [? _]]|].
  destruct (utf8_decode raw) as [text|]; cbn [fst]; [|split; [done|by intros (_ & t & ? & _)]].
  rewrite audit_lines_nil. split; [intros Hl; split; [done|by exists text]|]. by intros (_ & t & [= <-] & Hl).
Qed.

Lemma audit_file_ok root p s s' found n :
  audit_file root p s = (s', Ok (found, n)) -> fs_files s' = fs_files s /\ (found = [] <-> clean_file s root p).
Proof.
  unfold audit_file, clean_file. rewrite <- rule_hits_nil. destruct (forbidden_extension p).
  { intros [= <- <- _]. split; [done|]. split; [by intros [_ ?]%app_nil|by intros (_ & ? & _)]. }
  intros (raw & s1 & Hr & Hc)%bind_ok. apply read_ok in Hr as [Hr ->]. pose proof (audit_content_nil (relative_text (relative_path root p)) raw) as Ha.
  destruct (audit_content _ raw) as [fs m]. injection Hc as <- <- _. split; [done|]. cbn in Ha.
  rewrite app_nil, map_nil, Ha. split; [intros [Hh Hc]; split_and!; [done..|by exists raw]|].
  intros (Hh & _ & raw' & Hraw & Hc). rewrite Hr in Hraw. by injection Hraw as <-.
Qed.

Lemma audit_files_ok root files : forall s s' found n,
  audit_files root files s = (s', Ok (found, n)) -> fs_files s' = fs_files s /\ (found = [] <-> Forall (clean_file s root) files).
Proof.
  induction files as [|p rest IH]; intros s s' found n; cbn [audit_files].
  { intros [= <- <- _]. split; [done|]. split; [constructor|done]. }
  intros ([f k] & s1 & Hf & Hc)%bind_ok. apply bind_ok in Hc as ([more m] & s2 & Hm & Hc). injection Hc as <- <- _.
  apply audit_file_ok in Hf as [Hs1 Hf]. apply IH in Hm as [Hs2 Hm]. split; [congruence|]. rewrite app_nil, Hf, Hm, Forall_cons.
  unfold clean_file. by rewrite Hs1.
Qed.

(** A line in which no address is found has none. *)
Lemma no_address_missed line : findall EMAIL_RE line = [] -> ~ occurs EMAIL_RE line.
Proof.
  apply findall_nil. intros p Hp. assert (nonempty EMAIL_RE = true) as Hn by (vm_compute; reflexivity).
  pose proof (nonempty_shorter _ _ _ Hn Hp). lia.
Qed.

(** C31: The privacy audit is exact: a run that reports gives the status zero if and only if
    no rule matches any part of the path or of a line of any candidate, every candidate
    is UTF-8 text without a zero byte and with a permitted extension, and the addresses
    found in it belong to the example domains. It changes no file. *)
Theorem privacy_audit_exact root s s' status out :
  privacy_audit root s = (s', Ok (status, out)) ->
  (status = 0 <-> Forall (clean_file s root) (candidates s root)) /\ (status = 0 \/ status = 1) /\ fs_files s' = fs_files s.
Proof.
  unfold privacy_audit. intros (files & s1 & Hf & Hr)%bind_ok. injection Hf as <- <-.
  apply bind_ok in Hr as ([findings n] & s2 & Ha & Hr). apply audit_files_ok in Ha as [Hs Ha]. rewrite <- Ha.
  destruct findings; injection Hr as <- <- _; (split; [done|]); auto.
Qed.
End Facts.

(** A tree with private text in a path and in lines, and with harmless look-alikes. *)
Definition audited_tree : Fs :=
  mkFs {[ [str "r"; str "a.md"] := map mk_byte (str "see 10.0.0.1 and 110.0.0.1, me@corp.io" ++ [10] ++ str "password = 'example-one' bot@Example.ORG");
          [str "r"; str "interview"; str "n.txt"] := map mk_byte (str "user: placeholder" ++ [10] ++ str "Author=jane" ++ [10] ++ str "raw  prompt");
          [str "r"; str "build"; str "x"] := map mk_byte (str "/home/x/");
          [str "r"; str "z.PDF"] := [];
          [str "r"; str "bin"] := [Byte.x00]; [str "r"; str "latin"] := [Byte.xe9] ]}
    {[ [str "r"]; [str "r"; str "interview"]; [str "r"; str "build"] ]} (fun _ => None) (fun _ _ => []) 0 4096.

Lemma privacy_audit_exact_witness :
  ((@privacy_audit ascii_chars [str "r"] audited_tree).2 = Ok (1,
    [str "Privacy/secret audit: FAIL"; str "  a.md:1: private IPv4 address"; str "  a.md:1: non-example email address";
     str "  bin: unknown binary content requires manual review";
     str "  interview/n.txt: private-material keyword in file path"; str "  interview/n.txt:2: private identity assignment";
     str "  interview/n.txt:3: private AI execution record"; str "  latin: non-UTF-8 content requires manual review";
     str "  z.PDF: forbidden private/binary artifact extension"])) /\
  ~ Forall (@clean_file ascii_chars audited_tree [str "r"]) (candidates audited_tree [str "r"]).
Proof.
  match goal with |- ?G /\ _ => assert G as Hr by (vm_compute; reflexivity) end. split; [exact Hr|]. intros Hall.
  destruct (@privacy_audit ascii_chars [str "r"] audited_tree) as [s' r] eqn:E. cbn in Hr. subst r.
  apply privacy_audit_exact in E as ([_ Hz] & _). specialize (Hz Hall). discriminate Hz.
Defined.
