(* ===== verification/Factory.v ===== *)
(** * Building a store from a configuration: [kvstore/factory.py]

    [build_store_from_config] reads a configuration, opens the metadata store,
    builds the enabled tiers and the cost model, and composes them. It runs on the
    state of the host: its disk, its databases with their owner locks, the object
    store. What is built is the manager of [TierManager] and the state of a process
    that runs it ([Stack]). The object-store client comes from [boto3], the class
    [Boto3]. *)

From Stdlib Require Import SpecFloat.
From S2P Require Import CostModel.
From S2P Require Import Prelude PyText Sha256 Float64 Errors PyVal Json Metadata MetadataStore Metrics Runtime MemoryTier Tokenization Url PyConv Layout FileSystem World NvmeTier S3Client S3Fault S3Tier Prefetch TierManager Config TierProfileImport Stack.
Import MNotations ResNotations.

(** ** The object-store client *)

Record ClientArgs := {
  ca_connect_timeout : f64; ca_read_timeout : f64; ca_max_attempts : Z;
  ca_endpoint_url : option pystr; ca_access_key : option pystr; ca_secret_key : option pystr;
}.

Class Boto3 (D : Type) := {
  (** the exception of [import boto3], if it fails *)
  import_boto3 : option exn;
  (** [boto3.client("s3", ..., config=Config(...))] *)
  boto3_client : ClientArgs -> res (S3Client D);
  (** [os.environ.get(name)] *)
  environ_get : pystr -> res (option pystr);
}.

(** A client that is used without fault injection, on the state of one that may be
    wrapped. *)
Definition direct_client {D : Type} (client : S3Client D) : S3Client (Injected D) :=
  {| put_object b k body md := on_inner (put_object client b k body md);
     get_object b k := (let* r := on_inner (get_object client b k) in ret (res_map inner_body r))%m;
     head_object b k := on_inner (head_object client b k);
     delete_object b k := on_inner (delete_object client b k);
     injection_stats := on_inner <$> injection_stats client |}.

Section S3.
Context `{UnicodeData} `{PyBuiltins} {D : Type} `{Boto3 D} (random : Z -> nat -> f64).
Local Open Scope res_scope.

(** [ms / 1000.0]. *)
Definition seconds (ms : Z) : res f64 := let? f := int_to_float ms in Ok (f64_div f (f64_of_Z 1000)).

Definition boto3_missing : pystr := str "boto3/botocore is required for S3Tier unless a client is injected".

Definition _build_client (endpoint : option pystr) (access_key_env secret_key_env : pystr)
    (connect_timeout_ms read_timeout_ms max_retries : Z) : res (S3Client D) :=
  match import_boto3 with
  | Some e => Raise (err_from TierUnavailable boto3_missing e)
  | None =>
      let? connect := seconds connect_timeout_ms in
      let? read := seconds read_timeout_ms in
      let? access := environ_get access_key_env in
      let? secret := environ_get secret_key_env in
      boto3_client {| ca_connect_timeout := connect; ca_read_timeout := read; ca_max_attempts := max_retries;
                      ca_endpoint_url := endpoint; ca_access_key := access; ca_secret_key := secret |}
  end.

Definition endpoint_value (endpoint : option pystr) : pyval := match endpoint with Some s => PStr s | None => PNone end.

(** [S3Tier(...)] without an injected client: the tier and the client it uses. *)
Definition S3Tier_new (endpoint : option pystr) (bucket prefix access_key_env secret_key_env : pystr)
    (connect_timeout_ms read_timeout_ms max_retries max_payload_bytes : Z) (fault_injection : pyval)
  : res (S3Tier * S3Client (Injected D)) :=
  let? tier := S3Tier_init (PStr bucket) (PStr prefix) (endpoint_value endpoint) (PInt connect_timeout_ms)
                 (PInt read_timeout_ms) (PInt max_retries) (PInt max_payload_bytes) in
  let? base_client := _build_client endpoint access_key_env secret_key_env connect_timeout_ms read_timeout_ms max_retries in
  let? injection := _maybe_fault_inject (inl fault_injection) in
  Ok (tier, match injection with
            | Some c => FaultInjectingS3Client random base_client c
            | None => direct_client base_client
            end).
End S3.

(** ** The cost model *)

Section CostModel.
Context `{UnicodeData} `{PyBuiltins} `{JsonSchema} (repo cwd : path).

(** [TierName(name)]. *)
Definition tier_of_name (name : pystr) : res TierName :=
  match List.find (fun t => bool_decide (tier_value t = name)) [MEMORY; NVME; Metadata.S3] with
  | Some t => Ok t
  | None => Raise (err ValueError (str "'" ++ name ++ str "' is not a valid TierName"))
  end.

(** [float(cfg.get(k, d))]. *)
Definition float_field (cfg : list (pystr * pyval)) (k : pystr) (d : f64) : res f64 :=
  py_float (default (PFloat d) (dict_get k cfg)).

(** One entry of the section [profiles]. *)
Definition override_profile (profiles : Profiles) (name : pystr) (profile_cfg : pyval) : res Profiles :=
  (let? tier := tier_of_name name in
   let? cfg := dict_of profile_cfg in
   match profiles tier with
   | None => Raise (err KeyError (tier_value tier))
   | Some p =>
       let? latency := float_field cfg (str "fixed_latency_ms") (fixed_latency_ms p) in
       let? bandwidth := float_field cfg (str "bandwidth_gbps") (bandwidth_gbps p) in
       let? deserialize := float_field cfg (str "deserialize_ms_per_mb") (deserialize_ms_per_mb p) in
       let? h2d := float_field cfg (str "h2d_bandwidth_gbps") (h2d_bandwidth_gbps p) in
       Ok (set_tier tier (Some (profile latency bandwidth deserialize h2d)) profiles)
   end)%res.

Fixpoint override_profiles (profiles : Profiles) (items : list (pystr * pyval)) : res Profiles :=
  (match items with
   | [] => Ok profiles
   | (name, cfg) :: rest => let? profiles := override_profile profiles name cfg in override_profiles profiles rest
   end)%res.

(** The profiles and thresholds of the section, once the file was imported. *)
Definition cost_model_of (cfg : list (pystr * pyval)) (profiles : Profiles) : res CostModel :=
  (let? items := dict_of (default (PDict []) (dict_get (str "profiles") cfg)) in
   let? profiles := override_profiles profiles items in
   let? benefit := float_field cfg (str "load_benefit_threshold_ms") (f64_of_Z 5) in
   let? s3_benefit := float_field cfg (str "s3_load_benefit_threshold_ms") (f64_of_Z 50) in
   let? guard := float_field cfg (str "slo_budget_guard_ms") (f64_of_Z 100) in
   Ok {| CostModel.profiles := profiles; load_benefit_threshold_ms := benefit; s3_load_benefit_threshold_ms := s3_benefit;
         slo_budget_guard_ms := guard; s3_min_missing_prefill_tokens := 1024;
         s3_min_reuse_probability := f64_of_decimal false 75 (-2) |})%res.

Definition _build_cost_model (v : pyval) : M Fs CostModel :=
  (let* cfg := lift (dict_of v) in
   let* tier_profile_path := lift (py_str (or_else (default (PStr []) (dict_get (str "tier_profile_path") cfg)) (PStr []))) in
   let* profiles :=
     match tier_profile_path with
     | [] => ret _default_profiles
     | _ =>
         let* mode := lift (py_str (default (PStr (str "p95")) (dict_get (str "tier_profile_mode") cfg))) in
         profiles_from_tier_profile repo cwd tier_profile_path mode (str "local_file_pread") None
     end in
   lift (cost_model_of cfg profiles))%m.
End CostModel.

(** ** The host *)

Record Host (D : Type) := mkHost {
  h_disk : Fs;
  h_dbs : gmap path Database;      (* the databases, by their files *)
  h_sqlite : path -> option exn;   (* what opening a database raises, if it fails *)
  h_objects : D;
  h_time : nat -> f64;
  h_perf : nat -> f64;
  h_tick : nat;
  h_epoch : pystr;                 (* [uuid.uuid4().hex] *)
  h_pid : Z;
}.
Arguments mkHost {D} _ _ _ _ _ _ _ _ _.
Arguments h_disk {D} _.
Arguments h_dbs {D} _.
Arguments h_sqlite {D} _ _.
Arguments h_objects {D} _.
Arguments h_time {D} _ _.
Arguments h_perf {D} _ _.
Arguments h_tick {D} _.
Arguments h_epoch {D} _.
Arguments h_pid {D} _.

Definition host_disk {D : Type} (f : Fs) (h : Host D) : Host D :=
  mkHost f (h_dbs h) (h_sqlite h) (h_objects h) (h_time h) (h_perf h) (h_tick h) (h_epoch h) (h_pid h).

Definition host_dbs {D : Type} (dbs : gmap path Database) (h : Host D) : Host D :=
  mkHost (h_disk h) dbs (h_sqlite h) (h_objects h) (h_time h) (h_perf h) (h_tick h) (h_epoch h) (h_pid h).

Definition host_tick {D : Type} (h : Host D) : Host D :=
  mkHost (h_disk h) (h_dbs h) (h_sqlite h) (h_objects h) (h_time h) (h_perf h) (S (h_tick h)) (h_epoch h) (h_pid h).

Definition on_disk {D A : Type} (m : M Fs A) : M (Host D) A := zoom h_disk host_disk m.

Definition fresh_database : Database := {| blocks := ∅; runtime := None; owner_lock := false |}.

Definition database {D : Type} (h : Host D) (p : path) : Database := default fresh_database (h_dbs h !! p).

(** [db_path.with_name(f"{db_path.name}.owner.lock")]. *)
Definition owner_lock_path (p : path) : res path :=
  match p with
  | [] => Raise (err ValueError (str "PosixPath('/') has an empty name"))
  | _ => Ok (path_parent p ++ [path_name p ++ str ".owner.lock"])
  end.

(** [MetadataStore(db_path)]: the path and the store. *)
Definition MetadataStore_init {D : Type} (db_path : path) : M (Host D) (path * MetadataStore) :=
  (let* p := lift (resolve_path db_path) in
   on_disk (mkdir (path_parent p)) ;;
   let* lock := lift (owner_lock_path p) in
   on_disk (append_file lock []) ;;
   let* h := gets id in
   match owner_lock (database h p), h_sqlite h p with
   | false, Some e => raise e
   | _, _ =>
       modify host_tick ;;
       let '(db, r) := open_store (h_epoch h) (h_pid h) (h_time h (h_tick h)) (database h p) in
       modify (fun h => host_dbs (<[p := db]> (h_dbs h)) h) ;;
       let* store := lift r in
       ret (p, store)
   end)%m.

(** [metadata_store.close()] of a store that was just opened. *)
Definition close_database {D : Type} (p : path) (store : MetadataStore) : M (Host D) unit :=
  modify (fun h => host_dbs (<[p := ms_db (MetadataStore.close store).1]> (h_dbs h)) h).

(** ** The store *)

Record Built (D : Type) := {
  b_manager : MultiTierKVBlockStore (Stack (Injected D));
  b_memory : option MemoryTier;
  b_store : MetadataStore;
  b_pool : Pool;
}.
Arguments b_manager {D} _.
Arguments b_memory {D} _.
Arguments b_store {D} _.
Arguments b_pool {D} _.

(** The state of the process that runs the store. Without a memory tier nothing
    looks at the dictionary. *)
Definition process {D : Type} (b : Built D) (h : Host D) : Stack (Injected D) :=
  mkStack (mkEnv (b_store b) (Some KVStoreMetrics_init) (h_time h) (h_perf h) (h_tick h))
    (default (mkMemoryTier 1 [] 0) (b_memory b)) (h_disk h) (mkInjected (h_objects h) no_stats 0 []) (b_pool b) false.

Section Build.
Context `{UnicodeData} `{PyBuiltins} `{JsonSchema} {D : Type} `{Boto3 D} (random : Z -> nat -> f64) (repo cwd : path).

Abbreviation HM := (M (Host D)).
Abbreviation AnyTier := (Tier (Stack (Injected D))).

(** [int(cfg.get(k, d))] and [str(cfg.get(k, d))]. *)
Definition int_field (cfg : list (pystr * pyval)) (k : pystr) (d : Z) : res Z := py_int (default (PInt d) (dict_get k cfg)).
Definition str_field (cfg : list (pystr * pyval)) (k : pystr) (d : pystr) : res pystr :=
  py_str (default (PStr d) (dict_get k cfg)).
Definition flag (cfg : list (pystr * pyval)) (k : pystr) (d : bool) : bool := truthy (default (PBool d) (dict_get k cfg)).

(** [cfg.get(k, {})], a section. *)
Definition section (cfg : list (pystr * pyval)) (k : pystr) : res (list (pystr * pyval)) :=
  dict_of (default (PDict []) (dict_get k cfg)).

Local Open Scope m_scope.

Definition build_memory (tier_cfg : list (pystr * pyval)) : HM (option MemoryTier) :=
  let* cfg := lift (section tier_cfg (str "memory")) in
  if flag cfg (str "enabled") true then
    lift (let? n := int_field cfg (str "max_bytes") (64 * 1024 * 1024) in res_map Some (MemoryTier_init n))%res
  else ret None.

Definition build_nvme (tier_cfg : list (pystr * pyval)) (base_dir : path) : HM (option NVMeTier) :=
  let* cfg := lift (section tier_cfg (str "nvme")) in
  if flag cfg (str "enabled") true then
    let* root := lift (_resolve_path base_dir (default (PStr (str "./data/kvstore/nvme")) (dict_get (str "root_dir") cfg))) in
    let* n := lift (int_field cfg (str "max_bytes") (512 * 1024 * 1024)) in
    let* mode := lift (str_field cfg (str "layout_mode") content_addressed) in
    let* seg := lift (int_field cfg (str "segment_bytes") (64 * 1024 * 1024)) in
    let* tier := on_disk (NVMeTier_init root cwd n (flag cfg (str "fsync_on_store") false)
                            (flag cfg (str "use_direct_io") false) mode seg) in
    ret (Some tier)
  else ret None.

Definition build_s3 (tier_cfg : list (pystr * pyval)) : res (option (S3Tier * S3Client (Injected D))) :=
  (let? cfg := section tier_cfg (str "s3") in
   if flag cfg (str "enabled") false then
     let? endpoint := str_field cfg (str "endpoint_url") [] in
     let? bucket := str_field cfg (str "bucket") (str "kv-cache") in
     let? prefix := str_field cfg (str "prefix") (str "blocks/") in
     let? access := str_field cfg (str "access_key_env") (str "S3_ACCESS_KEY") in
     let? secret := str_field cfg (str "secret_key_env") (str "S3_SECRET_KEY") in
     let? connect := int_field cfg (str "connect_timeout_ms") 500 in
     let? read := int_field cfg (str "read_timeout_ms") 2000 in
     let? retries := int_field cfg (str "max_retries") 2 in
     let? payload := int_field cfg (str "max_payload_bytes") DEFAULT_S3_MAX_PAYLOAD_BYTES in
     res_map Some (S3Tier_new random (match endpoint with [] => None | _ => Some endpoint end) bucket prefix access secret
                     connect read retries payload (get_or_none (str "fault_injection") cfg))
   else Ok None)%res.

(** The list of the enabled tiers. *)
Definition enabled_tiers (mem : option MemoryTier) (nv : option NVMeTier) (s3 : option (S3Tier * S3Client (Injected D)))
  : list AnyTier :=
  match mem with Some _ => [stack_memory] | None => [] end ++
  match nv with Some nv => [stack_nvme nv] | None => [] end ++
  match s3 with Some (s3, client) => [stack_s3 s3 client] | None => [] end.

Definition _build_store (cfg : list (pystr * pyval)) (base_dir : path) (metadata_store : MetadataStore) : HM (Built D) :=
  let* tier_cfg := lift (section cfg (str "tiers")) in
  let* mem := build_memory tier_cfg in
  let* nv := build_nvme tier_cfg base_dir in
  let* s3 := lift (build_s3 tier_cfg) in
  let* cm := on_disk (_build_cost_model repo cwd (default (PDict []) (dict_get (str "cost_model") cfg))) in
  let* mg := lift (MultiTierKVBlockStore_init (enabled_tiers mem nv s3) cm) in
  let* prefetcher := lift (Prefetcher_init 2 64) in
  ret {| b_manager := mg; b_memory := mem; b_store := metadata_store; b_pool := mkPool prefetcher (mkExecutor true []) |}.

Definition build_store_from_config (config_path : pystr) : HM (Built D) :=
  let* v := on_disk (_load_config cwd config_path) in
  let* base_dir := lift (_config_base_dir cwd config_path) in
  let* cfg := lift (dict_of v) in
  let* db := lift (let? kv := section cfg (str "kvstore") in
                   _resolve_path base_dir (default (PStr (str "./data/kvstore/metadata.sqlite3")) (dict_get (str "metadata_db") kv)))%res in
  let* (p, store) := MetadataStore_init db in
  try_catch (_build_store cfg base_dir store) (fun e => close_database p store ;; raise e).
End Build.
