(* ===== verification/FactorySpec.v ===== *)
(** * What a store built from a configuration guarantees

    A build takes the owner lock of one database or leaves every lock as it was,
    and the store it returns keeps the promises of [StackSpec]. *)

From Stdlib Require Import SpecFloat.
From S2P Require Import CostModel.
From S2P Require Import Prelude PyText Sha256 Float64 Errors PyVal Json JsonFacts Metadata MetadataFacts MetadataStore MetadataStoreFacts MetadataStoreSpec Metrics Runtime MemoryTier MemoryTierFacts Tokenization Layout Record Url UrlFacts FileSystem FileSystemFacts World WorldFacts NvmeTier NvmeTierFacts NvmeTierSpec S3Client PyConv S3Fault S3Tier S3TierFacts S3TierSpec Prefetch TierManager TierManagerFacts Confined TierInstances ManagerRuns TierManagerSpec Stack StackSpec Config ConfigSpec TierProfileImport TierProfileSpec Factory.
Import MNotations ResNotations.

(** ** Clients *)

(** A configuration that injects nothing. *)
Definition disabled_injection : S3FaultInjectionConfig := mkConfig zero zero zero zero 0 [] false.

Lemma direct_laws {D} (client : S3Client D) good objects :
  s3_laws client good objects ->
  s3_laws (direct_client client) (fun i => good (in_dev i)) (fun i => objects (in_dev i)).
Proof.
  intros Hl. pose proof (injected_laws (fun _ _ => zero) client disabled_injection good objects Hl) as [H1 H2 H3 H4 _]. split.
  - exact H1.
  - exact H2.
  - intros b k d Hd. specialize (H3 b k d Hd). cbn in *. unfold inject_get, bind in H3. cbn in H3.
    unfold bind. destruct (on_inner _ d) as [d' [[body|e]|e]]; exact H3.
  - exact H4.
  - intros s d Hs Hg. cbn in Hs. destruct (injection_stats client) as [st|] eqn:E; [|done]. injection Hs as <-.
    pose proof (S3Client.law_stats _ _ _ Hl st (in_dev d) E Hg) as H5. unfold on_inner, zoom. by destruct (st (in_dev d)).
Qed.

(** A client whose calls all fail. *)
Definition dead_client (D : Type) : S3Client D :=
  let fail {A} : M D A := raise (err (ForeignError (str "offline")) []) in
  {| put_object _ _ _ _ := fail; get_object _ _ := fail; head_object _ _ := fail; delete_object _ _ := fail; injection_stats := None |}.

Lemma dead_laws {D} good objects : s3_laws (dead_client D) good objects.
Proof. split; try done; intros; cbn; auto. Qed.

(** ** Locks *)

Section Host.
Context {D : Type}.

(** Computations that leave the databases alone. *)
Definition same_dbs (h h' : Host D) : Prop :=
  h_dbs h' = h_dbs h /\ h_sqlite h' = h_sqlite h /\ h_objects h' = h_objects h /\ h_time h' = h_time h /\
  h_perf h' = h_perf h /\ h_tick h' = h_tick h /\ h_epoch h' = h_epoch h /\ h_pid h' = h_pid h.

Definition off_db {A} (m : M (Host D) A) : Prop := forall h, same_dbs h (m h).1.

Lemma off_db_lift {A} (r : res A) : off_db (lift r).
Proof. by intros h. Qed.

Lemma off_db_ret {A} (a : A) : off_db (ret a).
Proof. by intros h. Qed.

Lemma off_db_disk {A} (m : M Fs A) : off_db (on_disk m).
Proof. intros h. unfold on_disk, zoom. by destruct (m (h_disk h)). Qed.

Lemma same_dbs_trans h1 h2 h3 : same_dbs h1 h2 -> same_dbs h2 h3 -> same_dbs h1 h3.
Proof. unfold same_dbs. naive_solver congruence. Qed.

Lemma off_db_bind {A B} (m : M (Host D) A) (f : A -> M (Host D) B) :
  off_db m -> (forall a, off_db (f a)) -> off_db (bind m f).
Proof.
  intros Hm Hf h. unfold bind. specialize (Hm h). destruct (m h) as [h1 [a|e]]; cbn in *; [|done].
  eapply same_dbs_trans; [exact Hm|]. apply Hf.
Qed.

Lemma database_same h h' p : same_dbs h h' -> database h' p = database h p.
Proof. unfold database. by intros (-> & _). Qed.

(** Opening: either nothing changes, or the database is locked by this process. *)
Lemma init_outcome (db_path : path) (h : Host D) :
  match MetadataStore_init db_path h with
  | (h', Raise _) => forall q, database h' q = database h q
  | (h', Ok (p, store)) =>
      resolve_path db_path = Ok p /\
      owner_lock (database h p) = false /\ (forall q, q <> p -> database h' q = database h q) /\
      database h' p = ms_db store /\
      open_store (h_epoch h) (h_pid h) (h_time h (h_tick h)) (database h p) = (ms_db store, Ok store) /\
      h_objects h' = h_objects h /\ h_time h' = h_time h /\ h_perf h' = h_perf h
  end.
Proof.
  unfold MetadataStore_init. unfold bind at 1, lift at 1. destruct (resolve_path db_path) as [p|e] eqn:Eres; [|done].
  unfold bind at 1. pose proof (off_db_disk (mkdir (path_parent p)) h) as H1.
  destruct (on_disk (mkdir _) h) as [h1 [[]|e]]; cbn in H1; [|intros q; by apply database_same].
  unfold bind at 1, lift at 1. destruct (owner_lock_path p) as [lock|e]; [|intros q; by apply database_same].
  unfold bind at 1. pose proof (off_db_disk (append_file lock []) h1) as H2.
  destruct (on_disk (append_file _ _) h1) as [h2 [[]|e]]; cbn in H2; [|intros q; apply database_same; by eapply same_dbs_trans].
  pose proof (same_dbs_trans _ _ _ H1 H2) as Hs. unfold bind at 1, gets at 1. cbn [id].
  assert (forall q, database h2 q = database h q) as Hdb by (intros q; by apply database_same).
  assert (forall q db, q ≠ p -> database (host_dbs (<[p := db]> (h_dbs h2)) (host_tick h2)) q = database h q) as Hne.
  { intros q db Hq. rewrite <- Hdb. unfold database. cbn. by rewrite lookup_insert_ne. }
  assert (forall db, database (host_dbs (<[p := db]> (h_dbs h2)) (host_tick h2)) p = db) as Heq.
  { intros db. unfold database. cbn. by rewrite lookup_insert_eq. }
  destruct Hs as (_ & _ & Ho & Ht & Hp & Htick & He & Hpid).
  destruct (owner_lock (database h2 p)) eqn:El.
  - unfold bind at 1, modify at 1. unfold open_store. rewrite El. unfold bind at 1, modify, lift. cbn [bind fst snd].
    intros q. destruct (base.decide (q = p)) as [->|Hq]; [|by apply Hne]. by rewrite <- Hdb, Heq.
  - destruct (h_sqlite h2 p); [done|]. unfold bind at 1, modify at 1. rewrite He, Hpid, Ht, Htick, Hdb.
    destruct (open_store _ _ _ _) as [db r] eqn:E. rewrite Hdb in El. unfold bind at 1, modify. unfold bind, lift, ret.
    assert (exists store, r = Ok store /\ db = ms_db store) as (store & -> & ->).
    { unfold open_store in E. rewrite El in E. injection E as <- <-. by eexists. }
    cbn. split_and!; try done; try (by intros q Hq; apply Hne); by apply Heq.
Qed.
End Host.

#[export] Hint Resolve off_db_lift off_db_ret off_db_disk off_db_bind : kv.

(** ** Reading *)

(** Computations that leave the files and directories alone. *)
Definition reads_only {A} (m : M Fs A) : Prop := forall s, fs_files (m s).1 = fs_files s /\ fs_dirs (m s).1 = fs_dirs s.

Lemma reads_only_lift {A} (r : res A) : reads_only (lift r).
Proof. by intros s. Qed.

Lemma reads_only_ret {A} (a : A) : reads_only (ret a).
Proof. by intros s. Qed.

Lemma reads_only_gets {A} (f : Fs -> A) : reads_only (gets f).
Proof. by intros s. Qed.

Lemma reads_only_raise {A} e : reads_only (raise (A := A) e).
Proof. by intros s. Qed.

Lemma reads_only_bind {A B} (m : M Fs A) (f : A -> M Fs B) :
  reads_only m -> (forall a, reads_only (f a)) -> reads_only (bind m f).
Proof.
  intros Hm Hf s. unfold bind. specialize (Hm s). destruct (m s) as [s1 [a|e]]; cbn in *; [|done].
  destruct Hm as [<- <-]. apply Hf.
Qed.

Lemma reads_only_guarded {A} (m : M Fs A) : reads_only m -> reads_only (guarded m).
Proof.
  intros Hm. apply reads_only_bind; [by intros s|]. intros [f|]; [apply reads_only_raise|done].
Qed.

Lemma reads_only_when b (m : M Fs unit) : reads_only m -> reads_only (when b m).
Proof. intros Hm. destruct b; [done|apply reads_only_ret]. Qed.

#[export] Hint Resolve reads_only_lift reads_only_ret reads_only_gets reads_only_raise reads_only_bind reads_only_guarded
  reads_only_when : kv.

Lemma reads_only_read_bytes cwd text : reads_only (read_bytes cwd text).
Proof.
  unfold read_bytes. case_bool_decide; [auto with kv|]. apply reads_only_bind; [auto with kv|]. intros [q|]; [|auto with kv].
  apply reads_only_guarded, reads_only_bind; [auto with kv|]. intros s. destruct (fs_files s !! q); [auto with kv|].
  destruct (is_dir s q); auto with kv.
Qed.

Lemma reads_only_cost_model `{UnicodeData} `{PyBuiltins} `{JsonSchema} repo cwd v : reads_only (_build_cost_model repo cwd v).
Proof.
  unfold _build_cost_model. apply reads_only_bind; [auto with kv|]. intros cfg. apply reads_only_bind; [auto with kv|].
  intros [|c path]; apply reads_only_bind; auto with kv. apply reads_only_bind; [auto with kv|]. intros mode.
  unfold profiles_from_tier_profile, import_profiles_from_tier_profile, _validate_schema, text_is_file.
  repeat (apply reads_only_bind || intros); auto using reads_only_read_bytes with kv.
Qed.

(** ** What a configuration asks for *)

(** A section: absent, it is empty. *)
Definition section_is (cfg : list (pystr * pyval)) (k : pystr) (sec : list (pystr * pyval)) : Prop :=
  match dict_get k cfg with Some v => v = PDict sec | None => sec = [] end.

Definition flag_of (sec : list (pystr * pyval)) (k : pystr) (d : bool) : bool :=
  match dict_get k sec with Some v => truthy v | None => d end.

Lemma flag_flag_of sec k d : flag sec k d = flag_of sec k d.
Proof. unfold flag, flag_of. by destruct (dict_get k sec). Qed.

Lemma section_ok cfg k sec : section cfg k = Ok sec -> section_is cfg k sec.
Proof. unfold section, section_is. destruct (dict_get k cfg) as [[]|]; try done; by intros [= <-]. Qed.

Section Settings.
Context `{UnicodeData} `{PyBuiltins} `{JsonSchema} {D : Type} `{Boto3 D} (random : Z -> nat -> f64).

(** A number and a string of a section, with the value of a missing one. *)
Definition int_is (sec : list (pystr * pyval)) (k : pystr) (d n : Z) : Prop :=
  match dict_get k sec with Some v => py_int v = Ok n | None => n = d end.
Definition str_is (sec : list (pystr * pyval)) (k d t : pystr) : Prop :=
  match dict_get k sec with Some v => py_str v = Ok t | None => t = d end.
Definition float_is (sec : list (pystr * pyval)) (k : pystr) (d x : f64) : Prop :=
  match dict_get k sec with Some v => py_float v = Ok x | None => x = d end.

Lemma int_field_is sec k d n : int_field sec k d = Ok n -> int_is sec k d n.
Proof. unfold int_field, int_is. destruct (dict_get k sec); [done|]. by intros [= <-]. Qed.

Lemma str_field_is sec k d t : str_field sec k d = Ok t -> str_is sec k d t.
Proof. unfold str_field, str_is. destruct (dict_get k sec); [done|]. by intros [= <-]. Qed.

Lemma float_field_is sec k d x : float_field sec k d = Ok x -> float_is sec k d x.
Proof. unfold float_field, float_is. destruct (dict_get k sec); [done|]. by intros [= <-]. Qed.

(** A path of a section, below the base directory if it is relative. *)
Definition path_is (base : path) (sec : list (pystr * pyval)) (k d : pystr) (p : path) : Prop :=
  exists p0, _resolve_path base (default (PStr d) (dict_get k sec)) = Ok p0 /\ resolve_path p0 = Ok p.

(** The tiers the sections ask for: enabled unless they say otherwise (S3: only if they
    say so), with the sizes in bytes. *)
Definition memory_as (sec : list (pystr * pyval)) (mem : option MemoryTier) : Prop :=
  if flag_of sec (str "enabled") true
  then exists n, int_is sec (str "max_bytes") 67108864 n /\ 0 < n /\ mem = Some (mkMemoryTier n [] 0)
  else mem = None.

Definition nvme_as (base cwd : path) (sec : list (pystr * pyval)) (nv : option NVMeTier) : Prop :=
  if flag_of sec (str "enabled") true
  then exists root n mode seg,
    path_is base sec (str "root_dir") (str "./data/kvstore/nvme") root /\
    int_is sec (str "max_bytes") 536870912 n /\ 0 < n /\
    str_is sec (str "layout_mode") (str "content_addressed") mode /\ (mode = str "content_addressed" \/ mode = str "segment") /\
    int_is sec (str "segment_bytes") 67108864 seg /\ 0 < seg /\ flag_of sec (str "use_direct_io") false = false /\
    nv = Some {| root_dir := root; nv_cwd := cwd; nv_max_bytes := n; fsync_on_store := flag_of sec (str "fsync_on_store") false;
                 layout_mode := mode; segment_bytes := seg |}
  else nv = None.

(** The client of the S3 section: timeouts in seconds, credentials from the environment,
    wrapped when it asks for fault injection. *)
Definition client_as (sec : list (pystr * pyval)) (endpoint : option pystr) (connect read retries : Z)
    (client : S3Client (Injected D)) : Prop :=
  exists connect_s read_s access secret access_key secret_key base,
    seconds connect = Ok connect_s /\ seconds read = Ok read_s /\
    str_is sec (str "access_key_env") (str "S3_ACCESS_KEY") access /\ environ_get access = Ok access_key /\
    str_is sec (str "secret_key_env") (str "S3_SECRET_KEY") secret /\ environ_get secret = Ok secret_key /\
    boto3_client {| ca_connect_timeout := connect_s; ca_read_timeout := read_s; ca_max_attempts := retries;
                    ca_endpoint_url := endpoint; ca_access_key := access_key; ca_secret_key := secret_key |} = Ok base /\
    match get_or_none (str "fault_injection") sec with
    | PNone => client = direct_client base
    | raw => exists c, from_mapping raw = Ok c /\
        client = if enabled c then FaultInjectingS3Client random base c else direct_client base
    end.

Definition s3_as (sec : list (pystr * pyval)) (s3 : option (S3Tier * S3Client (Injected D))) : Prop :=
  if flag_of sec (str "enabled") false
  then exists tier client endpoint pre connect read retries,
    s3 = Some (tier, client) /\
    str_is sec (str "endpoint_url") [] endpoint /\ str_is sec (str "bucket") (str "kv-cache") (bucket tier) /\
    str_is sec (str "prefix") (str "blocks/") pre /\ prefix tier = strip_slashes pre /\
    int_is sec (str "connect_timeout_ms") 500 connect /\ int_is sec (str "read_timeout_ms") 2000 read /\
    int_is sec (str "max_retries") 2 retries /\
    int_is sec (str "max_payload_bytes") DEFAULT_S3_MAX_PAYLOAD_BYTES (max_payload_bytes tier) /\
    client_as sec (match endpoint with [] => None | _ => Some endpoint end) connect read retries client
  else s3 = None.

(** The cost model: its thresholds, and without measurements or overrides the built-in
    profiles. *)
Definition cost_as (sec : list (pystr * pyval)) (cm : CostModel) : Prop :=
  float_is sec (str "load_benefit_threshold_ms") (f64_of_Z 5) (load_benefit_threshold_ms cm) /\
  float_is sec (str "s3_load_benefit_threshold_ms") (f64_of_Z 50) (s3_load_benefit_threshold_ms cm) /\
  float_is sec (str "slo_budget_guard_ms") (f64_of_Z 100) (slo_budget_guard_ms cm) /\
  (dict_get (str "tier_profile_path") sec = None -> dict_get (str "profiles") sec = None ->
   forall t, CostModel.profiles cm t = Some (built_in t)).

(** The tiers of the manager, in the order it was given them. *)
Definition tiers_as (mem : option MemoryTier) (nv : option NVMeTier) (s3 : option (S3Tier * S3Client (Injected D)))
  : list (TierName * Tier (Stack (Injected D))) :=
  match mem with Some _ => [(MEMORY, stack_memory)] | None => [] end ++
  match nv with Some nv => [(NVME, stack_nvme nv)] | None => [] end ++
  match s3 with Some (s3, client) => [(Metadata.S3, stack_s3 s3 client)] | None => [] end.

(** The store a configuration asks for. *)
Record built_as (base cwd : path) (cfg : list (pystr * pyval)) (b : Built D) (nv : option NVMeTier)
    (s3 : option (S3Tier * S3Client (Injected D))) : Prop := {
  ba_tiers : exists sec mem_sec nv_sec s3_sec, section_is cfg (str "tiers") sec /\
    section_is sec (str "memory") mem_sec /\ memory_as mem_sec (b_memory b) /\
    section_is sec (str "nvme") nv_sec /\ nvme_as base cwd nv_sec nv /\
    section_is sec (str "s3") s3_sec /\ s3_as s3_sec s3;
  ba_manager : tiers (b_manager b) = tiers_as (b_memory b) nv s3 /\ tiers (b_manager b) <> [];
  ba_cost : exists sec, section_is cfg (str "cost_model") sec /\ cost_as sec (cost_model (b_manager b));
}.

(** ** What is built *)

Lemma memory_built tier_cfg (h h' : Host D) mem :
  build_memory tier_cfg h = (h', Ok mem) -> exists sec, section_is tier_cfg (str "memory") sec /\ memory_as sec mem.
Proof.
  unfold build_memory. intros (sec & h1 & Hc & Hm)%bind_ok. injection Hc as _ Hc. exists sec. split; [by apply section_ok|].
  unfold memory_as. rewrite flag_flag_of in Hm. destruct (flag_of _ _ _); [|by injection Hm as _ <-]. injection Hm as _ Hm.
  apply res_bind_ok in Hm as (n & Hn%int_field_is & Hm). apply res_map_ok in Hm as (m & Hm & ->).
  unfold MemoryTier_init in Hm. destruct (n <=? 0) eqn:E; [done|]. injection Hm as <-. exists n. split_and!; [done|lia|done].
Qed.

Lemma nvme_built_as cwd tier_cfg base (h h' : Host D) nv :
  build_nvme cwd tier_cfg base h = (h', Ok nv) -> exists sec, section_is tier_cfg (str "nvme") sec /\ nvme_as base cwd sec nv.
Proof.
  unfold build_nvme. intros (sec & h1 & Hc & Hm)%bind_ok. injection Hc as _ Hc. exists sec. split; [by apply section_ok|].
  unfold nvme_as. rewrite flag_flag_of in Hm. destruct (flag_of sec (str "enabled") true); [|by injection Hm as _ <-].
  apply bind_ok in Hm as (root0 & h2 & Hr & Hm). injection Hr as _ Hroot. apply bind_ok in Hm as (n & h3 & Hr & Hm). injection Hr as _ Hn%int_field_is.
  apply bind_ok in Hm as (mode & h4 & Hr & Hm). injection Hr as _ Hmode%str_field_is.
  apply bind_ok in Hm as (seg & h5 & Hr & Hm). injection Hr as _ Hseg%int_field_is.
  apply bind_ok in Hm as (t & h6 & Hi & Hm). injection Hm as _ <-. rewrite !flag_flag_of in Hi.
  unfold on_disk, zoom in Hi. destruct (NVMeTier_init _ _ _ _ _ _ _ _) as [s r] eqn:E. injection Hi as _ ->.
  unfold NVMeTier_init in E. apply bind_ok in E as ([] & s1 & Hl & E). injection Hl as _ Hl.
  apply res_bind_ok in Hl as ([] & Hpos%ensure_ok & Hl). apply res_bind_ok in Hl as ([] & Hlay%ensure_ok & Hl).
  apply res_bind_ok in Hl as ([] & Hsp%ensure_ok & Hdio%ensure_ok).
  apply bind_ok in E as (root & s2 & Hp & E). injection Hp as _ Hp. apply bind_ok in E as ([] & s3 & _ & E). injection E as _ <-.
  exists root, n, mode, seg. split_and!; try done; try lia.
  - by exists root0.
  - apply orb_true_iff in Hlay as [Hlay%bool_decide_eq_true|Hlay%bool_decide_eq_true]; [by left|by right].
  - by apply negb_true_iff in Hdio.
Qed.

Lemma s3_built_as tier_cfg s3 :
  build_s3 random tier_cfg = Ok s3 -> exists sec, section_is tier_cfg (str "s3") sec /\ s3_as sec s3.
Proof.
  unfold build_s3. intros Hb. apply res_bind_ok in Hb as (sec & Hc & Hb). exists sec. split; [by apply section_ok|].
  unfold s3_as. rewrite flag_flag_of in Hb. destruct (flag_of sec (str "enabled") false); [|by injection Hb as <-].
  apply res_bind_ok in Hb as (endpoint & He%str_field_is & Hb). apply res_bind_ok in Hb as (bkt & Hbk%str_field_is & Hb).
  apply res_bind_ok in Hb as (pre & Hpre%str_field_is & Hb). apply res_bind_ok in Hb as (access & Hac%str_field_is & Hb).
  apply res_bind_ok in Hb as (secret & Hse%str_field_is & Hb). apply res_bind_ok in Hb as (connect & Hco%int_field_is & Hb).
  apply res_bind_ok in Hb as (read & Hre%int_field_is & Hb). apply res_bind_ok in Hb as (retries & Hrt%int_field_is & Hb).
  apply res_bind_ok in Hb as (payload & Hpa%int_field_is & Hb). apply res_map_ok in Hb as ([tier client] & Hb & ->).
  unfold S3Tier_new in Hb. apply res_bind_ok in Hb as (tier' & Ht & Hb). apply res_bind_ok in Hb as (base & Hcl & Hb).
  apply res_bind_ok in Hb as (inj & Hinj & [= -> Ecl]).
  assert (bucket tier = bkt /\ prefix tier = strip_slashes pre /\ max_payload_bytes tier = payload) as (Eb & Ep & En).
  { unfold S3Tier_init in Ht. apply res_bind_ok in Ht as (b & Hx1 & Ht). apply res_bind_ok in Ht as (p & Hx2 & Ht).
    apply res_bind_ok in Ht as (n & Hx3 & [= <-]). unfold check_bucket, check_prefix, check_max_payload in *.
    repeat match goal with Hx : res_bind _ _ = Ok _ |- _ => apply res_bind_ok in Hx as (? & _ & Hx) end. by simplify_eq/=. }
  exists tier, client, endpoint, pre, connect, read, retries. rewrite Eb, Ep, En. split_and!; try done.
  unfold _build_client in Hcl. destruct import_boto3; [done|]. apply res_bind_ok in Hcl as (cs & Hcs & Hcl).
  apply res_bind_ok in Hcl as (rs & Hrs & Hcl). apply res_bind_ok in Hcl as (ak & Hak & Hcl). apply res_bind_ok in Hcl as (sk & Hsk & Hcl).
  exists cs, rs, access, secret, ak, sk, base. split_and!; try done. unfold _maybe_fault_inject in Hinj.
  destruct (get_or_none (str "fault_injection") sec); try (injection Hinj as <-; by rewrite <- Ecl);
    apply res_bind_ok in Hinj as (c & Hp & [= <-]); exists c; rewrite <- Ecl; by destruct (enabled c).
Qed.

Lemma cost_built_as repo cwd cfg (s s' : Fs) cm :
  _build_cost_model repo cwd (default (PDict []) (dict_get (str "cost_model") cfg)) s = (s', Ok cm) ->
  exists sec, section_is cfg (str "cost_model") sec /\ cost_as sec cm.
Proof.
  unfold _build_cost_model. intros (sec & s1 & Hc & Hm)%bind_ok. injection Hc as _ Hc. exists sec. split; [by apply section_ok|].
  apply bind_ok in Hm as (tp & s2 & Htp & Hm). apply (f_equal snd) in Htp. cbn [lift snd] in Htp. apply bind_ok in Hm as (profiles & s3 & Hprof & Hm).
  injection Hm as _ Hm. unfold cost_model_of in Hm. apply res_bind_ok in Hm as (items & Hit & Hm).
  apply res_bind_ok in Hm as (over & Hover & Hm). apply res_bind_ok in Hm as (x1 & Hx1%float_field_is & Hm).
  apply res_bind_ok in Hm as (x2 & Hx2%float_field_is & Hm). apply res_bind_ok in Hm as (x3 & Hx3%float_field_is & [= <-]).
  split_and!; try done. cbn [CostModel.profiles]. intros Hno Hnp t. rewrite Hno in Htp. rewrite Hnp in Hit. injection Htp as <-. injection Hit as <-.
  injection Hover as <-. injection Hprof as _ <-. apply default_built_in.
Qed.

Lemma manager_built_as mem nv s3 cm mg :
  MultiTierKVBlockStore_init (enabled_tiers mem nv s3) cm = Ok mg ->
  tiers mg = tiers_as mem nv s3 /\ tiers mg <> [] /\ cost_model mg = cm.
Proof.
  unfold enabled_tiers, tiers_as. destruct mem as [m|], nv as [n|], s3 as [[t c]|]; cbn; try done; by intros [= <-].
Qed.
End Settings.

(** ** The tiers that are built *)

Section Built.
Context `{UnicodeData} `{PyBuiltins} `{JsonSchema} {D : Type} `{Boto3 D} (random : Z -> nat -> f64) (repo cwd : path).

Lemma build_memory_ok tier_cfg (h h' : Host D) mem :
  build_memory tier_cfg h = (h', Ok mem) -> h' = h /\ forall m, mem = Some m -> exists n, 0 < n /\ m = mkMemoryTier n [] 0.
Proof.
  unfold build_memory. intros (cfg & h1 & Hc & Hm)%bind_ok. injection Hc as <- _.
  destruct (flag cfg _ true); [|by injection Hm as <- <-]. injection Hm as <- Hm. split; [done|]. intros m ->.
  apply res_bind_ok in Hm as (n & _ & Hm). unfold MemoryTier_init in Hm. destruct (n <=? 0) eqn:E; [done|]. injection Hm as <-.
  exists n. split; [lia|done].
Qed.

Lemma ancestors_last p : forall acc, p <> [] -> acc ++ p ∈ ancestors acc p.
Proof.
  induction p as [|c r IH]; intros acc; [done|]. intros _. cbn. destruct r as [|c' r]; [left|]. right.
  replace (acc ++ c :: c' :: r) with ((acc ++ [c]) ++ c' :: r) by (by rewrite <- app_assoc). by apply IH.
Qed.

Lemma mkdir_dir root s s' u : mkdir root s = (s', Ok u) -> root = [] \/ root ∈ fs_dirs s'.
Proof.
  unfold mkdir, bind, syscall. destruct (fs_faults s (fs_calls s)); [done|]. unfold gets. destruct (existsb _ _); [done|].
  intros [= <- _]. cbn. destruct root as [|c root]; [by left|]. right. apply elem_of_union_l, elem_of_list_to_set.
  by apply (ancestors_last (c :: root) []).
Qed.

(** An NVMe tier that was constructed: its root directory exists. *)
Record nvme_built (nv : NVMeTier) (s : Fs) : Prop := {
  nb_root : root_dir nv = [] \/ root_dir nv ∈ fs_dirs s;
  nb_mode : layout_ok (layout_mode nv);
  nb_bytes : 0 < nv_max_bytes nv;
}.

Lemma build_nvme_ok tier_cfg base_dir (h h' : Host D) nv :
  build_nvme cwd tier_cfg base_dir h = (h', Ok nv) -> forall t, nv = Some t -> nvme_built t (h_disk h').
Proof.
  unfold build_nvme. intros (cfg & h1 & Hc & Hm)%bind_ok. injection Hc as <- _.
  destruct (flag cfg _ true); [|by injection Hm as <- <-]. intros t ->.
  apply bind_ok in Hm as (root & h1 & Hr & Hm). injection Hr as <- _. apply bind_ok in Hm as (n & h1 & Hr & Hm). injection Hr as <- _.
  apply bind_ok in Hm as (mode & h1 & Hr & Hm). injection Hr as <- _. apply bind_ok in Hm as (seg & h1 & Hr & Hm). injection Hr as <- _.
  apply bind_ok in Hm as (t' & h1 & Hi & Hm). injection Hm as <- <-.
  unfold on_disk, zoom in Hi. destruct (NVMeTier_init _ _ _ _ _ _ _ _) as [s r] eqn:E. injection Hi as <- ->. cbn [h_disk host_disk].
  unfold NVMeTier_init in E. apply bind_ok in E as ([] & s1 & Hl & E). injection Hl as <- Hl.
  apply res_bind_ok in Hl as ([] & Hpos%ensure_ok & Hl). apply res_bind_ok in Hl as ([] & Hmode%ensure_ok & Hl).
  apply bind_ok in E as (root' & s1 & Hroot & E). injection Hroot as <- _. apply bind_ok in E as ([] & s1 & Hk & E).
  injection E as <- <-. split; cbn.
  - by eapply mkdir_dir.
  - apply orb_true_iff in Hmode as [Hmode%bool_decide_eq_true|Hmode%bool_decide_eq_true]; [by left|by right].
  - lia.
Qed.

(** A client that came from [boto3], possibly wrapped. *)
Definition built_client (client : S3Client (Injected D)) : Prop :=
  exists args base, boto3_client args = Ok base /\
    (client = direct_client base \/ exists c, client = FaultInjectingS3Client random base c).

Lemma build_s3_ok tier_cfg s3 :
  build_s3 random tier_cfg = Ok s3 -> forall t client, s3 = Some (t, client) -> s3_ok t /\ built_client client.
Proof.
  unfold build_s3. intros Hb. apply res_bind_ok in Hb as (cfg & _ & Hb). destruct (flag cfg _ false); [|by injection Hb as <-].
  intros t client ->. do 9 (apply res_bind_ok in Hb as (? & _ & Hb)). apply res_map_ok in Hb as (tc & Hb & [= <-]).
  unfold S3Tier_new in Hb. apply res_bind_ok in Hb as (tier & Ht & Hb). apply res_bind_ok in Hb as (base & Hc & Hb).
  apply res_bind_ok in Hb as (inj & _ & [= <- <-]). split; [by eapply init_ok|].
  unfold _build_client in Hc. destruct import_boto3; [done|]. do 4 (apply res_bind_ok in Hc as (? & _ & Hc)).
  eexists _, base. split; [exact Hc|]. destruct inj as [c|]; eauto.
Qed.

(** Everything that is known of a built store. *)
Record built_from (store : MetadataStore) (b : Built D) (s : Fs) (mem : option MemoryTier) (nv : option NVMeTier)
    (s3 : option (S3Tier * S3Client (Injected D))) : Prop := {
  bf_store : b_store b = store;
  bf_pool : b_pool b = mkPool (mkPrefetcher 64 ∅ 0 0 0) (mkExecutor true []);
  bf_memory : b_memory b = mem;
  bf_mem m : mem = Some m -> exists n, 0 < n /\ m = mkMemoryTier n [] 0;
  bf_nvme t : nv = Some t -> nvme_built t s;
  bf_s3 t client : s3 = Some (t, client) -> s3_ok t /\ built_client client;
  bf_manager : exists cm, MultiTierKVBlockStore_init (enabled_tiers mem nv s3) cm = Ok (b_manager b);
}.

Lemma build_store_ok cfg base_dir store (h h' : Host D) b :
  _build_store random repo cwd cfg base_dir store h = (h', Ok b) ->
  exists mem nv s3, built_from store b (h_disk h') mem nv s3 /\ built_as random base_dir cwd cfg b nv s3.
Proof.
  unfold _build_store. intros (tier_cfg & h1 & Hc & Hb)%bind_ok. injection Hc as <- Hc%section_ok.
  apply bind_ok in Hb as (mem & h1 & Hmem & Hb). pose proof (memory_built _ _ _ _ Hmem) as (mem_sec & Hms & Hma).
  apply build_memory_ok in Hmem as [-> Hmem].
  apply bind_ok in Hb as (nv & h1 & Hnv & Hb). pose proof (build_nvme_ok _ _ _ _ _ Hnv) as Hnvok.
  apply nvme_built_as in Hnv as (nv_sec & Hns & Hna).
  apply bind_ok in Hb as (s3 & h2 & Hs3 & Hb). injection Hs3 as <- Hs3. pose proof (s3_built_as _ _ _ Hs3) as (s3_sec & Hss & Hsa).
  apply bind_ok in Hb as (cm & h2 & Hcm & Hb). apply bind_ok in Hb as (mg & h3 & Hmg & Hb). injection Hmg as <- Hmg.
  apply bind_ok in Hb as (pf & h3 & Hpf & Hb). injection Hpf as <- <-. injection Hb as <- <-.
  assert (exists sec, section_is cfg (str "cost_model") sec /\ cost_as sec cm) as Hcost.
  { unfold on_disk, zoom in Hcm. destruct (_build_cost_model _ _ _ (h_disk h1)) as [s r] eqn:E. injection Hcm as _ ->. by eapply cost_built_as. }
  pose proof (manager_built_as _ _ _ _ _ Hmg) as (Ht & Hne & Ecm).
  exists mem, nv, s3. split; [|split; [by exists tier_cfg, mem_sec, nv_sec, s3_sec|done|cbn [b_manager]; by rewrite Ecm]]. split; try done.
  - intros t Ht'. destruct (Hnvok t Ht') as [Hr Hm Hn]. split; [|done..]. unfold on_disk, zoom in Hcm.
    pose proof (reads_only_cost_model repo cwd (default (PDict []) (dict_get (str "cost_model") cfg)) (h_disk h1)) as [_ Hd].
    destruct (_build_cost_model _ _ _ (h_disk h1)) as [s r]. injection Hcm as <- ->. cbn in *. by rewrite Hd.
  - by eapply build_s3_ok.
  - by exists cm.
Qed.

Lemma build_store_off_db cfg base_dir store : off_db (_build_store (D := D) random repo cwd cfg base_dir store).
Proof.
  unfold _build_store, build_memory, build_nvme. repeat (apply off_db_bind || intros); auto with kv.
  - destruct (flag _ _ true); auto with kv.
  - destruct (flag _ _ true); [|auto with kv]. repeat (apply off_db_bind || intros); auto with kv.
Qed.
End Built.

Section Facts.
Context `{U : UnicodeData} `{P : PyBuiltins} `{J : JsonSchema} {D : Type} `{B : Boto3 D}.
Context (random : Z -> nat -> f64) (repo cwd : path).

Abbreviation build := (build_store_from_config (D := D) random repo cwd).

(** A build that stopped with the databases as they were. *)
Definition unopened {A} (h : Host D) (o : Host D * res A) : Prop :=
  exists e h', o = (h', Raise e) /\ forall q, database h' q = database h q.

Lemma off_db_step {A A'} (m : M (Host D) A) (f : A -> M (Host D) A') h0 h :
  off_db m -> same_dbs h0 h ->
  unopened h0 (bind m f h) \/ exists a h1, same_dbs h0 h1 /\ m h = (h1, Ok a) /\ bind m f h = f a h1.
Proof.
  intros Hm Hs. specialize (Hm h). unfold bind. destruct (m h) as [h1 [a|e]]; cbn in Hm; [right|left].
  - exists a, h1. split; [by eapply same_dbs_trans|done].
  - exists e, h1. split; [done|]. intros q. apply database_same. by eapply same_dbs_trans.
Qed.

Local Ltac build_step hk Hk x h' Hs Hx :=
  match goal with |- context [bind ?m ?f hk] =>
    destruct (off_db_step m f _ hk ltac:(auto with kv) Hk) as [?|(x & h' & Hs & Hx & ->)]; [by left|]; cbv beta end.

(** What a build reads: the configuration, the base directory, the database. *)
Definition configured_by (config : pystr) (h : Host D) (cfg : list (pystr * pyval)) (base p : path) : Prop :=
  (_load_config cwd config (h_disk h)).2 = Ok (PDict cfg) /\ _config_base_dir cwd config = Ok base /\
  exists sec, section_is cfg (str "kvstore") sec /\ path_is base sec (str "metadata_db") (str "./data/kvstore/metadata.sqlite3") p.

(** The parts of a build, whatever its outcome. *)
Lemma build_steps config h :
  unopened h (build config h) \/
  exists cfg base_dir p store h1 h2 r,
    configured_by config h cfg base_dir p /\
    owner_lock (database h p) = false /\ (forall q, q <> p -> database h1 q = database h q) /\
    database h1 p = ms_db store /\
    open_store (h_epoch h) (h_pid h) (h_time h (h_tick h)) (database h p) = (ms_db store, Ok store) /\
    h_objects h1 = h_objects h /\ h_time h1 = h_time h /\ h_perf h1 = h_perf h /\
    _build_store random repo cwd cfg base_dir store h1 = (h2, r) /\
    build config h = match r with
                     | Ok b => (h2, Ok b)
                     | Raise e => ((close_database p store h2).1, Raise e)
                     end.
Proof.
  unfold build_store_from_config.
  assert (same_dbs h h) as S0 by done. build_step h S0 v h1 S1 Hv. build_step h1 S1 base_dir h2 S2 Hbase.
  build_step h2 S2 cfg h3 Sc Hcfg. build_step h3 Sc dbp h4 S4 Hdb.
  pose proof (init_outcome dbp h4) as Hi. destruct (MetadataStore_init dbp h4) as [h5 [[p store]|e]] eqn:Ei.
  - right. destruct Hi as (Hres & Hl & Hq & Hp & Ho & Hobj & Ht & Hperf). rewrite !(database_same _ _ _ S4) in *.
    destruct S4 as (Edb & _ & Eo & Et & Ep & Etk & Ee & Epid).
    destruct (_build_store random repo cwd cfg base_dir store h5) as [h6 r] eqn:Eb.
    exists cfg, base_dir, p, store, h5, h6, r. rewrite Ee, Epid, Et, Etk in Ho. split_and!; try done; try congruence.
    + injection Hbase as _ Hbase. injection Hcfg as _ Hcfg. injection Hdb as _ Hdb. apply res_bind_ok in Hdb as (sec & Hsec%section_ok & Hdb).
      split; [|split; [done|exists sec; split; [done|by exists dbp]]]. destruct v; try done. injection Hcfg as ->.
      unfold on_disk, zoom in Hv. destruct (_load_config cwd config (h_disk h)) as [s0 r0]. by injection Hv.
    + intros q Hne. rewrite Hq by done. unfold database. by rewrite Edb.
    + rewrite (bind_run _ _ _ _ _ Ei). cbn match. unfold try_catch. rewrite Eb. by destruct r.
  - left. exists e, h5. split; [by rewrite (bind_raise _ _ _ _ _ Ei)|]. intros q. rewrite Hi. by apply database_same.
Qed.

(** ** The state of a built store *)

(** Directory names that [file://] URIs pass through unchanged. *)
Definition plain_dirs (s : Fs) : Prop :=
  forall p, p ∈ fs_dirs s -> Forall component_ok p /\ Forall (Forall uri_plain) p.

Definition no_nvme : NVMeTier := mkNVMeTier [] [] 1 false segment 1.
Definition no_s3 : S3Tier := mkS3Tier (str "none") [] PNone PNone PNone PNone 1.

Lemma no_nvme_ok : nvme_ok no_nvme.
Proof. split; [constructor|by right|done|done]. Qed.

Lemma no_s3_ok : s3_ok no_s3.
Proof. by split. Qed.

Lemma built_nvme_ok nv s : plain_dirs s -> nvme_built nv s -> nvme_ok nv.
Proof.
  intros Hs [Hr Hm Hn]. assert (Forall component_ok (root_dir nv) /\ Forall (Forall uri_plain) (root_dir nv)) as [H1 H2].
  { destruct Hr as [->|Hr]; [by split; constructor|by apply Hs]. }
  by split.
Qed.

Lemma built_client_laws client good objects :
  (forall args c, boto3_client args = Ok c -> s3_laws c good objects) -> built_client random client ->
  s3_laws client (fun i => good (in_dev i)) (fun i => objects (in_dev i)).
Proof.
  intros Hl (args & base & Hb & [->|[c ->]]); [by eapply direct_laws, Hl|by eapply injected_laws, Hl].
Qed.

(** The client of a store; without an S3 tier nothing calls it. *)
Definition built_or_dead (s3 : option (S3Tier * S3Client (Injected D))) : S3Client (Injected D) :=
  default (dead_client _) (snd <$> s3).

Lemma built_configured store b s mem nv s3 good objects :
  built_from random store b s mem nv s3 -> plain_dirs s ->
  (forall args c, boto3_client args = Ok c -> s3_laws c good objects) ->
  s3_laws (built_or_dead s3) (fun i => good (in_dev i)) (fun i => objects (in_dev i)) /\ nvme_ok (default no_nvme nv) /\
  s3_ok (default no_s3 (fst <$> s3)) /\ configured (default no_nvme nv) (default no_s3 (fst <$> s3)) (built_or_dead s3) (b_manager b).
Proof.
  intros [_ _ _ _ Hnv Hs3 [cm Hm]] Hp Hl. unfold built_or_dead. split_and!.
  - destruct s3 as [[t c]|]; cbn; [|apply dead_laws]. destruct (Hs3 t c eq_refl) as [_ Hc]. by eapply built_client_laws.
  - destruct nv as [t|]; cbn; [|apply no_nvme_ok]. by eapply built_nvme_ok, Hnv.
  - destruct s3 as [[t c]|]; cbn; [|apply no_s3_ok]. by destruct (Hs3 t c eq_refl).
  - exists (enabled_tiers mem nv s3), cm. split; [done|]. unfold enabled_tiers, stack_tiers.
    rewrite !Forall_app. split_and!; [destruct mem|destruct nv|destruct s3 as [[t c]|]]; repeat constructor;
      rewrite !elem_of_cons; cbn; auto.
Qed.

(** A host on which a process can start: its clock runs, the databases are empty. *)
Record host_ready (good : D -> Prop) (h : Host D) : Prop := {
  hr_clock n : stamp (h_time h n) /\ float_ok (h_time h n) = true;
  hr_epoch : h_epoch h <> [];
  hr_empty p : blocks (database h p) = ∅;
  hr_objects : good (h_objects h);
}.

Lemma built_start config good h h' b :
  build config h = (h', Ok b) -> host_ready good h -> fs_wf (h_disk h') ->
  stack_start (fun i => good (in_dev i)) (process b h') /\
  exists cfg base p store mem nv s3, configured_by config h cfg base p /\ database h' p = ms_db (b_store b) /\
    built_as random base cwd cfg b nv s3 /\ built_from random store b (h_disk h') mem nv s3.
Proof.
  intros Hb [Hc He Hd Hg] Hw. destruct (build_steps config h) as [(e & h0 & Hu & _)|Hsteps]; [congruence|].
  destruct Hsteps as (cfg & base & p & store & h1 & h2 & r & Hby & Hl & _ & Hdbp & Ho & Eobj & Et & Ep & Hs & Er).
  rewrite Hb in Er. destruct r as [b'|e]; [|done]. injection Er as <- <-.
  pose proof (build_store_off_db random repo cwd cfg base store h1) as Hoff. rewrite Hs in Hoff. cbn in Hoff.
  assert (database h' p = ms_db store) as Hdb2 by (by rewrite (database_same h1 h')).
  destruct Hoff as (_ & _ & Eobj2 & Et2 & Ep2 & _).
  destruct (build_store_ok _ _ _ _ _ _ _ _ _ Hs) as (mem & nv & s3 & Hbf & Hba). pose proof Hbf as [Hst _ Hmem Hm _ _ _].
  split; [|exists cfg, base, p, store, mem, nv, s3; rewrite Hst; by split_and!].
  assert ((open_store (h_epoch h) (h_pid h) (h_time h (h_tick h)) (database h p)).2 = Ok store) as Ho2 by (by rewrite Ho).
  split; cbn.
  - split; [unfold clock_ok; cbn; by rewrite Et2, Et|]. cbn. rewrite Hst. eapply open_store_inv; [|exact He|exact Ho2].
    split; [exists (h_epoch h)|]; rewrite Hd; [intros rk r' Hr|intros ?]; set_solver.
  - intros rk. rewrite Hst. unfold open_store in Ho. rewrite Hl in Ho. injection Ho as _ <-. cbn. rewrite Hd. by rewrite lookup_fmap.
  - assert (forall n, 0 < n -> tier_ok (mkMemoryTier n [] 0)) as Hok by (intros n Hn; split; cbn; [constructor|done|lia]).
    rewrite Hmem. destruct mem as [m|]; cbn; [|split; [by apply Hok|done]].
    destruct (Hm m eq_refl) as (n & Hn & ->). split; [by apply Hok|done].
  - done.
  - by rewrite Eobj2, Eobj.
Qed.
End Facts.

(** ** A sample host *)

(** A configuration that loads whenever it can; the NVMe tier has its defaults. *)
Definition sample_yaml : pystr := str "tiers:
  memory:
    max_bytes: 1024   # bytes
cost_model:
  load_benefit_threshold_ms: -1000.0
".

Definition sample_host_disk : Fs :=
  mkFs {[ [str "lab"; str "configs"; str "local.yaml"] := default [] (utf8_encode sample_yaml) ]}
       {[ [str "lab"]; [str "lab"; str "configs"] ]} (fun _ => None) (fun _ _ => str "x1y2z3w4") 0 4096.

Definition sample_host : Host Buckets :=
  mkHost sample_host_disk ∅ (fun _ => None) ∅ (fun _ => f64_of_Z 200) (fun n => f64_of_Z (Z.of_nat n)) 0 (str "epoch-1") 42.

Definition offline_boto3 : Boto3 Buckets :=
  {| import_boto3 := None; boto3_client _ := Ok memory_client; environ_get _ := Ok None |}.

Definition sample_build (h : Host Buckets) : Host Buckets * res (Built Buckets) :=
  @build_store_from_config ascii_tables plain_builtins object_validator Buckets offline_boto3 sample_draws
    [str "lab"] [str "lab"] (str "configs/local.yaml") h.

Lemma sample_build_ok : is_ok (sample_build sample_host).2 = true.
Proof. vm_compute. reflexivity. Qed.

(** The names on the disk after the build. *)
Definition names_ok (s : Fs) : bool :=
  forallb (fun p => forallb (fun c => negb (bool_decide (47 ∈ c)) && negb (bool_decide (0 ∈ c))) p) (map fst (map_to_list (fs_files s))) &&
  forallb (fun p => forallb (fun c => negb (bool_decide (c = [] \/ c = str "." \/ c = str "..")) && str_ok c &&
                               forallb (fun x => (32 <? x) && (x <? 127) && negb (existsb (Z.eqb x) [35; 37; 47; 59; 63])) c) p)
    (elements (fs_dirs s)).

Lemma names_ok_dirs s : names_ok s = true -> plain_dirs s.
Proof.
  unfold names_ok. rewrite andb_true_iff. intros [_ H] p Hp. rewrite Forall_forallb, Forall_forall in H.
  specialize (H p ltac:(by apply elem_of_elements)). rewrite Forall_forallb in H.
  split; (eapply Forall_impl; [exact H|]); intros c Hc; rewrite !andb_true_iff, Forall_forallb, Forall_forall in Hc;
    destruct Hc as [[H1 H2] H3]; apply negb_true_iff, bool_decide_eq_false in H1.
  - assert (forall x, x ∈ c -> x <> 47 /\ x <> 0) as Hx by (intros x Hin; specialize (H3 x Hin); cbn in H3; lia).
    split_and!; try naive_solver; intros Hin; apply Hx in Hin; lia.
  - apply Forall_forall. intros x Hin. specialize (H3 x Hin). cbn in H3. unfold uri_plain, url_plain. lia.
Qed.

Lemma names_ok_wf s : names_ok s = true -> (forall n i, plain_name (fs_names s n i)) -> fs_wf s.
Proof.
  intros Hs Hn. pose proof (names_ok_dirs s Hs) as Hd. unfold names_ok in Hs. apply andb_true_iff in Hs as [Hs _]. split; [| |done].
  - intros p f Hp. rewrite Forall_forallb, Forall_forall in Hs. specialize (Hs p). rewrite Forall_forallb in Hs.
    eapply Forall_impl; [apply Hs, list_elem_of_fmap; by exists (p, f); rewrite elem_of_map_to_list|].
    intros c. rewrite !andb_true_iff, !negb_true_iff, !bool_decide_eq_false. done.
  - intros p Hp. eapply Forall_impl; [exact (proj1 (Hd p Hp))|]. by intros c (_ & _ & _ & ? & ? & _).
Qed.

(** A block is stored on the disk and loaded. *)
Definition sample_calls : list mg_call := [MgStore sample_key sample_payload sample_metadata (Some NVME)].

Lemma sample_build_disk : names_ok (h_disk (sample_build sample_host).1) = true.
Proof. vm_compute. reflexivity. Qed.

Lemma sample_build_names n i : plain_name (fs_names (h_disk (sample_build sample_host).1) n i).
Proof.
  assert (forall n i, fs_names (h_disk (sample_build sample_host).1) n i = str "x1y2z3w4") as Hn by (vm_compute; reflexivity).
  rewrite Hn. unfold plain_name. cbn. rewrite !not_elem_of_cons. split_and!; done || apply not_elem_of_nil.
Qed.

Lemma sample_build_loads :
  match sample_build sample_host with
  | (h', Ok b) => is_ok (load (b_manager b) sample_key MEMORY None (run_mgs (b_manager b) sample_calls (process b h'))).2
  | _ => false
  end = true.
Proof. vm_compute. reflexivity. Qed.

Lemma sample_build_tiers :
  match (sample_build sample_host).2 with
  | Ok b => (tiers (b_manager b)).*1 = [MEMORY; NVME] /\ b_memory b = Some (mkMemoryTier 1024 [] 0)
  | Raise _ => False
  end.
Proof. vm_compute. split; reflexivity. Qed.

Lemma sample_host_ready : host_ready (fun _ => True) sample_host.
Proof.
  split; [|done| |done].
  - intros n. split; [apply (stamp_sample 200); [reflexivity|lia]|]. vm_compute. reflexivity.
  - intros p. unfold database, sample_host. cbn. by rewrite lookup_empty.
Qed.

(** ** Properties *)

(** C4: a store built from a configuration is the one the configuration asks for, and it
    serves. For every configuration file from which [build_store_from_config] returns a
    store, on a host with empty databases, over any object store that keeps its contract,
    with or without fault injection, and with plain directory names on the disk: the
    tiers of the store are exactly the enabled ones, in order, each with the sizes,
    layout, paths and client of its section or the defaults; the cost model has the
    configured thresholds; the rows are in the configured database. After any sequence
    of calls the invariant of the whole stack holds, the memory tier is within its
    limit, and when a load returns, some call of the sequence stored exactly the
    returned bytes under that key. *)
Theorem built_store_serves `{U : UnicodeData} `{P : PyBuiltins} `{J : JsonSchema} {D} `{B : Boto3 D} random repo cwd config
    good objects h h' b :
  build_store_from_config random repo cwd config h = (h', Ok b) -> host_ready good h ->
  (forall args c, boto3_client args = Ok c -> s3_laws c good objects) -> fs_wf (h_disk h') -> plain_dirs (h_disk h') ->
  exists cfg base p nv s3, configured_by cwd config h cfg base p /\ database h' p = ms_db (b_store b) /\
    built_as random base cwd cfg b nv s3 /\
    forall cs, Forall (mg_call_ok any_payload) cs ->
      let w := run_mgs (b_manager b) cs (process b h') in
      stack_inv (default no_nvme nv) (default no_s3 (fst <$> s3)) (fun i => good (in_dev i)) (fun i => objects (in_dev i)) any_payload w /\
      _used_bytes (sk_mem w) <= max_bytes (sk_mem w) /\
      forall k target slo w' r, load (b_manager b) k target slo w = (w', Ok r) -> exists m t, MgStore k (lr_data r) m t ∈ cs.
Proof.
  intros Hb Hh Hl Hw Hp.
  destruct (built_start random repo cwd config good h h' b Hb Hh Hw) as [Hstart (cfg & base & p & store & mem & nv & s3 & Hby & Hdb & Hba & Hbf)].
  destruct (built_configured random store b _ mem nv s3 good objects Hbf Hp Hl) as (Hlaws & Hnv & Hs3 & Hc).
  exists cfg, base, p, nv, s3. split_and!; try done. intros cs Hcs w.
  pose proof (stack_runs _ _ _ _ _ any_payload Hlaws Hnv Hs3 _ cs _ Hc Hcs (stack_start_inv _ _ _ _ Hnv any_payload _ Hstart)) as Hinv.
  fold w in Hinv. split_and!; [done| |].
  - by destruct Hinv as [[[_ [_ _ Hlim]] _] _ _].
  - intros k target slo w' r Hload. exact (load_was_stored _ _ _ _ _ _ cs _ k target slo w' r Hlaws Hnv Hs3 Hc Hstart Hcs Hload).
Qed.

(** The sample configuration asks for a memory tier of 1024 bytes and a content-addressed
    NVMe tier. *)
Lemma built_store_serves_witness :
  exists h' b w' r m t, sample_build sample_host = (h', Ok b) /\
    (tiers (b_manager b)).*1 = [MEMORY; NVME] /\ b_memory b = Some (mkMemoryTier 1024 [] 0) /\
    load (b_manager b) sample_key MEMORY None (run_mgs (b_manager b) sample_calls (process b h')) = (w', Ok r) /\
    MgStore sample_key (lr_data r) m t ∈ sample_calls.
Proof.
  pose proof sample_build_loads as Hok. pose proof sample_build_disk as Hd. pose proof sample_build_names as Hnames.
  pose proof sample_build_tiers as Htiers.
  destruct (sample_build sample_host) as [h' [b|e]] eqn:E; [|discriminate Hok]. exists h', b.
  cbn [fst] in Hd, Hnames. destruct Htiers as [Ht Hm].
  destruct (load _ _ _ _ _) as [w' [r|e]] eqn:El; [|discriminate Hok].
  destruct (@built_store_serves ascii_tables plain_builtins object_validator Buckets offline_boto3 sample_draws
    [str "lab"] [str "lab"] (str "configs/local.yaml") (fun _ => True) id sample_host h' b
    E sample_host_ready ltac:(intros args c [= <-]; exact memory_client_laws)
    (names_ok_wf _ Hd (fun n i => Hnames n i)) (names_ok_dirs _ Hd)) as (cfg & base & p & nv & s3 & _ & _ & _ & Hserves).
  destruct (Hserves sample_calls ltac:(repeat constructor; apply sample_input)) as (_ & _ & Hload).
  destruct (Hload sample_key MEMORY None w' r El) as (m & t & Hin).
  exists w', r, m, t. split; [reflexivity|]. split; [exact Ht|]. split; [exact Hm|]. split; [reflexivity|exact Hin].
Defined.

(** C5: the owner lock of the metadata database. A build that returns has locked one
    database that was free and holds its rows; one that raises, at whatever step,
    leaves every lock as it found it: its own is released, another owner's is kept. In
    both cases no row of any database is lost. *)
Theorem build_releases_owner `{U : UnicodeData} `{P : PyBuiltins} `{J : JsonSchema} {D} `{B : Boto3 D} random repo cwd config (h : Host D) :
  let '(h', r) := build_store_from_config random repo cwd config h in
  (forall q, dom (blocks (database h' q)) = dom (blocks (database h q))) /\
  match r with
  | Ok b => exists p, owner_lock (database h p) = false /\ owner_lock (database h' p) = true /\
              database h' p = ms_db (b_store b) /\ forall q, q <> p -> database h' q = database h q
  | Raise _ => forall q, owner_lock (database h' q) = owner_lock (database h q)
  end.
Proof.
  destruct (build_steps random repo cwd config h) as [(e & h0 & -> & Hu)|Hsteps].
  { by split; intros q; rewrite Hu. }
  destruct Hsteps as (cfg & base & p & store & h1 & h2 & r & _ & Hl & Hq & Hp & Ho & _ & _ & _ & Hs & ->).
  pose proof (build_store_off_db random repo cwd cfg base store h1) as Hoff. rewrite Hs in Hoff. cbn in Hoff.
  unfold open_store in Ho. rewrite Hl in Ho. injection Ho as _ Ho.
  assert (owner_lock (ms_db store) = true /\ dom (blocks (ms_db store)) = dom (blocks (database h p))) as [Hlock Hdom].
  { rewrite <- Ho. cbn. split; [done|]. apply leibniz_equiv, dom_fmap. }
  destruct r as [b|e]; cbn [fst].
  - destruct (build_store_ok _ _ _ _ _ _ _ _ _ Hs) as (mem & nv & s3 & [Hst _ _ _ _ _ _] & _).
    assert (forall q, database h2 q = database h1 q) as Hsame by (intros q; by apply database_same). split.
    + intros q. rewrite Hsame. destruct (base.decide (q = p)) as [->|Hne]; [by rewrite Hp|by rewrite Hq].
    + exists p. rewrite Hsame, Hp, Hst. split_and!; try done. intros q Hne. by rewrite Hsame, Hq.
  - assert (forall q, database (close_database p store h2).1 q = if base.decide (q = p) then owner_dies (ms_db store) else database h q) as Hc.
    { intros q. unfold close_database, modify, database, MetadataStore.close. rewrite <- Ho. cbn. destruct (base.decide (q = p)) as [->|Hne].
      - by rewrite lookup_insert_eq.
      - rewrite lookup_insert_ne by done. destruct Hoff as [-> _]. specialize (Hq q Hne). unfold database in Hq. done. }
    split; intros q; rewrite Hc; by destruct (base.decide (q = p)) as [->|].
Qed.
