(* ===== verification/KvDemo.v ===== *)
(** * The local demo: [examples/local-demo/kv_demo.py]

    A program that drives the NVMe tier: a block is stored and loaded, a byte of its
    file is flipped and the damage must be noticed, another block is evicted. It runs
    on the state of the host, in a temporary directory that is removed at the end. *)

From Stdlib Require Import SpecFloat.
From S2P Require Import CostModel.
From S2P Require Import Prelude PyText Sha256 Float64 Errors PyVal Json Metadata MetadataStore Metrics Runtime MemoryTier Record Layout Tokenization Url FileSystem World NvmeTier S3Client PyConv S3Fault S3Tier Prefetch TierManager Stack Config ConfigSpec TierProfileImport Factory.
Import MNotations ResNotations.

Definition _key (label : pystr) : res BlockKey :=
  match utf8_encode label with
  | None => Raise (err UnicodeEncodeError (str "surrogates not allowed"))
  | Some b =>
      BlockKey_init (PStr (str "demo-tenant")) (PStr (str "demo-model")) (PStr (str "revision-1")) (PStr (str "approx-revision-1"))
        (PStr (sha256_hex b)) (PStr (str "none")) (PStr (str "text"))
  end.

(** [KVMetadata(...)] with the defaults of the other fields; [created] and [accessed] are
    the two readings of [time.time()]. *)
Definition _metadata (created accessed : f64) (key : BlockKey) (size : Z) : KVMetadata :=
  {| md_key := key; md_dtype := PStr (str "bytes"); md_num_layers := PInt 1; md_num_kv_heads := PInt 1; md_head_dim := PInt 1;
     md_tokens := PInt 1; md_bytes := PInt size; md_shape := PTuple [PInt size]; md_checksum := PStr [];
     md_checksum_algo := PStr (str "sha256"); md_created_at := PFloat created; md_last_access := PFloat accessed; md_reuse_count := PInt 0;
     md_extra := PDict [] |}.

(** [raw[-1] ^= 0x01]. *)
Definition flip_last (raw : pybytes) : res pybytes :=
  match rev raw with
  | [] => Raise (err IndexError (str "bytearray index out of range"))
  | b :: r => Ok (rev (mk_byte (Z.lxor (byte_val b) 1) :: r))
  end.

Section Demo.
Context `{UnicodeData} (self : NVMeTier).
Local Open Scope m_scope.

Definition payload : pybytes := bstr "cache-block-payload".

(** [tier.store(key, payload, _metadata(key, len(payload)))]. *)
Definition store_block (key : BlockKey) : M (World Fs) unit :=
  let* created := on_env time_time in
  let* accessed := on_env time_time in
  NvmeTier.store self key payload (_metadata created accessed key (zlen payload)) ;; ret tt.

(** [tier.load(key)] must raise [ChecksumMismatch]. *)
Definition expect_corruption (key : BlockKey) : M (World Fs) unit :=
  let* detected := try_catch (NvmeTier.load self key ;; ret false)
                     (fun e => if is_a e ChecksumMismatch then ret true else raise e) in
  when (negb detected) (raise (err RuntimeError (str "corruption was not detected"))).

(** The body of the demo: the lines it prints. *)
Definition run_demo : M (World Fs) (list pystr) :=
  let* corrupt_key := lift (_key (str "corruption")) in
  store_block corrupt_key ;;
  let* loaded := NvmeTier.load self corrupt_key in
  when (negb (bool_decide (lr_data loaded = payload))) (raise (err RuntimeError (str "loaded payload differs from stored payload"))) ;;
  let* path := lift (block_path resolve (NvmeTier.root_dir self) corrupt_key) in
  let* raw := on_dev (read_file path) in
  let* raw := lift (flip_last raw) in
  on_dev (write_file path raw) ;;
  expect_corruption corrupt_key ;;
  let* delete_key := lift (_key (str "delete")) in
  store_block delete_key ;;
  let* evicted := NvmeTier.evict self delete_key in
  let* gone := (if (evicted : bool) then (let* l := NvmeTier.lookup self delete_key in ret (bool_decide (l = None))) else ret false) in
  when (negb gone) (raise (err RuntimeError (str "tombstone-backed delete did not complete"))) ;;
  ret [str "store -> load: PASS"; str "corruption detection: PASS"; str "tombstone delete: PASS"].
End Demo.

(** A computation of the process whose metadata store was opened from [p]. *)
Definition in_process {D A : Type} (p : path) (store : MetadataStore) (m : M (World Fs) A) : M (Host D) A := fun h =>
  let w := mkWorld (mkEnv store None (h_time h) (h_perf h) (h_tick h)) (h_disk h) in
  let '(w', r) := m w in
  let h := host_disk (w_dev w') h in
  let h := mkHost (h_disk h) (<[p := ms_db (MetadataStore.close (env_store (w_env w'))).1]> (h_dbs h)) (h_sqlite h) (h_objects h)
             (h_time h) (h_perf h) (env_tick (w_env w')) (h_epoch h) (h_pid h) in
  (h, r).

Section Main.
Context `{UnicodeData} {D : Type}.
Local Open Scope m_scope.

(** [with tempfile.TemporaryDirectory() as td]: the directory [td] is new, and it is
    removed with everything below it, whatever the body does. *)
Definition temporary_directory {A} (td : path) (m : M (Host D) A) : M (Host D) A := fun h =>
  let '(h, r) := m (host_disk (set_dirs ({[ td ]} ∪ fs_dirs (h_disk h)) (h_disk h)) h) in
  let d := h_disk h in
  let d := mkFs (filter (fun f => ~ td `prefix_of` f.1) (fs_files d)) (filter (fun q => ~ td `prefix_of` q) (fs_dirs d))
             (fs_faults d) (fs_names d) (fs_calls d) (fs_dir_size d) in
  (mkHost d (filter (fun f => ~ td `prefix_of` f.1) (h_dbs h)) (h_sqlite h) (h_objects h)
     (h_time h) (h_perf h) (h_tick h) (h_epoch h) (h_pid h), r).

(** The body of the [with]: whatever happens after the tier was made, the store is
    closed. A tier that cannot be made leaves it open. *)
Definition demo_in (cwd td : path) : M (Host D) (list pystr) :=
  let* (p, store) := MetadataStore_init (td ++ [str "metadata.sqlite3"]) in
  let* tier := on_disk (NVMeTier_init (td ++ [str "files"]) cwd (2 ^ 20) false false content_addressed (64 * 1024 * 1024)) in
  in_process p store (run_demo tier).

(** [main()]: the lines it prints. *)
Definition kv_demo (cwd td : path) : M (Host D) (list pystr) :=
  let* lines := temporary_directory td (demo_in cwd td) in
  ret (lines ++ [str "local KV demo: PASS (temporary state removed)"]).
End Main.

(** ** The demo on a working host *)

Definition demo_dir : path := [str "tmp"; str "demo"].

Definition demo_host : Host unit :=
  mkHost (mkFs {[ [str "tmp"; str "notes"] := bstr "keep" ]} {[ [str "tmp"] ]} (fun _ => None) (fun _ _ => str "x1y2z3w4") 0 4096)
    ∅ (fun _ => None) tt (fun n => f64_of_Z (1000 + Z.of_nat n)) (fun n => f64_of_Z (Z.of_nat n)) 0 (str "epoch-1") 42.

Definition passes : list pystr :=
  [str "store -> load: PASS"; str "corruption detection: PASS"; str "tombstone delete: PASS"].

(** When every call succeeds, each check of the demo passes; the damaged block and the
    evicted one are gone from the disk and from the database, whose lock is free. *)
Example demo_in_passes :
  let '(h, r) := @demo_in ascii_tables unit [] demo_dir
                   (host_disk (set_dirs {[ [str "tmp"]; demo_dir ]} (h_disk demo_host)) demo_host) in
  r = Ok passes /\
  bool_decide (dom (fs_files (h_disk h)) = {[ [str "tmp"; str "notes"]; demo_dir ++ [str "metadata.sqlite3.owner.lock"] ]}) = true /\
  owner_lock (database h (demo_dir ++ [str "metadata.sqlite3"])) = false /\
  bool_decide (blocks (database h (demo_dir ++ [str "metadata.sqlite3"])) = ∅) = true.
Proof. vm_compute. auto. Qed.

Lemma filter_outside {A} (td : path) (m m' : gmap path A) :
  (forall p, ~ td `prefix_of` p -> m' !! p = m !! p) ->
  (forall p, is_Some (m !! p) -> ~ td `prefix_of` p) ->
  filter (fun f => ~ td `prefix_of` f.1) m' = m.
Proof.
  intros Hout Hold. apply map_eq. intros p. destruct (decide (td `prefix_of` p)) as [Hp|Hp].
  - rewrite (proj2 (map_lookup_filter_None _ m' p)) by (right; intros x _ Hn; by apply Hn).
    symmetry. apply eq_None_not_Some. intros Hs. by apply (Hold p Hs).
  - destruct (m !! p) as [x|] eqn:E.
    + apply map_lookup_filter_Some. split; [by rewrite Hout, E|done].
    + apply map_lookup_filter_None. left. by rewrite Hout, E.
Qed.

(** A body that touches only what is below its new temporary directory leaves, whatever
    it raises, the files and databases of the host as they were. *)
Theorem temporary_state_removed {D A} (td : path) (m : M (Host D) A) h h' r :
  (forall p, is_Some (fs_files (h_disk h) !! p) \/ is_Some (h_dbs h !! p) -> ~ td `prefix_of` p) ->
  (forall h1 h2 r, m h1 = (h2, r) -> forall p, ~ td `prefix_of` p ->
     fs_files (h_disk h2) !! p = fs_files (h_disk h1) !! p /\ h_dbs h2 !! p = h_dbs h1 !! p) ->
  temporary_directory td m h = (h', r) ->
  fs_files (h_disk h') = fs_files (h_disk h) /\ h_dbs h' = h_dbs h.
Proof.
  intros Hnew Hm. unfold temporary_directory.
  destruct (m _) as [h2 r2] eqn:E. intros [= <- <-]. pose proof (Hm _ _ _ E) as Hk. cbn in Hk |- *.
  split; apply filter_outside; try (intros p Hp; apply Hk; exact Hp); intros p Hp; apply Hnew; auto.
Qed.

(** The demo prints its four lines and removes what it made. *)
Theorem kv_demo_passes :
  let '(h, r) := @kv_demo ascii_tables unit [] demo_dir demo_host in
  r = Ok (passes ++ [str "local KV demo: PASS (temporary state removed)"]) /\
  bool_decide (fs_files (h_disk h) = fs_files (h_disk demo_host)) = true /\
  bool_decide (fs_dirs (h_disk h) = fs_dirs (h_disk demo_host)) = true /\ bool_decide (dom (h_dbs h) = ∅) = true.
Proof. vm_compute. auto. Qed.
