(* ===== verification/Logging.v ===== *)
(** * The structured log: [kvstore/logging.py]

    One JSON line per event, appended to a file. Fields that would identify a
    request, a tenant or a machine are replaced by a marker at every level of
    dictionaries and lists. *)

From Stdlib Require Import SpecFloat.
From S2P Require Import Prelude PyText Float64 Errors PyVal Json JsonFacts Url PyConv Layout FileSystem FileSystemFacts Metadata MetadataStore Metrics Runtime World DecisionLog.
Import MNotations ResNotations.

Definition FORBIDDEN_LOG_FIELDS : list pystr :=
  [str "raw_prompt"; str "prompt"; str "tenant_id"; str "block_hash"; str "file_path"; str "gpu_uuid"; str "hostname"].

Definition is_forbidden (k : pystr) : bool := bool_decide (k ∈ FORBIDDEN_LOG_FIELDS).

Definition redacted (k : pystr) : pystr := k ++ str "_redacted".

Fixpoint _sanitize (value : pyval) : pyval :=
  match value with
  | PDict d =>
      PDict ((fix go (out d : list (pystr * pyval)) : list (pystr * pyval) :=
                match d with
                | [] => out
                | (key, item) :: d' =>
                    go (if is_forbidden key then dict_set (redacted key) (PBool true) out
                        else dict_set key (_sanitize item) out) d'
                end) [] d)
  | PList l => PList (map _sanitize l)
  | _ => value
  end.

(** [record.update(d)]. *)
Definition dict_update (record d : list (pystr * pyval)) : list (pystr * pyval) :=
  foldl (fun r kv => dict_set kv.1 kv.2 r) record d.

Record StructuredLogger := mkStructuredLogger { lg_path : path }.

Section Logger.
Local Open Scope m_scope.

(** [StructuredLogger(path)], for a resolved path. *)
Definition StructuredLogger_init (p : path) : M Fs StructuredLogger :=
  mkdir (path_parent p) ;; ret (mkStructuredLogger p).

(** The keyword arguments are the parameters of [write] or [fields]. *)
Definition check_fields (fields : list (pystr * pyval)) : res unit :=
  ensure (negb (existsb (fun k => dict_has k fields) [str "self"; str "level"; str "event"]))
    (err TypeError (str "got multiple values for argument")).

Definition log_record (timestamp_ms : Z) (level event : pystr) (fields : list (pystr * pyval)) : list (pystr * pyval) :=
  dict_update [(str "timestamp_ms", PInt timestamp_ms); (str "level", PStr level); (str "event", PStr event)]
    (match _sanitize (PDict fields) with PDict d => d | _ => [] end).

(** A line of the file: ASCII text. *)
Definition line_bytes (t : pystr) : pybytes := map mk_byte (t ++ [10]).

Definition write (self : StructuredLogger) (level event : pystr) (fields : list (pystr * pyval)) : M (World Fs) unit :=
  lift (check_fields fields) ;;
  let* now := on_env time_time in
  let* ts := lift (int_of_float (f64_mul now (f64_of_Z 1000))) in
  let record := log_record ts level event fields in
  on_dev (append_file (lg_path self) []) ;;
  let* line := lift (json_dumps fmt_compact (PDict record)) in
  on_dev (append_file (lg_path self) (line_bytes line)).

Definition info (self : StructuredLogger) (event : pystr) (fields : list (pystr * pyval)) : M (World Fs) unit :=
  write self (str "info") event fields.

Definition warning (self : StructuredLogger) (event : pystr) (fields : list (pystr * pyval)) : M (World Fs) unit :=
  write self (str "warning") event fields.
End Logger.

(** ** Facts *)

(** One item of the loop. *)
Definition sanitize_item (out : list (pystr * pyval)) (kv : pystr * pyval) : list (pystr * pyval) :=
  if is_forbidden kv.1 then dict_set (redacted kv.1) (PBool true) out else dict_set kv.1 (_sanitize kv.2) out.

Lemma sanitize_dict d : _sanitize (PDict d) = PDict (foldl sanitize_item [] d).
Proof.
  simpl. f_equal. generalize (@nil (pystr * pyval)) as out.
  induction d as [|[k x] d IH]; intros out; [done|]. cbn. by rewrite IH.
Qed.

(** What a value shows besides forbidden fields: their values are erased. *)
Fixpoint public (v : pyval) : pyval :=
  match v with
  | PDict d =>
      PDict ((fix go (d : list (pystr * pyval)) :=
                match d with
                | [] => []
                | (k, x) :: d' => (k, if is_forbidden k then PNone else public x) :: go d'
                end) d)
  | PList l => PList (map public l)
  | _ => v
  end.

Definition public_item (kv : pystr * pyval) : pystr * pyval :=
  (kv.1, if is_forbidden kv.1 then PNone else public kv.2).

Lemma public_dict d : public (PDict d) = PDict (map public_item d).
Proof. simpl. f_equal. induction d as [|[k x] d IH]; [done|]. cbn. by rewrite IH. Qed.

(** The log depends on nothing else. *)
Lemma sanitize_public v : _sanitize (public v) = _sanitize v.
Proof.
  induction v as [|b|z|f|s|l IH|l IH|d IH|z] using pyval_ind; try done.
  - cbn. f_equal. rewrite map_map. induction IH as [|x l Hx _ IHl]; [done|]. cbn. by rewrite Hx, IHl.
  - rewrite public_dict, !sanitize_dict. f_equal. generalize (@nil (pystr * pyval)) as out.
    induction IH as [|[k x] d Hx _ IHd]; intros out; [done|]. cbn [map foldl]. rewrite IHd. f_equal.
    unfold sanitize_item, public_item. cbn in *. destruct (is_forbidden k); [done|]. by rewrite Hx.
Qed.

(** No forbidden field at any depth. *)
Fixpoint clean (v : pyval) : bool :=
  match v with
  | PDict d => (fix go (d : list (pystr * pyval)) :=
                  match d with [] => true | (k, x) :: d' => negb (is_forbidden k) && clean x && go d' end) d
  | PList l | PTuple l => forallb clean l
  | _ => true
  end.

Definition clean_items (d : list (pystr * pyval)) : Prop :=
  Forall (fun kv => is_forbidden kv.1 = false /\ clean kv.2 = true) d.

Lemma clean_dict d : clean (PDict d) = true <-> clean_items d.
Proof.
  unfold clean_items. induction d as [|[k x] d IH]; cbn in *; [by split|]. rewrite Forall_cons, <- IH, !andb_true_iff, negb_true_iff. done.
Qed.

Lemma redacted_allowed k : is_forbidden k = true -> is_forbidden (redacted k) = false.
Proof.
  unfold is_forbidden, FORBIDDEN_LOG_FIELDS. rewrite bool_decide_eq_true, !elem_of_cons, elem_of_nil.
  intros [->|[->|[->|[->|[->|[->|[->|[]]]]]]]]; vm_compute; reflexivity.
Qed.

(** The same outside tuples, which are passed on as they are. *)
Fixpoint clean_outside (v : pyval) : bool :=
  match v with
  | PDict d => (fix go (d : list (pystr * pyval)) :=
                  match d with [] => true | (k, x) :: d' => negb (is_forbidden k) && clean_outside x && go d' end) d
  | PList l => forallb clean_outside l
  | _ => true
  end.

Definition outside_items (d : list (pystr * pyval)) : Prop :=
  Forall (fun kv => is_forbidden kv.1 = false /\ clean_outside kv.2 = true) d.

Lemma outside_dict d : clean_outside (PDict d) = true <-> outside_items d.
Proof.
  unfold outside_items. induction d as [|[k x] d IH]; cbn in *; [by split|]. rewrite Forall_cons, <- IH, !andb_true_iff, negb_true_iff. done.
Qed.

Lemma sanitize_outside v : clean_outside (_sanitize v) = true.
Proof.
  induction v as [|b|z|f|s|l IH|l IH|d IH|z] using pyval_ind; try done.
  - cbn. rewrite forallb_forall. intros y (x & <- & Hx)%in_map_iff. rewrite Forall_forall in IH. apply IH. by apply list_elem_of_In.
  - rewrite sanitize_dict, outside_dict. assert (outside_items []) as H0 by constructor. revert H0.
    generalize (@nil (pystr * pyval)) as out. induction IH as [|[k x] d Hx _ IHd]; intros out Hout; [done|].
    cbn [foldl]. apply IHd. unfold sanitize_item. cbn in *.
    destruct (is_forbidden k) eqn:Ek; apply dict_set_Forall; try done; split; cbn; [by apply redacted_allowed|done].
Qed.

(** A value without tuples. *)
Fixpoint tuple_free (v : pyval) : bool :=
  match v with
  | PDict d => (fix go (d : list (pystr * pyval)) := match d with [] => true | (_, x) :: d' => tuple_free x && go d' end) d
  | PList l => forallb tuple_free l
  | PTuple _ => false
  | _ => true
  end.

Definition free_items (d : list (pystr * pyval)) : Prop := Forall (fun kv => tuple_free kv.2 = true) d.

Lemma tuple_free_dict d : tuple_free (PDict d) = true <-> free_items d.
Proof. unfold free_items. induction d as [|[k x] d IH]; cbn in *; [by split|]. by rewrite Forall_cons, <- IH, andb_true_iff. Qed.

Lemma sanitize_tuple_free v : tuple_free v = true -> tuple_free (_sanitize v) = true.
Proof.
  induction v as [|b|z|f|s|l IH|l IH|d IH|z] using pyval_ind; try done.
  - cbn. intros Hl. rewrite forallb_forall in *. intros y (x & <- & Hx)%in_map_iff. rewrite Forall_forall in IH.
    apply IH; [by apply list_elem_of_In|by apply Hl].
  - intros Hd%tuple_free_dict. rewrite sanitize_dict, tuple_free_dict. assert (free_items []) as H0 by constructor. revert H0.
    generalize (@nil (pystr * pyval)) as out. induction IH as [|[k x] d Hx _ IHd]; intros out Hout; [done|].
    apply Forall_cons in Hd as [Hxt Hd]. cbn [foldl]. apply IHd; [done|]. unfold sanitize_item. cbn in *.
    destruct (is_forbidden k); apply dict_set_Forall; try done; by apply Hx.
Qed.

(** Without tuples nothing is outside. *)
Lemma outside_clean v : tuple_free v = true -> clean v = clean_outside v.
Proof.
  induction v as [|b|z|f|s|l IH|l IH|d IH|z] using pyval_ind; try done.
  - cbn. intros Hl. induction IH as [|x l Hx _ IHl]; [done|]. cbn in *. apply andb_true_iff in Hl as [H1 H2]. by rewrite Hx, IHl.
  - intros Hd%tuple_free_dict. apply eq_true_iff_eq. rewrite clean_dict, outside_dict. unfold clean_items, outside_items.
    induction IH as [|[k x] d Hx _ IHd]; [done|]. apply Forall_cons in Hd as [H1 H2]. rewrite !Forall_cons, IHd by done. cbn in *. by rewrite Hx.
Qed.

(** Sanitized documents can be written and read back. *)
Definition ok_items (d : list (pystr * pyval)) : Prop :=
  NoDup d.*1 /\ Forall (fun kv => str_ok kv.1 = true /\ json_ok kv.2 = true) d.

Lemma json_ok_items d : json_ok (PDict d) = true <-> ok_items d.
Proof.
  split; [apply json_ok_dict|]. intros [Hnd Hd]. cbn [json_ok]. rewrite bool_decide_eq_true_2 by done. cbn [andb]. clear Hnd.
  induction Hd as [|[k x] d [H1 H2] _ IH]; [done|]. rewrite !andb_true_iff. cbn [fst snd] in *. done.
Qed.

Lemma ok_items_set k v d : str_ok k = true -> json_ok v = true -> ok_items d -> ok_items (dict_set k v d).
Proof. intros Hk Hv [Hnd Hd]. split; [by apply dict_set_nodup|]. by apply dict_set_Forall. Qed.

Lemma str_ok_redacted k : str_ok k = true -> str_ok (redacted k) = true.
Proof.
  unfold str_ok, redacted. rewrite forallb_app. intros ->. vm_compute. reflexivity.
Qed.

Lemma sanitize_json_ok v : json_ok v = true -> json_ok (_sanitize v) = true.
Proof.
  induction v as [|b|z|f|s|l IH|l IH|d IH|z] using pyval_ind; try done.
  - cbn. intros Hl. rewrite forallb_forall in *. intros y (x & <- & Hx)%in_map_iff. rewrite Forall_forall in IH.
    apply IH; [by apply list_elem_of_In|by apply Hl].
  - rewrite sanitize_dict, !json_ok_items. intros [_ Hd]. assert (ok_items []) as H0 by (split; constructor). revert H0.
    generalize (@nil (pystr * pyval)) as out. induction IH as [|[k x] d Hx _ IHd]; intros out Hout; [done|].
    apply Forall_cons in Hd as [[Hk Hxo] Hd]. cbn [foldl]. apply IHd; [done|]. unfold sanitize_item. cbn in *.
    destruct (is_forbidden k); apply ok_items_set; try done; [by apply str_ok_redacted|by apply Hx].
Qed.

Lemma clean_norm fm v : clean (json_norm fm v) = clean v.
Proof.
  assert (forall l, Forall (fun v => clean (json_norm fm v) = clean v) l -> forallb clean (map (json_norm fm) l) = forallb clean l) as Hl.
  { induction 1 as [|x l Hx _ IHl]; cbn; [done|]. by rewrite Hx, IHl. }
  induction v as [|b|z|f|s|l IH|l IH|d IH|z] using pyval_ind; try done; [by apply Hl..|].
  rewrite json_norm_dict. apply eq_true_iff_eq. rewrite !clean_dict. unfold clean_items. rewrite maybe_sort_perm.
  unfold on_values. rewrite Forall_map. induction IH as [|[k x] d Hx _ IHd]; [done|]. rewrite !Forall_cons, IHd. cbn in *. by rewrite Hx.
Qed.

Lemma log_record_ok ts level event fields :
  json_ok (PDict fields) = true -> str_ok level = true -> str_ok event = true ->
  ok_items (log_record ts level event fields).
Proof.
  intros Hf Hl He. pose proof (sanitize_json_ok _ Hf) as Hs. unfold log_record. rewrite sanitize_dict in *.
  apply json_ok_items in Hs as [_ Hs]. unfold dict_update.
  assert (ok_items [(str "timestamp_ms", PInt ts); (str "level", PStr level); (str "event", PStr event)]) as H0.
  { split; [by apply (bool_decide_eq_true_1 _)|]. repeat constructor; cbn; done. }
  revert H0. generalize [(str "timestamp_ms", PInt ts); (str "level", PStr level); (str "event", PStr event)] as out.
  induction Hs as [|[k x] d [H1 H2] _ IH]; intros out Hout; [done|]. cbn [foldl]. by apply IH, ok_items_set.
Qed.

Lemma log_record_outside ts level event fields : clean_outside (PDict (log_record ts level event fields)) = true.
Proof.
  pose proof (sanitize_outside (PDict fields)) as Hs. unfold log_record. rewrite sanitize_dict in *.
  rewrite outside_dict in *. unfold dict_update.
  assert (outside_items [(str "timestamp_ms", PInt ts); (str "level", PStr level); (str "event", PStr event)]) as H0 by (by repeat constructor).
  revert H0. generalize [(str "timestamp_ms", PInt ts); (str "level", PStr level); (str "event", PStr event)] as out.
  induction Hs as [|[k x] d [H1 H2] _ IH]; intros out Hout; [done|]. cbn [foldl]. by apply IH, dict_set_Forall.
Qed.

Lemma log_record_clean ts level event fields :
  tuple_free (PDict fields) = true -> clean (PDict (log_record ts level event fields)) = true.
Proof.
  intros Hf. rewrite outside_clean; [apply log_record_outside|]. pose proof (sanitize_tuple_free _ Hf) as Hs.
  unfold log_record. rewrite sanitize_dict in *. rewrite tuple_free_dict in *. unfold dict_update.
  assert (free_items [(str "timestamp_ms", PInt ts); (str "level", PStr level); (str "event", PStr event)]) as H0 by (by repeat constructor).
  revert H0. generalize [(str "timestamp_ms", PInt ts); (str "level", PStr level); (str "event", PStr event)] as out.
  induction Hs as [|[k x] d H1 _ IH]; intros out Hout; [done|]. cbn [foldl]. by apply IH, dict_set_Forall.
Qed.

(** ** Writing *)

Lemma dict_has_public k d : dict_has k (map public_item d) = dict_has k d.
Proof.
  unfold dict_has. induction d as [|[k' x] d IH]; [done|]. cbn. case_decide; [done|]. exact IH.
Qed.

Lemma write_public self level event fields fields' w :
  public (PDict fields) = public (PDict fields') -> write self level event fields w = write self level event fields' w.
Proof.
  intros Hp. assert (_sanitize (PDict fields) = _sanitize (PDict fields')) as Hs.
  { rewrite <- (sanitize_public (PDict fields)), <- (sanitize_public (PDict fields')). by rewrite Hp. }
  rewrite !public_dict in Hp. injection Hp as Hp.
  assert (check_fields fields = check_fields fields') as Hc.
  { unfold check_fields. cbn [existsb]. rewrite <- !(dict_has_public _ fields), <- !(dict_has_public _ fields'), Hp. done. }
  unfold write, log_record. by rewrite Hc, Hs.
Qed.

Lemma write_ok self level event fields w w' u :
  write self level event fields w = (w', Ok u) ->
  exists ts line, json_dumps fmt_compact (PDict (log_record ts level event fields)) = Ok line /\
    fs_files (w_dev w') !! lg_path self = Some (default [] (fs_files (w_dev w) !! lg_path self) ++ line_bytes line).
Proof.
  unfold write. intros ([] & w1 & Hc & Hw)%bind_ok. injection Hc as <- _. apply bind_ok in Hw as (now & w1 & Hn & Hw).
  apply bind_ok in Hw as (ts & w2 & Ht & Hw). injection Ht as <- _. apply bind_ok in Hw as ([] & w2 & Ho & Hw).
  apply bind_ok in Hw as (line & w3 & Hl & Hw). injection Hl as <- Hl. exists ts, line. split; [done|].
  unfold on_env, on_dev, zoom in *. destruct (time_time (w_env w)) as [e r]. injection Hn as <- ->.
  destruct (append_file _ [] _) as [s r] eqn:E1. injection Ho as <- ->.
  destruct (append_file _ (line_bytes line) _) as [s2 r] eqn:E2. injection Hw as <- ->.
  apply append_ok in E1 as [E1 _], E2 as [E2 _]. cbn in *. rewrite E2, E1, lookup_insert_eq, lookup_insert_eq. cbn. by rewrite app_nil_r.
Qed.

(** ** Property *)

Definition sample_fields : list (pystr * pyval) :=
  [(str "tier", PStr (str "nvme"));
   (str "request", PDict [(str "prompt", PStr (str "secret")); (str "tokens", PList [PInt 1; PDict [(str "tenant_id", PInt 7)]])])].

Definition log_world : World Fs :=
  mkWorld (mkEnv (mkMetadataStore {| blocks := ∅; runtime := None; owner_lock := true |} [49] false) None
             (fun _ => f64_of_Z 200) (fun _ => f64_of_Z 1) 0)
    (mkFs ∅ {[ [str "log"] ]} (fun _ => None) (fun _ _ => []) 0 4096).

Definition sample_logger : StructuredLogger := mkStructuredLogger [str "log"; str "events.jsonl"].

Lemma sample_write_ok : is_ok (write sample_logger (str "info") (str "load") sample_fields log_world).2 = true.
Proof. vm_compute. reflexivity. Qed.

(** C40: the log keeps forbidden fields out. When [write] returns, for fields that are
    JSON data, it has appended one line to the file, which reads back as the record it
    wrote. The record has no forbidden field at any depth of dictionaries and lists;
    a tuple is written as an array with its items as they were, so the line itself has
    no forbidden field at any depth when the fields hold no tuple. What was written
    does not depend on the values of forbidden fields outside tuples: any other values
    give the same file. *)
Theorem log_fields_private self level event fields w w' u :
  write self level event fields w = (w', Ok u) -> json_ok (PDict fields) = true ->
  str_ok level = true -> str_ok event = true ->
  (exists line record, fs_files (w_dev w') !! lg_path self = Some (default [] (fs_files (w_dev w) !! lg_path self) ++ line_bytes line) /\
     one_line line /\ json_loads line = Ok (json_norm fmt_compact (PDict record)) /\ clean_outside (PDict record) = true /\
     (tuple_free (PDict fields) = true -> clean (json_norm fmt_compact (PDict record)) = true)) /\
  forall fields', public (PDict fields') = public (PDict fields) -> write self level event fields' w = (w', Ok u).
Proof.
  intros Hw Hj Hl He. split.
  - apply write_ok in Hw as (ts & line & Hd & Hf). pose proof (log_record_ok ts level event fields Hj Hl He) as Hok.
    apply json_ok_items in Hok. exists line, (log_record ts level event fields).
    split_and!; [done|by eapply dumps_one_line|by apply json_loads_dumps|apply log_record_outside|].
    intros Ht. rewrite clean_norm. by apply log_record_clean.
  - intros fields' Hp. by rewrite (write_public _ _ _ _ _ _ Hp).
Qed.

Lemma log_fields_private_witness :
  exists w', write sample_logger (str "info") (str "load") sample_fields log_world = (w', Ok tt) /\
    exists line doc, fs_files (w_dev w') !! lg_path sample_logger = Some (line_bytes line) /\ json_loads line = Ok doc /\ clean doc = true.
Proof.
  pose proof sample_write_ok as Hok.
  destruct (write sample_logger (str "info") (str "load") sample_fields log_world) as [w' [[]|e]] eqn:E; [|discriminate Hok].
  exists w'. split; [reflexivity|].
  destruct (proj1 (log_fields_private sample_logger (str "info") (str "load") sample_fields log_world w' tt E
    ltac:(vm_compute; reflexivity) ltac:(vm_compute; reflexivity) ltac:(vm_compute; reflexivity)))
    as (line & record & Hf & _ & Hj & _ & Hc).
  exists line, (json_norm fmt_compact (PDict record)). split; [exact Hf|]. split; [exact Hj|].
  apply Hc. vm_compute. reflexivity.
Defined.

(** A dictionary in a tuple reaches the log as it is. *)
Example tuple_reaches_log :
  let fields := [(str "batch", PTuple [PDict [(str "prompt", PStr (str "secret"))]])] in
  match json_dumps fmt_compact (PDict (log_record 200 (str "info") (str "load") fields)) with
  | Ok line => match json_loads line with Ok doc => clean doc | Raise _ => true end
  | Raise _ => true
  end = false.
Proof. vm_compute. reflexivity. Qed.
