(* ===== verification/MetricsHttp.v ===== *)
(** * The metrics endpoint: [kvstore/metrics_http.py]

    [do_GET] as a function from a request to the response it writes. The headers
    [Server] and [Date], which the standard library adds to every response, are an
    argument. The server is a listening socket and the answers it has given; requests
    are handled in threads of their own, so that each sees the metrics of its moment,
    and what a handler raises ends its thread only. *)

From S2P Require Import Prelude PyText Sha256 Float64 Errors PyVal Json Metrics Tokenization Url PyConv.
Import MNotations ResNotations.
Local Open Scope res_scope.

Record Request := { rq_path : pystr; rq_headers : list (pystr * pystr) }.

Record Response := { rs_status : Z; rs_headers : list (pystr * pystr); rs_body : pybytes }.

(** [headers.get(name)]: the first header of that name, in any case. *)
Fixpoint header_get (name : pystr) (hs : list (pystr * pystr)) : option pystr :=
  match hs with
  | [] => None
  | (n, v) :: r => if bool_decide (str_lower n = str_lower name) then Some v else header_get name r
  end.

Definition zero_trace : pystr := replicate 32 48.

Definition _trace_id_from_traceparent (value : pystr) : pystr :=
  match split_char 45 (str_strip value) with
  | _ :: trace_id :: _ :: _ :: _ =>
      if negb (hex_fullmatch 32 trace_id) then []
      else if bool_decide (trace_id = zero_trace) then []
      else trace_id
  | _ => []
  end.

(** The header that correlates the response with its request; [now] is
    [time.time_ns()]. *)
Definition _write_correlation_header (now : Z) (rq : Request) : res (pystr * pystr) :=
  match _trace_id_from_traceparent (default [] (header_get (str "traceparent") (rq_headers rq))) with
  | [] =>
      let request_id := match header_get (str "X-Request-ID") (rq_headers rq) with
                        | Some ((_ :: _) as v) => v
                        | _ => int_repr now
                        end in
      match utf8_encode request_id with
      | Some b => Ok (str "X-Request-Hash", take 16 (sha256_hex b))
      | None => Raise (err UnicodeEncodeError (str "surrogates not allowed"))
      end
  | trace_id => Ok (str "X-Trace-Id", trace_id)
  end.

Definition _write_response (std : list (pystr * pystr)) (now : Z) (rq : Request) (status : Z) (content_type : pystr)
    (body : pybytes) : res Response :=
  let? correlation := _write_correlation_header now rq in
  Ok {| rs_status := status;
        rs_headers := std ++ [(str "Content-Type", content_type); correlation; (str "Content-Length", int_repr (zlen body))];
        rs_body := body |}.

Definition do_GET (std : list (pystr * pystr)) (now : Z) (metrics : KVStoreMetrics) (rq : Request) : res Response :=
  if bool_decide (rq_path rq = str "/healthz") then
    _write_response std now rq 200 (str "text/plain; charset=utf-8") (bstr "ok" ++ [Byte.x0a])
  else if bool_decide (rq_path rq = str "/metrics") then
    match utf8_encode (export_prometheus_text metrics) with
    | Some body => _write_response std now rq 200 (str "text/plain; version=0.0.4; charset=utf-8") body
    | None => Raise (err UnicodeEncodeError (str "surrogates not allowed"))
    end
  else _write_response std now rq 404 (str "text/plain; charset=utf-8") (bstr "not found" ++ [Byte.x0a]).

(** ** The server *)

(** The sockets that listen, the next identifier, and the answers given. *)
Record Net := mkNet { n_open : gmap nat (pystr * Z); n_next : nat; n_answers : list (res Response) }.

(** A request as its handler sees it: the standard headers, the time, the metrics. *)
Record Arrival := mkArrival { a_std : list (pystr * pystr); a_now : Z; a_metrics : KVStoreMetrics; a_request : Request }.

Definition answer (a : Arrival) : res Response := do_GET (a_std a) (a_now a) (a_metrics a) (a_request a).

(** [create_metrics_server]: [refused] is the error of a port that cannot be taken. *)
Definition create_metrics_server (host : pystr) (port : Z) (refused : option exn) : M Net nat := fun s =>
  match refused with
  | Some e => (s, Raise e)
  | None => (mkNet (<[n_next s := (host, port)]> (n_open s)) (S (n_next s)) (n_answers s), Ok (n_next s))
  end.

Definition server_close (server : nat) : M Net unit := modify (fun s => mkNet (base.delete server (n_open s)) (n_next s) (n_answers s)).

(** [server.serve_forever()]: it answers what arrives, until it is shut down or interrupted. *)
Definition handle (arrivals : list Arrival) (over : res unit) : M Net unit := fun s =>
  (mkNet (n_open s) (n_next s) (n_answers s ++ map answer arrivals), over).

Definition serve_forever (host : pystr) (port : Z) (refused : option exn) (ready : option (nat -> M Net unit))
    (arrivals : list Arrival) (over : res unit) : M Net unit :=
  (let* server := create_metrics_server host port refused in
   match ready with Some f => f server | None => ret tt end ;;
   try_finally (handle arrivals over) (fun _ => server_close server))%m.

(** ** Facts *)

Lemma trace_id_hex v : _trace_id_from_traceparent v = [] \/
  (hex_fullmatch 32 (_trace_id_from_traceparent v) = true /\ _trace_id_from_traceparent v <> zero_trace).
Proof.
  unfold _trace_id_from_traceparent. destruct (split_char _ _) as [|a [|t [|c [|d r]]]]; auto.
  destruct (hex_fullmatch 32 t) eqn:E; cbn; [|auto]. case_bool_decide; auto.
Qed.

(** The request without its identifier. *)
Definition not_id (h : pystr * pystr) : bool := negb (bool_decide (str_lower h.1 = str_lower (str "X-Request-ID"))).

Definition without_id (rq : Request) : Request :=
  {| rq_path := rq_path rq; rq_headers := List.filter not_id (rq_headers rq) |}.

Lemma header_get_filter name (p : pystr * pystr -> bool) hs :
  (forall h, str_lower h.1 = str_lower name -> p h = true) -> header_get name (List.filter p hs) = header_get name hs.
Proof.
  intros Hp. induction hs as [|[n v] hs IH]; [done|]. cbn. destruct (p (n, v)) eqn:E; cbn; [by rewrite IH|].
  rewrite bool_decide_eq_false_2; [done|]. intros Hn. specialize (Hp (n, v) Hn). congruence.
Qed.

Lemma traceparent_kept rq :
  header_get (str "traceparent") (rq_headers (without_id rq)) = header_get (str "traceparent") (rq_headers rq).
Proof.
  apply header_get_filter. intros h Hh. unfold not_id. rewrite Hh. vm_compute. reflexivity.
Qed.

(** The digest that stands for the identifier. *)
Definition id_digest (now : Z) (rq : Request) : option pystr :=
  (fun b => take 16 (sha256_hex b)) <$>
    utf8_encode (match header_get (str "X-Request-ID") (rq_headers rq) with Some ((_ :: _) as v) => v | _ => int_repr now end).

Lemma correlation_by_digest now rq rq' :
  without_id rq = without_id rq' -> id_digest now rq = id_digest now rq' ->
  _write_correlation_header now rq = _write_correlation_header now rq'.
Proof.
  intros Hw Hd. unfold _write_correlation_header.
  assert (header_get (str "traceparent") (rq_headers rq) = header_get (str "traceparent") (rq_headers rq')) as ->.
  { rewrite <- (traceparent_kept rq), <- (traceparent_kept rq'). by rewrite Hw. }
  destruct (_trace_id_from_traceparent _); [|done]. unfold id_digest in Hd.
  destruct (utf8_encode (match header_get _ (rq_headers rq) with Some ((_ :: _) as v) => v | _ => int_repr now end)),
    (utf8_encode (match header_get _ (rq_headers rq') with Some ((_ :: _) as v) => v | _ => int_repr now end)); cbn in Hd; try done.
  by injection Hd as ->.
Qed.

Definition is_hex (s : pystr) : Prop := Forall (fun c => is_lower_hex c = true) s.

Lemma take_hex n s : is_hex s -> is_hex (take n s).
Proof. apply Forall_take. Qed.

Lemma correlation_header now rq name value :
  _write_correlation_header now rq = Ok (name, value) ->
  is_hex value /\
  ((name = str "X-Trace-Id" /\ length value = 32%nat /\ value <> zero_trace) \/ (name = str "X-Request-Hash" /\ length value = 16%nat)).
Proof.
  unfold _write_correlation_header. set (v := default [] _). pose proof (trace_id_hex v) as Ht.
  destruct (_trace_id_from_traceparent v) as [|c t].
  - destruct (utf8_encode _) as [b|]; [|done]. intros [= <- <-]. pose proof (sha256_hex_fullmatch b) as Hs.
    unfold hex_fullmatch in Hs. rewrite andb_true_iff, Forall_forallb in Hs. destruct Hs as [_ Hs]. split; [by apply take_hex|].
    right. split; [done|]. rewrite length_take, sha256_hex_length. done.
  - intros [= <- <-]. destruct Ht as [Ht|[Ht Hz]]; [done|]. unfold hex_fullmatch in Ht.
    rewrite andb_true_iff, Forall_forallb, Nat.eqb_eq in Ht. destruct Ht as [Hl Hh]. split; [done|]. by left.
Qed.

Lemma write_response_ok std now rq status content_type body rs :
  _write_response std now rq status content_type body = Ok rs ->
  rs_status rs = status /\ rs_body rs = body /\ exists name value,
    rs_headers rs = std ++ [(str "Content-Type", content_type); (name, value); (str "Content-Length", int_repr (zlen body))] /\
    is_hex value /\
    ((name = str "X-Trace-Id" /\ length value = 32%nat /\ value <> zero_trace) \/ (name = str "X-Request-Hash" /\ length value = 16%nat)).
Proof.
  unfold _write_response. intros ([name value] & Hc & [= <-])%res_bind_ok. split; [done|]. split; [done|].
  exists name, value. split; [done|]. by eapply correlation_header.
Qed.

(** ** Property *)

(** Responses of the metrics endpoint. Whatever the request, a response that is
    written has the status of its path, a [Content-Length] equal to the length of its
    body, and one correlation header that holds lower-case hexadecimal digits only (so
    no text of the request reaches the response header block): a valid non-zero trace
    identifier, or 16 digits. The identifier a client sends has no other influence: two
    requests that differ only in it, with the same truncated SHA-256, get the same
    response. *)
Theorem metrics_response std now metrics rq rs :
  do_GET std now metrics rq = Ok rs ->
  (rs_status rs = if bool_decide (rq_path rq = str "/healthz") || bool_decide (rq_path rq = str "/metrics") then 200 else 404) /\
  (exists content_type name value,
     rs_headers rs = std ++ [(str "Content-Type", content_type); (name, value); (str "Content-Length", int_repr (zlen (rs_body rs)))] /\
     is_hex value /\
     ((name = str "X-Trace-Id" /\ length value = 32%nat /\ value <> zero_trace) \/
      (name = str "X-Request-Hash" /\ length value = 16%nat))) /\
  forall rq', without_id rq = without_id rq' -> id_digest now rq = id_digest now rq' -> do_GET std now metrics rq' = Ok rs.
Proof.
  intros Hg. split; [|split].
  - unfold do_GET in Hg. case_bool_decide; [|case_bool_decide]; cbn; [..|by apply write_response_ok in Hg as (-> & _)].
    + by apply write_response_ok in Hg as (-> & _).
    + destruct (utf8_encode _); [|done]. by apply write_response_ok in Hg as (-> & _).
  - unfold do_GET in Hg. case_bool_decide; [|case_bool_decide].
    + apply write_response_ok in Hg as (_ & -> & name & value & Hs & Hh & Hk). do 3 eexists. split; [exact Hs|done].
    + destruct (utf8_encode _); [|done]. apply write_response_ok in Hg as (_ & -> & name & value & Hs & Hh & Hk).
      do 3 eexists. split; [exact Hs|done].
    + apply write_response_ok in Hg as (_ & -> & name & value & Hs & Hh & Hk). do 3 eexists. split; [exact Hs|done].
  - intros rq' Hw Hd. rewrite <- Hg. unfold do_GET, _write_response.
    rewrite (correlation_by_digest now rq rq' Hw Hd). apply (f_equal rq_path) in Hw. cbn in Hw. by rewrite Hw.
Qed.

Definition sample_request (id : pystr) : Request :=
  {| rq_path := str "/healthz"; rq_headers := [(str "x-request-id", id); (str "traceparent", str "00-zz-01-00")] |}.

Lemma metrics_response_witness :
  exists rs, do_GET [] 7 KVStoreMetrics_init (sample_request (str "alice")) = Ok rs /\ rs_status rs = 200.
Proof.
  destruct (do_GET [] 7 KVStoreMetrics_init (sample_request (str "alice"))) as [rs|e] eqn:E; [|vm_compute in E; discriminate E].
  exists rs. split; [reflexivity|].
  exact (proj1 (metrics_response [] 7 KVStoreMetrics_init (sample_request (str "alice")) rs E)).
Defined.

(** The endpoint takes one port while it serves and gives it back however serving ends,
    and it has answered what arrived by the handler; a port that is refused changes
    nothing. (A callback that raises leaves the socket open: it runs before the [try].) *)
Theorem serve_releases_port host port refused ready arrivals over s s' r :
  (forall f id, ready = Some f -> f id = ret tt) -> (forall i, is_Some (n_open s !! i) -> (i < n_next s)%nat) ->
  serve_forever host port refused ready arrivals over s = (s', r) ->
  n_open s' = n_open s /\
  match refused with
  | Some e => s' = s /\ r = Raise e
  | None => n_answers s' = n_answers s ++ map answer arrivals /\ r = over
  end.
Proof.
  intros Hready Hfresh Hr. unfold serve_forever, bind, create_metrics_server in Hr. destruct refused as [e|]; [by injection Hr as <- <-|].
  assert (match ready with Some f => f (n_next s) | None => ret tt end = ret tt) as Hk by (destruct ready as [f|]; [by apply Hready|done]).
  rewrite Hk in Hr. cbn in Hr. assert (n_open s !! n_next s = None) as Hn.
  { apply eq_None_not_Some. intros Hs. specialize (Hfresh _ Hs). lia. }
  injection Hr as <- <-. cbn. split; [|done]. by rewrite delete_insert_id.
Qed.

(** The exception of a callback. *)
Example failing_callback_leaks :
  let '(s, _) := serve_forever (str "127.0.0.1") 9000 None (Some (fun _ => raise (err RuntimeError (str "not ready")))) [] (Ok tt) (mkNet ∅ 0 []) in
  n_open s !! 0%nat = Some (str "127.0.0.1", 9000).
Proof. reflexivity. Qed.
