(* ===== verification/Csv.v ===== *)
(** * CSV: Python's module [csv], as the benchmark tools use it

    The reader of the dialect [excel] is the state machine of the interpreter,
    fed with the lines of the file; the writer quotes a field when it has to.
    [DictReader] and [DictWriter] on top of them; reading undoes writing. *)

From S2P Require Import Prelude PyText Errors PyVal Json JsonFacts.
Import ResNotations.
Local Open Scope res_scope.

(** ** Lines *)

(** The lines of a text with their ends, when newlines are not translated. *)
Fixpoint keep_lines (cur : pystr) (s : pystr) : list pystr :=
  match s with
  | [] => match cur with [] => [] | _ => [rev cur] end
  | c :: r =>
      if c =? 10 then rev (c :: cur) :: keep_lines [] r
      else if c =? 13 then
        match r with
        | d :: r' => if d =? 10 then rev (d :: c :: cur) :: keep_lines [] r' else rev (c :: cur) :: keep_lines [] r
        | [] => [rev (c :: cur)]
        end
      else keep_lines (c :: cur) r
  end.

(** ** The reader *)

Inductive csv_state := START_RECORD | START_FIELD | IN_FIELD | IN_QUOTED_FIELD | QUOTE_IN_QUOTED_FIELD | EAT_CRNL.

#[global] Instance csv_state_eq_decision : EqDecision csv_state.
Proof. solve_decision. Defined.

(** The field and the fields read so far, in reverse. *)
Record csv_parser := mkParser { cp_state : csv_state; cp_field : pystr; cp_fields : list pystr }.

Definition csv_error (m : pystr) : exn := err (ForeignError (str "csv.Error")) m.
Definition field_size_limit : Z := 131072.

Definition add_char (c : Z) (st : csv_state) (p : csv_parser) : res csv_parser :=
  if field_size_limit <=? zlen (cp_field p) then Raise (csv_error (str "field larger than field limit (131072)"))
  else Ok (mkParser st (c :: cp_field p) (cp_fields p)).

Definition save_field (st : csv_state) (p : csv_parser) : csv_parser :=
  mkParser st [] (rev (cp_field p) :: cp_fields p).

Definition with_state (st : csv_state) (p : csv_parser) : csv_parser := mkParser st (cp_field p) (cp_fields p).

Definition is_newline (c : Z) : bool := (c =? 10) || (c =? 13).

Definition start_field (c : Z) (p : csv_parser) : res csv_parser :=
  if is_newline c then Ok (save_field EAT_CRNL p)
  else if c =? 34 then Ok (with_state IN_QUOTED_FIELD p)
  else if c =? 44 then Ok (save_field START_FIELD p)
  else add_char c IN_FIELD p.

Definition process_char (c : Z) (p : csv_parser) : res csv_parser :=
  match cp_state p with
  | START_RECORD => if is_newline c then Ok (with_state EAT_CRNL p) else start_field c p
  | START_FIELD => start_field c p
  | IN_FIELD =>
      if is_newline c then Ok (save_field EAT_CRNL p)
      else if c =? 44 then Ok (save_field START_FIELD p)
      else add_char c IN_FIELD p
  | IN_QUOTED_FIELD =>
      if c =? 34 then Ok (with_state QUOTE_IN_QUOTED_FIELD p) else add_char c IN_QUOTED_FIELD p
  | QUOTE_IN_QUOTED_FIELD =>
      if c =? 34 then add_char c IN_QUOTED_FIELD p
      else if c =? 44 then Ok (save_field START_FIELD p)
      else if is_newline c then Ok (save_field EAT_CRNL p)
      else add_char c IN_FIELD p
  | EAT_CRNL =>
      if is_newline c then Ok p
      else Raise (csv_error (str "new-line character seen in unquoted field"))
  end.

(** The end of a line. *)
Definition process_eol (p : csv_parser) : csv_parser :=
  match cp_state p with
  | START_RECORD | IN_QUOTED_FIELD => p
  | START_FIELD | IN_FIELD | QUOTE_IN_QUOTED_FIELD => save_field START_RECORD p
  | EAT_CRNL => with_state START_RECORD p
  end.

Fixpoint process_chars (s : pystr) (p : csv_parser) : res csv_parser :=
  match s with
  | [] => Ok p
  | c :: r => let? p := process_char c p in process_chars r p
  end.

Definition fresh_parser : csv_parser := mkParser START_RECORD [] [].

(** [next(reader)]: the row and the lines after it, or [None] at the end. *)
Fixpoint next_row (p : csv_parser) (lines : list pystr) : res (option (list pystr * list pystr)) :=
  match lines with
  | [] =>
      if negb (bool_decide (cp_field p = [])) || bool_decide (cp_state p = IN_QUOTED_FIELD)
      then Ok (Some (rev (cp_fields (save_field START_RECORD p)), []))
      else Ok None
  | l :: rest =>
      let? p := process_chars l p in
      let p := process_eol p in
      if bool_decide (cp_state p = START_RECORD) then Ok (Some (rev (cp_fields p), rest)) else next_row p rest
  end.

(** The remaining rows; each takes at least one line. *)
Fixpoint rows_from (fuel : nat) (lines : list pystr) : res (list (list pystr)) :=
  match fuel with
  | O => Ok []
  | S f =>
      let? r := next_row fresh_parser lines in
      match r with
      | None => Ok []
      | Some (row, rest) => let? rows := rows_from f rest in Ok (row :: rows)
      end
  end.

(** [list(csv.reader(f))]. *)
Definition csv_read (text : pystr) : res (list (list pystr)) :=
  let lines := keep_lines [] text in rows_from (S (length lines)) lines.

(** ** [DictReader] *)

(** A row as a dictionary: a missing value is [None]; surplus values are kept under
    the key [None]. *)
Record dict_row := mkDictRow { dr_items : list (pystr * option pystr); dr_rest : option (list pystr) }.

Fixpoint zip_fields (names : list pystr) (row : list pystr) (d : list (pystr * option pystr)) : list (pystr * option pystr) :=
  match names, row with
  | n :: names, v :: row => zip_fields names row (dict_set n (Some v) d)
  | n :: names, [] => zip_fields names [] (dict_set n None d)
  | [], _ => d
  end.

Definition dict_of_row (names row : list pystr) : dict_row :=
  mkDictRow (zip_fields names row [])
    (if (length names <? length row)%nat then Some (drop (length names) row) else None).

(** [reader.fieldnames] and [list(reader)]; blank rows after the header are
    skipped. *)
Definition dict_reader (rows : list (list pystr)) : option (list pystr) * list dict_row :=
  match rows with
  | [] => (None, [])
  | names :: rest => (Some names, map (dict_of_row names) (List.filter (fun r => negb (bool_decide (r = []))) rest))
  end.

(** ** The writer *)

Definition needs_quotes (c : Z) : bool := (c =? 44) || (c =? 34) || (c =? 10) || (c =? 13).

Definition double_quotes (s : pystr) : pystr := flat_map (fun c => if c =? 34 then [34; 34] else [c]) s.

Definition csv_field (s : pystr) : pystr := if existsb needs_quotes s then 34 :: double_quotes s ++ [34] else s.

(** [writer.writerow(row)]; a row of one empty field is quoted. *)
Definition csv_row (row : list pystr) : pystr :=
  (match row with [[]] => [34; 34] | _ => join [44] (map csv_field row) end) ++ [13; 10].

Definition csv_text (rows : list (list pystr)) : pystr := flat_map csv_row rows.

(** [DictWriter(f, names)]: [writerow(d)] of a dictionary that has no other keys. *)
Definition row_of_dict (names : list pystr) (d : dict_row) : res (list pystr) :=
  ensure (bool_decide (dr_rest d = None) && forallb (fun k => bool_decide (k ∈ names)) (dr_items d).*1)
    (err ValueError (str "dict contains fields not in fieldnames")) ;?
  Ok (map (fun n => default [] (default None (dict_get n (dr_items d)))) names).

(** ** The reader on a text *)

(** What [next_row] does once the first part of a line was processed: [started] says
    whether the line has characters already. *)
Definition end_line (p : csv_parser) (next : csv_parser -> res (option (list pystr * list pystr))) (rest : pystr)
  : res (option (list pystr * list pystr)) :=
  let p := process_eol p in
  if bool_decide (cp_state p = START_RECORD) then Ok (Some (rev (cp_fields p), keep_lines [] rest)) else next p.

Fixpoint cont (p : csv_parser) (started : bool) (s : pystr) : res (option (list pystr * list pystr)) :=
  match s with
  | [] => if started then end_line p (fun p => next_row p []) [] else next_row p []
  | c :: r =>
      let? p := process_char c p in
      if c =? 10 then end_line p (fun p => cont p false r) r
      else if c =? 13 then
        match r with
        | d :: r' => if d =? 10 then let? p := process_char d p in end_line p (fun p => cont p false r') r'
                     else end_line p (fun p => cont p false r) r
        | [] => end_line p (fun p => cont p false r) r
        end
      else cont p true r
  end.

Lemma process_chars_app a b p : process_chars (a ++ b) p = (let? p := process_chars a p in process_chars b p).
Proof. revert p. induction a as [|c a IH]; intros p; [done|]. simpl. destruct (process_char c p); simpl; [apply IH|done]. Qed.

Lemma next_row_line p l rest :
  next_row p (l :: rest) =
  (let? p := process_chars l p in
   let p := process_eol p in
   if bool_decide (cp_state p = START_RECORD) then Ok (Some (rev (cp_fields p), rest)) else next_row p rest).
Proof. done. Qed.

Lemma next_row_cont n : forall s cur p p1 o,
  (length s < n)%nat -> process_chars (rev cur) p = Ok p1 ->
  cont p1 (negb (bool_decide (cur = []))) s = Ok o -> next_row p (keep_lines cur s) = Ok o.
Proof.
  induction n as [|n IH]; intros s cur p p1 o Hn Hp Ho; [lia|].
  destruct s as [|c r]; cbn [keep_lines cont length] in *.
  - destruct cur as [|x cur]; [injection Hp as <-; done|]. rewrite bool_decide_eq_false_2 in Ho by done.
    rewrite next_row_line, Hp. exact Ho.
  - assert (forall q, process_char c p1 = Ok q -> process_chars (rev (c :: cur)) p = Ok q) as Hc.
    { intros q Hq. cbn [rev]. rewrite process_chars_app, Hp. cbn. by rewrite Hq. }
    assert (forall l q r', process_chars l p = Ok q -> (length r' < n)%nat ->
      end_line q (fun p => cont p false r') r' = Ok o -> next_row p (l :: keep_lines [] r') = Ok o) as Hend.
    { intros l q r' Hl Hlt He. rewrite next_row_line, Hl. cbn [res_bind]. unfold end_line in He. case_bool_decide; [done|].
      by apply (IH r' [] (process_eol q) (process_eol q)). }
    apply res_bind_ok in Ho as (p2 & E & Ho). specialize (Hc p2 E).
    destruct (Z.eqb_spec c 10) as [->|H10]; [|destruct (Z.eqb_spec c 13) as [->|H13]].
    + apply (Hend _ p2); [done|lia|done].
    + destruct r as [|d r']; [apply (Hend _ p2 []); [done|cbn in *; lia|done]|]. destruct (Z.eqb_spec d 10) as [->|Hd].
      * apply res_bind_ok in Ho as (p3 & E3 & Ho). apply (Hend _ p3); [|cbn in *; lia|done].
        change (rev (10 :: 13 :: cur)) with (rev (13 :: cur) ++ [10]). rewrite process_chars_app, Hc. cbn. by rewrite E3.
      * apply (Hend _ p2); [done|cbn in *; lia|done].
    + apply (IH r (c :: cur) p p2); [lia|done|]. by rewrite bool_decide_eq_false_2.
Qed.

Lemma next_row_text s o : cont fresh_parser false s = Ok o -> next_row fresh_parser (keep_lines [] s) = Ok o.
Proof. intros Ho. apply (next_row_cont (S (length s)) s [] _ fresh_parser); [lia|done|]. by rewrite bool_decide_eq_true_2. Qed.

(** ** Fields *)

Lemma add_char_ok c st p : zlen (cp_field p) < field_size_limit -> add_char c st p = Ok (mkParser st (c :: cp_field p) (cp_fields p)).
Proof. intros Hl. unfold add_char. by replace (field_size_limit <=? zlen (cp_field p)) with false by lia. Qed.

(** A field without special characters. *)
Lemma cont_plain s : forall fd fs b rest, existsb needs_quotes s = false -> zlen fd + zlen s <= field_size_limit ->
  cont (mkParser IN_FIELD fd fs) b (s ++ rest) = cont (mkParser IN_FIELD (rev s ++ fd) fs) (b || negb (bool_decide (s = []))) rest.
Proof.
  induction s as [|c s IH]; intros fd fs b rest Hs Hl; cbn [app rev]; [by rewrite orb_false_r|].
  cbn [existsb] in Hs. apply orb_false_iff in Hs as [Hc Hs]. unfold needs_quotes in Hc. cbn [cont process_char cp_state].
  unfold is_newline. replace ((c =? 10) || (c =? 13)) with false by lia. replace (c =? 44) with false by lia.
  rewrite add_char_ok by (cbn in *; lia). cbn [res_bind cp_field cp_fields]. replace (c =? 10) with false by lia.
  replace (c =? 13) with false by lia. rewrite IH by (done || cbn in *; lia). rewrite <- app_assoc. cbn.
  by rewrite orb_true_r.
Qed.

(** The inside of a quoted field, line ends included, and its closing quote. *)
Lemma cont_quoted n : forall s fd fs b rest, (length s < n)%nat -> zlen fd + zlen s <= field_size_limit ->
  cont (mkParser IN_QUOTED_FIELD fd fs) b (double_quotes s ++ 34 :: rest) =
  cont (mkParser QUOTE_IN_QUOTED_FIELD (rev s ++ fd) fs) true rest.
Proof.
  induction n as [|n IH]; intros s fd fs b rest Hn Hl; [lia|]. destruct s as [|c s]; [done|].
  assert (forall c' fd', zlen fd' < field_size_limit -> c' <> 34 ->
    process_char c' (mkParser IN_QUOTED_FIELD fd' fs) = Ok (mkParser IN_QUOTED_FIELD (c' :: fd') fs)) as Hadd.
  { intros c' fd' Hf Hne. unfold process_char. cbn [cp_state]. replace (c' =? 34) with false by lia. by apply add_char_ok. }
  assert (forall c' s' b', (length s' < n)%nat -> zlen (c' :: fd) + zlen s' <= field_size_limit ->
    cont (mkParser IN_QUOTED_FIELD (c' :: fd) fs) b' (double_quotes s' ++ 34 :: rest) =
    cont (mkParser QUOTE_IN_QUOTED_FIELD (rev (c' :: s') ++ fd) fs) true rest) as Hnext.
  { intros c' s' b' Hlt Hf. rewrite IH by done. cbn [rev]. by rewrite <- app_assoc. }
  cbn [length] in *. change (double_quotes (c :: s)) with ((if c =? 34 then [34; 34] else [c]) ++ double_quotes s).
  destruct (Z.eqb_spec c 34) as [->|Hq].
  - cbn [app cont process_char cp_state cp_field cp_fields with_state res_bind Z.eqb Pos.eqb].
    rewrite add_char_ok by (cbn in *; lia). cbn [res_bind cp_field cp_fields with_state]. apply Hnext; cbn in *; lia.
  - cbn [app cont]. rewrite Hadd by (cbn in *; lia). cbn [res_bind].
    destruct (Z.eqb_spec c 10) as [->|H10]; [|destruct (Z.eqb_spec c 13) as [->|H13]; [|apply Hnext; cbn in *; lia]].
    + unfold end_line. cbn [process_eol cp_state]. rewrite bool_decide_eq_false_2 by done. apply Hnext; cbn in *; lia.
    + destruct s as [|d s]; [done|].
      change (double_quotes (d :: s)) with ((if d =? 34 then [34; 34] else [d]) ++ double_quotes s).
      destruct (Z.eqb_spec d 10) as [->|Hd].
      * cbn [app Z.eqb Pos.eqb]. rewrite Hadd by (cbn in *; lia). cbn [res_bind]. unfold end_line. cbn [process_eol cp_state].
        rewrite bool_decide_eq_false_2 by done. rewrite IH by (cbn in *; lia). cbn [rev]. by rewrite <- !app_assoc.
      * rewrite <- (Hnext 13 (d :: s) false) by (cbn in *; lia).
        change (double_quotes (d :: s)) with ((if d =? 34 then [34; 34] else [d]) ++ double_quotes s).
        destruct (Z.eqb_spec d 34) as [->|Hd34]; cbn [app]; [change (34 =? 10) with false|replace (d =? 10) with false by lia];
          unfold end_line; cbn [process_eol cp_state]; by rewrite bool_decide_eq_false_2.
Qed.

(** ** Rows *)

(** What may follow a field. *)
Definition field_end (rest : pystr) : Prop := exists r, rest = 44 :: r \/ rest = 13 :: 10 :: r.

(** The end of a field, in the states a field can end in. *)
Definition at_field_end (st : csv_state) : Prop := st = IN_FIELD \/ st = QUOTE_IN_QUOTED_FIELD \/ st = START_FIELD.

Lemma cont_comma st fd fs b r :
  at_field_end st -> cont (mkParser st fd fs) b (44 :: r) = cont (mkParser START_FIELD [] (rev fd :: fs)) true r.
Proof. by intros [->|[->| ->]]. Qed.

Lemma cont_crlf st fd fs b r :
  at_field_end st -> cont (mkParser st fd fs) b (13 :: 10 :: r) = Ok (Some (rev (rev fd :: fs), keep_lines [] r)).
Proof. by intros [->|[->| ->]]. Qed.

(** Reading one written field up to its end. *)
Lemma cont_field st f fs b rest :
  st = START_RECORD \/ st = START_FIELD -> zlen f <= field_size_limit -> (f <> [] \/ st = START_FIELD) ->
  exists st' b', at_field_end st' /\
    cont (mkParser st [] fs) b (csv_field f ++ rest) = cont (mkParser st' (rev f) fs) b' rest.
Proof.
  intros Hst Hl Hne. unfold csv_field. destruct (existsb needs_quotes f) eqn:E.
  - exists QUOTE_IN_QUOTED_FIELD, true. split; [by right; left|]. cbn [app]. rewrite <- app_assoc. cbn [app].
    rewrite <- (app_nil_r (rev f)), <- (cont_quoted (S (length f)) f [] fs true rest) by (cbn; lia). by destruct Hst as [->| ->].
  - destruct f as [|c f].
    + destruct Hne as [?| ->]; [done|]. exists START_FIELD, b. split; [by right; right|done].
    + exists IN_FIELD, true. split; [by left|]. cbn [existsb] in E. apply orb_false_iff in E as [Hc Hf].
      cbn [app]. assert (cont (mkParser st [] fs) b (c :: f ++ rest) = cont (mkParser IN_FIELD [c] fs) true (f ++ rest)) as ->.
      { unfold needs_quotes in Hc. cbn [cont]. unfold process_char, start_field, is_newline. cbn [cp_state].
        replace ((c =? 10) || (c =? 13)) with false by lia. replace (c =? 34) with false by lia. replace (c =? 44) with false by lia.
        rewrite add_char_ok by done. destruct Hst as [->| ->]; cbn [res_bind cp_field cp_fields];
          replace (c =? 10) with false by lia; replace (c =? 13) with false by lia; done. }
      rewrite cont_plain by (done || cbn in *; lia). done.
Qed.

Lemma cont_fields row : forall st fs b rest,
  st = START_RECORD \/ st = START_FIELD -> row <> [] -> Forall (fun f => zlen f <= field_size_limit) row ->
  (row <> [[]] \/ st = START_FIELD) ->
  cont (mkParser st [] fs) b (join [44] (map csv_field row) ++ 13 :: 10 :: rest) = Ok (Some (rev fs ++ row, keep_lines [] rest)).
Proof.
  induction row as [|f row IH]; intros st fs b rest Hst Hne Hl Hs; [done|]. apply Forall_cons in Hl as [Hf Hl].
  destruct row as [|g row].
  - cbn [map join]. destruct (cont_field st f fs b (13 :: 10 :: rest) Hst Hf) as (st' & b' & He & ->).
    { destruct Hs as [Hs|Hs]; [left|by right]. by intros ->. }
    rewrite cont_crlf by done. cbn. by rewrite rev_involutive.
  - cbn [map]. rewrite join_cons2, <- app_assoc. cbn [app]. change (csv_field g :: map csv_field row) with (map csv_field (g :: row)).
    set (tl := join [44] (map csv_field (g :: row)) ++ 13 :: 10 :: rest).
    assert (cont (mkParser st [] fs) b (csv_field f ++ 44 :: tl) = cont (mkParser START_FIELD [] (f :: fs)) true tl) as ->.
    { destruct (decide (f = [])) as [->|Hd]; [by destruct Hst as [->| ->]|].
      destruct (cont_field st f fs b (44 :: tl) Hst Hf (or_introl Hd)) as (st' & b' & He & ->).
      rewrite cont_comma by done. by rewrite rev_involutive. }
    unfold tl. rewrite IH; [|by right|done|done|by right]. cbn. by rewrite <- app_assoc.
Qed.

Lemma next_row_written row rest :
  Forall (fun f => zlen f <= field_size_limit) row ->
  next_row fresh_parser (keep_lines [] (csv_row row ++ rest)) = Ok (Some (row, keep_lines [] rest)).
Proof.
  intros Hl. apply next_row_text. unfold csv_row. rewrite <- app_assoc. cbn [app].
  destruct row as [|f row]; [done|]. destruct (decide (f :: row = [[]])) as [[= -> ->]|Hne]; [done|].
  replace (match f :: row with [[]] => [34; 34] | _ => join [44] (map csv_field (f :: row)) end) with (join [44] (map csv_field (f :: row)));
    [|by destruct f, row].
  exact (cont_fields (f :: row) START_RECORD [] false rest (or_introl eq_refl) ltac:(done) Hl (or_introl Hne)).
Qed.

(** ** Texts *)

Lemma next_row_shorter lines : forall p row rest,
  next_row p lines = Ok (Some (row, rest)) -> lines <> [] -> (length rest < length lines)%nat.
Proof.
  induction lines as [|l lines IH]; intros p row rest Hr Hne; [done|]. cbn [next_row length] in *.
  apply res_bind_ok in Hr as (q & _ & Hr). case_bool_decide.
  - injection Hr as _ <-. lia.
  - destruct lines as [|l' lines]; [|apply IH in Hr; [cbn in *; lia|done]]. cbn in Hr. destruct (_ || _); [|done]. injection Hr as _ <-. cbn. lia.
Qed.

(** Reading what was written. *)
Lemma csv_read_text rows :
  Forall (Forall (fun f => zlen f <= field_size_limit)) rows -> csv_read (csv_text rows) = Ok rows.
Proof.
  intros Hr. unfold csv_read. cbv zeta. generalize (Nat.lt_succ_diag_r (length (keep_lines [] (csv_text rows)))).
  generalize (S (length (keep_lines [] (csv_text rows)))) as fuel.
  induction Hr as [|row rows Hrow _ IH]; intros [|fuel] Hl; try lia; [done|]. cbn [rows_from].
  pose proof (next_row_written row (csv_text rows) Hrow) as Hn. change (csv_text (row :: rows)) with (csv_row row ++ csv_text rows) in *.
  rewrite Hn. cbn [res_bind]. rewrite IH; [done|].
  assert (keep_lines [] (csv_row row ++ csv_text rows) <> []) as Hne by (intros E; rewrite E in Hn; done).
  pose proof (next_row_shorter _ _ _ _ Hn Hne). lia.
Qed.

(** ** What is read is small enough to be written *)

Definition small (f : pystr) : Prop := zlen f <= field_size_limit.

Definition small_parser (p : csv_parser) : Prop := small (cp_field p) /\ Forall small (cp_fields p).

Lemma add_char_small c st p p' : small_parser p -> add_char c st p = Ok p' -> small_parser p'.
Proof.
  intros [Hf Hs]. unfold add_char. destruct (field_size_limit <=? _) eqn:E; [done|]. intros [= <-]. split; [|done].
  unfold small. cbn. lia.
Qed.

Lemma save_field_small st p : small_parser p -> small_parser (save_field st p).
Proof. intros [Hf Hs]. split; [done|]. constructor; [|done]. unfold small. by rewrite length_rev. Qed.

Lemma process_char_small c p p' : small_parser p -> process_char c p = Ok p' -> small_parser p'.
Proof.
  intros Hp. unfold process_char, start_field.
  destruct (cp_state p); repeat match goal with |- context [if ?b then _ else _] => destruct b end; intros E;
    first [exact (add_char_small _ _ _ _ Hp E)|injection E as <-; first [by apply save_field_small|done]|discriminate E].
Qed.

Lemma process_chars_small s : forall p p', small_parser p -> process_chars s p = Ok p' -> small_parser p'.
Proof.
  induction s as [|c s IH]; intros p p' Hp; cbn; [by intros [= <-]|]. intros (q & Hq & Hr)%res_bind_ok.
  eapply IH; [|done]. by eapply process_char_small.
Qed.

Lemma process_eol_small p : small_parser p -> small_parser (process_eol p).
Proof. intros Hp. unfold process_eol. destruct (cp_state p); first [done|by apply save_field_small]. Qed.

Lemma next_row_small lines : forall p row rest,
  small_parser p -> next_row p lines = Ok (Some (row, rest)) -> Forall small row.
Proof.
  induction lines as [|l lines IH]; intros p row rest Hp; cbn [next_row].
  - destruct (_ || _); [|done]. intros [= <- <-]. apply (save_field_small START_RECORD) in Hp as [_ Hp].
    apply Forall_rev in Hp. exact Hp.
  - intros (q & Hq & Hr)%res_bind_ok. apply process_chars_small in Hq; [|done]. apply process_eol_small in Hq.
    case_bool_decide; [|by eapply IH]. injection Hr as <- <-. destruct Hq as [_ Hq]. by apply Forall_rev.
Qed.

Lemma fresh_small : small_parser fresh_parser.
Proof. split; [|constructor]. unfold small, field_size_limit. cbn. lia. Qed.

Lemma rows_from_small fuel : forall lines rows, rows_from fuel lines = Ok rows -> Forall (Forall small) rows.
Proof.
  induction fuel as [|f IH]; intros lines rows; cbn; [intros [= <-]; constructor|]. intros (r & Hn & Hr)%res_bind_ok.
  destruct r as [[row rest]|]; [|injection Hr as <-; constructor]. apply res_bind_ok in Hr as (rs & Hrs & [= <-]).
  constructor; [|by eapply IH]. eapply next_row_small; [apply fresh_small|done].
Qed.

(** ** The fuel of the rows *)

Lemma rows_from_fuel n : forall lines f f',
  (length lines < n)%nat -> (length lines < f)%nat -> (length lines < f')%nat -> rows_from f lines = rows_from f' lines.
Proof.
  induction n as [|n IH]; intros lines [|f] [|f'] Hn Hf Hf'; try lia. cbn [rows_from].
  destruct (next_row fresh_parser lines) as [[[row rest]|]|e] eqn:E; try done. cbn [res_bind].
  destruct lines as [|l lines]; [done|]. apply next_row_shorter in E; [|done]. by rewrite (IH rest f f') by (cbn in *; lia).
Qed.

(** ** Dictionaries *)

Lemma zip_fields_nodup names : forall row d, NoDup d.*1 -> NoDup (zip_fields names row d).*1.
Proof.
  induction names as [|n names IH]; intros row d Hd; [by destruct row|]. destruct row; cbn; by apply IH, dict_set_nodup.
Qed.

Lemma zip_fields_values (P : option pystr -> Prop) names : forall row d,
  P None -> Forall (fun v => P (Some v)) row -> Forall (fun kv => P kv.2) d -> Forall (fun kv => P kv.2) (zip_fields names row d).
Proof.
  induction names as [|n names IH]; intros row d H0 Hr Hd; [by destruct row|].
  destruct row as [|v row]; cbn; apply IH; try done; first [by apply dict_set_Forall|by apply Forall_cons in Hr as [? ?]|idtac].
  apply Forall_cons in Hr as [Hv _]. by apply dict_set_Forall.
Qed.

Lemma dict_set_retag {V W} (F : pystr -> W) n (v : V) d :
  dict_set n (F n) (map (fun kv => (kv.1, F kv.1)) d) = map (fun kv => (kv.1, F kv.1)) (dict_set n v d).
Proof. induction d as [|[k x] d IH]; cbn; [done|]. case_decide; subst; cbn; [done|]. by rewrite IH. Qed.

(** The keys of a row do not depend on its values. *)
Lemma zip_fields_retag (h : pystr -> pystr) names : forall row d,
  zip_fields names (map h names) (map (fun kv => (kv.1, Some (h kv.1))) d) =
  map (fun kv => (kv.1, Some (h kv.1))) (zip_fields names row d).
Proof.
  induction names as [|n names IH]; intros row d; [by destruct row|]. cbn [map zip_fields].
  destruct row as [|v row]; [rewrite (dict_set_retag (fun k => Some (h k)) n None)|rewrite (dict_set_retag (fun k => Some (h k)) n (Some v))]; apply IH.
Qed.

(** A row of which the missing values are empty. *)
Definition filled (d : dict_row) : dict_row :=
  mkDictRow (map (fun kv => (kv.1, Some (default [] kv.2))) (dr_items d)) None.

(** A dictionary that was read is written and read back. *)
Lemma dict_row_roundtrip names row out :
  row_of_dict names (dict_of_row names row) = Ok out -> dict_of_row names out = filled (dict_of_row names row).
Proof.
  unfold row_of_dict. intros ([] & _ & [= <-])%res_bind_ok. set (d := dict_of_row names row).
  set (h := fun n => default [] (default None (dict_get n (dr_items d)))).
  unfold dict_of_row at 1, filled. f_equal.
  - etrans; [exact (zip_fields_retag h names row [])|]. apply map_ext_in. intros [k v] Hin%list_elem_of_In. cbn. f_equal. f_equal. unfold h.
    rewrite (elem_dict_get k v); [done| |done]. apply zip_fields_nodup. constructor.
  - rewrite length_map. by rewrite Nat.ltb_irrefl.
Qed.
