(* ===== verification/IoProfile.v ===== *)
(** * Tier profiles from measurements: [io_path_bench/tier_profile.py] and [report.py]

    The rows of the benchmark's CSV are grouped by engine, cache policy and number
    of threads; each group gives one profile. [statistics.mean] adds exact fractions and
    rounds once, [statistics.quantiles] interpolates between the sorted values, and the
    format [.nf] rounds the exact value half to even. What the host says of itself (names,
    the time, the output of [df]) is the class [Platform]. The order that [sorted]
    gives to NaN is not modelled. An output path is where its text leads with [..]
    resolved. *)

From Stdlib Require Import SpecFloat.
From S2P Require Import Prelude PyText Sha256 Float64 Errors PyVal Json Metrics Tokenization Layout Url FileSystem PyConv Config TierProfileImport Csv JsonIndent.
Import MNotations ResNotations.

(** ** [statistics.mean] *)

(** A finite number in units of the least positive one, 2^-1074. *)
Definition units (x : f64) : Z :=
  match x with
  | S754_finite s m e => let u := Z.pos m * 2 ^ (e + 1074) in if s then - u else u
  | _ => 0
  end.

(** The number nearest to [u / n] units, ties to even. *)
Definition round_units (u : Z) (n : positive) : f64 :=
  let magnitude (neg : bool) (p : positive) :=
    let '(q, e, l) := SFdiv_core_binary prec emax (Z.pos p) (-1074) (Z.pos n) 0 in
    binary_round_aux prec emax neg q e l in
  match u with
  | Z0 => S754_zero false
  | Z.pos p => magnitude false p
  | Z.neg p => magnitude true p
  end.

(** [statistics.mean(values)], of at least one value: when some are not finite,
    those alone are added. *)
Definition mean (values : list f64) : f64 :=
  let special := List.filter (fun x => negb (f64_finite x)) values in
  match special with
  | [] => round_units (foldr Z.add 0 (map units values)) (Pos.of_nat (length values))
  | _ => f64_div (foldl f64_add (S754_zero false) special) (f64_of_Z (zlen values))
  end.

(** ** [statistics.quantiles(values, n=100, method="inclusive")] *)

(** The [i]-th cut point of at least two sorted values. *)
Definition cut_point (data : list f64) (i : Z) : f64 :=
  let m := zlen data - 1 in
  let j := Z.to_nat (i * m / 100) in
  let delta := i * m mod 100 in
  f64_div (f64_add (f64_mul (nth j data (S754_zero false)) (f64_of_Z (100 - delta)))
                   (f64_mul (nth (S j) data (S754_zero false)) (f64_of_Z delta)))
          (f64_of_Z 100).

Definition quantiles (values : list f64) : list f64 :=
  let data := py_sort f64_leb values in
  map (fun i => cut_point data (Z.of_nat i)) (seq 1 99).

(** ** [format(x, ".nf")] *)

(** [m / d], rounded half to even. *)
Definition round_half_even (m d : Z) : Z :=
  let q := m / d in
  let r := m mod d in
  if (2 * r <? d) || ((2 * r =? d) && Z.even q) then q else q + 1.

(** At least [n + 1] digits, with a point before the last [n]. *)
Definition with_point (n : nat) (digits : pystr) : pystr :=
  let padded := replicate (S n - length digits) 48 ++ digits in
  take (length padded - n) padded ++ 46 :: drop (length padded - n) padded.

Definition signed_text (neg : bool) (t : pystr) : pystr := if neg then 45 :: t else t.

Definition fixed_text (n : nat) (x : f64) : pystr :=
  match x with
  | S754_zero s => signed_text s (with_point n [48])
  | S754_infinity s => signed_text s (str "inf")
  | S754_nan => str "nan"
  | S754_finite s m e =>
      let scaled := Z.pos m * 10 ^ Z.of_nat n in
      signed_text s (with_point n (dec_nat (if 0 <=? e then scaled * 2 ^ e else round_half_even scaled (2 ^ (- e)))))
  end.

Class Platform := {
  platform_release : pystr;
  platform_node : pystr;
  (** [datetime.now(timezone.utc).isoformat()] *)
  utc_now : pystr;
  (** [subprocess.check_output(command, text=True)] *)
  check_output : list pystr -> res pystr;
}.

(** ** Rows *)

(** [row.get(k)] and [row[k]]. *)
Definition row_get (k : pystr) (row : dict_row) : option pystr := default None (dict_get k (dr_items row)).

Definition row_item (k : pystr) (row : dict_row) : res (option pystr) :=
  match dict_get k (dr_items row) with
  | Some v => Ok v
  | None => Raise (err KeyError k)
  end.

(** Rows are grouped by engine, cache policy and threads. *)
Abbreviation group := (option pystr * pystr * Z)%type.

Section Rows.
Context `{UnicodeData} `{PyBuiltins}.
Local Open Scope res_scope.

Definition _read_rows (source_bytes : pybytes) : res (list dict_row) :=
  match utf8_decode source_bytes with
  | None => Raise (err UnicodeDecodeError (str "invalid utf-8"))
  | Some text => let? rows := csv_read text in Ok (dict_reader rows).2
  end.

Definition _cache_policy (row : dict_row) : pystr :=
  match default [] (row_get (str "cache_policy") row) with
  | [] => if bool_decide (row_get (str "engine") row = Some (str "odirect")) then str "direct" else str "warm"
  | policy => policy
  end.

Definition _threads (row : dict_row) : Z :=
  let raw := match default [] (row_get (str "threads") row) with [] => str "1" | s => s end in
  match int_of_text raw with
  | Ok n => Z.max 1 n
  | Raise _ => 1
  end.

(** The text of a cell in a formatted string. *)
Definition cell_text (v : option pystr) : pystr := default (str "None") v.

Definition _profile_name (engine : option pystr) (cache_policy : pystr) (threads : Z) : pystr :=
  let suffix := if threads =? 1 then [] else 95 :: int_repr threads ++ str "t" in
  if bool_decide (cache_policy = str "warm") ||
     (bool_decide (engine = Some (str "odirect")) && bool_decide (cache_policy = str "direct"))
  then str "local_file_" ++ cell_text engine ++ suffix
  else str "local_file_" ++ cell_text engine ++ 95 :: cache_policy ++ suffix.

Definition _percentile (values : list f64) (pct : Z) : f64 :=
  match values with
  | [] => S754_zero false
  | [x] => x
  | _ => nth (Z.to_nat (pct - 1)) (quantiles values) (S754_zero false)
  end.

(** ** Groups *)

Definition group_of (row : dict_row) : res group :=
  let? engine := row_item (str "engine") row in
  Ok (engine, _cache_policy row, _threads row).

Definition group_leb (a b : group) : bool :=
  match str_cmp (default [] a.1.1) (default [] b.1.1) with
  | Lt => true
  | Gt => false
  | Eq => match str_cmp a.1.2 b.1.2 with
          | Lt => true
          | Gt => false
          | Eq => a.2 <=? b.2
          end
  end.

(** [sorted({...})]: a row without an engine cannot be compared with one that has
    one. *)
Definition sorted_groups (rows : list dict_row) : res (list group) :=
  let? gs := res_seq (map group_of rows) in
  ensure (negb (existsb (fun g : group => bool_decide (g.1.1 = None)) gs &&
                existsb (fun g : group => negb (bool_decide (g.1.1 = None))) gs))
    (err TypeError (str "'<' not supported between instances of 'NoneType' and 'str'")) ;?
  Ok (py_sort group_leb (remove_dups gs)).

(** A row that is a measurement. *)
Definition eligible (row : dict_row) : bool :=
  bool_decide (row_get (str "warmup") row = Some (str "false")) &&
  bool_decide (default [] (row_get (str "error") row) = []).

Definition in_group (g : group) (row : dict_row) : bool :=
  match group_of row with
  | Ok g' => bool_decide (g' = g)
  | Raise _ => false
  end.

Definition measured_rows (g : group) (rows : list dict_row) : list dict_row :=
  List.filter (fun row => in_group g row && eligible row) rows.

(** ** Numbers *)

(** [float(row[k])]. *)
Definition float_item (k : pystr) (row : dict_row) : res f64 :=
  let? v := row_item k row in
  py_float (match v with Some s => PStr s | None => PNone end).

Definition latency_of (row : dict_row) : res f64 :=
  let? us := float_item (str "latency_us") row in Ok (f64_div us (f64_of_Z 1000)).

Definition cpu_of (row : dict_row) : res f64 :=
  let? user := float_item (str "cpu_user_us") row in
  let? system := float_item (str "cpu_system_us") row in
  Ok (f64_add user system).

Definition mean_or_zero (values : list f64) : f64 := match values with [] => S754_zero false | _ => mean values end.

(** [{"p50": p50, "p95": p95, "p99": p99}[profile_mode]]. *)
Definition selected_latency (values : list f64) (mode : pystr) : res f64 :=
  match dict_get mode [(str "p50", 50); (str "p95", 95); (str "p99", 99)] with
  | Some pct => Ok (_percentile values pct)
  | None => Raise (err KeyError mode)
  end.
End Rows.

(** ** The host *)

(** [text.split()]. *)
Fixpoint words_from (cur : pystr) (s : pystr) : list pystr :=
  match s with
  | [] => match cur with [] => [] | _ => [rev cur] end
  | c :: r =>
      if Tokenization.is_space c then match cur with [] => words_from [] r | _ => rev cur :: words_from [] r end
      else words_from (c :: cur) r
  end.

Definition split_words (s : pystr) : list pystr := words_from [] s.

Definition unknown : pystr := str "unknown".

(** [target.relative_to(mount)] succeeds; the roots [/] and [//] differ. *)
Definition is_relative_to (target mount : path) : bool :=
  bool_decide (mount `prefix_of` target) &&
  bool_decide (head target = Some [] <-> head mount = Some []).

(** One line of the table of mounts; the best mount so far and its options. *)
Definition mount_line (target : path) (best : nat * pystr) (line : pystr) : nat * pystr :=
  match split_words line with
  | _ :: dir :: _ :: opts :: _ =>
      match dir with
      | 47 :: _ =>
          let mount := text_parts dir in
          if is_relative_to target mount && (best.1 <=? length (path_text mount))%nat
          then (length (path_text mount), opts) else best
      | _ => best
      end
  | _ => best
  end.

Section Generate.
Context `{UnicodeData} `{PyBuiltins} `{Platform} (cwd : path).

Definition _filesystem (file : pystr) : pystr :=
  match check_output [str "df"; str "-T"; path_str file] with
  | Ok output =>
      match splitlines (str_strip output) with
      | _ :: line :: _ => match split_words line with _ :: kind :: _ => kind | _ => unknown end
      | _ => unknown
      end
  | Raise _ => unknown
  end.

Local Open Scope m_scope.

Definition _mount_options (file : pystr) : M Fs pystr :=
  try_catch
    (let* target := lift (resolve_text cwd file) in
     let* b := read_bytes cwd (str "/proc/mounts") in
     let* text := lift (decode_text b) in
     ret (foldl (mount_line target) (1%nat, unknown) (splitlines text)).2)
    (fun _ => ret unknown).

(** ** The profile *)

(** [_filesystem(Path(measured[0]["path"])) if measured else "unknown"], and the
    options of its mount. *)
Definition device_of (measured : list dict_row) : M Fs (pystr * pystr) :=
  match measured with
  | [] => ret (unknown, unknown)
  | row :: _ =>
      let* v := lift (row_item (str "path") row) in
      match v with
      | None => raise (err TypeError (str "expected str, bytes or os.PathLike object, not NoneType"))
      | Some file => let* opts := _mount_options file in ret (_filesystem file, opts)
      end
  end.

(** The profile of a group, from its numbers. *)
Definition profile_items (mode cache_policy : pystr) (threads : Z) (measured : list dict_row) (lat_ms bandwidths cpu_us : list f64) (selected : f64)
    (device : pystr * pystr) : list (pystr * pyval) :=
  [(str "available", PBool (negb (bool_decide (measured = []))));
   (str "measurement_count", PInt (zlen measured));
   (str "p50_ms", PFloat (_percentile lat_ms 50));
   (str "p95_ms", PFloat (_percentile lat_ms 95));
   (str "p99_ms", PFloat (_percentile lat_ms 99));
   (str "selected_profile_mode", PStr mode);
   (str "selected_latency_ms", PFloat selected);
   (str "bandwidth_MBps", PFloat (mean_or_zero bandwidths));
   (str "bandwidth_GBps", PFloat (match bandwidths with
                                  | [] => S754_zero false
                                  | _ => f64_div (mean bandwidths) (f64_of_Z 1024)
                                  end));
   (str "cpu_us_per_op", PFloat (mean_or_zero cpu_us));
   (str "page_cache_policy", PStr cache_policy);
   (str "threads", PInt threads);
   (str "filesystem", PStr device.1);
   (str "mount_options", PStr device.2);
   (str "kernel", PStr platform_release);
   (str "driver", PStr (str "posix"))].

Definition group_profile (mode : pystr) (rows : list dict_row) (g : group) : M Fs pyval :=
  let '(engine, cache_policy, threads) := g in
  let measured := measured_rows g rows in
  let* lat_ms := lift (res_seq (map latency_of measured)) in
  let* bandwidths := lift (res_seq (map (float_item (str "bandwidth_MBps")) measured)) in
  let* cpu_us := lift (res_seq (map cpu_of measured)) in
  let* selected := lift (selected_latency lat_ms mode) in
  let* device := device_of measured in
  ret (PDict (profile_items mode cache_policy threads measured lat_ms bandwidths cpu_us selected device)).

Fixpoint group_profiles (mode : pystr) (rows : list dict_row) (gs : list group) (profiles : list (pystr * pyval))
  : M Fs (list (pystr * pyval)) :=
  match gs with
  | [] => ret profiles
  | g :: gs =>
      let* p := group_profile mode rows g in
      group_profiles mode rows gs (dict_set (_profile_name g.1.1 g.1.2 g.2) p profiles)
  end.

Definition provenance_of (source : pystr) (source_bytes : pybytes) (rows : list dict_row) : pyval :=
  PDict
    [(str "contract", PStr (str "shared/schema/tier_profile.schema.json"));
     (str "generator", PStr (str "io_path_bench.tier_profile.generate_tier_profile"));
     (str "generator_version", PInt 1);
     (str "source_csv_path", PStr source);
     (str "source_csv_sha256", PStr (sha256_hex source_bytes));
     (str "source_csv_bytes", PInt (zlen source_bytes));
     (str "source_row_count", PInt (zlen rows));
     (str "eligible_measurement_row_count", PInt (zlen (List.filter eligible rows)))].

Definition profile_document (source : pystr) (source_bytes : pybytes) (rows : list dict_row) (mode : pystr)
    (profiles : list (pystr * pyval)) : list (pystr * pyval) :=
  [(str "contract_version", PInt 1);
   (str "generated_at", PStr utc_now);
   (str "env_id", PStr (match platform_node with [] => str "local" | node => node end));
   (str "source_csv", PStr source);
   (str "profile_mode", PStr mode);
   (str "provenance", provenance_of source source_bytes rows);
   (str "profiles", PDict profiles)].

(** [path.write_text(json.dumps(v, indent=2, sort_keys=True) + "\n")]. *)
Definition write_json (p : path) (v : pyval) : M Fs unit :=
  let* text := lift (json_indent 0 v) in
  write_text p (text ++ [10]).

Definition generate_tier_profile (source_csv : pystr) (out : path) (profile_mode : pystr) : M Fs (list (pystr * pyval)) :=
  let source := path_str source_csv in
  let* source_bytes := read_bytes cwd source_csv in
  let* rows := lift (_read_rows source_bytes) in
  let* groups := lift (sorted_groups rows) in
  let* profiles := group_profiles profile_mode rows groups [] in
  let profile := profile_document source source_bytes rows profile_mode profiles in
  mkdir (path_parent out) ;;
  write_json out (PDict profile) ;;
  ret profile.
End Generate.

(** ** The report *)

Section Report.
Context `{UnicodeData} `{PyBuiltins}.
Local Open Scope res_scope.

(** [f"{v:.nf}"]. *)
Definition format_fixed (n : nat) (v : pyval) : res pystr :=
  match v with
  | PFloat x => Ok (fixed_text n x)
  | PInt _ | PBool _ => let? x := py_float v in Ok (fixed_text n x)
  | PStr _ => Raise (err ValueError (str "Unknown format code 'f' for object of type 'str'"))
  | _ => Raise (err TypeError (str "unsupported format string"))
  end.

(** [f"{d.get(k, default)}"]. *)
Definition field_text (d : list (pystr * pyval)) (k : pystr) (v : pyval) : res pystr := py_str (default v (dict_get k d)).

Definition report_row (name : pystr) (v : pyval) : res pystr :=
  let? item := dict_of v in
  let? policy := field_text item (str "page_cache_policy") (PStr unknown) in
  let? threads := field_text item (str "threads") (PInt 1) in
  let number k n := format_fixed n (default (PInt 0) (dict_get k item)) in
  let? p50 := number (str "p50_ms") 6%nat in
  let? p95 := number (str "p95_ms") 6%nat in
  let? p99 := number (str "p99_ms") 6%nat in
  let? bandwidth := number (str "bandwidth_MBps") 3%nat in
  let? filesystem := field_text item (str "filesystem") (PStr unknown) in
  Ok (str "| " ++ join (str " | ") [name; policy; threads; p50; p95; p99; bandwidth; filesystem] ++ str " |").

Definition report_head (profile : list (pystr * pyval)) : res (list pystr) :=
  let? provenance := dict_of (or_else (get_or_none (str "provenance") profile) (PDict [])) in
  let? generated := match dict_get (str "generated_at") profile with
                    | Some v => py_str v
                    | None => Raise (err KeyError (str "generated_at"))
                    end in
  let? source := field_text profile (str "source_csv") (PStr []) in
  let? digest := field_text provenance (str "source_csv_sha256") (PStr unknown) in
  let? total := field_text provenance (str "source_row_count") (PStr unknown) in
  let? measured := field_text provenance (str "eligible_measurement_row_count") (PStr unknown) in
  Ok [str "# IO Path Benchmark Report"; [];
      str "Generated at: " ++ generated;
      str "Source CSV: `" ++ source ++ str "`";
      str "Source CSV SHA-256: `" ++ digest ++ str "`";
      str "Rows: " ++ total ++ str " total / " ++ measured ++ str " measured"; [];
      str "| profile | page_cache_policy | threads | p50_ms | p95_ms | p99_ms | bandwidth_MBps | filesystem |";
      str "|---|---|---:|---:|---:|---:|---:|---|"].

Definition report_notes : list pystr :=
  [[]; str "Notes:"; [];
   str "- This checkpoint measures local POSIX file paths only.";
   str "- `warm` is buffered POSIX IO with page-cache warming hints and is not a raw-device latency claim.";
   str "- `coldish_fadvise_drop` uses per-file `posix_fadvise(..., POSIX_FADV_DONTNEED)` before measured IO; it is not a privileged global `drop_caches` run.";
   str "- `direct` is used only for the O_DIRECT engine. If O_DIRECT is unavailable, the row is marked unavailable instead of silently falling back.";
   str "- CUDA, GDS, RDMA, NIXL, and CXL are not claimed by this report."].

Definition report_lines (profile : list (pystr * pyval)) : res (list pystr) :=
  let? head := report_head profile in
  let? items := match dict_get (str "profiles") profile with
                | Some v => dict_of v
                | None => Raise (err KeyError (str "profiles"))
                end in
  let? rows := res_seq (map (fun kv => report_row kv.1 kv.2) (py_sort key_leb items)) in
  Ok (head ++ rows ++ report_notes).

Definition write_report (profile : list (pystr * pyval)) (out : path) : M Fs unit :=
  (let* lines := lift (report_lines profile) in
   mkdir (path_parent out) ;;
   write_text out (join [10] lines ++ [10]))%m.
End Report.
