(* ===== verification/IoProfileSpec.v ===== *)
(** * What a generated tier profile guarantees

    First the files read and written and the groups of rows; then the profiles: every
    measurement is counted in one of them. *)

From Stdlib Require Import SpecFloat.
From S2P Require Import Prelude PyText Sha256 Float64 Errors PyVal Json JsonFacts Metrics Tokenization Layout Url FileSystem FileSystemFacts PyConv Config ConfigSpec TierProfileImport Csv JsonIndent IoProfile.
Import MNotations ResNotations.

(** ** Reading a file by its text *)

(** The components of a text in a working directory. *)
Definition absolute (cwd : path) (text : pystr) : path :=
  match text with 47 :: _ => parse_part text | _ => cwd ++ parse_part text end.

Lemma walk_normalize s p : forall acc q, walk s acc p = Some q -> q = normalize (rev acc) p.
Proof.
  induction p as [|c p IH]; intros acc q; cbn; [intros [= <-]; by rewrite rev_involutive|].
  destruct (negb _); [done|]. case_decide.
  - intros Hq%IH. subst q. f_equal. unfold path_parent. destruct acc as [|x acc] using rev_ind; [done|].
    by rewrite removelast_last, rev_unit.
  - intros Hq%IH. subst q. by rewrite rev_unit.
Qed.

Lemma read_bytes_ok cwd text s s' b :
  read_bytes cwd text s = (s', Ok b) -> fs_files s !! normalize [] (absolute cwd text) = Some b /\ s' = next_call s.
Proof.
  unfold read_bytes. case_bool_decide; [done|]. intros (found & s1 & Hw & Hr)%bind_ok. injection Hw as -> Hw.
  fold (absolute cwd text) in Hw. destruct found as [q|]; [|apply guarded_ok in Hr; done].
  apply read_ok in Hr as [Hr ->]. apply walk_normalize in Hw. cbn in Hw. by subst q.
Qed.

(** ** Frames: the files a program writes *)

Definition agrees (X : path -> Prop) (f : gmap path pybytes) (d : Fs) : Prop :=
  forall p, ~ X p -> fs_files d !! p = f !! p.

Section Frames.
Context (X : path -> Prop) (f : gmap path pybytes).
Abbreviation A := (agrees X f).

Lemma agrees_same d d' : fs_files d' = fs_files d -> A d -> A d'.
Proof. intros E Hd p. rewrite E. apply Hd. Qed.

Lemma agrees_insert d p b : X p -> A d -> A (set_files (<[p := b]> (fs_files d)) d).
Proof. intros Hp Hd q Hq. cbn. rewrite lookup_insert_ne by congruence. by apply Hd. Qed.

Lemma agrees_delete d p : X p -> A d -> A (set_files (base.delete p (fs_files d)) d).
Proof. intros Hp Hd q Hq. cbn. rewrite lookup_delete_ne by congruence. by apply Hd. Qed.

Lemma agrees_guarded {B} (m : M Fs B) : preserves A m -> preserves A (guarded m).
Proof.
  intros Hm d Hd. unfold guarded, bind, syscall. destruct (fs_faults d (fs_calls d)); [done|]. by apply Hm.
Qed.

Lemma agrees_read_bytes cwd text : preserves A (read_bytes cwd text).
Proof.
  intros d Hd. unfold read_bytes. case_bool_decide; [done|]. unfold bind at 1, gets at 1. destruct (walk _ _ _) as [q|].
  - by rewrite read_state.
  - by apply agrees_guarded; [apply preserves_raise|].
Qed.

Lemma agrees_mkdir p : preserves A (mkdir p).
Proof.
  intros d Hd. unfold mkdir, bind, syscall, gets, modify, raise. destruct (fs_faults d (fs_calls d)); [done|]. by destruct (existsb _ _).
Qed.

Lemma agrees_append p data : X p -> preserves A (append_file p data).
Proof.
  intros Hp d Hd. unfold append_file, bind, syscall, gets, id, modify, raise. cbn.
  destruct (is_dir _ p); [done|]. destruct (negb _); [done|].
  destruct (fs_faults d (fs_calls d)); cbn; by apply (agrees_insert (next_call d)).
Qed.

Lemma agrees_write_file p data : X p -> preserves A (write_file p data).
Proof.
  intros Hp. apply preserves_bind; [|intros; by apply agrees_append]. apply agrees_guarded. intros d Hd.
  unfold bind, gets, id, modify, raise. destruct (is_dir d p); [done|]. destruct (negb _); [done|]. by apply agrees_insert.
Qed.

Lemma agrees_write_text p text : X p -> preserves A (write_text p text).
Proof.
  intros Hp. unfold write_text. destruct (utf8_encode text); [by apply agrees_write_file|].
  apply preserves_bind; [by apply agrees_write_file|]. intros. apply preserves_raise.
Qed.

Lemma agrees_write_json p v : X p -> preserves A (write_json p v).
Proof. intros Hp. apply preserves_bind; [apply preserves_lift|]. intros. by apply agrees_write_text. Qed.

Lemma agrees_replace src dst : X src -> X dst -> preserves A (replace src dst).
Proof.
  intros Hs Hd. apply agrees_guarded. intros d Ha. unfold bind, gets, id, modify, raise.
  destruct (fs_files d !! src); [|done]. destruct (is_dir d dst); [done|]. destruct (negb _); [done|]. cbn.
  eapply agrees_same; [|apply (agrees_insert (set_files (base.delete src (fs_files d)) d) dst l Hd); by apply agrees_delete]. done.
Qed.
End Frames.

#[export] Hint Resolve agrees_guarded agrees_read_bytes agrees_mkdir agrees_append agrees_write_file agrees_write_text agrees_write_json agrees_replace : frames.
#[export] Hint Resolve preserves_ret preserves_raise preserves_lift preserves_gets : frames.

(** Frames of a sequence of steps. *)
Ltac frame :=
  repeat first
    [ progress intros
    | solve [eauto with frames]
    | match goal with |- preserves _ (bind _ _) => apply preserves_bind end
    | match goal with |- preserves _ (try_catch _ _) => apply preserves_try_catch end
    | case_match ].

Lemma agrees_refl X d : agrees X (fs_files d) d.
Proof. by intros p. Qed.

(** The files of a step of which only the frame is known. *)
Lemma frame_step {B} X (m : M Fs B) d d' r :
  (forall f, preserves (agrees X f) m) -> m d = (d', r) -> forall p, ~ X p -> fs_files d' !! p = fs_files d !! p.
Proof. intros Hm E p Hp. pose proof (Hm (fs_files d) d (agrees_refl X d)) as H. rewrite E in H. by apply H. Qed.

Lemma write_file_ok p data d d' u : write_file p data d = (d', Ok u) -> fs_files d' = <[p := data]> (fs_files d).
Proof.
  intros ([] & d1 & H1 & H2)%bind_ok. apply append_ok in H2 as [H2 _]. apply guarded_ok in H1.
  unfold bind, gets, id, modify, raise in H1. destruct (is_dir _ p); [done|]. destruct (negb _); [done|].
  injection H1 as <-. cbn in H2. rewrite H2, lookup_insert_eq. cbn. by rewrite insert_insert_eq.
Qed.

Lemma write_text_ok p text d d' u :
  write_text p text d = (d', Ok u) -> exists data, utf8_encode text = Some data /\ fs_files d' = <[p := data]> (fs_files d).
Proof.
  unfold write_text. destruct (utf8_encode text) as [data|]; [intros H%write_file_ok; by exists data|].
  intros ([] & d1 & _ & H)%bind_ok. done.
Qed.

Lemma write_json_ok p v d d' u :
  write_json p v d = (d', Ok u) ->
  exists text data, json_indent 0 v = Ok text /\ utf8_encode (text ++ [10]) = Some data /\ fs_files d' = <[p := data]> (fs_files d).
Proof.
  intros (text & d1 & Ht & H)%bind_ok. injection Ht as <- Ht. apply write_text_ok in H as (data & Hd & H). by exists text, data.
Qed.

(** Not below zero: NaN and both zeros included. *)
Definition nonneg (x : f64) : bool :=
  match x with
  | S754_finite true _ _ | S754_infinity true => false
  | _ => true
  end.

Lemma nonneg_not_below x : nonneg x = true -> f64_ltb x (S754_zero false) = false.
Proof. by destruct x as [[]|[]| |[] m e]. Qed.

(** The sign is positive, or there is none. *)
Definition plus (x : f64) : bool :=
  match x with
  | S754_finite true _ _ | S754_infinity true | S754_zero true => false
  | _ => true
  end.

Lemma plus_nonneg x : plus x = true -> nonneg x = true.
Proof. by destruct x as [[]|[]| |[] m e]. Qed.

Lemma round_aux_plus m e l : plus (binary_round_aux prec emax false m e l) = true.
Proof.
  unfold binary_round_aux. destruct (shr_fexp _ _ m e l) as [r1 e1]. destruct (shr_fexp _ _ _ e1 _) as [r2 e2].
  destruct (shr_m r2); try done. by destruct (_ <=? _).
Qed.

Lemma normalize_plus m e : 0 <= m -> plus (binary_normalize prec emax m e false) = true.
Proof.
  destruct m as [|p|p]; cbn [binary_normalize]; [done|intros _|lia]. unfold binary_round.
  destruct (shl_align _ _ _) as [m' e']. apply round_aux_plus.
Qed.

Lemma of_Z_plus z : 0 <= z -> plus (f64_of_Z z) = true.
Proof. apply normalize_plus. Qed.

Lemma mul_nonneg x y : nonneg x = true -> plus y = true -> nonneg (f64_mul x y) = true.
Proof.
  destruct x as [[]|[]| |[] m e], y as [[]|[]| |[] m' e']; try done. intros _ _. apply plus_nonneg, round_aux_plus.
Qed.

Lemma div_nonneg x y : nonneg x = true -> plus y = true -> nonneg (f64_div x y) = true.
Proof.
  destruct x as [[]|[]| |[] m e], y as [[]|[]| |[] m' e']; try done. intros _ _. unfold f64_div, SFdiv.
  destruct (SFdiv_core_binary _ _ _ _ _ _) as [[q e1] l]. apply plus_nonneg, round_aux_plus.
Qed.

Lemma add_nonneg x y : nonneg x = true -> nonneg y = true -> nonneg (f64_add x y) = true.
Proof.
  destruct x as [[]|[]| |[] m e], y as [[]|[]| |[] m' e']; try done. intros _ _. unfold f64_add, SFadd.
  apply plus_nonneg, normalize_plus. cbn. lia.
Qed.

Definition all_nonneg (l : list f64) : Prop := Forall (fun x => nonneg x = true) l.

(** ** Means *)

Lemma units_nonneg x : nonneg x = true -> 0 <= units x.
Proof. destruct x as [[]|[]| |[] m e]; try done. intros _. cbn -[Z.pow]. apply Z.mul_nonneg_nonneg; [lia|]. apply Z.pow_nonneg. lia. Qed.

Lemma round_units_nonneg u n : 0 <= u -> nonneg (round_units u n) = true.
Proof.
  destruct u as [|p|p]; [done| |lia]. intros _. unfold round_units.
  destruct (SFdiv_core_binary _ _ _ _ _ _) as [[q e] l]. apply plus_nonneg, round_aux_plus.
Qed.

Lemma sum_nonneg l : all_nonneg l -> forall a, nonneg a = true -> nonneg (foldl f64_add a l) = true.
Proof. induction 1 as [|x l Hx _ IH]; intros a Ha; [done|]. by apply IH, add_nonneg. Qed.

Lemma mean_nonneg l : all_nonneg l -> nonneg (mean l) = true.
Proof.
  intros Hl. unfold mean. destruct (List.filter _ l) as [|x special] eqn:E.
  - apply round_units_nonneg. induction Hl as [|x l Hx _ IH]; [done|]. cbn in *. apply units_nonneg in Hx.
    destruct (negb (f64_finite x)); [done|]. specialize (IH E). lia.
  - rewrite <- E. apply div_nonneg; [|apply of_Z_plus; lia]. apply sum_nonneg; [|done]. clear E.
    apply Forall_forall. intros y Hy. apply list_elem_of_In, filter_In in Hy as [Hy _]. unfold all_nonneg in Hl. rewrite Forall_forall in Hl.
    by apply Hl, list_elem_of_In.
Qed.

Lemma mean_or_zero_nonneg l : all_nonneg l -> nonneg (mean_or_zero l) = true.
Proof. intros Hl. destruct l; [done|]. by apply mean_nonneg. Qed.

(** ** Percentiles *)

Lemma nth_nonneg l n : all_nonneg l -> nonneg (nth n l (S754_zero false)) = true.
Proof.
  intros Hl. destruct (nth_in_or_default n l (S754_zero false)) as [Hin|Heq]; [|by rewrite Heq].
  unfold all_nonneg in Hl. rewrite Forall_forall in Hl. by apply Hl, list_elem_of_In.
Qed.

Lemma cut_point_nonneg data i : all_nonneg data -> nonneg (cut_point data i) = true.
Proof.
  intros Hd. unfold cut_point. cbv zeta. pose proof (Z.mod_pos_bound (i * (zlen data - 1)) 100 ltac:(lia)) as Hm.
  apply div_nonneg; [|by apply of_Z_plus]. apply add_nonneg; (apply mul_nonneg; [by apply nth_nonneg|apply of_Z_plus; lia]).
Qed.

Lemma percentile_nonneg l pct : all_nonneg l -> nonneg (_percentile l pct) = true.
Proof.
  intros Hl. assert (nonneg (nth (Z.to_nat (pct - 1)) (quantiles l) (S754_zero false)) = true) as Hq.
  { apply nth_nonneg. unfold quantiles. apply Forall_map, Forall_forall. intros i _. apply cut_point_nonneg.
    unfold all_nonneg. by rewrite py_sort_perm. }
  destruct l as [|x [|y l]]; [done|by apply Forall_inv in Hl|exact Hq].
Qed.

(** ** The names of the profiles *)

(** Engines have neither digits nor underscores, policies no digits, and the
    engine [odirect] is never run with the policy [warm]: what the benchmark
    binary writes. *)
Definition bench_group (g : group) : bool :=
  match g.1.1 with
  | None => false
  | Some e =>
      forallb (fun c => negb (is_digit c) && negb (c =? 95)) e && forallb (fun c => negb (is_digit c)) g.1.2 &&
      negb (bool_decide (e = str "odirect") && bool_decide (g.1.2 = str "warm"))
  end.

Definition digits (s : pystr) : pystr := List.filter is_digit s.

Lemma digits_none s : forallb (fun c => negb (is_digit c)) s = true -> digits s = [].
Proof.
  unfold digits. induction s as [|c s IH]; cbn; [done|]. rewrite andb_true_iff, negb_true_iff. intros [-> Hs]. auto.
Qed.

Lemma digits_all s : Forall (fun c => is_digit c = true) s -> digits s = s.
Proof. induction 1 as [|c s Hc _ IH]; cbn; [done|]. rewrite Hc. by f_equal. Qed.

Lemma int_repr_pos z : 1 <= z -> int_repr z = dec_nat z.
Proof. unfold int_repr. destruct z; lia || done. Qed.

Definition suffix (threads : Z) : pystr := if threads =? 1 then [] else 95 :: int_repr threads ++ str "t".

Lemma digits_suffix n : 1 <= n -> digits (suffix n) = if n =? 1 then [] else dec_nat n.
Proof.
  intros Hn. unfold suffix. destruct (n =? 1); [done|]. unfold digits. cbn [List.filter]. change (is_digit 95) with false. cbn match.
  rewrite List.filter_app. change (List.filter is_digit (str "t")) with (@nil Z). rewrite app_nil_r, int_repr_pos by done.
  apply digits_all, dec_nat_digit. lia.
Qed.

Lemma suffix_inj n m : 1 <= n -> 1 <= m -> digits (suffix n) = digits (suffix m) -> n = m.
Proof.
  intros Hn Hm. rewrite !digits_suffix by done. pose proof (dec_nat_nonempty n). pose proof (dec_nat_nonempty m).
  destruct (n =? 1) eqn:E1, (m =? 1) eqn:E2; intros E; try (by congruence); [lia|].
  rewrite <- (dec_nat_value n), <- (dec_nat_value m) by lia. by rewrite E.
Qed.

(** The part of the name between the engine and the number of threads. *)
Definition policy_part (e policy : pystr) : pystr :=
  if bool_decide (policy = str "warm") || (bool_decide (e = str "odirect") && bool_decide (policy = str "direct")) then [] else 95 :: policy.

Lemma name_parts e policy n : _profile_name (Some e) policy n = str "local_file_" ++ e ++ policy_part e policy ++ suffix n.
Proof.
  unfold _profile_name, policy_part, suffix. cbn [cell_text default from_option id].
  assert (bool_decide (Some e = Some (str "odirect")) = bool_decide (e = str "odirect")) as ->.
  { apply bool_decide_ext. split; [by intros [= ->]|by intros ->]. }
  destruct (_ || _); [done|]. by cbn [app].
Qed.

Lemma plain_prefix a b x y :
  forallb (fun c => negb (c =? 95)) a = true -> forallb (fun c => negb (c =? 95)) b = true ->
  (forall c r, x = c :: r -> c = 95) -> (forall c r, y = c :: r -> c = 95) -> a ++ x = b ++ y -> a = b /\ x = y.
Proof.
  revert b. induction a as [|c a IH]; intros [|d b] Ha Hb Hx Hy E; cbn in *; [done|..].
  - subst x. apply andb_true_iff in Hb as [Hd _]. specialize (Hx d _ eq_refl). subst d. done.
  - subst y. apply andb_true_iff in Ha as [Hc _]. specialize (Hy c _ eq_refl). subst c. done.
  - injection E as -> E. apply andb_true_iff in Ha as [_ Ha], Hb as [_ Hb]. destruct (IH b Ha Hb Hx Hy E) as [-> ->]. done.
Qed.

Lemma forallb_weaken {A} (f g : A -> bool) l : (forall x, f x = true -> g x = true) -> forallb f l = true -> forallb g l = true.
Proof. intros Hfg. rewrite !forallb_forall. auto. Qed.

(** Different groups of the benchmark have different profiles. *)
Lemma profile_name_inj g h :
  bench_group g = true -> bench_group h = true -> 1 <= g.2 -> 1 <= h.2 ->
  _profile_name g.1.1 g.1.2 g.2 = _profile_name h.1.1 h.1.2 h.2 -> g = h.
Proof.
  destruct g as [[[e|] p] n]; [|done]. destruct h as [[[e'|] p'] n']; [|done]. unfold bench_group. cbn [fst snd].
  rewrite !andb_true_iff. intros [[He Hp] Hw] [[He' Hp'] Hw'] Hn Hn'. rewrite !name_parts. intros E%app_inv_head.
  assert (digits e = [] /\ digits e' = []) as [De De'].
  { split; apply digits_none; eapply forallb_weaken; try eassumption; intros c Hc; cbn in *; by apply andb_true_iff in Hc as [? _]. }
  assert (forall e p, forallb (fun c => negb (is_digit c)) p = true -> digits (policy_part e p) = []) as Dp.
  { intros e0 p0 Hp0. unfold policy_part. destruct (_ || _); [done|]. unfold digits. cbn [List.filter]. change (is_digit 95) with false. cbn match.
    by apply digits_none. }
  assert (n = n') as <-.
  { apply suffix_inj; [done|done|]. apply (f_equal digits) in E. unfold digits in *. rewrite !List.filter_app in E.
    unfold digits in Dp. rewrite De, De', !Dp in E by done. exact E. }
  rewrite !app_assoc in E. apply app_inv_tail in E.
  assert (forall e, forallb (fun c => negb (is_digit c) && negb (c =? 95)) e = true -> forallb (fun c => negb (c =? 95)) e = true) as Hu.
  { intros e0. apply forallb_weaken. intros c Hc. by apply andb_true_iff in Hc as [_ ?]. }
  assert (forall e p c r, policy_part e p = c :: r -> c = 95) as Hpart.
  { intros e0 p0 c r. unfold policy_part. destruct (_ || _); [done|]. by intros [= <- _]. }
  apply plain_prefix in E as [<- E]; [|auto|auto|by apply Hpart|by apply Hpart].
  f_equal. f_equal. unfold policy_part in E. apply negb_true_iff, andb_false_iff in Hw, Hw'.
  repeat case_bool_decide; cbn in E; destruct Hw, Hw'; congruence.
Qed.

(** ** Every measurement is in one group *)

Section Groups.
Context `{UnicodeData} `{PyBuiltins} `{Platform} (cwd : path).

Lemma sorted_groups_ok rows gs :
  sorted_groups rows = Ok gs ->
  NoDup gs /\ (forall row, row ∈ rows -> exists g, group_of row = Ok g /\ g ∈ gs) /\
  (forall g, g ∈ gs -> 1 <= g.2 /\ exists row, row ∈ rows /\ group_of row = Ok g).
Proof.
  unfold sorted_groups. intros (l & Hl%res_seq_ok%Forall2_map_l_impl & Hg)%res_bind_ok.
  apply res_bind_ok in Hg as ([] & _ & [= <-]). pose proof (py_sort_perm group_leb (remove_dups l)) as Hp.
  assert (forall g, g ∈ py_sort group_leb (remove_dups l) <-> g ∈ l) as Hin by (intros g; by rewrite Hp, elem_of_remove_dups).
  split_and!.
  - rewrite Hp. apply NoDup_remove_dups.
  - intros row Hrow. apply (list_elem_of_lookup_1 rows) in Hrow as [i Hi]. destruct (Forall2_lookup_l _ _ _ _ _ Hl Hi) as (g & Hg & Hr).
    exists g. split; [done|]. apply Hin. by eapply list_elem_of_lookup_2.
  - intros g Hg. apply Hin in Hg. apply list_elem_of_lookup_1 in Hg as [i Hi].
    destruct (Forall2_lookup_r _ _ _ _ _ Hl Hi) as (row & Hrow & Hr). split; [|exists row; split; [by eapply list_elem_of_lookup_2|done]].
    unfold group_of in Hr. apply res_bind_ok in Hr as (e & _ & [= <-]). cbn. unfold _threads. destruct (int_of_text _); lia.
Qed.

Definition hits (row : dict_row) (g : group) : nat := if in_group g row && eligible row then 1 else 0.

Lemma hits_once row gs : NoDup gs -> (exists g, group_of row = Ok g /\ g ∈ gs) ->
  sum_list (map (hits row) gs) = if eligible row then 1%nat else 0%nat.
Proof.
  intros Hnd (g & Hg & Hin). unfold hits, in_group. rewrite Hg.
  assert (forall l, g ∉ l -> sum_list (map (fun g' => if bool_decide (g = g') && eligible row then 1 else 0) l) = 0)%nat as Hmiss.
  { induction l as [|h l IH]; [done|]. rewrite not_elem_of_cons. intros [Hne Hl]. cbn. rewrite bool_decide_eq_false_2 by congruence.
    by apply IH. }
  induction Hnd as [|h l Hh Hnd IH]; [by apply not_elem_of_nil in Hin|]. cbn. apply elem_of_cons in Hin as [<-|Hin].
  - rewrite bool_decide_eq_true_2 by done. rewrite Hmiss by done. by destruct (eligible row).
  - rewrite bool_decide_eq_false_2 by congruence. by apply IH.
Qed.

Lemma measured_partition gs rows :
  NoDup gs -> (forall row, row ∈ rows -> exists g, group_of row = Ok g /\ g ∈ gs) ->
  sum_list (map (fun g => length (measured_rows g rows)) gs) = length (List.filter eligible rows).
Proof.
  intros Hnd. induction rows as [|row rows IH]; intros Hall.
  { clear. induction gs as [|g gs IH]; [done|exact IH]. }
  assert (sum_list (map (fun g => length (measured_rows g (row :: rows))) gs) =
          sum_list (map (hits row) gs) + sum_list (map (fun g => length (measured_rows g rows)) gs))%nat as ->.
  { assert (forall g, length (measured_rows g (row :: rows)) = hits row g + length (measured_rows g rows))%nat as Hone.
    { intros g. unfold measured_rows, hits. cbn [List.filter]. by destruct (in_group g row && eligible row). }
    clear -Hone. induction gs as [|g gs IH]; [done|]. cbn [map sum_list] in *.
    change (sum_list (map ?f (g :: gs))) with (f g + sum_list (map f gs))%nat. rewrite Hone, IH. cbn. lia. }
  rewrite hits_once, IH; [cbn; by destruct (eligible row)|intros r Hr; apply Hall; by right|done|apply Hall; left].
Qed.

(** What the profile of a group says. *)
Definition profile_of_group (mode : pystr) (rows : list dict_row) (g : group) (v : pyval) : Prop :=
  exists lat_ms bandwidths cpu_us selected device,
    res_seq (map latency_of (measured_rows g rows)) = Ok lat_ms /\
    res_seq (map (float_item (str "bandwidth_MBps")) (measured_rows g rows)) = Ok bandwidths /\
    res_seq (map cpu_of (measured_rows g rows)) = Ok cpu_us /\
    selected_latency lat_ms mode = Ok selected /\
    v = PDict (profile_items mode g.1.2 g.2 (measured_rows g rows) lat_ms bandwidths cpu_us selected device).

Lemma group_profile_ok mode rows g d d' v : group_profile cwd mode rows g d = (d', Ok v) -> profile_of_group mode rows g v.
Proof.
  destruct g as [[e p] n]. unfold group_profile. cbv zeta. intros (lat & d1 & Hl & Hr)%bind_ok. injection Hl as <- Hl.
  apply bind_ok in Hr as (bw & d2 & Hb & Hr). injection Hb as <- Hb. apply bind_ok in Hr as (cpu & d3 & Hc & Hr). injection Hc as <- Hc.
  apply bind_ok in Hr as (sel & d4 & Hs & Hr). injection Hs as <- Hs. apply bind_ok in Hr as (dev & d5 & _ & Hr). injection Hr as _ <-.
  by exists lat, bw, cpu, sel, dev.
Qed.

Definition name_of (g : group) : pystr := _profile_name g.1.1 g.1.2 g.2.

Lemma group_profiles_ok mode rows gs : forall ps d d' out,
  NoDup (ps.*1 ++ map name_of gs) -> group_profiles cwd mode rows gs ps d = (d', Ok out) ->
  exists new, out = ps ++ new /\ Forall2 (fun g kv => kv.1 = name_of g /\ profile_of_group mode rows g kv.2) gs new.
Proof.
  induction gs as [|g gs IH]; intros ps d d' out Hnd; cbn [group_profiles].
  { intros [= <- <-]. exists []. by rewrite app_nil_r. }
  intros (v & d1 & Hv%group_profile_ok & Hr)%bind_ok. fold (name_of g) in Hr. cbn [map] in Hnd.
  rewrite dict_set_fresh in Hr.
  2: { apply NoDup_app in Hnd as (_ & Hd & _). intros Hin. apply (Hd _ Hin). left. }
  apply IH in Hr as (new & -> & Hnew).
  - exists ((name_of g, v) :: new). rewrite <- app_assoc. split; [done|]. by constructor.
  - rewrite fmap_app, <- app_assoc. exact Hnd.
Qed.

(** The row was written by the benchmark binary. *)
Definition bench_row (row : dict_row) : Prop := forall g, group_of row = Ok g -> bench_group g = true.

Lemma generated_profiles source out mode s s' doc csv rows :
  generate_tier_profile cwd source out mode s = (s', Ok doc) ->
  fs_files s !! normalize [] (absolute cwd source) = Some csv -> _read_rows csv = Ok rows -> Forall bench_row rows ->
  exists groups profiles,
    sorted_groups rows = Ok groups /\ doc = profile_document (path_str source) csv rows mode profiles /\ NoDup profiles.*1 /\
    Forall2 (fun g kv => kv.1 = name_of g /\ profile_of_group mode rows g kv.2) groups profiles /\
    exists s1 u, write_json out (PDict doc) s1 = (s', Ok u).
Proof.
  unfold generate_tier_profile. cbv zeta. intros (csv' & d1 & Hb & Hr)%bind_ok Hcsv Hrows Hbench. apply read_bytes_ok in Hb as [Hb ->].
  rewrite Hcsv in Hb. injection Hb as <-. apply bind_ok in Hr as (rows' & d2 & Hrows' & Hr). injection Hrows' as <- Hrows'.
  rewrite Hrows in Hrows'. injection Hrows' as <-. apply bind_ok in Hr as (gs & d3 & Hg & Hr). injection Hg as <- Hg.
  apply bind_ok in Hr as (ps & d4 & Hps & Hr). apply bind_ok in Hr as ([] & d5 & _ & Hr). apply bind_ok in Hr as ([] & d6 & Hw & Hr).
  injection Hr as <- <-. pose proof (sorted_groups_ok _ _ Hg) as (Hnd & _ & Hgs).
  assert (NoDup (map name_of gs)) as Hnames.
  { apply NoDup_fmap_2_strong; [|done]. intros g h Hgin Hhin Hn. rewrite Forall_forall in Hbench.
    destruct (Hgs g Hgin) as (Hg1 & rg & Hrg & Eg), (Hgs h Hhin) as (Hh1 & rh & Hrh & Eh).
    apply profile_name_inj; try done; [by apply (Hbench rg)|by apply (Hbench rh)]. }
  apply group_profiles_ok in Hps as (new & -> & Hnew); [|done]. exists gs, new. split_and!; try done; [|by exists d5, tt].
  replace (new.*1) with (map name_of gs); [done|]. clear -Hnew. induction Hnew as [|g kv gs new [E _] _ IH]; [done|]. cbn. by rewrite <- IH, E.
Qed.

(** The number of measurements a profile reports. *)
Definition reported_count (v : pyval) : Z :=
  match v with
  | PDict d => match dict_get (str "measurement_count") d with Some (PInt n) => n | _ => 0 end
  | _ => 0
  end.

Lemma reported_profile mode rows g v : profile_of_group mode rows g v -> reported_count v = zlen (measured_rows g rows).
Proof. intros (lat & bw & cpu & sel & dev & _ & _ & _ & _ & ->). reflexivity. Qed.

(** C29: every measurement is counted in exactly one profile. When a profile was
    generated from rows of the benchmark binary, its entries have distinct names, one
    for each group of engine, cache policy and threads that occurs; an entry has the
    percentiles and means of the measurements of its group; and the numbers of
    measurements of the entries add up to the number of rows that are neither warm-up
    nor failed, which is the number in the provenance. *)
Theorem measurements_counted_once source out mode s s' doc csv rows :
  generate_tier_profile cwd source out mode s = (s', Ok doc) ->
  fs_files s !! normalize [] (absolute cwd source) = Some csv -> _read_rows csv = Ok rows -> Forall bench_row rows ->
  exists groups profiles,
    doc = profile_document (path_str source) csv rows mode profiles /\ NoDup profiles.*1 /\
    NoDup groups /\ (forall g, g ∈ groups <-> exists row, row ∈ rows /\ group_of row = Ok g) /\
    Forall2 (fun g kv => kv.1 = name_of g /\ profile_of_group mode rows g kv.2) groups profiles /\
    foldr Z.add 0 (map (fun kv => reported_count kv.2) profiles) = zlen (List.filter eligible rows).
Proof.
  intros Hg Hcsv Hrows Hb. destruct (generated_profiles _ _ _ _ _ _ _ _ Hg Hcsv Hrows Hb) as (gs & ps & Hgs & -> & Hnd & Hps & _).
  apply sorted_groups_ok in Hgs as (Hndg & Hall & Hin). exists gs, ps. split_and!; try done.
  - intros g. split; [intros Hgg; by apply Hin|]. intros (row & Hrow & Hgr). destruct (Hall row Hrow) as (g' & Hg' & ?). congruence.
  - rewrite <- (measured_partition gs rows Hndg Hall). clear -Hps. induction Hps as [|g [k v] gs ps [_ Hv] _ IH]; [done|].
    cbn [map foldr snd]. rewrite IH. cbn [snd] in Hv. rewrite (reported_profile _ _ _ _ Hv).
    cbn [sum_list_with]. rewrite Nat2Z.inj_add. done.
Qed.
End Groups.

(** ** A sample *)

Definition plain_platform : Platform := {|
  platform_release := str "6.1.0"; platform_node := str "host"; utc_now := str "2026-01-01T00:00:00+00:00";
  check_output _ := Ok (str "Filesystem Type" ++ [10] ++ str "/dev/sda1 ext4 100 50 50 50% /")%list |}.

(** What a benchmark writes: a warm-up row, two measurements and a failure. *)
Definition sample_csv : pystr :=
  join [13; 10]
    [str "engine,path,latency_us,bandwidth_MBps,cpu_user_us,cpu_system_us,warmup,error,threads,cache_policy";
     str "pread,/data/f.bin,900.5,50.0,1,1,true,,1,warm";
     str "pread,/data/f.bin,120.5,2048.0,3,1,false,,1,warm";
     str "pread,/data/f.bin,180.25,1024.0,2,1.5,false,,1,warm";
     str "pread,/data/f.bin,,,,,false," ++ quoted "~read failed, errno 5~" ++ str ",1,warm"; []].

(** The rows of the sample, read. *)
Definition sample_rows : list dict_row := match _read_rows (map mk_byte sample_csv) with Ok rows => rows | Raise _ => [] end.

Definition profile_disk : Fs :=
  mkFs {[ [str "io.csv"] := map mk_byte sample_csv; [str "proc"; str "mounts"] := map mk_byte (str "/dev/sda1 / ext4 rw,relatime 0 0") ]}
    {[ [str "proc"] ]} (fun _ => None) (fun _ _ => []) 0 4096.

Definition sample_profile : Fs * res (list (pystr * pyval)) :=
  @generate_tier_profile ascii_tables plain_builtins plain_platform [] (str "/io.csv") [str "out"; str "profile.json"] (str "p95") profile_disk.

Lemma sample_profile_ok : is_ok sample_profile.2 = true.
Proof. vm_compute. reflexivity. Qed.

Lemma sample_rows_bench : Forall (@bench_row ascii_tables) sample_rows.
Proof.
  assert (forallb (fun row => match @group_of ascii_tables row with Ok g => bench_group g | Raise _ => true end) sample_rows = true) as Hall
    by (vm_compute; reflexivity).
  apply Forall_forall. intros row Hrow g Hg. rewrite forallb_forall in Hall. specialize (Hall row (proj1 (list_elem_of_In _ _) Hrow)).
  by rewrite Hg in Hall.
Qed.

Lemma measurements_counted_once_witness :
  exists s' doc profiles, sample_profile = (s', Ok doc) /\ NoDup profiles.*1 /\
    doc = @profile_document plain_platform (str "/io.csv") (map mk_byte sample_csv) sample_rows (str "p95") profiles /\
    foldr Z.add 0 (map (fun kv => reported_count kv.2) profiles) = 2.
Proof.
  pose proof sample_profile_ok as Hok. destruct sample_profile as [s' [doc|e]] eqn:E; [|discriminate Hok].
  destruct (@measurements_counted_once ascii_tables plain_builtins plain_platform [] (str "/io.csv") [str "out"; str "profile.json"]
    (str "p95") profile_disk s' doc (map mk_byte sample_csv) sample_rows E ltac:(vm_compute; reflexivity) ltac:(vm_compute; reflexivity)
    sample_rows_bench) as (groups & profiles & Hdoc & Hnd & _ & _ & _ & Hsum).
  exists s', doc, profiles. split; [reflexivity|]. split; [exact Hnd|]. split; [exact Hdoc|].
  rewrite Hsum. vm_compute. reflexivity.
Defined.
