(* ===== verification/RunMatrix.v ===== *)
(** * Running the benchmark matrix: [io_path_bench/run_matrix.py]

    Each case of the matrix is one run of the benchmark binary, which writes a CSV
    file; the files are merged, the profile and the report are made from the merged
    file, and the three results are moved into place. The binary is the argument
    [run_program]; [os.getpid()] and [uuid.uuid4()] give the argument [run_uid]. The
    command line is parsed by [argparse], which is not modelled. *)

From S2P Require Import Prelude PyText Sha256 Float64 Errors PyVal Json Metrics Tokenization Url PyConv Layout FileSystem Config TierProfileImport Csv JsonIndent IoProfile.
Import MNotations ResNotations.

Record MatrixArgs := {
  ma_config : pystr;
  ma_matrix : pystr;
  ma_out : pystr;
  ma_tier_profile_out : pystr;
  ma_report_out : pystr;
  ma_profile_mode : pystr;
  ma_binary : option pystr;
}.

(** ** Paths as texts *)

(** [Path(dir) / name], for a relative name. *)
Definition child_text (dir name : pystr) : pystr := path_str (path_str dir ++ 47 :: name).

(** [path.name], and [path.with_name(name)]. *)
Definition text_comps (text : pystr) : path := match text with 47 :: _ => text_parts text | _ => parse_part text end.

Definition text_name (text : pystr) : pystr := List.last (text_comps text) [].

Definition with_name (text name : pystr) : res pystr :=
  match text_comps text with
  | [] => Raise (err ValueError (str "path has an empty name"))
  | comps =>
      let parts := removelast comps ++ [name] in
      Ok (match text with 47 :: _ => path_text parts | _ => join [47] parts end)
  end.

Definition tmp_text (text run_uid : pystr) : res pystr :=
  with_name text (text_name text ++ 46 :: run_uid ++ str ".tmp").

(** Where the text of a path leads in the working directory. *)
Definition locate (cwd : path) (text : pystr) : res path :=
  if bool_decide (0 ∈ text) then Raise (err ValueError (str "embedded null byte"))
  else Ok (normalize [] (match text with 47 :: _ => parse_part text | _ => cwd ++ parse_part text end)).

(** ** Merging *)

Section Merge.
Local Open Scope res_scope.

(** One input: its header, checked against the headers before it, and its rows. *)
Definition read_case (path : pystr) (fieldnames : option (list pystr)) (text : pystr) : res (list pystr * list dict_row) :=
  let? first := next_row fresh_parser (keep_lines [] text) in
  match first with
  | None | Some ([], _) => Raise (err ValueError (path ++ str ": empty csv or missing header"))
  | Some (names, rest) =>
      ensure (match fieldnames with None => true | Some f => bool_decide (names = f) end)
        (err ValueError (path ++ str ": csv schema mismatch")) ;?
      let? rows := rows_from (S (length rest)) rest in
      Ok (names, map (dict_of_row names) (List.filter (fun r => negb (bool_decide (r = []))) rows))
  end.

(** The rows [DictWriter.writerows] writes before a row it refuses. *)
Fixpoint writable_rows (names : list pystr) (rows : list dict_row) : list (list pystr) * option exn :=
  match rows with
  | [] => ([], None)
  | d :: rest =>
      match row_of_dict names d with
      | Raise e => ([], Some e)
      | Ok row => let '(good, e) := writable_rows names rest in (row :: good, e)
      end
  end.
End Merge.

(** ** Cases *)

(** The arguments of a program are texts without null characters. *)
Definition command_arg (v : pyval) : res pystr :=
  match v with
  | PStr s => if bool_decide (0 ∈ s) then Raise (err ValueError (str "embedded null byte")) else Ok s
  | _ => Raise (err TypeError (str "expected str, bytes or os.PathLike object"))
  end.

Section Run.
Context `{UnicodeData} `{PyBuiltins} `{Platform} (cwd : path) (run_program : list pystr -> M Fs unit) (run_uid : pystr).
Local Open Scope m_scope.

Definition _load_json_compatible_yaml (file : pystr) : M Fs pyval :=
  let* b := read_bytes cwd file in
  lift (let? text := decode_text b in json_loads text)%res.

Fixpoint merge_inputs (paths : list pystr) (fieldnames : option (list pystr)) (rows : list dict_row)
  : M Fs (option (list pystr) * list dict_row) :=
  match paths with
  | [] => ret (fieldnames, rows)
  | path :: rest =>
      let* b := read_bytes cwd path in
      let* (names, more) := lift (match utf8_decode b with
                                  | Some text => read_case path fieldnames text
                                  | None => Raise (err UnicodeDecodeError (str "invalid utf-8"))
                                  end) in
      merge_inputs rest (Some names) (rows ++ more)
  end.

Definition _merge_csv (paths : list pystr) (out : path) : M Fs unit :=
  let* (fieldnames, rows) := merge_inputs paths None [] in
  let names := default [] fieldnames in
  let '(good, e) := writable_rows names rows in
  write_text out (csv_text (names :: good)) ;;
  match e with
  | Some e => raise e
  | None => ret tt
  end.

(** The output file and the command of one case. *)
Definition case_command (cfg : list (pystr * pyval)) (binary file_path raw_dir : pystr) (idx : nat) (case : pyval)
  : res (pystr * list pyval) :=
  (let? engine := py_item case (str "engine") in
   let? engine_text := py_str engine in
   let? op := py_item case (str "op") in
   let? op_text := py_str op in
   let case_out := child_text raw_dir (str "case_" ++ int_repr (Z.of_nat idx) ++ 95 :: engine_text ++ 95 :: op_text ++ str ".csv") in
   let? d := dict_of case in
   let get k v := default v (dict_get k d) in
   let? file_size := py_str (get (str "file_size_mb") (default (PInt 32) (dict_get (str "file_size_mb") cfg))) in
   let? block_size := py_str (get (str "block_size_kb") (PInt 1024)) in
   let? threads := py_str (get (str "threads") (PInt 1)) in
   let? iterations := py_str (get (str "iterations") (PInt 32)) in
   let? warmup := py_str (get (str "warmup") (PInt 4)) in
   Ok (case_out,
       [PStr binary; PStr (str "--engine"); engine;
        PStr (str "--op"); get (str "op") (PStr (str "read"));
        PStr (str "--path"); PStr file_path;
        PStr (str "--file-size-mb"); PStr file_size;
        PStr (str "--block-size-kb"); PStr block_size;
        PStr (str "--threads"); PStr threads;
        PStr (str "--iterations"); PStr iterations;
        PStr (str "--warmup"); PStr warmup;
        PStr (str "--access"); get (str "access") (PStr (str "sequential"));
        PStr (str "--cache-policy");
        get (str "page_cache_policy") (PStr (if py_eq engine (PStr (str "odirect")) then str "direct" else str "warm"));
        PStr (str "--output"); PStr case_out]))%res.

(** [subprocess.check_call(cmd)]. *)
Definition check_call (cmd : list pyval) : M Fs unit :=
  let* args := lift (res_seq (map command_arg cmd)) in
  run_program args.

Fixpoint run_cases (cfg : list (pystr * pyval)) (binary file_path raw_dir : pystr) (idx : nat) (cases : list pyval)
  : M Fs (list pystr) :=
  match cases with
  | [] => ret []
  | case :: rest =>
      let* (case_out, cmd) := lift (case_command cfg binary file_path raw_dir idx case) in
      check_call cmd ;;
      let* outs := run_cases cfg binary file_path raw_dir (S idx) rest in
      ret (case_out :: outs)
  end.

(** [Path(cfg.get(k, default))], as text. *)
Definition path_setting (cfg : list (pystr * pyval)) (k default_path : pystr) : res pystr :=
  res_map path_str (path_value (default (PStr default_path) (dict_get k cfg))).

(** The profile that is published names the published file. *)
Definition publish_source (merged : pystr) (profile : list (pystr * pyval)) : list (pystr * pyval) :=
  let profile := dict_set (str "source_csv") (PStr merged) profile in
  match get_or_none (str "provenance") profile with
  | PDict d => dict_set (str "provenance") (PDict (dict_set (str "source_csv_path") (PStr merged) d)) profile
  | _ => profile
  end.

(** The measurements: the outputs of all cases. *)
Definition measure (args : MatrixArgs) : M Fs (list pystr) :=
  let* cfg_value := _load_json_compatible_yaml (ma_config args) in
  let* matrix := _load_json_compatible_yaml (ma_matrix args) in
  let* binary := match ma_binary args with
                 | Some ((_ :: _) as b) => ret (path_str b)
                 | _ => lift (let? cfg := dict_of cfg_value in
                              path_setting cfg (str "binary") (str "io-profile/build/io_path_bench"))%res
                 end in
  let* cfg := lift (dict_of cfg_value) in
  let* file_path := lift (path_setting cfg (str "file_path") (str "/tmp/ai-inference-storage-showcase-io/profile.bin")) in
  let* raw := lift (path_setting cfg (str "raw_dir") (str "/tmp/ai-inference-storage-showcase-io/cases")) in
  let raw_dir := child_text raw (str "run_" ++ run_uid) in
  let* dir := lift (locate cwd raw_dir) in
  mkdir dir ;;
  let* cases := lift (let? v := py_item matrix (str "cases") in py_iter v)%res in
  run_cases cfg binary file_path raw_dir 0 cases.

(** The three files, written under temporary names; the moves that put them in
    place. *)
Definition prepare (args : MatrixArgs) (case_csvs : list pystr) : M Fs (list (path * path)) :=
  let merged := path_str (ma_out args) in
  let profile_out := path_str (ma_tier_profile_out args) in
  let report_out := path_str (ma_report_out args) in
  let* merged_at := lift (locate cwd merged) in
  mkdir (path_parent merged_at) ;;
  let* profile_at := lift (locate cwd profile_out) in
  mkdir (path_parent profile_at) ;;
  let* report_at := lift (locate cwd report_out) in
  mkdir (path_parent report_at) ;;
  let* merged_tmp := lift (tmp_text merged run_uid) in
  let* profile_tmp := lift (tmp_text profile_out run_uid) in
  let* report_tmp := lift (tmp_text report_out run_uid) in
  let* merged_tmp_at := lift (locate cwd merged_tmp) in
  let* profile_tmp_at := lift (locate cwd profile_tmp) in
  let* report_tmp_at := lift (locate cwd report_tmp) in
  _merge_csv case_csvs merged_tmp_at ;;
  let* profile := generate_tier_profile cwd merged_tmp profile_tmp_at (ma_profile_mode args) in
  let profile := publish_source merged profile in
  write_json profile_tmp_at (PDict profile) ;;
  write_report profile report_tmp_at ;;
  ret [(merged_tmp_at, merged_at); (profile_tmp_at, profile_at); (report_tmp_at, report_at)].

(** [os.replace] of each in turn. *)
Fixpoint publish (moves : list (path * path)) : M Fs unit :=
  match moves with
  | [] => ret tt
  | (tmp, at_) :: rest => replace tmp at_ ;; publish rest
  end.

Definition main (args : MatrixArgs) : M Fs unit :=
  let* case_csvs := measure args in
  let* moves := prepare args case_csvs in
  publish moves.
End Run.
