(* ===== verification/RunMatrixSpec.v ===== *)
(** * What a run of the benchmark matrix guarantees *)

From Stdlib Require Import SpecFloat.
From S2P Require Import Prelude PyText Sha256 Float64 Errors PyVal Json JsonFacts Metrics Tokenization Layout Url FileSystem FileSystemFacts PyConv Config ConfigSpec TierProfileImport Csv JsonIndent IoProfile IoProfileSpec RunMatrix.
Import MNotations ResNotations.

(** ** A CSV file as its header and rows *)

Definition csv_dicts (b : pybytes) : option (list pystr * list dict_row) :=
  match utf8_decode b with
  | None => None
  | Some text =>
      match csv_read text with
      | Ok rows => match dict_reader rows with (Some names, ds) => Some (names, ds) | (None, _) => None end
      | Raise _ => None
      end
  end.

(** A dictionary of the reader: a row of small fields under the header. *)
Definition read_dict_row (names : list pystr) (d : dict_row) : Prop :=
  exists row, d = dict_of_row names row /\ Forall small row.

Lemma read_case_ok path f text names ds :
  read_case path f text = Ok (names, ds) ->
  (exists rows, csv_read text = Ok rows /\ dict_reader rows = (Some names, ds)) /\
  names <> [] /\ Forall small names /\ Forall (read_dict_row names) ds /\ (forall f', f = Some f' -> names = f').
Proof.
  unfold read_case. intros (first & Hn & Hr)%res_bind_ok.
  destruct first as [[[|n ns] rest]|]; try discriminate Hr.
  apply res_bind_ok in Hr as ([] & Hf%ensure_ok & Hr). apply res_bind_ok in Hr as (rows & Hrows & [= <- <-]).
  split_and!.
  - exists ((n :: ns) :: rows). split; [|done]. unfold csv_read. cbv zeta. set (lines := keep_lines [] text) in *. cbn [rows_from].
    rewrite Hn. cbn [res_bind]. destruct lines as [|l lines]; [done|]. apply next_row_shorter in Hn; [|done].
    rewrite (rows_from_fuel (S (length rest)) rest _ (S (length rest))) by lia. by rewrite Hrows.
  - done.
  - eapply next_row_small; [apply fresh_small|done].
  - apply rows_from_small in Hrows. apply Forall_map, Forall_forall. intros row Hin. exists row. split; [done|].
    rewrite Forall_forall in Hrows. apply Hrows. apply list_elem_of_In, filter_In in Hin as [Hin _]. by apply list_elem_of_In.
  - intros f' ->. by apply bool_decide_eq_true in Hf.
Qed.

(** ** Writing dictionaries *)

Lemma writable_rows_ok names rows good :
  writable_rows names rows = (good, None) -> Forall2 (fun d row => row_of_dict names d = Ok row) rows good.
Proof.
  revert good. induction rows as [|d rows IH]; intros good; cbn; [intros [= <-]; constructor|].
  destruct (row_of_dict names d) as [row|] eqn:E; [|done]. destruct (writable_rows names rows) as [g e]. intros [= <- ->].
  constructor; auto.
Qed.

Lemma row_of_dict_ok names row out :
  Forall small row -> row_of_dict names (dict_of_row names row) = Ok out ->
  Forall small out /\ length out = length names /\ dict_of_row names out = filled (dict_of_row names row) /\
  dr_rest (dict_of_row names row) = None.
Proof.
  intros Hs Ho. pose proof (dict_row_roundtrip _ _ _ Ho) as Hr. unfold row_of_dict in Ho.
  apply res_bind_ok in Ho as ([] & Hc%ensure_ok & [= <-]). apply andb_true_iff in Hc as [Hc _]. apply bool_decide_eq_true in Hc.
  split_and!; [|by rewrite length_map|done|done]. apply Forall_map, Forall_forall. intros n _.
  assert (Forall (fun kv => small (default [] kv.2)) (zip_fields names row [])) as Hv.
  { apply (zip_fields_values (fun v => small (default [] v))); [|done|constructor]. unfold small, field_size_limit. cbn. lia. }
  cbn [dict_of_row dr_items]. destruct (dict_get n (zip_fields names row [])) as [v|] eqn:E.
  - apply dict_get_elem in E. rewrite Forall_forall in Hv. apply (Hv _ E).
  - unfold small, field_size_limit. cbn. lia.
Qed.

(** The written file reads back. *)
Lemma written_dicts names rows good text :
  names <> [] -> Forall small names -> Forall (read_dict_row names) rows ->
  writable_rows names rows = (good, None) -> text = csv_text (names :: good) ->
  (exists r, csv_read text = Ok r /\ dict_reader r = (Some names, map filled rows)) /\ Forall (fun d => dr_rest d = None) rows.
Proof.
  intros Hne Hn Hrows Hw%writable_rows_ok ->.
  assert (Forall (Forall small) good /\ Forall (fun r => length r = length names) good /\
          map (dict_of_row names) good = map filled rows /\ Forall (fun d => dr_rest d = None) rows) as (Hs & Hlen & Hmap & Hrest).
  { induction Hw as [|d out rows good Ho Hw IH]; [by repeat split; constructor|].
    apply Forall_cons in Hrows as [(row & -> & Hrow) Hrows]. destruct (IH Hrows) as (H1 & H2 & H3 & H4).
    apply row_of_dict_ok in Ho as (G1 & G2 & G3 & G4); [|done]. split_and!; [by constructor|by constructor| |by constructor].
    cbn [map]. by rewrite G3, H3. }
  split; [|done]. exists (names :: good). split; [by apply csv_read_text; constructor|]. cbn [dict_reader]. f_equal. rewrite <- Hmap. f_equal.
  clear -Hlen Hne. induction Hlen as [|r good Hr _ IH]; [done|]. cbn. rewrite bool_decide_eq_false_2; [cbn; by rewrite IH|].
  intros ->. by destruct names.
Qed.

(** ** Merging *)

Section Merge.
Context (cwd : path).

(** The file a path leads to, as CSV. *)
Definition input_of (files : gmap path pybytes) (names : list pystr) (p : pystr) (ds : list dict_row) : Prop :=
  exists b, files !! normalize [] (absolute cwd p) = Some b /\ csv_dicts b = Some (names, ds).

Lemma merge_inputs_ok paths : forall f rows d d' f' rows',
  merge_inputs cwd paths f rows d = (d', Ok (f', rows')) ->
  fs_files d' = fs_files d /\
  match f' with
  | None => paths = [] /\ f = None /\ rows' = rows
  | Some names =>
      (paths <> [] -> names <> [] /\ Forall small names) /\ (forall n, f = Some n -> n = names) /\
      exists inputs, Forall2 (input_of (fs_files d) names) paths inputs /\ rows' = rows ++ concat inputs /\
        Forall (read_dict_row names) (concat inputs)
  end.
Proof.
  induction paths as [|p paths IH]; intros f rows d d' f' rows' H; cbn [merge_inputs] in H.
  { injection H as <- <- <-. split; [done|]. destruct f as [n|]; [|done]. split; [done|]. split; [by intros ? [= ->]|].
    exists []. rewrite app_nil_r. by repeat constructor. }
  apply bind_ok in H as (b & d1 & Hb & H). apply read_bytes_ok in Hb as [Hb ->].
  apply bind_ok in H as ([names ds] & d2 & Hc & H). injection Hc as <- Hc.
  destruct (utf8_decode b) as [text|] eqn:Eu; [|done].
  apply read_case_ok in Hc as ((rws & Hrws & Hdr) & Hne & Hs & Hds & Hf). apply IH in H as [Hfiles H].
  split; [exact Hfiles|]. destruct f' as [names'|]; [|by destruct H as (_ & ? & _)].
  destruct H as (_ & Hnames & inputs & Hin & -> & Hall). specialize (Hnames names eq_refl) as ->.
  split; [done|]. split; [intros n Hn; symmetry; by apply Hf|].
  exists (ds :: inputs). cbn [concat]. rewrite app_assoc. split_and!; [|done|by apply Forall_app].
  constructor; [|done]. exists b. split; [done|]. unfold csv_dicts. by rewrite Eu, Hrws, Hdr.
Qed.

Lemma merge_csv_ok paths out d d' u :
  _merge_csv cwd paths out d = (d', Ok u) -> paths <> [] ->
  exists names inputs b, names <> [] /\ Forall2 (input_of (fs_files d) names) paths inputs /\
    fs_files d' = <[out := b]> (fs_files d) /\ csv_dicts b = Some (names, map filled (concat inputs)) /\
    Forall (fun r => dr_rest r = None) (concat inputs).
Proof.
  unfold _merge_csv. intros ([f rows] & d1 & Hm & H)%bind_ok Hp. apply merge_inputs_ok in Hm as [Hfiles Hm].
  destruct f as [names|]; [|by destruct Hm]. destruct Hm as (Hn & _ & inputs & Hin & -> & Hall). destruct (Hn Hp) as [Hne Hs].
  cbn [default from_option id app] in H. destruct (writable_rows names (concat inputs)) as [good e] eqn:Ew.
  apply bind_ok in H as ([] & d2 & Hw & He). destruct e; [done|]. injection He as <-.
  apply write_text_ok in Hw as (b & Hb & Hw). exists names, inputs, b.
  destruct (written_dicts names (concat inputs) good _ Hne Hs Hall Ew eq_refl) as [(r & Hr & Hd) Hrest].
  split_and!; [done|done|by rewrite Hw, Hfiles| |done]. unfold csv_dicts. apply utf8_decode_encode in Hb as ->. by rewrite Hr, Hd.
Qed.
End Merge.

(** ** Frames *)

Section Frames.
Context `{UnicodeData} `{PyBuiltins} `{Platform} (cwd : path).
Context (X : path -> Prop) (f : gmap path pybytes).
Abbreviation A := (agrees X f).

Lemma agrees_merge_inputs paths : forall names rows, preserves A (merge_inputs cwd paths names rows).
Proof. induction paths as [|p paths IH]; intros names rows; cbn [merge_inputs]; [apply preserves_ret|]. frame. Qed.

Lemma agrees_merge_csv paths out : X out -> preserves A (_merge_csv cwd paths out).
Proof. intros Hx. unfold _merge_csv. apply preserves_bind; [apply agrees_merge_inputs|]. frame. Qed.

Lemma agrees_mount_options file : preserves A (_mount_options cwd file).
Proof. unfold _mount_options. frame. Qed.

Lemma agrees_device_of measured : preserves A (device_of cwd measured).
Proof. unfold device_of. frame. apply agrees_mount_options. Qed.

Lemma agrees_group_profile mode rows g : preserves A (group_profile cwd mode rows g).
Proof. unfold group_profile. frame. apply agrees_device_of. Qed.

Lemma agrees_group_profiles mode rows gs : forall ps, preserves A (group_profiles cwd mode rows gs ps).
Proof.
  induction gs as [|g gs IH]; intros ps; cbn [group_profiles]; [apply preserves_ret|].
  apply preserves_bind; [apply agrees_group_profile|]. intros. apply IH.
Qed.

Lemma agrees_generate source out mode : X out -> preserves A (generate_tier_profile cwd source out mode).
Proof. intros Hx. unfold generate_tier_profile. frame. apply agrees_group_profiles. Qed.

Lemma agrees_report profile out : X out -> preserves A (write_report profile out).
Proof. intros Hx. unfold write_report. frame. Qed.
End Frames.

#[export] Hint Resolve agrees_merge_csv agrees_generate agrees_report : frames.

(** ** What the generator returns *)

Section Generated.
Context `{UnicodeData} `{PyBuiltins} `{Platform} (cwd : path).

(** The document of a source file. *)
Definition describes (source : pystr) (csv : pybytes) (mode : pystr) (doc : list (pystr * pyval)) : Prop :=
  exists rows profiles, _read_rows csv = Ok rows /\ doc = profile_document source csv rows mode profiles.

Lemma generate_ok source out mode d d' doc :
  generate_tier_profile cwd source out mode d = (d', Ok doc) ->
  exists csv, fs_files d !! normalize [] (absolute cwd source) = Some csv /\ describes (path_str source) csv mode doc.
Proof.
  unfold generate_tier_profile. cbv zeta. intros (csv & d1 & Hb & Hr)%bind_ok. apply read_bytes_ok in Hb as [Hb ->].
  apply bind_ok in Hr as (rows & d2 & Hrows & Hr). injection Hrows as <- Hrows.
  apply bind_ok in Hr as (gs & d3 & Hg & Hr). apply bind_ok in Hr as (ps & d4 & Hps & Hr).
  apply bind_ok in Hr as ([] & d5 & _ & Hr). apply bind_ok in Hr as ([] & d6 & _ & Hr). injection Hr as _ <-.
  exists csv. split; [done|]. by exists rows, ps.
Qed.

(** The published document differs from it in the names of the file. *)
Lemma publish_source_describes merged source csv mode doc :
  describes source csv mode doc -> describes merged csv mode (publish_source merged doc).
Proof. intros (rows & ps & Hr & ->). exists rows, ps. split; [done|]. reflexivity. Qed.

(** ** Preparing *)

Context (run_uid : pystr).

(** The results of a run: the merged file, a profile that describes it, and the
    report of that profile. *)
Definition results (merged mode : pystr) (csv profile report : pybytes) : Prop :=
  exists doc text lines,
    describes merged csv mode doc /\ json_indent 0 (PDict doc) = Ok text /\ utf8_encode (text ++ [10]) = Some profile /\
    report_lines doc = Ok lines /\ utf8_encode (join [10] lines ++ [10]) = Some report.

(** Where a result is prepared and where it goes. *)
Definition target (text : pystr) : res (path * path) :=
  (let? at_ := locate cwd (path_str text) in
   let? tmp := tmp_text (path_str text) run_uid in
   let? tmp_at := locate cwd tmp in
   Ok (tmp_at, at_))%res.

Lemma locate_ok text p : locate cwd text = Ok p -> p = normalize [] (absolute cwd text).
Proof. unfold locate. case_bool_decide; [done|]. by intros [= <-]. Qed.

Lemma report_ok profile out d d' u :
  write_report profile out d = (d', Ok u) ->
  exists lines data, report_lines profile = Ok lines /\ utf8_encode (join [10] lines ++ [10]) = Some data /\
    fs_files d' = <[out := data]> (fs_files d).
Proof.
  unfold write_report. intros (lines & d1 & Hl & Hr)%bind_ok. injection Hl as <- Hl. apply bind_ok in Hr as ([] & d2 & Hm & Hr).
  apply mkdir_ok in Hm. apply write_text_ok in Hr as (data & Hd & Hr). rewrite Hm in Hr. by exists lines, data.
Qed.

Lemma merge_csv_file paths out d d' u : _merge_csv cwd paths out d = (d', Ok u) -> exists b, fs_files d' !! out = Some b.
Proof.
  unfold _merge_csv. intros ([names rows] & d1 & _ & Hm)%bind_ok. destruct (writable_rows _ _) as [good e].
  apply bind_ok in Hm as ([] & d2 & Hw & He). destruct e; [done|]. injection He as <-.
  apply write_text_ok in Hw as (b & _ & ->). exists b. by rewrite lookup_insert_eq.
Qed.

Lemma prepare_ok args csvs d d' moves t1 t2 t3 o1 o2 o3 :
  prepare cwd run_uid args csvs d = (d', Ok moves) ->
  target (ma_out args) = Ok (t1, o1) -> target (ma_tier_profile_out args) = Ok (t2, o2) -> target (ma_report_out args) = Ok (t3, o3) ->
  NoDup [t1; t2; t3] ->
  moves = [(t1, o1); (t2, o2); (t3, o3)] /\
  exists csv profile report, results (path_str (ma_out args)) (ma_profile_mode args) csv profile report /\
    fs_files d' !! t1 = Some csv /\ fs_files d' !! t2 = Some profile /\ fs_files d' !! t3 = Some report.
Proof.
  intros Hp. unfold target.
  intros (m1 & Em1 & (mt1 & Emt1 & (p1 & Ep1 & [= <- <-])%res_bind_ok)%res_bind_ok)%res_bind_ok.
  intros (m2 & Em2 & (mt2 & Emt2 & (p2 & Ep2 & [= <- <-])%res_bind_ok)%res_bind_ok)%res_bind_ok.
  intros (m3 & Em3 & (mt3 & Emt3 & (p3 & Ep3 & [= <- <-])%res_bind_ok)%res_bind_ok)%res_bind_ok Hnd.
  unfold prepare in Hp. rewrite Em1, Em2, Em3, Emt1, Emt2, Emt3 in Hp. cbn [lift] in Hp.
  apply bind_ok in Hp as (? & ? & [= <- <-] & Hp). apply bind_ok in Hp as ([] & ? & _ & Hp).
  apply bind_ok in Hp as (? & ? & [= <- <-] & Hp). apply bind_ok in Hp as ([] & ? & _ & Hp).
  apply bind_ok in Hp as (? & ? & [= <- <-] & Hp). apply bind_ok in Hp as ([] & d3 & _ & Hp).
  do 3 (apply bind_ok in Hp as (? & ? & [= <- <-] & Hp)). rewrite Ep1, Ep2, Ep3 in Hp.
  do 3 (apply bind_ok in Hp as (? & ? & [= <- <-] & Hp)).
  apply bind_ok in Hp as ([] & d4 & Hm & Hp). apply bind_ok in Hp as (doc & d5 & Hg & Hp). cbv zeta in Hp.
  apply bind_ok in Hp as ([] & d6 & Hj & Hp). apply bind_ok in Hp as ([] & d7 & Hr & Hp). injection Hp as <- <-.
  split; [done|]. apply NoDup_cons in Hnd as [Hn1 Hnd]. apply NoDup_cons in Hnd as [Hn2 _]. rewrite !elem_of_cons in *.
  apply merge_csv_file in Hm as [csv Hcsv].
  pose proof (generate_ok _ _ _ _ _ _ Hg) as (csv' & Hcsv' & Hdoc). apply locate_ok in Ep1 as Hp1. rewrite <- Hp1, Hcsv in Hcsv'.
  injection Hcsv' as <-. apply (publish_source_describes (path_str (ma_out args))) in Hdoc.
  apply write_json_ok in Hj as (text & data & Ht & Hd & Hj). apply report_ok in Hr as (lines & rep & Hl & Hrep & Hr).
  exists csv, data, rep. split; [by exists (publish_source (path_str (ma_out args)) doc), text, lines|].
  rewrite Hr, Hj. rewrite !(lookup_insert_ne _ p3) by naive_solver. rewrite lookup_insert_ne, !lookup_insert_eq by naive_solver.
  split_and!; [|done|done]. rewrite <- Hcsv.
  apply (frame_step (fun p => p = p2) _ _ _ _ (fun f => agrees_generate cwd (fun p => p = p2) f mt1 p2 _ eq_refl) Hg). naive_solver.
Qed.
End Generated.

(** ** Moves *)

Lemma replace_raises src dst d d' e : replace src dst d = (d', Raise e) -> fs_files d' = fs_files d.
Proof.
  unfold replace, guarded, bind, syscall, gets, id, raise, modify. destruct (fs_faults d (fs_calls d)); [by intros [= <- _]|].
  cbn. destruct (fs_files d !! src); [|by intros [= <- _]]. destruct (is_dir _ dst); [by intros [= <- _]|].
  destruct (negb _); [by intros [= <- _]|done].
Qed.

(** Some of the moves were made, the first ones; all of them when it returns. *)
Lemma publish_moves (L : list (path * path * pybytes)) : forall d d' r,
  NoDup (L.*1.*1 ++ L.*1.*2) -> Forall (fun x => fs_files d !! x.1.1 = Some x.2) L -> publish L.*1 d = (d', r) ->
  exists made left_, L = made ++ left_ /\ (r = Ok tt -> left_ = []) /\
    Forall (fun x => fs_files d' !! x.1.2 = Some x.2) made /\
    Forall (fun x => fs_files d' !! x.1.2 = fs_files d !! x.1.2) left_ /\
    forall p, p ∉ L.*1.*1 ++ L.*1.*2 -> fs_files d' !! p = fs_files d !! p.
Proof.
  induction L as [|[[t o] b] L IH]; intros d d' r Hnd Hbs Hp; cbn [publish fmap list_fmap fst snd] in *.
  { injection Hp as <- <-. by exists [], []. }
  apply Forall_cons in Hbs as [Hb Hbs]. cbn in Hb. unfold bind in Hp. destruct (replace t o d) as [d1 [[]|e]] eqn:Er.
  2: { injection Hp as <- <-. apply replace_raises in Er. exists [], ((t, o, b) :: L). split_and!; try done.
       - by apply Forall_forall; intros; rewrite Er.
       - intros. by rewrite Er. }
  apply replace_ok in Er as (b' & Hb' & Hf). rewrite Hb in Hb'. injection Hb' as <-.
  cbn [app] in *. apply NoDup_cons in Hnd as [Ht Hnd]. rewrite elem_of_app, elem_of_cons in Ht.
  apply NoDup_app in Hnd as (Hnt & Hd & Hno). apply NoDup_cons in Hno as [Ho Hno].
  assert (forall p, p <> t -> p <> o -> fs_files d1 !! p = fs_files d !! p) as Hsame.
  { intros p Hp1 Hp2. by rewrite Hf, lookup_insert_ne, lookup_delete_ne. }
  assert (o ∉ L.*1.*1) as Ho1. { intros Hin. apply (Hd o Hin). left. }
  destruct (IH d1 d' r) as (made & left_ & -> & Hr & Hmade & Hleft & Hrest).
  - apply NoDup_app. split_and!; [done| |done]. intros p Hin Hin2. apply (Hd p Hin). by right.
  - apply Forall_forall. intros x Hx. rewrite Forall_forall in Hbs. rewrite <- (Hbs x Hx).
    assert (x.1.1 ∈ L.*1.*1) as Hin by (by do 2 apply list_elem_of_fmap_2). apply Hsame; intros Hxe; rewrite Hxe in Hin; [|done].
    apply Ht. by left.
  - done.
  - exists ((t, o, b) :: made), left_. split_and!; [done|done| | |].
    + constructor; [|done]. cbn. rewrite Hrest, Hf, lookup_insert_eq; [done|]. rewrite elem_of_app. naive_solver.
    + rewrite Forall_forall in Hleft |- *. intros x Hx. rewrite (Hleft x Hx).
      assert (x.1.2 ∈ (made ++ left_).*1.*2) as Hin. { do 2 apply list_elem_of_fmap_2. apply elem_of_app. by right. }
      apply Hsame; intros Hxe; rewrite Hxe in Hin; [|done]. apply Ht. right. by right.
    + intros p Hp'. rewrite Hrest, Hsame; [done|..]; rewrite !not_elem_of_cons, !not_elem_of_app, not_elem_of_cons in *; naive_solver.
Qed.

(** ** The run *)

Section Run.
Context `{UnicodeData} `{PyBuiltins} `{Platform} (cwd : path) (run_program : list pystr -> M Fs unit) (run_uid : pystr).

(** The benchmark leaves the file [p] as it is. *)
Definition spares (p : path) : Prop := forall cmd d, fs_files (run_program cmd d).1 !! p = fs_files d !! p.

Lemma measure_spares p args f : spares p -> preserves (agrees (fun q => q <> p) f) (measure cwd run_program run_uid args).
Proof.
  intros Hs. assert (forall cmd, preserves (agrees (fun q => q <> p) f) (run_program cmd)) as Hrun.
  { intros cmd d Hd q Hq. assert (q = p) as -> by (destruct (base.decide (q = p)); tauto). rewrite Hs. by apply Hd. }
  assert (forall cfg binary file_path raw_dir cases idx,
    preserves (agrees (fun q => q <> p) f) (run_cases run_program cfg binary file_path raw_dir idx cases)) as Hcases.
  { intros cfg binary file_path raw_dir. induction cases as [|c cases IH]; intros idx; cbn [run_cases]; [apply preserves_ret|].
    apply preserves_bind; [apply preserves_lift|]. intros [case_out cmd]. apply preserves_bind; [|intros; apply preserves_bind; [apply IH|]; frame].
    apply preserves_bind; [apply preserves_lift|]. intros. apply Hrun. }
  unfold measure, _load_json_compatible_yaml. frame.
Qed.

Lemma prepare_frame args csvs t1 t2 t3 o1 o2 o3 f :
  target cwd run_uid (ma_out args) = Ok (t1, o1) -> target cwd run_uid (ma_tier_profile_out args) = Ok (t2, o2) ->
  target cwd run_uid (ma_report_out args) = Ok (t3, o3) ->
  preserves (agrees (fun q => q ∈ [t1; t2; t3]) f) (prepare cwd run_uid args csvs).
Proof.
  unfold target.
  intros (m1 & Em1 & (mt1 & Emt1 & (p1 & Ep1 & [= <- <-])%res_bind_ok)%res_bind_ok)%res_bind_ok.
  intros (m2 & Em2 & (mt2 & Emt2 & (p2 & Ep2 & [= <- <-])%res_bind_ok)%res_bind_ok)%res_bind_ok.
  intros (m3 & Em3 & (mt3 & Emt3 & (p3 & Ep3 & [= <- <-])%res_bind_ok)%res_bind_ok)%res_bind_ok.
  assert (p1 ∈ [p1; p2; p3] /\ p2 ∈ [p1; p2; p3] /\ p3 ∈ [p1; p2; p3]) as (? & ? & ?) by set_solver.
  unfold prepare. cbv zeta. rewrite Em1, Em2, Em3, Emt1, Emt2, Emt3.
  repeat first [ apply preserves_lift_bind; intros ? [= <-]; rewrite ?Ep1, ?Ep2, ?Ep3 | apply preserves_bind; [solve [frame]|intros ?] ].
  frame.
Qed.

Lemma results_document merged mode csv profile report :
  results merged mode csv profile report ->
  exists doc, describes merged csv mode doc /\
    (json_ok (PDict doc) = true -> json_loads_bytes profile = Ok (json_norm fmt_store (PDict doc))).
Proof.
  intros (doc & text & lines & Hd & Ht & He & _). exists doc. split; [done|]. intros Hok.
  unfold json_loads_bytes. apply utf8_decode_encode in He as ->. by apply json_loads_indent.
Qed.

(** C27: the results of a run are published whole and in order. Whatever fails, and
    whether or not [main] returns, each of the three outputs is afterwards the file it
    was before or the complete file of this run, and they are replaced in the order
    merged file, profile, report; when [main] returns all three are of this run. The
    profile then describes exactly the published measurements: it carries their
    SHA-256 and length, their path and their numbers of rows, and it is read back as
    that document. The benchmark is assumed not to write to the outputs, whose paths
    and temporary paths differ. *)
Theorem matrix_publishes_whole_results args s s' r t1 t2 t3 o1 o2 o3 :
  target cwd run_uid (ma_out args) = Ok (t1, o1) -> target cwd run_uid (ma_tier_profile_out args) = Ok (t2, o2) ->
  target cwd run_uid (ma_report_out args) = Ok (t3, o3) -> NoDup [t1; t2; t3; o1; o2; o3] ->
  spares o1 -> spares o2 -> spares o3 ->
  main cwd run_program run_uid args s = (s', r) ->
  exists csv profile report k,
    (r = Ok tt -> k = 3%nat) /\
    (0 < k -> results (path_str (ma_out args)) (ma_profile_mode args) csv profile report /\
       exists doc, describes (path_str (ma_out args)) csv (ma_profile_mode args) doc /\
         (json_ok (PDict doc) = true -> json_loads_bytes profile = Ok (json_norm fmt_store (PDict doc))))%nat /\
    fs_files s' !! o1 = (if 0 <? k then Some csv else fs_files s !! o1)%nat /\
    fs_files s' !! o2 = (if 1 <? k then Some profile else fs_files s !! o2)%nat /\
    fs_files s' !! o3 = (if 2 <? k then Some report else fs_files s !! o3)%nat.
Proof.
  intros Ht1 Ht2 Ht3 Hnd Hs1 Hs2 Hs3 Hm. unfold main, bind in Hm.
  assert (forall d r0, measure cwd run_program run_uid args s = (d, r0) ->
    fs_files d !! o1 = fs_files s !! o1 /\ fs_files d !! o2 = fs_files s !! o2 /\ fs_files d !! o3 = fs_files s !! o3) as Hmeas.
  { intros d r0 E. assert (forall p, spares p -> fs_files d !! p = fs_files s !! p) as Hp; [|auto].
    intros p Hp. apply (frame_step (fun q => q <> p) _ _ _ _ (fun f => measure_spares p args f Hp) E). tauto. }
  destruct (measure _ _ _ _ s) as [d1 [csvs|e]] eqn:E1; destruct (Hmeas d1 _ eq_refl) as (<- & <- & <-).
  2: { injection Hm as <- <-. exists [], [], [], 0%nat. by split_and!; [|lia|..]. }
  pose proof (frame_step _ _ _ _ _ (fun f => prepare_frame args csvs t1 t2 t3 o1 o2 o3 f Ht1 Ht2 Ht3)
    (surjective_pairing (prepare cwd run_uid args csvs d1))) as Hprep.
  assert (o1 ∉ [t1; t2; t3] /\ o2 ∉ [t1; t2; t3] /\ o3 ∉ [t1; t2; t3]) as (Hn1 & Hn2 & Hn3).
  { change [t1; t2; t3; o1; o2; o3] with ([t1; t2; t3] ++ [o1; o2; o3]) in Hnd. apply NoDup_app in Hnd as (_ & Hd & _).
    split_and!; intros Hin; apply (Hd _ Hin); [left|right; left|do 2 right; left]. }
  rewrite <- (Hprep o1 Hn1), <- (Hprep o2 Hn2), <- (Hprep o3 Hn3). clear Hprep.
  destruct (prepare _ _ args csvs d1) as [d2 [moves|e]] eqn:E2; cbn [fst].
  2: { injection Hm as <- <-. exists [], [], [], 0%nat. by split_and!; [|lia|..]. }
  destruct (prepare_ok _ _ _ _ _ _ _ _ _ _ _ _ _ E2 Ht1 Ht2 Ht3) as (-> & csv & profile & report & Hres & Hf1 & Hf2 & Hf3).
  { change [t1; t2; t3; o1; o2; o3] with ([t1; t2; t3] ++ [o1; o2; o3]) in Hnd. by apply NoDup_app in Hnd as (Hnt & _). }
  destruct (publish_moves [(t1, o1, csv); (t2, o2, profile); (t3, o3, report)] d2 s' r Hnd)
    as (made & left_ & HL & Hr & Hmade & Hleft & _); [by repeat constructor|done|].
  exists csv, profile, report, (length made).
  assert (length made + length left_ = 3)%nat as Hlen by (rewrite <- length_app, <- HL; done).
  split_and!; [intros ->; specialize (Hr eq_refl) as ->; cbn in Hlen; lia|intros _; split; [done|by eapply results_document]|..];
    destruct made as [|m1 [|m2 [|m3 [|m4 made]]]]; cbn in Hlen; try lia; cbn in HL; simplify_eq; decompose_Forall_hyps; done.
Qed.
End Run.

(** ** Merging *)

(** C28: merging loses and changes nothing. When the merge of at least one file
    returns, all inputs are CSV files with the same non-empty header and no row
    longer than it; the output is a CSV file with that header whose rows are exactly
    the rows of the inputs, in order, a missing value being empty; and no other file
    was touched. *)
Theorem merge_keeps_rows cwd paths out s s' u :
  _merge_csv cwd paths out s = (s', Ok u) -> paths <> [] ->
  exists names inputs b, names <> [] /\ Forall2 (input_of cwd (fs_files s) names) paths inputs /\
    Forall (fun r => dr_rest r = None) (concat inputs) /\
    fs_files s' !! out = Some b /\ csv_dicts b = Some (names, map filled (concat inputs)) /\
    forall p, p <> out -> fs_files s' !! p = fs_files s !! p.
Proof.
  intros Hm Hp. apply merge_csv_ok in Hm as (names & inputs & b & Hne & Hin & Hf & Hb & Hr); [|done].
  exists names, inputs, b. rewrite Hf, lookup_insert_eq. split_and!; try done. intros p Hpo. by rewrite lookup_insert_ne.
Qed.

(** ** Samples *)

Definition sample_cases : pystr :=
  quoted "{~cases~: [{~engine~: ~pread~, ~op~: ~read~}, {~engine~: ~pread~, ~op~: ~read~, ~iterations~: 8}]}".

Definition sample_disk : Fs :=
  mkFs {[ [str "etc"; str "io.json"] := map mk_byte (str "{}"); [str "etc"; str "matrix.json"] := map mk_byte sample_cases;
          [str "proc"; str "mounts"] := map mk_byte (str "/dev/sda1 / ext4 rw,relatime 0 0");
          [str "out"; str "io.csv"] := map mk_byte (str "old") ]}
    {[ [str "etc"]; [str "proc"]; [str "out"] ]} (fun _ => None) (fun _ _ => []) 0 4096.

(** A benchmark that writes the sample to its output, below [/tmp] only. *)
Definition sample_program (cmd : list pystr) : M Fs unit :=
  let p := parse_part (List.last cmd []) in
  if bool_decide (head p = Some (str "tmp")) then append_file p (map mk_byte sample_csv) else ret tt.

Definition sample_args : MatrixArgs := {|
  ma_config := str "/etc/io.json"; ma_matrix := str "/etc/matrix.json"; ma_out := str "/out/io.csv";
  ma_tier_profile_out := str "/out/io.profile.json"; ma_report_out := str "/out/io.md";
  ma_profile_mode := str "p95"; ma_binary := None |}.

Definition sample_run : Fs * res unit :=
  @main ascii_tables plain_builtins plain_platform [] sample_program (str "7_ab") sample_args sample_disk.

Lemma sample_run_ok : is_ok sample_run.2 = true.
Proof. vm_compute. reflexivity. Qed.

Lemma sample_spares name : spares sample_program [str "out"; name].
Proof.
  set (p := [str "out"; name]). assert (head p <> Some (str "tmp")) as Hp by done. intros cmd d. unfold sample_program. cbv zeta. case_bool_decide as Hh; [|done].
  apply (frame_step (fun q => q = parse_part (List.last cmd []))) with (m := append_file (parse_part (List.last cmd [])) (map mk_byte sample_csv)) (r := (append_file (parse_part (List.last cmd [])) (map mk_byte sample_csv) d).2);
    [|apply surjective_pairing|congruence].
  intros f. by apply agrees_append.
Qed.

Lemma matrix_publishes_whole_results_witness :
  exists csv profile report,
    sample_run.2 = Ok tt /\
    @results plain_builtins plain_platform (str "/out/io.csv") (str "p95") csv profile report /\
    fs_files sample_run.1 !! [str "out"; str "io.csv"] = Some csv /\
    fs_files sample_run.1 !! [str "out"; str "io.profile.json"] = Some profile /\
    fs_files sample_run.1 !! [str "out"; str "io.md"] = Some report.
Proof.
  destruct (@matrix_publishes_whole_results ascii_tables plain_builtins plain_platform [] sample_program (str "7_ab") sample_args sample_disk
    sample_run.1 sample_run.2
    [str "out"; str "io.csv.7_ab.tmp"] [str "out"; str "io.profile.json.7_ab.tmp"] [str "out"; str "io.md.7_ab.tmp"]
    [str "out"; str "io.csv"] [str "out"; str "io.profile.json"] [str "out"; str "io.md"]
    ltac:(vm_compute; reflexivity) ltac:(vm_compute; reflexivity) ltac:(vm_compute; reflexivity)
    ltac:(apply (bool_decide_eq_true_1 _); vm_compute; reflexivity)
    (sample_spares _) (sample_spares _) (sample_spares _)
    (surjective_pairing sample_run)) as (csv & profile & report & k & Hk & Hres & H1 & H2 & H3).
  assert (sample_run.2 = Ok tt) as Hok.
  { pose proof sample_run_ok as Hr. destruct sample_run.2 as [[]|e]; [reflexivity|discriminate Hr]. }
  specialize (Hk Hok). subst k. exists csv, profile, report.
  split; [exact Hok|]. split; [apply Hres; lia|]. split; [exact H1|]. split; [exact H2|exact H3].
Defined.

(** Two cases and their merge. *)
Definition merge_disk : Fs :=
  mkFs {[ [str "a.csv"] := map mk_byte (csv_text [[str "x"; str "y"]; [str "1"; quoted "a,~b~"]; [str "2"]]);
          [str "b.csv"] := map mk_byte (csv_text [[str "x"; str "y"]; [str "3"; str "c" ++ [13; 10] ++ str "d"]])%list ]}
    ∅ (fun _ => None) (fun _ _ => []) 0 4096.

Definition merge_run : Fs * res unit := _merge_csv [] [str "/a.csv"; str "b.csv"] [str "all.csv"] merge_disk.

Lemma merge_run_ok : is_ok merge_run.2 = true.
Proof. vm_compute. reflexivity. Qed.

Lemma merge_keeps_rows_witness :
  exists names inputs b, fs_files merge_run.1 !! [str "all.csv"] = Some b /\
    Forall2 (input_of [] (fs_files merge_disk) names) [str "/a.csv"; str "b.csv"] inputs /\
    csv_dicts b = Some (names, map filled (concat inputs)).
Proof.
  pose proof merge_run_ok as Hok. destruct merge_run as [s' [u|e]] eqn:E; [|discriminate Hok].
  destruct (merge_keeps_rows [] [str "/a.csv"; str "b.csv"] [str "all.csv"] merge_disk s' u E ltac:(discriminate))
    as (names & inputs & b & _ & Hin & _ & Hb & Hd & _).
  exists names, inputs, b. split; [exact Hb|]. split; [exact Hin|exact Hd].
Defined.
