(* ===== verification/ProfileImportSpec.v ===== *)
(** * A generated profile is imported

    The benchmark writes tier profiles, the store's factory reads them: the two agree
    through the schema [shared/schema/tier_profile.schema.json], translated here as
    [conforms]. *)

From Stdlib Require Import SpecFloat.
From S2P Require Import CostModel.
From S2P Require Import Prelude PyText Sha256 Float64 Errors PyVal Json JsonFacts Metadata MetadataFacts Metrics Tokenization Url PyConv Layout FileSystem FileSystemFacts Config ConfigSpec TierProfileImport TierProfileSpec Csv JsonIndent IoProfile IoProfileSpec.
Import MNotations ResNotations.

(** ** The schema *)

Inductive field_kind := KString | KBoolean | KNonNegative | KMode.

Definition has_kind (k : field_kind) (v : pyval) : bool :=
  match k, v with
  | KString, PStr _ | KBoolean, PBool _ => true
  | KNonNegative, PInt z => 0 <=? z
  | KNonNegative, PFloat x => negb (f64_ltb x (S754_zero false))
  | KMode, PStr s => is_mode s
  | _, _ => false
  end.

Definition entry_fields : list (pystr * field_kind) :=
  map (fun k => (k, KBoolean))
    [str "available"; str "skipped"; str "supports_range_read"; str "supports_gpu_target"; str "measured_by_tier_profile"] ++
  map (fun k => (k, KString))
    [str "reason"; str "unavailable_reason"; str "page_cache_policy"; str "filesystem"; str "mount_options"; str "kernel";
     str "driver"; str "transport_name"] ++
  [(str "selected_profile_mode", KMode)] ++
  map (fun k => (k, KNonNegative))
    ([str "p50_ms"; str "p95_ms"; str "p99_ms"; str "bandwidth_MBps"; str "bandwidth_GBps"; str "cpu_us_per_op";
      str "selected_latency_ms"; str "cpu_copy_ms"; str "h2d_copy_ms"] ++
     flat_map (fun k => [k ++ str "_p50_ms"; k ++ str "_p95_ms"; k ++ str "_p99_ms"])
       [str "metadata_lookup"; str "head_object"; str "first_byte"; str "full_get"; str "range_get"; str "posix_file_read"]).

(** A property of an object, when it is there. *)
Definition field_conforms (d : list (pystr * pyval)) (f : pystr * field_kind) : bool :=
  match dict_get f.1 d with Some v => has_kind f.2 v | None => true end.

Definition entry_conforms (v : pyval) : bool :=
  match v with
  | PDict d => forallb (field_conforms d) entry_fields
  | _ => false
  end.

Definition is_one (v : pyval) : bool := negb (is_bool v) && py_eq v (PInt 1).

Definition conforms (v : pyval) : bool :=
  match v with
  | PDict top =>
      forallb (fun k => dict_has k top) [str "contract_version"; str "generated_at"; str "env_id"; str "profiles"] &&
      match dict_get (str "contract_version") top with Some v => is_one v | None => true end &&
      forallb (field_conforms top) [(str "generated_at", KString); (str "env_id", KString); (str "source_csv", KString)] &&
      match dict_get (str "profiles") top with
      | Some (PDict ps) => forallb (fun kv => entry_conforms kv.2) ps
      | Some _ => false
      | None => true
      end
  | _ => false
  end.

(** ** Normalized documents *)

Lemma has_kind_norm k v : has_kind k (json_norm fmt_store v) = has_kind k v.
Proof. by destruct k, v. Qed.

Lemma field_norm d f : NoDup d.*1 ->
  field_conforms (maybe_sort true (on_values (json_norm fmt_store) d)) f = field_conforms d f.
Proof.
  intros Hd. unfold field_conforms. rewrite norm_dict_get by done. destruct (dict_get f.1 d); [apply has_kind_norm|done].
Qed.

Lemma entry_norm d : NoDup d.*1 -> entry_conforms (json_norm fmt_store (PDict d)) = entry_conforms (PDict d).
Proof.
  intros Hd. rewrite json_norm_dict. cbn [entry_conforms sort_keys fmt_store].
  induction entry_fields as [|f fs IH]; [done|]. cbn [forallb]. by rewrite field_norm, IH.
Qed.

Section Profile.
Context `{UnicodeData} `{PyBuiltins} `{Platform}.

(** The profile of a group, its numbers as variables. *)
Lemma profile_items_keys mode policy threads measured lat bw cpu sel dev :
  (profile_items mode policy threads measured lat bw cpu sel dev).*1 =
  [str "available"; str "measurement_count"; str "p50_ms"; str "p95_ms"; str "p99_ms"; str "selected_profile_mode";
   str "selected_latency_ms"; str "bandwidth_MBps"; str "bandwidth_GBps"; str "cpu_us_per_op"; str "page_cache_policy";
   str "threads"; str "filesystem"; str "mount_options"; str "kernel"; str "driver"].
Proof. reflexivity. Qed.

Lemma profile_items_nodup mode policy threads measured lat bw cpu sel dev :
  NoDup (profile_items mode policy threads measured lat bw cpu sel dev).*1.
Proof. rewrite profile_items_keys. apply (bool_decide_eq_true_1 _). vm_compute. reflexivity. Qed.

Lemma items_conform (available : bool) (count threads : Z) (p50 p95 p99 sel mbps gbps cpu : f64) (mode policy fsystem opts kernel : pystr) :
  entry_conforms (PDict
    [(str "available", PBool available); (str "measurement_count", PInt count); (str "p50_ms", PFloat p50);
     (str "p95_ms", PFloat p95); (str "p99_ms", PFloat p99); (str "selected_profile_mode", PStr mode);
     (str "selected_latency_ms", PFloat sel); (str "bandwidth_MBps", PFloat mbps); (str "bandwidth_GBps", PFloat gbps);
     (str "cpu_us_per_op", PFloat cpu); (str "page_cache_policy", PStr policy); (str "threads", PInt threads);
     (str "filesystem", PStr fsystem); (str "mount_options", PStr opts); (str "kernel", PStr kernel);
     (str "driver", PStr (str "posix"))]) =
  has_kind KMode (PStr mode) && forallb (fun x => has_kind KNonNegative (PFloat x)) [p50; p95; p99; mbps; gbps; cpu; sel].
Proof. vm_compute. reflexivity. Qed.

(** No measurement of the row is negative. *)
Definition nonneg_row (row : dict_row) : Prop :=
  forall k x, k ∈ [str "latency_us"; str "bandwidth_MBps"; str "cpu_user_us"; str "cpu_system_us"] ->
    float_item k row = Ok x -> nonneg x = true.

Lemma seq_nonneg (f : dict_row -> res f64) rows xs :
  res_seq (map f rows) = Ok xs -> Forall (fun row => forall x, f row = Ok x -> nonneg x = true) rows -> all_nonneg xs.
Proof.
  intros Hs%res_seq_ok%Forall2_map_l_impl. induction Hs as [|row x rows xs Hx _ IH]; [constructor|].
  intros [Hr Hrows]%Forall_cons. constructor; [by apply Hr|by apply IH].
Qed.

Lemma measured_subset (P : dict_row -> Prop) g rows : Forall P rows -> Forall P (measured_rows g rows).
Proof.
  rewrite !Forall_forall. intros Hp row Hr. apply Hp. apply list_elem_of_In, filter_In in Hr as [Hr _]. by apply list_elem_of_In.
Qed.

Lemma selected_ok lat mode sel :
  selected_latency lat mode = Ok sel ->
  is_mode mode = true /\ exists pct, sel = _percentile lat pct /\
    (mode = str "p50" /\ pct = 50 \/ mode = str "p95" /\ pct = 95 \/ mode = str "p99" /\ pct = 99).
Proof.
  unfold selected_latency. destruct (dict_get _ _) as [pct|] eqn:E; [|done]. intros [= <-]. apply dict_get_elem in E.
  rewrite !elem_of_cons, elem_of_nil in E. unfold is_mode.
  destruct E as [E|[E|[E|[]]]]; apply pair_eq in E as [-> ->]; (split; [vm_compute; reflexivity|]); eexists; (split; [done|auto]).
Qed.

Lemma latencies_nonneg rows lat : Forall nonneg_row rows -> res_seq (map latency_of rows) = Ok lat -> all_nonneg lat.
Proof.
  intros Hr Hl. eapply seq_nonneg; [exact Hl|]. eapply Forall_impl; [exact Hr|]. intros row Hn x (us & Hu & [= <-])%res_bind_ok.
  apply div_nonneg; [|reflexivity]. eapply Hn; [|done]. left.
Qed.

Lemma bandwidths_nonneg rows bw : Forall nonneg_row rows -> res_seq (map (float_item (str "bandwidth_MBps")) rows) = Ok bw -> all_nonneg bw.
Proof.
  intros Hr Hl. eapply seq_nonneg; [exact Hl|]. eapply Forall_impl; [exact Hr|]. intros row Hn x Hx. eapply Hn; [|done]. right; left.
Qed.

Lemma cpu_nonneg rows cpu : Forall nonneg_row rows -> res_seq (map cpu_of rows) = Ok cpu -> all_nonneg cpu.
Proof.
  intros Hr Hl. eapply seq_nonneg; [exact Hl|]. eapply Forall_impl; [exact Hr|].
  intros row Hn x (u & Hu & (sy & Hs & [= <-])%res_bind_ok)%res_bind_ok.
  apply add_nonneg; (eapply Hn; [|done]); [do 2 right; left|do 3 right; left].
Qed.

(** The profile of a group conforms to the schema. *)
Lemma profile_conforms mode rows g v :
  profile_of_group mode rows g v -> Forall nonneg_row rows -> entry_conforms (json_norm fmt_store v) = true.
Proof.
  intros (lat & bw & cpu & sel & dev & Hl & Hb & Hc & Hs & ->) Hr. rewrite entry_norm by apply profile_items_nodup.
  apply (measured_subset _ g) in Hr. apply latencies_nonneg in Hl; [|done]. apply bandwidths_nonneg in Hb; [|done]. apply cpu_nonneg in Hc; [|done].
  apply selected_ok in Hs as (Hm & pct & -> & _). unfold profile_items. rewrite items_conform. cbn [has_kind]. rewrite Hm. cbn [andb].
  assert (forall pct, nonneg (_percentile lat pct) = true) as Hp by (intros; by apply percentile_nonneg).
  assert (nonneg (match bw with [] => S754_zero false | _ => f64_div (mean bw) (f64_of_Z 1024) end) = true) as Hg.
  { destruct bw as [|x bw]; [done|]. apply div_nonneg; [by apply mean_nonneg|reflexivity]. }
  cbn [forallb has_kind]. rewrite !nonneg_not_below by auto using mean_or_zero_nonneg. done.
Qed.

(** The keys of the document. *)
Lemma document_keys source csv rows mode profiles :
  (profile_document source csv rows mode profiles).*1 =
  [str "contract_version"; str "generated_at"; str "env_id"; str "source_csv"; str "profile_mode"; str "provenance"; str "profiles"].
Proof. reflexivity. Qed.

Lemma document_nodup source csv rows mode profiles : NoDup (profile_document source csv rows mode profiles).*1.
Proof. rewrite document_keys. apply (bool_decide_eq_true_1 _). vm_compute. reflexivity. Qed.

Lemma norm_profiles profiles :
  json_norm fmt_store (PDict profiles) = PDict (maybe_sort true (on_values (json_norm fmt_store) profiles)).
Proof. apply json_norm_dict. Qed.

Lemma document_conforms source csv rows mode profiles :
  Forall (fun kv => entry_conforms (json_norm fmt_store kv.2) = true) profiles ->
  conforms (json_norm fmt_store (PDict (profile_document source csv rows mode profiles))) = true.
Proof.
  intros Hp. rewrite json_norm_dict. unfold conforms. set (top := profile_document source csv rows mode profiles).
  assert (forall k, dict_get k (maybe_sort (sort_keys fmt_store) (on_values (json_norm fmt_store) top)) = json_norm fmt_store <$> dict_get k top) as Hget.
  { intros k. apply norm_dict_get, document_nodup. }
  unfold field_conforms, dict_has. cbn [forallb fst snd]. rewrite !Hget.
  change (dict_get (str "contract_version") top) with (Some (PInt 1)).
  change (dict_get (str "generated_at") top) with (Some (PStr utc_now)).
  change (dict_get (str "env_id") top) with (Some (PStr (match platform_node with [] => str "local" | node => node end))).
  change (dict_get (str "source_csv") top) with (Some (PStr source)).
  change (dict_get (str "profiles") top) with (Some (PDict profiles)). cbn [fmap option_fmap option_map].
  rewrite norm_profiles. cbn [json_norm has_kind andb is_one is_bool negb].
  rewrite (forallb_perm _ _ (on_values (json_norm fmt_store) profiles)) by apply maybe_sort_perm.
  change (py_eq (PInt 1) (PInt 1)) with true. cbn [andb].
  unfold on_values. apply forallb_forall. intros x (kv & <- & Hkv)%in_map_iff. rewrite Forall_forall in Hp. apply Hp.
  by apply list_elem_of_In.
Qed.

(** ** Importing *)

Context `{JsonSchema} (repo cwd : path).

Lemma read_bytes_run dir text d q b :
  fs_faults d = (fun _ => None) -> 0 ∉ text -> walk d [] (absolute dir text) = Some q -> fs_files d !! q = Some b ->
  read_bytes dir text d = (next_call d, Ok b).
Proof.
  intros Hf Hn Hw Hb. unfold read_bytes. rewrite bool_decide_eq_false_2 by done. fold (absolute dir text).
  unfold bind, gets. rewrite Hw. apply read_run; [by rewrite Hf|done].
Qed.

(** The schema file of the repository, on a disk that does not fail. *)
Definition schema_installed (d : Fs) (schema : pyval) : Prop :=
  fs_faults d = (fun _ => None) /\ 0 ∉ schema_file repo None /\
  exists q b text, walk d [] (absolute cwd (schema_file repo None)) = Some q /\ fs_files d !! q = Some b /\
    decode_text b = Ok text /\ json_loads text = Ok schema /\ check_schema schema = Ok tt.

Lemma validate_run d schema obj :
  schema_installed d schema -> iter_errors schema obj = [] -> exists d', _validate_schema repo cwd obj None d = (d', Ok tt).
Proof.
  intros (Hf & Hn & q & b & text & Hw & Hb & Ht & Hj & Hc) He. unfold _validate_schema, text_is_file.
  rewrite (bool_decide_eq_false_2 _ Hn). fold (absolute cwd (schema_file repo None)). unfold bind at 1, gets. rewrite Hw. cbn [negb andb].
  unfold is_file. rewrite Hb. rewrite bool_decide_eq_true_2 by eauto. cbn [negb when]. unfold bind, ret, lift.
  rewrite (read_bytes_run _ _ _ _ _ Hf Hn Hw Hb). exists (next_call d). rewrite Ht. cbn [res_bind]. rewrite Hj. cbn [res_bind].
  unfold check_against. rewrite Hc. cbn [res_bind]. by rewrite He.
Qed.

(** The group of the profile the factory asks for. *)
Definition pread_group : group := (Some (str "pread"), str "warm", 1).

Lemma entry_of_profile mode policy threads measured lat bw cpu sel dev pct :
  measured <> [] -> f64_leb (mean_or_zero bw) zero_float = false -> sel = _percentile lat pct ->
  (mode = str "p50" /\ pct = 50 \/ mode = str "p95" /\ pct = 95 \/ mode = str "p99" /\ pct = 99) ->
  let entry := json_norm fmt_store (PDict (profile_items mode policy threads measured lat bw cpu sel dev)) in
  py_get entry (str "available") PNone = Ok (PBool true) /\
  _profile_from_entry entry mode =
    Ok (profile sel (f64_div (mean_or_zero bw) kilo) (f64_of_decimal false 2 (-2)) (f64_of_Z 24)).
Proof.
  intros Hne Hbw Hsel Hmode. rewrite json_norm_dict. cbv zeta.
  set (items := profile_items mode policy threads measured lat bw cpu sel dev).
  assert (forall k, dict_get k (maybe_sort (sort_keys fmt_store) (on_values (json_norm fmt_store) items)) = json_norm fmt_store <$> dict_get k items) as Hget.
  { intros k. apply norm_dict_get, profile_items_nodup. }
  assert (dict_get (str "available") items = Some (PBool true)) as Hav.
  { transitivity (Some (PBool (negb (bool_decide (measured = []))))); [reflexivity|]. by rewrite bool_decide_eq_false_2. }
  assert (dict_get (mode ++ str "_ms") items = Some (PFloat sel)) as Hlat.
  { rewrite Hsel. destruct Hmode as [[-> ->]|[[-> ->]|[-> ->]]]; reflexivity. }
  assert (dict_get (str "bandwidth_MBps") items = Some (PFloat (mean_or_zero bw))) as Hmb by reflexivity.
  unfold _profile_from_entry, py_get. cbn [dict_of res_bind]. unfold get_or_none, dict_has. rewrite !Hget, Hav, Hlat, Hmb.
  cbn [fmap option_fmap option_map json_norm default from_option id is_not_false ensure res_bind py_float]. split; [done|].
  rewrite Hbw. cbn [res_bind]. rewrite Hbw. done.
Qed.

Lemma no_s3_profile profiles gs :
  Forall2 (fun g (kv : pystr * pyval) => kv.1 = name_of g) gs profiles ->
  forall k, k ∈ s3_names -> dict_get k profiles = None.
Proof.
  intros Hp k Hk. apply dict_get_None. intros Hin. apply list_elem_of_fmap in Hin as ([k' v] & -> & Hin). cbn in Hk.
  apply list_elem_of_lookup_1 in Hin as [i Hi]. destruct (Forall2_lookup_r _ _ _ _ _ Hp Hi) as (g & _ & Hn). cbn in Hn. subst k'.
  unfold name_of, _profile_name, s3_names in Hk. rewrite !elem_of_cons, elem_of_nil in Hk.
  destruct (_ || _) in Hk; cbn [app] in Hk; destruct Hk as [Hk|[Hk|[]]]; discriminate Hk.
Qed.

Lemma walk_next d p : forall acc, walk (next_call d) acc p = walk d acc p.
Proof. induction p as [|c p IH]; intros acc; [done|]. cbn. change (is_dir (next_call d) acc) with (is_dir d acc). by rewrite !IH. Qed.

Lemma installed_next d schema : schema_installed d schema -> schema_installed (next_call d) schema.
Proof.
  intros (Hf & Hn & q & b & text & Hw & Hrest). split; [done|]. split; [done|]. exists q, b, text. by rewrite walk_next.
Qed.

Lemma text_field_str k d v : dict_get k d = Some (PStr v) -> exists w, text_field k d = Ok w.
Proof.
  intros Hk. unfold text_field, or_else, get_or_none. rewrite Hk. cbn [default from_option id]. destruct (truthy _); cbn; eauto.
Qed.

(** The import of a normalized document that has the profile. *)
Lemma import_generated source csv rows mode ps gs path artifact lat bw cpu sel dev threads policy measured pct :
  let doc := profile_document source csv rows mode ps in
  NoDup ps.*1 -> Forall2 (fun g (kv : pystr * pyval) => kv.1 = name_of g) gs ps ->
  dict_get (str "local_file_pread") ps = Some (PDict (profile_items mode policy threads measured lat bw cpu sel dev)) ->
  measured <> [] -> f64_leb (mean_or_zero bw) zero_float = false -> sel = _percentile lat pct ->
  (mode = str "p50" /\ pct = 50 \/ mode = str "p95" /\ pct = 95 \/ mode = str "p99" /\ pct = 99) ->
  exists r, import_document (json_norm fmt_store (PDict doc)) path artifact mode (str "local_file_pread") = Ok r /\
    imp_profiles r NVME = Some (profile sel (f64_div (mean_or_zero bw) kilo) (f64_of_decimal false 2 (-2)) (f64_of_Z 24)) /\
    imp_sources r NVME = str "tier_profile:" ++ str "local_file_pread" ++ str ":" ++ mode /\
    imp_profiles r Metadata.S3 = _default_profiles Metadata.S3.
Proof.
  intros doc Hnd Hgs Hps Hne Hbw Hsel Hmode. rewrite json_norm_dict.
  assert (forall k, dict_get k (maybe_sort (sort_keys fmt_store) (on_values (json_norm fmt_store) doc)) = json_norm fmt_store <$> dict_get k doc) as Hget.
  { intros k. apply norm_dict_get, document_nodup. }
  set (top := maybe_sort _ _) in *. unfold import_document. cbn [dict_of res_bind].
  assert (dict_get (str "profiles") top = Some (PDict (maybe_sort true (on_values (json_norm fmt_store) ps)))) as ->.
  { rewrite Hget. change (dict_get (str "profiles") doc) with (Some (PDict ps)). cbn [fmap option_fmap option_map]. by rewrite norm_profiles. }
  set (profiles := maybe_sort true _). cbn [default from_option id dict_of res_bind].
  pose proof (entry_of_profile mode policy threads measured lat bw cpu sel dev pct Hne Hbw Hsel Hmode) as [Hav Hentry].
  set (entry := json_norm fmt_store (PDict _)) in *.
  assert (get_or_none (str "local_file_pread") profiles = entry) as Hg.
  { unfold get_or_none, profiles. rewrite norm_dict_get, Hps by done. done. }
  cbn [_select_first_available_profile]. rewrite Hg.
  assert (exists d, entry = PDict d) as [d Hd] by (unfold entry; rewrite json_norm_dict; eauto).
  rewrite Hd in Hav, Hentry |- *. rewrite Hav. cbn [res_bind is_not_false]. rewrite Hg, Hd, Hentry. cbn [res_bind].
  assert (import_s3 profiles mode = Ok (None, str "explicit_fallback:missing_s3_profile")) as ->.
  { unfold import_s3. pose proof (select_present profiles s3_names) as Hsel3. unfold s3_names in Hsel3 at 1.
    destruct (_select_first_present_profile _ _) as [name|]; [|done]. exfalso. destruct Hsel3 as (before & after & v & En & Hv & _).
    unfold profiles in Hv. rewrite norm_dict_get, (no_s3_profile ps gs Hgs name) in Hv; [done| |done]. rewrite En. apply elem_of_app. right. left. }
  cbn [res_bind].
  assert (exists prov, import_provenance top path artifact mode (str "local_file_pread") = Ok prov) as [prov ->].
  { unfold import_provenance. rewrite Hget. change (dict_get (str "contract_version") doc) with (Some (PInt 1)).
    cbn [fmap option_fmap option_map json_norm py_int res_bind].
    destruct (text_field_str (str "generated_at") top utc_now) as [w1 ->]; [by rewrite Hget|]. cbn [res_bind].
    destruct (text_field_str (str "env_id") top (match platform_node with [] => str "local" | node => node end)) as [w2 ->];
      [by rewrite Hget|]. cbn [res_bind].
    destruct (text_field_str (str "source_csv") top source) as [w3 ->]; [by rewrite Hget|]. cbn [res_bind]. by eexists. }
  cbn [res_bind]. eexists. split; [reflexivity|]. done.
Qed.

(** ** What is refused *)

Lemma no_posix_default profiles gs :
  Forall2 (fun g (kv : pystr * pyval) => kv.1 = name_of g) gs profiles -> dict_get (str "file_posix_default") profiles = None.
Proof.
  intros Hp. apply dict_get_None. intros Hin. apply list_elem_of_fmap in Hin as ([k' v] & E & Hin).
  apply list_elem_of_lookup_1 in Hin as [i Hi]. destruct (Forall2_lookup_r _ _ _ _ _ Hp Hi) as (g & _ & Hn). cbn in E, Hn. subst k'.
  unfold name_of, _profile_name in Hn. destruct (_ || _) in Hn; discriminate Hn.
Qed.

(** A positive mean is needed: zero in one unit is zero in the other. *)
Lemma zero_mean_refused mode policy threads measured lat bw cpu sel dev pct :
  measured <> [] -> all_nonneg bw -> f64_leb (mean_or_zero bw) zero_float = true -> sel = _percentile lat pct ->
  (mode = str "p50" /\ pct = 50 \/ mode = str "p95" /\ pct = 95 \/ mode = str "p99" /\ pct = 99) ->
  let entry := json_norm fmt_store (PDict (profile_items mode policy threads measured lat bw cpu sel dev)) in
  py_get entry (str "available") PNone = Ok (PBool true) /\
  exists e, _profile_from_entry entry mode = Raise e /\ exn_cls e = ValueError.
Proof.
  intros Hne Hnn Hbw Hsel Hmode. rewrite json_norm_dict. cbv zeta.
  set (items := profile_items mode policy threads measured lat bw cpu sel dev).
  assert (forall k, dict_get k (maybe_sort (sort_keys fmt_store) (on_values (json_norm fmt_store) items)) = json_norm fmt_store <$> dict_get k items) as Hget.
  { intros k. apply norm_dict_get, profile_items_nodup. }
  assert (dict_get (str "available") items = Some (PBool true)) as Hav.
  { transitivity (Some (PBool (negb (bool_decide (measured = []))))); [reflexivity|]. by rewrite bool_decide_eq_false_2. }
  assert (dict_has (mode ++ str "_ms") items = true) as Hlat by (destruct Hmode as [[-> ->]|[[-> ->]|[-> ->]]]; reflexivity).
  assert (dict_get (str "bandwidth_MBps") items = Some (PFloat (mean_or_zero bw))) as Hmb by reflexivity.
  assert (exists gb, dict_get (str "bandwidth_GBps") items = Some (PFloat gb) /\ f64_leb (f64_mul gb kilo) zero_float = true) as (gb & Hgb & Hz).
  { eexists. split; [reflexivity|]. destruct bw as [|x bw]; [reflexivity|]. cbn [mean_or_zero] in Hbw.
    pose proof (mean_nonneg _ Hnn) as Hm. destruct (mean (x :: bw)) as [sg|sg| |sg m e]; try done; destruct sg; done. }
  unfold _profile_from_entry, py_get. cbn [dict_of res_bind]. unfold get_or_none. unfold dict_has in *. rewrite !Hget, Hav, Hmb, Hgb.
  destruct (dict_get (mode ++ str "_ms") items); [|done].
  cbn [fmap option_fmap option_map json_norm default from_option id is_not_false ensure res_bind py_float]. split; [done|].
  rewrite Hbw. cbn [res_bind]. rewrite Hz. cbn. eauto.
Qed.

(** A document whose entry for the default engine cannot be used. *)
Lemma import_refused source csv rows mode ps gs path artifact :
  let doc := profile_document source csv rows mode ps in
  NoDup ps.*1 -> Forall2 (fun g (kv : pystr * pyval) => kv.1 = name_of g) gs ps ->
  match dict_get (str "local_file_pread") ps with
  | None => True
  | Some v => let entry := json_norm fmt_store v in exists available, py_get entry (str "available") PNone = Ok available /\
      (available = PBool false \/ available = PBool true /\ exists e, _profile_from_entry entry mode = Raise e /\ exn_cls e = ValueError)
  end ->
  exists e, import_document (json_norm fmt_store (PDict doc)) path artifact mode (str "local_file_pread") = Raise e /\ exn_cls e = ValueError.
Proof.
  intros doc Hnd Hgs Hentry. rewrite json_norm_dict.
  assert (forall k, dict_get k (maybe_sort (sort_keys fmt_store) (on_values (json_norm fmt_store) doc)) = json_norm fmt_store <$> dict_get k doc) as Hget.
  { intros k. apply norm_dict_get, document_nodup. }
  set (top := maybe_sort _ _) in *. unfold import_document. cbn [dict_of res_bind].
  assert (dict_get (str "profiles") top = Some (PDict (maybe_sort true (on_values (json_norm fmt_store) ps)))) as ->.
  { rewrite Hget. change (dict_get (str "profiles") doc) with (Some (PDict ps)). cbn [fmap option_fmap option_map]. by rewrite norm_profiles. }
  set (profiles := maybe_sort true _). cbn [default from_option id dict_of res_bind].
  assert (get_or_none (str "file_posix_default") profiles = PNone) as Hposix.
  { unfold get_or_none, profiles. by rewrite norm_dict_get, (no_posix_default ps gs Hgs) by done. }
  assert (get_or_none (str "local_file_pread") profiles = default PNone (json_norm fmt_store <$> dict_get (str "local_file_pread") ps)) as Hlocal.
  { unfold get_or_none, profiles. by rewrite norm_dict_get. }
  cbn [_select_first_available_profile]. rewrite Hposix, Hlocal. destruct (dict_get (str "local_file_pread") ps) as [v|]; [|cbn; eauto].
  cbn [default from_option id fmap option_fmap option_map]. destruct Hentry as (av & Hav & Hcase). assert (exists d, json_norm fmt_store v = PDict d) as [d Hd] by (destruct (json_norm fmt_store v); try done; eauto).
  rewrite Hd in *. rewrite Hav. cbn [res_bind]. destruct Hcase as [->|[-> (e & He & Hc)]]; cbn [is_not_false res_bind]; [eauto|].
  rewrite Hlocal. cbn [default from_option id fmap option_fmap option_map]. rewrite Hd, He. cbn. eauto.
Qed.

(** ** From the file to the document *)

Lemma generated_import source out out_text mode s s1 s2 doc csv rows schema :
  generate_tier_profile cwd source out mode s = (s1, Ok doc) ->
  fs_files s !! normalize [] (absolute cwd source) = Some csv -> _read_rows csv = Ok rows ->
  Forall bench_row rows -> Forall nonneg_row rows -> json_ok (PDict doc) = true ->
  walk s2 [] (absolute cwd out_text) = Some out -> fs_files s2 !! out = fs_files s1 !! out -> 0 ∉ out_text ->
  schema_installed s2 schema -> (forall obj, conforms obj = true -> iter_errors schema obj = []) ->
  exists gs ps data, sorted_groups rows = Ok gs /\ NoDup ps.*1 /\
    Forall2 (fun g (kv : pystr * pyval) => kv.1 = name_of g /\ profile_of_group mode rows g kv.2) gs ps /\
    (is_mode mode = true ->
     (import_profiles_from_tier_profile repo cwd out_text mode (str "local_file_pread") None s2).2 =
     import_document (json_norm fmt_store (PDict (profile_document (path_str source) csv rows mode ps))) out_text data mode (str "local_file_pread")).
Proof.
  intros Hgen Hcsv Hrows Hbench Hnn Hok Hwalk Hout Htext Hschema Hval.
  destruct (generated_profiles _ _ _ _ _ _ _ _ _ Hgen Hcsv Hrows Hbench) as (gs & ps & Hgs & -> & Hnd & Hps & sw & [] & Hw).
  apply write_json_ok in Hw as (text & data & Ht & Hd & Hw).
  assert (fs_files s2 !! out = Some data) as Hfile by (by rewrite Hout, Hw, lookup_insert_eq).
  assert (json_loads_bytes data = Ok (json_norm fmt_store (PDict (profile_document (path_str source) csv rows mode ps)))) as Hload.
  { unfold json_loads_bytes. apply utf8_decode_encode in Hd as ->. by apply json_loads_indent. }
  assert (Forall (fun kv => entry_conforms (json_norm fmt_store kv.2) = true) ps) as Hconf.
  { apply Forall_forall. intros kv Hkv. apply list_elem_of_lookup_1 in Hkv as [j Hj].
    destruct (Forall2_lookup_r _ _ _ _ _ Hps Hj) as (g & _ & _ & Hg). by eapply profile_conforms. }
  exists gs, ps, data. split_and!; try done. intros Hmode.
  unfold import_profiles_from_tier_profile. rewrite Hmode. cbn [negb when]. unfold bind at 1, ret at 1.
  destruct Hschema as [Hf Hrest]. unfold bind at 1. rewrite (read_bytes_run _ _ _ _ _ Hf Htext Hwalk Hfile).
  unfold bind at 1, lift at 1. rewrite Hload. unfold bind at 1.
  destruct (validate_run (next_call s2) schema (json_norm fmt_store (PDict (profile_document (path_str source) csv rows mode ps))))
    as [d' ->]; [by apply installed_next|by apply Hval, document_conforms|]. done.
Qed.

(** The entry of the default engine: it is there when the engine was measured, and if it
    is there it holds the measurements. *)
Lemma pread_entry mode rows gs ps :
  sorted_groups rows = Ok gs -> Forall bench_row rows -> NoDup ps.*1 ->
  Forall2 (fun g (kv : pystr * pyval) => kv.1 = name_of g /\ profile_of_group mode rows g kv.2) gs ps ->
  match dict_get (str "local_file_pread") ps with
  | Some v => profile_of_group mode rows pread_group v
  | None => measured_rows pread_group rows = []
  end.
Proof.
  intros Hgs Hbench Hnd Hps. apply sorted_groups_ok in Hgs as (_ & Hall & Hin).
  destruct (dict_get (str "local_file_pread") ps) as [v|] eqn:E.
  - apply dict_get_elem in E. apply list_elem_of_lookup_1 in E as [i Hi].
    destruct (Forall2_lookup_r _ _ _ _ _ Hps Hi) as (g & Hg & Hname & Hprof). cbn in Hname, Hprof. apply list_elem_of_lookup_2 in Hg.
    destruct (Hin g Hg) as (Hpos & row & Hrow & Hgr). rewrite Forall_forall in Hbench.
    replace pread_group with g; [done|]. apply profile_name_inj; [by apply (Hbench row)|reflexivity|done|done|symmetry; exact Hname].
  - destruct (measured_rows pread_group rows) as [|row l] eqn:Em; [done|]. exfalso.
    assert (row ∈ measured_rows pread_group rows) as Hrow by (rewrite Em; left).
    apply list_elem_of_In, filter_In in Hrow as [Hrow Hg]. apply andb_true_iff in Hg as [Hg _]. unfold in_group in Hg.
    destruct (group_of row) as [g|] eqn:Eg; [|done]. apply bool_decide_eq_true in Hg. subst g.
    destruct (Hall row) as (g & Hg & Hgin); [by apply list_elem_of_In|]. rewrite Eg in Hg. injection Hg as <-.
    apply list_elem_of_lookup_1 in Hgin as [i Hi]. destruct (Forall2_lookup_l _ _ _ _ _ Hps Hi) as ([name v] & Hv & Hname & _).
    cbn in Hname. apply dict_get_None in E. apply E. apply list_elem_of_fmap. exists (name, v). split; [by rewrite Hname|].
    by eapply list_elem_of_lookup_2.
Qed.

(** C26: what the store does with a profile file that the benchmark generated, from rows
    of the benchmark without negative numbers, on a disk that does not fail, with any
    validator that accepts the documents that conform to the repository's schema. If
    the warm single-threaded [pread] engine has successful measurements with a mean
    bandwidth that is not zero, the file is accepted: the NVMe tier gets the percentile
    of the latencies the mode selects and the mean bandwidth, the source names the
    entry, and the S3 tier keeps the built-in profile. Otherwise (the engine was not
    run, every run failed, or nothing was transferred) the import raises
    [ValueError]. *)
Theorem generated_profile_imports source out out_text mode s s1 s2 doc csv rows schema :
  let measured := measured_rows pread_group rows in
  let import := (import_profiles_from_tier_profile repo cwd out_text mode (str "local_file_pread") None s2).2 in
  generate_tier_profile cwd source out mode s = (s1, Ok doc) ->
  fs_files s !! normalize [] (absolute cwd source) = Some csv -> _read_rows csv = Ok rows ->
  Forall bench_row rows -> Forall nonneg_row rows -> json_ok (PDict doc) = true ->
  walk s2 [] (absolute cwd out_text) = Some out -> fs_files s2 !! out = fs_files s1 !! out -> 0 ∉ out_text ->
  schema_installed s2 schema -> (forall obj, conforms obj = true -> iter_errors schema obj = []) ->
  (measured = [] -> exists e, import = Raise e /\ exn_cls e = ValueError) /\
  (measured <> [] -> exists lat bw,
     res_seq (map latency_of measured) = Ok lat /\ res_seq (map (float_item (str "bandwidth_MBps")) measured) = Ok bw /\
     if f64_leb (mean bw) (f64_of_Z 0) then exists e, import = Raise e /\ exn_cls e = ValueError
     else exists r sel, import = Ok r /\ selected_latency lat mode = Ok sel /\
       imp_profiles r NVME = Some (profile sel (f64_div (mean bw) kilo) (f64_of_decimal false 2 (-2)) (f64_of_Z 24)) /\
       imp_sources r NVME = str "tier_profile:local_file_pread:" ++ mode /\
       imp_profiles r Metadata.S3 = Some (built_in Metadata.S3)).
Proof.
  intros measured import Hgen Hcsv Hrows Hbench Hnn Hok Hwalk Hout Htext Hschema Hval.
  destruct (generated_import _ _ _ _ _ _ _ _ _ _ _ Hgen Hcsv Hrows Hbench Hnn Hok Hwalk Hout Htext Hschema Hval)
    as (gs & ps & data & Hgs & Hnd & Hps & Himp). fold import in Himp.
  pose proof (pread_entry mode rows gs ps Hgs Hbench Hnd Hps) as Hentry. fold measured in Hentry.
  assert (Forall2 (fun g (kv : pystr * pyval) => kv.1 = name_of g) gs ps) as Hnames
    by (eapply Forall2_impl; [exact Hps|]; by intros g kv [? _]).
  split.
  - intros Hno. destruct (is_mode mode) eqn:Hmode.
    + rewrite Himp by done. eapply import_refused; [done|exact Hnames|]. destruct (dict_get _ ps) as [v|]; [|done]. cbv zeta.
      destruct Hentry as (lat & bw & cpu & sel & dev & _ & _ & _ & _ & ->). exists (PBool false). split; [|by left].
      rewrite json_norm_dict. unfold py_get. cbn [dict_of res_bind]. rewrite norm_dict_get by apply profile_items_nodup.
      fold measured. rewrite Hno. reflexivity.
    + unfold import, import_profiles_from_tier_profile. rewrite Hmode. cbn. eauto.
  - intros Hne. destruct (dict_get (str "local_file_pread") ps) as [v|] eqn:Ev; [|done].
    destruct Hentry as (lat & bw & cpu & sel & dev & Hl & Hb & _ & Hsel & ->). fold measured in Hl, Hb, Ev. exists lat, bw. split_and!; try done.
    pose proof (selected_ok _ _ _ Hsel) as (Hmode & pct & Epct & Hpct). rewrite Himp by done.
    assert (mean_or_zero bw = mean bw) as Hm.
    { destruct bw; [|done]. apply res_seq_ok in Hb. destruct measured; [done|]. by inversion Hb. }
    change (f64_of_Z 0) with zero_float. rewrite <- Hm. destruct (f64_leb (mean_or_zero bw) zero_float) eqn:Hpos.
    + eapply import_refused; [done|exact Hnames|]. rewrite Ev. cbv zeta.
      destruct (zero_mean_refused mode (str "warm") 1 measured lat bw cpu sel dev pct Hne) as [Hav He]; try done.
      { by eapply bandwidths_nonneg, Hb; apply measured_subset. }
      exists (PBool true). split; [exact Hav|]. right. split; [done|exact He].
    + destruct (import_generated (path_str source) csv rows mode ps gs out_text data lat bw cpu sel dev 1 (str "warm") measured pct)
        as (r & Hr & Hn & Hs & H3); try done.
      exists r, sel. split_and!; try done; rewrite H3; apply default_built_in.
Qed.
End Profile.

(** ** A sample *)

(** A validator of the translated schema. *)
Definition conforming_validator : JsonSchema :=
  {| check_schema _ := Ok tt; iter_errors _ obj := if conforms obj then [] else [([], str "does not conform")] |}.

Definition repo_disk : Fs :=
  mkFs (<[[str "shared"; str "schema"; str "tier_profile.schema.json"] := bstr "{}"]> (fs_files profile_disk))
    ({[ [str "shared"]; [str "shared"; str "schema"] ]} ∪ fs_dirs profile_disk) (fun _ => None) (fun _ _ => []) 0 4096.

Definition generated : Fs * res (list (pystr * pyval)) :=
  @generate_tier_profile ascii_tables plain_builtins plain_platform [] (str "/io.csv") [str "out"; str "profile.json"] (str "p95") repo_disk.

Lemma generated_ok : exists doc, generated.2 = Ok doc /\ json_ok (PDict doc) = true.
Proof.
  assert (match generated.2 with Ok doc => json_ok (PDict doc) | Raise _ => false end = true) as Hg by (vm_compute; reflexivity).
  destruct generated.2 as [doc|e]; [by exists doc|done].
Qed.

Definition sample_measured : list dict_row := @measured_rows ascii_tables pread_group sample_rows.
Definition results_of {A} (f : dict_row -> res A) : list A :=
  match res_seq (map f sample_measured) with Ok l => l | Raise _ => [] end.
Definition sample_latencies : list f64 := results_of (@latency_of plain_builtins).
Definition sample_bandwidths : list f64 := results_of (@float_item plain_builtins (str "bandwidth_MBps")).

Lemma sample_rows_nonneg : Forall (@nonneg_row plain_builtins) sample_rows.
Proof.
  assert (forallb (fun row => forallb (fun k => match @float_item plain_builtins k row with Ok x => nonneg x | Raise _ => true end)
    [str "latency_us"; str "bandwidth_MBps"; str "cpu_user_us"; str "cpu_system_us"]) sample_rows = true) as Hall by (vm_compute; reflexivity).
  apply Forall_forall. intros row Hrow k x Hk Hx. rewrite forallb_forall in Hall.
  specialize (Hall row (proj1 (list_elem_of_In _ _) Hrow)). rewrite forallb_forall in Hall.
  specialize (Hall k (proj1 (list_elem_of_In _ _) Hk)). by rewrite Hx in Hall.
Qed.

Lemma Ok_inj {A} (x y : A) : Ok x = Ok y -> x = y.
Proof. by intros [= ->]. Qed.

Lemma sample_latencies_ok : res_seq (map (@latency_of plain_builtins) (@measured_rows ascii_tables pread_group sample_rows)) = Ok sample_latencies.
Proof. vm_compute. reflexivity. Qed.

Lemma sample_bandwidths_ok :
  res_seq (map (@float_item plain_builtins (str "bandwidth_MBps")) (@measured_rows ascii_tables pread_group sample_rows)) = Ok sample_bandwidths.
Proof. vm_compute. reflexivity. Qed.

Lemma sample_mean_positive : f64_leb (mean sample_bandwidths) (f64_of_Z 0) = false.
Proof. vm_compute. reflexivity. Qed.

Lemma generated_profile_imports_witness :
  exists r sel, (@import_profiles_from_tier_profile ascii_tables plain_builtins conforming_validator [] [] (str "/out/profile.json") (str "p95")
                   (str "local_file_pread") None generated.1).2 = Ok r /\
    selected_latency sample_latencies (str "p95") = Ok sel /\
    imp_profiles r NVME = Some (profile sel (f64_div (mean sample_bandwidths) kilo) (f64_of_decimal false 2 (-2)) (f64_of_Z 24)).
Proof.
  destruct generated_ok as (doc & Hgen & Hok).
  destruct (@generated_profile_imports ascii_tables plain_builtins plain_platform conforming_validator [] [] (str "/io.csv")
    [str "out"; str "profile.json"] (str "/out/profile.json") (str "p95") repo_disk generated.1 generated.1 doc (map mk_byte sample_csv) sample_rows
    (PDict []))
    as (_ & Hacc).
  - rewrite <- Hgen. apply surjective_pairing.
  - vm_compute. reflexivity.
  - vm_compute. reflexivity.
  - exact sample_rows_bench.
  - exact sample_rows_nonneg.
  - exact Hok.
  - vm_compute. reflexivity.
  - reflexivity.
  - apply (bool_decide_eq_true_1 _). vm_compute. reflexivity.
  - split; [vm_compute; reflexivity|]. split; [apply (bool_decide_eq_true_1 _); vm_compute; reflexivity|].
    exists [str "shared"; str "schema"; str "tier_profile.schema.json"], (bstr "{}"), (str "{}"). repeat split; vm_compute; reflexivity.
  - intros obj Hobj. cbn. rewrite Hobj. reflexivity.
  - destruct Hacc as (lat & bw & Hlat & Hbw & Hres); [vm_compute; discriminate|].
    rewrite sample_latencies_ok in Hlat. rewrite sample_bandwidths_ok in Hbw. apply Ok_inj in Hlat, Hbw. subst lat bw.
    rewrite sample_mean_positive in Hres. destruct Hres as (r & sel & Hr & Hsel & Hn & _).
    exists r, sel. split; [exact Hr|]. split; [exact Hsel|exact Hn].
Defined.
