(* ===== verification/RunDemo.v ===== *)
(** * The router demo: [examples/local-demo/run_demo.py]

    A program that reserves ports, serves two fake workers, builds and starts a router,
    sends requests and stops everything. The state has the sockets that are open (with
    the port a socket listens on), the server loops and child processes that run, the
    file system and what was printed; the lists and the process that the functions hold
    in local variables while they may fail are fields too. How the system, the compiler
    and the router answer the n-th call is a record of functions. Signals that interrupt
    Python code between two statements are not modelled. *)

From Stdlib Require Import SpecFloat.
From S2P Require Import Prelude PyText Sha256 Float64 Errors PyVal Json Tokenization BlockHash Layout Url FileSystem PyConv JsonIndent MetricsHttp Clean.
Import MNotations ResNotations.

(** [json.dumps(x)]. *)
Definition fmt_default : jfmt := {| ensure_ascii := true; compact := false; sort_keys := false; allow_nan := true |}.

Definition dumps (v : pyval) : res pybytes := (let? text := json_dumps fmt_default v in encode text)%res.

(** ** The fake workers *)

Definition ROUTER_PORT : Z := 18080.
Definition ADMIN_PORT : Z := 19090.
Definition WORKERS : list (pystr * Z) := [(str "worker-a", 18081); (str "worker-b", 18082)].
Definition DEMO_PORTS : list Z := ROUTER_PORT :: ADMIN_PORT :: map snd WORKERS.

(** What a handler writes: an error page of the standard library, or a response. *)
Inductive Answer :=
| ErrorPage (code : Z) (message : option pystr)
| Answered (response : Response).

Definition stream_event (worker_id : pystr) : pyval :=
  PDict [(str "id", PStr (str "local-" ++ worker_id)); (str "object", PStr (str "chat.completion.chunk"));
         (str "choices", PList [PDict [(str "index", PInt 0);
                                       (str "delta", PDict [(str "content", PStr (str "stream from " ++ worker_id))])]])].

Definition chat_payload (worker_id : pystr) : pyval :=
  PDict [(str "id", PStr (str "local-" ++ worker_id)); (str "object", PStr (str "chat.completion"));
         (str "choices", PList [PDict [(str "index", PInt 0);
            (str "message", PDict [(str "role", PStr (str "assistant")); (str "content", PStr (str "response from " ++ worker_id))]);
            (str "finish_reason", PStr (str "stop"))]])].

Definition text_payload (worker_id : pystr) : pyval :=
  PDict [(str "id", PStr (str "local-" ++ worker_id)); (str "object", PStr (str "text_completion"));
         (str "choices", PList [PDict [(str "index", PInt 0); (str "text", PStr (str "response from " ++ worker_id));
            (str "finish_reason", PStr (str "stop"))]])].

Definition done_event : pybytes := bstr "data: [DONE]" ++ [Byte.x0a; Byte.x0a].

Section Worker.
Context `{UnicodeData} (std : list (pystr * pystr)).
Local Open Scope res_scope.

(** [do_POST]: [input] is what the client sends after the headers; [std] the headers
    that [send_response] adds. *)
Definition do_POST (worker_id path : pystr) (headers : list (pystr * pystr)) (input : pybytes) : res Answer :=
  let? length := int_of_text (default (str "0") (header_get (str "Content-Length") headers)) in
  let raw := if length <? 0 then input else take (Z.to_nat length) input in
  match json_loads_any (match raw with [] => bstr "{}" | _ => raw end) with
  | Raise e => if is_a e JSONDecodeError then Ok (ErrorPage 400 (Some (str "invalid JSON"))) else Raise e
  | Ok request =>
      if negb (bool_decide (path = str "/v1/completions") || bool_decide (path = str "/v1/chat/completions")) then Ok (ErrorPage 404 None)
      else
        let? d := dict_of request in
        if truthy (default PNone (dict_get (str "stream") d)) then
          let? event := dumps (stream_event worker_id) in
          Ok (Answered {| rs_status := 200; rs_headers := std ++ [(str "Content-Type", str "text/event-stream")];
                          rs_body := bstr "data: " ++ event ++ [Byte.x0a; Byte.x0a] ++ done_event |})
        else
          let payload := if bool_decide (path = str "/v1/chat/completions") then chat_payload worker_id else text_payload worker_id in
          let? encoded := dumps payload in
          Ok (Answered {| rs_status := 200;
                          rs_headers := std ++ [(str "Content-Type", str "application/json"); (str "Content-Length", int_repr (zlen encoded))];
                          rs_body := encoded |})
  end.
End Worker.

(** ** The configuration of the router *)

Definition topology (node : pystr) : pyval :=
  PDict [(str "cloud", PStr (str "local")); (str "region", PStr (str "local")); (str "zone", PStr (str "local-a"));
         (str "cluster_id", PStr (str "local-demo")); (str "node_id", PStr node)].

Definition loopback (port : Z) : pystr := str "127.0.0.1:" ++ int_repr port.

Definition worker_config (w : pystr * Z) : pyval :=
  PDict [(str "id", PStr w.1); (str "url", PStr (str "http://" ++ loopback w.2)); (str "health", PStr (str "ready"));
         (str "readiness_state", PStr (str "ready")); (str "weight", PFloat (f64_of_Z 1)); (str "topology", topology w.1)].

Definition _config (strategy : pystr) : pyval :=
  PDict [(str "server", PDict [(str "listen_addr", PStr (loopback ROUTER_PORT)); (str "admin_addr", PStr (loopback ADMIN_PORT))]);
         (str "router", PDict [(str "run_id", PStr (str "local-demo")); (str "strategy", PStr strategy);
            (str "block_size_tokens", PInt 16); (str "cache_ttl_ms", PInt 30000); (str "decision_log_path", PStr []);
            (str "trace_log_path", PStr []); (str "entry_topology", topology (str "router"))]);
         (str "workers", PList (map worker_config WORKERS))].

(** ** The first block of a text *)

Definition _first_block (prompt_text : pystr) : res pystr :=
  (let? tokenized := approximate_tokenize prompt_text TOKENIZER_REVISION in
   let? blocks := compute_blocks (tr_tokens tokenized)
     {| ik_tenant_id := str "default-tenant"; ik_tenant_salt := str "default-salt"; ik_model_id := str "showcase-model";
        ik_model_revision := str "default-revision"; ik_tokenizer_revision := tr_revision tokenized; ik_lora_id := str "none";
        ik_modality_key := str "text"; ik_cache_salt := str "cache-v1" |} 16 in
   match blocks with
   | [] => Raise (err RuntimeError (str "cache-aware demo text produced no approximate blocks"))
   | b :: _ => Ok b
   end)%res.

(** ** The state *)

Record HttpCall := mkHttpCall {
  hc_port : Z;
  hc_method : pystr;
  hc_path : pystr;
  hc_headers : list (pystr * pystr);
  hc_body : option pybytes;
}.

(** How the n-th call is answered. *)
Record Outside := mkOutside {
  o_tmp : path;                                          (* [tempfile.gettempdir()] *)
  o_fails : nat -> option pystr;                         (* the text of an [OSError] *)
  o_starts : nat -> bool;                                (* a thread can be started *)
  o_clock : nat -> f64;                                  (* [time.monotonic()] *)
  o_ended : nat -> bool;                                 (* the process has ended, or ends in time *)
  o_dies : nat -> bool;                                  (* a killed process ends in time *)
  o_reply : nat -> HttpCall -> res Response;             (* an exchange over a connection *)
  o_build : nat -> path -> path -> M Fs unit;            (* [go build], its output and its cache *)
  o_log : nat -> pybytes;                                (* what the router has written *)
}.

Record Demo := mkDemo {
  d_fs : Fs;
  d_socks : gmap nat (option Z);
  d_loops : gset nat;
  d_procs : gmap nat (list pystr);   (* the processes that run, with their commands *)
  d_out : list pystr;
  d_tick : nat;
  d_reserved : list nat;       (* [reservations] *)
  d_started : list nat;        (* [workers] of [_start_workers] *)
  d_workers : list nat;        (* [workers] of [main] *)
  d_router : option nat;       (* [router_process] *)
  d_env : Outside;
}.

Definition set_fs f s := mkDemo f (d_socks s) (d_loops s) (d_procs s) (d_out s) (d_tick s) (d_reserved s) (d_started s) (d_workers s) (d_router s) (d_env s).
Definition set_socks x s := mkDemo (d_fs s) x (d_loops s) (d_procs s) (d_out s) (d_tick s) (d_reserved s) (d_started s) (d_workers s) (d_router s) (d_env s).
Definition set_loops x s := mkDemo (d_fs s) (d_socks s) x (d_procs s) (d_out s) (d_tick s) (d_reserved s) (d_started s) (d_workers s) (d_router s) (d_env s).
Definition set_procs x s := mkDemo (d_fs s) (d_socks s) (d_loops s) x (d_out s) (d_tick s) (d_reserved s) (d_started s) (d_workers s) (d_router s) (d_env s).
Definition add_out x s := mkDemo (d_fs s) (d_socks s) (d_loops s) (d_procs s) (d_out s ++ [x]) (d_tick s) (d_reserved s) (d_started s) (d_workers s) (d_router s) (d_env s).
Definition next_tick s := mkDemo (d_fs s) (d_socks s) (d_loops s) (d_procs s) (d_out s) (S (d_tick s)) (d_reserved s) (d_started s) (d_workers s) (d_router s) (d_env s).
Definition set_reserved x s := mkDemo (d_fs s) (d_socks s) (d_loops s) (d_procs s) (d_out s) (d_tick s) x (d_started s) (d_workers s) (d_router s) (d_env s).
Definition set_started x s := mkDemo (d_fs s) (d_socks s) (d_loops s) (d_procs s) (d_out s) (d_tick s) (d_reserved s) x (d_workers s) (d_router s) (d_env s).
Definition set_workers x s := mkDemo (d_fs s) (d_socks s) (d_loops s) (d_procs s) (d_out s) (d_tick s) (d_reserved s) (d_started s) x (d_router s) (d_env s).
Definition set_router x s := mkDemo (d_fs s) (d_socks s) (d_loops s) (d_procs s) (d_out s) (d_tick s) (d_reserved s) (d_started s) (d_workers s) x (d_env s).

Local Open Scope m_scope.

Definition tick : M Demo nat := fun s => (next_tick s, Ok (d_tick s)).
Definition ask {A} (f : Outside -> nat -> A) : M Demo A := let* n := tick in gets (fun s => f (d_env s) n).
Definition print (line : pystr) : M Demo unit := modify (add_out line).
Definition on_fs {A} (m : M Fs A) : M Demo A := zoom d_fs set_fs m.

(** A call that raises [OSError] when it fails. *)
Definition os_call : M Demo unit :=
  let* failure := ask o_fails in
  match failure with Some text => raise (err OSError text) | None => ret tt end.

(** ** Sockets *)

Definition new_socket : M Demo nat :=
  os_call ;;
  let* id := tick in
  modify (fun s => set_socks (<[id := None]> (d_socks s)) s) ;;
  ret id.

Definition close_socket (id : nat) : M Demo unit := modify (fun s => set_socks (base.delete id (d_socks s)) s).

Fixpoint close_all (ids : list nat) : M Demo unit :=
  match ids with
  | [] => ret tt
  | id :: rest => close_socket id ;; close_all rest
  end.

Definition listened (s : Demo) (port : Z) : bool := existsb (fun x => bool_decide (x.2 = Some port)) (map_to_list (d_socks s)).

(** [bind] and [listen]: a port has one listener. *)
Definition listen (id : nat) (port : Z) : M Demo unit :=
  os_call ;;
  let* busy := gets (fun s => listened s port) in
  if (busy : bool) then raise (err OSError (str "[Errno 98] Address already in use"))
  else modify (fun s => set_socks (<[id := Some port]> (d_socks s)) s).

Fixpoint reserve (ports : list Z) : M Demo unit :=
  match ports with
  | [] => ret tt
  | port :: rest =>
      let* sock := new_socket in
      try_catch (listen sock port)
        (fun e => if is_a e OSError then
                    close_socket sock ;;
                    raise (err_from RuntimeError (str "required demo port " ++ loopback port ++ str " is unavailable: " ++ exn_msg e) e)
                  else raise e) ;;
      modify (fun s => set_reserved (d_reserved s ++ [sock]) s) ;;
      reserve rest
  end.

Definition _assert_ports_available (ports : list Z) : M Demo unit :=
  modify (set_reserved []) ;;
  try_finally (reserve ports) (fun _ => let* socks := gets d_reserved in close_all socks).

(** ** Workers *)

(** [ThreadingHTTPServer((host, port), handler)]: closed again if it cannot listen. *)
Definition http_server (port : Z) : M Demo nat :=
  let* id := new_socket in
  try_catch (listen id port) (fun e => close_socket id ;; raise e) ;;
  ret id.

(** [thread.start()] of a thread that runs [server.serve_forever]. *)
Definition start_loop (id : nat) : M Demo unit :=
  let* starts := ask o_starts in
  if (starts : bool) then modify (fun s => set_loops ({[ id ]} ∪ d_loops s) s)
  else raise (err RuntimeError (str "can't start new thread")).

(** [server.shutdown()] returns when the loop has ended; then the socket is closed. *)
Fixpoint _stop_workers (workers : list nat) : M Demo unit :=
  match workers with
  | [] => ret tt
  | id :: rest =>
      modify (fun s => set_loops (d_loops s ∖ {[ id ]}) s) ;;
      close_socket id ;;
      _stop_workers rest
  end.

Fixpoint start_each (workers : list (pystr * Z)) : M Demo unit :=
  match workers with
  | [] => ret tt
  | (_, port) :: rest =>
      let* server := http_server port in
      start_loop server ;;
      modify (fun s => set_started (d_started s ++ [server]) s) ;;
      start_each rest
  end.

Definition _start_workers : M Demo (list nat) :=
  modify (set_started []) ;;
  try_catch (start_each WORKERS ;; gets d_started)
    (fun e => let* workers := gets d_started in _stop_workers workers ;; raise e).

(** ** Requests *)

(** [needle in hay]. *)
Fixpoint part_of (needle hay : pybytes) : bool :=
  starts_with needle hay || match hay with [] => false | _ :: r => part_of needle r end.

(** [{name.lower(): value for name, value in ...}]. *)
Definition lower_headers (hs : list (pystr * pystr)) : list (pystr * pystr) :=
  foldl (fun d h => dict_set (str_lower h.1) h.2 d) [] hs.

Definition _request (port : Z) (method path : pystr) (payload : option pyval) (headers : list (pystr * pystr))
  : M Demo (Z * list (pystr * pystr) * pybytes) :=
  let* body := lift (match payload with Some p => (let? b := dumps p in Ok (Some b))%res | None => Ok None end) in
  let request_headers :=
    match body with
    | Some b => dict_set (str "Content-Length") (int_repr (zlen b)) (dict_set (str "Content-Type") (str "application/json") headers)
    | None => headers
    end in
  let* connection := new_socket in
  try_finally
    (let* n := tick in
     let* reply := gets (fun s => o_reply (d_env s) n (mkHttpCall port method path request_headers body)) in
     let* response := lift reply in
     ret (rs_status response, lower_headers (rs_headers response), rs_body response))
    (fun _ => close_socket connection).

(** ** The router process *)

Definition go_failed : exn_class := ForeignError (str "CalledProcessError").
Definition timeout_expired : exn := err (ForeignError (str "TimeoutExpired")) (str "timed out").

Definition _build_router (binary cache_dir : path) : M Demo unit :=
  let* n := tick in
  let* build := gets (fun s => o_build (d_env s) n binary cache_dir) in
  on_fs build.

Definition ended (pid : nat) : M Demo unit := modify (fun s => set_procs (base.delete pid (d_procs s)) s).

(** [process.poll() is not None]. *)
Definition poll (pid : nat) : M Demo bool :=
  let* running := gets (fun s => bool_decide (is_Some (d_procs s !! pid))) in
  if (running : bool) then
    let* over := ask o_ended in
    when over (ended pid) ;;
    ret over
  else ret true.

Definition _stop_router (process : option nat) : M Demo unit :=
  match process with
  | None => ret tt
  | Some pid =>
      let* over := poll pid in
      if (over : bool) then ret tt
      else
        let* over := ask o_ended in
        if (over : bool) then ended pid
        else let* dead := ask o_dies in
             if (dead : bool) then ended pid else raise timeout_expired
  end.

(** The loop of [_start_router]: it ends when the clock has passed the deadline. *)
Fixpoint wait_ready (rounds : nat) (deadline : f64) (pid : nat) : M Demo nat :=
  match rounds with
  | O => raise (err RuntimeError (str "Router did not become ready within 5 seconds"))
  | S rounds =>
      let* now := ask o_clock in
      if negb (f64_ltb now deadline) then raise (err RuntimeError (str "Router did not become ready within 5 seconds"))
      else
        let* over := poll pid in
        when over (let* log := ask o_log in
                   raise (err RuntimeError (str "Router exited before readiness:" ++ [10] ++ decode_replace log))) ;;
        let* ready := try_catch (let* (status, _, _) := _request ADMIN_PORT (str "GET") (str "/readyz") None [] in ret (status =? 200))
                        (fun e => if is_a e OSError then ret false else raise e) in
        if (ready : bool) then ret pid else wait_ready rounds deadline pid
  end.

Section Main.
Context (rounds : nat).

Definition _start_router (binary config_path : path) : M Demo nat :=
  os_call ;;
  let* pid := tick in
  modify (fun s => set_procs (<[pid := [path_text binary; str "-config"; path_text config_path]]> (d_procs s)) s) ;;
  try_catch
    (let* now := ask o_clock in
     wait_ready rounds (f64_add now (f64_of_Z 5)) pid)
    (fun e => _stop_router (Some pid) ;; raise e).

(** ** The demo *)

Definition _print_route (label : pystr) (headers : list (pystr * pystr)) : M Demo pystr :=
  let worker := default [] (dict_get (str "x-router-worker-id") headers) in
  let strategy := default [] (dict_get (str "x-router-strategy") headers) in
  let request_hash := default [] (dict_get (str "x-router-request-hash") headers) in
  when (bool_decide (worker = []) || bool_decide (strategy = []) || bool_decide (request_hash = []))
    (raise (err RuntimeError (label ++ str ": Router decision headers are missing"))) ;;
  print (label ++ str ": selected_worker=" ++ worker ++ str " strategy=" ++ strategy ++ str " request_hash=" ++ request_hash) ;;
  ret worker.

Definition completion (prompt : pystr) : pyval :=
  PDict [(str "model", PStr (str "showcase-model")); (str "prompt", PStr prompt); (str "max_tokens", PInt 4)].

Definition chat : pyval :=
  PDict [(str "model", PStr (str "showcase-model"));
         (str "messages", PList [PDict [(str "role", PStr (str "user")); (str "content", PStr (str "second local request"))]]);
         (str "max_tokens", PInt 4); (str "stream", PBool true)].

Definition shared_text : pystr :=
  str "shared prefix alpha beta gamma delta epsilon zeta eta theta iota kappa lambda mu nu xi omicron pi".

Definition cache_event (block_hash : pystr) : pyval :=
  PDict [(str "event_id", PStr (str "local-demo-cache-event")); (str "event_type", PStr (str "block_stored"));
         (str "worker_id", PStr (str "worker-b")); (str "block_hash", PStr block_hash); (str "tier", PStr (str "gpu"));
         (str "tokens", PInt 16); (str "seq_no", PInt 1)].

Definition failed (what : pystr) : M Demo unit := raise (err RuntimeError what).

(** [config.write_text(json.dumps(_config(strategy)))] and the start of the router. *)
Definition launch (binary config_path : path) (strategy : pystr) : M Demo unit :=
  let* text := lift (json_dumps fmt_default (_config strategy)) in
  on_fs (write_text config_path text) ;;
  let* pid := _start_router binary config_path in
  modify (set_router (Some pid)).

Definition round_robin : M Demo unit :=
  let* (status, headers, _) := _request ROUTER_PORT (str "POST") (str "/v1/completions") (Some (completion (str "first local request")))
                                 [(str "X-Request-ID", str "demo-round-one")] in
  when (negb (status =? 200)) (failed (str "round-robin completion returned HTTP " ++ int_repr status)) ;;
  let* worker := _print_route (str "round-robin completion") headers in
  when (negb (bool_decide (worker = str "worker-a"))) (failed (str "first round-robin request did not select worker-a")) ;;
  let* (status, headers, body) := _request ROUTER_PORT (str "POST") (str "/v1/chat/completions") (Some chat)
                                    [(str "X-Request-ID", str "demo-round-two")] in
  when (negb (status =? 200) || negb (part_of (bstr "data: [DONE]") body)) (failed (str "streaming chat response did not complete")) ;;
  let* worker := _print_route (str "round-robin streaming chat") headers in
  when (negb (bool_decide (worker = str "worker-b"))) (failed (str "second round-robin request did not select worker-b")).

Definition cache_aware : M Demo unit :=
  let* block := lift (_first_block shared_text) in
  let* (status, _, _) := _request ADMIN_PORT (str "POST") (str "/admin/events") (Some (cache_event block)) [] in
  when (negb (status =? 200)) (failed (str "cache event returned HTTP " ++ int_repr status)) ;;
  let* (status, headers, _) := _request ROUTER_PORT (str "POST") (str "/v1/completions") (Some (completion shared_text))
                                 [(str "X-Request-ID", str "demo-cache-aware")] in
  when (negb (status =? 200)) (failed (str "cache-aware completion returned HTTP " ++ int_repr status)) ;;
  let* worker := _print_route (str "cache-aware completion") headers in
  when (negb (bool_decide (worker = str "worker-b"))) (failed (str "prefix_hash did not select the Worker with injected cache metadata")).
(** [tempfile.mkdtemp(prefix=prefix)]: the first of its random names that is free. *)
Definition mkdtemp (prefix : pystr) (dir : path) : M Fs path :=
  let* call := gets fs_calls in
  guarded (
    let* s := gets id in
    if negb (is_dir s dir) then raise no_such_file
    else match fresh_name TMP_MAX 0 (fun i => dir ++ [prefix ++ fs_names s call i]) s with
         | None => raise (os_error (str "No usable temporary directory name found"))
         | Some p => modify (set_dirs ({[ p ]} ∪ fs_dirs s)) ;; ret p
         end).

(** [with tempfile.TemporaryDirectory(prefix=prefix) as td]. *)
Definition temporary_directory {A} (prefix : pystr) (m : path -> M Demo A) : M Demo A :=
  let* tmp := gets (fun s => o_tmp (d_env s)) in
  let* td := on_fs (mkdtemp prefix tmp) in
  try_finally (m td) (fun _ => on_fs (rmtree td)).

Definition stop_and_forget : M Demo unit :=
  let* process := gets d_router in
  _stop_router process ;;
  modify (set_router None).

(** The statements in the temporary directory [td]; the log is a temporary file. *)
Definition scenario (td : path) : M Demo unit :=
  let binary := td ++ [str "router"] in
  _build_router binary (td ++ [str "gocache"]) ;;
  os_call ;;
  launch binary (td ++ [str "round-robin.json"]) (str "round_robin") ;;
  round_robin ;;
  stop_and_forget ;;
  launch binary (td ++ [str "prefix-hash.json"]) (str "prefix_hash") ;;
  cache_aware.

(** The exceptions [main] reports. *)
Definition reported (e : exn) : bool := is_a e OSError || is_a e RuntimeError || bool_decide (exn_cls e = go_failed).

Definition attempt : M Demo Z :=
  let* workers := _start_workers in
  modify (set_workers workers) ;;
  temporary_directory (str "ai-showcase-demo-") scenario ;;
  print (str "local Router demo: PASS (all services stopped; no tracked files written)") ;;
  ret 0.

Definition stop_all : M Demo unit :=
  let* process := gets d_router in
  _stop_router process ;;
  let* workers := gets d_workers in
  _stop_workers workers.

Definition main : M Demo Z :=
  _assert_ports_available DEMO_PORTS ;;
  modify (set_workers []) ;;
  modify (set_router None) ;;
  try_finally
    (try_catch attempt
       (fun e => if reported e then print (str "local Router demo: FAIL: " ++ exn_msg e) ;; ret 1 else raise e))
    (fun _ => stop_all).
End Main.
