(* ===== verification/RunDemoSpec.v ===== *)
(** * What the router demo leaves behind

    Whatever the system, the compiler and the router answer, the demo ends with every
    socket closed, no server loop and no child process, and with the files outside the
    temporary directory as they were, provided that threads start and killed processes
    die. It passes only when the router answered as the scenario demands. *)

From Stdlib Require Import SpecFloat.
From S2P Require Import Prelude PyText Sha256 Float64 Errors PyVal Json Tokenization BlockHash Layout Url FileSystem FileSystemFacts PyConv JsonIndent MetricsHttp Clean RunDemo.
Import MNotations ResNotations.
Local Open Scope m_scope.

(** ** Rules *)

Lemma hoare_try_finally {S A} (P : S -> Prop) (m : M S A) fin R (Q : S -> Prop) :
  hoare P m R -> (forall r, hoare (R r) (fin r) (fun _ => Q)) -> hoare P (try_finally m fin) (fun _ => Q).
Proof.
  intros Hm Hf s Hs. specialize (Hm s Hs). unfold try_finally. destruct (m s) as [s1 r]. specialize (Hf r s1 Hm).
  by destruct (fin r s1) as [s2 [|]].
Qed.

Lemma hoare_try_catch {S A} (P : S -> Prop) (m : M S A) h R Q :
  hoare P m R -> (forall a s, R (Ok a) s -> Q (Ok a) s) -> (forall e, hoare (R (Raise e)) (h e) Q) -> hoare P (try_catch m h) Q.
Proof.
  intros Hm Ho Hh s Hs. specialize (Hm s Hs). unfold try_catch. destruct (m s) as [s1 [a|e]]; [by apply Ho|by apply Hh].
Qed.

(** A step that keeps [I] before one that starts from it. *)
Lemma hoare_keep {S A B} (I : S -> Prop) (m : M S A) (f : A -> M S B) Q :
  preserves I m -> (forall a, hoare I (f a) Q) -> (forall e s, I s -> Q (Raise e) s) -> hoare I (bind m f) Q.
Proof. intros Hm Hf He. exact (hoare_bind I m f (fun _ => I) Q Hm Hf He). Qed.

(** A condition that does not depend on the state. *)
Lemma hoare_pure {S A} (c : Prop) (P : S -> Prop) (m : M S A) Q : (c -> hoare P m Q) -> hoare (fun s => c /\ P s) m Q.
Proof. intros Hm s [Hc Hs]. by apply Hm. Qed.

Lemma hoare_pure_r {S A} (c : Prop) (P : S -> Prop) (m : M S A) Q : (c -> hoare P m Q) -> hoare (fun s => P s /\ c) m Q.
Proof. intros Hm s [Hs Hc]. by apply Hm. Qed.

Lemma hoare_exists {S A X} (P : X -> S -> Prop) (m : M S A) Q : (forall x, hoare (P x) m Q) -> hoare (fun s => exists x, P x s) m Q.
Proof. intros Hm s [x Hs]. by apply (Hm x). Qed.

(** A computation that does not raise, and what holds after it. *)
Definition always {S A} (Q : S -> Prop) (r : res A) (s : S) : Prop := is_ok r = true /\ Q s.

Lemma hoare_seq {S A B} (P R : S -> Prop) (m : M S A) (f : A -> M S B) Q :
  hoare P m (always R) -> (forall a, hoare R (f a) Q) -> hoare P (bind m f) Q.
Proof.
  intros Hm Hf s Hs. destruct (Hm s Hs) as [Hok Hr]. unfold bind. destruct (m s) as [s1 [a|e]]; [by apply Hf|done].
Qed.

Lemma hoare_always {S A} (P Q : S -> Prop) (m : M S A) : hoare P m (always Q) -> hoare P m (fun _ => Q).
Proof. intros Hm s Hs. by destruct (Hm s Hs). Qed.

Lemma hoare_modify {S} (P Q : S -> Prop) f : (forall s, P s -> Q (f s)) -> hoare P (modify f) (always Q).
Proof. intros Hf s Hs. split; [done|by apply Hf]. Qed.

(** A variable whose value is known. *)
Lemma hoare_gets {S A B} (P : S -> Prop) (f : S -> A) a (k : A -> M S B) Q :
  (forall s, P s -> f s = a) -> hoare P (k a) Q -> hoare P (bind (gets f) k) Q.
Proof. intros Hf Hk s Hs. specialize (Hk s Hs). unfold bind, gets. by rewrite (Hf s Hs). Qed.

(** ** What is open and running *)

(** The variables of the functions. *)
Record vars := mkVars { v_reserved : list nat; v_started : list nat; v_workers : list nat; v_router : option nat }.
Definition vars_of (s : Demo) : vars := mkVars (d_reserved s) (d_started s) (d_workers s) (d_router s).

(** The open sockets are [S], the loops [L], the processes among [P], the variables [V].
    Identifiers are smaller than the next one. *)
Record At (E : Outside) (V : vars) (S L P : gset nat) (s : Demo) : Prop := {
  at_socks : dom (d_socks s) = S;
  at_loops : d_loops s = L;
  at_procs : dom (d_procs s) ⊆ P;
  at_vars : vars_of s = V;
  at_env : d_env s = E;
  at_fresh : forall i, i ∈ S ∪ P -> (i < d_tick s)%nat;
}.

Ltac at_fields := match goal with Ha : At _ _ _ _ _ _ |- _ => destruct Ha as [Hsocks Hloops Hprocs Hvars Henv Hfresh]; split; cbn; try done end.

Section Keep.
Context {E : Outside} {V : vars} {Ss L P : gset nat}.
Abbreviation I := (At E V Ss L P).

Lemma keep_tick : preserves I tick.
Proof. intros s Hs. cbn. at_fields. intros i Hi. specialize (Hfresh i Hi). lia. Qed.

Lemma keep_ask {A} (f : Outside -> nat -> A) : preserves I (ask f).
Proof. apply preserves_bind; [apply keep_tick|]. intros n. apply preserves_gets. Qed.

(** The answer is one of the environment. *)
Lemma ask_at {A} (f : Outside -> nat -> A) : hoare I (ask f) (fun o s => I s /\ exists n, o = Ok (f E n)).
Proof. intros s Hs. split; [by apply keep_ask|]. exists (d_tick s). unfold ask, bind, gets. cbn. by rewrite (at_env _ _ _ _ _ _ Hs). Qed.

Lemma keep_print line : preserves I (print line).
Proof. intros s Hs. cbn. at_fields. Qed.

Lemma keep_on_fs {A} (m : M Fs A) : preserves I (on_fs m).
Proof. intros s Hs. unfold on_fs, zoom. destruct (m (d_fs s)) as [f r]. cbn. at_fields. Qed.

Lemma keep_os_call : preserves I os_call.
Proof. apply preserves_bind; [apply keep_ask|]. intros [text|]; [apply preserves_raise|apply preserves_ret]. Qed.

(** A new socket, and its end. *)
Lemma new_socket_at :
  hoare I new_socket (fun r s => match r with Ok id => id ∉ Ss /\ At E V ({[ id ]} ∪ Ss) L P s | Raise _ => I s end).
Proof.
  unfold new_socket. apply hoare_keep; [apply keep_os_call| |done]. intros _ s Hs. cbn. split.
  - intros Hin. pose proof (at_fresh _ _ _ _ _ _ Hs (d_tick s)) as Hf. specialize (Hf ltac:(set_solver)). lia.
  - at_fields; [set_solver|]. intros i Hi. destruct (decide (i = d_tick s)) as [->|Hn]; [lia|]. specialize (Hfresh i ltac:(set_solver)). lia.
Qed.

Lemma close_socket_at id Ss' : Ss ∖ {[ id ]} = Ss' -> hoare I (close_socket id) (always (At E V Ss' L P)).
Proof.
  intros <-. apply hoare_modify. intros s Hs. at_fields; [rewrite dom_delete_L; by f_equal|]. intros i Hi. apply Hfresh. set_solver.
Qed.

(** Listening fails with an [OSError]. *)
Lemma listen_at id port : id ∈ Ss -> hoare I (listen id port) (fun r s => I s /\ match r with Raise e => is_a e OSError = true | Ok _ => True end).
Proof.
  intros Hid s Hs. pose proof (keep_tick s Hs) as Ht. unfold listen, os_call, ask, bind, gets. cbn.
  destruct (o_fails _ _) as [text|]; [by split|]. cbn. destruct (listened _ port); [by split|]. split; [|done]. cbn. clear Hs. cbn in Ht.
  at_fields. set_solver.
Qed.
End Keep.

Lemma at_variables E a b w r Ss L P s :
  At E (mkVars a b w r) Ss L P s -> d_reserved s = a /\ d_started s = b /\ d_workers s = w /\ d_router s = r.
Proof. intros Hs. pose proof (at_vars _ _ _ _ _ _ Hs) as Hv. by injection Hv as -> -> -> ->. Qed.

Lemma close_new (Ss : gset nat) id : id ∉ Ss -> ({[ id ]} ∪ Ss) ∖ {[ id ]} = Ss.
Proof. set_solver. Qed.

Create HintDb demo.
Create HintDb frame.
#[export] Hint Resolve keep_tick keep_ask keep_print keep_on_fs keep_os_call preserves_ret preserves_raise preserves_lift preserves_gets : demo.

(** ** Ports *)

Section Ports.
Context {E : Outside} {st w : list nat} {r : option nat} {L P : gset nat}.

(** The open sockets are the reserved ones. *)
Abbreviation reserving l := (At E (mkVars l st w r) (list_to_set l) L P).

Lemma reserve_at ports : forall l, hoare (reserving l) (reserve ports) (fun _ s => exists l', reserving l' s).
Proof.
  induction ports as [|port ports IH]; intros l; cbn [reserve]; [intros s Hs; by exists l|].
  eapply hoare_bind; [apply new_socket_at| |intros e s Hs; by exists l]. intros id. apply hoare_pure. intros Hid.
  apply hoare_bind with (fun o s => match o with Ok _ => At E (mkVars l st w r) ({[ id ]} ∪ list_to_set l) L P s | Raise _ => reserving l s end);
    [| |intros e s Hs; by exists l].
  - eapply hoare_try_catch; [apply listen_at; set_solver|by intros ? ? []|]. intros e. apply hoare_pure_r. intros ->.
    eapply hoare_seq; [apply close_socket_at, close_new, Hid|]. by intros _ s Hs.
  - intros _. eapply hoare_seq; [|intros _; apply (IH (l ++ [id]))]. apply hoare_modify. intros s Hs. rewrite list_to_set_app_L.
    at_fields; [set_solver|unfold vars_of in Hvars |- *; cbn; congruence|]. intros i Hi. apply Hfresh. set_solver.
Qed.

Lemma close_all_at V ids : forall Ss, hoare (At E V Ss L P) (close_all ids) (always (At E V (Ss ∖ list_to_set ids) L P)).
Proof.
  induction ids as [|id ids IH]; intros Ss; cbn [close_all].
  { intros s Hs. cbn. split; [done|]. by rewrite difference_empty_L. }
  eapply hoare_seq; [by apply close_socket_at|]. intros _. eapply hoare_conseq; [apply IH|done|].
  intros o s. cbn. by rewrite difference_difference_l_L.
Qed.

(** Whether or not all ports are free, none is held afterwards. *)
Lemma assert_ports_at l ports :
  hoare (At E (mkVars l st w r) ∅ L P) (_assert_ports_available ports) (fun _ s => exists l', At E (mkVars l' st w r) ∅ L P s).
Proof.
  unfold _assert_ports_available. eapply (hoare_seq _ (reserving [])).
  - apply hoare_modify. intros s Hs. at_fields. unfold vars_of in Hvars |- *. cbn. congruence.
  - intros _. eapply hoare_try_finally; [apply reserve_at|]. intros o s [l' Hs]. unfold bind, gets.
    pose proof (at_vars _ _ _ _ _ _ Hs) as Hv. unfold vars_of in Hv. injection Hv as Hl _ _ _. rewrite Hl.
    destruct (close_all_at _ l' _ s Hs) as [_ Hc]. exists l'. by rewrite difference_diag_L in Hc.
Qed.
End Ports.

(** ** Workers *)

Section Workers.
Context {E : Outside} {P : gset nat}.

Lemma http_server_at V Ss L port :
  hoare (At E V Ss L P) (http_server port)
    (fun o s => match o with Ok id => At E V ({[ id ]} ∪ Ss) L P s | Raise _ => At E V Ss L P s end).
Proof.
  unfold http_server. eapply hoare_bind; [apply new_socket_at| |done]. intros id. apply hoare_pure. intros Hid.
  apply hoare_bind with (fun o s => match o with Ok _ => At E V ({[ id ]} ∪ Ss) L P s | Raise _ => At E V Ss L P s end); [|by intros _ s Hs|done].
  eapply hoare_try_catch; [apply listen_at; set_solver|by intros ? ? []|]. intros e.
  apply hoare_pure_r. intros _.
  eapply hoare_seq; [apply close_socket_at, close_new, Hid|]. by intros _ s Hs.
Qed.

Lemma stop_workers_at V ids : forall Ss L,
  hoare (At E V Ss L P) (_stop_workers ids) (always (At E V (Ss ∖ list_to_set ids) (L ∖ list_to_set ids) P)).
Proof.
  induction ids as [|id ids IH]; intros Ss L; cbn [_stop_workers].
  { intros s Hs. cbn. split; [done|]. by rewrite !difference_empty_L. }
  eapply (hoare_seq _ (At E V Ss (L ∖ {[ id ]}) P)); [apply hoare_modify; intros s Hs; at_fields; by f_equal|]. intros _.
  eapply hoare_seq; [by apply close_socket_at|]. intros _. eapply hoare_conseq; [apply IH|done|].
  intros o s. cbn. by rewrite !difference_difference_l_L.
Qed.

Context {res w : list nat} {r : option nat}.

(** The open sockets, and the loops, are those of the workers started. *)
Abbreviation serving l := (At E (mkVars res l w r) (list_to_set l) (list_to_set l) P).

Lemma start_each_at ws : (forall n, o_starts E n = true) ->
  forall l, hoare (serving l) (start_each ws) (fun o s => exists l', serving l' s).
Proof.
  intros Hstarts. induction ws as [|[name port] ws IH]; intros l; cbn [start_each]; [intros s Hs; by exists l|].
  eapply hoare_bind; [apply http_server_at| |intros e s Hs; by exists l]. intros id.
  eapply (hoare_seq _ (At E (mkVars res l w r) ({[ id ]} ∪ list_to_set l) ({[ id ]} ∪ list_to_set l) P)).
  - intros s Hs. pose proof (keep_tick s Hs) as Ht. unfold start_loop, ask, bind, gets. cbn. rewrite (at_env _ _ _ _ _ _ Hs), Hstarts. split; [done|].
    cbn. clear Hs. cbn in Ht. at_fields. f_equal. exact Hloops.
  - intros _. eapply hoare_seq; [|intros _; apply (IH (l ++ [id]))]. apply hoare_modify. intros s Hs. rewrite list_to_set_app_L.
    at_fields; [set_solver|set_solver|unfold vars_of in Hvars |- *; cbn; congruence|]. intros i Hi. apply Hfresh. set_solver.
Qed.

Lemma start_workers_at l : (forall n, o_starts E n = true) ->
  hoare (At E (mkVars res l w r) ∅ ∅ P) _start_workers
    (fun o s => match o with
                | Ok ws => At E (mkVars res ws w r) (list_to_set ws) (list_to_set ws) P s
                | Raise _ => exists l', At E (mkVars res l' w r) ∅ ∅ P s
                end).
Proof.
  intros Hstarts. unfold _start_workers. eapply (hoare_seq _ (serving [])).
  { apply hoare_modify. intros s Hs. at_fields. unfold vars_of in Hvars |- *. cbn. congruence. }
  intros _. eapply (hoare_try_catch _ _ _ (fun o s => exists l', serving l' s /\ match o with Ok ws => ws = l' | Raise _ => True end)).
  - eapply hoare_bind; [by apply start_each_at| |intros e s [l' Hs]; by exists l']. intros _ s [l' Hs]. exists l'. split; [exact Hs|].
    cbn. pose proof (at_vars _ _ _ _ _ _ Hs) as Hv. unfold vars_of in Hv. congruence.
  - by intros ws s (l' & Hs & ->).
  - intros e s (l' & Hs & _). unfold bind, gets. pose proof (at_vars _ _ _ _ _ _ Hs) as Hv. unfold vars_of in Hv. injection Hv as _ Hl _ _.
    rewrite Hl. destruct (stop_workers_at _ l' _ _ s Hs) as [Hok Hc]. rewrite !difference_diag_L in Hc.
    destruct (_stop_workers l' s) as [s' [u|e']]; [|done]. by exists l'.
Qed.
End Workers.

(** ** Requests and the router *)

Section Router.
Context {E : Outside}.

Lemma keep_request {V Ss L P} port method path payload headers :
  preserves (At E V Ss L P) (_request port method path payload headers).
Proof.
  unfold _request. apply preserves_bind; [auto with demo|]. intros body. apply hoare_preserves.
  eapply hoare_bind; [apply new_socket_at| |done]. intros id. apply hoare_pure. intros Hid.
  apply (hoare_try_finally _ _ _ (fun _ => At E V ({[ id ]} ∪ Ss) L P)).
  - apply hoare_preserves. apply preserves_bind; [auto with demo|]. intros n. apply preserves_bind; [auto with demo|]. intros reply.
    apply preserves_bind; auto with demo.
  - intros r. by apply hoare_always, close_socket_at, close_new.
Qed.

(** Asking for a process can only show that it has ended. *)
Lemma ended_at {V Ss L P} pid : hoare (At E V Ss L P) (ended pid) (always (At E V Ss L (P ∖ {[ pid ]}))).
Proof.
  apply hoare_modify. intros s Hs. at_fields.
  - rewrite dom_delete_L. set_solver.
  - intros i Hi. apply Hfresh. set_solver.
Qed.

Lemma keep_ended {V Ss L P} pid : preserves (At E V Ss L P) (ended pid).
Proof. intros s Hs. cbn. at_fields. rewrite dom_delete_L. set_solver. Qed.

Lemma poll_at {V Ss L P} pid :
  hoare (At E V Ss L P) (poll pid) (fun o s => exists b, o = Ok b /\ if (b : bool) then At E V Ss L (P ∖ {[ pid ]}) s else At E V Ss L P s).
Proof.
  intros s Hs. unfold poll, ask, bind, gets, when, tick. cbn. destruct (bool_decide (is_Some (d_procs s !! pid))) eqn:Hp; cbn.
  - pose proof (keep_tick s Hs) as Ht. destruct (o_ended _ _); cbn.
    + exists true. split; [done|]. exact (proj2 (ended_at pid _ Ht)).
    + exists false. split; [done|exact Ht].
  - exists true. split; [done|]. cbn. at_fields.
    + apply bool_decide_eq_false in Hp. rewrite <- elem_of_dom in Hp. set_solver.
    + intros i Hi. apply Hfresh. set_solver.
Qed.

Lemma keep_poll {V Ss L P} pid : preserves (At E V Ss L P) (poll pid).
Proof.
  unfold poll. apply preserves_bind; [auto with demo|]. intros []; [|auto with demo]. apply preserves_bind; [auto with demo|]. intros over.
  apply preserves_bind; [apply preserves_when, keep_ended|auto with demo].
Qed.

Lemma stop_router_at {V Ss L P} pid : (forall n, o_dies E n = true) ->
  hoare (At E V Ss L P) (_stop_router (Some pid)) (always (At E V Ss L (P ∖ {[ pid ]}))).
Proof.
  intros Hdies. unfold _stop_router. eapply hoare_bind; [apply poll_at| |by intros e s (b & [=] & _)]. intros [|].
  { intros s (b & [= <-] & Hs). by split. }
  eapply (hoare_bind _ _ _ (fun o s => At E V Ss L P s /\ exists n, o = Ok (o_ended E n))); [| |by intros e s (_ & n & [=])].
  { intros s (b & [= <-] & Hs). by apply ask_at. }
  intros [|]; [intros s [Hs _]; by apply ended_at|].
  eapply (hoare_bind _ _ _ (fun o s => At E V Ss L P s /\ exists n, o = Ok (o_dies E n))); [| |by intros e s (_ & n & [=])].
  { intros s [Hs _]. by apply ask_at. }
  intros dead. apply hoare_pure_r. intros (n & [= ->]). rewrite Hdies. apply ended_at.
Qed.

Lemma wait_ready_at {V Ss L P} deadline pid : forall rounds,
  hoare (At E V Ss L P) (wait_ready rounds deadline pid) (fun o s => At E V Ss L P s /\ match o with Ok q => q = pid | Raise _ => True end).
Proof.
  induction rounds as [|rounds IH]; cbn [wait_ready]; [by intros s Hs|]. apply hoare_keep; [auto with demo| |done]. intros now.
  destruct (negb _); [by intros s Hs|]. apply hoare_keep; [apply keep_poll| |done]. intros over.
  apply hoare_keep; [apply preserves_when, preserves_bind; auto with demo| |done]. intros _. apply hoare_keep; [| |done].
  - apply preserves_try_catch; [|intros e; destruct (is_a e OSError); auto with demo]. apply preserves_bind; [apply keep_request|].
    intros [[status headers] body]. auto with demo.
  - intros [|]; [by intros s Hs|exact IH].
Qed.

Lemma start_router_at {V Ss L} rounds binary config : (forall n, o_dies E n = true) ->
  hoare (At E V Ss L ∅) (_start_router rounds binary config)
    (fun o s => match o with Ok pid => At E V Ss L {[ pid ]} s | Raise _ => At E V Ss L ∅ s end).
Proof.
  intros Hdies. unfold _start_router. apply hoare_keep; [auto with demo| |done]. intros _.
  eapply (hoare_bind _ _ _ (fun o s => match o with Ok pid => At E V Ss L ∅ s /\ (pid < d_tick s)%nat | Raise _ => False end)); [| |done].
  { intros s Hs. cbn. split; [by apply keep_tick|]. lia. }
  intros pid. eapply (hoare_seq _ (At E V Ss L {[ pid ]})).
  - intros s [Hs Hpid]. split; [done|]. cbn. at_fields; [rewrite dom_insert_L; set_solver|]. intros i Hi.
    destruct (decide (i = pid)) as [->|Hn]; [done|]. apply Hfresh. set_solver.
  - intros _. eapply (hoare_try_catch _ _ _ (fun o s => At E V Ss L {[ pid ]} s /\ match o with Ok q => q = pid | Raise _ => True end)).
    + apply hoare_keep; [auto with demo| |done]. intros now. apply wait_ready_at.
    + by intros q s [Hs ->].
    + intros e. apply hoare_pure_r. intros _. eapply hoare_seq; [by apply stop_router_at|]. intros _ s Hs. cbn.
      by rewrite difference_diag_L in Hs.
Qed.
End Router.

(** ** The scenario *)

Section Scenario.
Context {E : Outside} (Hstarts : forall n, o_starts E n = true) (Hdies : forall n, o_dies E n = true) (rounds : nat).

Definition procs_of (r : option nat) : gset nat := match r with Some pid => {[ pid ]} | None => ∅ end.

(** The workers of [main] serve, and the process of [main] is the only one. *)
Definition live (w : list nat) (s : Demo) : Prop :=
  exists a b r, At E (mkVars a b w r) (list_to_set w) (list_to_set w) (procs_of r) s.

Lemma set_router_at a b w r Ss L P r' :
  hoare (At E (mkVars a b w r) Ss L P) (modify (set_router r')) (always (At E (mkVars a b w r') Ss L P)).
Proof. apply hoare_modify. intros s Hs. at_fields. unfold vars_of in Hvars |- *. cbn. congruence. Qed.

Lemma launch_at a b w Ss L binary config strategy :
  hoare (At E (mkVars a b w None) Ss L ∅) (launch rounds binary config strategy)
    (fun o s => match o with
                | Ok _ => exists pid, At E (mkVars a b w (Some pid)) Ss L {[ pid ]} s
                | Raise _ => At E (mkVars a b w None) Ss L ∅ s
                end).
Proof.
  unfold launch. apply hoare_keep; [auto with demo| |done]. intros text. apply hoare_keep; [auto with demo| |done]. intros _.
  eapply hoare_bind; [by apply start_router_at| |done]. intros pid. eapply hoare_conseq; [apply set_router_at|done|].
  intros o s [Ho Hs]. destruct o; [|done]. by exists pid.
Qed.

Lemma keep_print_route V Ss L P label headers : preserves (At E V Ss L P) (_print_route label headers).
Proof. unfold _print_route. apply preserves_bind; [apply preserves_when; auto with demo|]. intros _. apply preserves_bind; auto with demo. Qed.

Lemma keep_failed V Ss L P b what : preserves (At E V Ss L P) (when b (failed what)).
Proof. apply preserves_when, preserves_raise. Qed.

#[local] Hint Resolve keep_request keep_print_route keep_failed : demo.

Ltac keep_steps := repeat first [apply preserves_bind; [solve [auto with demo]|intros ?] | progress auto with demo | case_match].

Lemma keep_round_robin V Ss L P : preserves (At E V Ss L P) round_robin.
Proof. unfold round_robin. keep_steps. Qed.

Lemma keep_cache_aware V Ss L P : preserves (At E V Ss L P) cache_aware.
Proof. unfold cache_aware. keep_steps. Qed.

Lemma stop_and_forget_at a b w Ss L pid :
  hoare (At E (mkVars a b w (Some pid)) Ss L {[ pid ]}) stop_and_forget (always (At E (mkVars a b w None) Ss L ∅)).
Proof.
  unfold stop_and_forget. apply (hoare_gets _ _ (Some pid)); [by intros s (_ & _ & _ & Hr)%at_variables|].
  eapply hoare_seq; [by apply stop_router_at|]. intros _. rewrite difference_diag_L. apply set_router_at.
Qed.

Lemma scenario_at a b w td :
  hoare (At E (mkVars a b w None) (list_to_set w) (list_to_set w) ∅) (scenario rounds td) (fun _ => live w).
Proof.
  assert (forall r s, At E (mkVars a b w r) (list_to_set w) (list_to_set w) (procs_of r) s -> live w s) as Hlive by (intros r s Hs; by exists a, b, r).
  unfold scenario. apply hoare_keep; [|intros _|intros e s Hs; by apply (Hlive None)].
  { unfold _build_router. apply preserves_bind; [auto with demo|]. intros n. apply preserves_bind; auto with demo. }
  apply hoare_keep; [auto with demo|intros _|intros e s Hs; by apply (Hlive None)].
  eapply hoare_bind; [apply launch_at| |intros e s Hs; by apply (Hlive None)]. intros u. cbn beta iota. apply hoare_exists. intros pid.
  apply hoare_keep; [apply keep_round_robin|intros _|intros e s Hs; by apply (Hlive (Some pid))].
  eapply hoare_seq; [apply stop_and_forget_at|intros _].
  eapply hoare_bind; [apply launch_at| |intros e s Hs; by apply (Hlive None)]. intros u' s [pid' Hs].
  apply (Hlive (Some pid')). by apply keep_cache_aware.
Qed.

Lemma attempt_at a b : hoare (At E (mkVars a b [] None) ∅ ∅ ∅) (attempt rounds) (fun _ s => exists w, live w s).
Proof.
  unfold attempt. eapply hoare_bind; [by apply start_workers_at| |].
  2: { intros e s [b' Hs]. exists [], a, b', None. exact Hs. }
  intros w. eapply (hoare_seq _ (At E (mkVars a w w None) (list_to_set w) (list_to_set w) ∅)).
  { apply hoare_modify. intros s Hs. at_fields. unfold vars_of in Hvars |- *. cbn. congruence. }
  intros _. eapply (hoare_bind _ _ _ (fun _ => live w)); [| |intros e s Hs; by exists w].
  - unfold temporary_directory. apply hoare_keep; [auto with demo|intros tmp|intros e s Hs; by exists a, w, None].
    apply hoare_keep; [auto with demo|intros td|intros e s Hs; by exists a, w, None].
    eapply hoare_try_finally; [apply scenario_at|]. intros o s (x & y & r & Hs). exists x, y, r. by apply keep_on_fs.
  - intros _ s (x & y & r & Hs). exists w, x, y, r. revert s Hs. apply (preserves_bind _ (print _)); auto with demo.
Qed.

(** Everything is stopped. *)
Lemma stop_all_at w : hoare (live w) stop_all (always (fun s => dom (d_socks s) = ∅ /\ d_loops s = ∅ /\ dom (d_procs s) = ∅)).
Proof.
  apply hoare_exists. intros a. apply hoare_exists. intros b. apply hoare_exists. intros r. unfold stop_all.
  apply (hoare_gets _ _ r); [by intros s (_ & _ & _ & Hr)%at_variables|].
  eapply (hoare_seq _ (At E (mkVars a b w r) (list_to_set w) (list_to_set w) ∅)).
  - destruct r as [pid|]; cbn [procs_of]; [|by intros s Hs]. pose proof (stop_router_at (V := mkVars a b w (Some pid)) (Ss := list_to_set w) (L := list_to_set w) (P := {[ pid ]}) pid Hdies) as Hstop.
    by rewrite difference_diag_L in Hstop.
  - intros _. apply (hoare_gets _ _ w); [by intros s (_ & _ & Hw & _)%at_variables|].
    intros s Hs. destruct (stop_workers_at _ w _ _ s Hs) as [Hok [Hsocks Hloops Hprocs _ _ _]]. split; [done|].
    rewrite difference_diag_L in Hsocks, Hloops. split_and!; [done|done|set_solver].
Qed.
End Scenario.

(** ** The files *)

(** Outside [tmp] the files are those of [f0]. *)
Definition untouched (tmp : path) (f0 : gmap path pybytes) (f : Fs) : Prop := forall p, ~ tmp `prefix_of` p -> fs_files f !! p = f0 !! p.

Section Untouched.
Context (tmp : path) (f0 : gmap path pybytes).
Abbreviation U := (untouched tmp f0).

Lemma untouched_guarded {A} (m : M Fs A) : preserves U m -> preserves U (guarded m).
Proof. intros Hm s Hs. unfold guarded, syscall, bind. destruct (fs_faults s (fs_calls s)); cbn; [exact Hs|]. by apply Hm. Qed.

Lemma untouched_set p g s : tmp `prefix_of` p -> (forall q, q <> p -> g !! q = fs_files s !! q) -> U s -> U (set_files g s).
Proof. intros Hp Hg Hs q Hq. cbn. rewrite Hg; [by apply Hs|]. by intros ->. Qed.

Lemma untouched_append p data : tmp `prefix_of` p -> preserves U (append_file p data).
Proof.
  intros Hp s Hs. unfold append_file, syscall, bind, gets, id. cbn. destruct (is_dir _ p); [exact Hs|]. destruct (negb _); [exact Hs|].
  destruct (fs_faults s _); cbn; (eapply untouched_set; [exact Hp| |exact Hs]); intros q Hq; by rewrite lookup_insert_ne.
Qed.

Lemma untouched_write_file p data : tmp `prefix_of` p -> preserves U (write_file p data).
Proof.
  intros Hp. apply preserves_bind; [|intros _; by apply untouched_append]. apply untouched_guarded. intros s Hs. unfold bind, gets, id.
  destruct (is_dir s p); [exact Hs|]. destruct (negb _); [exact Hs|]. eapply untouched_set; [exact Hp| |exact Hs]. intros q Hq. by rewrite lookup_insert_ne.
Qed.

Lemma untouched_write_text p text : tmp `prefix_of` p -> preserves U (write_text p text).
Proof.
  intros Hp. unfold write_text. destruct (utf8_encode text); [by apply untouched_write_file|].
  apply preserves_bind; [by apply untouched_write_file|]. intros _. apply preserves_raise.
Qed.

Lemma untouched_mkdtemp prefix dir : preserves U (mkdtemp prefix dir).
Proof.
  apply preserves_bind; [apply preserves_gets|]. intros call. apply untouched_guarded. intros s Hs. unfold bind, gets, id.
  destruct (negb _); [exact Hs|]. by destruct (fresh_name _ _ _ _).
Qed.

(** The new directory is one of [dir]. *)
Lemma mkdtemp_below prefix dir s s' td : mkdtemp prefix dir s = (s', Ok td) -> dir `prefix_of` td.
Proof.
  intros (call & s1 & _ & Hm)%bind_ok. apply guarded_ok in Hm. apply bind_ok in Hm as (x & s2 & Hx & Hm). injection Hx as <- <-.
  destruct (negb _); [done|]. destruct (fresh_name _ _ _ _) as [p|] eqn:En; [|done]. injection Hm as _ <-.
  apply fresh_name_new in En as (_ & j & ->). by apply prefix_app_r.
Qed.

Lemma untouched_remove_all ps : (forall p, p ∈ ps -> tmp `prefix_of` p) -> preserves U (remove_all ps).
Proof.
  induction ps as [|p ps IH]; intros Hps; cbn [remove_all]; [apply preserves_ret|]. apply preserves_bind; [apply preserves_gets|]. intros file.
  apply preserves_bind; [|intros _; apply IH; intros q Hq; apply Hps; by right]. destruct file; apply untouched_guarded; intros s Hs; unfold bind, gets, id.
  - destruct (fs_files s !! p); [|by destruct (is_dir s p)]. apply (untouched_set p); [apply Hps; left| |exact Hs]. intros q Hq. by rewrite lookup_delete_ne.
  - destruct (negb _); [exact Hs|]. destruct (existsb _ _); exact Hs.
Qed.

Lemma untouched_rmtree td : tmp `prefix_of` td -> preserves U (rmtree td).
Proof.
  intros Htd. apply preserves_bind; [apply preserves_gets|]. intros [].
  - apply preserves_gets_bind. intros s. apply untouched_remove_all. intros p [Hp _]%tree_elem. by etrans.
  - apply preserves_bind; [apply preserves_gets|]. intros file. apply preserves_raise.
Qed.
End Untouched.

(** ** What depends on the files, the environment and the number of calls only *)

Section Frame.
Context (I : Demo -> Prop).
Context (HI : forall s s', d_fs s' = d_fs s -> d_env s' = d_env s -> (d_tick s <= d_tick s')%nat -> I s -> I s').

Lemma frame_modify f :
  (forall s, d_fs (f s) = d_fs s) -> (forall s, d_env (f s) = d_env s) -> (forall s, (d_tick s <= d_tick (f s))%nat) -> preserves I (modify f).
Proof. intros Hf He Ht. apply preserves_modify. intros s. by apply HI. Qed.

Lemma frame_tick : preserves I tick.
Proof. intros s. apply HI; cbn; [done|done|lia]. Qed.

#[local] Hint Resolve frame_tick preserves_ret preserves_raise preserves_lift preserves_gets : frame.

Ltac frame :=
  repeat first
    [ progress auto with frame
    | apply preserves_bind; [|intros ?]
    | apply preserves_try_catch; [|intros ?]
    | apply preserves_try_finally; [|intros ?]
    | apply preserves_when
    | apply frame_modify; [done|done|done]
    | case_match ].

Lemma frame_ask {A} (f : Outside -> nat -> A) : preserves I (ask f).
Proof. unfold ask. frame. Qed.
#[local] Hint Resolve frame_ask : frame.

Lemma frame_os_call : preserves I os_call.
Proof. unfold os_call. frame. Qed.
#[local] Hint Resolve frame_os_call : frame.

Lemma frame_new_socket : preserves I new_socket.
Proof. unfold new_socket. frame. Qed.

Lemma frame_close_socket id : preserves I (close_socket id).
Proof. unfold close_socket. frame. Qed.
#[local] Hint Resolve frame_new_socket frame_close_socket : frame.

Lemma frame_close_all ids : preserves I (close_all ids).
Proof. induction ids; cbn [close_all]; frame. Qed.
#[local] Hint Resolve frame_close_all : frame.

Lemma frame_listen id port : preserves I (listen id port).
Proof. unfold listen. frame. Qed.
#[local] Hint Resolve frame_listen : frame.

Lemma frame_assert_ports ports : preserves I (_assert_ports_available ports).
Proof.
  assert (preserves I (reserve ports)) by (induction ports; cbn [reserve]; frame). unfold _assert_ports_available. frame.
Qed.

Lemma frame_stop_workers ids : preserves I (_stop_workers ids).
Proof. induction ids; cbn [_stop_workers]; frame. Qed.
#[local] Hint Resolve frame_stop_workers : frame.

Lemma frame_start_workers : preserves I _start_workers.
Proof.
  assert (forall ws, preserves I (start_each ws)) by (induction ws as [|[]]; cbn [start_each]; unfold http_server, start_loop; frame).
  unfold _start_workers. frame.
Qed.

Lemma frame_request port method path payload headers : preserves I (_request port method path payload headers).
Proof. unfold _request. frame. Qed.
#[local] Hint Resolve frame_request : frame.

Lemma frame_stop_router process : preserves I (_stop_router process).
Proof. destruct process; unfold _stop_router, poll, ended; frame. Qed.
#[local] Hint Resolve frame_stop_router : frame.

Lemma frame_wait_ready deadline pid rounds : preserves I (wait_ready rounds deadline pid).
Proof. induction rounds; cbn [wait_ready]; unfold poll, ended; frame. Qed.
#[local] Hint Resolve frame_wait_ready : frame.

Lemma frame_start_router rounds binary config : preserves I (_start_router rounds binary config).
Proof. unfold _start_router. frame. Qed.

Lemma frame_print_route label headers : preserves I (_print_route label headers).
Proof. unfold _print_route, print. frame. Qed.
#[local] Hint Resolve frame_start_router frame_print_route : frame.

Lemma frame_round_robin : preserves I round_robin.
Proof. unfold round_robin, failed. frame. Qed.

Lemma frame_cache_aware : preserves I cache_aware.
Proof. unfold cache_aware, failed. frame. Qed.

Lemma frame_stop_all : preserves I stop_all.
Proof. unfold stop_all. frame. Qed.

Lemma frame_stop_and_forget : preserves I stop_and_forget.
Proof. unfold stop_and_forget. frame. Qed.

Lemma frame_print line : preserves I (print line).
Proof. unfold print. frame. Qed.
End Frame.

(** ** Nothing is left *)

(** The build writes below the temporary directory only. *)
Definition confined (E : Outside) : Prop :=
  forall n binary cache f0, o_tmp E `prefix_of` binary -> o_tmp E `prefix_of` cache -> preserves (untouched (o_tmp E) f0) (o_build E n binary cache).

Section Files.
Context (E : Outside) (Hbuild : confined E) (f0 : gmap path pybytes) (rounds : nat).

Definition filed (s : Demo) : Prop := untouched (o_tmp E) f0 (d_fs s) /\ d_env s = E.

Lemma filed_frame s s' : d_fs s' = d_fs s -> d_env s' = d_env s -> (d_tick s <= d_tick s')%nat -> filed s -> filed s'.
Proof. unfold filed. by intros -> ->. Qed.

Lemma filed_on_fs {A} (m : M Fs A) : preserves (untouched (o_tmp E) f0) m -> preserves filed (on_fs m).
Proof. intros Hm s [Hf He]. specialize (Hm (d_fs s) Hf). unfold on_fs, zoom. by destruct (m (d_fs s)). Qed.

Lemma filed_launch binary config strategy : o_tmp E `prefix_of` config -> preserves filed (launch rounds binary config strategy).
Proof.
  intros Hc. unfold launch. apply preserves_bind; [apply preserves_lift|]. intros text.
  apply preserves_bind; [by apply filed_on_fs, untouched_write_text|]. intros _.
  apply preserves_bind; [apply frame_start_router, filed_frame|]. intros pid. by apply frame_modify; [apply filed_frame|..].
Qed.

Lemma filed_scenario td : o_tmp E `prefix_of` td -> preserves filed (scenario rounds td).
Proof.
  intros Htd. assert (forall name, o_tmp E `prefix_of` td ++ [name]) as Hin by (intros name; by apply prefix_app_r).
  unfold scenario. apply preserves_bind; [|intros _].
  { unfold _build_router. apply preserves_bind; [apply frame_tick, filed_frame|]. intros n s Hs. unfold bind, gets. rewrite (proj2 Hs).
    revert s Hs. apply filed_on_fs, Hbuild; apply Hin. }
  apply preserves_bind; [apply frame_os_call, filed_frame|intros _]. apply preserves_bind; [apply filed_launch, Hin|intros _].
  apply preserves_bind; [apply frame_round_robin, filed_frame|intros _]. apply preserves_bind; [apply frame_stop_and_forget, filed_frame|intros _].
  apply preserves_bind; [apply filed_launch, Hin|intros _]. apply frame_cache_aware, filed_frame.
Qed.

Lemma filed_temporary_directory prefix : preserves filed (temporary_directory prefix (scenario rounds)).
Proof.
  unfold temporary_directory. intros s Hs. unfold bind at 1, gets at 1. rewrite (proj2 Hs).
  pose proof (filed_on_fs _ (untouched_mkdtemp (o_tmp E) f0 prefix (o_tmp E)) s Hs) as Hd. unfold bind.
  destruct (on_fs (mkdtemp prefix (o_tmp E)) s) as [s1 [td|e]] eqn:Em; [|exact Hd]. cbn in Hd.
  assert (o_tmp E `prefix_of` td) as Htd.
  { unfold on_fs, zoom in Em. destruct (mkdtemp prefix (o_tmp E) (d_fs s)) as [f o] eqn:Ef. injection Em as _ ->. by apply mkdtemp_below in Ef. }
  revert s1 Hd Em. intros s1 Hd _. revert s1 Hd. apply preserves_try_finally; [by apply filed_scenario|]. intros _.
  by apply filed_on_fs, untouched_rmtree.
Qed.

Lemma filed_main : preserves filed (main rounds).
Proof.
  unfold main. apply preserves_bind; [apply frame_assert_ports, filed_frame|intros _].
  apply preserves_bind; [by apply frame_modify; [apply filed_frame|..]|intros _].
  apply preserves_bind; [by apply frame_modify; [apply filed_frame|..]|intros _].
  apply preserves_try_finally; [|intros o; apply frame_stop_all, filed_frame]. apply preserves_try_catch.
  - unfold attempt. apply preserves_bind; [apply frame_start_workers, filed_frame|intros w].
    apply preserves_bind; [by apply frame_modify; [apply filed_frame|..]|intros _].
    apply preserves_bind; [apply filed_temporary_directory|intros _].
    apply preserves_bind; [apply frame_print, filed_frame|intros _]. apply preserves_ret.
  - intros e. destruct (reported e); [|apply preserves_raise]. apply preserves_bind; [apply frame_print, filed_frame|intros _]. apply preserves_ret.
Qed.
End Files.

Definition idle (s : Demo) : Prop := d_socks s = ∅ /\ d_loops s = ∅ /\ d_procs s = ∅.

Lemma empty_idle s : dom (d_socks s) = ∅ -> d_loops s = ∅ -> dom (d_procs s) ⊆ ∅ -> idle s.
Proof. intros Hs Hl Hp. split_and!; [by apply dom_empty_inv_L|done|apply dom_empty_inv_L; set_solver]. Qed.

Lemma main_idle E rounds a b w r : (forall n, o_starts E n = true) -> (forall n, o_dies E n = true) ->
  hoare (At E (mkVars a b w r) ∅ ∅ ∅) (main rounds) (fun _ => idle).
Proof.
  intros Hstarts Hdies. assert (forall V s, At E V ∅ ∅ ∅ s -> idle s) as Hidle by (intros V s []; by apply empty_idle).
  unfold main. eapply hoare_bind; [apply assert_ports_at| |intros e s [a' Hs]; by apply Hidle in Hs]. intros u. cbn beta iota. apply hoare_exists. intros a'.
  eapply (hoare_seq _ (At E (mkVars a' b [] r) ∅ ∅ ∅)); [apply hoare_modify; intros s Hs; at_fields; unfold vars_of in Hvars |- *; cbn; congruence|].
  intros _. eapply hoare_seq; [apply set_router_at|]. intros _.
  apply (hoare_try_finally _ _ _ (fun _ s => exists w', live (E := E) w' s)).
  - eapply hoare_try_catch; [by apply attempt_at|done|]. intros e. apply hoare_exists. intros w'.
    destruct (reported e); [|by intros s Hs; exists w']. intros s (x & y & z & Hs). exists w', x, y, z. revert s Hs.
    apply (preserves_bind _ (print _)); auto with demo.
  - intros o. apply hoare_exists. intros w'. intros s Hs.
    destruct (stop_all_at Hstarts Hdies w' s Hs) as (_ & Hsocks & Hloops & Hprocs). apply empty_idle; [done..|]. by rewrite Hprocs.
Qed.

(** ** The demo passes only on the answers it asks for *)

(** The worker a response names. *)
Definition selected (rp : Response) : option pystr := dict_get (str "x-router-worker-id") (lower_headers (rs_headers rp)).

(** The [n]-th call was this request, with this response. *)
Definition exchanged (E : Outside) (n : nat) (port : Z) (path : pystr) (rp : Response) : Prop :=
  exists c, o_reply E n c = Ok rp /\ hc_port c = port /\ hc_path c = path /\ hc_method c = str "POST".

Definition from_tick (E : Outside) (k : nat) (s : Demo) : Prop := d_env s = E /\ (k <= d_tick s)%nat.

Lemma from_tick_frame E k s s' : d_fs s' = d_fs s -> d_env s' = d_env s -> (d_tick s <= d_tick s')%nat -> from_tick E k s -> from_tick E k s'.
Proof. intros _ He Ht [Hs Hk]. split; [congruence|lia]. Qed.

Lemma from_tick_run {A} E (m : M Demo A) s s' o : d_env s = E -> (forall k, preserves (from_tick E k) m) -> m s = (s', o) ->
  d_env s' = E /\ (d_tick s <= d_tick s')%nat.
Proof. intros He Hm Hr. specialize (Hm (d_tick s) s (conj He (le_n _))). by rewrite Hr in Hm. Qed.

Lemma request_ok E port path payload headers s s' status hs body :
  d_env s = E -> _request port (str "POST") path payload headers s = (s', Ok (status, hs, body)) ->
  exists n rp, exchanged E n port path rp /\ status = rs_status rp /\ hs = lower_headers (rs_headers rp) /\ body = rs_body rp /\
    (d_tick s <= n < d_tick s')%nat /\ d_env s' = E.
Proof.
  intros He Hr. unfold _request in Hr. apply bind_ok in Hr as (bd & s1 & Hb & Hr). injection Hb as <- _.
  apply bind_ok in Hr as (id & s2 & Hn & Hr). apply (from_tick_run E) in Hn as [He2 Ht2]; [|done|intros k; apply frame_new_socket, from_tick_frame].
  apply try_finally_ok in Hr as (s3 & Hm & u & Hc). injection Hc as <- _. unfold bind, tick, gets, lift in Hm. cbn in Hm. rewrite He2 in Hm.
  destruct (o_reply E (d_tick s2) _) as [rp|e] eqn:Er; [|done]. injection Hm as <- <- <- <-. exists (d_tick s2), rp.
  split_and!; [by eexists|done..|lia|cbn; lia|done].
Qed.

Lemma print_route_ok label headers s s' w : _print_route label headers s = (s', Ok w) ->
  w = default [] (dict_get (str "x-router-worker-id") headers) /\ d_tick s' = d_tick s /\ d_env s' = d_env s.
Proof.
  unfold _print_route. intros (u & s1 & Hw & Hr)%bind_ok. apply when_raise_ok in Hw as [_ ->]. by injection Hr as <- <-.
Qed.

Lemma when_failed_ok b what s s' u : when b (failed what) s = (s', Ok u) -> b = false /\ s' = s.
Proof. apply when_raise_ok. Qed.

Lemma selected_worker rp (w : pystr) : w <> [] -> default [] (dict_get (str "x-router-worker-id") (lower_headers (rs_headers rp))) = w -> selected rp = Some w.
Proof. unfold selected. destruct (dict_get _ _); cbn; intros Hw Hd; congruence. Qed.

(** What the checks of a routed completion establish. *)
Lemma route_checked label rp s s1 w expected what s2 u :
  expected <> [] -> _print_route label (lower_headers (rs_headers rp)) s = (s1, Ok w) ->
  when (negb (bool_decide (w = expected))) (failed what) s1 = (s2, Ok u) ->
  selected rp = Some expected /\ d_tick s2 = d_tick s /\ d_env s2 = d_env s.
Proof.
  intros Hx (-> & Ht & He)%print_route_ok [Hw ->]%when_failed_ok. apply negb_false_iff, bool_decide_eq_true in Hw.
  split; [by apply selected_worker|done].
Qed.

Lemma worker_a_named : str "worker-a" <> [].
Proof. done. Qed.

Lemma worker_b_named : str "worker-b" <> [].
Proof. done. Qed.

(** The answers of the two phases. *)
Definition answered (E : Outside) (n : nat) (path worker : pystr) (rp : Response) : Prop :=
  exchanged E n ROUTER_PORT path rp /\ rs_status rp = 200 /\ selected rp = Some worker.

Lemma round_robin_ok E s s' u : d_env s = E -> round_robin s = (s', Ok u) ->
  exists n1 n2 rp1 rp2, (d_tick s <= n1 < n2)%nat /\ (n2 < d_tick s')%nat /\ d_env s' = E /\
    answered E n1 (str "/v1/completions") (str "worker-a") rp1 /\
    answered E n2 (str "/v1/chat/completions") (str "worker-b") rp2 /\ part_of (bstr "data: [DONE]") (rs_body rp2) = true.
Proof.
  intros He Hr. unfold round_robin in Hr. apply bind_ok in Hr as ([[st hs] bd] & s1 & Hq & Hr).
  destruct (request_ok E _ _ _ _ _ _ _ _ _ He Hq) as (n1 & rp1 & Hx1 & -> & -> & -> & Hn1 & He1).
  apply bind_ok in Hr as (v1 & s2 & Hst1 & Hr). apply when_failed_ok in Hst1 as [Hst1 ->].
  apply bind_ok in Hr as (w1 & s3 & Hp1 & Hr). apply bind_ok in Hr as (v2 & s4 & Hw1 & Hr).
  destruct (route_checked _ _ _ _ _ _ _ _ _ worker_a_named Hp1 Hw1) as (Hsel1 & Ht4 & He4). rewrite He1 in He4.
  apply bind_ok in Hr as ([[st hs] bd] & s5 & Hq2 & Hr). destruct (request_ok E _ _ _ _ _ _ _ _ _ He4 Hq2) as (n2 & rp2 & Hx2 & -> & -> & -> & Hn2 & He5).
  apply bind_ok in Hr as (v3 & s6 & Hst2 & Hr). apply when_failed_ok in Hst2 as [Hst2 ->]. apply orb_false_iff in Hst2 as [Hst2 Hbody].
  apply bind_ok in Hr as (w2 & s7 & Hp2 & Hr). destruct (route_checked _ _ _ _ _ _ _ _ _ worker_b_named Hp2 Hr) as (Hsel2 & Ht7 & He7).
  apply negb_false_iff in Hst1, Hst2, Hbody. apply Z.eqb_eq in Hst1, Hst2. exists n1, n2, rp1, rp2.
  split_and!; [lia|lia|lia|rewrite He7; exact He5|exact (conj Hx1 (conj Hst1 Hsel1))|exact (conj Hx2 (conj Hst2 Hsel2))|exact Hbody].
Qed.

Lemma lift_state {S A} (o : res A) (s s' : S) a : lift o s = (s', Ok a) -> s' = s.
Proof. by intros [= <- _]. Qed.

#[local] Opaque _first_block shared_text.

Lemma cache_aware_ok E s s' u : d_env s = E -> cache_aware s = (s', Ok u) ->
  exists n3 n4 rp3 rp4, (d_tick s <= n3 < n4)%nat /\ exchanged E n3 ADMIN_PORT (str "/admin/events") rp3 /\ rs_status rp3 = 200 /\
    answered E n4 (str "/v1/completions") (str "worker-b") rp4.
Proof.
  intros He Hr. unfold cache_aware in Hr. apply bind_ok in Hr as (block & s0 & Hb & Hr). apply lift_state in Hb as ->.
  apply bind_ok in Hr as ([[st hs] bd] & s1 & Hq & Hr). destruct (request_ok E _ _ _ _ _ _ _ _ _ He Hq) as (n3 & rp3 & Hx3 & -> & -> & -> & Hn3 & He1).
  apply bind_ok in Hr as (v1 & s2 & Hst3 & Hr). apply when_failed_ok in Hst3 as [Hst3 ->].
  apply bind_ok in Hr as ([[st hs] bd] & s3 & Hq2 & Hr). destruct (request_ok E _ _ _ _ _ _ _ _ _ He1 Hq2) as (n4 & rp4 & Hx4 & -> & -> & -> & Hn4 & He3).
  apply bind_ok in Hr as (v2 & s4 & Hst4 & Hr). apply when_failed_ok in Hst4 as [Hst4 ->].
  apply bind_ok in Hr as (w & s5 & Hp & Hr). destruct (route_checked _ _ _ _ _ _ _ _ _ worker_b_named Hp Hr) as (Hsel & _ & _).
  apply negb_false_iff in Hst3, Hst4. apply Z.eqb_eq in Hst3, Hst4. exists n3, n4, rp3, rp4.
  split_and!; [lia|lia|exact Hx3|exact Hst3|exact (conj Hx4 (conj Hst4 Hsel))].
Qed.

Lemma env_on_fs {A} E k (m : M Fs A) : preserves (from_tick E k) (on_fs m).
Proof. intros s [He Hk]. unfold on_fs, zoom. by destruct (m (d_fs s)). Qed.

Lemma env_launch E k rounds binary config strategy : preserves (from_tick E k) (launch rounds binary config strategy).
Proof.
  unfold launch. apply preserves_bind; [apply preserves_lift|intros text]. apply preserves_bind; [apply env_on_fs|intros _].
  apply preserves_bind; [apply frame_start_router, from_tick_frame|intros pid]. by apply frame_modify; [apply from_tick_frame|..].
Qed.

(** The whole scenario. *)
Definition scenario_answers (E : Outside) : Prop :=
  exists n1 n2 n3 n4 rp1 rp2 rp3 rp4, (n1 < n2 < n3)%nat /\ (n3 < n4)%nat /\
    answered E n1 (str "/v1/completions") (str "worker-a") rp1 /\
    answered E n2 (str "/v1/chat/completions") (str "worker-b") rp2 /\ part_of (bstr "data: [DONE]") (rs_body rp2) = true /\
    exchanged E n3 ADMIN_PORT (str "/admin/events") rp3 /\ rs_status rp3 = 200 /\
    answered E n4 (str "/v1/completions") (str "worker-b") rp4.

Lemma scenario_ok E rounds td s s' u : d_env s = E -> scenario rounds td s = (s', Ok u) -> scenario_answers E.
Proof.
  intros He Hr. unfold scenario in Hr. apply bind_ok in Hr as (v1 & s1 & Hb & Hr).
  apply (from_tick_run E) in Hb as [He1 _]; [|done|].
  2: { intros k. unfold _build_router. apply preserves_bind; [apply frame_tick, from_tick_frame|]. intros n. apply preserves_gets_bind. intros t. apply env_on_fs. }
  apply bind_ok in Hr as (v2 & s2 & Hb & Hr). apply (from_tick_run E) in Hb as [He2 _]; [|done|intros k; apply frame_os_call, from_tick_frame].
  apply bind_ok in Hr as (v3 & s3 & Hb & Hr). apply (from_tick_run E) in Hb as [He3 _]; [|done|intros k; apply env_launch].
  apply bind_ok in Hr as (v4 & s4 & Hb & Hr). apply (round_robin_ok E) in Hb as (n1 & n2 & rp1 & rp2 & Hn1 & Hn2 & He4 & Ha1 & Ha2 & Hdone); [|done].
  apply bind_ok in Hr as (v5 & s5 & Hb & Hr). apply (from_tick_run E) in Hb as [He5 Ht5]; [|done|intros k; apply frame_stop_and_forget, from_tick_frame].
  apply bind_ok in Hr as (v6 & s6 & Hb & Hr). apply (from_tick_run E) in Hb as [He6 Ht6]; [|done|intros k; apply env_launch].
  apply (cache_aware_ok E) in Hr as (n3 & n4 & rp3 & rp4 & Hn3 & Hx3 & Hst3 & Ha4); [|done].
  exists n1, n2, n3, n4, rp1, rp2, rp3, rp4.
  split_and!; [lia|lia|lia|exact Ha1|exact Ha2|exact Hdone|exact Hx3|exact Hst3|exact Ha4].
Qed.

Lemma main_ok rounds s s' : main rounds s = (s', Ok 0) -> scenario_answers (d_env s).
Proof.
  intros Hr. remember (d_env s) as E eqn:He. symmetry in He. unfold main in Hr. apply bind_ok in Hr as (v1 & s1 & Hb & Hr).
  apply (from_tick_run E) in Hb as [He1 _]; [|done|intros k; apply frame_assert_ports, from_tick_frame].
  apply bind_ok in Hr as (v2 & s2 & Hb & Hr). injection Hb as <- _. apply bind_ok in Hr as (v3 & s3 & Hb & Hr). injection Hb as <- _.
  apply try_finally_ok in Hr as (s4 & Hm & _). unfold try_catch in Hm. destruct (attempt rounds _) as [s5 [z|e]] eqn:Ea.
  2: { destruct (reported e); [|done]. injection Hm as _ Hz. discriminate Hz. }
  injection Hm as <- ->. unfold attempt in Ea. apply bind_ok in Ea as (w & s6 & Hw & Ea).
  apply (from_tick_run E) in Hw as [He6 _]; [|done|intros k; apply frame_start_workers, from_tick_frame].
  apply bind_ok in Ea as (v4 & s7 & Hb & Ea). injection Hb as <- _. apply bind_ok in Ea as (v5 & s8 & Ht & _).
  unfold temporary_directory in Ht. apply bind_ok in Ht as (tmp & s9 & Hb & Ht). injection Hb as <- _.
  apply bind_ok in Ht as (td & s10 & Hb & Ht). apply (from_tick_run E) in Hb as [He10 _]; [|done|intros k; apply env_on_fs].
  apply try_finally_ok in Ht as (s11 & Ht & _). exact (scenario_ok E _ _ _ _ _ He10 Ht).
Qed.

(** ** The deadline *)

Lemma bind_ext {S A B} (m : M S A) (f g : A -> M S B) s : (forall a s1, m s = (s1, Ok a) -> f a s1 = g a s1) -> bind m f s = bind m g s.
Proof. intros Hfg. unfold bind. destruct (m s) as [s1 [a|e]]; [by apply Hfg|done]. Qed.

(** When the clock has passed the deadline after [k] more calls, more than [k] rounds are
    enough: the number of rounds does not matter. *)
Lemma wait_ready_rounds deadline pid k : forall r1 r2 s, (k < r1)%nat -> (k < r2)%nat ->
  (forall m, (d_tick s + k <= m)%nat -> f64_ltb (o_clock (d_env s) m) deadline = false) ->
  wait_ready r1 deadline pid s = wait_ready r2 deadline pid s.
Proof.
  induction k as [|k IH]; intros [|r1] [|r2] s Hr1 Hr2 Hpast; try lia; cbn [wait_ready]; apply bind_ext; intros now s1 Hnow.
  { unfold ask, bind, gets in Hnow. cbn in Hnow. injection Hnow as <- <-. by rewrite Hpast by lia. }
  destruct (negb _); [done|]. assert (d_env s1 = d_env s /\ d_tick s1 = S (d_tick s)) as [He1 Ht1].
  { unfold ask, bind, gets in Hnow. cbn in Hnow. by injection Hnow as <- <-. }
  apply bind_ext. intros over s2 H2. apply (from_tick_run (d_env s)) in H2 as [He2 Ht2];
    [|done|intros j; unfold poll, ended; apply preserves_bind; [apply preserves_gets|]; intros []; [|apply preserves_ret]; apply preserves_bind;
      [apply frame_ask, from_tick_frame|]; intros b; apply preserves_bind; [apply preserves_when; by apply frame_modify; [apply from_tick_frame|..]|intros _; apply preserves_ret]].
  apply bind_ext. intros u s3 H3. apply (from_tick_run (d_env s)) in H3 as [He3 Ht3];
    [|done|intros j; apply preserves_when, preserves_bind; [apply frame_ask, from_tick_frame|intros log; apply preserves_raise]].
  apply bind_ext. intros ready s4 H4. apply (from_tick_run (d_env s)) in H4 as [He4 Ht4]; [|done|].
  2: { intros j. apply preserves_try_catch; [|intros e; destruct (is_a e OSError); [apply preserves_ret|apply preserves_raise]].
       apply preserves_bind; [apply frame_request, from_tick_frame|]. intros [[a b] c]. apply preserves_ret. }
  destruct ready; [done|]. apply IH; [lia|lia|]. intros m Hm. rewrite He4. apply Hpast. lia.
Qed.

(** ** Properties *)

(** C30: What the router demo leaves behind. If threads can be started and killed
    processes die within their time, the demo ends with every socket closed, no server
    loop and no child process, whatever else the calls of the system, the compiler and
    the router answer, and whether it returns or raises. If the build writes to the
    temporary directory only, the files outside that directory are as they were. And
    the demo returns zero only if the router sent the first completion to worker-a,
    streamed the second to the end from worker-b, accepted the cache event and then
    sent the third to worker-b, in this order. *)
Theorem demo_leaves_nothing rounds s s' r :
  main rounds s = (s', r) ->
  ((forall n, o_starts (d_env s) n = true) -> (forall n, o_dies (d_env s) n = true) -> idle s -> idle s') /\
  (confined (d_env s) -> forall p, ~ o_tmp (d_env s) `prefix_of` p -> fs_files (d_fs s') !! p = fs_files (d_fs s) !! p) /\
  (r = Ok 0 -> scenario_answers (d_env s)).
Proof.
  intros Hr. split_and!.
  - intros Hstarts Hdies (Hs & Hl & Hp).
    assert (At (d_env s) (mkVars (d_reserved s) (d_started s) (d_workers s) (d_router s)) ∅ ∅ ∅ s) as Hat
      by (split; [by rewrite Hs|done|by rewrite Hp|done|done|set_solver]).
    pose proof (main_idle _ rounds _ _ _ _ Hstarts Hdies s Hat) as Hidle. by rewrite Hr in Hidle.
  - intros Hbuild.
    pose proof (filed_main (d_env s) Hbuild (fs_files (d_fs s)) rounds s (conj (fun p _ => eq_refl) eq_refl)) as [Hf _]. by rewrite Hr in Hf.
  - intros ->. by eapply main_ok.
Qed.

(** A router that serves the scenario, on a system whose calls succeed. *)
Definition route_headers (worker : pystr) : list (pystr * pystr) :=
  [(str "X-Router-Worker-ID", worker); (str "X-Router-Strategy", str "s"); (str "X-Router-Request-Hash", str "h")].

Definition serve_scenario (c : HttpCall) : Response :=
  match header_get (str "X-Request-ID") (hc_headers c) with
  | Some id => {| rs_status := 200; rs_headers := route_headers (if bool_decide (id = str "demo-round-one") then str "worker-a" else str "worker-b");
                  rs_body := done_event |}
  | None => {| rs_status := 200; rs_headers := []; rs_body := [] |}
  end.

Definition good_system : Outside :=
  mkOutside [str "tmp"] (fun _ => None) (fun _ => true) (fun n => f64_of_Z (Z.of_nat n)) (fun _ => false) (fun _ => true)
    (fun _ c => Ok (serve_scenario c)) (fun _ binary _ => write_file binary (bstr "ELF")) (fun _ => []).

Definition demo_state (E : Outside) : Demo :=
  mkDemo (mkFs {[ [str "repo"; str "README.md"] := bstr "x" ]} {[ [str "tmp"]; [str "repo"] ]} (fun _ => None) (fun _ _ => str "abc12345") 0 4096)
    ∅ ∅ ∅ [] 0 [] [] [] None E.

Lemma good_confined : confined good_system.
Proof. intros n binary cache f0 Hb _. by apply untouched_write_file. Qed.

Lemma demo_leaves_nothing_witness :
  idle (demo_state good_system) /\ exists s', main 10 (demo_state good_system) = (s', Ok 0) /\ idle s' /\
    fs_files (d_fs s') !! [str "repo"; str "README.md"] = Some (bstr "x") /\ scenario_answers good_system.
Proof.
  assert (idle (demo_state good_system)) as Hi by (split; [|split]; reflexivity). split; [exact Hi|].
  assert ((main 10 (demo_state good_system)).2 = Ok 0) as Hr by (vm_compute; reflexivity).
  destruct (main 10 (demo_state good_system)) as [s' r] eqn:E. cbn in Hr. subst r. exists s'. split; [reflexivity|].
  destruct (demo_leaves_nothing 10 (demo_state good_system) s' (Ok 0) E) as (Hidle & Hfiles & Ha).
  split; [exact (Hidle (fun _ => eq_refl) (fun _ => eq_refl) Hi)|]. split; [|exact (Ha eq_refl)].
  apply (Hfiles good_confined). intros [l Hl]. discriminate Hl.
Defined.

(** What the good run prints. *)
Example good_output :
  d_out (main 10 (demo_state good_system)).1 =
  [str "round-robin completion: selected_worker=worker-a strategy=s request_hash=h";
   str "round-robin streaming chat: selected_worker=worker-b strategy=s request_hash=h";
   str "cache-aware completion: selected_worker=worker-b strategy=s request_hash=h";
   str "local Router demo: PASS (all services stopped; no tracked files written)"].
Proof. vm_compute. reflexivity. Qed.

(** A server whose thread cannot be started is not among the workers that are stopped. *)
Example unstarted_worker_stays_open :
  let E := mkOutside [str "tmp"] (fun _ => None) (fun _ => false) (fun _ => f64_of_Z 0) (fun _ => false) (fun _ => true)
             (fun _ c => Ok (serve_scenario c)) (fun _ binary _ => write_file binary []) (fun _ => []) in
  (main 10 (demo_state E)).2 = Ok 1 /\ bool_decide (d_socks (main 10 (demo_state E)).1 = ∅) = false.
Proof. vm_compute. auto. Qed.

(** A router that outlives its kill leaves the workers serving. *)
Example undead_router_leaves_workers :
  let E := mkOutside [str "tmp"] (fun _ => None) (fun _ => true) (fun n => f64_of_Z (Z.of_nat n)) (fun _ => false) (fun _ => false)
             (fun _ c => Ok (serve_scenario c)) (fun _ binary _ => write_file binary []) (fun _ => []) in
  (main 10 (demo_state E)).2 = Raise timeout_expired /\ bool_decide (d_loops (main 10 (demo_state E)).1 = ∅) = false.
Proof. vm_compute. auto. Qed.

(** The fake workers answer every completion: a streamed one ends with the marker, the
    others have the length and the JSON of their payload. *)
Theorem worker_answers `{UnicodeData} std worker_id port path headers input d :
  (worker_id, port) ∈ WORKERS -> path ∈ [str "/v1/completions"; str "/v1/chat/completions"] ->
  int_of_text (default (str "0") (header_get (str "Content-Length") headers)) = Ok (zlen input) ->
  json_loads_any (match input with [] => bstr "{}" | _ => input end) = Ok (PDict d) ->
  exists rp, do_POST std worker_id path headers input = Ok (Answered rp) /\ rs_status rp = 200 /\
    if truthy (default PNone (dict_get (str "stream") d)) then part_of (bstr "data: [DONE]") (rs_body rp) = true
    else rs_headers rp = std ++ [(str "Content-Type", str "application/json"); (str "Content-Length", int_repr (zlen (rs_body rp)))] /\
      json_loads_bytes (rs_body rp) =
        Ok (if bool_decide (path = str "/v1/chat/completions") then chat_payload worker_id else text_payload worker_id).
Proof.
  intros Hw Hp Hl Hj. unfold do_POST. rewrite Hl. cbn [res_bind]. assert (zlen input <? 0 = false) as -> by (apply Z.ltb_ge; lia).
  assert (take (Z.to_nat (zlen input)) input = input) as -> by (rewrite Nat2Z.id; by apply firstn_all).
  rewrite Hj. assert (negb (bool_decide (path = str "/v1/completions") || bool_decide (path = str "/v1/chat/completions")) = false) as ->.
  { rewrite !elem_of_cons, elem_of_nil in Hp. destruct Hp as [->|[->|[]]]; reflexivity. }
  cbn [dict_of res_bind]. destruct (truthy _).
  - unfold WORKERS in Hw. rewrite !elem_of_cons, elem_of_nil in Hw. destruct Hw as [[= -> ->]|[[= -> ->]|[]]]; eexists;
      (split; [vm_compute; reflexivity|]); (split; [reflexivity|]); vm_compute; reflexivity.
  - rewrite !elem_of_cons, elem_of_nil in Hp. unfold WORKERS in Hw. rewrite !elem_of_cons, elem_of_nil in Hw.
    destruct Hp as [->|[->|[]]], Hw as [[= -> ->]|[[= -> ->]|[]]]; eexists;
      (split; [vm_compute; reflexivity|]); (split; [reflexivity|]); (split; [vm_compute; reflexivity|]); vm_compute; reflexivity.
Qed.
